(* ===== verification/_CoqProject ===== *)
-Q . S2P
Prelude.v
Bytes.v
VosTime.v
VosCrc.v
VosString.v
VosMem.v
VosQueue.v
TrdpTypes.v
TrdpMdTypes.v
TrdpUtils.v
VosSock.v
VosSockSpec.v
TrdpSockets.v
TrdpPd.v
TauMarshall.v
TrdpXml.v
TrdpXmlTree.v
TauXml.v
TauXmlRead.v
TauXmlWrite.v
TauXmlCfg.v
TauXmlCfgInv.v
TrdpIf.v
TrdpMd.v
TrdpMdRecv.v
TrdpMdIf.v
TrdpMdDemo.v
TrdpMdFrame.v
TrdpMdLive.v
TrdpMdInv.v
TrdpMdMsg.v
TrdpMdTcp.v
TrdpMdFlaws.v
TrdpStats.v
TauCtrl.v
TauDnrName.v
TauDnr.v
TauTti.v
TauTtiInv.v
TauTtiDir.v
Tadma.v
TadmaRing.v
QbvShaper.v
TsnRegs.v
TsnStream.v
TsnSwitch.v
TsnSwitchHw.v
TsnSwitchCam.v
TsnSwitchVlan.v
TsnSwitchDev.v
TsnPreempt.v
TsnPtp.v
TsnPtpClock.v
AxiRing.v
AxiTx.v
AxiRx.v
AxiMac.v
