(* ===== verification/Prelude.v ===== *)
(** * Verification of the TSN / TRDP project

    The project sends train real-time data (TRDP, IEC 61375-2-3) over a time-sensitive network. Its
    core is the protocol stack under src/app/trdp/tcnopen: a virtual operating system layer (vos_ files),
    the helpers, process data, message data and the interface of the stack (trdp_utils.c, trdp_pdcom.c,
    trdp_mdcom.c, trdp_if.c), its statistics (trdp_stats.c) and the marshalling of datasets
    (tau_marshall.c). An application opens a session, publishes and subscribes telegrams, sends requests
    and answers them, and calls the work loop, which sends what is due, receives what is there and
    reports time-outs. Below it the drivers under src/driver/xilinx send frames at given times
    (xilinx_tsn_tadma.c) and through gates (xilinx_tsn_shaper.c), configured by the programs of
    src/app/misc-utils. This library models these parts and proves them correct, or shows where they
    are not.

    ** The files

    - [Prelude]: machine integers, notations, tactics, generic lemmas, the fields of a word. [Bytes]:
      byte buffers with big and little endian access.
    - [VosTime] (vos_thread.c): arithmetic on time values. [VosCrc] (vos_utils.c): the two CRCs with
      their tables. [VosMem] (vos_mem.c): the memory pool with its block sizes and statistics; the
      state is the record [MEM_CONTROL_T], a pointer an offset into the area. [VosQueue] (vos_mem.c):
      the message queues, rings of the record [VOS_QUEUE]. [VosString]: comparing, copying and reading
      numbers.
    - [TrdpTypes], [TrdpMdTypes] (trdp_types.h, trdp_private.h, iec61375-2-3.h): the data; a queue
      element is the record [PD_ELE_T] (process data) or [MD_ELE_T] (message data), a session
      [TRDP_SESSION_T] with its message data part [TRDP_MD_SESSION_T]. Linked lists are lists of
      elements, each with the number that stands for its address.
    - [TrdpUtils] (trdp_utils.c): queues, sequence counters, packet sizes, multicast groups and the
      pool of sockets. [TrdpSockets]: the use counts of that pool.
    - [VosSock] (vos_sock.c): sockets over the class [Kernel] of system calls. [VosSockSpec]: the laws [KernelLaws]
      of these calls, what the functions do on every such kernel, and a kernel that satisfies the laws.
    - [TrdpPd] (trdp_pdcom.c): process data on one session: put, get, send, receive, time-outs, next
      job, distribution of send times. A frame is the list of its bytes in network order; sent
      frames and callbacks are events in the result.
    - [TauMarshall] (tau_marshall.c): datasets of bytes in host memory to and from the wire.
    - [TrdpIf] (trdp_if.c): the sessions of the process and the functions tlc_* and tlp_*. Each is a
      wrapper (handle, mutex) around a function on the session. The work loop calls message data
      through the class [MdLayer] with the laws [MdLaws]; [no_message_data] is the instance of a
      process without any, [message_data] of [TrdpMdIf] the one made of trdp_mdcom.c and of the part of
      [tlc_closeSession] for message data ([md_close]), whose laws [TrdpMdFrame] proves; where a call runs out of a
      buffer it gives a session that is an argument.
    - [TrdpMd], [TrdpMdRecv] (trdp_mdcom.c): message data on one session: sending, retries and
      time-outs; receiving over UDP and TCP, requests and answers, listening. Callbacks, messages
      sent and elements released are appended to the log of the session.
      [TrdpMdIf] (trdp_if.c): the functions tlm_*. [TrdpMdDemo]: the inputs of the witnesses.
      [TrdpMdFrame], [TrdpMdLive], [TrdpMdInv], [TrdpMdMsg], [TrdpMdTcp], [TrdpMdFlaws]: theorems about it.
    - [TrdpStats] (trdp_stats.c): counters, tables, the statistics packet. [TauCtrl] (tau_ctrl.c): controlling the
      switch of the train over the functions of [TrdpIf].
    - [TauDnrName], [TauDnr] (tau_dnr.c): the packets of the domain name service; the resolver with its cache, the
      record [TAU_DNR_DATA_T].
    - [TauTti] (tau_tti.c): the directories of the train, the record [TAU_TTDB_T] of the bytes the program keeps, in
      the state [tti] with its heap; the telegrams, requests and questions. [TauTtiInv]: the invariant of its cache
      and how requests nest. [TauTtiDir]: what is stored of a telegram and answered from it.
    - [TrdpXml] (trdp_xml.c): the scanner of configuration files and the reader with its levels; a file
      is the list of its characters. [TrdpXmlTree]: trees of elements, the texts that spell them, and
      the reader in such a text. [TauXml] (tau_xml.c): programs over the reader and the allocator, the
      tables of datasets; [TauXmlRead], [TauXmlWrite]: what they read, and what is read back.
      [TauXmlCfg] (tau_xml.c): telegrams, interfaces, the device, and giving memory back;
      [TauXmlCfgInv]: what holds of every configuration read.
    - [TsnRegs] (xilinx_axienet.h): a device with registers, programs that use it, waiting loops, the fields of
      words. [TsnStream] (xilinx_tsn_qci.c, xilinx_tsn_cb.c), [TsnPreempt] (xilinx_tsn_preemption.c) and [TsnSwitch]
      (xilinx_tsn_switch.c): programs over such a device. [TsnSwitchHw]: the class [SwitchLaws] of what the driver
      expects of the switch, and a device that satisfies it. [TsnSwitchCam], [TsnSwitchVlan]: what the driver does
      on every such switch. [TsnSwitchDev]: the commands of the user, the start and the calls of the
      kernel's bridge (xilinx_tsn_switchdev.c). [TsnPtp] (xilinx_tsn_ptp_xmit.c): frames with time stamps, through the
      slots of the device; [TsnPtpClock] (xilinx_tsn_ptp_clock.c): the clock over its registers.
    - [Tadma], [TadmaRing] (xilinx_tsn_tadma.c, tadma_prog.c): the streams of the time-aware DMA, its
      fetch memory and hash tags; the ring of buffers of every stream. [QbvShaper]
      (xilinx_tsn_shaper.c, qbv_sched.c): the gate control lists.
    - [AxiRing]: rings of descriptors and their windows. [AxiTx], [AxiRx] (xilinx_axienet_main.c): the rings of the
      Ethernet driver over the multi-channel DMA, for sending and for receiving; what is done outside is a log.
      [AxiMac] (xilinx_axienet_main.c, xilinx_axienet_mdio.c): the registers of the MAC, as programs over a device, and
      the bus to the PHY; [FilterLaws] and [MdioLaws] are what the driver expects of the hardware.

    ** How the code is mapped

    Functions keep their names; a function of the code that changes state takes the state and
    returns the new one with its result. Out parameters are further results, NULL arguments are
    [None]. Integers are [Z] with the wrap-around of their type written out ([u32], [s16]). What
    the operating system answers (sockets, allocation, locks, the clock, datagrams) is an argument of the stack:
    [sock_env] (which [sock_env_of] makes of the functions of [VosSock]), [pd_env], [rcv_env], [if_env], [round_env], [md_env], [create_env].
    Registers are functions from offsets to words, or, where reading them has effects, a device of the class
    [Device]; its laws are hypotheses, and each theorem that uses them is instantiated with a concrete device. The target is little endian with natural
    alignment, as the project's processor. Logging is left out.

    ** What is shown

    - Sending and receiving: a frame finished by [trdp_pdUpdate] passes [trdp_pdCheck] at the
      receiver and a header damaged in one field is noticed; a telegram received is the one read; a
      duplicate changes nothing; each round sends exactly one frame for each element that is due, has valid data and is
      no redundancy follower, in their order, and the next send time follows; a late
      subscription is reported once.
    - Message data: every operation preserves the type of the sessions ([md_inv]); a request is sent,
      delivered to its listener and answered as the code says; the time-out check ends or repeats the late sessions that wait, and leaves the others;
      closing the finished sessions releases exactly them and their sockets; messages that arrive in
      pieces over TCP are put together; the checksum protects a message; and [message_data_laws] discharges what the
      work loop relies on.
    - Sockets: for any sequence of calls of the interface an entry of the pool is open as long as
      somebody uses it, and closing a session closes its sockets. The step relation [api_step] holds
      the calls; the invariant [stack_ok] is proved for each of them.
    - System: sending and receiving over a connection count what the kernel took and gave, in order, the result is the
      meaning of the last answer, and they end unless signals come without end; opening
      leaves no descriptor open where it fails, and sets the options wanted; the layer keeps the assumption
      [opens_ok] of the pool of sockets.
    - Memory: blocks handed out lie inside the area, are disjoint and large enough; freeing
      preserves the well-formedness of the pool, double freeing is refused. Message queues refine a
      list with two ends.
    - Marshalling: unmarshalling what was marshalled gives back the dataset, nested and of variable
      size included; the size calculation is exact; the tables find what was registered.
    - Checksums: both routines compute the CRC of their polynomial, bit by bit.
    - Sequence counters refine a map from senders to their last counter.
    - Timing: the interval returned to the application reaches no job late; arithmetic is exact in
      the ranges stated.
    - Statistics: the packet holds the statistics of the session; the tables hold a row per element.
    - Names: what a DNS server or TCN-DNS answers is the address returned and is in the cache, which stays sorted
      and within its array; reading a name ends where its pointers lead back. A result [Outside] is where the program
      would leave an array or write over the fields behind a name.
    - The train: a directory or a state that arrives is what the session answers from, and is stored within its place
      where the telegram is as long as it counts; the pointers of the cache lead to blocks of its own, and those
      dropped are given back; delivering telegrams that lead to requests ends.
    - Configuration: a text that spells tokens is read as these, whatever lies between them; the tables
      of datasets are those of the tree of the text, and tables that were written are read back; from
      any text and any allocator a telegram that was read can be given back, each block once.
    - Rings of the Ethernet driver: in every run of the driver and the hardware the packets accepted are those given
      back and those in the ring, in their order; the buffers allocated are those handed on and those in the ring; a call
      delivers the frames the hardware stored, in order and within its budget, also where no buffer is found.
    - Registers of the MAC: an option changes its bits and no others; the filters hold the addresses set; what is
      written to a PHY is read back, or the time-out told; the clock of the bus is the fastest allowed.
    - Drivers: a configuration file becomes the streams it names; no packet of a ring is lost or sent
      twice; the descriptors of a packet describe it; a gate schedule written is the one read back.
    - Switch: the forwarding table refines a finite map, for the calls of the driver and for the events of the
      bridge; settings of VLANs, of untagged frames, of streams and of preemption are read back and leave
      each other alone; each priority gets its queue.
    - Clock: a frame is complete in a free slot when it is sent, the ring of received frames is emptied in order,
      each frame with its own time; time that was set is shown, and adjustments add up.
    - Errors: theorems of kind [error] evaluate inputs on which the code misbehaves; [findings] of
      the manifest lists them.

    ** Fuel

    [terminate_loop] of [TrdpIf] takes the number of rounds; [tlc_terminate_halts] shows that the
    number of sessions is enough. [close_loop] of [TrdpMd] takes the number of elements of the queue,
    [trdp_mdCloseSessions_exact] shows that all are visited. [rd_loop] takes the size of the ring and
    [count_bits] the width of a register. [program_entries] takes one round more than the arrays have
    elements, after which the code has left them. A loop of the XML reader takes as many rounds as there
    are characters left and one more: each round but the last consumes one ([scan_total],
    [SeekStartTagAny_eq], [SeekStartTag_eq], [level_rounds]). The level of nesting of datasets is bounded by
    [TAU_MAX_DS_LEVEL], as in the code. The drivers' waiting loops have the time-out of the code; [frer_wait], which has none, takes the
    number of reads. The receive loop of [TsnPtp] takes 16 rounds, one more than the ring holds
    ([ptp_rx_irq_drains_ring]: it ends with the pointers together). The reader of names in [TauDnrName] takes the
    rounds as an argument, [readName_ends] says how many suffice. [deliver_all] of [TauTti] takes how deep requests are
    nested, at most the number of rounds of the script ([tti_deliveries_end]); more does not change its result
    ([deliver_all_depth]). The loops of [VosSock] take [rounds]; where they are spent ([Endless]), all but as many as bytes were
    moved went to signals or to calls that took nothing ([vos_sockSendTCP_stream], [vos_sockReceiveTCP_stream]: no number is
    enough for a kernel that interrupts for ever). [axienet_mdio_wait_until_ready] of [AxiMac] takes the polls made in
    two ticks of the clock, after which the code gives up. [axienet_start_xmit_done] of [AxiTx] takes the size of the ring, since one
    descriptor is always free ([axienet_tx_conserves]); [xaxienet_rx_poll] one round more than its quota, where the
    hardware reports no frame that is not there ([xaxienet_rx_poll_ends]). Every other recursion is structural.

    ** Not modelled

    Threads and shared memory (vos_thread.c, vos_shared_mem.c), which are system calls; in the configuration the arrays that a size beyond 32 bits would make too small (2^26 elements
    and more), and what lies in buffers never written; the getters of tau_cstinfo.c, which nothing builds; of the
    Ethernet driver starting, clocks, the time stamps of packets and most of what the tools of the kernel ask for (and
    the drivers of other cores), and registering with the kernel; programs kept from
    third parties (linuxptp, Open-AVB); the interrupt of a sending queue in the middle of a transmission on another processor. Mutexes are results of locking: the functions run one at a
    time, and a callback does not call the stack back.

    ** Next

    The functions of xilinx_axienet_main.c that start the device and stamp packets, and shared memory. *)
From Stdlib Require Export ZArith Lia Bool.
From stdpp Require Export base list gmap option.
#[global] Open Scope Z_scope.

(** ** Machine integers: a w-bit integer is a [Z]; every store wraps. *)
Definition u8 (x : Z) : Z := x mod 2 ^ 8.
Definition u16 (x : Z) : Z := x mod 2 ^ 16.
Definition u32 (x : Z) : Z := x mod 2 ^ 32.
Definition u64 (x : Z) : Z := x mod 2 ^ 64.
Definition s16 (x : Z) : Z := (x + 2 ^ 15) mod 2 ^ 16 - 2 ^ 15.
Definition s32 (x : Z) : Z := (x + 2 ^ 31) mod 2 ^ 32 - 2 ^ 31.
Definition s64 (x : Z) : Z := (x + 2 ^ 63) mod 2 ^ 64 - 2 ^ 63.

(** C's [!= 0] on integers, and the value of a comparison. *)
Definition truthy (x : Z) : bool := negb (x =? 0).
Definition b2z (b : bool) : Z := if b then 1 else 0.

(** [BIT(n)] of the kernel. *)
Definition BIT (n : Z) : Z := Z.shiftl 1 n.

(** [~x] on a 32-bit and on an 8-bit operand. *)
Definition not32 (x : Z) : Z := Z.lxor x (2 ^ 32 - 1).
Definition not8 (x : Z) : Z := Z.lxor x (2 ^ 8 - 1).

Declare Scope cint_scope.
Delimit Scope cint_scope with cint.
Infix "&&&" := Z.land (at level 40, left associativity) : cint_scope.
Infix "|||" := Z.lor (at level 50, left associativity) : cint_scope.
Infix "^^^" := Z.lxor (at level 50, left associativity) : cint_scope.
Infix "<<<" := Z.shiftl (at level 45, left associativity) : cint_scope.
Infix ">>>" := Z.shiftr (at level 45, left associativity) : cint_scope.
#[global] Open Scope cint_scope.

Create HintDb cint.
Create Rewrite HintDb cint.

Lemma u8_range x : 0 <= u8 x < 256.
Proof. unfold u8. apply Z.mod_pos_bound. lia. Qed.
Lemma u16_range x : 0 <= u16 x < 65536.
Proof. unfold u16. apply Z.mod_pos_bound. lia. Qed.
Lemma u32_range x : 0 <= u32 x < 4294967296.
Proof. unfold u32. apply Z.mod_pos_bound. lia. Qed.
Lemma u64_range x : 0 <= u64 x < 18446744073709551616.
Proof. unfold u64. apply Z.mod_pos_bound. lia. Qed.

Lemma u8_small x : 0 <= x < 256 -> u8 x = x.
Proof. intros. unfold u8. apply Z.mod_small. lia. Qed.
Lemma u16_small x : 0 <= x < 65536 -> u16 x = x.
Proof. intros. unfold u16. apply Z.mod_small. lia. Qed.
Lemma u32_small x : 0 <= x < 4294967296 -> u32 x = x.
Proof. intros. unfold u32. apply Z.mod_small. lia. Qed.
Lemma u64_small x : 0 <= x < 18446744073709551616 -> u64 x = x.
Proof. intros. unfold u64. apply Z.mod_small. lia. Qed.
Lemma s32_small x : - 2147483648 <= x < 2147483648 -> s32 x = x.
Proof. intros. unfold s32. rewrite Z.mod_small by lia. lia. Qed.
Lemma s64_small x : - 9223372036854775808 <= x < 9223372036854775808 -> s64 x = x.
Proof. intros. unfold s64. rewrite Z.mod_small by lia. lia. Qed.

Lemma u32_idemp x : u32 (u32 x) = u32 x.
Proof. apply u32_small, u32_range. Qed.
Lemma u16_idemp x : u16 (u16 x) = u16 x.
Proof. apply u16_small, u16_range. Qed.
Lemma u8_idemp x : u8 (u8 x) = u8 x.
Proof. apply u8_small, u8_range. Qed.

#[export] Hint Resolve u8_range u16_range u32_range u64_range : cint.
#[export] Hint Rewrite u8_idemp u16_idemp u32_idemp : cint.

(** ** Automation *)

(** Turns the boolean tests of the hypotheses and the goal into propositions. *)
Ltac bprop :=
  repeat match goal with
  | H : andb _ _ = true |- _ => apply andb_prop in H; destruct H
  | H : orb _ _ = false |- _ => apply orb_false_elim in H; destruct H
  | H : negb _ = true |- _ => apply negb_true_iff in H
  | H : negb _ = false |- _ => apply negb_false_iff in H
  | H : (_ =? _) = true |- _ => apply Z.eqb_eq in H
  | H : (_ =? _) = false |- _ => apply Z.eqb_neq in H
  | H : (_ <? _) = true |- _ => apply Z.ltb_lt in H
  | H : (_ <? _) = false |- _ => apply Z.ltb_ge in H
  | H : (_ <=? _) = true |- _ => apply Z.leb_le in H
  | H : (_ <=? _) = false |- _ => apply Z.leb_gt in H
  | H : (_ >? _) = true |- _ => rewrite Z.gtb_ltb in H
  | H : (_ >? _) = false |- _ => rewrite Z.gtb_ltb in H
  | H : (_ >=? _) = true |- _ => rewrite Z.geb_leb in H
  | H : (_ >=? _) = false |- _ => rewrite Z.geb_leb in H
  end.

(** Case analysis on one [if] of the goal (resp. of a hypothesis). *)
Ltac case_if :=
  match goal with
  | |- context [if ?b then _ else _] => let E := fresh "E" in destruct b eqn:E
  end.
Ltac case_if_in H :=
  match type of H with
  | context [if ?b then _ else _] => let E := fresh "E" in destruct b eqn:E
  end.

(** Saturates the context with the ranges of the wrapped terms, then [lia]. *)
Ltac wrap_ranges :=
  repeat match goal with
  | |- context [u8 ?x] => lazymatch goal with _ : 0 <= u8 x < 256 |- _ => fail
      | _ => pose proof (u8_range x) end
  | |- context [u16 ?x] => lazymatch goal with _ : 0 <= u16 x < 65536 |- _ => fail
      | _ => pose proof (u16_range x) end
  | |- context [u32 ?x] => lazymatch goal with _ : 0 <= u32 x < 4294967296 |- _ => fail
      | _ => pose proof (u32_range x) end
  end.

(** Removes every wrap whose argument is provably in range. *)
Ltac wrap_small :=
  repeat match goal with
  | |- context [s64 ?x] => rewrite (s64_small x) by lia
  | |- context [s32 ?x] => rewrite (s32_small x) by lia
  | |- context [u64 ?x] => rewrite (u64_small x) by lia
  | |- context [u32 ?x] => rewrite (u32_small x) by lia
  | |- context [u16 ?x] => rewrite (u16_small x) by lia
  | |- context [u8 ?x] => rewrite (u8_small x) by lia
  end.

(** [lia] on goals with divisions and remainders. *)
Ltac dlia := Z.to_euclidean_division_equations; lia.

(** Closed side conditions of the witnesses. *)
Ltac cdec := repeat split; vm_compute; first [reflexivity | discriminate | congruence | lia].

(** ** Bit-level lemmas *)
Lemma testbit_above x n i : 0 <= x < 2 ^ n -> n <= i -> Z.testbit x i = false.
Proof.
  intros Hx Hi. destruct (Z.eq_dec x 0) as [->|]; [apply Z.bits_0|].
  assert (0 <= n) by (destruct (Z.le_gt_cases 0 n); [lia|rewrite Z.pow_neg_r in Hx; lia]).
  apply Z.bits_above_log2; [lia|]. apply Z.lt_le_trans with n; [|lia].
  apply Z.log2_lt_pow2; lia.
Qed.

Lemma bits_bounded x n :
  0 <= n -> 0 <= x -> (forall i, n <= i -> Z.testbit x i = false) -> 0 <= x < 2 ^ n.
Proof.
  intros Hn Hx Hb. replace x with (x mod 2 ^ n); [apply Z.mod_pos_bound; lia|].
  apply Z.bits_inj'; intros i Hi.
  destruct (Z.lt_ge_cases i n); [rewrite Z.mod_pow2_bits_low by lia; auto|].
  rewrite Z.mod_pow2_bits_high by lia. symmetry. apply Hb. lia.
Qed.

Lemma lxor_bound a b n : 0 <= n -> 0 <= a < 2 ^ n -> 0 <= b < 2 ^ n -> 0 <= Z.lxor a b < 2 ^ n.
Proof.
  intros Hn Ha Hb. apply bits_bounded; [lia|apply Z.lxor_nonneg; lia|].
  intros i Hi. by rewrite Z.lxor_spec, (testbit_above a n), (testbit_above b n).
Qed.

Lemma lor_bound a b n : 0 <= n -> 0 <= a < 2 ^ n -> 0 <= b < 2 ^ n -> 0 <= Z.lor a b < 2 ^ n.
Proof.
  intros Hn Ha Hb. apply bits_bounded; [lia|apply Z.lor_nonneg; lia|].
  intros i Hi. by rewrite Z.lor_spec, (testbit_above a n), (testbit_above b n).
Qed.

Lemma land_bound a b n : 0 <= n -> 0 <= a -> 0 <= b < 2 ^ n -> 0 <= Z.land a b < 2 ^ n.
Proof.
  intros Hn Ha Hb. apply bits_bounded; [lia|apply Z.land_nonneg; lia|].
  intros i Hi. by rewrite Z.land_spec, (testbit_above b n), andb_false_r.
Qed.

Lemma land_ones_mod x n : 0 <= n -> Z.land x (2 ^ n - 1) = x mod 2 ^ n.
Proof. intros. rewrite <- Z.land_ones by lia. rewrite Z.ones_equiv. f_equal; lia. Qed.

Lemma lxor_cancel_r a b c : Z.lxor a c = Z.lxor b c -> a = b.
Proof.
  intros E. rewrite <- (Z.lxor_0_r a), <- (Z.lxor_0_r b), <- (Z.lxor_nilpotent c).
  by rewrite <- !Z.lxor_assoc, E.
Qed.

(** ** Fields of a register: the bits of [mask], moved down by [shift] *)
Definition field (x mask shift : Z) : Z := (x &&& mask) >>> shift.

Lemma field_lor x y m s : field (x ||| y) m s = field x m s ||| field y m s.
Proof. unfold field. by rewrite Z.land_lor_distr_l, Z.shiftr_lor. Qed.

(** A value below [2 ^ w] moved to its place is read back under the mask of its place, and leaves
    every other field alone. *)
Lemma field_place v w sh : 0 <= v < 2 ^ w -> 0 <= w -> 0 <= sh ->
  field (v <<< sh) (Z.ones w <<< sh) sh = v.
Proof.
  intros Hv Hw Hs. unfold field. rewrite <- Z.shiftl_land, Z.shiftr_shiftl_l, Z.sub_diag, Z.shiftl_0_r by lia.
  rewrite Z.land_ones by lia. by apply Z.mod_small.
Qed.

Lemma field_elsewhere v w sh m s : 0 <= v < 2 ^ w -> 0 <= w -> 0 <= sh ->
  (Z.ones w <<< sh) &&& m = 0 -> field (v <<< sh) m s = 0.
Proof.
  intros Hv Hw Hs Hm. unfold field.
  assert (v <<< sh = (v <<< sh) &&& (Z.ones w <<< sh)) as ->.
  { rewrite <- Z.shiftl_land, Z.land_ones by lia. by rewrite Z.mod_small. }
  by rewrite <- Z.land_assoc, Hm, Z.land_0_r, Z.shiftr_0_l.
Qed.

Lemma place_mask v w sh : 0 <= v < 2 ^ w -> 0 <= w -> 0 <= sh -> (v <<< sh) &&& (Z.ones w <<< sh) = v <<< sh.
Proof. intros Hv Hw Hs. rewrite <- Z.shiftl_land, Z.land_ones by lia. by rewrite Z.mod_small. Qed.

Lemma field_land x k m s : field (x &&& k) m s = field x (k &&& m) s.
Proof. unfold field. by rewrite Z.land_assoc. Qed.

Lemma field_read x w s : 0 <= s -> (x >>> s) &&& Z.ones w = field x (Z.ones w <<< s) s.
Proof. intros. unfold field. rewrite Z.shiftr_land, Z.shiftr_shiftl_l, Z.sub_diag, Z.shiftl_0_r by lia. done. Qed.

Lemma field_u32 x w s : 0 <= w -> 0 <= s -> w + s <= 32 -> field (u32 x) (Z.ones w <<< s) s = field x (Z.ones w <<< s) s.
Proof.
  intros Hw Hs H. unfold u32. rewrite <- Z.land_ones, field_land by lia. f_equal. apply Z.bits_inj'. intros i Hi.
  rewrite Z.land_spec, Z.shiftl_spec by lia. destruct (Z.testbit (Z.ones w) (i - s)) eqn:E; [|by rewrite andb_false_r].
  rewrite andb_true_r. destruct (Z.ltb_spec i 32); [by apply Z.ones_spec_low; lia|].
  rewrite Z.testbit_ones_nonneg in E by lia. apply Z.ltb_lt in E. lia.
Qed.

(** A low part and a high part put together. *)
Lemma lor_join lo hi n : 0 <= n -> 0 <= lo < 2 ^ n -> lo ||| (hi <<< n) = lo + hi * 2 ^ n.
Proof.
  intros Hn Hlo. rewrite Z.shiftl_mul_pow2 by lia. symmetry. rewrite Z.lor_comm, Z.add_comm. rewrite <- Z.lxor_lor.
  - apply Z.add_nocarry_lxor. apply Z.bits_inj'. intros i Hi. rewrite Z.land_spec, Z.bits_0.
    destruct (Z.ltb_spec i n); [by rewrite Z.mul_pow2_bits_low by lia|]. by rewrite (testbit_above lo n), andb_false_r.
  - apply Z.bits_inj'. intros i Hi. rewrite Z.land_spec, Z.bits_0.
    destruct (Z.ltb_spec i n); [by rewrite Z.mul_pow2_bits_low by lia|]. by rewrite (testbit_above lo n), andb_false_r.
Qed.

(** Universal statements over bytes, decided by evaluation. *)
Definition all_below (n : nat) (p : Z -> bool) : bool := forallb (fun i => p (Z.of_nat i)) (seq 0 n).

Lemma all_below_spec n p x : all_below n p = true -> 0 <= x < Z.of_nat n -> p x = true.
Proof.
  unfold all_below. rewrite forallb_forall. intros H Hx.
  rewrite <- (Z2Nat.id x) by lia. apply H, in_seq. lia.
Qed.
