(* ===== verification/Bytes.v ===== *)
(** * Byte buffers

    A buffer is a list of bytes. [get]/[put] of 8, 16, 32 and 64 bits in network (big endian)
    order are what the packed header structs and the marshalling code do through
    [vos_htons]/[vos_htonl]/[vos_ntohl] on a little endian host; [get32le]/[put32le] are the plain
    accesses. An offset is a [nat]; a write outside of the buffer changes nothing (the code's
    undefined behaviour, which the theorems exclude by their bounds). *)
From S2P Require Import Prelude.

Definition byte (x : Z) : Prop := 0 <= x < 256.
Abbreviation bytes := (Forall byte).

(** The [n] bytes of [v], most significant first. *)
Fixpoint be_bytes (n : nat) (v : Z) : list Z :=
  match n with
  | O => []
  | S n' => u8 (v >>> (8 * Z.of_nat n')) :: be_bytes n' v
  end.

Definition be_value (l : list Z) : Z := fold_left (fun acc b => acc * 256 + b) l 0.

Definition bget (off n : nat) (l : list Z) : list Z := take n (drop off l).

Definition bput (off : nat) (bs : list Z) (l : list Z) : list Z :=
  if (off + length bs <=? length l)%nat then take off l ++ bs ++ drop (off + length bs) l else l.

Definition get16 (off : nat) (l : list Z) : Z := be_value (bget off 2 l).
Definition get32 (off : nat) (l : list Z) : Z := be_value (bget off 4 l).
Definition put16 (off : nat) (v : Z) : list Z -> list Z := bput off (be_bytes 2 v).
Definition put32 (off : nat) (v : Z) : list Z -> list Z := bput off (be_bytes 4 v).
Definition get32le (off : nat) (l : list Z) : Z := be_value (rev (bget off 4 l)).
Definition put32le (off : nat) (v : Z) : list Z -> list Z := bput off (rev (be_bytes 4 v)).

Lemma be_bytes_length n v : length (be_bytes n v) = n.
Proof. induction n; cbn; auto. Qed.

Lemma be_bytes_bytes n v : bytes (be_bytes n v).
Proof. induction n; cbn [be_bytes]; constructor; auto. apply u8_range. Qed.

Lemma be_value_snoc l b : be_value (l ++ [b]) = be_value l * 256 + b.
Proof. unfold be_value. by rewrite fold_left_app. Qed.

Lemma be_value_acc l : forall acc,
  fold_left (fun acc b => acc * 256 + b) l acc = acc * 256 ^ Z.of_nat (length l) + be_value l.
Proof.
  unfold be_value. induction l as [|b l IH]; intros acc.
  - cbn. lia.
  - cbn [fold_left length]. rewrite IH, (IH (0 * 256 + b)).
    rewrite Nat2Z.inj_succ, Z.pow_succ_r by lia. ring.
Qed.

Lemma be_value_cons b l : be_value (b :: l) = b * 256 ^ Z.of_nat (length l) + be_value l.
Proof. unfold be_value at 1. cbn [fold_left]. rewrite be_value_acc. lia. Qed.

Lemma be_value_range l : bytes l -> 0 <= be_value l < 256 ^ Z.of_nat (length l).
Proof.
  induction 1 as [|b l Hb _ IH]; [cbn; lia|].
  rewrite be_value_cons. cbn [length]. rewrite Nat2Z.inj_succ, Z.pow_succ_r by lia.
  unfold byte in Hb. nia.
Qed.

Lemma be_value_bytes n v : be_value (be_bytes n v) = v mod 256 ^ Z.of_nat n.
Proof.
  induction n as [|n IH]; [cbn; by rewrite Z.mod_1_r|].
  cbn [be_bytes]. rewrite be_value_cons, be_bytes_length, IH.
  rewrite Nat2Z.inj_succ, Z.pow_succ_r by lia. unfold u8.
  rewrite Z.shiftr_div_pow2 by lia. rewrite Z.pow_mul_r by lia.
  change (2 ^ 8) with 256. rewrite (Z.mul_comm 256), Z.rem_mul_r by lia. lia.
Qed.

Lemma be_bytes_value l : bytes l -> be_bytes (length l) (be_value l) = l.
Proof.
  induction 1 as [|b l Hb Hl IH]; [done|]. cbn [length be_bytes]. unfold byte in Hb.
  pose proof (be_value_range l Hl) as Hr. rewrite be_value_cons.
  assert (E : forall n v w, (v - w) mod 256 ^ Z.of_nat n = 0 -> be_bytes n v = be_bytes n w).
  { clear. intros n. induction n as [|n IH]; intros v w H; [done|]. cbn [be_bytes].
    rewrite Nat2Z.inj_succ, Z.pow_succ_r in H by lia.
    apply Z.mod_divide in H; [|nia]. destruct H as [k H].
    f_equal.
    - unfold u8. rewrite !Z.shiftr_div_pow2, Z.pow_mul_r by lia.
      change (2 ^ 8) with 256. replace v with (w + (k * 256) * 256 ^ Z.of_nat n) by lia.
      rewrite Z.div_add by nia. by rewrite Z.mod_add.
    - apply IH. rewrite H. rewrite Z.mul_assoc. apply Z.mod_mul. nia. }
  f_equal.
  - unfold u8. rewrite Z.shiftr_div_pow2, Z.pow_mul_r by lia. change (2 ^ 8) with 256.
    rewrite Z.div_add_l, Z.div_small by lia. rewrite Z.add_0_r. apply Z.mod_small. lia.
  - etransitivity; [apply E with (w := be_value l)|exact IH].
    replace (_ - _) with (b * 256 ^ Z.of_nat (length l)) by lia. apply Z.mod_mul. lia.
Qed.

(** ** Reading after writing *)
Lemma bput_length off bs l : length (bput off bs l) = length l.
Proof.
  unfold bput. destruct (_ <=? _)%nat eqn:E; [|done]. apply Nat.leb_le in E.
  rewrite !length_app, length_take, length_drop. lia.
Qed.

Lemma bput_bytes off bs l : bytes bs -> bytes l -> bytes (bput off bs l).
Proof.
  intros Hb Hl. unfold bput. destruct (_ <=? _)%nat; [|done].
  apply Forall_app; split; [by apply Forall_take|].
  apply Forall_app; split; [done|by apply Forall_drop].
Qed.

Lemma bget_bytes off n l : bytes l -> bytes (bget off n l).
Proof. intros H. by apply Forall_take, Forall_drop. Qed.

Lemma bget_length off n l : (off + n <= length l)%nat -> length (bget off n l) = n.
Proof. intros H. unfold bget. rewrite length_take, length_drop. lia. Qed.

Lemma bget_bput_same off bs l : (off + length bs <= length l)%nat ->
  bget off (length bs) (bput off bs l) = bs.
Proof.
  intros H. unfold bget, bput. apply Nat.leb_le in H as E. rewrite E.
  rewrite drop_app_length' by (rewrite length_take; lia).
  by rewrite take_app_length.
Qed.

Lemma lookup_bput off bs l i : (off + length bs <= length l)%nat ->
  bput off bs l !! i
  = if (i <? off)%nat then l !! i
    else if (i <? off + length bs)%nat then bs !! (i - off)%nat else l !! i.
Proof.
  intros H. unfold bput. apply Nat.leb_le in H as E. rewrite E.
  assert (Hl : length (take off l) = off) by (rewrite length_take; lia).
  destruct (Nat.ltb_spec i off).
  - rewrite lookup_app_l by lia. by apply lookup_take_lt.
  - rewrite lookup_app_r by lia. rewrite Hl. destruct (Nat.ltb_spec i (off + length bs)).
    + by rewrite lookup_app_l by lia.
    + rewrite lookup_app_r by lia. rewrite lookup_drop. f_equal. lia.
Qed.

Lemma lookup_bget off n l i : bget off n l !! i = if (i <? n)%nat then l !! (off + i)%nat else None.
Proof.
  unfold bget. destruct (Nat.ltb_spec i n).
  - rewrite lookup_take_lt by lia. by rewrite lookup_drop.
  - by rewrite lookup_take_ge by lia.
Qed.

(** Accesses to disjoint parts of a buffer commute. *)
Lemma bget_bput_other off n off' bs l :
  (off + n <= off' \/ off' + length bs <= off)%nat -> bget off n (bput off' bs l) = bget off n l.
Proof.
  intros H. destruct (Nat.le_gt_cases (off' + length bs) (length l)) as [Hl|Hl].
  - apply list_eq. intros i. rewrite !lookup_bget. destruct (Nat.ltb_spec i n); [|done].
    rewrite lookup_bput by lia. destruct (Nat.ltb_spec (off + i) off'); [done|].
    destruct (Nat.ltb_spec (off + i) (off' + length bs)); [lia|done].
  - unfold bput. destruct (_ <=? _)%nat eqn:E; [apply Nat.leb_le in E; lia|done].
Qed.

Lemma lookup_of_bget (g h : list Z) i : bget i 1 g = bget i 1 h -> g !! i = h !! i.
Proof. intros E. apply (f_equal (fun l => l !! 0%nat)) in E. rewrite !lookup_bget, Nat.add_0_r in E. exact E. Qed.

Lemma bget_bput_prefix off k bs l : (off + k <= length bs)%nat -> (length bs <= length l)%nat ->
  bget off k (bput 0 bs l) = bget off k bs.
Proof.
  intros H1 H2. apply list_eq. intros i. rewrite !lookup_bget. destruct (Nat.ltb_spec i k); [|done].
  rewrite lookup_bput by lia. rewrite Nat.add_0_l, Nat.sub_0_r.
  destruct (Nat.ltb_spec (off + i) 0); [lia|]. destruct (Nat.ltb_spec (off + i) (length bs)); [done|lia].
Qed.

Lemma get32_put32 off v l : (off + 4 <= length l)%nat -> get32 off (put32 off v l) = u32 v.
Proof.
  intros H. unfold get32, put32. rewrite <- (be_bytes_length 4 v) at 1.
  rewrite bget_bput_same by (rewrite be_bytes_length; lia). by rewrite be_value_bytes.
Qed.

Lemma get16_put16 off v l : (off + 2 <= length l)%nat -> get16 off (put16 off v l) = u16 v.
Proof.
  intros H. unfold get16, put16. rewrite <- (be_bytes_length 2 v) at 1.
  rewrite bget_bput_same by (rewrite be_bytes_length; lia). by rewrite be_value_bytes.
Qed.

Lemma get32le_put32le off v l : (off + 4 <= length l)%nat -> get32le off (put32le off v l) = u32 v.
Proof.
  intros H. unfold get32le, put32le.
  assert (Hl : length (rev (be_bytes 4 v)) = 4%nat) by (by rewrite length_rev, be_bytes_length).
  rewrite <- Hl at 1. rewrite bget_bput_same by (rewrite Hl; lia).
  by rewrite rev_involutive, be_value_bytes.
Qed.

Lemma get32_range off l : bytes l -> 0 <= get32 off l < 2 ^ 32.
Proof.
  intros H. unfold get32. pose proof (be_value_range _ (bget_bytes off 4 l H)) as Hr.
  assert (length (bget off 4 l) <= 4)%nat by (unfold bget; rewrite length_take; lia).
  assert (256 ^ Z.of_nat (length (bget off 4 l)) <= 256 ^ 4) by (apply Z.pow_le_mono_r; lia). lia.
Qed.

Lemma get16_range off l : bytes l -> 0 <= get16 off l < 2 ^ 16.
Proof.
  intros H. unfold get16. pose proof (be_value_range _ (bget_bytes off 2 l H)) as Hr.
  assert (length (bget off 2 l) <= 2)%nat by (unfold bget; rewrite length_take; lia).
  assert (256 ^ Z.of_nat (length (bget off 2 l)) <= 256 ^ 2) by (apply Z.pow_le_mono_r; lia). lia.
Qed.

Lemma put16_length off v l : length (put16 off v l) = length l.
Proof. apply bput_length. Qed.
Lemma put32_length off v l : length (put32 off v l) = length l.
Proof. apply bput_length. Qed.
Lemma put32le_length off v l : length (put32le off v l) = length l.
Proof. apply bput_length. Qed.
Lemma put16_bytes off v l : bytes l -> bytes (put16 off v l).
Proof. apply bput_bytes, be_bytes_bytes. Qed.
Lemma put32_bytes off v l : bytes l -> bytes (put32 off v l).
Proof. apply bput_bytes, be_bytes_bytes. Qed.
Lemma put32le_bytes off v l : bytes l -> bytes (put32le off v l).
Proof. apply bput_bytes, Forall_rev, be_bytes_bytes. Qed.

Create Rewrite HintDb buf.
#[export] Hint Rewrite bput_length put16_length put32_length put32le_length : buf.
#[export] Hint Resolve be_bytes_bytes bput_bytes bget_bytes put16_bytes put32_bytes put32le_bytes : cint.

(** Reads that a write elsewhere does not touch. *)
Ltac buf_other :=
  unfold get16, get32, get32le, put16, put32, put32le;
  rewrite bget_bput_other
    by (rewrite ?length_rev, ?be_bytes_length; lia).
