(* ===== verification/VosTime.v ===== *)
(** * Time values of the virtual operating system layer

    Models the time arithmetic of src/app/trdp/tcnopen/vos_thread.c on [struct timeval]
    (64-bit [tv_sec] and [tv_usec]) and the [timer*] macros it uses. *)
From S2P Require Import Prelude.

Record TRDP_TIME_T := mkTime { tv_sec : Z; tv_usec : Z }.

#[export] Instance TRDP_TIME_T_eq_dec : EqDecision TRDP_TIME_T.
Proof. solve_decision. Defined.

(** [timerisset], [timerclear], [timercmp(a,b,<)] of <sys/time.h>. *)
Definition timerisset (t : TRDP_TIME_T) : bool := truthy (tv_sec t) || truthy (tv_usec t).
Definition timerclear : TRDP_TIME_T := mkTime 0 0.
Definition timer_lt (a b : TRDP_TIME_T) : bool :=
  if tv_sec a =? tv_sec b then tv_usec a <? tv_usec b else tv_sec a <? tv_sec b.
Definition timer_gt (a b : TRDP_TIME_T) : bool :=
  if tv_sec a =? tv_sec b then tv_usec a >? tv_usec b else tv_sec a >? tv_sec b.

Definition timeradd (a b : TRDP_TIME_T) : TRDP_TIME_T :=
  let sec := s64 (tv_sec a + tv_sec b) in
  let usec := s64 (tv_usec a + tv_usec b) in
  if usec >=? 1000000 then mkTime (s64 (sec + 1)) (s64 (usec - 1000000)) else mkTime sec usec.

Definition timersub (a b : TRDP_TIME_T) : TRDP_TIME_T :=
  let sec := s64 (tv_sec a - tv_sec b) in
  let usec := s64 (tv_usec a - tv_usec b) in
  if usec <? 0 then mkTime (s64 (sec - 1)) (s64 (usec + 1000000)) else mkTime sec usec.

(** ** Operations; a pointer is an [option], [None] being NULL (only logged). *)

(** The result of applying an operation to [&t]. *)
Definition on_time (f : option TRDP_TIME_T -> option TRDP_TIME_T) (t : TRDP_TIME_T) : TRDP_TIME_T :=
  default t (f (Some t)).

Definition vos_clearTime (pTime : option TRDP_TIME_T) : option TRDP_TIME_T :=
  match pTime with None => None | Some _ => Some timerclear end.

Definition vos_addTime (pTime pAdd : option TRDP_TIME_T) : option TRDP_TIME_T :=
  match pTime, pAdd with
  | Some t, Some a => Some (timeradd t a)
  | _, _ => pTime
  end.

Definition vos_subTime (pTime pSub : option TRDP_TIME_T) : option TRDP_TIME_T :=
  match pTime, pSub with
  | Some t, Some a => Some (timersub t a)
  | _, _ => pTime
  end.

Definition vos_divTime (pTime : option TRDP_TIME_T) (divisor : Z) : option TRDP_TIME_T :=
  match pTime with
  | None => None
  | Some t =>
      if divisor =? 0 then pTime
      else
        let temp := Z.modulo (u32 (tv_sec t)) divisor in
        let sec := Z.quot (tv_sec t) divisor in
        let usec := if temp >? 0 then s64 (tv_usec t + u32 (temp * 1000000)) else tv_usec t in
        Some (mkTime sec (Z.quot usec divisor))
  end.

(** The [while (pTime->tv_usec >= 1000000)] loop of [vos_mulTime]. *)
Fixpoint mul_carry (fuel : nat) (t : TRDP_TIME_T) : TRDP_TIME_T :=
  match fuel with
  | O => t
  | S n => if tv_usec t >=? 1000000
           then mul_carry n (mkTime (s64 (tv_sec t + 1)) (tv_usec t - 1000000))
           else t
  end.

Definition vos_mulTime (pTime : option TRDP_TIME_T) (mul : Z) : option TRDP_TIME_T :=
  match pTime with
  | None => None
  | Some t =>
      let t1 := mkTime (s64 (tv_sec t * mul)) (s64 (tv_usec t * mul)) in
      Some (mul_carry (Z.to_nat (tv_usec t1 / 1000000)) t1)
  end.

Definition vos_cmpTime (pTime pCmp : option TRDP_TIME_T) : Z :=
  match pTime, pCmp with
  | Some t, Some c => if timer_gt t c then 1 else if timer_lt t c then -1 else 0
  | _, _ => 0
  end.

Definition addTime (t a : TRDP_TIME_T) := on_time (fun p => vos_addTime p (Some a)) t.
Definition subTime (t a : TRDP_TIME_T) := on_time (fun p => vos_subTime p (Some a)) t.
Definition cmpTime (t c : TRDP_TIME_T) := vos_cmpTime (Some t) (Some c).

(** ** Specification: a time value is a number of microseconds. *)
Definition to_us (t : TRDP_TIME_T) : Z := tv_sec t * 1000000 + tv_usec t.

(** Normalised, and small enough (about 146,000 years) for no addition to wrap. *)
Definition time_ok (t : TRDP_TIME_T) : Prop :=
  0 <= tv_sec t < 2 ^ 42 /\ 0 <= tv_usec t < 1000000.

Lemma time_eq a b : tv_sec a = tv_sec b -> tv_usec a = tv_usec b -> a = b.
Proof. destruct a, b; simpl; congruence. Qed.

Ltac time_unfold :=
  unfold addTime, subTime, cmpTime, on_time, vos_addTime, vos_subTime, vos_cmpTime,
    timeradd, timersub, timer_lt, timer_gt, to_us, time_ok in *; simpl in *.

Lemma timer_lt_spec a b : time_ok a -> time_ok b -> timer_lt a b = (to_us a <? to_us b).
Proof.
  intros Ha Hb; time_unfold. case_if; bprop; apply eq_true_iff_eq; rewrite !Z.ltb_lt; lia.
Qed.

Lemma timer_gt_lt a b : timer_gt a b = timer_lt b a.
Proof.
  unfold timer_gt, timer_lt. rewrite (Z.eqb_sym (tv_sec b)).
  case_if; rewrite Z.gtb_ltb; reflexivity.
Qed.

Lemma timer_gt_spec a b : time_ok a -> time_ok b -> timer_gt a b = (to_us b <? to_us a).
Proof. intros. rewrite timer_gt_lt. by apply timer_lt_spec. Qed.

Lemma to_us_inj a b : time_ok a -> time_ok b -> to_us a = to_us b -> a = b.
Proof. intros Ha Hb E; time_unfold. apply time_eq; lia. Qed.

Lemma addTime_us a b : time_ok a -> time_ok b -> to_us (addTime a b) = to_us a + to_us b.
Proof.
  intros Ha Hb; time_unfold. wrap_small.
  case_if; bprop; simpl; wrap_small; lia.
Qed.

Lemma addTime_norm a b :
  time_ok a -> time_ok b -> 0 <= tv_usec (addTime a b) < 1000000.
Proof.
  intros Ha Hb; time_unfold. wrap_small.
  case_if; bprop; simpl; wrap_small; lia.
Qed.

Lemma subTime_us a b : time_ok a -> time_ok b -> to_us (subTime a b) = to_us a - to_us b.
Proof.
  intros Ha Hb; time_unfold. wrap_small.
  case_if; bprop; simpl; wrap_small; lia.
Qed.

Lemma subTime_ok a b : time_ok a -> time_ok b -> to_us b <= to_us a -> time_ok (subTime a b).
Proof.
  intros Ha Hb Hle; time_unfold. wrap_small.
  case_if; bprop; simpl; wrap_small; lia.
Qed.

Lemma div_pred u : 1000000 <= u -> (u - 1000000) / 1000000 = u / 1000000 - 1.
Proof. intros. replace (u - 1000000) with (u + (-1) * 1000000) by lia. rewrite Z.div_add; lia. Qed.

Lemma mul_carry_spec n : forall t,
  0 <= tv_sec t -> tv_sec t + tv_usec t / 1000000 < 2 ^ 63 - 1 ->
  0 <= tv_usec t -> tv_usec t / 1000000 <= Z.of_nat n ->
  mul_carry n t = mkTime (tv_sec t + tv_usec t / 1000000) (tv_usec t mod 1000000).
Proof.
  induction n as [|n IH]; intros [s u] Hs Hb Hu Hn; cbn [mul_carry tv_sec tv_usec] in *.
  - apply time_eq; cbn [tv_sec tv_usec]; dlia.
  - rewrite Z.geb_leb. destruct (Z.leb_spec 1000000 u).
    + assert (1 <= u / 1000000) by dlia. wrap_small.
      rewrite IH; cbn [tv_sec tv_usec]; try dlia.
      apply time_eq; cbn [tv_sec tv_usec]; dlia.
    + apply time_eq; cbn [tv_sec tv_usec]; dlia.
Qed.

(** [vos_mulTime] multiplies the number of microseconds and normalises it; the
    carry loop terminates within [tv_usec / 1000000] iterations. *)
Theorem vos_mulTime_correct t mul :
  time_ok t -> 0 <= mul < 2 ^ 20 ->
  exists r, vos_mulTime (Some t) mul = Some r /\ to_us r = mul * to_us t
            /\ 0 <= tv_usec r < 1000000.
Proof.
  intros Ht Hm. unfold vos_mulTime. cbn [tv_usec tv_sec].
  assert (0 <= tv_sec t * mul <= 2 ^ 62) by (unfold time_ok in Ht; nia).
  assert (0 <= tv_usec t * mul <= 1000000 * 2 ^ 20) by (unfold time_ok in Ht; nia).
  assert (E : mul * to_us t = tv_sec t * mul * 1000000 + tv_usec t * mul) by (unfold to_us; lia).
  wrap_small. eexists; split; [reflexivity|]. rewrite E. clear E Ht.
  rewrite mul_carry_spec; cbn [tv_sec tv_usec]; unfold to_us; cbn [tv_sec tv_usec];
    generalize dependent (tv_sec t * mul); generalize dependent (tv_usec t * mul); intros; dlia.
Qed.

Lemma vos_mulTime_correct_witness :
  time_ok (mkTime 3 600000)
  /\ exists r, vos_mulTime (Some (mkTime 3 600000)) 5 = Some r /\ to_us r = 5 * 3600000 /\ 0 <= tv_usec r < 1000000.
Proof. split; [unfold time_ok; simpl; lia|]. apply (vos_mulTime_correct (mkTime 3 600000) 5); cdec. Defined.

(** [vos_addTime] adds the microseconds and keeps [tv_usec] below one million;
    [vos_subTime] is its inverse. *)
Theorem vos_addTime_subTime t a :
  time_ok t -> time_ok a ->
  to_us (addTime t a) = to_us t + to_us a /\ 0 <= tv_usec (addTime t a) < 1000000
  /\ (time_ok (addTime t a) -> subTime (addTime t a) a = t).
Proof.
  intros Ht Ha. split_and!; try apply addTime_norm; auto; [by apply addTime_us|].
  intros Hs. apply to_us_inj; auto.
  - apply subTime_ok; auto. rewrite addTime_us by auto. unfold to_us, time_ok in *. lia.
  - rewrite subTime_us, addTime_us by auto. lia.
Qed.

Lemma vos_addTime_subTime_witness :
  time_ok (mkTime 1 999999) /\ subTime (addTime (mkTime 1 999999) (mkTime 2 5)) (mkTime 2 5) = mkTime 1 999999.
Proof.
  split; [unfold time_ok; simpl; lia|].
  apply (vos_addTime_subTime (mkTime 1 999999) (mkTime 2 5)); cdec.
Defined.

(** [vos_divTime] by [d] divides the number of microseconds by [d], provided the
    32-bit product [(tv_sec mod d) * 1000000] does not overflow. *)
Theorem vos_divTime_correct t d :
  0 <= tv_sec t < 2 ^ 32 -> 0 <= tv_usec t < 1000000 -> 0 < d < 2 ^ 32 ->
  (tv_sec t mod d) * 1000000 < 2 ^ 32 ->
  exists r, vos_divTime (Some t) d = Some r /\ to_us r = to_us t / d /\ 0 <= tv_usec r < 1000000.
Proof.
  intros Hs Hu Hd Ho. unfold vos_divTime. destruct (Z.eqb_spec d 0); [lia|].
  eexists; split; [reflexivity|]. unfold to_us; cbn [tv_sec tv_usec].
  rewrite (u32_small (tv_sec t)) by lia.
  pose proof (Z.div_mod (tv_sec t) d ltac:(lia)) as Edm.
  pose proof (Z.mod_pos_bound (tv_sec t) d ltac:(lia)) as Hr.
  rewrite (Z.quot_div_nonneg (tv_sec t)) by lia.
  generalize dependent (tv_sec t mod d). generalize dependent (tv_sec t / d). intros q r Ho Edm Hr.
  replace (if r >? 0 then s64 (tv_usec t + u32 (r * 1000000)) else tv_usec t)
    with (tv_usec t + r * 1000000)
    by (rewrite Z.gtb_ltb; destruct (Z.ltb_spec 0 r); wrap_small; lia).
  rewrite Z.quot_div_nonneg by lia.
  split.
  - rewrite Edm. replace ((d * q + r) * 1000000 + tv_usec t) with (tv_usec t + r * 1000000 + (q * 1000000) * d) by lia.
    rewrite Z.div_add by lia. lia.
  - split; [apply Z.div_pos; lia | apply Z.div_lt_upper_bound; nia].
Qed.

Lemma vos_divTime_correct_witness :
  (tv_sec (mkTime 7 500000) mod 2) * 1000000 < 2 ^ 32
  /\ exists r, vos_divTime (Some (mkTime 7 500000)) 2 = Some r /\ to_us r = 7500000 / 2 /\ 0 <= tv_usec r < 1000000.
Proof. split; [reflexivity|]. apply (vos_divTime_correct (mkTime 7 500000) 2); cdec. Defined.

(** Beyond that bound the product wraps: 5000 s divided by 6000 is not 833333 us. *)
Example vos_divTime_wraps :
  vos_divTime (Some (mkTime 5000 0)) 6000 = Some (mkTime 0 117505).
Proof. reflexivity. Qed.

(** [vos_cmpTime] is the order of the microsecond counts. *)
Lemma cmpTime_spec t c : time_ok t -> time_ok c -> cmpTime t c = Z.sgn (to_us t - to_us c).
Proof.
  intros Ht Hc. unfold cmpTime, vos_cmpTime.
  rewrite timer_gt_spec, timer_lt_spec by auto.
  destruct (Z.ltb_spec (to_us c) (to_us t)); [lia|].
  destruct (Z.ltb_spec (to_us t) (to_us c)); lia.
Qed.
