(* ===== verification/VosCrc.v ===== *)
(** * Checksums of the virtual operating system layer

    Models the two table-driven CRCs of src/app/trdp/tcnopen/vos_utils.c: [vos_crc32], the
    frame check sequence of every TRDP header, and [vos_sc32], the safety code. The tables are
    the source's; they and the loops are proved equal to bit-serial references. *)
From S2P Require Import Prelude Bytes.

Definition fcs_table : list Z :=
  [
    0x00000000; 0x77073096; 0xee0e612c; 0x990951ba; 0x076dc419; 0x706af48f;
    0xe963a535; 0x9e6495a3; 0x0edb8832; 0x79dcb8a4; 0xe0d5e91e; 0x97d2d988;
    0x09b64c2b; 0x7eb17cbd; 0xe7b82d07; 0x90bf1d91; 0x1db71064; 0x6ab020f2;
    0xf3b97148; 0x84be41de; 0x1adad47d; 0x6ddde4eb; 0xf4d4b551; 0x83d385c7;
    0x136c9856; 0x646ba8c0; 0xfd62f97a; 0x8a65c9ec; 0x14015c4f; 0x63066cd9;
    0xfa0f3d63; 0x8d080df5; 0x3b6e20c8; 0x4c69105e; 0xd56041e4; 0xa2677172;
    0x3c03e4d1; 0x4b04d447; 0xd20d85fd; 0xa50ab56b; 0x35b5a8fa; 0x42b2986c;
    0xdbbbc9d6; 0xacbcf940; 0x32d86ce3; 0x45df5c75; 0xdcd60dcf; 0xabd13d59;
    0x26d930ac; 0x51de003a; 0xc8d75180; 0xbfd06116; 0x21b4f4b5; 0x56b3c423;
    0xcfba9599; 0xb8bda50f; 0x2802b89e; 0x5f058808; 0xc60cd9b2; 0xb10be924;
    0x2f6f7c87; 0x58684c11; 0xc1611dab; 0xb6662d3d; 0x76dc4190; 0x01db7106;
    0x98d220bc; 0xefd5102a; 0x71b18589; 0x06b6b51f; 0x9fbfe4a5; 0xe8b8d433;
    0x7807c9a2; 0x0f00f934; 0x9609a88e; 0xe10e9818; 0x7f6a0dbb; 0x086d3d2d;
    0x91646c97; 0xe6635c01; 0x6b6b51f4; 0x1c6c6162; 0x856530d8; 0xf262004e;
    0x6c0695ed; 0x1b01a57b; 0x8208f4c1; 0xf50fc457; 0x65b0d9c6; 0x12b7e950;
    0x8bbeb8ea; 0xfcb9887c; 0x62dd1ddf; 0x15da2d49; 0x8cd37cf3; 0xfbd44c65;
    0x4db26158; 0x3ab551ce; 0xa3bc0074; 0xd4bb30e2; 0x4adfa541; 0x3dd895d7;
    0xa4d1c46d; 0xd3d6f4fb; 0x4369e96a; 0x346ed9fc; 0xad678846; 0xda60b8d0;
    0x44042d73; 0x33031de5; 0xaa0a4c5f; 0xdd0d7cc9; 0x5005713c; 0x270241aa;
    0xbe0b1010; 0xc90c2086; 0x5768b525; 0x206f85b3; 0xb966d409; 0xce61e49f;
    0x5edef90e; 0x29d9c998; 0xb0d09822; 0xc7d7a8b4; 0x59b33d17; 0x2eb40d81;
    0xb7bd5c3b; 0xc0ba6cad; 0xedb88320; 0x9abfb3b6; 0x03b6e20c; 0x74b1d29a;
    0xead54739; 0x9dd277af; 0x04db2615; 0x73dc1683; 0xe3630b12; 0x94643b84;
    0x0d6d6a3e; 0x7a6a5aa8; 0xe40ecf0b; 0x9309ff9d; 0x0a00ae27; 0x7d079eb1;
    0xf00f9344; 0x8708a3d2; 0x1e01f268; 0x6906c2fe; 0xf762575d; 0x806567cb;
    0x196c3671; 0x6e6b06e7; 0xfed41b76; 0x89d32be0; 0x10da7a5a; 0x67dd4acc;
    0xf9b9df6f; 0x8ebeeff9; 0x17b7be43; 0x60b08ed5; 0xd6d6a3e8; 0xa1d1937e;
    0x38d8c2c4; 0x4fdff252; 0xd1bb67f1; 0xa6bc5767; 0x3fb506dd; 0x48b2364b;
    0xd80d2bda; 0xaf0a1b4c; 0x36034af6; 0x41047a60; 0xdf60efc3; 0xa867df55;
    0x316e8eef; 0x4669be79; 0xcb61b38c; 0xbc66831a; 0x256fd2a0; 0x5268e236;
    0xcc0c7795; 0xbb0b4703; 0x220216b9; 0x5505262f; 0xc5ba3bbe; 0xb2bd0b28;
    0x2bb45a92; 0x5cb36a04; 0xc2d7ffa7; 0xb5d0cf31; 0x2cd99e8b; 0x5bdeae1d;
    0x9b64c2b0; 0xec63f226; 0x756aa39c; 0x026d930a; 0x9c0906a9; 0xeb0e363f;
    0x72076785; 0x05005713; 0x95bf4a82; 0xe2b87a14; 0x7bb12bae; 0x0cb61b38;
    0x92d28e9b; 0xe5d5be0d; 0x7cdcefb7; 0x0bdbdf21; 0x86d3d2d4; 0xf1d4e242;
    0x68ddb3f8; 0x1fda836e; 0x81be16cd; 0xf6b9265b; 0x6fb077e1; 0x18b74777;
    0x88085ae6; 0xff0f6a70; 0x66063bca; 0x11010b5c; 0x8f659eff; 0xf862ae69;
    0x616bffd3; 0x166ccf45; 0xa00ae278; 0xd70dd2ee; 0x4e048354; 0x3903b3c2;
    0xa7672661; 0xd06016f7; 0x4969474d; 0x3e6e77db; 0xaed16a4a; 0xd9d65adc;
    0x40df0b66; 0x37d83bf0; 0xa9bcae53; 0xdebb9ec5; 0x47b2cf7f; 0x30b5ffe9;
    0xbdbdf21c; 0xcabac28a; 0x53b39330; 0x24b4a3a6; 0xbad03605; 0xcdd70693;
    0x54de5729; 0x23d967bf; 0xb3667a2e; 0xc4614ab8; 0x5d681b02; 0x2a6f2b94;
    0xb40bbe37; 0xc30c8ea1; 0x5a05df1b; 0x2d02ef8d ].

Definition sc32_table : list Z :=
  [
    0x00000000; 0xf4acfb13; 0x1df50d35; 0xe959f626; 0x3bea1a6a; 0xcf46e179;
    0x261f175f; 0xd2b3ec4c; 0x77d434d4; 0x8378cfc7; 0x6a2139e1; 0x9e8dc2f2;
    0x4c3e2ebe; 0xb892d5ad; 0x51cb238b; 0xa567d898; 0xefa869a8; 0x1b0492bb;
    0xf25d649d; 0x06f19f8e; 0xd44273c2; 0x20ee88d1; 0xc9b77ef7; 0x3d1b85e4;
    0x987c5d7c; 0x6cd0a66f; 0x85895049; 0x7125ab5a; 0xa3964716; 0x573abc05;
    0xbe634a23; 0x4acfb130; 0x2bfc2843; 0xdf50d350; 0x36092576; 0xc2a5de65;
    0x10163229; 0xe4bac93a; 0x0de33f1c; 0xf94fc40f; 0x5c281c97; 0xa884e784;
    0x41dd11a2; 0xb571eab1; 0x67c206fd; 0x936efdee; 0x7a370bc8; 0x8e9bf0db;
    0xc45441eb; 0x30f8baf8; 0xd9a14cde; 0x2d0db7cd; 0xffbe5b81; 0x0b12a092;
    0xe24b56b4; 0x16e7ada7; 0xb380753f; 0x472c8e2c; 0xae75780a; 0x5ad98319;
    0x886a6f55; 0x7cc69446; 0x959f6260; 0x61339973; 0x57f85086; 0xa354ab95;
    0x4a0d5db3; 0xbea1a6a0; 0x6c124aec; 0x98beb1ff; 0x71e747d9; 0x854bbcca;
    0x202c6452; 0xd4809f41; 0x3dd96967; 0xc9759274; 0x1bc67e38; 0xef6a852b;
    0x0633730d; 0xf29f881e; 0xb850392e; 0x4cfcc23d; 0xa5a5341b; 0x5109cf08;
    0x83ba2344; 0x7716d857; 0x9e4f2e71; 0x6ae3d562; 0xcf840dfa; 0x3b28f6e9;
    0xd27100cf; 0x26ddfbdc; 0xf46e1790; 0x00c2ec83; 0xe99b1aa5; 0x1d37e1b6;
    0x7c0478c5; 0x88a883d6; 0x61f175f0; 0x955d8ee3; 0x47ee62af; 0xb34299bc;
    0x5a1b6f9a; 0xaeb79489; 0x0bd04c11; 0xff7cb702; 0x16254124; 0xe289ba37;
    0x303a567b; 0xc496ad68; 0x2dcf5b4e; 0xd963a05d; 0x93ac116d; 0x6700ea7e;
    0x8e591c58; 0x7af5e74b; 0xa8460b07; 0x5ceaf014; 0xb5b30632; 0x411ffd21;
    0xe47825b9; 0x10d4deaa; 0xf98d288c; 0x0d21d39f; 0xdf923fd3; 0x2b3ec4c0;
    0xc26732e6; 0x36cbc9f5; 0xaff0a10c; 0x5b5c5a1f; 0xb205ac39; 0x46a9572a;
    0x941abb66; 0x60b64075; 0x89efb653; 0x7d434d40; 0xd82495d8; 0x2c886ecb;
    0xc5d198ed; 0x317d63fe; 0xe3ce8fb2; 0x176274a1; 0xfe3b8287; 0x0a977994;
    0x4058c8a4; 0xb4f433b7; 0x5dadc591; 0xa9013e82; 0x7bb2d2ce; 0x8f1e29dd;
    0x6647dffb; 0x92eb24e8; 0x378cfc70; 0xc3200763; 0x2a79f145; 0xded50a56;
    0x0c66e61a; 0xf8ca1d09; 0x1193eb2f; 0xe53f103c; 0x840c894f; 0x70a0725c;
    0x99f9847a; 0x6d557f69; 0xbfe69325; 0x4b4a6836; 0xa2139e10; 0x56bf6503;
    0xf3d8bd9b; 0x07744688; 0xee2db0ae; 0x1a814bbd; 0xc832a7f1; 0x3c9e5ce2;
    0xd5c7aac4; 0x216b51d7; 0x6ba4e0e7; 0x9f081bf4; 0x7651edd2; 0x82fd16c1;
    0x504efa8d; 0xa4e2019e; 0x4dbbf7b8; 0xb9170cab; 0x1c70d433; 0xe8dc2f20;
    0x0185d906; 0xf5292215; 0x279ace59; 0xd336354a; 0x3a6fc36c; 0xcec3387f;
    0xf808f18a; 0x0ca40a99; 0xe5fdfcbf; 0x115107ac; 0xc3e2ebe0; 0x374e10f3;
    0xde17e6d5; 0x2abb1dc6; 0x8fdcc55e; 0x7b703e4d; 0x9229c86b; 0x66853378;
    0xb436df34; 0x409a2427; 0xa9c3d201; 0x5d6f2912; 0x17a09822; 0xe30c6331;
    0x0a559517; 0xfef96e04; 0x2c4a8248; 0xd8e6795b; 0x31bf8f7d; 0xc513746e;
    0x6074acf6; 0x94d857e5; 0x7d81a1c3; 0x892d5ad0; 0x5b9eb69c; 0xaf324d8f;
    0x466bbba9; 0xb2c740ba; 0xd3f4d9c9; 0x275822da; 0xce01d4fc; 0x3aad2fef;
    0xe81ec3a3; 0x1cb238b0; 0xf5ebce96; 0x01473585; 0xa420ed1d; 0x508c160e;
    0xb9d5e028; 0x4d791b3b; 0x9fcaf777; 0x6b660c64; 0x823ffa42; 0x76930151;
    0x3c5cb061; 0xc8f04b72; 0x21a9bd54; 0xd5054647; 0x07b6aa0b; 0xf31a5118;
    0x1a43a73e; 0xeeef5c2d; 0x4b8884b5; 0xbf247fa6; 0x567d8980; 0xa2d17293;
    0x70629edf; 0x84ce65cc; 0x6d9793ea; 0x993b68f9 ].

Definition table_get (t : list Z) (i : Z) : Z := nth (Z.to_nat i) t 0.

(** One iteration of the loop of [vos_crc32], and the whole function; [pData] is the
    [dataLen] bytes the loop reads. *)
Definition crc32_step (crc b : Z) : Z :=
  (crc >>> 8) ^^^ table_get fcs_table ((crc ^^^ b) &&& 0xff).

Definition vos_crc32 (crc : Z) (pData : list Z) : Z := not32 (fold_left crc32_step pData crc).

Definition sc32_step (crc b : Z) : Z :=
  table_get sc32_table (((crc >>> 24) ^^^ b) &&& 0xff) ^^^ u32 (crc <<< 8).

Definition vos_sc32 (crc : Z) (pData : list Z) : Z := fold_left sc32_step pData crc.

(** ** Bit-serial references *)
Definition CRC32_POLY : Z := 0xedb88320.
Definition SC32_POLY : Z := 0xf4acfb13.

(** Reflected: the low bit leaves first. *)
Definition lfsr (c : Z) : Z := if Z.odd c then (c >>> 1) ^^^ CRC32_POLY else c >>> 1.
Definition lfsr8 (c : Z) : Z := lfsr (lfsr (lfsr (lfsr (lfsr (lfsr (lfsr (lfsr c))))))).
Definition crc32_ref (crc : Z) (data : list Z) : Z :=
  not32 (fold_left (fun c b => lfsr8 (c ^^^ b)) data crc).

(** Not reflected: the high bit leaves first. *)
Definition msfr (c : Z) : Z :=
  if Z.testbit c 31 then u32 (c <<< 1) ^^^ SC32_POLY else u32 (c <<< 1).
Definition msfr8 (c : Z) : Z := msfr (msfr (msfr (msfr (msfr (msfr (msfr (msfr c))))))).
Definition sc32_ref (crc : Z) (data : list Z) : Z :=
  fold_left (fun c b => msfr8 (c ^^^ (b <<< 24))) data crc.


(** ** The reflected CRC *)
Lemma lfsr_lxor x y : lfsr (x ^^^ y) = lfsr x ^^^ lfsr y.
Proof.
  unfold lfsr. rewrite <- !Z.bit0_odd, Z.lxor_spec, Z.shiftr_lxor.
  destruct (Z.testbit x 0), (Z.testbit y 0); simpl; apply Z.bits_inj; intros i;
    rewrite !Z.lxor_spec; repeat destruct (Z.testbit _ _); reflexivity.
Qed.

Lemma lfsr8_lxor x y : lfsr8 (x ^^^ y) = lfsr8 x ^^^ lfsr8 y.
Proof. unfold lfsr8. by rewrite !lfsr_lxor. Qed.

Lemma lfsr_even n x : 0 < n -> lfsr (x <<< n) = x <<< (n - 1).
Proof.
  intros Hn. unfold lfsr. rewrite <- Z.bit0_odd, Z.shiftl_spec_low by lia.
  rewrite Z.shiftr_shiftl_l by lia. reflexivity.
Qed.

Lemma lfsr8_high x : lfsr8 (x <<< 8) = x.
Proof. unfold lfsr8. rewrite !lfsr_even by lia. apply Z.shiftl_0_r. Qed.

Lemma split_low8 c : c = ((c >>> 8) <<< 8) ^^^ (c &&& 0xff).
Proof.
  apply Z.bits_inj'; intros i Hi. rewrite Z.lxor_spec, Z.land_spec.
  change 0xff with (Z.ones 8).
  destruct (Z.lt_ge_cases i 8).
  - rewrite Z.shiftl_spec_low, Z.ones_spec_low by lia. by rewrite andb_true_r.
  - rewrite Z.shiftl_spec_high, Z.shiftr_spec, Z.ones_spec_high by lia.
    rewrite andb_false_r, xorb_false_r. f_equal; lia.
Qed.

Lemma fcs_table_correct i : 0 <= i < 256 -> table_get fcs_table i = lfsr8 i.
Proof.
  intros Hi. apply Z.eqb_eq.
  apply (all_below_spec 256 (fun i => table_get fcs_table i =? lfsr8 i)); [vm_compute; reflexivity|lia].
Qed.

Lemma land_ff_range x : 0 <= x &&& 0xff < 256.
Proof. change 0xff with (2 ^ 8 - 1). rewrite land_ones_mod by lia. apply Z.mod_pos_bound. lia. Qed.

Lemma crc32_step_ref c b : byte b -> crc32_step c b = lfsr8 (c ^^^ b).
Proof.
  intros Hb. unfold crc32_step. rewrite fcs_table_correct by apply land_ff_range.
  rewrite (split_low8 (c ^^^ b)) at 2. rewrite lfsr8_lxor, lfsr8_high. f_equal.
  rewrite Z.shiftr_lxor. replace (b >>> 8) with 0; [by rewrite Z.lxor_0_r|].
  rewrite Z.shiftr_div_pow2 by lia. rewrite Z.div_small; unfold byte in Hb; lia.
Qed.

(** C38: the table-driven [vos_crc32] is the bit-serial IEEE 802.3 CRC. *)
Theorem vos_crc32_is_ieee8023 crc data :
  bytes data -> vos_crc32 crc data = crc32_ref crc data.
Proof.
  intros H. unfold vos_crc32, crc32_ref. f_equal. revert crc.
  induction H as [|b l Hb _ IH]; intros crc; simpl; [reflexivity|].
  by rewrite crc32_step_ref, IH.
Qed.

Lemma vos_crc32_is_ieee8023_witness :
  bytes [0x31; 0x32; 0x33] /\ vos_crc32 0xffffffff [0x31; 0x32; 0x33] = crc32_ref 0xffffffff [0x31; 0x32; 0x33].
Proof.
  assert (H : bytes [0x31; 0x32; 0x33]) by (repeat constructor; unfold byte; lia).
  split; [exact H | apply (vos_crc32_is_ieee8023 0xffffffff _ H)].
Defined.

(** Check value of the standard for "123456789". *)
Example crc32_check_value :
  vos_crc32 0xffffffff [0x31; 0x32; 0x33; 0x34; 0x35; 0x36; 0x37; 0x38; 0x39] = 0xcbf43926.
Proof. vm_compute. reflexivity. Qed.

(** ** The state stays a 32-bit word and every step is injective in it *)
Abbreviation W32 := (2 ^ 32).

Lemma lfsr_bound c : 0 <= c < W32 -> 0 <= lfsr c < W32.
Proof.
  intros Hc. unfold lfsr. rewrite Z.shiftr_div_pow2 by lia.
  assert (0 <= c / 2 ^ 1 < W32) by dlia.
  case_if; [|lia]. apply lxor_bound; unfold CRC32_POLY; lia.
Qed.

(** The inverse of [lfsr]: bit 31 of the result is the bit shifted out. *)
Definition unlfsr (y : Z) : Z :=
  if Z.testbit y 31 then ((y ^^^ CRC32_POLY) <<< 1) + 1 else y <<< 1.

Lemma unlfsr_lfsr c : 0 <= c < W32 -> unlfsr (lfsr c) = c.
Proof.
  intros Hc. unfold unlfsr, lfsr.
  assert (Hhi : Z.testbit (c >>> 1) 31 = false)
    by (rewrite Z.shiftr_spec by lia; apply (testbit_above c 32); lia).
  destruct (Z.odd c) eqn:Ho.
  - rewrite Z.lxor_spec, Hhi. change (Z.testbit CRC32_POLY 31) with true. simpl xorb. cbv iota.
    rewrite Z.lxor_assoc, Z.lxor_nilpotent, Z.lxor_0_r.
    rewrite Z.shiftl_mul_pow2, <- Z.div2_spec by lia. pose proof (Zdiv2_odd_eqn c) as E.
    rewrite Ho in E. lia.
  - rewrite Hhi. rewrite Z.shiftl_mul_pow2, <- Z.div2_spec by lia.
    pose proof (Zdiv2_odd_eqn c) as E. rewrite Ho in E. lia.
Qed.

Lemma lfsr8_inj x y : 0 <= x < W32 -> 0 <= y < W32 -> lfsr8 x = lfsr8 y -> x = y.
Proof.
  assert (S : forall a b, 0 <= a < W32 -> 0 <= b < W32 -> lfsr a = lfsr b -> a = b)
    by (intros a b Ha Hb E; rewrite <- (unlfsr_lfsr a), <- (unlfsr_lfsr b), E by lia; reflexivity).
  intros Hx Hy E. unfold lfsr8 in E.
  repeat (apply S in E; [|repeat apply lfsr_bound; assumption..]). exact E.
Qed.

Lemma lfsr8_bound c : 0 <= c < W32 -> 0 <= lfsr8 c < W32.
Proof. intros. unfold lfsr8. repeat apply lfsr_bound. assumption. Qed.

Lemma byte_w32 b : byte b -> 0 <= b < W32.
Proof. unfold byte. lia. Qed.

Lemma crc32_step_bound c b : 0 <= c < W32 -> byte b -> 0 <= crc32_step c b < W32.
Proof.
  intros Hc Hb. rewrite crc32_step_ref by auto.
  apply lfsr8_bound, lxor_bound; [lia|lia|by apply byte_w32].
Qed.

Lemma crc32_fold_bound l : forall c, 0 <= c < W32 -> bytes l -> 0 <= fold_left crc32_step l c < W32.
Proof.
  induction l as [|b l IH]; intros c Hc Hl; simpl; [assumption|].
  inversion Hl; subst. apply IH; [by apply crc32_step_bound | assumption].
Qed.

Lemma crc32_fold_inj l : forall c d,
  0 <= c < W32 -> 0 <= d < W32 -> bytes l ->
  fold_left crc32_step l c = fold_left crc32_step l d -> c = d.
Proof.
  induction l as [|b l IH]; intros c d Hc Hd Hl E; simpl in E; [assumption|].
  inversion Hl; subst. apply IH in E; auto using crc32_step_bound.
  rewrite !crc32_step_ref in E by auto.
  apply lfsr8_inj in E; [|apply lxor_bound; auto using byte_w32; lia..].
  by apply lxor_cancel_r in E.
Qed.

Lemma vos_crc32_range crc data :
  0 <= crc < W32 -> bytes data -> 0 <= vos_crc32 crc data < W32.
Proof.
  intros. unfold vos_crc32, not32. apply lxor_bound; [lia| |lia]. by apply crc32_fold_bound.
Qed.

(** The frame check sequence detects every corruption of a single byte, whatever its
    position in the message and whatever the initial value. *)
Lemma vos_crc32_detects_byte_error crc pre b b' post :
  0 <= crc < W32 -> bytes (pre ++ b :: post) -> byte b' -> b <> b' ->
  vos_crc32 crc (pre ++ b :: post) <> vos_crc32 crc (pre ++ b' :: post).
Proof.
  intros Hc Hl Hb' Hne E. apply Forall_app in Hl as [Hpre Hl]. inversion Hl as [|? ? Hb Hpost]; subst.
  unfold vos_crc32, not32 in E. apply lxor_cancel_r in E.
  rewrite !fold_left_app in E. simpl in E.
  pose proof (crc32_fold_bound pre crc Hc Hpre) as Hm.
  apply crc32_fold_inj in E; auto using crc32_step_bound.
  rewrite !crc32_step_ref in E by auto.
  apply lfsr8_inj in E; [|apply lxor_bound; auto using byte_w32; lia..].
  rewrite !(Z.lxor_comm (fold_left _ _ _)) in E. by apply lxor_cancel_r in E.
Qed.

(** ** The safety code *)
Lemma u32_lxor a b : u32 (a ^^^ b) = u32 a ^^^ u32 b.
Proof.
  unfold u32. apply Z.bits_inj'; intros i Hi. rewrite Z.lxor_spec.
  destruct (Z.lt_ge_cases i 32).
  - by rewrite !Z.mod_pow2_bits_low, Z.lxor_spec by lia.
  - by rewrite !Z.mod_pow2_bits_high by lia.
Qed.

Lemma msfr_lxor x y : msfr (x ^^^ y) = msfr x ^^^ msfr y.
Proof.
  unfold msfr. rewrite Z.lxor_spec, Z.shiftl_lxor, u32_lxor.
  generalize (u32 (x <<< 1)) (u32 (y <<< 1)) SC32_POLY; intros a b p.
  destruct (Z.testbit x 31), (Z.testbit y 31); cbn [xorb].
  - rewrite (Z.lxor_comm b p), Z.lxor_assoc, <- (Z.lxor_assoc p), Z.lxor_nilpotent, Z.lxor_0_l. done.
  - by rewrite !Z.lxor_assoc, (Z.lxor_comm b p).
  - by rewrite Z.lxor_assoc.
  - done.
Qed.

Lemma msfr8_lxor x y : msfr8 (x ^^^ y) = msfr8 x ^^^ msfr8 y.
Proof. unfold msfr8. by rewrite !msfr_lxor. Qed.

Lemma msfr_low k x : 0 <= x < 2 ^ k -> 0 <= k <= 31 -> msfr x = x <<< 1 /\ 0 <= x <<< 1 < 2 ^ (k + 1).
Proof.
  intros Hx Hk. unfold msfr. rewrite (testbit_above x k) by lia.
  rewrite Z.shiftl_mul_pow2 by lia. rewrite Z.pow_add_r by lia. rewrite u32_small; [lia|].
  assert (2 ^ k <= 2 ^ 31) by (apply Z.pow_le_mono_r; lia). lia.
Qed.

Lemma msfr8_low x : 0 <= x < 2 ^ 24 -> msfr8 x = x <<< 8.
Proof.
  intros H. unfold msfr8.
  destruct (msfr_low 24 x) as [-> H1]; [lia..|].
  destruct (msfr_low 25 (x <<< 1)) as [-> H2]; [lia..|].
  destruct (msfr_low 26 (x <<< 1 <<< 1)) as [-> H3]; [lia..|].
  destruct (msfr_low 27 (x <<< 1 <<< 1 <<< 1)) as [-> H4]; [lia..|].
  destruct (msfr_low 28 (x <<< 1 <<< 1 <<< 1 <<< 1)) as [-> H5]; [lia..|].
  destruct (msfr_low 29 (x <<< 1 <<< 1 <<< 1 <<< 1 <<< 1)) as [-> H6]; [lia..|].
  destruct (msfr_low 30 (x <<< 1 <<< 1 <<< 1 <<< 1 <<< 1 <<< 1)) as [-> H7]; [lia..|].
  destruct (msfr_low 31 (x <<< 1 <<< 1 <<< 1 <<< 1 <<< 1 <<< 1 <<< 1)) as [-> H8]; [lia..|].
  by rewrite !Z.shiftl_shiftl by lia.
Qed.

Lemma sc32_table_correct i : 0 <= i < 256 -> table_get sc32_table i = msfr8 (i <<< 24).
Proof.
  intros Hi. apply Z.eqb_eq.
  apply (all_below_spec 256 (fun i => table_get sc32_table i =? msfr8 (i <<< 24)));
    [vm_compute; reflexivity|lia].
Qed.

Lemma split_high8 c : 0 <= c < W32 -> c = ((c >>> 24) <<< 24) ^^^ (c mod 2 ^ 24).
Proof.
  intros Hc. apply Z.bits_inj'; intros i Hi. rewrite Z.lxor_spec.
  destruct (Z.lt_ge_cases i 24).
  - by rewrite Z.shiftl_spec_low, Z.mod_pow2_bits_low by lia.
  - rewrite Z.shiftl_spec_high, Z.shiftr_spec, Z.mod_pow2_bits_high by lia.
    rewrite xorb_false_r. f_equal; lia.
Qed.

Lemma sc32_step_ref c b : 0 <= c < W32 -> byte b -> sc32_step c b = msfr8 (c ^^^ (b <<< 24)).
Proof.
  intros Hc Hb. unfold sc32_step. unfold byte in Hb.
  assert (Hh : 0 <= (c >>> 24) ^^^ b < 2 ^ 8).
  { apply lxor_bound; [lia| |lia]. rewrite Z.shiftr_div_pow2 by lia. dlia. }
  change 0xff with (2 ^ 8 - 1). rewrite land_ones_mod, Z.mod_small by lia.
  rewrite sc32_table_correct by lia.
  rewrite (split_high8 c) at 3 by lia.
  rewrite Z.lxor_comm, (Z.lxor_comm (_ <<< 24) (c mod _)), Z.lxor_assoc, <- Z.shiftl_lxor.
  rewrite msfr8_lxor. f_equal.
  rewrite msfr8_low by (apply Z.mod_pos_bound; lia).
  unfold u32. rewrite !Z.shiftl_mul_pow2 by lia. dlia.
Qed.

Lemma msfr_bound c : 0 <= msfr c < W32.
Proof.
  unfold msfr. pose proof (u32_range (c <<< 1)). case_if; [|lia].
  apply lxor_bound; unfold SC32_POLY; lia.
Qed.

(** The table-driven [vos_sc32] is the bit-serial SC-32 of IEC 61375-2-3 B.7. *)
Theorem vos_sc32_is_sc32 crc data :
  0 <= crc < W32 -> bytes data -> vos_sc32 crc data = sc32_ref crc data.
Proof.
  intros Hc H. unfold vos_sc32, sc32_ref. revert crc Hc.
  induction H as [|b l Hb _ IH]; intros crc Hc; simpl; [reflexivity|].
  rewrite sc32_step_ref by auto. apply IH, msfr_bound.
Qed.

Lemma vos_sc32_range crc data : 0 <= crc < W32 -> bytes data -> 0 <= vos_sc32 crc data < W32.
Proof.
  intros Hc H. unfold vos_sc32. revert crc Hc. induction H as [|b l Hb _ IH]; intros crc Hc; [done|]. cbn [fold_left].
  rewrite sc32_step_ref by auto. apply IH, msfr_bound.
Qed.

Lemma vos_sc32_is_sc32_witness :
  vos_sc32 0xffffffff [0x31; 0x32; 0x33] = sc32_ref 0xffffffff [0x31; 0x32; 0x33].
Proof. apply vos_sc32_is_sc32; [lia | repeat constructor; unfold byte; lia]. Defined.

(** The comment over [sc32_table] gives 0x1697d06a as the CRC of "123456789" and the comment
    of [vos_sc32] says the result is inverted; neither holds, with either usual initial value. *)
Theorem vos_sc32_check_value :
  let msg := [0x31; 0x32; 0x33; 0x34; 0x35; 0x36; 0x37; 0x38; 0x39] in
  vos_sc32 0xffffffff msg = 0xc683b9e5 /\ vos_sc32 0 msg = 0x6c9f84a8
  /\ forall init, In init [0; 0xffffffff] ->
       vos_sc32 init msg <> 0x1697d06a /\ not32 (vos_sc32 init msg) <> 0x1697d06a.
Proof.
  intros msg. split; [vm_compute; reflexivity|]. split; [vm_compute; reflexivity|].
  intros init [<-|[<-|[]]]; split; vm_compute; discriminate.
Qed.
