(* ===== verification/VosString.v ===== *)
(** * Strings of the virtual operating system layer

    The string functions of src/app/trdp/tcnopen/vos_mem.c, which call the C library, the addresses in text
    of vos_sock.c, and the conversion of numbers the readers of the configuration use. A string is the list of its characters in front of
    the terminating zero, or a list that goes on behind a zero; both are read up to the first zero. *)
From Stdlib Require Import String Ascii.
From S2P Require Import Prelude Bytes.

(** A string constant. *)
Definition str (s : string) : list Z := map (fun a => Z.of_N (N_of_ascii a)) (list_ascii_of_string s).

#[global] Arguments str : simpl never.

(** The characters of a C string, and [strncpy] into the buffer [dst]. *)
Fixpoint cstr (l : list Z) : list Z :=
  match l with [] => [] | c :: l' => if c =? 0 then [] else c :: cstr l' end.
Definition vos_strncpy (dst src : list Z) (n : nat) : list Z :=
  bput 0 (take n (cstr (take n src) ++ repeat 0 n)) dst.

(** [strncasecmp] in the C locale: the difference of the first characters that differ. *)
Definition tolower (c : Z) : Z := if (65 <=? c) && (c <=? 90) then c + 32 else c.
Fixpoint vos_strnicmp (a b : list Z) (n : nat) : Z :=
  match n with
  | O => 0
  | S n' =>
      let x := tolower (hd 0 a) in
      let y := tolower (hd 0 b) in
      if negb (x =? y) then x - y else if x =? 0 then 0 else vos_strnicmp (tl a) (tl b) n'
  end.
Definition same_name (a : list Z) (s : string) (n : nat) : bool := vos_strnicmp a (str s) n =? 0.

(** [strtol(s, NULL, 10)] with a long of 64 bits, and its value as a UINT32. *)
Definition is_space (c : Z) : bool := (c =? 32) || ((9 <=? c) && (c <=? 13)).
Definition is_digit (c : Z) : bool := (48 <=? c) && (c <=? 57).
Fixpoint skip_space (l : list Z) : list Z :=
  match l with c :: l' => if is_space c then skip_space l' else l | [] => [] end.
Fixpoint digits (acc : Z) (l : list Z) : Z :=
  match l with c :: l' => if is_digit c then digits (acc * 10 + (c - 48)) l' else acc | [] => acc end.
Definition strtol (l : list Z) : Z :=
  let v := match skip_space l with
           | c :: l' => if c =? 45 then - digits 0 l' else if c =? 43 then digits 0 l' else digits 0 (c :: l')
           | [] => 0
           end in
  Z.max (- 2 ^ 63) (Z.min (2 ^ 63 - 1) v).
Definition strtol32 (l : list Z) : Z := u32 (strtol l).

(** [vos_ntohl] on a little endian host, and addresses in text. [inet_aton] of the C library gives the address in
    network order, if the text is one. *)
Definition vos_ntohl (a : Z) : Z := get32 0 (put32le 0 a (repeat 0 4)).
Definition vos_dottedIP (inet_aton : list Z -> option Z) (v : list Z) : Z :=
  match inet_aton v with Some a => vos_ntohl a | None => 0 end.

(** * Properties *)

Lemma cstr_idemp l : cstr (cstr l) = cstr l.
Proof. induction l as [|c l IH]; [done|]. cbn. destruct (c =? 0) eqn:E; [done|]. cbn. by rewrite E, IH. Qed.

Lemma cstr_all l : Forall (fun c => c <> 0) l -> cstr l = l.
Proof. induction 1 as [|c l Hc _ IH]; [done|]. cbn. by rewrite (proj2 (Z.eqb_neq _ _)), IH by done. Qed.

Lemma cstr_length l : (length (cstr l) <= length l)%nat.
Proof. induction l as [|c l IH]; [done|]. cbn. destruct (c =? 0); cbn; lia. Qed.

Lemma cstr_app_zero a b : Forall (fun c => c <> 0) a -> cstr (a ++ 0 :: b) = a.
Proof. induction 1 as [|c a Hc _ IH]; [done|]. cbn [app cstr]. by rewrite (proj2 (Z.eqb_neq c 0)), IH. Qed.

Lemma cstr_take m l : cstr (take m l) = take m (cstr l).
Proof.
  revert m. induction l as [|c l IH]; intros [|m]; try done. cbn. destruct (c =? 0); [done|]. cbn. by rewrite IH.
Qed.

(** A string that is shorter than the number of characters copied arrives whole, and ended. *)
Lemma cstr_vos_strncpy dst src n : Forall (fun c => c <> 0) src -> (length src < n)%nat -> (n <= length dst)%nat ->
  cstr (vos_strncpy dst src n) = src.
Proof.
  intros Hnz Hl Hn. unfold vos_strncpy. rewrite (take_ge src) by lia. rewrite (cstr_all _ Hnz), take_app_ge by lia.
  unfold bput. rewrite length_app, length_take, repeat_length.
  replace (0 + _ <=? length dst)%nat with true by (symmetry; apply Nat.leb_le; lia).
  cbn [take app]. rewrite <- app_assoc.
  destruct (n - length src)%nat as [|k] eqn:Ek; [lia|]. destruct n as [|n]; [lia|]. cbn [repeat take app]. by apply cstr_app_zero.
Qed.

Lemma vos_strncpy_length dst src n : length (vos_strncpy dst src n) = length dst.
Proof. apply bput_length. Qed.

Lemma vos_strnicmp_refl a n : vos_strnicmp a a n = 0.
Proof. revert a. induction n as [|n IH]; intros a; [done|]. cbn. rewrite Z.eqb_refl. cbn. by destruct (_ =? 0). Qed.

(** The comparison is a total order. *)
Lemma vos_strnicmp_opp n : forall a b, vos_strnicmp b a n = - vos_strnicmp a b n.
Proof.
  induction n as [|n IH]; intros a b; [done|]. cbn. rewrite (Z.eqb_sym (tolower (hd 0 b))).
  destruct (Z.eqb_spec (tolower (hd 0 a)) (tolower (hd 0 b))) as [->|]; cbn [negb]; [|lia].
  destruct (_ =? 0); [done|]. apply IH.
Qed.

Lemma vos_strnicmp_trans n : forall a b c, vos_strnicmp a b n <= 0 -> vos_strnicmp b c n <= 0 -> vos_strnicmp a c n <= 0.
Proof.
  induction n as [|n IH]; intros a b c; [done|]. cbn.
  destruct (Z.eqb_spec (tolower (hd 0 a)) (tolower (hd 0 b))) as [E1|E1];
    destruct (Z.eqb_spec (tolower (hd 0 b)) (tolower (hd 0 c))) as [E2|E2];
    destruct (Z.eqb_spec (tolower (hd 0 a)) (tolower (hd 0 c))) as [E3|E3]; cbn [negb]; try lia.
  destruct (Z.eqb_spec (tolower (hd 0 a)) 0) as [E0|E0]; [lia|].
  rewrite (proj2 (Z.eqb_neq (tolower (hd 0 b)) 0)) by lia. apply IH.
Qed.

(** The comparison is the one of the strings in small letters. *)
Lemma vos_strnicmp_zero n : forall a b, vos_strnicmp a b n = 0 <-> map tolower (take n (cstr a)) = map tolower (take n (cstr b)).
Proof.
  assert (H0 : forall c, tolower c = 0 <-> c = 0).
  { intros c. unfold tolower. destruct (_ && _) eqn:E; bprop; lia. }
  induction n as [|n IH]; intros a b; [done|].
  destruct a as [|x a], b as [|y b]; cbn [vos_strnicmp hd tl cstr]; change (tolower 0) with 0.
  - done.
  - destruct (Z.eqb_spec y 0) as [->|Hy]; [done|]. cbn [map take]. pose proof (H0 y). rewrite (proj2 (Z.eqb_neq 0 (tolower y))) by lia. cbn.
    split; [lia|done].
  - destruct (Z.eqb_spec x 0) as [->|Hx]; [done|]. cbn [map take]. pose proof (H0 x). rewrite (proj2 (Z.eqb_neq (tolower x) 0)) by lia. cbn.
    split; [lia|done].
  - pose proof (H0 x) as Hx. pose proof (H0 y) as Hy. destruct (Z.eqb_spec (tolower x) (tolower y)) as [E|E]; cbn [negb].
    + destruct (Z.eqb_spec (tolower x) 0) as [E0|E0].
      * rewrite (proj2 (Z.eqb_eq x 0)), (proj2 (Z.eqb_eq y 0)) by lia. done.
      * rewrite (proj2 (Z.eqb_neq x 0)), (proj2 (Z.eqb_neq y 0)) by lia. cbn [map take]. rewrite IH, E. split; congruence.
    + destruct (Z.eqb_spec x 0), (Z.eqb_spec y 0); cbn [map take]; split; try lia; try done; congruence.
Qed.

Lemma same_name_spec a s n : same_name a s n = bool_decide (map tolower (take n (cstr a)) = map tolower (take n (cstr (str s)))).
Proof. unfold same_name. apply eq_true_iff_eq. by rewrite Z.eqb_eq, vos_strnicmp_zero, bool_decide_eq_true. Qed.

(** ** Decimal numbers *)
Fixpoint decimal_aux (fuel : nat) (n : Z) (acc : list Z) : list Z :=
  match fuel with
  | O => acc
  | S f => let acc := (48 + n mod 10) :: acc in if n <? 10 then acc else decimal_aux f (n / 10) acc
  end.
Definition decimal (n : Z) : list Z := decimal_aux 20 n [].

Lemma digits_app l1 l2 acc : Forall (fun c => is_digit c = true) l1 -> digits acc (l1 ++ l2) = digits (digits acc l1) l2.
Proof. intros H. revert acc. induction H as [|c l Hc _ IH]; intros acc; [done|]. cbn. rewrite Hc. apply IH. Qed.

Lemma decimal_aux_spec fuel : forall n acc, 0 <= n < 10 ^ Z.of_nat fuel -> (0 < fuel)%nat -> Forall (fun c => is_digit c = true) acc ->
  exists l, decimal_aux fuel n acc = l ++ acc /\ l <> [] /\ Forall (fun c => is_digit c = true) l /\ digits 0 l = n.
Proof.
  induction fuel as [|f IH]; intros n acc Hn Hf Ha; [lia|]. cbn [decimal_aux].
  assert (Hd : is_digit (48 + n mod 10) = true)
    by (unfold is_digit; pose proof (Z.mod_pos_bound n 10); rewrite andb_true_iff; split; apply Z.leb_le; lia).
  rewrite Nat2Z.inj_succ, Z.pow_succ_r in Hn by lia. destruct (Z.ltb_spec n 10).
  - exists [48 + n mod 10]. split_and!; [done|done|by constructor|]. cbn [digits]. rewrite Hd. rewrite Z.mod_small by lia. lia.
  - destruct (IH (n / 10) ((48 + n mod 10) :: acc)) as (l & Hl & Hne & Hall & Hv).
    + split; [apply Z.div_pos; lia|]. apply Z.div_lt_upper_bound; lia.
    + destruct f; [cbn in Hn; lia|lia].
    + by constructor.
    + exists (l ++ [48 + n mod 10]). rewrite Hl, <- app_assoc. split_and!; [done|by destruct l|by apply Forall_app; split; [|constructor]|].
      rewrite digits_app by done. cbn [digits]. rewrite Hd, Hv. pose proof (Z.div_mod n 10). lia.
Qed.

Lemma decimal_spec n : 0 <= n < 2 ^ 32 -> decimal n <> [] /\ Forall (fun c => is_digit c = true) (decimal n) /\ digits 0 (decimal n) = n.
Proof. intros H. unfold decimal. destruct (decimal_aux_spec 20 n []) as (l & -> & ?); [lia|lia|done|]. by rewrite app_nil_r. Qed.

(** Reading a number of 32 bits gives the number. *)
Lemma strtol_decimal n : 0 <= n < 2 ^ 32 -> strtol32 (decimal n) = n.
Proof.
  intros H. destruct (decimal_spec n H) as (Hne & Hall & Hv). unfold strtol32, strtol.
  destruct (decimal n) as [|c l] eqn:E; [done|]. inversion Hall as [|? ? Hc Hl]; subst. unfold is_digit in Hc. bprop.
  cbn [skip_space]. replace (is_space c) with false.
  2: { symmetry. unfold is_space. rewrite (proj2 (Z.eqb_neq c 32)), (proj2 (Z.leb_gt c 13)) by lia. by rewrite andb_false_r. }
  rewrite (proj2 (Z.eqb_neq c 45)), (proj2 (Z.eqb_neq c 43)) by lia. rewrite Z.min_r, Z.max_r by lia. apply u32_small. lia.
Qed.
