(* ===== verification/VosMem.v ===== *)
(** * The memory pool of the virtual operating system layer

    Models [vos_memInit], [vos_memAlloc], [vos_memFree] and [vos_memCount] of
    src/app/trdp/tcnopen/vos_mem.c. Addresses are integers; the [pNext] chains of the free
    blocks are lists of block addresses; the [size] word of a block header is the function
    [hdr]; the bytes of the area are the function [mem]. The results of [malloc] and of the mutex
    calls come from the environment and are arguments. [MEM_BLOCK_T] takes 16 bytes (LP64). *)
From Stdlib Require Import Sorted.
From S2P Require Import Prelude.

Definition sizeof_MEM_BLOCK_T : Z := 16.
Definition VOS_MEM_NBLOCKSIZES : Z := 15.
Definition VOS_MEM_MAX_PREALLOCATE : Z := 10.
(** The tables of the [MD_SUPPORT] build. *)
Definition VOS_MEM_BLOCKSIZES : list Z :=
  [48; 72; 128; 180; 256; 512; 1024; 1480; 2048; 4096; 11520; 16384; 32768; 65536; 131072].
Definition VOS_MEM_PREALLOCATE : list Z := [0; 0; 0; 0; 0; 0; 0; 10; 0; 2; 1; 0; 2; 0; 0].

Record MEM_STATISTIC_T := mkStat {
  freeSize : Z; minFreeSize : Z; allocCnt : Z; allocErrCnt : Z; freeErrCnt : Z;
  blockCnt : list Z; preAlloc : list Z }.

Record freeBlock_t := mkFB { fb_size : Z; fb_list : list Z }.

Record MEM_CONTROL_T := mkMem {
  pArea : option Z; pFreeArea : Z; memSize : Z; allocSize : Z; noOfBlocks : Z;
  wasMalloced : bool; freeBlock : list freeBlock_t; memCnt : MEM_STATISTIC_T;
  hdr : Z -> Z; mem : Z -> Z }.

Inductive VOS_ERR_T :=
| VOS_NO_ERR | VOS_PARAM_ERR | VOS_INIT_ERR | VOS_NOINIT_ERR | VOS_TIMEOUT_ERR
| VOS_NODATA_ERR | VOS_SOCK_ERR | VOS_IO_ERR | VOS_MEM_ERR | VOS_SEMA_ERR | VOS_QUEUE_ERR
| VOS_QUEUE_FULL_ERR | VOS_MUTEX_ERR | VOS_THREAD_ERR | VOS_BLOCK_ERR | VOS_INTEGRATION_ERR
| VOS_NOCONN_ERR | VOS_UNKNOWN_ERR.

(** ** Field updates *)
Definition set_cnt (f : MEM_STATISTIC_T -> MEM_STATISTIC_T) (g : MEM_CONTROL_T) : MEM_CONTROL_T :=
  mkMem (pArea g) (pFreeArea g) (memSize g) (allocSize g) (noOfBlocks g) (wasMalloced g)
        (freeBlock g) (f (memCnt g)) (hdr g) (mem g).
Definition set_free (f : list freeBlock_t -> list freeBlock_t) (g : MEM_CONTROL_T) : MEM_CONTROL_T :=
  mkMem (pArea g) (pFreeArea g) (memSize g) (allocSize g) (noOfBlocks g) (wasMalloced g)
        (f (freeBlock g)) (memCnt g) (hdr g) (mem g).
Definition set_hdr (p s : Z) (g : MEM_CONTROL_T) : MEM_CONTROL_T :=
  mkMem (pArea g) (pFreeArea g) (memSize g) (allocSize g) (noOfBlocks g) (wasMalloced g)
        (freeBlock g) (memCnt g) (fun a => if a =? p then s else hdr g a) (mem g).
Definition memset (p v n : Z) (g : MEM_CONTROL_T) : MEM_CONTROL_T :=
  mkMem (pArea g) (pFreeArea g) (memSize g) (allocSize g) (noOfBlocks g) (wasMalloced g)
        (freeBlock g) (memCnt g) (hdr g) (fun a => if (p <=? a) && (a <? p + n) then v else mem g a).

Definition inc_allocErr (c : MEM_STATISTIC_T) :=
  mkStat (freeSize c) (minFreeSize c) (allocCnt c) (u32 (allocErrCnt c + 1)) (freeErrCnt c)
         (blockCnt c) (preAlloc c).
Definition inc_freeErr (c : MEM_STATISTIC_T) :=
  mkStat (freeSize c) (minFreeSize c) (allocCnt c) (allocErrCnt c) (u32 (freeErrCnt c + 1))
         (blockCnt c) (preAlloc c).
Definition inc_blockCnt (i : nat) (c : MEM_STATISTIC_T) :=
  mkStat (freeSize c) (minFreeSize c) (allocCnt c) (allocErrCnt c) (freeErrCnt c)
         (alter (fun n => u32 (n + 1)) i (blockCnt c)) (preAlloc c).
Definition count_alloc (n : Z) (c : MEM_STATISTIC_T) :=
  let fs := u32 (freeSize c - n) in
  mkStat fs (if fs <? minFreeSize c then fs else minFreeSize c) (u32 (allocCnt c + 1))
         (allocErrCnt c) (freeErrCnt c) (blockCnt c) (preAlloc c).
Definition count_free (n : Z) (c : MEM_STATISTIC_T) :=
  mkStat (u32 (freeSize c + n)) (minFreeSize c) (u32 (allocCnt c - 1))
         (allocErrCnt c) (freeErrCnt c) (blockCnt c) (preAlloc c).

Definition set_first (i : nat) (l : list Z) : list freeBlock_t -> list freeBlock_t :=
  alter (fun fb => mkFB (fb_size fb) l) i.

(** ** Searching the free block headers, [i] counting from the first one inspected *)
Fixpoint find_size (p : Z -> bool) (l : list freeBlock_t) (i : nat) : option (nat * freeBlock_t) :=
  match l with
  | [] => None
  | fb :: l' => if p (fb_size fb) then Some (i, fb) else find_size p l' (S i)
  end.

(** The [while] loop that falls back on a bigger block. *)
Fixpoint find_bigger (l : list freeBlock_t) (i : nat) : option (nat * Z * Z * list Z) :=
  match l with
  | [] => None
  | fb :: l' => match fb_list fb with
                | p :: rest => Some (i, fb_size fb, p, rest)
                | [] => find_bigger l' (S i)
                end
  end.

Definition headers (g : MEM_CONTROL_T) : list freeBlock_t :=
  take (Z.to_nat (noOfBlocks g)) (freeBlock g).

(** The new block: counts it, fills in its header and clears its data area. *)
Definition give_block (pBlock blockSize : Z) (g : MEM_CONTROL_T) : option Z * MEM_CONTROL_T :=
  let g1 := set_hdr pBlock blockSize g in
  let g2 := set_cnt (count_alloc (blockSize + sizeof_MEM_BLOCK_T)) g1 in
  let g3 := memset (pBlock + sizeof_MEM_BLOCK_T) 0 blockSize g2 in
  (Some (pBlock + sizeof_MEM_BLOCK_T), g3).

(** Carving a new block out of the free part of the area. *)
Definition carve (i : nat) (blockSize : Z) (g : MEM_CONTROL_T) : MEM_CONTROL_T :=
  set_cnt (inc_blockCnt i)
    (mkMem (pArea g) (pFreeArea g + (sizeof_MEM_BLOCK_T + blockSize)) (memSize g)
           (u32 (allocSize g + (blockSize + sizeof_MEM_BLOCK_T))) (noOfBlocks g) (wasMalloced g)
           (freeBlock g) (memCnt g) (hdr g) (mem g)).

Definition is_heap (g : MEM_CONTROL_T) : bool :=
  (memSize g =? 0) && match pArea g with None => true | Some _ => false end.

Definition vos_memAlloc (malloc : option Z) (lock_ok : bool) (size : Z) (g : MEM_CONTROL_T)
  : option Z * MEM_CONTROL_T :=
  if size =? 0 then (None, set_cnt inc_allocErr g)
  else if is_heap g then
    (malloc, match malloc with Some p => memset p 0 size g | None => g end)
  else
    let size := u32 ((size + 4 - 1) / 4 * 4) in
    match find_size (fun s => size <=? s) (headers g) 0 with
    | None => (None, set_cnt inc_allocErr g)
    | Some (i, fb) =>
        if negb lock_ok then (None, set_cnt inc_allocErr g)
        else
          let blockSize := fb_size fb in
          match fb_list fb with
          | pBlock :: rest => give_block pBlock blockSize (set_free (set_first i rest) g)
          | [] =>
              if u32 (allocSize g + blockSize) + sizeof_MEM_BLOCK_T <? memSize g
              then give_block (pFreeArea g) blockSize (carve i blockSize g)
              else match find_bigger (drop (S i) (headers g)) (S i) with
                   | Some (j, bs, pBlock, rest) =>
                       give_block pBlock bs (set_free (set_first j rest) g)
                   | None => (None, set_cnt inc_allocErr g)
                   end
          end
    end.

Definition vos_memFree (lock_ok : bool) (pMemBlock : option Z) (g : MEM_CONTROL_T) : MEM_CONTROL_T :=
  match pMemBlock with
  | None => set_cnt inc_freeErr g
  | Some p =>
      if is_heap g then g
      else
        let base := default 0 (pArea g) in
        if (p <? base) || (p >=? base + memSize g) then set_cnt inc_freeErr g
        else if negb lock_ok then set_cnt inc_freeErr g
        else
          let pBlock := p - sizeof_MEM_BLOCK_T in
          let blockSize := hdr g pBlock in
          match find_size (fun s => blockSize =? s) (headers g) 0 with
          | None => set_cnt inc_freeErr g
          | Some (i, fb) =>
              set_hdr pBlock 0
                (set_free (set_first i (pBlock :: fb_list fb))
                   (set_cnt (count_free (blockSize + sizeof_MEM_BLOCK_T)) g))
          end
  end.

(** ** Initialisation *)

(** The two [for (j = 0; j < max; j++)] loops on the array [p]. *)
Fixpoint prealloc_loop (lock_ok : bool) (bs : Z) (n j : nat) (p : list (option Z)) (g : MEM_CONTROL_T)
  : list (option Z) * MEM_CONTROL_T :=
  match n with
  | O => (p, g)
  | S n' =>
      let '(r, g') := vos_memAlloc None lock_ok bs g in
      let p' := <[j := r]> p in
      match r with
      | None => (p', g')
      | Some _ => prealloc_loop lock_ok bs n' (S j) p' g'
      end
  end.

Fixpoint prefree_loop (lock_ok : bool) (p : list (option Z)) (g : MEM_CONTROL_T) : MEM_CONTROL_T :=
  match p with
  | [] => g
  | Some a :: p' => prefree_loop lock_ok p' (vos_memFree lock_ok (Some a) g)
  | None :: p' => prefree_loop lock_ok p' g
  end.

(** The body of [for (i = 0; i < VOS_MEM_NBLOCKSIZES; i++)]. *)
Definition init_class (lock_ok : bool) (bs : Z) (i : nat) (pg : list (option Z) * MEM_CONTROL_T)
  : list (option Z) * MEM_CONTROL_T :=
  let '(p, g) := pg in
  let g1 := set_free (<[i := mkFB bs []]>) g in
  let max := nth i (preAlloc (memCnt g1)) 0 in
  let max := if max >? VOS_MEM_MAX_PREALLOCATE then VOS_MEM_MAX_PREALLOCATE else max in
  let '(p2, g2) := prealloc_loop lock_ok bs (Z.to_nat max) 0 p g1 in
  (p2, prefree_loop lock_ok (take (Z.to_nat max) p2) g2).

Fixpoint init_classes (lock_ok : bool) (bss : list Z) (i : nat) (pg : list (option Z) * MEM_CONTROL_T)
  : list (option Z) * MEM_CONTROL_T :=
  match bss with
  | [] => pg
  | bs :: bss' => init_classes lock_ok bss' (S i) (init_class lock_ok bs i pg)
  end.

Definition sum_sizes (counts : list Z) : Z :=
  fold_left (fun acc nb => u32 (acc + u32 (fst nb * snd nb))) (combine counts VOS_MEM_BLOCKSIZES) 0.

Definition set_preAlloc (l : list Z) (c : MEM_STATISTIC_T) : MEM_STATISTIC_T :=
  mkStat (freeSize c) (minFreeSize c) (allocCnt c) (allocErrCnt c) (freeErrCnt c) (blockCnt c) l.

Definition vos_memInit (mutex_ok lock_ok : bool) (malloc : option Z) (pMemoryArea : option Z)
    (size : Z) (fragMem : option (list Z)) (g : MEM_CONTROL_T) : VOS_ERR_T * MEM_CONTROL_T :=
  let c := memCnt g in
  let g0 := mkMem (pArea g) (pFreeArea g) size 0 0 (wasMalloced g) (freeBlock g)
              (mkStat size size 0 0 0 (blockCnt c) (preAlloc c)) (hdr g) (mem g) in
  if negb mutex_ok then (VOS_MUTEX_ERR, g0)
  else
    let given := match fragMem with
                 | Some l => if existsb truthy l then Some l else None
                 | None => None end in
    let minSize := match given with Some l => sum_sizes l | None => 0 end in
    let g1 := match given with Some l => set_cnt (set_preAlloc l) g0 | None => g0 end in
    match pMemoryArea, size =? 0 with
    | None, true =>
        (VOS_NO_ERR, mkMem None (pFreeArea g1) 0 (allocSize g1) 0 (wasMalloced g1) (freeBlock g1)
                           (memCnt g1) (hdr g1) (mem g1))
    | Some _, true => (VOS_PARAM_ERR, g1)
    | _, false =>
        let area := match pMemoryArea with Some a => Some a | None => malloc end in
        let wasM := match pMemoryArea with Some _ => wasMalloced g1 | None => true end in
        match area with
        | None => (VOS_MEM_ERR, mkMem None (pFreeArea g1) size (allocSize g1) (noOfBlocks g1)
                           (wasMalloced g1) (freeBlock g1) (memCnt g1) (hdr g1) (mem g1))
        | Some a =>
            let g2 := if minSize >? size / 2 then set_cnt (set_preAlloc (repeat 0 15)) g1 else g1 in
            let g3 := mkMem (Some a) a size (allocSize g2) VOS_MEM_NBLOCKSIZES wasM (freeBlock g2)
                            (memCnt g2) (hdr g2) (mem g2) in
            (VOS_NO_ERR,
             snd (init_classes lock_ok VOS_MEM_BLOCKSIZES 0 (repeat None 10, g3)))
        end
    end.

(** [gMem] as statically initialised. *)
Definition gMem_init : MEM_CONTROL_T :=
  mkMem None 0 0 0 0 false (repeat (mkFB 0 []) 15)
        (mkStat 0 0 0 0 0 (repeat 0 15) VOS_MEM_PREALLOCATE) (fun _ => 0) (fun _ => 0).

(** [vos_memDelete] clears the whole of [gMem], whatever pointer it is given; the area it allocated
    itself is released (second result). *)
Definition vos_memDelete (pMemoryArea : option Z) (g : MEM_CONTROL_T) : MEM_CONTROL_T * option Z :=
  (mkMem None 0 0 0 0 false (repeat (mkFB 0 []) 15) (mkStat 0 0 0 0 0 (repeat 0 15) (repeat 0 15)) (fun _ => 0) (mem g),
   if wasMalloced g then pArea g else None).

(** [vos_memCount]: pool size, free, minimum free, live blocks, the two error counters and the
    two tables; the early assignments of the heap mode are overwritten. *)
Definition vos_memCount (g : MEM_CONTROL_T) : Z * Z * Z * Z * Z * Z * list Z * list Z :=
  (memSize g, freeSize (memCnt g), minFreeSize (memCnt g), allocCnt (memCnt g),
   allocErrCnt (memCnt g), freeErrCnt (memCnt g), map fb_size (freeBlock g), blockCnt (memCnt g)).

(** ** Lists of blocks *)

(** A block is its header address and the size of its data area. *)
Fixpoint block_bytes (l : list (Z * Z)) : Z :=
  match l with
  | [] => 0
  | (_, s) :: l' => s + sizeof_MEM_BLOCK_T + block_bytes l'
  end.

Definition free_blocks (l : list freeBlock_t) : list (Z * Z) :=
  concat (map (fun fb => map (fun p => (p, fb_size fb)) (fb_list fb)) l).

(** The blocks of [l] lie one after the other from address [a] to address [e]. *)
Fixpoint tiled (a : Z) (l : list (Z * Z)) (e : Z) : Prop :=
  match l with
  | [] => a = e
  | (p, s) :: l' => p = a /\ 0 <= s /\ tiled (a + sizeof_MEM_BLOCK_T + s) l' e
  end.

(** The allocator's invariant: the area up to [pFreeArea] is tiled by the blocks handed out and
    not given back ([live]), those in transit between the lists ([mid]) and the free ones; the
    header of a live block holds its size, that of a free one 0, and the accounting is exact. *)
Record mem_inv_mid (g : MEM_CONTROL_T) (live mid : list (Z * Z)) : Prop := {
  inv_area : exists base, pArea g = Some base /\ pFreeArea g = base + allocSize g
      /\ exists all, tiled base all (pFreeArea g)
                     /\ all ≡ₚ live ++ mid ++ free_blocks (freeBlock g);
  inv_sizes : Forall (fun fb => 0 <= fb_size fb <= 131072) (freeBlock g);
  inv_nblocks : noOfBlocks g = VOS_MEM_NBLOCKSIZES /\ length (freeBlock g) = 15%nat;
  inv_alloc : 0 <= allocSize g < memSize g /\ memSize g <= 2 ^ 32 - 131088;
  inv_hdr : Forall (fun b => hdr g (fst b) = snd b) live;
  inv_hdr_free : Forall (fun b => hdr g (fst b) = 0) (free_blocks (freeBlock g));
  inv_class : Forall (fun b => snd b ∈ map fb_size (freeBlock g)) (live ++ mid);
  inv_freeSize : freeSize (memCnt g) = memSize g - block_bytes live }.

Abbreviation mem_inv g live := (mem_inv_mid g live []).

Lemma block_bytes_app l1 l2 : block_bytes (l1 ++ l2) = block_bytes l1 + block_bytes l2.
Proof. induction l1 as [|[p s] l1 IH]; cbn; lia. Qed.

Lemma block_bytes_perm l1 l2 : l1 ≡ₚ l2 -> block_bytes l1 = block_bytes l2.
Proof. induction 1 as [|[]|[] []|]; cbn in *; lia. Qed.

Lemma tiled_bytes a l e : tiled a l e -> e = a + block_bytes l.
Proof.
  revert a; induction l as [|[p s] l IH]; intros a; cbn; [lia|].
  intros (-> & ? & H). apply IH in H. lia.
Qed.

Lemma tiled_snoc a l e s : tiled a l e -> 0 <= s -> tiled a (l ++ [(e, s)]) (e + sizeof_MEM_BLOCK_T + s).
Proof.
  revert a; induction l as [|[p s'] l IH]; intros a; cbn; [intros ->; auto|].
  intros (-> & ? & H) ?. auto.
Qed.

(** Two blocks of a tiling that overlap are the same block. *)
Definition apart (b c : Z * Z) : Prop :=
  fst b + sizeof_MEM_BLOCK_T + snd b <= fst c \/ fst c + sizeof_MEM_BLOCK_T + snd c <= fst b.

Lemma tiled_range a l e : tiled a l e ->
  Forall (fun b => a <= fst b /\ 0 <= snd b /\ fst b + sizeof_MEM_BLOCK_T + snd b <= e) l /\ a <= e.
Proof.
  revert a; induction l as [|[p s] l IH]; intros a; cbn; [intros ->; split; [constructor|lia]|].
  intros (-> & Hs & H). apply IH in H as [H He]. unfold sizeof_MEM_BLOCK_T in *.
  split; [|lia]. constructor; [cbn; lia|].
  eapply Forall_impl; [|exact H]. cbn. lia.
Qed.

Lemma tiled_apart a l e : tiled a l e -> ForallOrdPairs apart l.
Proof.
  revert a; induction l as [|[p s] l IH]; intros a; cbn; [constructor|].
  intros (-> & Hs & H). constructor; [|eauto].
  apply tiled_range in H as [H _]. eapply Forall_impl; [|exact H].
  unfold apart; cbn. lia.
Qed.

Lemma FOP_perm (l k : list (Z * Z)) : l ≡ₚ k -> ForallOrdPairs apart l -> ForallOrdPairs apart k.
Proof.
  assert (Sym : forall b c, apart b c -> apart c b) by (unfold apart; lia).
  induction 1 as [|x l k P IH|x y l|l k m P1 IH1 P2 IH2]; intros H; auto.
  - inversion H; subst. constructor; [|auto]. by rewrite <- P.
  - inversion H as [|? ? Hx Hl]; subst. inversion Hl; subst. inversion Hx; subst.
    constructor; [constructor|constructor]; auto.
Qed.

(** *** The free lists *)
Lemma free_blocks_lookup l i fb : l !! i = Some fb ->
  free_blocks l ≡ₚ map (fun p => (p, fb_size fb)) (fb_list fb) ++ free_blocks (set_first i [] l).
Proof.
  revert i; induction l as [|x l IH]; intros [|i] H; try discriminate; cbn in *.
  - by injection H as ->.
  - rewrite (IH _ H). unfold free_blocks. rewrite !app_assoc. apply Permutation_app_tail.
    apply Permutation_app_comm.
Qed.

Lemma set_first_twice i k k' l : set_first i k (set_first i k' l) = set_first i k l.
Proof.
  unfold set_first. revert i. induction l as [|x l IH]; intros [|i]; cbn; auto. f_equal. apply IH.
Qed.

Lemma set_first_sizes i k l : map fb_size (set_first i k l) = map fb_size l.
Proof. revert i; induction l as [|x l IH]; intros [|i]; cbn; auto. f_equal. apply IH. Qed.

Lemma set_first_lookup i k l fb : l !! i = Some fb ->
  set_first i k l !! i = Some (mkFB (fb_size fb) k).
Proof. intros H. unfold set_first. by rewrite list_lookup_alter_eq, H. Qed.

Lemma set_first_blocks l i fb k : l !! i = Some fb ->
  free_blocks (set_first i k l)
  ≡ₚ map (fun p => (p, fb_size fb)) k ++ free_blocks (set_first i [] l).
Proof.
  intros H. rewrite (free_blocks_lookup _ i (mkFB (fb_size fb) k)) by by apply set_first_lookup.
  cbn. by rewrite set_first_twice.
Qed.

Lemma free_blocks_pop l i s p rest : l !! i = Some (mkFB s (p :: rest)) ->
  free_blocks l ≡ₚ (p, s) :: free_blocks (set_first i rest l).
Proof.
  intros H. rewrite (free_blocks_lookup _ _ _ H), (set_first_blocks _ _ _ rest H). done.
Qed.

Lemma free_blocks_push l i fb p : l !! i = Some fb ->
  free_blocks (set_first i (p :: fb_list fb) l) ≡ₚ (p, fb_size fb) :: free_blocks l.
Proof.
  intros H. rewrite (set_first_blocks _ _ _ _ H), (free_blocks_lookup _ _ _ H). done.
Qed.

Lemma find_size_spec p l i j fb : find_size p l i = Some (j, fb) ->
  exists k, j = (i + k)%nat /\ l !! k = Some fb /\ p (fb_size fb) = true.
Proof.
  revert i; induction l as [|x l IH]; intros i; cbn; [discriminate|]. destruct (p (fb_size x)) eqn:E.
  - intros [= <- <-]. exists O. split; [lia|auto].
  - intros H. apply IH in H as (k & -> & ? & ?). exists (S k). split; [lia|auto].
Qed.

Lemma find_size_total p l i s : s ∈ map fb_size l -> p s = true -> is_Some (find_size p l i).
Proof.
  revert i; induction l as [|x l IH]; intros i Hs Hp; cbn in *; [set_solver|].
  destruct (p (fb_size x)) eqn:E; [eauto|].
  apply elem_of_cons in Hs as [->|Hs]; [congruence|eauto].
Qed.

Lemma find_bigger_spec l i j s q rest : find_bigger l i = Some (j, s, q, rest) ->
  exists k, j = (i + k)%nat /\ l !! k = Some (mkFB s (q :: rest)).
Proof.
  revert i; induction l as [|[s' [|q' r']] l IH]; intros i; cbn; [discriminate| |].
  - intros H. apply IH in H as (k & -> & ?). exists (S k). split; [lia|auto].
  - intros [= <- <- <- <-]. exists O. split; [lia|auto].
Qed.

(** *** How the two operations change the invariant *)

(** Updating a header leaves those of the other blocks alone. *)
Lemma hdr_others g p v (l : list (Z * Z)) (P : Z * Z -> Z -> Prop) :
  Forall (fun b => fst b <> p) l -> Forall (fun b => P b (hdr g (fst b))) l ->
  Forall (fun b => P b (if fst b =? p then v else hdr g (fst b))) l.
Proof.
  intros H1 H2. apply Forall_forall. intros b Hb. rewrite Forall_forall in H1, H2.
  apply H1 in Hb as Hne. apply Z.eqb_neq in Hne as ->. auto.
Qed.

Lemma inv_tiled g live mid : mem_inv_mid g live mid ->
  ForallOrdPairs apart (mid ++ live ++ free_blocks (freeBlock g))
  /\ Forall (fun b => 0 <= snd b) (mid ++ live ++ free_blocks (freeBlock g))
  /\ allocSize g = block_bytes mid + block_bytes live + block_bytes (free_blocks (freeBlock g)).
Proof.
  intros [(base & Hb & Hf & all & Ht & Hp) _ _ _ _ _ _].
  assert (Hp' : all ≡ₚ mid ++ live ++ free_blocks (freeBlock g)).
  { rewrite Hp, !app_assoc. apply Permutation_app_tail, Permutation_app_comm. }
  split; [|split].
  - eapply FOP_perm; [exact Hp'|]. eapply tiled_apart, Ht.
  - rewrite <- Hp'. apply tiled_range in Ht as [Ht _].
    eapply Forall_impl; [|exact Ht]. cbn; lia.
  - apply tiled_bytes in Ht. rewrite (block_bytes_perm _ _ Hp'), !block_bytes_app in Ht. lia.
Qed.

Lemma block_bytes_nonneg l : Forall (fun b => 0 <= snd b) l -> 0 <= block_bytes l.
Proof. induction 1 as [|[p s] l]; cbn in *; unfold sizeof_MEM_BLOCK_T; lia. Qed.

(** The accounting never underflows. *)
Lemma inv_bytes g live mid : mem_inv_mid g live mid ->
  0 <= block_bytes mid /\ 0 <= block_bytes live
  /\ block_bytes mid + block_bytes live <= allocSize g.
Proof.
  intros H. destruct (inv_tiled _ _ _ H) as (_ & Hn & Hs). rewrite !Forall_app in Hn.
  destruct Hn as (H1 & H2 & H3). apply block_bytes_nonneg in H1, H2, H3. lia.
Qed.

Lemma apart_ne p s l : 0 <= s -> Forall (fun b => 0 <= snd b) l ->
  Forall (apart (p, s)) l -> Forall (fun b => fst b <> p) l.
Proof.
  intros Hs Hn Ha. apply Forall_forall. intros b Hb. rewrite Forall_forall in Hn, Ha.
  apply Hn in Hb as H1. apply Ha in Hb as H2. unfold apart, sizeof_MEM_BLOCK_T in H2. cbn in H2. lia.
Qed.

(** Handing out the block in transit. *)
Lemma give_block_inv g live p s : mem_inv_mid g live [(p, s)] ->
  mem_inv (snd (give_block p s g)) ((p, s) :: live).
Proof.
  intros Hi. pose proof (inv_tiled _ _ _ Hi) as (Hap & Hnn & _).
  pose proof (inv_bytes _ _ _ Hi) as Hby. cbn in Hby.
  destruct Hi as [(base & Hb & Hf & all & Ht & Hp) Hs Hn Ha Hh Hhf Hc Hfs].
  inversion Hap as [|? ? Hx _]; inversion Hnn as [|? ? Hs0 Hnn']; subst.
  apply apart_ne in Hx; auto. apply Forall_app in Hx as [Hx1 Hx2].
  split; cbn; auto.
  - exists base. split_and!; auto. exists all. split; auto. rewrite Hp. cbn.
    apply Permutation_sym, Permutation_middle.
  - constructor; cbn; [by rewrite Z.eqb_refl|].
    by apply hdr_others with (P := fun b v => v = snd b).
  - by apply hdr_others with (P := fun b v => v = 0).
  - rewrite app_nil_r. apply Forall_app in Hc as [Hc1 Hc2]. constructor; auto.
    by inversion Hc2.
  - rewrite Hfs. unfold sizeof_MEM_BLOCK_T in *. cbn in *. rewrite u32_small; lia.
Qed.

(** Taking a block off a free list. *)
Lemma pop_inv g live i s p rest : mem_inv g live ->
  freeBlock g !! i = Some (mkFB s (p :: rest)) ->
  mem_inv_mid (set_free (set_first i rest) g) live [(p, s)].
Proof.
  intros [(base & Hb & Hf & all & Ht & Hp) Hs Hn Ha Hh Hhf Hc Hfs] Hl.
  pose proof (free_blocks_pop _ _ _ _ _ Hl) as Pop. rewrite Pop in Hhf.
  split; cbn; auto.
  - exists base. split_and!; auto. exists all. split; auto. by rewrite Hp, <- Pop.
  - unfold set_first. apply Forall_alter; auto.
  - unfold set_first. by rewrite length_alter.
  - by inversion Hhf.
  - rewrite set_first_sizes. rewrite app_nil_r in Hc. apply Forall_app. split; auto.
    constructor; [|constructor]. cbn. apply list_elem_of_lookup. exists i.
    change (map fb_size (freeBlock g)) with (fb_size <$> freeBlock g).
    by rewrite list_lookup_fmap, Hl.
Qed.

(** Carving a block out of the unused part. *)
Lemma carve_inv g live i fb : mem_inv g live -> freeBlock g !! i = Some fb ->
  u32 (allocSize g + fb_size fb) + sizeof_MEM_BLOCK_T < memSize g ->
  mem_inv_mid (carve i (fb_size fb) g) live [(pFreeArea g, fb_size fb)].
Proof.
  intros [(base & Hb & Hf & all & Ht & Hp) Hs Hn Ha Hh Hhf Hc Hfs] Hl.
  pose proof Hs as Hs'. rewrite Forall_lookup in Hs'. specialize (Hs' _ _ Hl).
  rewrite u32_small by lia. intros Hroom. unfold sizeof_MEM_BLOCK_T in *.
  split; cbn; unfold sizeof_MEM_BLOCK_T; auto.
  - exists base. rewrite u32_small by lia. split_and!; auto; [lia|].
    exists (all ++ [(pFreeArea g, fb_size fb)]). split.
    + rewrite Z.add_assoc. apply tiled_snoc; [auto|lia].
    + rewrite Hp, <- app_assoc. cbn. apply Permutation_app_head, Permutation_app_comm.
  - rewrite u32_small; lia.
  - rewrite app_nil_r in Hc. apply Forall_app. split; auto.
    constructor; [|constructor]. cbn. apply list_elem_of_lookup. exists i.
    change (map fb_size (freeBlock g)) with (fb_size <$> freeBlock g).
    by rewrite list_lookup_fmap, Hl.
Qed.

(** Blocks of the area that do not overlap, with their headers. *)
Definition blocks_ok (g : MEM_CONTROL_T) (l : list (Z * Z)) : Prop :=
  ForallOrdPairs apart l
  /\ Forall (fun b => default 0 (pArea g) <= fst b
                      /\ fst b + sizeof_MEM_BLOCK_T + snd b <= default 0 (pArea g) + memSize g) l.

Lemma inv_blocks_ok g live : mem_inv g live -> blocks_ok g live.
Proof.
  intros Hi. pose proof (inv_tiled _ _ _ Hi) as (Hap & _).
  destruct Hi as [(base & Hb & Hf & all & Ht & Hp) Hs Hn Ha Hh Hhf Hc Hfs].
  split.
  - cbn in Hap. clear -Hap. induction live as [|b l IH]; [constructor|].
    inversion Hap as [|? ? Hx ?]; subst. constructor; [|auto]. by apply Forall_app in Hx as [].
  - rewrite Hb. cbn. apply tiled_range in Ht as [Ht _]. rewrite Hp in Ht.
    apply Forall_app in Ht as [Ht _]. eapply Forall_impl; [|exact Ht]. cbn. lia.
Qed.

Lemma is_heap_false g live mid : mem_inv_mid g live mid -> is_heap g = false.
Proof.
  intros [(base & Hb & _) _ _ _ _ _ _ _]. unfold is_heap. rewrite Hb. apply andb_false_r.
Qed.

Lemma headers_all g live mid : mem_inv_mid g live mid -> headers g = freeBlock g.
Proof. intros []. unfold headers. destruct inv_nblocks0 as [-> H]. by rewrite firstn_all2; [|rewrite H]. Qed.

Lemma give_block_spec g live p s : mem_inv_mid g live [(p, s)] ->
  let g' := snd (give_block p s g) in
  mem_inv g' ((p, s) :: live)
  /\ (forall x, p + sizeof_MEM_BLOCK_T <= x < p + sizeof_MEM_BLOCK_T + s -> mem g' x = 0)
  /\ (forall b x, b ∈ live -> fst b <= x < fst b + sizeof_MEM_BLOCK_T + snd b -> mem g' x = mem g x).
Proof.
  intros Hi g'. split; [by apply give_block_inv|]. split.
  - intros x Hx. cbn. destruct (_ && _) eqn:E; [done|].
    apply andb_false_iff in E as [E|E]; bprop; lia.
  - intros b x Hb Hx. cbn. destruct (_ && _) eqn:E; [exfalso; bprop|done].
    destruct (inv_tiled _ _ _ Hi) as (Hap & _). inversion Hap as [|? ? Ha _]; subst.
    apply Forall_app in Ha as [Ha _]. rewrite Forall_forall in Ha. apply list_elem_of_In, Ha in Hb.
    unfold apart, sizeof_MEM_BLOCK_T in *. cbn in Hb. lia.
Qed.

Definition alloc_result (g : MEM_CONTROL_T) (live : list (Z * Z)) (size : Z)
    (r : option Z * MEM_CONTROL_T) : Prop :=
  match r with
  | (None, g') => g' = set_cnt inc_allocErr g
  | (Some a, g') => exists s, size <= s
      /\ mem_inv g' ((a - sizeof_MEM_BLOCK_T, s) :: live)
      /\ blocks_ok g' ((a - sizeof_MEM_BLOCK_T, s) :: live)
      /\ (forall x, a <= x < a + s -> mem g' x = 0)
      /\ (forall b x, b ∈ live -> fst b <= x < fst b + sizeof_MEM_BLOCK_T + snd b ->
                      mem g' x = mem g x)
  end.

Lemma give_block_result g g1 live size p s : mem_inv_mid g1 live [(p, s)] ->
  mem g1 = mem g -> size <= s -> alloc_result g live size (give_block p s g1).
Proof.
  intros Hi Hm Hs. destruct (give_block_spec _ _ _ _ Hi) as (H1 & H2 & H3).
  unfold give_block in *. cbn [alloc_result]. exists s.
  replace (p + sizeof_MEM_BLOCK_T - sizeof_MEM_BLOCK_T) with p by lia.
  rewrite Hm in H3. split; [done|]. split; [exact H1|]. split; [by apply inv_blocks_ok|]. split.
  - intros x Hx. apply H2. cbn in *. lia.
  - intros b x Hb Hx. by apply H3 with b.
Qed.

Definition align4 (size : Z) : Z := u32 ((size + 4 - 1) / 4 * 4).

Lemma align4_ge size : 0 < size <= 2 ^ 32 - 4 -> size <= align4 size.
Proof. intros H. unfold align4. rewrite u32_small; dlia. Qed.

(** The free list headers are in ascending order of size (true of the table, and during the
    initialisation up to the class being set up). *)
Definition ascending (l : list freeBlock_t) : Prop :=
  forall i j x y, (i <= j)%nat -> l !! i = Some x -> l !! j = Some y -> fb_size x <= fb_size y.

(** Every block size has a header, which [find_size] reaches. *)
Lemma find_size_eq l bs : bs ∈ map fb_size l ->
  exists i fb, find_size (fun s => bs =? s) l 0 = Some (i, fb) /\ l !! i = Some fb /\ fb_size fb = bs.
Proof.
  intros H. destruct (find_size_total (fun s => bs =? s) l 0 bs H (Z.eqb_refl bs)) as [[i fb] E].
  exists i, fb. split; [done|]. apply find_size_spec in E as (k & -> & ? & Heq). bprop. auto.
Qed.

Lemma find_size_none l : Forall (fun fb => 0 < fb_size fb) l -> forall i,
  find_size (fun s => 0 =? s) l i = None.
Proof.
  induction 1 as [|x l H _ IH]; intros i; cbn [find_size]; [done|].
  destruct (0 =? fb_size x) eqn:E; [bprop; lia|apply IH].
Qed.

(** A live block lies strictly inside the area, so that [vos_memFree] accepts its address. *)
Lemma free_accepts g live p s : mem_inv g live -> (p, s) ∈ live -> forall lock_ok,
  vos_memFree lock_ok (Some (p + sizeof_MEM_BLOCK_T)) g
  = if negb lock_ok then set_cnt inc_freeErr g else
    match find_size (fun s' => hdr g p =? s') (freeBlock g) 0 with
    | None => set_cnt inc_freeErr g
    | Some (i, fb) =>
        set_hdr p 0 (set_free (set_first i (p :: fb_list fb))
                       (set_cnt (count_free (hdr g p + sizeof_MEM_BLOCK_T)) g))
    end.
Proof.
  intros Hi Hin lock_ok. pose proof (is_heap_false _ _ _ Hi) as Hh.
  pose proof (headers_all _ _ _ Hi) as Hhd.
  destruct Hi as [(base & Hb & Hf & all & Ht & Hp) Hs Hn Ha _ _ _ _].
  unfold vos_memFree. rewrite Hh, Hb, Hhd. cbn [default].
  apply tiled_range in Ht as [Ht _]. rewrite Hp in Ht. apply Forall_app in Ht as [Ht _].
  rewrite Forall_forall in Ht. apply list_elem_of_In, Ht in Hin. cbn in Hin. unfold sizeof_MEM_BLOCK_T in *.
  destruct (_ || _) eqn:E.
  - unfold id in E. apply orb_true_iff in E as [E|E]; bprop; lia.
  - replace (p + 16 - 16) with p by lia. done.
Qed.

Lemma inv_perm g l1 l2 : l1 ≡ₚ l2 -> mem_inv g l1 -> mem_inv g l2.
Proof.
  intros P [(base & Hb & Hf & all & Ht & Hp) Hs Hn Ha Hh Hhf Hc Hfs].
  split; auto; [|by rewrite <- P..|by rewrite <- (block_bytes_perm _ _ P)].
  exists base. split_and!; auto. exists all. split; auto. by rewrite <- P.
Qed.

Lemma free_head_inv g live p s i fb : mem_inv g ((p, s) :: live) ->
  freeBlock g !! i = Some fb -> fb_size fb = s ->
  mem_inv (set_hdr p 0 (set_free (set_first i (p :: fb_list fb))
                 (set_cnt (count_free (s + sizeof_MEM_BLOCK_T)) g))) live.
Proof.
  intros Hi Hl <-. pose proof (inv_tiled _ _ _ Hi) as (Hap & Hnn & _).
  pose proof (inv_bytes _ _ _ Hi) as Hby. cbn in Hby, Hap, Hnn.
  destruct Hi as [(base & Hb & Hf & all & Ht & Hp) Hs Hn Ha Hh Hhf Hc Hfs].
  pose proof (free_blocks_push _ _ _ p Hl) as Push.
  inversion Hap as [|? ? Hx _]; inversion Hnn as [|? ? Hs0 Hnn']; subst. cbn in Hs0.
  apply apart_ne in Hx; auto. apply Forall_app in Hx as [Hx1 Hx2].
  apply Forall_app in Hnn' as [Hnn' _]. apply block_bytes_nonneg in Hnn'.
  split; cbn; auto.
  - exists base. split_and!; auto. exists all. split; auto.
    rewrite Hp, Push. cbn. apply Permutation_middle.
  - unfold set_first. apply Forall_alter; auto.
  - unfold set_first. by rewrite length_alter.
  - inversion Hh; subst. by apply hdr_others with (P := fun b v => v = snd b).
  - rewrite Push. constructor; cbn; [by rewrite Z.eqb_refl|].
    by apply hdr_others with (P := fun b v => v = 0).
  - rewrite set_first_sizes. by inversion Hc.
  - rewrite Hfs. cbn in *. unfold sizeof_MEM_BLOCK_T in *. rewrite u32_small; lia.
Qed.

Lemma set_freeErr_inv g live : mem_inv g live -> mem_inv (set_cnt inc_freeErr g) live.
Proof. intros []. by split. Qed.

(** *** Initialisation *)
Definition clip_prealloc (n : Z) : Z := if n >? VOS_MEM_MAX_PREALLOCATE then VOS_MEM_MAX_PREALLOCATE else n.

(** What the pre-allocation of the classes [bss], from number [i] on, takes from the area. *)
Fixpoint prealloc_cost (pre : list Z) (i : nat) (bss : list Z) : Z :=
  match bss with
  | [] => 0
  | bs :: bss' => Z.of_nat (Z.to_nat (clip_prealloc (nth i pre 0))) * (bs + sizeof_MEM_BLOCK_T)
                  + prealloc_cost pre (S i) bss'
  end.

Lemma prealloc_cost_nonneg pre i bss : Forall (fun bs => 0 < bs) bss -> 0 <= prealloc_cost pre i bss.
Proof.
  intros H. revert i. induction H as [|bs l Hb _ IH]; intros i; cbn; [lia|].
  specialize (IH (S i)). unfold sizeof_MEM_BLOCK_T. nia.
Qed.

Lemma find_size_at p pre fb post : p (fb_size fb) = true ->
  Forall (fun x => p (fb_size x) = false) pre -> forall i,
  find_size p (pre ++ fb :: post) i = Some ((i + length pre)%nat, fb).
Proof.
  intros Hp H. induction H as [|x l Hx _ IH]; intros i; cbn.
  - rewrite Hp. do 2 f_equal. lia.
  - rewrite Hx, IH. do 2 f_equal. lia.
Qed.

Lemma set_first_at pre fb post k :
  set_first (length pre) k (pre ++ fb :: post) = pre ++ mkFB (fb_size fb) k :: post.
Proof. unfold set_first. induction pre as [|x pre IH]; cbn; [done|]. by f_equal. Qed.

Section one_class.
Context (bs : Z) (pre post : list freeBlock_t).
Hypothesis bs_ok : 0 < bs <= 131072 /\ bs mod 4 = 0.
Hypothesis pre_ok : Forall (fun x => fb_size x < bs) pre.

Abbreviation here l := (pre ++ mkFB bs l :: post).

Lemma alloc_here g live : mem_inv g live -> freeBlock g = here [] ->
  allocSize g + (bs + sizeof_MEM_BLOCK_T) < memSize g ->
  vos_memAlloc None true bs g = give_block (pFreeArea g) bs (carve (length pre) bs g).
Proof using bs_ok pre_ok.
  intros Hi Hl Hroom. unfold vos_memAlloc. destruct (bs =? 0) eqn:E; [bprop; lia|].
  rewrite (is_heap_false _ _ _ Hi), (headers_all _ _ _ Hi), Hl. cbv zeta. fold (align4 bs).
  assert (align4 bs = bs) as -> by (unfold align4; rewrite u32_small; dlia).
  rewrite (find_size_at _ pre (mkFB bs [])); [|apply Z.leb_refl|].
  - cbn [negb fb_list fb_size]. destruct (inv_alloc _ _ _ Hi). unfold sizeof_MEM_BLOCK_T in *.
    rewrite u32_small by lia. destruct (_ <? _) eqn:E'; [done|bprop; lia].
  - eapply Forall_impl; [|exact pre_ok]. cbn; intros; bprop. apply Z.leb_gt; lia.
Qed.

Lemma prealloc_loop_ok n : forall j p g live,
  mem_inv g live -> freeBlock g = here [] -> (j + n <= length p)%nat ->
  allocSize g + Z.of_nat n * (bs + sizeof_MEM_BLOCK_T) < memSize g ->
  exists qs g',
    prealloc_loop true bs n j p g
    = (take j p ++ map (fun q => Some (q + sizeof_MEM_BLOCK_T)) qs ++ drop (j + n) p, g')
    /\ length qs = n
    /\ mem_inv g' (map (fun q => (q, bs)) qs ++ live) /\ freeBlock g' = here []
    /\ allocSize g' = allocSize g + Z.of_nat n * (bs + sizeof_MEM_BLOCK_T)
    /\ memSize g' = memSize g /\ preAlloc (memCnt g') = preAlloc (memCnt g).
Proof using bs_ok pre_ok.
  induction n as [|n IH]; intros j p g live Hi Hl Hlen Hroom.
  - exists [], g. rewrite Nat.add_0_r. cbn. rewrite take_drop. split_and!; auto; lia.
  - cbn [prealloc_loop]. unfold sizeof_MEM_BLOCK_T in *.
    assert (Hpos : 0 <= Z.of_nat n * (bs + 16)) by (clear -bs_ok; nia).
    rewrite Nat2Z.inj_succ, Z.mul_succ_l in *.
    rewrite alloc_here with (live := live) by (unfold sizeof_MEM_BLOCK_T; auto; lia).
    assert (Hg : mem_inv (snd (give_block (pFreeArea g) bs (carve (length pre) bs g)))
                   ((pFreeArea g, bs) :: live)).
    { apply give_block_inv. change bs with (fb_size (mkFB bs [])).
      pose proof (inv_alloc _ _ _ Hi). unfold sizeof_MEM_BLOCK_T in *.
      apply carve_inv; auto; cbn; [|rewrite u32_small; unfold sizeof_MEM_BLOCK_T; lia].
      rewrite Hl. by apply list_lookup_middle. }
    destruct (give_block _ _ _) as [r g1] eqn:Eg. injection Eg as Er Eg1. subst r. cbn [snd] in Hg.
    pose proof (inv_alloc _ _ _ Hi) as Hal.
    assert (Hal1 : allocSize g1 = allocSize g + (bs + 16)).
    { subst g1. cbn. unfold sizeof_MEM_BLOCK_T. rewrite u32_small; [done|]. lia. }
    assert (freeBlock g1 = here [] /\ memSize g1 = memSize g
            /\ preAlloc (memCnt g1) = preAlloc (memCnt g)) as (Hl1 & Hm1 & Hp1) by (subst g1; auto).
    clear Eg1.
    destruct (IH (S j) (<[j := Some (pFreeArea g + 16)]> p) g1 _ Hg Hl1) as
      (qs & g' & E & Hqs & Hi' & Hl' & Ha' & Hm' & Hp'); [rewrite length_insert; lia| unfold sizeof_MEM_BLOCK_T; lia |].
    exists (pFreeArea g :: qs), g'. unfold sizeof_MEM_BLOCK_T in *. rewrite E. split_and!.
    + f_equal. rewrite take_S_r with (x := Some (pFreeArea g + 16)) by
        (apply list_lookup_insert_eq; lia).
      rewrite take_insert_ge by lia. rewrite drop_insert_lt by lia.
      replace (j + S n)%nat with (S j + n)%nat by lia. by rewrite <- app_assoc.
    + cbn. lia.
    + eapply inv_perm; [|exact Hi']. cbn. symmetry. apply Permutation_middle.
    + done.
    + lia.
    + congruence.
    + congruence.
Qed.

Lemma prefree_loop_ok qs : forall g l,
  mem_inv g (map (fun q => (q, bs)) qs) -> freeBlock g = here l ->
  exists l', let g' := prefree_loop true (map (fun q => Some (q + sizeof_MEM_BLOCK_T)) qs) g in
    mem_inv g' [] /\ freeBlock g' = here l' /\ allocSize g' = allocSize g
    /\ memSize g' = memSize g /\ preAlloc (memCnt g') = preAlloc (memCnt g).
Proof using pre_ok.
  induction qs as [|q qs IH]; intros g l Hi Hl; [by exists l|].
  cbn [map prefree_loop]. rewrite (free_accepts _ _ q bs Hi) by apply list_elem_of_here.
  cbn [map] in Hi. pose proof (Forall_inv (inv_hdr _ _ _ Hi)) as Hh. cbn in Hh.
  rewrite Hh, Hl. cbn [negb].
  rewrite (find_size_at _ pre (mkFB bs l)); [|apply Z.eqb_refl|].
  2: { eapply Forall_impl; [|exact pre_ok]. cbn; intros. apply Z.eqb_neq; lia. }
  assert (Hlk : freeBlock g !! (length pre) = Some (mkFB bs l)).
  { rewrite Hl. by apply list_lookup_middle. }
  pose proof (free_head_inv _ _ _ _ _ _ Hi Hlk eq_refl) as Hi1.
  cbn [Nat.add fb_list].
  destruct (IH _ (q :: l) Hi1) as (l' & H1 & H2 & H3 & H4 & H5).
  { cbn [freeBlock set_hdr set_free set_cnt fb_list]. by rewrite Hl, set_first_at. }
  exists l'. split_and!; auto.
Qed.

Lemma init_class_ok p g : mem_inv g [] -> freeBlock g = pre ++ mkFB 0 [] :: post ->
  length p = 10%nat ->
  let n := Z.to_nat (clip_prealloc (nth (length pre) (preAlloc (memCnt g)) 0)) in
  allocSize g + Z.of_nat n * (bs + sizeof_MEM_BLOCK_T) < memSize g ->
  exists l p' g', init_class true bs (length pre) (p, g) = (p', g')
    /\ length p' = 10%nat /\ mem_inv g' [] /\ freeBlock g' = here l
    /\ allocSize g' = allocSize g + Z.of_nat n * (bs + sizeof_MEM_BLOCK_T)
    /\ memSize g' = memSize g /\ preAlloc (memCnt g') = preAlloc (memCnt g).
Proof using bs_ok pre_ok.
  intros Hi Hl Hp n Hroom. unfold init_class. cbv zeta. fold (clip_prealloc (nth (length pre)
    (preAlloc (memCnt (set_free <[length pre:={| fb_size := bs; fb_list := [] |}]> g))) 0)).
  cbn [memCnt set_free]. fold n.
  assert (Hins : <[length pre := mkFB bs []]> (freeBlock g) = here []).
  { rewrite Hl. rewrite insert_app_r_alt by lia. by rewrite Nat.sub_diag. }
  assert (Hi1 : mem_inv (set_free <[length pre:=mkFB bs []]> g) []).
  { destruct Hi as [(base & Hb & Hf & all & Ht & Hpm) Hs Hn Ha Hh Hhf Hc Hfs].
    assert (Efree : free_blocks (here []) = free_blocks (freeBlock g)).
    { rewrite Hl. unfold free_blocks. rewrite !map_app, !concat_app. done. }
    split; cbn -[free_blocks]; rewrite ?Hins, ?Efree; auto.
    - exists base. split_and!; auto. exists all. auto.
    - rewrite Hl in Hs. apply Forall_app in Hs as [Hs1 Hs2]. inversion Hs2; subst.
      apply Forall_app; split; auto. constructor; auto. cbn. lia.
    - split; [apply Hn|]. destruct Hn as [_ Hn]. rewrite Hl in Hn. rewrite length_app in *. auto. }
  assert (Hn10 : (n <= 10)%nat).
  { unfold n, clip_prealloc, VOS_MEM_MAX_PREALLOCATE. destruct (_ >? _) eqn:E; bprop; lia. }
  destruct (prealloc_loop_ok n 0 p _ [] Hi1 Hins) as
    (qs & g2 & -> & Hqs & Hi2 & Hl2 & Ha2 & Hm2 & Hp2); [lia|exact Hroom|].
  rewrite app_nil_r in Hi2. rewrite take_0, app_nil_l, take_app_length' by (rewrite length_map; lia).
  destruct (prefree_loop_ok qs _ _ Hi2 Hl2) as (l' & H1 & H2 & H3 & H4 & H5).
  eexists l', _, _. split; [reflexivity|].
  split_and!; auto.
  - rewrite length_app, length_map, length_drop. lia.
  - rewrite H3, Ha2. done.
  - rewrite H4, Hm2. done.
  - rewrite H5, Hp2. done.
Qed.
End one_class.

Lemma init_classes_ok bss : forall pre p g,
  mem_inv g [] -> freeBlock g = pre ++ repeat (mkFB 0 []) (length bss) -> length p = 10%nat ->
  StronglySorted Z.lt (map fb_size pre ++ bss) ->
  Forall (fun bs => 0 < bs <= 131072 /\ bs mod 4 = 0) bss ->
  allocSize g + prealloc_cost (preAlloc (memCnt g)) (length pre) bss < memSize g ->
  exists g', snd (init_classes true bss (length pre) (p, g)) = g' /\ mem_inv g' []
    /\ map fb_size (freeBlock g') = map fb_size pre ++ bss /\ memSize g' = memSize g.
Proof.
  induction bss as [|bs bss IH]; intros pre p g Hi Hl Hp Hsort Hok Hroom.
  - exists g. cbn. rewrite Hl, !app_nil_r. auto.
  - cbn [init_classes]. inversion Hok as [|? ? Hb Hok']; subst. cbn [prealloc_cost] in Hroom.
    assert (0 <= prealloc_cost (preAlloc (memCnt g)) (S (length pre)) bss).
    { apply prealloc_cost_nonneg. eapply Forall_impl; [|exact Hok']. cbn; lia. }
    assert (Hpre : Forall (fun x => fb_size x < bs) pre).
    { clear -Hsort. induction pre as [|x pre IH]; [constructor|]. cbn in Hsort.
      inversion Hsort as [|? ? Hs Hx]; subst. constructor; [|auto].
      apply Forall_app in Hx as [_ Hx]. by inversion Hx. }
    destruct (init_class_ok bs pre (repeat (mkFB 0 []) (length bss)) Hb Hpre p g Hi Hl Hp)
      as (l & p' & g' & E & Hp' & Hi' & Hl' & Ha' & Hm' & Hpr'); [lia|].
    rewrite E.
    destruct (IH (pre ++ [mkFB bs l]) p' g') as (g'' & E2 & Hi'' & Hs'' & Hm''); auto.
    + by rewrite Hl', <- app_assoc.
    + rewrite map_app, <- app_assoc. done.
    + rewrite length_app, Nat.add_1_r, Hpr', Ha', Hm'. lia.
    + exists g''. rewrite length_app, Nat.add_1_r in E2. split_and!; auto.
      * rewrite Hs'', map_app, <- app_assoc. done.
      * congruence.
Qed.

Lemma ascending_table l : map fb_size l = VOS_MEM_BLOCKSIZES ->
  ascending l /\ Forall (fun fb => 0 < fb_size fb) l.
Proof.
  intros H. split.
  - intros i j x y Hij Hx Hy.
    assert (Hx' : VOS_MEM_BLOCKSIZES !! i = Some (fb_size x)).
    { rewrite <- H. change (map fb_size l) with (fb_size <$> l). by rewrite list_lookup_fmap, Hx. }
    assert (Hy' : VOS_MEM_BLOCKSIZES !! j = Some (fb_size y)).
    { rewrite <- H. change (map fb_size l) with (fb_size <$> l). by rewrite list_lookup_fmap, Hy. }
    clear -Hij Hx' Hy'.
    assert (Hs : forallb (fun i => forallb (fun j => (j <? i)%nat ||
                 (nth i VOS_MEM_BLOCKSIZES 0 <=? nth j VOS_MEM_BLOCKSIZES 0)) (seq 0 15)) (seq 0 15) = true)
      by reflexivity.
    rewrite forallb_forall in Hs.
    apply lookup_lt_Some in Hx' as Li. apply lookup_lt_Some in Hy' as Lj. cbn in Li, Lj.
    specialize (Hs i ltac:(apply in_seq; lia)). rewrite forallb_forall in Hs.
    specialize (Hs j ltac:(apply in_seq; lia)).
    apply nth_lookup_Some with (d := 0) in Hx', Hy'. rewrite Hx', Hy' in Hs.
    apply orb_true_iff in Hs as [Hs|Hs]; [apply Nat.ltb_lt in Hs; lia|by apply Z.leb_le].
  - apply Forall_forall. intros x Hx. apply (in_map fb_size) in Hx. rewrite H in Hx.
    cbn in Hx. lia.
Qed.

Lemma gMem_area_inv a size : 0 < size <= 2 ^ 32 - 131088 ->
  mem_inv (mkMem (Some a) a size 0 VOS_MEM_NBLOCKSIZES false (repeat (mkFB 0 []) 15)
            (mkStat size size 0 0 0 (repeat 0 15) VOS_MEM_PREALLOCATE) (fun _ => 0) (fun _ => 0)) [].
Proof.
  intros H. split; cbn.
  - exists a. split_and!; [done|lia|]. exists []. split; done.
  - repeat constructor; cbn; lia.
  - done.
  - lia.
  - constructor.
  - constructor.
  - constructor.
  - lia.
Qed.

(** The pool as [vos_memInit] leaves it, for the default pre-allocation table. *)
Lemma vos_memInit_pool malloc a size : 100288 < size <= 2 ^ 32 - 131088 ->
  exists g, vos_memInit true true malloc (Some a) size None gMem_init = (VOS_NO_ERR, g)
    /\ mem_inv g [] /\ map fb_size (freeBlock g) = VOS_MEM_BLOCKSIZES /\ memSize g = size.
Proof.
  intros H.
  destruct (init_classes_ok VOS_MEM_BLOCKSIZES [] (repeat None 10) _
              (gMem_area_inv a size ltac:(lia))) as (g & E & Hi & Hs & Hm); auto.
  - repeat constructor; cbn; lia.
  - repeat constructor; cbn; lia.
  - cbn [allocSize memSize memCnt preAlloc length].
    change (prealloc_cost VOS_MEM_PREALLOCATE 0 VOS_MEM_BLOCKSIZES) with 100288. lia.
  - exists g. split; [|auto]. cbn [length] in E. rewrite <- E. unfold vos_memInit.
    cbn [negb memCnt gMem_init]. destruct (size =? 0) eqn:E0; [bprop; lia|].
    assert ((0 >? size / 2) = false) as -> by (rewrite Z.gtb_ltb; apply Z.ltb_ge; dlia).
    reflexivity.
Qed.

Lemma memAlloc_result malloc lock_ok size g live :
  mem_inv g live -> ascending (freeBlock g) -> 0 < size <= 2 ^ 32 - 4 ->
  alloc_result g live size (vos_memAlloc malloc lock_ok size g).
Proof.
  intros Hi Hasc Hsz. unfold vos_memAlloc. destruct (size =? 0) eqn:E0; [bprop; lia|].
  rewrite (is_heap_false _ _ _ Hi), (headers_all _ _ _ Hi). cbv zeta. fold (align4 size).
  pose proof (align4_ge _ Hsz) as Hal.
  destruct (find_size _ _ _) as [[i [s free]]|] eqn:Ef; [|done].
  apply find_size_spec in Ef as (k & -> & Hk & Hle). cbn [fb_size fb_list] in *. bprop.
  destruct lock_ok; [cbn [negb]|done].
  destruct free as [|p rest].
  - destruct (_ <? _) eqn:Er; bprop.
    + apply give_block_result with (g1 := carve (0 + k) s g); [|done|lia].
      by apply (carve_inv _ _ _ (mkFB s [])).
    + destruct (find_bigger _ _) as [[[[j bs] q] rest]|] eqn:Eb; [|done].
      apply find_bigger_spec in Eb as (m & -> & Hm). rewrite lookup_drop in Hm.
      apply give_block_result with (g1 := set_free (set_first (S (0 + k) + m) rest) g).
      * apply pop_inv; [done|]. by replace (S (0 + k) + m)%nat with (S k + m)%nat by lia.
      * done.
      * specialize (Hasc k (S k + m)%nat _ _ ltac:(lia) Hk Hm). cbn in Hasc. lia.
  - apply give_block_result with (g1 := set_free (set_first (0 + k) rest) g); [|done|lia].
    by apply pop_inv.
Qed.

Lemma memFree_result p s live1 live2 g :
  mem_inv g (live1 ++ (p, s) :: live2) -> Forall (fun fb => 0 < fb_size fb) (freeBlock g) ->
  let g' := vos_memFree true (Some (p + sizeof_MEM_BLOCK_T)) g in
  mem_inv g' (live1 ++ live2)
  /\ freeSize (memCnt g') = freeSize (memCnt g) + (s + sizeof_MEM_BLOCK_T)
  /\ vos_memFree true (Some (p + sizeof_MEM_BLOCK_T)) g' = set_cnt inc_freeErr g'.
Proof.
  intros Hi0 Hpos. assert (Hi : mem_inv g ((p, s) :: live1 ++ live2)).
  { eapply inv_perm, Hi0. symmetry. apply Permutation_middle. }
  pose proof (Forall_inv (inv_hdr _ _ _ Hi)) as Hhd. cbn in Hhd.
  pose proof (Forall_inv (inv_class _ _ _ Hi)) as Hcl. cbn in Hcl.
  destruct (find_size_eq _ _ Hcl) as (i & fb & Hfind & Hl & Hsz).
  pose proof (free_head_inv _ _ _ _ _ _ Hi Hl Hsz) as Hi'.
  intros g'. assert (Eg : g' = set_hdr p 0 (set_free (set_first i (p :: fb_list fb))
                   (set_cnt (count_free (s + sizeof_MEM_BLOCK_T)) g))).
  { unfold g'. rewrite (free_accepts _ _ p s Hi) by (apply list_elem_of_here). by rewrite Hhd, Hfind. }
  rewrite <- Eg in Hi'. split; [exact Hi'|]. split.
  - rewrite (inv_freeSize _ _ _ Hi'), (inv_freeSize _ _ _ Hi), Eg. cbn. lia.
  - assert (Hh0 : hdr g' p = 0) by (rewrite Eg; cbn; by rewrite Z.eqb_refl).
    assert (Hpos' : Forall (fun fb => 0 < fb_size fb) (freeBlock g')).
    { rewrite Eg. cbn. unfold set_first. apply Forall_alter; auto. }
    pose proof (headers_all _ _ _ Hi') as Hhs. destruct (inv_area _ _ _ Hi') as (base & Hb & _).
    clearbody g'. unfold vos_memFree, is_heap. rewrite Hb, andb_false_r.
    destruct (_ || _); [done|]. cbn [negb].
    replace (p + sizeof_MEM_BLOCK_T - sizeof_MEM_BLOCK_T) with p by lia.
    by rewrite Hh0, Hhs, find_size_none.
Qed.


(** The runs of the application on an initialised pool: every allocation of at most 4 GB - 4,
    every release of a live block, every release of anything else the allocator refuses. *)
Inductive pool_run (a size : Z) : MEM_CONTROL_T -> list (Z * Z) -> Prop :=
| run_init malloc g :
    vos_memInit true true malloc (Some a) size None gMem_init = (VOS_NO_ERR, g) ->
    pool_run a size g []
| run_alloc malloc lock n g live p g' s :
    pool_run a size g live -> 0 < n <= 2 ^ 32 - 4 ->
    vos_memAlloc malloc lock n g = (Some p, g') -> hdr g' (p - sizeof_MEM_BLOCK_T) = s ->
    pool_run a size g' ((p - sizeof_MEM_BLOCK_T, s) :: live)
| run_alloc_fail malloc lock n g live g' :
    pool_run a size g live -> 0 < n <= 2 ^ 32 - 4 ->
    vos_memAlloc malloc lock n g = (None, g') -> pool_run a size g' live
| run_free p s live1 live2 g :
    pool_run a size g (live1 ++ (p, s) :: live2) ->
    pool_run a size (vos_memFree true (Some (p + sizeof_MEM_BLOCK_T)) g) (live1 ++ live2)
| run_free_null lock g live :
    pool_run a size g live -> pool_run a size (vos_memFree lock None g) live.

Lemma memAlloc_free_list malloc lock n g live : mem_inv g live ->
  map fb_size (freeBlock (snd (vos_memAlloc malloc lock n g))) = map fb_size (freeBlock g)
  /\ memSize (snd (vos_memAlloc malloc lock n g)) = memSize g.
Proof.
  intros Hi. unfold vos_memAlloc. rewrite (is_heap_false _ _ _ Hi).
  destruct (n =? 0); [done|]. cbv zeta. destruct (find_size _ _ _) as [[i [s [|p l]]]|]; [| |done].
  all: destruct lock; [cbn [negb fb_list fb_size]|done].
  - destruct (_ <? _); [done|]. destruct (find_bigger _ _) as [[[[j bs] q] rest]|]; [|done].
    cbn. by rewrite set_first_sizes.
  - cbn. by rewrite set_first_sizes.
Qed.

Lemma memFree_free_list lock p g :
  map fb_size (freeBlock (vos_memFree lock p g)) = map fb_size (freeBlock g)
  /\ memSize (vos_memFree lock p g) = memSize g.
Proof.
  unfold vos_memFree. destruct p as [p|]; [|done]. destruct (is_heap g); [done|].
  destruct (_ || _); [done|]. destruct lock; [cbn [negb]|done].
  destruct (find_size _ _ _) as [[i fb]|]; [|done]. cbn. by rewrite set_first_sizes.
Qed.

Lemma pool_run_inv a size g live : 100288 < size <= 2 ^ 32 - 131088 -> pool_run a size g live ->
  mem_inv g live /\ map fb_size (freeBlock g) = VOS_MEM_BLOCKSIZES /\ memSize g = size.
Proof.
  intros Hsz. induction 1 as [malloc g H|malloc lock n g live p g' s H IH Hn E Hs
    |malloc lock n g live g' H IH Hn E|p s live1 live2 g H IH|lock g live H IH].
  - destruct (vos_memInit_pool malloc a size Hsz) as (g' & E & Hi). rewrite E in H.
    injection H as <-. auto.
  - destruct IH as (Hi & Hf & Hm). destruct (ascending_table _ Hf) as [Has _].
    pose proof (memAlloc_result malloc lock n g live Hi Has Hn) as R.
    destruct (memAlloc_free_list malloc lock n g live Hi) as [Hf' Hm'].
    rewrite E in R, Hf', Hm'. cbn [snd] in *. destruct R as (s' & _ & Hi' & _).
    pose proof (Forall_inv (inv_hdr _ _ _ Hi')) as Hh. cbn [fst snd] in Hh. rewrite Hs in Hh.
    subst s'. split; [done|]. split; congruence.
  - destruct IH as (Hi & Hf & Hm). destruct (ascending_table _ Hf) as [Has _].
    pose proof (memAlloc_result malloc lock n g live Hi Has Hn) as R. rewrite E in R. cbn in R.
    subst g'. destruct Hi. by split.
  - destruct IH as (Hi & Hf & Hm). destruct (ascending_table _ Hf) as [_ Hpos].
    destruct (memFree_result _ _ _ _ _ Hi Hpos) as (Hi' & _ & _).
    destruct (memFree_free_list true (Some (p + sizeof_MEM_BLOCK_T)) g) as [Hf' Hm'].
    split; [exact Hi'|]. split; congruence.
  - destruct IH as (Hi & Hf & Hm). split; [by apply set_freeErr_inv|]. auto.
Qed.

(** C13: In a pool that vos_memInit has set up with the table of pre-allocations of the library, in an area of more
    than 100288 bytes and at most 2^32 - 131088, after any run of allocations of at most 2^32 - 4 bytes and of
    releases of live blocks or of the null pointer: an allocation of at most 2^32 - 4 bytes either fails and only
    counts the error, or returns the address of a block of at least the requested size that lies inside the area,
    overlaps no live block nor header, is cleared, and leaves the contents of every live block alone. (A larger
    request is rounded to a small one, vos_memAlloc_rounding_wraps; another table may be released twice,
    vos_memInit_stale_release.) *)
Theorem vos_memAlloc_safe a size g live malloc lock_ok n :
  100288 < size <= 2 ^ 32 - 131088 -> pool_run a size g live -> 0 < n <= 2 ^ 32 - 4 ->
  alloc_result g live n (vos_memAlloc malloc lock_ok n g).
Proof.
  intros Hsz Hr Hn. destruct (pool_run_inv _ _ _ _ Hsz Hr) as (Hi & Hf & _).
  apply memAlloc_result; auto. by apply ascending_table.
Qed.

(** A pool of 640000 bytes at address 4096, and the same after one allocation. *)
Definition pool0 : MEM_CONTROL_T := snd (vos_memInit true true None (Some 4096) 640000 None gMem_init).
Definition pool1 : MEM_CONTROL_T := snd (vos_memAlloc None true 100 pool0).

Lemma pool0_run : pool_run 4096 640000 pool0 [].
Proof.
  apply run_init with None. unfold pool0.
  destruct (vos_memInit_pool None 4096 640000 ltac:(lia)) as (g & E & _). by rewrite E.
Qed.

Lemma pool1_run : pool_run 4096 640000 pool1 [(104384, 128)].
Proof.
  assert (E : fst (vos_memAlloc None true 100 pool0) = Some 104400) by (vm_compute; reflexivity).
  assert (H : hdr pool1 (104400 - sizeof_MEM_BLOCK_T) = 128) by (vm_compute; reflexivity).
  apply (run_alloc 4096 640000 None true 100 pool0 [] 104400 pool1 128 pool0_run); [lia| |exact H].
  unfold pool1. destruct (vos_memAlloc None true 100 pool0). by cbn in *; subst.
Qed.

Lemma vos_memAlloc_safe_witness :
  pool_run 4096 640000 pool1 [(104384, 128)]
  /\ alloc_result pool1 [(104384, 128)] 3000 (vos_memAlloc None true 3000 pool1).
Proof.
  split; [exact pool1_run|].
  apply (vos_memAlloc_safe 4096 640000); [lia|exact pool1_run|lia].
Defined.

(** C14: In a pool as in vos_memAlloc_safe (the table of pre-allocations of the library, an area of more than 100288
    bytes and at most 2^32 - 131088, allocations of at most 2^32 - 4 bytes, releases of live blocks or of the null
    pointer) the accounting is exact after any run: the free size is the size of the area less the live blocks and
    their headers; releasing a live block gives its bytes back, and releasing it again right afterwards is detected,
    counted, and changes nothing else. *)
Theorem vos_memFree_safe a size g live1 live2 p s :
  100288 < size <= 2 ^ 32 - 131088 -> pool_run a size g (live1 ++ (p, s) :: live2) ->
  let g' := vos_memFree true (Some (p + sizeof_MEM_BLOCK_T)) g in
  freeSize (memCnt g) = size - block_bytes (live1 ++ (p, s) :: live2)
  /\ freeSize (memCnt g') = freeSize (memCnt g) + (s + sizeof_MEM_BLOCK_T)
  /\ blocks_ok g' (live1 ++ live2) /\ mem g' = mem g
  /\ vos_memFree true (Some (p + sizeof_MEM_BLOCK_T)) g' = set_cnt inc_freeErr g'.
Proof.
  intros Hsz Hr g'. destruct (pool_run_inv _ _ _ _ Hsz Hr) as (Hi & Hf & Hm).
  destruct (ascending_table _ Hf) as [_ Hpos].
  destruct (memFree_result _ _ _ _ _ Hi Hpos) as (Hi' & Hfs & Hdf).
  split; [rewrite <- Hm; apply (inv_freeSize _ _ _ Hi)|]. split; [exact Hfs|].
  split; [by apply inv_blocks_ok|]. split; [|exact Hdf].
  unfold g', vos_memFree. destruct (is_heap g); [done|]. destruct (_ || _); [done|].
  cbn [negb]. by destruct (find_size _ _ _) as [[]|].
Qed.

Lemma vos_memFree_safe_witness :
  freeSize (memCnt pool1) = 639856
  /\ freeSize (memCnt (vos_memFree true (Some (104384 + sizeof_MEM_BLOCK_T)) pool1))
     = freeSize (memCnt pool1) + 144.
Proof.
  destruct (vos_memFree_safe 4096 640000 pool1 [] [] 104384 128 ltac:(lia) pool1_run)
    as (H1 & H2 & _).
  split; [exact H1|exact H2].
Defined.

(** Rounding the requested size up to a multiple of four wraps: a request of 4 GB - 1 bytes
    on a fresh pool returns the address of a block of 48 bytes. *)
Theorem vos_memAlloc_rounding_wraps :
  let g := snd (vos_memInit true true None (Some 4096) 640000 None gMem_init) in
  let '(p, g') := vos_memAlloc None true (2 ^ 32 - 1) g in
  p = Some 104400 /\ hdr g' (104400 - sizeof_MEM_BLOCK_T) = 48.
Proof. vm_compute. split_and!; reflexivity. Qed.

(** When the area is too small for the pre-allocation, [vos_memInit] releases stale pointers
    of earlier classes a second time: it succeeds on 16000 bytes with a count of -2 live blocks and
    32 bytes more free than the area has. *)
Theorem vos_memInit_stale_release :
  let '(r, g) := vos_memInit true true None (Some 4096) 16000 None gMem_init in
  r = VOS_NO_ERR /\ allocCnt (memCnt g) = 2 ^ 32 - 2 /\ freeSize (memCnt g) = 16032
  /\ memSize g = 16000.
Proof. vm_compute. split_and!; reflexivity. Qed.

(** The heap mode ([pMemoryArea = NULL], [size = 0]) hands requests to [malloc], clears what
    it returns and ignores releases. *)
Theorem vos_memAlloc_heap mutex_g malloc n lock :
  let '(r, g) := vos_memInit true lock mutex_g None 0 None gMem_init in
  r = VOS_NO_ERR /\
  (n <> 0 -> fst (vos_memAlloc malloc lock n g) = malloc
             /\ (forall p x, malloc = Some p -> p <= x < p + n -> mem (snd (vos_memAlloc malloc lock n g)) x = 0))
  /\ (forall p, vos_memFree lock (Some p) g = g).
Proof.
  cbn. split; [done|]. split; [|done]. intros Hn. unfold vos_memAlloc.
  apply Z.eqb_neq in Hn as ->. cbn. split; [done|].
  intros p x -> Hx. cbn. destruct (_ && _) eqn:E; [done|]. apply andb_false_iff in E as [E|E]; bprop; lia.
Qed.

(** A deleted pool serves from the heap, its counters are cleared, and initialised again it has lost the
    table of pre-allocations: no free block is made, while the first initialisation makes 15. *)
Theorem vos_memDelete_forgets_preallocation malloc p g n : malloc <> None -> 0 < n ->
  fst (vos_memAlloc malloc true n (fst (vos_memDelete p g))) = malloc
  /\ free_blocks (freeBlock (snd (vos_memInit true true None (Some 4096) 640000 None (fst (vos_memDelete p g))))) = []
  /\ length (free_blocks (freeBlock (snd (vos_memInit true true None (Some 4096) 640000 None gMem_init)))) = 15%nat.
Proof.
  intros Hm Hn. split; [|split; vm_compute; reflexivity].
  unfold vos_memAlloc. rewrite (proj2 (Z.eqb_neq n 0)) by lia. cbn. by destruct malloc.
Qed.
