(* ===== verification/VosQueue.v ===== *)
(** * Message queues of the virtual operating system layer

    Models the queues of src/app/trdp/tcnopen/vos_mem.c: a ring of pointers with their sizes, the
    positions of the first and the last message, a mutex and a counting semaphore. The theorem states
    that the ring implements a list with two ends. The results of the mutex calls and of the allocator
    are arguments; the semaphore is its count, taking it fails when the count is zero and the wait
    is over; a call runs without another in between. *)
From S2P Require Import Prelude VosMem.

Definition cQueueMagic : Z := 0xE5E1E5E1.

Inductive VOS_QUEUE_POLICY_T := VOS_QUEUE_POLICY_OTHER | VOS_QUEUE_POLICY_FIFO | VOS_QUEUE_POLICY_LIFO.
#[export] Instance VOS_QUEUE_POLICY_T_eq_dec : EqDecision VOS_QUEUE_POLICY_T.
Proof. solve_decision. Defined.
#[export] Instance VOS_ERR_T_eq_dec : EqDecision VOS_ERR_T.
Proof. solve_decision. Defined.

(** [struct VOS_QUEUE_ELEM] *)
Abbreviation queue_elem := (option Z * Z)%type.
Definition sizeof_VOS_QUEUE_ELEM : Z := 16.

(** [struct VOS_QUEUE]; [pQueue] is the memory it points to. *)
Record VOS_QUEUE := mkQueue {
  magicNumber : Z;
  firstElem : Z;
  lastElem : Z;
  queueType : VOS_QUEUE_POLICY_T;
  maxNoOfMsg : Z;
  semaphore : Z;
  pQueue : list queue_elem }.

Definition set_magicNumber (v : Z) (q : VOS_QUEUE) : VOS_QUEUE :=
  mkQueue v (firstElem q) (lastElem q) (queueType q) (maxNoOfMsg q) (semaphore q) (pQueue q).
Definition set_firstElem (v : Z) (q : VOS_QUEUE) : VOS_QUEUE :=
  mkQueue (magicNumber q) v (lastElem q) (queueType q) (maxNoOfMsg q) (semaphore q) (pQueue q).
Definition set_lastElem (v : Z) (q : VOS_QUEUE) : VOS_QUEUE :=
  mkQueue (magicNumber q) (firstElem q) v (queueType q) (maxNoOfMsg q) (semaphore q) (pQueue q).
Definition set_semaphore (v : Z) (q : VOS_QUEUE) : VOS_QUEUE :=
  mkQueue (magicNumber q) (firstElem q) (lastElem q) (queueType q) (maxNoOfMsg q) v (pQueue q).
Definition set_pQueue (v : list queue_elem) (q : VOS_QUEUE) : VOS_QUEUE :=
  mkQueue (magicNumber q) (firstElem q) (lastElem q) (queueType q) (maxNoOfMsg q) (semaphore q) v.

(** Storing in the ring; [None] outside of its memory. *)
Definition put_elem (i : Z) (x : queue_elem) (q : VOS_QUEUE) : option VOS_QUEUE :=
  if (0 <=? i) && (i <? Z.of_nat (length (pQueue q))) then Some (set_pQueue (<[Z.to_nat i := x]> (pQueue q)) q) else None.
Definition get_elem (i : Z) (q : VOS_QUEUE) : option queue_elem :=
  if i <? 0 then None else pQueue q !! Z.to_nat i.

(** [vos_semaTake] with the count of the semaphore, and [vos_semaGive]. *)
Definition vos_semaTake (n : Z) : VOS_ERR_T * Z := if n >? 0 then (VOS_NO_ERR, n - 1) else (VOS_SEMA_ERR, n).
Definition vos_semaGive (n : Z) : Z := n + 1.

(** What the calls of [vos_queueCreate] answer: the two allocations, the semaphore and the mutex. *)
Record create_env := mkCreate {
  cr_header : bool;
  cr_sema : VOS_ERR_T;
  cr_mutex : VOS_ERR_T;
  cr_lock : VOS_ERR_T;
  cr_ring : Z -> bool;
  cr_unlock : VOS_ERR_T }.

Definition ok (e : VOS_ERR_T) : bool := bool_decide (e = VOS_NO_ERR).

(** Result and the handle written, which may be that of an unfinished queue. The memory is cleared. *)
Definition vos_queueCreate (env : create_env) (policy : VOS_QUEUE_POLICY_T) (n : Z) : VOS_ERR_T * option VOS_QUEUE :=
  let blank := mkQueue 0 0 0 VOS_QUEUE_POLICY_OTHER 0 0 [] in
  if n =? 0 then (VOS_PARAM_ERR, None)
  else if negb (cr_header env) then (VOS_MEM_ERR, None)
  else if negb (ok (cr_sema env)) then (VOS_SEMA_ERR, Some blank)
  else if negb (ok (cr_mutex env)) then (VOS_MUTEX_ERR, Some blank)
  else if negb (ok (cr_lock env)) then (VOS_MUTEX_ERR, Some blank)
  else
    let bytes := u32 (n * sizeof_VOS_QUEUE_ELEM) in
    if negb (cr_ring env bytes) then (VOS_MEM_ERR, Some (mkQueue cQueueMagic 0 0 policy n 0 []))
    else
      let ring := repeat (None, 0) (Z.to_nat (bytes / sizeof_VOS_QUEUE_ELEM)) in
      (if ok (cr_unlock env) then VOS_NO_ERR else VOS_MUTEX_ERR, Some (mkQueue cQueueMagic 0 0 policy n 0 ring)).

Definition queue_full (q : VOS_QUEUE) : bool :=
  (u32 (lastElem q + 1) =? firstElem q) || ((lastElem q =? u32 (maxNoOfMsg q - 1)) && (firstElem q =? 0)).

(** The next and the previous position of the ring. *)
Definition ring_next (q : VOS_QUEUE) : Z := if lastElem q =? u32 (maxNoOfMsg q - 1) then 0 else u32 (lastElem q + 1).
Definition ring_prev (q : VOS_QUEUE) : Z := if firstElem q =? 0 then u32 (maxNoOfMsg q - 1) else firstElem q - 1.

(** Where the message goes, in a queue that is not full. *)
Definition enqueue (x : queue_elem) (q : VOS_QUEUE) : option VOS_QUEUE :=
  head ← get_elem (firstElem q) q;
  match fst head with
  | Some _ =>
      match queueType q with
      | VOS_QUEUE_POLICY_FIFO | VOS_QUEUE_POLICY_OTHER => put_elem (ring_next q) x (set_lastElem (ring_next q) q)
      | VOS_QUEUE_POLICY_LIFO => put_elem (ring_prev q) x (set_firstElem (ring_prev q) q)
      end
  | None => put_elem (firstElem q) x q
  end.

Definition vos_queueSend (lock unlock : VOS_ERR_T) (h : option VOS_QUEUE) (pData : option Z) (size : Z)
  : option (VOS_ERR_T * option VOS_QUEUE) :=
  match h, pData with
  | Some q, Some _ =>
      if (size =? 0) || negb (magicNumber q =? cQueueMagic) then Some (VOS_PARAM_ERR, h)
      else if negb (ok lock) then Some (VOS_MUTEX_ERR, h)
      else if queue_full q then Some (if ok unlock then VOS_QUEUE_FULL_ERR else VOS_MUTEX_ERR, h)
      else
        q' ← enqueue (pData, size) q;
        Some (if ok unlock then (VOS_NO_ERR, Some (set_semaphore (vos_semaGive (semaphore q')) q')) else (VOS_MUTEX_ERR, Some q'))
  | _, _ => Some (VOS_PARAM_ERR, h)
  end.

(** Result, what is written to the message and its size (if anything), the queue. *)
Definition vos_queueReceive (lock unlock : VOS_ERR_T) (h : option VOS_QUEUE)
  : option (VOS_ERR_T * option queue_elem * option VOS_QUEUE) :=
  match h with
  | None => Some (VOS_PARAM_ERR, None, h)
  | Some q =>
      if negb (magicNumber q =? cQueueMagic) then Some (VOS_PARAM_ERR, None, h)
      else
        let '(err, n) := vos_semaTake (semaphore q) in
        let q1 := set_semaphore n q in
        if negb (ok err) then Some (VOS_QUEUE_ERR, Some (None, 0), Some q1)
        else if negb (ok lock) then Some (VOS_MUTEX_ERR, None, Some q1)
        else
          x ← get_elem (firstElem q1) q1;
          q2 ← put_elem (firstElem q1) (None, 0) q1;
          let q3 := if firstElem q2 =? lastElem q2 then q2
                    else set_firstElem (if firstElem q2 <? u32 (maxNoOfMsg q2 - 1) then u32 (firstElem q2 + 1) else 0) q2 in
          Some (if ok unlock then VOS_NO_ERR else VOS_MUTEX_ERR, Some x, Some q3)
  end.

(** What is released: the ring, the semaphore, the mutex, the header. *)
Inductive queue_part := QueueRing | QueueSema | QueueMutex | QueueHeader.

Definition vos_queueDestroy (lock unlock : VOS_ERR_T) (h : option VOS_QUEUE) : VOS_ERR_T * list queue_part * option VOS_QUEUE :=
  match h with
  | None => (VOS_PARAM_ERR, [], h)
  | Some q =>
      if negb (magicNumber q =? cQueueMagic) then (VOS_PARAM_ERR, [], h)
      else
        let '(freed, q1) := if ok lock then ([QueueRing], set_pQueue [] (set_magicNumber 0 q)) else ([], q) in
        if negb (ok unlock) then (VOS_MUTEX_ERR, freed ++ [QueueSema], Some q1)
        else (VOS_NO_ERR, freed ++ [QueueSema; QueueMutex; QueueHeader], None)
  end.

(** * The specification: a list of messages *)
Abbreviation queue_msg := (Z * Z)%type.

Inductive queue_op := OpSend (m : queue_msg) | OpReceive.
Inductive queue_answer := Sent (err : VOS_ERR_T) | Received (err : VOS_ERR_T) (m : option queue_msg).

Definition spec_op (policy : VOS_QUEUE_POLICY_T) (n : Z) (o : queue_op) (l : list queue_msg) : queue_answer * list queue_msg :=
  match o with
  | OpSend m =>
      if n <=? Z.of_nat (length l) then (Sent VOS_QUEUE_FULL_ERR, l)
      else (Sent VOS_NO_ERR, if bool_decide (policy = VOS_QUEUE_POLICY_LIFO) then m :: l else l ++ [m])
  | OpReceive =>
      match l with
      | [] => (Received VOS_QUEUE_ERR None, [])
      | m :: l' => (Received VOS_NO_ERR (Some m), l')
      end
  end.

Fixpoint spec_run (policy : VOS_QUEUE_POLICY_T) (n : Z) (ops : list queue_op) (l : list queue_msg) : list queue_answer :=
  match ops with
  | [] => []
  | o :: ops' => let '(a, l') := spec_op policy n o l in a :: spec_run policy n ops' l'
  end.

(** The calls on the ring, while the mutex works. *)
Definition call_op (o : queue_op) (h : option VOS_QUEUE) : option (queue_answer * option VOS_QUEUE) :=
  match o with
  | OpSend (p, size) => '(err, h') ← vos_queueSend VOS_NO_ERR VOS_NO_ERR h (Some p) size; Some (Sent err, h')
  | OpReceive =>
      '(err, x, h') ← vos_queueReceive VOS_NO_ERR VOS_NO_ERR h;
      Some (Received err (x ≫= fun x => (fun p => (p, snd x)) <$> fst x), h')
  end.

Fixpoint queue_run (ops : list queue_op) (h : option VOS_QUEUE) : option (list queue_answer) :=
  match ops with
  | [] => Some []
  | o :: ops' => '(a, h') ← call_op o h; l ← queue_run ops' h'; Some (a :: l)
  end.

(** ** The ring holds the list *)
Definition slot (q : VOS_QUEUE) (k : nat) : Z := (firstElem q + Z.of_nat k) mod maxNoOfMsg q.

Record queue_holds (q : VOS_QUEUE) (l : list queue_msg) : Prop := mkHolds {
  qh_magic : magicNumber q = cQueueMagic;
  qh_room : 2 <= maxNoOfMsg q < 2 ^ 28;
  qh_ring : Z.of_nat (length (pQueue q)) = maxNoOfMsg q;
  qh_first : 0 <= firstElem q < maxNoOfMsg q;
  qh_fill : Z.of_nat (length l) <= maxNoOfMsg q;
  qh_sema : semaphore q = Z.of_nat (length l);
  qh_last : lastElem q = slot q (length l - 1);
  qh_elem : forall k m, l !! k = Some m -> pQueue q !! Z.to_nat (slot q k) = Some (Some (fst m), snd m);
  qh_empty : l = [] -> exists n, pQueue q !! Z.to_nat (firstElem q) = Some (None, n) }.

Lemma slot_range q l k : queue_holds q l -> 0 <= slot q k < maxNoOfMsg q.
Proof. intros H. apply Z.mod_pos_bound. pose proof (qh_room _ _ H). lia. Qed.

Lemma slot_0 q l : queue_holds q l -> slot q 0 = firstElem q.
Proof. intros H. unfold slot. rewrite Z.add_0_r. apply Z.mod_small. apply H. Qed.

Lemma slot_inj q l k k' : queue_holds q l -> Z.of_nat k < maxNoOfMsg q -> Z.of_nat k' < maxNoOfMsg q ->
  slot q k = slot q k' -> k = k'.
Proof.
  intros H Hk Hk' E. unfold slot in E. pose proof (qh_first _ _ H). pose proof (qh_room _ _ H).
  assert (Hd : forall j, Z.of_nat j < maxNoOfMsg q ->
            (firstElem q + Z.of_nat j) mod maxNoOfMsg q
            = if firstElem q + Z.of_nat j <? maxNoOfMsg q then firstElem q + Z.of_nat j else firstElem q + Z.of_nat j - maxNoOfMsg q).
  { intros j Hj. destruct (Z.ltb_spec (firstElem q + Z.of_nat j) (maxNoOfMsg q)); [apply Z.mod_small; lia|].
    rewrite <- (Z.mod_add _ (-1)) by lia. apply Z.mod_small. lia. }
  rewrite !Hd in E by done. repeat case_if_in E; bprop; lia.
Qed.

(** The position after the [k]th, as the code computes it. *)
Lemma slot_succ q l k : queue_holds q l ->
  slot q (S k) = if slot q k =? u32 (maxNoOfMsg q - 1) then 0 else u32 (slot q k + 1).
Proof.
  intros H. pose proof (slot_range q l k H) as Hr. pose proof (qh_room _ _ H). rewrite !u32_small by lia.
  unfold slot in *. replace (firstElem q + Z.of_nat (S k)) with (firstElem q + Z.of_nat k + 1) by lia.
  rewrite <- Z.add_mod_idemp_l by lia. set (x := _ mod _) in *. destruct (Z.eqb_spec x (maxNoOfMsg q - 1)).
  - replace (x + 1) with (maxNoOfMsg q) by lia. apply Z.mod_same. lia.
  - apply Z.mod_small. lia.
Qed.

Lemma ring_next_slot q l : queue_holds q l -> ring_next q = slot q (S (length l - 1)).
Proof. intros H. rewrite (slot_succ q l) by done. unfold ring_next. by rewrite (qh_last _ _ H). Qed.

(** The test for a full ring compares the next position with the first. *)
Lemma queue_full_spec q l : queue_holds q l -> queue_full q = (maxNoOfMsg q <=? Z.of_nat (length l)).
Proof.
  intros H. pose proof (qh_room _ _ H) as Hr. pose proof (qh_first _ _ H) as Hf. pose proof (qh_fill _ _ H) as Hl.
  assert (Hla : 0 <= lastElem q < maxNoOfMsg q) by (rewrite (qh_last _ _ H); by apply (slot_range q l)).
  transitivity (ring_next q =? firstElem q).
  { unfold queue_full, ring_next. rewrite !u32_small by lia. destruct (Z.eqb_spec (lastElem q) (maxNoOfMsg q - 1)) as [E|E].
    - rewrite E. rewrite (proj2 (Z.eqb_neq (_ + 1) _)) by lia. cbn. apply Z.eqb_sym.
    - rewrite andb_false_l. by rewrite orb_false_r. }
  rewrite (ring_next_slot q l), <- (slot_0 q l) by done. destruct (Z.leb_spec (maxNoOfMsg q) (Z.of_nat (length l))).
  - apply Z.eqb_eq. unfold slot. replace (Z.of_nat (S (length l - 1))) with (maxNoOfMsg q) by lia.
    rewrite Z.add_0_r, <- (Z.mul_1_l (maxNoOfMsg q)) at 1. rewrite Z.mod_add by lia. done.
  - apply Z.eqb_neq. intros E. apply (slot_inj q l) in E; [lia|done|lia|lia].
Qed.

Lemma put_elem_some q i x : 0 <= i < Z.of_nat (length (pQueue q)) -> put_elem i x q = Some (set_pQueue (<[Z.to_nat i := x]> (pQueue q)) q).
Proof. intros H. unfold put_elem. by rewrite (proj2 (Z.leb_le _ _)), (proj2 (Z.ltb_lt _ _)) by lia. Qed.

Lemma get_elem_some q i x : 0 <= i -> pQueue q !! Z.to_nat i = Some x -> get_elem i q = Some x.
Proof. intros Hi H. unfold get_elem. by rewrite (proj2 (Z.ltb_ge _ _)) by lia. Qed.

(** Another position of the ring keeps its message. *)
Lemma insert_other q l k k' x : queue_holds q l -> Z.of_nat k < maxNoOfMsg q -> Z.of_nat k' < maxNoOfMsg q -> k <> k' ->
  <[Z.to_nat (slot q k) := x]> (pQueue q) !! Z.to_nat (slot q k') = pQueue q !! Z.to_nat (slot q k').
Proof.
  intros H Hk Hk' Hne. apply list_lookup_insert_ne. intros E. pose proof (slot_range q l k H). pose proof (slot_range q l k' H).
  apply Hne, (slot_inj q l); auto. lia.
Qed.
Lemma insert_same q l k x : queue_holds q l -> <[Z.to_nat (slot q k) := x]> (pQueue q) !! Z.to_nat (slot q k) = Some x.
Proof. intros H. apply list_lookup_insert_eq. pose proof (slot_range q l k H). pose proof (qh_ring _ _ H). lia. Qed.

Definition appended (m : queue_msg) (q : VOS_QUEUE) (i : Z) : VOS_QUEUE :=
  set_pQueue (<[Z.to_nat i := (Some (fst m), snd m)]> (pQueue q)) q.

(** Into an empty queue. *)
Lemma enqueue_empty q m : queue_holds q [] -> queue_holds (set_semaphore 1 (appended m q (firstElem q))) [m].
Proof.
  intros H. pose proof (slot_0 q [] H) as H0. split; cbn; try apply H; try done.
  - rewrite length_insert. apply H.
  - pose proof (qh_room _ _ H). lia.
  - intros k m' Hk. destruct k; [|done]. injection Hk as <-. change (slot _ 0) with (slot q 0). rewrite <- H0. by apply (insert_same q []).
Qed.

(** At the end. *)
Lemma enqueue_last q l m : queue_holds q l -> l <> [] -> Z.of_nat (length l) < maxNoOfMsg q ->
  queue_holds (set_semaphore (semaphore q + 1) (appended m (set_lastElem (ring_next q) q) (ring_next q))) (l ++ [m]).
Proof.
  intros H Hne Hroom. assert (Hlen : (0 < length l)%nat) by (destruct l; [done|cbn; lia]).
  assert (Hn : ring_next q = slot q (length l)) by (rewrite (ring_next_slot q l) by done; f_equal; lia).
  split; cbn; try apply H; try done.
  - rewrite length_insert. apply H.
  - rewrite length_app. cbn. lia.
  - rewrite length_app, (qh_sema _ _ H). cbn. lia.
  - rewrite length_app, Hn. cbn. replace (length l + 1 - 1)%nat with (length l) by lia. done.
  - intros k m' Hk. change (slot _ k) with (slot q k). rewrite Hn. apply lookup_app_Some in Hk as [Hk|[Hk1 Hk2]].
    + pose proof (lookup_lt_Some _ _ _ Hk). rewrite (insert_other q l) by (done || lia). by apply (qh_elem _ _ H).
    + apply list_lookup_singleton_Some in Hk2 as [Hk2 <-]. replace k with (length l) by lia. by apply (insert_same q l).
  - intros E. by destruct l.
Qed.

(** At the front. *)
Lemma prev_slot q l k : queue_holds q l -> slot (set_firstElem (ring_prev q) q) (S k) = slot q k.
Proof.
  intros H. unfold slot, ring_prev. cbn. pose proof (qh_first _ _ H). pose proof (qh_room _ _ H). destruct (Z.eqb_spec (firstElem q) 0) as [E|E].
  - rewrite u32_small by lia. rewrite E. replace (maxNoOfMsg q - 1 + Z.of_nat (S k)) with (0 + Z.of_nat k + 1 * maxNoOfMsg q) by lia.
    by rewrite Z.mod_add by lia.
  - f_equal. lia.
Qed.

Lemma enqueue_first q l m : queue_holds q l -> l <> [] -> Z.of_nat (length l) < maxNoOfMsg q ->
  queue_holds (set_semaphore (semaphore q + 1) (appended m (set_firstElem (ring_prev q) q) (ring_prev q))) (m :: l).
Proof.
  intros H Hne Hroom. pose proof (qh_first _ _ H) as Hf. pose proof (qh_room _ _ H) as Hr.
  assert (Hp : 0 <= ring_prev q < maxNoOfMsg q) by (unfold ring_prev; case_if; bprop; rewrite ?u32_small; lia).
  assert (Hlast : ring_prev q = slot q (Z.to_nat (maxNoOfMsg q - 1))).
  { unfold slot, ring_prev. rewrite Z2Nat.id by lia. destruct (Z.eqb_spec (firstElem q) 0) as [E|E].
    - rewrite E, u32_small, Z.mod_small by lia. done.
    - replace (firstElem q + (maxNoOfMsg q - 1)) with (firstElem q - 1 + 1 * maxNoOfMsg q) by lia.
      rewrite Z.mod_add, Z.mod_small by lia. done. }
  split; cbn; try apply H; try done.
  - rewrite length_insert. apply H.
  - lia.
  - rewrite (qh_sema _ _ H). lia.
  - replace (length l - 0)%nat with (S (length l - 1)) by (destruct l; [done|cbn; lia]).
    rewrite (qh_last _ _ H). symmetry. by apply (prev_slot q l).
  - intros k m' Hk. change (slot _ k) with (slot (set_firstElem (ring_prev q) q) k). destruct k as [|k].
    + injection Hk as <-. unfold slot. cbn. rewrite Z.add_0_r, Z.mod_small by done.
      apply list_lookup_insert_eq. pose proof (qh_ring _ _ H). lia.
    + cbn in Hk. pose proof (lookup_lt_Some _ _ _ Hk). rewrite (prev_slot q l), Hlast by done.
      rewrite (insert_other q l) by (done || lia). by apply (qh_elem _ _ H).
Qed.

(** Whether the first slot is taken. *)
Lemma head_elem q l : queue_holds q l ->
  get_elem (firstElem q) q = match l with m :: _ => Some (Some (fst m), snd m) | [] => get_elem (firstElem q) q end
  /\ (l = [] -> exists n, get_elem (firstElem q) q = Some (None, n)).
Proof.
  intros H. pose proof (qh_first _ _ H) as Hf. split.
  - destruct l as [|m l]; [done|]. apply get_elem_some; [lia|]. rewrite <- (slot_0 q (m :: l)) by done. by apply (qh_elem _ _ H 0).
  - intros E. destruct (qh_empty _ _ H E) as [n Hn]. exists n. apply get_elem_some; [lia|done].
Qed.

Lemma queueSend_refines q l p size : queue_holds q l -> size <> 0 ->
  exists q', vos_queueSend VOS_NO_ERR VOS_NO_ERR (Some q) (Some p) size
             = Some (match fst (spec_op (queueType q) (maxNoOfMsg q) (OpSend (p, size)) l) with Sent e => e | Received e _ => e end, Some q')
    /\ queue_holds q' (snd (spec_op (queueType q) (maxNoOfMsg q) (OpSend (p, size)) l))
    /\ queueType q' = queueType q /\ maxNoOfMsg q' = maxNoOfMsg q.
Proof.
  intros H Hs. unfold vos_queueSend. rewrite (proj2 (Z.eqb_neq size 0)), (qh_magic _ _ H) by done.
  change (ok VOS_NO_ERR) with true. cbn [orb negb Z.eqb Pos.eqb cQueueMagic spec_op]. rewrite (queue_full_spec q l H).
  destruct (Z.leb_spec (maxNoOfMsg q) (Z.of_nat (length l))) as [Hfull|Hroom]; [by exists q|].
  pose proof (qh_first _ _ H) as Hf. pose proof (qh_ring _ _ H) as Hring.
  destruct (head_elem q l H) as [Hhead Hnone]. unfold enqueue. destruct l as [|m0 l0] eqn:El.
  - destruct Hnone as [n ->]; [done|]. cbn [mbind option_bind fst].
    rewrite put_elem_some by lia. cbn [mbind option_bind]. eexists. split; [reflexivity|]. split; [|done]. cbn [snd].
    assert (E : (if bool_decide (queueType q = VOS_QUEUE_POLICY_LIFO) then [(p, size)] else [] ++ [(p, size)]) = [(p, size)]) by by case_if.
    rewrite E. cbn [semaphore set_pQueue]. rewrite (qh_sema _ _ H). exact (enqueue_empty q (p, size) H).
  - rewrite Hhead. cbn [mbind option_bind fst]. rewrite <- El in *. assert (Hne : l <> []) by (by rewrite El).
    destruct (queueType q) eqn:Ety.
    1, 2: pose proof (enqueue_last q l (p, size) H Hne Hroom) as Hq; pose proof (slot_range q l (S (length l - 1)) H) as Hr;
      rewrite <- (ring_next_slot q l) in Hr by done; rewrite put_elem_some by (cbn; lia);
      cbn [mbind option_bind]; eexists; (split; [reflexivity|]); (split; [exact Hq|done]).
    pose proof (enqueue_first q l (p, size) H Hne Hroom) as Hq.
    assert (Hp : 0 <= ring_prev q < maxNoOfMsg q) by (pose proof (qh_room _ _ H); unfold ring_prev; case_if; bprop; rewrite ?u32_small; lia).
    rewrite put_elem_some by (cbn; lia). cbn [mbind option_bind]. eexists. split; [reflexivity|]. split; [exact Hq|done].
Qed.

(** Without the first message; the only one leaves the positions as they are. *)
Definition dequeued (q : VOS_QUEUE) : VOS_QUEUE :=
  let q2 := set_pQueue (<[Z.to_nat (firstElem q) := (None, 0)]> (pQueue q)) (set_semaphore (semaphore q - 1) q) in
  if firstElem q =? lastElem q then q2 else set_firstElem (slot q 1) q2.

Lemma dequeue_last q m : queue_holds q [m] -> queue_holds (dequeued q) [].
Proof.
  intros H. pose proof (slot_0 q _ H) as H0. pose proof (qh_last _ _ H) as Hl. cbn in Hl.
  unfold dequeued. rewrite Hl, H0, Z.eqb_refl. pose proof (qh_first _ _ H). pose proof (qh_ring _ _ H).
  split; cbn; try apply H; try done.
  - rewrite length_insert. done.
  - lia.
  - rewrite (qh_sema _ _ H). done.
  - intros _. exists 0. apply list_lookup_insert_eq. lia.
Qed.

Lemma dequeue_more q m m' l : queue_holds q (m :: m' :: l) -> queue_holds (dequeued q) (m' :: l).
Proof.
  intros H. pose proof (slot_0 q _ H) as H0. pose proof (qh_last _ _ H) as Hl. pose proof (qh_fill _ _ H) as Hfill.
  pose proof (qh_room _ _ H) as Hr. cbn [length] in Hl, Hfill. unfold dequeued.
  assert (Hne : firstElem q <> lastElem q).
  { rewrite Hl, <- H0. intros E. apply (slot_inj q _ _ _ H) in E; lia. }
  rewrite (proj2 (Z.eqb_neq _ _)) by done.
  assert (Hsl : forall k, slot (set_firstElem (slot q 1) q) k = slot q (S k)).
  { intros k. unfold slot. cbn [firstElem maxNoOfMsg set_firstElem]. rewrite Z.add_mod_idemp_l by lia. f_equal. lia. }
  split; cbn; try apply H; try done.
  - rewrite length_insert. apply H.
  - apply (slot_range q _ 1 H).
  - lia.
  - rewrite (qh_sema _ _ H). cbn. lia.
  - rewrite Hl. change (slot _ (length l - 0)) with (slot (set_firstElem (slot q 1) q) (length l - 0)). rewrite Hsl. f_equal. lia.
  - intros k x Hk. change (slot _ k) with (slot (set_firstElem (slot q 1) q) k). rewrite Hsl.
    pose proof (lookup_lt_Some _ _ _ Hk) as Hlt. cbn [length] in Hlt.
    rewrite <- H0, (insert_other q _ 0 (S k)) by (exact H || lia). by apply (qh_elem _ _ H (S k)).
Qed.

Lemma queueReceive_refines q l : queue_holds q l ->
  exists e x q', vos_queueReceive VOS_NO_ERR VOS_NO_ERR (Some q) = Some (e, x, Some q')
    /\ Received e (x ≫= fun x => (fun p => (p, snd x)) <$> fst x) = fst (spec_op (queueType q) (maxNoOfMsg q) OpReceive l)
    /\ queue_holds q' (snd (spec_op (queueType q) (maxNoOfMsg q) OpReceive l))
    /\ queueType q' = queueType q /\ maxNoOfMsg q' = maxNoOfMsg q.
Proof.
  intros H. unfold vos_queueReceive. rewrite (qh_magic _ _ H), Z.eqb_refl. cbn [negb]. unfold vos_semaTake. rewrite (qh_sema _ _ H).
  destruct l as [|m l].
  - cbn. eexists _, _, _. split; [reflexivity|]. split; [done|]. split; [|done]. replace (set_semaphore (Z.of_nat 0) q) with q; [done|].
    pose proof (qh_sema _ _ H) as Hs. cbn in Hs. destruct q. cbn in *. by rewrite Hs.
  - rewrite (proj2 (Z.gtb_lt _ _)) by (cbn; lia). change (ok VOS_NO_ERR) with true. cbn [negb].
    set (q1 := set_semaphore _ q). destruct (head_elem q _ H) as [Hh _]. change (get_elem (firstElem q1) q1) with (get_elem (firstElem q) q).
    rewrite Hh. cbn [mbind option_bind]. pose proof (qh_first _ _ H) as Hf. pose proof (qh_ring _ _ H) as Hring.
    change (firstElem q1) with (firstElem q). rewrite put_elem_some by (cbn; lia). cbn [mbind option_bind]. set (q3 := if _ =? _ then _ else _).
    assert (E : q3 = dequeued q).
    { unfold q3, dequeued. rewrite (qh_sema _ _ H). cbn [firstElem lastElem maxNoOfMsg set_pQueue set_semaphore pQueue q1]. case_if; [done|].
      f_equal. rewrite (slot_succ q _ 0 H), (slot_0 q _ H). pose proof (qh_room _ _ H). rewrite !u32_small by lia.
      destruct (Z.ltb_spec (firstElem q) (maxNoOfMsg q - 1)), (Z.eqb_spec (firstElem q) (maxNoOfMsg q - 1)); try lia; done. }
    rewrite E. eexists _, _, _. split; [reflexivity|]. split; [by destruct m|]. split; [|split; unfold dequeued; by case_if].
    cbn [snd spec_op]. destruct l as [|m' l]; [by apply (dequeue_last q m)|by apply (dequeue_more q m)].
Qed.

Definition op_ok (o : queue_op) : bool := match o with OpSend (_, size) => negb (size =? 0) | OpReceive => true end.

Lemma queue_run_refines ops : forall q l, queue_holds q l -> forallb op_ok ops = true ->
  queue_run ops (Some q) = Some (spec_run (queueType q) (maxNoOfMsg q) ops l).
Proof.
  induction ops as [|o ops IH]; intros q l H Hops; [done|]. cbn [forallb queue_run spec_run] in *. apply andb_prop in Hops as [Ho Hops].
  assert (Hstep : exists a q', call_op o (Some q) = Some (a, Some q') /\ a = fst (spec_op (queueType q) (maxNoOfMsg q) o l)
                    /\ queue_holds q' (snd (spec_op (queueType q) (maxNoOfMsg q) o l)) /\ queueType q' = queueType q /\ maxNoOfMsg q' = maxNoOfMsg q).
  { destruct o as [[p size]|]; cbn in Ho.
    - apply negb_true_iff, Z.eqb_neq in Ho. destruct (queueSend_refines q l p size H Ho) as (q' & Hc & Hq & Ht & Hm).
      unfold call_op. rewrite Hc. cbn [mbind option_bind]. eexists _, q'. split; [reflexivity|]. split; [|done]. cbn. by case_if.
    - destruct (queueReceive_refines q l H) as (e & x & q' & Hc & Hx & Hq & Ht & Hm).
      unfold call_op. rewrite Hc. cbn [mbind option_bind]. eexists _, q'. split; [reflexivity|]. done. }
  destruct Hstep as (a & q' & Hc & -> & Hq & Ht & Hm). rewrite Hc. cbn [mbind option_bind].
  rewrite (IH q' _ Hq Hops), Ht, Hm. cbn [mbind option_bind]. by destruct (spec_op _ _ o l).
Qed.

(** C36: A queue made by vos_queueCreate for at least 2 and fewer than 2^28 messages is the list of its messages,
    for any sequence of calls of vos_queueSend, with data, and vos_queueReceive in which the mutex can always be
    taken and the semaphore is counted as documented: it takes exactly as many messages as it was made for and
    refuses the next with VOS_QUEUE_FULL_ERR, a receiver gets the oldest message (the youngest for a LIFO queue)
    with its size, and VOS_QUEUE_ERR when there is none; no call leaves the memory of the ring. (With 2^28 + 1
    messages the size of the ring wraps, vos_queueCreate_size_wraps; where the mutex fails after the semaphore was
    taken a message stays in the ring for good, vos_queueReceive_strands_message.) *)
Theorem vos_queue_refines env policy n q ops : 2 <= n < 2 ^ 28 ->
  vos_queueCreate env policy n = (VOS_NO_ERR, Some q) -> forallb op_ok ops = true ->
  queue_run ops (Some q) = Some (spec_run policy n ops []).
Proof.
  intros Hn Hc Hops. unfold vos_queueCreate in Hc. rewrite (proj2 (Z.eqb_neq n 0)) in Hc by lia.
  repeat (case_if_in Hc; [discriminate|]). cbv zeta in Hc. unfold sizeof_VOS_QUEUE_ELEM in Hc.
  rewrite u32_small, Z.div_mul in Hc by lia.
  destruct (cr_ring env _); [|discriminate]. destruct (ok (cr_unlock env)); [|discriminate]. injection Hc as <-.
  apply (queue_run_refines ops (mkQueue cQueueMagic 0 0 policy n 0 (repeat (None, 0) (Z.to_nat n))) []); [|done].
  split; cbn; try done; try lia.
  - rewrite repeat_length. lia.
  - intros _. exists 0. destruct (Z.to_nat n) eqn:En; [lia|done].
Qed.

Definition demo_create : create_env := mkCreate true VOS_NO_ERR VOS_NO_ERR VOS_NO_ERR (fun _ => true) VOS_NO_ERR.
Definition demo_ops : list queue_op :=
  [OpSend (11, 1); OpSend (12, 2); OpSend (13, 3); OpSend (14, 4); OpReceive; OpSend (15, 5); OpReceive; OpReceive; OpReceive; OpReceive].

Lemma vos_queue_refines_witness : exists q, vos_queueCreate demo_create VOS_QUEUE_POLICY_FIFO 3 = (VOS_NO_ERR, Some q)
  /\ queue_run demo_ops (Some q)
     = Some [Sent VOS_NO_ERR; Sent VOS_NO_ERR; Sent VOS_NO_ERR; Sent VOS_QUEUE_FULL_ERR; Received VOS_NO_ERR (Some (11, 1));
             Sent VOS_NO_ERR; Received VOS_NO_ERR (Some (12, 2)); Received VOS_NO_ERR (Some (13, 3)); Received VOS_NO_ERR (Some (15, 5));
             Received VOS_QUEUE_ERR None].
Proof.
  eexists. split; [reflexivity|].
  rewrite (vos_queue_refines demo_create VOS_QUEUE_POLICY_FIFO 3 _ demo_ops); [reflexivity|lia|reflexivity|reflexivity].
Defined.

(** A queue made for one message refuses every message: it counts as full from the start. *)
Theorem vos_queue_of_one_takes_nothing policy q p size : vos_queueCreate demo_create policy 1 = (VOS_NO_ERR, Some q) -> size <> 0 ->
  vos_queueSend VOS_NO_ERR VOS_NO_ERR (Some q) (Some p) size = Some (VOS_QUEUE_FULL_ERR, Some q).
Proof. intros Hc Hs. injection Hc as <-. unfold vos_queueSend. by rewrite (proj2 (Z.eqb_neq size 0)) by done. Qed.

(** When the mutex cannot be locked after the semaphore was taken, the message stays and cannot be
    received until another one is sent. *)
Theorem vos_queueReceive_strands_message : forall q, vos_queueCreate demo_create VOS_QUEUE_POLICY_FIFO 3 = (VOS_NO_ERR, Some q) ->
  exists q1 q2, vos_queueSend VOS_NO_ERR VOS_NO_ERR (Some q) (Some 11) 1 = Some (VOS_NO_ERR, Some q1)
    /\ vos_queueReceive VOS_MUTEX_ERR VOS_NO_ERR (Some q1) = Some (VOS_MUTEX_ERR, None, Some q2)
    /\ pQueue q2 = pQueue q1 /\ vos_queueReceive VOS_NO_ERR VOS_NO_ERR (Some q2) = Some (VOS_QUEUE_ERR, Some (None, 0), Some q2).
Proof. intros q Hc. injection Hc as <-. eexists _, _. split; [reflexivity|]. split; [reflexivity|]. by split. Qed.

(** The size of the ring is a 32-bit number: for 2^28 + 1 messages there is memory for one. *)
Theorem vos_queueCreate_size_wraps : exists q, vos_queueCreate demo_create VOS_QUEUE_POLICY_FIFO (2 ^ 28 + 1) = (VOS_NO_ERR, Some q)
  /\ length (pQueue q) = 1%nat /\ exists q1, vos_queueSend VOS_NO_ERR VOS_NO_ERR (Some q) (Some 11) 1 = Some (VOS_NO_ERR, Some q1)
  /\ vos_queueSend VOS_NO_ERR VOS_NO_ERR (Some q1) (Some 12) 1 = None.
Proof. eexists. split; [reflexivity|]. split; [reflexivity|]. eexists. split; reflexivity. Qed.
