(* ===== verification/TrdpTypes.v ===== *)
(** * Data of the TRDP stack

    Models the types and constants of src/app/trdp/tcnopen/trdp_types.h, trdp_private.h and
    iec61375-2-3.h that the components share: error codes, packet flags, addresses, queue elements,
    sockets and the session. A C pointer to a queue element is the element's [ele_ptr]; the chain
    of [pNext] pointers of a queue is the order of a list; a frame is the byte buffer it points to,
    the empty list standing for NULL. The C bit fields [BOOL8] are booleans. *)
From S2P Require Import Prelude Bytes VosTime.

Inductive TRDP_ERR_T :=
| TRDP_NO_ERR | TRDP_PARAM_ERR | TRDP_INIT_ERR | TRDP_NOINIT_ERR | TRDP_TIMEOUT_ERR
| TRDP_NODATA_ERR | TRDP_SOCK_ERR | TRDP_IO_ERR | TRDP_MEM_ERR | TRDP_SEMA_ERR
| TRDP_QUEUE_ERR | TRDP_QUEUE_FULL_ERR | TRDP_MUTEX_ERR | TRDP_THREAD_ERR | TRDP_BLOCK_ERR
| TRDP_INTEGRATION_ERR | TRDP_NOCONN_ERR | TRDP_NOSESSION_ERR | TRDP_SESSION_ABORT_ERR
| TRDP_NOSUB_ERR | TRDP_NOPUB_ERR | TRDP_NOLIST_ERR | TRDP_CRC_ERR | TRDP_WIRE_ERR
| TRDP_TOPO_ERR | TRDP_COMID_ERR | TRDP_STATE_ERR | TRDP_APP_TIMEOUT_ERR
| TRDP_APP_REPLYTO_ERR | TRDP_APP_CONFIRMTO_ERR | TRDP_REPLYTO_ERR | TRDP_CONFIRMTO_ERR
| TRDP_REQCONFIRMTO_ERR | TRDP_PACKET_ERR | TRDP_UNRESOLVED_ERR | TRDP_XML_PARSER_ERR
| TRDP_INUSE_ERR | TRDP_MARSHALLING_ERR | TRDP_UNKNOWN_ERR.

#[export] Instance TRDP_ERR_T_eq_dec : EqDecision TRDP_ERR_T.
Proof. solve_decision. Defined.

Definition is_ok (e : TRDP_ERR_T) : bool := match e with TRDP_NO_ERR => true | _ => false end.

(** ** Constants *)
Definition TRDP_PROTO_VER : Z := 0x0100.
Definition TRDP_PROTOCOL_VERSION_CHECK_MASK : Z := 0xFF00.
Definition sizeof_PD_HEADER_T : Z := 40.
Definition sizeof_MD_HEADER_T : Z := 116.
Definition TRDP_MIN_PD_HEADER_SIZE : Z := sizeof_PD_HEADER_T.
Definition TRDP_MAX_PD_DATA_SIZE : Z := 1432.
Definition TRDP_MAX_PD_PACKET_SIZE : Z := TRDP_MAX_PD_DATA_SIZE + TRDP_MIN_PD_HEADER_SIZE.
Definition INITFCS : Z := 0xffffffff.
Definition SIZE_OF_FCS : Z := 4.

Definition TRDP_MSG_PD : Z := 0x5064.
Definition TRDP_MSG_PP : Z := 0x5070.
Definition TRDP_MSG_PR : Z := 0x5072.
Definition TRDP_MSG_PE : Z := 0x5065.

(** Private flags and packet flags. *)
Definition TRDP_TIMED_OUT : Z := 0x2.
Definition TRDP_INVALID_DATA : Z := 0x4.
Definition TRDP_REQ_2B_SENT : Z := 0x8.
Definition TRDP_PULL_SUB : Z := 0x10.
Definition TRDP_REDUNDANT : Z := 0x20.
Definition TRDP_FLAGS_DEFAULT : Z := 0.
Definition TRDP_FLAGS_NONE : Z := 0x01.
Definition TRDP_FLAGS_MARSHALL : Z := 0x02.
Definition TRDP_FLAGS_CALLBACK : Z := 0x04.
Definition TRDP_FLAGS_FORCE_CB : Z := 0x10.
Definition TRDP_OPTION_BLOCK : Z := 0x01.
Definition TRDP_OPTION_TRAFFIC_SHAPING : Z := 0x02.
Definition TRDP_OPTION_NO_REUSE_ADDR : Z := 0x04.
Definition TRDP_OPTION_NO_MC_LOOP_BACK : Z := 0x08.
Definition TRDP_OPTION_NO_UDP_CHK : Z := 0x10.

Definition TRDP_STATISTICS_PULL_COMID : Z := 31.
Definition TRDP_GLOBAL_STATISTICS_COMID : Z := 35.
Definition TRDP_TIMER_GRANULARITY : Z := 10000.
Definition TRDP_TIMER_FOREVER : Z := 0xffffffff.
Definition TRDP_MAGIC_PUB_HNDL_VALUE : Z := 0xCAFEBABE.
Definition TRDP_MAGIC_SUB_HNDL_VALUE : Z := 0xBABECAFE.
Definition TRDP_SEQ_CNT_START_ARRAY_SIZE : Z := 64.
Definition VOS_MAX_SOCKET_CNT : Z := 80.
Definition VOS_MAX_MULTICAST_CNT : nat := 20.
Definition VOS_INVALID_SOCKET : Z := -1.
Definition TRDP_INVALID_SOCKET_INDEX : Z := -1.

(** A flag test [x & f], and the clearing [x & ~f] of an 8-bit flag word. *)
Definition flag (x f : Z) : bool := truthy (x &&& f).
Definition clear_flag (x f : Z) : Z := x &&& not8 f.
Definition set_flag (x f : Z) : Z := x ||| f.

Inductive TRDP_SOCK_TYPE_T := TRDP_SOCK_PD | TRDP_SOCK_MD_UDP | TRDP_SOCK_MD_TCP.
Inductive TRDP_TO_BEHAVIOR_T := TRDP_TO_DEFAULT | TRDP_TO_SET_TO_ZERO | TRDP_TO_KEEP_LAST_VALUE.

#[export] Instance TRDP_SOCK_TYPE_T_eq_dec : EqDecision TRDP_SOCK_TYPE_T.
Proof. solve_decision. Defined.
#[export] Instance TRDP_TO_BEHAVIOR_T_eq_dec : EqDecision TRDP_TO_BEHAVIOR_T.
Proof. solve_decision. Defined.

(** [TRDP_ADDRESSES_T], the addressing item of a publisher or subscriber *)
Record TRDP_ADDRESSES_T := mkAddr {
  comId : Z;
  srcIpAddr : Z;
  destIpAddr : Z;
  mcGroup : Z;
  etbTopoCnt : Z;
  opTrnTopoCnt : Z }.

Definition set_comId (v : Z) (e : TRDP_ADDRESSES_T) : TRDP_ADDRESSES_T :=
  mkAddr v (srcIpAddr e) (destIpAddr e) (mcGroup e) (etbTopoCnt e) (opTrnTopoCnt e).
Definition set_destIpAddr (v : Z) (e : TRDP_ADDRESSES_T) : TRDP_ADDRESSES_T :=
  mkAddr (comId e) (srcIpAddr e) v (mcGroup e) (etbTopoCnt e) (opTrnTopoCnt e).

(** [TRDP_SEQ_CNT_ENTRY_T] and [TRDP_SEQ_CNT_LIST_T]: [seq] holds the [curNoOfEntries] entries. *)
Record TRDP_SEQ_CNT_ENTRY_T := mkSeq { lastSeqCnt : Z; seq_srcIp : Z; seq_msgType : Z }.
Record TRDP_SEQ_CNT_LIST_T := mkSeqList { maxNoOfEntries : Z; seq_entries : list TRDP_SEQ_CNT_ENTRY_T }.

(** The user's callback of an element: which function it is, if any. *)
Abbreviation TRDP_PD_CALLBACK_T := (option Z).

(** [PD_ELE_T], a queue element for a packet to send or receive ([pCachedDS] belongs to the marshaller) *)
Record PD_ELE_T := mkPD {
  ele_ptr : Z;
  magic : Z;
  addr : TRDP_ADDRESSES_T;
  lastSrcIP : Z;
  pullIpAddress : Z;
  redId : Z;
  curSeqCnt : Z;
  curSeqCnt4Pull : Z;
  pSeqCntList : option TRDP_SEQ_CNT_LIST_T;
  numRxTx : Z;
  updPkts : Z;
  getPkts : Z;
  numMissed : Z;
  lastErr : TRDP_ERR_T;
  privFlags : Z;
  pktFlags : Z;
  interval : TRDP_TIME_T;
  timeToGo : TRDP_TIME_T;
  toBehavior : TRDP_TO_BEHAVIOR_T;
  dataSize : Z;
  grossSize : Z;
  sendSize : Z;
  socketIdx : Z;
  pUserRef : Z;
  pfCbFunction : TRDP_PD_CALLBACK_T;
  pFrame : list Z }.

Definition set_magic (v : Z) (e : PD_ELE_T) : PD_ELE_T :=
  mkPD (ele_ptr e) v (addr e) (lastSrcIP e) (pullIpAddress e) (redId e) (curSeqCnt e)
    (curSeqCnt4Pull e) (pSeqCntList e) (numRxTx e) (updPkts e) (getPkts e) (numMissed e)
    (lastErr e) (privFlags e) (pktFlags e) (interval e) (timeToGo e) (toBehavior e) (dataSize e)
    (grossSize e) (sendSize e) (socketIdx e) (pUserRef e) (pfCbFunction e) (pFrame e).
Definition set_addr (v : TRDP_ADDRESSES_T) (e : PD_ELE_T) : PD_ELE_T :=
  mkPD (ele_ptr e) (magic e) v (lastSrcIP e) (pullIpAddress e) (redId e) (curSeqCnt e)
    (curSeqCnt4Pull e) (pSeqCntList e) (numRxTx e) (updPkts e) (getPkts e) (numMissed e)
    (lastErr e) (privFlags e) (pktFlags e) (interval e) (timeToGo e) (toBehavior e) (dataSize e)
    (grossSize e) (sendSize e) (socketIdx e) (pUserRef e) (pfCbFunction e) (pFrame e).
Definition set_lastSrcIP (v : Z) (e : PD_ELE_T) : PD_ELE_T :=
  mkPD (ele_ptr e) (magic e) (addr e) v (pullIpAddress e) (redId e) (curSeqCnt e)
    (curSeqCnt4Pull e) (pSeqCntList e) (numRxTx e) (updPkts e) (getPkts e) (numMissed e)
    (lastErr e) (privFlags e) (pktFlags e) (interval e) (timeToGo e) (toBehavior e) (dataSize e)
    (grossSize e) (sendSize e) (socketIdx e) (pUserRef e) (pfCbFunction e) (pFrame e).
Definition set_pullIpAddress (v : Z) (e : PD_ELE_T) : PD_ELE_T :=
  mkPD (ele_ptr e) (magic e) (addr e) (lastSrcIP e) v (redId e) (curSeqCnt e) (curSeqCnt4Pull e)
    (pSeqCntList e) (numRxTx e) (updPkts e) (getPkts e) (numMissed e) (lastErr e) (privFlags e)
    (pktFlags e) (interval e) (timeToGo e) (toBehavior e) (dataSize e) (grossSize e) (sendSize
    e) (socketIdx e) (pUserRef e) (pfCbFunction e) (pFrame e).
Definition set_redId (v : Z) (e : PD_ELE_T) : PD_ELE_T :=
  mkPD (ele_ptr e) (magic e) (addr e) (lastSrcIP e) (pullIpAddress e) v (curSeqCnt e)
    (curSeqCnt4Pull e) (pSeqCntList e) (numRxTx e) (updPkts e) (getPkts e) (numMissed e)
    (lastErr e) (privFlags e) (pktFlags e) (interval e) (timeToGo e) (toBehavior e) (dataSize e)
    (grossSize e) (sendSize e) (socketIdx e) (pUserRef e) (pfCbFunction e) (pFrame e).
Definition set_curSeqCnt (v : Z) (e : PD_ELE_T) : PD_ELE_T :=
  mkPD (ele_ptr e) (magic e) (addr e) (lastSrcIP e) (pullIpAddress e) (redId e) v
    (curSeqCnt4Pull e) (pSeqCntList e) (numRxTx e) (updPkts e) (getPkts e) (numMissed e)
    (lastErr e) (privFlags e) (pktFlags e) (interval e) (timeToGo e) (toBehavior e) (dataSize e)
    (grossSize e) (sendSize e) (socketIdx e) (pUserRef e) (pfCbFunction e) (pFrame e).
Definition set_curSeqCnt4Pull (v : Z) (e : PD_ELE_T) : PD_ELE_T :=
  mkPD (ele_ptr e) (magic e) (addr e) (lastSrcIP e) (pullIpAddress e) (redId e) (curSeqCnt e) v
    (pSeqCntList e) (numRxTx e) (updPkts e) (getPkts e) (numMissed e) (lastErr e) (privFlags e)
    (pktFlags e) (interval e) (timeToGo e) (toBehavior e) (dataSize e) (grossSize e) (sendSize
    e) (socketIdx e) (pUserRef e) (pfCbFunction e) (pFrame e).
Definition set_pSeqCntList (v : option TRDP_SEQ_CNT_LIST_T) (e : PD_ELE_T) : PD_ELE_T :=
  mkPD (ele_ptr e) (magic e) (addr e) (lastSrcIP e) (pullIpAddress e) (redId e) (curSeqCnt e)
    (curSeqCnt4Pull e) v (numRxTx e) (updPkts e) (getPkts e) (numMissed e) (lastErr e)
    (privFlags e) (pktFlags e) (interval e) (timeToGo e) (toBehavior e) (dataSize e) (grossSize
    e) (sendSize e) (socketIdx e) (pUserRef e) (pfCbFunction e) (pFrame e).
Definition set_numRxTx (v : Z) (e : PD_ELE_T) : PD_ELE_T :=
  mkPD (ele_ptr e) (magic e) (addr e) (lastSrcIP e) (pullIpAddress e) (redId e) (curSeqCnt e)
    (curSeqCnt4Pull e) (pSeqCntList e) v (updPkts e) (getPkts e) (numMissed e) (lastErr e)
    (privFlags e) (pktFlags e) (interval e) (timeToGo e) (toBehavior e) (dataSize e) (grossSize
    e) (sendSize e) (socketIdx e) (pUserRef e) (pfCbFunction e) (pFrame e).
Definition set_updPkts (v : Z) (e : PD_ELE_T) : PD_ELE_T :=
  mkPD (ele_ptr e) (magic e) (addr e) (lastSrcIP e) (pullIpAddress e) (redId e) (curSeqCnt e)
    (curSeqCnt4Pull e) (pSeqCntList e) (numRxTx e) v (getPkts e) (numMissed e) (lastErr e)
    (privFlags e) (pktFlags e) (interval e) (timeToGo e) (toBehavior e) (dataSize e) (grossSize
    e) (sendSize e) (socketIdx e) (pUserRef e) (pfCbFunction e) (pFrame e).
Definition set_getPkts (v : Z) (e : PD_ELE_T) : PD_ELE_T :=
  mkPD (ele_ptr e) (magic e) (addr e) (lastSrcIP e) (pullIpAddress e) (redId e) (curSeqCnt e)
    (curSeqCnt4Pull e) (pSeqCntList e) (numRxTx e) (updPkts e) v (numMissed e) (lastErr e)
    (privFlags e) (pktFlags e) (interval e) (timeToGo e) (toBehavior e) (dataSize e) (grossSize
    e) (sendSize e) (socketIdx e) (pUserRef e) (pfCbFunction e) (pFrame e).
Definition set_numMissed (v : Z) (e : PD_ELE_T) : PD_ELE_T :=
  mkPD (ele_ptr e) (magic e) (addr e) (lastSrcIP e) (pullIpAddress e) (redId e) (curSeqCnt e)
    (curSeqCnt4Pull e) (pSeqCntList e) (numRxTx e) (updPkts e) (getPkts e) v (lastErr e)
    (privFlags e) (pktFlags e) (interval e) (timeToGo e) (toBehavior e) (dataSize e) (grossSize
    e) (sendSize e) (socketIdx e) (pUserRef e) (pfCbFunction e) (pFrame e).
Definition set_lastErr (v : TRDP_ERR_T) (e : PD_ELE_T) : PD_ELE_T :=
  mkPD (ele_ptr e) (magic e) (addr e) (lastSrcIP e) (pullIpAddress e) (redId e) (curSeqCnt e)
    (curSeqCnt4Pull e) (pSeqCntList e) (numRxTx e) (updPkts e) (getPkts e) (numMissed e) v
    (privFlags e) (pktFlags e) (interval e) (timeToGo e) (toBehavior e) (dataSize e) (grossSize
    e) (sendSize e) (socketIdx e) (pUserRef e) (pfCbFunction e) (pFrame e).
Definition set_privFlags (v : Z) (e : PD_ELE_T) : PD_ELE_T :=
  mkPD (ele_ptr e) (magic e) (addr e) (lastSrcIP e) (pullIpAddress e) (redId e) (curSeqCnt e)
    (curSeqCnt4Pull e) (pSeqCntList e) (numRxTx e) (updPkts e) (getPkts e) (numMissed e)
    (lastErr e) v (pktFlags e) (interval e) (timeToGo e) (toBehavior e) (dataSize e) (grossSize
    e) (sendSize e) (socketIdx e) (pUserRef e) (pfCbFunction e) (pFrame e).
Definition set_pktFlags (v : Z) (e : PD_ELE_T) : PD_ELE_T :=
  mkPD (ele_ptr e) (magic e) (addr e) (lastSrcIP e) (pullIpAddress e) (redId e) (curSeqCnt e)
    (curSeqCnt4Pull e) (pSeqCntList e) (numRxTx e) (updPkts e) (getPkts e) (numMissed e)
    (lastErr e) (privFlags e) v (interval e) (timeToGo e) (toBehavior e) (dataSize e) (grossSize
    e) (sendSize e) (socketIdx e) (pUserRef e) (pfCbFunction e) (pFrame e).
Definition set_interval (v : TRDP_TIME_T) (e : PD_ELE_T) : PD_ELE_T :=
  mkPD (ele_ptr e) (magic e) (addr e) (lastSrcIP e) (pullIpAddress e) (redId e) (curSeqCnt e)
    (curSeqCnt4Pull e) (pSeqCntList e) (numRxTx e) (updPkts e) (getPkts e) (numMissed e)
    (lastErr e) (privFlags e) (pktFlags e) v (timeToGo e) (toBehavior e) (dataSize e) (grossSize
    e) (sendSize e) (socketIdx e) (pUserRef e) (pfCbFunction e) (pFrame e).
Definition set_timeToGo (v : TRDP_TIME_T) (e : PD_ELE_T) : PD_ELE_T :=
  mkPD (ele_ptr e) (magic e) (addr e) (lastSrcIP e) (pullIpAddress e) (redId e) (curSeqCnt e)
    (curSeqCnt4Pull e) (pSeqCntList e) (numRxTx e) (updPkts e) (getPkts e) (numMissed e)
    (lastErr e) (privFlags e) (pktFlags e) (interval e) v (toBehavior e) (dataSize e) (grossSize
    e) (sendSize e) (socketIdx e) (pUserRef e) (pfCbFunction e) (pFrame e).
Definition set_dataSize (v : Z) (e : PD_ELE_T) : PD_ELE_T :=
  mkPD (ele_ptr e) (magic e) (addr e) (lastSrcIP e) (pullIpAddress e) (redId e) (curSeqCnt e)
    (curSeqCnt4Pull e) (pSeqCntList e) (numRxTx e) (updPkts e) (getPkts e) (numMissed e)
    (lastErr e) (privFlags e) (pktFlags e) (interval e) (timeToGo e) (toBehavior e) v (grossSize
    e) (sendSize e) (socketIdx e) (pUserRef e) (pfCbFunction e) (pFrame e).
Definition set_grossSize (v : Z) (e : PD_ELE_T) : PD_ELE_T :=
  mkPD (ele_ptr e) (magic e) (addr e) (lastSrcIP e) (pullIpAddress e) (redId e) (curSeqCnt e)
    (curSeqCnt4Pull e) (pSeqCntList e) (numRxTx e) (updPkts e) (getPkts e) (numMissed e)
    (lastErr e) (privFlags e) (pktFlags e) (interval e) (timeToGo e) (toBehavior e) (dataSize e)
    v (sendSize e) (socketIdx e) (pUserRef e) (pfCbFunction e) (pFrame e).
Definition set_sendSize (v : Z) (e : PD_ELE_T) : PD_ELE_T :=
  mkPD (ele_ptr e) (magic e) (addr e) (lastSrcIP e) (pullIpAddress e) (redId e) (curSeqCnt e)
    (curSeqCnt4Pull e) (pSeqCntList e) (numRxTx e) (updPkts e) (getPkts e) (numMissed e)
    (lastErr e) (privFlags e) (pktFlags e) (interval e) (timeToGo e) (toBehavior e) (dataSize e)
    (grossSize e) v (socketIdx e) (pUserRef e) (pfCbFunction e) (pFrame e).
Definition set_socketIdx (v : Z) (e : PD_ELE_T) : PD_ELE_T :=
  mkPD (ele_ptr e) (magic e) (addr e) (lastSrcIP e) (pullIpAddress e) (redId e) (curSeqCnt e)
    (curSeqCnt4Pull e) (pSeqCntList e) (numRxTx e) (updPkts e) (getPkts e) (numMissed e)
    (lastErr e) (privFlags e) (pktFlags e) (interval e) (timeToGo e) (toBehavior e) (dataSize e)
    (grossSize e) (sendSize e) v (pUserRef e) (pfCbFunction e) (pFrame e).
Definition set_pFrame (v : list Z) (e : PD_ELE_T) : PD_ELE_T :=
  mkPD (ele_ptr e) (magic e) (addr e) (lastSrcIP e) (pullIpAddress e) (redId e) (curSeqCnt e)
    (curSeqCnt4Pull e) (pSeqCntList e) (numRxTx e) (updPkts e) (getPkts e) (numMissed e)
    (lastErr e) (privFlags e) (pktFlags e) (interval e) (timeToGo e) (toBehavior e) (dataSize e)
    (grossSize e) (sendSize e) (socketIdx e) (pUserRef e) (pfCbFunction e) v.

(** [TRDP_SOCKETS_T] with its [sendParam] and [tcpParams] fields *)
Record TRDP_SOCKETS_T := mkSock {
  sock : Z;
  bindAddr : Z;
  qos : Z;
  ttl : Z;
  sock_type : TRDP_SOCK_TYPE_T;
  rcvMostly : bool;
  usage : Z;
  cornerIp : Z;
  notSend : bool;
  connectionTimeout : TRDP_TIME_T;
  sendNotOk : bool;
  sendingTimeout : TRDP_TIME_T;
  addFileDesc : bool;
  morituri : bool;
  mcGroups : list Z }.

Definition set_sock (v : Z) (e : TRDP_SOCKETS_T) : TRDP_SOCKETS_T :=
  mkSock v (bindAddr e) (qos e) (ttl e) (sock_type e) (rcvMostly e) (usage e) (cornerIp e)
    (notSend e) (connectionTimeout e) (sendNotOk e) (sendingTimeout e) (addFileDesc e) (morituri
    e) (mcGroups e).
Definition set_usage (v : Z) (e : TRDP_SOCKETS_T) : TRDP_SOCKETS_T :=
  mkSock (sock e) (bindAddr e) (qos e) (ttl e) (sock_type e) (rcvMostly e) v (cornerIp e)
    (notSend e) (connectionTimeout e) (sendNotOk e) (sendingTimeout e) (addFileDesc e) (morituri
    e) (mcGroups e).
Definition set_connectionTimeout (v : TRDP_TIME_T) (e : TRDP_SOCKETS_T) : TRDP_SOCKETS_T :=
  mkSock (sock e) (bindAddr e) (qos e) (ttl e) (sock_type e) (rcvMostly e) (usage e) (cornerIp
    e) (notSend e) v (sendNotOk e) (sendingTimeout e) (addFileDesc e) (morituri e) (mcGroups e).
Definition set_mcGroups (v : list Z) (e : TRDP_SOCKETS_T) : TRDP_SOCKETS_T :=
  mkSock (sock e) (bindAddr e) (qos e) (ttl e) (sock_type e) (rcvMostly e) (usage e) (cornerIp
    e) (notSend e) (connectionTimeout e) (sendNotOk e) (sendingTimeout e) (addFileDesc e)
    (morituri e) v.

(** The counters of [TRDP_STATISTICS_T] that the process data code changes. *)
Record TRDP_PD_STATISTICS_T := mkPdStat {
  numSub : Z;
  numPub : Z;
  numRcv : Z;
  numCrcErr : Z;
  numProtErr : Z;
  numTopoErr : Z;
  numTimeout : Z;
  numSend : Z }.

Definition set_numSub (v : Z) (e : TRDP_PD_STATISTICS_T) : TRDP_PD_STATISTICS_T :=
  mkPdStat v (numPub e) (numRcv e) (numCrcErr e) (numProtErr e) (numTopoErr e) (numTimeout e)
    (numSend e).
Definition set_numPub (v : Z) (e : TRDP_PD_STATISTICS_T) : TRDP_PD_STATISTICS_T :=
  mkPdStat (numSub e) v (numRcv e) (numCrcErr e) (numProtErr e) (numTopoErr e) (numTimeout e)
    (numSend e).
Definition set_numRcv (v : Z) (e : TRDP_PD_STATISTICS_T) : TRDP_PD_STATISTICS_T :=
  mkPdStat (numSub e) (numPub e) v (numCrcErr e) (numProtErr e) (numTopoErr e) (numTimeout e)
    (numSend e).
Definition set_numCrcErr (v : Z) (e : TRDP_PD_STATISTICS_T) : TRDP_PD_STATISTICS_T :=
  mkPdStat (numSub e) (numPub e) (numRcv e) v (numProtErr e) (numTopoErr e) (numTimeout e)
    (numSend e).
Definition set_numProtErr (v : Z) (e : TRDP_PD_STATISTICS_T) : TRDP_PD_STATISTICS_T :=
  mkPdStat (numSub e) (numPub e) (numRcv e) (numCrcErr e) v (numTopoErr e) (numTimeout e)
    (numSend e).
Definition set_numTopoErr (v : Z) (e : TRDP_PD_STATISTICS_T) : TRDP_PD_STATISTICS_T :=
  mkPdStat (numSub e) (numPub e) (numRcv e) (numCrcErr e) (numProtErr e) v (numTimeout e)
    (numSend e).
Definition set_numTimeout (v : Z) (e : TRDP_PD_STATISTICS_T) : TRDP_PD_STATISTICS_T :=
  mkPdStat (numSub e) (numPub e) (numRcv e) (numCrcErr e) (numProtErr e) (numTopoErr e) v
    (numSend e).
Definition set_numSend (v : Z) (e : TRDP_PD_STATISTICS_T) : TRDP_PD_STATISTICS_T :=
  mkPdStat (numSub e) (numPub e) (numRcv e) (numCrcErr e) (numProtErr e) (numTopoErr e)
    (numTimeout e) v.

(** [TRDP_PD_CONFIG_T], the session's defaults for process data *)
Record TRDP_PD_CONFIG_T := mkPdCfg {
  pd_cbFunction : TRDP_PD_CALLBACK_T;
  pd_refCon : Z;
  pd_sendQos : Z;
  pd_sendTtl : Z;
  pd_flags : Z;
  pd_timeout : Z;
  pd_toBehavior : TRDP_TO_BEHAVIOR_T;
  pd_port : Z }.


(** The marshalling callbacks: comId, source, its size, room; result, bytes written, their number. *)
Definition TRDP_MARSHALL_T : Type := Z -> list Z -> Z -> Z -> TRDP_ERR_T * list Z * Z.

(** [TRDP_SESSION_T], the part of it process data uses. The members of [marshall] are the two
    callbacks; message data, debugging output and the host names are left out. *)
Record TRDP_SESSION_T := mkSession {
  realIP : Z;
  s_etbTopoCnt : Z;
  s_opTrnTopoCnt : Z;
  nextJob : TRDP_TIME_T;
  pdDefault : TRDP_PD_CONFIG_T;
  option_ : Z;
  iface : list TRDP_SOCKETS_T;
  pfCbMarshall : option TRDP_MARSHALL_T;
  pfCbUnmarshall : option TRDP_MARSHALL_T;
  pSndQueue : list PD_ELE_T;
  pRcvQueue : list PD_ELE_T;
  pNewFrame : list Z;
  pd_stats : TRDP_PD_STATISTICS_T }.

Definition set_s_etbTopoCnt (v : Z) (e : TRDP_SESSION_T) : TRDP_SESSION_T :=
  mkSession (realIP e) v (s_opTrnTopoCnt e) (nextJob e) (pdDefault e) (option_ e) (iface e)
    (pfCbMarshall e) (pfCbUnmarshall e) (pSndQueue e) (pRcvQueue e) (pNewFrame e) (pd_stats e).
Definition set_s_opTrnTopoCnt (v : Z) (e : TRDP_SESSION_T) : TRDP_SESSION_T :=
  mkSession (realIP e) (s_etbTopoCnt e) v (nextJob e) (pdDefault e) (option_ e) (iface e)
    (pfCbMarshall e) (pfCbUnmarshall e) (pSndQueue e) (pRcvQueue e) (pNewFrame e) (pd_stats e).
Definition set_nextJob (v : TRDP_TIME_T) (e : TRDP_SESSION_T) : TRDP_SESSION_T :=
  mkSession (realIP e) (s_etbTopoCnt e) (s_opTrnTopoCnt e) v (pdDefault e) (option_ e) (iface e)
    (pfCbMarshall e) (pfCbUnmarshall e) (pSndQueue e) (pRcvQueue e) (pNewFrame e) (pd_stats e).
Definition set_pdDefault (v : TRDP_PD_CONFIG_T) (e : TRDP_SESSION_T) : TRDP_SESSION_T :=
  mkSession (realIP e) (s_etbTopoCnt e) (s_opTrnTopoCnt e) (nextJob e) v (option_ e) (iface e)
    (pfCbMarshall e) (pfCbUnmarshall e) (pSndQueue e) (pRcvQueue e) (pNewFrame e) (pd_stats e).
Definition set_option_ (v : Z) (e : TRDP_SESSION_T) : TRDP_SESSION_T :=
  mkSession (realIP e) (s_etbTopoCnt e) (s_opTrnTopoCnt e) (nextJob e) (pdDefault e) v (iface e)
    (pfCbMarshall e) (pfCbUnmarshall e) (pSndQueue e) (pRcvQueue e) (pNewFrame e) (pd_stats e).
Definition set_iface (v : list TRDP_SOCKETS_T) (e : TRDP_SESSION_T) : TRDP_SESSION_T :=
  mkSession (realIP e) (s_etbTopoCnt e) (s_opTrnTopoCnt e) (nextJob e) (pdDefault e) (option_ e)
    v (pfCbMarshall e) (pfCbUnmarshall e) (pSndQueue e) (pRcvQueue e) (pNewFrame e) (pd_stats e).
Definition set_pfCbMarshall (v : option TRDP_MARSHALL_T) (e : TRDP_SESSION_T) : TRDP_SESSION_T :=
  mkSession (realIP e) (s_etbTopoCnt e) (s_opTrnTopoCnt e) (nextJob e) (pdDefault e) (option_ e)
    (iface e) v (pfCbUnmarshall e) (pSndQueue e) (pRcvQueue e) (pNewFrame e) (pd_stats e).
Definition set_pfCbUnmarshall (v : option TRDP_MARSHALL_T) (e : TRDP_SESSION_T) : TRDP_SESSION_T :=
  mkSession (realIP e) (s_etbTopoCnt e) (s_opTrnTopoCnt e) (nextJob e) (pdDefault e) (option_ e)
    (iface e) (pfCbMarshall e) v (pSndQueue e) (pRcvQueue e) (pNewFrame e) (pd_stats e).
Definition set_pSndQueue (v : list PD_ELE_T) (e : TRDP_SESSION_T) : TRDP_SESSION_T :=
  mkSession (realIP e) (s_etbTopoCnt e) (s_opTrnTopoCnt e) (nextJob e) (pdDefault e) (option_ e)
    (iface e) (pfCbMarshall e) (pfCbUnmarshall e) v (pRcvQueue e) (pNewFrame e) (pd_stats e).
Definition set_pRcvQueue (v : list PD_ELE_T) (e : TRDP_SESSION_T) : TRDP_SESSION_T :=
  mkSession (realIP e) (s_etbTopoCnt e) (s_opTrnTopoCnt e) (nextJob e) (pdDefault e) (option_ e)
    (iface e) (pfCbMarshall e) (pfCbUnmarshall e) (pSndQueue e) v (pNewFrame e) (pd_stats e).
Definition set_pNewFrame (v : list Z) (e : TRDP_SESSION_T) : TRDP_SESSION_T :=
  mkSession (realIP e) (s_etbTopoCnt e) (s_opTrnTopoCnt e) (nextJob e) (pdDefault e) (option_ e)
    (iface e) (pfCbMarshall e) (pfCbUnmarshall e) (pSndQueue e) (pRcvQueue e) v (pd_stats e).
Definition set_pd_stats (v : TRDP_PD_STATISTICS_T) (e : TRDP_SESSION_T) : TRDP_SESSION_T :=
  mkSession (realIP e) (s_etbTopoCnt e) (s_opTrnTopoCnt e) (nextJob e) (pdDefault e) (option_ e)
    (iface e) (pfCbMarshall e) (pfCbUnmarshall e) (pSndQueue e) (pRcvQueue e) (pNewFrame e) v.

(** [e->addr.comId] and the like. *)
Definition a_comId (e : PD_ELE_T) : Z := comId (addr e).

(** An element all of whose members are zero, as [vos_memAlloc] delivers it. *)
Definition zero_addr : TRDP_ADDRESSES_T := mkAddr 0 0 0 0 0 0.
Definition zero_time : TRDP_TIME_T := mkTime 0 0.
Definition zero_ele (p : Z) : PD_ELE_T :=
  mkPD p 0 zero_addr 0 0 0 0 0 None 0 0 0 0 TRDP_NO_ERR 0 0 zero_time zero_time TRDP_TO_DEFAULT
       0 0 0 0 0 None [].
Definition zero_sock : TRDP_SOCKETS_T :=
  mkSock 0 0 0 0 TRDP_SOCK_PD false 0 0 false zero_time false zero_time false false (repeat 0 VOS_MAX_MULTICAST_CNT).

(** Changing the element a pointer refers to, where it stands in its queue. *)
Definition update_ele (p : Z) (f : PD_ELE_T -> PD_ELE_T) (q : list PD_ELE_T) : list PD_ELE_T :=
  map (fun e => if ele_ptr e =? p then f e else e) q.

Definition find_ele (p : Z) (q : list PD_ELE_T) : option PD_ELE_T := find (fun e => ele_ptr e =? p) q.
