(* ===== verification/TrdpMdTypes.v ===== *)
(** * Data of message data

    Models the message data part of src/app/trdp/tcnopen/trdp_private.h, trdp_types.h and
    iec61375-2-3.h: session states, queue elements, listeners, configuration, counters and the
    message data members of the session. An element is known by its address [md_ptr]; its packet is
    the buffer [pPacket] points to, [None] standing for NULL. URIs are buffers of characters. The
    members that the code never reads (curSeqCnt, pCachedDS, the host parts of URIs) are left out. *)
From S2P Require Import Prelude Bytes VosTime TrdpTypes.

(** ** Constants *)
Definition TRDP_MSG_MN : Z := 0x4D6E.
Definition TRDP_MSG_MR : Z := 0x4D72.
Definition TRDP_MSG_MP : Z := 0x4D70.
Definition TRDP_MSG_MQ : Z := 0x4D71.
Definition TRDP_MSG_MC : Z := 0x4D63.
Definition TRDP_MSG_ME : Z := 0x4D65.
Definition TRDP_MAX_MD_DATA_SIZE : Z := 65388.
Definition TRDP_MAX_MD_PACKET_SIZE : Z := TRDP_MAX_MD_DATA_SIZE + sizeof_MD_HEADER_T.
Definition TRDP_MAX_MD_RETRIES : Z := 2.
Definition TRDP_SESS_ID_SIZE : nat := 16.
Definition TRDP_MAX_URI_USER_LEN : nat := 32.
Definition TRDP_DEST_URI_SIZE : Z := 32.
Definition TDRP_MD_INFINITE_TIME : Z := 0.
Definition TDRP_MD_INFINITE_USEC_TIME : Z := 0.
Definition TRDP_INFINITE_TIMEOUT : Z := 0xffffffff.
Definition TRDP_FLAGS_TCP : Z := 0x08.
Definition TRDP_PRIV_NONE : Z := 0.
Definition TRDP_OPTION_NONE : Z := 0.
Definition TRDP_REPLY_OK : Z := 0.
Definition TRDP_REPLY_NO_REPLIER_INST : Z := -3.
Definition TRDP_REPLY_NO_MEM_REPL : Z := -4.
Definition TRDP_REPLY_UNSPECIFIED_ERROR : Z := -99.

(** The state of a session. *)
Inductive TRDP_MD_ELE_ST_T :=
| TRDP_ST_NONE
| TRDP_ST_TX_NOTIFY_ARM | TRDP_ST_TX_REQUEST_ARM | TRDP_ST_TX_REPLY_ARM
| TRDP_ST_TX_REPLYQUERY_ARM | TRDP_ST_TX_CONFIRM_ARM | TRDP_ST_RX_READY
| TRDP_ST_TX_REQUEST_W4REPLY | TRDP_ST_RX_REPLYQUERY_W4C
| TRDP_ST_RX_REQ_W4AP_REPLY | TRDP_ST_TX_REQ_W4AP_CONFIRM | TRDP_ST_RX_REPLY_SENT
| TRDP_ST_RX_NOTIFY_RECEIVED | TRDP_ST_TX_REPLY_RECEIVED | TRDP_ST_RX_CONF_RECEIVED.

#[export] Instance TRDP_MD_ELE_ST_T_eq_dec : EqDecision TRDP_MD_ELE_ST_T.
Proof. solve_decision. Defined.

(** ** Queue elements *)

(** [MD_ELE_T], a session of a caller or a replier *)
Record MD_ELE_T := mkMD {
  md_ptr : Z;
  md_addr : TRDP_ADDRESSES_T;
  md_privFlags : Z;
  md_pktFlags : Z;
  md_morituri : bool;
  md_interval : TRDP_TIME_T;
  md_timeToGo : TRDP_TIME_T;
  md_dataSize : Z;
  md_grossSize : Z;
  md_sendSize : Z;
  md_socketIdx : Z;
  md_replyPort : Z;
  md_stateEle : TRDP_MD_ELE_ST_T;
  md_sessionID : list Z;
  numExpReplies : Z;
  numReplies : Z;
  numRetriesMax : Z;
  numRetries : Z;
  numRepliesQuery : Z;
  numConfirmSent : Z;
  numConfirmTimeout : Z;
  md_pUserRef : Z;
  md_destURI : list Z;
  md_srcURI : list Z;
  doConnect : bool;
  msgUncomplete : bool;
  md_cb : option Z;
  pPacket : option (list Z) }.

Definition set_md_addr (v : TRDP_ADDRESSES_T) (e : MD_ELE_T) : MD_ELE_T :=
  mkMD (md_ptr e) v (md_privFlags e) (md_pktFlags e) (md_morituri e) (md_interval e) (md_timeToGo e)
    (md_dataSize e) (md_grossSize e) (md_sendSize e) (md_socketIdx e) (md_replyPort e) (md_stateEle e)
    (md_sessionID e) (numExpReplies e) (numReplies e) (numRetriesMax e) (numRetries e) (numRepliesQuery e)
    (numConfirmSent e) (numConfirmTimeout e) (md_pUserRef e) (md_destURI e) (md_srcURI e) (doConnect e)
    (msgUncomplete e) (md_cb e) (pPacket e).
Definition set_md_privFlags (v : Z) (e : MD_ELE_T) : MD_ELE_T :=
  mkMD (md_ptr e) (md_addr e) v (md_pktFlags e) (md_morituri e) (md_interval e) (md_timeToGo e) (md_dataSize
    e) (md_grossSize e) (md_sendSize e) (md_socketIdx e) (md_replyPort e) (md_stateEle e) (md_sessionID e)
    (numExpReplies e) (numReplies e) (numRetriesMax e) (numRetries e) (numRepliesQuery e) (numConfirmSent e)
    (numConfirmTimeout e) (md_pUserRef e) (md_destURI e) (md_srcURI e) (doConnect e) (msgUncomplete e)
    (md_cb e) (pPacket e).
Definition set_md_pktFlags (v : Z) (e : MD_ELE_T) : MD_ELE_T :=
  mkMD (md_ptr e) (md_addr e) (md_privFlags e) v (md_morituri e) (md_interval e) (md_timeToGo e)
    (md_dataSize e) (md_grossSize e) (md_sendSize e) (md_socketIdx e) (md_replyPort e) (md_stateEle e)
    (md_sessionID e) (numExpReplies e) (numReplies e) (numRetriesMax e) (numRetries e) (numRepliesQuery e)
    (numConfirmSent e) (numConfirmTimeout e) (md_pUserRef e) (md_destURI e) (md_srcURI e) (doConnect e)
    (msgUncomplete e) (md_cb e) (pPacket e).
Definition set_md_morituri (v : bool) (e : MD_ELE_T) : MD_ELE_T :=
  mkMD (md_ptr e) (md_addr e) (md_privFlags e) (md_pktFlags e) v (md_interval e) (md_timeToGo e)
    (md_dataSize e) (md_grossSize e) (md_sendSize e) (md_socketIdx e) (md_replyPort e) (md_stateEle e)
    (md_sessionID e) (numExpReplies e) (numReplies e) (numRetriesMax e) (numRetries e) (numRepliesQuery e)
    (numConfirmSent e) (numConfirmTimeout e) (md_pUserRef e) (md_destURI e) (md_srcURI e) (doConnect e)
    (msgUncomplete e) (md_cb e) (pPacket e).
Definition set_md_interval (v : TRDP_TIME_T) (e : MD_ELE_T) : MD_ELE_T :=
  mkMD (md_ptr e) (md_addr e) (md_privFlags e) (md_pktFlags e) (md_morituri e) v (md_timeToGo e)
    (md_dataSize e) (md_grossSize e) (md_sendSize e) (md_socketIdx e) (md_replyPort e) (md_stateEle e)
    (md_sessionID e) (numExpReplies e) (numReplies e) (numRetriesMax e) (numRetries e) (numRepliesQuery e)
    (numConfirmSent e) (numConfirmTimeout e) (md_pUserRef e) (md_destURI e) (md_srcURI e) (doConnect e)
    (msgUncomplete e) (md_cb e) (pPacket e).
Definition set_md_timeToGo (v : TRDP_TIME_T) (e : MD_ELE_T) : MD_ELE_T :=
  mkMD (md_ptr e) (md_addr e) (md_privFlags e) (md_pktFlags e) (md_morituri e) (md_interval e) v
    (md_dataSize e) (md_grossSize e) (md_sendSize e) (md_socketIdx e) (md_replyPort e) (md_stateEle e)
    (md_sessionID e) (numExpReplies e) (numReplies e) (numRetriesMax e) (numRetries e) (numRepliesQuery e)
    (numConfirmSent e) (numConfirmTimeout e) (md_pUserRef e) (md_destURI e) (md_srcURI e) (doConnect e)
    (msgUncomplete e) (md_cb e) (pPacket e).
Definition set_md_dataSize (v : Z) (e : MD_ELE_T) : MD_ELE_T :=
  mkMD (md_ptr e) (md_addr e) (md_privFlags e) (md_pktFlags e) (md_morituri e) (md_interval e) (md_timeToGo
    e) v (md_grossSize e) (md_sendSize e) (md_socketIdx e) (md_replyPort e) (md_stateEle e) (md_sessionID e)
    (numExpReplies e) (numReplies e) (numRetriesMax e) (numRetries e) (numRepliesQuery e) (numConfirmSent e)
    (numConfirmTimeout e) (md_pUserRef e) (md_destURI e) (md_srcURI e) (doConnect e) (msgUncomplete e)
    (md_cb e) (pPacket e).
Definition set_md_grossSize (v : Z) (e : MD_ELE_T) : MD_ELE_T :=
  mkMD (md_ptr e) (md_addr e) (md_privFlags e) (md_pktFlags e) (md_morituri e) (md_interval e) (md_timeToGo
    e) (md_dataSize e) v (md_sendSize e) (md_socketIdx e) (md_replyPort e) (md_stateEle e) (md_sessionID e)
    (numExpReplies e) (numReplies e) (numRetriesMax e) (numRetries e) (numRepliesQuery e) (numConfirmSent e)
    (numConfirmTimeout e) (md_pUserRef e) (md_destURI e) (md_srcURI e) (doConnect e) (msgUncomplete e)
    (md_cb e) (pPacket e).
Definition set_md_sendSize (v : Z) (e : MD_ELE_T) : MD_ELE_T :=
  mkMD (md_ptr e) (md_addr e) (md_privFlags e) (md_pktFlags e) (md_morituri e) (md_interval e) (md_timeToGo
    e) (md_dataSize e) (md_grossSize e) v (md_socketIdx e) (md_replyPort e) (md_stateEle e) (md_sessionID e)
    (numExpReplies e) (numReplies e) (numRetriesMax e) (numRetries e) (numRepliesQuery e) (numConfirmSent e)
    (numConfirmTimeout e) (md_pUserRef e) (md_destURI e) (md_srcURI e) (doConnect e) (msgUncomplete e)
    (md_cb e) (pPacket e).
Definition set_md_socketIdx (v : Z) (e : MD_ELE_T) : MD_ELE_T :=
  mkMD (md_ptr e) (md_addr e) (md_privFlags e) (md_pktFlags e) (md_morituri e) (md_interval e) (md_timeToGo
    e) (md_dataSize e) (md_grossSize e) (md_sendSize e) v (md_replyPort e) (md_stateEle e) (md_sessionID e)
    (numExpReplies e) (numReplies e) (numRetriesMax e) (numRetries e) (numRepliesQuery e) (numConfirmSent e)
    (numConfirmTimeout e) (md_pUserRef e) (md_destURI e) (md_srcURI e) (doConnect e) (msgUncomplete e)
    (md_cb e) (pPacket e).
Definition set_md_replyPort (v : Z) (e : MD_ELE_T) : MD_ELE_T :=
  mkMD (md_ptr e) (md_addr e) (md_privFlags e) (md_pktFlags e) (md_morituri e) (md_interval e) (md_timeToGo
    e) (md_dataSize e) (md_grossSize e) (md_sendSize e) (md_socketIdx e) v (md_stateEle e) (md_sessionID e)
    (numExpReplies e) (numReplies e) (numRetriesMax e) (numRetries e) (numRepliesQuery e) (numConfirmSent e)
    (numConfirmTimeout e) (md_pUserRef e) (md_destURI e) (md_srcURI e) (doConnect e) (msgUncomplete e)
    (md_cb e) (pPacket e).
Definition set_md_stateEle (v : TRDP_MD_ELE_ST_T) (e : MD_ELE_T) : MD_ELE_T :=
  mkMD (md_ptr e) (md_addr e) (md_privFlags e) (md_pktFlags e) (md_morituri e) (md_interval e) (md_timeToGo
    e) (md_dataSize e) (md_grossSize e) (md_sendSize e) (md_socketIdx e) (md_replyPort e) v (md_sessionID e)
    (numExpReplies e) (numReplies e) (numRetriesMax e) (numRetries e) (numRepliesQuery e) (numConfirmSent e)
    (numConfirmTimeout e) (md_pUserRef e) (md_destURI e) (md_srcURI e) (doConnect e) (msgUncomplete e)
    (md_cb e) (pPacket e).
Definition set_md_sessionID (v : list Z) (e : MD_ELE_T) : MD_ELE_T :=
  mkMD (md_ptr e) (md_addr e) (md_privFlags e) (md_pktFlags e) (md_morituri e) (md_interval e) (md_timeToGo
    e) (md_dataSize e) (md_grossSize e) (md_sendSize e) (md_socketIdx e) (md_replyPort e) (md_stateEle e) v
    (numExpReplies e) (numReplies e) (numRetriesMax e) (numRetries e) (numRepliesQuery e) (numConfirmSent e)
    (numConfirmTimeout e) (md_pUserRef e) (md_destURI e) (md_srcURI e) (doConnect e) (msgUncomplete e)
    (md_cb e) (pPacket e).
Definition set_numReplies (v : Z) (e : MD_ELE_T) : MD_ELE_T :=
  mkMD (md_ptr e) (md_addr e) (md_privFlags e) (md_pktFlags e) (md_morituri e) (md_interval e) (md_timeToGo
    e) (md_dataSize e) (md_grossSize e) (md_sendSize e) (md_socketIdx e) (md_replyPort e) (md_stateEle e)
    (md_sessionID e) (numExpReplies e) v (numRetriesMax e) (numRetries e) (numRepliesQuery e)
    (numConfirmSent e) (numConfirmTimeout e) (md_pUserRef e) (md_destURI e) (md_srcURI e) (doConnect e)
    (msgUncomplete e) (md_cb e) (pPacket e).
Definition set_numRetries (v : Z) (e : MD_ELE_T) : MD_ELE_T :=
  mkMD (md_ptr e) (md_addr e) (md_privFlags e) (md_pktFlags e) (md_morituri e) (md_interval e) (md_timeToGo
    e) (md_dataSize e) (md_grossSize e) (md_sendSize e) (md_socketIdx e) (md_replyPort e) (md_stateEle e)
    (md_sessionID e) (numExpReplies e) (numReplies e) (numRetriesMax e) v (numRepliesQuery e)
    (numConfirmSent e) (numConfirmTimeout e) (md_pUserRef e) (md_destURI e) (md_srcURI e) (doConnect e)
    (msgUncomplete e) (md_cb e) (pPacket e).
Definition set_numRepliesQuery (v : Z) (e : MD_ELE_T) : MD_ELE_T :=
  mkMD (md_ptr e) (md_addr e) (md_privFlags e) (md_pktFlags e) (md_morituri e) (md_interval e) (md_timeToGo
    e) (md_dataSize e) (md_grossSize e) (md_sendSize e) (md_socketIdx e) (md_replyPort e) (md_stateEle e)
    (md_sessionID e) (numExpReplies e) (numReplies e) (numRetriesMax e) (numRetries e) v (numConfirmSent e)
    (numConfirmTimeout e) (md_pUserRef e) (md_destURI e) (md_srcURI e) (doConnect e) (msgUncomplete e)
    (md_cb e) (pPacket e).
Definition set_numConfirmSent (v : Z) (e : MD_ELE_T) : MD_ELE_T :=
  mkMD (md_ptr e) (md_addr e) (md_privFlags e) (md_pktFlags e) (md_morituri e) (md_interval e) (md_timeToGo
    e) (md_dataSize e) (md_grossSize e) (md_sendSize e) (md_socketIdx e) (md_replyPort e) (md_stateEle e)
    (md_sessionID e) (numExpReplies e) (numReplies e) (numRetriesMax e) (numRetries e) (numRepliesQuery e) v
    (numConfirmTimeout e) (md_pUserRef e) (md_destURI e) (md_srcURI e) (doConnect e) (msgUncomplete e)
    (md_cb e) (pPacket e).
Definition set_md_pUserRef (v : Z) (e : MD_ELE_T) : MD_ELE_T :=
  mkMD (md_ptr e) (md_addr e) (md_privFlags e) (md_pktFlags e) (md_morituri e) (md_interval e) (md_timeToGo
    e) (md_dataSize e) (md_grossSize e) (md_sendSize e) (md_socketIdx e) (md_replyPort e) (md_stateEle e)
    (md_sessionID e) (numExpReplies e) (numReplies e) (numRetriesMax e) (numRetries e) (numRepliesQuery e)
    (numConfirmSent e) (numConfirmTimeout e) v (md_destURI e) (md_srcURI e) (doConnect e) (msgUncomplete e)
    (md_cb e) (pPacket e).
Definition set_md_destURI (v : list Z) (e : MD_ELE_T) : MD_ELE_T :=
  mkMD (md_ptr e) (md_addr e) (md_privFlags e) (md_pktFlags e) (md_morituri e) (md_interval e) (md_timeToGo
    e) (md_dataSize e) (md_grossSize e) (md_sendSize e) (md_socketIdx e) (md_replyPort e) (md_stateEle e)
    (md_sessionID e) (numExpReplies e) (numReplies e) (numRetriesMax e) (numRetries e) (numRepliesQuery e)
    (numConfirmSent e) (numConfirmTimeout e) (md_pUserRef e) v (md_srcURI e) (doConnect e) (msgUncomplete e)
    (md_cb e) (pPacket e).
Definition set_md_srcURI (v : list Z) (e : MD_ELE_T) : MD_ELE_T :=
  mkMD (md_ptr e) (md_addr e) (md_privFlags e) (md_pktFlags e) (md_morituri e) (md_interval e) (md_timeToGo
    e) (md_dataSize e) (md_grossSize e) (md_sendSize e) (md_socketIdx e) (md_replyPort e) (md_stateEle e)
    (md_sessionID e) (numExpReplies e) (numReplies e) (numRetriesMax e) (numRetries e) (numRepliesQuery e)
    (numConfirmSent e) (numConfirmTimeout e) (md_pUserRef e) (md_destURI e) v (doConnect e) (msgUncomplete
    e) (md_cb e) (pPacket e).
Definition set_doConnect (v : bool) (e : MD_ELE_T) : MD_ELE_T :=
  mkMD (md_ptr e) (md_addr e) (md_privFlags e) (md_pktFlags e) (md_morituri e) (md_interval e) (md_timeToGo
    e) (md_dataSize e) (md_grossSize e) (md_sendSize e) (md_socketIdx e) (md_replyPort e) (md_stateEle e)
    (md_sessionID e) (numExpReplies e) (numReplies e) (numRetriesMax e) (numRetries e) (numRepliesQuery e)
    (numConfirmSent e) (numConfirmTimeout e) (md_pUserRef e) (md_destURI e) (md_srcURI e) v (msgUncomplete
    e) (md_cb e) (pPacket e).
Definition set_msgUncomplete (v : bool) (e : MD_ELE_T) : MD_ELE_T :=
  mkMD (md_ptr e) (md_addr e) (md_privFlags e) (md_pktFlags e) (md_morituri e) (md_interval e) (md_timeToGo
    e) (md_dataSize e) (md_grossSize e) (md_sendSize e) (md_socketIdx e) (md_replyPort e) (md_stateEle e)
    (md_sessionID e) (numExpReplies e) (numReplies e) (numRetriesMax e) (numRetries e) (numRepliesQuery e)
    (numConfirmSent e) (numConfirmTimeout e) (md_pUserRef e) (md_destURI e) (md_srcURI e) (doConnect e) v
    (md_cb e) (pPacket e).
Definition set_md_cb (v : option Z) (e : MD_ELE_T) : MD_ELE_T :=
  mkMD (md_ptr e) (md_addr e) (md_privFlags e) (md_pktFlags e) (md_morituri e) (md_interval e) (md_timeToGo
    e) (md_dataSize e) (md_grossSize e) (md_sendSize e) (md_socketIdx e) (md_replyPort e) (md_stateEle e)
    (md_sessionID e) (numExpReplies e) (numReplies e) (numRetriesMax e) (numRetries e) (numRepliesQuery e)
    (numConfirmSent e) (numConfirmTimeout e) (md_pUserRef e) (md_destURI e) (md_srcURI e) (doConnect e)
    (msgUncomplete e) v (pPacket e).
Definition set_pPacket (v : option (list Z)) (e : MD_ELE_T) : MD_ELE_T :=
  mkMD (md_ptr e) (md_addr e) (md_privFlags e) (md_pktFlags e) (md_morituri e) (md_interval e) (md_timeToGo
    e) (md_dataSize e) (md_grossSize e) (md_sendSize e) (md_socketIdx e) (md_replyPort e) (md_stateEle e)
    (md_sessionID e) (numExpReplies e) (numReplies e) (numRetriesMax e) (numRetries e) (numRepliesQuery e)
    (numConfirmSent e) (numConfirmTimeout e) (md_pUserRef e) (md_destURI e) (md_srcURI e) (doConnect e)
    (msgUncomplete e) (md_cb e) v.

(** An element all of whose members are zero. *)
Definition zero_md (p : Z) : MD_ELE_T :=
  mkMD p zero_addr 0 0 false zero_time zero_time 0 0 0 0 0 TRDP_ST_NONE (repeat 0 TRDP_SESS_ID_SIZE)
    0 0 0 0 0 0 0 0 (repeat 0 33) (repeat 0 33) false false None None.

(** [MD_LIS_ELE_T], a listener *)
Record MD_LIS_ELE_T := mkLis {
  lis_ptr : Z;
  lis_addr : TRDP_ADDRESSES_T;
  lis_privFlags : Z;
  lis_pktFlags : Z;
  lis_pUserRef : Z;
  lis_destURI : list Z;
  lis_socketIdx : Z;
  lis_cb : option Z;
  numSessions : Z }.

Definition set_lis_addr (v : TRDP_ADDRESSES_T) (e : MD_LIS_ELE_T) : MD_LIS_ELE_T :=
  mkLis (lis_ptr e) v (lis_privFlags e) (lis_pktFlags e) (lis_pUserRef e) (lis_destURI e) (lis_socketIdx e)
    (lis_cb e) (numSessions e).
Definition set_lis_socketIdx (v : Z) (e : MD_LIS_ELE_T) : MD_LIS_ELE_T :=
  mkLis (lis_ptr e) (lis_addr e) (lis_privFlags e) (lis_pktFlags e) (lis_pUserRef e) (lis_destURI e) v
    (lis_cb e) (numSessions e).
Definition set_numSessions (v : Z) (e : MD_LIS_ELE_T) : MD_LIS_ELE_T :=
  mkLis (lis_ptr e) (lis_addr e) (lis_privFlags e) (lis_pktFlags e) (lis_pUserRef e) (lis_destURI e)
    (lis_socketIdx e) (lis_cb e) v.

(** ** Sockets, configuration, counters *)

Definition set_sock_type (v : TRDP_SOCK_TYPE_T) (e : TRDP_SOCKETS_T) : TRDP_SOCKETS_T :=
  mkSock (sock e) (bindAddr e) (qos e) (ttl e) v (rcvMostly e) (usage e) (cornerIp e) (notSend e)
    (connectionTimeout e) (sendNotOk e) (sendingTimeout e) (addFileDesc e) (morituri e) (mcGroups e).
Definition set_rcvMostly (v : bool) (e : TRDP_SOCKETS_T) : TRDP_SOCKETS_T :=
  mkSock (sock e) (bindAddr e) (qos e) (ttl e) (sock_type e) v (usage e) (cornerIp e) (notSend e)
    (connectionTimeout e) (sendNotOk e) (sendingTimeout e) (addFileDesc e) (morituri e) (mcGroups e).
Definition set_notSend (v : bool) (e : TRDP_SOCKETS_T) : TRDP_SOCKETS_T :=
  mkSock (sock e) (bindAddr e) (qos e) (ttl e) (sock_type e) (rcvMostly e) (usage e) (cornerIp e) v
    (connectionTimeout e) (sendNotOk e) (sendingTimeout e) (addFileDesc e) (morituri e) (mcGroups e).
Definition set_sendNotOk (v : bool) (e : TRDP_SOCKETS_T) : TRDP_SOCKETS_T :=
  mkSock (sock e) (bindAddr e) (qos e) (ttl e) (sock_type e) (rcvMostly e) (usage e) (cornerIp e) (notSend
    e) (connectionTimeout e) v (sendingTimeout e) (addFileDesc e) (morituri e) (mcGroups e).
Definition set_sendingTimeout (v : TRDP_TIME_T) (e : TRDP_SOCKETS_T) : TRDP_SOCKETS_T :=
  mkSock (sock e) (bindAddr e) (qos e) (ttl e) (sock_type e) (rcvMostly e) (usage e) (cornerIp e) (notSend
    e) (connectionTimeout e) (sendNotOk e) v (addFileDesc e) (morituri e) (mcGroups e).
Definition set_addFileDesc (v : bool) (e : TRDP_SOCKETS_T) : TRDP_SOCKETS_T :=
  mkSock (sock e) (bindAddr e) (qos e) (ttl e) (sock_type e) (rcvMostly e) (usage e) (cornerIp e) (notSend
    e) (connectionTimeout e) (sendNotOk e) (sendingTimeout e) v (morituri e) (mcGroups e).
Definition set_morituri (v : bool) (e : TRDP_SOCKETS_T) : TRDP_SOCKETS_T :=
  mkSock (sock e) (bindAddr e) (qos e) (ttl e) (sock_type e) (rcvMostly e) (usage e) (cornerIp e) (notSend
    e) (connectionTimeout e) (sendNotOk e) (sendingTimeout e) (addFileDesc e) v (mcGroups e).

(** [TRDP_MD_CONFIG_T], the defaults of the session *)
Record TRDP_MD_CONFIG_T := mkMdCfg {
  md_cbFunction : option Z;
  md_refCon : Z;
  md_qos : Z;
  md_ttl : Z;
  md_retries : Z;
  md_flags : Z;
  md_replyTimeout : Z;
  md_confirmTimeout : Z;
  md_connectTimeout : Z;
  md_sendingTimeout : Z;
  md_udpPort : Z;
  md_tcpPort : Z;
  md_maxNumSessions : Z }.


(** [TRDP_MD_STATISTICS_T], the counters *)
Record TRDP_MD_STATISTICS_T := mkMdStat {
  md_numList : Z;
  md_numRcv : Z;
  md_numCrcErr : Z;
  md_numProtErr : Z;
  md_numTopoErr : Z;
  md_numNoListener : Z;
  md_numReplyTimeout : Z;
  md_numConfirmTimeout : Z;
  md_numSend : Z }.

Definition set_md_numList (v : Z) (e : TRDP_MD_STATISTICS_T) : TRDP_MD_STATISTICS_T :=
  mkMdStat v (md_numRcv e) (md_numCrcErr e) (md_numProtErr e) (md_numTopoErr e) (md_numNoListener e)
    (md_numReplyTimeout e) (md_numConfirmTimeout e) (md_numSend e).
Definition set_md_numRcv (v : Z) (e : TRDP_MD_STATISTICS_T) : TRDP_MD_STATISTICS_T :=
  mkMdStat (md_numList e) v (md_numCrcErr e) (md_numProtErr e) (md_numTopoErr e) (md_numNoListener e)
    (md_numReplyTimeout e) (md_numConfirmTimeout e) (md_numSend e).
Definition set_md_numCrcErr (v : Z) (e : TRDP_MD_STATISTICS_T) : TRDP_MD_STATISTICS_T :=
  mkMdStat (md_numList e) (md_numRcv e) v (md_numProtErr e) (md_numTopoErr e) (md_numNoListener e)
    (md_numReplyTimeout e) (md_numConfirmTimeout e) (md_numSend e).
Definition set_md_numProtErr (v : Z) (e : TRDP_MD_STATISTICS_T) : TRDP_MD_STATISTICS_T :=
  mkMdStat (md_numList e) (md_numRcv e) (md_numCrcErr e) v (md_numTopoErr e) (md_numNoListener e)
    (md_numReplyTimeout e) (md_numConfirmTimeout e) (md_numSend e).
Definition set_md_numTopoErr (v : Z) (e : TRDP_MD_STATISTICS_T) : TRDP_MD_STATISTICS_T :=
  mkMdStat (md_numList e) (md_numRcv e) (md_numCrcErr e) (md_numProtErr e) v (md_numNoListener e)
    (md_numReplyTimeout e) (md_numConfirmTimeout e) (md_numSend e).
Definition set_md_numNoListener (v : Z) (e : TRDP_MD_STATISTICS_T) : TRDP_MD_STATISTICS_T :=
  mkMdStat (md_numList e) (md_numRcv e) (md_numCrcErr e) (md_numProtErr e) (md_numTopoErr e) v
    (md_numReplyTimeout e) (md_numConfirmTimeout e) (md_numSend e).
Definition set_md_numReplyTimeout (v : Z) (e : TRDP_MD_STATISTICS_T) : TRDP_MD_STATISTICS_T :=
  mkMdStat (md_numList e) (md_numRcv e) (md_numCrcErr e) (md_numProtErr e) (md_numTopoErr e)
    (md_numNoListener e) v (md_numConfirmTimeout e) (md_numSend e).
Definition set_md_numConfirmTimeout (v : Z) (e : TRDP_MD_STATISTICS_T) : TRDP_MD_STATISTICS_T :=
  mkMdStat (md_numList e) (md_numRcv e) (md_numCrcErr e) (md_numProtErr e) (md_numTopoErr e)
    (md_numNoListener e) (md_numReplyTimeout e) v (md_numSend e).
Definition set_md_numSend (v : Z) (e : TRDP_MD_STATISTICS_T) : TRDP_MD_STATISTICS_T :=
  mkMdStat (md_numList e) (md_numRcv e) (md_numCrcErr e) (md_numProtErr e) (md_numTopoErr e)
    (md_numNoListener e) (md_numReplyTimeout e) (md_numConfirmTimeout e) v.

(** [TRDP_MD_INFO_T], what the callback is told *)
Record TRDP_MD_INFO_T := mkMdInfo {
  i_srcIpAddr : Z;
  i_destIpAddr : Z;
  i_seqCount : Z;
  i_protVersion : Z;
  i_msgType : Z;
  i_comId : Z;
  i_etbTopoCnt : Z;
  i_opTrnTopoCnt : Z;
  i_aboutToDie : bool;
  i_numRepliesQuery : Z;
  i_numConfirmSent : Z;
  i_numConfirmTimeout : Z;
  i_userStatus : Z;
  i_replyStatus : Z;
  i_sessionId : list Z;
  i_replyTimeout : Z;
  i_srcUserURI : list Z;
  i_destUserURI : list Z;
  i_numExpReplies : Z;
  i_numReplies : Z;
  i_pUserRef : Z;
  i_resultCode : TRDP_ERR_T }.


(** What happens outside: a callback with its data, a message handed to a socket, an element whose
    memory is released, a TCP connection accepted but kept nowhere. *)
Inductive md_event :=
| MdCallback (cb refCon : Z) (info : TRDP_MD_INFO_T) (data : option (list Z))
| MdSent (sock : Z) (tcp : bool) (destIp port : Z) (bytes : list Z)
| MdFree (ptr : Z)
| MdLost (sock : Z).

(** ** The session: the members it shares with process data, the number of pool entries in use (a
    static variable of trdp_utils.c), and those of message data; the events are collected in
    [md_log], oldest first. *)
Record TRDP_MD_SESSION_T := mkMdSession {
  ms_session : TRDP_SESSION_T;
  ms_maxSocketCnt : Z;
  listen_sd : Z;
  mdDefault : TRDP_MD_CONFIG_T;
  pMDListenQueue : list MD_LIS_ELE_T;
  pMDSndQueue : list MD_ELE_T;
  pMDRcvQueue : list MD_ELE_T;
  pMDRcvEle : option MD_ELE_T;
  uncompletedTCP : list (option MD_ELE_T);
  udpMd : TRDP_MD_STATISTICS_T;
  tcpMd : TRDP_MD_STATISTICS_T;
  md_log : list md_event }.

Definition set_ms_session (v : TRDP_SESSION_T) (e : TRDP_MD_SESSION_T) : TRDP_MD_SESSION_T :=
  mkMdSession v (ms_maxSocketCnt e) (listen_sd e) (mdDefault e) (pMDListenQueue e) (pMDSndQueue e)
    (pMDRcvQueue e) (pMDRcvEle e) (uncompletedTCP e) (udpMd e) (tcpMd e) (md_log e).
Definition set_ms_maxSocketCnt (v : Z) (e : TRDP_MD_SESSION_T) : TRDP_MD_SESSION_T :=
  mkMdSession (ms_session e) v (listen_sd e) (mdDefault e) (pMDListenQueue e) (pMDSndQueue e) (pMDRcvQueue
    e) (pMDRcvEle e) (uncompletedTCP e) (udpMd e) (tcpMd e) (md_log e).
Definition set_listen_sd (v : Z) (e : TRDP_MD_SESSION_T) : TRDP_MD_SESSION_T :=
  mkMdSession (ms_session e) (ms_maxSocketCnt e) v (mdDefault e) (pMDListenQueue e) (pMDSndQueue e)
    (pMDRcvQueue e) (pMDRcvEle e) (uncompletedTCP e) (udpMd e) (tcpMd e) (md_log e).
Definition set_pMDListenQueue (v : list MD_LIS_ELE_T) (e : TRDP_MD_SESSION_T) : TRDP_MD_SESSION_T :=
  mkMdSession (ms_session e) (ms_maxSocketCnt e) (listen_sd e) (mdDefault e) v (pMDSndQueue e) (pMDRcvQueue
    e) (pMDRcvEle e) (uncompletedTCP e) (udpMd e) (tcpMd e) (md_log e).
Definition set_pMDSndQueue (v : list MD_ELE_T) (e : TRDP_MD_SESSION_T) : TRDP_MD_SESSION_T :=
  mkMdSession (ms_session e) (ms_maxSocketCnt e) (listen_sd e) (mdDefault e) (pMDListenQueue e) v
    (pMDRcvQueue e) (pMDRcvEle e) (uncompletedTCP e) (udpMd e) (tcpMd e) (md_log e).
Definition set_pMDRcvQueue (v : list MD_ELE_T) (e : TRDP_MD_SESSION_T) : TRDP_MD_SESSION_T :=
  mkMdSession (ms_session e) (ms_maxSocketCnt e) (listen_sd e) (mdDefault e) (pMDListenQueue e) (pMDSndQueue
    e) v (pMDRcvEle e) (uncompletedTCP e) (udpMd e) (tcpMd e) (md_log e).
Definition set_pMDRcvEle (v : option MD_ELE_T) (e : TRDP_MD_SESSION_T) : TRDP_MD_SESSION_T :=
  mkMdSession (ms_session e) (ms_maxSocketCnt e) (listen_sd e) (mdDefault e) (pMDListenQueue e) (pMDSndQueue
    e) (pMDRcvQueue e) v (uncompletedTCP e) (udpMd e) (tcpMd e) (md_log e).
Definition set_uncompletedTCP (v : list (option MD_ELE_T)) (e : TRDP_MD_SESSION_T) : TRDP_MD_SESSION_T :=
  mkMdSession (ms_session e) (ms_maxSocketCnt e) (listen_sd e) (mdDefault e) (pMDListenQueue e) (pMDSndQueue
    e) (pMDRcvQueue e) (pMDRcvEle e) v (udpMd e) (tcpMd e) (md_log e).
Definition set_udpMd (v : TRDP_MD_STATISTICS_T) (e : TRDP_MD_SESSION_T) : TRDP_MD_SESSION_T :=
  mkMdSession (ms_session e) (ms_maxSocketCnt e) (listen_sd e) (mdDefault e) (pMDListenQueue e) (pMDSndQueue
    e) (pMDRcvQueue e) (pMDRcvEle e) (uncompletedTCP e) v (tcpMd e) (md_log e).
Definition set_tcpMd (v : TRDP_MD_STATISTICS_T) (e : TRDP_MD_SESSION_T) : TRDP_MD_SESSION_T :=
  mkMdSession (ms_session e) (ms_maxSocketCnt e) (listen_sd e) (mdDefault e) (pMDListenQueue e) (pMDSndQueue
    e) (pMDRcvQueue e) (pMDRcvEle e) (uncompletedTCP e) (udpMd e) v (md_log e).
Definition set_md_log (v : list md_event) (e : TRDP_MD_SESSION_T) : TRDP_MD_SESSION_T :=
  mkMdSession (ms_session e) (ms_maxSocketCnt e) (listen_sd e) (mdDefault e) (pMDListenQueue e) (pMDSndQueue
    e) (pMDRcvQueue e) (pMDRcvEle e) (uncompletedTCP e) (udpMd e) (tcpMd e) v.

(** [appHandle->iface] and the like. *)
Definition ms_iface (s : TRDP_MD_SESSION_T) : list TRDP_SOCKETS_T := iface (ms_session s).
Definition set_ms_iface (v : list TRDP_SOCKETS_T) (s : TRDP_MD_SESSION_T) : TRDP_MD_SESSION_T :=
  set_ms_session (set_iface v (ms_session s)) s.
Definition log (l : list md_event) (s : TRDP_MD_SESSION_T) : TRDP_MD_SESSION_T := set_md_log (md_log s ++ l) s.

(** Changing the element a pointer refers to, where it stands. *)
Definition update_md (p : Z) (f : MD_ELE_T -> MD_ELE_T) (q : list MD_ELE_T) : list MD_ELE_T :=
  map (fun e => if md_ptr e =? p then f e else e) q.
Definition find_md (p : Z) (q : list MD_ELE_T) : option MD_ELE_T := find (fun e => md_ptr e =? p) q.

Definition md_tcp (e : MD_ELE_T) : bool := flag (md_pktFlags e) TRDP_FLAGS_TCP.
Definition packet (e : MD_ELE_T) : list Z := default [] (pPacket e).
