(* ===== verification/TrdpUtils.v ===== *)
(** * Helpers of the TRDP stack

    Models src/app/trdp/tcnopen/trdp_utils.c: packet sizes, the queues of elements, the list of
    joined multicast groups, the socket pool and the received sequence counters. The calls of the
    socket layer ([vos_sockOpenUDP], [vos_sockBind], ...) are the members of [sock_env];
    [strncasecmp], the allocator's answer and the clock are arguments. *)
From S2P Require Import Prelude Bytes VosTime TrdpTypes TrdpMdTypes.

(** ** Multicast group lists of a socket *)
Section join.
Variable mcGroup : Z.

(** Index of the first entry the loop stops at. *)
Fixpoint mc_find (p : Z -> bool) (l : list Z) (i : nat) : option nat :=
  match l with
  | [] => None
  | m :: l' => if p m then Some i else mc_find p l' (S i)
  end.

Definition trdp_SockIsJoined (mcList : list Z) : bool :=
  match mc_find (fun m => m =? mcGroup) mcList 0 with Some _ => true | None => false end.

Definition trdp_SockAddJoin (mcList : list Z) : bool * list Z :=
  match mc_find (fun m => (0 =? m) || (mcGroup =? m)) mcList 0 with
  | Some i => (true, <[i := mcGroup]> mcList)
  | None => (false, mcList)
  end.

Definition trdp_SockDelJoin (mcList : list Z) : bool * list Z :=
  match mc_find (fun m => mcGroup =? m) mcList 0 with
  | Some i => (true, <[i := 0]> mcList)
  | None => (false, mcList)
  end.
End join.

(** ** Packet sizes *)
Definition padded_size (header dataSize : Z) : Z :=
  let packetSize := u32 (header + dataSize) in
  if dataSize =? 0 then header
  else if (dataSize &&& 0x3) >? 0 then u32 (packetSize + u32 (4 - dataSize mod 4)) else packetSize.

Definition trdp_packetSizePD (dataSize : Z) : Z := padded_size sizeof_PD_HEADER_T dataSize.
Definition trdp_packetSizeMD (dataSize : Z) : Z := padded_size sizeof_MD_HEADER_T dataSize.

(** ** Queues of elements *)
Definition trdp_queueFindComId (q : list PD_ELE_T) (c : Z) : option PD_ELE_T :=
  find (fun e => a_comId e =? c) q.

Definition trdp_queueFindPubAddr (q : list PD_ELE_T) (a : option TRDP_ADDRESSES_T) : option PD_ELE_T :=
  match a with
  | None => None
  | Some a =>
      find (fun e => (a_comId e =? comId a)
                     && ((srcIpAddr (addr e) =? 0) || (srcIpAddr (addr e) =? srcIpAddr a))
                     && ((destIpAddr (addr e) =? 0) || (destIpAddr (addr e) =? destIpAddr a))
                     && ((mcGroup (addr e) =? 0) || (mcGroup (addr e) =? mcGroup a))) q
  end.

Definition sub_matches (a : TRDP_ADDRESSES_T) (e : PD_ELE_T) : bool :=
  (a_comId e =? comId a)
  && ((srcIpAddr (addr e) =? 0) || (srcIpAddr (addr e) =? srcIpAddr a))
  && ((destIpAddr (addr e) =? 0) || (destIpAddr (addr e) =? destIpAddr a)).

Definition trdp_queueFindSubAddr (q : list PD_ELE_T) (a : option TRDP_ADDRESSES_T) : option PD_ELE_T :=
  match a with
  | None => None
  | Some a => find (sub_matches a) q
  end.

(** Unlinks the first element the pointer refers to. *)
Fixpoint unlink {E} (ptr : E -> Z) (p : Z) (q : list E) : list E :=
  match q with
  | [] => []
  | e :: q' => if ptr e =? p then q' else e :: unlink ptr p q'
  end.

Definition trdp_queueDelElement (q : list PD_ELE_T) (pDelete : option Z) : list PD_ELE_T :=
  match pDelete with None => q | Some p => unlink ele_ptr p q end.
Definition trdp_queueAppLast (q : list PD_ELE_T) (pNew : option PD_ELE_T) : list PD_ELE_T :=
  match pNew with None => q | Some e => q ++ [e] end.
Definition trdp_queueInsFirst (q : list PD_ELE_T) (pNew : option PD_ELE_T) : list PD_ELE_T :=
  match pNew with None => q | Some e => e :: q end.

(** The message data queues. *)
Definition trdp_MDqueueFindAddr (q : list MD_ELE_T) (a : option TRDP_ADDRESSES_T) : option MD_ELE_T :=
  match a with
  | None => None
  | Some a =>
      find (fun e => (comId (md_addr e) =? comId a)
                     && ((srcIpAddr a =? 0) || (srcIpAddr (md_addr e) =? srcIpAddr a))
                     && ((destIpAddr a =? 0) || (destIpAddr (md_addr e) =? destIpAddr a))) q
  end.
Definition trdp_MDqueueDelElement (q : list MD_ELE_T) (pDelete : option Z) : list MD_ELE_T :=
  match pDelete with None => q | Some p => unlink md_ptr p q end.
Definition trdp_MDqueueAppLast (q : list MD_ELE_T) (pNew : option MD_ELE_T) : list MD_ELE_T :=
  match pNew with None => q | Some e => q ++ [e] end.
Definition trdp_MDqueueInsFirst (q : list MD_ELE_T) (pNew : option MD_ELE_T) : list MD_ELE_T :=
  match pNew with None => q | Some e => e :: q end.

(** [appHandle->uncompletedTCP] after [trdp_initUncompletedTCP]. *)
Definition trdp_initUncompletedTCP (uncompletedTCP : list (option MD_ELE_T)) : list (option MD_ELE_T) :=
  repeat None (Z.to_nat VOS_MAX_SOCKET_CNT) ++ drop (Z.to_nat VOS_MAX_SOCKET_CNT) uncompletedTCP.

(** ** Topography counters: the comparison is commented out. *)
Definition trdp_validTopoCounters (etbTopoCnt opTrnTopoCnt etbTopoCntFilter opTrnTopoCntFilter : Z)
  : bool := true.

(** ** Sequence counters of received packets *)
Definition seq_for (srcIP msgType : Z) (s : TRDP_SEQ_CNT_ENTRY_T) : bool :=
  (srcIP =? seq_srcIp s) && (msgType =? seq_msgType s).

Definition trdp_resetSequenceCounter (pElement : option PD_ELE_T) (srcIP msgType : Z) : option PD_ELE_T :=
  match pElement with
  | None => None
  | Some e =>
      match pSeqCntList e with
      | None => Some e
      | Some l =>
          Some (set_pSeqCntList (Some (mkSeqList (maxNoOfEntries l)
                  (map (fun s => if seq_for srcIP msgType s
                                 then mkSeq 0 (seq_srcIp s) (seq_msgType s) else s) (seq_entries l)))) e)
      end
  end.

(** The loop over the entries: the answer and the new list where a sender's entry is found. *)
Fixpoint seq_scan (cnt srcIP msgType : Z) (l : list TRDP_SEQ_CNT_ENTRY_T)
  : option (Z * list TRDP_SEQ_CNT_ENTRY_T) :=
  match l with
  | [] => None
  | s :: l' =>
      if seq_for srcIP msgType s then
        if (lastSeqCnt s =? 0) || negb (cnt =? lastSeqCnt s)
        then Some (0, mkSeq cnt (seq_srcIp s) (seq_msgType s) :: l')
        else Some (1, s :: l')
      else match seq_scan cnt srcIP msgType l' with
           | Some (r, l'') => Some (r, s :: l'')
           | None => None
           end
  end.

Definition trdp_checkSequenceCounter (alloc_ok grow_ok : bool) (pElement : option PD_ELE_T)
    (sequenceCounter srcIP msgType : Z) : Z * option PD_ELE_T :=
  match pElement with
  | None => (-1, None)
  | Some e =>
      match (match pSeqCntList e with
             | Some l => Some l
             | None => if alloc_ok then Some (mkSeqList TRDP_SEQ_CNT_START_ARRAY_SIZE []) else None
             end) with
      | None => (-1, Some e)
      | Some l =>
          match seq_scan sequenceCounter srcIP msgType (seq_entries l) with
          | Some (r, l') => (r, Some (set_pSeqCntList (Some (mkSeqList (maxNoOfEntries l) l')) e))
          | None =>
              let cur := Z.of_nat (length (seq_entries l)) in
              let l' := seq_entries l ++ [mkSeq sequenceCounter srcIP msgType] in
              if cur >=? maxNoOfEntries l then
                if grow_ok
                then (0, Some (set_pSeqCntList (Some (mkSeqList (u16 (2 * cur)) l')) e))
                else (-1, Some (set_pSeqCntList (Some l) e))
              else (0, Some (set_pSeqCntList (Some (mkSeqList (maxNoOfEntries l) l')) e))
          end
      end
  end.

(** The current counter of a publisher of [comId] with another source address, for redundancy. *)
Definition trdp_getSeqCnt (sessions : list TRDP_SESSION_T) (comId msgType srcIp : Z) : Z :=
  if comId =? 0 then 0
  else if (msgType =? TRDP_MSG_PD) || (msgType =? TRDP_MSG_PP) || (msgType =? TRDP_MSG_PR) then
    match find (fun e => (a_comId e =? comId) && ((srcIp =? 0) || negb (srcIpAddr (addr e) =? srcIp)))
               (concat (map pSndQueue sessions)) with
    | Some e => curSeqCnt e
    | None => 0
    end
  else 0.

(** [strncasecmp] is the C library's. *)
Definition trdp_isAddressed (strncasecmp : list Z -> list Z -> Z -> Z) (listUri destUri : list Z) : bool :=
  strncasecmp listUri destUri 32 =? 0.

(** ** The socket pool *)
Definition vos_isMulticast (ip : Z) : bool := (ip &&& 0xf0000000) =? 0xe0000000.

Definition vos_determineBindAddr (srcIP mcGroup : Z) (rcvMostly : bool) : Z :=
  if vos_isMulticast mcGroup && rcvMostly then 0 else srcIP.

Record VOS_SOCK_OPT_T := mkSockOpt {
  o_qos : Z; o_ttl : Z; o_ttl_multicast : Z; o_reuseAddrPort : bool; o_nonBlocking : bool;
  o_no_mc_loop : bool; o_no_udp_crc : bool }.

(** What the socket layer answers: the result code, and the descriptor for an [Open]. *)
Record sock_env := mkSockEnv {
  vos_sockJoinMC : Z -> Z -> Z -> TRDP_ERR_T;
  vos_sockSetMulticastIf : Z -> Z -> TRDP_ERR_T;
  vos_sockOpenUDP : VOS_SOCK_OPT_T -> TRDP_ERR_T * Z;
  vos_sockOpenTCP : VOS_SOCK_OPT_T -> TRDP_ERR_T * Z;
  vos_sockBind : Z -> Z -> Z -> TRDP_ERR_T;
  vos_sockClose : Z -> TRDP_ERR_T;
  vos_getTime : TRDP_TIME_T }.

Definition trdp_initSockets (iface : list TRDP_SOCKETS_T) : list TRDP_SOCKETS_T :=
  map (set_sock VOS_INVALID_SOCKET) iface.

Record sock_request := mkReq {
  r_port : Z; r_qos : Z; r_ttl : Z; r_srcIP : Z; r_mcGroup : Z; r_usage : TRDP_SOCK_TYPE_T;
  r_options : Z; r_rcvMostly : bool; r_useSocket : Z; r_cornerIp : Z }.

Definition req_bindAddr (r : sock_request) : Z :=
  vos_determineBindAddr (r_srcIP r) (r_mcGroup r) (r_rcvMostly r).

(** The condition under which an open socket suits the request. *)
Definition sock_suits (r : sock_request) (s : TRDP_SOCKETS_T) : bool :=
  negb (sock s =? VOS_INVALID_SOCKET)
  && (bindAddr s =? req_bindAddr r)
  && bool_decide (sock_type s = r_usage r)
  && (qos s =? r_qos r) && (ttl s =? r_ttl r)
  && eqb (rcvMostly s) (r_rcvMostly r)
  && (negb (bool_decide (r_usage r = TRDP_SOCK_MD_TCP)) || (cornerIp s =? r_cornerIp r)).

(** Joining the group on a suitable socket: whether it can be used, and the new socket entry. *)
Definition try_join (env : sock_env) (r : sock_request) (s : TRDP_SOCKETS_T) : bool * TRDP_SOCKETS_T :=
  if negb (r_mcGroup r =? 0) && negb (trdp_SockIsJoined (r_mcGroup r) (mcGroups s)) then
    let '(added, l) := trdp_SockAddJoin (r_mcGroup r) (mcGroups s) in
    if negb added then (false, s)
    else if is_ok (vos_sockJoinMC env (sock s) (r_mcGroup r) (r_srcIP r)) then (true, set_mcGroups l s)
    else (false, set_mcGroups (snd (trdp_SockDelJoin (r_mcGroup r) l)) s)
  else (true, s).

Definition inc_usage (s : TRDP_SOCKETS_T) : TRDP_SOCKETS_T := set_usage (s16 (usage s + 1)) s.
Definition dec_usage (s : TRDP_SOCKETS_T) : TRDP_SOCKETS_T := set_usage (s16 (usage s - 1)) s.

(** Taking a suitable socket: the result code and the entry. *)
Definition take_socket (env : sock_env) (r : sock_request) (s : TRDP_SOCKETS_T)
  : TRDP_ERR_T * TRDP_SOCKETS_T :=
  let err := if negb (bool_decide (r_usage r = TRDP_SOCK_MD_TCP))
                && negb (bindAddr s =? 0) && negb (vos_isMulticast (bindAddr s))
             then vos_sockSetMulticastIf env (sock s) (bindAddr s) else TRDP_NO_ERR in
  (err, if is_ok err then inc_usage s else s).

(** The loop over the [n] entries in use, from entry [i] on: the entry taken and the result code,
    or the first empty slot; and the pool. *)
Inductive scan_result := Taken (err : TRDP_ERR_T) (idx : Z) | NotFound (emptySock : Z).

Fixpoint sock_scan (env : sock_env) (r : sock_request) (n : nat) (i : nat) (emptySock : Z)
    (iface : list TRDP_SOCKETS_T) : scan_result * list TRDP_SOCKETS_T :=
  match n with
  | O => (NotFound emptySock, iface)
  | S n' =>
      match iface !! i with
      | None => (NotFound emptySock, iface)
      | Some s =>
          if negb (r_useSocket r =? VOS_INVALID_SOCKET) && (r_useSocket r =? sock s)
          then (Taken TRDP_NO_ERR (Z.of_nat i), <[i := inc_usage s]> iface)
          else if sock_suits r s then
            let '(ok, s') := try_join env r s in
            if ok then let '(err, s'') := take_socket env r s' in
                       (Taken err (Z.of_nat i), <[i := s'']> iface)
            else sock_scan env r n' (S i) emptySock (<[i := s']> iface)
          else
            let e := if (sock s =? VOS_INVALID_SOCKET) && (emptySock =? VOS_INVALID_SOCKET)
                     then Z.of_nat i else emptySock in
            sock_scan env r n' (S i) e iface
      end
  end.

(** Filling in a new entry of the pool. *)
Definition fresh_entry (r : sock_request) : TRDP_SOCKETS_T :=
  mkSock VOS_INVALID_SOCKET (req_bindAddr r) (r_qos r) (r_ttl r) (r_usage r) (r_rcvMostly r) 0
         (r_cornerIp r) false zero_time false zero_time (r_rcvMostly r) false
         (repeat 0 VOS_MAX_MULTICAST_CNT).

Definition sock_options (r : sock_request) : VOS_SOCK_OPT_T :=
  let udp := negb (bool_decide (r_usage r = TRDP_SOCK_MD_TCP)) in
  mkSockOpt (r_qos r) (r_ttl r) (if udp then r_ttl r else 0)
    (negb (flag (r_options r) TRDP_OPTION_NO_REUSE_ADDR))
    (bool_decide (r_usage r = TRDP_SOCK_MD_UDP) || negb (flag (r_options r) TRDP_OPTION_BLOCK))
    (udp && flag (r_options r) TRDP_OPTION_NO_MC_LOOP_BACK)
    (udp && flag (r_options r) TRDP_OPTION_NO_UDP_CHK).

(** Binding a receiver and joining its group: the result code and the entry. *)
Definition bind_receiver (env : sock_env) (r : sock_request) (s : TRDP_SOCKETS_T)
  : TRDP_ERR_T * TRDP_SOCKETS_T :=
  let err := vos_sockBind env (sock s) (if r_mcGroup r =? 0 then bindAddr s else 0) (r_port r) in
  if negb (is_ok err) then (err, s)
  else if r_mcGroup r =? 0 then (err, s)
  else
    let err := vos_sockJoinMC env (sock s) (r_mcGroup r) (r_srcIP r) in
    if negb (is_ok err) then (err, s)
    else (err, set_mcGroups (snd (trdp_SockAddJoin (r_mcGroup r) (mcGroups s))) s).

(** The [switch (usage)]: opening the socket of the entry. [*pIndex] is the index or -1. *)
Definition open_entry (env : sock_env) (r : sock_request) (s : TRDP_SOCKETS_T)
  : TRDP_ERR_T * TRDP_SOCKETS_T :=
  match r_usage r with
  | TRDP_SOCK_MD_TCP =>
      let '(err, fd) := vos_sockOpenTCP env (sock_options r) in
      let s1 := set_sock fd s in
      (err, if is_ok err then set_usage 1 s1 else s1)
  | _ =>
      let '(err, fd) := vos_sockOpenUDP env (sock_options r) in
      let s1 := set_sock fd s in
      if negb (is_ok err) then (err, s1)
      else
        let s2 := set_usage 1 s1 in
        let '(err, s3) := if r_rcvMostly r then bind_receiver env r s2 else (TRDP_NO_ERR, s2) in
        if negb (is_ok err) then (err, s3)
        else if negb (bindAddr s3 =? 0) && negb (vos_isMulticast (bindAddr s3))
        then (vos_sockSetMulticastIf env (sock s3) (bindAddr s3), s3)
        else (err, s3)
  end.

(** ** Releasing a socket *)
Definition release_entry (env : sock_env) (connectTimeout : Z) (s : TRDP_SOCKETS_T) : TRDP_SOCKETS_T :=
  if negb (sock s =? VOS_INVALID_SOCKET) && negb (bool_decide (sock_type s = TRDP_SOCK_MD_TCP)) then
    let s1 := dec_usage s in
    if usage s1 <=? 0 then set_sock VOS_INVALID_SOCKET s1 else s1
  else if negb (sock s =? VOS_INVALID_SOCKET) && negb (rcvMostly s) then
    let s1 := dec_usage s in
    if usage s1 <=? 0
    then set_connectionTimeout
           (addTime (vos_getTime env) (mkTime (connectTimeout / 1000000) (connectTimeout mod 1000000)))
           (set_usage 0 s1)
    else s1
  else s.

(** Closing a TCP socket that is about to die. *)
Definition close_morituri (s : TRDP_SOCKETS_T) : TRDP_SOCKETS_T :=
  if morituri s
  then mkSock TRDP_INVALID_SOCKET_INDEX 0 0 0 TRDP_SOCK_PD false 0 0 (notSend s) zero_time
         (sendNotOk s) (sendingTimeout s) false false (mcGroups s)
  else s.

(** A negative index, with which C reads in front of the array, leaves the pool as it is. *)
Definition trdp_releaseSocket (env : sock_env) (iface : list TRDP_SOCKETS_T) (lIndex : Z)
    (connectTimeout : Z) (checkAll : bool) : list TRDP_SOCKETS_T :=
  if checkAll then map close_morituri iface
  else if lIndex <? 0 then iface
  else alter (release_entry env connectTimeout) (Z.to_nat lIndex) iface.

(** The descriptors a release hands to [vos_sockClose]. *)
Definition closed_by_release (iface : list TRDP_SOCKETS_T) (lIndex : Z) : list Z :=
  match iface !! Z.to_nat lIndex with
  | Some s => if negb (sock s =? VOS_INVALID_SOCKET)
                 && negb (bool_decide (sock_type s = TRDP_SOCK_MD_TCP)) && (usage (dec_usage s) <=? 0)
              then [sock s] else []
  | None => []
  end.

(** Result code, [*pIndex] where it is written, the pool and [sCurrentMaxSocketCnt]. *)
Definition trdp_requestSocket (env : sock_env) (r : sock_request)
    (iface : list TRDP_SOCKETS_T) (maxCnt : Z)
  : TRDP_ERR_T * option Z * list TRDP_SOCKETS_T * Z :=
  match sock_scan env r (Z.to_nat maxCnt) 0 VOS_INVALID_SOCKET iface with
  | (Taken err idx, iface') => (err, Some idx, iface', maxCnt)
  | (NotFound emptySock, iface') =>
      if maxCnt <? VOS_MAX_SOCKET_CNT then
        let reuse := negb (emptySock =? VOS_INVALID_SOCKET) && negb (maxCnt =? emptySock) in
        let lIndex := if reuse then emptySock else maxCnt in
        let maxCnt' := if reuse then maxCnt else maxCnt + 1 in
        let s := fresh_entry r in
        let i := Z.to_nat lIndex in
        if negb (r_useSocket r =? VOS_INVALID_SOCKET)
        then (TRDP_NO_ERR, Some lIndex,
              <[i := set_usage 1 (set_sock (r_useSocket r) s)]> iface', maxCnt')
        else
          let '(err, s') := open_entry env r s in
          let iface'' := <[i := s']> iface' in
          if is_ok err then (err, Some lIndex, iface'', maxCnt')
          else (err, Some TRDP_INVALID_SOCKET_INDEX,
                trdp_releaseSocket env iface'' lIndex 0 false, maxCnt')
      else (TRDP_MEM_ERR, None, iface', maxCnt)
  end.

(** * Properties *)

(** ** Packet sizes *)
Lemma padded_size_eq header d : 0 <= header -> 0 <= d -> header + d < 2 ^ 32 - 4 ->
  padded_size header d = header + 4 * ((d + 3) / 4).
Proof.
  intros Hh Hd Hb. unfold padded_size. cbv zeta. rewrite (u32_small (header + d)) by lia.
  destruct (Z.eqb_spec d 0) as [->|]; [change ((0 + 3) / 4) with 0; lia|].
  change 3 with (2 ^ 2 - 1) at 1. rewrite (land_ones_mod d 2) by lia. change (2 ^ 2) with 4.
  destruct (_ >? _) eqn:E; bprop.
  - rewrite (u32_small (4 - _)) by dlia. rewrite u32_small; dlia.
  - dlia.
Qed.

(** A process data packet is the header, the data, and the padding to the next multiple of
    four; for every admissible data size it fits in the largest packet. *)
Theorem trdp_packetSizePD_padded d : 0 <= d <= TRDP_MAX_PD_DATA_SIZE ->
  trdp_packetSizePD d mod 4 = 0
  /\ sizeof_PD_HEADER_T + d <= trdp_packetSizePD d < sizeof_PD_HEADER_T + d + 4
  /\ trdp_packetSizePD d <= TRDP_MAX_PD_PACKET_SIZE.
Proof.
  intros H. unfold trdp_packetSizePD, sizeof_PD_HEADER_T, TRDP_MAX_PD_PACKET_SIZE,
    TRDP_MAX_PD_DATA_SIZE, TRDP_MIN_PD_HEADER_SIZE, sizeof_PD_HEADER_T in *.
  rewrite padded_size_eq by lia. split; [|dlia].
  replace (40 + 4 * ((d + 3) / 4)) with ((10 + (d + 3) / 4) * 4) by lia. apply Z.mod_mul. lia.
Qed.

Lemma trdp_packetSizePD_padded_witness : trdp_packetSizePD 1429 = 1472 /\ trdp_packetSizePD 1429 mod 4 = 0.
Proof. split; [reflexivity|]. apply (trdp_packetSizePD_padded 1429); cdec. Defined.

(** ** Multicast groups *)
Lemma mc_find_spec p l i j : mc_find p l i = Some j ->
  exists k m, j = (i + k)%nat /\ l !! k = Some m /\ p m = true
              /\ (forall k' m', (k' < k)%nat -> l !! k' = Some m' -> p m' = false).
Proof.
  revert i; induction l as [|x l IH]; intros i H; cbn [mc_find] in H; [discriminate|].
  destruct (p x) eqn:E.
  - injection H as <-. exists 0%nat, x. split_and!; auto; lia.
  - apply IH in H as (k & m & -> & Hk & Hp & Hlt). exists (S k), m. split; [lia|]. split; [done|]. split; [done|].
    intros [|k'] m' Hk' Hm'; [cbn in Hm'; congruence|]. apply (Hlt k'); [lia|done].
Qed.

Lemma mc_find_none p l i : mc_find p l i = None -> forall k m, l !! k = Some m -> p m = false.
Proof.
  revert i; induction l as [|x l IH]; intros i H k m Hm; cbn [mc_find] in H; [done|].
  destruct (p x) eqn:E; [discriminate|]. destruct k as [|k]; cbn in Hm; [congruence|eauto].
Qed.

(** A group list as the pool keeps it: 20 entries, no group twice. *)
Definition mc_ok (l : list Z) : Prop :=
  length l = VOS_MAX_MULTICAST_CNT
  /\ forall i j g, l !! i = Some g -> l !! j = Some g -> g <> 0 -> i = j.

Lemma joined_elem g l : trdp_SockIsJoined g l = true <-> g ∈ l.
Proof.
  unfold trdp_SockIsJoined. destruct (mc_find _ _ _) as [j|] eqn:E.
  - apply mc_find_spec in E as (k & m & _ & Hk & Hm & _). cbv beta in Hm. bprop. subst.
    split; [|done]. intros _. by apply list_elem_of_lookup_2 in Hk.
  - split; [done|]. intros [k Hk]%list_elem_of_lookup_1.
    apply (mc_find_none _ _ _ E) in Hk. cbv beta in Hk. bprop. lia.
Qed.

(** Adding a group that is not in the list puts it in a free slot. *)
Lemma add_join_new g l l' : g ∉ l -> trdp_SockAddJoin g l = (true, l') ->
  exists i, l !! i = Some 0 /\ l' = <[i := g]> l /\ (forall k m, (k < i)%nat -> l !! k = Some m -> m <> 0).
Proof.
  intros Hg. unfold trdp_SockAddJoin. destruct (mc_find _ _ _) as [j|] eqn:E; [|discriminate].
  apply mc_find_spec in E as (k & m & -> & Hk & Hm & Hlt). intros [= <-]. exists k.
  assert (m = 0) as ->.
  { cbv beta in Hm. apply orb_true_iff in Hm as [Hm|Hm]; [bprop; lia|bprop]. subst.
    by apply list_elem_of_lookup_2 in Hk. }
  split_and!; auto. intros k' m' Hk' Hm' ->. specialize (Hlt k' 0 Hk' Hm'). discriminate.
Qed.

Lemma add_join_ok g l l' : g <> 0 -> g ∉ l -> mc_ok l -> trdp_SockAddJoin g l = (true, l') ->
  mc_ok l' /\ g ∈ l' /\ (forall h, h ∈ l -> h <> 0 -> h ∈ l').
Proof.
  intros Hg Hn [Hlen Hd] H. apply add_join_new in H as (i & Hi & -> & _); [|done].
  apply lookup_lt_Some in Hi as Hlt. split_and!.
  - split; [by rewrite length_insert|]. intros j k h Hj Hk Hh.
    apply list_lookup_insert_Some in Hj, Hk.
    destruct Hj as [(<- & -> & _)|[Hij Hj]], Hk as [(<- & ? & _)|[Hik Hk]]; subst; eauto.
    + by apply list_elem_of_lookup_2 in Hk.
    + by apply list_elem_of_lookup_2 in Hj.
  - apply list_elem_of_lookup. exists i. by apply list_lookup_insert_eq.
  - intros h [k Hk]%list_elem_of_lookup_1 Hh. apply list_elem_of_lookup. exists k.
    rewrite list_lookup_insert_ne; [done|]. intros ->. congruence.
Qed.

(** Removing the group just added restores the list. *)
Lemma del_add_join g l l' : g <> 0 -> g ∉ l -> trdp_SockAddJoin g l = (true, l') ->
  trdp_SockDelJoin g l' = (true, l).
Proof.
  intros Hg0 Hg H. apply add_join_new in H as (i & Hi & -> & _); [|done].
  apply lookup_lt_Some in Hi as Hlt. unfold trdp_SockDelJoin.
  destruct (mc_find _ _ _) as [j|] eqn:E.
  - apply mc_find_spec in E as (k & m & -> & Hk & Hm & _). cbv beta in Hm. bprop. subst m.
    apply list_lookup_insert_Some in Hk as [(<- & _ & _)|[_ Hk]].
    + f_equal. cbn. rewrite list_insert_insert_eq. by apply list_insert_id.
    + by apply list_elem_of_lookup_2 in Hk.
  - assert (Hx : <[i:=g]> l !! i = Some g) by by apply list_lookup_insert_eq.
    apply (mc_find_none _ _ _ E) in Hx. cbv beta in Hx. bprop. lia.
Qed.

(** A socket found suitable for a request either joins the requested multicast group (or has
    joined it already, or none is requested), keeping the groups it had, or is left as it was; no
    group is ever listed twice and the list never exceeds its 20 entries. *)
Lemma try_join_spec env r s ok s' :
  mc_ok (mcGroups s) -> try_join env r s = (ok, s') ->
  mc_ok (mcGroups s')
  /\ (ok = false -> s' = s)
  /\ (ok = true -> (r_mcGroup r = 0 \/ r_mcGroup r ∈ mcGroups s')
                   /\ forall h, h ∈ mcGroups s -> h <> 0 -> h ∈ mcGroups s').
Proof.
  intros Hok H. unfold try_join in H. destruct (r_mcGroup r =? 0) eqn:E0; bprop.
  { injection H as <- <-. cbn. split_and!; auto; discriminate. }
  destruct (trdp_SockIsJoined _ _) eqn:Ej.
  { injection H as <- <-. apply joined_elem in Ej. split_and!; auto; discriminate. }
  assert (Hn : r_mcGroup r ∉ mcGroups s) by (rewrite <- joined_elem; congruence).
  cbn [negb andb] in H. destruct (trdp_SockAddJoin _ _) as [added l] eqn:Ea.
  destruct added; cbn [negb] in H; [|injection H as <- <-; split_and!; auto; discriminate].
  destruct (add_join_ok _ _ _ E0 Hn Hok Ea) as (H1 & H2 & H3).
  destruct (is_ok _); injection H as <- <-.
  - cbn. split_and!; auto; discriminate.
  - rewrite (del_add_join _ _ _ E0 Hn Ea). cbn [snd]. assert (set_mcGroups (mcGroups s) s = s) as -> by by destruct s.
    split_and!; auto; discriminate.
Qed.

Definition example_env : sock_env :=
  mkSockEnv (fun _ _ _ => TRDP_NO_ERR) (fun _ _ => TRDP_NO_ERR) (fun _ => (TRDP_NO_ERR, 7))
    (fun _ => (TRDP_NO_ERR, 8)) (fun _ _ _ => TRDP_NO_ERR) (fun _ => TRDP_NO_ERR) (mkTime 100 0).
Definition example_req : sock_request :=
  mkReq 17224 5 64 0x0a000001 0xef000001 TRDP_SOCK_PD 0 true (-1) 0.

(** ** Sequence counters: refinement of a map from senders to their last counter *)
Definition seq_key (s : TRDP_SEQ_CNT_ENTRY_T) : Z * Z := (seq_srcIp s, seq_msgType s).

Definition seq_abs (e : PD_ELE_T) : gmap (Z * Z) Z :=
  match pSeqCntList e with
  | None => ∅
  | Some l => list_to_map (map (fun s => (seq_key s, lastSeqCnt s)) (seq_entries l))
  end.

(** The specification: a counter is new unless it repeats the sender's last nonzero one. *)
Definition seq_spec (m : gmap (Z * Z) Z) (key : Z * Z) (cnt : Z) : Z * gmap (Z * Z) Z :=
  match m !! key with
  | Some last => if (last =? 0) || negb (cnt =? last) then (0, <[key := cnt]> m) else (1, m)
  | None => (0, <[key := cnt]> m)
  end.

(** No sender has two entries, and the entries fit in the allocated list. *)
Definition seq_ok (e : PD_ELE_T) : Prop :=
  match pSeqCntList e with
  | None => True
  | Some l => NoDup (map seq_key (seq_entries l))
              /\ Z.of_nat (length (seq_entries l)) <= maxNoOfEntries l
              /\ TRDP_SEQ_CNT_START_ARRAY_SIZE <= maxNoOfEntries l
  end.

Lemma seq_for_key src t s : seq_for src t s = true <-> seq_key s = (src, t).
Proof.
  unfold seq_for, seq_key. rewrite andb_true_iff, !Z.eqb_eq. split; [by intros [-> ->]|].
  by intros [= -> ->].
Qed.

Lemma seq_scan_spec cnt src t l :
  let m := list_to_map (map (fun s => (seq_key s, lastSeqCnt s)) l) : gmap (Z * Z) Z in
  NoDup (map seq_key l) ->
  match seq_scan cnt src t l with
  | Some (r, l') => seq_spec m (src, t) cnt
                    = (r, list_to_map (map (fun s => (seq_key s, lastSeqCnt s)) l'))
                    /\ map seq_key l' = map seq_key l /\ is_Some (m !! (src, t))
  | None => m !! (src, t) = None
  end.
Proof.
  induction l as [|s l IH]; intros m Hnd; [apply lookup_empty|].
  cbn [seq_scan]. cbn [map] in Hnd. apply list.NoDup_cons in Hnd as [Hni Hnd]. specialize (IH Hnd).
  destruct (seq_for src t s) eqn:E.
  - apply seq_for_key in E.
    assert (Hm : m !! (src, t) = Some (lastSeqCnt s)).
    { unfold m. cbn [map list_to_map foldr]. rewrite E. apply lookup_insert_eq. }
    destruct (_ || _) eqn:Eo; unfold seq_spec; rewrite Hm, Eo.
    + split; [|split; [done|eauto]]. unfold m. cbn. f_equal.
      unfold seq_key in E at 1. injection E as <- <-. by rewrite insert_insert_eq.
    + split; [done|eauto].
  - assert (Hne : seq_key s <> (src, t)) by (intros H%seq_for_key; congruence).
    assert (Hm : m !! (src, t) = (list_to_map (map (fun s => (seq_key s, lastSeqCnt s)) l)
                                  : gmap (Z * Z) Z) !! (src, t)).
    { unfold m. cbn [map list_to_map foldr]. by apply lookup_insert_ne. }
    destruct (seq_scan cnt src t l) as [[r l']|].
    + destruct IH as (H1 & H2 & H3). rewrite Hm. split; [|split; [cbn; by rewrite H2|done]].
      unfold seq_spec in *. rewrite Hm. destruct H3 as [last Hlast]. rewrite Hlast in *.
      destruct (_ || _); injection H1 as <- H1; f_equal; unfold m; cbn [map list_to_map foldr fst snd].
      * rewrite insert_insert_ne by done. cbn. unfold seq_key at 1. cbn. f_equal. exact H1.
      * cbn. f_equal. exact H1.
    + by rewrite Hm.
Qed.

Lemma seq_abs_app l s : seq_key s ∉ map seq_key l ->
  (list_to_map (map (fun s => (seq_key s, lastSeqCnt s)) (l ++ [s])) : gmap (Z * Z) Z)
  = <[seq_key s := lastSeqCnt s]> (list_to_map (map (fun s => (seq_key s, lastSeqCnt s)) l)).
Proof.
  intros Hn. rewrite map_app, list_to_map_app. cbn.
  rewrite <- insert_union_r; [by rewrite (right_id_L ∅ (∪))|].
  apply not_elem_of_list_to_map_1. intros Hin. apply Hn.
  apply list_elem_of_fmap in Hin as ([k v] & -> & Hin).
  apply list_elem_of_In, in_map_iff in Hin as (s' & [= <- <-] & Hin).
  cbn. apply list_elem_of_In. by apply in_map.
Qed.

(** A new sender's entry is appended. *)
Lemma seq_add_spec cnt src t l :
  let m := list_to_map (map (fun s => (seq_key s, lastSeqCnt s)) l) : gmap (Z * Z) Z in
  let l' := l ++ [mkSeq cnt src t] in
  NoDup (map seq_key l) -> m !! (src, t) = None ->
  NoDup (map seq_key l')
  /\ seq_spec m (src, t) cnt = (0, list_to_map (map (fun s => (seq_key s, lastSeqCnt s)) l')).
Proof.
  intros m l' Hnd Hs.
  assert (Hni : seq_key (mkSeq cnt src t) ∉ map seq_key l).
  { intros Hin. apply not_elem_of_list_to_map_2 in Hs. apply Hs.
    apply list_elem_of_In, in_map_iff in Hin as (s & Hk & Hin).
    apply list_elem_of_fmap. exists (seq_key s, lastSeqCnt s). split; [by rewrite Hk|].
    apply list_elem_of_In. by apply (in_map (fun s => (seq_key s, lastSeqCnt s))). }
  split.
  - unfold l'. rewrite map_app. apply list.NoDup_app. split_and!; auto.
    + intros x Hx Hy. cbn in Hy. apply list_elem_of_singleton in Hy as ->. done.
    + cbn. apply NoDup_singleton.
  - unfold seq_spec. rewrite Hs. unfold l'. by rewrite seq_abs_app.
Qed.

Lemma check_seq_refines alloc_ok grow_ok e cnt src t r e' :
  seq_ok e -> (forall l, pSeqCntList e = Some l -> maxNoOfEntries l < 32768) ->
  trdp_checkSequenceCounter alloc_ok grow_ok (Some e) cnt src t = (r, e') ->
  exists e1, e' = Some e1 /\ seq_ok e1
    /\ (if r =? -1 then seq_abs e1 = seq_abs e /\ (alloc_ok = false \/ grow_ok = false)
        else seq_spec (seq_abs e) (src, t) cnt = (r, seq_abs e1)).
Proof.
  intros Hok Hmax H. unfold trdp_checkSequenceCounter in H.
  assert (Hl : match pSeqCntList e with Some l => Some l
               | None => if alloc_ok then Some (mkSeqList TRDP_SEQ_CNT_START_ARRAY_SIZE []) else None end
               = None /\ alloc_ok = false
          \/ exists l, match pSeqCntList e with Some l => Some l
               | None => if alloc_ok then Some (mkSeqList TRDP_SEQ_CNT_START_ARRAY_SIZE []) else None end
               = Some l /\ NoDup (map seq_key (seq_entries l))
              /\ Z.of_nat (length (seq_entries l)) <= maxNoOfEntries l < 32768
              /\ TRDP_SEQ_CNT_START_ARRAY_SIZE <= maxNoOfEntries l
              /\ seq_abs e = list_to_map (map (fun s => (seq_key s, lastSeqCnt s)) (seq_entries l))).
  { unfold seq_ok, seq_abs in *. destruct (pSeqCntList e) as [l|].
    - right. exists l. specialize (Hmax l eq_refl). split_and!; try apply Hok; auto.
    - destruct alloc_ok; [right|by left]. eexists. split; [done|]. cbn.
      unfold TRDP_SEQ_CNT_START_ARRAY_SIZE. split; [apply NoDup_nil_2|]. split_and!; auto; lia. }
  destruct Hl as [[E Ha]|(l & E & Hnd & Hlen & Hst & Habs)]; rewrite E in H; clear E.
  { injection H as <- <-. exists e. cbn. auto. }
  rewrite Habs. pose proof (seq_scan_spec cnt src t (seq_entries l) Hnd) as Hs. cbv zeta in Hs.
  destruct (seq_scan _ _ _ _) as [[r' l']|] eqn:Es.
  - injection H as <- <-. destruct Hs as (H1 & H2 & _). eexists; split; [done|]. split.
    + unfold seq_ok. cbn. rewrite H2. split_and!; auto.
      rewrite <- (length_map seq_key l'), H2, length_map. lia.
    + unfold seq_abs. cbn. rewrite H1.
      assert ((r' =? -1) = false) as ->; [|done].
      unfold seq_spec in H1. destruct (_ !! _); [destruct (_ || _)|]; injection H1 as <- _; done.
  - destruct (seq_add_spec cnt src t _ Hnd Hs) as [Hnd' Hspec].
    unfold TRDP_SEQ_CNT_START_ARRAY_SIZE in *.
    destruct (_ >=? _) eqn:Eg; bprop.
    + destruct grow_ok; injection H as <- <-; (eexists; split; [done|]); unfold seq_ok, seq_abs; cbn.
      * rewrite length_app, u16_small by lia. cbn. unfold TRDP_SEQ_CNT_START_ARRAY_SIZE.
        split_and!; auto; lia.
      * unfold TRDP_SEQ_CNT_START_ARRAY_SIZE. split_and!; auto; lia.
    + injection H as <- <-. eexists; split; [done|]. unfold seq_ok, seq_abs; cbn.
      rewrite length_app. cbn. unfold TRDP_SEQ_CNT_START_ARRAY_SIZE. split_and!; auto; lia.
Qed.

(** C16: [trdp_checkSequenceCounter] refines the map of last counters: a received packet is reported
    as a duplicate exactly when its counter repeats the sender's last nonzero one; other senders are
    unaffected, no sender gets two entries and the entries stay within the allocated list. It only
    fails when the allocation fails, as long as fewer than 32768 senders are known. *)
Theorem trdp_checkSequenceCounter_refines alloc_ok grow_ok e cnt src t r e' :
  seq_ok e -> (forall l, pSeqCntList e = Some l -> maxNoOfEntries l < 32768) ->
  trdp_checkSequenceCounter alloc_ok grow_ok (Some e) cnt src t = (r, e') ->
  exists e1, e' = Some e1 /\ seq_ok e1
    /\ (if r =? -1 then seq_abs e1 = seq_abs e /\ (alloc_ok = false \/ grow_ok = false)
        else seq_spec (seq_abs e) (src, t) cnt = (r, seq_abs e1)).
Proof. apply check_seq_refines. Qed.

Lemma trdp_checkSequenceCounter_refines_witness :
  let e := set_pSeqCntList (Some (mkSeqList 64 [mkSeq 5 0x0a000001 TRDP_MSG_PD])) (zero_ele 1) in
  exists e1, trdp_checkSequenceCounter true true (Some e) 5 0x0a000001 TRDP_MSG_PD = (1, Some e1)
             /\ seq_spec (seq_abs e) (0x0a000001, TRDP_MSG_PD) 5 = (1, seq_abs e1).
Proof.
  cbv zeta.
  set (e := set_pSeqCntList (Some (mkSeqList 64 [mkSeq 5 0x0a000001 TRDP_MSG_PD])) (zero_ele 1)).
  destruct (trdp_checkSequenceCounter_refines true true e 5 0x0a000001 TRDP_MSG_PD 1 (Some e))
    as (e1 & E & _ & Hs).
  - split; [apply NoDup_singleton|]. cbn. unfold TRDP_SEQ_CNT_START_ARRAY_SIZE. lia.
  - intros l [= <-]. cbn. lia.
  - vm_compute. reflexivity.
  - exists e. injection E as <-. split; [vm_compute; reflexivity|exact Hs].
Defined.

(** The two answers, from the abstract state. *)
Lemma check_seq_new e cnt src t : seq_ok e ->
  (forall l, pSeqCntList e = Some l -> maxNoOfEntries l < 32768) ->
  (cnt = 0 \/ seq_abs e !! (src, t) <> Some cnt) ->
  exists e', trdp_checkSequenceCounter true true (Some e) cnt src t = (0, Some e').
Proof.
  intros Hok Hmax Hnew. destruct (trdp_checkSequenceCounter true true (Some e) cnt src t) as [r e'] eqn:E.
  destruct (check_seq_refines _ _ _ _ _ _ _ _ Hok Hmax E) as (e1 & -> & _ & H).
  destruct (r =? -1); [destruct H as [_ []]; discriminate|].
  exists e1. unfold seq_spec in H. destruct (_ !! _) as [last|] eqn:El; [|by injection H as <- _].
  destruct (_ || _) eqn:Eo; [by injection H as <- _|]. bprop. destruct Hnew as [->|Hn]; [lia|congruence].
Qed.

Lemma check_seq_dup e cnt src t : seq_ok e ->
  (forall l, pSeqCntList e = Some l -> maxNoOfEntries l < 32768) ->
  cnt <> 0 -> seq_abs e !! (src, t) = Some cnt ->
  trdp_checkSequenceCounter true true (Some e) cnt src t = (1, Some e).
Proof.
  intros Hok Hmax Hne Hl. unfold seq_abs, seq_ok in *.
  unfold trdp_checkSequenceCounter. destruct (pSeqCntList e) as [l|] eqn:Ep; [|by rewrite lookup_empty in Hl].
  assert (Hs : seq_scan cnt src t (seq_entries l) = Some (1, seq_entries l)).
  { destruct Hok as [_ _]. clear -Hl Hne. induction (seq_entries l) as [|s k IH].
    - cbn in Hl. by rewrite lookup_empty in Hl.
    - cbn [seq_scan]. cbn [map list_to_map foldr fst snd] in Hl. destruct (seq_for src t s) eqn:E.
      + apply seq_for_key in E. rewrite E in Hl. cbn in Hl. rewrite lookup_insert_eq in Hl.
        injection Hl as ->. rewrite Z.eqb_refl. apply Z.eqb_neq in Hne as ->. done.
      + rewrite IH; [done|]. cbn in Hl. rewrite lookup_insert_ne in Hl; [done|].
        intros H%seq_for_key. congruence. }
  rewrite Hs. do 3 f_equal. destruct e, l; cbn in *. by subst.
Qed.

(** The number of entries is a 16-bit count: with 32768 senders known, the list for the next
    new sender is allocated with no entries at all, and written nevertheless. *)
Theorem trdp_checkSequenceCounter_overflow e l cnt src t :
  pSeqCntList e = Some (mkSeqList 32768 l) -> length l = Z.to_nat 32768 ->
  seq_scan cnt src t l = None ->
  exists e' l', trdp_checkSequenceCounter true true (Some e) cnt src t = (0, Some e')
    /\ pSeqCntList e' = Some l' /\ maxNoOfEntries l' = 0
    /\ Z.of_nat (length (seq_entries l')) = 32769.
Proof.
  intros He Hl Hs. unfold trdp_checkSequenceCounter. rewrite He. cbn [seq_entries maxNoOfEntries].
  rewrite Hs, Hl, Z2Nat.id by lia. do 2 eexists. split_and!; [reflexivity..|].
  cbn. rewrite length_app, Hl. cbn [length]. lia.
Qed.

Lemma trdp_checkSequenceCounter_overflow_witness :
  let l := map (fun i => mkSeq 1 i TRDP_MSG_PD) (seqZ 0 32768) in
  let e := set_pSeqCntList (Some (mkSeqList 32768 l)) (zero_ele 1) in
  exists e' l', trdp_checkSequenceCounter true true (Some e) 7 (-1) TRDP_MSG_PD = (0, Some e')
    /\ pSeqCntList e' = Some l' /\ maxNoOfEntries l' = 0
    /\ Z.of_nat (length (seq_entries l')) = 32769.
Proof.
  intros l e. apply (trdp_checkSequenceCounter_overflow e l); [reflexivity| |].
  - unfold l. by rewrite length_map, length_seqZ.
  - unfold l. assert (H : Forall (fun i => 0 <= i) (seqZ 0 32768)).
    { apply list.Forall_forall. intros i Hi. apply elem_of_seqZ in Hi. lia. }
    induction H as [|i k Hi _ IH]; [reflexivity|]. cbn [map seq_scan].
    unfold seq_for at 1. cbn [seq_srcIp].
    assert ((-1 =? i) = false) as -> by (apply Z.eqb_neq; lia). cbn [andb]. by rewrite IH.
Defined.

(** ** The socket pool *)
Definition pool_ok (iface : list TRDP_SOCKETS_T) (maxCnt : Z) : Prop :=
  length iface = Z.to_nat VOS_MAX_SOCKET_CNT /\ 0 <= maxCnt <= VOS_MAX_SOCKET_CNT
  /\ Forall (fun s => mc_ok (mcGroups s)) iface.

(** A successful open delivers a descriptor. *)
Definition opens_ok (env : sock_env) : Prop :=
  forall o fd, vos_sockOpenUDP env o = (TRDP_NO_ERR, fd) \/ vos_sockOpenTCP env o = (TRDP_NO_ERR, fd) ->
  fd <> VOS_INVALID_SOCKET.

Definition group_ok (r : sock_request) (s : TRDP_SOCKETS_T) : Prop :=
  r_mcGroup r = 0 \/ r_mcGroup r ∈ mcGroups s.

(** How an entry in use is taken. *)
Definition taken (r : sock_request) (err : TRDP_ERR_T) (s s' : TRDP_SOCKETS_T) : Prop :=
  sock s' = sock s /\ sock s <> VOS_INVALID_SOCKET /\ sock_type s' = sock_type s
  /\ mc_ok (mcGroups s')
  /\ usage s' = (if is_ok err then s16 (usage s + 1) else usage s)
  /\ (sock s' = r_useSocket r \/ (sock_suits r s' = true /\ group_ok r s')).

Lemma is_ok_true err : is_ok err = true <-> err = TRDP_NO_ERR.
Proof. by destruct err. Qed.

Lemma try_join_fields env r s : 
  let s' := snd (try_join env r s) in
  sock s' = sock s /\ bindAddr s' = bindAddr s /\ usage s' = usage s /\ sock_type s' = sock_type s
  /\ sock_suits r s' = sock_suits r s.
Proof.
  unfold try_join. destruct (_ && _); [|done].
  destruct (trdp_SockAddJoin _ _) as [[] l]; [|done]. cbn [negb]. by destruct (is_ok _).
Qed.

Lemma take_socket_taken env r s s' err : sock_suits r s = true -> group_ok r s -> mc_ok (mcGroups s) ->
  take_socket env r s = (err, s') -> taken r err s s'.
Proof.
  intros Hs Hg Hm. unfold take_socket. cbv zeta. intros H. injection H as He Hs'.
  assert (Hv : sock s <> VOS_INVALID_SOCKET).
  { unfold sock_suits in Hs. repeat (apply andb_prop in Hs as [Hs _]). bprop. done. }
  rewrite He in Hs'. unfold taken. subst s'.
  destruct (is_ok err) eqn:E; cbn; split_and!; auto.
Qed.

Lemma sock_scan_spec env r n : forall i e iface,
  Forall (fun s => mc_ok (mcGroups s)) iface -> (i + n <= length iface)%nat ->
  match sock_scan env r n i e iface with
  | (Taken err idx, iface') => exists k s s',
      idx = Z.of_nat k /\ (i <= k < i + n)%nat /\ iface !! k = Some s
      /\ iface' = <[k := s']> iface /\ taken r err s s'
  | (NotFound e', iface') => iface' = iface
      /\ (e' = e \/ exists k s, e' = Z.of_nat k /\ (i <= k < i + n)%nat
                               /\ iface !! k = Some s /\ sock s = VOS_INVALID_SOCKET)
  end.
Proof.
  induction n as [|n IH]; intros i e iface Hmc Hlen; cbn [sock_scan]; [auto|].
  destruct (iface !! i) as [s|] eqn:Ei; [|auto].
  assert (Hs : mc_ok (mcGroups s)) by (rewrite Forall_lookup in Hmc; eauto).
  assert (Hrec : forall e1, (e1 = e \/ e1 = Z.of_nat i /\ sock s = VOS_INVALID_SOCKET) ->
    match sock_scan env r n (S i) e1 iface with
    | (Taken err idx, iface') => exists k s s',
      idx = Z.of_nat k /\ (i <= k < i + S n)%nat /\ iface !! k = Some s
      /\ iface' = <[k := s']> iface /\ taken r err s s'
    | (NotFound e', iface') => iface' = iface
      /\ (e' = e \/ exists k s, e' = Z.of_nat k /\ (i <= k < i + S n)%nat
                               /\ iface !! k = Some s /\ sock s = VOS_INVALID_SOCKET)
    end).
  { intros e1 He1. specialize (IH (S i) e1 iface Hmc ltac:(lia)).
    destruct (sock_scan _ _ _ _ _ _) as [[err idx|e'] iface'].
    - destruct IH as (k & s1 & s2 & -> & Hk & H1 & -> & H2). exists k, s1, s2. split_and!; auto; lia.
    - destruct IH as [-> Hx]. split; [done|]. destruct Hx as [->|(k & s0 & -> & Hk & Hs0)].
      + destruct He1 as [->|[-> Hinv]]; [auto|]. right. exists i, s. split_and!; auto; lia.
      + right. exists k, s0. split_and!; try apply Hs0; auto; lia. }
  destruct (_ && _) eqn:Eu.
  - exists i, s, (inc_usage s). bprop. split_and!; auto; [lia|]. unfold taken. cbn. split_and!; auto.
    congruence.
  - destruct (sock_suits r s) eqn:Esu; [|apply Hrec; case_if; bprop; [right|left]; auto].
    destruct (try_join env r s) as [ok s'] eqn:Ej.
    destruct (try_join_spec env r s ok s' Hs Ej) as (Hm & Hf & Ht).
    pose proof (try_join_fields env r s) as Hfd. rewrite Ej in Hfd. cbn [snd] in Hfd.
    destruct Hfd as (F1 & F2 & F3 & F5 & F4).
    destruct ok.
    + destruct (take_socket env r s') as [err s''] eqn:Et. destruct (Ht eq_refl) as [Hg _].
      exists i, s, s''. split_and!; auto; [lia|].
      apply take_socket_taken in Et; [|congruence|exact Hg|exact Hm].
      unfold taken in *. rewrite F1, F3, F5 in Et. done.
    + rewrite (Hf eq_refl), list_insert_id by done. apply Hrec. by left.
Qed.

(** A fresh entry that has been opened suits the request. *)
Lemma bind_receiver_fields env r s err s' : bind_receiver env r s = (err, s') ->
  sock s' = sock s /\ bindAddr s' = bindAddr s /\ usage s' = usage s
  /\ sock_suits r s' = sock_suits r s
  /\ (err = TRDP_NO_ERR -> mcGroups s = repeat 0 VOS_MAX_MULTICAST_CNT -> group_ok r s').
Proof.
  unfold bind_receiver. cbv zeta.
  destruct (is_ok (vos_sockBind _ _ _ _)) eqn:E1; cbn [negb].
  2: { intros [= <- <-]. split_and!; auto; intros H; rewrite H in E1; discriminate. }
  destruct (r_mcGroup r =? 0) eqn:E0; [intros [= <- <-]; bprop; split_and!; auto; by left|].
  destruct (is_ok (vos_sockJoinMC _ _ _ _)) eqn:E2; cbn [negb]; intros [= <- <-].
  - cbn. split_and!; auto; intros _ ->; right; left.
  - split_and!; auto; intros H; rewrite H in E2; discriminate.
Qed.

Lemma open_entry_spec env r s : opens_ok env ->
  open_entry env r (fresh_entry r) = (TRDP_NO_ERR, s) ->
  sock_suits r s = true /\ usage s = 1 /\ (r_rcvMostly r = true -> r_usage r <> TRDP_SOCK_MD_TCP -> group_ok r s).
Proof.
  intros Hop H.
  assert (Hsuits : forall fd u, fd <> VOS_INVALID_SOCKET ->
    sock_suits r (set_usage u (set_sock fd (fresh_entry r))) = true).
  { intros fd u Hfd. unfold sock_suits. cbn. rewrite !Z.eqb_refl, eqb_reflx.
    apply Z.eqb_neq in Hfd as ->. rewrite bool_decide_eq_true_2 by done.
    by rewrite orb_true_r. }
  unfold open_entry in H. destruct (r_usage r) eqn:Eu.
  3: { destruct (vos_sockOpenTCP _ _) as [err fd] eqn:Eo. injection H as -> <-. cbn.
       split_and!; [|done|by intros _ []]. apply Hsuits. apply (Hop (sock_options r)). auto. }
  all: destruct (vos_sockOpenUDP _ _) as [err fd] eqn:Eo; destruct err; try discriminate;
    cbn [is_ok negb] in H;
    (assert (Hfd : fd <> VOS_INVALID_SOCKET) by (apply (Hop (sock_options r)); auto));
    specialize (Hsuits fd 1 Hfd);
    destruct (r_rcvMostly r) eqn:Er.
  all: try (destruct (bind_receiver _ _ _) as [err s3] eqn:Eb;
            apply bind_receiver_fields in Eb as (F1 & F2 & F3 & F4 & F5)).
  all: try (destruct err; try discriminate; cbn [is_ok negb] in H).
  all: destruct (_ && _); injection H; intros; subst.
  all: split_and!; try done; try congruence; auto.
Qed.

Lemma release_inc env t s : sock s <> VOS_INVALID_SOCKET -> sock_type s <> TRDP_SOCK_MD_TCP ->
  1 <= usage s < 32767 -> release_entry env t (inc_usage s) = s.
Proof.
  intros Hs Ht Hu. unfold release_entry, dec_usage, inc_usage. cbn.
  apply Z.eqb_neq in Hs as ->. rewrite bool_decide_eq_false_2 by done. cbn [negb andb].
  assert (E1 : s16 (usage s + 1) = usage s + 1) by (unfold s16; rewrite Z.mod_small; lia).
  assert (E2 : s16 (s16 (usage s + 1) - 1) = usage s).
  { rewrite E1. unfold s16. rewrite Z.mod_small; lia. }
  rewrite E2. destruct (usage s <=? 0) eqn:E; bprop; [lia|]. by destruct s.
Qed.

(** A successful [trdp_requestSocket] names an entry of the pool whose open socket is the
    requested descriptor or has the requested address, type, options and (for a receiver) multicast
    group; its use count is one or one more than before, and every other entry is as it was. *)
Theorem trdp_requestSocket_sound env r iface maxCnt idx iface' maxCnt' :
  pool_ok iface maxCnt -> opens_ok env ->
  trdp_requestSocket env r iface maxCnt = (TRDP_NO_ERR, Some idx, iface', maxCnt') ->
  0 <= idx < VOS_MAX_SOCKET_CNT
  /\ (forall j, j <> Z.to_nat idx -> iface' !! j = iface !! j)
  /\ exists s, iface' !! Z.to_nat idx = Some s /\ (r_useSocket r = sock s
       \/ sock s <> VOS_INVALID_SOCKET /\ sock_suits r s = true
          /\ (r_rcvMostly r = true -> r_usage r <> TRDP_SOCK_MD_TCP -> group_ok r s))
     /\ (usage s = 1 \/ exists s0, iface !! Z.to_nat idx = Some s0 /\ sock s = sock s0
                                   /\ usage s = s16 (usage s0 + 1)).
Proof.
  intros (Hlen & Hmax & Hmc) Hop H. unfold trdp_requestSocket in H.
  pose proof (sock_scan_spec env r (Z.to_nat maxCnt) 0 VOS_INVALID_SOCKET iface Hmc ltac:(lia)) as Hs.
  destruct (sock_scan _ _ _ _ _ _) as [[err k|e] iface1].
  - injection H as -> <- -> <-. destruct Hs as (i & s & s' & -> & Hi & Hl & -> & Hv & Hne & _ & _ & Hu & Ht).
    assert (i < length iface)%nat by (by apply lookup_lt_Some in Hl). rewrite Nat2Z.id.
    split; [lia|]. split; [intros j Hj; by apply list_lookup_insert_ne|].
    exists s'. split; [by apply list_lookup_insert_eq|]. split.
    + destruct Ht as [Ht|[Ht Hg]]; [by left|right]. split_and!; auto. congruence.
    + right. exists s. auto.
  - destruct Hs as [-> He]. destruct (maxCnt <? VOS_MAX_SOCKET_CNT) eqn:Em; [bprop|discriminate].
    cbv zeta in H. set (li := if _ && _ then e else maxCnt) in H.
    assert (Hli : 0 <= li < VOS_MAX_SOCKET_CNT).
    { unfold li. destruct (_ && _) eqn:Ee; [|lia]. bprop.
      destruct He as [->|(k & ? & -> & Hk & _)]; [done|lia]. }
    assert (Hlt : (Z.to_nat li < length iface)%nat) by lia.
    assert (Hins : forall s, (forall j, j <> Z.to_nat li -> <[Z.to_nat li := s]> iface !! j = iface !! j)
                             /\ <[Z.to_nat li := s]> iface !! Z.to_nat li = Some s).
    { intros s. split; [intros j Hj; by apply list_lookup_insert_ne|by apply list_lookup_insert_eq]. }
    destruct (negb (r_useSocket r =? _)) eqn:Eu.
    + injection H as <- <- <-. split; [done|].
      edestruct Hins as [H1 H2]. split; [exact H1|]. eexists. split; [exact H2|]. cbn. auto.
    + destruct (open_entry _ _ _) as [err s] eqn:Eo. destruct err; try discriminate.
      injection H as <- <- <-. split; [done|]. destruct (Hins s) as [H1 H2].
      split; [exact H1|]. exists s. split; [exact H2|].
      destruct (open_entry_spec _ _ _ Hop Eo) as (Hsu & Hu & Hg).
      split; [right|by left]. split_and!; auto.
      unfold sock_suits in Hsu. repeat (apply andb_prop in Hsu as [Hsu _]). by bprop.
Qed.

Definition example_pool : list TRDP_SOCKETS_T :=
  trdp_initSockets (repeat zero_sock (Z.to_nat VOS_MAX_SOCKET_CNT)).

Lemma zero_mc_ok : mc_ok (mcGroups zero_sock).
Proof.
  split; [reflexivity|]. intros i j g Hi Hj Hg. exfalso. apply Hg.
  apply list_elem_of_lookup_2, list_elem_of_In, repeat_spec in Hi. exact Hi.
Qed.

Lemma example_pool_ok : pool_ok example_pool 0.
Proof.
  split; [reflexivity|]. split; [unfold VOS_MAX_SOCKET_CNT; lia|].
  unfold example_pool, trdp_initSockets. rewrite List.Forall_map.
  apply Forall_forall. intros s ->%repeat_spec. apply zero_mc_ok.
Qed.

Lemma trdp_requestSocket_sound_witness :
  exists iface', trdp_requestSocket example_env example_req example_pool 0
                 = (TRDP_NO_ERR, Some 0, iface', 1)
    /\ exists s, iface' !! 0%nat = Some s /\ (usage s = 1 \/ exists s0, example_pool !! 0%nat = Some s0
                   /\ sock s = sock s0 /\ usage s = s16 (usage s0 + 1)).
Proof.
  destruct (trdp_requestSocket example_env example_req example_pool 0) as [[[e i] iface'] m] eqn:E.
  assert (E' : (e, i, m) = (TRDP_NO_ERR, Some 0, 1)).
  { transitivity (let '(e, i, _, m) := trdp_requestSocket example_env example_req example_pool 0 in (e, i, m)).
    - by rewrite E.
    - vm_compute. reflexivity. }
  injection E' as -> -> ->. exists iface'. split; [reflexivity|].
  destruct (trdp_requestSocket_sound example_env example_req example_pool 0 0 iface' 1 example_pool_ok)
    as (_ & _ & s & H1 & _ & H2); [|exact E|].
  - intros o fd [H|H]; cbn in H; injection H as <-; unfold VOS_INVALID_SOCKET; lia.
  - exists s. split; [exact H1|exact H2].
Defined.

(** The scan finds nothing where no entry suits. *)
Lemma sock_scan_nothing env r n : forall i e iface,
  r_useSocket r = VOS_INVALID_SOCKET -> Forall (fun s => sock_suits r s = false) iface ->
  exists e', sock_scan env r n i e iface = (NotFound e', iface).
Proof.
  induction n as [|n IH]; intros i e iface Hu Hf; cbn [sock_scan]; [eauto|].
  destruct (iface !! i) as [s|] eqn:Ei; [|eauto]. rewrite Hu, Z.eqb_refl. cbn [negb andb].
  rewrite Forall_lookup in Hf. rewrite (Hf _ _ Ei). apply IH; auto. by apply Forall_lookup.
Qed.

(** Once all 80 entries have been in use, [trdp_requestSocket] no longer opens a socket: a
    request that no open socket suits fails with TRDP_MEM_ERR whatever entries have been released
    meanwhile, although the scan remembers such an entry to fill the gap. *)
Theorem trdp_requestSocket_gap_not_filled env r iface :
  r_useSocket r = VOS_INVALID_SOCKET -> Forall (fun s => sock_suits r s = false) iface ->
  trdp_requestSocket env r iface VOS_MAX_SOCKET_CNT = (TRDP_MEM_ERR, None, iface, VOS_MAX_SOCKET_CNT).
Proof.
  intros Hu Hf. unfold trdp_requestSocket.
  by destruct (sock_scan_nothing env r (Z.to_nat VOS_MAX_SOCKET_CNT) 0 VOS_INVALID_SOCKET iface Hu Hf)
    as [e ->].
Qed.

Lemma trdp_requestSocket_gap_not_filled_witness :
  trdp_requestSocket example_env example_req example_pool VOS_MAX_SOCKET_CNT
  = (TRDP_MEM_ERR, None, example_pool, VOS_MAX_SOCKET_CNT).
Proof.
  apply trdp_requestSocket_gap_not_filled; [reflexivity|].
  unfold example_pool, trdp_initSockets. rewrite List.Forall_map.
  apply Forall_forall. intros s ->%repeat_spec. reflexivity.
Defined.

(** Releasing a datagram socket undoes a request that shared it: the entry gets its former use
    count back and stays open; releasing the last user closes the descriptor. *)
Theorem trdp_releaseSocket_undoes_request env t iface i s :
  iface !! i = Some s -> sock s <> VOS_INVALID_SOCKET -> sock_type s <> TRDP_SOCK_MD_TCP ->
  1 <= usage s < 32767 ->
  trdp_releaseSocket env (<[i := inc_usage s]> iface) (Z.of_nat i) t false = iface
  /\ closed_by_release (<[i := inc_usage s]> iface) (Z.of_nat i) = []
  /\ (usage s = 1 ->
      (exists s', trdp_releaseSocket env iface (Z.of_nat i) t false !! i = Some s'
                  /\ sock s' = VOS_INVALID_SOCKET /\ usage s' = 0)
      /\ closed_by_release iface (Z.of_nat i) = [sock s]).
Proof.
  intros Hi Hs Ht Hu. unfold trdp_releaseSocket, closed_by_release.
  rewrite ((proj2 (Z.ltb_ge (Z.of_nat i) 0)) ltac:(lia)), Nat2Z.id.
  apply lookup_lt_Some in Hi as Hlt. rewrite list_lookup_insert_eq by done. split_and!.
  - apply list_eq. intros j. destruct (decide (i = j)) as [<-|Hne].
    + rewrite list_lookup_alter_eq, list_lookup_insert_eq by done. cbn. by rewrite release_inc.
    + by rewrite list_lookup_alter_ne, list_lookup_insert_ne.
  - pose proof (release_inc env t s Hs Ht Hu) as Hr. unfold inc_usage, dec_usage. cbn.
    assert (s16 (s16 (usage s + 1) - 1) = usage s) as ->.
    { unfold s16. rewrite (Z.mod_small (usage s + 1 + _)) by lia. rewrite Z.mod_small; lia. }
    assert ((usage s <=? 0) = false) as -> by (apply Z.leb_gt; lia). by rewrite andb_false_r.
  - intros H1. rewrite Hi, list_lookup_alter_eq, Hi. cbn.
    assert (Hd : usage (dec_usage s) = 0) by (cbn; rewrite H1; reflexivity).
    unfold release_entry. rewrite Hd. apply Z.eqb_neq in Hs as Hs'. rewrite Hs'.
    rewrite bool_decide_eq_false_2 by done. cbn [negb andb]. rewrite ?H1. split; [|reflexivity].
    eexists. split; [done|]. split; [done|]. cbn. by rewrite H1.
Qed.

Lemma trdp_releaseSocket_undoes_request_witness :
  let s := set_usage 1 (set_sock 7 zero_sock) in
  trdp_releaseSocket example_env (<[0%nat := inc_usage s]> [s]) (Z.of_nat 0) 0 false = [s].
Proof.
  cbv zeta. set (s := set_usage 1 (set_sock 7 zero_sock)).
  apply (trdp_releaseSocket_undoes_request example_env 0 [s] 0 s); [reflexivity|done|done|cbn; lia].
Defined.

(** ** Queues *)
Lemma unlink_notin {E} (ptr : E -> Z) p q : (forall e, e ∈ q -> ptr e <> p) -> unlink ptr p q = q.
Proof.
  induction q as [|e q IH]; intros H; cbn; [done|].
  destruct (ptr e =? p) eqn:Ee; [bprop; exfalso; by apply (H e); [left|]|].
  f_equal. apply IH. intros e' He'. apply H. by right.
Qed.

(** Appending an element and deleting it again, or inserting it at the front and deleting it,
    leaves the queue as it was; deleting unlinks exactly the element pointed to. *)
Theorem trdp_queue_append_delete q e q1 q2 x :
  (forall e', e' ∈ q -> ele_ptr e' <> ele_ptr e) ->
  (forall e', e' ∈ q1 -> ele_ptr e' <> ele_ptr x) ->
  trdp_queueDelElement (trdp_queueAppLast q (Some e)) (Some (ele_ptr e)) = q
  /\ trdp_queueDelElement (trdp_queueInsFirst q (Some e)) (Some (ele_ptr e)) = q
  /\ trdp_queueDelElement (q1 ++ x :: q2) (Some (ele_ptr x)) = q1 ++ q2.
Proof.
  intros H H1. assert (Hmid : forall l x r, (forall e', e' ∈ l -> ele_ptr e' <> ele_ptr x) ->
    unlink ele_ptr (ele_ptr x) (l ++ x :: r) = l ++ r).
  { clear. induction l as [|y l IH]; intros x r H; cbn; [by rewrite Z.eqb_refl|].
    destruct (ele_ptr y =? ele_ptr x) eqn:E; [bprop; exfalso; by apply (H y); [left|]|].
    f_equal. apply IH. intros e' He'. apply H. by right. }
  split_and!; cbn.
  - rewrite Hmid by done. apply app_nil_r.
  - by rewrite Z.eqb_refl.
  - by apply Hmid.
Qed.

Lemma trdp_queue_append_delete_witness :
  trdp_queueDelElement (trdp_queueAppLast [zero_ele 1] (Some (zero_ele 2))) (Some 2) = [zero_ele 1].
Proof.
  apply (trdp_queue_append_delete [zero_ele 1] (zero_ele 2) [] [] (zero_ele 3)).
  - intros e ->%list_elem_of_singleton. discriminate.
  - intros e He. by apply not_elem_of_nil in He.
Defined.

(** The table over [trdp_validTopoCounters] asks a telegram with other topography counters than
    a nonzero filter to be refused; the function accepts it. *)
Theorem trdp_validTopoCounters_accepts_all :
  ~ (forall etb opTrn etbFilter opTrnFilter,
       trdp_validTopoCounters etb opTrn etbFilter opTrnFilter = true <->
       (etbFilter = 0 \/ etb = etbFilter) /\ (opTrnFilter = 0 \/ opTrn = opTrnFilter)).
Proof. intros H. destruct (proj1 (H 1 2 3 4) eq_refl) as [[]]; lia. Qed.
