(* ===== verification/VosSock.v ===== *)
(** * Sockets of the virtual operating system layer

    Models src/app/trdp/tcnopen/vos_sock.c for Linux: opening a socket with its options, multicast groups, sending
    and receiving over UDP and TCP, connections, and the network interfaces. The system calls are the class
    [Kernel]: each answers or fails with an [errno] and may change the kernel. A program [sys] runs over the last
    error number, the flag of [vos_sockInit] and the kernel; loops take a number of [rounds] and give [Endless] when
    these did not suffice, and following a null pointer gives [Astray]. Logging is left out. The client's view of
    this layer is the record [sock_env] of [TrdpUtils]; [VosSockSpec] builds one from the functions below. *)
From S2P Require Import Prelude Bytes VosString VosMem VosQueue TrdpUtils.

Definition VOS_MAX_IF_NAME_SIZE : nat := 16.
Definition VOS_MAC_SIZE : nat := 6.
Definition TRDP_SOCKBUF_SIZE : Z := 64 * 1024.
Definition AF_INET : Z := 2.
Definition ARPHRD_ETHER : Z := 1.
Definition IFF_UP : Z := 0x1.
Definition IFF_RUNNING : Z := 0x40.

Inductive errno := EINTR | EWOULDBLOCK | ECONNRESET | EMSGSIZE | ENOTCONN | ECONNREFUSED | EHOSTUNREACH | EADDRINUSE
| ECONNABORTED | EPROTO | EINPROGRESS | EALREADY | EISCONN | OtherError (n : Z).
#[export] Instance errno_eq_dec : EqDecision errno.
Proof. solve_decision. Defined.

Inductive result (A : Type) := Answer (a : A) | Failed (e : errno).
Arguments Answer {A} a.
Arguments Failed {A} e.

(** Options of [setsockopt] with a number. *)
Inductive sockopt := SO_REUSEPORT | SO_NO_CHECK | SO_SNDBUF | SO_RCVBUF | IP_TOS | IP_TTL | IP_MULTICAST_TTL | IP_MULTICAST_LOOP
| IP_PKTINFO | IP_MULTICAST_IF.
#[export] Instance sockopt_eq_dec : EqDecision sockopt.
Proof. solve_decision. Defined.

(** [struct ifaddrs]: family and address, in host order, as the netmask. *)
Record ifaddr := mkIfaddr { ifa_name : option (list Z); ifa_addr : option (Z * Z); ifa_netmask : option Z; ifa_flags : Z }.

(** A datagram: its bytes as far as there is room, source address and port, and the destination of the control data. *)
Record datagram := mkDatagram { dg_data : list Z; dg_srcIP : Z; dg_srcPort : Z; dg_dstIP : option Z }.

(** The system calls. *)
Class Kernel := {
  kernel : Type;
  k_socket : bool -> kernel -> result Z * kernel;
  k_close : Z -> kernel -> result unit * kernel;
  k_setsockopt : Z -> sockopt -> Z -> kernel -> result unit * kernel;
  k_getsockopt : Z -> sockopt -> kernel -> result Z * kernel;
  k_nonblock : Z -> kernel -> result unit * kernel;
  k_membership : bool -> Z -> Z -> Z -> kernel -> result unit * kernel;
  k_bind : Z -> Z -> Z -> kernel -> result unit * kernel;
  k_listen : Z -> Z -> kernel -> result unit * kernel;
  k_accept : Z -> kernel -> result (Z * Z * Z) * kernel;
  k_connect : Z -> Z -> Z -> kernel -> result unit * kernel;
  k_sendto : Z -> list Z -> Z -> Z -> kernel -> result nat * kernel;
  k_recvmsg : Z -> nat -> bool -> kernel -> result datagram * kernel;
  k_write : Z -> list Z -> kernel -> result nat * kernel;
  k_read : Z -> nat -> kernel -> result (list Z) * kernel;
  k_hwaddr : Z -> list Z -> kernel -> result (Z * list Z) * kernel;
  k_getifaddrs : kernel -> result (list ifaddr) * kernel }.

Section Sock.
Context `{Kernel}.

Record os := mkOs { last_errno : errno; vosSockInitialised : bool; kern : kernel }.
Definition set_kern (k : kernel) (o : os) : os := mkOs (last_errno o) (vosSockInitialised o) k.

Inductive outcome (A : Type) := Finished (a : A) (o : os) | Astray | Endless.
Arguments Finished {A} a o.
Arguments Astray {A}.
Arguments Endless {A}.
Definition sys (A : Type) : Type := os -> outcome A.
#[export] Instance sys_ret : MRet sys := fun A a o => Finished a o.
#[export] Instance sys_bind : MBind sys := fun A B f m o => match m o with Finished a o => f a o | Astray => Astray | Endless => Endless end.
Definition astray {A} : sys A := fun _ => Astray.
Definition endless {A} : sys A := fun _ => Endless.
Definition errno_ : sys errno := fun o => Finished (last_errno o) o.

(** A system call; [errno] is written only where it fails. *)
Definition call {A} (f : kernel -> result A * kernel) : sys (result A) := fun o =>
  let '(r, k) := f (kern o) in
  Finished r (mkOs (match r with Failed e => e | Answer _ => last_errno o end) (vosSockInitialised o) k).
Definition failed {A} (r : result A) : bool := match r with Failed _ => true | Answer _ => false end.
Definition answer_of {A} (r : result A) : option A := match r with Answer a => Some a | Failed _ => None end.

Definition vos_sockInit : sys VOS_ERR_T := fun o => Finished VOS_NO_ERR (mkOs (last_errno o) true (kern o)).
Definition vos_sockTerm : sys unit := fun o => Finished tt (mkOs (last_errno o) false (kern o)).

(** ** Opening and closing *)
Definition set_buffer (sock : Z) (which : sockopt) (optval : Z) : sys (VOS_ERR_T * Z) :=
  r ← call (k_getsockopt sock which);
  let optval := default optval (answer_of r) in
  if optval <? TRDP_SOCKBUF_SIZE then
    r ← call (k_setsockopt sock which TRDP_SOCKBUF_SIZE);
    if failed r then _ ← call (k_getsockopt sock which); mret (VOS_SOCK_ERR, TRDP_SOCKBUF_SIZE)
    else mret (VOS_NO_ERR, TRDP_SOCKBUF_SIZE)
  else mret (VOS_NO_ERR, optval).
Definition vos_sockSetBuffer (sock : Z) : sys VOS_ERR_T :=
  '(err, optval) ← set_buffer sock SO_SNDBUF 0;
  if bool_decide (err = VOS_NO_ERR) then '(err, _) ← set_buffer sock SO_RCVBUF optval; mret err else mret err.

(** An option that is set where [b] holds, whatever comes of it. *)
Definition try_option (b : bool) (sock : Z) (o : sockopt) (v : Z) : sys unit :=
  if b then _ ← call (k_setsockopt sock o v); mret tt else mret tt.
Definition vos_sockSetOptions (sock : Z) (pOptions : option VOS_SOCK_OPT_T) : sys VOS_ERR_T :=
  err ← match pOptions with
        | None => mret VOS_NO_ERR
        | Some p =>
            _ ← try_option (o_reuseAddrPort p) sock SO_REUSEPORT 1;
            r ← (if o_nonBlocking p then call (k_nonblock sock) else mret (Answer tt));
            if failed r then mret VOS_SOCK_ERR else
            _ ← try_option ((0 <? o_qos p) && (o_qos p <? 8)) sock IP_TOS ((o_qos p <<< 5) ||| 4);
            _ ← try_option (0 <? o_ttl p) sock IP_TTL (o_ttl p);
            _ ← try_option (0 <? o_ttl_multicast p) sock IP_MULTICAST_TTL (o_ttl_multicast p);
            _ ← try_option (o_no_mc_loop p) sock IP_MULTICAST_LOOP 0;
            _ ← try_option (o_no_udp_crc p) sock SO_NO_CHECK 1;
            mret VOS_NO_ERR
        end;
  if bool_decide (err = VOS_NO_ERR) then _ ← try_option true sock IP_PKTINFO 1; mret VOS_NO_ERR else mret err.

(** [pSock]: whether there is a place for the descriptor. *)
Definition open_socket (tcp : bool) (pSock : bool) (pOptions : option VOS_SOCK_OPT_T) : sys (VOS_ERR_T * option Z) := fun o =>
  (if negb (vosSockInitialised o) then mret (VOS_INIT_ERR, None) else
   if negb pSock then mret (VOS_PARAM_ERR, None) else
   r ← call (k_socket tcp);
   match r with
   | Failed _ => mret (VOS_SOCK_ERR, None)
   | Answer sock =>
       err ← vos_sockSetOptions sock pOptions;
       err ← (if bool_decide (err = VOS_NO_ERR) then vos_sockSetBuffer sock else mret err);
       if bool_decide (err = VOS_NO_ERR) then mret (VOS_NO_ERR, Some sock)
       else _ ← call (k_close sock); mret (VOS_SOCK_ERR, None)
   end) o.
Definition vos_sockOpenUDP : bool -> option VOS_SOCK_OPT_T -> sys (VOS_ERR_T * option Z) := open_socket false.
Definition vos_sockOpenTCP : bool -> option VOS_SOCK_OPT_T -> sys (VOS_ERR_T * option Z) := open_socket true.

Definition vos_sockClose (sock : Z) : sys VOS_ERR_T :=
  r ← call (k_close sock); mret (if failed r then VOS_PARAM_ERR else VOS_NO_ERR).

(** ** Addresses and groups *)

(** The mapping of a failure, for a socket that is given. *)
Definition on_socket {A} (sock : Z) (f : kernel -> result A * kernel) (err : VOS_ERR_T) : sys VOS_ERR_T :=
  if sock =? -1 then mret VOS_PARAM_ERR else r ← call f; mret (if failed r then err else VOS_NO_ERR).

Definition vos_sockJoinMC (sock mcAddress ipAddress : Z) : sys VOS_ERR_T :=
  if sock =? -1 then mret VOS_PARAM_ERR else
  if negb (vos_isMulticast mcAddress) then mret VOS_PARAM_ERR else
  r ← call (k_membership true sock mcAddress ipAddress);
  mret (match r with Answer _ => VOS_NO_ERR | Failed EADDRINUSE => VOS_NO_ERR | Failed _ => VOS_SOCK_ERR end).
Definition vos_sockLeaveMC (sock mcAddress ipAddress : Z) : sys VOS_ERR_T :=
  if sock =? -1 then mret VOS_PARAM_ERR else
  if negb (vos_isMulticast mcAddress) then mret VOS_PARAM_ERR else
  r ← call (k_membership false sock mcAddress ipAddress);
  mret (if failed r then VOS_SOCK_ERR else VOS_NO_ERR).
Definition vos_sockSetMulticastIf (sock mcIfAddress : Z) : sys VOS_ERR_T :=
  on_socket sock (k_setsockopt sock IP_MULTICAST_IF mcIfAddress) VOS_SOCK_ERR.
Definition vos_sockBind (sock ipAddress port : Z) : sys VOS_ERR_T :=
  on_socket sock (k_bind sock ipAddress port) VOS_SOCK_ERR.
Definition vos_sockListen (sock backlog : Z) : sys VOS_ERR_T :=
  on_socket sock (k_listen sock backlog) VOS_IO_ERR.

(** ** Datagrams *)

(** [size]: what is left of [*pSize]; the second result is what is stored there. *)
Fixpoint send_udp (rounds : nat) (sock : Z) (data : list Z) (ipAddress port : Z) : sys (VOS_ERR_T * nat) :=
  match rounds with
  | O => endless
  | S rounds =>
      r ← call (k_sendto sock data ipAddress port);
      match r with
      | Answer n => mret (VOS_NO_ERR, n)
      | Failed EWOULDBLOCK => mret (VOS_BLOCK_ERR, O)
      | Failed EINTR => send_udp rounds sock data ipAddress port
      | Failed _ => mret (VOS_IO_ERR, O)
      end
  end.
(** [pSize]: the size, where it is not null; the buffer has at least as many bytes. *)
Definition vos_sockSendUDP (rounds : nat) (sock : Z) (pBuffer : option (list Z)) (pSize : option nat) (ipAddress port : Z)
    : sys (VOS_ERR_T * option nat) :=
  match pBuffer, pSize with
  | Some buf, Some size =>
      if sock =? -1 then mret (VOS_PARAM_ERR, Some size)
      else '(err, n) ← send_udp rounds sock (take size buf) ipAddress port; mret (err, Some n)
  | _, _ => mret (VOS_PARAM_ERR, pSize)
  end.

(** The result and the datagram, whose addresses are stored also where it is empty; nothing where the call failed. *)
Fixpoint receive_udp (rounds : nat) (sock : Z) (size : nat) (peek : bool) : sys (VOS_ERR_T * option datagram) :=
  match rounds with
  | O => endless
  | S rounds =>
      r ← call (k_recvmsg sock size peek);
      match r with
      | Answer d => mret (match dg_data d with [] => VOS_NODATA_ERR | _ => VOS_NO_ERR end, Some d)
      | Failed EWOULDBLOCK => mret (VOS_BLOCK_ERR, None)
      | Failed EINTR => receive_udp rounds sock size peek
      | Failed ECONNRESET => mret (VOS_NO_ERR, None)
      | Failed _ => mret (VOS_IO_ERR, None)
      end
  end.
Definition vos_sockReceiveUDP (rounds : nat) (sock : Z) (pBuffer : bool) (pSize : option nat) (peek : bool)
    : sys (VOS_ERR_T * option nat * option datagram) :=
  match pBuffer, pSize with
  | true, Some size =>
      if sock =? -1 then mret (VOS_PARAM_ERR, Some size, None)
      else '(err, d) ← receive_udp rounds sock size peek; mret (err, Some (from_option (fun d => length (dg_data d)) O d), d)
  | _, _ => mret (VOS_PARAM_ERR, pSize, None)
  end.

(** ** Connections *)

(** The new socket (-1 where nobody waits), and address and port of the other side. *)
Fixpoint vos_sockAccept (rounds : nat) (sock : Z) (pSock pIPAddress pPort : bool) : sys (VOS_ERR_T * option (Z * option (Z * Z))) :=
  if negb (pSock && pIPAddress && pPort) then mret (VOS_PARAM_ERR, None) else
  match rounds with
  | O => endless
  | S rounds =>
      r ← call (k_accept sock);
      match r with
      | Answer (fd, ip, port) => mret (VOS_NO_ERR, Some (fd, Some (ip, port)))
      | Failed EWOULDBLOCK => mret (VOS_NO_ERR, Some (-1, None))
      | Failed EINTR | Failed ECONNABORTED | Failed EPROTO => vos_sockAccept rounds sock pSock pIPAddress pPort
      | Failed _ => mret (VOS_UNKNOWN_ERR, None)
      end
  end.

Definition vos_sockConnect (sock ipAddress port : Z) : sys VOS_ERR_T :=
  if sock =? -1 then mret VOS_PARAM_ERR else
  r ← call (k_connect sock ipAddress port);
  mret (match r with
        | Failed EINPROGRESS | Failed EWOULDBLOCK | Failed EALREADY => VOS_BLOCK_ERR
        | Answer _ | Failed EISCONN => VOS_NO_ERR
        | Failed _ => VOS_IO_ERR
        end).

(** [size]: the bytes sent so far. *)
Fixpoint send_tcp (rounds : nat) (sock : Z) (data : list Z) (size : nat) : sys (VOS_ERR_T * nat) :=
  match rounds with
  | O => endless
  | S rounds =>
      r ← call (k_write sock data);
      match r with
      | Answer n =>
          let data := drop n data in
          if bool_decide (data = []) then mret (VOS_NO_ERR, (size + n)%nat) else send_tcp rounds sock data (size + n)
      | Failed EWOULDBLOCK => mret (VOS_BLOCK_ERR, size)
      | Failed e =>
          if bool_decide (data <> []) && bool_decide (e = EINTR) then send_tcp rounds sock data size else
          mret (match e with ENOTCONN | ECONNREFUSED | EHOSTUNREACH => VOS_NOCONN_ERR | _ => VOS_IO_ERR end, size)
      end
  end.
Definition vos_sockSendTCP (rounds : nat) (sock : Z) (pBuffer : option (list Z)) (pSize : option nat) : sys (VOS_ERR_T * option nat) :=
  match pBuffer, pSize with
  | Some buf, Some size =>
      if sock =? -1 then mret (VOS_PARAM_ERR, Some size)
      else '(err, n) ← send_tcp rounds sock (take size buf) 0; mret (err, Some n)
  | _, _ => mret (VOS_PARAM_ERR, pSize)
  end.

(** [got]: the bytes received so far. The error number that is asked for last may be one of an earlier call. *)
Fixpoint receive_tcp (rounds : nat) (sock : Z) (room : nat) (got : list Z) : sys (VOS_ERR_T * list Z) :=
  match rounds with
  | O => endless
  | S rounds =>
      let none : sys (VOS_ERR_T * list Z) :=
        e ← errno_;
        mret (match got with [] => if bool_decide (e = EMSGSIZE) then VOS_MEM_ERR else VOS_NODATA_ERR | _ => VOS_NO_ERR end, got) in
      r ← call (k_read sock room);
      match r with
      | Answer [] => none
      | Answer l =>
          if (0 <? room - length l)%nat then receive_tcp rounds sock (room - length l) (got ++ l)
          else mret (VOS_NO_ERR, got ++ l)
      | Failed EWOULDBLOCK => mret (match got with [] => VOS_BLOCK_ERR | _ => VOS_NO_ERR end, got)
      | Failed EINTR => receive_tcp rounds sock room got
      | Failed EMSGSIZE => none
      | Failed ECONNRESET => mret (VOS_NODATA_ERR, got)
      | Failed _ => mret (VOS_IO_ERR, got)
      end
  end.
(** [*pSize] is read before the pointer is looked at. *)
Definition vos_sockReceiveTCP (rounds : nat) (sock : Z) (pBuffer : bool) (pSize : option nat) : sys (VOS_ERR_T * nat * list Z) :=
  match pSize with
  | None => astray
  | Some size =>
      if (sock =? -1) || negb pBuffer then mret (VOS_PARAM_ERR, O, [])
      else '(err, l) ← receive_tcp rounds sock size []; mret (err, length l, l)
  end.

(** ** Network interfaces *)
Record VOS_IF_REC_T := mkIfRec { if_name : list Z; ipAddr : Z; netMask : Z; mac : list Z; linkState : bool }.

Definition vos_getMacAddress (pIfName : list Z) : sys (option (list Z)) :=
  r ← call (k_socket false);
  match r with
  | Failed _ => mret None
  | Answer sd =>
      h ← call (k_hwaddr sd pIfName);
      _ ← call (k_close sd);
      mret (match h with
            | Answer (family, hw) => if family =? ARPHRD_ETHER then Some (take VOS_MAC_SIZE hw) else None
            | Failed _ => None
            end)
  end.
Definition vos_sockGetMAC (pMAC : bool) (cDefaultIface : list Z) : sys (VOS_ERR_T * option (list Z)) :=
  if negb pMAC then mret (VOS_PARAM_ERR, None) else
  m ← vos_getMacAddress cDefaultIface;
  mret (match m with Some _ => VOS_NO_ERR | None => VOS_SOCK_ERR end, m).

(** The name of the interface, cut to the array, or what the array held. *)
Definition named (r : VOS_IF_REC_T) (name : option (list Z)) : list Z :=
  match name with
  | None => if_name r
  | Some n => take (VOS_MAX_IF_NAME_SIZE - 1) (n ++ repeat 0 VOS_MAX_IF_NAME_SIZE) ++ [0]
  end.

(** [ifAddrs] from [count] on: the records that are filled, and those left as they were. *)
Fixpoint fill_interfaces (l : list ifaddr) (ifAddrs : list VOS_IF_REC_T) : sys (list VOS_IF_REC_T * list VOS_IF_REC_T) :=
  match l, ifAddrs with
  | [], _ | _, [] => mret ([], ifAddrs)
  | a :: l, r :: rest =>
      match ifa_addr a with
      | Some (family, ip) =>
          if negb (family =? AF_INET) then fill_interfaces l ifAddrs else
          match ifa_netmask a with
          | None => astray
          | Some mask =>
              let name := named r (ifa_name a) in
              m ← vos_getMacAddress (cstr name);
              '(filled, kept) ← fill_interfaces l rest;
              mret (mkIfRec name ip mask (default (mac r) m) (negb (ifa_flags a &&& IFF_RUNNING =? 0)) :: filled, kept)
          end
      | None => fill_interfaces l ifAddrs
      end
  end.
(** [pAddrCnt]: the size of the array, of which [ifAddrs] is the content. *)
Definition vos_getInterfaces (pAddrCnt : option nat) (ifAddrs : option (list VOS_IF_REC_T)) : sys (VOS_ERR_T * option nat * option (list VOS_IF_REC_T)) :=
  match pAddrCnt, ifAddrs with
  | Some (S n), Some a =>
      r ← call k_getifaddrs;
      match r with
      | Failed _ => mret (VOS_PARAM_ERR, pAddrCnt, ifAddrs)
      | Answer l => '(filled, kept) ← fill_interfaces l (take (S n) a); mret (VOS_NO_ERR, Some (length filled), Some (filled ++ kept ++ drop (S n) a))
      end
  | _, _ => mret (VOS_PARAM_ERR, pAddrCnt, ifAddrs)
  end.

Fixpoint if_up (l : list ifaddr) (ifAddress : Z) : bool :=
  match l with
  | [] => false
  | a :: l =>
      match ifa_addr a with
      | Some (family, ip) =>
          if (family =? AF_INET) && ((ifAddress =? 0) || (ifAddress =? ip)) then negb (ifa_flags a &&& IFF_UP =? 0) else if_up l ifAddress
      | None => if_up l ifAddress
      end
  end.
Definition vos_netIfUp (ifAddress : Z) : sys bool :=
  r ← call k_getifaddrs; mret (match r with Answer l => if_up l ifAddress | Failed _ => false end).
End Sock.
Arguments Finished {_ _} a o.
Arguments Astray {_ _}.
Arguments Endless {_ _}.
