(* ===== verification/VosSockSpec.v ===== *)
(** * What the sockets promise

    [KernelLaws] states what the functions of [VosSock] rely on: the documented behaviour of the system calls, seen
    through the bytes a connection has taken and given, the datagrams posted, the descriptors that are open,
    and the options of a socket. Nothing is assumed on how often a signal interrupts a call: the loops of sending and
    receiving are compared with the calls they make ([writes], [reads]), and run out of rounds only where all rounds
    but those that moved a byte were hindered. [sock_env_of] is the record the stack uses. [toy] is a kernel that
    satisfies the laws. *)
From stdpp Require Import gmap.
From S2P Require Import Prelude Bytes VosString VosTime TrdpTypes VosMem VosQueue TrdpUtils VosSock.

(** A call that moves nothing and is repeated: a signal came, or nothing was taken. *)
Definition hindered {A} (moved : A -> nat) (r : result A) : bool :=
  match r with Answer a => (moved a =? 0)%nat | Failed e => bool_decide (e = EINTR) end.
(** What a call moved. *)
Definition moved_by {A} (moved : A -> nat) (r : result A) : nat := match r with Answer a => moved a | Failed _ => O end.
Definition total {A} (moved : A -> nat) (rs : list (result A)) : nat := sum_list_with (moved_by moved) rs.
Definition hindrances {A} (moved : A -> nat) (rs : list (result A)) : nat := length (List.filter (hindered moved) rs).
Definition dropped {A} (r : result A) : bool :=
  match r with Failed EINTR | Failed ECONNABORTED | Failed EPROTO => true | _ => false end.
Definition signal {A} (r : result A) : bool := match r with Failed EINTR => true | _ => false end.

Class KernelLaws `{Kernel} := {
  sent : kernel -> Z -> list Z;
  taken : kernel -> Z -> list Z;
  posted : kernel -> Z -> list (list Z * Z * Z);
  live : kernel -> gset Z;
  opt : kernel -> Z -> sockopt -> Z;
  write_law fd buf k r k' : k_write fd buf k = (r, k') ->
    match r with
    | Answer n => (n <= length buf)%nat /\ sent k' fd = sent k fd ++ take n buf
    | Failed _ => sent k' fd = sent k fd
    end;
  read_law fd n k r k' : k_read fd n k = (r, k') ->
    match r with
    | Answer l => (length l <= n)%nat /\ taken k' fd = taken k fd ++ l
    | Failed _ => taken k' fd = taken k fd
    end;
  sendto_law fd buf ip port k r k' : k_sendto fd buf ip port k = (r, k') ->
    match r with
    | Answer n => n = length buf /\ posted k' fd = posted k fd ++ [(buf, ip, port)]
    | Failed _ => posted k' fd = posted k fd
    end;
  recvmsg_law fd n peek k r k' : k_recvmsg fd n peek k = (r, k') ->
    forall d, r = Answer d -> (length (dg_data d) <= n)%nat;
  accept_law fd k r k' : k_accept fd k = (r, k') ->
    match r with
    | Answer (c, _, _) => 0 <= c /\ (c ∉ live k) /\ live k' = ({[c]} ∪ live k)
    | Failed _ => live k' = live k
    end;
  socket_law tcp k r k' : k_socket tcp k = (r, k') ->
    match r with
    | Answer fd => 0 <= fd /\ (fd ∉ live k) /\ live k' = ({[fd]} ∪ live k)
    | Failed _ => live k' = live k
    end;
  close_law fd k r k' : k_close fd k = (r, k') -> live k' = live k ∖ {[fd]};
  setsockopt_live fd o v k r k' : k_setsockopt fd o v k = (r, k') -> live k' = live k;
  getsockopt_live fd o k r k' : k_getsockopt fd o k = (r, k') -> live k' = live k;
  nonblock_live fd k r k' : k_nonblock fd k = (r, k') -> live k' = live k;
  hwaddr_live fd n k r k' : k_hwaddr fd n k = (r, k') -> live k' = live k;
  getifaddrs_live k r k' : k_getifaddrs k = (r, k') -> live k' = live k;
  setsockopt_law fd o v k r k' : k_setsockopt fd o v k = (r, k') -> o <> SO_SNDBUF -> o <> SO_RCVBUF ->
    forall fd' o', opt k' fd' o' = (if negb (failed r) && bool_decide (fd' = fd /\ o' = o) then v else opt k fd' o');
  nonblock_law fd k r k' : k_nonblock fd k = (r, k') -> forall fd' o', opt k' fd' o' = opt k fd' o' }.

Section Spec.
Context `{KernelLaws}.

(** ** Running a program *)
Lemma bind_run {A B} (m : sys A) (f : A -> sys B) o a o' : m o = Finished a o' -> (m ≫= f) o = f a o'.
Proof. intros E. unfold mbind, sys_bind. by rewrite E. Qed.

Lemma call_run {A} (f : kernel -> result A * kernel) o r k : f (kern o) = (r, k) ->
  exists o', call f o = Finished r o' /\ kern o' = k /\ vosSockInitialised o' = vosSockInitialised o.
Proof. intros E. unfold call. rewrite E. by eexists. Qed.

(** A call is taken: [E] what the kernel answers [r] with, in the state [o'] after it. *)
Ltac take_call r k o' E :=
  match goal with |- context [(call ?f ≫= _) ?o] =>
    destruct (f (kern o)) as [r k] eqn:E;
    let Ec := fresh "Ec" in let Ek := fresh "Ek" in let Ei := fresh "Ei" in
    destruct (call_run f o r k E) as (o' & Ec & Ek & Ei); rewrite (bind_run _ _ _ _ _ Ec)
  end.

(** The calls of a loop that goes on with what is left: what they answer, and the kernel after them. *)
Inductive writes (fd : Z) : list Z -> kernel -> list (result nat) -> kernel -> Prop :=
| writes_nil data k : writes fd data k [] k
| writes_cons data k r k1 rs k2 : k_write fd data k = (r, k1) -> writes fd (drop (moved_by id r) data) k1 rs k2 -> writes fd data k (r :: rs) k2.
Inductive reads (fd : Z) : nat -> kernel -> list (result (list Z)) -> kernel -> Prop :=
| reads_nil room k : reads fd room k [] k
| reads_cons room k r k1 rs k2 : k_read fd room k = (r, k1) -> reads fd (room - moved_by length r) k1 rs k2 -> reads fd room k (r :: rs) k2.
Definition bytes_of (rs : list (result (list Z))) : list Z := concat (map (fun r => match r with Answer l => l | Failed _ => [] end) rs).

Lemma writes_sent fd data k rs k' : writes fd data k rs k' ->
  (total id rs <= length data)%nat /\ sent k' fd = sent k fd ++ take (total id rs) data.
Proof.
  induction 1 as [data k|data k r k1 rs k2 E Hw [IH1 IH2]]; [by rewrite take_0, app_nil_r; split; [cbn; lia|]|].
  pose proof (write_law _ _ _ _ _ E) as Hr. rewrite length_drop in IH1. change (total id (r :: rs)) with (moved_by id r + total id rs)%nat.
  destruct r as [n|e]; cbn [moved_by id] in *.
  - destruct Hr as [Hn Hs]. split; [lia|]. rewrite IH2, Hs, <- app_assoc. f_equal.
    rewrite <- (take_drop n (take (n + total id rs) data)), take_take, Nat.min_l by lia. f_equal. rewrite skipn_firstn_comm. f_equal. lia.
  - rewrite Nat.sub_0_r, drop_0 in *. split; [done|]. by rewrite IH2, Hr.
Qed.
Lemma reads_taken fd room k rs k' : reads fd room k rs k' ->
  (length (bytes_of rs) <= room)%nat /\ taken k' fd = taken k fd ++ bytes_of rs.
Proof.
  induction 1 as [room k|room k r k1 rs k2 E Hw [IH1 IH2]]; [cbn; rewrite app_nil_r; split; [lia|done]|].
  pose proof (read_law _ _ _ _ _ E) as Hr. unfold bytes_of in *. cbn [map concat]. destruct r as [l|e]; cbn [moved_by] in *.
  - destruct Hr as [Hn Hs]. rewrite length_app. split; [lia|]. by rewrite IH2, Hs, <- app_assoc.
  - cbn [app]. rewrite IH2, Hr. split; [lia|done].
Qed.

(** ** Sending over a connection *)

(** What sending reports, from the last call. *)
Definition send_verdict (r : result nat) : VOS_ERR_T :=
  match r with
  | Answer _ => VOS_NO_ERR
  | Failed EWOULDBLOCK => VOS_BLOCK_ERR
  | Failed ENOTCONN | Failed ECONNREFUSED | Failed EHOSTUNREACH => VOS_NOCONN_ERR
  | Failed _ => VOS_IO_ERR
  end.

Lemma send_tcp_calls rounds fd : forall data size o, exists rs k', writes fd data (kern o) rs k' /\
  match send_tcp rounds fd data size o with
  | Finished (err, n) o' => kern o' = k' /\ n = (size + total id rs)%nat /\ (exists r, list.last rs = Some r /\ err = send_verdict r)
      /\ (err = VOS_NO_ERR -> total id rs = length data) /\ (data <> [] -> err <> VOS_NO_ERR -> (total id rs < length data)%nat)
  | Astray => False
  | Endless => length rs = rounds /\ (rounds <= total id rs + hindrances id rs)%nat
  end.
Proof.
  induction rounds as [|rounds IH]; intros data size o; [exists [], (kern o); split; [constructor|split; [done|cbn; lia]]|].
  cbn [send_tcp]. take_call r k o1 E. subst k. pose proof (write_law _ _ _ _ _ E) as Hw.
  assert (Hstop : forall err, err = send_verdict r -> failed r = true -> err <> VOS_NO_ERR -> exists rs k', writes fd data (kern o) rs k' /\
    (kern o1 = k' /\ size = (size + total id rs)%nat /\ (exists r', list.last rs = Some r' /\ err = send_verdict r')
     /\ (err = VOS_NO_ERR -> total id rs = length data) /\ (data <> [] -> err <> VOS_NO_ERR -> (total id rs < length data)%nat))).
  { intros err Hv Hf Hne. exists [r], (kern o1). split; [econstructor; [exact E|constructor]|]. destruct r; [done|]. cbn [total sum_list_with moved_by].
    split_and!; [done|lia|by eexists|done|]. intros Hd _. destruct data; [done|cbn; lia]. }
  assert (Hgo : forall size', (match r with Answer n => drop n data <> [] /\ size' = (size + n)%nat | Failed e => e = EINTR /\ data <> [] /\ size' = size end) ->
    exists rs k', writes fd data (kern o) rs k' /\
      match send_tcp rounds fd (drop (moved_by id r) data) size' o1 with
      | Finished (err, n) o' => kern o' = k' /\ n = (size + total id rs)%nat /\ (exists r, list.last rs = Some r /\ err = send_verdict r)
          /\ (err = VOS_NO_ERR -> total id rs = length data) /\ (data <> [] -> err <> VOS_NO_ERR -> (total id rs < length data)%nat)
      | Astray => False
      | Endless => length rs = S rounds /\ (S rounds <= total id rs + hindrances id rs)%nat
      end).
  { intros size' Hr. destruct (IH (drop (moved_by id r) data) size' o1) as (rs & k' & Hrs & Hrun). exists (r :: rs), k'.
    split; [by econstructor|]. change (total id (r :: rs)) with (moved_by id r + total id rs)%nat.
    assert (Hd : (moved_by id r <= length data)%nat /\ drop (moved_by id r) data <> [] /\ size' = (size + moved_by id r)%nat).
    { destruct r as [n|e]; cbn [moved_by id]; [destruct Hw, Hr; auto|]. destruct Hr as (_ & ? & ->). rewrite drop_0. split_and!; [lia|done|lia]. }
    destruct Hd as (Hm & Hd & ->). destruct (send_tcp _ _ _ _ _) as [[err n] o'| |]; [|done|].
    - destruct Hrun as (? & -> & (r' & Hlast & ?) & H1 & H2). rewrite length_drop in *.
      split_and!; [done|lia| |intros He; specialize (H1 He); lia|intros _ He; specialize (H2 Hd He); lia].
      exists r'. split; [|done]. by destruct rs.
    - destruct Hrun as [Hl Hh]. split; [cbn; lia|]. unfold hindrances in *. cbn [List.filter]. destruct r as [n|e]; cbn [hindered moved_by id] in *.
      + destruct (Nat.eqb_spec n 0); cbn [length]; lia.
      + destruct Hr as (-> & _). rewrite bool_decide_true by done. cbn [length]. lia. }
  destruct r as [n|e].
  - destruct Hw as [Hn Hs]. case_bool_decide as Hd; [|by apply Hgo].
    exists [Answer n], (kern o1). split; [econstructor; [exact E|constructor]|]. cbn [total sum_list_with moved_by id].
    assert (n = length data) by (apply (f_equal length) in Hd; rewrite length_drop in Hd; cbn in Hd; lia).
    cbn. split_and!; [done|lia|by eexists|lia|done].
  - specialize (Hgo size). cbn [moved_by] in Hgo. rewrite drop_0 in Hgo.
    destruct e; cbn; rewrite ?andb_true_r, ?andb_false_r; try (by apply Hstop); case_bool_decide as Hd; try (by apply Hstop); by apply Hgo.
Qed.

(** C17: Sending over a connection makes write calls, each with what is left of the data. When it returns, what is counted
    is what the connection took, the start of the data; success means all of it, and only success, and the result is
    the meaning of the last call's answer. It ends unless it is hindered without end: where it has not returned after a
    number of rounds, all of them were spent, and all but as many as there are bytes were interrupted by a
    signal or took nothing. Nothing is assumed on how often that happens. *)
Theorem vos_sockSendTCP_stream rounds fd buf size o : fd <> -1 -> (size <= length buf)%nat ->
  exists rs k', writes fd (take size buf) (kern o) rs k' /\
  match vos_sockSendTCP rounds fd (Some buf) (Some size) o with
  | Finished (err, None) _ => False
  | Finished (err, Some n) o' => kern o' = k' /\ (n <= size)%nat /\ sent k' fd = sent (kern o) fd ++ take n buf
      /\ (err = VOS_NO_ERR -> n = size) /\ ((0 < size)%nat -> n = size -> err = VOS_NO_ERR)
      /\ exists r, list.last rs = Some r /\ err = send_verdict r
  | Astray => False
  | Endless => length rs = rounds /\ (rounds <= size + hindrances id rs)%nat
  end.
Proof.
  intros Hfd Hs. assert (Hl : length (take size buf) = size) by (rewrite length_take; lia).
  destruct (send_tcp_calls rounds fd (take size buf) 0 o) as (rs & k' & Hw & Hrun). exists rs, k'. split; [done|].
  destruct (writes_sent _ _ _ _ _ Hw) as [Ht Hst]. rewrite Hl in *. unfold vos_sockSendTCP. rewrite (proj2 (Z.eqb_neq _ _) Hfd).
  unfold mbind, sys_bind. destruct (send_tcp _ _ _ _ _) as [[err n] o'| |]; cbn [mret sys_ret]; [|done|].
  - destruct Hrun as (-> & -> & Hr & H1 & H2). cbn [Nat.add]. rewrite take_take, Nat.min_l in Hst by lia.
    split_and!; auto. intros Hpos Hn. destruct (decide (err = VOS_NO_ERR)) as [|He]; [done|]. specialize (H2 ltac:(by intros E; rewrite E in Hl; cbn in Hl; lia) He). lia.
  - destruct Hrun as [Hr Hh]. split; [done|lia].
Qed.

(** ** Receiving from a connection *)

(** What receiving reports, from the last call, the bytes received and the last error number. *)
Definition recv_verdict (e : errno) (l : list Z) (r : result (list Z)) : VOS_ERR_T :=
  match r, l with
  | Failed ECONNRESET, _ => VOS_NODATA_ERR
  | Failed EWOULDBLOCK, [] => VOS_BLOCK_ERR
  | Answer _, [] | Failed EMSGSIZE, [] => if bool_decide (e = EMSGSIZE) then VOS_MEM_ERR else VOS_NODATA_ERR
  | Answer _, _ | Failed EWOULDBLOCK, _ | Failed EMSGSIZE, _ => VOS_NO_ERR
  | Failed _, _ => VOS_IO_ERR
  end.

Lemma receive_tcp_calls rounds fd : forall room got o, exists rs k', reads fd room (kern o) rs k' /\
  match receive_tcp rounds fd room got o with
  | Finished (err, l) o' => kern o' = k' /\ l = got ++ bytes_of rs /\ (exists r, list.last rs = Some r /\ err = recv_verdict (last_errno o') l r)
  | Astray => False
  | Endless => length rs = rounds /\ (rounds <= length (bytes_of rs) + hindrances length rs)%nat
  end.
Proof.
  induction rounds as [|rounds IH]; intros room got o; [exists [], (kern o); split; [constructor|split; [done|cbn; lia]]|].
  cbn [receive_tcp]. take_call r k o1 E. subst k. pose proof (read_law _ _ _ _ _ E) as Hw.
  assert (Hstop : forall err got', got' = got ++ bytes_of [r] -> err = recv_verdict (last_errno o1) got' r -> exists rs k', reads fd room (kern o) rs k' /\
    (kern o1 = k' /\ got' = got ++ bytes_of rs /\ (exists r', list.last rs = Some r' /\ err = recv_verdict (last_errno o1) got' r'))).
  { intros err got' Hg Hv. exists [r], (kern o1). split; [econstructor; [exact E|constructor]|]. split_and!; [done|done|by eexists]. }
  assert (Hgo : forall got', got' = got ++ bytes_of [r] -> (match r with Answer l => l <> [] | Failed e => e = EINTR end) ->
    exists rs k', reads fd room (kern o) rs k' /\
      match receive_tcp rounds fd (room - moved_by length r) got' o1 with
      | Finished (err, l) o' => kern o' = k' /\ l = got ++ bytes_of rs /\ (exists r, list.last rs = Some r /\ err = recv_verdict (last_errno o') l r)
      | Astray => False
      | Endless => length rs = S rounds /\ (S rounds <= length (bytes_of rs) + hindrances length rs)%nat
      end).
  { intros got' -> Hr. destruct (IH (room - moved_by length r)%nat (got ++ bytes_of [r]) o1) as (rs & k' & Hrs & Hrun). exists (r :: rs), k'.
    split; [by econstructor|]. assert (Hb : bytes_of (r :: rs) = bytes_of [r] ++ bytes_of rs) by (unfold bytes_of; cbn; by rewrite app_nil_r).
    rewrite Hb. destruct (receive_tcp _ _ _ _ _) as [[err l] o'| |]; [|done|].
    - destruct Hrun as (? & -> & r' & Hlast & ?). rewrite <- app_assoc in *. split_and!; [done..|]. exists r'. split; [|done]. by destruct rs.
    - destruct Hrun as [Hl Hh]. split; [cbn; lia|]. rewrite length_app. unfold hindrances in *. cbn [List.filter].
      destruct r as [l|e]; cbn [hindered].
      + destruct l as [|c l]; [done|]. cbn. lia.
      + rewrite bool_decide_true by done. cbn. lia. }
  destruct r as [l|e].
  - destruct l as [|c l]; [cbn; apply Hstop; [by rewrite app_nil_r|by destruct got]|].
    destruct (0 <? room - length (c :: l))%nat; [apply Hgo; [unfold bytes_of; cbn; by rewrite app_nil_r|done]|].
    cbn; apply Hstop; [unfold bytes_of; cbn; by rewrite app_nil_r|by destruct got].
  - assert (Hnil : got = got ++ bytes_of [Failed e]) by (symmetry; apply app_nil_r). specialize (Hgo got Hnil).
    cbn [moved_by] in Hgo. rewrite Nat.sub_0_r in Hgo. assert (Hle : kern o1 = kern o1 -> last_errno o1 = e).
    { intros _. unfold call in Ec. rewrite E in Ec. by injection Ec as <-. }
    destruct e; try (by apply Hgo); cbn; apply (Hstop _ got Hnil); destruct got; cbn; rewrite ?Hle by done; try done.
Qed.


(** ** Datagrams and connections that are accepted *)

(** The rounds, from the first, in which the call is to be repeated. *)
Fixpoint repeated {A} (again : result A -> bool) (f : kernel -> result A * kernel) (rounds : nat) (k : kernel) : nat :=
  match rounds with
  | O => O
  | S rounds => let '(r, k) := f k in if again r then S (repeated again f rounds k) else O
  end.

Lemma send_udp_spec rounds fd data ip port : forall o, (repeated signal (k_sendto fd data ip port) rounds (kern o) < rounds)%nat ->
  exists err n o', send_udp rounds fd data ip port o = Finished (err, n) o'
    /\ (if bool_decide (err = VOS_NO_ERR) then n = length data /\ posted (kern o') fd = posted (kern o) fd ++ [(data, ip, port)]
        else n = O /\ posted (kern o') fd = posted (kern o) fd).
Proof.
  induction rounds as [|rounds IH]; intros o Hr; [lia|]. cbn [send_udp repeated] in *.
  take_call r k o1 E. subst k. pose proof (sendto_law _ _ _ _ _ _ _ E) as Hs. destruct r as [n|e].
  - destruct Hs as [-> Hs]. by exists VOS_NO_ERR, (length data), o1.
  - destruct e; try (eexists _, _, _; split; [reflexivity|]; rewrite bool_decide_false by done; by split).
    rewrite <- Hs. apply IH. cbn in Hr. lia.
Qed.

(** Sending a datagram ends when a call is not interrupted; it is posted once, to its destination, where success is
    reported, and not otherwise. *)
Theorem vos_sockSendUDP_posts rounds fd buf size ip port o : fd <> -1 -> (size <= length buf)%nat ->
  (repeated signal (k_sendto fd (take size buf) ip port) rounds (kern o) < rounds)%nat ->
  exists err n o', vos_sockSendUDP rounds fd (Some buf) (Some size) ip port o = Finished (err, Some n) o'
    /\ (if bool_decide (err = VOS_NO_ERR) then n = size /\ posted (kern o') fd = posted (kern o) fd ++ [(take size buf, ip, port)]
        else n = O /\ posted (kern o') fd = posted (kern o) fd).
Proof.
  intros Hfd Hs Hr. destruct (send_udp_spec rounds fd (take size buf) ip port o Hr) as (err & n & o' & E & Hspec).
  exists err, n, o'. unfold vos_sockSendUDP. rewrite (proj2 (Z.eqb_neq _ _) Hfd), (bind_run _ _ _ _ _ E). split; [done|].
  rewrite length_take, Nat.min_l in Hspec by lia. exact Hspec.
Qed.

Lemma receive_udp_ends rounds fd size peek : forall o, (repeated signal (k_recvmsg fd size peek) rounds (kern o) < rounds)%nat ->
  exists err d o', receive_udp rounds fd size peek o = Finished (err, d) o' /\ (forall x, d = Some x -> (length (dg_data x) <= size)%nat).
Proof.
  induction rounds as [|rounds IH]; intros o Hr; [lia|]. cbn [receive_udp repeated] in *.
  take_call r k o1 E. subst k. pose proof (recvmsg_law _ _ _ _ _ _ E) as Hd. destruct r as [d|e].
  - eexists _, _, _. split; [reflexivity|]. intros x [= <-]. by apply Hd.
  - destruct e; try (by eexists _, _, _). apply IH. cbn in Hr. lia.
Qed.

(** Accepting ends when a call is not to be repeated, with a descriptor that is new, or with none and nothing opened. *)
Theorem vos_sockAccept_opens rounds fd : forall o, (repeated dropped (k_accept fd) rounds (kern o) < rounds)%nat ->
  exists err r o', vos_sockAccept rounds fd true true true o = Finished (err, r) o'
    /\ match r with
       | Some (c, Some _) => err = VOS_NO_ERR /\ 0 <= c /\ (c ∉ live (kern o)) /\ live (kern o') = ({[c]} ∪ live (kern o))
       | Some (c, None) => err = VOS_NO_ERR /\ c = -1 /\ live (kern o') = live (kern o)
       | None => err = VOS_UNKNOWN_ERR /\ live (kern o') = live (kern o)
       end.
Proof.
  induction rounds as [|rounds IH]; intros o Hr; [lia|]. cbn [vos_sockAccept andb negb repeated] in *.
  take_call r k o1 E. subst k. pose proof (accept_law _ _ _ _ E) as Hl. destruct r as [[[c ip] port]|e].
  - eexists _, _, _. split; [reflexivity|]. by split.
  - destruct e; try (by eexists _, _, _); rewrite <- Hl; apply IH; cbn in Hr; lia.
Qed.

(** ** Programs that return *)
Definition does {A} (m : sys A) (Q : kernel -> A -> kernel -> Prop) : Prop :=
  forall o, exists a o', m o = Finished a o' /\ vosSockInitialised o' = vosSockInitialised o /\ Q (kern o) a (kern o').

Lemma does_ret {A} (a : A) (Q : kernel -> A -> kernel -> Prop) : (forall k, Q k a k) -> does (mret a) Q.
Proof. intros HQ o. exists a, o. split; [done|]. split; [done|]. apply HQ. Qed.
Lemma does_call {A} (f : kernel -> result A * kernel) (Q : kernel -> result A -> kernel -> Prop) :
  (forall k r k', f k = (r, k') -> Q k r k') -> does (call f) Q.
Proof.
  intros HQ o. destruct (f (kern o)) as [r k] eqn:E. destruct (call_run f o r k E) as (o' & Ec & Ek & Ei).
  exists r, o'. subst k. auto.
Qed.
Lemma does_bind {A B} (m : sys A) (f : A -> sys B) (Q1 : kernel -> A -> kernel -> Prop) (Q2 : A -> kernel -> B -> kernel -> Prop) (Q : kernel -> B -> kernel -> Prop) :
  does m Q1 -> (forall a, does (f a) (Q2 a)) -> (forall k a k1 b k2, Q1 k a k1 -> Q2 a k1 b k2 -> Q k b k2) -> does (m ≫= f) Q.
Proof.
  intros Hm Hf HQ o. destruct (Hm o) as (a & o1 & E1 & Hi1 & Hq1). destruct (Hf a o1) as (b & o2 & E2 & Hi2 & Hq2).
  exists b, o2. rewrite (bind_run _ _ _ _ _ E1). split; [done|]. split; [congruence|]. by eapply HQ.
Qed.

(** Programs that open and close nothing. *)
Definition keeps {A} (m : sys A) : Prop := does m (fun k _ k' => live k' = live k).
Lemma keeps_ret {A} (a : A) : keeps (mret a).
Proof. by apply does_ret. Qed.
Lemma keeps_bind {A B} (m : sys A) (f : A -> sys B) : keeps m -> (forall a, keeps (f a)) -> keeps (m ≫= f).
Proof. intros Hm Hf. eapply (does_bind _ _ _ (fun _ k _ k' => live k' = live k)); [exact Hm|exact Hf|]. cbn. intros; congruence. Qed.
Lemma keeps_call {A} (f : kernel -> result A * kernel) : (forall k r k', f k = (r, k') -> live k' = live k) -> keeps (call f).
Proof. apply does_call. Qed.
Lemma keeps_if {A} (b : bool) (m1 m2 : sys A) : keeps m1 -> keeps m2 -> keeps (if b then m1 else m2).
Proof. by destruct b. Qed.
Create HintDb keeps.
#[local] Hint Resolve keeps_ret keeps_if : keeps.
#[local] Hint Extern 1 (keeps (call (k_setsockopt _ _ _))) => apply keeps_call, setsockopt_live : keeps.
#[local] Hint Extern 1 (keeps (call (k_getsockopt _ _))) => apply keeps_call, getsockopt_live : keeps.
#[local] Hint Extern 1 (keeps (call (k_nonblock _))) => apply keeps_call, nonblock_live : keeps.
#[local] Hint Extern 1 (keeps (call k_getifaddrs)) => apply keeps_call, getifaddrs_live : keeps.
Ltac keeps := repeat (first [solve [auto 3 with keeps] | apply keeps_bind; [|intros] | apply keeps_if | case_match]).

Lemma setBuffer_keeps fd : keeps (vos_sockSetBuffer fd).
Proof. unfold vos_sockSetBuffer, set_buffer. keeps. Qed.
Lemma setOptions_keeps fd p : keeps (vos_sockSetOptions fd p).
Proof. unfold vos_sockSetOptions, try_option. keeps. Qed.

(** What opening leaves: a new descriptor, or none. *)
Definition opened (k : kernel) (r : VOS_ERR_T * option Z) (k' : kernel) : Prop :=
  match r with
  | (err, Some fd) => err = VOS_NO_ERR /\ 0 <= fd /\ (fd ∉ live k) /\ live k' = ({[fd]} ∪ live k)
  | (err, None) => err <> VOS_NO_ERR /\ live k' = live k
  end.
(** What becomes of a descriptor that was opened: it is returned, or closed again. *)
Definition kept_or_closed (fd : Z) (k : kernel) (r : VOS_ERR_T * option Z) (k' : kernel) : Prop :=
  match r with
  | (err, Some fd') => err = VOS_NO_ERR /\ fd' = fd /\ live k' = live k
  | (err, None) => err <> VOS_NO_ERR /\ live k' = live k ∖ {[fd]}
  end.
Lemma kept_after {A} fd (m : sys A) f : keeps m -> (forall a, does (f a) (kept_or_closed fd)) -> does (m ≫= f) (kept_or_closed fd).
Proof.
  intros Hm Hf. eapply does_bind; [exact Hm|exact Hf|]. cbn. intros k a k1 [err [fd'|]] k2 E1; cbn; by rewrite E1.
Qed.

Lemma rest_kept fd opts : does (A := VOS_ERR_T * option Z) (err ← vos_sockSetOptions fd opts;
          err ← (if bool_decide (err = VOS_NO_ERR) then vos_sockSetBuffer fd else mret err);
          if bool_decide (err = VOS_NO_ERR) then mret (VOS_NO_ERR, Some fd)
          else _ ← call (k_close fd); mret (VOS_SOCK_ERR, None)) (kept_or_closed fd).
Proof.
  apply kept_after; [apply setOptions_keeps|]. intros err. apply kept_after; [apply keeps_if; [apply setBuffer_keeps|apply keeps_ret]|].
  intros err'. case_bool_decide; [by apply does_ret|].
  eapply (does_bind _ _ (fun k _ k' => live k' = live k ∖ {[fd]}) (fun _ k b k' => b = (VOS_SOCK_ERR, None) /\ live k' = live k)).
  - apply does_call. intros k r k' E. exact (close_law _ _ _ _ E).
  - intros u. by apply does_ret.
  - intros k u k1 b k2 Hc [-> Hl]. split; [done|congruence].
Qed.

Lemma open_opens tcp p opts : does (open_socket tcp p opts) opened.
Proof.
  intros o. unfold open_socket. destruct (vosSockInitialised o) eqn:Ei; cbn [negb]; [|by eexists _, o].
  destruct p; cbn [negb]; [|by eexists _, o].
  take_call r k o1 E. pose proof (socket_law _ _ _ _ E) as Hs. subst k. destruct r as [fd|e]; [|by exists (VOS_SOCK_ERR, None), o1; rewrite <- Ei].
  destruct Hs as (Hp & Hn & Hl). destruct (rest_kept fd opts o1) as ([err r] & o2 & E2 & Hi & Hk).
  exists (err, r), o2. split; [exact E2|]. split; [congruence|]. destruct r as [fd'|]; cbn in *.
  - destruct Hk as (-> & -> & Hl2). rewrite Hl2. auto.
  - destruct Hk as (He & Hl2). split; [done|]. rewrite Hl2, Hl. set_solver.
Qed.

(** Opening a socket returns; where it succeeds exactly one descriptor more is open, and where it fails, at whatever
    step, none is left behind. *)
Theorem vos_sockOpen_no_leak (tcp p : bool) opts o : exists (err : VOS_ERR_T) (fd : option Z) (o' : os),
  (if tcp then vos_sockOpenTCP p opts o else vos_sockOpenUDP p opts o) = Finished (err, fd) o' /\ opened (kern o) (err, fd) (kern o').
Proof. destruct (open_opens tcp p opts o) as ([err fd] & o' & E & _ & Ho). exists err, fd, o'. by destruct tcp. Qed.

(** ** Options *)
Lemma try_option_sets b fd o v : (forall k, failed (fst (k_setsockopt fd o v k)) = false) -> o <> SO_SNDBUF -> o <> SO_RCVBUF ->
  does (try_option b fd o v) (fun k _ k' => forall fd' o', opt k' fd' o' = (if b && bool_decide (fd' = fd /\ o' = o) then v else opt k fd' o')).
Proof.
  intros Ha H1 H2. destruct b; cbn [try_option andb]; [|by apply does_ret].
  eapply (does_bind _ _ (fun k _ k' => forall fd' o', opt k' fd' o' = (if bool_decide (fd' = fd /\ o' = o) then v else opt k fd' o')) (fun _ k _ k' => k' = k)).
  - apply does_call. intros k r k' E fd' o'. rewrite (setsockopt_law _ _ _ _ _ _ E H1 H2). specialize (Ha k). rewrite E in Ha. cbn in Ha. by rewrite Ha.
  - intros r. by apply does_ret.
  - cbn. intros k r k1 u k2 Hq ->. exact Hq.
Qed.

(** What the caller asks for, of an option that was [old] before. *)
Definition wanted (p : VOS_SOCK_OPT_T) (o : sockopt) (old : Z) : Z :=
  match o with
  | SO_REUSEPORT => if o_reuseAddrPort p then 1 else old
  | IP_TOS => if (0 <? o_qos p) && (o_qos p <? 8) then (o_qos p <<< 5) ||| 4 else old
  | IP_TTL => if 0 <? o_ttl p then o_ttl p else old
  | IP_MULTICAST_TTL => if 0 <? o_ttl_multicast p then o_ttl_multicast p else old
  | IP_MULTICAST_LOOP => if o_no_mc_loop p then 0 else old
  | SO_NO_CHECK => if o_no_udp_crc p then 1 else old
  | IP_PKTINFO => 1
  | SO_SNDBUF | SO_RCVBUF | IP_MULTICAST_IF => old
  end.

(** Where the kernel accepts what it is asked, every option of the socket is the one that is wanted, the others and
    those of other sockets are as before. *)
Theorem vos_sockSetOptions_applied fd p o :
  (forall x v k, failed (fst (k_setsockopt fd x v k)) = false) -> (o_nonBlocking p = true -> forall k, failed (fst (k_nonblock fd k)) = false) ->
  exists o', vos_sockSetOptions fd (Some p) o = Finished VOS_NO_ERR o'
    /\ forall fd' x, opt (kern o') fd' x = (if bool_decide (fd' = fd) then wanted p x (opt (kern o) fd x) else opt (kern o) fd' x).
Proof.
  intros Ha Hnb. unfold vos_sockSetOptions.
  assert (Hrun : forall {A} b x v (f : unit -> sys A) o1, x <> SO_SNDBUF -> x <> SO_RCVBUF -> exists o2, (try_option b fd x v ≫= f) o1 = f tt o2
    /\ forall fd' x', opt (kern o2) fd' x' = (if b && bool_decide (fd' = fd /\ x' = x) then v else opt (kern o1) fd' x')).
  { intros A b x v f o1 H1 H2. destruct (try_option_sets b fd x v (Ha x v) H1 H2 o1) as ([] & o2 & E & _ & Hq). exists o2. by rewrite (bind_run _ _ _ _ _ E). }
  assert (Hnon : forall {A} (f : result unit -> sys A) o1, exists o2, ((if o_nonBlocking p then call (k_nonblock fd) else mret (Answer tt)) ≫= f) o1 = f (Answer tt) o2
    /\ forall fd' x', opt (kern o2) fd' x' = opt (kern o1) fd' x').
  { intros A f o1. destruct (o_nonBlocking p); [|by exists o1].
    destruct (k_nonblock fd (kern o1)) as [r k] eqn:E. destruct (call_run _ _ _ _ E) as (o2 & Ec & Ek & _). specialize (Hnb eq_refl (kern o1)). rewrite E in Hnb.
    destruct r as [[]|]; [|done]. exists o2. rewrite (bind_run _ _ _ _ _ Ec). split; [done|]. intros fd' x'. subst k. exact (nonblock_law _ _ _ _ E fd' x'). }
  match goal with |- exists o', (?m ≫= ?g) o = _ /\ _ => assert (Hm : exists o', m o = Finished VOS_NO_ERR o'
    /\ forall fd' x, ~ (fd' = fd /\ x = IP_PKTINFO) -> opt (kern o') fd' x = (if bool_decide (fd' = fd) then wanted p x (opt (kern o) fd x) else opt (kern o) fd' x)) end.
  - match goal with |- context [try_option ?b fd SO_REUSEPORT 1 ≫= ?f] => destruct (Hrun _ b SO_REUSEPORT 1 f o) as (o1 & -> & Q1); [done|done|] end. cbv beta.
    match goal with |- context [((if o_nonBlocking p then _ else _) ≫= ?f) o1] => destruct (Hnon _ f o1) as (o2 & -> & Q2) end. cbv beta. cbn [failed].
    repeat match goal with |- context [(try_option ?b fd ?x ?v ≫= ?f) ?o1] =>
      let o2 := fresh "o" in let Q := fresh "Q" in destruct (Hrun _ b x v f o1) as (o2 & -> & Q); [done|done|]; cbv beta end.
    eexists. split; [reflexivity|]. intros fd' x Hx.
    repeat match goal with Q : forall _ _, opt (kern ?a) _ _ = _ |- context [opt (kern ?a) _ _] => rewrite Q end.
    clear -Hx.
    destruct (decide (fd' = fd)) as [->|Hf].
    + rewrite (bool_decide_true (fd = fd)) by done.
      destruct x; cbn [wanted]; try done; try (exfalso; by apply Hx);
        repeat match goal with |- context [bool_decide (fd = fd /\ ?a = ?b)] => first [rewrite (bool_decide_true (fd = fd /\ a = b)) by done
                                                                                  |rewrite (bool_decide_false (fd = fd /\ a = b)) by (by intros [_ ?])] end;
        by rewrite ?andb_true_r, ?andb_false_r.
    + rewrite (bool_decide_false (fd' = fd)) by done. repeat match goal with |- context [bool_decide (fd' = fd /\ ?a)] => rewrite (bool_decide_false (fd' = fd /\ a)) by (by intros [? _]) end.
      by rewrite !andb_false_r.
  - destruct Hm as (o1 & E & Q). rewrite (bind_run _ _ _ _ _ E). cbv beta. rewrite bool_decide_true by done.
    destruct (Hrun _ true IP_PKTINFO 1 (fun _ => mret VOS_NO_ERR) o1) as (o2 & -> & Q2); [done|done|].
    exists o2. split; [done|]. intros fd' x. rewrite Q2. cbn [andb]. case_bool_decide as Hd.
    + destruct Hd as [-> ->]. by rewrite bool_decide_true.
    + by apply Q.
Qed.

(** ** Interfaces *)

(** The entries with an address of the internet protocol. *)
Definition inet (l : list ifaddr) : list (ifaddr * Z) :=
  omap (fun a => match ifa_addr a with Some (family, ip) => if family =? AF_INET then Some (a, ip) else None | None => None end) l.
Definition describes (r : VOS_IF_REC_T) (x : ifaddr * Z) : Prop :=
  ipAddr r = snd x /\ Some (netMask r) = ifa_netmask (fst x) /\ linkState r = negb (ifa_flags (fst x) &&& IFF_RUNNING =? 0)
  /\ forall n, ifa_name (fst x) = Some n -> if_name r = take 15 (n ++ repeat 0 16) ++ [0].

Lemma getMac_keeps n : keeps (vos_getMacAddress n).
Proof.
  intros o. unfold vos_getMacAddress. take_call r k o1 E. pose proof (socket_law _ _ _ _ E) as Hs. subst k.
  destruct r as [fd|e]; [|by eexists _, o1]. destruct Hs as (_ & Hn & Hl).
  take_call h k o2 E2. pose proof (hwaddr_live _ _ _ _ _ E2) as Hs. subst k.
  take_call c k o3 E3. pose proof (close_law _ _ _ _ E3) as Hc. subst k.
  eexists _, o3. split; [reflexivity|]. split; [congruence|]. rewrite Hc, Hs, Hl. set_solver.
Qed.

Lemma fill_spec l : (forall a ip, (a, ip) ∈ inet l -> ifa_netmask a <> None) -> forall arr,
  does (fill_interfaces l arr) (fun k r k' => live k' = live k /\ snd r = drop (length (fst r)) arr
    /\ Forall2 describes (fst r) (take (length arr) (inet l))).
Proof.
  induction l as [|a l IH]; intros Hm arr; cbn [fill_interfaces].
  { apply does_ret. intros k. cbn [inet omap list_omap]. rewrite firstn_nil. by repeat split. }
  assert (Hrest : forall x, inet (a :: l) = x ++ inet l -> forall b ip, (b, ip) ∈ inet l -> ifa_netmask b <> None)
    by (intros x E b ip Hb; apply (Hm b ip); rewrite E; apply elem_of_app; by right).
  destruct arr as [|r arr]; [apply does_ret; intros k; by repeat split|]. unfold inet in *. cbn [omap list_omap] in *.
  destruct (ifa_addr a) as [[family ip]|]; [|by apply (IH (Hrest [] eq_refl))].
  destruct (family =? AF_INET); cbn [negb]; [|by apply (IH (Hrest [] eq_refl))].
  pose proof (Hm a ip ltac:(left)) as Hmask. destruct (ifa_netmask a) as [mask|] eqn:Emask; [|done].
  intros o. destruct (getMac_keeps (cstr (named r (ifa_name a))) o) as (m & o1 & E1 & Hi1 & Hl1). rewrite (bind_run _ _ _ _ _ E1).
  destruct (IH (Hrest [_] eq_refl) arr o1) as ([filled kept] & o2 & E2 & Hi2 & Hl2 & Hk & Hf). rewrite (bind_run _ _ _ _ _ E2). cbn [fst snd] in *.
  eexists _, o2. split; [reflexivity|]. split; [congruence|]. cbn [fst snd length take drop]. split; [congruence|]. split; [done|].
  constructor; [|done]. split; [done|]. split; [done|]. split; [done|]. cbn. intros n ->. done.
Qed.

(** The interfaces with an address are listed in their order, as many as the array holds: the records from the front
    describe them, those behind stay as they were; and no descriptor is left open. *)
Theorem vos_getInterfaces_lists arr l k o : arr <> [] -> k_getifaddrs (kern o) = (Answer l, k) ->
  (forall a ip, (a, ip) ∈ inet l -> ifa_netmask a <> None) ->
  exists filled o', vos_getInterfaces (Some (length arr)) (Some arr) o
      = Finished (VOS_NO_ERR, Some (length filled), Some (filled ++ drop (length filled) arr)) o'
    /\ Forall2 describes filled (take (length arr) (inet l)) /\ live (kern o') = live (kern o).
Proof.
  intros Hn E Hm. destruct arr as [|r arr]; [done|]. unfold vos_getInterfaces. cbn [length].
  destruct (call_run _ _ _ _ E) as (o1 & Ec & Ek & _). rewrite (bind_run _ _ _ _ _ Ec). pose proof (getifaddrs_live _ _ _ E) as Hl. subst k.
  change (S (length arr)) with (length (r :: arr)). rewrite firstn_all, drop_all.
  destruct (fill_spec l Hm (r :: arr) o1) as ([filled kept] & o2 & E2 & _ & Hl2 & Hk & Hf). rewrite (bind_run _ _ _ _ _ E2). cbn [fst snd] in *.
  exists filled, o2. rewrite app_nil_r, Hk. split; [done|]. split; [done|congruence].
Qed.

(** ** What the stack uses *)
Definition as_TRDP (e : VOS_ERR_T) : TRDP_ERR_T :=
  match e with
  | VOS_NO_ERR => TRDP_NO_ERR | VOS_PARAM_ERR => TRDP_PARAM_ERR | VOS_INIT_ERR => TRDP_INIT_ERR | VOS_NOINIT_ERR => TRDP_NOINIT_ERR
  | VOS_TIMEOUT_ERR => TRDP_TIMEOUT_ERR | VOS_NODATA_ERR => TRDP_NODATA_ERR | VOS_SOCK_ERR => TRDP_SOCK_ERR | VOS_IO_ERR => TRDP_IO_ERR
  | VOS_MEM_ERR => TRDP_MEM_ERR | VOS_SEMA_ERR => TRDP_SEMA_ERR | VOS_QUEUE_ERR => TRDP_QUEUE_ERR | VOS_QUEUE_FULL_ERR => TRDP_QUEUE_FULL_ERR
  | VOS_MUTEX_ERR => TRDP_MUTEX_ERR | VOS_THREAD_ERR => TRDP_THREAD_ERR | VOS_BLOCK_ERR => TRDP_BLOCK_ERR
  | VOS_INTEGRATION_ERR => TRDP_INTEGRATION_ERR | VOS_NOCONN_ERR => TRDP_NOCONN_ERR | VOS_UNKNOWN_ERR => TRDP_UNKNOWN_ERR
  end.
Definition outcome_of {A B} (f : A -> B) (stuck : B) (m : sys A) (o : os) : B := match m o with Finished a _ => f a | _ => stuck end.

(** The answers of the socket layer in one state of the process; the descriptor stays -1 where none is written. *)
Definition sock_env_of (now : TRDP_TIME_T) (o : os) : sock_env :=
  let err (m : sys VOS_ERR_T) := outcome_of as_TRDP TRDP_UNKNOWN_ERR m o in
  let fd (m : sys (VOS_ERR_T * option Z)) := outcome_of (fun r => (as_TRDP (fst r), default VOS_INVALID_SOCKET (snd r))) (TRDP_UNKNOWN_ERR, VOS_INVALID_SOCKET) m o in
  mkSockEnv (fun sock mc ip => err (vos_sockJoinMC sock mc ip)) (fun sock ip => err (vos_sockSetMulticastIf sock ip))
    (fun opts => fd (vos_sockOpenUDP true (Some opts))) (fun opts => fd (vos_sockOpenTCP true (Some opts)))
    (fun sock ip port => err (vos_sockBind sock ip port)) (fun sock => err (vos_sockClose sock)) now.

(** The socket layer keeps what the stack expects of it: a successful opening delivers a descriptor. *)
Theorem sock_env_opens_ok now o : opens_ok (sock_env_of now o).
Proof.
  intros opts fd Hopen. assert (Hd : forall tcp, outcome_of (fun r => (as_TRDP (fst r), default VOS_INVALID_SOCKET (snd r))) (TRDP_UNKNOWN_ERR, VOS_INVALID_SOCKET)
    (open_socket tcp true (Some opts)) o = (TRDP_NO_ERR, fd) -> fd <> VOS_INVALID_SOCKET).
  { intros tcp. unfold outcome_of. destruct (open_opens tcp true (Some opts) o) as ([err r] & o' & -> & _ & Ho). intros [= He <-].
    destruct r as [d|]; cbn in *; [unfold VOS_INVALID_SOCKET; lia|]. destruct Ho as [Hne _]. by destruct err. }
  destruct Hopen as [Hopen|Hopen]; [exact (Hd false Hopen)|exact (Hd true Hopen)].
Qed.

(** ** Results that mislead *)

(** Bytes that were received before the connection was reset are in the buffer, but the result says that there are none;
    and after the end of a connection the result depends on why an earlier call, of whatever kind, failed. *)
Theorem vos_sockReceiveTCP_misleads fd size l o k1 k2 : fd <> -1 -> l <> [] -> (length l < size)%nat ->
  k_read fd size (kern o) = (Answer l, k1) -> k_read fd (size - length l) k1 = (Failed ECONNRESET, k2) ->
  (exists o', vos_sockReceiveTCP 2 fd true (Some size) o = Finished (VOS_NODATA_ERR, length l, l) o')
  /\ (forall k3 o', k_read fd size (kern o') = (Answer [], k3) -> exists o3, vos_sockReceiveTCP 1 fd true (Some size) o'
        = Finished (if bool_decide (last_errno o' = EMSGSIZE) then VOS_MEM_ERR else VOS_NODATA_ERR, O, []) o3).
Proof.
  intros Hfd Hl Hs E1 E2. unfold vos_sockReceiveTCP. rewrite (proj2 (Z.eqb_neq _ _) Hfd). cbn [orb negb]. split.
  - destruct (call_run _ _ _ _ E1) as (o1 & Ec1 & Ek1 & _). rewrite <- Ek1 in E2. destruct (call_run _ _ _ _ E2) as (o2 & Ec2 & _).
    exists o2. assert (E : receive_tcp 2 fd size [] o = Finished (VOS_NODATA_ERR, l) o2).
    { cbn [receive_tcp]. rewrite (bind_run _ _ _ _ _ Ec1). destruct l as [|c l]; [done|]. rewrite (proj2 (Nat.ltb_lt _ _)) by lia.
      cbn [app]. by rewrite (bind_run _ _ _ _ _ Ec2). }
    by rewrite (bind_run _ _ _ _ _ E).
  - intros k3 o' E3. unfold call in *. exists (mkOs (last_errno o') (vosSockInitialised o') k3).
    assert (E : receive_tcp 1 fd size [] o' = Finished (if bool_decide (last_errno o' = EMSGSIZE) then VOS_MEM_ERR else VOS_NODATA_ERR, [])
                  (mkOs (last_errno o') (vosSockInitialised o') k3)).
    { cbn [receive_tcp]. unfold call. erewrite bind_run; [|rewrite E3; reflexivity]. reflexivity. }
    by rewrite (bind_run _ _ _ _ _ E).
Qed.
End Spec.

(** ** A kernel *)
Record toy := mkToy {
  t_live : gset Z; t_sent : Z -> list Z; t_taken : Z -> list Z; t_waiting : Z -> list Z; t_posted : Z -> list (list Z * Z * Z);
  t_opt : Z -> sockopt -> Z; t_signals : nat; t_chunk : nat; t_ifs : list ifaddr }.
Definition upd {A} (f : Z -> A) (i : Z) (a : A) : Z -> A := fun j => if j =? i then a else f j.
Definition fewer (k : toy) : toy :=
  mkToy (t_live k) (t_sent k) (t_taken k) (t_waiting k) (t_posted k) (t_opt k) (Nat.pred (t_signals k)) (t_chunk k) (t_ifs k).
(** While signals are left, a call is interrupted. *)
Definition signalled {A} (k : toy) (go : result A * toy) : result A * toy := match t_signals k with O => go | S _ => (Failed EINTR, fewer k) end.
Definition free_fd (live : gset Z) : Z := 1 + foldr Z.max 0 (elements live).
Definition toy_open (k : toy) : Z * toy :=
  let fd := free_fd (t_live k) in
  (fd, mkToy ({[fd]} ∪ t_live k) (t_sent k) (t_taken k) (t_waiting k) (t_posted k) (t_opt k) (t_signals k) (t_chunk k) (t_ifs k)).
Definition toy_close (fd : Z) (k : toy) : toy :=
  mkToy (t_live k ∖ {[fd]}) (t_sent k) (t_taken k) (t_waiting k) (t_posted k) (t_opt k) (t_signals k) (t_chunk k) (t_ifs k).
Definition toy_set (fd : Z) (o : sockopt) (v : Z) (k : toy) : toy :=
  mkToy (t_live k) (t_sent k) (t_taken k) (t_waiting k) (t_posted k)
    (fun fd' o' => if bool_decide (fd' = fd /\ o' = o) then v else t_opt k fd' o') (t_signals k) (t_chunk k) (t_ifs k).
Definition toy_write (fd : Z) (buf : list Z) (k : toy) : result nat * toy :=
  signalled k (let n := Nat.min (S (t_chunk k)) (length buf) in
    (Answer n, mkToy (t_live k) (upd (t_sent k) fd (t_sent k fd ++ take n buf)) (t_taken k) (t_waiting k) (t_posted k) (t_opt k) (t_signals k) (t_chunk k) (t_ifs k))).
Definition toy_read (fd : Z) (n : nat) (k : toy) : result (list Z) * toy :=
  signalled k (let l := take (Nat.min (S (t_chunk k)) n) (t_waiting k fd) in
    match t_waiting k fd with
    | [] => (Failed EWOULDBLOCK, k)
    | _ => (Answer l, mkToy (t_live k) (t_sent k) (upd (t_taken k) fd (t_taken k fd ++ l)) (upd (t_waiting k) fd (drop (length l) (t_waiting k fd)))
                        (t_posted k) (t_opt k) (t_signals k) (t_chunk k) (t_ifs k))
    end).
Definition toy_sendto (fd : Z) (buf : list Z) (ip port : Z) (k : toy) : result nat * toy :=
  signalled k (Answer (length buf), mkToy (t_live k) (t_sent k) (t_taken k) (t_waiting k) (upd (t_posted k) fd (t_posted k fd ++ [(buf, ip, port)]))
    (t_opt k) (t_signals k) (t_chunk k) (t_ifs k)).

#[export] Instance toy_kernel : Kernel := {|
  kernel := toy;
  k_socket _ k := let '(fd, k) := toy_open k in (Answer fd, k);
  k_close fd k := (Answer tt, toy_close fd k);
  k_setsockopt fd o v k := (Answer tt, toy_set fd o v k);
  k_getsockopt fd o k := (Answer (t_opt k fd o), k);
  k_nonblock _ k := (Answer tt, k);
  k_membership _ _ _ _ k := (Answer tt, k);
  k_bind _ _ _ k := (Answer tt, k);
  k_listen _ _ k := (Answer tt, k);
  k_accept _ k := signalled k (let '(fd, k) := toy_open k in (Answer (fd, 1, 2), k));
  k_connect _ _ _ k := (Answer tt, k);
  k_sendto := toy_sendto;
  k_recvmsg _ _ _ k := signalled k (Failed EWOULDBLOCK, k);
  k_write := toy_write;
  k_read := toy_read;
  k_hwaddr _ _ k := (Answer (1, [1; 2; 3; 4; 5; 6]), k);
  k_getifaddrs k := (Answer (t_ifs k), k) |}.

Lemma free_fd_fresh (live : gset Z) : 0 <= free_fd live /\ (free_fd live ∉ live).
Proof.
  assert (Hm : forall l x, x ∈ l -> x <= foldr Z.max 0 l) by (induction 1; cbn; lia).
  assert (H0 : forall l, 0 <= foldr Z.max 0 l) by (induction l; cbn; lia).
  unfold free_fd. split; [specialize (H0 (elements live)); lia|]. intros Hin. apply elem_of_elements in Hin. specialize (Hm _ _ Hin). lia.
Qed.

Lemma signalled_run {A} (k : toy) (go : result A * toy) r k' : signalled k go = (r, k') ->
  (t_signals k = O /\ go = (r, k')) \/ (exists n, t_signals k = S n /\ r = Failed EINTR /\ k' = fewer k).
Proof. unfold signalled. destruct (t_signals k) as [|n]; [by left|]. intros [= <- <-]. right. by exists n. Qed.

#[export] Instance toy_laws : KernelLaws.
Proof.
  refine {| sent := t_sent; taken := t_taken; posted := t_posted; live := t_live; opt := t_opt |}; cbn.
  - intros fd buf k r k' E. apply signalled_run in E as [[Hn E]|(n & Hn & -> & ->)]; [|done].
    injection E as <- <-. cbn [t_sent]. unfold upd. rewrite Z.eqb_refl. split; [exact (Nat.le_min_r (S (t_chunk k)) (length buf))|done].
  - intros fd n k r k' E. apply signalled_run in E as [[Hn E]|(m & Hn & -> & ->)]; [|done].
    destruct (t_waiting k fd) as [|c w] eqn:Ew; [by injection E as <- <-|]. injection E as <- <-. cbn [t_taken]. unfold upd. rewrite Z.eqb_refl.
    split; [|done]. rewrite length_take. etransitivity; [apply Nat.le_min_l|exact (Nat.le_min_r (S (t_chunk k)) n)].
  - intros fd buf ip port k r k' E. apply signalled_run in E as [[Hn E]|(n & Hn & -> & ->)]; [|done].
    injection E as <- <-. cbn. unfold upd. by rewrite Z.eqb_refl.
  - intros fd n peek k r k' E d. apply signalled_run in E as [[Hn E]|(m & Hn & -> & ->)]; [|done]. by injection E as <- <-.
  - intros fd k r k' E. apply signalled_run in E as [[Hn E]|(m & Hn & -> & ->)]; [|done].
    injection E as <- <-. cbn. destruct (free_fd_fresh (t_live k)). auto.
  - intros tcp k r k' [= <- <-]. cbn. destruct (free_fd_fresh (t_live k)). auto.
  - by intros fd k r k' [= <- <-].
  - by intros fd o v k r k' [= <- <-].
  - by intros fd o k r k' [= <- <-].
  - by intros fd k r k' [= <- <-].
  - by intros fd n k r k' [= <- <-].
  - by intros k r k' [= <- <-].
  - by intros fd o v k r k' [= <- <-] _ _ fd' o'.
  - by intros fd k r k' [= <- <-] fd' o'.
Defined.

(** Two signals come, and a connection takes three bytes at a time. *)
Definition toy0 : toy := mkToy {[3]} (fun _ => []) (fun _ => []) (fun _ => [7; 8; 9; 10]) (fun _ => []) (fun _ _ => 0) 2 2
  [mkIfaddr (Some [108; 111]) (Some (2, 0x7f000001)) (Some 0xff000000) 0x41; mkIfaddr None None None 0; mkIfaddr (Some [101]) (Some (2, 0x0a000001)) (Some 0xffffff00) 1].
Definition toy_os : os := mkOs EMSGSIZE true toy0.

Lemma vos_sockSendTCP_stream_witness : exists rs k', writes 3 [1; 2; 3; 4; 5; 6; 7] toy0 rs k' /\ t_sent k' 3 = [1; 2; 3; 4; 5; 6; 7]
  /\ outcome_of Some None (vos_sockSendTCP 20 3 (Some [1; 2; 3; 4; 5; 6; 7]) (Some 7%nat)) toy_os = Some (VOS_NO_ERR, Some 7%nat).
Proof.
  destruct (vos_sockSendTCP_stream 20 3 [1; 2; 3; 4; 5; 6; 7] 7 toy_os) as (rs & k' & Hw & H); [lia|cbn; lia|].
  assert (Hv : outcome_of Some None (vos_sockSendTCP 20 3 (Some [1; 2; 3; 4; 5; 6; 7]) (Some 7%nat)) toy_os = Some (VOS_NO_ERR, Some 7%nat)) by (vm_compute; reflexivity).
  exists rs, k'. split; [exact Hw|]. split; [|exact Hv]. unfold outcome_of in Hv. revert H Hv.
  destruct (vos_sockSendTCP _ _ _ _ _) as [[err n] o'| |]; [|discriminate 2..]. intros H [= -> ->]. destruct H as (_ & _ & Hs & _). exact Hs.
Defined.

(** Signals without end: the rounds run out, all hindered. *)
Example send_hindered : outcome_of Some None (vos_sockSendTCP 20 3 (Some [1; 2; 3]) (Some 3%nat)) (mkOs EMSGSIZE true
  (mkToy (t_live toy0) (t_sent toy0) (t_taken toy0) (t_waiting toy0) (t_posted toy0) (t_opt toy0) 30 2 (t_ifs toy0))) = None.
Proof. vm_compute. reflexivity. Qed.


Lemma vos_sockOpen_no_leak_witness (opts := mkSockOpt 5 64 8 true true false false) : exists err fd o',
  vos_sockOpenUDP true (Some opts) toy_os = Finished (err, fd) o' /\ opened toy0 (err, fd) (kern o').
Proof. exact (vos_sockOpen_no_leak false true (Some opts) toy_os). Defined.

Lemma vos_sockSetOptions_applied_witness (p := mkSockOpt 5 64 8 true true true false) : exists o', vos_sockSetOptions 3 (Some p) toy_os = Finished VOS_NO_ERR o'
  /\ t_opt (kern o') 3 IP_TOS = 164 /\ t_opt (kern o') 3 IP_MULTICAST_TTL = 8 /\ t_opt (kern o') 9 IP_TOS = 0.
Proof.
  destruct (vos_sockSetOptions_applied 3 p toy_os) as (o' & E & Q); [done|done|]. exists o'. split; [exact E|].
  split; [exact (Q 3 IP_TOS)|]. split; [exact (Q 3 IP_MULTICAST_TTL)|exact (Q 9 IP_TOS)].
Defined.

Lemma vos_getInterfaces_lists_witness (r := mkIfRec (repeat 0 16) 0 0 (repeat 0 6) false) : exists filled o',
  vos_getInterfaces (Some 2%nat) (Some [r; r]) toy_os = Finished (VOS_NO_ERR, Some 2%nat, Some filled) o' /\ map ipAddr filled = [0x7f000001; 0x0a000001].
Proof.
  destruct (@vos_getInterfaces_lists toy_kernel toy_laws [r; r] (t_ifs toy0) toy0 toy_os) as (filled & o' & E & Hf & _); [done|done| |].
  - intros a ip Hin. repeat (apply elem_of_cons in Hin as [[= -> ->]|Hin]; [discriminate|]). by apply not_elem_of_nil in Hin.
  - pose proof (Forall2_length Hf) as Hl. cbn in Hl. rewrite Hl in E. cbn [drop] in E. rewrite app_nil_r in E. exists filled, o'. split; [exact E|].
    destruct filled as [|x [|y [|]]]; try done. inversion Hf as [|? ? ? ? [Hx _] Hf2]; subst. inversion Hf2 as [|? ? ? ? [Hy _] _]; subst. cbn in *. by rewrite Hx, Hy.
Defined.
