(* ===== verification/TrdpSockets.v ===== *)
(** * The socket pool counts its users

    The use counts that trdp_requestSocket and trdp_releaseSocket of trdp_utils.c keep are the
    numbers of queue elements that hold an entry of the pool. [counted] states it for any assignment
    [refs] of users to entries; the interface (TrdpIf) instantiates it with its queues. *)
From S2P Require Import Prelude Bytes VosTime TrdpTypes TrdpUtils.

(** An entry is open exactly when it has users, and then counts them; the entries beyond the number
    in use have none. Only datagram sockets are in the pool. *)
Definition counted (ifc : list TRDP_SOCKETS_T) (n : Z) (refs : nat -> Z) : Prop :=
  pool_ok ifc n /\ forall k s, ifc !! k = Some s ->
    (sock s = VOS_INVALID_SOCKET -> refs k = 0)
    /\ (sock s <> VOS_INVALID_SOCKET ->
        sock_type s <> TRDP_SOCK_MD_TCP /\ usage s = refs k /\ 1 <= refs k < 32768 /\ Z.of_nat k < n).

(** One user more, or less, of entry [k]. *)
Definition add_ref (k : nat) (d : Z) (refs : nat -> Z) (j : nat) : Z :=
  if decide (j = k) then refs j + d else refs j.

Lemma counted_ext ifc n refs refs' : (forall k, refs k = refs' k) -> counted ifc n refs -> counted ifc n refs'.
Proof.
  intros He [Hp Hc]. split; [done|]. intros k s Hk. rewrite <- !He. by apply Hc.
Qed.

(** More entries may be in use: other sessions share the counter. *)
Lemma counted_mono ifc n n' refs : n <= n' <= VOS_MAX_SOCKET_CNT -> counted ifc n refs -> counted ifc n' refs.
Proof.
  intros Hn ((Hl & Hb & Hm) & Hc). split; [split_and!; auto; lia|].
  intros k s Hk. destruct (Hc k s Hk) as [H1 H2]. split; [done|]. intros Hv.
  destruct (H2 Hv) as (A & B & C & D). split_and!; auto; lia.
Qed.

Lemma counted_insert ifc n n' refs k s d : counted ifc n refs -> n <= n' <= VOS_MAX_SOCKET_CNT ->
  mc_ok (mcGroups s) ->
  (sock s = VOS_INVALID_SOCKET -> refs k + d = 0) ->
  (sock s <> VOS_INVALID_SOCKET -> sock_type s <> TRDP_SOCK_MD_TCP /\ usage s = refs k + d
     /\ 1 <= refs k + d < 32768 /\ Z.of_nat k < n') ->
  counted (<[k := s]> ifc) n' (add_ref k d refs).
Proof.
  intros Hcnt Hn Hm H1 H2. apply (counted_mono _ _ n') in Hcnt as ((Hl & Hb & Hg) & Hc); [|done]. split.
  - split_and!; [by rewrite length_insert|lia|lia|by apply Forall_insert].
  - intros j t Hj. unfold add_ref. apply list_lookup_insert_Some in Hj as [(<- & <- & _)|[Hne Hj]].
    + rewrite decide_True by done. split; [exact H1|exact H2].
    + rewrite decide_False by done. by apply Hc.
Qed.

Lemma mc_ok_fresh g : mc_ok (snd (trdp_SockAddJoin g (repeat 0 VOS_MAX_MULTICAST_CNT))).
Proof.
  cbn. split; [done|]. intros i j h Hi Hj Hh.
  assert (Hz : forall i, (g :: repeat 0 19) !! i = Some h -> i = 0%nat).
  { intros [|m] Hm; [done|]. cbn in Hm. apply list_elem_of_lookup_2, list_elem_of_In in Hm.
    change [0; 0; 0; 0; 0; 0; 0; 0; 0; 0; 0; 0; 0; 0; 0; 0; 0; 0; 0] with (repeat 0 19) in Hm.
    apply repeat_spec in Hm. done. }
  by rewrite (Hz i Hi), (Hz j Hj).
Qed.

Lemma mc_ok_zero : mc_ok (repeat 0 VOS_MAX_MULTICAST_CNT).
Proof. exact zero_mc_ok. Qed.

(** Opening a datagram socket, also when it fails half way. *)
Lemma open_entry_any env r err s : r_usage r <> TRDP_SOCK_MD_TCP ->
  open_entry env r (fresh_entry r) = (err, s) ->
  mc_ok (mcGroups s) /\ sock_type s = r_usage r /\ 0 <= usage s <= 1.
Proof.
  intros Ht H. unfold open_entry in H.
  assert (Hbind : forall fd err s,
    bind_receiver env r (set_usage 1 (set_sock fd (fresh_entry r))) = (err, s) ->
    mc_ok (mcGroups s) /\ sock_type s = r_usage r /\ 0 <= usage s <= 1).
  { clear. intros fd err s H. unfold bind_receiver in H.
    repeat match type of H with context [if ?b then _ else _] => destruct b end.
    all: injection H as <- <-; cbn; split_and!; try done; try lia.
    all: try apply mc_ok_zero; apply mc_ok_fresh. }
  destruct (r_usage r) eqn:Eu; [| |done].
  all: destruct (vos_sockOpenUDP _ _) as [e fd] eqn:Eo; destruct (is_ok e);
    [|injection H as <- <-; cbn; rewrite Eu; split_and!; [apply mc_ok_zero|done|lia|lia]];
    cbn [negb] in H; destruct (r_rcvMostly r);
    [destruct (bind_receiver _ _ _) as [e2 s3] eqn:Eb; apply Hbind in Eb
    |assert (Eb : mc_ok (mcGroups (set_usage 1 (set_sock fd (fresh_entry r))))
        /\ sock_type (set_usage 1 (set_sock fd (fresh_entry r))) = r_usage r
        /\ 0 <= usage (set_usage 1 (set_sock fd (fresh_entry r))) <= 1)
       by (cbn; split_and!; [apply mc_ok_zero|done|lia|lia])];
    rewrite ?Eu in Eb;
    repeat match type of H with context [if ?b then _ else _] => destruct b end;
    injection H as <- <-; exact Eb.
Qed.

(** Releasing an entry that nobody holds yet closes it. *)
Lemma release_fresh env t s : sock_type s <> TRDP_SOCK_MD_TCP -> 0 <= usage s <= 1 ->
  sock (release_entry env t s) = VOS_INVALID_SOCKET
  /\ mcGroups (release_entry env t s) = mcGroups s.
Proof.
  intros Ht Hu. unfold release_entry. destruct (sock s =? VOS_INVALID_SOCKET) eqn:E; cbn [negb andb].
  - bprop. done.
  - rewrite bool_decide_eq_false_2 by done. cbn [negb andb].
    assert ((usage (dec_usage s) <=? 0) = true) as ->; [|done].
    cbn. apply Z.leb_le. unfold s16. rewrite Z.mod_small; lia.
Qed.

(** A request adds one user to the entry it names, if it succeeds, and none otherwise. *)
Lemma request_counted env r ifc n refs err idx ifc' n' :
  counted ifc n refs -> opens_ok env -> r_useSocket r = VOS_INVALID_SOCKET ->
  r_usage r <> TRDP_SOCK_MD_TCP -> (forall k, refs k < 32767) ->
  trdp_requestSocket env r ifc n = (err, idx, ifc', n') ->
  n <= n' <= VOS_MAX_SOCKET_CNT
  /\ if is_ok err
     then exists k, idx = Some (Z.of_nat k) /\ (k < Z.to_nat VOS_MAX_SOCKET_CNT)%nat
                    /\ counted ifc' n' (add_ref k 1 refs)
     else counted ifc' n' refs.
Proof.
  intros Hcnt Hop Hu Ht Hb H. pose proof Hcnt as ((Hlen & Hmax & Hmc) & Hc). unfold trdp_requestSocket in H.
  pose proof (sock_scan_spec env r (Z.to_nat n) 0 VOS_INVALID_SOCKET ifc Hmc ltac:(lia)) as Hs.
  assert (Hkeep : forall k s s' d m, ifc !! k = Some s -> mc_ok (mcGroups s') -> n <= m <= VOS_MAX_SOCKET_CNT ->
     (sock s' = VOS_INVALID_SOCKET -> refs k + d = 0) ->
     (sock s' <> VOS_INVALID_SOCKET -> sock_type s' <> TRDP_SOCK_MD_TCP /\ usage s' = refs k + d
        /\ 1 <= refs k + d < 32768 /\ Z.of_nat k < m) ->
     counted (<[k := s']> ifc) m (add_ref k d refs)) by (intros; by eapply counted_insert).
  assert (Hzero : forall k m f, counted f m (add_ref k 0 refs) -> counted f m refs).
  { intros k m f. apply counted_ext. intros j. unfold add_ref. case_decide; lia. }
  destruct (sock_scan _ _ _ _ _ _) as [[e k|e] ifc1].
  - injection H as -> <- <- <-. destruct Hs as (i & s & s' & -> & Hi & Hl & -> & Hv & Hne & Hty & Hm & Hus & _).
    apply lookup_lt_Some in Hl as Hlt. destruct (Hc i s Hl) as [_ Hlive].
    destruct (Hlive Hne) as (H1 & H2 & H3 & H4). specialize (Hb i). split; [lia|].
    destruct (is_ok err) eqn:Eerr.
    + exists i. split_and!; [done|lia|]. eapply Hkeep; [done|done|lia|congruence|]. intros _.
      rewrite Hty, Hus, H2. split_and!; [done| |lia|lia|lia]. unfold s16. rewrite Z.mod_small; lia.
    + apply (Hzero i). eapply Hkeep; [done|done|lia|congruence|]. intros _.
      rewrite Hty, Hus, H2. split_and!; [done|lia|lia|lia|lia].
  - destruct Hs as [-> He]. destruct (n <? VOS_MAX_SOCKET_CNT) eqn:Em; bprop.
    2: { injection H as <- <- <- <-. cbn. split; [lia|done]. }
    cbv zeta in H. rewrite Hu in H. rewrite (Z.eqb_refl VOS_INVALID_SOCKET) in H. cbn [negb] in H.
    set (reuse := negb (e =? VOS_INVALID_SOCKET) && negb (n =? e)) in *.
    set (li := if reuse then e else n) in *. set (m := if reuse then n else n + 1) in *.
    assert (Hli : exists k s, li = Z.of_nat k /\ ifc !! k = Some s /\ sock s = VOS_INVALID_SOCKET
                              /\ n <= m <= VOS_MAX_SOCKET_CNT /\ Z.of_nat k < m).
    { unfold li, m. destruct reuse eqn:Er.
      - unfold reuse in Er. bprop. destruct He as [->|(k & s & -> & Hk & Hs & Hinv)]; [done|].
        exists k, s. split_and!; auto; lia.
      - destruct (lookup_lt_is_Some_2 ifc (Z.to_nat n) ltac:(lia)) as [s Hs].
        exists (Z.to_nat n), s. split_and!; [lia|done| |lia|lia|lia].
        destruct (Z.eq_dec (sock s) VOS_INVALID_SOCKET) as [|Hlive]; [done|].
        destruct (Hc _ _ Hs) as [_ Hl]. destruct (Hl Hlive) as (_ & _ & _ & Hx). lia. }
    destruct Hli as (k & s0 & -> & Hs0 & Hinv & Hm & Hkm). apply lookup_lt_Some in Hs0 as Hlt.
    destruct (Hc k s0 Hs0) as [Href _]. specialize (Href Hinv).
    destruct (open_entry env r (fresh_entry r)) as [err' s1] eqn:Eo.
    destruct (open_entry_any env r err' s1 Ht Eo) as (O1 & O2 & O3). rewrite Nat2Z.id in H.
    destruct (is_ok err') eqn:Eok; injection H as <- <- <- <-; rewrite Eok; (split; [lia|]).
    + apply is_ok_true in Eok. subst err'. destruct (open_entry_spec env r s1 Hop Eo) as (Hsu & Hus & _).
      exists k. split_and!; [done|lia|]. eapply Hkeep; [done|done|lia| |].
      * intros Hx. unfold sock_suits in Hsu. by rewrite Hx in Hsu.
      * intros _. rewrite O2. split_and!; [done|lia|lia|lia|lia].
    + unfold trdp_releaseSocket. rewrite (proj2 (Z.ltb_ge (Z.of_nat k) 0)) by lia.
      rewrite Nat2Z.id. destruct (release_fresh env 0 s1) as [R1 R2]; [by rewrite O2|done|].
      assert (alter (release_entry env 0) k (<[k:=s1]> ifc) = <[k := release_entry env 0 s1]> ifc) as ->.
      { apply list_eq. intros j. destruct (decide (k = j)) as [<-|Hne].
        - by rewrite list_lookup_alter_eq, !list_lookup_insert_eq.
        - by rewrite list_lookup_alter_ne, !list_lookup_insert_ne. }
      apply (Hzero k). eapply Hkeep; [done|by rewrite R2|lia|intros; lia|congruence].
Qed.

(** A release takes one user from the entry. *)
Lemma release_counted env t ifc n refs k :
  counted ifc n refs -> 1 <= refs k -> (k < Z.to_nat VOS_MAX_SOCKET_CNT)%nat ->
  counted (trdp_releaseSocket env ifc (Z.of_nat k) t false) n (add_ref k (-1) refs).
Proof.
  intros Hcnt Hr Hk. pose proof Hcnt as ((Hlen & Hmax & Hmc) & Hc).
  destruct (lookup_lt_is_Some_2 ifc k ltac:(lia)) as [s Hs]. destruct (Hc k s Hs) as [H1 H2].
  assert (Hlive : sock s <> VOS_INVALID_SOCKET) by (intros Hx; specialize (H1 Hx); lia).
  destruct (H2 Hlive) as (A & B & C & D). unfold trdp_releaseSocket.
  rewrite (proj2 (Z.ltb_ge (Z.of_nat k) 0)) by lia. rewrite Nat2Z.id.
  assert (alter (release_entry env t) k ifc = <[k := release_entry env t s]> ifc) as ->.
  { apply list_eq. intros j. destruct (decide (k = j)) as [<-|Hne].
    - rewrite list_lookup_alter_eq, Hs, list_lookup_insert_eq by lia. done.
    - by rewrite list_lookup_alter_ne, list_lookup_insert_ne. }
  assert (Hu : usage (dec_usage s) = usage s - 1).
  { cbn. unfold s16. rewrite Z.mod_small; lia. }
  unfold release_entry. apply Z.eqb_neq in Hlive as Hl2. rewrite Hl2, bool_decide_eq_false_2 by done.
  cbn [negb andb]. rewrite Hu. rewrite Forall_lookup in Hmc.
  destruct (usage s - 1 <=? 0) eqn:E; bprop; (eapply counted_insert; [done|lia|by apply (Hmc k s)|..]); cbn.
  - intros _. lia.
  - done.
  - intros Hx. done.
  - intros _. rewrite B in *. split_and!; [done| |lia|lia|lia]. unfold s16. rewrite Z.mod_small; lia.
Qed.

(** ** Users that are queue elements *)

(** The number of times entry [k] occurs in a list of socket indices. *)
Definition refs_in (l : list Z) (k : nat) : Z := Z.of_nat (length (filter (fun i => i = Z.of_nat k) l)).

Lemma refs_in_perm l l' : l ≡ₚ l' -> forall k, refs_in l k = refs_in l' k.
Proof. intros Hp k. unfold refs_in. by rewrite Hp. Qed.

Lemma refs_in_cons i l k : refs_in (i :: l) k = (if decide (i = Z.of_nat k) then 1 else 0) + refs_in l k.
Proof. unfold refs_in. rewrite filter_cons. case_decide; cbn [length]; lia. Qed.

Lemma refs_in_le l k : 0 <= refs_in l k <= Z.of_nat (length l).
Proof. unfold refs_in. pose proof (length_filter (fun i => i = Z.of_nat k) l). lia. Qed.

Lemma refs_in_add l k j : refs_in (Z.of_nat k :: l) j = add_ref k 1 (refs_in l) j.
Proof. rewrite refs_in_cons. unfold add_ref. repeat case_decide; lia. Qed.

(** The pool and the indices its users hold. *)
Definition used (ifc : list TRDP_SOCKETS_T) (n : Z) (l : list Z) : Prop :=
  counted ifc n (refs_in l) /\ Forall (fun i => 0 <= i < VOS_MAX_SOCKET_CNT) l.

Lemma used_perm ifc n l l' : l ≡ₚ l' -> used ifc n l -> used ifc n l'.
Proof.
  intros Hp [H1 H2]. split; [|by rewrite <- Hp]. eapply counted_ext; [|exact H1]. by apply refs_in_perm.
Qed.

Lemma used_mono ifc n n' l : n <= n' <= VOS_MAX_SOCKET_CNT -> used ifc n l -> used ifc n' l.
Proof. intros Hn [H1 H2]. split; [by eapply counted_mono|done]. Qed.

Lemma used_request env r ifc n l err idx ifc' n' :
  used ifc n l -> opens_ok env -> r_useSocket r = VOS_INVALID_SOCKET ->
  r_usage r <> TRDP_SOCK_MD_TCP -> Z.of_nat (length l) < 32767 ->
  trdp_requestSocket env r ifc n = (err, idx, ifc', n') ->
  n <= n' <= VOS_MAX_SOCKET_CNT
  /\ if is_ok err then exists i, idx = Some i /\ used ifc' n' (i :: l) else used ifc' n' l.
Proof.
  intros [Hc Hf] Hop Hu Ht Hlen H.
  destruct (request_counted env r ifc n (refs_in l) err idx ifc' n' Hc Hop Hu Ht) as [Hn Hr]; [|done|].
  { intros k. pose proof (refs_in_le l k). lia. }
  split; [done|]. destruct (is_ok err).
  - destruct Hr as (k & -> & Hk & Hc'). exists (Z.of_nat k). split; [done|]. split.
    + eapply counted_ext; [|exact Hc']. intros j. by rewrite refs_in_add.
    + constructor; [lia|done].
  - by split.
Qed.

Lemma used_release env t ifc n i l : used ifc n (i :: l) ->
  used (trdp_releaseSocket env ifc i t false) n l.
Proof.
  intros [Hc Hf]. apply list.Forall_cons in Hf as [Hi Hf]. split; [|done].
  replace i with (Z.of_nat (Z.to_nat i)) in Hc |- * by lia.
  eapply counted_ext; [|eapply release_counted; [exact Hc| |lia]].
  - intros j. unfold add_ref. rewrite refs_in_cons. repeat case_decide; lia.
  - rewrite refs_in_cons, decide_True by lia. pose proof (refs_in_le l (Z.to_nat i)). lia.
Qed.

(** What the counts say: an entry is open exactly when an element holds it, and counts them. *)
Lemma used_open ifc n l k s : used ifc n l -> ifc !! k = Some s ->
  (sock s <> VOS_INVALID_SOCKET <-> Z.of_nat k ∈ l)
  /\ (sock s <> VOS_INVALID_SOCKET -> usage s = refs_in l k).
Proof.
  intros [[_ Hc] _] Hk. destruct (Hc k s Hk) as [H1 H2].
  assert (Hin : Z.of_nat k ∈ l <-> refs_in l k <> 0).
  { unfold refs_in. split.
    - intros Hx. assert (Z.of_nat k ∈ filter (fun i => i = Z.of_nat k) l) as Hy by by apply list_elem_of_filter.
      destruct (filter _ l); [by apply elem_of_nil in Hy|cbn; lia].
    - intros Hx. destruct (filter _ l) as [|i l'] eqn:E; [done|].
      assert (Hy : i ∈ filter (fun i => i = Z.of_nat k) l) by (rewrite E; left).
      apply list_elem_of_filter in Hy as [-> Hy]. done. }
  rewrite Hin. split; [|intros Hs; apply (H2 Hs)]. split.
  - intros Hs. destruct (H2 Hs) as (_ & _ & Hx & _). lia.
  - intros Hx Hs. by apply Hx, H1.
Qed.

(** ** Closing a pool: as many releases as there are users, or more, close every entry *)
Definition due (ifc : list TRDP_SOCKETS_T) (l : list Z) : Prop := forall k s, ifc !! k = Some s ->
  sock s = VOS_INVALID_SOCKET
  \/ (sock_type s <> TRDP_SOCK_MD_TCP /\ 1 <= usage s < 32768 /\ usage s <= refs_in l k).

Lemma due_release env t ifc i l : 0 <= i -> due ifc (i :: l) -> due (trdp_releaseSocket env ifc i t false) l.
Proof.
  intros Hi Hd. unfold trdp_releaseSocket. rewrite (proj2 (Z.ltb_ge i 0)) by lia. intros k s Hk.
  destruct (decide (k = Z.to_nat i)) as [->|Hne].
  - rewrite list_lookup_alter_eq in Hk. destruct (ifc !! Z.to_nat i) as [x|] eqn:Ex; [|done].
    injection Hk as <-. destruct (Hd _ _ Ex) as [H|(Ht & Hu & Hr)]; unfold release_entry.
    { left. by rewrite H. }
    rewrite refs_in_cons, Z2Nat.id, decide_True in Hr by done.
    destruct (sock x =? VOS_INVALID_SOCKET) eqn:E; bprop; [by left|].
    rewrite bool_decide_eq_false_2 by done. cbn [negb andb].
    assert (Hx : usage (dec_usage x) = usage x - 1) by (cbn; unfold s16; rewrite Z.mod_small; lia).
    rewrite Hx. destruct (usage x - 1 <=? 0) eqn:E2; bprop; [by left|right]. rewrite Hx. split_and!; [done|lia..].
  - rewrite list_lookup_alter_ne in Hk by done. destruct (Hd _ _ Hk) as [H|(Ht & Hu & Hr)]; [by left|right].
    rewrite refs_in_cons, decide_False in Hr by lia. auto.
Qed.

Lemma due_release_all env t ls : forall ifc l, Forall (fun i => 0 <= i) ls -> due ifc (ls ++ l) ->
  due (fold_left (fun ifc i => trdp_releaseSocket env ifc i t false) ls ifc) l.
Proof.
  induction ls as [|i ls IH]; intros ifc l Hf Hd; [done|]. apply list.Forall_cons in Hf as [Hi Hf].
  cbn [fold_left]. apply IH; [done|]. by apply due_release.
Qed.

Lemma used_due ifc n l l' : used ifc n l -> (forall k, refs_in l k <= refs_in l' k) -> due ifc l'.
Proof.
  intros [[_ Hc] _] Hle k s Hk. destruct (Hc k s Hk) as [H1 H2].
  destruct (decide (sock s = VOS_INVALID_SOCKET)) as [E|E]; [by left|right].
  destruct (H2 E) as (A & B & C & _). specialize (Hle k). split_and!; [done|lia..].
Qed.
