(* ===== verification/TrdpPd.v ===== *)
(** * Process data communication

    Models src/app/trdp/tcnopen/trdp_pdcom.c on the session, queue elements and frames of
    TrdpTypes. A frame is the packed PD_HEADER_T (40 bytes, network order) followed by the data;
    the [off_*] are the offsets of its fields. Arguments stand for the environment: the clock, the
    socket calls, the allocator's answers, the marshalling callbacks, and the statistics data that
    trdp_stats.c fills in. A user callback is an event in the result. *)
From S2P Require Import Prelude Bytes VosTime VosCrc TrdpTypes TrdpUtils.

Definition off_sequenceCounter : nat := 0.
Definition off_protocolVersion : nat := 4.
Definition off_msgType : nat := 6.
Definition off_comId : nat := 8.
Definition off_etbTopoCnt : nat := 12.
Definition off_opTrnTopoCnt : nat := 16.
Definition off_datasetLength : nat := 20.
Definition off_reserved : nat := 24.
Definition off_replyComId : nat := 28.
Definition off_replyIpAddress : nat := 32.
Definition off_frameCheckSum : nat := 36.
Definition off_data : nat := 40.

Definition on_frame (f : list Z -> list Z) (e : PD_ELE_T) : PD_ELE_T := set_pFrame (f (pFrame e)) e.
Definition is_null (l : list Z) : bool := match l with [] => true | _ => false end.

(** The data of an element's frame, [n] bytes of it. *)
Definition frame_data (n : Z) (f : list Z) : list Z := bget off_data (Z.to_nat n) f.

(** ** Header *)
Definition trdp_pdInit (type_ etb opTrn replyComId replyIpAddress : Z) (pPacket : option PD_ELE_T)
  : option PD_ELE_T :=
  match pPacket with
  | None => None
  | Some e =>
      if is_null (pFrame e) then Some e
      else Some (on_frame (fun f =>
        put32 off_replyIpAddress replyIpAddress (put32 off_replyComId replyComId
          (put32 off_reserved 0 (put32 off_datasetLength (dataSize e)
            (put16 off_msgType (u16 type_) (put32 off_comId (a_comId e)
              (put32 off_opTrnTopoCnt opTrn (put32 off_etbTopoCnt etb
                (put16 off_protocolVersion TRDP_PROTO_VER f))))))))) e)
  end.

(** The CRC over the header without its last field, stored little endian. *)
Definition header_crc (f : list Z) : Z :=
  vos_crc32 INITFCS (take (Z.to_nat (sizeof_PD_HEADER_T - SIZE_OF_FCS)) f).

Definition trdp_pdUpdate (e : PD_ELE_T) : PD_ELE_T :=
  let e1 := if get16 off_msgType (pFrame e) =? TRDP_MSG_PP
            then let e0 := set_curSeqCnt4Pull (u32 (curSeqCnt4Pull e + 1)) e in
                 on_frame (put32 off_sequenceCounter (curSeqCnt4Pull e0)) e0
            else let e0 := set_curSeqCnt (u32 (curSeqCnt e + 1)) e in
                 on_frame (put32 off_sequenceCounter (curSeqCnt e0)) e0 in
  on_frame (fun f => put32le off_frameCheckSum (header_crc f) f) e1.

Definition trdp_pdCheck (f : list Z) (packetSize : Z) : TRDP_ERR_T :=
  if (packetSize <? TRDP_MIN_PD_HEADER_SIZE) || (packetSize >? TRDP_MAX_PD_PACKET_SIZE) then TRDP_WIRE_ERR
  else if negb (get32le off_frameCheckSum f =? header_crc f) then TRDP_CRC_ERR
  else if negb ((get16 off_protocolVersion f &&& TRDP_PROTOCOL_VERSION_CHECK_MASK)
                =? (TRDP_PROTO_VER &&& TRDP_PROTOCOL_VERSION_CHECK_MASK))
          || (get32 off_datasetLength f >? TRDP_MAX_PD_DATA_SIZE) then TRDP_WIRE_ERR
  else if negb (get16 off_msgType f =? TRDP_MSG_PD) && negb (get16 off_msgType f =? TRDP_MSG_PP)
          && negb (get16 off_msgType f =? TRDP_MSG_PR) && negb (get16 off_msgType f =? TRDP_MSG_PE)
       then TRDP_WIRE_ERR
  else TRDP_NO_ERR.

(** ** Data of a packet *)

Definition data_valid (e : PD_ELE_T) : PD_ELE_T :=
  set_updPkts (u32 (updPkts e + 1)) (set_privFlags (clear_flag (privFlags e) TRDP_INVALID_DATA) e).

(** The larger buffer for data that comes late, the header copied. *)
Definition enlarge (n : Z) (e : PD_ELE_T) : PD_ELE_T :=
  on_frame (fun f => put32 off_datasetLength n
              (bput 0 (take (Z.to_nat (trdp_packetSizePD 0)) f) (repeat 0 (Z.to_nat (grossSize e))))) e.

Definition trdp_pdPut (alloc_ok : bool) (marshall : option TRDP_MARSHALL_T)
    (pData : option (list Z)) (n : Z) (pPacket : option PD_ELE_T) : TRDP_ERR_T * option PD_ELE_T :=
  match pPacket with
  | None => (TRDP_PARAM_ERR, None)
  | Some e =>
      if (dataSize e =? 0) && (n =? 0) then (TRDP_NO_ERR, Some (data_valid e))
      else match pData with
      | Some d =>
        if n =? 0 then (TRDP_NO_ERR, Some e)
        else
          let e1 := set_grossSize (trdp_packetSizePD n) (set_dataSize n e) in
          if (dataSize e =? 0) && negb alloc_ok then (TRDP_MEM_ERR, Some e1)
          else
            let e2 := if dataSize e =? 0 then enlarge n e1 else e in
            match (if flag (pktFlags e2) TRDP_FLAGS_MARSHALL then marshall else None) with
            | None =>
                if n >? TRDP_MAX_PD_DATA_SIZE then (TRDP_PARAM_ERR, Some e2)
                else (TRDP_NO_ERR, Some (data_valid (on_frame (bput off_data (take (Z.to_nat n) d)) e2)))
            | Some m =>
                let '(ret, bs, n') := m (a_comId e2) d n n in
                let e3 := on_frame (bput off_data bs) e2 in
                if n' >? TRDP_MAX_PD_DATA_SIZE then (TRDP_PARAM_ERR, Some e3)
                else
                  let e4 := on_frame (put32 off_datasetLength n')
                              (set_grossSize (trdp_packetSizePD n') (set_dataSize n' e3)) in
                  (ret, Some (if is_ok ret then data_valid e4 else e4))
            end
      | None => (TRDP_NO_ERR, Some e)
      end
  end.

(** Result, the bytes delivered and the size, where [pData] and [pDataSize] (the room) are given. *)
Definition trdp_pdGet (unmarshall : option TRDP_MARSHALL_T) (room : option Z) (pPacket : option PD_ELE_T)
  : TRDP_ERR_T * list Z * option Z * option PD_ELE_T :=
  match pPacket with
  | None => (TRDP_PARAM_ERR, [], room, None)
  | Some e =>
      let e := set_getPkts (u32 (getPkts e + 1)) e in
      if flag (privFlags e) TRDP_INVALID_DATA then (TRDP_NODATA_ERR, [], room, Some e)
      else if flag (privFlags e) TRDP_TIMED_OUT then (TRDP_TIMEOUT_ERR, [], room, Some e)
      else match room with
      | None => (TRDP_NO_ERR, [], None, Some e)
      | Some n =>
          match (if flag (pktFlags e) TRDP_FLAGS_MARSHALL then unmarshall else None) with
          | None => if n >=? dataSize e
                    then (TRDP_NO_ERR, frame_data (dataSize e) (pFrame e), Some (dataSize e), Some e)
                    else (TRDP_PARAM_ERR, [], room, Some e)
          | Some m =>
              let '(ret, bs, n') := m (a_comId e) (drop off_data (pFrame e))
                                      (get32 off_datasetLength (pFrame e)) n in
              (ret, bs, Some n', Some e)
          end
      end
  end.

(** ** Sending *)

(** The environment of a call: the clock at its [n]-th reading, the result of a transmission and
    the number of bytes sent, and the socket layer. *)
Record pd_env := mkPdEnv {
  pd_clock : nat -> TRDP_TIME_T;
  vos_sockSendUDP : nat -> Z -> list Z -> Z -> Z -> bool * Z;
  pd_sock_env : sock_env }.

(** What the call does to the world: frames given to a socket, callbacks to the application. *)
Inductive pd_event :=
| Sent (sock : Z) (frame : list Z) (ip port : Z)
| Callback (f : Z) (comId srcIp destIp etb opTrn msgType seqCount protVersion replyComId replyIp
             userRef : Z) (resultCode : TRDP_ERR_T) (data : list Z) (size : Z).

Definition trdp_pdSend (env : pd_env) (k : nat) (pdSock : Z) (e : PD_ELE_T) (port : Z)
  : TRDP_ERR_T * PD_ELE_T * pd_event :=
  let destIp := if negb (pullIpAddress e =? 0) then pullIpAddress e else destIpAddr (addr e) in
  let e1 := set_pullIpAddress 0 e in
  let frame := take (Z.to_nat (grossSize e)) (pFrame e) in
  let '(ok, sent) := vos_sockSendUDP env k pdSock frame destIp port in
  let e2 := set_sendSize sent e1 in
  (if negb ok then TRDP_IO_ERR else if negb (sent =? grossSize e2) then TRDP_IO_ERR else TRDP_NO_ERR,
   e2, Sent pdSock frame destIp port).

Definition is_pull (e : PD_ELE_T) (msg : Z) : bool :=
  flag (privFlags e) TRDP_REQ_2B_SENT && (get16 off_msgType (pFrame e) =? msg).

Definition pd_due (now : TRDP_TIME_T) (e : PD_ELE_T) : bool :=
  (timerisset (interval e) && negb (timer_gt (timeToGo e) now)) || flag (privFlags e) TRDP_REQ_2B_SENT.

(** Sending one due element: the last error, the element, the packets sent, the events. *)
Definition pd_transmit (env : pd_env) (k : nat) (s : TRDP_SESSION_T) (ifc : list TRDP_SOCKETS_T)
    (err : TRDP_ERR_T) (e : PD_ELE_T) : TRDP_ERR_T * PD_ELE_T * Z * list pd_event :=
  if flag (privFlags e) TRDP_INVALID_DATA then (err, e, 0, [])
  else
    let e1 := if is_pull e TRDP_MSG_PD then on_frame (put16 off_msgType TRDP_MSG_PP) e else e in
    let e2 := trdp_pdUpdate e1 in
    if negb (trdp_validTopoCounters (s_etbTopoCnt s) (s_opTrnTopoCnt s)
               (get32 off_etbTopoCnt (pFrame e2)) (get32 off_opTrnTopoCnt (pFrame e2)))
    then (TRDP_TOPO_ERR, e2, 0, [])
    else if socketIdx e2 =? TRDP_INVALID_SOCKET_INDEX then (err, e2, 0, [])
    else if flag (privFlags e2) TRDP_REDUNDANT then (err, e2, 0, [])
    else
      let sk := match ifc !! Z.to_nat (socketIdx e2) with Some x => sock x | None => -1 end in
      let '(r, e3, ev) := trdp_pdSend env k sk e2 (pd_port (pdDefault s)) in
      if is_ok r then (err, set_numRxTx (u32 (numRxTx e3 + 1)) e3, 1, [ev]) else (r, e3, 0, [ev]).

(** The next send time: one interval later; if that is past, one interval from now, rounded down
    to a multiple of 10 ms. *)
Definition next_send_time (now : TRDP_TIME_T) (e : PD_ELE_T) : TRDP_TIME_T :=
  let t := addTime (timeToGo e) (interval e) in
  if cmpTime t now <=? 0
  then let t' := addTime now (interval e) in mkTime (tv_sec t') (tv_usec t' - Z.rem (tv_usec t') 10000)
  else t.

Definition pd_reschedule (now : TRDP_TIME_T) (e : PD_ELE_T) : PD_ELE_T :=
  let e1 := if is_pull e TRDP_MSG_PP then on_frame (put16 off_msgType TRDP_MSG_PD) e
            else if timerisset (interval e) then set_timeToGo (next_send_time now e) e else e in
  set_privFlags (clear_flag (privFlags e1) TRDP_REQ_2B_SENT) e1.

(** The loop over the queue, [k] counting the elements visited: last error, queue, socket pool,
    packets sent, events. A one shot request ([TRDP_MSG_PR]) is removed. *)
Fixpoint send_loop (env : pd_env) (s : TRDP_SESSION_T) (k : nat) (q : list PD_ELE_T)
    (ifc : list TRDP_SOCKETS_T) (err : TRDP_ERR_T)
  : TRDP_ERR_T * list PD_ELE_T * list TRDP_SOCKETS_T * Z * list pd_event :=
  match q with
  | [] => (err, [], ifc, 0, [])
  | e :: q' =>
      let now := pd_clock env k in
      if pd_due now e then
        let '(err1, e1, sent, evs) := pd_transmit env k s ifc err e in
        let e2 := pd_reschedule now e1 in
        if get16 off_msgType (pFrame e2) =? TRDP_MSG_PR then
          let ifc1 := trdp_releaseSocket (pd_sock_env env) ifc (socketIdx e2) 0 false in
          let '(err2, q2, ifc2, sent2, evs2) := send_loop env s (S k) q' ifc1 err1 in
          (err2, q2, ifc2, sent + sent2, evs ++ evs2)
        else
          let '(err2, q2, ifc2, sent2, evs2) := send_loop env s (S k) q' ifc err1 in
          (err2, e2 :: q2, ifc2, sent + sent2, evs ++ evs2)
      else
        let '(err2, q2, ifc2, sent2, evs2) := send_loop env s (S k) q' ifc err in
        (err2, e :: q2, ifc2, sent2, evs2)
  end.

Definition trdp_pdSendQueued (env : pd_env) (s : TRDP_SESSION_T)
  : TRDP_ERR_T * TRDP_SESSION_T * list pd_event :=
  let s0 := set_nextJob timerclear s in
  let '(err, q, ifc, sent, evs) := send_loop env s0 0 (pSndQueue s0) (iface s0) TRDP_NO_ERR in
  (err,
   set_pd_stats (set_numSend (u32 (numSend (pd_stats s0) + sent)) (pd_stats s0))
     (set_iface ifc (set_pSndQueue q s0)), evs).

(** ** Receiving *)

(** What [vos_sockReceiveUDP] delivers. *)
Record rx_result := mkRx { rx_err : TRDP_ERR_T; rx_bytes : list Z; rx_src : Z; rx_dst : Z }.

(** The arguments of one call of [trdp_pdReceive]: the environment, the time at which a packet is
    accepted, the allocator's answers and the statistics data of trdp_stats.c. *)
Record rcv_env := mkRcvEnv {
  rcv_pd_env : pd_env; rcv_now : TRDP_TIME_T; rcv_alloc : bool; rcv_grow : bool;
  rcv_stats : TRDP_SESSION_T -> list Z }.

Definition trdp_pdPrepareStats (body : list Z) (e : PD_ELE_T) : PD_ELE_T :=
  set_privFlags (clear_flag (privFlags e) TRDP_INVALID_DATA)
    (set_dataSize (Z.of_nat (length body)) (on_frame (bput off_data body) e)).

Definition bump (get : TRDP_PD_STATISTICS_T -> Z) (set : Z -> TRDP_PD_STATISTICS_T -> TRDP_PD_STATISTICS_T)
    (s : TRDP_SESSION_T) : TRDP_SESSION_T :=
  set_pd_stats (set (u32 (get (pd_stats s) + 1)) (pd_stats s)) s.

(** A pull request ([TRDP_MSG_PR]): the publisher is marked and the queue is sent; whether the
    application is informed. *)
Definition pull_request (env : rcv_env) (src : Z) (f : list Z) (s : TRDP_SESSION_T)
  : bool * TRDP_SESSION_T * list pd_event :=
  let cid := get32 off_comId f in
  let stats := cid =? TRDP_STATISTICS_PULL_COMID in
  let want := if stats then TRDP_GLOBAL_STATISTICS_COMID
              else if get32 off_replyComId f =? 0 then cid else get32 off_replyComId f in
  match trdp_queueFindComId (pSndQueue s) want with
  | None => (false, s, [])
  | Some pulled =>
      let p := ele_ptr pulled in
      let prepare e :=
        if stats then
          let e1 := set_addr (set_destIpAddr (get32 off_replyIpAddress f)
                               (set_comId TRDP_GLOBAL_STATISTICS_COMID (addr e))) e in
          let e2 := default e1 (trdp_pdInit TRDP_MSG_PP (s_etbTopoCnt s) (s_opTrnTopoCnt s) 0 0 (Some e1)) in
          trdp_pdPrepareStats (rcv_stats env s) e2
        else e in
      let mark e :=
        let e1 := set_pullIpAddress (if negb (get32 off_replyIpAddress f =? 0)
                                     then get32 off_replyIpAddress f else src) (prepare e) in
        set_privFlags (set_flag (privFlags e1) TRDP_REQ_2B_SENT) e1 in
      let s1 := set_pSndQueue (update_ele p mark (pSndQueue s)) s in
      let '(_, s2, evs) := trdp_pdSendQueued (rcv_pd_env env) s1 in
      (true, s2, evs)
  end.

(** The number of missed packets between the counters [cur] and [new]. *)
Definition missed (cur new : Z) (e : PD_ELE_T) : PD_ELE_T :=
  if (new >? 0) && (new >? u32 (cur + 1)) then set_numMissed (u32 (numMissed e + (new - cur - 1))) e
  else if cur >? new then set_numMissed (u32 (numMissed e + (4294967295 - cur + new))) e
  else e.

(** Whether the application is to be told of a packet it subscribed with a callback. *)
Definition data_changed (e : PD_ELE_T) (newFrame : list Z) : bool :=
  flag (pktFlags e) TRDP_FLAGS_CALLBACK
  && (flag (pktFlags e) TRDP_FLAGS_FORCE_CB || flag (privFlags e) TRDP_TIMED_OUT
      || negb (bool_decide (frame_data (dataSize e) newFrame = frame_data (dataSize e) (pFrame e)))).

(** An accepted packet is stored: the element (which takes the new frame), and the notification. *)
Definition accept_packet (now : TRDP_TIME_T) (newFrame : list Z) (e : PD_ELE_T) : PD_ELE_T * bool :=
  let new := get32 off_sequenceCounter newFrame in
  let e1 := set_curSeqCnt new (missed (curSeqCnt e) new e) in
  let n := get32 off_datasetLength newFrame in
  let e2 := set_grossSize (trdp_packetSizePD n) (set_dataSize n e1) in
  let inform := data_changed e2 newFrame in
  let e3 := set_timeToGo (addTime now (interval e2)) e2 in
  let e4 := set_lastErr TRDP_NO_ERR (set_numRxTx (u32 (numRxTx e3 + 1)) e3) in
  let e5 := set_privFlags (clear_flag (clear_flag (privFlags e4) TRDP_TIMED_OUT) TRDP_INVALID_DATA) e4 in
  (set_pFrame newFrame e5, inform).

Definition pd_callback (dst : Z) (err : TRDP_ERR_T) (e : PD_ELE_T) : list pd_event :=
  match pfCbFunction e with
  | Some cb =>
      if flag (pktFlags e) TRDP_FLAGS_CALLBACK then
        let f := pFrame e in
        let n := get32 off_datasetLength f in
        [Callback cb (a_comId e) (lastSrcIP e) dst (get32 off_etbTopoCnt f) (get32 off_opTrnTopoCnt f)
           (get16 off_msgType f) (curSeqCnt e) (get16 off_protocolVersion f) (get32 off_replyComId f)
           (get32 off_replyIpAddress f) (pUserRef e) err (frame_data n f) n]
      else []
  | None => []
  end.

(** The part of [trdp_pdReceive] after the header check: [f] is the received frame, which lies in
    [pNewFrame]. The debugging array [seqcnt], which is only written, is left out. *)
Definition pd_dispatch (env : rcv_env) (src dst : Z) (s : TRDP_SESSION_T)
  : TRDP_ERR_T * TRDP_SESSION_T * list pd_event :=
  let f := pNewFrame s in
  if negb (trdp_validTopoCounters (s_etbTopoCnt s) (s_opTrnTopoCnt s)
             (get32 off_etbTopoCnt f) (get32 off_opTrnTopoCnt f))
  then (TRDP_TOPO_ERR, bump numTopoErr set_numTopoErr s, [])
  else
    let sub := mkAddr (get32 off_comId f) src dst 0 (get32 off_etbTopoCnt f) (get32 off_opTrnTopoCnt f) in
    let '(inform, s1, evs) :=
      if get16 off_msgType f =? TRDP_MSG_PR then pull_request env src f s else (false, s, []) in
    match trdp_queueFindSubAddr (pRcvQueue s1) (Some sub) with
    | None => (TRDP_NOSUB_ERR, s1, evs)
    | Some e =>
        let p := ele_ptr e in
        if ((etbTopoCnt sub =? 0) && (opTrnTopoCnt sub =? 0))
           || trdp_validTopoCounters (etbTopoCnt sub) (opTrnTopoCnt sub)
                (etbTopoCnt (addr e)) (opTrnTopoCnt (addr e)) then
          let new := get32 off_sequenceCounter f in
          let msg := get16 off_msgType f in
          let e1 := set_addr (set_destIpAddr dst (addr e)) (set_lastSrcIP src e) in
          let e2 := if new =? 0 then default e1 (trdp_resetSequenceCounter (Some e1) src msg) else e1 in
          let '(r, e3) := trdp_checkSequenceCounter (rcv_alloc env) (rcv_grow env) (Some e2) new src msg in
          let e3 := default e2 e3 in
          let put e' s' := set_pRcvQueue (update_ele p (fun _ => e') (pRcvQueue s')) s' in
          if r =? -1 then (TRDP_MEM_ERR, put e3 s1, evs)
          else if r =? 1 then (TRDP_NO_ERR, put e3 s1, evs)
          else
            let '(e4, changed) := accept_packet (rcv_now env) f e3 in
            (TRDP_NO_ERR, set_pNewFrame (pFrame e3) (put e4 s1),
             evs ++ if inform || changed then pd_callback dst TRDP_NO_ERR e4 else [])
        else
          let e1 := set_lastErr TRDP_TOPO_ERR e in
          (TRDP_TOPO_ERR,
           set_pRcvQueue (update_ele p (fun _ => e1) (pRcvQueue s1)) (bump numTopoErr set_numTopoErr s1),
           evs ++ pd_callback dst TRDP_TOPO_ERR e1)
    end.

Definition trdp_pdReceive (env : rcv_env) (rx : rx_result) (s : TRDP_SESSION_T)
  : TRDP_ERR_T * TRDP_SESSION_T * list pd_event :=
  if negb (is_ok (rx_err rx)) then (rx_err rx, s, [])
  else
    let s0 := set_pNewFrame (bput 0 (rx_bytes rx) (pNewFrame s)) s in
    match trdp_pdCheck (pNewFrame s0) (Z.of_nat (length (rx_bytes rx))) with
    | TRDP_NO_ERR => pd_dispatch env (rx_src rx) (rx_dst rx) (bump numRcv set_numRcv s0)
    | TRDP_CRC_ERR => (TRDP_CRC_ERR, bump numCrcErr set_numCrcErr s0, [])
    | TRDP_WIRE_ERR => (TRDP_WIRE_ERR, bump numProtErr set_numProtErr s0, [])
    | err => (err, s0, [])
    end.

(** ** Timeouts *)
Definition pd_late (now : TRDP_TIME_T) (e : PD_ELE_T) : bool :=
  timerisset (interval e) && timerisset (timeToGo e) && negb (timer_gt (timeToGo e) now)
  && negb (flag (privFlags e) TRDP_TIMED_OUT) && negb (a_comId e =? TRDP_STATISTICS_PULL_COMID).

Definition timeout_callback (e : PD_ELE_T) : list pd_event :=
  match pfCbFunction e with
  | None => []
  | Some cb =>
      let f := pFrame e in
      [Callback cb (a_comId e) (srcIpAddr (addr e)) (destIpAddr (addr e)) (get32 off_etbTopoCnt f)
         (get32 off_opTrnTopoCnt f) (get16 off_msgType f) (get32 off_sequenceCounter f)
         (get16 off_protocolVersion f) (get32 off_replyComId f) (get32 off_replyIpAddress f)
         (pUserRef e) TRDP_TIMEOUT_ERR (if is_null f then [] else frame_data (dataSize e) f) (dataSize e)]
  end.

Definition pd_timeout_ele (e : PD_ELE_T) : PD_ELE_T :=
  set_privFlags (set_flag (privFlags e) TRDP_TIMED_OUT) (set_lastErr TRDP_TIMEOUT_ERR e).

Fixpoint timeout_loop (now : TRDP_TIME_T) (q : list PD_ELE_T) : list PD_ELE_T * Z * list pd_event :=
  match q with
  | [] => ([], 0, [])
  | e :: q' =>
      let '(q2, n, evs) := timeout_loop now q' in
      if pd_late now e
      then (pd_timeout_ele e :: q2, n + 1, timeout_callback (set_lastErr TRDP_TIMEOUT_ERR e) ++ evs)
      else (e :: q2, n, evs)
  end.

Definition trdp_pdHandleTimeOuts (now : TRDP_TIME_T) (s : TRDP_SESSION_T)
  : TRDP_SESSION_T * list pd_event :=
  let '(q, n, evs) := timeout_loop now (pRcvQueue s) in
  (set_pd_stats (set_numTimeout (u32 (numTimeout (pd_stats s) + n)) (pd_stats s)) (set_pRcvQueue q s), evs).

(** ** The next job and the descriptors to wait for *)
Definition earlier (t next : TRDP_TIME_T) : bool := timer_lt t next || negb (timerisset next).

Definition next_rcv (next : TRDP_TIME_T) (e : PD_ELE_T) : TRDP_TIME_T :=
  if negb (flag (privFlags e) TRDP_TIMED_OUT) && timerisset (interval e) && earlier (timeToGo e) next
  then timeToGo e else next.

Definition next_snd (next : TRDP_TIME_T) (e : PD_ELE_T) : TRDP_TIME_T :=
  if timerisset (interval e) && earlier (timeToGo e) next then timeToGo e else next.

(** The descriptor set and the highest descriptor. *)
Definition add_fd (ifc : list TRDP_SOCKETS_T) (fds : gset Z * Z) (e : PD_ELE_T) : gset Z * Z :=
  match (if socketIdx e =? -1 then None else ifc !! Z.to_nat (socketIdx e)) with
  | Some s => if negb (sock s =? -1) && negb (bool_decide (sock s ∈ fst fds))
              then ({[sock s]} ∪ fst fds, if sock s >? snd fds then sock s else snd fds) else fds
  | None => fds
  end.

Definition trdp_pdCheckPending (s : TRDP_SESSION_T) (fds : gset Z * Z) : TRDP_SESSION_T * (gset Z * Z) :=
  let next1 := fold_left next_rcv (pRcvQueue s) timerclear in
  let next2 := fold_left next_snd (pSndQueue s) next1 in
  (set_nextJob next2 s, fold_left (add_fd (iface s)) (pRcvQueue s) fds).

(** ** Distribution of the send times *)
Definition not_pull (e : PD_ELE_T) : bool :=
  negb (tv_sec (interval e) =? 0) || negb (tv_usec (interval e) =? 0).

(** The smallest interval, the time to start from, and the number of cyclic packets. *)
Definition dist_step (acc : TRDP_TIME_T * TRDP_TIME_T * Z) (e : PD_ELE_T) : TRDP_TIME_T * TRDP_TIME_T * Z :=
  let '(deltaTmax, tNull, n) := acc in
  if not_pull e then
    (if cmpTime deltaTmax (interval e) >? 0 then interval e else deltaTmax,
     if cmpTime tNull (timeToGo e) <? 0 then timeToGo e else tNull, u32 (n + 1))
  else acc.

Fixpoint dist_loop (deltaTmax tNull : TRDP_TIME_T) (noOfPackets i : Z) (q : list PD_ELE_T) : list PD_ELE_T :=
  match q with
  | [] => []
  | e :: q' =>
      if i <? noOfPackets then
        if not_pull e then
          let temp := on_time (fun t => vos_mulTime t i) deltaTmax in
          let next := addTime tNull temp in
          let temp2 := on_time (fun t => vos_mulTime t 2) temp in
          (if cmpTime temp2 (interval e) >? 0 then e else set_timeToGo next e)
            :: dist_loop deltaTmax tNull noOfPackets (i + 1) q'
        else e :: dist_loop deltaTmax tNull noOfPackets i q'
      else q
  end.

Definition trdp_pdDistribute (q : list PD_ELE_T) : TRDP_ERR_T * list PD_ELE_T :=
  match q with
  | [] => (TRDP_PARAM_ERR, [])
  | [_] => (TRDP_NO_ERR, q)
  | _ =>
      let '(deltaTmax, tNull, n) := fold_left dist_step q (mkTime 1000 0, zero_time, 0) in
      if (cmpTime deltaTmax zero_time =? 0) || (n =? 0) then (TRDP_NO_ERR, q)
      else (TRDP_NO_ERR, dist_loop (on_time (fun t => vos_divTime t n) deltaTmax) tNull n 0 q)
  end.

(** One socket's queue of datagrams; receiving from it when it is empty gives [empty_err]. *)
Fixpoint receive_all (env : rcv_env) (empty_err : TRDP_ERR_T) (nonBlocking : bool)
    (rxs : list rx_result) (s : TRDP_SESSION_T)
  : TRDP_ERR_T * list rx_result * TRDP_SESSION_T * list pd_event :=
  match rxs with
  | [] => (empty_err, [], s, [])
  | rx :: rxs' =>
      let '(err, s1, evs) := trdp_pdReceive env rx s in
      if is_ok err && nonBlocking then
        let '(err2, rxs2, s2, evs2) := receive_all env empty_err nonBlocking rxs' s1 in
        (err2, rxs2, s2, evs ++ evs2)
      else (err, rxs', s1, evs)
  end.

(** The loop over the subscriptions' sockets (their indices [idxs]); [rxs] are the datagrams
    waiting at each descriptor, [fds] the descriptors that are ready. *)
Fixpoint listen_loop (env : rcv_env) (empty_err : TRDP_ERR_T) (nonBlocking : bool) (idxs : list Z)
    (rxs : Z -> list rx_result) (fds : gset Z) (count : Z) (result : TRDP_ERR_T) (s : TRDP_SESSION_T)
  : TRDP_ERR_T * TRDP_SESSION_T * gset Z * Z * list pd_event :=
  match idxs with
  | [] => (result, s, fds, count, [])
  | i :: idxs' =>
      match (if i =? -1 then None else iface s !! Z.to_nat i) with
      | Some sk =>
          if bool_decide (sock sk ∈ fds) then
            let '(err, rest, s1, evs) := receive_all env empty_err nonBlocking (rxs (sock sk)) s in
            let rxs1 d := if d =? sock sk then rest else rxs d in
            let result1 := if is_ok err then result else err in
            let '(r, s2, fds2, c2, evs2) :=
              listen_loop env empty_err nonBlocking idxs' rxs1
                (match iface s1 !! Z.to_nat i with Some sk1 => fds ∖ {[sock sk1]} | None => fds end)
                (count - 1) result1 s1 in
            (r, s2, fds2, c2, evs ++ evs2)
          else listen_loop env empty_err nonBlocking idxs' rxs fds count result s
      | None => listen_loop env empty_err nonBlocking idxs' rxs fds count result s
      end
  end.

Definition trdp_pdCheckListenSocks (env : rcv_env) (empty_err : TRDP_ERR_T) (rxs : Z -> list rx_result)
    (pRfds : option (gset Z)) (pCount : option Z) (s : TRDP_SESSION_T)
  : TRDP_ERR_T * TRDP_SESSION_T * option (gset Z) * option Z * list pd_event :=
  match pRfds, pCount with
  | Some fds, Some count =>
      if count >? 0 then
        let '(r, s1, fds1, c1, evs) :=
          listen_loop env empty_err (negb (flag (option_ s) TRDP_OPTION_BLOCK))
            (map socketIdx (pRcvQueue s)) rxs fds count TRDP_NO_ERR s in
        (r, s1, Some fds1, Some c1, evs)
      else (TRDP_NO_ERR, s, pRfds, pCount, [])
  | _, _ => (TRDP_NO_ERR, s, pRfds, pCount, [])
  end.

(** * Properties *)

(** ** Headers *)
Definition msg_ok (m : Z) : Prop :=
  m = TRDP_MSG_PD \/ m = TRDP_MSG_PP \/ m = TRDP_MSG_PR \/ m = TRDP_MSG_PE.

(** A frame whose header has been initialised. *)
Definition frame_ok (f : list Z) : Prop :=
  bytes f /\ (40 <= length f)%nat /\ get16 off_protocolVersion f = TRDP_PROTO_VER
  /\ msg_ok (get16 off_msgType f) /\ get32 off_datasetLength f <= TRDP_MAX_PD_DATA_SIZE.

Lemma header_crc_put32le v f : header_crc (put32le off_frameCheckSum v f) = header_crc f.
Proof.
  unfold header_crc. f_equal.
  change (take (Z.to_nat (sizeof_PD_HEADER_T - SIZE_OF_FCS))) with (bget 0 36).
  unfold put32le. by rewrite bget_bput_other by (rewrite length_rev, be_bytes_length; unfold off_frameCheckSum; lia).
Qed.

Lemma header_crc_range f : bytes f -> 0 <= header_crc f < 2 ^ 32.
Proof.
  intros H. apply vos_crc32_range; [unfold INITFCS; lia|]. by apply Forall_take.
Qed.

(** The sequence number [trdp_pdUpdate] writes. *)
Definition next_seq (e : PD_ELE_T) : Z :=
  if get16 off_msgType (pFrame e) =? TRDP_MSG_PP then u32 (curSeqCnt4Pull e + 1) else u32 (curSeqCnt e + 1).

Lemma pdUpdate_frame e :
  pFrame (trdp_pdUpdate e)
  = let f := put32 off_sequenceCounter (next_seq e) (pFrame e) in put32le off_frameCheckSum (header_crc f) f.
Proof. unfold trdp_pdUpdate, next_seq. by destruct (get16 _ _ =? _). Qed.

Ltac off_lia := cbn [off_sequenceCounter off_protocolVersion off_msgType off_comId off_etbTopoCnt
  off_opTrnTopoCnt off_datasetLength off_reserved off_replyComId off_replyIpAddress off_frameCheckSum
  off_data]; unfold off_sequenceCounter, off_protocolVersion, off_msgType, off_comId, off_etbTopoCnt,
  off_opTrnTopoCnt, off_datasetLength, off_reserved, off_replyComId, off_replyIpAddress,
  off_frameCheckSum, off_data in *; lia.

(** Reads of other fields through a write of the header. *)
Ltac field_other := repeat first
  [ rewrite bget_bput_other by (rewrite ?length_rev, ?be_bytes_length; off_lia) ].

Lemma update_reads off n e : (4 <= off)%nat -> (off + n <= 36 \/ 40 <= off)%nat ->
  bget off n (pFrame (trdp_pdUpdate e)) = bget off n (pFrame e).
Proof.
  intros H1 H2. rewrite pdUpdate_frame. cbv zeta. unfold put32le, put32. field_other. done.
Qed.

Lemma update_length e : length (pFrame (trdp_pdUpdate e)) = length (pFrame e).
Proof. rewrite pdUpdate_frame. cbv zeta. by rewrite put32le_length, put32_length. Qed.

Lemma update_bytes e : bytes (pFrame e) -> bytes (pFrame (trdp_pdUpdate e)).
Proof. intros H. rewrite pdUpdate_frame. cbv zeta. auto with cint. Qed.

Lemma update_seq e : (40 <= length (pFrame e))%nat ->
  get32 off_sequenceCounter (pFrame (trdp_pdUpdate e)) = next_seq e.
Proof.
  intros H. rewrite pdUpdate_frame. cbv zeta. unfold get32, put32le. field_other.
  change (be_value (bget off_sequenceCounter 4 ?x)) with (get32 off_sequenceCounter x).
  rewrite get32_put32 by off_lia. unfold next_seq. destruct (_ =? _); apply u32_idemp.
Qed.

Lemma pdUpdate_check e n : frame_ok (pFrame e) -> 40 <= n <= TRDP_MAX_PD_PACKET_SIZE ->
  trdp_pdCheck (pFrame (trdp_pdUpdate e)) n = TRDP_NO_ERR.
Proof.
  intros (Hb & Hl & Hv & Hm & Hd) Hn. unfold trdp_pdCheck.
  unfold TRDP_MIN_PD_HEADER_SIZE, sizeof_PD_HEADER_T.
  assert (E1 : get32le off_frameCheckSum (pFrame (trdp_pdUpdate e)) = header_crc (pFrame (trdp_pdUpdate e))).
  { rewrite pdUpdate_frame. cbv zeta. rewrite header_crc_put32le.
    rewrite get32le_put32le by (rewrite put32_length; off_lia).
    apply u32_small, header_crc_range. auto with cint. }
  assert (E2 : forall off, (4 <= off)%nat -> (off + 2 <= 36)%nat ->
               get16 off (pFrame (trdp_pdUpdate e)) = get16 off (pFrame e)).
  { intros off H1 H2. unfold get16. rewrite update_reads; auto; lia. }
  assert (E3 : get32 off_datasetLength (pFrame (trdp_pdUpdate e)) = get32 off_datasetLength (pFrame e)).
  { unfold get32. rewrite update_reads; auto; off_lia. }
  destruct (_ || _) eqn:E; [apply orb_true_iff in E as [E|E]; bprop; lia|].
  rewrite E1, Z.eqb_refl, E3, !E2 by off_lia. cbn [negb]. rewrite Hv, Z.eqb_refl. cbn [negb orb].
  assert ((get32 off_datasetLength (pFrame e) >? TRDP_MAX_PD_DATA_SIZE) = false) as ->
    by (rewrite Z.gtb_ltb; apply Z.ltb_ge; lia).
  destruct Hm as [-> |[-> |[-> | ->]]]; reflexivity.
Qed.

(** A corrupted byte in the checked part of the header. *)
Lemma crc_detects f i b b' : bytes f -> byte b' -> (i < 36)%nat -> f !! i = Some b -> b <> b' ->
  header_crc (<[i := b']> f) <> header_crc f.
Proof.
  intros Hf Hb' Hi Hl Hne. unfold header_crc.
  change (Z.to_nat (sizeof_PD_HEADER_T - SIZE_OF_FCS)) with 36%nat.
  rewrite take_insert_lt by lia.
  assert (Ht : take 36 f !! i = Some b) by by rewrite lookup_take_lt.
  pose proof (take_drop_middle _ _ _ Ht) as E. rewrite <- E.
  apply lookup_lt_Some in Ht as Hlt.
  rewrite insert_app_r_alt by (rewrite length_take; lia).
  rewrite length_take, Nat.min_l by lia. rewrite Nat.sub_diag. cbn [insert list_insert].
  apply not_eq_sym. apply vos_crc32_detects_byte_error; auto.
  - unfold INITFCS. lia.
  - rewrite E. by apply Forall_take.
Qed.

(** C1: every packet a publisher sends out of [trdp_pdUpdate] passes [trdp_pdCheck] at the receiver,
    carries the next sequence number, and keeps its other fields and data; corrupting any one byte
    of the 36 checked header bytes makes the receiver report TRDP_CRC_ERR. *)
Theorem trdp_pdUpdate_protects e n i b :
  frame_ok (pFrame e) -> 40 <= n <= TRDP_MAX_PD_PACKET_SIZE ->
  let f := pFrame (trdp_pdUpdate e) in
  trdp_pdCheck f n = TRDP_NO_ERR
  /\ get32 off_sequenceCounter f = next_seq e
  /\ (forall off k, (4 <= off)%nat -> (off + k <= 36 \/ 40 <= off)%nat ->
        bget off k f = bget off k (pFrame e))
  /\ ((i < 36)%nat -> byte b -> f !! i <> Some b -> trdp_pdCheck (<[i := b]> f) n = TRDP_CRC_ERR).
Proof.
  intros Hf Hn f. assert (Hc : trdp_pdCheck f n = TRDP_NO_ERR) by by apply pdUpdate_check.
  destruct Hf as (Hb & Hl & _). assert (Hb' : bytes f) by by apply update_bytes.
  split; [done|]. split; [by apply update_seq|]. split; [intros; by apply update_reads|].
  intros Hi Hbb Hne. assert (Hlf : length f = length (pFrame e)) by apply update_length.
  destruct (lookup_lt_is_Some_2 f i ltac:(lia)) as [x Hx].
  assert (Hcrc : header_crc (<[i := b]> f) <> header_crc f) by (apply crc_detects with x; congruence).
  assert (Eg : get32le off_frameCheckSum (<[i:=b]> f) = get32le off_frameCheckSum f).
  { unfold get32le, bget. by rewrite drop_insert_lt by off_lia. }
  unfold trdp_pdCheck in *. rewrite Eg. destruct (_ || _) eqn:E0 in |- *; rewrite E0 in Hc; [discriminate Hc|].
  destruct (negb (get32le off_frameCheckSum f =? header_crc f)) eqn:E1 in Hc; [discriminate Hc|].
  bprop. rewrite E1. apply not_eq_sym, Z.eqb_neq in Hcrc. by rewrite Hcrc.
Qed.

(** A publisher of comId 1000 with four data bytes. *)
Definition example_pub : PD_ELE_T :=
  default (zero_ele 1) (trdp_pdInit TRDP_MSG_PD 0 0 0 0
    (Some (set_pFrame (repeat 0 44) (set_grossSize 44 (set_dataSize 4
             (set_addr (mkAddr 1000 0x0a000001 0x0a000002 0 0 0) (zero_ele 1))))))).

Lemma bytes_dec l : forallb (fun x => (0 <=? x) && (x <? 256)) l = true -> bytes l.
Proof.
  rewrite forallb_forall. intros H. apply Forall_forall. intros x Hx. apply H in Hx.
  unfold byte. bprop. lia.
Qed.

(** [frame_ok] of a concrete frame of a [TRDP_MSG_PD], by evaluation. *)
Ltac frame_ok_eval :=
  split; [apply bytes_dec; vm_compute; reflexivity|];
  split; [apply Nat.leb_le; vm_compute; reflexivity|]; split; [vm_compute; reflexivity|];
  split; [left; vm_compute; reflexivity|apply Z.leb_le; vm_compute; reflexivity].

Lemma example_pub_ok : frame_ok (pFrame example_pub).
Proof. frame_ok_eval. Qed.

Lemma trdp_pdUpdate_protects_witness :
  trdp_pdCheck (pFrame (trdp_pdUpdate example_pub)) 44 = TRDP_NO_ERR
  /\ trdp_pdCheck (<[9%nat := 77]> (pFrame (trdp_pdUpdate example_pub))) 44 = TRDP_CRC_ERR.
Proof.
  destruct (trdp_pdUpdate_protects example_pub 44 9 77 example_pub_ok) as (H1 & _ & _ & H2);
    [unfold TRDP_MAX_PD_PACKET_SIZE, TRDP_MAX_PD_DATA_SIZE, TRDP_MIN_PD_HEADER_SIZE,
       sizeof_PD_HEADER_T; lia|].
  split; [exact H1|]. apply H2; [lia|unfold byte; lia|vm_compute; discriminate].
Defined.

(** ** Send times *)

(** A time at which additions do not leave the range of [time_ok]. *)
Definition time_small (t : TRDP_TIME_T) : Prop :=
  0 <= tv_sec t < 2 ^ 41 /\ 0 <= tv_usec t < 1000000.

Lemma time_small_ok t : time_small t -> time_ok t.
Proof. unfold time_small, time_ok. lia. Qed.

Lemma addTime_ok a b : time_small a -> time_small b -> time_ok (addTime a b).
Proof.
  intros Ha Hb. pose proof (addTime_us a b (time_small_ok _ Ha) (time_small_ok _ Hb)) as E.
  pose proof (addTime_norm a b (time_small_ok _ Ha) (time_small_ok _ Hb)) as N.
  unfold to_us, time_small, time_ok in *. lia.
Qed.

(** After a cyclic packet has become due and been handled, its next send time lies after the
    current time and at most one interval ahead, and it is a valid time; so it is not due again
    before that time. (A pulled reply keeps its schedule.) *)
Theorem pd_reschedule_advances now e :
  time_small now -> time_small (timeToGo e) -> time_small (interval e) ->
  TRDP_TIMER_GRANULARITY <= to_us (interval e) -> is_pull e TRDP_MSG_PP = false ->
  to_us (timeToGo e) <= to_us now ->
  let e' := pd_reschedule now e in
  to_us now < to_us (timeToGo e') <= to_us now + to_us (interval e)
  /\ time_ok (timeToGo e')
  /\ (forall later, time_ok later -> pd_due later e' = true -> to_us (timeToGo e') <= to_us later).
Proof.
  intros Hn Ht Hi Hg Hp Hdue e'. unfold TRDP_TIMER_GRANULARITY in Hg.
  assert (Hset : timerisset (interval e) = true).
  { unfold timerisset, truthy. apply orb_true_iff. rewrite !negb_true_iff, !Z.eqb_neq.
    unfold to_us, time_small in *. lia. }
  assert (E : timeToGo e' = next_send_time now e).
  { unfold e', pd_reschedule. rewrite Hp, Hset. done. }
  assert (Hnext : to_us now < to_us (next_send_time now e) <= to_us now + to_us (interval e)
                  /\ time_ok (next_send_time now e)).
  { unfold next_send_time. pose proof (addTime_ok _ _ Ht Hi) as H1. pose proof (addTime_ok _ _ Hn Hi) as H2.
    pose proof (addTime_us _ _ (time_small_ok _ Ht) (time_small_ok _ Hi)) as U1.
    pose proof (addTime_us _ _ (time_small_ok _ Hn) (time_small_ok _ Hi)) as U2.
    pose proof (cmpTime_spec (addTime (timeToGo e) (interval e)) now H1 (time_small_ok _ Hn)) as C.
    destruct (_ <=? 0) eqn:Ec; bprop.
    - unfold to_us, time_ok in *. cbn [tv_sec tv_usec].
      rewrite Z.rem_mod_nonneg by lia. dlia.
    - split; [|done]. lia. }
  rewrite E. destruct Hnext as [H1 H2]. split; [done|]. split; [done|].
  intros later Hl Hd. unfold pd_due in Hd. rewrite E in Hd.
  assert (Hflag : flag (privFlags e') TRDP_REQ_2B_SENT = false).
  { unfold e', pd_reschedule, flag, clear_flag, not8. cbn [privFlags set_privFlags].
    rewrite <- Z.land_assoc. change ((TRDP_REQ_2B_SENT ^^^ (2 ^ 8 - 1)) &&& TRDP_REQ_2B_SENT) with 0.
    by rewrite Z.land_0_r. }
  rewrite Hflag, orb_false_r in Hd. apply andb_prop in Hd as [_ Hd]. bprop.
  rewrite timer_gt_spec in Hd by done. bprop. lia.
Qed.

Lemma pd_reschedule_advances_witness :
  let e := set_timeToGo (mkTime 99 0) (set_interval (mkTime 0 30000) example_pub) in
  to_us (timeToGo (pd_reschedule (mkTime 100 5000) e)) = 100030000
  /\ to_us (mkTime 100 5000) < to_us (timeToGo (pd_reschedule (mkTime 100 5000) e)).
Proof.
  cbv zeta. set (e := set_timeToGo (mkTime 99 0) (set_interval (mkTime 0 30000) example_pub)).
  split; [vm_compute; reflexivity|].
  apply (pd_reschedule_advances (mkTime 100 5000) e);
    [unfold time_small; cbn; lia|unfold time_small; cbn; lia|unfold time_small; cbn; lia
    |apply Z.leb_le; vm_compute; reflexivity|vm_compute; reflexivity|apply Z.leb_le; vm_compute; reflexivity].
Defined.

(** ** The frames that are sent *)

(** What publishing establishes for an element of the send queue. *)
Definition ele_ok (e : PD_ELE_T) : Prop :=
  frame_ok (pFrame e) /\ 40 <= grossSize e <= TRDP_MAX_PD_PACKET_SIZE
  /\ grossSize e <= Z.of_nat (length (pFrame e)).

Lemma bget_take off k n f : (off + k <= n)%nat -> bget off k (take n f) = bget off k f.
Proof.
  intros H. apply list_eq. intros i. rewrite !lookup_bget. destruct (Nat.ltb_spec i k); [|done].
  rewrite lookup_take_lt by lia. done.
Qed.

Lemma pdCheck_take f n m : (40 <= n)%nat -> trdp_pdCheck (take n f) m = trdp_pdCheck f m.
Proof.
  intros Hn. unfold trdp_pdCheck, get32le, get32, get16. rewrite !bget_take by off_lia.
  unfold header_crc. change (Z.to_nat (sizeof_PD_HEADER_T - SIZE_OF_FCS)) with 36%nat.
  by rewrite take_take, Nat.min_l by lia.
Qed.

(** Setting the message type of an initialised frame. *)
Lemma put_msgType_ok m f : msg_ok m -> frame_ok f -> frame_ok (put16 off_msgType m f).
Proof.
  intros Hm (Hb & Hl & Hv & _ & Hd). split; [auto with cint|]. rewrite put16_length.
  split; [done|]. unfold get16, get32, put16 in *.
  rewrite (bget_bput_other off_protocolVersion), (bget_bput_other off_datasetLength)
    by (rewrite be_bytes_length; off_lia).
  split; [done|]. split; [|done].
  change (be_value (bget off_msgType 2 (bput off_msgType (be_bytes 2 m) f)))
    with (get16 off_msgType (put16 off_msgType m f)).
  rewrite get16_put16 by off_lia. rewrite u16_small; [done|].
  destruct Hm as [-> |[-> |[-> | ->]]]; unfold TRDP_MSG_PD, TRDP_MSG_PP, TRDP_MSG_PR, TRDP_MSG_PE; lia.
Qed.

Lemma update_frame_ok e : frame_ok (pFrame e) -> frame_ok (pFrame (trdp_pdUpdate e)).
Proof.
  intros (Hb & Hl & Hv & Hm & Hd). split; [by apply update_bytes|]. rewrite update_length.
  unfold get16, get32 in *. rewrite !update_reads by off_lia. auto.
Qed.

Lemma update_sizes e : grossSize (trdp_pdUpdate e) = grossSize e
  /\ privFlags (trdp_pdUpdate e) = privFlags e /\ dataSize (trdp_pdUpdate e) = dataSize e
  /\ addr (trdp_pdUpdate e) = addr e /\ pullIpAddress (trdp_pdUpdate e) = pullIpAddress e
  /\ socketIdx (trdp_pdUpdate e) = socketIdx e.
Proof. unfold trdp_pdUpdate. by destruct (_ =? _). Qed.

Lemma update_ele_ok e : ele_ok e -> ele_ok (trdp_pdUpdate e).
Proof.
  intros (Hf & Hg & Hl). destruct (update_sizes e) as (E & _). split; [by apply update_frame_ok|].
  rewrite E, update_length. auto.
Qed.

Lemma on_msgType_ok m e : msg_ok m -> ele_ok e -> ele_ok (on_frame (put16 off_msgType m) e).
Proof.
  intros Hm (Hf & Hg & Hl). split; [by apply put_msgType_ok|]. cbn. by rewrite put16_length.
Qed.

(** Whether an element is to be sent in a round that reaches it at the time [now]: it is due, has valid data and a socket,
    and is no redundancy follower. *)
Definition to_send (now : TRDP_TIME_T) (e : PD_ELE_T) : bool :=
  pd_due now e && negb (flag (privFlags e) TRDP_INVALID_DATA) && negb (socketIdx e =? TRDP_INVALID_SOCKET_INDEX)
  && negb (flag (privFlags e) TRDP_REDUNDANT).
(** The elements a round sends for, in the order of the queue; [k] counts those visited. *)
Fixpoint senders (env : pd_env) (k : nat) (q : list PD_ELE_T) : list PD_ELE_T :=
  match q with
  | [] => []
  | e :: q => (if to_send (pd_clock env k) e then [e] else []) ++ senders env (S k) q
  end.

(** The frame handed to a socket on behalf of [e]: to the address that pulled it, where one did, else to its destination. *)
Definition sent_for (s : TRDP_SESSION_T) (e : PD_ELE_T) (ev : pd_event) : Prop :=
  exists sk frame, ev = Sent sk frame (if pullIpAddress e =? 0 then destIpAddr (addr e) else pullIpAddress e) (pd_port (pdDefault s))
     /\ trdp_pdCheck frame (Z.of_nat (length frame)) = TRDP_NO_ERR
     /\ Z.of_nat (length frame) = grossSize e
     /\ drop off_data frame = take (Z.to_nat (grossSize e) - 40) (drop off_data (pFrame e))
     /\ get32 off_comId frame = get32 off_comId (pFrame e).

Lemma pd_transmit_spec env k s ifc err e err1 e1 n evs : ele_ok e ->
  pd_transmit env k s ifc err e = (err1, e1, n, evs) ->
  ele_ok e1 /\ (pd_due (pd_clock env k) e = true -> Forall2 (sent_for s) (if to_send (pd_clock env k) e then [e] else []) evs).
Proof.
  intros Hok H. unfold pd_transmit in H. unfold to_send.
  destruct (flag (privFlags e) TRDP_INVALID_DATA) eqn:Ei; [injection H as <- <- <- <-; by rewrite andb_false_r|].
  set (e0 := if is_pull e TRDP_MSG_PD then on_frame (put16 off_msgType TRDP_MSG_PP) e else e) in H.
  assert (H0 : ele_ok e0 /\ privFlags e0 = privFlags e /\ grossSize e0 = grossSize e
               /\ addr e0 = addr e /\ pullIpAddress e0 = pullIpAddress e /\ socketIdx e0 = socketIdx e
               /\ (forall off m, (8 <= off)%nat -> bget off m (pFrame e0) = bget off m (pFrame e))
               /\ length (pFrame e0) = length (pFrame e)).
  { unfold e0. destruct (is_pull _ _); [|auto 10]. split; [apply on_msgType_ok; [right; by left|done]|].
    split_and!; auto; [|cbn; apply put16_length].
    intros off m Ho. cbn. unfold put16. by rewrite bget_bput_other by (rewrite be_bytes_length; off_lia). }
  destruct H0 as (Hok0 & Hp0 & Hg0 & Ha0 & Hpl0 & Hsk0 & Hr0 & Hl0). clearbody e0.
  pose proof (update_ele_ok _ Hok0) as Hok2. destruct (update_sizes e0) as (U1 & U2 & _ & U4 & U5 & U6).
  assert (Hchk : forall m, 40 <= m <= TRDP_MAX_PD_PACKET_SIZE ->
            trdp_pdCheck (pFrame (trdp_pdUpdate e0)) m = TRDP_NO_ERR)
    by (intros; apply pdUpdate_check; [apply Hok0|done]).
  assert (Hu : forall off m, (8 <= off)%nat -> (off + m <= 36 \/ 40 <= off)%nat ->
               bget off m (pFrame (trdp_pdUpdate e0)) = bget off m (pFrame e)).
  { intros off m H1 H2. rewrite update_reads by lia. by apply Hr0. }
  revert Hok2 U1 U2 U4 U5 U6 Hchk Hu H. generalize (trdp_pdUpdate e0). intros e2 Hok2 U1 U2 U4 U5 U6 Hchk Hu H.
  cbn [trdp_validTopoCounters negb] in H. rewrite U6, Hsk0 in H. rewrite U2, Hp0 in H.
  destruct (socketIdx e =? TRDP_INVALID_SOCKET_INDEX); [injection H as <- <- <- <-; by rewrite andb_false_r|].
  destruct (flag (privFlags e) TRDP_REDUNDANT) eqn:Er; [injection H as <- <- <- <-; by rewrite andb_false_r|].
  destruct (trdp_pdSend _ _ _ _ _) as [[r e3] ev] eqn:Es. unfold trdp_pdSend in Es.
  destruct (vos_sockSendUDP _ _ _ _ _ _) as [ok sent]. injection Es as Er' E3 Eev.
  assert (Hok3 : ele_ok e3) by (subst e3; exact Hok2).
  assert (Hev : sent_for s e ev).
  { rewrite <- Eev. do 2 eexists. destruct Hok2 as (Hf2 & Hg2 & Hl2).
    split; [rewrite U5, Hpl0, U4, Ha0; by destruct (pullIpAddress e =? 0)|].
    assert (Hlen : Z.of_nat (length (take (Z.to_nat (grossSize e2)) (pFrame e2))) = grossSize e2)
      by (rewrite length_take; lia).
    rewrite Hlen. split; [rewrite pdCheck_take by lia; auto|]. split; [congruence|]. split.
    - unfold off_data. rewrite skipn_firstn_comm.
      change (take ?n (drop 40 ?f)) with (bget 40 n f). rewrite Hu by lia.
      by rewrite U1, Hg0.
    - unfold get32. rewrite bget_take by off_lia. rewrite Hu by off_lia. done. }
  destruct (is_ok r); injection H as <- <- <- <-; (split; [exact Hok3|intros ->; by repeat constructor]).
Qed.

Lemma pd_reschedule_ok now e : ele_ok e -> ele_ok (pd_reschedule now e).
Proof.
  intros H. unfold pd_reschedule.
  assert (H1 : ele_ok (on_frame (put16 off_msgType TRDP_MSG_PD) e)) by (apply on_msgType_ok; [by left|done]).
  destruct (is_pull _ _); [exact H1|]. destruct (timerisset _); exact H.
Qed.

Lemma send_loop_spec env s q : forall k ifc err err' q' ifc' n evs,
  Forall ele_ok q -> send_loop env s k q ifc err = (err', q', ifc', n, evs) ->
  Forall ele_ok q' /\ Forall2 (sent_for s) (senders env k q) evs.
Proof.
  induction q as [|e q IH]; intros k ifc err err' q' ifc' n evs Hq H; cbn [send_loop] in H.
  { injection H as <- <- <- <- <-. auto. }
  inversion Hq as [|? ? He Hq']; subst. cbn [senders].
  destruct (pd_due _ e) eqn:Ed.
  - destruct (pd_transmit _ _ _ _ _ _) as [[[err1 e1] n1] evs1] eqn:Et.
    apply pd_transmit_spec in Et as [He1 Hev]; [|done]. specialize (Hev Ed).
    pose proof (pd_reschedule_ok (pd_clock env k) e1 He1) as He2.
    destruct (_ =? TRDP_MSG_PR); destruct (send_loop _ _ _ _ _ _) as [[[[err2 q2] ifc2] n2] evs2] eqn:El;
      injection H as <- <- <- <- <-; apply IH in El as (H1 & H2); try done; split; try done; by apply Forall2_app || by constructor.
  - destruct (send_loop _ _ _ _ _ _) as [[[[err2 q2] ifc2] n2] evs2] eqn:El.
    injection H as <- <- <- <- <-. apply IH in El as (H1 & H2); [|done]. unfold to_send. rewrite Ed. cbn. split; [by constructor|done].
Qed.

(** C3: [trdp_pdSendQueued] hands exactly one frame to a socket for each element of the queue that is due when the
    round reaches it, has valid data and a socket and is no redundancy follower, in the order of the queue, and nothing
    for any other. The frame carries the comId and the data of the element, goes to the address that pulled it or else to
    its destination, and passes [trdp_pdCheck] at the receiver; the queue stays well-formed. *)
Theorem trdp_pdSendQueued_frames env s err s' evs :
  Forall ele_ok (pSndQueue s) -> trdp_pdSendQueued env s = (err, s', evs) ->
  Forall ele_ok (pSndQueue s') /\ Forall2 (sent_for s) (senders env 0 (pSndQueue s)) evs.
Proof.
  intros Hq H. unfold trdp_pdSendQueued in H.
  destruct (send_loop _ _ _ _ _ _) as [[[[err2 q2] ifc2] n2] evs2] eqn:El.
  injection H as <- <- <-. apply (send_loop_spec _ _ _ _ _ _ _ _ _ _ _ Hq) in El. exact El.
Qed.

Definition example_pd_env : pd_env :=
  mkPdEnv (fun k => mkTime (100 + Z.of_nat k) 0) (fun _ _ f _ _ => (true, Z.of_nat (length f))) example_env.

Definition example_cyclic : PD_ELE_T :=
  set_timeToGo (mkTime 99 0) (set_interval (mkTime 0 30000) example_pub).

Lemma example_cyclic_ok : ele_ok example_cyclic.
Proof.
  split; [frame_ok_eval|split; [split|]; apply Z.leb_le; vm_compute; reflexivity].
Qed.

Definition example_session : TRDP_SESSION_T :=
  mkSession 0x0a000001 0 0 zero_time
    (mkPdCfg None 0 5 64 TRDP_FLAGS_NONE 100000 TRDP_TO_KEEP_LAST_VALUE 17224) 0
    (map (set_sock 7) (repeat zero_sock 80)) None None
    [example_cyclic]
    [] (repeat 0 1472) (mkPdStat 0 0 0 0 0 0 0 0).

Lemma trdp_pdSendQueued_frames_witness : exists ev,
  snd (trdp_pdSendQueued example_pd_env example_session) = [ev] /\ sent_for example_session example_cyclic ev.
Proof.
  destruct (trdp_pdSendQueued example_pd_env example_session) as [[err s'] evs] eqn:E.
  assert (H : Forall2 (sent_for example_session) [example_cyclic] evs).
  { apply (trdp_pdSendQueued_frames example_pd_env example_session err s' evs); [|exact E].
    constructor; [exact example_cyclic_ok|constructor]. }
  inversion H as [|? ev ? l Hev Hl]; subst. inversion Hl; subst. exists ev. split; [reflexivity|exact Hev].
Defined.

(** ** Receiving *)
Lemma pdCheck_ext f g n : take 40 f = take 40 g -> trdp_pdCheck f n = trdp_pdCheck g n.
Proof. intros H. by rewrite <- (pdCheck_take f 40), <- (pdCheck_take g 40), H by lia. Qed.

Lemma check_seq_fields a g e cnt src t r e' :
  trdp_checkSequenceCounter a g (Some e) cnt src t = (r, Some e') -> exists l, e' = set_pSeqCntList l e.
Proof.
  unfold trdp_checkSequenceCounter.
  assert (Hid : e = set_pSeqCntList (pSeqCntList e) e) by by destruct e.
  destruct (match pSeqCntList e with Some _ => _ | None => _ end); [|intros [= _ <-]; eauto].
  destruct (seq_scan _ _ _ _) as [[r' l']|]; [intros [= _ <-]; eauto|].
  destruct (_ >=? _); [destruct g|]; intros [= _ <-]; eauto.
Qed.

Lemma reset_seq_fields e src t : exists l, trdp_resetSequenceCounter (Some e) src t = Some (set_pSeqCntList l e).
Proof.
  unfold trdp_resetSequenceCounter. destruct (pSeqCntList e) as [l|] eqn:E; [eauto|].
  exists None. f_equal. destruct e; cbn in *. by subst.
Qed.

Lemma find_update_ele p (e' : PD_ELE_T) q : ele_ptr e' = p -> (exists e, e ∈ q /\ ele_ptr e = p) ->
  find_ele p (update_ele p (fun _ => e') q) = Some e'.
Proof.
  intros Hp (e & Hin & He). unfold find_ele, update_ele. induction q as [|x q IH]; [by apply not_elem_of_nil in Hin|].
  cbn [map find]. destruct (ele_ptr x =? p) eqn:E.
  - by rewrite Hp, Z.eqb_refl.
  - rewrite E. apply elem_of_cons in Hin as [->|Hin]; [bprop; congruence|auto].
Qed.

Lemma find_elem {A} (p : A -> bool) l x : find p l = Some x -> x ∈ l /\ p x = true.
Proof. intros H. apply find_some in H as [H1 H2]. by rewrite list_elem_of_In. Qed.

(** A received packet that is no pull request, in [s]: its bytes [f], and the subscription [e]
    that matches it. *)
Record rx_ok (s : TRDP_SESSION_T) (f : list Z) (src dst : Z) (e : PD_ELE_T) : Prop := {
  rx_buf : length (pNewFrame s) = 1472%nat;
  rx_len : (40 <= length f <= 1472)%nat;
  rx_check : trdp_pdCheck f (Z.of_nat (length f)) = TRDP_NO_ERR;
  rx_nopull : get16 off_msgType f <> TRDP_MSG_PR;
  rx_sub : trdp_queueFindSubAddr (pRcvQueue s)
             (Some (mkAddr (get32 off_comId f) src dst 0 (get32 off_etbTopoCnt f) (get32 off_opTrnTopoCnt f)))
           = Some e;
  rx_seq : seq_ok e;
  rx_room : forall l, pSeqCntList e = Some l -> maxNoOfEntries l < 32768 }.

(** The session once the datagram is in the buffer and counted. *)
Definition received (f : list Z) (s : TRDP_SESSION_T) : TRDP_SESSION_T :=
  bump numRcv set_numRcv (set_pNewFrame (bput 0 f (pNewFrame s)) s).

Lemma receive_dispatch env s f src dst e : rx_ok s f src dst e ->
  trdp_pdReceive env (mkRx TRDP_NO_ERR f src dst) s = pd_dispatch env src dst (received f s)
  /\ (forall off k, (off + k <= length f)%nat -> bget off k (pNewFrame (received f s)) = bget off k f)
  /\ length (pNewFrame (received f s)) = 1472%nat.
Proof.
  intros H. assert (Hb : forall off k, (off + k <= length f)%nat ->
    bget off k (bput 0 f (pNewFrame s)) = bget off k f).
  { intros off k Hk. apply bget_bput_prefix; [done|]. rewrite (rx_buf _ _ _ _ _ H). apply H. }
  split; [|split; [exact Hb|cbn; by rewrite bput_length, (rx_buf _ _ _ _ _ H)]].
  unfold trdp_pdReceive. cbn [rx_err is_ok negb rx_bytes rx_src rx_dst pNewFrame set_pNewFrame].
  rewrite (pdCheck_ext _ f); [by rewrite (rx_check _ _ _ _ _ H)|].
  apply (Hb 0%nat 40%nat). apply H.
Qed.

(** The subscription as the address check leaves it. *)
Definition addressed (src dst : Z) (e : PD_ELE_T) : PD_ELE_T :=
  set_addr (set_destIpAddr dst (addr e)) (set_lastSrcIP src e).

Lemma dispatch_eq env s f src dst e : rx_ok s f src dst e ->
  let s1 := received f s in
  let new := get32 off_sequenceCounter f in
  let msg := get16 off_msgType f in
  let e1 := addressed src dst e in
  let e2 := if new =? 0 then default e1 (trdp_resetSequenceCounter (Some e1) src msg) else e1 in
  let '(r, e3) := trdp_checkSequenceCounter (rcv_alloc env) (rcv_grow env) (Some e2) new src msg in
  let e3 := default e2 e3 in
  let put e' s' := set_pRcvQueue (update_ele (ele_ptr e) (fun _ => e') (pRcvQueue s')) s' in
  trdp_pdReceive env (mkRx TRDP_NO_ERR f src dst) s =
  if r =? -1 then (TRDP_MEM_ERR, put e3 s1, [])
  else if r =? 1 then (TRDP_NO_ERR, put e3 s1, [])
  else let '(e4, changed) := accept_packet (rcv_now env) (pNewFrame s1) e3 in
       (TRDP_NO_ERR, set_pNewFrame (pFrame e3) (put e4 s1),
        if changed then pd_callback dst TRDP_NO_ERR e4 else []).
Proof.
  intros H. destruct (receive_dispatch env s f src dst e H) as (-> & Hb & Hl). cbv zeta.
  unfold pd_dispatch. pose proof (rx_len _ _ _ _ _ H) as Hlen.
  assert (G16 : forall off, (off + 2 <= 40)%nat -> get16 off (pNewFrame (received f s)) = get16 off f)
    by (intros; unfold get16; rewrite Hb by lia; done).
  assert (G32 : forall off, (off + 4 <= 40)%nat -> get32 off (pNewFrame (received f s)) = get32 off f)
    by (intros; unfold get32; rewrite Hb by lia; done).
  rewrite (G16 off_msgType), (G32 off_sequenceCounter), (G32 off_comId),
    (G32 off_etbTopoCnt), (G32 off_opTrnTopoCnt) by off_lia.
  cbn [trdp_validTopoCounters negb]. unfold trdp_validTopoCounters. cbn [negb].
  pose proof (rx_nopull _ _ _ _ _ H) as Hp. apply Z.eqb_neq in Hp as ->.
  change (pRcvQueue (received f s)) with (pRcvQueue s). rewrite (rx_sub _ _ _ _ _ H).
  rewrite orb_true_r. unfold addressed.
  destruct (trdp_checkSequenceCounter _ _ _ _ _ _) as [r e3].
  destruct (r =? -1); [done|]. destruct (r =? 1); [done|].
  destruct (accept_packet _ _ _) as [e4 ch]. by rewrite app_nil_l.
Qed.

Lemma addressed_seq src dst e : seq_ok (addressed src dst e) = seq_ok e
  /\ seq_abs (addressed src dst e) = seq_abs e /\ pSeqCntList (addressed src dst e) = pSeqCntList e.
Proof. done. Qed.

Lemma clear_flag_spec x f : f = TRDP_TIMED_OUT \/ f = TRDP_INVALID_DATA -> flag (clear_flag x f) f = false.
Proof.
  intros [-> | ->]; unfold flag, clear_flag, not8; rewrite <- Z.land_assoc; cbn; by rewrite Z.land_0_r.
Qed.

Lemma cleared_flags x :
  let y := clear_flag (clear_flag x TRDP_TIMED_OUT) TRDP_INVALID_DATA in
  flag y TRDP_TIMED_OUT = false /\ flag y TRDP_INVALID_DATA = false.
Proof.
  cbv zeta. split; [|apply clear_flag_spec; auto].
  unfold flag, clear_flag, not8. rewrite <- !Z.land_assoc. cbn. by rewrite Z.land_0_r.
Qed.

Lemma reset_seq_ok e src t e' : trdp_resetSequenceCounter (Some e) src t = Some e' ->
  seq_ok e -> (forall l, pSeqCntList e = Some l -> maxNoOfEntries l < 32768) ->
  seq_ok e' /\ (forall l, pSeqCntList e' = Some l -> maxNoOfEntries l < 32768).
Proof.
  unfold trdp_resetSequenceCounter, seq_ok. destruct (pSeqCntList e) as [l|] eqn:E; intros [= <-] Hok Hm.
  - cbn. assert (Hk : map seq_key (map (fun s => if seq_for src t s
        then mkSeq 0 (seq_srcIp s) (seq_msgType s) else s) (seq_entries l)) = map seq_key (seq_entries l)).
    { rewrite map_map. apply map_ext. intros s. by destruct (seq_for _ _ _). }
    rewrite Hk, length_map. split; [done|]. intros l' [= <-]. cbn. auto.
  - by rewrite E.
Qed.

(** An accepted packet's element, in terms of the one before. *)
Lemma accept_packet_spec now f e :
  let '(e', _) := accept_packet now f e in
  pFrame e' = f /\ dataSize e' = get32 off_datasetLength f /\ curSeqCnt e' = get32 off_sequenceCounter f
  /\ timeToGo e' = addTime now (interval e) /\ pktFlags e' = pktFlags e /\ ele_ptr e' = ele_ptr e
  /\ lastErr e' = TRDP_NO_ERR
  /\ flag (privFlags e') TRDP_TIMED_OUT = false /\ flag (privFlags e') TRDP_INVALID_DATA = false.
Proof.
  unfold accept_packet, missed.
  destruct (cleared_flags (privFlags e)) as [F1 F2].
  destruct (_ && _); [|destruct (_ >? _)]; cbn; auto 12.
Qed.

(** C2: a sane packet for a subscription, with a counter the sender has not just used, is stored:
    the call succeeds, the subscription expects the next packet one interval after the reception, the
    packet is counted, and [trdp_pdGet] (without unmarshalling) delivers exactly the data of the
    packet until the next one. *)
Theorem trdp_pdReceive_stores env s f src dst e room :
  rx_ok s f src dst e -> rcv_alloc env = true -> rcv_grow env = true ->
  (get32 off_sequenceCounter f = 0
   \/ seq_abs e !! (src, get16 off_msgType f) <> Some (get32 off_sequenceCounter f)) ->
  0 <= get32 off_datasetLength f <= Z.of_nat (length f) - 40 -> get32 off_datasetLength f <= room ->
  flag (pktFlags e) TRDP_FLAGS_MARSHALL = false ->
  let n := get32 off_datasetLength f in
  exists s' evs e' e'', trdp_pdReceive env (mkRx TRDP_NO_ERR f src dst) s = (TRDP_NO_ERR, s', evs)
    /\ find_ele (ele_ptr e) (pRcvQueue s') = Some e'
    /\ timeToGo e' = addTime (rcv_now env) (interval e)
    /\ curSeqCnt e' = get32 off_sequenceCounter f
    /\ numRcv (pd_stats s') = u32 (numRcv (pd_stats s) + 1)
    /\ trdp_pdGet None (Some room) (Some e') = (TRDP_NO_ERR, frame_data n f, Some n, Some e'').
Proof.
  intros H Ha Hg Hnew Hn Hroom Hm n. pose proof (dispatch_eq env s f src dst e H) as D. cbv zeta in D.
  set (e1 := addressed src dst e) in D. set (new := get32 off_sequenceCounter f) in *.
  set (msg := get16 off_msgType f) in *.
  assert (Hseq : exists l, let e2 := if new =? 0 then default e1 (trdp_resetSequenceCounter (Some e1) src msg) else e1 in
    trdp_checkSequenceCounter true true (Some e2) new src msg = (0, Some (set_pSeqCntList l e1))).
  { assert (H2 : exists e2, (if new =? 0 then default e1 (trdp_resetSequenceCounter (Some e1) src msg) else e1) = e2
        /\ (exists l, e2 = set_pSeqCntList l e1) /\ seq_ok e2
        /\ (forall l, pSeqCntList e2 = Some l -> maxNoOfEntries l < 32768)
        /\ (new = 0 \/ seq_abs e2 !! (src, msg) <> Some new)).
    { destruct (new =? 0) eqn:E0; bprop.
      - destruct (reset_seq_fields e1 src msg) as [l El]. exists (set_pSeqCntList l e1). rewrite El.
        split; [done|]. split; [eauto|].
        destruct (reset_seq_ok e1 src msg _ El) as [K1 K2]; [apply H|apply H|]. auto.
      - exists e1. split; [done|]. split; [exists (pSeqCntList e1); by destruct e1|].
        split; [apply H|]. split; [apply H|]. destruct Hnew as [Hnew|Hnew]; auto. }
    destruct H2 as (e2 & E2 & [l0 El0] & K1 & K2 & K3). cbv zeta. rewrite E2.
    destruct (check_seq_new e2 new src msg K1 K2 K3) as [e3 E3].
    destruct (check_seq_fields _ _ _ _ _ _ _ _ E3) as [l El]. exists l. rewrite E3, El, El0. done. }
  destruct Hseq as [l Hseq]. cbv zeta in Hseq. rewrite Ha, Hg, Hseq in D. cbn [default] in D.
  change (0 =? -1) with false in D. change (0 =? 1) with false in D. cbv iota in D.
  pose proof (accept_packet_spec (rcv_now env) (pNewFrame (received f s)) (set_pSeqCntList l e1)) as A.
  destruct (accept_packet _ _ _) as [e4 ch].
  destruct A as (A1 & A2 & A3 & A4 & A5 & A6 & A7 & A8 & A9).
  destruct (receive_dispatch env s f src dst e H) as (_ & Hb & _).
  pose proof (rx_len _ _ _ _ _ H) as Hlen.
  assert (G32 : forall off, (off + 4 <= 40)%nat -> get32 off (pNewFrame (received f s)) = get32 off f)
    by (intros; unfold get32; rewrite Hb by lia; done).
  rewrite G32 in A2, A3 by off_lia.
  do 2 eexists. exists e4. eexists. split; [exact D|]. split.
  { cbn [pRcvQueue set_pNewFrame set_pRcvQueue]. apply find_update_ele; [exact A6|].
    exists e. split; [|done]. by destruct (find_elem _ _ _ (rx_sub _ _ _ _ _ H)). }
  split; [exact A4|]. split; [exact A3|]. split; [done|].
  unfold trdp_pdGet. cbn [privFlags set_getPkts]. rewrite A9, A8. cbn [pktFlags set_getPkts dataSize pFrame].
  change (pktFlags (set_pSeqCntList l e1)) with (pktFlags e) in A5. rewrite A5, Hm, A1, A2. fold n.
  assert ((room >=? n) = true) as -> by (rewrite Z.geb_leb; apply Z.leb_le; unfold n; lia).
  unfold frame_data. rewrite Hb by (unfold off_data, n; lia). reflexivity.
Qed.

(** A subscription to comId 1000 from any source to any destination, a session with it, and the
    packets of [example_pub] that it receives. *)
Definition example_sub : PD_ELE_T :=
  set_pktFlags TRDP_FLAGS_CALLBACK (set_interval (mkTime 0 100000)
    (set_privFlags TRDP_INVALID_DATA (set_pFrame (repeat 0 1472)
      (set_addr (mkAddr 1000 0 0 0 0 0) (zero_ele 2))))).

Definition example_receiver : TRDP_SESSION_T := set_pRcvQueue [example_sub] example_session.
Definition example_rcv_env : rcv_env := mkRcvEnv example_pd_env (mkTime 100 0) true true (fun _ => []).

Definition example_packet (n : nat) : list Z :=
  pFrame (Nat.iter n trdp_pdUpdate
            (match snd (trdp_pdPut true None (Some [1; 2; 3; 4]) 4 (Some example_pub)) with
             | Some e => e | None => example_pub end)).

Lemma example_rx_ok : rx_ok example_receiver (example_packet 1) 0x0a000001 0x0a000002 example_sub.
Proof.
  split.
  - vm_compute. reflexivity.
  - split; apply Nat.leb_le; vm_compute; reflexivity.
  - vm_compute. reflexivity.
  - vm_compute. discriminate.
  - vm_compute. reflexivity.
  - exact I.
  - intros l [=].
Qed.

Lemma trdp_pdReceive_stores_witness :
  exists s' evs e' e'',
    trdp_pdReceive example_rcv_env (mkRx TRDP_NO_ERR (example_packet 1) 0x0a000001 0x0a000002) example_receiver
    = (TRDP_NO_ERR, s', evs)
    /\ find_ele 2 (pRcvQueue s') = Some e'
    /\ trdp_pdGet None (Some 100) (Some e') = (TRDP_NO_ERR, [1; 2; 3; 4], Some 4, Some e'').
Proof.
  destruct (trdp_pdReceive_stores example_rcv_env example_receiver (example_packet 1) 0x0a000001 0x0a000002
    example_sub 100 example_rx_ok) as (s' & evs & e' & e'' & H1 & H2 & _ & _ & _ & H3).
  - reflexivity.
  - reflexivity.
  - right. vm_compute. discriminate.
  - split; apply Z.leb_le; vm_compute; reflexivity.
  - apply Z.leb_le; vm_compute; reflexivity.
  - vm_compute. reflexivity.
  - exists s', evs, e', e''. split; [exact H1|]. split; [exact H2|].
    replace [1; 2; 3; 4] with (frame_data (get32 off_datasetLength (example_packet 1)) (example_packet 1))
      by (vm_compute; reflexivity).
    replace 4 with (get32 off_datasetLength (example_packet 1)) by (vm_compute; reflexivity).
    exact H3.
Defined.

(** A packet that repeats the sender's last counter is ignored: the call succeeds without any
    callback, and of the subscription only the recorded addresses change, not the data, counters,
    flags or timeout. *)
Theorem trdp_pdReceive_ignores_duplicate env s f src dst e :
  rx_ok s f src dst e -> rcv_alloc env = true -> rcv_grow env = true ->
  get32 off_sequenceCounter f <> 0 ->
  seq_abs e !! (src, get16 off_msgType f) = Some (get32 off_sequenceCounter f) ->
  trdp_pdReceive env (mkRx TRDP_NO_ERR f src dst) s
  = (TRDP_NO_ERR,
     set_pRcvQueue (update_ele (ele_ptr e) (fun _ => addressed src dst e) (pRcvQueue s)) (received f s), []).
Proof.
  intros H Ha Hg Hne Hdup. pose proof (dispatch_eq env s f src dst e H) as D. cbv zeta in D.
  apply Z.eqb_neq in Hne as E0. rewrite E0, Ha, Hg in D.
  rewrite (check_seq_dup (addressed src dst e)) in D; [exact D|apply H|apply H|done|exact Hdup].
Qed.

Definition example_received : TRDP_SESSION_T :=
  snd (fst (trdp_pdReceive example_rcv_env (mkRx TRDP_NO_ERR (example_packet 1) 0x0a000001 0x0a000002)
              example_receiver)).

Lemma trdp_pdReceive_ignores_duplicate_witness :
  snd (trdp_pdReceive example_rcv_env (mkRx TRDP_NO_ERR (example_packet 1) 0x0a000001 0x0a000002) example_received) = [].
Proof.
  set (e := match pRcvQueue example_received with e :: _ => e | [] => example_sub end).
  assert (H : rx_ok example_received (example_packet 1) 0x0a000001 0x0a000002 e).
  { split.
    - vm_compute. reflexivity.
    - split; apply Nat.leb_le; vm_compute; reflexivity.
    - vm_compute. reflexivity.
    - vm_compute. discriminate.
    - vm_compute. reflexivity.
    - vm_compute. split; [apply NoDup_singleton|]. split; discriminate.
    - intros l Hl. vm_compute in Hl. injection Hl as <-. cbn. lia. }
  rewrite (trdp_pdReceive_ignores_duplicate example_rcv_env example_received (example_packet 1)
    0x0a000001 0x0a000002 e H); [reflexivity|reflexivity|reflexivity| |].
  - vm_compute. discriminate.
  - vm_compute. reflexivity.
Defined.

(** The address check overwrites the destination the subscription asked for: a subscription to
    any destination that has received one packet for a multicast group refuses the sender's next
    packet for another destination. *)
Theorem trdp_pdReceive_narrows_subscription :
  let rx n dst := mkRx TRDP_NO_ERR (example_packet n) 0x0a000001 dst in
  let '(r1, s1, _) := trdp_pdReceive example_rcv_env (rx 1%nat 0xef000001) example_receiver in
  let '(r2, _, _) := trdp_pdReceive example_rcv_env (rx 2%nat 0x0a000002) s1 in
  let '(r3, _, _) := trdp_pdReceive example_rcv_env (rx 2%nat 0x0a000002) example_receiver in
  (r1, r2, r3) = (TRDP_NO_ERR, TRDP_NOSUB_ERR, TRDP_NO_ERR).
Proof. vm_compute. reflexivity. Qed.

(** The length in the header is not compared with the number of bytes received: the bare header
    of a packet that announces four data bytes is accepted, and the application gets data that the
    packet did not contain - what an earlier packet left in the buffer. *)
Theorem trdp_pdReceive_stale_data :
  let rx := mkRx TRDP_NO_ERR (take 40 (example_packet 1)) 0x0a000001 0x0a000002 in
  let '(r, s1, _) := trdp_pdReceive example_rcv_env rx (set_pNewFrame (repeat 7 1472) example_receiver) in
  r = TRDP_NO_ERR
  /\ match find_ele 2 (pRcvQueue s1) with
     | Some e => fst (fst (fst (trdp_pdGet None (Some 100) (Some e)))) = TRDP_NO_ERR
                 /\ snd (fst (fst (trdp_pdGet None (Some 100) (Some e)))) = [7; 7; 7; 7]
     | None => False
     end.
Proof. vm_compute. auto. Qed.

(** [trdp_pdPut] compares the size of the data with the largest packet only, not with the
    buffer that publishing allocated: 100 bytes for a publisher of four bytes (a frame of 44) are
    accepted and copied. *)
Theorem trdp_pdPut_overruns_frame :
  let '(r, e) := trdp_pdPut true None (Some (repeat 1 100)) 100 (Some example_pub) in
  r = TRDP_NO_ERR /\ option_map dataSize e = Some 4
  /\ (off_data + 100 > length (pFrame example_pub))%nat.
Proof. vm_compute. split_and!; auto; lia. Qed.

(** Data put into a publisher of the same size is what its next packet carries: [trdp_pdPut]
    succeeds, makes the data valid and counts the update, and the frame that [trdp_pdUpdate] then
    completes announces the size and holds exactly these bytes. *)
Theorem trdp_pdPut_sent_data e d :
  ele_ok e -> bytes d -> flag (pktFlags e) TRDP_FLAGS_MARSHALL = false ->
  0 < dataSize e <= TRDP_MAX_PD_DATA_SIZE -> dataSize e = Z.of_nat (length d) ->
  grossSize e = trdp_packetSizePD (dataSize e) -> get32 off_datasetLength (pFrame e) = dataSize e ->
  exists e', trdp_pdPut true None (Some d) (dataSize e) (Some e) = (TRDP_NO_ERR, Some e')
    /\ flag (privFlags e') TRDP_INVALID_DATA = false /\ updPkts e' = u32 (updPkts e + 1)
    /\ ele_ok e'
    /\ let f := take (Z.to_nat (grossSize e')) (pFrame (trdp_pdUpdate e')) in
       trdp_pdCheck f (grossSize e') = TRDP_NO_ERR
       /\ get32 off_datasetLength f = dataSize e /\ frame_data (dataSize e) f = d.
Proof.
  intros ((Hb & Hl & Hv & Hm & Hd) & Hg & Hgl) Hbd Hmar Hn Hlen Hgs Hds.
  unfold trdp_pdPut. destruct (dataSize e =? 0) eqn:E0; bprop; [lia|]. cbn [andb].
  rewrite Hmar. destruct (dataSize e >? TRDP_MAX_PD_DATA_SIZE) eqn:E1; bprop; [lia|].
  eexists. split; [reflexivity|]. set (e' := data_valid _).
  assert (Hd40 : (40 + length d <= length (pFrame e))%nat).
  { rewrite Hgs in Hgl. unfold trdp_packetSizePD in Hgl. unfold TRDP_MAX_PD_DATA_SIZE in Hn.
    rewrite padded_size_eq in Hgl by (unfold sizeof_PD_HEADER_T; lia). unfold sizeof_PD_HEADER_T in Hgl. dlia. }
  assert (Hf : pFrame e' = bput off_data d (pFrame e)).
  { cbn. f_equal. apply firstn_all2. lia. }
  assert (Hhdr : forall off k, (off + k <= 40)%nat -> bget off k (pFrame e') = bget off k (pFrame e)).
  { intros off k Hk. rewrite Hf. apply bget_bput_other. off_lia. }
  assert (Hlf : length (pFrame e') = length (pFrame e)) by (rewrite Hf; apply bput_length).
  assert (Hok : ele_ok e').
  { split; [|split; [exact Hg|]].
    - split; [rewrite Hf; by apply bput_bytes|]. rewrite Hlf.
      unfold get16, get32 in *. rewrite !Hhdr by off_lia. auto.
    - change (grossSize e') with (grossSize e). by rewrite Hlf. }
  split; [apply clear_flag_spec; auto|]. split; [done|]. split; [exact Hok|]. cbv zeta.
  change (grossSize e') with (grossSize e). split; [|split].
  - rewrite pdCheck_take by lia. apply pdUpdate_check; [apply Hok|done].
  - unfold get32 in *. rewrite bget_take by off_lia. rewrite update_reads by off_lia.
    rewrite Hhdr by off_lia. exact Hds.
  - unfold frame_data. rewrite Hlen, Nat2Z.id. rewrite bget_take.
    + rewrite update_reads by off_lia. rewrite Hf. apply bget_bput_same. off_lia.
    + rewrite Hgs. unfold trdp_packetSizePD. unfold TRDP_MAX_PD_DATA_SIZE in Hn.
      rewrite padded_size_eq by (unfold sizeof_PD_HEADER_T; lia). unfold sizeof_PD_HEADER_T, off_data. dlia.
Qed.

Lemma trdp_pdPut_sent_data_witness :
  exists e', trdp_pdPut true None (Some [1; 2; 3; 4]) 4 (Some example_cyclic) = (TRDP_NO_ERR, Some e')
    /\ frame_data 4 (take 44 (pFrame (trdp_pdUpdate e'))) = [1; 2; 3; 4].
Proof.
  destruct (trdp_pdPut_sent_data example_cyclic [1; 2; 3; 4] example_cyclic_ok)
    as (e' & H1 & _ & _ & _ & _ & _ & H2).
  - apply bytes_dec. reflexivity.
  - vm_compute. reflexivity.
  - split; [vm_compute; reflexivity|apply Z.leb_le; vm_compute; reflexivity].
  - vm_compute. reflexivity.
  - vm_compute. reflexivity.
  - vm_compute. reflexivity.
  - exists e'. change (dataSize example_cyclic) with 4 in H1, H2. split; [exact H1|].
    assert (Hg : grossSize e' = 44).
    { unfold trdp_pdPut in H1. cbn in H1. injection H1 as <-. reflexivity. }
    rewrite Hg in H2. exact H2.
Defined.

(** ** Timeouts *)
Lemma timed_out_set x : flag (set_flag x TRDP_TIMED_OUT) TRDP_TIMED_OUT = true.
Proof.
  unfold flag, set_flag, truthy. rewrite Z.land_lor_distr_l, Z.land_diag.
  apply negb_true_iff, Z.eqb_neq. intros E.
  apply (f_equal (fun z => Z.testbit z 1)) in E. rewrite Z.lor_spec in E. cbn in E.
  by rewrite orb_true_r in E.
Qed.

Lemma late_once now' e : pd_late now' (pd_timeout_ele e) = false.
Proof.
  unfold pd_late, pd_timeout_ele. cbn [privFlags set_privFlags interval timeToGo a_comId addr set_lastErr].
  rewrite timed_out_set. cbn [negb]. by rewrite andb_false_r.
Qed.

Lemma timeout_loop_spec now q :
  let '(q', n, evs) := timeout_loop now q in
  q' = map (fun e => if pd_late now e then pd_timeout_ele e else e) q
  /\ n = Z.of_nat (length (filter (fun e => pd_late now e = true) q))
  /\ evs = concat (map (fun e => if pd_late now e then timeout_callback e else []) q).
Proof.
  induction q as [|e q IH]; cbn [timeout_loop]; [done|].
  destruct (timeout_loop now q) as [[q' n] evs]. destruct IH as (-> & -> & ->).
  destruct (pd_late now e) eqn:E; cbn [map concat]; rewrite E.
  - rewrite filter_cons_True by done. cbn [length]. split_and!; [done|lia|done].
  - rewrite filter_cons_False by congruence. done.
Qed.

(** [trdp_pdHandleTimeOuts] flags exactly the subscriptions that are late, reports each of them
    to its callback once and counts them; handling timeouts again, at whatever time, reports none of
    them a second time. *)
Theorem trdp_pdHandleTimeOuts_once now s :
  let '(s', evs) := trdp_pdHandleTimeOuts now s in
  pRcvQueue s' = map (fun e => if pd_late now e then pd_timeout_ele e else e) (pRcvQueue s)
  /\ evs = concat (map (fun e => if pd_late now e then timeout_callback e else []) (pRcvQueue s))
  /\ numTimeout (pd_stats s')
     = u32 (numTimeout (pd_stats s) + Z.of_nat (length (filter (fun e => pd_late now e = true) (pRcvQueue s))))
  /\ trdp_pdHandleTimeOuts now s' = (set_pd_stats (set_numTimeout (u32 (numTimeout (pd_stats s'))) (pd_stats s')) s', [])
  /\ forall now', Forall2 (fun e e' => pd_late now e = true -> pd_late now' e' = false) (pRcvQueue s) (pRcvQueue s').
Proof.
  unfold trdp_pdHandleTimeOuts. pose proof (timeout_loop_spec now (pRcvQueue s)) as H.
  destruct (timeout_loop now (pRcvQueue s)) as [[q n] evs]. destruct H as (-> & -> & ->).
  cbn [pRcvQueue pd_stats set_pd_stats set_pRcvQueue numTimeout set_numTimeout].
  split; [done|]. split; [done|]. split; [done|].
  set (q1 := map (fun e => if pd_late now e then pd_timeout_ele e else e) (pRcvQueue s)).
  assert (Hq1 : Forall (fun e => pd_late now e = false) q1).
  { unfold q1. rewrite List.Forall_map. apply Forall_forall. intros e _.
    destruct (pd_late now e) eqn:E; [apply late_once|done]. }
  split.
  - pose proof (timeout_loop_spec now q1) as H. destruct (timeout_loop now q1) as [[q' n] evs].
    destruct H as (-> & -> & ->).
    assert (E1 : map (fun e => if pd_late now e then pd_timeout_ele e else e) q1 = q1).
    { clear -Hq1. induction Hq1 as [|e q H _ IH]; cbn; [done|]. by rewrite H, IH. }
    assert (E2 : filter (fun e => pd_late now e = true) q1 = []).
    { clear -Hq1. induction Hq1 as [|e q H _ IH]; [done|]. rewrite filter_cons_False by congruence. done. }
    assert (E3 : concat (map (fun e => if pd_late now e then timeout_callback e else []) q1) = []).
    { clear -Hq1. induction Hq1 as [|e q H _ IH]; cbn; [done|]. by rewrite H, IH. }
    rewrite E1, E2, E3. cbn [length]. rewrite Z.add_0_r. done.
  - intros now'. unfold q1. clear. induction (pRcvQueue s) as [|e q IH]; cbn; constructor; [|exact IH].
    intros E. rewrite E. apply late_once.
Qed.

(** ** The next job *)
Definition next_of (next t : TRDP_TIME_T) : TRDP_TIME_T := if earlier t next then t else next.

(** The times the session has to act at. *)
Definition rcv_times (q : list PD_ELE_T) : list TRDP_TIME_T :=
  map timeToGo (List.filter (fun e => negb (flag (privFlags e) TRDP_TIMED_OUT) && timerisset (interval e)) q).
Definition snd_times (q : list PD_ELE_T) : list TRDP_TIME_T :=
  map timeToGo (List.filter (fun e => timerisset (interval e)) q).

Lemma fold_next_rcv q : forall t, fold_left next_rcv q t = fold_left next_of (rcv_times q) t.
Proof.
  induction q as [|e q IH]; intros t; [done|]. unfold rcv_times. cbn [fold_left List.filter]. rewrite IH.
  unfold next_rcv at 1. destruct (_ && timerisset (interval e)) eqn:E; cbn [andb]; [|done].
  cbn [map fold_left]. done.
Qed.

Lemma fold_next_snd q : forall t, fold_left next_snd q t = fold_left next_of (snd_times q) t.
Proof.
  induction q as [|e q IH]; intros t; [done|]. unfold snd_times. cbn [fold_left List.filter]. rewrite IH.
  unfold next_snd at 1. destruct (timerisset (interval e)) eqn:E; cbn [andb]; done.
Qed.

Lemma fold_next_min ts : forall t, Forall (fun t => time_ok t /\ timerisset t = true) ts ->
  time_ok t -> timerisset t = true ->
  let r := fold_left next_of ts t in
  (r = t \/ r ∈ ts) /\ time_ok r /\ timerisset r = true
  /\ to_us r <= to_us t /\ Forall (fun x => to_us r <= to_us x) ts.
Proof.
  induction ts as [|x ts IH]; intros t H Ht Hs; cbn [fold_left]; [cbv zeta; auto with lia|].
  inversion H as [|? ? [Hx Hxs] H']; subst.
  assert (Ex : next_of t x = if to_us x <? to_us t then x else t).
  { unfold next_of, earlier. rewrite Hs, orb_false_r. by rewrite timer_lt_spec. }
  rewrite Ex. destruct (to_us x <? to_us t) eqn:E; bprop.
  - destruct (IH x H' Hx Hxs) as (H1 & H2 & H3 & H4 & H5). cbv zeta.
    split; [right; destruct H1 as [->|H1]; [by left|by right]|].
    split; [done|]. split; [done|]. split; [lia|]. constructor; [lia|done].
  - destruct (IH t H' Ht Hs) as (H1 & H2 & H3 & H4 & H5). cbv zeta.
    split; [destruct H1 as [->|H1]; [by left|right; by right]|].
    split; [done|]. split; [done|]. split; [lia|]. constructor; [lia|done].
Qed.

(** [trdp_pdCheckPending] sets the next job to the earliest time at which a subscription that has
    not timed out yet or a cyclic publisher must be handled, and clears it when there is none. *)
Lemma trdp_pdCheckPending_earliest s fds :
  let ts := rcv_times (pRcvQueue s) ++ snd_times (pSndQueue s) in
  Forall (fun t => time_ok t /\ timerisset t = true) ts ->
  let next := nextJob (fst (trdp_pdCheckPending s fds)) in
  (ts = [] -> next = timerclear)
  /\ (ts <> [] -> next ∈ ts /\ Forall (fun t => to_us next <= to_us t) ts).
Proof.
  intros ts Hts next.
  assert (E : next = fold_left next_of ts timerclear).
  { unfold next, trdp_pdCheckPending, ts. cbn [fst nextJob set_nextJob].
    by rewrite fold_next_rcv, fold_next_snd, fold_left_app. }
  split; intros Hn; rewrite E; [by rewrite Hn|].
  destruct ts as [|t ts']; [done|]. inversion Hts as [|? ? [Ht Hs] Hts']; subst.
  cbn [fold_left]. assert (next_of timerclear t = t) as ->.
  { unfold next_of, earlier. assert (timerisset timerclear = false) as -> by reflexivity.
    by rewrite orb_true_r. }
  destruct (fold_next_min ts' t Hts' Ht Hs) as (H1 & _ & _ & H4 & H5).
  split; [destruct H1 as [->|H1]; [by left|by right]|]. constructor; [lia|done].
Qed.
