(* ===== verification/TauMarshall.v ===== *)
(** * Marshalling of datasets

    Models src/app/trdp/tcnopen/tau_marshall.c. Host memory is a function from addresses to bytes
    (a little endian host, natural alignment); a wire message is a list of bytes. The recursion over
    nested datasets carries the level the code counts in [pInfo->level]: [marshallDs n] runs with
    [n] levels left, so 5 levels at the top, and reports TRDP_STATE_ERR with none left. The pointers
    [pSrc] and [pDst] of the code are, on the host side, addresses and, on the wire side, positions;
    the local copies of them agree with the fields of [pInfo] wherever the code can return. The
    cache [pCachedDS] of an element only repeats [findDs] and is left out. [qsort] and [bsearch] are
    the C library's: sorting by [merge_sort], and the first match. *)
From stdpp Require Import sorting.
From S2P Require Import Prelude Bytes TrdpTypes.

Definition TAU_MAX_DS_LEVEL : nat := 5.
Definition TDRP_VAR_SIZE : Z := 0.
Definition TRDP_TYPE_MAX : Z := 30.

(** [TRDP_DATASET_ELEMENT_T] and [TRDP_DATASET_T] ([numElement] is the length). *)
Record TRDP_DATASET_ELEMENT_T := mkEl { el_type : Z; el_size : Z }.
Record TRDP_DATASET_T := mkDs { ds_id : Z; pElement : list TRDP_DATASET_ELEMENT_T }.
Record TRDP_COMID_DSID_MAP_T := mkMap { map_comId : Z; map_dsId : Z }.

(** The groups of basic types the [switch] distinguishes. *)
Inductive type_group := G8 | G16 | G32 | GTime48 | GTime64 | G64 | GOther.

Definition group_of (t : Z) : type_group :=
  if (t =? 1) || (t =? 2) || (t =? 4) || (t =? 8) then G8
  else if (t =? 3) || (t =? 5) || (t =? 9) then G16
  else if (t =? 6) || (t =? 10) || (t =? 12) || (t =? 14) then G32
  else if t =? 15 then GTime48
  else if t =? 16 then GTime64
  else if (t =? 7) || (t =? 11) || (t =? 13) then G64
  else GOther.

Definition alignePtr (pSrc alignment : Z) : Z :=
  let a := alignment - 1 in (pSrc + a) &&& Z.lnot a.

(** ** Host memory *)

(** The word of [w] bytes at [p], most significant byte first. *)
Definition load (mem : Z -> Z) (p : Z) (w : nat) : list Z :=
  map (fun i => mem (p + Z.of_nat (w - 1 - i))) (seq 0 w).

(** Storing the word given by its bytes, most significant first. *)
Definition store (p : Z) (bs : list Z) (mem : Z -> Z) : Z -> Z :=
  fun a => if (p <=? a) && (a <? p + Z.of_nat (length bs))
           then nth (Z.to_nat (p + Z.of_nat (length bs) - 1 - a)) bs 0 else mem a.

(** [n] consecutive words of [w] bytes. *)
Fixpoint pack (mem : Z -> Z) (w : nat) (n : nat) (p : Z) : list Z :=
  match n with
  | O => []
  | S n' => load mem p w ++ pack mem w n' (p + Z.of_nat w)
  end.

(** The items of [TIMEDATE48], a word and a half word in a struct of eight bytes. *)
Fixpoint pack48 (mem : Z -> Z) (n : nat) (p : Z) : Z * list Z :=
  match n with
  | O => (p, [])
  | S n' =>
      let q := alignePtr p 4 in
      let '(p', bs) := pack48 mem n' (q + 8) in
      (p', load mem q 4 ++ load mem (alignePtr (q + 4) 2) 2 ++ bs)
  end.

(** ** Marshalling *)
Record m_state := mkM { m_src : Z; m_out : list Z }.

(** One element of a basic type: result, state and [var_size]. *)
Definition marshall_leaf (mem : Z -> Z) (room : Z) (t items var : Z) (st : m_state)
  : TRDP_ERR_T * m_state * Z :=
  let n := Z.to_nat items in
  let fits w := Z.of_nat (length (m_out st)) + u32 (items * w) <=? room in
  let words w p (k : nat) var' :=
    if fits (Z.of_nat w * Z.of_nat k)
    then (TRDP_NO_ERR, mkM (p + items * (Z.of_nat w * Z.of_nat k)) (m_out st ++ pack mem w (n * k) p), var')
    else (TRDP_PARAM_ERR, st, var') in
  let p := m_src st in
  match group_of t with
  | G8 => words 1%nat p 1%nat (be_value (load mem p 1))
  | G16 => let p := alignePtr p 2 in words 2%nat p 1%nat (be_value (load mem p 2))
  | G32 => let p := alignePtr p 4 in words 4%nat p 1%nat (be_value (load mem p 4))
  | GTime64 => words 4%nat (alignePtr p 4) 2%nat var
  | GTime48 =>
      if fits 6 then let '(p', bs) := pack48 mem n p in (TRDP_NO_ERR, mkM p' (m_out st ++ bs), var)
      else (TRDP_PARAM_ERR, st, var)
  | G64 => words 8%nat (alignePtr p 8) 1%nat var
  | GOther => (TRDP_NO_ERR, st, var)
  end.

(** [while (noOfItems-- > 0)] with a body that may fail. *)
Fixpoint repeat_ds {S} (f : S -> TRDP_ERR_T * S) (n : nat) (st : S) : TRDP_ERR_T * S :=
  match n with
  | O => (TRDP_NO_ERR, st)
  | Datatypes.S n' => match f st with
                      | (TRDP_NO_ERR, st') => repeat_ds f n' st'
                      | r => r
                      end
  end.

(** The loop over the elements of a dataset, shared by the three traversals: it goes on while the
    source is not exhausted; [nested] handles a dataset, [leaf] an element of a basic type. *)
Fixpoint ds_loop {S} (src : S -> Z) (srcEnd : Z) (nested : Z -> S -> TRDP_ERR_T * S)
    (leaf : Z -> Z -> Z -> S -> TRDP_ERR_T * S * Z)
    (els : list TRDP_DATASET_ELEMENT_T) (var : Z) (st : S) : TRDP_ERR_T * S :=
  let finish := (if src st >? srcEnd then TRDP_MARSHALLING_ERR else TRDP_NO_ERR, st) in
  match els with
  | [] => finish
  | e :: els' =>
      if srcEnd >? src st then
        let items := if el_size e =? TDRP_VAR_SIZE then var else el_size e in
        if el_type e >? TRDP_TYPE_MAX then
          match repeat_ds (nested (el_type e)) (Z.to_nat items) st with
          | (TRDP_NO_ERR, st') => ds_loop src srcEnd nested leaf els' var st'
          | r => r
          end
        else
          match leaf (el_type e) items var st with
          | (TRDP_NO_ERR, st', var') => ds_loop src srcEnd nested leaf els' var' st'
          | (err, st', _) => (err, st')
          end
      else finish
  end.

(** The recursion: [n] levels are left. *)
Fixpoint walk {S} (findDs : Z -> option TRDP_DATASET_T) (src : S -> Z) (srcEnd : Z)
    (leaf : Z -> Z -> Z -> S -> TRDP_ERR_T * S * Z) (n : nat) (ds : TRDP_DATASET_T) (st : S)
  : TRDP_ERR_T * S :=
  match n with
  | O => (TRDP_STATE_ERR, st)
  | Datatypes.S n' =>
      ds_loop src srcEnd
        (fun id st => match findDs id with
                      | None => (TRDP_COMID_ERR, st)
                      | Some d => walk findDs src srcEnd leaf n' d st
                      end) leaf (pElement ds) 0 st
  end.

Definition marshallDs (findDs : Z -> option TRDP_DATASET_T) (mem : Z -> Z) (srcEnd room : Z)
    (n : nat) (ds : TRDP_DATASET_T) (st : m_state) : TRDP_ERR_T * m_state :=
  walk findDs m_src srcEnd (marshall_leaf mem room) n ds st.

(** ** Unmarshalling *)
Record u_state := mkU { u_src : Z; u_dst : Z; u_mem : Z -> Z }.

(** The [w] bytes at position [pos] of the message. *)
Definition wire_word (wire : list Z) (pos : Z) (w : nat) : list Z :=
  map (fun i => nth (Z.to_nat pos + i) wire 0) (seq 0 w).

(** [n] words of [w] bytes from the wire to consecutive addresses from [q] on. *)
Fixpoint unpack (wire : list Z) (w n : nat) (pos q : Z) (mem : Z -> Z) : Z -> Z :=
  match n with
  | O => mem
  | S n' => unpack wire w n' (pos + Z.of_nat w) (q + Z.of_nat w)
              (store q (wire_word wire pos w) mem)
  end.

Fixpoint unpack48 (wire : list Z) (n : nat) (pos q : Z) (mem : Z -> Z) : Z * (Z -> Z) :=
  match n with
  | O => (q, mem)
  | S n' =>
      let q1 := alignePtr q 4 in
      let mem1 := store q1 (wire_word wire pos 4) mem in
      let mem2 := store (alignePtr (q1 + 4) 2) (wire_word wire (pos + 4) 2) mem1 in
      unpack48 wire n' (pos + 6) (q1 + 8) mem2
  end.

(** The last word read is the size of a variable size element that follows. *)
Definition last_word (wire : list Z) (pos items w var : Z) : Z :=
  if items =? 0 then var else be_value (wire_word wire (pos + (items - 1) * w) (Z.to_nat w)).

Definition unmarshall_leaf (wire : list Z) (dstEnd : Z) (t items var : Z) (st : u_state)
  : TRDP_ERR_T * u_state * Z :=
  let n := Z.to_nat items in
  let pos := u_src st in
  let fits w := u_dst st + u32 (items * w) <=? dstEnd in
  let words w q (k : nat) var' :=
    let b := Z.of_nat w * Z.of_nat k in
    if fits b
    then (TRDP_NO_ERR, mkU (pos + items * b) (q + items * b) (unpack wire w (n * k) pos q (u_mem st)), var')
    else (TRDP_PARAM_ERR, st, var) in
  match group_of t with
  | G8 => words 1%nat (u_dst st) 1%nat (last_word wire pos items 1 var)
  | G16 => words 2%nat (alignePtr (u_dst st) 2) 1%nat (last_word wire pos items 2 var)
  | G32 => words 4%nat (alignePtr (u_dst st) 4) 1%nat (last_word wire pos items 4 var)
  | GTime64 =>
      words 4%nat (if items =? 0 then u_dst st else alignePtr (u_dst st) 4) 2%nat var
  | GTime48 =>
      if fits 6
      then let '(q, mem) := unpack48 wire n pos (u_dst st) (u_mem st) in
           (TRDP_NO_ERR, mkU (pos + items * 6) q mem, var)
      else (TRDP_PARAM_ERR, st, var)
  | G64 => words 8%nat (alignePtr (u_dst st) 8) 1%nat var
  | GOther => (TRDP_NO_ERR, st, var)
  end.

Definition unmarshallDs (findDs : Z -> option TRDP_DATASET_T) (wire : list Z) (srcEnd dstEnd : Z)
    (n : nat) (ds : TRDP_DATASET_T) (st : u_state) : TRDP_ERR_T * u_state :=
  walk findDs u_src srcEnd (unmarshall_leaf wire dstEnd) n ds st.

(** ** The size of the unmarshalled data *)
Record z_state := mkZ { z_src : Z; z_dst : Z }.

(** Little endian: the size of a variable size element is read without swapping its bytes. *)
Definition host_word (wire : list Z) (pos : Z) (w : nat) : Z := be_value (rev (wire_word wire pos w)).

Definition size_leaf (wire : list Z) (t items var : Z) (st : z_state) : TRDP_ERR_T * z_state * Z :=
  let pos := z_src st in
  let q := z_dst st in
  let n := Z.to_nat items in
  match group_of t with
  | G8 => (TRDP_NO_ERR, mkZ (pos + items) (q + items), host_word wire pos 1)
  | G16 => (TRDP_NO_ERR, mkZ (pos + items * 2) (alignePtr q 2 + items * 2), host_word wire pos 2)
  | G32 => (TRDP_NO_ERR, mkZ (pos + items * 4) (alignePtr q 4 + items * 4), host_word wire pos 4)
  | GTime48 => (TRDP_NO_ERR, mkZ (pos + items * 6) (Nat.iter n (fun q => alignePtr q 4 + 6) q), var)
  | GTime64 => (TRDP_NO_ERR, mkZ (pos + items * 8) (Nat.iter n (fun q => alignePtr (alignePtr q 4 + 4) 4) q), var)
  | G64 => (TRDP_NO_ERR, mkZ (pos + items * 8) (Nat.iter n (fun q => alignePtr q 8 + 8) q), var)
  | GOther => (TRDP_NO_ERR, st, var)
  end.

Definition size_unmarshall (findDs : Z -> option TRDP_DATASET_T) (wire : list Z) (srcEnd : Z)
    (n : nat) (ds : TRDP_DATASET_T) (st : z_state) : TRDP_ERR_T * z_state :=
  walk findDs z_src srcEnd (size_leaf wire) n ds st.

(** ** The tables *)
Record marshall_db := mkDb { sComIdDsIdMap : list TRDP_COMID_DSID_MAP_T; sDataSets : list TRDP_DATASET_T }.

Definition compareDataset (p1 p2 : TRDP_DATASET_T) : Z :=
  if ds_id p1 <? ds_id p2 then -1 else if ds_id p1 >? ds_id p2 then 1 else 0.
Definition compareDatasetDeref (key : Z) (p2 : TRDP_DATASET_T) : Z :=
  if key <? ds_id p2 then -1 else if key >? ds_id p2 then 1 else 0.
Definition compareComId (p1 p2 : TRDP_COMID_DSID_MAP_T) : Z :=
  if map_comId p1 <? map_comId p2 then -1 else if map_comId p1 >? map_comId p2 then 1 else 0.

Definition findDs (db : marshall_db) (datasetId : Z) : option TRDP_DATASET_T :=
  find (fun d => compareDatasetDeref datasetId d =? 0) (sDataSets db).

Definition findDSFromComId (db : marshall_db) (c : Z) : option TRDP_DATASET_T :=
  match find (fun m => compareComId (mkMap c 0) m =? 0) (sComIdDsIdMap db) with
  | None => None
  | Some m => findDs db (map_dsId m)
  end.

Definition comId_le (a b : TRDP_COMID_DSID_MAP_T) : Prop := compareComId a b <= 0.
Definition dataset_le (a b : TRDP_DATASET_T) : Prop := compareDataset a b <= 0.
#[export] Instance comId_le_dec a b : Decision (comId_le a b) := Z_le_dec _ _.
#[export] Instance dataset_le_dec a b : Decision (dataset_le a b) := Z_le_dec _ _.

Definition tau_initMarshall (pComIdDsIdMap : option (list TRDP_COMID_DSID_MAP_T))
    (pDataset : option (list TRDP_DATASET_T)) (db : marshall_db) : TRDP_ERR_T * marshall_db :=
  match pDataset, pComIdDsIdMap with
  | Some ((_ :: _) as d), Some ((_ :: _) as m) =>
      (TRDP_NO_ERR, mkDb (merge_sort comId_le m) (merge_sort dataset_le d))
  | _, _ => (TRDP_PARAM_ERR, db)
  end.

(** ** The entry points *)

(** The dataset a call works on, and the cached one it leaves in [*ppDSPointer]: [ppDS] is [None] for
    a NULL [ppDSPointer], otherwise [Some] of its content. *)
Definition cached_ds (lookup : option TRDP_DATASET_T) (ppDS : option (option TRDP_DATASET_T))
  : option TRDP_DATASET_T * option (option TRDP_DATASET_T) :=
  match ppDS with
  | Some (Some d) => (Some d, ppDS)
  | Some None => (lookup, Some lookup)
  | None => (lookup, None)
  end.

(** A marshalling call on the host data at address [p], [srcSize] bytes, into [room] bytes (an
    [option]: NULL): result, message, [*pDestSize], cache. [lookup] is the dataset of the [id]. *)
Definition marshall_call (db : marshall_db) (lookup : option TRDP_DATASET_T) (id : Z)
    (mem : option (Z -> Z)) (p srcSize : Z) (room : option Z) (ppDS : option (option TRDP_DATASET_T))
  : TRDP_ERR_T * list Z * option Z * option (option TRDP_DATASET_T) :=
  match mem, room with
  | Some mem, Some r =>
      if (id =? 0) || (r =? 0) then (TRDP_PARAM_ERR, [], room, ppDS)
      else
        let '(ds, ppDS') := cached_ds lookup ppDS in
        match ds with
        | None => (TRDP_COMID_ERR, [], room, ppDS')
        | Some ds =>
            let '(err, st) := marshallDs (findDs db) mem (p + srcSize) r TAU_MAX_DS_LEVEL ds (mkM p []) in
            (err, m_out st, Some (u32 (Z.of_nat (length (m_out st)))), ppDS')
        end
  | _, _ => (TRDP_PARAM_ERR, [], room, ppDS)
  end.

Definition tau_marshall (db : marshall_db) (comId : Z) :=
  marshall_call db (findDSFromComId db comId) comId.
Definition tau_marshallDs (db : marshall_db) (dsId : Z) :=
  marshall_call db (findDs db dsId) dsId.

(** An unmarshalling call on the message [wire] into [room] bytes of the memory at [q]. *)
Definition unmarshall_call (db : marshall_db) (lookup : option TRDP_DATASET_T) (id : Z)
    (wire : option (list Z)) (q : Z) (mem : Z -> Z) (room : option Z)
    (ppDS : option (option TRDP_DATASET_T))
  : TRDP_ERR_T * (Z -> Z) * option Z * option (option TRDP_DATASET_T) :=
  match wire, room with
  | Some wire, Some r =>
      if (id =? 0) || (r =? 0) then (TRDP_PARAM_ERR, mem, room, ppDS)
      else
        let '(ds, ppDS') := cached_ds lookup ppDS in
        match ds with
        | None => (TRDP_COMID_ERR, mem, room, ppDS')
        | Some ds =>
            let '(err, st) := unmarshallDs (findDs db) wire (Z.of_nat (length wire)) (q + r)
                                TAU_MAX_DS_LEVEL ds (mkU 0 q mem) in
            (err, u_mem st, Some (u32 (u_dst st - q)), ppDS')
        end
  | _, _ => (TRDP_PARAM_ERR, mem, room, ppDS)
  end.

Definition tau_unmarshall (db : marshall_db) (comId : Z) :=
  unmarshall_call db (findDSFromComId db comId) comId.
Definition tau_unmarshallDs (db : marshall_db) (dsId : Z) :=
  unmarshall_call db (findDs db dsId) dsId.

Definition size_call (db : marshall_db) (lookup : option TRDP_DATASET_T) (id : Z)
    (wire : option (list Z)) (ppDS : option (option TRDP_DATASET_T))
  : TRDP_ERR_T * option Z * option (option TRDP_DATASET_T) :=
  match wire with
  | None => (TRDP_PARAM_ERR, None, ppDS)
  | Some wire =>
      if id =? 0 then (TRDP_PARAM_ERR, None, ppDS)
      else
        let '(ds, ppDS') := cached_ds lookup ppDS in
        match ds with
        | None => (TRDP_COMID_ERR, None, ppDS')
        | Some ds =>
            let '(err, st) := size_unmarshall (findDs db) wire (Z.of_nat (length wire))
                                TAU_MAX_DS_LEVEL ds (mkZ 0 0) in
            (err, Some (u32 (z_dst st)), ppDS')
        end
  end.

Definition tau_calcDatasetSize (db : marshall_db) (dsId : Z) := size_call db (findDs db dsId) dsId.
Definition tau_calcDatasetSizeByComId (db : marshall_db) (comId : Z) :=
  size_call db (findDSFromComId db comId) comId.

(** * Properties *)

(** ** Alignment *)
Lemma alignePtr_eq p k : 0 <= k -> alignePtr p (2 ^ k) = (p + 2 ^ k - 1) / 2 ^ k * 2 ^ k.
Proof.
  intros Hk. unfold alignePtr. replace (p + (2 ^ k - 1)) with (p + 2 ^ k - 1) by lia.
  rewrite <- Z.ldiff_land. replace (2 ^ k - 1) with (Z.ones k) by (rewrite Z.ones_equiv; lia).
  rewrite Z.ldiff_ones_r by lia. by rewrite Z.shiftl_mul_pow2, Z.shiftr_div_pow2.
Qed.

Definition alignment_ok (a : Z) : Prop := a = 1 \/ a = 2 \/ a = 4 \/ a = 8.

Lemma alignePtr_spec p a : alignment_ok a ->
  p <= alignePtr p a < p + a /\ alignePtr p a mod a = 0.
Proof.
  intros [-> |[-> |[-> | ->]]].
  - pose proof (alignePtr_eq p 0 ltac:(lia)) as E. change (2 ^ 0) with 1 in E.
    rewrite E. split; [dlia|apply Z.mod_mul; lia].
  - pose proof (alignePtr_eq p 1 ltac:(lia)) as E. change (2 ^ 1) with 2 in E.
    rewrite E. split; [dlia|apply Z.mod_mul; lia].
  - pose proof (alignePtr_eq p 2 ltac:(lia)) as E. change (2 ^ 2) with 4 in E.
    rewrite E. split; [dlia|apply Z.mod_mul; lia].
  - pose proof (alignePtr_eq p 3 ltac:(lia)) as E. change (2 ^ 3) with 8 in E.
    rewrite E. split; [dlia|apply Z.mod_mul; lia].
Qed.

Lemma alignePtr_id p a : alignment_ok a -> p mod a = 0 -> alignePtr p a = p.
Proof.
  intros Ha Hp. destruct (alignePtr_spec p a Ha) as [H1 H2].
  destruct Ha as [-> |[-> |[-> | ->]]]; dlia.
Qed.

(** ** Memory *)
Lemma length_load mem p w : length (load mem p w) = w.
Proof. unfold load. by rewrite length_map, length_seq. Qed.

Lemma load_ext m m' p w : (forall a, p <= a < p + Z.of_nat w -> m a = m' a) -> load m p w = load m' p w.
Proof.
  intros H. apply map_ext_in. intros i Hi. apply in_seq in Hi. apply H. lia.
Qed.

Lemma load_store_same p bs mem : load (store p bs mem) p (length bs) = bs.
Proof.
  apply list_eq_same_length with (length bs); [done|by rewrite length_load|].
  intros i x y Hi Hx Hy. unfold load in Hx.
  change (map ?f ?l) with (f <$> l) in Hx. rewrite list_lookup_fmap in Hx.
  rewrite lookup_seq_lt in Hx by lia. injection Hx as <-. unfold store.
  assert (((p <=? p + Z.of_nat (length bs - 1 - i))
           && (p + Z.of_nat (length bs - 1 - i) <? p + Z.of_nat (length bs))) = true) as ->
    by (apply andb_true_intro; split; [apply Z.leb_le|apply Z.ltb_lt]; lia).
  replace (Z.to_nat _) with i by lia. by apply nth_lookup_Some.
Qed.

Lemma store_other p bs mem a : a < p \/ p + Z.of_nat (length bs) <= a -> store p bs mem a = mem a.
Proof.
  intros H. unfold store. destruct (_ && _) eqn:E; [|done]. bprop. lia.
Qed.

Lemma pack_ext m m' w n : forall p,
  (forall a, p <= a < p + Z.of_nat (w * n) -> m a = m' a) -> pack m w n p = pack m' w n p.
Proof.
  induction n as [|n IH]; intros p H; cbn [pack]; [done|]. rewrite Nat.mul_succ_r in H. f_equal.
  - apply load_ext. intros a Ha. apply H. lia.
  - apply IH. intros a Ha. apply H. lia.
Qed.

Lemma length_pack m w n : forall p, length (pack m w n p) = (w * n)%nat.
Proof.
  induction n as [|n IH]; intros p; cbn [pack]; [cbn; lia|]. rewrite length_app, length_load, IH. lia.
Qed.

Lemma length_wire_word wire pos w : length (wire_word wire pos w) = w.
Proof. unfold wire_word. by rewrite length_map, length_seq. Qed.

Lemma wire_word_app wire pos a b : 0 <= pos ->
  wire_word wire pos a ++ wire_word wire (pos + Z.of_nat a) b = wire_word wire pos (a + b).
Proof.
  intros Hp. unfold wire_word. rewrite seq_app, map_app. f_equal.
  replace (seq (0 + a) b) with (map (Nat.add a) (seq 0 b))
    by (change (map ?f ?l) with (f <$> l); rewrite fmap_add_seq; f_equal; lia).
  rewrite map_map. apply map_ext. intros i. f_equal. lia.
Qed.

Lemma wire_word_all wire : wire_word wire 0 (length wire) = wire.
Proof.
  apply list_eq. intros i. unfold wire_word. change (map ?f ?l) with (f <$> l).
  rewrite list_lookup_fmap. destruct (Nat.lt_ge_cases i (length wire)) as [H|H].
  - rewrite lookup_seq_lt by done. cbn. destruct (lookup_lt_is_Some_2 wire i H) as [x Hx].
    rewrite Hx. f_equal. by apply nth_lookup_Some.
  - rewrite lookup_seq_ge by done. symmetry. by apply lookup_ge_None.
Qed.

(** What [unpack] leaves in memory: the words of the message, nothing elsewhere. *)
Lemma unpack_spec wire w n : forall pos q mem, 0 <= pos ->
  let mem' := unpack wire w n pos q mem in
  pack mem' w n q = wire_word wire pos (w * n)
  /\ (forall a, a < q \/ q + Z.of_nat (w * n) <= a -> mem' a = mem a).
Proof.
  induction n as [|n IH]; intros pos q mem Hp; cbn [unpack pack].
  - rewrite Nat.mul_0_r. auto.
  - destruct (IH (pos + Z.of_nat w) (q + Z.of_nat w) (store q (wire_word wire pos w) mem)) as [H1 H2]; [lia|].
    set (mem' := unpack wire w n _ _ _) in *. split.
    + rewrite H1. replace (w * S n)%nat with (w + w * n)%nat by lia.
      rewrite <- wire_word_app by done. f_equal.
      transitivity (load (store q (wire_word wire pos w) mem) q w).
      * apply load_ext. intros a Ha. apply H2. lia.
      * pose proof (load_store_same q (wire_word wire pos w) mem) as E.
        by rewrite length_wire_word in E.
    + intros a Ha. rewrite Nat.mul_succ_r in Ha. rewrite H2 by lia. apply store_other.
      rewrite length_wire_word. lia.
Qed.

(** The same for the items of TIMEDATE48. *)
Lemma pack48_ext m m' n : forall p, (forall a, p <= a < fst (pack48 m n p) -> m a = m' a) ->
  pack48 m n p = pack48 m' n p.
Proof.
  induction n as [|n IH]; intros p H; cbn [pack48] in *; [done|].
  pose proof (alignePtr_spec p 4 ltac:(unfold alignment_ok; auto)) as [A1 _].
  assert (Hmono : forall p0, p0 <= fst (pack48 m n p0)).
  { clear. induction n as [|n IH]; intros p0; cbn [pack48]; [cbn; lia|].
    pose proof (alignePtr_spec p0 4 ltac:(unfold alignment_ok; auto)) as [A1 _].
    specialize (IH (alignePtr p0 4 + 8)). destruct (pack48 _ _ _). cbn in *. lia. }
  specialize (Hmono (alignePtr p 4 + 8)). specialize (IH (alignePtr p 4 + 8)).
  destruct (pack48 m n (alignePtr p 4 + 8)) as [p' bs]. cbn [fst] in *.
  rewrite <- IH by (intros a Ha; apply H; lia).
  assert (A2 : alignePtr (alignePtr p 4 + 4) 2 = alignePtr p 4 + 4).
  { apply alignePtr_id; [unfold alignment_ok; auto|].
    pose proof (alignePtr_spec p 4 ltac:(unfold alignment_ok; auto)) as [_ A3]. dlia. }
  rewrite A2. f_equal. f_equal; [|f_equal]; apply load_ext; intros a Ha; apply H; lia.
Qed.

Definition end48 (n : nat) (p : Z) : Z := Nat.iter n (fun q => alignePtr q 4 + 8) p.

Lemma end48_S n p : end48 (S n) p = end48 n (alignePtr p 4 + 8).
Proof. unfold end48. by rewrite Nat.iter_succ_r. Qed.

Lemma pack48_end m n : forall p, fst (pack48 m n p) = end48 n p /\ length (snd (pack48 m n p)) = (6 * n)%nat.
Proof.
  induction n as [|n IH]; intros p; cbn [pack48]; [done|]. rewrite end48_S.
  specialize (IH (alignePtr p 4 + 8)). destruct (pack48 m n _) as [p' bs]. cbn [fst snd] in *.
  rewrite !length_app, !length_load. destruct IH as [-> ->]. split; [done|lia].
Qed.

Lemma end48_ge n : forall p, p <= end48 n p /\ ((0 < n)%nat -> p < end48 n p).
Proof.
  induction n as [|n IH]; intros p; [change (end48 0 p) with p; lia|]. rewrite end48_S.
  pose proof (alignePtr_spec p 4 ltac:(unfold alignment_ok; auto)) as [A1 _].
  specialize (IH (alignePtr p 4 + 8)). lia.
Qed.

Lemma unpack48_spec wire n : forall pos q mem, 0 <= pos ->
  let '(q', mem') := unpack48 wire n pos q mem in
  pack48 mem' n q = (q', wire_word wire pos (6 * n)) /\ q' = end48 n q
  /\ (forall a, a < q \/ q' <= a -> mem' a = mem a).
Proof.
  induction n as [|n IH]; intros pos q mem Hp; cbn [unpack48 pack48]; [done|].
  pose proof (alignePtr_spec q 4 ltac:(unfold alignment_ok; auto)) as [A1 A3].
  set (q1 := alignePtr q 4) in *.
  assert (A2 : alignePtr (q1 + 4) 2 = q1 + 4) by (apply alignePtr_id; [unfold alignment_ok; auto|dlia]).
  rewrite A2. set (mem2 := store (q1 + 4) _ _).
  specialize (IH (pos + 6) (q1 + 8) mem2 ltac:(lia)).
  destruct (unpack48 wire n (pos + 6) (q1 + 8) mem2) as [q' mem']. destruct IH as (H1 & H2 & H3).
  rewrite H1, end48_S. fold q1. split; [|split; [exact H2|]].
  - f_equal. assert (L4 : load mem' q1 4 = wire_word wire pos 4).
    { transitivity (load (store q1 (wire_word wire pos 4) mem) q1 4).
      - apply load_ext. intros a Ha. rewrite H3 by lia. unfold mem2. apply store_other.
        rewrite length_wire_word. lia.
      - apply (load_store_same q1 (wire_word wire pos 4)). }
    assert (L2 : load mem' (q1 + 4) 2 = wire_word wire (pos + 4) 2).
    { transitivity (load mem2 (q1 + 4) 2).
      - apply load_ext. intros a Ha. apply H3. lia.
      - apply (load_store_same (q1 + 4) (wire_word wire (pos + 4) 2)). }
    rewrite L4, L2, app_assoc. change 4 with (Z.of_nat 4) at 1.
    rewrite wire_word_app by done. change (pos + 6) with (pos + Z.of_nat (4 + 2)).
    rewrite wire_word_app by done. f_equal. lia.
  - intros a Ha. destruct (end48_ge n (q1 + 8)) as [G _].
    rewrite H3 by lia. unfold mem2. rewrite !store_other; [done|rewrite length_wire_word; lia..].
Qed.

(** ** Datasets of basic types with fixed sizes *)
Definition fixed (e : TRDP_DATASET_ELEMENT_T) : Prop :=
  group_of (el_type e) <> GOther /\ el_type e <= TRDP_TYPE_MAX /\ 1 <= el_size e < 2 ^ 28.

(** Alignment, word size and words per item of a group (TIMEDATE48 apart). *)
Definition shape (g : type_group) : Z * nat * nat :=
  match g with
  | G16 => (2, 2%nat, 1%nat)
  | G32 => (4, 4%nat, 1%nat)
  | GTime64 => (4, 4%nat, 2%nat)
  | G64 => (8, 8%nat, 1%nat)
  | _ => (1, 1%nat, 1%nat)
  end.

(** The wire bytes of an element laid out in memory from address [p] on, their number, and the
    address after it. *)
Definition el_bytes (mem : Z -> Z) (e : TRDP_DATASET_ELEMENT_T) (p : Z) : list Z :=
  let n := Z.to_nat (el_size e) in
  match group_of (el_type e) with
  | GTime48 => snd (pack48 mem n p)
  | g => let '(a, w, k) := shape g in pack mem w (n * k) (alignePtr p a)
  end.

Definition el_len (e : TRDP_DATASET_ELEMENT_T) : nat :=
  let n := Z.to_nat (el_size e) in
  match group_of (el_type e) with
  | GTime48 => 6 * n
  | g => let '(_, w, k) := shape g in w * (n * k)
  end.

Definition el_end (e : TRDP_DATASET_ELEMENT_T) (p : Z) : Z :=
  match group_of (el_type e) with
  | GTime48 => end48 (Z.to_nat (el_size e)) p
  | g => let '(a, w, k) := shape g in alignePtr p a + el_size e * (Z.of_nat w * Z.of_nat k)
  end.

Lemma shape_align g : alignment_ok (fst (fst (shape g))).
Proof. unfold alignment_ok. destruct g; cbn; auto. Qed.

Lemma el_facts mem e p : fixed e ->
  length (el_bytes mem e p) = el_len e /\ p < el_end e p /\ (0 < el_len e)%nat
  /\ p + Z.of_nat (el_len e) <= el_end e p.
Proof.
  intros (Hg & _ & Hn). unfold el_bytes, el_len, el_end.
  assert (H48 : forall n p, p + Z.of_nat (6 * n) <= end48 n p).
  { clear. induction n as [|n IH]; intros p; [change (end48 0 p) with p; lia|]. rewrite end48_S.
    pose proof (alignePtr_spec p 4 ltac:(unfold alignment_ok; auto)) as [A1 _].
    specialize (IH (alignePtr p 4 + 8)). lia. }
  pose proof (shape_align (group_of (el_type e))) as Ha. destruct (group_of (el_type e)) eqn:E; try done.
  all: try (destruct (pack48_end mem (Z.to_nat (el_size e)) p) as [_ ->];
            destruct (end48_ge (Z.to_nat (el_size e)) p) as [_ H]; specialize (H48 (Z.to_nat (el_size e)) p);
            split_and!; [done|apply H; lia|lia|lia]).
  all: cbn [shape fst] in *; rewrite length_pack;
    match goal with |- context [alignePtr ?x ?a] => destruct (alignePtr_spec x a Ha) as [A1 _] end;
    split_and!; [done|lia|lia|lia].
Qed.

Lemma el_bytes_ext m m' e p : (forall a, p <= a < el_end e p -> m a = m' a) ->
  el_bytes m e p = el_bytes m' e p.
Proof.
  intros H. unfold el_bytes, el_end in *. pose proof (shape_align (group_of (el_type e))) as Ha.
  destruct (group_of (el_type e)) eqn:E.
  all: try (rewrite (pack48_ext m m'); [done|]; destruct (pack48_end m (Z.to_nat (el_size e)) p) as [-> _]; exact H).
  all: cbn [shape fst] in *; apply pack_ext; intros a Hr; apply H;
    match goal with |- context [alignePtr ?x ?a] => destruct (alignePtr_spec x a Ha) as [A1 _] end; lia.
Qed.

(** One element marshalled: its bytes are appended. *)
Lemma marshall_leaf_spec mem room e var st : fixed e ->
  Z.of_nat (length (m_out st)) + Z.of_nat (el_len e) <= room ->
  exists var', marshall_leaf mem room (el_type e) (el_size e) var st
    = (TRDP_NO_ERR, mkM (el_end e (m_src st)) (m_out st ++ el_bytes mem e (m_src st)), var').
Proof.
  intros (Hg & _ & Hn) Hroom. unfold marshall_leaf, el_bytes, el_len, el_end in *.
  assert (A1 : alignePtr (m_src st) 1 = m_src st).
  { pose proof (alignePtr_spec (m_src st) 1 ltac:(unfold alignment_ok; auto)). lia. }
  destruct (group_of (el_type e)) eqn:E; try done; cbn [shape] in *; rewrite ?A1.
  4: { rewrite u32_small by lia. destruct (_ <=? _) eqn:El; [|bprop; lia].
       destruct (pack48_end mem (Z.to_nat (el_size e)) (m_src st)) as [F _].
       destruct (pack48 _ _ _) as [p' bs]. cbn [fst snd] in *. rewrite F. eauto. }
  all: rewrite u32_small by lia; destruct (_ <=? _) eqn:El; [|bprop; lia]; eauto.
Qed.

(** One element unmarshalled: it is laid out at the destination as on the wire. *)
Lemma unmarshall_leaf_spec wire dstEnd e st : fixed e -> 0 <= u_src st ->
  el_end e (u_dst st) <= dstEnd ->
  exists mem', (forall var, exists var', unmarshall_leaf wire dstEnd (el_type e) (el_size e) var st
    = (TRDP_NO_ERR, mkU (u_src st + Z.of_nat (el_len e)) (el_end e (u_dst st)) mem', var'))
    /\ el_bytes mem' e (u_dst st) = wire_word wire (u_src st) (el_len e)
    /\ (forall a, a < u_dst st \/ el_end e (u_dst st) <= a -> mem' a = u_mem st a).
Proof.
  intros Hf Hpos Hend. destruct (el_facts (u_mem st) e (u_dst st) Hf) as (_ & _ & _ & Hle).
  destruct Hf as (Hg & _ & Hn). unfold unmarshall_leaf, el_bytes, el_len, el_end in *.
  assert (A1 : alignePtr (u_dst st) 1 = u_dst st).
  { pose proof (alignePtr_spec (u_dst st) 1 ltac:(unfold alignment_ok; auto)). lia. }
  pose proof (shape_align (group_of (el_type e))) as Ha.
  pose proof (fun w n q m => unpack_spec wire w n (u_src st) q m Hpos) as US.
  assert (Hne : (el_size e =? 0) = false) by (apply Z.eqb_neq; lia).
  destruct (group_of (el_type e)) eqn:E; try done; cbn [shape fst] in *; rewrite ?A1, ?Hne in *.
  4: { rewrite u32_small by lia. destruct (_ <=? _) eqn:El; [|bprop; lia].
       pose proof (unpack48_spec wire (Z.to_nat (el_size e)) (u_src st) (u_dst st) (u_mem st) Hpos) as S.
       destruct (unpack48 _ _ _ _ _) as [q mem]. destruct S as (S1 & S2 & S3).
       exists mem. split; [|split].
       - intros var. eexists. f_equal. f_equal. f_equal; [lia|exact S2].
       - by rewrite S1.
       - intros a Ha2. apply S3. lia. }
  all: rewrite u32_small by lia; destruct (_ <=? _) eqn:El; [|bprop; lia];
    match goal with US : forall w : nat, _ |- context [unpack _ ?w ?n _ ?q ?m] =>
      destruct (US w n q m) as [S1 S2]; exists (unpack wire w n (u_src st) q m) end;
    (split; [intros var; eexists; f_equal; f_equal; f_equal; lia|]); (split; [exact S1|]);
    intros a Hlt; apply S2;
    try match goal with H : alignment_ok ?b, _ : context [alignePtr ?x ?b] |- _ =>
      destruct (alignePtr_spec x b H) as [B1 _] end; lia.
Qed.

(** A sequence of elements. *)
Fixpoint els_end (els : list TRDP_DATASET_ELEMENT_T) (p : Z) : Z :=
  match els with [] => p | e :: els' => els_end els' (el_end e p) end.
Fixpoint els_bytes (mem : Z -> Z) (els : list TRDP_DATASET_ELEMENT_T) (p : Z) : list Z :=
  match els with [] => [] | e :: els' => el_bytes mem e p ++ els_bytes mem els' (el_end e p) end.
Fixpoint els_len (els : list TRDP_DATASET_ELEMENT_T) : nat :=
  match els with [] => 0 | e :: els' => el_len e + els_len els' end.

Lemma els_end_ge els : Forall fixed els -> forall p, p <= els_end els p.
Proof.
  induction 1 as [|e els He _ IH]; intros p; cbn; [lia|].
  destruct (el_facts (fun _ => 0) e p He) as (_ & H & _ & _). specialize (IH (el_end e p)). lia.
Qed.

Lemma els_bytes_length mem els : Forall fixed els -> forall p, length (els_bytes mem els p) = els_len els.
Proof.
  induction 1 as [|e els He _ IH]; intros p; cbn; [done|].
  destruct (el_facts mem e p He) as (H & _). by rewrite length_app, H, IH.
Qed.

Lemma els_bytes_ext m m' els : Forall fixed els -> forall p,
  (forall a, p <= a < els_end els p -> m a = m' a) -> els_bytes m els p = els_bytes m' els p.
Proof.
  induction 1 as [|e els He Hels IH]; intros p H; cbn in *; [done|].
  destruct (el_facts m e p He) as (_ & H1 & _). pose proof (els_end_ge els Hels (el_end e p)).
  rewrite (el_bytes_ext m m') by (intros; apply H; lia). f_equal. apply IH. intros a Ha. apply H. lia.
Qed.

(** ** Nested datasets are their elements laid out one after the other *)
Definition flat_els (nested : Z -> option (list TRDP_DATASET_ELEMENT_T))
    (els : list TRDP_DATASET_ELEMENT_T) : option (list TRDP_DATASET_ELEMENT_T) :=
  foldr (fun e acc =>
    rest ← acc;
    if el_type e >? TRDP_TYPE_MAX then
      if el_size e =? TDRP_VAR_SIZE then None
      else f ← nested (el_type e); Some (concat (repeat f (Z.to_nat (el_size e))) ++ rest)
    else Some (e :: rest)) (Some []) els.

(** The basic elements of the dataset [id] with [n] levels left, [None] if the levels do not
    suffice, a dataset is unknown or an array of datasets has a variable size. *)
Fixpoint flat (findDs : Z -> option TRDP_DATASET_T) (n : nat) (id : Z)
  : option (list TRDP_DATASET_ELEMENT_T) :=
  match n with
  | O => None
  | S n' => d ← findDs id; flat_els (flat findDs n') (pElement d)
  end.

Section Walk.
Context {St : Type} (src : St -> Z) (srcEnd : Z)
  (leaf : Z -> Z -> Z -> St -> TRDP_ERR_T * St * Z) (findDs : Z -> option TRDP_DATASET_T).

(** The basic element [e] takes the traversal from [st] to [st']. *)
Definition step (e : TRDP_DATASET_ELEMENT_T) (st st' : St) : Prop :=
  fixed e /\ src st < src st'
  /\ forall var, exists var', leaf (el_type e) (el_size e) var st = (TRDP_NO_ERR, st', var').

Inductive run : list TRDP_DATASET_ELEMENT_T -> St -> St -> Prop :=
| run_nil st : run [] st st
| run_cons e fl st st1 st2 : step e st st1 -> run fl st1 st2 -> run (e :: fl) st st2.

Lemma run_mono fl st st' : run fl st st' -> src st <= src st' /\ (fl <> [] -> src st < src st').
Proof. induction 1 as [|e fl st st1 st2 [_ [H _]] _ [IH _]]; [split; [lia|done]|lia]. Qed.

Lemma run_app fl1 fl2 st st' : run (fl1 ++ fl2) st st' ->
  exists st1, run fl1 st st1 /\ run fl2 st1 st'.
Proof.
  revert st. induction fl1 as [|e fl1 IH]; intros st H; cbn [app] in H; [eauto using run_nil|].
  inversion H as [|? ? ? st1 ? H1 H2]; subst. destruct (IH _ H2) as (st2 & H3 & H4).
  exists st2. split; [by eapply run_cons|done].
Qed.

Lemma repeat_run n f (g : St -> TRDP_ERR_T * St) st st' :
  (forall s s', run f s s' -> src s' <= src st' -> g s = (TRDP_NO_ERR, s')) ->
  run (concat (repeat f n)) st st' -> repeat_ds g n st = (TRDP_NO_ERR, st').
Proof.
  intros Hg. revert st. induction n as [|n IH]; intros st H; cbn [repeat concat repeat_ds] in *.
  - by inversion H; subst.
  - apply run_app in H as (st1 & H1 & H2). pose proof (run_mono _ _ _ H2) as [Hm _].
    rewrite (Hg _ _ H1 Hm). by apply IH.
Qed.

Lemma loop_run (nested : Z -> St -> TRDP_ERR_T * St) nf els : forall fl var st st',
  (forall id f s s', nf id = Some f -> run f s s' -> src s' <= srcEnd -> nested id s = (TRDP_NO_ERR, s')) ->
  flat_els nf els = Some fl -> run fl st st' -> src st' <= srcEnd ->
  ds_loop src srcEnd nested leaf els var st = (TRDP_NO_ERR, st').
Proof.
  induction els as [|e els IH]; intros fl var st st' Hnest Hfl Hrun Hend; cbn [flat_els foldr] in Hfl.
  - injection Hfl as <-. inversion Hrun; subst. cbn [ds_loop].
    by rewrite Z.gtb_ltb, ((proj2 (Z.ltb_ge _ _)) Hend).
  - fold (flat_els nf els) in Hfl. destruct (flat_els nf els) as [rest|] eqn:Hrest; [|done].
    cbn [mbind option_bind] in Hfl. cbn [ds_loop]. destruct (srcEnd >? src st) eqn:Hlt.
    + rewrite Z.gtb_ltb in Hlt. bprop. destruct (el_type e >? TRDP_TYPE_MAX) eqn:Ht.
      * destruct (el_size e =? TDRP_VAR_SIZE) eqn:Hv; [done|].
        destruct (nf (el_type e)) as [f|] eqn:Hf; [|done]. injection Hfl as <-.
        apply run_app in Hrun as (st1 & H1 & H2). pose proof (run_mono _ _ _ H2) as [Hm _].
        rewrite (repeat_run _ f _ _ st1); [by eapply IH| |done].
        intros s s' Hr Hle. eapply Hnest; [done|done|lia].
      * injection Hfl as <-. inversion Hrun as [|? ? ? st1 ? H1 H2]; subst.
        destruct H1 as ((_ & _ & Hn) & _ & Hleaf).
        rewrite (proj2 (Z.eqb_neq (el_size e) TDRP_VAR_SIZE)) by (unfold TDRP_VAR_SIZE; lia).
        destruct (Hleaf var) as [var' ->]. by eapply IH.
    + rewrite Z.gtb_ltb in Hlt. bprop. destruct fl as [|x fl].
      * inversion Hrun; subst. by rewrite Z.gtb_ltb, ((proj2 (Z.ltb_ge _ _)) Hend).
      * pose proof (run_mono _ _ _ Hrun) as [_ Hm]. specialize (Hm ltac:(done)). lia.
Qed.

Lemma walk_run n : forall id ds fl st st',
  findDs id = Some ds -> flat findDs n id = Some fl -> run fl st st' -> src st' <= srcEnd ->
  walk findDs src srcEnd leaf n ds st = (TRDP_NO_ERR, st').
Proof.
  induction n as [|n IH]; intros id ds fl st st' Hds Hfl Hrun Hend; cbn [flat walk] in *; [done|].
  rewrite Hds in Hfl. cbn [mbind option_bind] in Hfl.
  eapply (loop_run _ (flat findDs n)); [|done..]. intros id' f s s' Hf Hr Hle.
  destruct (findDs id') as [d|] eqn:Hd; [by eapply IH|].
  destruct n; [done|]. cbn [flat] in Hf. by rewrite Hd in Hf.
Qed.
End Walk.

Lemma marshall_run mem room els : Forall fixed els -> forall st,
  Z.of_nat (length (m_out st)) + Z.of_nat (els_len els) <= room ->
  run m_src (marshall_leaf mem room) els st
    (mkM (els_end els (m_src st)) (m_out st ++ els_bytes mem els (m_src st))).
Proof.
  induction 1 as [|e els He Hels IH]; intros st Hroom; cbn [els_end els_bytes els_len] in *.
  - rewrite app_nil_r. destruct st. constructor.
  - destruct (el_facts mem e (m_src st) He) as (Hl & Hlt & _).
    apply run_cons with (mkM (el_end e (m_src st)) (m_out st ++ el_bytes mem e (m_src st))).
    + split; [done|]. split; [exact Hlt|]. intros var. apply marshall_leaf_spec; [done|lia].
    + rewrite app_assoc. apply (IH (mkM _ _)). cbn [m_out]. rewrite length_app, Hl. lia.
Qed.

Lemma unmarshall_run wire dstEnd els : Forall fixed els -> forall st,
  0 <= u_src st -> els_end els (u_dst st) <= dstEnd ->
  exists mem', run u_src (unmarshall_leaf wire dstEnd) els st
      (mkU (u_src st + Z.of_nat (els_len els)) (els_end els (u_dst st)) mem')
    /\ els_bytes mem' els (u_dst st) = wire_word wire (u_src st) (els_len els)
    /\ (forall a, a < u_dst st \/ els_end els (u_dst st) <= a -> mem' a = u_mem st a).
Proof.
  induction 1 as [|e els He Hels IH]; intros st Hpos Hend; cbn [els_end els_bytes els_len] in *.
  - exists (u_mem st). rewrite Z.add_0_r. split; [|done]. destruct st. constructor.
  - destruct (el_facts (u_mem st) e (u_dst st) He) as (_ & Hlt & Hl0 & _).
    pose proof (els_end_ge els Hels (el_end e (u_dst st))) as Hge.
    destruct (unmarshall_leaf_spec wire dstEnd e st He Hpos ltac:(lia)) as (mem1 & E1 & B1 & M1).
    destruct (IH (mkU (u_src st + Z.of_nat (el_len e)) (el_end e (u_dst st)) mem1)) as (mem' & E2 & B2 & M2);
      cbn [u_src u_dst u_mem] in *; [lia|lia|].
    exists mem'. rewrite Nat2Z.inj_add, Z.add_assoc. split; [|split].
    + eapply run_cons; [|exact E2]. split; [done|]. split; [cbn [u_src]; lia|exact E1].
    + rewrite (el_bytes_ext mem' mem1), B1, B2 by (intros; apply M2; lia). by apply wire_word_app.
    + intros a Ha. rewrite M2 by lia. apply M1. lia.
Qed.

(** ** The entry points on a dataset that fits *)
Section Calls.
Context (db : marshall_db) (dsId : Z) (els : list TRDP_DATASET_ELEMENT_T).
Hypothesis Hid : dsId <> 0.
Hypothesis Hflat : flat (findDs db) TAU_MAX_DS_LEVEL dsId = Some els.
Hypothesis Hfixed : Forall fixed els.

Lemma flat_found : exists ds, findDs db dsId = Some ds.
Proof. unfold TAU_MAX_DS_LEVEL in Hflat. cbn [flat] in Hflat. destruct (findDs db dsId); [eauto|done]. Qed.

Lemma marshall_call_flat mem p srcSize room :
  els_end els p <= p + srcSize -> Z.of_nat (els_len els) <= room < 2 ^ 32 -> 0 < room ->
  tau_marshallDs db dsId (Some mem) p srcSize (Some room) None
  = (TRDP_NO_ERR, els_bytes mem els p, Some (Z.of_nat (els_len els)), None).
Proof.
  intros Hend Hlen Hroom. destruct flat_found as [ds Hds].
  unfold tau_marshallDs, marshall_call, cached_ds. rewrite Hds.
  rewrite (proj2 (Z.eqb_neq dsId 0) Hid), (proj2 (Z.eqb_neq room 0) ltac:(lia)). cbn [orb].
  unfold marshallDs. erewrite (walk_run m_src _ _ _ _ dsId); [|done|done| |].
  2: { apply marshall_run; cbn [m_out length]; [done|lia]. }
  2: by cbn [m_src].
  cbn [m_out m_src app]. rewrite els_bytes_length, u32_small by (done || lia). done.
Qed.

Lemma unmarshall_call_flat wire q mem room :
  length wire = els_len els -> els_end els q <= q + room -> 0 < room < 2 ^ 32 ->
  exists mem', tau_unmarshallDs db dsId (Some wire) q mem (Some room) None
    = (TRDP_NO_ERR, mem', Some (els_end els q - q), None)
  /\ els_bytes mem' els q = wire
  /\ (forall a, a < q \/ els_end els q <= a -> mem' a = mem a).
Proof.
  intros Hlen Hend Hroom. destruct flat_found as [ds Hds].
  destruct (unmarshall_run wire (q + room) els Hfixed (mkU 0 q mem)) as (mem' & Hrun & Hb & Hm);
    cbn [u_src u_dst u_mem] in *; [lia|lia|].
  exists mem'. unfold tau_unmarshallDs, unmarshall_call, cached_ds. rewrite Hds.
  rewrite (proj2 (Z.eqb_neq dsId 0) Hid), (proj2 (Z.eqb_neq room 0) ltac:(lia)). cbn [orb].
  unfold unmarshallDs. erewrite (walk_run u_src _ _ _ _ dsId); [|done|done|exact Hrun|cbn [u_src]; lia].
  cbn [u_mem u_dst]. pose proof (els_end_ge els Hfixed q). rewrite u32_small by lia.
  split; [done|]. split; [|done]. rewrite Hb, <- Hlen. apply wire_word_all.
Qed.
End Calls.

(** C15: A dataset of basic types of fixed sizes, also nested ones, whose levels suffice
    is marshalled into its elements' bytes in network order; unmarshalling these bytes succeeds into
    any buffer that holds the aligned data, reports the size of the data, writes nothing outside it,
    and leaves data that marshalls into the same message: every element has its value. *)
Theorem tau_marshall_roundtrip db dsId els mem p srcSize room q mem2 room2 :
  dsId <> 0 -> flat (findDs db) TAU_MAX_DS_LEVEL dsId = Some els -> Forall fixed els ->
  els_end els p <= p + srcSize -> Z.of_nat (els_len els) <= room < 2 ^ 32 -> 0 < room ->
  els_end els q <= q + room2 -> 0 < room2 < 2 ^ 32 ->
  exists wire mem',
    tau_marshallDs db dsId (Some mem) p srcSize (Some room) None
    = (TRDP_NO_ERR, wire, Some (Z.of_nat (length wire)), None)
    /\ wire = els_bytes mem els p
    /\ tau_unmarshallDs db dsId (Some wire) q mem2 (Some room2) None
       = (TRDP_NO_ERR, mem', Some (els_end els q - q), None)
    /\ (forall a, a < q \/ els_end els q <= a -> mem' a = mem2 a)
    /\ tau_marshallDs db dsId (Some mem') q room2 (Some room) None
       = (TRDP_NO_ERR, wire, Some (Z.of_nat (length wire)), None).
Proof.
  intros Hid Hflat Hfixed Hp Hlen Hroom Hq Hroom2.
  pose proof (els_bytes_length mem els Hfixed p) as Hl.
  destruct (unmarshall_call_flat db dsId els Hid Hflat Hfixed (els_bytes mem els p) q mem2 room2)
    as (mem' & Hu & Hb & Hm); [done..|].
  exists (els_bytes mem els p), mem'. rewrite Hl. split; [by apply marshall_call_flat|].
  split; [done|]. split; [done|]. split; [done|].
  erewrite marshall_call_flat; [|done..]. by rewrite Hb.
Qed.

(** A dataset with a UINT8 array, a nested dataset twice, a TIMEDATE48 and a REAL64. *)
Definition example_db : marshall_db :=
  mkDb [mkMap 1000 1001]
    [mkDs 1001 [mkEl 8 3; mkEl 1002 2; mkEl 15 1; mkEl 13 1]; mkDs 1002 [mkEl 9 1; mkEl 10 1; mkEl 16 1]].
Definition example_mem (a : Z) : Z := (a * 7 + 3) mod 256.

Lemma tau_marshall_roundtrip_witness :
  exists wire mem',
    tau_marshallDs example_db 1001 (Some example_mem) 4096 64 (Some 1432) None
    = (TRDP_NO_ERR, wire, Some (Z.of_nat (length wire)), None)
    /\ wire = els_bytes example_mem
         [mkEl 8 3; mkEl 9 1; mkEl 10 1; mkEl 16 1; mkEl 9 1; mkEl 10 1; mkEl 16 1; mkEl 15 1; mkEl 13 1] 4096
    /\ tau_unmarshallDs example_db 1001 (Some wire) 8192 (fun _ => 0) (Some 56) None
       = (TRDP_NO_ERR, mem', Some 56, None)
    /\ (forall a, a < 8192 \/ 8248 <= a -> mem' a = 0)
    /\ tau_marshallDs example_db 1001 (Some mem') 8192 56 (Some 1432) None
       = (TRDP_NO_ERR, wire, Some (Z.of_nat (length wire)), None).
Proof.
  apply (tau_marshall_roundtrip example_db 1001
    [mkEl 8 3; mkEl 9 1; mkEl 10 1; mkEl 16 1; mkEl 9 1; mkEl 10 1; mkEl 16 1; mkEl 15 1; mkEl 13 1]
    example_mem 4096 64 1432 8192 (fun _ => 0) 56); cycle 2.
  - repeat constructor; vm_compute; congruence.
  - vm_compute; congruence.
  - vm_compute; intuition congruence.
  - vm_compute; congruence.
  - vm_compute; congruence.
  - vm_compute; intuition congruence.
  - vm_compute; congruence.
  - vm_compute; reflexivity.
Defined.

(** The size of the unmarshalled data. *)
Definition no_timedate (e : TRDP_DATASET_ELEMENT_T) : Prop :=
  group_of (el_type e) <> GTime48 /\ group_of (el_type e) <> GTime64.

Lemma iter_align8 n : forall q, Nat.iter (S n) (fun q => alignePtr q 8 + 8) q = alignePtr q 8 + 8 * Z.of_nat (S n).
Proof.
  induction n as [|n IH]; intros q; [cbn; lia|]. rewrite Nat.iter_succ_r, IH.
  rewrite (alignePtr_id (alignePtr q 8 + 8)); [lia|unfold alignment_ok; auto|].
  destruct (alignePtr_spec q 8 ltac:(unfold alignment_ok; auto)) as [_ H]. dlia.
Qed.

Lemma size_leaf_spec wire e st : fixed e -> no_timedate e ->
  forall var, exists var', size_leaf wire (el_type e) (el_size e) var st
    = (TRDP_NO_ERR, mkZ (z_src st + Z.of_nat (el_len e)) (el_end e (z_dst st)), var').
Proof.
  intros (Hg & _ & Hn) [Ht1 Ht2] var. unfold size_leaf, el_len, el_end.
  assert (A1 : alignePtr (z_dst st) 1 = z_dst st).
  { pose proof (alignePtr_spec (z_dst st) 1 ltac:(unfold alignment_ok; auto)). lia. }
  destruct (group_of (el_type e)) eqn:E; try done; cbn [shape]; rewrite ?A1; eexists; f_equal; f_equal.
  all: try (f_equal; lia).
  destruct (Z.to_nat (el_size e)) as [|n] eqn:En; [lia|]. rewrite iter_align8. f_equal; lia.
Qed.

Lemma size_run wire els : Forall (fun e => fixed e /\ no_timedate e) els -> forall st,
  run z_src (size_leaf wire) els st (mkZ (z_src st + Z.of_nat (els_len els)) (els_end els (z_dst st))).
Proof.
  induction 1 as [|e els [He Ht] Hels IH]; intros st; cbn [els_end els_len].
  - rewrite Z.add_0_r. destruct st. constructor.
  - destruct (el_facts (fun _ => 0) e (z_dst st) He) as (_ & _ & Hl & _).
    apply run_cons with (mkZ (z_src st + Z.of_nat (el_len e)) (el_end e (z_dst st))).
    + split; [done|]. split; [cbn; lia|by apply size_leaf_spec].
    + rewrite Nat2Z.inj_add, Z.add_assoc. apply (IH (mkZ _ _)).
Qed.

(** For a dataset of basic types of fixed sizes other than TIMEDATE48 and
    TIMEDATE64, also nested, and a message of its length the size calculated is that of the data
    unmarshalled at an address aligned as address 0 is. *)
Theorem tau_calcDatasetSize_exact db dsId els wire :
  dsId <> 0 -> flat (findDs db) TAU_MAX_DS_LEVEL dsId = Some els ->
  Forall (fun e => fixed e /\ no_timedate e) els ->
  length wire = els_len els -> els_end els 0 < 2 ^ 32 ->
  tau_calcDatasetSize db dsId (Some wire) None = (TRDP_NO_ERR, Some (els_end els 0), None)
  /\ forall room mem, els_end els 0 <= room -> 0 < room < 2 ^ 32 ->
     exists mem', tau_unmarshallDs db dsId (Some wire) 0 mem (Some room) None
       = (TRDP_NO_ERR, mem', Some (els_end els 0), None).
Proof.
  intros Hid Hflat Hall Hlen Hbig.
  assert (Hfixed : Forall fixed els) by (eapply Forall_impl; [|exact Hall]; cbn; tauto). split.
  - destruct (flat_found db dsId els Hflat) as [ds Hds].
    unfold tau_calcDatasetSize, size_call, cached_ds. rewrite Hds, (proj2 (Z.eqb_neq dsId 0) Hid).
    unfold size_unmarshall. erewrite (walk_run z_src _ _ _ _ dsId); [|done|done|by apply size_run|cbn; lia].
    cbn [z_dst]. pose proof (els_end_ge els Hfixed 0). by rewrite u32_small by lia.
  - intros room mem Hroom Hr.
    destruct (unmarshall_call_flat db dsId els Hid Hflat Hfixed wire 0 mem room) as (mem' & Hu & _); [done..|].
    exists mem'. by rewrite Hu, Z.sub_0_r.
Qed.

Lemma tau_calcDatasetSize_exact_witness :
  let db := mkDb [] [mkDs 1001 [mkEl 8 3; mkEl 1002 2]; mkDs 1002 [mkEl 9 1; mkEl 11 1]] in
  let wire := repeat 1 23 in
  tau_calcDatasetSize db 1001 (Some wire) None = (TRDP_NO_ERR, Some 32, None)
  /\ forall room mem, 32 <= room -> 0 < room < 2 ^ 32 ->
     exists mem', tau_unmarshallDs db 1001 (Some wire) 0 mem (Some room) None = (TRDP_NO_ERR, mem', Some 32, None).
Proof.
  apply (tau_calcDatasetSize_exact (mkDb [] [mkDs 1001 [mkEl 8 3; mkEl 1002 2]; mkDs 1002 [mkEl 9 1; mkEl 11 1]])
    1001 [mkEl 8 3; mkEl 9 1; mkEl 11 1; mkEl 9 1; mkEl 11 1] (repeat 1 23)); cycle 2.
  - repeat constructor; vm_compute; congruence.
  - vm_compute; reflexivity.
  - vm_compute; reflexivity.
  - vm_compute; congruence.
  - vm_compute; reflexivity.
Defined.

(** The time types are counted too small: the size calculated for a message of one
    TIMEDATE64 is 4 and for one TIMEDATE48 is 6, while unmarshalling either writes 8 bytes. *)
Theorem tau_calcDatasetSize_time_short :
  let db t := mkDb [] [mkDs 1001 [mkEl t 1]] in
  tau_calcDatasetSize (db 16) 1001 (Some (repeat 1 8)) None = (TRDP_NO_ERR, Some 4, None)
  /\ snd (fst (tau_unmarshallDs (db 16) 1001 (Some (repeat 1 8)) 0 (fun _ => 0) (Some 8) None)) = Some 8
  /\ tau_calcDatasetSize (db 15) 1001 (Some (repeat 1 6)) None = (TRDP_NO_ERR, Some 6, None)
  /\ snd (fst (tau_unmarshallDs (db 15) 1001 (Some (repeat 1 6)) 0 (fun _ => 0) (Some 8) None)) = Some 8.
Proof. vm_compute. auto. Qed.

(** Unmarshalling checks the room without the alignment: a UINT8 and a UINT32 are
    written as 8 bytes into a buffer of 5, and the call succeeds. *)
Theorem tau_unmarshallDs_overruns_buffer :
  let db := mkDb [] [mkDs 1001 [mkEl 8 1; mkEl 10 1]] in
  let r := tau_unmarshallDs db 1001 (Some [1; 2; 3; 4; 5]) 4096 (fun _ => 0) (Some 5) None in
  fst (fst (fst r)) = TRDP_NO_ERR /\ snd (fst r) = Some 8
  /\ map (snd (fst (fst r))) [4096; 4097; 4098; 4099; 4100; 4101; 4102; 4103] = [1; 0; 0; 0; 5; 4; 3; 2].
Proof. vm_compute. auto. Qed.

(** A message that ends between two elements is unmarshalled without an error: of a
    dataset of two UINT16 only the first is written. *)
Theorem tau_unmarshallDs_accepts_short :
  let db := mkDb [] [mkDs 1001 [mkEl 9 1; mkEl 9 1]] in
  let r := tau_unmarshallDs db 1001 (Some [1; 2]) 4096 (fun _ => 7) (Some 4) None in
  fst (fst (fst r)) = TRDP_NO_ERR /\ snd (fst r) = Some 2
  /\ map (snd (fst (fst r))) [4096; 4097; 4098; 4099] = [2; 1; 7; 7].
Proof. vm_compute. auto. Qed.

(** ** The tables *)
Lemma find_key {A} (key : A -> Z) (test : A -> bool) (l : list A) x :
  NoDup (map key l) -> (forall y, test y = true <-> key y = key x) -> x ∈ l -> find test l = Some x.
Proof.
  intros Hd Ht Hx. induction l as [|y l IH]; [by apply elem_of_nil in Hx|]. cbn [map find] in *.
  apply list.NoDup_cons in Hd as [Hn Hd]. destruct (test y) eqn:E.
  - apply Ht in E. apply elem_of_cons in Hx as [-> |Hx]; [done|]. destruct Hn. rewrite E.
    by apply list_elem_of_In, in_map, list_elem_of_In.
  - apply elem_of_cons in Hx as [-> |Hx]; [|by apply IH].
    by rewrite (proj2 (Ht y) eq_refl) in E.
Qed.

Lemma compareDatasetDeref_eq id d : (compareDatasetDeref id d =? 0) = true <-> ds_id d = id.
Proof. unfold compareDatasetDeref. rewrite Z.gtb_ltb. repeat case_if; bprop; cbn; split; try lia. Qed.

Lemma compareComId_eq c m : (compareComId (mkMap c 0) m =? 0) = true <-> map_comId m = c.
Proof. unfold compareComId. cbn [map_comId]. rewrite Z.gtb_ltb. repeat case_if; bprop; cbn; split; try lia. Qed.

(** After tau_initMarshall with tables of distinct keys every dataset is found by
    its id and by each communication id mapped to it, and nothing else is found. *)
Theorem tau_initMarshall_finds m d db :
  m <> [] -> d <> [] -> NoDup (map map_comId m) -> NoDup (map ds_id d) ->
  exists db', tau_initMarshall (Some m) (Some d) db = (TRDP_NO_ERR, db')
  /\ (forall x, x ∈ d -> findDs db' (ds_id x) = Some x)
  /\ (forall c x, c ∈ m -> x ∈ d -> map_dsId c = ds_id x -> findDSFromComId db' (map_comId c) = Some x)
  /\ (forall id x, findDs db' id = Some x -> x ∈ d /\ ds_id x = id)
  /\ StronglySorted dataset_le (sDataSets db') /\ StronglySorted comId_le (sComIdDsIdMap db').
Proof.
  intros Hm Hd Nm Nd. destruct m as [|m0 m]; [done|]. destruct d as [|d0 d]; [done|].
  set (ms := m0 :: m) in *. set (ds := d0 :: d) in *.
  pose proof (merge_sort_Permutation comId_le ms) as Pm.
  pose proof (merge_sort_Permutation dataset_le ds) as Pd.
  assert (Nd' : NoDup (map ds_id (merge_sort dataset_le ds)))
    by (apply NoDup_ListNoDup in Nd; apply NoDup_ListNoDup;
        eapply Permutation_NoDup; [apply Permutation_map; symmetry; exact Pd|done]).
  assert (Nm' : NoDup (map map_comId (merge_sort comId_le ms)))
    by (apply NoDup_ListNoDup in Nm; apply NoDup_ListNoDup;
        eapply Permutation_NoDup; [apply Permutation_map; symmetry; exact Pm|done]).
  exists (mkDb (merge_sort comId_le ms) (merge_sort dataset_le ds)).
  assert (Hfind : forall x, x ∈ ds ->
    findDs (mkDb (merge_sort comId_le ms) (merge_sort dataset_le ds)) (ds_id x) = Some x).
  { intros x Hx. unfold findDs. cbn [sDataSets]. apply (find_key ds_id); [done| |by rewrite Pd].
    intros y. apply compareDatasetDeref_eq. }
  split; [done|]. split; [done|]. split; [|split].
  - intros c x Hc Hx E. unfold findDSFromComId. cbn [sComIdDsIdMap].
    rewrite (find_key map_comId _ _ c); [rewrite E; by apply Hfind|done| |by rewrite Pm].
    intros y. apply compareComId_eq.
  - intros id x Hf. apply find_some in Hf as [Hin Ht]. apply compareDatasetDeref_eq in Ht.
    split; [|done]. cbn [sDataSets] in Hin. apply list_elem_of_In in Hin. by rewrite Pd in Hin.
  - split; apply StronglySorted_merge_sort.
    + intros a b c. unfold dataset_le, compareDataset. rewrite !Z.gtb_ltb. repeat case_if; bprop; lia.
    + intros a b. unfold dataset_le, compareDataset. rewrite !Z.gtb_ltb. repeat case_if; bprop; lia.
    + intros a b c. unfold comId_le, compareComId. rewrite !Z.gtb_ltb. repeat case_if; bprop; lia.
    + intros a b. unfold comId_le, compareComId. rewrite !Z.gtb_ltb. repeat case_if; bprop; lia.
Qed.

Lemma tau_initMarshall_finds_witness :
  let m := [mkMap 2000 1002; mkMap 1000 1001] in
  let d := [mkDs 1002 [mkEl 9 1]; mkDs 1001 [mkEl 8 3; mkEl 1002 2]] in
  exists db', tau_initMarshall (Some m) (Some d) (mkDb [] []) = (TRDP_NO_ERR, db')
  /\ (forall x, x ∈ d -> findDs db' (ds_id x) = Some x)
  /\ (forall c x, c ∈ m -> x ∈ d -> map_dsId c = ds_id x -> findDSFromComId db' (map_comId c) = Some x)
  /\ (forall id x, findDs db' id = Some x -> x ∈ d /\ ds_id x = id)
  /\ StronglySorted dataset_le (sDataSets db') /\ StronglySorted comId_le (sComIdDsIdMap db').
Proof.
  apply (tau_initMarshall_finds [mkMap 2000 1002; mkMap 1000 1001]
    [mkDs 1002 [mkEl 9 1]; mkDs 1001 [mkEl 8 3; mkEl 1002 2]]); [done|done| |];
    apply (bool_decide_unpack _); vm_compute; exact I.
Defined.
