(* ===== verification/TrdpXml.v ===== *)
(** * The XML reader of the configuration

    Models src/app/trdp/tcnopen/trdp_xml.c: the tokens of a file, and the functions that seek, count and
    enter elements. The first theorems relate the reader to the tokens a text spells, the last ones to
    the tree of elements. Reading through a handle without a file, which the code does not check, is
    outside of the model. *)
From S2P Require Import Prelude Bytes VosString TrdpTypes.

Definition MAX_TOK_LEN : nat := 124.
Definition MAX_TAG_LEN : nat := 132.

Inductive XML_TOKEN_T :=
| TOK_OPEN | TOK_CLOSE | TOK_OPEN_END | TOK_CLOSE_EMPTY | TOK_EQUAL | TOK_ID | TOK_EOF
| TOK_START_TAG | TOK_END_TAG | TOK_ATTRIBUTE.
#[export] Instance XML_TOKEN_T_eq_dec : EqDecision XML_TOKEN_T.
Proof. solve_decision. Defined.

(** ** The file: what is left of it and the end-of-file indicator *)
Definition EOF : Z := -1.
Abbreviation stream := (list Z * bool)%type.

Record FILE := mkFile { text : list Z; seekable : bool; at_ : stream }.
Definition ftell (f : FILE) : Z := Z.of_nat (length (text f)) - Z.of_nat (length (fst (at_ f))).
Definition fseek (off : Z) (f : FILE) : Z * FILE :=
  if seekable f then (0, mkFile (text f) true (drop (Z.to_nat off) (text f), false)) else (-1, f).

Record XML_HANDLE_T := mkXml {
  infile : option FILE;
  tokenValue : list Z;
  tagDepth : Z;
  tagDepthSeek : Z;
  tokenTag : list Z;
  xml_error : TRDP_ERR_T }.

Definition set_at (s : stream) (h : XML_HANDLE_T) : XML_HANDLE_T :=
  mkXml ((fun f => mkFile (text f) (seekable f) s) <$> infile h) (tokenValue h) (tagDepth h) (tagDepthSeek h) (tokenTag h) (xml_error h).
Definition set_infile (f : option FILE) (h : XML_HANDLE_T) : XML_HANDLE_T :=
  mkXml f (tokenValue h) (tagDepth h) (tagDepthSeek h) (tokenTag h) (xml_error h).
Definition set_tokenValue (v : list Z) (h : XML_HANDLE_T) : XML_HANDLE_T :=
  mkXml (infile h) v (tagDepth h) (tagDepthSeek h) (tokenTag h) (xml_error h).
Definition set_tagDepth (v : Z) (h : XML_HANDLE_T) : XML_HANDLE_T :=
  mkXml (infile h) (tokenValue h) v (tagDepthSeek h) (tokenTag h) (xml_error h).
Definition set_tagDepthSeek (v : Z) (h : XML_HANDLE_T) : XML_HANDLE_T :=
  mkXml (infile h) (tokenValue h) (tagDepth h) v (tokenTag h) (xml_error h).
Definition set_tokenTag (v : list Z) (h : XML_HANDLE_T) : XML_HANDLE_T :=
  mkXml (infile h) (tokenValue h) (tagDepth h) (tagDepthSeek h) v (xml_error h).
Definition set_xml_error (e : TRDP_ERR_T) (h : XML_HANDLE_T) : XML_HANDLE_T :=
  mkXml (infile h) (tokenValue h) (tagDepth h) (tagDepthSeek h) (tokenTag h) e.

Definition here (h : XML_HANDLE_T) : stream := match infile h with Some f => at_ f | None => ([], true) end.

(** ** The next token *)

(** The loops over the characters; at the end of the file [fgetc] gives EOF and the indicator is set. *)
Fixpoint skip_blank (l : list Z) : Z * stream :=
  match l with
  | [] => (EOF, ([], true))
  | c :: l' => if c <=? 32 then skip_blank l' else (c, (l', false))
  end.

(** Behind a quote; the end of the file counts as the character 255. *)
Fixpoint quoted (l : list Z) : list Z * stream :=
  match l with
  | [] => ([255], ([], true))
  | c :: l' => if c =? 34 then ([], (l', false)) else let '(s, st) := quoted l' in (c :: s, st)
  end.

(** One of the characters < > = / is pushed back. *)
Definition special (c : Z) : bool := (c =? 60) || (c =? 62) || (c =? 61) || (c =? 47).
Fixpoint unquoted (l : list Z) : list Z * stream :=
  match l with
  | [] => ([], ([], true))
  | c :: l' => if special c then ([], (l, false))
               else if c <=? 32 then ([], (l', false))
               else let '(s, st) := unquoted l' in (c :: s, st)
  end.

(** Behind "<?": up to "?>" or a zero. *)
Fixpoint skip_instruction (l : list Z) : stream :=
  match l with
  | [] => ([], true)
  | c :: l' =>
      if c =? 0 then (l', false)
      else if c =? 63 then
        match l' with
        | [] => ([], true)
        | d :: l'' => if d =? 62 then (l'', false) else skip_instruction l'
        end
      else skip_instruction l'
  end.

(** Behind "<!--": up to a ">" that follows exactly two "-"; [cnt] is the number of "-" before. *)
Fixpoint skip_comment (cnt : Z) (l : list Z) : Z * stream :=
  match l with
  | [] => (0, ([], true))
  | c :: l' =>
      if c =? 0 then (cnt, (l', false))
      else if c =? 45 then skip_comment (cnt + 1) l'
      else if (c =? 62) && (cnt =? 2) then (0, (l', false))
      else skip_comment 0 l'
  end.

Fixpoint skip_declaration (l : list Z) : stream :=
  match l with [] => ([], true) | c :: l' => if c =? 62 then (l', false) else skip_declaration l' end.

(** Behind "<!": the stream, or the end of the file, which is an error. *)
Definition skip_markup (l : list Z) : stream :=
  match l with
  | [] => ([], true)
  | c :: l' =>
      if c =? 0 then (l', false)
      else if c =? 45 then
        match l' with
        | [] => ([], true)
        | d :: l'' => if d =? 45 then snd (skip_comment 0 l'') else (l'', false)
        end
      else skip_declaration l'
  end.

Definition clip (l : list Z) : list Z := take (MAX_TOK_LEN - 1) l.

(** What a round of the loop comes to: a token with its value, or another round. *)
Inductive scanned := Token (t : XML_TOKEN_T) (v : option (list Z)) (err : bool) | Again.

Definition scan_step (st : stream) : scanned * stream :=
  if snd st then (Token TOK_EOF None false, st)
  else
    let '(ch, (l, eof)) := skip_blank (fst st) in
    if eof then (Token TOK_EOF None false, (l, true))
    else if ch =? 34 then let '(s, st') := quoted l in (Token TOK_ID (Some (clip s)) false, st')
    else if ch =? 60 then
      match l with
      | [] => (Token TOK_OPEN None false, ([], true))
      | c :: l' =>
          if c =? 63 then (Again, skip_instruction l')
          else if c =? 33 then
            let st' := skip_markup l' in
            (if snd st' then Token TOK_EOF None true else Again, st')
          else if c =? 47 then (Token TOK_OPEN_END None false, (l', false))
          else (Token TOK_OPEN None false, (l, false))
      end
    else if ch =? 47 then
      match l with
      | [] => (Again, ([], true))
      | c :: l' => if c =? 62 then (Token TOK_CLOSE_EMPTY None false, (l', false)) else (Again, (l, false))
      end
    else if ch =? 62 then (Token TOK_CLOSE None false, (l, false))
    else if ch =? 61 then (Token TOK_EQUAL None false, (l, false))
    else let '(s, st') := unquoted l in (Token TOK_ID (Some (clip (ch :: s))) false, st').

(** The loop; [scan_total] shows that a round more than characters are left is enough. *)
Fixpoint scan (rounds : nat) (st : stream) : option (XML_TOKEN_T * option (list Z) * bool * stream) :=
  match rounds with
  | O => None
  | S n => match scan_step st with
           | (Token t v err, st') => Some (t, v, err, st')
           | (Again, st') => scan n st'
           end
  end.

Definition trdp_XMLNextToken (h : XML_HANDLE_T) : XML_TOKEN_T * XML_HANDLE_T :=
  match scan (S (length (fst (here h)))) (here h) with
  | Some (t, v, err, st) =>
      let h := set_at st h in
      let h := match v with Some s => set_tokenValue s h | None => h end in
      (t, if err then set_xml_error TRDP_XML_PARSER_ERR h else h)
  | None => (TOK_EOF, h)
  end.

(** Copies the value to the tag. *)
Definition copy_tag (h : XML_HANDLE_T) : XML_HANDLE_T := set_tokenTag (cstr (take MAX_TAG_LEN (tokenValue h))) h.

Definition trdp_XMLNextTokenHl (h : XML_HANDLE_T) : XML_TOKEN_T * XML_HANDLE_T :=
  let '(token, h) := trdp_XMLNextToken h in
  match token with
  | TOK_OPEN =>
      let '(token, h) := trdp_XMLNextToken (set_tagDepth (tagDepth h + 1) h) in
      if bool_decide (token = TOK_ID) then (TOK_START_TAG, copy_tag h) else (TOK_EOF, h)
  | TOK_OPEN_END =>
      let '(token, h) := trdp_XMLNextToken (set_tagDepth (tagDepth h - 1) h) in
      if bool_decide (token = TOK_ID) then (TOK_END_TAG, copy_tag h) else (TOK_EOF, h)
  | TOK_CLOSE_EMPTY => (TOK_CLOSE_EMPTY, set_tagDepth (tagDepth h - 1) h)
  | TOK_ID => (TOK_ID, copy_tag h)
  | _ => (token, h)
  end.

(** ** The functions of the reader *)

(** [fopen] gives the file or fails. *)
Definition trdp_XMLOpen (file : option FILE) (h : XML_HANDLE_T) : TRDP_ERR_T * XML_HANDLE_T :=
  match file with
  | None => (TRDP_IO_ERR, set_infile None h)
  | Some f => (TRDP_NO_ERR, set_xml_error TRDP_NO_ERR (set_tagDepthSeek 0 (set_tagDepth 0 (set_infile (Some f) h))))
  end.

Definition trdp_XMLRewind (h : XML_HANDLE_T) : XML_HANDLE_T :=
  match infile h with
  | None => set_xml_error TRDP_XML_PARSER_ERR h
  | Some f =>
      let '(r, f') := fseek 0 f in
      if r =? -1 then set_xml_error TRDP_IO_ERR h
      else set_xml_error TRDP_NO_ERR (set_tagDepthSeek 0 (set_tagDepth 0 (set_infile (Some f') h)))
  end.

Definition trdp_XMLEnter (h : XML_HANDLE_T) : XML_HANDLE_T := set_tagDepthSeek (tagDepthSeek h + 1) h.
Definition trdp_XMLLeave (h : XML_HANDLE_T) : XML_HANDLE_T := set_tagDepthSeek (tagDepthSeek h - 1) h.

(** The loops run while there are tokens; [rounds] is one more than the characters left. *)
Fixpoint seek_any (rounds : nat) (h : XML_HANDLE_T) : Z * list Z * XML_HANDLE_T :=
  match rounds with
  | O => (-1, [], h)
  | S n =>
      let '(token, h) := trdp_XMLNextTokenHl h in
      if bool_decide (token = TOK_EOF) then (-1, [], h)
      else if tagDepth h <? tagDepthSeek h - 1 then (-2, [], h)
      else if (tagDepth h =? tagDepthSeek h) && bool_decide (token = TOK_START_TAG) then (0, tokenTag h, h)
      else seek_any n h
  end.
Definition rounds_of (h : XML_HANDLE_T) : nat := S (length (fst (here h))).

(** Result and the tag, which has its terminating zero in a buffer of at least [MAX_TAG_LEN] characters. *)
Definition trdp_XMLSeekStartTagAny (h : XML_HANDLE_T) : Z * list Z * XML_HANDLE_T := seek_any (rounds_of h) h.

Fixpoint seek_tag (rounds : nat) (tag : list Z) (h : XML_HANDLE_T) : Z * XML_HANDLE_T :=
  match rounds with
  | O => (-1, h)
  | S n =>
      let '(ret, buf, h) := trdp_XMLSeekStartTagAny h in
      if (ret =? 0) && negb (bool_decide (buf = tag)) then seek_tag n tag h else (ret, h)
  end.
Definition trdp_XMLSeekStartTag (tag : list Z) (h : XML_HANDLE_T) : Z * XML_HANDLE_T := seek_tag (rounds_of h) tag h.

Fixpoint count_tag (rounds : nat) (tag : list Z) (count : Z) (h : XML_HANDLE_T) : Z * XML_HANDLE_T :=
  match rounds with
  | O => (count, h)
  | S n =>
      let '(ret, buf, h) := trdp_XMLSeekStartTagAny h in
      if ret =? 0 then count_tag n tag (if bool_decide (buf = tag) then count + 1 else count) h else (count, h)
  end.

(** The handle is copied and put back, and the file set back to where it was read. *)
Definition trdp_XMLCountStartTag (tag : list Z) (h : XML_HANDLE_T) : Z * XML_HANDLE_T :=
  let last_read := match infile h with Some f => ftell f | None => 0 end in
  let '(count, h') := count_tag (rounds_of h) tag 0 h in
  (count, set_infile (snd ∘ fseek last_read <$> infile h') h).

(** The name of the attribute, its value as a number and as a string; the buffers of the caller are
    taken to be cleared. *)
Definition trdp_XMLGetAttribute (h : XML_HANDLE_T) : XML_TOKEN_T * option (list Z * Z * list Z) * XML_HANDLE_T :=
  let '(token, h) := trdp_XMLNextTokenHl h in
  if bool_decide (token = TOK_ID) then
    let attribute := cstr (take (MAX_TOK_LEN - 1) (tokenValue h)) in
    let '(token, h) := trdp_XMLNextTokenHl h in
    if bool_decide (token = TOK_EQUAL) then
      let '(token, h) := trdp_XMLNextTokenHl h in
      if bool_decide (token = TOK_ID) then
        let value := cstr (take (MAX_TOK_LEN - 1) (tokenValue h)) in
        (TOK_ATTRIBUTE, Some (attribute, strtol32 value, value), h)
      else (token, None, h)
    else (token, None, h)
  else (token, None, h).

(** * Properties *)

(** ** Every round consumes characters, so there are rounds enough *)
Abbreviation left st := (length (fst st)) (only parsing).

Lemma skip_blank_left l : let '(_, (l', eof)) := skip_blank l in (length l' <= length l)%nat /\ (eof = false -> (length l' < length l)%nat).
Proof.
  induction l as [|c l IH]; [done|]. cbn [skip_blank]. destruct (c <=? 32); [|cbn; lia].
  destruct (skip_blank l) as [? [l' e]]. cbn in *. intuition lia.
Qed.
Lemma quoted_left l : (left (snd (quoted l)) <= length l)%nat.
Proof. induction l as [|c l IH]; [done|]. cbn [quoted]. destruct (c =? 34); [cbn; lia|]. destruct (quoted l). cbn in *. lia. Qed.
Lemma unquoted_left l : (left (snd (unquoted l)) <= length l)%nat.
Proof.
  induction l as [|c l IH]; [done|]. cbn [unquoted]. destruct (special c); [cbn; lia|]. destruct (c <=? 32); [cbn; lia|].
  destruct (unquoted l). cbn in *. lia.
Qed.
Lemma skip_instruction_left l : (left (skip_instruction l) <= length l)%nat.
Proof.
  induction l as [|c l IH]; [done|]. cbn [skip_instruction]. destruct (c =? 0); [cbn; lia|]. destruct (c =? 63); [|cbn; lia].
  destruct l as [|d l]; [cbn; lia|]. destruct (d =? 62); cbn in *; lia.
Qed.
Lemma skip_comment_left l : forall cnt, (left (snd (skip_comment cnt l)) <= length l)%nat.
Proof.
  induction l as [|c l IH]; intros cnt; [done|]. cbn [skip_comment]. destruct (c =? 0); [cbn; lia|].
  destruct (c =? 45); [specialize (IH (cnt + 1)); cbn; lia|]. destruct (_ && _); [cbn; lia|]. specialize (IH 0). cbn. lia.
Qed.
Lemma skip_declaration_left l : (left (skip_declaration l) <= length l)%nat.
Proof. induction l as [|c l IH]; [done|]. cbn [skip_declaration]. destruct (c =? 62); cbn in *; lia. Qed.
Lemma skip_markup_left l : (left (skip_markup l) <= length l)%nat.
Proof.
  destruct l as [|c l]; [done|]. cbn [skip_markup]. destruct (c =? 0); [cbn; lia|].
  destruct (c =? 45); [|pose proof (skip_declaration_left l); cbn; lia].
  destruct l as [|d l]; [cbn; lia|]. destruct (d =? 45); [pose proof (skip_comment_left l 0)|]; cbn; lia.
Qed.

Lemma scan_step_left st : let '(r, st') := scan_step st in
  (left st' <= left st)%nat /\ match r with Token t _ _ => t <> TOK_EOF -> (left st' < left st)%nat | Again => (left st' < left st)%nat end.
Proof.
  destruct st as [l0 e0]. unfold scan_step. cbn [fst snd]. destruct e0; [done|].
  pose proof (skip_blank_left l0) as Hb. destruct (skip_blank l0) as [ch [l e]]. destruct e; [cbn; split; [lia|done]|].
  destruct Hb as [_ Hb]. specialize (Hb eq_refl).
  destruct (ch =? 34). { pose proof (quoted_left l). destruct (quoted l). cbn in *. lia. }
  destruct (ch =? 60).
  { destruct l as [|c l]; [cbn in *; lia|]. cbn [length] in Hb.
    destruct (c =? 63). { pose proof (skip_instruction_left l). cbn. lia. }
    destruct (c =? 33). { pose proof (skip_markup_left l). destruct (snd (skip_markup l)); cbn; [split; [lia|done]|lia]. }
    destruct (c =? 47); cbn; lia. }
  destruct (ch =? 47). { destruct l as [|c l]; [cbn in *; lia|]. destruct (c =? 62); cbn in *; lia. }
  destruct (ch =? 62); [cbn; lia|]. destruct (ch =? 61); [cbn; lia|].
  pose proof (unquoted_left l). destruct (unquoted l). cbn in *. lia.
Qed.

Lemma scan_left n : forall st, (left st < n)%nat -> exists t v e st', scan n st = Some (t, v, e, st') /\ (left st' <= left st)%nat
  /\ (t <> TOK_EOF -> (left st' < left st)%nat).
Proof.
  induction n as [|n IH]; intros st Hn; [lia|]. cbn [scan]. pose proof (scan_step_left st) as Hs.
  destruct (scan_step st) as [[t v e|] st']; [by exists t, v, e, st'|]. destruct Hs as [_ Hs].
  destruct (IH st') as (t & v & e & st'' & -> & H1 & H2); [lia|]. exists t, v, e, st''. split; [done|]. split; [lia|]. intros. pose proof H2. intuition lia.
Qed.

Lemma scan_total st : scan (S (left st)) st <> None.
Proof. destruct (scan_left (S (left st)) st) as (? & ? & ? & ? & -> & _); [lia|done]. Qed.

(** Rounds more than enough change nothing. *)
Lemma scan_rounds n m st : (left st < n)%nat -> (n <= m)%nat -> scan m st = scan n st.
Proof.
  revert m st. induction n as [|n IH]; intros m st Hn Hm; [lia|]. destruct m as [|m]; [lia|]. cbn [scan].
  pose proof (scan_step_left st) as Hs. destruct (scan_step st) as [[t v e|] st']; [done|]. apply IH; lia.
Qed.

(** How many characters are left. *)
Definition chars (h : XML_HANDLE_T) : nat := left (here h).

Lemma here_set_at st h : infile h <> None -> here (set_at st h) = st.
Proof. unfold here, set_at. cbn. by destruct (infile h). Qed.

Lemma NextToken_left h : let '(t, h') := trdp_XMLNextToken h in
  (chars h' <= chars h)%nat /\ (t <> TOK_EOF -> (chars h' < chars h)%nat).
Proof.
  unfold trdp_XMLNextToken, chars. destruct (scan_left (S (left (here h))) (here h)) as (t & v & e & st' & -> & H1 & H2); [lia|].
  assert (Hh : here (if e then set_xml_error TRDP_XML_PARSER_ERR
      (match v with Some s => set_tokenValue s (set_at st' h) | None => set_at st' h end)
      else match v with Some s => set_tokenValue s (set_at st' h) | None => set_at st' h end) = here (set_at st' h))
    by (destruct e, v; done).
  rewrite Hh. destruct (infile h) as [f|] eqn:E.
  - rewrite here_set_at by congruence. done.
  - assert (H0 : here h = ([], true)) by (unfold here; by rewrite E). rewrite H0 in H1, H2 |- *.
    unfold here, set_at. rewrite E. cbn in *. split; [lia|]. intros Ht. specialize (H2 Ht). lia.
Qed.

Lemma NextTokenHl_left h : let '(t, h') := trdp_XMLNextTokenHl h in
  (chars h' <= chars h)%nat /\ (t <> TOK_EOF -> (chars h' < chars h)%nat).
Proof.
  unfold trdp_XMLNextTokenHl. pose proof (NextToken_left h) as H. destruct (trdp_XMLNextToken h) as [t h1]. destruct H as [Ha Hb].
  assert (Hdeep : forall d, let '(t', h2) := trdp_XMLNextToken (set_tagDepth d h1) in (chars h2 <= chars h1)%nat).
  { intros d. pose proof (NextToken_left (set_tagDepth d h1)) as H. destruct (trdp_XMLNextToken _). apply H. }
  destruct t; cbn; try (split; [exact Ha|intros; apply Hb; congruence]).
  - specialize (Hdeep (tagDepth h1 + 1)). destruct (trdp_XMLNextToken _) as [t2 h2]. specialize (Hb ltac:(done)).
    destruct (bool_decide _); cbn; unfold chars, here in *; cbn in *; split; lia.
  - specialize (Hdeep (tagDepth h1 - 1)). destruct (trdp_XMLNextToken _) as [t2 h2]. specialize (Hb ltac:(done)).
    destruct (bool_decide _); cbn; unfold chars, here in *; cbn in *; split; lia.
Qed.

(** ** The loops as equations *)
Lemma seek_any_rounds n : forall m h, (chars h < n)%nat -> (chars h < m)%nat -> seek_any n h = seek_any m h.
Proof.
  induction n as [|n IH]; intros m h Hn Hm; [lia|]. destruct m as [|m]; [lia|]. cbn [seek_any].
  pose proof (NextTokenHl_left h) as Hl. destruct (trdp_XMLNextTokenHl h) as [t h1]. destruct Hl as [_ Hl].
  case_bool_decide; [done|]. specialize (Hl ltac:(done)). repeat case_if; try done. apply IH; lia.
Qed.

Lemma SeekStartTagAny_eq h : trdp_XMLSeekStartTagAny h =
  let '(token, h) := trdp_XMLNextTokenHl h in
  if bool_decide (token = TOK_EOF) then (-1, [], h)
  else if tagDepth h <? tagDepthSeek h - 1 then (-2, [], h)
  else if (tagDepth h =? tagDepthSeek h) && bool_decide (token = TOK_START_TAG) then (0, tokenTag h, h)
  else trdp_XMLSeekStartTagAny h.
Proof.
  unfold trdp_XMLSeekStartTagAny at 1, rounds_of. cbn [seek_any]. pose proof (NextTokenHl_left h) as Hl.
  destruct (trdp_XMLNextTokenHl h) as [t h1]. destruct Hl as [_ Hl]. case_bool_decide; [done|]. specialize (Hl ltac:(done)).
  repeat case_if; try done. apply seek_any_rounds; unfold chars, rounds_of in *; lia.
Qed.

Lemma SeekStartTagAny_left h : let '(ret, _, h') := trdp_XMLSeekStartTagAny h in
  (chars h' <= chars h)%nat /\ (ret = 0 -> (chars h' < chars h)%nat).
Proof.
  unfold trdp_XMLSeekStartTagAny. generalize (rounds_of h). intros n. revert h. induction n as [|n IH]; intros h; [done|]. cbn [seek_any].
  pose proof (NextTokenHl_left h) as Hl. destruct (trdp_XMLNextTokenHl h) as [t h1]. destruct Hl as [Hl1 Hl].
  case_bool_decide; [done|]. specialize (Hl ltac:(done)). repeat case_if; try (split; lia).
  specialize (IH h1). destruct (seek_any n h1) as [[r b] h2]. intuition lia.
Qed.

Lemma seek_tag_rounds n : forall m tag h, (chars h < n)%nat -> (chars h < m)%nat -> seek_tag n tag h = seek_tag m tag h.
Proof.
  induction n as [|n IH]; intros m tag h Hn Hm; [lia|]. destruct m as [|m]; [lia|]. cbn [seek_tag].
  pose proof (SeekStartTagAny_left h) as Hl. destruct (trdp_XMLSeekStartTagAny h) as [[r b] h1]. destruct Hl as [_ Hl].
  destruct (r =? 0) eqn:E; [|done]. bprop. specialize (Hl E). case_if; [|done]. apply IH; lia.
Qed.

Lemma SeekStartTag_eq tag h : trdp_XMLSeekStartTag tag h =
  let '(ret, buf, h) := trdp_XMLSeekStartTagAny h in
  if (ret =? 0) && negb (bool_decide (buf = tag)) then trdp_XMLSeekStartTag tag h else (ret, h).
Proof.
  unfold trdp_XMLSeekStartTag at 1, rounds_of. cbn [seek_tag]. pose proof (SeekStartTagAny_left h) as Hl.
  destruct (trdp_XMLSeekStartTagAny h) as [[r b] h1]. destruct Hl as [_ Hl].
  destruct (r =? 0) eqn:E; [|done]. bprop. specialize (Hl E). case_if; [|done]. apply seek_tag_rounds; unfold chars, rounds_of in *; lia.
Qed.

Lemma count_tag_rounds n : forall m tag c h, (chars h < n)%nat -> (chars h < m)%nat -> count_tag n tag c h = count_tag m tag c h.
Proof.
  induction n as [|n IH]; intros m tag c h Hn Hm; [lia|]. destruct m as [|m]; [lia|]. cbn [count_tag].
  pose proof (SeekStartTagAny_left h) as Hl. destruct (trdp_XMLSeekStartTagAny h) as [[r b] h1]. destruct Hl as [_ Hl].
  destruct (r =? 0) eqn:E; [|done]. bprop. specialize (Hl E). apply IH; lia.
Qed.

Lemma count_tag_eq tag c h : count_tag (rounds_of h) tag c h =
  let '(ret, buf, h) := trdp_XMLSeekStartTagAny h in
  if ret =? 0 then count_tag (rounds_of h) tag (if bool_decide (buf = tag) then c + 1 else c) h else (c, h).
Proof.
  unfold rounds_of at 1. cbn [count_tag]. pose proof (SeekStartTagAny_left h) as Hl.
  destruct (trdp_XMLSeekStartTagAny h) as [[r b] h1]. destruct Hl as [_ Hl].
  destruct (r =? 0) eqn:E; [|done]. bprop. specialize (Hl E). apply count_tag_rounds; unfold chars, rounds_of in *; lia.
Qed.

Lemma scan_eq st : scan (S (left st)) st =
  match scan_step st with (Token t v err, st') => Some (t, v, err, st') | (Again, st') => scan (S (left st')) st' end.
Proof.
  change (scan (S (left st)) st) with (match scan_step st with (Token t v err, st') => Some (t, v, err, st') | (Again, st') => scan (left st) st' end).
  pose proof (scan_step_left st) as Hs. destruct (scan_step st) as [[t v e|] st']; [done|]. apply scan_rounds; lia.
Qed.
