(* ===== verification/TrdpXmlTree.v ===== *)
(** * The XML reader and the tree of elements

    What the functions of [TrdpXml] do on a text that is the spelling of a tree: [spells] relates texts
    to the tokens of the reader, with blanks, comments, instructions and declarations between them;
    [tokens] are those of an element. The lemmas follow a handle through the levels of the tree: seeking
    finds the next element of a level, counting counts them, and attributes are read one by one. *)
From S2P Require Import Prelude Bytes VosString TrdpTypes TrdpXml.

(** ** Tokens of the reader and the texts that spell them *)
Inductive htok := HStart (s : list Z) | HEnd (s : list Z) | HId (s : list Z) | HEqual | HClose | HCloseEmpty.

Definition token_of (t : htok) : XML_TOKEN_T :=
  match t with
  | HStart _ => TOK_START_TAG | HEnd _ => TOK_END_TAG | HId _ => TOK_ID
  | HEqual => TOK_EQUAL | HClose => TOK_CLOSE | HCloseEmpty => TOK_CLOSE_EMPTY
  end.
Definition depth_after (d : Z) (t : htok) : Z :=
  match t with HStart _ => d + 1 | HEnd _ | HCloseEmpty => d - 1 | _ => d end.
Definition value_of (t : htok) : option (list Z) := match t with HStart s | HEnd s | HId s => Some s | _ => None end.

(** A name is written without quotes, a value with them. *)
Definition name_char (c : Z) : bool := (32 <? c) && negb (special c).
Definition name_ok (s : list Z) : bool :=
  match s with [] => false | c :: _ => negb (c =? 34) end && forallb name_char s && (length s <=? 123)%nat.
Definition value_ok (s : list Z) : bool := forallb (fun c => negb (c =? 34) && negb (c =? 0)) s && (length s <=? 123)%nat.
Definition tag_ok (s : list Z) : bool := name_ok s && negb (hd 0 s =? 33) && negb (hd 0 s =? 63).

(** The text of a comment: no zero, no two dashes in a row, none at the end. *)
Fixpoint comment_ok (b : list Z) : bool :=
  match b with
  | [] => true
  | c :: b' => negb (c =? 0) && (if c =? 45 then match b' with d :: _ => negb (d =? 45) | [] => false end else true) && comment_ok b'
  end.

Definition delimited (l : list Z) : Prop := match l with c :: _ => special c = true \/ c <= 32 | [] => False end.

Inductive spells : list htok -> list Z -> Prop :=
| sp_nil : spells [] []
| sp_blank c ts l : c <= 32 -> spells ts l -> spells ts (c :: l)
| sp_comment b ts l : comment_ok b = true -> spells ts l -> spells ts ([60; 33; 45; 45] ++ b ++ [45; 45; 62] ++ l)
| sp_instruction b ts l : forallb (fun c => negb (c =? 0) && negb (c =? 63)) b = true -> spells ts l ->
    spells ts ([60; 63] ++ b ++ [63; 62] ++ l)
| sp_declaration c b ts l : negb (c =? 0) && negb (c =? 45) = true -> forallb (fun c => negb (c =? 62)) b = true -> spells ts l ->
    spells ts ([60; 33; c] ++ b ++ [62] ++ l)
| sp_start s ts l : tag_ok s = true -> delimited l -> spells ts l -> spells (HStart s :: ts) ([60] ++ s ++ l)
| sp_end s ts l : name_ok s = true -> delimited l -> spells ts l -> spells (HEnd s :: ts) ([60; 47] ++ s ++ l)
| sp_name s ts l : name_ok s = true -> delimited l -> spells ts l -> spells (HId s :: ts) (s ++ l)
| sp_quoted s ts l : value_ok s = true -> spells ts l -> spells (HId s :: ts) ([34] ++ s ++ [34] ++ l)
| sp_equal ts l : spells ts l -> spells (HEqual :: ts) (61 :: l)
| sp_close ts l : spells ts l -> spells (HClose :: ts) (62 :: l)
| sp_close_empty ts l : spells ts l -> spells (HCloseEmpty :: ts) ([47; 62] ++ l).

Lemma name_ok_spec s : name_ok s = true -> exists c s', s = c :: s' /\ c <> 34 /\ Forall (fun c => 32 < c /\ special c = false) s /\ (length s <= 123)%nat.
Proof.
  unfold name_ok. destruct s as [|c s]; [done|]. intros H. rewrite !andb_true_iff, negb_true_iff, Z.eqb_neq, Nat.leb_le in H.
  destruct H as [[H1 H2] H3]. exists c, s. split_and!; [done..| |done]. rewrite forallb_forall in H2. apply list.Forall_forall.
  intros x Hx. apply list_elem_of_In in Hx. specialize (H2 x Hx). unfold name_char in H2. rewrite andb_true_iff, negb_true_iff, Z.ltb_lt in H2. done.
Qed.

Lemma value_ok_spec s : value_ok s = true -> Forall (fun c => c <> 34 /\ c <> 0) s /\ (length s <= 123)%nat.
Proof.
  unfold value_ok. rewrite andb_true_iff, forallb_forall, Nat.leb_le. intros [H1 H2]. split; [|done]. apply list.Forall_forall.
  intros x Hx. apply list_elem_of_In in Hx. specialize (H1 x Hx). rewrite andb_true_iff, !negb_true_iff, !Z.eqb_neq in H1. done.
Qed.

Lemma special_range c : special c = true -> 32 < c /\ c <> 34.
Proof. unfold special. rewrite !orb_true_iff, !Z.eqb_eq. lia. Qed.

Lemma spells_blank ts c l : spells ts (c :: l) -> c <= 32 -> spells ts l.
Proof.
  intros H Hc. remember (c :: l) as l0 eqn:E. destruct H as [|c' ts' l' _ H|b ts' l' _ _|b ts' l' _ _|c' b ts' l' _ _ _|s' ts' l' _ _ _|s' ts' l' _ _ _|s' ts' l' Hs _ _|s' ts' l' _ _|ts' l' _|ts' l' _|ts' l' _];
    try (injection E; lia); try done.
  - by injection E as -> ->.
  - destruct (name_ok_spec s' Hs) as (c0 & s0 & -> & _ & Hall & _). injection E as -> _. inversion Hall; subst. lia.
Qed.

(** Where the reader stands behind a name. *)
Lemma unquoted_name s l : Forall (fun c => 32 < c /\ special c = false) s -> delimited l ->
  exists l', unquoted (s ++ l) = (s, (l', false)) /\ (l' = l \/ exists c, l = c :: l' /\ c <= 32).
Proof.
  intros Hs Hl. induction Hs as [|c s [Hc1 Hc2] _ (l' & IH & Hl')]; cbn [app unquoted].
  - destruct l as [|c l]; [done|]. cbn [unquoted]. destruct (special c) eqn:E; [exists (c :: l); split; [done|by left]|].
    destruct Hl as [Hl|Hl]; [congruence|]. exists l. rewrite (proj2 (Z.leb_le _ _)) by lia. split; [done|]. right. by exists c.
  - exists l'. rewrite Hc2, (proj2 (Z.leb_gt _ _)), IH by lia. done.
Qed.

Lemma quoted_value s l : Forall (fun c => c <> 34 /\ c <> 0) s -> quoted (s ++ 34 :: l) = (s, (l, false)).
Proof. induction 1 as [|c s [Hc _] _ IH]; [done|]. cbn [app quoted]. by rewrite (proj2 (Z.eqb_neq c 34)), IH by lia. Qed.

Lemma clip_short s : (length s <= 123)%nat -> clip s = s.
Proof. intros H. apply take_ge. unfold MAX_TOK_LEN. lia. Qed.

Lemma comment_skipped b : forall cnt l, comment_ok b = true ->
  (0 <= cnt <= 1) -> (cnt = 1 -> match b with c :: _ => c <> 45 | [] => False end) ->
  skip_comment cnt (b ++ 45 :: 45 :: 62 :: l) = (0, (l, false)).
Proof.
  induction b as [|c b IH]; intros cnt l Hb Hc H1; cbn [app skip_comment].
  - destruct (Z.eq_dec cnt 1) as [->|]; [by destruct (H1 eq_refl)|]. replace cnt with 0 by lia. done.
  - cbn [comment_ok] in Hb. rewrite !andb_true_iff in Hb. destruct Hb as [[Hb1 Hb2] Hb3]. apply negb_true_iff in Hb1. rewrite Hb1.
    destruct (Z.eqb_spec c 45) as [->|Hne].
    + destruct (Z.eq_dec cnt 1) as [->|]; [by destruct (H1 eq_refl)|]. replace cnt with 0 by lia. apply (IH (0 + 1)); [done|lia|].
      intros _. destruct b; [done|]. by apply negb_true_iff, Z.eqb_neq in Hb2.
    + destruct ((c =? 62) && (cnt =? 2)) eqn:E; [bprop; lia|]. apply IH; [done|lia|lia].
Qed.

Lemma instruction_skipped b l : forallb (fun c => negb (c =? 0) && negb (c =? 63)) b = true -> skip_instruction (b ++ 63 :: 62 :: l) = (l, false).
Proof.
  induction b as [|c b IH]; [done|]. cbn [forallb app skip_instruction]. rewrite !andb_true_iff, !negb_true_iff. intros [[-> ->] H]. by apply IH.
Qed.

Lemma declaration_skipped b l : forallb (fun c => negb (c =? 62)) b = true -> skip_declaration (b ++ 62 :: l) = (l, false).
Proof. induction b as [|c b IH]; [done|]. cbn [forallb app skip_declaration]. rewrite andb_true_iff, negb_true_iff. intros [-> H]. by apply IH. Qed.

(** ** Reading one token *)
Definition scan_all (l : list Z) : option (XML_TOKEN_T * option (list Z) * bool * stream) := scan (S (length l)) (l, false).

Lemma scan_all_eq l : scan_all l =
  match scan_step (l, false) with (Token t v err, st') => Some (t, v, err, st') | (Again, (l', false)) => scan_all l' | (Again, st') => scan (S (length (fst st'))) st' end.
Proof.
  unfold scan_all. etransitivity; [exact (scan_eq (l, false))|].
  destruct (scan_step (l, false)) as [[t v e|] [l' [|]]]; done.
Qed.

Definition next_token (ts : list htok) (l : list Z) : Prop :=
  match ts with
  | [] => scan_all l = Some (TOK_EOF, None, false, ([], true))
  | t :: ts' =>
      exists l1 l', spells ts' l' /\ l' `suffix_of` l /\
      match t with
      | HStart s => scan_all l = Some (TOK_OPEN, None, false, (l1, false)) /\ scan_all l1 = Some (TOK_ID, Some s, false, (l', false))
      | HEnd s => scan_all l = Some (TOK_OPEN_END, None, false, (l1, false)) /\ scan_all l1 = Some (TOK_ID, Some s, false, (l', false))
      | _ => scan_all l = Some (token_of t, value_of t, false, (l', false))
      end
  end.

Lemma next_token_layout ts x l : scan_all (x ++ l) = scan_all l -> next_token ts l -> next_token ts (x ++ l).
Proof.
  intros E. destruct ts as [|t ts]; cbn [next_token]; [congruence|]. intros (l1 & l' & Hs & Hsuf & H). exists l1, l'.
  split_and!; [done|by apply suffix_app_r|]. rewrite E. done.
Qed.

Lemma next_token_markup ts x b y l : scan_all (x ++ b ++ y ++ l) = scan_all l -> next_token ts l -> next_token ts (x ++ b ++ y ++ l).
Proof.
  intros E H. replace (x ++ b ++ y ++ l) with ((x ++ b ++ y) ++ l) in * by (by rewrite <- !app_assoc). by apply next_token_layout.
Qed.

Lemma scan_name s l : name_ok s = true -> delimited l -> exists l',
  scan_all (s ++ l) = Some (TOK_ID, Some s, false, (l', false)) /\ l' `suffix_of` l /\ (l' = l \/ exists c, l = c :: l' /\ c <= 32).
Proof.
  intros Hs Hl. destruct (name_ok_spec s Hs) as (c & s' & -> & Hq & Hall & Hlen). apply list.Forall_cons in Hall as [[Hc1 Hc2] Hall].
  destruct (unquoted_name s' l Hall Hl) as (l' & Hu & Hl'). exists l'. split_and!; [|destruct Hl' as [->|(c' & -> & _)]; [done|by apply suffix_cons_r]|done].
  rewrite scan_all_eq. unfold scan_step. cbn [app fst snd skip_blank]. rewrite (proj2 (Z.leb_gt c 32)) by lia.
  unfold special in Hc2. rewrite !orb_false_iff in Hc2. destruct Hc2 as [[[-> ->] ->] ->]. rewrite (proj2 (Z.eqb_neq c 34)) by lia.
  rewrite Hu. rewrite clip_short by done. done.
Qed.

Lemma spells_behind ts l l' : spells ts l -> (l' = l \/ exists c, l = c :: l' /\ c <= 32) -> spells ts l'.
Proof. intros H [->|(c & -> & Hc)]; [done|]. by eapply spells_blank. Qed.

Lemma spells_next ts l : spells ts l -> next_token ts l.
Proof.
  induction 1 as [|c ts l Hc _ IH|b ts l Hb _ IH|b ts l Hb _ IH|c b ts l Hc Hb _ IH|s ts l Hs Hl H _|s ts l Hs Hl H _|s ts l Hs Hl H _|s ts l Hs H _|ts l H _|ts l H _|ts l H _].
  - done.
  - apply (next_token_layout ts [c]); [|done]. rewrite (scan_all_eq ([c] ++ l)), (scan_all_eq l). unfold scan_step. cbn [app fst snd skip_blank].
    by rewrite (proj2 (Z.leb_le c 32)) by lia.
  - apply next_token_markup; [|done]. rewrite scan_all_eq. unfold scan_step. cbn.
    by rewrite (comment_skipped b 0 l Hb) by lia.
  - apply next_token_markup; [|done]. rewrite scan_all_eq. unfold scan_step. cbn.
    by rewrite (instruction_skipped b l Hb).
  - apply next_token_markup; [|done]. rewrite scan_all_eq. unfold scan_step. cbn.
    rewrite andb_true_iff, !negb_true_iff in Hc. destruct Hc as [-> ->]. by rewrite (declaration_skipped b l Hb).
  - unfold tag_ok in Hs. rewrite !andb_true_iff, !negb_true_iff in Hs. destruct Hs as [[Hn H1] H2].
    destruct (scan_name s l Hn Hl) as (l' & Hsc & Hsuf & Hl'). exists (s ++ l), l'. split_and!; [by eapply spells_behind|by do 2 apply suffix_app_r| |done].
    destruct (name_ok_spec s Hn) as (c & s' & -> & _ & Hall & _). apply list.Forall_cons in Hall as [[_ Hsp] _].
    unfold special in Hsp. rewrite !orb_false_iff in Hsp. destruct Hsp as [_ Hsp]. rewrite scan_all_eq. unfold scan_step. cbn in *.
    by rewrite H1, H2, Hsp.
  - destruct (scan_name s l Hs Hl) as (l' & Hsc & Hsuf & Hl'). exists (s ++ l), l'. split_and!; [by eapply spells_behind|by do 2 apply suffix_app_r|done|done].
  - destruct (scan_name s l Hs Hl) as (l' & Hsc & Hsuf & Hl'). exists [], l'. split_and!; [by eapply spells_behind|by apply suffix_app_r|done].
  - destruct (value_ok_spec s Hs) as [Hall Hlen]. exists [], l. split_and!; [done|exists ([34] ++ s ++ [34]); by rewrite <- !app_assoc|].
    rewrite scan_all_eq. unfold scan_step. cbn [app fst snd skip_blank]. cbn. by rewrite (quoted_value s l Hall), clip_short.
  - exists [], l. split_and!; [done|by apply suffix_cons_r|done].
  - exists [], l. split_and!; [done|by apply suffix_cons_r|done].
  - exists [], l. split_and!; [done|by do 2 apply suffix_cons_r|done].
Qed.

(** ** The handle and the tokens in front of it *)

(** The handle reads the file [T] and has the tokens [ts] to read, at depth [d] seeking depth [k]. *)
Record reads (T : list Z) (h : XML_HANDLE_T) (ts : list htok) (d k : Z) : Prop := mkReads {
  rd_file : exists l e, infile h = Some (mkFile T true (l, e)) /\ spells ts l /\ l `suffix_of` T /\ (e = true -> l = [] /\ ts = []);
  rd_depth : tagDepth h = d;
  rd_seek : tagDepthSeek h = k }.

Lemma NextToken_scan h T l t v st : infile h = Some (mkFile T true (l, false)) -> scan_all l = Some (t, v, false, st) ->
  trdp_XMLNextToken h = (t, mkXml (Some (mkFile T true st)) (default (tokenValue h) v) (tagDepth h) (tagDepthSeek h) (tokenTag h) (xml_error h)).
Proof.
  intros Hf Hs. unfold trdp_XMLNextToken, here. rewrite Hf. cbn [at_ fst]. fold (scan_all l). rewrite Hs. unfold set_at. rewrite Hf. by destruct v.
Qed.

Lemma copied s : Forall (fun c => c <> 0) s -> (length s <= 123)%nat -> cstr (take MAX_TAG_LEN s) = s.
Proof. intros H Hl. rewrite take_ge by (unfold MAX_TAG_LEN; lia). by apply cstr_all. Qed.

(** The strings of the tokens that are spelled. *)
Definition string_ok (s : list Z) : Prop := Forall (fun c => c <> 0) s /\ (length s <= 123)%nat.
Lemma name_string s : name_ok s = true -> string_ok s.
Proof.
  intros H. destruct (name_ok_spec s H) as (c & s' & -> & _ & Hall & Hl). split; [|done].
  eapply list.Forall_impl; [exact Hall|]. cbn. lia.
Qed.
Lemma value_string s : value_ok s = true -> string_ok s.
Proof. intros H. destruct (value_ok_spec s H) as [Hall Hl]. split; [|done]. eapply list.Forall_impl; [exact Hall|]. cbn. tauto. Qed.

Lemma spells_strings ts l : spells ts l -> Forall (fun t => match value_of t with Some s => string_ok s | None => True end) ts.
Proof.
  induction 1; try done; constructor; try done; cbn [value_of]; try (by apply name_string); try (by apply value_string).
  apply name_string. unfold tag_ok in *. rewrite !andb_true_iff in *. tauto.
Qed.

(** The next token, the depth that follows and the tag it leaves. *)
Lemma reads_next T h t ts d k : reads T h (t :: ts) d k ->
  exists h', trdp_XMLNextTokenHl h = (token_of t, h') /\ reads T h' ts (depth_after d t) k
    /\ match value_of t with Some s => tokenTag h' = s /\ tokenValue h' = s | None => True end.
Proof.
  intros [(l & e & Hf & Hsp & Hsuf & He) Hd Hk]. destruct e; [by destruct (He eq_refl)|]. clear He.
  pose proof (spells_strings _ _ Hsp) as Hst. apply list.Forall_cons in Hst as [Hst _].
  destruct (spells_next _ _ Hsp) as (l1 & l' & Hs' & Hsuf' & H). assert (Hsuf2 : l' `suffix_of` T) by (by etrans).
  unfold trdp_XMLNextTokenHl. destruct t as [s|s|s| | |]; cbn [value_of] in *.
  1, 2: destruct H as [H1 H2]; rewrite (NextToken_scan h T l _ _ _ Hf H1); cbn [token_of];
    erewrite (NextToken_scan _ T l1) by (done || exact H2); cbn; eexists; split; [done|]; destruct Hst as [Hz Hlen];
    split; [|cbn; rewrite copied by done; done]; split; cbn; [|lia|done]; exists l', false; done.
  all: rewrite (NextToken_scan h T l _ _ _ Hf H); cbn; eexists; split; [done|]; split; try done;
    try (split; cbn; [|lia|done]; exists l', false; done).
  destruct Hst as [Hz Hlen]. cbn [copy_tag set_tokenTag tokenTag tokenValue]. by rewrite copied.
Qed.

Lemma reads_end T h d k : reads T h [] d k -> exists h', trdp_XMLNextTokenHl h = (TOK_EOF, h') /\ reads T h' [] d k.
Proof.
  intros [(l & e & Hf & Hsp & Hsuf & He) Hd Hk]. unfold trdp_XMLNextTokenHl. destruct e.
  - destruct (He eq_refl) as [-> _]. unfold trdp_XMLNextToken, here. rewrite Hf. cbn. eexists. split; [done|]. split; cbn; [|done..].
    exists [], true. unfold set_at. rewrite Hf. done.
  - pose proof (spells_next _ _ Hsp) as H. cbn in H. rewrite (NextToken_scan h T l _ _ _ Hf H). cbn. eexists. split; [done|]. split; cbn; [|done..].
    exists [], true. split_and!; [done|constructor|by apply suffix_nil|done].
Qed.

(** ** Seeking on tokens *)
Fixpoint aseek (k d : Z) (ts : list htok) : Z * list Z * Z * list htok :=
  match ts with
  | [] => (-1, [], d, [])
  | t :: ts' =>
      let d' := depth_after d t in
      if d' <? k - 1 then (-2, [], d', ts')
      else match t with
           | HStart s => if d' =? k then (0, s, d', ts') else aseek k d' ts'
           | _ => aseek k d' ts'
           end
  end.

Lemma seek_any_tokens T ts : forall h d k, reads T h ts d k ->
  let '(r, s, d', ts') := aseek k d ts in
  exists h', trdp_XMLSeekStartTagAny h = (r, s, h') /\ reads T h' ts' d' k /\ (r = 0 -> tokenTag h' = s).
Proof.
  induction ts as [|t ts IH]; intros h d k Hr; cbn [aseek]; rewrite SeekStartTagAny_eq.
  - destruct (reads_end _ _ _ _ Hr) as (h' & -> & Hr'). rewrite bool_decide_true by done. exists h'. done.
  - destruct (reads_next _ _ _ _ _ _ Hr) as (h1 & -> & Hr' & Hv). pose proof (rd_depth _ _ _ _ _ Hr') as Hd. pose proof (rd_seek _ _ _ _ _ Hr') as Hk.
    rewrite bool_decide_false by (by destruct t). rewrite Hd, Hk. destruct (depth_after d t <? k - 1); [exists h1; done|].
    destruct t as [s|s|s| | |]; cbn [token_of]; rewrite ?(bool_decide_true (TOK_START_TAG = _)), ?andb_true_r by done;
      try (rewrite bool_decide_false, andb_false_r by done; apply IH; exact Hr').
    destruct (depth_after d (HStart s) =? k); [|apply IH; exact Hr']. destruct Hv as [Hv _]. exists h1. by rewrite Hv.
Qed.

(** Seeking a tag, and counting it. *)
Fixpoint aseek_tag (tag : list Z) (k d : Z) (ts : list htok) : Z * Z * list htok :=
  match ts with
  | [] => (-1, d, [])
  | t :: ts' =>
      let d' := depth_after d t in
      if d' <? k - 1 then (-2, d', ts')
      else match t with
           | HStart s => if (d' =? k) && bool_decide (s = tag) then (0, d', ts') else aseek_tag tag k d' ts'
           | _ => aseek_tag tag k d' ts'
           end
  end.
Fixpoint acount (tag : list Z) (k d : Z) (ts : list htok) : Z :=
  match ts with
  | [] => 0
  | t :: ts' =>
      let d' := depth_after d t in
      if d' <? k - 1 then 0
      else match t with
           | HStart s => (if (d' =? k) && bool_decide (s = tag) then 1 else 0) + acount tag k d' ts'
           | _ => acount tag k d' ts'
           end
  end.

Lemma aseek_tag_eq tag k ts : forall d, aseek_tag tag k d ts =
  let '(r, s, d', ts') := aseek k d ts in if (r =? 0) && negb (bool_decide (s = tag)) then aseek_tag tag k d' ts' else (r, d', ts').
Proof.
  induction ts as [|t ts IH]; intros d; [done|]. cbn [aseek aseek_tag]. destruct (_ <? _); [done|]. destruct t as [s|s|s| | |]; try apply IH.
  destruct (_ =? k); [|apply IH]. cbn. case_bool_decide; done.
Qed.
Lemma acount_eq tag k ts : forall d, acount tag k d ts =
  let '(r, s, d', ts') := aseek k d ts in if r =? 0 then (if bool_decide (s = tag) then 1 else 0) + acount tag k d' ts' else 0.
Proof.
  induction ts as [|t ts IH]; intros d; [done|]. cbn [aseek acount]. destruct (_ <? _); [done|]. destruct t as [s|s|s| | |]; try apply IH.
  destruct (_ =? k); [done|apply IH].
Qed.

Lemma aseek_shorter k ts : forall d r s d' ts', aseek k d ts = (r, s, d', ts') -> r = 0 -> (length ts' < length ts)%nat.
Proof.
  induction ts as [|t ts IH]; intros d r s d' ts'; cbn [aseek]; [intros [= <- _ _ _]; lia|].
  destruct (_ <? _); [intros [= <- _ _ _]; lia|]. cbn [length].
  destruct t as [s0|s0|s0| | |]; try (intros H Hr; specialize (IH _ _ _ _ _ H Hr); lia).
  destruct (_ =? k); [intros [= _ _ _ <-]; lia|]. intros H Hr. specialize (IH _ _ _ _ _ H Hr). lia.
Qed.

Lemma seek_tag_tokens T tag k : forall n ts h d, (length ts < n)%nat -> reads T h ts d k ->
  let '(r, d', ts') := aseek_tag tag k d ts in
  exists h', trdp_XMLSeekStartTag tag h = (r, h') /\ reads T h' ts' d' k /\ (r = 0 -> tokenTag h' = tag).
Proof.
  induction n as [|n IH]; intros ts h d Hn Hr; [lia|]. rewrite aseek_tag_eq, SeekStartTag_eq.
  pose proof (seek_any_tokens T ts h d k Hr) as Ha. pose proof (aseek_shorter k ts d) as Hl. destruct (aseek k d ts) as [[[r s] d'] ts'].
  destruct Ha as (h' & -> & Hr' & Htag). destruct (Z.eqb_spec r 0) as [->|]; cbn [andb]; [|exists h'; done].
  specialize (Hl _ _ _ _ eq_refl eq_refl). case_bool_decide as E; cbn [negb]; [exists h'; subst; split_and!; auto|]. apply IH; [lia|done].
Qed.

Lemma count_tag_tokens T tag k : forall n ts h d c, (length ts < n)%nat -> reads T h ts d k ->
  exists h' ts' d', count_tag (rounds_of h) tag c h = (c + acount tag k d ts, h') /\ reads T h' ts' d' k.
Proof.
  induction n as [|n IH]; intros ts h d c Hn Hr; [lia|]. rewrite acount_eq, count_tag_eq.
  pose proof (seek_any_tokens T ts h d k Hr) as Ha. pose proof (aseek_shorter k ts d) as Hl. destruct (aseek k d ts) as [[[r s] d'] ts'].
  destruct Ha as (h' & -> & Hr' & Htag). destruct (Z.eqb_spec r 0) as [->|]; [|exists h', ts', d'; by rewrite Z.add_0_r].
  specialize (Hl _ _ _ _ eq_refl eq_refl).
  destruct (IH ts' h' d' (if bool_decide (s = tag) then c + 1 else c)) as (h2 & ts2 & d2 & -> & Hr2); [lia|done|].
  exists h2, ts2, d2. split; [|done]. f_equal. case_bool_decide; lia.
Qed.

(** Counting leaves the handle where it was. *)
Lemma count_tokens T tag h ts d k : reads T h ts d k ->
  exists h', trdp_XMLCountStartTag tag h = (acount tag k d ts, h') /\ reads T h' ts d k /\ tokenTag h' = tokenTag h.
Proof.
  intros Hr. unfold trdp_XMLCountStartTag. destruct (count_tag_tokens T tag k (S (length ts)) ts h d 0) as (h' & ts' & d' & -> & Hr'); [lia|done|].
  destruct Hr as [(l & e & Hf & Hsp & [pre Hsuf] & He) Hd Hk]. destruct Hr' as [(l2 & e2 & Hf2 & _) _ _].
  rewrite Hf, Hf2. unfold ftell. cbn. eexists. split; [done|]. split; [|done]. split; cbn; [|done..].
  exists l, false. split_and!; [|done|by exists pre|done]. do 2 f_equal. rewrite Hsuf, length_app, Nat2Z.inj_add.
  replace (Z.to_nat _) with (length pre) by lia. by rewrite drop_app_length.
Qed.

(** ** The tree *)
Abbreviation attr := (list Z * list Z)%type.
#[warnings="-register-all"]
Inductive xml :=
| Elem (tag : list Z) (attrs : list attr) (kids : list xml)
| Empty (tag : list Z) (attrs : list attr)
| Word (w : list Z).

Section xml_ind.
Context (P : xml -> Prop) (HE : forall t a ks, Forall P ks -> P (Elem t a ks)) (HS : forall t a, P (Empty t a)) (HW : forall w, P (Word w)).
Fixpoint xml_tree_ind (x : xml) : P x :=
  match x with
  | Elem t a ks => HE t a ks ((fix go ks : Forall P ks := match ks with [] => @Forall_nil _ P | k :: ks' => @Forall_cons _ P k ks' (xml_tree_ind k) (go ks') end) ks)
  | Empty t a => HS t a
  | Word w => HW w
  end.
End xml_ind.

Definition attr_tokens (a : list attr) : list htok := flat_map (fun nv => [HId (fst nv); HEqual; HId (snd nv)]) a.
Fixpoint tokens (x : xml) : list htok :=
  match x with
  | Elem t a ks => HStart t :: attr_tokens a ++ HClose :: flat_map tokens ks ++ [HEnd t; HClose]
  | Empty t a => HStart t :: attr_tokens a ++ [HCloseEmpty]
  | Word w => [HId w]
  end.
Abbreviation all_tokens := (flat_map tokens).

Definition tag_of (x : xml) : option (list Z) := match x with Elem t _ _ | Empty t _ => Some t | Word _ => None end.
Definition attrs_of (x : xml) : list attr := match x with Elem _ a _ | Empty _ a => a | Word _ => [] end.
Definition kids_of (x : xml) : list xml := match x with Elem _ _ ks => ks | _ => [] end.
Definition is_empty (x : xml) : bool := match x with Empty _ _ => true | _ => false end.

(** Behind the attributes of an element, and its end. *)
Definition body (x : xml) : list htok := match x with Elem t _ ks => HClose :: all_tokens ks ++ [HEnd t; HClose] | Empty _ _ => [HCloseEmpty] | Word _ => [] end.
Definition closing (x : xml) : list htok := match x with Elem t _ _ => [HEnd t; HClose] | Empty _ _ => [HCloseEmpty] | Word _ => [] end.

Lemma tokens_elem x t : tag_of x = Some t -> tokens x = HStart t :: attr_tokens (attrs_of x) ++ body x.
Proof. destruct x; intros [= ->]; done. Qed.

(** Seeking passes over attributes, the ends of tags and whole elements of deeper levels. *)
Lemma aseek_attrs k d a X : k - 1 <= d -> aseek k d (attr_tokens a ++ X) = aseek k d X.
Proof. intros H. induction a as [|[n v] a IH]; [done|]. cbn. rewrite (proj2 (Z.ltb_ge d (k - 1))) by lia. apply IH. Qed.
Lemma aseek_close k d X : k - 1 <= d -> aseek k d (HClose :: X) = aseek k d X.
Proof. intros H. cbn. by rewrite (proj2 (Z.ltb_ge d (k - 1))) by lia. Qed.

Lemma aseek_end k d t X : k - 1 < d -> aseek k d (HEnd t :: HClose :: X) = aseek k (d - 1) X.
Proof. intros H. cbn [aseek depth_after]. by rewrite (proj2 (Z.ltb_ge (d - 1) (k - 1))) by lia. Qed.
Lemma aseek_close_empty k d X : k - 1 < d -> aseek k d (HCloseEmpty :: X) = aseek k (d - 1) X.
Proof. intros H. cbn [aseek depth_after]. by rewrite (proj2 (Z.ltb_ge (d - 1) (k - 1))) by lia. Qed.

Lemma aseek_deeper k d t X : k <= d -> aseek k d (HStart t :: X) = aseek k (d + 1) X.
Proof. intros H. cbn [aseek depth_after]. rewrite (proj2 (Z.ltb_ge (d + 1) (k - 1))), (proj2 (Z.eqb_neq (d + 1) k)) by lia. done. Qed.

Lemma aseek_element k x : forall d X, k <= d -> aseek k d (tokens x ++ X) = aseek k d X.
Proof.
  induction x as [t a ks IH|t a|w] using xml_tree_ind; intros d X Hd; cbn [tokens].
  - cbn [app]. rewrite aseek_deeper, <- app_assoc, aseek_attrs by lia. cbn [app]. rewrite aseek_close, <- app_assoc by lia.
    assert (Hks : forall Y, aseek k (d + 1) (all_tokens ks ++ Y) = aseek k (d + 1) Y).
    { intros Y. induction IH as [|x ks Hx _ IHk]; [done|]. cbn [flat_map]. rewrite <- app_assoc, Hx by lia. apply IHk. }
    rewrite Hks. cbn [app]. rewrite aseek_end by lia. by replace (d + 1 - 1) with d by lia.
  - cbn [app]. rewrite aseek_deeper, <- app_assoc, aseek_attrs by lia. cbn [app]. rewrite aseek_close_empty by lia.
    by replace (d + 1 - 1) with d by lia.
  - cbn. by rewrite (proj2 (Z.ltb_ge d (k - 1))) by lia.
Qed.
Lemma aseek_elements k ks d X : k <= d -> aseek k d (all_tokens ks ++ X) = aseek k d X.
Proof. intros Hd. induction ks as [|x ks IH]; [done|]. cbn [flat_map]. by rewrite <- app_assoc, aseek_element. Qed.

(** From inside an element of the level, and from behind its start tag. *)
Lemma aseek_body k x X : tag_of x <> None -> aseek k k (body x ++ X) = aseek k (k - 1) X.
Proof.
  intros Hx. destruct x as [t a ks|t a|w]; [|cbn [body app]; by rewrite aseek_close_empty by lia|done].
  cbn [body app]. rewrite aseek_close, <- app_assoc, aseek_elements by lia. cbn [app]. by rewrite aseek_end by lia.
Qed.

(** The next element of a level, and those behind it. *)
Fixpoint next_elem (ks : list xml) : option (xml * list xml) :=
  match ks with [] => None | Word _ :: ks' => next_elem ks' | x :: ks' => Some (x, ks') end.
Fixpoint find_elem (tag : list Z) (ks : list xml) : option (xml * list xml) :=
  match ks with [] => None | x :: ks' => if bool_decide (tag_of x = Some tag) then Some (x, ks') else find_elem tag ks' end.
Definition elems (tag : list Z) (ks : list xml) : list xml := List.filter (fun x => bool_decide (tag_of x = Some tag)) ks.

Lemma elems_cons tag x ks : elems tag (x :: ks) = if bool_decide (tag_of x = Some tag) then x :: elems tag ks else elems tag ks.
Proof. done. Qed.

Lemma aseek_level k ks X : aseek k (k - 1) (all_tokens ks ++ X) =
  match next_elem ks with
  | Some (x, rest) => (0, default [] (tag_of x), k, attr_tokens (attrs_of x) ++ body x ++ all_tokens rest ++ X)
  | None => aseek k (k - 1) X
  end.
Proof.
  assert (Hst : forall t Y, aseek k (k - 1) (HStart t :: Y) = (0, t, k, Y)).
  { intros t Y. cbn [aseek depth_after]. rewrite (proj2 (Z.ltb_ge (k - 1 + 1) (k - 1))) by lia. replace (k - 1 + 1) with k by lia. by rewrite Z.eqb_refl. }
  induction ks as [|x ks IH]; [done|]. cbn [flat_map]. rewrite <- app_assoc.
  destruct x as [t a kids|t a|w]; cbn [next_elem tokens app]; rewrite ?Hst.
  - cbn [tag_of attrs_of body default]. rewrite <- (app_assoc (attr_tokens a)). done.
  - cbn [tag_of attrs_of body default]. rewrite <- (app_assoc (attr_tokens a)). done.
  - cbn [aseek depth_after]. rewrite (proj2 (Z.ltb_ge (k - 1) (k - 1))) by lia. apply IH.
Qed.

Definition ends_level (k : Z) (X : list htok) : Prop := X = [] \/ exists x Y, tag_of x <> None /\ X = closing x ++ Y.

Lemma aseek_end_level k X : ends_level k X -> exists r d Y, aseek k (k - 1) X = (r, [], d, Y) /\ r <> 0.
Proof.
  intros [->|(x & Y & Hx & ->)]; [by eexists _, _, _|]. destruct x; [| |done]; cbn [closing app aseek depth_after];
    rewrite (proj2 (Z.ltb_lt (k - 1 - 1) (k - 1))) by lia; by eexists _, _, _.
Qed.

Lemma aseek_tag_level k tag ks X : ends_level k X -> aseek_tag tag k (k - 1) (all_tokens ks ++ X) =
  match find_elem tag ks with
  | Some (x, rest) => (0, k, attr_tokens (attrs_of x) ++ body x ++ all_tokens rest ++ X)
  | None => let '(r, _, d, Y) := aseek k (k - 1) X in (r, d, Y)
  end.
Proof.
  intros HX. assert (Hb : forall a b Y, a = b -> aseek_tag tag k a Y = aseek_tag tag k b Y) by congruence.
  induction ks as [|x ks IH].
  - cbn [flat_map app find_elem]. rewrite aseek_tag_eq. destruct (aseek_end_level k X HX) as (r & d & Y & -> & Hr).
    by rewrite (proj2 (Z.eqb_neq r 0)).
  - rewrite aseek_tag_eq, aseek_level. cbn [next_elem find_elem].
    destruct x as [t a kids|t a|w]; [| |rewrite bool_decide_false by done; rewrite <- IH, aseek_tag_eq, aseek_level; done].
    all: cbn [tag_of default]; rewrite Z.eqb_refl; cbn [andb]; destruct (decide (t = tag)) as [->|Hne];
      [rewrite !bool_decide_true by done; done|rewrite (bool_decide_false (t = tag)), (bool_decide_false (Some t = Some tag)) by congruence; cbn [negb]; rewrite <- IH].
    1: rewrite aseek_tag_eq, (aseek_tag_eq tag k (all_tokens ks ++ X)), aseek_attrs, (aseek_body k (Elem t a kids)) by (done || lia); done.
    rewrite aseek_tag_eq, (aseek_tag_eq tag k (all_tokens ks ++ X)), aseek_attrs, (aseek_body k (Empty t a)) by (done || lia); done.
Qed.

Lemma acount_level k tag ks X : ends_level k X -> acount tag k (k - 1) (all_tokens ks ++ X) = Z.of_nat (length (elems tag ks)).
Proof.
  intros HX. induction ks as [|x ks IH].
  - cbn [flat_map app elems List.filter]. rewrite acount_eq. destruct (aseek_end_level k X HX) as (r & d & Y & -> & Hr).
    by rewrite (proj2 (Z.eqb_neq r 0)).
  - rewrite acount_eq, aseek_level, elems_cons. cbn [next_elem].
    destruct x as [t a kids|t a|w]; [| |rewrite bool_decide_false by done; rewrite <- IH, acount_eq, aseek_level; done].
    all: cbn [tag_of default]; rewrite Z.eqb_refl.
    1: rewrite acount_eq, aseek_attrs, (aseek_body k (Elem t a kids)), <- acount_eq, IH by (done || lia).
    2: rewrite acount_eq, aseek_attrs, (aseek_body k (Empty t a)), <- acount_eq, IH by (done || lia).
    all: destruct (decide (t = tag)) as [->|Hne]; [rewrite !bool_decide_true by done|rewrite (bool_decide_false (t = tag)), (bool_decide_false (Some t = Some tag)) by congruence]; cbn [length]; lia.
Qed.

(** ** The reader in the tree *)
Definition passed (k d : Z) (pre : list htok) : Prop := forall X, aseek k d (pre ++ X) = aseek k (k - 1) X.
Definition closes (X : list htok) : Prop := X = [] \/ exists x Y, tag_of x <> None /\ X = closing x ++ Y.

(** At the level [k]: the elements [ks] are to come, then [up] ends the level. *)
Definition at_level (T : list Z) (h : XML_HANDLE_T) (k : Z) (ks : list xml) (up : list htok) : Prop :=
  closes up /\ exists d pre, reads T h (pre ++ all_tokens ks ++ up) d k /\ passed k d pre.

(** Inside the start tag of [x], an element of level [d], with the attributes [a] to come and the elements
    [rest] behind it. *)
Definition in_elem (T : list Z) (h : XML_HANDLE_T) (d k : Z) (x : xml) (a : list attr) (rest : list xml) (up : list htok) : Prop :=
  tag_of x <> None /\ closes up /\ reads T h (attr_tokens a ++ body x ++ all_tokens rest ++ up) d k.

(** Behind the start tag. *)
Definition opened (T : list Z) (h : XML_HANDLE_T) (d k : Z) (x : xml) (rest : list xml) (up : list htok) : Prop :=
  tag_of x <> None /\ closes up /\
  if is_empty x then reads T h (all_tokens rest ++ up) (d - 1) k
  else reads T h (all_tokens (kids_of x) ++ closing x ++ all_tokens rest ++ up) d k.

(** The end of the level has been read. *)
Definition level_done (T : list Z) (h : XML_HANDLE_T) (k : Z) (up : list htok) : Prop :=
  let '(_, _, d, Y) := aseek k (k - 1) up in reads T h Y d k.

Lemma closing_closes x Y : tag_of x <> None -> closes (closing x ++ Y).
Proof. intros H. right. by exists x, Y. Qed.

Lemma passed_nil k : passed k (k - 1) [].
Proof. done. Qed.
Lemma passed_attrs k d a pre : k - 1 <= d -> passed k d pre -> passed k d (attr_tokens a ++ pre).
Proof. intros Hd H X. by rewrite <- app_assoc, aseek_attrs by done. Qed.
Lemma passed_body k x : tag_of x <> None -> passed k k (body x).
Proof. intros H X. by apply aseek_body. Qed.

Lemma seek_tag_level T h k ks up tag : at_level T h k ks up ->
  match find_elem tag ks with
  | Some (x, rest) => exists h', trdp_XMLSeekStartTag tag h = (0, h') /\ in_elem T h' k k x (attrs_of x) rest up
  | None => exists r h', trdp_XMLSeekStartTag tag h = (r, h') /\ r <> 0 /\ level_done T h' k up
  end.
Proof.
  intros [Hup (d & pre & Hr & Hp)].
  pose proof (seek_tag_tokens T tag k _ _ h d (Nat.lt_succ_diag_r _) Hr) as Hs.
  rewrite aseek_tag_eq, Hp, <- aseek_tag_eq, aseek_tag_level in Hs by exact Hup.
  destruct (find_elem tag ks) as [[x rest]|] eqn:E.
  - destruct Hs as (h' & Hs & Hr' & _). exists h'. split; [done|]. split_and!; [|done|done].
    clear -E. induction ks as [|y ks IH]; [done|]. cbn [find_elem] in E. case_bool_decide; [injection E as -> ->; congruence|auto].
  - unfold level_done. destruct (aseek_end_level k up Hup) as (r & d' & Y & HY & Hne). rewrite HY in *.
    destruct Hs as (h' & Hs & Hr' & _). by exists r, h'.
Qed.

Lemma seek_any_level T h k ks up : at_level T h k ks up ->
  match next_elem ks with
  | Some (x, rest) => exists h', trdp_XMLSeekStartTagAny h = (0, default [] (tag_of x), h') /\ in_elem T h' k k x (attrs_of x) rest up
  | None => exists r h', trdp_XMLSeekStartTagAny h = (r, [], h') /\ r <> 0 /\ level_done T h' k up
  end.
Proof.
  intros [Hup (d & pre & Hr & Hp)]. pose proof (seek_any_tokens T _ h d k Hr) as Hs. rewrite Hp, aseek_level in Hs.
  destruct (next_elem ks) as [[x rest]|] eqn:E.
  - destruct Hs as (h' & Hs & Hr' & _). exists h'. split; [done|]. split_and!; [|done|done].
    clear -E. induction ks as [|y ks IH]; [done|]. cbn [next_elem] in E. destruct y; [| |auto]; by injection E as <- _.
  - unfold level_done. destruct (aseek_end_level k up Hup) as (r & d' & Y & HY & Hne). rewrite HY in *.
    destruct Hs as (h' & Hs & Hr' & _). by exists r, h'.
Qed.

Lemma count_level T h k ks up tag : at_level T h k ks up ->
  exists h', trdp_XMLCountStartTag tag h = (Z.of_nat (length (elems tag ks)), h') /\ at_level T h' k ks up.
Proof.
  intros [Hup (d & pre & Hr & Hp)]. destruct (count_tokens T tag h _ d k Hr) as (h' & Hc & Hr' & _). exists h'. split; [|by split; [|exists d, pre]].
  rewrite Hc. f_equal. rewrite acount_eq, Hp, <- acount_eq. by apply acount_level.
Qed.

(** The same in front of the attributes of the parent. *)
Lemma count_in T h d x a rest up tag : in_elem T h d (d + 1) x a rest up ->
  exists h', trdp_XMLCountStartTag tag h = (Z.of_nat (length (elems tag (kids_of x))), h') /\ in_elem T h' d (d + 1) x a rest up.
Proof.
  intros (Hx & Hup & Hr). destruct (count_tokens T tag h _ d _ Hr) as (h' & Hc & Hr' & _). exists h'. split; [|done].
  rewrite Hc. f_equal. rewrite acount_eq, aseek_attrs, <- acount_eq by lia.
  pose proof (closing_closes x (all_tokens rest ++ up) Hx) as Hcl. pose proof (acount_level (d + 1) tag (kids_of x) _ Hcl) as Hl.
  replace (d + 1 - 1) with d in Hl by lia. rewrite <- Hl. destruct x as [t b ks|t b|w]; [|done|done]. cbn [body kids_of closing app].
  rewrite acount_eq, aseek_close, <- acount_eq, <- app_assoc by lia. done.
Qed.

Lemma attr_next T h d k x n v a rest up : in_elem T h d k x ((n, v) :: a) rest up ->
  exists h', trdp_XMLGetAttribute h = (TOK_ATTRIBUTE, Some (n, strtol32 v, v), h') /\ in_elem T h' d k x a rest up.
Proof.
  intros (Hx & Hup & Hr). unfold attr_tokens in Hr. cbn [flat_map app fst snd] in Hr. fold (attr_tokens a) in Hr.
  assert (Hst : string_ok n /\ string_ok v).
  { destruct (rd_file _ _ _ _ _ Hr) as (l & e & _ & Hsp & _). apply spells_strings in Hsp. inversion Hsp as [|? ? Hn Hsp1]; subst.
    inversion Hsp1 as [|? ? _ Hsp2]; subst. inversion Hsp2; subst. done. }
  destruct (reads_next _ _ _ _ _ _ Hr) as (h1 & H1 & Hr1 & _ & Hv1). destruct (reads_next _ _ _ _ _ _ Hr1) as (h2 & H2 & Hr2 & _).
  destruct (reads_next _ _ _ _ _ _ Hr2) as (h3 & H3 & Hr3 & _ & Hv3). cbn [token_of depth_after] in *. destruct Hst as [[Hn1 Hn2] [Hz1 Hz2]].
  exists h3. split; [|done]. unfold trdp_XMLGetAttribute. rewrite H1, bool_decide_true, H2, bool_decide_true, H3, bool_decide_true, Hv1, Hv3 by done.
  rewrite !take_ge by (unfold MAX_TOK_LEN; lia). by rewrite !cstr_all.
Qed.

Lemma attr_end T h d k x rest up : in_elem T h d k x [] rest up ->
  exists t h', trdp_XMLGetAttribute h = (t, None, h') /\ t <> TOK_ATTRIBUTE /\ opened T h' d k x rest up.
Proof.
  intros (Hx & Hup & Hr). cbn [attr_tokens flat_map app] in Hr. unfold opened. destruct x as [t a ks|t a|w]; [| |done]; cbn [body app is_empty kids_of closing] in *.
  - rewrite <- !app_assoc in Hr. cbn [app] in Hr. destruct (reads_next _ _ _ _ _ _ Hr) as (h1 & H1 & Hr1 & _). exists TOK_CLOSE, h1.
    split; [|done]. unfold trdp_XMLGetAttribute. by rewrite H1.
  - destruct (reads_next _ _ _ _ _ _ Hr) as (h1 & H1 & Hr1 & _). exists TOK_CLOSE_EMPTY, h1. split; [|done].
    unfold trdp_XMLGetAttribute. by rewrite H1.
Qed.

(** Going down, up, and on. *)
Lemma reads_seek T h ts d k k' : reads T h ts d k -> reads T (set_tagDepthSeek k' h) ts d k'.
Proof. intros [Hf Hd _]. by split. Qed.

Lemma enter_elem T h d x a rest up : in_elem T h d d x a rest up -> in_elem T (trdp_XMLEnter h) d (d + 1) x a rest up.
Proof. intros (Hx & Hup & Hr). split_and!; [done|done|]. unfold trdp_XMLEnter. rewrite (rd_seek _ _ _ _ _ Hr). by eapply reads_seek. Qed.

Lemma enter_opened T h d x rest up : opened T h d d x rest up -> opened T (trdp_XMLEnter h) d (d + 1) x rest up.
Proof.
  intros (Hx & Hup & Hr). split_and!; [done|done|]. unfold trdp_XMLEnter. destruct (is_empty x); rewrite (rd_seek _ _ _ _ _ Hr); by eapply reads_seek.
Qed.

Lemma in_level T h d x a rest up : in_elem T h d (d + 1) x a rest up ->
  at_level T h (d + 1) (kids_of x) (closing x ++ all_tokens rest ++ up).
Proof.
  intros (Hx & Hup & Hr). split; [by apply closing_closes|]. exists d.
  assert (Hp : passed (d + 1) d []) by (intros X; cbn; f_equal; lia).
  destruct x as [t b ks|t b|w]; [| |done]; cbn [body kids_of closing] in *.
  - exists (attr_tokens a ++ [HClose]). split; [rewrite <- !app_assoc; cbn [app] in *; rewrite <- !app_assoc in Hr; exact Hr|].
    apply passed_attrs; [lia|]. intros X. cbn [app]. rewrite aseek_close by lia. apply Hp.
  - exists (attr_tokens a). split; [exact Hr|].
    rewrite <- (app_nil_r (attr_tokens a)). apply passed_attrs; [lia|done].
Qed.

Lemma opened_level T h d x rest up : is_empty x = false -> opened T h d (d + 1) x rest up ->
  at_level T h (d + 1) (kids_of x) (closing x ++ all_tokens rest ++ up).
Proof.
  intros He (Hx & Hup & Hr). rewrite He in Hr. split; [by apply closing_closes|]. exists d, []. split; [exact Hr|]. intros X. cbn. f_equal. lia.
Qed.

Lemma elem_passed T h k x a rest up : in_elem T h k k x a rest up -> at_level T h k rest up.
Proof.
  intros (Hx & Hup & Hr). split; [done|]. exists k, (attr_tokens a ++ body x). rewrite <- app_assoc. split; [done|].
  apply passed_attrs; [lia|by apply passed_body].
Qed.

Lemma opened_passed T h k x rest up : opened T h k k x rest up -> at_level T h k rest up.
Proof.
  intros (Hx & Hup & Hr). split; [done|]. destruct x as [t a ks|t a|w]; [| |done]; cbn [is_empty kids_of closing] in Hr.
  - exists k, (all_tokens ks ++ [HEnd t; HClose]). rewrite <- app_assoc. split; [done|]. intros X. rewrite <- app_assoc, aseek_elements by lia.
    cbn [app]. by rewrite aseek_end by lia.
  - exists (k - 1), []. split; [done|apply passed_nil].
Qed.

Lemma leave_done T h k x rest up : tag_of x <> None -> closes up ->
  level_done T h (k + 1) (closing x ++ all_tokens rest ++ up) -> at_level T (trdp_XMLLeave h) k rest up.
Proof.
  intros Hx Hup Hd. split; [done|]. unfold level_done in Hd. replace (k + 1 - 1) with k in Hd by lia. unfold trdp_XMLLeave.
  destruct x as [t a ks|t a|w]; [| |done]; cbn [closing app aseek depth_after] in Hd.
  - rewrite (proj2 (Z.ltb_lt (k - 1) _)) in Hd by lia. exists (k - 1), [HClose]. rewrite (rd_seek _ _ _ _ _ Hd). replace (k + 1 - 1) with k by lia.
    split; [by eapply reads_seek|]. intros X. cbn [app]. by rewrite aseek_close by lia.
  - rewrite (proj2 (Z.ltb_lt (k - 1) _)) in Hd by lia. exists (k - 1), []. rewrite (rd_seek _ _ _ _ _ Hd). replace (k + 1 - 1) with k by lia.
    split; [by eapply reads_seek|apply passed_nil].
Qed.

(** The start of a document. *)
Definition document (T : list Z) (doc : list xml) : Prop := spells (all_tokens doc) T.
Definition of_file (T : list Z) (h : XML_HANDLE_T) : Prop := exists s, infile h = Some (mkFile T true s).

Lemma reads_file T h ts d k : reads T h ts d k -> of_file T h.
Proof. intros [(l & e & Hf & _) _ _]. by exists (l, e). Qed.

Lemma rewind_level T h doc : document T doc -> of_file T h -> at_level T (trdp_XMLEnter (trdp_XMLRewind h)) 1 doc [].
Proof.
  intros HT [s Hs]. split; [by left|]. exists 0, []. split; [|done]. rewrite app_nil_r. unfold trdp_XMLRewind. rewrite Hs. cbn.
  split; cbn; [|done..]. exists T, false. split_and!; done.
Qed.

(** ** A whole text *)

(** The tokens read up to the end of the file, with their strings. *)
Definition has_string (t : XML_TOKEN_T) : bool := match t with TOK_START_TAG | TOK_END_TAG | TOK_ID => true | _ => false end.
Fixpoint read_all (n : nat) (h : XML_HANDLE_T) : list (XML_TOKEN_T * option (list Z)) * XML_HANDLE_T :=
  match n with
  | O => ([], h)
  | S n' =>
      let '(t, h) := trdp_XMLNextTokenHl h in
      if bool_decide (t = TOK_EOF) then ([], h)
      else let '(l, h') := read_all n' h in ((t, if has_string t then Some (tokenValue h) else None) :: l, h')
  end.

(** C26: A text is read as the tokens it spells, whatever blanks, comments, instructions and declarations lie
    between them, and the depth is the one of the tags passed. *)
Theorem trdp_XMLNextTokenHl_spells T ts h n : spells ts T -> infile h = Some (mkFile T true (T, false)) -> (length ts < n)%nat ->
  let '(l, h') := read_all n h in
  l = map (fun t => (token_of t, value_of t)) ts /\ tagDepth h' = fold_left depth_after ts (tagDepth h).
Proof.
  intros Hs Hh. assert (Hr : reads T h ts (tagDepth h) (tagDepthSeek h)).
  { split; [|done..]. exists T, false. split_and!; done. }
  clear Hs Hh. generalize dependent (tagDepth h). revert h n. induction ts as [|t ts IH]; intros h n d Hr Hn; (destruct n as [|n]; [cbn in Hn; lia|]); cbn [read_all].
  - destruct (reads_end _ _ _ _ Hr) as (h' & -> & Hr'). cbn. split; [done|apply (rd_depth _ _ _ _ _ Hr')].
  - destruct (reads_next _ _ _ _ _ _ Hr) as (h' & -> & Hr' & Hv). rewrite bool_decide_false by (by destruct t).
    pose proof (rd_seek _ _ _ _ _ Hr') as Hk. pose proof (rd_depth _ _ _ _ _ Hr') as Hd. rewrite <- Hk in Hr'.
    specialize (IH h' n _ Hr' ltac:(cbn in Hn; lia)). destruct (read_all n h') as [l h2]. destruct IH as [-> ->]. split; [|done].
    cbn [map]. f_equal. f_equal. destruct t; cbn [token_of has_string value_of] in *; try done; by destruct Hv as [_ ->].
Qed.

(** <a b=c/> with a comment in front. *)
Lemma trdp_XMLNextTokenHl_spells_witness :
  let T := [60; 33; 45; 45; 120; 45; 45; 62; 60; 97; 32; 98; 61; 99; 47; 62] in
  let h := mkXml (Some (mkFile T true (T, false))) [] 0 0 [] TRDP_NO_ERR in
  let '(l, h') := read_all 6 h in
  l = map (fun t => (token_of t, value_of t)) [HStart [97]; HId [98]; HEqual; HId [99]; HCloseEmpty]
  /\ tagDepth h' = fold_left depth_after [HStart [97]; HId [98]; HEqual; HId [99]; HCloseEmpty] (tagDepth h).
Proof.
  apply (trdp_XMLNextTokenHl_spells [60; 33; 45; 45; 120; 45; 45; 62; 60; 97; 32; 98; 61; 99; 47; 62]
    [HStart [97]; HId [98]; HEqual; HId [99]; HCloseEmpty] (mkXml (Some (mkFile _ true (_, false))) [] 0 0 [] TRDP_NO_ERR) 6).
  - apply (sp_comment [120]); [reflexivity|]. apply (sp_start [97] _ [32; 98; 61; 99; 47; 62]); [reflexivity|right; lia|].
    apply sp_blank; [lia|]. apply (sp_name [98] _ [61; 99; 47; 62]); [reflexivity|left; reflexivity|]. apply sp_equal.
    apply (sp_name [99] _ [47; 62]); [reflexivity|left; reflexivity|]. apply (sp_close_empty [] []). constructor.
  - reflexivity.
  - cbn. lia.
Defined.
