(* ===== verification/TauXml.v ===== *)
(** * Configuration files

    Models src/app/trdp/tcnopen/tau_xml.c, which reads the configuration of a device, of an interface with
    its telegrams, and of the datasets through the reader of [TrdpXml]. A reading function is a program
    over the handle and the answers of the allocator; [None] stands for behaviour C does not define, a
    store through NULL or behind an array. The conversion of a real number, and of the text of an IP
    address, by the C library are arguments. *)
From Stdlib Require Import String Ascii.
From S2P Require Import Prelude Bytes VosString VosMem TrdpTypes TrdpMdTypes TauMarshall TrdpXml.

(** ** Programs over the reader *)
Record xml_env := mkXmlEnv { xe_handle : XML_HANDLE_T; xe_allocs : list bool }.
Definition rd (A : Type) : Type := xml_env -> option (A * xml_env).
#[export] Instance rd_ret : MRet rd := fun A x e => Some (x, e).
#[export] Instance rd_bind : MBind rd := fun A B f m e => '(x, e') ← m e; f x e'.
Definition undefined {A} : rd A := fun _ => None.
Definition on_handle {A} (f : XML_HANDLE_T -> A * XML_HANDLE_T) : rd A :=
  fun e => let '(x, h) := f (xe_handle e) in Some (x, mkXmlEnv h (xe_allocs e)).
Definition move (f : XML_HANDLE_T -> XML_HANDLE_T) : rd unit := on_handle (fun h => (tt, f h)).

Definition rewind : rd unit := move trdp_XMLRewind.
Definition enter : rd unit := move trdp_XMLEnter.
Definition leave : rd unit := move trdp_XMLLeave.
Definition seek (tag : string) : rd Z := on_handle (trdp_XMLSeekStartTag (str tag)).
Definition seek_next : rd (Z * list Z) := on_handle trdp_XMLSeekStartTagAny.
Definition count (tag : string) : rd Z := c ← on_handle (trdp_XMLCountStartTag (str tag)); mret (u32 c).
Definition attribute : rd (XML_TOKEN_T * option (list Z * Z * list Z)) := on_handle trdp_XMLGetAttribute.

(** [vos_memAlloc] of a number of bytes: none is refused, others as the allocator answers. *)
Definition alloc (size : Z) : rd bool := fun e =>
  if u32 size =? 0 then Some (false, e)
  else match xe_allocs e with [] => Some (true, e) | b :: l => Some (b, mkXmlEnv (xe_handle e) l) end.

(** The loops [while (trdp_XMLGetAttribute(...) == TOK_ATTRIBUTE)], [while (trdp_XMLSeekStartTag(...) == 0)]
    and [while (trdp_XMLSeekStartTagAny(...) == 0)]; a body that returns an error ends the function. *)
Fixpoint attr_loop {A} (rounds : nat) (body : list Z -> Z -> list Z -> A -> rd (TRDP_ERR_T * A)) (a : A) : rd (TRDP_ERR_T * A) :=
  match rounds with
  | O => undefined
  | S n =>
      '(t, x) ← attribute;
      match x with
      | Some (name, i, v) => '(err, a) ← body name i v a; if is_ok err then attr_loop n body a else mret (err, a)
      | None => mret (TRDP_NO_ERR, a)
      end
  end.
Fixpoint tag_loop {A} (rounds : nat) (cond : A -> bool) (tag : string) (body : A -> rd (TRDP_ERR_T * A)) (a : A) : rd (TRDP_ERR_T * A) :=
  match rounds with
  | O => undefined
  | S n =>
      if negb (cond a) then mret (TRDP_NO_ERR, a)
      else r ← seek tag;
           if r =? 0 then '(err, a) ← body a; if is_ok err then tag_loop n cond tag body a else mret (err, a)
           else mret (TRDP_NO_ERR, a)
  end.
Fixpoint any_loop {A} (rounds : nat) (body : list Z -> A -> rd (TRDP_ERR_T * A)) (a : A) : rd (TRDP_ERR_T * A) :=
  match rounds with
  | O => undefined
  | S n =>
      '(r, tag) ← seek_next;
      if r =? 0 then '(err, a) ← body tag a; if is_ok err then any_loop n body a else mret (err, a)
      else mret (TRDP_NO_ERR, a)
  end.
Definition rounds_left : rd nat := fun e => Some (rounds_of (xe_handle e), e).
Definition while_attr {A} body (a : A) : rd (TRDP_ERR_T * A) := n ← rounds_left; attr_loop n body a.
Definition while_tag {A} cond tag body (a : A) : rd (TRDP_ERR_T * A) := n ← rounds_left; tag_loop n cond tag body a.
Definition while_any {A} body (a : A) : rd (TRDP_ERR_T * A) := n ← rounds_left; any_loop n body a.

(** Attributes that only set members. *)
Definition attrs {A} (f : list Z -> Z -> list Z -> A -> A) (a : A) : rd A :=
  '(_, a) ← while_attr (fun n i v a => mret (TRDP_NO_ERR, f n i v a)) a; mret a.

(** An early return, or the rest of the function. *)
Definition or_return {A B} (r : TRDP_ERR_T * A) (done : A -> B) (k : A -> rd (TRDP_ERR_T * B)) : rd (TRDP_ERR_T * B) :=
  if is_ok (fst r) then k (snd r) else mret (fst r, done (snd r)).

Definition is_attr (s : string) (n : list Z) : bool := same_name n s MAX_TOK_LEN.
Definition is_tag (s : string) (n : list Z) : bool := same_name n s MAX_TAG_LEN.
Definition is_value (s : string) (v : list Z) : bool := vos_strnicmp (str s) v 16 =? 0.
Definition lor_flag (f v : Z) : Z := (v ||| f) &&& not8 TRDP_FLAGS_NONE.

(** ** Datasets *)
Definition tokenList : list Z := str
  "01 BITSET8 01 BOOL8 01 ANTIVALENT8 02 CHAR8 02 UTF8 03 UTF16 04 INT8 05 INT16 06 INT32 07 INT64 08 UINT8 09 UINT16 10 UINT32 11 UINT64 12 REAL32 13 REAL64 14 TIMEDATE32 15 TIMEDATE48 16 TIMEDATE64".

(** [strstr]: the position of the first occurrence. *)
Fixpoint strstr (l sub : list Z) (i : nat) : option nat :=
  if bool_decide (take (length sub) l = sub) then Some i
  else match l with [] => None | _ :: l' => strstr l' sub (S i) end.

(** The number three characters in front of the name; [None] where that is in front of the list. *)
Definition string2type (s : list Z) : option Z :=
  match strstr tokenList s 0 with
  | Some i => if (i <? 3)%nat then None else Some (strtol (drop (i - 3) tokenList))
  | None => Some 0
  end.

(** [TRDP_DATASET_ELEMENT_T] and [TRDP_DATASET_T] with all their members. *)
Record xml_element := mkXmlElement { xe_type : Z; xe_size : Z; xe_unit : option (list Z); xe_scale : Z; xe_offset : Z }.
Definition zero_element : xml_element := mkXmlElement 0 0 None 0 0.
Record xml_dataset := mkXmlDataset { xd_id : Z; xd_numElement : Z; xd_pElement : list xml_element }.

(** Storing in an array that may not have been allocated. *)
Definition store_at {A} (i : nat) (f : A -> A) (l : option (list A)) : rd (option (list A)) :=
  match l with
  | Some xs => match xs !! i with Some x => mret (Some (<[i := f x]> xs)) | None => undefined end
  | None => undefined
  end.

Section TauXml.
Context (strtof : list Z -> Z).

(** The number of telegrams of the interfaces, counted in the first pass. *)
Definition count_telegrams : rd Z :=
  enter;;
  b ← seek "bus-interface-list";
  if b =? 0 then
    enter;;
    '(_, c) ← while_tag (fun _ => true) "bus-interface" (fun c => enter;; n ← count "telegram"; leave;; mret (TRDP_NO_ERR, u32 (c + n))) 0;
    leave;; mret c
  else mret 0.

(** The attributes of one telegram, stored in entry [fst im]. *)
Definition map_telegram (im : nat * option (list TRDP_COMID_DSID_MAP_T)) : rd (TRDP_ERR_T * (nat * option (list TRDP_COMID_DSID_MAP_T))) :=
  '(_, im) ← while_attr (fun n v _ (im : nat * option (list TRDP_COMID_DSID_MAP_T)) =>
      let set f := m ← store_at (fst im) f (snd im); mret (TRDP_NO_ERR, (fst im, m)) in
      if is_attr "com-id" n then set (fun x => mkMap v (map_dsId x))
      else if is_attr "data-set-id" n then set (fun x => mkMap (map_comId x) v)
      else mret (TRDP_NO_ERR, im)) im;
  mret (TRDP_NO_ERR, (S (fst im), snd im)).

Definition map_telegrams (m : option (list TRDP_COMID_DSID_MAP_T)) : rd (option (list TRDP_COMID_DSID_MAP_T)) :=
  enter;;
  b ← seek "bus-interface-list";
  if b =? 0 then
    enter;;
    '(_, (_, m)) ← while_tag (fun _ => true) "bus-interface" (fun im =>
        enter;; r ← while_tag (fun _ => true) "telegram" map_telegram im; leave;; mret r) (0%nat, m);
    leave;; mret m
  else mret m.

Definition alloc_map (c : Z) : rd (TRDP_ERR_T * option (list TRDP_COMID_DSID_MAP_T)) :=
  b ← alloc (c * 8);
  mret (if b : bool then (TRDP_NO_ERR, Some (repeat (mkMap 0 0) (Z.to_nat c))) else (TRDP_MEM_ERR, None)).

(** Result, and the array if one was allocated; the number is then its length. *)
Definition readXmlDatasetMap : rd (TRDP_ERR_T * option (list TRDP_COMID_DSID_MAP_T)) :=
  rewind;; enter;;
  d ← seek "device";
  r ← (if d =? 0 then
         c ← count_telegrams;
         if c >? 0 then alloc_map c else mret (TRDP_NO_ERR, None)
       else mret (TRDP_NO_ERR, None));
  or_return r id (fun m =>
    leave;; rewind;; enter;;
    d ← seek "device";
    m ← (if d =? 0 then map_telegrams m else mret m);
    leave;; mret (TRDP_NO_ERR, m)).

(** The attributes of an element; [None] where [string2type] reads in front of its list. *)
Definition element_attr (n : list Z) (i : Z) (v : list Z) (e : xml_element) : rd (TRDP_ERR_T * xml_element) :=
  if is_attr "type" n then
    if i =? 0 then match string2type v with
                   | Some t => mret (TRDP_NO_ERR, mkXmlElement (u32 t) (xe_size e) (xe_unit e) (xe_scale e) (xe_offset e))
                   | None => undefined
                   end
    else mret (TRDP_NO_ERR, mkXmlElement i (xe_size e) (xe_unit e) (xe_scale e) (xe_offset e))
  else if is_attr "array-size" n then mret (TRDP_NO_ERR, mkXmlElement (xe_type e) i (xe_unit e) (xe_scale e) (xe_offset e))
  else if is_attr "unit" n then
    ok ← alloc (Z.of_nat (length v) + 1);
    mret (if ok : bool then (TRDP_NO_ERR, mkXmlElement (xe_type e) (xe_size e) (Some v) (xe_scale e) (xe_offset e))
          else (TRDP_MEM_ERR, mkXmlElement (xe_type e) (xe_size e) None (xe_scale e) (xe_offset e)))
  else if is_attr "scale" n then mret (TRDP_NO_ERR, mkXmlElement (xe_type e) (xe_size e) (xe_unit e) (strtof v) (xe_offset e))
  else if is_attr "offset" n then mret (TRDP_NO_ERR, mkXmlElement (xe_type e) (xe_size e) (xe_unit e) (xe_scale e) (s32 i))
  else mret (TRDP_NO_ERR, e).

Definition read_element (ids : nat * xml_dataset) : rd (TRDP_ERR_T * (nat * xml_dataset)) :=
  let '(i, ds) := ids in
  match xd_pElement ds !! i with
  | None => undefined
  | Some e =>
      '(err, e) ← while_attr element_attr (mkXmlElement (xe_type e) 1 (xe_unit e) (xe_scale e) (xe_offset e));
      let ds n := mkXmlDataset (xd_id ds) n (<[i := e]> (xd_pElement ds)) in
      mret (if is_ok err then (err, (S i, ds (u16 (xd_numElement (ids.2) + 1)))) else (err, (i, ds (xd_numElement (ids.2)))))
  end.

(** One dataset, and its place in the array of pointers. *)
Definition read_dataset (ids : nat * option (list (option xml_dataset))) : rd (TRDP_ERR_T * (nat * option (list (option xml_dataset)))) :=
  enter;;
  c ← count "element";
  ok ← alloc (c * 32 + 8);
  m ← store_at (fst ids) (fun _ => if ok : bool then Some (mkXmlDataset 0 0 (repeat zero_element (Z.to_nat c))) else None) (snd ids);
  if negb ok then mret (TRDP_MEM_ERR, (fst ids, m))
  else
    ds ← attrs (fun n i _ ds => if is_attr "id" n then mkXmlDataset i (xd_numElement ds) (xd_pElement ds) else ds)
           (mkXmlDataset 0 0 (repeat zero_element (Z.to_nat c)));
    '(err, (_, ds)) ← while_tag (fun _ => true) "element" read_element (0%nat, ds);
    m ← store_at (fst ids) (fun _ => Some ds) m;
    if negb (is_ok err) then mret (err, (fst ids, m)) else leave;; mret (TRDP_NO_ERR, (S (fst ids), m)).

(** Result, the number of datasets and the array of pointers, if the list was found. *)
Definition readXmlDatasets : rd (TRDP_ERR_T * option (Z * option (list (option xml_dataset)))) :=
  rewind;; enter;;
  d ← seek "device";
  if d =? 0 then
    enter;;
    l ← seek "data-set-list";
    r ← (if l =? 0 then
           enter;;
           c ← count "data-set";
           ok ← alloc (c * 8);
           '(err, (_, m)) ← while_tag (fun im => Z.of_nat (fst im) <? c) "data-set" read_dataset
                              (0%nat, if ok : bool then Some (repeat None (Z.to_nat c)) else None);
           mret (err, Some (c, m))
         else mret (TRDP_NO_ERR, None));
    or_return r id (fun x => leave;; leave;; mret (TRDP_NO_ERR, x))
  else leave;; mret (TRDP_NO_ERR, None).

Definition tau_readXmlDatasetConfig
  : rd (TRDP_ERR_T * option (list TRDP_COMID_DSID_MAP_T) * option (Z * option (list (option xml_dataset)))) :=
  '(err, m) ← readXmlDatasetMap;
  if is_ok err then '(err, ds) ← readXmlDatasets; mret (err, m, ds) else mret (err, m, None).

End TauXml.

(** ** Running a program *)
Lemma run_bind {A B} (m : rd A) (f : A -> rd B) e x e' : m e = Some (x, e') -> (m ≫= f) e = f x e'.
Proof. intros H. unfold mbind, rd_bind. by rewrite H. Qed.
Lemma run_none {A B} (m : rd A) (f : A -> rd B) e : m e = None -> (m ≫= f) e = None.
Proof. intros H. unfold mbind, rd_bind. by rewrite H. Qed.
Lemma run_alloc n h : u32 n <> 0 -> alloc n (mkXmlEnv h []) = Some (true, mkXmlEnv h []).
Proof. intros H. unfold alloc. by rewrite (proj2 (Z.eqb_neq _ _)). Qed.
Lemma run_store_at {A} i f (l : list A) x e : l !! i = Some x -> store_at i f (Some l) e = Some (Some (<[i := f x]> l), e).
Proof. intros H. unfold store_at. by rewrite H. Qed.
