(* ===== verification/TauXmlRead.v ===== *)
(** * Reading the datasets of a configuration

    The loops of [TauXml] on a text that spells a tree: each visits the elements of a level in their order,
    and each has rounds enough. The theorems state what the tables of datasets contain. *)
From Stdlib Require Import String Ascii.
From S2P Require Import Prelude Bytes VosString VosMem TrdpTypes TauMarshall TrdpXml TrdpXmlTree TauXml.

(** An allocator that never refuses. *)
Definition env (h : XML_HANDLE_T) : xml_env := mkXmlEnv h [].

(** ** There are rounds enough: a token takes at least a character *)
Lemma spells_length ts l : spells ts l -> (length ts <= length l)%nat.
Proof.
  induction 1; cbn [length] in *; rewrite ?length_app; cbn [length]; try lia; rewrite ?length_app; cbn [length]; try lia.
  destruct s as [|c s]; [done|]. cbn. lia.
Qed.

Lemma reads_rounds T h ts d k : reads T h ts d k -> (length ts < rounds_of h)%nat.
Proof.
  intros [(l & e & Hf & Hs & _) _ _]. apply spells_length in Hs. unfold rounds_of, here. rewrite Hf. cbn. lia.
Qed.

Lemma tokens_length x : (1 <= length (tokens x))%nat.
Proof. destruct x; cbn; lia. Qed.

Lemma elems_length tag ks : (length (elems tag ks) <= length (all_tokens ks))%nat.
Proof.
  induction ks as [|x ks IH]; [done|]. rewrite elems_cons. cbn [flat_map]. rewrite length_app. pose proof (tokens_length x).
  case_bool_decide; cbn [length]; lia.
Qed.
Lemma kids_length ks : (length ks <= length (all_tokens ks))%nat.
Proof. induction ks as [|x ks IH]; [done|]. cbn [flat_map length]. rewrite length_app. pose proof (tokens_length x). lia. Qed.

Lemma level_rounds T h k ks up : at_level T h k ks up -> (length (all_tokens ks) < rounds_of h)%nat.
Proof. intros [_ (d & pre & Hr & _)]. apply reads_rounds in Hr. rewrite !length_app in Hr. lia. Qed.

Lemma attr_rounds T h d k x a rest up : in_elem T h d k x a rest up -> (length a < rounds_of h)%nat.
Proof.
  intros (_ & _ & Hr). apply reads_rounds in Hr. rewrite length_app in Hr.
  assert (length a <= length (attr_tokens a))%nat by (clear; induction a; cbn; [lia|unfold attr_tokens in *; lia]). lia.
Qed.

(** ** The loops *)
Definition attr_fold {A} (f : list Z -> Z -> list Z -> A -> A) (l : list attr) (a : A) : A :=
  fold_left (fun a nv => f (fst nv) (strtol32 (snd nv)) (snd nv) a) l a.

Lemma on_handle_env {A} (f : XML_HANDLE_T -> A * XML_HANDLE_T) h x h' : f h = (x, h') -> on_handle f (env h) = Some (x, env h').
Proof. intros H. unfold on_handle, env. cbn. by rewrite H. Qed.

Lemma attr_loop_elem {A} (body : list Z -> Z -> list Z -> A -> rd (TRDP_ERR_T * A)) f (I : A -> Prop) T d k x rest up l :
  (forall n v a h, (n, v) ∈ l -> I a -> body n (strtol32 v) v a (env h) = Some ((TRDP_NO_ERR, f n (strtol32 v) v a), env h) /\ I (f n (strtol32 v) v a)) ->
  forall rounds a h, (length l < rounds)%nat -> I a -> in_elem T h d k x l rest up ->
  exists h', attr_loop rounds body a (env h) = Some ((TRDP_NO_ERR, attr_fold f l a), env h') /\ opened T h' d k x rest up /\ I (attr_fold f l a).
Proof.
  induction l as [|[n v] l IH]; intros Hb rounds a h Hn Ha Hin; (destruct rounds as [|rounds]; [cbn in Hn; lia|]); cbn [attr_loop].
  - destruct (attr_end _ _ _ _ _ _ _ Hin) as (t & h' & Hg & Ht & Ho). exists h'. unfold attribute, mbind, rd_bind.
    by rewrite (on_handle_env _ _ _ _ Hg).
  - destruct (attr_next _ _ _ _ _ _ _ _ _ _ Hin) as (h1 & Hg & Hin1). destruct (Hb n v a h1 ltac:(by left) Ha) as [Hbody HI].
    destruct (IH ltac:(intros; apply Hb; [by right|done]) rounds (f n (strtol32 v) v a) h1) as (h' & Hl & Ho & HI'); [cbn in Hn; lia|done|done|].
    exists h'. split; [|done]. unfold attribute, mbind, rd_bind. rewrite (on_handle_env _ _ _ _ Hg). cbn. rewrite Hbody. cbn. exact Hl.
Qed.

Lemma while_attr_elem {A} (body : list Z -> Z -> list Z -> A -> rd (TRDP_ERR_T * A)) f (I : A -> Prop) T d k x rest up l :
  (forall n v a h, (n, v) ∈ l -> I a -> body n (strtol32 v) v a (env h) = Some ((TRDP_NO_ERR, f n (strtol32 v) v a), env h) /\ I (f n (strtol32 v) v a)) ->
  forall a h, I a -> in_elem T h d k x l rest up ->
  exists h', while_attr body a (env h) = Some ((TRDP_NO_ERR, attr_fold f l a), env h') /\ opened T h' d k x rest up /\ I (attr_fold f l a).
Proof.
  intros Hb a h Ha Hin. change (while_attr body a (env h)) with (attr_loop (rounds_of h) body a (env h)). eapply attr_loop_elem; [exact Hb|by eapply attr_rounds|done|done].
Qed.

Lemma attrs_elem {A} (f : list Z -> Z -> list Z -> A -> A) T d k x rest up l a h : in_elem T h d k x l rest up ->
  exists h', attrs f a (env h) = Some (attr_fold f l a, env h') /\ opened T h' d k x rest up.
Proof.
  intros Hin. destruct (while_attr_elem (fun n i v a => mret (TRDP_NO_ERR, f n i v a)) f (fun _ => True) T d k x rest up l) with (a := a) (h := h)
    as (h' & Hw & Ho & _); [done|done|done|].
  exists h'. split; [|done]. unfold attrs, mbind, rd_bind. by rewrite Hw.
Qed.

Lemma find_elem_elems tag ks : match find_elem tag ks with
  | Some (x, rest) => tag_of x = Some tag /\ elems tag ks = x :: elems tag rest /\ (length (all_tokens rest) < length (all_tokens ks))%nat
  | None => elems tag ks = []
  end.
Proof.
  induction ks as [|x ks IH]; [done|]. cbn [find_elem]. rewrite elems_cons. cbn [flat_map]. rewrite length_app. pose proof (tokens_length x).
  case_bool_decide; [split_and!; [done|done|lia]|]. destruct (find_elem tag ks) as [[y rest]|]; [|done]. intuition lia.
Qed.

(** A loop over the elements of a level with a tag; [I] holds of the state and the elements to come. *)
Section tag_loop.
Context {A : Type} (T : list Z) (k : Z) (up : list htok) (tag : string) (body : A -> rd (TRDP_ERR_T * A)) (g : xml -> A -> A)
  (I : A -> list xml -> Prop).
Hypothesis (Hbody : forall a x l h rest, I a (x :: l) -> tag_of x = Some (str tag) -> in_elem T h k k x (attrs_of x) rest up ->
  exists h', body a (env h) = Some ((TRDP_NO_ERR, g x a), env h') /\ at_level T h' k rest up /\ I (g x a) l).

Lemma tag_loop_level cond : (forall a x l, I a (x :: l) -> cond a = true) -> forall rounds ks a h,
  (length (elems (str tag) ks) < rounds)%nat -> at_level T h k ks up -> I a (elems (str tag) ks) ->
  let a' := fold_left (fun a x => g x a) (elems (str tag) ks) a in
  exists h', tag_loop rounds cond tag body a (env h) = Some ((TRDP_NO_ERR, a'), env h') /\ I a' []
    /\ if cond a' then level_done T h' k up else of_file T h'.
Proof.
  intros Hc. induction rounds as [|n IH]; intros ks a h Hn Hl HI; [lia|]. cbn [tag_loop].
  pose proof (seek_tag_level _ _ _ _ _ (str tag) Hl) as Hs. pose proof (find_elem_elems (str tag) ks) as He.
  destruct (find_elem (str tag) ks) as [[x rest]|].
  - destruct He as (Hx & He & _). rewrite He in *. rewrite (Hc _ _ _ HI). cbn [negb].
    destruct Hs as (h1 & Hs & Hin). destruct (Hbody _ _ _ _ _ HI Hx Hin) as (h2 & Hb & Hl2 & HI2).
    destruct (IH rest (g x a) h2) as (h' & Hw & HI' & Hd); [cbn in Hn; lia|done|done|].
    exists h'. split; [|done]. unfold seek, mbind, rd_bind. rewrite (on_handle_env _ _ _ _ Hs). cbn. rewrite Hb. cbn. exact Hw.
  - rewrite He in *. cbn [fold_left]. destruct (cond a) eqn:E; cbn [negb].
    + destruct Hs as (r & h1 & Hs & Hr & Hd). exists h1. split; [|done]. unfold seek, mbind, rd_bind. rewrite (on_handle_env _ _ _ _ Hs). cbn.
      by rewrite (proj2 (Z.eqb_neq r 0)).
    + exists h. split; [done|]. split; [done|]. destruct Hl as [_ (d & pre & Hr & _)]. by eapply reads_file.
Qed.

Lemma while_tag_level ks a h : at_level T h k ks up -> I a (elems (str tag) ks) ->
  let a' := fold_left (fun a x => g x a) (elems (str tag) ks) a in
  exists h', while_tag (fun _ => true) tag body a (env h) = Some ((TRDP_NO_ERR, a'), env h') /\ I a' [] /\ level_done T h' k up.
Proof.
  intros Hl HI. change (while_tag (fun _ => true) tag body a (env h)) with (tag_loop (rounds_of h) (fun _ => true) tag body a (env h)).
  apply (tag_loop_level (fun _ => true)); [done| |done|done]. pose proof (elems_length (str tag) ks). pose proof (level_rounds _ _ _ _ _ Hl). lia.
Qed.

Lemma while_tag_cond cond ks a h : (forall a x l, I a (x :: l) -> cond a = true) -> at_level T h k ks up -> I a (elems (str tag) ks) ->
  let a' := fold_left (fun a x => g x a) (elems (str tag) ks) a in cond a' = false ->
  exists h', while_tag cond tag body a (env h) = Some ((TRDP_NO_ERR, a'), env h') /\ I a' [] /\ of_file T h'.
Proof.
  intros Hc Hl HI a' Ha'. change (while_tag cond tag body a (env h)) with (tag_loop (rounds_of h) cond tag body a (env h)).
  destruct (tag_loop_level cond Hc (rounds_of h) ks a h) as (h' & ? & ? & Hd); [|done|done|].
  - pose proof (elems_length (str tag) ks). pose proof (level_rounds _ _ _ _ _ Hl). lia.
  - exists h'. fold a' in Hd. rewrite Ha' in Hd. done.
Qed.
End tag_loop.

(** ** Single steps *)

Lemma enter_env h : enter (env h) = Some (tt, env (trdp_XMLEnter h)).
Proof. done. Qed.
Lemma leave_env h : leave (env h) = Some (tt, env (trdp_XMLLeave h)).
Proof. done. Qed.
Lemma rewind_env h : rewind (env h) = Some (tt, env (trdp_XMLRewind h)).
Proof. done. Qed.
Lemma alloc_env n h : u32 n <> 0 -> alloc n (env h) = Some (true, env h).
Proof. intros H. unfold alloc. by rewrite (proj2 (Z.eqb_neq _ _)). Qed.

Lemma seek_env T h k ks up tag : at_level T h k ks up ->
  match find_elem (str tag) ks with
  | Some (x, rest) => exists h', seek tag (env h) = Some (0, env h') /\ in_elem T h' k k x (attrs_of x) rest up
  | None => exists r h', seek tag (env h) = Some (r, env h') /\ r <> 0 /\ level_done T h' k up
  end.
Proof.
  intros Hl. pose proof (seek_tag_level _ _ _ _ _ (str tag) Hl) as H. destruct (find_elem (str tag) ks) as [[x rest]|].
  - destruct H as (h' & Hs & Hin). exists h'. split; [by apply on_handle_env|done].
  - destruct H as (r & h' & Hs & Hin). exists r, h'. split; [by apply on_handle_env|done].
Qed.

Lemma count_env T h k ks up tag : at_level T h k ks up -> Z.of_nat (length (elems (str tag) ks)) < 2 ^ 32 ->
  exists h', count tag (env h) = Some (Z.of_nat (length (elems (str tag) ks)), env h') /\ at_level T h' k ks up.
Proof.
  intros Hl Hn. destruct (count_level _ _ _ _ _ (str tag) Hl) as (h' & Hc & Hl'). exists h'. split; [|done].
  unfold count. rewrite (run_bind _ _ _ _ _ (on_handle_env _ _ _ _ Hc)). unfold mret, rd_ret. by rewrite u32_small by lia.
Qed.

Lemma count_in_env T h d x a rest up tag : in_elem T h d (d + 1) x a rest up -> Z.of_nat (length (elems (str tag) (kids_of x))) < 2 ^ 32 ->
  exists h', count tag (env h) = Some (Z.of_nat (length (elems (str tag) (kids_of x))), env h') /\ in_elem T h' d (d + 1) x a rest up.
Proof.
  intros Hl Hn. destruct (count_in _ _ _ _ _ _ _ (str tag) Hl) as (h' & Hc & Hl'). exists h'. split; [|done].
  unfold count. rewrite (run_bind _ _ _ _ _ (on_handle_env _ _ _ _ Hc)). unfold mret, rd_ret. by rewrite u32_small by lia.
Qed.

Lemma level_done_file T h k up : level_done T h k up -> of_file T h.
Proof. unfold level_done. destruct (aseek k (k - 1) up) as [[[? ?] ?] ?]. apply reads_file. Qed.
Lemma enter_file T h : of_file T h -> of_file T (trdp_XMLEnter h).
Proof. done. Qed.
Lemma leave_file T h : of_file T h -> of_file T (trdp_XMLLeave h).
Proof. done. Qed.

(** Into the children of the first element with a tag. *)
Lemma seek_enter T h k ks up tag x rest : at_level T h k ks up -> find_elem (str tag) ks = Some (x, rest) ->
  exists h', seek tag (env h) = Some (0, env h') /\ at_level T (trdp_XMLEnter h') (k + 1) (kids_of x) (closing x ++ all_tokens rest ++ up).
Proof.
  intros Hl Hf. pose proof (seek_env _ _ _ _ _ tag Hl) as H. rewrite Hf in H. destruct H as (h' & Hs & Hin). exists h'. split; [done|].
  by eapply in_level, enter_elem.
Qed.

(** ** The telegrams of a configuration and the dataset of each *)
Definition first_kids (tag : string) (ks : list xml) : list xml := match find_elem (str tag) ks with Some (x, _) => kids_of x | None => [] end.
Definition interfaces (doc : list xml) : list xml := elems (str "bus-interface") (first_kids "bus-interface-list" (first_kids "device" doc)).
Definition telegrams (doc : list xml) : list xml := flat_map (fun i => elems (str "telegram") (kids_of i)) (interfaces doc).

Definition map_attr (n : list Z) (i : Z) (_ : list Z) (m : TRDP_COMID_DSID_MAP_T) : TRDP_COMID_DSID_MAP_T :=
  if is_attr "com-id" n then mkMap i (map_dsId m) else if is_attr "data-set-id" n then mkMap (map_comId m) i else m.
Definition map_entry (x : xml) : TRDP_COMID_DSID_MAP_T := attr_fold map_attr (attrs_of x) (mkMap 0 0).

(** Filling an array from its start. *)
Lemma fill_array {A B} (f : B -> A -> A) (z : A) xs : forall (n i : nat) (l : list A), (length l = i)%nat -> (length xs <= n)%nat ->
  fold_left (fun im x => (S (fst im), (fun a => alter (f x) (fst im) a) <$> snd im)) xs (i, Some (l ++ repeat z n))
  = ((i + length xs)%nat, Some (l ++ map (fun x => f x z) xs ++ repeat z (n - length xs))).
Proof.
  induction xs as [|x xs IH]; intros n i l Hl Hn; cbn [fold_left length map app].
  - by rewrite Nat.add_0_r, Nat.sub_0_r.
  - destruct n as [|n]; [cbn in Hn; lia|]. cbn [repeat fst snd fmap option_fmap option_map].
    assert (Ha : alter (f x) i (l ++ z :: repeat z n) = (l ++ [f x z]) ++ repeat z n).
    { rewrite <- Hl. clear. induction l as [|y l IH]; [done|]. cbn. f_equal. exact IH. }
    rewrite Ha, IH by (rewrite ?length_app; cbn in *; lia). rewrite <- app_assoc. cbn. by replace (i + S (length xs))%nat with (S (i + length xs)) by lia.
Qed.

Lemma fold_flat_map {A B C} (f : B -> list C) (g : A -> C -> A) l a :
  fold_left (fun a x => fold_left g (f x) a) l a = fold_left g (flat_map f l) a.
Proof. revert a. induction l as [|x l IH]; intros a; [done|]. cbn. by rewrite IH, fold_left_app. Qed.

Lemma leave_elem T h d x a rest up : in_elem T h d (d + 1) x a rest up -> in_elem T (trdp_XMLLeave h) d d x a rest up.
Proof.
  intros (Hx & Hup & Hr). split_and!; [done|done|]. unfold trdp_XMLLeave. rewrite (rd_seek _ _ _ _ _ Hr). replace (d + 1 - 1) with d by lia.
  by eapply reads_seek.
Qed.

Definition telegrams_of (l : list xml) : list xml := flat_map (fun i => elems (str "telegram") (kids_of i)) l.

Lemma count_telegrams_spec T h k ks up : at_level T (trdp_XMLEnter h) k ks up ->
  let n := Z.of_nat (length (telegrams_of (elems (str "bus-interface") (first_kids "bus-interface-list" ks)))) in n < 2 ^ 32 ->
  exists h', count_telegrams (env h) = Some (n, env h') /\ of_file T h'.
Proof.
  intros Hl n Hn. unfold count_telegrams. rewrite (run_bind _ _ _ _ _ (enter_env h)).
  pose proof (seek_env _ _ _ _ _ "bus-interface-list" Hl) as Hs. unfold first_kids in n.
  destruct (find_elem (str "bus-interface-list") ks) as [[x rest]|] eqn:Ef.
  - destruct Hs as (h1 & Hs & Hin). rewrite (run_bind _ _ _ _ _ Hs). cbn [Z.eqb].
    rewrite (run_bind _ _ _ _ _ (enter_env h1)). pose proof (in_level _ _ _ _ _ _ _ (enter_elem _ _ _ _ _ _ _ Hin)) as Hl1.
    destruct (while_tag_level T (k + 1) (closing x ++ all_tokens rest ++ up) "bus-interface"
      (fun c => enter;; n ← count "telegram"; leave;; mret (TRDP_NO_ERR, u32 (c + n)))
      (fun i c => u32 (c + Z.of_nat (length (elems (str "telegram") (kids_of i)))))
      (fun c l => 0 <= c /\ c + Z.of_nat (length (telegrams_of l)) = n)) with (ks := kids_of x) (a := 0) (h := trdp_XMLEnter h1)
      as (h2 & Hw & [Hc0 Hc] & Hd); [|done|by split|].
    + intros c i l h2 rest2 [H0 Hc] Hi Hin2. cbn [telegrams_of flat_map] in Hc. rewrite length_app, Nat2Z.inj_add in Hc.
      rewrite (run_bind _ _ _ _ _ (enter_env h2)).
      destruct (count_in_env _ _ _ _ _ _ _ "telegram" (enter_elem _ _ _ _ _ _ _ Hin2)) as (h3 & Hn3 & Hin3); [lia|].
      exists (trdp_XMLLeave h3). rewrite (run_bind _ _ _ _ _ Hn3), (run_bind _ _ _ _ _ (leave_env h3)). split; [done|].
      split; [by eapply elem_passed, leave_elem|]. rewrite u32_small by lia. fold (telegrams_of l) in Hc. lia.
    + exists (trdp_XMLLeave h2). rewrite (run_bind _ _ _ _ _ Hw), (run_bind _ _ _ _ _ (leave_env h2)). cbn [telegrams_of flat_map length] in Hc.
      split; [by rewrite <- Hc, Z.add_0_r|]. by eapply leave_file, level_done_file.
  - destruct Hs as (r & h1 & Hs & Hr & Hd). exists h1. rewrite (run_bind _ _ _ _ _ Hs), (proj2 (Z.eqb_neq r 0)) by done.
    split; [done|by eapply level_done_file].
Qed.

(** Storing the attributes of the telegram [x] in entry [i] of an array of [c]. *)
Definition store_telegram (x : xml) (im : nat * option (list TRDP_COMID_DSID_MAP_T)) : nat * option (list TRDP_COMID_DSID_MAP_T) :=
  (S (fst im), (fun a => alter (fun m => attr_fold map_attr (attrs_of x) m) (fst im) a) <$> snd im).
Definition in_array {A} (c : nat) (im : nat * option (list A)) (l : list xml) : Prop :=
  exists a, snd im = Some a /\ length a = c /\ (fst im + length l <= c)%nat.

Lemma store_at_env {A} i f (l : list A) x h : l !! i = Some x -> store_at i f (Some l) (env h) = Some (Some (alter f i l), env h).
Proof.
  intros H. unfold store_at. rewrite H. unfold mret, rd_ret. do 3 f_equal. revert i H. induction l as [|y l IH]; intros i H; [done|].
  destruct i as [|i]; [cbn in H |- *; by injection H as ->|]. change (<[S i:=f x]> (y :: l)) with (y :: <[i:=f x]> l).
  change (alter f (S i) (y :: l)) with (y :: alter f i l). f_equal. by apply IH.
Qed.

Lemma alter_twice {A} (f g : A -> A) i (l : list A) : alter f i (alter g i l) = alter (fun x => f (g x)) i l.
Proof. revert i. induction l as [|x l IH]; intros [|i]; cbn; try done. f_equal. apply IH. Qed.

Lemma attr_fold_alter {A} (f : list Z -> Z -> list Z -> A -> A) l (i : nat) (a : list A) :
  fold_left (fun (a : list A) nv => alter (f (fst nv) (strtol32 (snd nv)) (snd nv)) i a) l a = alter (attr_fold f l) i a.
Proof.
  revert a. induction l as [|nv l IH]; intros a; cbn [fold_left].
  - symmetry. apply list_alter_id. done.
  - by rewrite IH, alter_twice.
Qed.

Lemma map_telegram_spec T k c im x rest up h : in_array c im [x] -> in_elem T h k k x (attrs_of x) rest up ->
  exists h', map_telegram im (env h) = Some ((TRDP_NO_ERR, store_telegram x im), env h') /\ at_level T h' k rest up.
Proof.
  destruct im as [i m]. intros (a & Ha & Hc & Hi) Hin. cbn [fst snd] in *. subst m.
  pose (f := fun n v (w : list Z) (im : nat * option (list TRDP_COMID_DSID_MAP_T)) => (fst im, (fun a => alter (map_attr n v w) (fst im) a) <$> snd im)).
  destruct (while_attr_elem (fun n v _ (im : nat * option (list TRDP_COMID_DSID_MAP_T)) =>
      let set f := m ← store_at (fst im) f (snd im); mret (TRDP_NO_ERR, (fst im, m)) in
      if is_attr "com-id" n then set (fun x => mkMap v (map_dsId x))
      else if is_attr "data-set-id" n then set (fun x => mkMap (map_comId x) v)
      else mret (TRDP_NO_ERR, im)) f (fun im => fst im = i /\ exists a, snd im = Some a /\ length a = c)
    T k k x rest up (attrs_of x)) with (a := (i, Some a)) (h := h) as (h1 & Hw & Ho & _); [|split; [done|by exists a]|done|].
  - intros n v im h1 _ [Hi1 (a1 & Ha1 & Hc1)]. destruct im as [i1 m1]. cbn [fst snd] in *. subst i1 m1.
    destruct (lookup_lt_is_Some_2 a1 i) as [e He]; [cbn in Hi; lia|].
    assert (Hlen : forall g, length (alter g i a1) = c) by (intros g; by rewrite length_alter).
    unfold f, map_attr. cbn [fst snd fmap option_fmap option_map].
    destruct (is_attr "com-id" n); [|destruct (is_attr "data-set-id" n)].
    + rewrite (run_bind _ _ _ _ _ (store_at_env _ _ _ _ _ He)). split; [done|]. split; [done|]. by eexists.
    + rewrite (run_bind _ _ _ _ _ (store_at_env _ _ _ _ _ He)). split; [done|]. split; [done|]. by eexists.
    + rewrite list_alter_id by done. split; [done|]. split; [done|]. by eexists.
  - exists h1. split; [|by eapply opened_passed]. unfold map_telegram. rewrite (run_bind _ _ _ _ _ Hw). unfold mret, rd_ret. do 3 f_equal.
    assert (H : forall l a, attr_fold f l (i, Some a) = (i, Some (fold_left (fun a nv => alter (map_attr (fst nv) (strtol32 (snd nv)) (snd nv)) i a) l a))).
    { clear. induction l as [|nv l IH]; intros a; [done|]. unfold attr_fold in *. cbn [fold_left]. rewrite <- IH. done. }
    rewrite H, attr_fold_alter. done.
Qed.

Definition filled (m : option (list TRDP_COMID_DSID_MAP_T)) (ts : list xml) : option (list TRDP_COMID_DSID_MAP_T) :=
  match ts with [] => m | _ => Some (map map_entry ts) end.

Lemma map_telegrams_spec T h k ks up m : at_level T (trdp_XMLEnter h) k ks up ->
  let ts := telegrams_of (elems (str "bus-interface") (first_kids "bus-interface-list" ks)) in
  (ts = [] \/ m = Some (repeat (mkMap 0 0) (length ts))) ->
  exists h', map_telegrams m (env h) = Some (filled m ts, env h') /\ of_file T h'.
Proof.
  intros Hl ts Hm. unfold map_telegrams. rewrite (run_bind _ _ _ _ _ (enter_env h)).
  pose proof (seek_env _ _ _ _ _ "bus-interface-list" Hl) as Hs. unfold first_kids in ts.
  destruct (find_elem (str "bus-interface-list") ks) as [[x rest]|] eqn:Ef.
  2: { destruct Hs as (r & h1 & Hs & Hr & Hd). exists h1. rewrite (run_bind _ _ _ _ _ Hs), (proj2 (Z.eqb_neq r 0)) by done.
       split; [done|by eapply level_done_file]. }
  destruct Hs as (h1 & Hs & Hin). rewrite (run_bind _ _ _ _ _ Hs). cbn [Z.eqb].
  rewrite (run_bind _ _ _ _ _ (enter_env h1)). pose proof (in_level _ _ _ _ _ _ _ (enter_elem _ _ _ _ _ _ _ Hin)) as Hl1.
  set (inv := fun (im : nat * option (list TRDP_COMID_DSID_MAP_T)) (l : list xml) => l = [] \/ in_array (length ts) im l).
  assert (Hstep : forall im t l, inv im (t :: l) -> inv (store_telegram t im) l).
  { intros im t l [|(a & Ha & Hc & Hi)]; [done|]. right. exists (alter (fun m => attr_fold map_attr (attrs_of t) m) (fst im) a).
    unfold store_telegram. rewrite Ha. cbn [snd fst fmap option_fmap option_map length] in *. rewrite length_alter. split_and!; [done|done|lia]. }
  destruct (while_tag_level T (k + 1) (closing x ++ all_tokens rest ++ up) "bus-interface"
    (fun im => enter;; r ← while_tag (fun _ => true) "telegram" map_telegram im; leave;; mret r)
    (fun i im => fold_left (fun im t => store_telegram t im) (elems (str "telegram") (kids_of i)) im)
    (fun im l => inv im (telegrams_of l))) with (ks := kids_of x) (a := (0%nat, m)) (h := trdp_XMLEnter h1) as (h2 & Hw & _ & Hd); [|done| |].
  - intros im i l h2 rest2 HI Hi Hin2. rewrite (run_bind _ _ _ _ _ (enter_env h2)).
    pose proof (in_level _ _ _ _ _ _ _ (enter_elem _ _ _ _ _ _ _ Hin2)) as Hl2.
    destruct (while_tag_level T (k + 1 + 1) (closing i ++ all_tokens rest2 ++ closing x ++ all_tokens rest ++ up) "telegram" map_telegram store_telegram
      (fun im ts' => inv im (ts' ++ telegrams_of l))) with (ks := kids_of i) (a := im) (h := trdp_XMLEnter h2) as (h3 & Hw & HI3 & Hd3); [|done|done|].
    + intros im' t l' h3 rest3 HI' _ Hin3. destruct (map_telegram_spec T (k + 1 + 1) (length ts) im' t rest3 (closing i ++ all_tokens rest2 ++ closing x ++ all_tokens rest ++ up) h3) as (h4 & Hm4 & Hl4); [|exact Hin3|].
      { destruct HI' as [|(a & Ha & Hc & Hi')]; [done|]. exists a. cbn [length app] in *. split_and!; [done|done|lia]. }
      exists h4. split; [done|]. split; [done|]. by apply Hstep.
    + exists (trdp_XMLLeave h3). rewrite (run_bind _ _ _ _ _ Hw), (run_bind _ _ _ _ _ (leave_env h3)). split; [done|]. split; [|done].
      destruct Hin2 as (Hx2 & Hup2 & _). by apply (leave_done _ _ _ i).
  - destruct Hm as [Hm|Hm]; [by left|]. right. exists (repeat (mkMap 0 0) (length ts)). rewrite repeat_length.
    split_and!; [exact Hm|done|apply le_n].
  - exists (trdp_XMLLeave h2). rewrite (run_bind _ _ _ _ _ Hw).
    rewrite fold_flat_map. change (flat_map _ (elems (str "bus-interface") (kids_of x))) with ts.
    set (im' := fold_left _ ts _). assert (Him : snd im' = filled m ts).
    { unfold im'. destruct Hm as [->| ->]; [done|]. destruct ts as [|t ts']; [done|].
      pose proof (fill_array (fun x m => attr_fold map_attr (attrs_of x) m) (mkMap 0 0) (t :: ts') (length (t :: ts')) 0 [] eq_refl (le_n _)) as Hf.
      cbn [app] in Hf. unfold store_telegram. rewrite Hf. cbn [snd]. by rewrite Nat.sub_diag, app_nil_r. }
    destruct im' as [i' m']. cbn [snd] in Him. subst m'. rewrite (run_bind _ _ _ _ _ (leave_env h2)). split; [done|]. by eapply leave_file, level_done_file.
Qed.

Theorem readXmlDatasetMap_reads T doc h : document T doc -> of_file T h -> Z.of_nat (length (telegrams doc)) < 2 ^ 28 ->
  exists h', readXmlDatasetMap (env h) = Some ((TRDP_NO_ERR, filled None (telegrams doc)), env h') /\ of_file T h'.
Proof.
  intros HT Hh Hn. unfold readXmlDatasetMap. rewrite (run_bind _ _ _ _ _ (rewind_env h)), (run_bind _ _ _ _ _ (enter_env _)).
  pose proof (rewind_level _ _ _ HT Hh) as Hl. unfold telegrams, interfaces in *. set (ts := flat_map _ _) in *.
  pose proof (seek_env _ _ _ _ _ "device" Hl) as Hs. destruct (find_elem (str "device") doc) as [[x rest]|] eqn:Ef.
  - assert (Ets : ts = telegrams_of (elems (str "bus-interface") (first_kids "bus-interface-list" (kids_of x))))
      by (unfold ts, first_kids; by rewrite Ef).
    destruct Hs as (h1 & Hs & Hin). rewrite (run_bind _ _ _ _ _ Hs). cbn [Z.eqb].
    destruct (count_telegrams_spec _ _ _ _ _ (in_level _ _ _ _ _ _ _ (enter_elem _ _ _ _ _ _ _ Hin))) as (h2 & Hc & Hf2); [rewrite <- Ets; lia|].
    rewrite <- Ets in Hc.
    set (m := match ts with [] => None | _ => Some (repeat (mkMap 0 0) (length ts)) end).
    assert (Hr : (c ← count_telegrams; if c >? 0 then alloc_map c else mret (TRDP_NO_ERR, None)) (env h1) = Some ((TRDP_NO_ERR, m), env h2)).
    { rewrite (run_bind _ _ _ _ _ Hc). unfold m. destruct ts as [|t ts']; [done|]. cbn [length] in *. rewrite (proj2 (Z.gtb_lt _ _)) by lia.
      unfold alloc_map. rewrite (run_bind _ _ _ _ _ (alloc_env (Z.of_nat (S (length ts')) * 8) h2 ltac:(rewrite u32_small; lia))). unfold mret, rd_ret. by rewrite Nat2Z.id. }
    rewrite (run_bind _ _ _ _ _ Hr). unfold or_return. cbn [fst snd is_ok].
    rewrite (run_bind _ _ _ _ _ (leave_env h2)), (run_bind _ _ _ _ _ (rewind_env _)), (run_bind _ _ _ _ _ (enter_env _)).
    pose proof (rewind_level _ _ _ HT (leave_file _ _ Hf2)) as Hl2. pose proof (seek_env _ _ _ _ _ "device" Hl2) as Hs2. rewrite Ef in Hs2.
    destruct Hs2 as (h3 & Hs2 & Hin2). rewrite (run_bind _ _ _ _ _ Hs2). cbn [Z.eqb].
    destruct (map_telegrams_spec _ _ _ _ _ m (in_level _ _ _ _ _ _ _ (enter_elem _ _ _ _ _ _ _ Hin2))) as (h4 & Hm & Hf4).
    { rewrite <- Ets. unfold m. destruct ts; [by left|by right]. }
    exists (trdp_XMLLeave h4). rewrite (run_bind _ _ _ _ _ Hm), (run_bind _ _ _ _ _ (leave_env h4)). rewrite <- Ets. split; [|done].
    unfold mret, rd_ret, filled, m. by destruct ts.
  - assert (Ets : ts = []) by (unfold ts, first_kids; by rewrite Ef).
    destruct Hs as (r & h1 & Hs & Hr & Hd). rewrite (run_bind _ _ _ _ _ Hs), (proj2 (Z.eqb_neq r 0)) by done.
    rewrite (run_bind (mret (TRDP_NO_ERR, None)) _ _ (TRDP_NO_ERR, None) (env h1) eq_refl). unfold or_return. cbn [fst snd is_ok].
    rewrite (run_bind _ _ _ _ _ (leave_env h1)), (run_bind _ _ _ _ _ (rewind_env _)), (run_bind _ _ _ _ _ (enter_env _)).
    pose proof (rewind_level _ _ _ HT (leave_file _ _ (level_done_file _ _ _ _ Hd))) as Hl2. pose proof (seek_env _ _ _ _ _ "device" Hl2) as Hs2.
    rewrite Ef in Hs2. destruct Hs2 as (r2 & h2 & Hs2 & Hr2 & Hd2). exists (trdp_XMLLeave h2).
    rewrite (run_bind _ _ _ _ _ Hs2), (proj2 (Z.eqb_neq r2 0)) by done.
    rewrite (run_bind (mret None) _ _ None (env h2) eq_refl), (run_bind _ _ _ _ _ (leave_env h2)), Ets. split; [done|].
    by eapply leave_file, level_done_file.
Qed.

(** ** The datasets of a configuration *)
Section datasets.
Context (strtof : list Z -> Z).

(** What an attribute of an element does where [string2type] reads inside of its list. *)
Definition element_field (n : list Z) (i : Z) (v : list Z) (e : xml_element) : xml_element :=
  if is_attr "type" n then
    mkXmlElement (if i =? 0 then u32 (default 0 (string2type v)) else i) (xe_size e) (xe_unit e) (xe_scale e) (xe_offset e)
  else if is_attr "array-size" n then mkXmlElement (xe_type e) i (xe_unit e) (xe_scale e) (xe_offset e)
  else if is_attr "unit" n then mkXmlElement (xe_type e) (xe_size e) (Some v) (xe_scale e) (xe_offset e)
  else if is_attr "scale" n then mkXmlElement (xe_type e) (xe_size e) (xe_unit e) (strtof v) (xe_offset e)
  else if is_attr "offset" n then mkXmlElement (xe_type e) (xe_size e) (xe_unit e) (xe_scale e) (s32 i)
  else e.
Definition element_from (x : xml) (e : xml_element) : xml_element :=
  attr_fold element_field (attrs_of x) (mkXmlElement (xe_type e) 1 (xe_unit e) (xe_scale e) (xe_offset e)).
Definition element_of (x : xml) : xml_element := element_from x zero_element.

Definition dataset_id (x : xml) : Z := attr_fold (fun n i _ id => if is_attr "id" n then i else id) (attrs_of x) 0.
Definition dataset_of (x : xml) : xml_dataset :=
  let es := elems (str "element") (kids_of x) in mkXmlDataset (dataset_id x) (u16 (Z.of_nat (length es))) (map element_of es).

(** Types are numbers or names of the list, and a dataset is not written as an empty element. *)
Definition element_ok (x : xml) : bool :=
  forallb (fun nv => negb (is_attr "type" (fst nv) && (strtol32 (snd nv) =? 0)) || bool_decide (string2type (snd nv) <> None)) (attrs_of x).
Definition dataset_ok (x : xml) : bool :=
  let es := elems (str "element") (kids_of x) in
  negb (is_empty x) && forallb element_ok es && (Z.of_nat (length es) <? 2 ^ 26).

Lemma attr_strings T h d k x l rest up : in_elem T h d k x l rest up -> forall n v, (n, v) ∈ l -> string_ok v.
Proof.
  intros (_ & _ & Hr) n v Hin. destruct (rd_file _ _ _ _ _ Hr) as (t & e & _ & Hsp & _). apply spells_strings in Hsp.
  rewrite list.Forall_forall in Hsp. apply (Hsp (HId v)). apply elem_of_app. left. apply list_elem_of_In, in_flat_map.
  exists (n, v). split; [by apply list_elem_of_In|]. cbn. tauto.
Qed.

Lemma element_attr_spec n v e h : string_ok v -> (is_attr "type" n && (strtol32 v =? 0) = false \/ string2type v <> None) ->
  element_attr strtof n (strtol32 v) v e (env h) = Some ((TRDP_NO_ERR, element_field n (strtol32 v) v e), env h).
Proof.
  intros [_ Hv] Ht. unfold element_attr, element_field. destruct (is_attr "type" n).
  - cbn [andb] in Ht. destruct (strtol32 v =? 0); [|done]. destruct Ht as [Ht|Ht]; [done|]. by destruct (string2type v).
  - destruct (is_attr "array-size" n); [done|]. destruct (is_attr "unit" n).
    + by rewrite (run_bind _ _ _ _ _ (alloc_env (Z.of_nat (length v) + 1) h ltac:(rewrite u32_small; lia))).
    + destruct (is_attr "scale" n); [done|]. by destruct (is_attr "offset" n).
Qed.

(** Reading the element [x] into entry [i]. *)
Definition store_element (x : xml) (ids : nat * xml_dataset) : nat * xml_dataset :=
  (S (fst ids), mkXmlDataset (xd_id (snd ids)) (u16 (xd_numElement (snd ids) + 1)) (alter (element_from x) (fst ids) (xd_pElement (snd ids)))).

Lemma insert_alter {A} (f : A -> A) i (l : list A) x : l !! i = Some x -> <[i := f x]> l = alter f i l.
Proof.
  revert i. induction l as [|y l IH]; intros i H; [done|]. destruct i as [|i]; [cbn in H; by injection H as ->|].
  change (<[S i:=f x]> (y :: l)) with (y :: <[i:=f x]> l). change (alter f (S i) (y :: l)) with (y :: alter f i l). f_equal. by apply IH.
Qed.

Lemma read_element_spec T k x rest up h i ds e : element_ok x = true -> xd_pElement ds !! i = Some e -> in_elem T h k k x (attrs_of x) rest up ->
  exists h', read_element strtof (i, ds) (env h) = Some ((TRDP_NO_ERR, store_element x (i, ds)), env h') /\ at_level T h' k rest up.
Proof.
  intros Hok He Hin. pose proof (attr_strings _ _ _ _ _ _ _ _ Hin) as Hstr.
  destruct (while_attr_elem (element_attr strtof) element_field (fun _ => True) T k k x rest up (attrs_of x))
    with (a := mkXmlElement (xe_type e) 1 (xe_unit e) (xe_scale e) (xe_offset e)) (h := h) as (h1 & Hw & Ho & _); [|done|done|].
  - intros n v a h1 Hnv _. split; [|done]. apply element_attr_spec; [by eapply Hstr|].
    unfold element_ok in Hok. rewrite forallb_forall in Hok. specialize (Hok (n, v)). rewrite <- list_elem_of_In in Hok. specialize (Hok Hnv).
    cbn [fst snd] in Hok. apply orb_true_iff in Hok as [H|H]; [left; by apply negb_true_iff in H|right; by apply bool_decide_eq_true in H].
  - exists h1. split; [|by eapply opened_passed]. unfold read_element. rewrite He, (run_bind _ _ _ _ _ Hw). cbn [is_ok].
    unfold store_element. cbn [fst snd]. rewrite <- (insert_alter (element_from x) i _ e He). done.
Qed.

Lemma fill_elements xs : forall (n i : nat) id c (l : list xml_element), (length l = i)%nat -> (length xs <= n)%nat -> 0 <= c ->
  c + Z.of_nat (length xs) < 2 ^ 32 ->
  fold_left (fun ids x => store_element x ids) xs (i, mkXmlDataset id (u16 c) (l ++ repeat zero_element n))
  = ((i + length xs)%nat, mkXmlDataset id (u16 (c + Z.of_nat (length xs))) (l ++ map element_of xs ++ repeat zero_element (n - length xs))).
Proof.
  induction xs as [|x xs IH]; intros n i id c l Hl Hn Hc Hlt; cbn [fold_left length map app] in *.
  - by rewrite !Nat.add_0_r, Nat.sub_0_r, Z.add_0_r.
  - destruct n as [|n]; [lia|]. unfold store_element at 2. cbn [fst snd xd_id xd_numElement xd_pElement repeat].
    assert (Ha : alter (element_from x) i (l ++ zero_element :: repeat zero_element n) = (l ++ [element_of x]) ++ repeat zero_element n).
    { rewrite <- Hl. clear. induction l as [|y l IH]; [done|]. cbn. f_equal. exact IH. }
    assert (Hu : u16 (u16 c + 1) = u16 (c + 1)) by (unfold u16; apply Zplus_mod_idemp_l).
    rewrite Ha, Hu, IH by (rewrite ?length_app; cbn; lia). rewrite <- app_assoc. cbn [app].
    replace (S i + length xs)%nat with (i + S (length xs))%nat by lia. by replace (c + 1 + Z.of_nat (length xs)) with (c + Z.of_nat (S (length xs))) by lia.
Qed.

Definition store_dataset (x : xml) (ids : nat * option (list (option xml_dataset))) : nat * option (list (option xml_dataset)) :=
  (S (fst ids), (fun a => alter (fun _ => Some (dataset_of x)) (fst ids) a) <$> snd ids).

(** The loop over the elements of one dataset. *)
Lemma read_elements_spec T k ks up h id : at_level T h k ks up ->
  let es := elems (str "element") ks in forallb element_ok es = true -> Z.of_nat (length es) < 2 ^ 26 ->
  exists h', while_tag (fun _ => true) "element" (read_element strtof) (0%nat, mkXmlDataset id 0 (repeat zero_element (length es))) (env h)
    = Some ((TRDP_NO_ERR, (length es, mkXmlDataset id (u16 (Z.of_nat (length es))) (map element_of es))), env h') /\ level_done T h' k up.
Proof.
  intros Hl es Hok Hn.
  destruct (while_tag_level T k up "element" (read_element strtof) store_element
    (fun ids l => forallb element_ok l = true /\ (fst ids + length l <= length (xd_pElement (snd ids)))%nat))
    with (ks := ks) (a := (0%nat, mkXmlDataset id 0 (repeat zero_element (length es)))) (h := h) as (h' & Hw & _ & Hd); [|done| |].
  - intros [i ds] x l h1 rest [Hf Hi] _ Hin. cbn [forallb length fst snd] in *. apply andb_true_iff in Hf as [Hx Hf].
    destruct (lookup_lt_is_Some_2 (xd_pElement ds) i) as [e He]; [lia|].
    destruct (read_element_spec _ _ _ _ _ _ _ _ _ Hx He Hin) as (h2 & Hr & Hl2). exists h2. split_and!; [done|done|done|].
    unfold store_element. cbn [fst snd xd_pElement]. rewrite length_alter. lia.
  - cbn [fst snd xd_pElement]. rewrite repeat_length. fold es. done.
  - exists h'. split; [|done]. fold es in Hw. rewrite Hw. do 3 f_equal.
    pose proof (fill_elements es (length es) 0 id 0 [] eq_refl (le_n _) ltac:(lia) ltac:(lia)) as Hf. cbn [app Nat.add Z.add] in Hf.
    change (u16 0) with 0 in Hf. by rewrite Hf, Nat.sub_diag, app_nil_r.
Qed.

Lemma dataset_id_fold x n p : attr_fold (fun n i _ ds => if is_attr "id" n then mkXmlDataset i (xd_numElement ds) (xd_pElement ds) else ds)
  (attrs_of x) (mkXmlDataset 0 n p) = mkXmlDataset (dataset_id x) n p.
Proof.
  unfold dataset_id, attr_fold. generalize 0. induction (attrs_of x) as [|nv l IH]; intros id; [done|]. cbn [fold_left].
  rewrite <- IH. cbn [xd_numElement xd_pElement]. by destruct (is_attr "id" (fst nv)).
Qed.

Lemma read_dataset_spec T k c ids x rest up h : dataset_ok x = true -> in_array c ids [x] -> in_elem T h k k x (attrs_of x) rest up ->
  exists h', read_dataset strtof ids (env h) = Some ((TRDP_NO_ERR, store_dataset x ids), env h') /\ at_level T h' k rest up.
Proof.
  destruct ids as [i m]. intros Hok (a & Ha & Hc & Hi) Hin. cbn [fst snd length] in *. subst m. unfold dataset_ok in Hok.
  apply andb_true_iff in Hok as [Hok Hlen]. apply andb_true_iff in Hok as [Hemp Hels]. apply negb_true_iff in Hemp. apply Z.ltb_lt in Hlen.
  set (es := elems (str "element") (kids_of x)) in *. unfold read_dataset. rewrite (run_bind _ _ _ _ _ (enter_env h)).
  destruct (count_in_env _ _ _ _ _ _ _ "element" (enter_elem _ _ _ _ _ _ _ Hin)) as (h2 & Hn2 & Hin2); [fold es; lia|]. fold es in Hn2.
  rewrite (run_bind _ _ _ _ _ Hn2), (run_bind _ _ _ _ _ (alloc_env (Z.of_nat (length es) * 32 + 8) h2 ltac:(rewrite u32_small; lia))), Nat2Z.id.
  destruct (lookup_lt_is_Some_2 a i) as [e He]; [lia|]. cbn [fst snd negb].
  rewrite (run_bind _ _ _ _ _ (store_at_env _ (fun _ => Some (mkXmlDataset 0 0 (repeat zero_element (length es)))) _ _ _ He)). cbn [negb].
  destruct (attrs_elem (fun n i _ ds => if is_attr "id" n then mkXmlDataset i (xd_numElement ds) (xd_pElement ds) else ds) _ _ _ _ _ _ _
    (mkXmlDataset 0 0 (repeat zero_element (length es))) _ Hin2) as (h3 & Ha3 & Ho3).
  rewrite (run_bind _ _ _ _ _ Ha3), dataset_id_fold.
  destruct (read_elements_spec _ _ _ _ _ (dataset_id x) (opened_level _ _ _ _ _ _ Hemp Ho3) Hels Hlen) as (h4 & Hw & Hd). fold es in Hw.
  rewrite (run_bind _ _ _ _ _ Hw).
  destruct (lookup_lt_is_Some_2 (alter (fun _ => Some (mkXmlDataset 0 0 (repeat zero_element (length es)))) i a) i) as [e2 He2]; [rewrite length_alter; lia|].
  rewrite (run_bind _ _ _ _ _ (store_at_env _ (fun _ => Some (mkXmlDataset (dataset_id x) (u16 (Z.of_nat (length es))) (map element_of es))) _ _ _ He2)).
  cbn [is_ok negb]. rewrite (run_bind _ _ _ _ _ (leave_env h4)), alter_twice. exists (trdp_XMLLeave h4). split; [done|].
  destruct Hin as (Hx & Hup & _). by apply (leave_done _ _ _ x).
Qed.

(** The datasets of a configuration, if it has a list of them. *)
Definition dataset_list (doc : list xml) : option (list xml) :=
  '(x, _) ← find_elem (str "device") doc; '(l, _) ← find_elem (str "data-set-list") (kids_of x); Some (elems (str "data-set") (kids_of l)).
Definition table (dss : list xml) : Z * option (list (option xml_dataset)) :=
  (Z.of_nat (length dss), match dss with [] => None | _ => Some (map (fun x => Some (dataset_of x)) dss) end).

Lemma read_datasets_spec T k ks up h : at_level T h k ks up ->
  let dss := elems (str "data-set") ks in forallb dataset_ok dss = true -> Z.of_nat (length dss) < 2 ^ 28 ->
  exists h', (c ← count "data-set"; ok ← alloc (c * 8);
     '(err, (_, m)) ← while_tag (fun im => Z.of_nat (fst im) <? c) "data-set" (read_dataset strtof)
                        (0%nat, if ok : bool then Some (repeat None (Z.to_nat c)) else None);
     mret (err, Some (c, m))) (env h) = Some ((TRDP_NO_ERR, Some (table dss)), env h') /\ of_file T h'.
Proof.
  intros Hl dss Hok Hn. destruct (count_env _ _ _ _ _ "data-set" Hl) as (h1 & Hc & Hl1); [fold dss; lia|]. fold dss in Hc.
  rewrite (run_bind _ _ _ _ _ Hc).
  set (m := match dss with [] => None | _ => Some (repeat (@None xml_dataset) (length dss)) end).
  assert (Ha : exists ok : bool, alloc (Z.of_nat (length dss) * 8) (env h1) = Some (ok, env h1) /\
    (if ok then Some (repeat (@None xml_dataset) (Z.to_nat (Z.of_nat (length dss)))) else None) = m).
  { unfold m. destruct dss as [|d l]; [by exists false|]. exists true. split; [|by rewrite Nat2Z.id].
    apply alloc_env. cbn [length] in *. rewrite u32_small; lia. }
  destruct Ha as (ok & Ha & Hm). rewrite (run_bind _ _ _ _ _ Ha), Hm.
  destruct (while_tag_cond T k up "data-set" (read_dataset strtof) store_dataset
    (fun ids l => forallb dataset_ok l = true /\ (l = [] \/ in_array (length dss) ids l) /\ (fst ids + length l = length dss)%nat))
    with (cond := fun im : nat * option (list (option xml_dataset)) => Z.of_nat (fst im) <? Z.of_nat (length dss)) (ks := ks) (a := (0%nat, m)) (h := h1)
    as (h2 & Hw & (_ & _ & Hlen) & Hf); [| |done| | |].
  - intros ids x l h2 rest (Hx & [|(a & Ha2 & Hc2 & Hi2)] & Hi) _ Hin; [done|]. cbn [forallb] in Hx. apply andb_true_iff in Hx as [Hx Hx'].
    destruct (read_dataset_spec T k (length dss) ids x rest up h2 Hx) as (h3 & Hr & Hl3); [|done|].
    { exists a. cbn [length] in *. split_and!; [done|done|lia]. }
    exists h3. split_and!; [done|done|done| |unfold store_dataset; cbn [fst length] in *; lia].
    right. exists (alter (fun _ => Some (dataset_of x)) (fst ids) a). unfold store_dataset. rewrite Ha2. cbn [fst snd fmap option_fmap option_map length] in *.
    rewrite length_alter. split_and!; [done|done|lia].
  - intros ids x l (_ & _ & Hi). apply Z.ltb_lt. cbn [length] in Hi. lia.
  - split_and!; [done| |done]. fold dss. unfold m. destruct dss as [|d l]; [by left|]. right. exists (repeat None (length (d :: l))).
    rewrite repeat_length. split_and!; [done|done|apply le_n].
  - fold dss. apply Z.ltb_ge. clear. cut (forall l n a, (fst (fold_left (fun a x => store_dataset x a) l (n, a)) = n + length l)%nat);
      [intros H; rewrite H; lia|].
    intros l. induction l as [|x l IH]; intros n a; cbn [fold_left length]; [cbn; lia|]. unfold store_dataset at 2. rewrite IH. cbn [fst]. lia.
  - exists h2. split; [|done]. rewrite (run_bind _ _ _ _ _ Hw). fold dss. clearbody dss. unfold table, m.
    destruct dss as [|d l]; [done|].
    pose proof (fill_array (fun x _ => Some (dataset_of x)) None (d :: l) (length (d :: l)) 0 [] eq_refl (le_n _)) as Hfill.
    cbn [app] in Hfill. unfold store_dataset. rewrite Hfill, Nat.sub_diag, app_nil_r. done.
Qed.

Theorem readXmlDatasets_reads T doc h : document T doc -> of_file T h ->
  forallb dataset_ok (default [] (dataset_list doc)) = true -> Z.of_nat (length (default [] (dataset_list doc))) < 2 ^ 28 ->
  exists h', readXmlDatasets strtof (env h) = Some ((TRDP_NO_ERR, table <$> dataset_list doc), env h') /\ of_file T h'.
Proof.
  intros HT Hh Hok Hn. unfold readXmlDatasets. rewrite (run_bind _ _ _ _ _ (rewind_env h)), (run_bind _ _ _ _ _ (enter_env _)).
  pose proof (rewind_level _ _ _ HT Hh) as Hl. pose proof (seek_env _ _ _ _ _ "device" Hl) as Hs. unfold dataset_list in *.
  destruct (find_elem (str "device") doc) as [[x rest]|] eqn:Ef.
  2: { destruct Hs as (r & h1 & Hs & Hr & Hd). rewrite (run_bind _ _ _ _ _ Hs), (proj2 (Z.eqb_neq r 0)) by done.
       exists (trdp_XMLLeave h1). split; [done|]. by eapply leave_file, level_done_file. }
  destruct Hs as (h1 & Hs & Hin). rewrite (run_bind _ _ _ _ _ Hs). cbn [Z.eqb]. rewrite (run_bind _ _ _ _ _ (enter_env h1)).
  pose proof (in_level _ _ _ _ _ _ _ (enter_elem _ _ _ _ _ _ _ Hin)) as Hl1. pose proof (seek_env _ _ _ _ _ "data-set-list" Hl1) as Hs1.
  change (mbind ?f (Some ?y)) with (f y) in *. cbv beta iota in Hok, Hn |- *.
  destruct (find_elem (str "data-set-list") (kids_of x)) as [[l rest1]|] eqn:Ef1.
  - change (mbind ?f (Some ?y)) with (f y) in *. cbv beta iota in Hok, Hn |- *. cbn [default] in Hok, Hn.
    destruct Hs1 as (h2 & Hs1 & Hin1). rewrite (run_bind _ _ _ _ _ Hs1). cbn [Z.eqb].
    destruct (read_datasets_spec _ _ _ _ _ (in_level _ _ _ _ _ _ _ (enter_elem _ _ _ _ _ _ _ Hin1)) Hok Hn) as (h3 & Hr & Hf).
    assert (Hr' : (enter;; c ← count "data-set"; ok ← alloc (c * 8);
     '(err, (_, m)) ← while_tag (fun im => Z.of_nat (fst im) <? c) "data-set" (read_dataset strtof)
                        (0%nat, if ok : bool then Some (repeat None (Z.to_nat c)) else None);
     mret (err, Some (c, m))) (env h2) = Some ((TRDP_NO_ERR, Some (table (elems (str "data-set") (kids_of l)))), env h3)) by exact Hr.
    rewrite (run_bind _ _ _ _ _ Hr'). exists (trdp_XMLLeave (trdp_XMLLeave h3)). split; [done|exact Hf].
  - destruct Hs1 as (r & h2 & Hs1 & Hr & Hd). rewrite (run_bind _ _ _ _ _ Hs1), (proj2 (Z.eqb_neq r 0)) by done.
    exists (trdp_XMLLeave (trdp_XMLLeave h2)). split; [done|]. by eapply leave_file, leave_file, level_done_file.
Qed.

Theorem tau_readXmlDatasetConfig_reads T doc h : document T doc -> of_file T h ->
  Z.of_nat (length (telegrams doc)) < 2 ^ 28 ->
  forallb dataset_ok (default [] (dataset_list doc)) = true -> Z.of_nat (length (default [] (dataset_list doc))) < 2 ^ 28 ->
  exists h', tau_readXmlDatasetConfig strtof (env h)
    = Some ((TRDP_NO_ERR, filled None (telegrams doc), table <$> dataset_list doc), env h') /\ of_file T h'.
Proof.
  intros HT Hh Hts Hok Hn. unfold tau_readXmlDatasetConfig.
  destruct (readXmlDatasetMap_reads _ _ _ HT Hh Hts) as (h1 & Hm & Hf1). rewrite (run_bind _ _ _ _ _ Hm). cbn [is_ok].
  destruct (readXmlDatasets_reads _ _ _ HT Hf1 Hok Hn) as (h2 & Hd & Hf2). rewrite (run_bind _ _ _ _ _ Hd). by exists h2.
Qed.
End datasets.
