(* ===== verification/TauXmlWrite.v ===== *)
(** * Configuration files that are written and read back

    A writer of trees, whose texts the reader spells back, and of the tables of a configuration:
    telegrams with their datasets, and the datasets with their elements. Reading what was written gives the
    tables. At the end, texts that the reader does not handle. *)
From Stdlib Require Import String Ascii.
From S2P Require Import Prelude Bytes VosString VosMem TrdpTypes TauMarshall TrdpXml TrdpXmlTree TauXml TauXmlRead.

(** ** Writing a tree *)
Definition write_attrs (a : list attr) : list Z := flat_map (fun nv => [32] ++ fst nv ++ [61; 34] ++ snd nv ++ [34]) a.
Fixpoint write (x : xml) : list Z :=
  match x with
  | Elem t a ks => [60] ++ t ++ write_attrs a ++ [62] ++ flat_map write ks ++ [60; 47] ++ t ++ [62]
  | Empty t a => [60] ++ t ++ write_attrs a ++ [47; 62]
  | Word w => w ++ [32]
  end.

Definition attr_ok (nv : attr) : bool := name_ok (fst nv) && value_ok (snd nv).
Fixpoint tree_ok (x : xml) : bool :=
  match x with
  | Elem t a ks => tag_ok t && forallb attr_ok a && forallb tree_ok ks
  | Empty t a => tag_ok t && forallb attr_ok a
  | Word w => name_ok w
  end.

Lemma tag_name t : tag_ok t = true -> name_ok t = true.
Proof. unfold tag_ok. rewrite !andb_true_iff. tauto. Qed.

Lemma write_attrs_delimited a c l : special c = true -> delimited (write_attrs a ++ c :: l).
Proof. intros H. destruct a as [|[n v] a]; cbn; [by left|right; lia]. Qed.

Lemma write_attrs_spells a ts l : forallb attr_ok a = true -> spells ts l -> spells (attr_tokens a ++ ts) (write_attrs a ++ l).
Proof.
  intros Ha Hl. induction a as [|[n v] a IH]; [done|]. cbn [forallb] in Ha. apply andb_true_iff in Ha as [Hnv Ha].
  unfold attr_ok in Hnv. apply andb_true_iff in Hnv as [Hn Hv]. cbn [fst snd] in *. cbn [attr_tokens write_attrs flat_map fst snd app].
  apply sp_blank; [lia|]. rewrite <- !app_assoc. apply sp_name; [done|by left|]. cbn [app]. apply sp_equal.
  change (spells (HId v :: attr_tokens a ++ ts) ([34] ++ (v ++ [34]) ++ write_attrs a ++ l)). rewrite <- app_assoc. apply sp_quoted; [done|]. by apply IH.
Qed.

Lemma write_spells x : tree_ok x = true -> forall ts l, spells ts l -> spells (tokens x ++ ts) (write x ++ l).
Proof.
  induction x as [t a ks IH|t a|w] using xml_tree_ind; cbn [tree_ok]; intros Hok ts l Hl; cbn [write tokens].
  - rewrite !andb_true_iff in Hok. destruct Hok as [[Ht Ha] Hks].
    change (spells (HStart t :: (attr_tokens a ++ HClose :: flat_map tokens ks ++ [HEnd t; HClose]) ++ ts) (([60] ++ t ++ write_attrs a ++ [62] ++ flat_map write ks ++ [60; 47] ++ t ++ [62]) ++ l)).
    rewrite <- !app_assoc. apply sp_start; [done|by apply write_attrs_delimited|]. apply write_attrs_spells; [done|]. cbn [app]. apply sp_close.
    rewrite <- app_assoc. cbn [app]. clear Ha.
    assert (He : spells (HEnd t :: HClose :: ts) (60 :: 47 :: t ++ 62 :: l)).
    { apply (sp_end t _ (62 :: l)); [by apply tag_name|by left|by apply sp_close]. }
    revert He. generalize (HEnd t :: HClose :: ts) (60 :: 47 :: t ++ 62 :: l). induction IH as [|k ks Hk _ IHks]; intros ts' l' He; [done|].
    cbn [flat_map forallb] in *. apply andb_true_iff in Hks as [H1 H2]. rewrite <- !app_assoc. apply Hk; [done|]. by apply IHks.
  - rewrite andb_true_iff in Hok. destruct Hok as [Ht Ha].
    change (spells (HStart t :: (attr_tokens a ++ [HCloseEmpty]) ++ ts) (([60] ++ t ++ write_attrs a ++ [47; 62]) ++ l)).
    rewrite <- !app_assoc. apply sp_start; [done|by apply write_attrs_delimited|]. apply write_attrs_spells; [done|]. by apply sp_close_empty.
  - rewrite <- app_assoc. apply sp_name; [done|right; cbn; lia|]. apply sp_blank; [lia|done].
Qed.

(** A written document is a document. *)
Lemma write_document doc : forallb tree_ok doc = true -> document (flat_map write doc) doc.
Proof.
  unfold document. intros Hok. induction doc as [|x doc IH]; [constructor|]. cbn [flat_map forallb] in *.
  apply andb_true_iff in Hok as [H1 H2]. apply write_spells; [done|auto].
Qed.

(** ** Writing the tables of a configuration *)
Definition number (n : string) (v : Z) : attr := (str n, decimal v).
Definition element_xml (e : xml_element) : xml :=
  Empty (str "element") ([number "type" (xe_type e); number "array-size" (xe_size e); number "offset" (u32 (xe_offset e))]
    ++ match xe_unit e with Some u => [(str "unit", u)] | None => [] end).
Definition dataset_xml (d : xml_dataset) : xml := Elem (str "data-set") [number "id" (xd_id d)] (map element_xml (xd_pElement d)).
Definition telegram_xml (m : TRDP_COMID_DSID_MAP_T) : xml :=
  Empty (str "telegram") [number "com-id" (map_comId m); number "data-set-id" (map_dsId m)].
Definition device_xml (ms : list TRDP_COMID_DSID_MAP_T) (ds : list xml_dataset) : list xml :=
  [Elem (str "device") []
     [Elem (str "bus-interface-list") [] [Elem (str "bus-interface") [] (map telegram_xml ms)];
      Elem (str "data-set-list") [] (map dataset_xml ds)]].

(** What the text can hold: type 0 would be looked up as a name, and there is no printing of scales. *)
Definition is_u32 (z : Z) : bool := (0 <=? z) && (z <? 2 ^ 32).
Definition element_wf (e : xml_element) : bool :=
  is_u32 (xe_type e) && negb (xe_type e =? 0) && is_u32 (xe_size e) && (- 2 ^ 31 <=? xe_offset e) && (xe_offset e <? 2 ^ 31)
  && (xe_scale e =? 0) && match xe_unit e with Some u => value_ok u | None => true end.
Definition dataset_wf (d : xml_dataset) : bool :=
  is_u32 (xd_id d) && (xd_numElement d =? Z.of_nat (length (xd_pElement d))) && (xd_numElement d <? 2 ^ 16) && forallb element_wf (xd_pElement d).
Definition map_wf (m : TRDP_COMID_DSID_MAP_T) : bool := is_u32 (map_comId m) && is_u32 (map_dsId m).

Lemma is_u32_spec z : is_u32 z = true <-> 0 <= z < 2 ^ 32.
Proof. unfold is_u32. rewrite andb_true_iff, Z.leb_le, Z.ltb_lt. done. Qed.

Lemma decimal_aux_length f : forall n acc, (length (decimal_aux f n acc) <= f + length acc)%nat.
Proof.
  induction f as [|f IH]; intros n acc; cbn [decimal_aux]; [lia|]. destruct (n <? 10); cbn [length]; [lia|]. etransitivity; [apply IH|]. cbn. lia.
Qed.

Lemma decimal_value n : 0 <= n < 2 ^ 32 -> value_ok (decimal n) = true.
Proof.
  intros H. destruct (decimal_spec n H) as (_ & Hall & _). unfold value_ok. apply andb_true_iff. split.
  - apply forallb_forall. intros c Hc. rewrite list.Forall_forall in Hall. specialize (Hall c). rewrite list_elem_of_In in Hall. specialize (Hall Hc).
    unfold is_digit in Hall. bprop. rewrite (proj2 (Z.eqb_neq c 34)), (proj2 (Z.eqb_neq c 0)) by lia. done.
  - apply Nat.leb_le. unfold decimal. pose proof (decimal_aux_length 20 n []). cbn [length] in *. lia.
Qed.

Lemma elems_map {A} tag (f : A -> xml) l : (forall a, tag_of (f a) = Some tag) -> elems tag (map f l) = map f l.
Proof. intros H. induction l as [|a l IH]; [done|]. cbn [map]. rewrite elems_cons, bool_decide_true, IH by done. done. Qed.

Lemma number_ok n v : name_ok (str n) = true -> is_u32 v = true -> attr_ok (number n v) = true.
Proof. intros Hn Hv. unfold attr_ok, number. cbn [fst snd]. rewrite Hn. by apply decimal_value, is_u32_spec. Qed.

Lemma u32_is_u32 z : is_u32 (u32 z) = true.
Proof. apply is_u32_spec. unfold u32. apply Z.mod_pos_bound. lia. Qed.

Lemma element_wf_spec e : element_wf e = true -> is_u32 (xe_type e) = true /\ xe_type e <> 0 /\ is_u32 (xe_size e) = true
  /\ - 2 ^ 31 <= xe_offset e < 2 ^ 31 /\ xe_scale e = 0 /\ match xe_unit e with Some u => value_ok u | None => true end = true.
Proof. unfold element_wf. rewrite !andb_true_iff, negb_true_iff, !Z.eqb_eq, Z.eqb_neq, Z.leb_le, Z.ltb_lt. tauto. Qed.

Lemma element_tree e : element_wf e = true -> tree_ok (element_xml e) = true.
Proof.
  intros H. apply element_wf_spec in H as (Ht & _ & Hs & _ & _ & Hu). unfold element_xml. cbn [tree_ok app forallb].
  rewrite !number_ok by (done || apply u32_is_u32). cbn [andb]. destruct (xe_unit e) as [u|]; [|done]. cbn [forallb attr_ok fst snd]. unfold attr_ok.
  cbn [fst snd]. by rewrite Hu.
Qed.

Lemma strtol32_number z : is_u32 z = true -> strtol32 (decimal z) = z.
Proof. intros H. by apply strtol_decimal, is_u32_spec. Qed.

(** Deciding which attribute a known name is. *)
Ltac names := repeat match goal with
  | |- context [is_attr ?a (str ?b)] => let v := eval vm_compute in (is_attr a (str b)) in change (is_attr a (str b)) with v; cbv iota
  end.

Lemma element_read strtof e : element_wf e = true -> element_of strtof (element_xml e) = e /\ element_ok (element_xml e) = true.
Proof.
  intros H. apply element_wf_spec in H as (Ht & Ht0 & Hs & Ho & Hsc & Hu). destruct e as [t s u sc o]. cbn [xe_type xe_size xe_unit xe_scale xe_offset] in *. subst sc.
  assert (Hoff : s32 (u32 o) = o) by (unfold s32, u32; rewrite Zplus_mod_idemp_l; rewrite Z.mod_small; lia).
  split.
  - unfold element_of, element_from, element_xml, attr_fold. cbn [xe_type xe_size xe_unit xe_scale xe_offset zero_element attrs_of].
    rewrite fold_left_app. cbn [fold_left number fst snd]. rewrite !strtol32_number by (done || apply u32_is_u32).
    unfold element_field. names. cbn [xe_type xe_size xe_unit xe_scale xe_offset]. rewrite (proj2 (Z.eqb_neq t 0)), Hoff by done.
    destruct u; cbn [fold_left fst snd]; names; done.
  - unfold element_ok, element_xml. cbn [attrs_of app forallb number fst snd xe_type]. rewrite strtol32_number by done.
    rewrite (proj2 (Z.eqb_neq t 0)) by done. destruct u; cbn [forallb fst snd xe_unit]; names; done.
Qed.

Lemma dataset_wf_spec d : dataset_wf d = true -> is_u32 (xd_id d) = true /\ xd_numElement d = Z.of_nat (length (xd_pElement d))
  /\ xd_numElement d < 2 ^ 16 /\ forallb element_wf (xd_pElement d) = true.
Proof. unfold dataset_wf. rewrite !andb_true_iff, Z.eqb_eq, Z.ltb_lt. tauto. Qed.

Lemma forallb_map {A B} (f : A -> B) (p : A -> bool) (q : B -> bool) l : (forall a, p a = true -> q (f a) = true) -> forallb p l = true -> forallb q (map f l) = true.
Proof. intros H. induction l as [|a l IH]; [done|]. cbn [map forallb]. rewrite !andb_true_iff. intros [H1 H2]. auto. Qed.

Lemma map_ext_forallb {A B} (f g : A -> B) (p : A -> bool) l : (forall a, p a = true -> f a = g a) -> forallb p l = true -> map f l = map g l.
Proof. intros H. induction l as [|a l IH]; [done|]. cbn [map forallb]. rewrite andb_true_iff. intros [H1 H2]. by rewrite H, IH. Qed.

Lemma dataset_tree d : dataset_wf d = true -> tree_ok (dataset_xml d) = true.
Proof.
  intros H. apply dataset_wf_spec in H as (Hi & _ & _ & He). unfold dataset_xml. cbn [tree_ok forallb].
  rewrite number_ok, (forallb_map _ _ _ _ element_tree He) by done. done.
Qed.

Lemma dataset_read strtof d : dataset_wf d = true -> dataset_of strtof (dataset_xml d) = d /\ dataset_ok (dataset_xml d) = true.
Proof.
  intros H. apply dataset_wf_spec in H as (Hi & Hn & Hlt & He). unfold dataset_of, dataset_ok, dataset_id, dataset_xml, attr_fold.
  cbn [kids_of attrs_of is_empty negb andb fold_left number fst snd]. rewrite elems_map, strtol32_number, map_map, length_map by done. names. split.
  - rewrite (map_ext_forallb _ (fun e => e) element_wf), map_id; [|intros; by apply element_read|done].
    rewrite u16_small by lia. rewrite <- Hn. by destruct d.
  - rewrite (forallb_map _ element_wf), (proj2 (Z.ltb_lt _ _)); [done|lia|intros; by eapply (element_read (fun _ => 0))|done].
Qed.

Lemma telegram_tree m : map_wf m = true -> tree_ok (telegram_xml m) = true.
Proof. unfold map_wf. rewrite andb_true_iff. intros [H1 H2]. unfold telegram_xml. cbn [tree_ok forallb]. by rewrite !number_ok. Qed.

Lemma telegram_read m : map_wf m = true -> map_entry (telegram_xml m) = m.
Proof.
  unfold map_wf. rewrite andb_true_iff. intros [H1 H2]. unfold map_entry, attr_fold, telegram_xml. cbn [attrs_of fold_left number fst snd].
  rewrite !strtol32_number by done. unfold map_attr. names. by destruct m.
Qed.

Definition device_wf (ms : list TRDP_COMID_DSID_MAP_T) (ds : list xml_dataset) : bool :=
  forallb map_wf ms && forallb dataset_wf ds && (Z.of_nat (length ms) <? 2 ^ 28) && (Z.of_nat (length ds) <? 2 ^ 28).

Lemma device_document ms ds : device_wf ms ds = true -> document (flat_map write (device_xml ms ds)) (device_xml ms ds).
Proof.
  unfold device_wf. rewrite !andb_true_iff. intros [[[Hm Hd] _] _]. apply write_document. unfold device_xml. cbn [forallb tree_ok].
  rewrite (forallb_map _ _ _ _ telegram_tree Hm), (forallb_map _ _ _ _ dataset_tree Hd). done.
Qed.

Lemma device_telegrams ms ds : telegrams (device_xml ms ds) = map telegram_xml ms.
Proof.
  unfold telegrams, interfaces, first_kids, device_xml. cbn [find_elem tag_of]. rewrite bool_decide_true by done. cbn [kids_of find_elem tag_of].
  rewrite bool_decide_true by done. cbn [kids_of]. unfold elems at 2. cbn [List.filter tag_of]. rewrite bool_decide_true by done. cbn [flat_map kids_of].
  by rewrite app_nil_r, elems_map.
Qed.

Lemma device_datasets ms ds : dataset_list (device_xml ms ds) = Some (map dataset_xml ds).
Proof.
  unfold dataset_list, device_xml. cbn [find_elem tag_of]. rewrite bool_decide_true by done. change (mbind ?f (Some ?y)) with (f y).
  cbn [kids_of find_elem tag_of]. rewrite bool_decide_false by done. rewrite bool_decide_true by done. change (mbind ?f (Some ?y)) with (f y). cbn [kids_of].
  by rewrite elems_map.
Qed.

(** An array that is not allocated when it is empty. *)
Definition array {A} (l : list A) : option (list A) := match l with [] => None | _ => Some l end.

(** C24: Reading the tables that were written gives the tables, when every allocation succeeds: for every table of
    comIds and of datasets that is well formed, that is whose numbers fit, whose elements have a type other than 0,
    the scale 0 and a unit short enough for its attribute, the parser returns the same ids, sizes, offsets and units
    in the same order. *)
Theorem tau_readXmlDatasetConfig_roundtrip strtof ms ds h : device_wf ms ds = true -> of_file (flat_map write (device_xml ms ds)) h ->
  exists h', tau_readXmlDatasetConfig strtof (env h)
    = Some ((TRDP_NO_ERR, array ms, Some (Z.of_nat (length ds), array (map Some ds))), env h').
Proof.
  intros Hwf Hh. pose proof (device_document _ _ Hwf) as HT. unfold device_wf in Hwf. rewrite !andb_true_iff, !Z.ltb_lt in Hwf. destruct Hwf as [[[Hm Hd] Hnm] Hnd].
  destruct (tau_readXmlDatasetConfig_reads strtof _ _ _ HT Hh) as (h' & Hr & _); rewrite ?device_telegrams, ?device_datasets; cbn [default id]; rewrite ?length_map; try done.
  - by apply (forallb_map _ dataset_wf); [intros; by eapply (dataset_read (fun _ => 0))|].
  - exists h'. rewrite Hr, device_telegrams, device_datasets. cbn [fmap option_fmap option_map]. unfold table. rewrite length_map, !map_map.
    rewrite (map_ext_forallb (fun x => Some (dataset_of strtof (dataset_xml x))) Some dataset_wf ds) by (done || by intros a Ha; destruct (dataset_read strtof a Ha) as [-> _]).
    assert (Hf : filled None (map telegram_xml ms) = array ms).
    { assert (E : map map_entry (map telegram_xml ms) = ms)
        by (rewrite map_map, (map_ext_forallb _ (fun m => m) map_wf), map_id; [done|intros; by apply telegram_read|done]).
      unfold filled, array. rewrite E. by destruct ms. }
    rewrite Hf. do 5 f_equal. by destruct ds.
Qed.

(** ** Datasets that are written as an empty element *)

Section unhandled.
Context (strtof : list Z -> Z).

Lemma seek_swallows k tag t a ks rest up : closes up -> tag_of (Elem t a ks) <> None ->
  match find_elem tag ks with
  | Some (y, rest') => aseek_tag tag (k + 1) (k - 1) (all_tokens (Elem t a ks :: rest) ++ up)
      = (0, k + 1, attr_tokens (attrs_of y) ++ body y ++ all_tokens rest' ++ closing (Elem t a ks) ++ all_tokens rest ++ up)
  | None => True
  end.
Proof.
  intros Hup Hx. pose proof (aseek_tag_level (k + 1) tag ks (closing (Elem t a ks) ++ all_tokens rest ++ up) (closing_closes _ _ Hx)) as H.
  destruct (find_elem tag ks) as [[y rest']|]; [|done]. rewrite <- H. etransitivity; [apply aseek_tag_eq|]. symmetry. etransitivity; [apply aseek_tag_eq|].
  assert (E : aseek (k + 1) (k - 1) (all_tokens (Elem t a ks :: rest) ++ up) = aseek (k + 1) (k + 1 - 1) (all_tokens ks ++ closing (Elem t a ks) ++ all_tokens rest ++ up)).
  { cbn [flat_map tokens app aseek depth_after closing]. rewrite (proj2 (Z.ltb_ge _ _)), (proj2 (Z.eqb_neq _ _)) by lia.
    rewrite <- !app_assoc, aseek_attrs by lia. cbn [app]. rewrite aseek_close by lia. rewrite <- !app_assoc. cbn [app]. by replace (k - 1 + 1) with (k + 1 - 1) by lia. }
  by rewrite E.
Qed.

Lemma read_dataset_empty T k c ids a0 t a ks rest up h : in_array c ids [Empty (str "data-set") a0] ->
  find_elem (str "element") ks <> None -> in_elem T h k k (Empty (str "data-set") a0) a0 (Elem t a ks :: rest) up ->
  read_dataset strtof ids (env h) = None.
Proof.
  destruct ids as [i m]. intros (arr & Ha & Hc & Hi) Hf Hin. cbn [fst snd length] in *. subst m. set (x := Empty (str "data-set") a0) in *.
  unfold read_dataset. rewrite (run_bind _ _ _ _ _ (enter_env h)).
  destruct (count_in_env _ _ _ _ _ _ _ "element" (enter_elem _ _ _ _ _ _ _ Hin)) as (h2 & Hn2 & Hin2); [done|]. cbn [kids_of x elems List.filter length] in Hn2.
  rewrite (run_bind _ _ _ _ _ Hn2), (run_bind _ _ _ _ _ (alloc_env (Z.of_nat 0 * 32 + 8) h2 ltac:(done))).
  destruct (lookup_lt_is_Some_2 arr i) as [e He]; [lia|]. cbn [fst snd negb].
  rewrite (run_bind _ _ _ _ _ (store_at_env _ (fun _ => Some (mkXmlDataset 0 0 [])) _ _ _ He)). cbn [negb].
  destruct (attrs_elem (fun n i _ ds => if is_attr "id" n then mkXmlDataset i (xd_numElement ds) (xd_pElement ds) else ds) _ _ _ _ _ _ _
    (mkXmlDataset 0 0 []) _ Hin2) as (h3 & Ha3 & (_ & Hup & Ho3)).
  change (repeat zero_element (Z.to_nat (Z.of_nat 0))) with (@nil xml_element). rewrite (run_bind _ _ _ _ _ Ha3).
  change (attr_fold _ a0 _) with (attr_fold (fun n i _ ds => if is_attr "id" n then mkXmlDataset i (xd_numElement ds) (xd_pElement ds) else ds) (attrs_of x) (mkXmlDataset 0 0 [])).
  rewrite dataset_id_fold.
  cbn [is_empty x] in Ho3. pose proof (seek_tag_tokens T (str "element") (k + 1) _ _ h3 (k - 1) (Nat.lt_succ_diag_r _) Ho3) as Hs.
  pose proof (seek_swallows k (str "element") t a ks rest up Hup ltac:(done)) as Hsw. destruct (find_elem (str "element") ks) as [[y rest']|]; [|done].
  rewrite Hsw in Hs. destruct Hs as (h4 & Hs & _ & _).
  apply run_none. change (while_tag ?c ?t ?b ?s (env h3)) with (tag_loop (S (length (here h3).1)) c t b s (env h3)). cbn [tag_loop negb].
  assert (Hs' : seek "element" (env h3) = Some (0, env h4)) by (by apply on_handle_env). by rewrite (run_bind _ _ _ _ _ Hs').
Qed.

(** A list whose first dataset is empty, and the second has an element. *)
Definition empty_first (l : xml) : Prop :=
  exists a0 t a ks rest, kids_of l = Empty (str "data-set") a0 :: Elem t a ks :: rest /\ find_elem (str "element") ks <> None.

(** The elements of the dataset behind an empty one are taken for its own, and stored behind its array. *)
Theorem empty_dataset_undefined T doc h d l rest1 rest2 : document T doc -> of_file T h ->
  find_elem (str "device") doc = Some (d, rest1) -> find_elem (str "data-set-list") (kids_of d) = Some (l, rest2) ->
  empty_first l -> Z.of_nat (length (elems (str "data-set") (kids_of l))) < 2 ^ 28 ->
  readXmlDatasets strtof (env h) = None.
Proof.
  intros HT Hh Hd Hl (a0 & t & a & ks & rest & Hks & Hel) Hn. unfold readXmlDatasets. rewrite (run_bind _ _ _ _ _ (rewind_env h)), (run_bind _ _ _ _ _ (enter_env _)).
  pose proof (rewind_level _ _ _ HT Hh) as Hl0. pose proof (seek_env _ _ _ _ _ "device" Hl0) as Hs. rewrite Hd in Hs. destruct Hs as (h1 & Hs & Hin).
  rewrite (run_bind _ _ _ _ _ Hs). cbn [Z.eqb]. rewrite (run_bind _ _ _ _ _ (enter_env h1)).
  pose proof (seek_env _ _ _ _ _ "data-set-list" (in_level _ _ _ _ _ _ _ (enter_elem _ _ _ _ _ _ _ Hin))) as Hs1. rewrite Hl in Hs1. destruct Hs1 as (h2 & Hs1 & Hin1).
  rewrite (run_bind _ _ _ _ _ Hs1). cbn [Z.eqb]. apply run_none. rewrite (run_bind _ _ _ _ _ (enter_env h2)).
  pose proof (in_level _ _ _ _ _ _ _ (enter_elem _ _ _ _ _ _ _ Hin1)) as Hl2. rewrite Hks in *.
  destruct (count_env _ _ _ _ _ "data-set" Hl2) as (h3 & Hc & Hl3); [lia|]. rewrite (run_bind _ _ _ _ _ Hc).
  set (n := length (elems (str "data-set") (Empty (str "data-set") a0 :: Elem t a ks :: rest))) in *.
  assert (Hn0 : (0 < n)%nat) by (unfold n; rewrite elems_cons, bool_decide_true by done; cbn; lia).
  rewrite (run_bind _ _ _ _ _ (alloc_env (Z.of_nat n * 8) h3 ltac:(rewrite u32_small; lia))), Nat2Z.id. apply run_none.
  change (while_tag ?c ?t ?b ?s (env h3)) with (tag_loop (S (length (here h3).1)) c t b s (env h3)). cbn [tag_loop fst].
  rewrite (proj2 (Z.ltb_lt _ _)) by lia. cbn [negb]. pose proof (seek_env _ _ _ _ _ "data-set" Hl3) as Hs3. cbn [find_elem tag_of] in Hs3.
  rewrite bool_decide_true in Hs3 by done. destruct Hs3 as (h4 & Hs3 & Hin3). rewrite (run_bind _ _ _ _ _ Hs3). cbn [Z.eqb]. apply run_none.
  apply (read_dataset_empty T (1 + 1 + 1) n _ a0 t a ks rest (closing l ++ all_tokens rest2 ++ closing d ++ all_tokens rest1 ++ []) h4); [|exact Hel|exact Hin3]. exists (repeat None n).
  rewrite repeat_length. cbn [fst snd length]. split_and!; [done|done|lia].
Qed.
End unhandled.

(** ** Examples *)
Definition opened_text (T : list Z) : XML_HANDLE_T :=
  snd (trdp_XMLOpen (Some (mkFile T true (T, false))) (mkXml None [] 0 0 [] TRDP_NO_ERR)).
Definition example_telegrams : list TRDP_COMID_DSID_MAP_T := [mkMap 1000 1; mkMap 2000 2].
Definition example_datasets : list xml_dataset :=
  [mkXmlDataset 1 2 [mkXmlElement 10 1 None 0 0; mkXmlElement 6 4 (Some (str "m/s")) 0 (-40)]; mkXmlDataset 2 0 []].

Lemma tau_readXmlDatasetConfig_roundtrip_witness :
  device_wf example_telegrams example_datasets = true /\
  exists h', tau_readXmlDatasetConfig (fun _ => 0) (env (opened_text (flat_map write (device_xml example_telegrams example_datasets))))
    = Some ((TRDP_NO_ERR, Some example_telegrams, Some (2, Some (map Some example_datasets))), env h').
Proof.
  split; [vm_compute; reflexivity|].
  apply (tau_readXmlDatasetConfig_roundtrip (fun _ => 0) example_telegrams example_datasets); [vm_compute; reflexivity|].
  eexists. reflexivity.
Defined.

Definition swallowing : list xml :=
  [Elem (str "device") [] [Elem (str "data-set-list") [] [Empty (str "data-set") [number "id" 1];
     Elem (str "data-set") [number "id" 2] [Empty (str "element") [(str "type", str "UINT32")]]]]].

Lemma empty_dataset_undefined_witness :
  flat_map write swallowing
    = str "<device><data-set-list><data-set id=" ++ [34; 49; 34] ++ str "/><data-set id=" ++ [34; 50; 34] ++ str "><element type="
      ++ [34] ++ str "UINT32" ++ [34] ++ str "/></data-set></data-set-list></device>"
  /\ readXmlDatasets (fun _ => 0) (env (opened_text (flat_map write swallowing))) = None.
Proof.
  split; [vm_compute; reflexivity|].
  eapply (empty_dataset_undefined (fun _ => 0) _ swallowing).
  - apply write_document. vm_compute. reflexivity.
  - eexists. reflexivity.
  - reflexivity.
  - reflexivity.
  - do 5 eexists. split; [reflexivity|vm_compute; discriminate].
  - vm_compute. reflexivity.
Defined.

Lemma tau_readXmlDatasetConfig_reads_witness :
  exists h', tau_readXmlDatasetConfig (fun _ => 0) (env (opened_text (flat_map write (device_xml example_telegrams example_datasets))))
    = Some ((TRDP_NO_ERR, filled None (telegrams (device_xml example_telegrams example_datasets)),
             table (fun _ => 0) <$> dataset_list (device_xml example_telegrams example_datasets)), env h')
    /\ of_file (flat_map write (device_xml example_telegrams example_datasets)) h'.
Proof.
  apply (tau_readXmlDatasetConfig_reads (fun _ => 0)).
  - apply write_document. vm_compute. reflexivity.
  - eexists. reflexivity.
  - vm_compute. reflexivity.
  - vm_compute. reflexivity.
  - vm_compute. reflexivity.
Defined.
