(* ===== verification/TauXmlCfg.v ===== *)
(** * The configuration of telegrams, of an interface and of a device

    Models the rest of src/app/trdp/tcnopen/tau_xml.c: [readTelegramDef], [tau_readXmlInterfaceConfig],
    [tau_readXmlDeviceConfig], the defaults they start from, and the functions that give the memory back.
    The configuration of the process data is kept with the number of its timeout behaviour, which the code
    combines by or. A block that was allocated is the field that points to it: a pointer that is overwritten, by an attribute
    that is repeated or a second interface, is a block the model does not see any more, and the program does not either. *)
From Stdlib Require Import String Ascii.
From S2P Require Import Prelude Bytes VosString VosMem TrdpTypes TrdpMdTypes TauMarshall TrdpXml TauXml.

(** ** The data *)
Definition TRDP_MAX_LABEL_LEN : nat := 16.
Definition TRDP_MAX_URI_USER_LEN : nat := 32.
Definition TRDP_MAX_FILE_NAME_LEN : nat := 128.
Definition TRDP_TO_ZERO : Z := 1.
Definition TRDP_TO_KEEP : Z := 2.
Inductive TRDP_EXCHG_OPTION_T := TRDP_EXCHG_UNSET | TRDP_EXCHG_SOURCE | TRDP_EXCHG_SINK | TRDP_EXCHG_SOURCESINK.

Record TRDP_SDT_PAR_T := mkSdt { smi1 : Z; smi2 : Z; cmThr : Z; udv : Z; rxPeriod : Z; txPeriod : Z; nGuard : Z; nrxSafe : Z }.
Definition set_smi1 (v : Z) (r : TRDP_SDT_PAR_T) : TRDP_SDT_PAR_T := mkSdt v (smi2 r) (cmThr r) (udv r) (rxPeriod r) (txPeriod r) (nGuard r) (nrxSafe r).
Definition set_smi2 (v : Z) (r : TRDP_SDT_PAR_T) : TRDP_SDT_PAR_T := mkSdt (smi1 r) v (cmThr r) (udv r) (rxPeriod r) (txPeriod r) (nGuard r) (nrxSafe r).
Definition set_cmThr (v : Z) (r : TRDP_SDT_PAR_T) : TRDP_SDT_PAR_T := mkSdt (smi1 r) (smi2 r) v (udv r) (rxPeriod r) (txPeriod r) (nGuard r) (nrxSafe r).
Definition set_udv (v : Z) (r : TRDP_SDT_PAR_T) : TRDP_SDT_PAR_T := mkSdt (smi1 r) (smi2 r) (cmThr r) v (rxPeriod r) (txPeriod r) (nGuard r) (nrxSafe r).
Definition set_rxPeriod (v : Z) (r : TRDP_SDT_PAR_T) : TRDP_SDT_PAR_T := mkSdt (smi1 r) (smi2 r) (cmThr r) (udv r) v (txPeriod r) (nGuard r) (nrxSafe r).
Definition set_txPeriod (v : Z) (r : TRDP_SDT_PAR_T) : TRDP_SDT_PAR_T := mkSdt (smi1 r) (smi2 r) (cmThr r) (udv r) (rxPeriod r) v (nGuard r) (nrxSafe r).
Definition set_nGuard (v : Z) (r : TRDP_SDT_PAR_T) : TRDP_SDT_PAR_T := mkSdt (smi1 r) (smi2 r) (cmThr r) (udv r) (rxPeriod r) (txPeriod r) v (nrxSafe r).
Definition set_nrxSafe (v : Z) (r : TRDP_SDT_PAR_T) : TRDP_SDT_PAR_T := mkSdt (smi1 r) (smi2 r) (cmThr r) (udv r) (rxPeriod r) (txPeriod r) (nGuard r) v.

Record TRDP_PD_PAR_T := mkPdPar { pp_cycle : Z; pp_redundant : Z; pp_timeout : Z; pp_toBehav : Z; pp_flags : Z; pp_offset : Z }.
Definition set_pp_cycle (v : Z) (r : TRDP_PD_PAR_T) : TRDP_PD_PAR_T := mkPdPar v (pp_redundant r) (pp_timeout r) (pp_toBehav r) (pp_flags r) (pp_offset r).
Definition set_pp_redundant (v : Z) (r : TRDP_PD_PAR_T) : TRDP_PD_PAR_T := mkPdPar (pp_cycle r) v (pp_timeout r) (pp_toBehav r) (pp_flags r) (pp_offset r).
Definition set_pp_timeout (v : Z) (r : TRDP_PD_PAR_T) : TRDP_PD_PAR_T := mkPdPar (pp_cycle r) (pp_redundant r) v (pp_toBehav r) (pp_flags r) (pp_offset r).
Definition set_pp_toBehav (v : Z) (r : TRDP_PD_PAR_T) : TRDP_PD_PAR_T := mkPdPar (pp_cycle r) (pp_redundant r) (pp_timeout r) v (pp_flags r) (pp_offset r).
Definition set_pp_flags (v : Z) (r : TRDP_PD_PAR_T) : TRDP_PD_PAR_T := mkPdPar (pp_cycle r) (pp_redundant r) (pp_timeout r) (pp_toBehav r) v (pp_offset r).
Definition set_pp_offset (v : Z) (r : TRDP_PD_PAR_T) : TRDP_PD_PAR_T := mkPdPar (pp_cycle r) (pp_redundant r) (pp_timeout r) (pp_toBehav r) (pp_flags r) v.

Record TRDP_MD_PAR_T := mkMdPar { mp_confirmTimeout : Z; mp_replyTimeout : Z; mp_flags : Z }.
Definition set_mp_confirmTimeout (v : Z) (r : TRDP_MD_PAR_T) : TRDP_MD_PAR_T := mkMdPar v (mp_replyTimeout r) (mp_flags r).
Definition set_mp_replyTimeout (v : Z) (r : TRDP_MD_PAR_T) : TRDP_MD_PAR_T := mkMdPar (mp_confirmTimeout r) v (mp_flags r).
Definition set_mp_flags (v : Z) (r : TRDP_MD_PAR_T) : TRDP_MD_PAR_T := mkMdPar (mp_confirmTimeout r) (mp_replyTimeout r) v.

Record TRDP_DEST_T := mkDest { dst_id : Z; dst_pSdtPar : option TRDP_SDT_PAR_T; dst_pUriUser : option (list Z); dst_pUriHost : option (list Z) }.
Definition set_dst_id (v : Z) (r : TRDP_DEST_T) : TRDP_DEST_T := mkDest v (dst_pSdtPar r) (dst_pUriUser r) (dst_pUriHost r).
Definition set_dst_pSdtPar (v : option TRDP_SDT_PAR_T) (r : TRDP_DEST_T) : TRDP_DEST_T := mkDest (dst_id r) v (dst_pUriUser r) (dst_pUriHost r).
Definition set_dst_pUriUser (v : option (list Z)) (r : TRDP_DEST_T) : TRDP_DEST_T := mkDest (dst_id r) (dst_pSdtPar r) v (dst_pUriHost r).
Definition set_dst_pUriHost (v : option (list Z)) (r : TRDP_DEST_T) : TRDP_DEST_T := mkDest (dst_id r) (dst_pSdtPar r) (dst_pUriUser r) v.

Record TRDP_SRC_T := mkSrc { src_id : Z; src_pSdtPar : option TRDP_SDT_PAR_T; src_pUriUser : option (list Z); src_pUriHost1 : option (list Z); src_pUriHost2 : option (list Z) }.
Definition set_src_id (v : Z) (r : TRDP_SRC_T) : TRDP_SRC_T := mkSrc v (src_pSdtPar r) (src_pUriUser r) (src_pUriHost1 r) (src_pUriHost2 r).
Definition set_src_pSdtPar (v : option TRDP_SDT_PAR_T) (r : TRDP_SRC_T) : TRDP_SRC_T := mkSrc (src_id r) v (src_pUriUser r) (src_pUriHost1 r) (src_pUriHost2 r).
Definition set_src_pUriUser (v : option (list Z)) (r : TRDP_SRC_T) : TRDP_SRC_T := mkSrc (src_id r) (src_pSdtPar r) v (src_pUriHost1 r) (src_pUriHost2 r).
Definition set_src_pUriHost1 (v : option (list Z)) (r : TRDP_SRC_T) : TRDP_SRC_T := mkSrc (src_id r) (src_pSdtPar r) (src_pUriUser r) v (src_pUriHost2 r).
Definition set_src_pUriHost2 (v : option (list Z)) (r : TRDP_SRC_T) : TRDP_SRC_T := mkSrc (src_id r) (src_pSdtPar r) (src_pUriUser r) (src_pUriHost1 r) v.

Record TRDP_EXCHG_PAR_T := mkExchg { ex_comId : Z; ex_datasetId : Z; ex_comParId : Z; ex_pMdPar : option TRDP_MD_PAR_T; ex_pPdPar : option TRDP_PD_PAR_T; ex_destCnt : Z; ex_pDest : option (list TRDP_DEST_T); ex_srcCnt : Z; ex_pSrc : option (list TRDP_SRC_T); ex_type : TRDP_EXCHG_OPTION_T; ex_create : bool }.
Definition set_ex_comId (v : Z) (r : TRDP_EXCHG_PAR_T) : TRDP_EXCHG_PAR_T := mkExchg v (ex_datasetId r) (ex_comParId r) (ex_pMdPar r) (ex_pPdPar r) (ex_destCnt r) (ex_pDest r) (ex_srcCnt r) (ex_pSrc r) (ex_type r) (ex_create r).
Definition set_ex_datasetId (v : Z) (r : TRDP_EXCHG_PAR_T) : TRDP_EXCHG_PAR_T := mkExchg (ex_comId r) v (ex_comParId r) (ex_pMdPar r) (ex_pPdPar r) (ex_destCnt r) (ex_pDest r) (ex_srcCnt r) (ex_pSrc r) (ex_type r) (ex_create r).
Definition set_ex_comParId (v : Z) (r : TRDP_EXCHG_PAR_T) : TRDP_EXCHG_PAR_T := mkExchg (ex_comId r) (ex_datasetId r) v (ex_pMdPar r) (ex_pPdPar r) (ex_destCnt r) (ex_pDest r) (ex_srcCnt r) (ex_pSrc r) (ex_type r) (ex_create r).
Definition set_ex_pMdPar (v : option TRDP_MD_PAR_T) (r : TRDP_EXCHG_PAR_T) : TRDP_EXCHG_PAR_T := mkExchg (ex_comId r) (ex_datasetId r) (ex_comParId r) v (ex_pPdPar r) (ex_destCnt r) (ex_pDest r) (ex_srcCnt r) (ex_pSrc r) (ex_type r) (ex_create r).
Definition set_ex_pPdPar (v : option TRDP_PD_PAR_T) (r : TRDP_EXCHG_PAR_T) : TRDP_EXCHG_PAR_T := mkExchg (ex_comId r) (ex_datasetId r) (ex_comParId r) (ex_pMdPar r) v (ex_destCnt r) (ex_pDest r) (ex_srcCnt r) (ex_pSrc r) (ex_type r) (ex_create r).
Definition set_ex_destCnt (v : Z) (r : TRDP_EXCHG_PAR_T) : TRDP_EXCHG_PAR_T := mkExchg (ex_comId r) (ex_datasetId r) (ex_comParId r) (ex_pMdPar r) (ex_pPdPar r) v (ex_pDest r) (ex_srcCnt r) (ex_pSrc r) (ex_type r) (ex_create r).
Definition set_ex_pDest (v : option (list TRDP_DEST_T)) (r : TRDP_EXCHG_PAR_T) : TRDP_EXCHG_PAR_T := mkExchg (ex_comId r) (ex_datasetId r) (ex_comParId r) (ex_pMdPar r) (ex_pPdPar r) (ex_destCnt r) v (ex_srcCnt r) (ex_pSrc r) (ex_type r) (ex_create r).
Definition set_ex_srcCnt (v : Z) (r : TRDP_EXCHG_PAR_T) : TRDP_EXCHG_PAR_T := mkExchg (ex_comId r) (ex_datasetId r) (ex_comParId r) (ex_pMdPar r) (ex_pPdPar r) (ex_destCnt r) (ex_pDest r) v (ex_pSrc r) (ex_type r) (ex_create r).
Definition set_ex_pSrc (v : option (list TRDP_SRC_T)) (r : TRDP_EXCHG_PAR_T) : TRDP_EXCHG_PAR_T := mkExchg (ex_comId r) (ex_datasetId r) (ex_comParId r) (ex_pMdPar r) (ex_pPdPar r) (ex_destCnt r) (ex_pDest r) (ex_srcCnt r) v (ex_type r) (ex_create r).
Definition set_ex_type (v : TRDP_EXCHG_OPTION_T) (r : TRDP_EXCHG_PAR_T) : TRDP_EXCHG_PAR_T := mkExchg (ex_comId r) (ex_datasetId r) (ex_comParId r) (ex_pMdPar r) (ex_pPdPar r) (ex_destCnt r) (ex_pDest r) (ex_srcCnt r) (ex_pSrc r) v (ex_create r).
Definition set_ex_create (v : bool) (r : TRDP_EXCHG_PAR_T) : TRDP_EXCHG_PAR_T := mkExchg (ex_comId r) (ex_datasetId r) (ex_comParId r) (ex_pMdPar r) (ex_pPdPar r) (ex_destCnt r) (ex_pDest r) (ex_srcCnt r) (ex_pSrc r) (ex_type r) v.

Record TRDP_IF_CONFIG_T := mkIfCfg { if_ifName : list Z; if_networkId : Z; if_hostIp : Z; if_leaderIp : Z }.
Definition set_if_ifName (v : list Z) (r : TRDP_IF_CONFIG_T) : TRDP_IF_CONFIG_T := mkIfCfg v (if_networkId r) (if_hostIp r) (if_leaderIp r).
Definition set_if_networkId (v : Z) (r : TRDP_IF_CONFIG_T) : TRDP_IF_CONFIG_T := mkIfCfg (if_ifName r) v (if_hostIp r) (if_leaderIp r).
Definition set_if_hostIp (v : Z) (r : TRDP_IF_CONFIG_T) : TRDP_IF_CONFIG_T := mkIfCfg (if_ifName r) (if_networkId r) v (if_leaderIp r).
Definition set_if_leaderIp (v : Z) (r : TRDP_IF_CONFIG_T) : TRDP_IF_CONFIG_T := mkIfCfg (if_ifName r) (if_networkId r) (if_hostIp r) v.

Record TRDP_SEND_PARAM_T := mkSend { sp_qos : Z; sp_ttl : Z; sp_retries : Z }.
Definition set_sp_qos (v : Z) (r : TRDP_SEND_PARAM_T) : TRDP_SEND_PARAM_T := mkSend v (sp_ttl r) (sp_retries r).
Definition set_sp_ttl (v : Z) (r : TRDP_SEND_PARAM_T) : TRDP_SEND_PARAM_T := mkSend (sp_qos r) v (sp_retries r).
Definition set_sp_retries (v : Z) (r : TRDP_SEND_PARAM_T) : TRDP_SEND_PARAM_T := mkSend (sp_qos r) (sp_ttl r) v.

Record TRDP_COM_PAR_T := mkComPar { cp_id : Z; cp_sendParam : TRDP_SEND_PARAM_T }.
Definition set_cp_id (v : Z) (r : TRDP_COM_PAR_T) : TRDP_COM_PAR_T := mkComPar v (cp_sendParam r).
Definition set_cp_sendParam (v : TRDP_SEND_PARAM_T) (r : TRDP_COM_PAR_T) : TRDP_COM_PAR_T := mkComPar (cp_id r) v.

(** What [vos_memAlloc] returns is cleared. *)
Definition zero_sdt : TRDP_SDT_PAR_T := mkSdt 0 0 0 0 0 0 0 0.
Definition zero_pd_par : TRDP_PD_PAR_T := mkPdPar 0 0 0 0 0 0.
Definition zero_md_par : TRDP_MD_PAR_T := mkMdPar 0 0 0.
Definition zero_dest : TRDP_DEST_T := mkDest 0 None None None.
Definition zero_src : TRDP_SRC_T := mkSrc 0 None None None None.
Definition zero_exchg : TRDP_EXCHG_PAR_T := mkExchg 0 0 0 None None 0 None 0 None TRDP_EXCHG_UNSET false.
Definition zero_if : TRDP_IF_CONFIG_T := mkIfCfg (repeat 0 17) 0 0 0.
Definition zero_com : TRDP_COM_PAR_T := mkComPar 0 (mkSend 0 0 0).

(** Debug output, memory and process. *)
Definition TRDP_DBG_ERR : Z := 0x02.
Definition TRDP_DBG_WARN : Z := 0x04.
Definition TRDP_DBG_INFO : Z := 0x08.
Definition TRDP_DBG_DBG : Z := 0x10.
Definition TRDP_OPTION_BLOCK : Z := 0x01.
Definition TRDP_OPTION_TRAFFIC_SHAPING : Z := 0x02.
Record TRDP_DBG_CONFIG_T := mkDbg { dbg_option : Z; dbg_maxFileSize : Z; dbg_fileName : list Z }.
Definition set_dbg_option (v : Z) (r : TRDP_DBG_CONFIG_T) : TRDP_DBG_CONFIG_T := mkDbg v (dbg_maxFileSize r) (dbg_fileName r).
Definition set_dbg_maxFileSize (v : Z) (r : TRDP_DBG_CONFIG_T) : TRDP_DBG_CONFIG_T := mkDbg (dbg_option r) v (dbg_fileName r).
Definition set_dbg_fileName (v : list Z) (r : TRDP_DBG_CONFIG_T) : TRDP_DBG_CONFIG_T := mkDbg (dbg_option r) (dbg_maxFileSize r) v.

Record TRDP_MEM_CONFIG_T := mkMemCfg { mem_p : option Z; mem_size : Z; mem_prealloc : list Z }.
Definition set_mem_p (v : option Z) (r : TRDP_MEM_CONFIG_T) : TRDP_MEM_CONFIG_T := mkMemCfg v (mem_size r) (mem_prealloc r).
Definition set_mem_size (v : Z) (r : TRDP_MEM_CONFIG_T) : TRDP_MEM_CONFIG_T := mkMemCfg (mem_p r) v (mem_prealloc r).
Definition set_mem_prealloc (v : list Z) (r : TRDP_MEM_CONFIG_T) : TRDP_MEM_CONFIG_T := mkMemCfg (mem_p r) (mem_size r) v.

Record TRDP_PROCESS_CONFIG_T := mkProcCfg { pr_hostName : list Z; pr_leaderName : list Z; pr_cycleTime : Z; pr_priority : Z; pr_options : Z }.
Definition set_pr_hostName (v : list Z) (r : TRDP_PROCESS_CONFIG_T) : TRDP_PROCESS_CONFIG_T := mkProcCfg v (pr_leaderName r) (pr_cycleTime r) (pr_priority r) (pr_options r).
Definition set_pr_leaderName (v : list Z) (r : TRDP_PROCESS_CONFIG_T) : TRDP_PROCESS_CONFIG_T := mkProcCfg (pr_hostName r) v (pr_cycleTime r) (pr_priority r) (pr_options r).
Definition set_pr_cycleTime (v : Z) (r : TRDP_PROCESS_CONFIG_T) : TRDP_PROCESS_CONFIG_T := mkProcCfg (pr_hostName r) (pr_leaderName r) v (pr_priority r) (pr_options r).
Definition set_pr_priority (v : Z) (r : TRDP_PROCESS_CONFIG_T) : TRDP_PROCESS_CONFIG_T := mkProcCfg (pr_hostName r) (pr_leaderName r) (pr_cycleTime r) v (pr_options r).
Definition set_pr_options (v : Z) (r : TRDP_PROCESS_CONFIG_T) : TRDP_PROCESS_CONFIG_T := mkProcCfg (pr_hostName r) (pr_leaderName r) (pr_cycleTime r) (pr_priority r) v.

(** [TRDP_PD_CONFIG_T] and setters of [TRDP_MD_CONFIG_T]. *)
Record xml_pd_config := mkXmlPd { xp_pfCbFunction : option Z; xp_pRefCon : Z; xp_sendParam : TRDP_SEND_PARAM_T; xp_flags : Z; xp_timeout : Z; xp_toBehavior : Z; xp_port : Z }.
Definition set_xp_pfCbFunction (v : option Z) (r : xml_pd_config) : xml_pd_config := mkXmlPd v (xp_pRefCon r) (xp_sendParam r) (xp_flags r) (xp_timeout r) (xp_toBehavior r) (xp_port r).
Definition set_xp_pRefCon (v : Z) (r : xml_pd_config) : xml_pd_config := mkXmlPd (xp_pfCbFunction r) v (xp_sendParam r) (xp_flags r) (xp_timeout r) (xp_toBehavior r) (xp_port r).
Definition set_xp_sendParam (v : TRDP_SEND_PARAM_T) (r : xml_pd_config) : xml_pd_config := mkXmlPd (xp_pfCbFunction r) (xp_pRefCon r) v (xp_flags r) (xp_timeout r) (xp_toBehavior r) (xp_port r).
Definition set_xp_flags (v : Z) (r : xml_pd_config) : xml_pd_config := mkXmlPd (xp_pfCbFunction r) (xp_pRefCon r) (xp_sendParam r) v (xp_timeout r) (xp_toBehavior r) (xp_port r).
Definition set_xp_timeout (v : Z) (r : xml_pd_config) : xml_pd_config := mkXmlPd (xp_pfCbFunction r) (xp_pRefCon r) (xp_sendParam r) (xp_flags r) v (xp_toBehavior r) (xp_port r).
Definition set_xp_toBehavior (v : Z) (r : xml_pd_config) : xml_pd_config := mkXmlPd (xp_pfCbFunction r) (xp_pRefCon r) (xp_sendParam r) (xp_flags r) (xp_timeout r) v (xp_port r).
Definition set_xp_port (v : Z) (r : xml_pd_config) : xml_pd_config := mkXmlPd (xp_pfCbFunction r) (xp_pRefCon r) (xp_sendParam r) (xp_flags r) (xp_timeout r) (xp_toBehavior r) v.
Definition set_cfg_md_qos (v : Z) (r : TRDP_MD_CONFIG_T) : TRDP_MD_CONFIG_T := mkMdCfg (md_cbFunction r) (md_refCon r) v (md_ttl r) (md_retries r) (md_flags r) (md_replyTimeout r) (md_confirmTimeout r) (md_connectTimeout r) (md_sendingTimeout r) (md_udpPort r) (md_tcpPort r) (md_maxNumSessions r).
Definition set_cfg_md_ttl (v : Z) (r : TRDP_MD_CONFIG_T) : TRDP_MD_CONFIG_T := mkMdCfg (md_cbFunction r) (md_refCon r) (md_qos r) v (md_retries r) (md_flags r) (md_replyTimeout r) (md_confirmTimeout r) (md_connectTimeout r) (md_sendingTimeout r) (md_udpPort r) (md_tcpPort r) (md_maxNumSessions r).
Definition set_cfg_md_retries (v : Z) (r : TRDP_MD_CONFIG_T) : TRDP_MD_CONFIG_T := mkMdCfg (md_cbFunction r) (md_refCon r) (md_qos r) (md_ttl r) v (md_flags r) (md_replyTimeout r) (md_confirmTimeout r) (md_connectTimeout r) (md_sendingTimeout r) (md_udpPort r) (md_tcpPort r) (md_maxNumSessions r).
Definition set_cfg_md_flags (v : Z) (r : TRDP_MD_CONFIG_T) : TRDP_MD_CONFIG_T := mkMdCfg (md_cbFunction r) (md_refCon r) (md_qos r) (md_ttl r) (md_retries r) v (md_replyTimeout r) (md_confirmTimeout r) (md_connectTimeout r) (md_sendingTimeout r) (md_udpPort r) (md_tcpPort r) (md_maxNumSessions r).
Definition set_cfg_md_replyTimeout (v : Z) (r : TRDP_MD_CONFIG_T) : TRDP_MD_CONFIG_T := mkMdCfg (md_cbFunction r) (md_refCon r) (md_qos r) (md_ttl r) (md_retries r) (md_flags r) v (md_confirmTimeout r) (md_connectTimeout r) (md_sendingTimeout r) (md_udpPort r) (md_tcpPort r) (md_maxNumSessions r).
Definition set_cfg_md_confirmTimeout (v : Z) (r : TRDP_MD_CONFIG_T) : TRDP_MD_CONFIG_T := mkMdCfg (md_cbFunction r) (md_refCon r) (md_qos r) (md_ttl r) (md_retries r) (md_flags r) (md_replyTimeout r) v (md_connectTimeout r) (md_sendingTimeout r) (md_udpPort r) (md_tcpPort r) (md_maxNumSessions r).
Definition set_cfg_md_connectTimeout (v : Z) (r : TRDP_MD_CONFIG_T) : TRDP_MD_CONFIG_T := mkMdCfg (md_cbFunction r) (md_refCon r) (md_qos r) (md_ttl r) (md_retries r) (md_flags r) (md_replyTimeout r) (md_confirmTimeout r) v (md_sendingTimeout r) (md_udpPort r) (md_tcpPort r) (md_maxNumSessions r).
Definition set_cfg_md_udpPort (v : Z) (r : TRDP_MD_CONFIG_T) : TRDP_MD_CONFIG_T := mkMdCfg (md_cbFunction r) (md_refCon r) (md_qos r) (md_ttl r) (md_retries r) (md_flags r) (md_replyTimeout r) (md_confirmTimeout r) (md_connectTimeout r) (md_sendingTimeout r) v (md_tcpPort r) (md_maxNumSessions r).
Definition set_cfg_md_tcpPort (v : Z) (r : TRDP_MD_CONFIG_T) : TRDP_MD_CONFIG_T := mkMdCfg (md_cbFunction r) (md_refCon r) (md_qos r) (md_ttl r) (md_retries r) (md_flags r) (md_replyTimeout r) (md_confirmTimeout r) (md_connectTimeout r) (md_sendingTimeout r) (md_udpPort r) v (md_maxNumSessions r).
Definition set_cfg_md_maxNumSessions (v : Z) (r : TRDP_MD_CONFIG_T) : TRDP_MD_CONFIG_T := mkMdCfg (md_cbFunction r) (md_refCon r) (md_qos r) (md_ttl r) (md_retries r) (md_flags r) (md_replyTimeout r) (md_confirmTimeout r) (md_connectTimeout r) (md_sendingTimeout r) (md_udpPort r) (md_tcpPort r) v.

(** ** Defaults *)
Record device_config := mkDevCfg { dv_mem : option TRDP_MEM_CONFIG_T; dv_dbg : option TRDP_DBG_CONFIG_T;
  dv_numComPar : Z; dv_comPar : option (list TRDP_COM_PAR_T); dv_numIfConfig : Z; dv_ifConfig : option (list TRDP_IF_CONFIG_T) }.
Definition setDefaultDeviceValues (d : device_config) : device_config :=
  mkDevCfg ((fun _ => mkMemCfg None 0 VOS_MEM_PREALLOCATE) <$> dv_mem d) ((fun _ => mkDbg TRDP_DBG_ERR 65536 (repeat 0 129)) <$> dv_dbg d) 0 None 0 None.

Definition default_process : TRDP_PROCESS_CONFIG_T := mkProcCfg (repeat 0 17) (repeat 0 17) 10000 64 TRDP_OPTION_TRAFFIC_SHAPING.
Definition default_pd : xml_pd_config := mkXmlPd None 0 (mkSend 5 64 0) TRDP_FLAGS_NONE 100000 TRDP_TO_ZERO 17224.
(** The timeout for sending keeps its value. *)
Definition default_md (r : TRDP_MD_CONFIG_T) : TRDP_MD_CONFIG_T :=
  mkMdCfg None 0 3 64 2 TRDP_FLAGS_NONE 5000000 1000000 60000000 (md_sendingTimeout r) 17225 17225 1000.
Definition setDefaultInterfaceValues (process : option TRDP_PROCESS_CONFIG_T) (pd : xml_pd_config) (md : TRDP_MD_CONFIG_T)
  : option TRDP_PROCESS_CONFIG_T * xml_pd_config * TRDP_MD_CONFIG_T :=
  ((fun _ => default_process) <$> process, default_pd, default_md md).

(** ** A telegram *)
Definition telegram_attr (n : list Z) (i : Z) (v : list Z) (p : TRDP_EXCHG_PAR_T) : TRDP_EXCHG_PAR_T :=
  if is_attr "com-id" n then set_ex_comId i p
  else if is_attr "data-set-id" n then set_ex_datasetId i p
  else if is_attr "com-parameter-id" n then set_ex_comParId i p
  else if is_attr "type" n then
    if is_value "sink" v then set_ex_type TRDP_EXCHG_SINK p
    else if is_value "source" v then set_ex_type TRDP_EXCHG_SOURCE p
    else if is_value "source-sink" v then set_ex_type TRDP_EXCHG_SOURCESINK p
    else p
  else if is_attr "create" n then if is_value "on" v then set_ex_create true p else p
  else p.

Definition md_par_attr (n : list Z) (i : Z) (v : list Z) (p : TRDP_MD_PAR_T) : TRDP_MD_PAR_T :=
  if is_attr "reply-timeout" n then set_mp_replyTimeout i p
  else if is_attr "confirm-timeout" n then set_mp_confirmTimeout i p
  else if is_attr "marshall" n then if is_value "on" v then set_mp_flags (lor_flag (mp_flags p) TRDP_FLAGS_MARSHALL) p else p
  else if is_attr "callback" n then
    if is_value "on" v then set_mp_flags (lor_flag (mp_flags p) TRDP_FLAGS_CALLBACK) p
    else if is_value "always" v then set_mp_flags (lor_flag (mp_flags p) TRDP_FLAGS_FORCE_CB) p else p
  else if is_attr "protocol" n then
    if is_value "TCP" v then set_mp_flags (mp_flags p ||| TRDP_FLAGS_TCP) p else set_mp_flags (mp_flags p &&& not8 TRDP_FLAGS_TCP) p
  else p.

Definition pd_par_attr (n : list Z) (i : Z) (v : list Z) (p : TRDP_PD_PAR_T) : TRDP_PD_PAR_T :=
  if is_attr "cycle" n then set_pp_cycle i p
  else if is_attr "timeout" n then set_pp_timeout i p
  else if is_attr "marshall" n then if is_value "on" v then set_pp_flags (lor_flag (pp_flags p) TRDP_FLAGS_MARSHALL) p else p
  else if is_attr "callback" n then
    if is_value "on" v then set_pp_flags (lor_flag (pp_flags p) TRDP_FLAGS_CALLBACK) p
    else if is_value "always" v then set_pp_flags (lor_flag (pp_flags p) TRDP_FLAGS_FORCE_CB) p else p
  else if is_attr "redundant" n then set_pp_redundant i p
  else if is_attr "validity-behavior" n then
    if is_value "keep" v then set_pp_toBehav (pp_toBehav p ||| TRDP_TO_KEEP) p else set_pp_toBehav (pp_toBehav p ||| TRDP_TO_ZERO) p
  else if is_attr "offset-address" n then set_pp_offset (u16 i) p
  else p.

Definition sdt_attr (n : list Z) (i : Z) (_ : list Z) (p : TRDP_SDT_PAR_T) : TRDP_SDT_PAR_T :=
  if is_attr "smi1" n then set_smi1 i p
  else if is_attr "smi2" n then set_smi2 i p
  else if is_attr "udv" n then set_udv (u16 i) p
  else if is_attr "rx-period" n then set_rxPeriod (u16 i) p
  else if is_attr "tx-period" n then set_txPeriod (u16 i) p
  else if is_attr "n-rxsafe" n then set_nrxSafe (u8 i) p
  else if is_attr "n-guard" n then set_nGuard (u16 i) p
  else if is_attr "cm-thr" n then set_cmThr i p
  else p.

(** [strchr]: the position of a character. *)
Fixpoint strchr (c : Z) (l : list Z) : option nat :=
  match l with [] => None | x :: l' => if x =? c then Some O else S <$> strchr c l' end.

(** [memcpy(pUriUser, p, p - value)] into the cleared buffer, [p] being the place of the [@] at [n]: as many
    characters as are in front of it, from the [@] on. What follows the value is cleared as well. *)
Definition copied_user (n : nat) (v : list Z) : list Z := take n (drop n v ++ repeat 0 n) ++ repeat 0 (S TRDP_MAX_URI_USER_LEN - n).

(** An address: user part, if there is an [@], and host part. [upd] stores in the source or destination. *)
Definition read_uri {P R} (upd : (R -> R) -> P -> rd P) (set_user set_host : option (list Z) -> R -> R) (v : list Z) (p : P) : rd (TRDP_ERR_T * P) :=
  r ← match strchr 64 v with
      | Some n =>
          ok ← alloc (Z.of_nat (S TRDP_MAX_URI_USER_LEN));
          if ok : bool then
            if (S TRDP_MAX_URI_USER_LEN <? n)%nat then undefined
            else p ← upd (set_user (Some (copied_user n v))) p; mret (TRDP_NO_ERR, (p, drop (S n) v))
          else p ← upd (set_user None) p; mret (TRDP_MEM_ERR, (p, []))
      | None => mret (TRDP_NO_ERR, (p, v))
      end;
  or_return r fst (fun ph =>
    let '(p, host) := ph in
    ok ← alloc (Z.of_nat (length host) + 1);
    p ← upd (set_host (if ok : bool then Some host else None)) p;
    mret (if ok : bool then TRDP_NO_ERR else TRDP_MEM_ERR, p)).

(** The loop over the attributes of a source or destination; without one, it ends behind the first. *)
Definition attrs_of_entry {P} (entry : option nat) (body : nat -> list Z -> Z -> list Z -> P -> rd (TRDP_ERR_T * P)) (p : P) : rd (TRDP_ERR_T * P) :=
  match entry with Some i => while_attr (body i) p | None => attribute;; mret (TRDP_NO_ERR, p) end.

(** The safety parameters of a source or destination. *)
Definition read_sdt {P R} (upd : nat -> (R -> R) -> P -> rd P) (set_sdt : option TRDP_SDT_PAR_T -> R -> R) (entry : option nat) (p : P) : rd (TRDP_ERR_T * P) :=
  enter;;
  c ← count "sdt-parameter";
  r ← (if 0 <? s32 c then seek "sdt-parameter" else mret 1);
  match entry with
  | Some i =>
      if r =? 0 then
        ok ← alloc 24;
        if ok : bool then s ← attrs sdt_attr zero_sdt; p ← upd i (set_sdt (Some s)) p; leave;; mret (TRDP_NO_ERR, p)
        else p ← upd i (set_sdt None) p; mret (TRDP_MEM_ERR, p)
      else leave;; mret (TRDP_NO_ERR, p)
  | None => leave;; mret (TRDP_NO_ERR, p)
  end.

(** The telegram with the counts and pointers of [readTelegramDef]. *)
Record telegram_state := mkTS { ts_par : TRDP_EXCHG_PAR_T; ts_countSrc : Z; ts_countDst : Z; ts_pSrc : option nat; ts_pDest : option nat }.
Definition set_ts_par (v : TRDP_EXCHG_PAR_T) (s : telegram_state) : telegram_state := mkTS v (ts_countSrc s) (ts_countDst s) (ts_pSrc s) (ts_pDest s).

Definition upd_src (i : nat) (f : TRDP_SRC_T -> TRDP_SRC_T) (p : TRDP_EXCHG_PAR_T) : rd TRDP_EXCHG_PAR_T :=
  l ← store_at i f (ex_pSrc p); mret (set_ex_pSrc l p).
Definition upd_dest (i : nat) (f : TRDP_DEST_T -> TRDP_DEST_T) (p : TRDP_EXCHG_PAR_T) : rd TRDP_EXCHG_PAR_T :=
  l ← store_at i f (ex_pDest p); mret (set_ex_pDest l p).

Definition source_attr (k : nat) (n : list Z) (i : Z) (v : list Z) (p : TRDP_EXCHG_PAR_T) : rd (TRDP_ERR_T * TRDP_EXCHG_PAR_T) :=
  if is_attr "id" n then p ← upd_src k (set_src_id i) p; mret (TRDP_NO_ERR, p)
  else if is_attr "uri1" n then read_uri (upd_src k) set_src_pUriUser set_src_pUriHost1 v p
  else if is_attr "uri2" n then
    let host := match strchr 64 v with Some n => drop (S n) v | None => v end in
    ok ← alloc (Z.of_nat (length host) + 1);
    p ← upd_src k (set_src_pUriHost2 (if ok : bool then Some host else None)) p;
    mret (if ok : bool then TRDP_NO_ERR else TRDP_MEM_ERR, p)
  else mret (TRDP_NO_ERR, p).
Definition dest_attr (k : nat) (n : list Z) (i : Z) (v : list Z) (p : TRDP_EXCHG_PAR_T) : rd (TRDP_ERR_T * TRDP_EXCHG_PAR_T) :=
  if is_attr "id" n then p ← upd_dest k (set_dst_id i) p; mret (TRDP_NO_ERR, p)
  else if is_attr "uri" n then read_uri (upd_dest k) set_dst_pUriUser set_dst_pUriHost v p
  else mret (TRDP_NO_ERR, p).

(** The first source allocates the array for all. *)
Definition alloc_src (s : telegram_state) : rd (TRDP_ERR_T * telegram_state) :=
  if ts_countSrc s >? 0 then
    ok ← alloc (ts_countSrc s * 40);
    mret (if ok : bool then
            (TRDP_NO_ERR, mkTS (set_ex_srcCnt (ts_countSrc s) (set_ex_pSrc (Some (repeat zero_src (Z.to_nat (ts_countSrc s)))) (ts_par s)))
                            0 (ts_countDst s) (Some O) (ts_pDest s))
          else (TRDP_MEM_ERR, set_ts_par (set_ex_pSrc None (ts_par s)) s))
  else mret (TRDP_NO_ERR, s).
Definition alloc_dest (s : telegram_state) : rd (TRDP_ERR_T * telegram_state) :=
  if ts_countDst s >? 0 then
    ok ← alloc (ts_countDst s * 32);
    mret (if ok : bool then
            (TRDP_NO_ERR, mkTS (set_ex_destCnt (ts_countDst s) (set_ex_pDest (Some (repeat zero_dest (Z.to_nat (ts_countDst s)))) (ts_par s)))
                            (ts_countSrc s) 0 (ts_pSrc s) (Some O))
          else (TRDP_MEM_ERR, set_ts_par (set_ex_pDest None (ts_par s)) s))
  else mret (TRDP_NO_ERR, s).

Definition read_source (s : telegram_state) : rd (TRDP_ERR_T * telegram_state) :=
  r ← alloc_src s;
  or_return r id (fun s =>
    r ← attrs_of_entry (ts_pSrc s) source_attr (ts_par s);
    or_return r (fun p => set_ts_par p s) (fun p =>
      r ← read_sdt upd_src set_src_pSdtPar (ts_pSrc s) p;
      or_return r (fun p => set_ts_par p s) (fun p =>
        mret (TRDP_NO_ERR, mkTS p (ts_countSrc s) (ts_countDst s) (S <$> ts_pSrc s) (ts_pDest s))))).
Definition read_destination (s : telegram_state) : rd (TRDP_ERR_T * telegram_state) :=
  r ← alloc_dest s;
  or_return r id (fun s =>
    r ← attrs_of_entry (ts_pDest s) dest_attr (ts_par s);
    or_return r (fun p => set_ts_par p s) (fun p =>
      r ← read_sdt upd_dest set_dst_pSdtPar (ts_pDest s) p;
      or_return r (fun p => set_ts_par p s) (fun p =>
        mret (TRDP_NO_ERR, mkTS p (ts_countSrc s) (ts_countDst s) (ts_pSrc s) (S <$> ts_pDest s))))).

(** The loop over the elements of a telegram. A refused [pd-parameter] is no error. *)
Definition telegram_item (tag : list Z) (s : telegram_state) : rd (TRDP_ERR_T * telegram_state) :=
  if is_tag "md-parameter" tag then
    ok ← alloc 12;
    if ok : bool then m ← attrs md_par_attr zero_md_par; mret (TRDP_NO_ERR, set_ts_par (set_ex_pMdPar (Some m) (ts_par s)) s)
    else mret (TRDP_MEM_ERR, set_ts_par (set_ex_pMdPar None (ts_par s)) s)
  else if is_tag "pd-parameter" tag then
    ok ← alloc 20;
    if ok : bool then m ← attrs pd_par_attr zero_pd_par; mret (TRDP_NO_ERR, set_ts_par (set_ex_pPdPar (Some m) (ts_par s)) s)
    else mret (TRDP_NO_ERR, set_ts_par (set_ex_pPdPar None (ts_par s)) s)
  else if is_tag "source" tag then read_source s
  else if is_tag "destination" tag then read_destination s
  else mret (TRDP_NO_ERR, s).

Definition readTelegramDef (p : TRDP_EXCHG_PAR_T) : rd (TRDP_ERR_T * TRDP_EXCHG_PAR_T) :=
  p ← attrs telegram_attr p;
  countSrc ← count "source";
  countDst ← count "destination";
  '(err, s) ← while_any telegram_item (mkTS p countSrc countDst None None);
  mret (err, ts_par s).

(** ** An interface *)
Record if_config := mkIfState { ic_process : option TRDP_PROCESS_CONFIG_T; ic_pd : xml_pd_config; ic_md : TRDP_MD_CONFIG_T;
  ic_numExchgPar : Z; ic_exchgPar : option (list TRDP_EXCHG_PAR_T) }.
Definition set_ic_process (f : TRDP_PROCESS_CONFIG_T -> TRDP_PROCESS_CONFIG_T) (s : if_config) : if_config :=
  mkIfState (f <$> ic_process s) (ic_pd s) (ic_md s) (ic_numExchgPar s) (ic_exchgPar s).
Definition set_ic_pd (v : xml_pd_config) (s : if_config) : if_config := mkIfState (ic_process s) v (ic_md s) (ic_numExchgPar s) (ic_exchgPar s).
Definition set_ic_md (v : TRDP_MD_CONFIG_T) (s : if_config) : if_config := mkIfState (ic_process s) (ic_pd s) v (ic_numExchgPar s) (ic_exchgPar s).
Definition set_ic_num (v : Z) (s : if_config) : if_config := mkIfState (ic_process s) (ic_pd s) (ic_md s) v (ic_exchgPar s).
Definition set_ic_exchg (v : option (list TRDP_EXCHG_PAR_T)) (s : if_config) : if_config := mkIfState (ic_process s) (ic_pd s) (ic_md s) (ic_numExchgPar s) v.

Definition device_attr (n : list Z) (_ : Z) (v : list Z) (p : TRDP_PROCESS_CONFIG_T) : TRDP_PROCESS_CONFIG_T :=
  if is_attr "host-name" n then set_pr_hostName (vos_strncpy (pr_hostName p) v TRDP_MAX_LABEL_LEN) p
  else if is_attr "leader-name" n then set_pr_leaderName (vos_strncpy (pr_leaderName p) v TRDP_MAX_LABEL_LEN) p
  else p.

Definition pd_com_attr (n : list Z) (i : Z) (v : list Z) (p : xml_pd_config) : xml_pd_config :=
  if is_attr "marshall" n then if is_value "on" v then set_xp_flags (lor_flag (xp_flags p) TRDP_FLAGS_MARSHALL) p else p
  else if is_attr "validity-behavior" n then
    if is_value "keep" v then set_xp_toBehavior (xp_toBehavior p ||| TRDP_TO_KEEP) p else set_xp_toBehavior (xp_toBehavior p ||| TRDP_TO_ZERO) p
  else if is_attr "callback" n then
    if is_value "on" v then set_xp_flags (lor_flag (xp_flags p) TRDP_FLAGS_CALLBACK) p
    else if is_value "always" v then set_xp_flags (lor_flag (xp_flags p) TRDP_FLAGS_FORCE_CB) p else p
  else if is_attr "port" n then set_xp_port (u16 i) p
  else if is_attr "ttl" n then set_xp_sendParam (mkSend (sp_qos (xp_sendParam p)) (u8 i) (sp_retries (xp_sendParam p))) p
  else if is_attr "qos" n then set_xp_sendParam (mkSend (u8 i) (sp_ttl (xp_sendParam p)) (sp_retries (xp_sendParam p))) p
  else p.

Definition md_com_attr (n : list Z) (i : Z) (v : list Z) (p : TRDP_MD_CONFIG_T) : TRDP_MD_CONFIG_T :=
  if is_attr "marshall" n then if is_value "on" v then set_cfg_md_flags (lor_flag (md_flags p) TRDP_FLAGS_MARSHALL) p else p
  else if is_attr "protocol" n then if is_value "TCP" v then set_cfg_md_flags (lor_flag (md_flags p) TRDP_FLAGS_TCP) p else p
  else if is_attr "callback" n then if is_value "on" v then set_cfg_md_flags (lor_flag (md_flags p) TRDP_FLAGS_CALLBACK) p else p
  else if is_attr "udp-port" n then set_cfg_md_udpPort (u16 i) p
  else if is_attr "tcp-port" n then set_cfg_md_tcpPort (u16 i) p
  else if is_attr "retries" n then set_cfg_md_retries (u8 i) p
  else if is_attr "ttl" n then set_cfg_md_ttl (u8 i) p
  else if is_attr "qos" n then set_cfg_md_qos (u8 i) p
  else if is_attr "num-sessions" n then set_cfg_md_maxNumSessions i p
  else if is_attr "confirm-timeout" n then set_cfg_md_confirmTimeout i p
  else if is_attr "connect-timeout" n then set_cfg_md_connectTimeout i p
  else if is_attr "reply-timeout" n then set_cfg_md_replyTimeout i p
  else p.

Definition process_attr (n : list Z) (i : Z) (v : list Z) (p : TRDP_PROCESS_CONFIG_T) : TRDP_PROCESS_CONFIG_T :=
  if is_attr "blocking" n then if is_value "yes" v then set_pr_options (pr_options p ||| TRDP_OPTION_BLOCK) p else p
  else if is_attr "traffic-shaping" n then if is_value "off" v then set_pr_options (pr_options p &&& not8 TRDP_OPTION_TRAFFIC_SHAPING) p else p
  else if is_attr "priority" n then set_pr_priority i p
  else if is_attr "cycle-time" n then set_pr_cycleTime i p
  else p.

(** The elements of an interface; the attributes of one are read by the first that has its tag. *)
Definition if_item (count : Z) (tag : list Z) (s : nat * if_config) : rd (TRDP_ERR_T * (nat * if_config)) :=
  let '(idx, c) := s in
  c ← (if is_attr "pd-com-parameter" tag then pd ← attrs pd_com_attr (ic_pd c); mret (set_ic_pd pd c) else mret c);
  c ← (if is_tag "md-com-parameter" tag then md ← attrs md_com_attr (ic_md c); mret (set_ic_md md c) else mret c);
  c ← (match ic_process c with
       | Some p => if is_tag "trdp-process" tag then p ← attrs process_attr p; mret (set_ic_process (fun _ => p) c) else mret c
       | None => mret c
       end);
  if (count >? 0) && (count >? Z.of_nat idx) && is_tag "telegram" tag then
    enter;;
    match ic_exchgPar c with
    | Some l =>
        match l !! idx with
        | Some p =>
            '(err, p) ← readTelegramDef p;
            let c := set_ic_exchg (Some (<[idx := p]> l)) c in
            leave;;
            mret (if is_ok err then (TRDP_NO_ERR, (S idx, c)) else (err, (idx, c)))
        | None => undefined
        end
    | None => undefined
    end
  else mret (TRDP_NO_ERR, (idx, c)).

(** One [bus-interface]: skipped unless it, or one before, has the name. There is no step up behind it. A second interface
    that is read replaces the table of the first, whose blocks the program then no longer reaches; the model keeps
    the blocks the last table points to only. *)
Definition read_bus_interface (ifName : list Z) (fs : bool * if_config) : rd (TRDP_ERR_T * (bool * if_config)) :=
  let '(found, c) := fs in
  found ← (match ifName with
           | [] => mret true
           | _ => attrs (fun n _ v found => if is_attr "name" n && (vos_strnicmp ifName v TRDP_MAX_LABEL_LEN =? 0) then true else found) found
           end);
  if negb found then mret (TRDP_NO_ERR, (found, c))
  else
    enter;;
    count ← count "telegram";
    r ← (if count >? 0 then
           ok ← alloc (count * 72);
           mret (if ok : bool then (TRDP_NO_ERR, set_ic_exchg (Some (repeat zero_exchg (Z.to_nat count))) c)
                 else (TRDP_MEM_ERR, set_ic_exchg None c))
         else mret (TRDP_NO_ERR, c));
    or_return r (fun c => (found, c)) (fun c =>
      r ← while_any (if_item count) (0%nat, c);
      or_return r (fun ic => (found, snd ic)) (fun ic => mret (TRDP_NO_ERR, (found, set_ic_num count (snd ic))))).

Definition device_item (ifName : list Z) (tag : list Z) (c : if_config) : rd (TRDP_ERR_T * if_config) :=
  if is_tag "bus-interface-list" tag then
    enter;;
    r ← while_tag (fun _ => true) "bus-interface" (read_bus_interface ifName) (false, c);
    or_return r snd (fun fc => leave;; mret (TRDP_NO_ERR, snd fc))
  else mret (TRDP_NO_ERR, c).

(** [ptrs_ok]: the handle and the two places for the telegrams are not NULL. *)
Definition tau_readXmlInterfaceConfig (ptrs_ok : bool) (pIfName : option (list Z)) (process : option TRDP_PROCESS_CONFIG_T)
    (pPd : option xml_pd_config) (pMd : option TRDP_MD_CONFIG_T) : rd (TRDP_ERR_T * option if_config) :=
  match ptrs_ok, pIfName, pPd, pMd with
  | true, Some ifName, Some pd, Some md =>
      rewind;;
      let '(process, pd, md) := setDefaultInterfaceValues process pd md in
      let c := mkIfState process pd md 0 None in
      enter;;
      d ← seek "device";
      if d =? 0 then
        c ← (match ic_process c with Some p => p ← attrs device_attr p; mret (set_ic_process (fun _ => p) c) | None => mret c end);
        enter;;
        r ← while_any (device_item ifName) c;
        or_return r Some (fun c => leave;; leave;; mret (TRDP_NO_ERR, Some c))
      else leave;; mret (TRDP_NO_ERR, Some c)
  | _, _, _, _ => mret (TRDP_PARAM_ERR, None)
  end.

(** ** A device *)
Definition mem_list : list Z := [32; 72; 128; 256; 512; 1024; 1480; 2048; 4096; 11520; 16384; 32768; 65536; 131072].
(** [for (i = 0; sizeValue > mem_list[i]; i++)]; [None] behind the end of the list. *)
Fixpoint find_slot (size : Z) (l : list Z) (i : nat) : option nat :=
  match l with [] => None | b :: l' => if size >? b then find_slot size l' (S i) else Some i end.

Definition set_dv_mem (v : option TRDP_MEM_CONFIG_T) (d : device_config) : device_config :=
  mkDevCfg v (dv_dbg d) (dv_numComPar d) (dv_comPar d) (dv_numIfConfig d) (dv_ifConfig d).
Definition set_dv_dbg (v : option TRDP_DBG_CONFIG_T) (d : device_config) : device_config :=
  mkDevCfg (dv_mem d) v (dv_numComPar d) (dv_comPar d) (dv_numIfConfig d) (dv_ifConfig d).

Definition read_mem_block (m : option TRDP_MEM_CONFIG_T) : rd (TRDP_ERR_T * option TRDP_MEM_CONFIG_T) :=
  '(_, a) ← attribute;
  match a with
  | Some (n, size, _) =>
      if is_attr "size" n then
        '(_, a) ← attribute;
        match a with
        | Some (n, preAlloc, _) =>
            if is_attr "preallocate" n then
              match find_slot size mem_list 0 with
              | Some i =>
                  if (i <? 15)%nat then
                    match m with
                    | Some r => mret (TRDP_NO_ERR, Some (set_mem_prealloc (<[i := preAlloc]> (mem_prealloc r)) r))
                    | None => undefined
                    end
                  else mret (TRDP_NO_ERR, m)
              | None => undefined
              end
            else mret (TRDP_NO_ERR, m)
        | None => mret (TRDP_NO_ERR, m)
        end
      else mret (TRDP_NO_ERR, m)
  | None => mret (TRDP_NO_ERR, m)
  end.

(** The first attribute, and the blocks. *)
Definition read_device_configuration (m : option TRDP_MEM_CONFIG_T) : rd (option TRDP_MEM_CONFIG_T) :=
  '(_, a) ← attribute;
  m ← (match a with
       | Some (n, v, _) =>
           if is_attr "memory-size" n then match m with Some r => mret (Some (set_mem_size v r)) | None => undefined end else mret m
       | None => mret m
       end);
  enter;;
  b ← seek "mem-block-list";
  if b =? 0 then
    enter;; '(_, m) ← while_tag (fun _ => true) "mem-block" read_mem_block m; leave;; leave;; mret m
  else leave;; mret m.

(** [strpbrk(value, "Xx") != NULL] *)
Definition has_letter (a b : Z) (v : list Z) : bool := existsb (fun c => (c =? a) || (c =? b)) v.
Definition debug_attr (n : list Z) (i : Z) (v : list Z) (d : TRDP_DBG_CONFIG_T) : TRDP_DBG_CONFIG_T :=
  if is_attr "file-name" n then set_dbg_fileName (vos_strncpy (dbg_fileName d) v TRDP_MAX_FILE_NAME_LEN) d
  else if is_attr "file-size" n then set_dbg_maxFileSize i d
  else if is_attr "level" n then
    let o := dbg_option d in
    let o := if has_letter 68 100 v then TRDP_DBG_DBG ||| TRDP_DBG_WARN ||| TRDP_DBG_INFO ||| TRDP_DBG_ERR else o in
    let o := if has_letter 87 119 v then o ||| (TRDP_DBG_WARN ||| TRDP_DBG_ERR) else o in
    let o := if has_letter 69 101 v then o ||| (TRDP_DBG_ERR ||| TRDP_DBG_WARN ||| TRDP_DBG_ERR) else o in
    let o := if has_letter 73 105 v then o ||| TRDP_DBG_INFO else o in
    set_dbg_option o d
  else d.

(** A table that is allocated for the elements with a tag and filled by their attributes: [for (i = 0; i < count
    && trdp_XMLSeekStartTag(...) == 0; i++)]. *)
Definition read_table {R} (tag : string) (size : Z) (zero : R) (f : list Z -> Z -> list Z -> R -> R) (num : Z) : rd (Z * option (list R)) :=
  enter;;
  c ← count tag;
  ok ← alloc (c * size);
  if ok : bool then
    '(_, (_, l)) ← while_tag (fun im : nat * list R => Z.of_nat (fst im) <? c) tag
        (fun im => match snd im !! fst im with
                   | Some r => r ← attrs f r; mret (TRDP_NO_ERR, (S (fst im), <[fst im := r]> (snd im)))
                   | None => undefined
                   end) (0%nat, repeat zero (Z.to_nat c));
    leave;; mret (c, Some l)
  else leave;; mret (num, None).

Definition com_attr (n : list Z) (i : Z) (_ : list Z) (p : TRDP_COM_PAR_T) : TRDP_COM_PAR_T :=
  let s := cp_sendParam p in
  if is_attr "id" n then set_cp_id i p
  else if is_attr "qos" n then set_cp_sendParam (mkSend (u8 i) (sp_ttl s) (sp_retries s)) p
  else if is_attr "ttl" n then set_cp_sendParam (mkSend (sp_qos s) (u8 i) (sp_retries s)) p
  else if is_attr "retries" n then set_cp_sendParam (mkSend (sp_qos s) (sp_ttl s) (u8 i)) p
  else p.

Section device.
(** [inet_aton] of the C library: the address in network order, if the text is one. *)
Context (inet_aton : list Z -> option Z).

Definition if_attr (n : list Z) (i : Z) (v : list Z) (p : TRDP_IF_CONFIG_T) : TRDP_IF_CONFIG_T :=
  if is_attr "network-id" n then set_if_networkId (u8 i) p
  else if is_attr "name" n then set_if_ifName (vos_strncpy (if_ifName p) v TRDP_MAX_LABEL_LEN) p
  else if is_attr "host-ip" n then set_if_hostIp (vos_dottedIP inet_aton v) p
  else if is_attr "leader-ip" n then set_if_leaderIp (vos_dottedIP inet_aton v) p
  else p.

Definition config_item (tag : list Z) (d : device_config) : rd (TRDP_ERR_T * device_config) :=
  if is_tag "device-configuration" tag then m ← read_device_configuration (dv_mem d); mret (TRDP_NO_ERR, set_dv_mem m d)
  else if (match dv_dbg d with Some _ => true | None => false end) && is_tag "debug" tag then
    match dv_dbg d with
    | Some g => g ← attrs debug_attr g; mret (TRDP_NO_ERR, set_dv_dbg (Some g) d)
    | None => mret (TRDP_NO_ERR, d)
    end
  else if is_tag "com-parameter-list" tag then
    '(num, l) ← read_table "com-parameter" 8 zero_com com_attr (dv_numComPar d);
    mret (TRDP_NO_ERR, mkDevCfg (dv_mem d) (dv_dbg d) num l (dv_numIfConfig d) (dv_ifConfig d))
  else if is_tag "bus-interface-list" tag then
    '(num, l) ← read_table "bus-interface" 28 zero_if if_attr (dv_numIfConfig d);
    mret (TRDP_NO_ERR, mkDevCfg (dv_mem d) (dv_dbg d) (dv_numComPar d) (dv_comPar d) num l)
  else mret (TRDP_NO_ERR, d).

Definition tau_readXmlDeviceConfig (d : device_config) : rd (TRDP_ERR_T * device_config) :=
  rewind;;
  let d := setDefaultDeviceValues d in
  enter;;
  b ← seek "device";
  if b =? 0 then enter;; '(_, d) ← while_any config_item d; leave;; leave;; mret (TRDP_NO_ERR, d)
  else leave;; mret (TRDP_NO_ERR, d).
End device.

(** ** The document, and giving memory back *)

(** The files that can be opened, and the answer of the allocator; the handle that results is NULL if it was
    refused, and stays allocated if the file was not opened. *)
Definition tau_prepareXmlDoc (open : list Z -> option FILE) (alloc_ok : bool) (pFileName : option (list Z)) (doc_ok : bool)
  : TRDP_ERR_T * option XML_HANDLE_T :=
  match pFileName with
  | None | Some [] => (TRDP_PARAM_ERR, None)
  | Some name =>
      if negb doc_ok then (TRDP_PARAM_ERR, None)
      else if negb alloc_ok then (TRDP_MEM_ERR, None)
      else let '(err, h) := trdp_XMLOpen (open name) (mkXml None [] 0 0 [] TRDP_NO_ERR) in
           (if is_ok err then TRDP_NO_ERR else TRDP_PARAM_ERR, Some h)
  end.

(** The document afterwards; [None] where the code uses a handle or a file that is not there. The first [option]
    is the pointer to the document. *)
Definition tau_freeXmlDoc (doc : option (option XML_HANDLE_T)) : option (option XML_HANDLE_T) :=
  match doc with
  | None => Some None
  | Some (Some h) => match infile h with Some _ => Some None | None => None end
  | Some None => None
  end.

(** The blocks of a configuration that [vos_memAlloc] gave. *)
Inductive xml_block :=
| BlkExchg | BlkMdPar (t : nat) | BlkPdPar (t : nat)
| BlkDests (t : nat) | BlkDestHost (t i : nat) | BlkDestUser (t i : nat) | BlkDestSdt (t i : nat)
| BlkSrcs (t : nat) | BlkSrcHost1 (t i : nat) | BlkSrcHost2 (t i : nat) | BlkSrcUser (t i : nat) | BlkSrcSdt (t i : nat)
| BlkMap | BlkDatasets | BlkDataset (d : nat) | BlkUnit (d j : nat).
Definition when {A} (p : option A) (b : xml_block) : list xml_block := match p with Some _ => [b] | None => [] end.

(** The blocks given back, in their order; [None] where an array that is not there is used. *)
Definition free_dest (t i : nat) (d : TRDP_DEST_T) : list xml_block :=
  when (dst_pUriHost d) (BlkDestHost t i) ++ when (dst_pUriUser d) (BlkDestUser t i) ++ when (dst_pSdtPar d) (BlkDestSdt t i).
Definition free_src (t i : nat) (s : TRDP_SRC_T) : list xml_block :=
  when (src_pUriHost1 s) (BlkSrcHost1 t i) ++ when (src_pUriHost2 s) (BlkSrcHost2 t i) ++ when (src_pUriUser s) (BlkSrcUser t i)
  ++ when (src_pSdtPar s) (BlkSrcSdt t i).
Fixpoint free_entries {R} (f : nat -> R -> list xml_block) (n i : nat) (l : list R) : option (list xml_block) :=
  match n with
  | O => Some []
  | S n' => match l with r :: l' => (fun b => f i r ++ b) <$> free_entries f n' (S i) l' | [] => None end
  end.
Definition free_array {R} (f : nat -> R -> list xml_block) (cnt : Z) (l : option (list R)) (b : xml_block) : option (list xml_block) :=
  if cnt =? 0 then Some []
  else match l with Some l => (fun bs => bs ++ [b]) <$> free_entries f (Z.to_nat cnt) 0 l | None => None end.
Definition free_telegram (t : nat) (p : TRDP_EXCHG_PAR_T) : option (list xml_block) :=
  dests ← free_array (free_dest t) (ex_destCnt p) (ex_pDest p) (BlkDests t);
  srcs ← free_array (free_src t) (ex_srcCnt p) (ex_pSrc p) (BlkSrcs t);
  Some (when (ex_pMdPar p) (BlkMdPar t) ++ when (ex_pPdPar p) (BlkPdPar t) ++ dests ++ srcs).
Fixpoint free_telegrams (n t : nat) (l : list TRDP_EXCHG_PAR_T) : option (list xml_block) :=
  match n with
  | O => Some []
  | S n' => match l with p :: l' => b ← free_telegram t p; bs ← free_telegrams n' (S t) l'; Some (b ++ bs) | [] => None end
  end.
Definition tau_freeTelegrams (numExchgPar : Z) (pExchgPar : option (list TRDP_EXCHG_PAR_T)) : option (list xml_block) :=
  match pExchgPar with
  | Some l => if numExchgPar =? 0 then Some [] else (fun bs => bs ++ [BlkExchg]) <$> free_telegrams (Z.to_nat numExchgPar) 0 l
  | None => Some []
  end.

Fixpoint free_units (n j d : nat) (l : list xml_element) : option (list xml_block) :=
  match n with
  | O => Some []
  | S n' => match l with e :: l' => (fun bs => when (xe_unit e) (BlkUnit d j) ++ bs) <$> free_units n' (S j) d l' | [] => None end
  end.
Fixpoint free_datasets (n d : nat) (l : list (option xml_dataset)) : option (list xml_block) :=
  match n with
  | O => Some []
  | S n' =>
      match l with
      | Some ds :: l' => b ← free_units (Z.to_nat (xd_numElement ds)) 0 d (xd_pElement ds); bs ← free_datasets n' (S d) l'; Some (b ++ [BlkDataset d] ++ bs)
      | _ => None
      end
  end.
Definition tau_freeXmlDatasetConfig (numComId : Z) (pMap : option (list TRDP_COMID_DSID_MAP_T)) (numDataset : Z) (ppDataset : option (list (option xml_dataset)))
  : option (list xml_block) :=
  let m := if numComId >? 0 then when pMap BlkMap else [] in
  match ppDataset with
  | Some l => if numDataset >? 0 then (fun bs => m ++ bs ++ [BlkDatasets]) <$> free_datasets (Z.to_nat numDataset) 0 l else Some m
  | None => Some m
  end.
