(* ===== verification/TauXmlCfgInv.v ===== *)
(** * What holds of every configuration that is read

    Whatever the text and the answers of the allocator: the counts of the sources and destinations of a
    telegram are the lengths of their arrays, so [tau_freeTelegrams] gives back each block once and none is
    left. Then the user parts of addresses, and the classes of memory blocks. *)
From Stdlib Require Import String Ascii.
From S2P Require Import Prelude Bytes VosString VosMem TrdpTypes TrdpMdTypes TauMarshall TrdpXml TauXml TauXmlCfg.

(** ** What a program returns, from any state *)
Definition ensures {A} (m : rd A) (P : A -> Prop) : Prop := forall e x e', m e = Some (x, e') -> P x.

Lemma ensures_ret {A} (x : A) (P : A -> Prop) : P x -> ensures (mret x) P.
Proof. intros H e y e' [= <- _]. done. Qed.
Lemma ensures_any {A} (m : rd A) : ensures m (fun _ => True).
Proof. done. Qed.
Lemma ensures_bind {A B} (m : rd A) (f : A -> rd B) (Q : A -> Prop) (P : B -> Prop) :
  ensures m Q -> (forall x, Q x -> ensures (f x) P) -> ensures (m ≫= f) P.
Proof.
  intros Hm Hf e y e' H. unfold mbind, rd_bind in H. destruct (m e) as [[x e1]|] eqn:E; [|done]. cbn in H.
  apply (Hf x (Hm _ _ _ E) _ _ _ H).
Qed.
Lemma ensures_skip {A B} (m : rd A) (f : A -> rd B) (P : B -> Prop) : (forall x, ensures (f x) P) -> ensures (m ≫= f) P.
Proof. intros H. eapply ensures_bind; [apply ensures_any|auto]. Qed.
Lemma ensures_undefined {A} (P : A -> Prop) : ensures undefined P.
Proof. done. Qed.
Lemma ensures_impl {A} (m : rd A) (P Q : A -> Prop) : ensures m P -> (forall x, P x -> Q x) -> ensures m Q.
Proof. intros H HPQ e x e' E. eauto. Qed.
Lemma ensures_or_return {A B} (r : TRDP_ERR_T * A) (done : A -> B) k (P : TRDP_ERR_T * B -> Prop) :
  (is_ok (fst r) = false -> P (fst r, done (snd r))) -> (is_ok (fst r) = true -> ensures (k (snd r)) P) -> ensures (or_return r done k) P.
Proof. intros H1 H2. unfold or_return. destruct (is_ok (fst r)); [auto|]. apply ensures_ret. auto. Qed.

(** The loops keep what their bodies keep. *)
Section loops.
Context {A : Type} (I : TRDP_ERR_T * A -> Prop).
Lemma ensures_attr_loop body : (forall n i v a, I (TRDP_NO_ERR, a) -> ensures (body n i v a) I) ->
  forall rounds a, I (TRDP_NO_ERR, a) -> ensures (attr_loop rounds body a) I.
Proof.
  intros Hb. induction rounds as [|n IH]; intros a Ha; [apply ensures_undefined|]. cbn [attr_loop]. apply ensures_skip. intros [t [[[nm i] v]|]].
  - eapply ensures_bind; [by apply Hb|]. intros [err a'] H. destruct err; cbn [is_ok]; auto using ensures_ret.
  - by apply ensures_ret.
Qed.
Lemma ensures_while_attr body a : (forall n i v a, I (TRDP_NO_ERR, a) -> ensures (body n i v a) I) -> I (TRDP_NO_ERR, a) -> ensures (while_attr body a) I.
Proof. intros Hb Ha. apply ensures_skip. intros n. by apply ensures_attr_loop. Qed.
Lemma ensures_while_tag cond tag body a : (forall a, I (TRDP_NO_ERR, a) -> ensures (body a) I) -> I (TRDP_NO_ERR, a) -> ensures (while_tag cond tag body a) I.
Proof.
  intros Hb Ha. apply ensures_skip. intros n. revert a Ha. induction n as [|n IH]; intros a Ha; [apply ensures_undefined|]. cbn [tag_loop].
  destruct (negb (cond a)); [by apply ensures_ret|]. apply ensures_skip. intros r. destruct (r =? 0); [|by apply ensures_ret].
  eapply ensures_bind; [by apply Hb|]. intros [err a'] H. destruct err; cbn [is_ok]; auto using ensures_ret.
Qed.
Lemma ensures_while_any body a : (forall tag a, I (TRDP_NO_ERR, a) -> ensures (body tag a) I) -> I (TRDP_NO_ERR, a) -> ensures (while_any body a) I.
Proof.
  intros Hb Ha. apply ensures_skip. intros n. revert a Ha. induction n as [|n IH]; intros a Ha; [apply ensures_undefined|]. cbn [any_loop].
  apply ensures_skip. intros [r tag]. destruct (r =? 0); [|by apply ensures_ret].
  eapply ensures_bind; [by apply Hb|]. intros [err a'] H. destruct err; cbn [is_ok]; auto using ensures_ret.
Qed.
End loops.
Lemma ensures_attrs {A} (f : list Z -> Z -> list Z -> A -> A) (I : A -> Prop) a : (forall n i v a, I a -> I (f n i v a)) -> I a -> ensures (attrs f a) I.
Proof.
  intros Hf Ha. eapply ensures_bind; [apply (ensures_while_attr (fun r => I (snd r))); [|exact Ha]|].
  - intros n i v a' H. apply ensures_ret. cbn. auto.
  - intros [err a'] H. by apply ensures_ret.
Qed.

(** ** The counts of a telegram *)
Definition entries {R} (cnt : Z) (l : option (list R)) : Prop :=
  match l with Some l => cnt = Z.of_nat (length l) /\ (0 < length l)%nat | None => cnt = 0 end.
Record exchg_wf (p : TRDP_EXCHG_PAR_T) : Prop := {
  wf_src : entries (ex_srcCnt p) (ex_pSrc p);
  wf_dest : entries (ex_destCnt p) (ex_pDest p) }.
Definition no_entries (p : TRDP_EXCHG_PAR_T) : Prop := (ex_pSrc p = None /\ ex_srcCnt p = 0) /\ ex_pDest p = None /\ ex_destCnt p = 0.

(** While a count is not taken, there is no array. *)
Definition telegram_inv (s : telegram_state) : Prop :=
  exchg_wf (ts_par s) /\ (ts_countSrc s > 0 -> ex_pSrc (ts_par s) = None /\ ex_srcCnt (ts_par s) = 0)
  /\ (ts_countDst s > 0 -> ex_pDest (ts_par s) = None /\ ex_destCnt (ts_par s) = 0).

(** What reading into one entry leaves as it is. *)
Definition same_frame (p p' : TRDP_EXCHG_PAR_T) : Prop :=
  ex_srcCnt p' = ex_srcCnt p /\ ex_destCnt p' = ex_destCnt p /\ length <$> ex_pSrc p' = length <$> ex_pSrc p /\ length <$> ex_pDest p' = length <$> ex_pDest p.

#[export] Instance same_frame_refl : Reflexive same_frame.
Proof. intros p. done. Qed.
#[export] Instance same_frame_trans : Transitive same_frame.
Proof. intros p q r (H1 & H2 & H3 & H4) (K1 & K2 & K3 & K4). repeat split; congruence. Qed.

Lemma entries_length {R} cnt (l l' : option (list R)) : length <$> l' = length <$> l -> entries cnt l -> entries cnt l'.
Proof. unfold entries. destruct l as [l|], l' as [l'|]; cbn; try done. intros [=->]. done. Qed.
Lemma same_frame_wf p p' : same_frame p p' -> exchg_wf p -> exchg_wf p'.
Proof. intros (H1 & H2 & H3 & H4) [Hs Hd]. split; [rewrite H1; by eapply entries_length|rewrite H2; by eapply entries_length]. Qed.
Lemma same_frame_inv p' s : same_frame (ts_par s) p' -> telegram_inv s -> telegram_inv (set_ts_par p' s).
Proof.
  intros Hf (Hwf & Hs & Hd). pose proof Hf as (H1 & H2 & H3 & H4). split; [by eapply same_frame_wf|]. cbn [ts_par ts_countSrc ts_countDst set_ts_par].
  split; intros Hc; [destruct (Hs Hc) as [Hp Hz]|destruct (Hd Hc) as [Hp Hz]]; rewrite Hp in *; (split; [|congruence]);
    [destruct (ex_pSrc p')|destruct (ex_pDest p')]; done.
Qed.

Lemma store_at_length {A} i f (l : option (list A)) : ensures (store_at i f l) (fun l' => length <$> l' = length <$> l).
Proof.
  unfold store_at. destruct l as [l|]; [|apply ensures_undefined]. destruct (l !! i); [|apply ensures_undefined].
  apply ensures_ret. cbn. by rewrite length_insert.
Qed.
Lemma upd_src_frame i f p : ensures (upd_src i f p) (same_frame p).
Proof. eapply ensures_bind; [apply store_at_length|]. intros l H. apply ensures_ret. split_and!; done. Qed.
Lemma upd_dest_frame i f p : ensures (upd_dest i f p) (same_frame p).
Proof. eapply ensures_bind; [apply store_at_length|]. intros l H. apply ensures_ret. split_and!; done. Qed.

(** A storing function, and one that reads an address or the safety parameters with it. *)
Section entry.
Context {R : Type} (upd : (R -> R) -> TRDP_EXCHG_PAR_T -> rd TRDP_EXCHG_PAR_T) (Hupd : forall f p, ensures (upd f p) (same_frame p)).

Lemma store_frame f err p p0 : same_frame p0 p -> ensures (p ← upd f p; mret (err, p)) (fun r : TRDP_ERR_T * TRDP_EXCHG_PAR_T => same_frame p0 (snd r)).
Proof. intros H0. eapply ensures_bind; [apply Hupd|]. intros p' H. apply ensures_ret. by etrans. Qed.

Lemma read_uri_frame su sh v p : ensures (read_uri upd su sh v p) (fun r => same_frame p (snd r)).
Proof.
  unfold read_uri. eapply (ensures_bind _ _ (fun r => same_frame p (fst (snd r)))).
  - destruct (strchr 64 v) as [n|]; [|by apply ensures_ret]. apply ensures_skip. intros [|].
    + destruct (_ <? n)%nat; [apply ensures_undefined|]. eapply ensures_bind; [apply Hupd|]. intros p' H. by apply ensures_ret.
    + eapply ensures_bind; [apply Hupd|]. intros p' H. by apply ensures_ret.
  - intros [err [p' host]] H. apply ensures_or_return; [done|]. intros _. cbn [fst snd] in *. apply ensures_skip. intros ok. by apply store_frame.
Qed.
End entry.

Lemma read_sdt_frame {R} (upd : nat -> (R -> R) -> TRDP_EXCHG_PAR_T -> rd TRDP_EXCHG_PAR_T) set_sdt entry p :
  (forall i f p, ensures (upd i f p) (same_frame p)) -> ensures (read_sdt upd set_sdt entry p) (fun r => same_frame p (snd r)).
Proof.
  intros Hupd. unfold read_sdt. apply ensures_skip. intros _. apply ensures_skip. intros c. apply ensures_skip. intros r. destruct entry as [i|].
  - destruct (r =? 0).
    + apply ensures_skip. intros [|].
      * apply ensures_skip. intros s. eapply ensures_bind; [apply Hupd|]. intros p' H. apply ensures_skip. intros _. by apply ensures_ret.
      * by apply store_frame.
    + apply ensures_skip. intros _. by apply ensures_ret.
  - apply ensures_skip. intros _. by apply ensures_ret.
Qed.

Lemma source_attr_frame k n i v p p0 : same_frame p0 p -> ensures (source_attr k n i v p) (fun r => same_frame p0 (snd r)).
Proof.
  intros H0. unfold source_attr. destruct (is_attr "id" n); [by apply store_frame; [apply upd_src_frame|]|].
  destruct (is_attr "uri1" n); [eapply ensures_impl; [apply read_uri_frame, upd_src_frame|intros r Hr; by etrans]|].
  destruct (is_attr "uri2" n); [apply ensures_skip; intros ok; by apply store_frame; [apply upd_src_frame|]|by apply ensures_ret].
Qed.
Lemma dest_attr_frame k n i v p p0 : same_frame p0 p -> ensures (dest_attr k n i v p) (fun r => same_frame p0 (snd r)).
Proof.
  intros H0. unfold dest_attr. destruct (is_attr "id" n); [by apply store_frame; [apply upd_dest_frame|]|].
  destruct (is_attr "uri" n); [eapply ensures_impl; [apply read_uri_frame, upd_dest_frame|intros r Hr; by etrans]|by apply ensures_ret].
Qed.
Lemma attrs_of_entry_frame entry body p : (forall k n i v p p0, same_frame p0 p -> ensures (body k n i v p) (fun r : TRDP_ERR_T * TRDP_EXCHG_PAR_T => same_frame p0 (snd r))) ->
  ensures (attrs_of_entry entry body p) (fun r => same_frame p (snd r)).
Proof.
  intros Hb. unfold attrs_of_entry. destruct entry as [i|]; [|apply ensures_skip; intros _; by apply ensures_ret].
  apply (ensures_while_attr (fun r => same_frame p (snd r))); [|done]. intros n z v p' H. by apply Hb.
Qed.

Lemma alloc_src_inv s : telegram_inv s -> ensures (alloc_src s) (fun r => telegram_inv (snd r)).
Proof.
  intros ([Hs Hd] & Hcs & Hcd). unfold alloc_src. destruct (Z.gtb_spec (ts_countSrc s) 0); [|by apply ensures_ret].
  apply ensures_skip. intros [|]; apply ensures_ret; cbn; destruct (Hcs ltac:(lia)) as [Hn Hz].
  - split; [split; cbn; [|done]; unfold entries; rewrite repeat_length; lia|]. cbn. split; [lia|done].
  - split; [split; cbn; [|done]; unfold entries; lia|]. cbn. split; [done|done].
Qed.
Lemma alloc_dest_inv s : telegram_inv s -> ensures (alloc_dest s) (fun r => telegram_inv (snd r)).
Proof.
  intros ([Hs Hd] & Hcs & Hcd). unfold alloc_dest. destruct (Z.gtb_spec (ts_countDst s) 0); [|by apply ensures_ret].
  apply ensures_skip. intros [|]; apply ensures_ret; cbn; destruct (Hcd ltac:(lia)) as [Hn Hz].
  - split; [split; cbn; [done|]; unfold entries; rewrite repeat_length; lia|]. cbn. split; [done|lia].
  - split; [split; cbn; [done|]; unfold entries; lia|]. cbn. split; [done|done].
Qed.

(** The three steps of reading an entry. *)
Lemma read_entry_inv (alloc_entry : telegram_state -> rd (TRDP_ERR_T * telegram_state)) entry body
    (sdt : option nat -> TRDP_EXCHG_PAR_T -> rd (TRDP_ERR_T * TRDP_EXCHG_PAR_T)) next s :
  (forall s, telegram_inv s -> ensures (alloc_entry s) (fun r => telegram_inv (snd r))) ->
  (forall k n i v p p0, same_frame p0 p -> ensures (body k n i v p) (fun r : TRDP_ERR_T * TRDP_EXCHG_PAR_T => same_frame p0 (snd r))) ->
  (forall e p, ensures (sdt e p) (fun r => same_frame p (snd r))) ->
  (forall p s, same_frame (ts_par s) p -> telegram_inv s -> telegram_inv (next p s)) ->
  telegram_inv s ->
  ensures (r ← alloc_entry s; or_return r id (fun s =>
    r ← attrs_of_entry (entry s) body (ts_par s);
    or_return r (fun p => set_ts_par p s) (fun p =>
      r ← sdt (entry s) p;
      or_return r (fun p => set_ts_par p s) (fun p => mret (TRDP_NO_ERR, next p s)))))
    (fun r => telegram_inv (snd r)).
Proof.
  intros Ha Hb Hsdt Hnext Hs. eapply ensures_bind; [by apply Ha|]. intros [err s1] H1. apply ensures_or_return; [done|]. intros _. cbn [snd] in *.
  eapply ensures_bind; [by apply attrs_of_entry_frame|]. intros [err2 p2] H2. apply ensures_or_return; [intros _; by apply same_frame_inv|]. intros _. cbn [snd] in *.
  eapply ensures_bind; [apply Hsdt|]. intros [err3 p3] H3. cbn [snd] in *. assert (H : same_frame (ts_par s1) p3) by (by etrans).
  apply ensures_or_return; [intros _; by apply same_frame_inv|]. intros _. apply ensures_ret. cbn. by apply Hnext.
Qed.

Lemma telegram_item_inv tag s : telegram_inv s -> ensures (telegram_item tag s) (fun r => telegram_inv (snd r)).
Proof.
  intros Hs. assert (Hpar : forall p, same_frame (ts_par s) p -> telegram_inv (set_ts_par p s)) by (intros p H; by apply same_frame_inv).
  unfold telegram_item. destruct (is_tag "md-parameter" tag).
  { apply ensures_skip. intros [|]; [apply ensures_skip; intros m|]; apply ensures_ret; by apply Hpar. }
  destruct (is_tag "pd-parameter" tag).
  { apply ensures_skip. intros [|]; [apply ensures_skip; intros m|]; apply ensures_ret; by apply Hpar. }
  destruct (is_tag "source" tag); [|destruct (is_tag "destination" tag); [|by apply ensures_ret]].
  - apply (read_entry_inv alloc_src ts_pSrc source_attr (read_sdt upd_src set_src_pSdtPar)
      (fun p s => mkTS p (ts_countSrc s) (ts_countDst s) (S <$> ts_pSrc s) (ts_pDest s))); [apply alloc_src_inv|intros; by apply source_attr_frame| | |done].
    + intros e p. apply read_sdt_frame, upd_src_frame.
    + intros p s' H1 H2. exact (same_frame_inv p s' H1 H2).
  - apply (read_entry_inv alloc_dest ts_pDest dest_attr (read_sdt upd_dest set_dst_pSdtPar)
      (fun p s => mkTS p (ts_countSrc s) (ts_countDst s) (ts_pSrc s) (S <$> ts_pDest s))); [apply alloc_dest_inv|intros; by apply dest_attr_frame| | |done].
    + intros e p. apply read_sdt_frame, upd_dest_frame.
    + intros p s' H1 H2. exact (same_frame_inv p s' H1 H2).
Qed.

Lemma telegram_attr_no_entries n i v p : no_entries p -> no_entries (telegram_attr n i v p).
Proof.
  intros H. unfold telegram_attr. repeat match goal with |- no_entries (if ?b then _ else _) => destruct b end; exact H.
Qed.

Lemma readTelegramDef_wf p : no_entries p -> ensures (readTelegramDef p) (fun r => exchg_wf (snd r)).
Proof.
  intros Hp. unfold readTelegramDef. eapply ensures_bind; [apply (ensures_attrs _ no_entries); [intros; by apply telegram_attr_no_entries|done]|].
  intros p1 [[Hs Hsc] [Hd Hdc]]. apply ensures_skip. intros cs. apply ensures_skip. intros cd.
  eapply ensures_bind; [apply (ensures_while_any (fun r => telegram_inv (snd r)))|].
  - intros tag s H. by apply telegram_item_inv.
  - split; [split; cbn; unfold entries; by rewrite ?Hs, ?Hd|done].
  - intros [err s] [H _]. by apply ensures_ret.
Qed.

(** ** An interface *)
Definition list_wf (l : list TRDP_EXCHG_PAR_T) : Prop := Forall exchg_wf l.
(** The telegrams before [idx] have been read, the others are cleared. *)
Definition item_inv (count : Z) (r : TRDP_ERR_T * (nat * if_config)) : Prop :=
  match ic_exchgPar (snd (snd r)) with
  | Some l => Z.of_nat (length l) = count /\ list_wf l /\ (is_ok (fst r) = true -> Forall no_entries (drop (fst (snd r)) l))
  | None => count = 0
  end.

Lemma no_entries_wf p : no_entries p -> exchg_wf p.
Proof. intros [[H1 H2] [H3 H4]]. split; unfold entries; by rewrite ?H1, ?H3. Qed.

Lemma if_item_inv count tag s : 0 < count -> item_inv count (TRDP_NO_ERR, s) -> ensures (if_item count tag s) (item_inv count).
Proof.
  destruct s as [idx c]. intros Hc H0. unfold if_item.
  pose (J := fun c' => ic_exchgPar c' = ic_exchgPar c).
  assert (Hskip : forall {A} (m : rd A) (g : A -> if_config -> if_config) c', J c' -> (forall x, ic_exchgPar (g x c') = ic_exchgPar c') -> forall b : bool,
    ensures (if b then x ← m; mret (g x c') else mret c') J).
  { intros A m g c' Hc' Hg b. destruct b; [|by apply ensures_ret]. apply ensures_skip. intros x. apply ensures_ret. unfold J. by rewrite Hg. }
  eapply ensures_bind; [apply (Hskip _ (attrs pd_com_attr (ic_pd c)) set_ic_pd); done|]. intros c1 H1.
  eapply ensures_bind; [apply (Hskip _ (attrs md_com_attr (ic_md c1)) set_ic_md); done|]. intros c2 H2.
  eapply (ensures_bind _ _ J).
  { destruct (ic_process c2) as [p|]; [|by apply ensures_ret]. apply (Hskip _ (attrs process_attr p) (fun p => set_ic_process (fun _ => p))); done. }
  intros c3 H3. unfold J in H3. destruct ((count >? 0) && (count >? Z.of_nat idx) && is_tag "telegram" tag) eqn:E.
  - apply ensures_skip. intros _. rewrite H3. unfold item_inv in H0. cbn [fst snd is_ok] in H0. destruct (ic_exchgPar c) as [l|]; [|lia]. destruct H0 as (Hl & Hwf & Hno).
    specialize (Hno eq_refl). destruct (l !! idx) as [p|] eqn:Ep; [|apply ensures_undefined].
    assert (no_entries p /\ Forall no_entries (drop (S idx) l)) as [Hp Hrest].
    { rewrite (drop_S _ _ _ Ep) in Hno. by apply list.Forall_cons in Hno. }
    eapply ensures_bind; [by apply readTelegramDef_wf|]. intros [err p'] Hp'. apply ensures_skip. intros _. apply ensures_ret. unfold item_inv.
    assert (Hins : list_wf (<[idx:=p']> l)) by (by apply list.Forall_insert).
    destruct err; cbn [is_ok fst snd set_ic_exchg ic_exchgPar]; rewrite length_insert; split_and!; try done.
    intros _. by rewrite drop_insert_lt by lia.
  - apply ensures_ret. unfold item_inv in *. cbn [fst snd is_ok] in *. rewrite H3. done.
Qed.

(** The number of telegrams is zero or the length of their array. *)
Definition if_inv (r : TRDP_ERR_T * if_config) : Prop :=
  is_ok (fst r) = true -> ic_numExchgPar (snd r) = 0 \/
    exists l, ic_exchgPar (snd r) = Some l /\ ic_numExchgPar (snd r) = Z.of_nat (length l) /\ list_wf l.

Lemma count_range tag : ensures (count tag) (fun c => 0 <= c).
Proof. apply ensures_skip. intros c. apply ensures_ret. unfold u32. apply Z.mod_pos_bound. lia. Qed.

Lemma repeat_wf n : list_wf (repeat zero_exchg n) /\ Forall no_entries (repeat zero_exchg n).
Proof. induction n as [|n [IH1 IH2]]; [split; constructor|]. cbn [repeat]. split; (constructor; [|done]); [by split|by split]. Qed.

Lemma read_bus_interface_inv ifName fc : if_inv (TRDP_NO_ERR, snd fc) -> ensures (read_bus_interface ifName fc) (fun r => if_inv (fst r, snd (snd r))).
Proof.
  destruct fc as [found c]. intros H0. unfold read_bus_interface. apply ensures_skip. intros found'. destruct (negb found'); [by apply ensures_ret|].
  apply ensures_skip. intros _. eapply ensures_bind; [apply count_range|]. intros cnt Hcnt.
  destruct (Z.gtb_spec cnt 0).
  - eapply (ensures_bind _ _ (fun r => is_ok (fst r) = true -> item_inv cnt (TRDP_NO_ERR, (0%nat, snd r)))).
    + apply ensures_skip. intros [|]; apply ensures_ret; cbn [fst is_ok]; [|done]. intros _. unfold item_inv. cbn [fst snd set_ic_exchg ic_exchgPar]. rewrite repeat_length.
      destruct (repeat_wf (Z.to_nat cnt)). rewrite Z2Nat.id by lia. done.
    + intros [err c1] H1. apply ensures_or_return; [intros E; unfold if_inv; cbn [fst snd] in *; congruence|]. intros Eok. cbn [fst snd] in *. specialize (H1 Eok).
      eapply ensures_bind; [apply (ensures_while_any (item_inv cnt)); [intros tag s Hs; by apply if_item_inv; [lia|]|exact H1]|].
      intros [err2 [idx c2]] H2. apply ensures_or_return; [intros E; unfold if_inv; cbn [fst snd] in *; congruence|]. intros _. apply ensures_ret. intros _. right.
      unfold item_inv in H2. cbn [fst snd] in *. destruct (ic_exchgPar c2) as [l|] eqn:El; [|lia]. exists l. cbn [set_ic_num ic_numExchgPar ic_exchgPar].
      destruct H2 as (H2 & H3 & _). by rewrite H2.
  - eapply ensures_bind; [by apply (ensures_ret _ (fun r => fst r = TRDP_NO_ERR))|]. intros [err c1] H1. cbn in H1. subst err. apply ensures_or_return; [done|]. intros _. cbn [fst snd].
    apply ensures_skip. intros [err2 [idx c2]]. apply ensures_or_return; [intros E; unfold if_inv; cbn [fst snd] in *; congruence|]. intros _. apply ensures_ret. intros _. left. cbn in *. lia.
Qed.

Lemma device_item_inv ifName tag c : if_inv (TRDP_NO_ERR, c) -> ensures (device_item ifName tag c) if_inv.
Proof.
  intros H. unfold device_item. destruct (is_tag "bus-interface-list" tag); [|by apply ensures_ret]. apply ensures_skip. intros _.
  eapply ensures_bind; [apply (ensures_while_tag (fun r => if_inv (fst r, snd (snd r)))); [|exact H]|].
  - intros fc Hfc. by apply read_bus_interface_inv.
  - intros [err [found c1]] H1. apply ensures_or_return; [intros _; exact H1|]. intros Eok. apply ensures_skip. intros _. apply ensures_ret.
    cbn [fst snd] in *. destruct err; try done.
Qed.

Lemma tau_readXmlInterfaceConfig_inv ptrs_ok ifName process pd md :
  ensures (tau_readXmlInterfaceConfig ptrs_ok ifName process pd md) (fun r => match snd r with Some c => if_inv (fst r, c) | None => is_ok (fst r) = false end).
Proof.
  unfold tau_readXmlInterfaceConfig. destruct ptrs_ok, ifName, pd, md; try by apply ensures_ret.
  apply ensures_skip. intros _. cbn. apply ensures_skip. intros _. apply ensures_skip. intros d.
  destruct (d =? 0); [|apply ensures_skip; intros _; apply ensures_ret; intros _; by left].
  eapply (ensures_bind _ _ (fun c => ic_numExchgPar c = 0)).
  { destruct process; [|by apply ensures_ret]. apply ensures_skip. intros p. by apply ensures_ret. }
  intros c Hc. apply ensures_skip. intros _. eapply ensures_bind; [apply (ensures_while_any if_inv); [intros; by apply device_item_inv|intros _; by left]|].
  intros [err c1] H1. apply ensures_or_return; [done|]. intros Eok. apply ensures_skip. intros _. apply ensures_skip. intros _. apply ensures_ret.
  cbn [fst snd] in *. by destruct err.
Qed.

(** ** Giving the telegrams back *)

(** The blocks that an array of telegrams holds. *)
Definition dest_of (l : list TRDP_EXCHG_PAR_T) (t i : nat) : option TRDP_DEST_T := p ← l !! t; ds ← ex_pDest p; ds !! i.
Definition src_of (l : list TRDP_EXCHG_PAR_T) (t i : nat) : option TRDP_SRC_T := p ← l !! t; ss ← ex_pSrc p; ss !! i.
Definition holds_block (l : list TRDP_EXCHG_PAR_T) (b : xml_block) : Prop :=
  match b with
  | BlkExchg => True
  | BlkMdPar t => is_Some (p ← l !! t; ex_pMdPar p)
  | BlkPdPar t => is_Some (p ← l !! t; ex_pPdPar p)
  | BlkDests t => is_Some (p ← l !! t; ex_pDest p)
  | BlkDestHost t i => is_Some (d ← dest_of l t i; dst_pUriHost d)
  | BlkDestUser t i => is_Some (d ← dest_of l t i; dst_pUriUser d)
  | BlkDestSdt t i => is_Some (d ← dest_of l t i; dst_pSdtPar d)
  | BlkSrcs t => is_Some (p ← l !! t; ex_pSrc p)
  | BlkSrcHost1 t i => is_Some (d ← src_of l t i; src_pUriHost1 d)
  | BlkSrcHost2 t i => is_Some (d ← src_of l t i; src_pUriHost2 d)
  | BlkSrcUser t i => is_Some (d ← src_of l t i; src_pUriUser d)
  | BlkSrcSdt t i => is_Some (d ← src_of l t i; src_pSdtPar d)
  | BlkMap | BlkDatasets | BlkDataset _ | BlkUnit _ _ => False
  end.

Lemma elem_of_when {A} (p : option A) b b' : b ∈ when p b' <-> b = b' /\ is_Some p.
Proof. unfold when. destruct p; rewrite ?list_elem_of_singleton; split; try done; try (by intros ->); try (by intros [-> _]); [inversion 1|intros [_ [? [=]]]]. Qed.
Lemma NoDup_when {A} (p : option A) b : NoDup (when p b).
Proof. destruct p; cbn; [apply NoDup_singleton|apply NoDup_nil_2]. Qed.

(** The blocks of an array, with those of its entries told apart by their place. *)
Section entries_free.
Context {R : Type} (f : nat -> R -> list xml_block) (place : xml_block -> option nat)
  (Hplace : forall i r b, b ∈ f i r -> place b = Some i) (Hnodup : forall i r, NoDup (f i r)).

Lemma free_entries_all l : forall i, exists bs, free_entries f (length l) i l = Some bs /\ NoDup bs
  /\ forall b, b ∈ bs <-> exists j r, l !! j = Some r /\ b ∈ f (i + j)%nat r.
Proof.
  induction l as [|r l IH]; intros i; cbn [length free_entries].
  - exists []. split_and!; [done|by apply NoDup_nil_2|]. intros b. split; [by inversion 1|intros (j & r & Hj & _); by destruct j].
  - destruct (IH (S i)) as (bs & -> & Hn & Hb). exists (f i r ++ bs). split_and!; [done| |].
    + apply list.NoDup_app. split_and!; [done| |done]. intros b H1 H2. apply Hb in H2 as (j & r' & _ & H2). apply Hplace in H1, H2. rewrite H1 in H2. injection H2. lia.
    + intros b. rewrite elem_of_app, Hb. split.
      * intros [H|(j & r' & Hj & H)]; [exists 0%nat, r; by rewrite Nat.add_0_r|exists (S j), r'; by rewrite Nat.add_succ_r].
      * intros (j & r' & Hj & H). destruct j as [|j]; [left; injection Hj as <-; by rewrite Nat.add_0_r in H|right; exists j, r'; by rewrite Nat.add_succ_r in H].
Qed.

Lemma free_array_all cnt l b0 : entries cnt l -> place b0 = None -> exists bs, free_array f cnt l b0 = Some bs /\ NoDup bs
  /\ forall b, b ∈ bs <-> (b = b0 /\ is_Some l) \/ exists j r, (ss ← l; ss !! j) = Some r /\ b ∈ f j r.
Proof.
  intros He Hb0. unfold entries in He. unfold free_array. destruct l as [l|].
  - destruct He as [-> Hl]. rewrite (proj2 (Z.eqb_neq _ _)), Nat2Z.id by lia. destruct (free_entries_all l 0) as (bs & -> & Hn & Hb).
    exists (bs ++ [b0]). split_and!; [done| |].
    + apply list.NoDup_app. split_and!; [done| |apply NoDup_singleton]. intros b H1 H2. apply list_elem_of_singleton in H2 as ->.
      apply Hb in H1 as (j & r & _ & H1). apply Hplace in H1. congruence.
    + intros b. rewrite elem_of_app, list_elem_of_singleton, Hb. split; [intros [H| ->]; [by right|left; by split]|intros [[-> _]|H]; [by right|by left]].
  - rewrite He. exists []. split_and!; [done|by apply NoDup_nil_2|]. intros b. split; [by inversion 1|]. intros [[_ [? [=]]]|(j & r & [=] & _)].
Qed.
End entries_free.

Definition dest_place (b : xml_block) : option nat :=
  match b with BlkDestHost _ i | BlkDestUser _ i | BlkDestSdt _ i => Some i | _ => None end.
Definition src_place (b : xml_block) : option nat :=
  match b with BlkSrcHost1 _ i | BlkSrcHost2 _ i | BlkSrcUser _ i | BlkSrcSdt _ i => Some i | _ => None end.
Definition telegram_place (b : xml_block) : option nat :=
  match b with
  | BlkMdPar t | BlkPdPar t | BlkDests t | BlkSrcs t | BlkDestHost t _ | BlkDestUser t _ | BlkDestSdt t _
  | BlkSrcHost1 t _ | BlkSrcHost2 t _ | BlkSrcUser t _ | BlkSrcSdt t _ => Some t
  | _ => None
  end.

Lemma elem_of_free_dest t i d b : b ∈ free_dest t i d <->
  (b = BlkDestHost t i /\ is_Some (dst_pUriHost d)) \/ (b = BlkDestUser t i /\ is_Some (dst_pUriUser d)) \/ (b = BlkDestSdt t i /\ is_Some (dst_pSdtPar d)).
Proof. unfold free_dest. by rewrite !elem_of_app, !elem_of_when. Qed.
Lemma elem_of_free_src t i d b : b ∈ free_src t i d <->
  (b = BlkSrcHost1 t i /\ is_Some (src_pUriHost1 d)) \/ (b = BlkSrcHost2 t i /\ is_Some (src_pUriHost2 d))
  \/ (b = BlkSrcUser t i /\ is_Some (src_pUriUser d)) \/ (b = BlkSrcSdt t i /\ is_Some (src_pSdtPar d)).
Proof. unfold free_src. by rewrite !elem_of_app, !elem_of_when. Qed.

Ltac no_dup_blocks := repeat (apply list.NoDup_app; split_and!; [apply NoDup_when|intros ?b ?H1 ?H2; rewrite ?elem_of_app, ?elem_of_when in *; intuition congruence|]); apply NoDup_when.

Lemma free_dest_nodup t i d : NoDup (free_dest t i d).
Proof. unfold free_dest. no_dup_blocks. Qed.
Lemma free_src_nodup t i d : NoDup (free_src t i d).
Proof. unfold free_src. no_dup_blocks. Qed.

Lemma is_Some_bind {A B} (m : option A) (f : A -> option B) : is_Some (m ≫= f) <-> exists x, m = Some x /\ is_Some (f x).
Proof. destruct m as [x|]; cbn; [split; [by exists x|by intros (? & [= <-] & ?)]|split; [by intros []|by intros (? & [=] & _)]]. Qed.

Lemma free_telegram_all t p l : l !! t = Some p -> exchg_wf p -> exists bs, free_telegram t p = Some bs /\ NoDup bs
  /\ forall b, b ∈ bs <-> telegram_place b = Some t /\ holds_block l b.
Proof.
  intros Hp [Hs Hd]. unfold free_telegram.
  destruct (free_array_all (free_dest t) dest_place) with (cnt := ex_destCnt p) (l := ex_pDest p) (b0 := BlkDests t) as (ds & -> & Hdn & Hdb); [|apply free_dest_nodup|done|done|].
  { intros i r b Hb. apply elem_of_free_dest in Hb. by destruct Hb as [[-> _]|[[-> _]|[-> _]]]. }
  destruct (free_array_all (free_src t) src_place) with (cnt := ex_srcCnt p) (l := ex_pSrc p) (b0 := BlkSrcs t) as (ss & -> & Hsn & Hsb); [|apply free_src_nodup|done|done|].
  { intros i r b Hb. apply elem_of_free_src in Hb. by destruct Hb as [[-> _]|[[-> _]|[[-> _]|[-> _]]]]. }
  change (mbind ?f (Some ?y)) with (f y). change (mbind ?f (Some ?y)) with (f y). eexists. split; [done|].
  setoid_rewrite elem_of_free_dest in Hdb. setoid_rewrite elem_of_free_src in Hsb.
  assert (Hdp : forall b, b ∈ ds -> match b with BlkDests _ | BlkDestHost _ _ | BlkDestUser _ _ | BlkDestSdt _ _ => True | _ => False end).
  { intros b Hb. apply Hdb in Hb as [[-> _]|(j & r & _ & [[-> _]|[[-> _]|[-> _]]])]; done. }
  assert (Hsp : forall b, b ∈ ss -> match b with BlkSrcs _ | BlkSrcHost1 _ _ | BlkSrcHost2 _ _ | BlkSrcUser _ _ | BlkSrcSdt _ _ => True | _ => False end).
  { intros b Hb. apply Hsb in Hb as [[-> _]|(j & r & _ & [[-> _]|[[-> _]|[[-> _]|[-> _]]]])]; done. }
  split.
  - repeat (apply list.NoDup_app; split_and!; [by apply NoDup_when || done|intros b H1 H2; rewrite ?elem_of_app, ?elem_of_when in *|]); [| | |done].
    + destruct H1 as [-> _]. destruct H2 as [[[=] _]|[H2|H2]]; [by apply Hdp in H2|by apply Hsp in H2].
    + destruct H1 as [-> _]. destruct H2 as [H2|H2]; [by apply Hdp in H2|by apply Hsp in H2].
    + apply Hdp in H1. apply Hsp in H2. by destruct b.
  - intros b. rewrite !elem_of_app, !elem_of_when, Hdb, Hsb. clear Hdb Hsb Hdp Hsp. unfold holds_block, dest_of, src_of. split.
    + intros [[-> H]|[[-> H]|[[[-> H]|(j & r & Hj & [[-> H]|[[-> H]|[-> H]]])]|[[-> H]|(j & r & Hj & [[-> H]|[[-> H]|[[-> H]|[-> H]]]])]]]];
        cbn [telegram_place]; (split; [done|]); rewrite Hp; change (mbind ?f (Some ?y)) with (f y); cbv beta; rewrite ?Hj; done.
    + intros [Ht H]. destruct b; cbn [telegram_place] in Ht; try done; injection Ht as ->; rewrite Hp in H; change (mbind ?f (Some ?y)) with (f y) in H; cbv beta in H;
        (solve [auto 10] || (apply is_Some_bind in H as (r & Hr & H); eauto 15)).
Qed.

Lemma free_telegrams_all l : list_wf l -> forall l' t, l' = drop t l -> exists bs, free_telegrams (length l') t l' = Some bs /\ NoDup bs
  /\ forall b, b ∈ bs <-> exists j, telegram_place b = Some j /\ (t <= j < length l)%nat /\ holds_block l b.
Proof.
  intros Hwf. induction l' as [|p l' IH]; intros t E; cbn [length free_telegrams].
  - exists []. split_and!; [done|by apply NoDup_nil_2|]. intros b. split; [by inversion 1|]. intros (j & _ & Hj & _).
    apply (f_equal length) in E. rewrite length_drop in E. cbn in E. lia.
  - assert (Hp : l !! t = Some p) by (by rewrite <- (Nat.add_0_r t), <- lookup_drop, <- E).
    assert (E' : l' = drop (S t) l) by (rewrite (drop_S _ _ _ Hp) in E; by injection E).
    destruct (free_telegram_all t p l Hp) as (b1 & -> & Hn1 & Hb1); [by eapply list.Forall_lookup_1|]. destruct (IH (S t) E') as (b2 & Hf & Hn2 & Hb2).
    change (mbind ?f (Some ?y)) with (f y). cbv beta. rewrite Hf. change (mbind ?f (Some ?y)) with (f y). cbv beta. exists (b1 ++ b2). split_and!; [done| |].
    + apply list.NoDup_app. split_and!; [done| |done]. intros b H1 H2. apply Hb1 in H1 as [H1 _]. apply Hb2 in H2 as (j & H2 & Hj & _). rewrite H1 in H2. injection H2. lia.
    + apply lookup_lt_Some in Hp as Hlt. intros b. rewrite elem_of_app, Hb1, Hb2. split.
      * intros [[H1 H2]|(j & H1 & Hj & H2)]; [exists t|exists j]; split_and!; done || lia.
      * intros (j & H1 & Hj & H2). destruct (decide (j = t)) as [->|]; [by left|right]. exists j. split_and!; done || lia.
Qed.

Lemma holds_block_place l b : holds_block l b -> b = BlkExchg \/ exists j, telegram_place b = Some j /\ (j < length l)%nat.
Proof.
  intros H. destruct b; try (by left); try done; right; cbn [telegram_place]; exists t; split; try done; cbn [holds_block] in H; unfold dest_of, src_of in H.
  all: rewrite !is_Some_bind in H; apply lookup_lt_is_Some; destruct (l !! t); [done|]; cbn in H; by destruct H as (? & [=] & _).
Qed.

(** Giving back an array of telegrams: every block it holds, once. *)
Lemma tau_freeTelegrams_all l : list_wf l -> l <> [] -> exists bs, tau_freeTelegrams (Z.of_nat (length l)) (Some l) = Some bs /\ NoDup bs
  /\ forall b, b ∈ bs <-> holds_block l b.
Proof.
  intros Hwf Hl. unfold tau_freeTelegrams. destruct (Z.eqb_spec (Z.of_nat (length l)) 0); [by destruct l|]. rewrite Nat2Z.id.
  destruct (free_telegrams_all l Hwf l 0 eq_refl) as (bs & -> & Hn & Hb). exists (bs ++ [BlkExchg]). split_and!; [done| |].
  - apply list.NoDup_app. split_and!; [done| |apply NoDup_singleton]. intros b H1 H2. apply list_elem_of_singleton in H2 as ->. by apply Hb in H1 as (j & [=] & _).
  - intros b. rewrite elem_of_app, list_elem_of_singleton, Hb. split.
    + by intros [(j & _ & _ & H)| ->].
    + intros H. destruct (holds_block_place _ _ H) as [->|(j & H1 & H2)]; [by right|]. left. exists j. split_and!; done || lia.
Qed.

(** C25: The telegrams of a configuration that was read can be given back, whatever the text and the allocator: no
    block is given back twice, and where a number of telegrams is reported, the blocks given back are exactly those
    the table points to in the end. This is not said of blocks that the table no longer points to: reading a second
    interface of the same name, or an attribute that is repeated, overwrites the pointer to the first block, which
    is then held by nobody. *)
Theorem tau_freeTelegrams_complete ptrs_ok ifName process pd md e c e' :
  tau_readXmlInterfaceConfig ptrs_ok ifName process pd md e = Some ((TRDP_NO_ERR, Some c), e') ->
  exists bs, tau_freeTelegrams (ic_numExchgPar c) (ic_exchgPar c) = Some bs /\ NoDup bs
    /\ (ic_numExchgPar c <> 0 -> forall b, b ∈ bs <-> holds_block (default [] (ic_exchgPar c)) b).
Proof.
  intros H. apply tau_readXmlInterfaceConfig_inv in H. cbn [snd fst] in H. destruct (H eq_refl) as [Hn|(l & Hl & Hn & Hwf)]; cbn [snd] in *.
  - exists []. rewrite Hn. unfold tau_freeTelegrams. split_and!; [by destruct (ic_exchgPar c)|by apply NoDup_nil_2|done].
  - destruct (decide (l = [])) as [->|Hne].
    + exists []. rewrite Hl, Hn. split_and!; [done|by apply NoDup_nil_2|done].
    + destruct (tau_freeTelegrams_all l Hwf Hne) as (bs & Hf & Hnd & Hb). exists bs. rewrite Hl, Hn. split_and!; [done|done|]. intros _. exact Hb.
Qed.

(** ** The user part of an address *)
Lemma strchr_spec c v n : strchr c v = Some n -> exists u w, v = u ++ c :: w /\ length u = n /\ c ∉ u.
Proof.
  revert n. induction v as [|x v IH]; intros n H; [done|]. cbn [strchr] in H. destruct (Z.eqb_spec x c) as [->|Hne].
  - injection H as <-. exists [], v. split_and!; [done|done|by inversion 1].
  - destruct (strchr c v) as [m|] eqn:E; [|done]. cbn in H. injection H as <-. destruct (IH m eq_refl) as (u & w & -> & <- & Hu).
    exists (x :: u), w. split_and!; [done|done|]. rewrite not_elem_of_cons. split; [congruence|done].
Qed.

Lemma copied_user_at v n : strchr 64 v = Some n -> (0 < n <= S TRDP_MAX_URI_USER_LEN)%nat ->
  length (copied_user n v) = S TRDP_MAX_URI_USER_LEN /\ exists u, copied_user n v = 64 :: u.
Proof.
  intros H Hn. destruct (strchr_spec _ _ _ H) as (u & w & -> & Hu & _). unfold copied_user. rewrite drop_app_length' by done. split.
  - rewrite length_app, length_take, length_app, !repeat_length. cbn [length]. lia.
  - destruct n as [|n]; [lia|]. by eexists.
Qed.

(** The two parts of an address with an [@] at [n]. *)
Definition user_part (n : nat) (v : list Z) : list Z := take n v.
Definition host_part (n : nat) (v : list Z) : list Z := drop (S n) v.

(** Reading [user@host] stores the host, but what it stores as the user begins with the [@]. *)
Theorem source_attr_user k v n h p l s : strchr 64 v = Some n -> (0 < n <= S TRDP_MAX_URI_USER_LEN)%nat -> (length v <= 123)%nat ->
  ex_pSrc p = Some l -> l !! k = Some s ->
  exists u, source_attr k (str "uri1") (strtol32 v) v p (mkXmlEnv h [])
    = Some ((TRDP_NO_ERR, set_ex_pSrc (Some (<[k := set_src_pUriHost1 (Some (host_part n v)) (set_src_pUriUser (Some (64 :: u)) s)]> l)) p), mkXmlEnv h [])
  /\ cstr (64 :: u) <> user_part n v.
Proof.
  intros Hv Hn Hlen Hl Hs. destruct (copied_user_at v n Hv Hn) as [_ (u & Hu)]. exists u. split.
  - unfold source_attr. change (is_attr "id" (str "uri1")) with false. change (is_attr "uri1" (str "uri1")) with true. cbv iota.
    unfold read_uri. rewrite Hv. assert (Hk : (k < length l)%nat) by (by eapply lookup_lt_Some).
    assert (Hupd : forall f l s, l !! k = Some s -> upd_src k f (set_ex_pSrc (Some l) p) (mkXmlEnv h []) = Some (set_ex_pSrc (Some (<[k := f s]> l)) p, mkXmlEnv h [])).
    { intros f l' s' Hs'. unfold upd_src. cbn [ex_pSrc set_ex_pSrc]. by rewrite (run_bind _ _ _ _ _ (run_store_at _ _ _ _ _ Hs')). }
    assert (Hp : set_ex_pSrc (Some l) p = p) by (rewrite <- Hl; by destruct p).
    assert (Hr : (ok ← alloc (Z.of_nat (S TRDP_MAX_URI_USER_LEN));
      if ok : bool then if (S TRDP_MAX_URI_USER_LEN <? n)%nat then undefined
        else p ← upd_src k (set_src_pUriUser (Some (copied_user n v))) p; mret (TRDP_NO_ERR, (p, drop (S n) v))
      else p ← upd_src k (set_src_pUriUser None) p; mret (TRDP_MEM_ERR, (p, []))) (mkXmlEnv h [])
      = Some ((TRDP_NO_ERR, (set_ex_pSrc (Some (<[k := set_src_pUriUser (Some (64 :: u)) s]> l)) p, drop (S n) v)), mkXmlEnv h [])).
    { rewrite (run_bind _ _ _ _ _ (run_alloc (Z.of_nat (S TRDP_MAX_URI_USER_LEN)) _ ltac:(done))), (proj2 (Nat.ltb_ge _ _)), Hu by lia. rewrite <- Hp at 1. by rewrite (run_bind _ _ _ _ _ (Hupd _ _ _ Hs)). }
    rewrite (run_bind _ _ _ _ _ Hr). unfold or_return. cbn [fst snd is_ok].
    rewrite (run_bind _ _ _ _ _ (run_alloc (Z.of_nat (length (drop (S n) v)) + 1) _ ltac:(rewrite length_drop, u32_small; lia))).
    rewrite (run_bind _ _ _ _ _ (Hupd _ _ _ (list_lookup_insert_eq _ _ _ Hk))). by rewrite list_insert_insert_eq.
  - unfold user_part. intros Hw. destruct (strchr_spec _ _ _ Hv) as (a & b & -> & Ha & Hna). rewrite take_app_length' in Hw by done. cbn in Hw.
    destruct a as [|x a]; [cbn in Ha; lia|]. cbn in Hw. injection Hw as Hx _. apply Hna. rewrite Hx. left.
Qed.

Lemma source_attr_user_witness :
  strchr 64 (str "user@host") = Some 4%nat /\
  exists u, source_attr 0 (str "uri1") (strtol32 (str "user@host")) (str "user@host") (set_ex_pSrc (Some [zero_src]) zero_exchg) (mkXmlEnv (mkXml None [] 0 0 [] TRDP_NO_ERR) [])
    = Some ((TRDP_NO_ERR, set_ex_pSrc (Some (<[0%nat := set_src_pUriHost1 (Some (host_part 4 (str "user@host"))) (set_src_pUriUser (Some (64 :: u)) zero_src)]> [zero_src]))
                (set_ex_pSrc (Some [zero_src]) zero_exchg)), mkXmlEnv (mkXml None [] 0 0 [] TRDP_NO_ERR) [])
    /\ cstr (64 :: u) <> user_part 4 (str "user@host").
Proof.
  split; [vm_compute; reflexivity|].
  apply (source_attr_user 0 (str "user@host") 4); [vm_compute; reflexivity|unfold TRDP_MAX_URI_USER_LEN; lia|vm_compute; lia|reflexivity|reflexivity].
Defined.

(** ** The classes of memory blocks *)

(** The class of [prealloc] that counts the blocks of a size. *)
Definition class_of (size : Z) : option nat := find_slot size mem_list 0.

(** From 256 bytes on, the number of blocks of a size goes to the class below: its blocks are too small. *)
Theorem mem_block_class j size : VOS_MEM_BLOCKSIZES !! j = Some size -> (4 <= j)%nat ->
  class_of size = Some (j - 1)%nat /\ nth (j - 1) VOS_MEM_BLOCKSIZES 0 < size.
Proof.
  intros H Hj. do 15 (destruct j as [|j]; [try lia; injection H as <-; vm_compute; done|]). done.
Qed.

Lemma mem_block_class_witness : VOS_MEM_BLOCKSIZES !! 4%nat = Some 256 /\ class_of 256 = Some 3%nat /\ nth 3 VOS_MEM_BLOCKSIZES 0 < 256.
Proof. split; [reflexivity|]. apply (mem_block_class 4 256); [reflexivity|lia]. Defined.

(** A size above the largest runs behind the list. *)
Lemma mem_block_too_large size : size > 131072 -> class_of size = None.
Proof.
  intros H. unfold class_of, mem_list. cbn [find_slot]. repeat (rewrite (proj2 (Z.gtb_lt _ _)) by lia). done.
Qed.

(** An interface and its telegrams, read and given back. *)
Lemma tau_freeTelegrams_complete_witness :
  exists bs, tau_freeTelegrams 1 (Some [set_ex_comId 7 zero_exchg]) = Some bs /\ NoDup bs
    /\ (1 <> 0 -> forall b, b ∈ bs <-> holds_block [set_ex_comId 7 zero_exchg] b).
Proof.
  pose (T := str "<device><bus-interface-list><bus-interface name=a><telegram com-id=7></telegram></bus-interface></bus-interface-list></device>").
  pose (e := mkXmlEnv (snd (trdp_XMLOpen (Some (mkFile T true (T, false))) (mkXml None [] 0 0 [] TRDP_NO_ERR))) []).
  pose (r := tau_readXmlInterfaceConfig true (Some (str "a")) None (Some default_pd) (Some (default_md (mkMdCfg None 0 0 0 0 0 0 0 0 0 0 0 0))) e).
  pose (c := match r with Some ((_, Some c), _) => c | _ => mkIfState None default_pd (default_md (mkMdCfg None 0 0 0 0 0 0 0 0 0 0 0 0)) 0 None end).
  pose (e' := match r with Some (_, e') => e' | None => e end).
  assert (Hr : r = Some ((TRDP_NO_ERR, Some c), e')) by (vm_compute; reflexivity).
  exact (tau_freeTelegrams_complete true (Some (str "a")) None (Some default_pd) (Some (default_md (mkMdCfg None 0 0 0 0 0 0 0 0 0 0 0 0))) e c e' Hr).
Defined.

(** ** The document *)

(** A document that was opened can be given back. One whose file does not exist cannot: its handle stays
    allocated, and [tau_freeXmlDoc] closes a file that was never opened. *)
Theorem tau_prepareXmlDoc_free open alloc_ok name doc_ok err h : tau_prepareXmlDoc open alloc_ok (Some name) doc_ok = (err, Some h) ->
  match open name with
  | Some _ => err = TRDP_NO_ERR /\ tau_freeXmlDoc (Some (Some h)) = Some None
  | None => err = TRDP_PARAM_ERR /\ tau_freeXmlDoc (Some (Some h)) = None
  end.
Proof.
  unfold tau_prepareXmlDoc. destruct name as [|c name]; [done|]. destruct doc_ok, alloc_ok; try done. cbn [negb].
  unfold trdp_XMLOpen. by destruct (open (c :: name)) as [f|]; intros [= <- <-].
Qed.

Lemma tau_prepareXmlDoc_free_witness : TRDP_PARAM_ERR = TRDP_PARAM_ERR /\ tau_freeXmlDoc (Some (Some (mkXml None [] 0 0 [] TRDP_NO_ERR))) = None.
Proof. apply (tau_prepareXmlDoc_free (fun _ => None) true [120] true TRDP_PARAM_ERR). reflexivity. Defined.
