(* ===== verification/TrdpIf.v ===== *)
(** * The programming interface of the stack

    Models the part of src/app/trdp/tcnopen/trdp_if.c that serves process data: the sessions and
    the functions tlc_* and tlp_*. The static variables of trdp_if.c, and [sCurrentMaxSocketCnt]
    of trdp_utils.c, form the state [TRDP_STACK]; a session handle is its pointer. Each function
    of the interface is a wrapper that checks the handle and takes the session's mutex around a
    function on the session (suffix [_in]) that carries the body. The mutexes are recursive, so
    the nested calls of the code ([tlp_put] in [tlp_publish]) are calls of the inner function.
    A publisher or subscriber handle is looked up in the queues; a handle of no queue is one that
    was released, whose [magic] the code has cleared. Handles are used with their own session. *)
From S2P Require Import Prelude Bytes VosTime TrdpTypes TrdpUtils TrdpPd TrdpSockets.

Definition TRDP_PD_DEFAULT_QOS : Z := 5.
Definition TRDP_PD_DEFAULT_TTL : Z := 64.
Definition TRDP_PD_DEFAULT_TIMEOUT : Z := 100000.
Definition TRDP_PD_UDP_PORT : Z := 17224.
Definition TRDP_MC_JOINT : Z := 0x1.

Record TRDP_STACK := mkStack {
  sInited : bool;
  sSession : list (Z * TRDP_SESSION_T);
  sCurrentMaxSocketCnt : Z }.

(** What a call finds around it: the results of locking the session list and the session, the
    memory allocator's answers for a queue element and for a frame, the sockets and the clock,
    and the value of memory the code leaves uninitialised. *)
Record if_env := mkIfEnv {
  if_sessionLock : TRDP_ERR_T;
  if_lock : TRDP_ERR_T;
  if_elem : option Z;
  if_frame : bool;
  if_sock : sock_env;
  if_word : Z }.

(** Message data (trdp_mdcom.c), as far as the work loop calls it, and what [tlc_closeSession] does to its queues. *)
Class MdLayer := {
  trdp_mdCheckPending : TRDP_SESSION_T -> gset Z * Z -> TRDP_SESSION_T * (gset Z * Z);
  trdp_mdSend : TRDP_SESSION_T -> TRDP_ERR_T * TRDP_SESSION_T;
  trdp_mdCheckListenSocks : TRDP_SESSION_T -> option (gset Z) -> option Z
                            -> TRDP_SESSION_T * option (gset Z) * option Z;
  trdp_mdCheckTimeouts : TRDP_SESSION_T -> TRDP_SESSION_T;
  trdp_mdClose : sock_env -> TRDP_SESSION_T -> TRDP_SESSION_T }.

(** What process data relies on: message data keeps off its queues, and has a next job of its own
    only if that is earlier. *)
Class MdLaws `{MdLayer} := {
  md_pending_queues s fds : pSndQueue (fst (trdp_mdCheckPending s fds)) = pSndQueue s
                            /\ pRcvQueue (fst (trdp_mdCheckPending s fds)) = pRcvQueue s;
  md_pending_nextJob s fds :
    let t := nextJob (fst (trdp_mdCheckPending s fds)) in
    t = nextJob s \/ (time_ok t /\ timerisset t = true /\ earlier t (nextJob s) = true);
  md_send_queues s : pSndQueue (snd (trdp_mdSend s)) = pSndQueue s
                     /\ pRcvQueue (snd (trdp_mdSend s)) = pRcvQueue s }.

(** ** Sessions *)
Definition find_session (st : TRDP_STACK) (h : Z) : option TRDP_SESSION_T :=
  snd <$> find (fun p => fst p =? h) (sSession st).

Definition put_session (h : Z) (s : TRDP_SESSION_T) (st : TRDP_STACK) : TRDP_STACK :=
  mkStack (sInited st) (map (fun p => if fst p =? h then (h, s) else p) (sSession st))
          (sCurrentMaxSocketCnt st).

Definition set_maxSocket (n : Z) (st : TRDP_STACK) : TRDP_STACK :=
  mkStack (sInited st) (sSession st) n.

Definition trdp_isValidSession (env : if_env) (st : TRDP_STACK) (pSessionHandle : option Z) : bool :=
  match pSessionHandle with
  | None => false
  | Some h => is_ok (if_sessionLock env) && existsb (fun p => fst p =? h) (sSession st)
  end.

(** [trdp_sessionQueue]: the sessions in the order of the list. *)
Definition trdp_sessionQueue (st : TRDP_STACK) : list TRDP_SESSION_T := map snd (sSession st).

Definition tlc_getOwnIpAddress (st : TRDP_STACK) (h : option Z) : Z :=
  match h with None => 0 | Some h => match find_session st h with Some s => realIP s | None => 0 end end.

(** A function of the interface: the handle is checked, the mutex taken ([nolock] is returned when
    it is not available), [f] works on the session and the number of sockets. *)
Definition with_session {A} (env : if_env) (nolock : TRDP_ERR_T) (h : option Z) (st : TRDP_STACK) (dflt : A)
    (f : TRDP_SESSION_T -> Z -> TRDP_ERR_T * TRDP_SESSION_T * Z * A) : TRDP_ERR_T * TRDP_STACK * A :=
  match h with
  | Some h =>
      match (if trdp_isValidSession env st (Some h) then find_session st h else None) with
      | None => (TRDP_NOINIT_ERR, st, dflt)
      | Some s =>
          if negb (is_ok (if_lock env)) then (nolock, st, dflt)
          else
            let '(err, s', n, a) := f s (sCurrentMaxSocketCnt st) in
            (err, set_maxSocket n (put_session h s' st), a)
      end
  | None => (TRDP_NOINIT_ERR, st, dflt)
  end.

(** [tlc_init]: the results of [vos_init], [vos_memInit] and [vos_mutexCreate] are arguments. *)
Definition tlc_init (vos_init vos_memInit vos_mutexCreate : TRDP_ERR_T) (st : TRDP_STACK)
  : TRDP_ERR_T * TRDP_STACK :=
  if sInited st then (TRDP_INIT_ERR, st)
  else
    let ret := if negb (is_ok vos_init) then vos_init
               else if negb (is_ok vos_memInit) then vos_memInit else vos_mutexCreate in
    (ret, if is_ok ret then mkStack true (sSession st) (sCurrentMaxSocketCnt st) else st).

(** The process data part of [tlc_configSession]: [options] are those of [pProcessConfig]. *)
Definition config_pd (d : TRDP_PD_CONFIG_T) (c : TRDP_PD_CONFIG_T) : TRDP_PD_CONFIG_T :=
  mkPdCfg
    (match pd_cbFunction d with None => pd_cbFunction c | Some f => Some f end)
    (if pd_refCon d =? 0 then pd_refCon c else pd_refCon d)
    (if (pd_sendQos d =? TRDP_PD_DEFAULT_QOS) && negb (pd_sendQos c =? 0) then pd_sendQos c else pd_sendQos d)
    (if (pd_sendTtl d =? TRDP_PD_DEFAULT_TTL) && negb (pd_sendTtl c =? 0) then pd_sendTtl c else pd_sendTtl d)
    (if negb (pd_flags c =? TRDP_FLAGS_DEFAULT) && negb (flag (pd_flags c) TRDP_FLAGS_NONE)
     then set_flag (pd_flags d) (pd_flags c) else pd_flags d)
    (if (pd_timeout d =? TRDP_PD_DEFAULT_TIMEOUT) && negb (pd_timeout c =? 0) then pd_timeout c else pd_timeout d)
    (if bool_decide (pd_toBehavior d = TRDP_TO_DEFAULT) then pd_toBehavior c else pd_toBehavior d)
    (if (pd_port d =? TRDP_PD_UDP_PORT) && negb (pd_port c =? 0) then pd_port c else pd_port d).

Definition tlc_configSession (pMarshall : option (option TRDP_MARSHALL_T * option TRDP_MARSHALL_T))
    (pPdDefault : option TRDP_PD_CONFIG_T) (options : option Z) (s : TRDP_SESSION_T) : TRDP_SESSION_T :=
  let s1 := match options with Some o => set_option_ o s | None => s end in
  let s2 := match pMarshall with
            | Some (m, u) => set_pfCbUnmarshall u (set_pfCbMarshall m s1)
            | None => s1
            end in
  match pPdDefault with
  | Some c => set_pdDefault (config_pd (pdDefault s2) c) s2
  | None => s2
  end.

(** A new session, all of whose members are zero but those [tlc_openSession] sets. *)
Definition default_pd : TRDP_PD_CONFIG_T :=
  mkPdCfg None 0 TRDP_PD_DEFAULT_QOS TRDP_PD_DEFAULT_TTL TRDP_FLAGS_NONE TRDP_PD_DEFAULT_TIMEOUT
          TRDP_TO_SET_TO_ZERO TRDP_PD_UDP_PORT.

Definition fresh_session (ownIpAddr : Z) : TRDP_SESSION_T :=
  mkSession ownIpAddr 0 0 zero_time default_pd 0 (repeat zero_sock (Z.to_nat VOS_MAX_SOCKET_CNT))
    None None [] [] [] (mkPdStat 0 0 0 0 0 0 0 0).

(** [pSession] is the allocator's answer for the session, [mutex] the result of creating its mutex.
    The handle is returned where it is written; [pAppHandle] is whether there is room for it. *)
Definition tlc_openSession (env : if_env) (pAppHandle : bool) (pSession : option Z) (mutex : TRDP_ERR_T) (ownIpAddr : Z)
    (pMarshall : option (option TRDP_MARSHALL_T * option TRDP_MARSHALL_T))
    (pPdDefault : option TRDP_PD_CONFIG_T) (options : option Z) (st : TRDP_STACK)
  : TRDP_ERR_T * TRDP_STACK * option Z :=
  if negb pAppHandle then (TRDP_PARAM_ERR, st, None)
  else if negb (sInited st) then (TRDP_INIT_ERR, st, None)
  else match pSession with
  | None => (TRDP_MEM_ERR, st, None)
  | Some h =>
      let s1 := tlc_configSession pMarshall pPdDefault options (fresh_session ownIpAddr) in
      if negb (is_ok mutex) then (mutex, st, None)
      else if negb (if_frame env) then (TRDP_MEM_ERR, st, None)
      else
        let s2 := set_iface (trdp_initSockets (iface s1)) (set_nextJob timerclear s1) in
        let s3 := set_pNewFrame (repeat 0 (Z.to_nat TRDP_MAX_PD_PACKET_SIZE)) s2 in
        if negb (is_ok (if_sessionLock env)) then (if_sessionLock env, st, None)
        else (TRDP_NO_ERR, mkStack (sInited st) ((h, s3) :: sSession st) (sCurrentMaxSocketCnt st), Some h)
  end.

Section Close.
Context `{MdLayer}.

(** Releasing the sockets of the queues: those of the send queue twice, as the code does; then those of message data. *)
Definition close_in (env : if_env) (s : TRDP_SESSION_T) : list TRDP_SOCKETS_T :=
  let rel i ifc := trdp_releaseSocket (if_sock env) ifc i 0 false in
  let ifc1 := fold_left (fun ifc e => rel (socketIdx e) (rel (socketIdx e) ifc)) (pSndQueue s) (iface s) in
  let ifc2 := fold_left (fun ifc e => rel (socketIdx e) ifc) (pRcvQueue s) ifc1 in
  iface (trdp_mdClose (if_sock env) (set_iface ifc2 s)).

(** Result, state, and the socket pool the closed session leaves behind. *)
Definition tlc_closeSession (env : if_env) (h : option Z) (st : TRDP_STACK)
  : TRDP_ERR_T * TRDP_STACK * option (list TRDP_SOCKETS_T) :=
  match h with
  | None => (TRDP_PARAM_ERR, st, None)
  | Some h =>
      if negb (is_ok (if_sessionLock env)) then (if_sessionLock env, st, None)
      else match find_session st h with
      | None => (TRDP_NO_ERR, st, None)
      | Some s =>
          let st' := mkStack (sInited st) (filter (fun p => fst p <> h) (sSession st)) (sCurrentMaxSocketCnt st) in
          (if_lock env, st', if is_ok (if_lock env) then Some (close_in env s) else None)
      end
  end.

(** [while (sSession != NULL)]: [None] when [n] rounds do not suffice. *)
Fixpoint terminate_loop (env : if_env) (n : nat) (ret : TRDP_ERR_T) (st : TRDP_STACK)
  : option (TRDP_ERR_T * TRDP_STACK) :=
  match sSession st with
  | [] => Some (ret, st)
  | (h, _) :: _ =>
      match n with
      | O => None
      | S n' =>
          let '(err, st', _) := tlc_closeSession env (Some h) st in
          terminate_loop env n' (if is_ok err then ret else err) st'
      end
  end.

Definition tlc_terminate (env : if_env) (n : nat) (st : TRDP_STACK) : option (TRDP_ERR_T * TRDP_STACK) :=
  if sInited st then
    match terminate_loop env n TRDP_NO_ERR st with
    | Some (ret, st') => Some (ret, mkStack false (sSession st') (sCurrentMaxSocketCnt st'))
    | None => None
    end
  else Some (TRDP_NOINIT_ERR, st).
End Close.

(** The multicast groups are joined again; the last result is returned. *)
Definition reinit_in (env : if_env) (s : TRDP_SESSION_T) : TRDP_ERR_T :=
  fold_left (fun ret e =>
    if flag (privFlags e) TRDP_MC_JOINT && negb (socketIdx e =? -1)
    then match iface s !! Z.to_nat (socketIdx e) with
         | Some k => vos_sockJoinMC (if_sock env) (sock k) (mcGroup (addr e)) (realIP s)
         | None => ret
         end
    else ret) (pRcvQueue s) TRDP_NO_ERR.

Definition tlc_reinitSession (env : if_env) (h : option Z) (st : TRDP_STACK) : TRDP_ERR_T * TRDP_STACK :=
  fst (with_session env (if_lock env) h st tt (fun s n => (reinit_in env s, s, n, tt))).

(** ** Redundancy and topography counters *)
Definition red_matches (redId_ : Z) (e : PD_ELE_T) : bool :=
  (redId e =? redId_) || (negb (redId e =? 0) && (0 =? redId_)).

Definition set_leader (leader : bool) (e : PD_ELE_T) : PD_ELE_T :=
  set_privFlags (if leader then clear_flag (privFlags e) TRDP_REDUNDANT
                 else set_flag (privFlags e) TRDP_REDUNDANT) e.

Definition setRedundant_in (redId_ : Z) (leader : bool) (s : TRDP_SESSION_T) : TRDP_ERR_T * TRDP_SESSION_T :=
  (if existsb (red_matches redId_) (pSndQueue s) then TRDP_NO_ERR else TRDP_PARAM_ERR,
   set_pSndQueue (map (fun e => if red_matches redId_ e then set_leader leader e else e) (pSndQueue s)) s).

Definition tlp_setRedundant (env : if_env) (h : option Z) (redId_ : Z) (leader : bool) (st : TRDP_STACK)
  : TRDP_ERR_T * TRDP_STACK :=
  fst (with_session env (if_lock env) h st tt
         (fun s n => let '(err, s') := setRedundant_in redId_ leader s in (err, s', n, tt))).

(** [*pLeader] where it is written. *)
Definition getRedundant_in (redId_ : Z) (s : TRDP_SESSION_T) : option bool :=
  (fun e => negb (flag (privFlags e) TRDP_REDUNDANT)) <$> find (fun e => redId e =? redId_) (pSndQueue s).

Definition tlp_getRedundant (env : if_env) (h : option Z) (redId_ : Z) (pLeader : bool) (st : TRDP_STACK)
  : TRDP_ERR_T * TRDP_STACK * option bool :=
  if negb pLeader then (TRDP_PARAM_ERR, st, None)
  else with_session env (if_lock env) h st None
         (fun s n => (TRDP_NO_ERR, s, n, getRedundant_in redId_ s)).

Definition tlc_setETBTopoCount (env : if_env) (h : option Z) (etb : Z) (st : TRDP_STACK)
  : TRDP_ERR_T * TRDP_STACK :=
  fst (with_session env (if_lock env) h st tt (fun s n => (TRDP_NO_ERR, set_s_etbTopoCnt etb s, n, tt))).
Definition tlc_setOpTrainTopoCount (env : if_env) (h : option Z) (op : Z) (st : TRDP_STACK)
  : TRDP_ERR_T * TRDP_STACK :=
  fst (with_session env (if_lock env) h st tt (fun s n => (TRDP_NO_ERR, set_s_opTrnTopoCnt op s, n, tt))).
Definition tlc_getETBTopoCount (env : if_env) (h : option Z) (st : TRDP_STACK) : Z :=
  if trdp_isValidSession env st h then from_option s_etbTopoCnt 0 (h ≫= find_session st) else 0.
Definition tlc_getOpTrainTopoCount (env : if_env) (h : option Z) (st : TRDP_STACK) : Z :=
  if trdp_isValidSession env st h then from_option s_opTrnTopoCnt 0 (h ≫= find_session st) else 0.

(** ** Publishing *)

(** [magic] of the element a handle refers to. *)
Definition handle_magic (p : Z) (st : TRDP_STACK) : Z :=
  match find_ele p (concat (map (fun s => pSndQueue s ++ pRcvQueue s) (trdp_sessionQueue st))) with
  | Some e => magic e
  | None => 0
  end.

(** The request for a socket, [params] being [pSendParam]: [qos] and [ttl]. *)
Definition pd_socket (s : TRDP_SESSION_T) (params : option (Z * Z)) (srcIP mcGroup : Z) (rcvMostly : bool)
  : sock_request :=
  let '(q, t) := default (pd_sendQos (pdDefault s), pd_sendTtl (pdDefault s)) params in
  mkReq (pd_port (pdDefault s)) q t srcIP mcGroup TRDP_SOCK_PD (option_ s) rcvMostly VOS_INVALID_SOCKET 0.

Definition pub_group (destIpAddr : Z) : Z := if vos_isMulticast destIpAddr then destIpAddr else 0.

(** The interval and the first send time of a publisher. *)
Definition first_send (now : TRDP_TIME_T) (comId_ interval_ : Z) (e : PD_ELE_T) : PD_ELE_T :=
  if interval_ =? 0 then set_timeToGo timerclear (set_interval timerclear e)
  else set_timeToGo (mkTime (s64 (tv_sec now + (2 + comId_ mod 128 / 100))) (comId_ mod 100 * 10000))
         (set_interval (mkTime (interval_ / 1000000) (interval_ mod 1000000)) e).

(** [pktFlags] or the session's default. *)
Definition pd_pktFlags (s : TRDP_SESSION_T) (pktFlags_ : Z) : Z :=
  if pktFlags_ =? TRDP_FLAGS_DEFAULT then pd_flags (pdDefault s) else pktFlags_.

(** [trdp_pdPut] on the element of a handle. *)
Definition put_in (env : if_env) (p : Z) (pData : option (list Z)) (n : Z) (s : TRDP_SESSION_T)
  : TRDP_ERR_T * TRDP_SESSION_T :=
  let '(err, e') := trdp_pdPut (if_frame env) (pfCbMarshall s) pData n (find_ele p (pSndQueue s)) in
  (err, match e' with
        | Some e' => set_pSndQueue (update_ele p (fun _ => e') (pSndQueue s)) s
        | None => s
        end).

(** [trdp_pdDistribute] on the send queue where traffic shaping is on. *)
Definition shape_in (s : TRDP_SESSION_T) : TRDP_ERR_T * TRDP_SESSION_T :=
  if flag (option_ s) TRDP_OPTION_TRAFFIC_SHAPING then
    let '(err, q) := trdp_pdDistribute (pSndQueue s) in (err, set_pSndQueue q s)
  else (TRDP_NO_ERR, s).

Record pub_args := mkPub {
  p_comId : Z; p_etbTopoCnt : Z; p_opTrnTopoCnt : Z; p_srcIpAddr : Z; p_destIpAddr : Z;
  p_interval : Z; p_redId : Z; p_pktFlags : Z; p_sendParam : option (Z * Z);
  p_data : option (list Z); p_dataSize : Z }.

Definition pub_src (a : pub_args) (s : TRDP_SESSION_T) : Z :=
  if p_srcIpAddr a =? 0 then realIP s else p_srcIpAddr a.

(** [pubHandle]; its topography counters are not initialised. *)
Definition pub_addr (env : if_env) (a : pub_args) (s : TRDP_SESSION_T) : TRDP_ADDRESSES_T :=
  mkAddr (p_comId a) (pub_src a s) (p_destIpAddr a) (pub_group (p_destIpAddr a)) (if_word env) (if_word env).

(** The new element, once it has its socket. *)
Definition pub_ele (env : if_env) (sessions : list TRDP_SESSION_T) (a : pub_args) (s : TRDP_SESSION_T)
    (p idx : Z) : PD_ELE_T :=
  let seq t := u32 (trdp_getSeqCnt sessions (p_comId a) t (pub_src a s) - 1) in
  let gross := trdp_packetSizePD (p_dataSize a) in
  let e0 := set_grossSize gross (set_dataSize (p_dataSize a)
              (set_privFlags (set_flag 0 TRDP_INVALID_DATA) (zero_ele p))) in
  let e1 := set_pFrame (repeat 0 (Z.to_nat gross)) (set_socketIdx idx e0) in
  let e2 := first_send (vos_getTime (if_sock env)) (p_comId a) (p_interval a) e1 in
  let e3 := set_magic TRDP_MAGIC_PUB_HNDL_VALUE (set_redId (p_redId a)
              (set_pktFlags (pd_pktFlags s (p_pktFlags a)) (set_addr (pub_addr env a s) e2))) in
  let e4 := set_curSeqCnt4Pull (seq TRDP_MSG_PP) (set_curSeqCnt (seq TRDP_MSG_PD) e3) in
  let follower := negb (p_redId a =? 0)
                  && match getRedundant_in (p_redId a) s with Some l => negb l | None => false end in
  let e5 := if follower then set_privFlags (set_flag (privFlags e4) TRDP_REDUNDANT) e4 else e4 in
  default e5 (trdp_pdInit TRDP_MSG_PD (p_etbTopoCnt a) (p_opTrnTopoCnt a) 0 0 (Some e5)).

Definition publish_in (env : if_env) (sessions : list TRDP_SESSION_T) (a : pub_args)
    (s : TRDP_SESSION_T) (n : Z) : TRDP_ERR_T * TRDP_SESSION_T * Z * option Z :=
  match trdp_queueFindPubAddr (pSndQueue s) (Some (pub_addr env a s)) with
  | Some _ => (TRDP_NOPUB_ERR, s, n, None)
  | None =>
      match if_elem env with
      | None => (TRDP_MEM_ERR, s, n, None)
      | Some p =>
          let '(ret, idx, ifc, n') :=
            trdp_requestSocket (if_sock env) (pd_socket s (p_sendParam a) (pub_src a s) 0 false) (iface s) n in
          let s1 := set_iface ifc s in
          if negb (is_ok ret) then (ret, s1, n', None)
          else if negb (if_frame env) then (TRDP_NO_ERR, s1, n', None)
          else
            let e := pub_ele env sessions a s1 p (default 0 idx) in
            let s2 := set_pSndQueue (trdp_queueAppLast (pSndQueue s1) (Some e)) s1 in
            let '(ret, s3) := if p_dataSize a =? 0 then (TRDP_NO_ERR, s2)
                              else put_in env p (p_data a) (p_dataSize a) s2 in
            let '(ret, s4) := if is_ok ret then shape_in s3 else (ret, s3) in
            (ret, s4, n', Some p)
      end
  end.

Definition tlp_publish (env : if_env) (h : option Z) (pPubHandle : bool) (a : pub_args) (st : TRDP_STACK)
  : TRDP_ERR_T * TRDP_STACK * option Z :=
  if (negb (p_interval a =? 0) && (p_interval a <? TRDP_TIMER_GRANULARITY)) || negb pPubHandle
  then (TRDP_PARAM_ERR, st, None)
  else with_session env (if_lock env) h st None (publish_in env (trdp_sessionQueue st) a).

Definition republish_in (p etb op src dest : Z) (s : TRDP_SESSION_T) : TRDP_SESSION_T :=
  set_pSndQueue (update_ele p (fun e =>
    let e1 := set_addr (mkAddr (a_comId e) src dest (pub_group dest) etb op) e in
    default e1 (trdp_pdInit TRDP_MSG_PD etb op 0 0 (Some e1))) (pSndQueue s)) s.

Definition tlp_republish (env : if_env) (h : option Z) (p etb op src dest : Z) (st : TRDP_STACK)
  : TRDP_ERR_T * TRDP_STACK :=
  if negb (trdp_isValidSession env st h) then (TRDP_NOINIT_ERR, st)
  else if negb (handle_magic p st =? TRDP_MAGIC_PUB_HNDL_VALUE) then (TRDP_NOSUB_ERR, st)
  else fst (with_session env TRDP_NOINIT_ERR h st tt
              (fun s n => (TRDP_NO_ERR, republish_in p etb op src dest s, n, tt))).

(** The element is taken out of its queue and its socket released. *)
Definition unpublish_in (env : if_env) (p : Z) (s : TRDP_SESSION_T) : TRDP_ERR_T * TRDP_SESSION_T :=
  match find_ele p (pSndQueue s) with
  | None => (TRDP_NO_ERR, s)
  | Some e =>
      shape_in (set_iface (trdp_releaseSocket (if_sock env) (iface s) (socketIdx e) 0 false)
                  (set_pSndQueue (trdp_queueDelElement (pSndQueue s) (Some p)) s))
  end.

Definition tlp_unpublish (env : if_env) (h : option Z) (pubHandle : option Z) (st : TRDP_STACK)
  : TRDP_ERR_T * TRDP_STACK :=
  match pubHandle with
  | None => (TRDP_PARAM_ERR, st)
  | Some p =>
      if negb (handle_magic p st =? TRDP_MAGIC_PUB_HNDL_VALUE) then (TRDP_NOPUB_ERR, st)
      else fst (with_session env (if_lock env) h st tt
                  (fun s n => let '(err, s') := unpublish_in env p s in (err, s', n, tt)))
  end.

Definition tlp_put (env : if_env) (h : option Z) (pubHandle : option Z) (pData : option (list Z))
    (dataSize_ : Z) (st : TRDP_STACK) : TRDP_ERR_T * TRDP_STACK :=
  match pubHandle with
  | None => (TRDP_PARAM_ERR, st)
  | Some p =>
      if negb (handle_magic p st =? TRDP_MAGIC_PUB_HNDL_VALUE) then (TRDP_NOPUB_ERR, st)
      else fst (with_session env (if_lock env) h st tt
                  (fun s n => let '(err, s') := put_in env p pData dataSize_ s in (err, s', n, tt)))
  end.

(** ** The work loop *)

(** The time until the next job. *)
Definition job_interval (now : TRDP_TIME_T) (next : TRDP_TIME_T) : TRDP_TIME_T :=
  if timerisset next && timer_lt now next then subTime next now
  else if timerisset next then mkTime 0 0 else mkTime 1000 0.

Section Work.
Context `{MdLayer}.

(** The session's [nextJob] holds the interval where that is returned. *)
Definition getInterval_in (now : TRDP_TIME_T) (fds : gset Z * Z) (s : TRDP_SESSION_T)
  : TRDP_SESSION_T * TRDP_TIME_T * (gset Z * Z) :=
  let '(s1, fds1) := trdp_pdCheckPending (set_nextJob timerclear s) fds in
  let '(s2, fds2) := trdp_mdCheckPending s1 fds1 in
  let next := nextJob s2 in
  let s3 := if timerisset next && timer_lt now next then set_nextJob (subTime next now) s2 else s2 in
  (s3, job_interval now next, fds2).

(** [pInterval] is whether there is room for the interval; [fds] the set and the highest descriptor. *)
Definition tlc_getInterval (env : if_env) (h : option Z) (pInterval : bool) (fds : option (gset Z * Z))
    (st : TRDP_STACK) : TRDP_ERR_T * TRDP_STACK * option (TRDP_TIME_T * (gset Z * Z)) :=
  if negb (trdp_isValidSession env st h) then (TRDP_NOINIT_ERR, st, None)
  else match pInterval, fds with
  | true, Some fds =>
      with_session env (if_lock env) h st None
        (fun s n => let '(s', t, fds') := getInterval_in (vos_getTime (if_sock env)) fds s in
                    (TRDP_NO_ERR, s', n, Some (t, fds')))
  | _, _ => (TRDP_PARAM_ERR, st, None)
  end.

(** What happens during one round: the environment of sending and of receiving, the time when the
    subscriptions are checked, the datagrams waiting at each descriptor and the ready descriptors. *)
Record round_env := mkRound {
  rd_rcv : rcv_env; rd_now : TRDP_TIME_T; rd_empty : TRDP_ERR_T; rd_rxs : Z -> list rx_result;
  rd_fds : option (gset Z); rd_count : option Z }.

(** Message data is sent: an incomplete transmission is no error of the round. *)
Definition md_send_in (result : TRDP_ERR_T) (s : TRDP_SESSION_T) : TRDP_ERR_T * TRDP_SESSION_T :=
  let '(err, s') := trdp_mdSend s in
  (if is_ok err || bool_decide (err = TRDP_IO_ERR) then result else err, s').

Definition send_in (rd : round_env) (s : TRDP_SESSION_T) : TRDP_ERR_T * TRDP_SESSION_T * list pd_event :=
  trdp_pdSendQueued (rcv_pd_env (rd_rcv rd)) (set_nextJob timerclear s).

Definition listen_in (rd : round_env) (result : TRDP_ERR_T) (s : TRDP_SESSION_T)
  : TRDP_ERR_T * TRDP_SESSION_T * (option (gset Z) * option Z) * list pd_event :=
  let '(err, s1, fds, cnt, evs) :=
    trdp_pdCheckListenSocks (rd_rcv rd) (rd_empty rd) (rd_rxs rd) (rd_fds rd) (rd_count rd) s in
  let '(s2, fds2, cnt2) := trdp_mdCheckListenSocks s1 fds cnt in
  (if is_ok err then result else err, trdp_mdCheckTimeouts s2, (fds2, cnt2), evs).

Definition process_in (rd : round_env) (s : TRDP_SESSION_T)
  : TRDP_ERR_T * TRDP_SESSION_T * (option (gset Z) * option Z) * list pd_event :=
  let '(r1, s1, ev1) := send_in rd s in
  let '(s2, ev2) := trdp_pdHandleTimeOuts (rd_now rd) s1 in
  let '(r2, s3) := md_send_in r1 s2 in
  let '(r3, s4, io, ev3) := listen_in rd r2 s3 in
  (r3, s4, io, ev1 ++ ev2 ++ ev3).

Definition process_recv_in (rd : round_env) (s : TRDP_SESSION_T)
  : TRDP_ERR_T * TRDP_SESSION_T * (option (gset Z) * option Z) * list pd_event :=
  let '(s1, ev1) := trdp_pdHandleTimeOuts (rd_now rd) (set_nextJob timerclear s) in
  let '(r, s2, io, ev2) := listen_in rd TRDP_NO_ERR s1 in
  (r, s2, io, ev1 ++ ev2).

Definition process_send_in (rd : round_env) (s : TRDP_SESSION_T)
  : TRDP_ERR_T * TRDP_SESSION_T * list pd_event :=
  let '(r1, s1, ev1) := send_in rd s in
  let '(r2, s2) := md_send_in r1 s1 in
  (r2, s2, ev1).

Definition tlc_process (env : if_env) (h : option Z) (rd : round_env) (st : TRDP_STACK)
  : TRDP_ERR_T * TRDP_STACK * option ((option (gset Z) * option Z) * list pd_event) :=
  with_session env TRDP_NOINIT_ERR h st None
    (fun s n => let '(r, s', io, evs) := process_in rd s in (r, s', n, Some (io, evs))).
Definition tlc_process_recv (env : if_env) (h : option Z) (rd : round_env) (st : TRDP_STACK)
  : TRDP_ERR_T * TRDP_STACK * option ((option (gset Z) * option Z) * list pd_event) :=
  with_session env TRDP_NOINIT_ERR h st None
    (fun s n => let '(r, s', io, evs) := process_recv_in rd s in (r, s', n, Some (io, evs))).
Definition tlc_process_send (env : if_env) (h : option Z) (rd : round_env) (st : TRDP_STACK)
  : TRDP_ERR_T * TRDP_STACK * list pd_event :=
  with_session env TRDP_NOINIT_ERR h st []
    (fun s n => let '(r, s', evs) := process_send_in rd s in (r, s', n, evs)).
End Work.

(** A session without message data: nothing to wait for, to send or to receive. *)
#[export] Instance no_message_data : MdLayer := {|
  trdp_mdCheckPending s fds := (s, fds);
  trdp_mdSend s := (TRDP_NO_ERR, s);
  trdp_mdCheckListenSocks s fds cnt := (s, fds, cnt);
  trdp_mdCheckTimeouts s := s;
  trdp_mdClose _ s := s |}.
#[export] Instance no_message_data_laws : MdLaws.
Proof. split; cbn; auto. Qed.

(** ** Pull requests *)
Record req_args := mkReqArgs {
  q_comId : Z; q_etbTopoCnt : Z; q_opTrnTopoCnt : Z; q_srcIpAddr : Z; q_destIpAddr : Z;
  q_pktFlags : Z; q_sendParam : option (Z * Z); q_data : option (list Z); q_dataSize : Z;
  q_replyComId : Z; q_replyIpAddr : Z }.

Definition req_src (a : req_args) (s : TRDP_SESSION_T) : Z :=
  if q_srcIpAddr a =? 0 then realIP s else q_srcIpAddr a.

(** The request element with its header, before the data is put. *)
Definition req_ele (sessions : list TRDP_SESSION_T) (a : req_args) (s : TRDP_SESSION_T)
    (p idx replyComId : Z) : PD_ELE_T :=
  let gross := trdp_packetSizePD (q_dataSize a) in
  let e0 := set_pFrame (repeat 0 (Z.to_nat gross))
              (set_grossSize gross (set_dataSize (q_dataSize a) (zero_ele p))) in
  let e1 := set_timeToGo timerclear (set_interval timerclear (set_socketIdx idx e0)) in
  let e2 := set_addr (mkAddr (q_comId a) (req_src a s) (q_destIpAddr a) (pub_group (q_destIpAddr a)) 0 0) e1 in
  let e3 := set_magic TRDP_MAGIC_PUB_HNDL_VALUE (set_pktFlags (pd_pktFlags s (q_pktFlags a)) e2) in
  let e4 := set_curSeqCnt (u32 (trdp_getSeqCnt sessions (q_comId a) TRDP_MSG_PR (req_src a s) - 1)) e3 in
  default e4 (trdp_pdInit TRDP_MSG_PR (q_etbTopoCnt a) (q_opTrnTopoCnt a) replyComId (q_replyIpAddr a) (Some e4)).

(** The time out of the subscription starts with the request. *)
Definition start_timeout (now : TRDP_TIME_T) (e : PD_ELE_T) : PD_ELE_T :=
  if timerisset (interval e)
  then set_privFlags (clear_flag (privFlags e) TRDP_TIMED_OUT) (set_timeToGo (addTime now (interval e)) e)
  else e.

Definition request_in (env : if_env) (sessions : list TRDP_SESSION_T) (sub : Z) (a : req_args)
    (s : TRDP_SESSION_T) (n : Z) : TRDP_ERR_T * TRDP_SESSION_T * Z * unit :=
  match if_elem env with
  | None => (TRDP_MEM_ERR, s, n, tt)
  | Some p =>
      if negb (if_frame env) then (TRDP_NO_ERR, s, n, tt)
      else
        let '(ret, idx, ifc, n') :=
          trdp_requestSocket (if_sock env) (pd_socket s (q_sendParam a) (req_src a s) 0 false) (iface s) n in
        let s1 := set_iface ifc s in
        if negb (is_ok ret) then (ret, s1, n', tt)
        else
          let reply := if q_replyComId a =? 0
                       then from_option a_comId 0 (find_ele sub (pRcvQueue s)) else q_replyComId a in
          let e := req_ele sessions a s1 p (default 0 idx) reply in
          let s2 := set_pSndQueue (trdp_queueInsFirst (pSndQueue s1) (Some e)) s1 in
          let '(ret, s3) := match q_data a with
                            | Some d => if 0 <? q_dataSize a then put_in env p (Some d) (q_dataSize a) s2
                                        else (TRDP_NO_ERR, s2)
                            | None => (TRDP_NO_ERR, s2)
                            end in
          let s4 := set_pSndQueue (update_ele p (fun e => set_privFlags (set_flag (privFlags e) TRDP_REQ_2B_SENT) e)
                                     (pSndQueue s3)) s3 in
          (ret, set_pRcvQueue (update_ele sub (start_timeout (vos_getTime (if_sock env))) (pRcvQueue s4)) s4, n', tt)
  end.

Definition tlp_request (env : if_env) (h : option Z) (subHandle : option Z) (a : req_args) (st : TRDP_STACK)
  : TRDP_ERR_T * TRDP_STACK :=
  match h, subHandle with
  | Some h, Some sub =>
      if ((q_comId a =? 0) && (q_replyComId a =? 0)) || (q_destIpAddr a =? 0) then (TRDP_PARAM_ERR, st)
      else if negb (handle_magic sub st =? TRDP_MAGIC_SUB_HNDL_VALUE) then (TRDP_NOSUB_ERR, st)
      else fst (with_session env (if_lock env) (Some h) st tt (request_in env (trdp_sessionQueue st) sub a))
  | _, _ => (TRDP_PARAM_ERR, st)
  end.

(** ** Subscribing *)
Record sub_args := mkSub {
  s_userRef : Z; s_cbFunction : TRDP_PD_CALLBACK_T; s_comId : Z; s_etb : Z; s_op : Z; s_srcIpAddr : Z;
  s_destIpAddr : Z; s_pktFlags : Z; s_timeout : Z; s_toBehavior : TRDP_TO_BEHAVIOR_T }.

Definition sub_timeout (s : TRDP_SESSION_T) (timeout : Z) : Z :=
  if timeout =? 0 then pd_timeout (pdDefault s)
  else if timeout <? TRDP_TIMER_GRANULARITY then TRDP_TIMER_GRANULARITY else timeout.

Definition sub_addr (a : sub_args) : TRDP_ADDRESSES_T :=
  mkAddr (s_comId a) (s_srcIpAddr a) (s_destIpAddr a) (pub_group (s_destIpAddr a)) 0 0.

Definition sub_ele (now : TRDP_TIME_T) (a : sub_args) (s : TRDP_SESSION_T) (p idx : Z) : PD_ELE_T :=
  let t := sub_timeout s (s_timeout a) in
  let joint := if vos_isMulticast (s_destIpAddr a) then TRDP_MC_JOINT else 0 in
  let iv := mkTime (t / 1000000) (t mod 1000000) in
  let forever := t =? TRDP_TIMER_FOREVER in
  mkPD p TRDP_MAGIC_SUB_HNDL_VALUE (sub_addr a) 0 0 0 0 0 None 0 0 0 0 TRDP_NO_ERR
    (set_flag joint TRDP_INVALID_DATA) (pd_pktFlags s (s_pktFlags a))
    (if forever then timerclear else iv) (if forever then timerclear else addTime now iv)
    (if bool_decide (s_toBehavior a = TRDP_TO_DEFAULT) then pd_toBehavior (pdDefault s) else s_toBehavior a)
    0 TRDP_MAX_PD_PACKET_SIZE 0 idx (s_userRef a)
    (match s_cbFunction a with None => pd_cbFunction (pdDefault s) | Some f => Some f end)
    (repeat 0 (Z.to_nat TRDP_MAX_PD_PACKET_SIZE)).

Definition subscribe_in (env : if_env) (a : sub_args) (s : TRDP_SESSION_T) (n : Z)
  : TRDP_ERR_T * TRDP_SESSION_T * Z * option Z :=
  match trdp_queueFindSubAddr (pRcvQueue s) (Some (sub_addr a)) with
  | Some _ => (TRDP_NOSUB_ERR, s, n, None)
  | None =>
      let '(ret, idx, ifc, n') :=
        trdp_requestSocket (if_sock env) (pd_socket s None (realIP s) (pub_group (s_destIpAddr a)) true) (iface s) n in
      let s1 := set_iface ifc s in
      if negb (is_ok ret) then (ret, s1, n', None)
      else
        let idx := default 0 idx in
        match if_elem env with
        | None => (TRDP_MEM_ERR, set_iface (trdp_releaseSocket (if_sock env) ifc idx 0 false) s1, n', None)
        | Some p =>
            if negb (if_frame env) then (TRDP_MEM_ERR, s1, n', None)
            else (TRDP_NO_ERR,
                  set_pRcvQueue (trdp_queueAppLast (pRcvQueue s1)
                                   (Some (sub_ele (vos_getTime (if_sock env)) a s1 p idx))) s1, n', Some p)
        end
  end.

Definition tlp_subscribe (env : if_env) (h : option Z) (pSubHandle : bool) (a : sub_args) (st : TRDP_STACK)
  : TRDP_ERR_T * TRDP_STACK * option Z :=
  if negb pSubHandle then (TRDP_PARAM_ERR, st, None)
  else with_session env TRDP_NOINIT_ERR h st None (subscribe_in env a).

Definition unsubscribe_in (env : if_env) (p : Z) (s : TRDP_SESSION_T) : TRDP_SESSION_T :=
  match find_ele p (pRcvQueue s) with
  | None => s
  | Some e => set_iface (trdp_releaseSocket (if_sock env) (iface s) (socketIdx e) 0 false)
                (set_pRcvQueue (trdp_queueDelElement (pRcvQueue s) (Some p)) s)
  end.

Definition tlp_unsubscribe (env : if_env) (h : option Z) (subHandle : option Z) (st : TRDP_STACK)
  : TRDP_ERR_T * TRDP_STACK :=
  match subHandle with
  | None => (TRDP_PARAM_ERR, st)
  | Some p =>
      if negb (handle_magic p st =? TRDP_MAGIC_SUB_HNDL_VALUE) then (TRDP_NOSUB_ERR, st)
      else fst (with_session env (if_lock env) h st tt
                  (fun s n => (TRDP_NO_ERR, unsubscribe_in env p s, n, tt)))
  end.

(** A new multicast group needs another socket; without one the subscription is given up. *)
Definition resubscribe_in (env : if_env) (p etb op src dest : Z) (s : TRDP_SESSION_T) (n : Z)
  : TRDP_ERR_T * TRDP_SESSION_T * Z * unit :=
  let readdr g e := set_addr (mkAddr (a_comId e) src dest g etb op) e in
  match find_ele p (pRcvQueue s) with
  | None => (TRDP_NO_ERR, s, n, tt)
  | Some e =>
      if vos_isMulticast dest && negb (mcGroup (addr e) =? dest) then
        let ifc := trdp_releaseSocket (if_sock env) (iface s) (socketIdx e) 0 false in
        let '(ret, idx, ifc', n') :=
          trdp_requestSocket (if_sock env) (pd_socket s None (realIP s) dest true) ifc n in
        let e1 := set_socketIdx (default (socketIdx e) idx)
                    (readdr (if is_ok ret then dest else mcGroup (addr e)) e) in
        let s1 := set_pRcvQueue (update_ele p (fun _ => e1) (pRcvQueue s)) (set_iface ifc' s) in
        (ret, if is_ok ret then s1 else unsubscribe_in env p s1, n', tt)
      else (TRDP_NO_ERR, set_pRcvQueue (update_ele p (readdr (pub_group dest)) (pRcvQueue s)) s, n, tt)
  end.

Definition tlp_resubscribe (env : if_env) (h : option Z) (p etb op src dest : Z) (st : TRDP_STACK)
  : TRDP_ERR_T * TRDP_STACK :=
  if negb (trdp_isValidSession env st h) then (TRDP_NOINIT_ERR, st)
  else if negb (handle_magic p st =? TRDP_MAGIC_SUB_HNDL_VALUE) then (TRDP_NOSUB_ERR, st)
  else fst (with_session env TRDP_NOINIT_ERR h st tt (resubscribe_in env p etb op src dest)).

(** ** Polling a subscription *)
Record TRDP_PD_INFO_T := mkInfo {
  i_comId : Z; i_srcIpAddr : Z; i_destIpAddr : Z; i_etbTopoCnt : Z; i_opTrnTopoCnt : Z; i_msgType : Z;
  i_seqCount : Z; i_protVersion : Z; i_replyComId : Z; i_replyIpAddr : Z; i_userRef : Z;
  i_resultCode : TRDP_ERR_T }.

Definition pd_info (ret : TRDP_ERR_T) (e : PD_ELE_T) : TRDP_PD_INFO_T :=
  let f := pFrame e in
  mkInfo (a_comId e) (lastSrcIP e) (destIpAddr (addr e)) (get32 off_etbTopoCnt f) (get32 off_opTrnTopoCnt f)
    (get16 off_msgType f) (curSeqCnt e) (get16 off_protocolVersion f) (get32 off_replyComId f)
    (get32 off_replyIpAddress f) (pUserRef e) ret.

(** The answer to a poll: result, bytes written, the size, the element. [room] is [*pDataSize], with
    [pData], where both are given. *)
Definition poll (now : TRDP_TIME_T) (unmarshall : option TRDP_MARSHALL_T) (room : option Z) (e : PD_ELE_T)
  : TRDP_ERR_T * list Z * option Z * PD_ELE_T :=
  if timerisset (interval e) && timer_lt (timeToGo e) now then
    (TRDP_TIMEOUT_ERR,
     match room with
     | Some n => if bool_decide (toBehavior e = TRDP_TO_SET_TO_ZERO) then repeat 0 (Z.to_nat n) else []
     | None => []
     end, room, e)
  else
    let '(ret, bs, n, e') := trdp_pdGet unmarshall room (Some e) in (ret, bs, n, default e e').

(** The datagrams waiting at the subscription's socket are received first, unless the session
    blocks; [rd_empty], an error, is what receiving from the empty socket gives. *)
Definition get_in (rd : round_env) (p : Z) (room : option Z) (s : TRDP_SESSION_T)
  : TRDP_ERR_T * TRDP_SESSION_T * option (list Z * option Z * TRDP_PD_INFO_T * list pd_event) :=
  match find_ele p (pRcvQueue s) with
  | None => (TRDP_NOSUB_ERR, s, None)
  | Some e =>
      let '(s1, evs) :=
        if flag (option_ s) TRDP_OPTION_BLOCK then (s, [])
        else match iface s !! Z.to_nat (socketIdx e) with
             | Some k => let '(_, _, s1, evs) := receive_all (rd_rcv rd) (rd_empty rd) true (rd_rxs rd (sock k)) s
                         in (s1, evs)
             | None => (s, [])
             end in
      match find_ele p (pRcvQueue s1) with
      | None => (TRDP_NOSUB_ERR, s1, None)
      | Some e1 =>
          let '(ret, bs, n, e2) := poll (rd_now rd) (pfCbUnmarshall s1) room e1 in
          (ret, set_pRcvQueue (update_ele p (fun _ => e2) (pRcvQueue s1)) s1,
           Some (bs, n, pd_info ret e2, evs))
      end
  end.

Definition tlp_get (env : if_env) (rd : round_env) (h : option Z) (subHandle : option Z) (room : option Z)
    (st : TRDP_STACK)
  : TRDP_ERR_T * TRDP_STACK * option (list Z * option Z * TRDP_PD_INFO_T * list pd_event) :=
  match subHandle with
  | None => (TRDP_PARAM_ERR, st, None)
  | Some p =>
      if negb (handle_magic p st =? TRDP_MAGIC_SUB_HNDL_VALUE) then (TRDP_NOSUB_ERR, st, None)
      else with_session env (if_lock env) h st None
             (fun s n => let '(err, s', r) := get_in rd p room s in (err, s', n, r))
  end.

(** * Properties *)

(** ** What identifies an element: its address and its entry of the socket pool *)
Definition ele_key (e : PD_ELE_T) : Z * Z := (ele_ptr e, socketIdx e).
Definition q_keys (q : list PD_ELE_T) : list (Z * Z) := map ele_key q.
Definition keys (s : TRDP_SESSION_T) : list (Z * Z) := q_keys (pSndQueue s) ++ q_keys (pRcvQueue s).

Lemma keys_update p g q : (forall e, ele_key (g e) = ele_key e) -> q_keys (update_ele p g q) = q_keys q.
Proof.
  intros Hg. unfold q_keys, update_ele. rewrite map_map. apply map_ext. intros e. by case_if.
Qed.

Lemma keys_map g q : (forall e, ele_key (g e) = ele_key e) -> q_keys (map g q) = q_keys q.
Proof. intros Hg. unfold q_keys. rewrite map_map. by apply map_ext. Qed.

Lemma keys_replace p e e' q : NoDup (map fst (q_keys q)) -> find_ele p q = Some e ->
  ele_key e' = ele_key e -> q_keys (update_ele p (fun _ => e') q) = q_keys q.
Proof.
  intros Hd Hf Hk. induction q as [|x q IH]; [done|]. cbn in Hd, Hf |- *.
  apply list.NoDup_cons in Hd as [Hx Hd]. destruct (ele_ptr x =? p) eqn:E.
  - injection Hf as ->. bprop. f_equal; [done|].
    fold (update_ele p (fun _ => e') q) (q_keys q) (q_keys (update_ele p (fun _ => e') q)).
    rewrite <- (map_id q) at 2. unfold update_ele, q_keys. rewrite !map_map. apply map_ext_in.
    intros y Hy. destruct (ele_ptr y =? p) eqn:Ey; [|done]. bprop. destruct Hx.
    rewrite E, <- Ey. apply list_elem_of_In. unfold q_keys. rewrite map_map. cbn.
    by apply (in_map ele_ptr).
  - f_equal. by apply IH.
Qed.

Lemma update_none p g q : p ∉ map fst (q_keys q) -> update_ele p g q = q.
Proof.
  induction q as [|x q IH]; [done|]. cbn. intros H. apply not_elem_of_cons in H as [Hx Hq].
  rewrite (proj2 (Z.eqb_neq (ele_ptr x) p)) by (intros E; by apply Hx). f_equal. by apply IH.
Qed.

Lemma keys_replace_perm p e e' q : NoDup (map fst (q_keys q)) -> find_ele p q = Some e ->
  q_keys (update_ele p (fun _ => e') q) ≡ₚ ele_key e' :: q_keys (unlink ele_ptr p q).
Proof.
  intros Hd Hf. induction q as [|x q IH]; [done|]. cbn in Hd, Hf |- *.
  apply list.NoDup_cons in Hd as [Hx Hd]. destruct (ele_ptr x =? p) eqn:E.
  - apply Z.eqb_eq in E. apply perm_skip. fold (update_ele p (fun _ => e') q). rewrite update_none; [done|by rewrite <- E].
  - etransitivity; [apply perm_skip, (IH Hd Hf)|apply Permutation_swap].
Qed.

Lemma keys_unlink p e q : find_ele p q = Some e -> q_keys q ≡ₚ ele_key e :: q_keys (unlink ele_ptr p q).
Proof.
  induction q as [|x q IH]; [done|]. cbn. destruct (ele_ptr x =? p); [by intros [= ->]|].
  intros H. cbn. rewrite (IH H). by rewrite Permutation_swap.
Qed.

Lemma pdInit_key t a b c d e e' : trdp_pdInit t a b c d (Some e) = Some e' -> ele_key e' = ele_key e.
Proof. cbn. destruct (is_null _); by intros [= <-]. Qed.

Lemma pdInit_default t a b c d e : ele_key (default e (trdp_pdInit t a b c d (Some e))) = ele_key e.
Proof. destruct (trdp_pdInit _ _ _ _ _ _) eqn:E; cbn; [by apply pdInit_key in E|done]. Qed.

Lemma pdPut_key a m d n e err e' : trdp_pdPut a m d n (Some e) = (err, Some e') -> ele_key e' = ele_key e.
Proof.
  cbn [trdp_pdPut]. intros H.
  repeat match type of H with
  | context [match ?x with _ => _ end] => destruct x
  | context [if ?x then _ else _] => destruct x
  end; injection H as _ <-; try done; by destruct (dataSize e =? 0).
Qed.

Lemma pdUpdate_key e : ele_key (trdp_pdUpdate e) = ele_key e.
Proof. unfold trdp_pdUpdate. by destruct (_ =? _). Qed.

Lemma pdReschedule_key now e : ele_key (pd_reschedule now e) = ele_key e.
Proof. unfold pd_reschedule. destruct (is_pull _ _); [done|]. by destruct (timerisset _). Qed.

Lemma pdTransmit_key env k s ifc err e : ele_key (snd (fst (fst (pd_transmit env k s ifc err e)))) = ele_key e.
Proof.
  unfold pd_transmit. destruct (flag _ _); [done|]. set (e1 := if is_pull e TRDP_MSG_PD then _ else e).
  assert (H1 : ele_key e1 = ele_key e) by (unfold e1; by destruct (is_pull _ _)).
  pose proof (pdUpdate_key e1) as H2. rewrite <- H1, <- H2. set (e2 := trdp_pdUpdate e1).
  destruct (negb _); [done|]. destruct (_ =? _); [done|]. destruct (flag _ _); [done|].
  unfold trdp_pdSend. destruct (vos_sockSendUDP _ _ _ _ _ _) as [ok sent]. by destruct (is_ok _).
Qed.

(** A session all of whose elements hold an open entry of the pool, which counts them, and whose
    elements have different addresses. *)
Definition session_ok (s : TRDP_SESSION_T) (n : Z) : Prop :=
  used (iface s) n (map snd (keys s)) /\ NoDup (map fst (keys s)).

Lemma session_ok_keys s s' n : iface s' = iface s -> keys s' ≡ₚ keys s -> session_ok s n -> session_ok s' n.
Proof.
  intros Hi Hk [H1 H2]. split.
  - rewrite Hi. eapply used_perm; [|exact H1]. by rewrite Hk.
  - change (NoDup (fst <$> keys s')). rewrite Hk. exact H2.
Qed.

Lemma send_loop_used env s n q : forall l k ifc err err' q' ifc' sent evs,
  used ifc n (map snd (q_keys q) ++ l) ->
  send_loop env s k q ifc err = (err', q', ifc', sent, evs) ->
  used ifc' n (map snd (q_keys q') ++ l) /\ sublist (map fst (q_keys q')) (map fst (q_keys q)).
Proof.
  induction q as [|e q IH]; intros l k ifc err err' q' ifc' sent evs Hu H; cbn [send_loop] in H.
  { injection H as <- <- <- <- <-. auto. }
  cbn [q_keys map] in Hu. fold (q_keys q) in Hu. cbn [app] in Hu.
  assert (Hmove : forall f i, used f n (i :: map snd (q_keys q) ++ l) -> used f n (map snd (q_keys q) ++ i :: l))
    by (intros f i; apply used_perm; by rewrite Permutation_middle).
  assert (Hback : forall f i q, used f n (map snd (q_keys q) ++ i :: l) -> used f n (i :: map snd (q_keys q) ++ l))
    by (intros f i q0; apply used_perm; by rewrite Permutation_middle).
  destruct (pd_due (pd_clock env k) e).
  - pose proof (pdTransmit_key env k s ifc err e) as Hk1.
    destruct (pd_transmit env k s ifc err e) as [[[err1 e1] m1] ev1]. cbn [fst snd] in Hk1.
    pose proof (pdReschedule_key (pd_clock env k) e1) as Hk2. rewrite Hk1 in Hk2.
    set (e2 := pd_reschedule (pd_clock env k) e1) in *.
    destruct (get16 off_msgType (pFrame e2) =? TRDP_MSG_PR).
    + destruct (send_loop env s (S k) q _ err1) as [[[[r q2] f2] m2] ev2] eqn:E.
      injection H as <- <- <- <- <-. cbn in Hu. apply (IH l) in E as [E1 E2].
      * split; [done|]. by apply sublist_cons.
      * apply used_release. by rewrite (f_equal snd Hk2 : socketIdx e2 = socketIdx e).
    + destruct (send_loop env s (S k) q ifc err1) as [[[[r q2] f2] m2] ev2] eqn:E.
      injection H as <- <- <- <- <-. apply (IH (socketIdx e :: l)) in E as [E1 E2]; [|by apply Hmove].
      cbn [q_keys map]. fold (q_keys q2) (q_keys q). rewrite Hk2. cbn. split; [by apply Hback|].
      by apply sublist_skip.
  - destruct (send_loop env s (S k) q ifc err) as [[[[r q2] f2] m2] ev2] eqn:E.
    injection H as <- <- <- <- <-. apply (IH (socketIdx e :: l)) in E as [E1 E2]; [|by apply Hmove].
    cbn [q_keys map]. fold (q_keys q2) (q_keys q). cbn. split; [by apply Hback|]. by apply sublist_skip.
Qed.

Lemma keys_split s : keys s = q_keys (pSndQueue s) ++ q_keys (pRcvQueue s).
Proof. done. Qed.

Lemma sendQueued_ok env s n err s' evs :
  session_ok s n -> trdp_pdSendQueued env s = (err, s', evs) ->
  session_ok s' n /\ pRcvQueue s' = pRcvQueue s.
Proof.
  intros [Hu Hd] H. unfold trdp_pdSendQueued in H. cbv zeta in H.
  destruct (send_loop _ _ _ _ _ _) as [[[[r q] f] m] ev] eqn:E. injection H as <- <- <-.
  rewrite keys_split, map_app in Hu, Hd. eapply (send_loop_used env _ n _ _ _ _ _ _ _ _ _ _) in E as [E1 E2]; [|exact Hu].
  split; [|done]. split; rewrite keys_split, map_app; [exact E1|]. cbn [pSndQueue pRcvQueue set_pd_stats set_iface set_pSndQueue set_nextJob].
  eapply sublist_NoDup; [exact Hd|]. by apply sublist_app.
Qed.

Lemma timeout_loop_keys now q : q_keys (fst (fst (timeout_loop now q))) = q_keys q.
Proof.
  induction q as [|e q IH]; [done|]. cbn [timeout_loop]. destruct (timeout_loop now q) as [[q2 m] ev].
  cbn [fst] in IH. unfold q_keys in *. by destruct (pd_late now e); cbn; f_equal.
Qed.

Lemma handleTimeOuts_ok now s n : session_ok s n -> session_ok (fst (trdp_pdHandleTimeOuts now s)) n.
Proof.
  unfold trdp_pdHandleTimeOuts. pose proof (timeout_loop_keys now (pRcvQueue s)) as Hk.
  destruct (timeout_loop now (pRcvQueue s)) as [[q m] ev]. cbn [fst] in *.
  apply session_ok_keys; [done|]. rewrite (keys_split s), <- Hk. done.
Qed.

(** ** Receiving *)
Lemma set_rcv_ok s n e e' p : session_ok s n -> find_ele p (pRcvQueue s) = Some e -> ele_key e' = ele_key e ->
  q_keys (update_ele p (fun _ => e') (pRcvQueue s)) = q_keys (pRcvQueue s).
Proof.
  intros [_ Hd] Hf Hk. rewrite keys_split, map_app in Hd. apply list.NoDup_app in Hd as (_ & _ & Hd).
  by eapply keys_replace.
Qed.

Lemma find_sub_ele q a e : NoDup (map fst (q_keys q)) -> trdp_queueFindSubAddr q (Some a) = Some e ->
  find_ele (ele_ptr e) q = Some e.
Proof.
  intros Hd H. apply find_some in H as [Hin _]. unfold find_ele. induction q as [|x q IH]; [done|].
  cbn in Hd |- *. apply list.NoDup_cons in Hd as [Hx Hd]. destruct Hin as [->|Hin]; [by rewrite Z.eqb_refl|].
  destruct (ele_ptr x =? ele_ptr e) eqn:E; [|by apply IH]. bprop. destruct Hx. rewrite E.
  apply list_elem_of_In. unfold q_keys. rewrite map_map. by apply (in_map (fun e => fst (ele_key e))).
Qed.

Lemma check_seq_key a g e cnt src t r e' :
  trdp_checkSequenceCounter a g (Some e) cnt src t = (r, e') -> ele_key (default e e') = ele_key e.
Proof.
  destruct e' as [e'|]; [|done]. intros H. by apply check_seq_fields in H as [l ->].
Qed.

Lemma reset_seq_key e src t : ele_key (default e (trdp_resetSequenceCounter (Some e) src t)) = ele_key e.
Proof. by destruct (reset_seq_fields e src t) as [l ->]. Qed.

Lemma accept_key now f e : ele_key (fst (accept_packet now f e)) = ele_key e.
Proof. unfold accept_packet, missed. by repeat case_if. Qed.

Lemma bump_ok get set s n : session_ok s n -> session_ok (bump get set s) n.
Proof. by apply session_ok_keys. Qed.

Lemma pull_request_ok env src f s n : session_ok s n ->
  session_ok (snd (fst (pull_request env src f s))) n
  /\ pRcvQueue (snd (fst (pull_request env src f s))) = pRcvQueue s.
Proof.
  intros Hs. unfold pull_request. cbv zeta. destruct (trdp_queueFindComId _ _) as [e|]; [|done].
  set (s1 := set_pSndQueue (update_ele _ _ (pSndQueue s)) s).
  assert (H1 : session_ok s1 n).
  { revert Hs. apply session_ok_keys; [done|]. rewrite (keys_split s). unfold s1.
    rewrite keys_split. cbn [pSndQueue pRcvQueue set_pSndQueue]. rewrite keys_update; [done|].
    intros x. destruct (_ =? TRDP_STATISTICS_PULL_COMID); [|done].
    match goal with |- context [default ?a ?b] => pose proof (pdInit_default TRDP_MSG_PP
      (s_etbTopoCnt s) (s_opTrnTopoCnt s) 0 0 a) as Hk end.
    exact Hk. }
  destruct (trdp_pdSendQueued (rcv_pd_env env) s1) as [[r s2] evs] eqn:E.
  by apply (sendQueued_ok _ _ n) in E.
Qed.

Lemma dispatch_ok env src dst s n err s' evs :
  session_ok s n -> pd_dispatch env src dst s = (err, s', evs) -> session_ok s' n.
Proof.
  intros Hs H. unfold pd_dispatch in H. cbv zeta in H.
  destruct (negb _); [by injection H as <- <- <-; apply bump_ok|].
  set (r := if _ =? TRDP_MSG_PR then _ else _) in H.
  assert (Hr : session_ok (snd (fst r)) n /\ pRcvQueue (snd (fst r)) = pRcvQueue s).
  { unfold r. destruct (_ =? TRDP_MSG_PR); [by apply pull_request_ok|done]. }
  destruct r as [[inform s1] ev1]. cbn [fst snd] in Hr. destruct Hr as [Hs1 _].
  destruct (trdp_queueFindSubAddr _ _) as [e|] eqn:Ef; [|by injection H as <- <- <-].
  assert (Hf : find_ele (ele_ptr e) (pRcvQueue s1) = Some e).
  { eapply find_sub_ele; [|exact Ef]. destruct Hs1 as [_ Hd]. rewrite keys_split, map_app in Hd.
    by apply list.NoDup_app in Hd as (_ & _ & Hd). }
  assert (Hput : forall e', ele_key e' = ele_key e ->
    session_ok (set_pRcvQueue (update_ele (ele_ptr e) (fun _ => e') (pRcvQueue s1)) s1) n).
  { intros e' Hk. revert Hs1. intros Hs1. eapply session_ok_keys; [..|exact Hs1]; [done|].
    rewrite !keys_split. cbn [pSndQueue pRcvQueue set_pRcvQueue].
    by rewrite (set_rcv_ok s1 n e e'). }
  destruct (_ || _).
  2: { injection H as <- <- <-. eapply session_ok_keys; [..|apply (Hput (set_lastErr TRDP_TOPO_ERR e))]; done. }
  set (e1 := set_addr _ (set_lastSrcIP src e)) in H. set (new := get32 off_sequenceCounter (pNewFrame s)) in H.
  set (e2 := if new =? 0 then _ else e1) in H.
  assert (H2 : ele_key e2 = ele_key e) by (unfold e2; destruct (new =? 0); [exact (reset_seq_key e1 _ _)|done]).
  destruct (trdp_checkSequenceCounter _ _ _ _ _ _) as [res e3] eqn:Ec.
  apply check_seq_key in Ec. rewrite H2 in Ec.
  destruct (res =? -1); [injection H as <- <- <-; by apply Hput|].
  destruct (res =? 1); [injection H as <- <- <-; by apply Hput|].
  destruct (accept_packet _ _ _) as [e4 changed] eqn:Ea. injection H as <- <- <-.
  pose proof (accept_key (rcv_now env) (pNewFrame s) (default e2 e3)) as Hk. rewrite Ea in Hk. cbn [fst] in Hk.
  eapply session_ok_keys; [..|apply (Hput e4)]; [done|done|congruence].
Qed.

Lemma receive_ok env rx s n err s' evs :
  session_ok s n -> trdp_pdReceive env rx s = (err, s', evs) -> session_ok s' n.
Proof.
  intros Hs H. unfold trdp_pdReceive in H. destruct (negb _); [by injection H as <- <- <-|]. cbv zeta in H.
  set (s0 := set_pNewFrame _ s) in H. assert (H0 : session_ok s0 n) by (revert Hs; by apply session_ok_keys).
  destruct (trdp_pdCheck _ _); try (injection H as <- <- <-; first [exact H0|by apply bump_ok]).
  eapply dispatch_ok; [|exact H]. by apply bump_ok.
Qed.

Lemma receive_all_ok env ee nb n rxs : forall s err rest s' evs,
  session_ok s n -> receive_all env ee nb rxs s = (err, rest, s', evs) -> session_ok s' n.
Proof.
  induction rxs as [|rx rxs IH]; intros s err rest s' evs Hs H; cbn [receive_all] in H.
  { by injection H as <- <- <- <-. }
  destruct (trdp_pdReceive env rx s) as [[e1 s1] ev1] eqn:E1. apply (receive_ok _ _ _ n) in E1; [|done].
  destruct (_ && _); [|by injection H as <- <- <- <-].
  destruct (receive_all _ _ _ _ _) as [[[e2 r2] s2] ev2] eqn:E2. injection H as <- <- <- <-. by eapply IH.
Qed.

Lemma listen_loop_ok env ee nb n idxs : forall rxs fds cnt res s err s' fds' cnt' evs,
  session_ok s n -> listen_loop env ee nb idxs rxs fds cnt res s = (err, s', fds', cnt', evs) -> session_ok s' n.
Proof.
  induction idxs as [|i idxs IH]; intros rxs fds cnt res s err s' fds' cnt' evs Hs H; cbn [listen_loop] in H.
  { by injection H as <- <- <- <- <-. }
  destruct (if i =? -1 then None else iface s !! Z.to_nat i) as [k|]; [|by eapply IH].
  destruct (bool_decide _); [|by eapply IH].
  destruct (receive_all _ _ _ _ _) as [[[e1 r1] s1] ev1] eqn:E1. apply (receive_all_ok _ _ _ n) in E1; [|done].
  cbv zeta in H. destruct (listen_loop _ _ _ _ _ _ _ _ _) as [[[[r s2] fds2] c2] ev2] eqn:E2.
  injection H as <- <- <- <- <-. by eapply IH.
Qed.

Lemma checkListenSocks_ok env ee rxs fds cnt s n err s' fds' cnt' evs :
  session_ok s n -> trdp_pdCheckListenSocks env ee rxs fds cnt s = (err, s', fds', cnt', evs) -> session_ok s' n.
Proof.
  intros Hs H. unfold trdp_pdCheckListenSocks in H.
  destruct fds as [f|]; [|by injection H as <- <- <- <- <-].
  destruct cnt as [c|]; [|by injection H as <- <- <- <- <-].
  destruct (c >? 0); [|by injection H as <- <- <- <- <-].
  destruct (listen_loop _ _ _ _ _ _ _ _ _) as [[[[r s1] f1] c1] ev1] eqn:E.
  injection H as <- <- <- <- <-. by eapply listen_loop_ok.
Qed.

(** ** The functions of the interface keep the counts *)
Record call_ok (env : if_env) (s : TRDP_SESSION_T) : Prop := mkCallOk {
  call_opens : opens_ok (if_sock env);
  call_fresh p : if_elem env = Some p -> p ∉ map fst (keys s);
  call_room : Z.of_nat (length (keys s)) < 32767 }.

Lemma dist_loop_keys d t n q : forall i, q_keys (dist_loop d t n i q) = q_keys q.
Proof.
  induction q as [|e q IH]; intros i; [done|]. cbn [dist_loop]. destruct (i <? n); [|done].
  unfold q_keys in *. destruct (not_pull e); cbn [map]; rewrite IH; [|done]. f_equal. by case_if.
Qed.

Lemma shape_ok s n err s' : session_ok s n -> shape_in s = (err, s') -> session_ok s' n.
Proof.
  unfold shape_in. intros Hs H. destruct (flag _ _); [|by injection H as <- <-].
  assert (Hk : q_keys (snd (trdp_pdDistribute (pSndQueue s))) = q_keys (pSndQueue s)).
  { unfold trdp_pdDistribute. destruct (pSndQueue s) as [|e [|e2 q]]; [done|done|].
    destruct (fold_left _ _ _) as [[d t] m]. destruct (_ || _); [done|]. apply dist_loop_keys. }
  destruct (trdp_pdDistribute _) as [r q]. injection H as <- <-. revert Hs. apply session_ok_keys; [done|].
  rewrite (keys_split s), <- Hk. done.
Qed.

Lemma put_ok env p d k s n err s' : session_ok s n -> put_in env p d k s = (err, s') -> session_ok s' n.
Proof.
  unfold put_in. intros Hs H. destruct (find_ele p (pSndQueue s)) as [e|] eqn:Ef.
  - destruct (trdp_pdPut _ _ _ _ _) as [r [e'|]] eqn:Ep; injection H as <- <-; [|done].
    apply pdPut_key in Ep. pose proof Hs as [_ Hd]. rewrite keys_split, map_app in Hd.
    apply list.NoDup_app in Hd as (Hd & _ & _). revert Hs. apply session_ok_keys; [done|].
    rewrite !keys_split. cbn [pSndQueue pRcvQueue set_pSndQueue]. by rewrite (keys_replace p e).
  - cbn in H. by injection H as <- <-.
Qed.

(** A new element that holds the entry just requested. *)
Lemma add_element_ok s s' n' e :
  used (iface s') n' (socketIdx e :: map snd (keys s)) -> NoDup (map fst (keys s)) ->
  ele_ptr e ∉ map fst (keys s) -> keys s' ≡ₚ ele_key e :: keys s -> session_ok s' n'.
Proof.
  intros Hu Hd Hn Hk. split.
  - eapply used_perm; [|exact Hu]. by rewrite Hk.
  - change (NoDup (fst <$> keys s')). rewrite Hk. cbn. by apply list.NoDup_cons.
Qed.

Lemma keys_append e q : q_keys (q ++ [e]) ≡ₚ ele_key e :: q_keys q.
Proof. unfold q_keys. rewrite map_app. cbn [map]. symmetry. apply Permutation_cons_append. Qed.

Lemma pd_socket_ok env s n params src g rm err idx ifc n' : session_ok s n -> call_ok env s ->
  trdp_requestSocket (if_sock env) (pd_socket s params src g rm) (iface s) n = (err, idx, ifc, n') ->
  if is_ok err then exists i, idx = Some i /\ used ifc n' (i :: map snd (keys s)) else session_ok (set_iface ifc s) n'.
Proof.
  intros [Hu Hd] Hc H. apply (used_request _ _ _ _ (map snd (keys s))) in H as [_ H].
  - destruct (is_ok err); [|by split]. exact H.
  - exact Hu.
  - apply Hc.
  - unfold pd_socket. by destruct (default _ _).
  - unfold pd_socket. by destruct (default _ _).
  - rewrite length_map. apply Hc.
Qed.

Lemma key_inv e p i : ele_key e = (p, i) -> ele_ptr e = p /\ socketIdx e = i.
Proof. by intros [= <- <-]. Qed.

Lemma pub_ele_key env ss a s p i : ele_key (pub_ele env ss a s p i) = (p, i).
Proof.
  unfold pub_ele. cbv zeta. rewrite pdInit_default. unfold first_send.
  destruct (p_interval a =? 0); by destruct (_ && _).
Qed.

Lemma publish_ok env ss a s n err s' n' h : session_ok s n -> call_ok env s -> if_frame env = true ->
  publish_in env ss a s n = (err, s', n', h) -> session_ok s' n'.
Proof.
  intros Hs Hc Hfr H. unfold publish_in in H.
  destruct (trdp_queueFindPubAddr _ _); [by injection H as <- <- <- <-|].
  destruct (if_elem env) as [p|] eqn:Ep; [|by injection H as <- <- <- <-].
  destruct (trdp_requestSocket _ _ _ _) as [[[r idx] ifc] m] eqn:Er.
  apply (pd_socket_ok _ _ _ _ _ _ _ _ _ _ _ Hs Hc) in Er. rewrite Hfr in H. cbv zeta in H. cbn [negb] in H.
  destruct (is_ok r); [|by injection H as <- <- <- <-]. cbn [negb] in H.
  destruct Er as (i & -> & Er). cbn [default] in H.
  set (e := pub_ele _ _ _ _ _ _) in H. set (s2 := set_pSndQueue _ (set_iface ifc s)) in H.
  assert (Hk : ele_key e = (p, i)) by apply pub_ele_key. clearbody e. destruct (key_inv e p i Hk) as [Hkp Hki].
  assert (H2 : session_ok s2 m).
  { apply (add_element_ok s s2 m e).
    - rewrite Hki. exact Er.
    - apply Hs.
    - rewrite Hkp. by apply Hc.
    - rewrite !keys_split. cbn [s2 pSndQueue pRcvQueue set_pSndQueue set_iface].
      unfold trdp_queueAppLast. rewrite keys_append. done. }
  destruct (p_dataSize a =? 0).
  - cbn [is_ok] in H. destruct (shape_in s2) as [r2 s4] eqn:Es. apply (shape_ok _ m) in Es; [|done].
    by injection H as <- <- <- <-.
  - destruct (put_in _ _ _ _ s2) as [r2 s3] eqn:Ept. apply (put_ok _ _ _ _ _ m) in Ept; [|done].
    destruct (is_ok r2); [|by injection H as <- <- <- <-].
    destruct (shape_in s3) as [r3 s4] eqn:Es. apply (shape_ok _ m) in Es; [|done].
    by injection H as <- <- <- <-.
Qed.

(** Taking an element out and releasing its entry. *)
Lemma remove_element_ok env s s' n e :
  session_ok s n -> iface s' = trdp_releaseSocket env (iface s) (socketIdx e) 0 false ->
  keys s ≡ₚ ele_key e :: keys s' -> session_ok s' n.
Proof.
  intros [Hu Hd] Hi Hk. split.
  - rewrite Hi. apply used_release. eapply used_perm; [|exact Hu]. by rewrite Hk.
  - change (NoDup (fst <$> keys s)) in Hd. rewrite Hk in Hd. cbn in Hd. by apply list.NoDup_cons in Hd as [_ Hd].
Qed.

Lemma unpublish_ok env p s n err s' : session_ok s n -> unpublish_in env p s = (err, s') -> session_ok s' n.
Proof.
  unfold unpublish_in. intros Hs H. destruct (find_ele p (pSndQueue s)) as [e|] eqn:Ef; [|by injection H as <- <-].
  eapply shape_ok; [|exact H]. eapply remove_element_ok; [exact Hs|done|].
  rewrite !keys_split. cbn [pSndQueue pRcvQueue set_pSndQueue set_iface trdp_queueDelElement].
  by rewrite (keys_unlink p e _ Ef).
Qed.

Lemma unsubscribe_ok env p s n : session_ok s n -> session_ok (unsubscribe_in env p s) n.
Proof.
  unfold unsubscribe_in. intros Hs. destruct (find_ele p (pRcvQueue s)) as [e|] eqn:Ef; [|done].
  eapply remove_element_ok; [exact Hs|done|].
  rewrite !keys_split. cbn [pSndQueue pRcvQueue set_pRcvQueue set_iface trdp_queueDelElement].
  rewrite (keys_unlink p e _ Ef). by rewrite Permutation_middle.
Qed.

Lemma subscribe_ok env a s n err s' n' h : session_ok s n -> call_ok env s -> if_frame env = true ->
  subscribe_in env a s n = (err, s', n', h) -> session_ok s' n'.
Proof.
  intros Hs Hc Hfr H. unfold subscribe_in in H.
  destruct (trdp_queueFindSubAddr _ _); [by injection H as <- <- <- <-|].
  destruct (trdp_requestSocket _ _ _ _) as [[[r idx] ifc] m] eqn:Er.
  apply (pd_socket_ok _ _ _ _ _ _ _ _ _ _ _ Hs Hc) in Er. cbv zeta in H.
  destruct (is_ok r); [|by injection H as <- <- <- <-]. cbn [negb] in H. rewrite Hfr in H.
  destruct Er as (i & -> & Er). cbn [default] in H.
  destruct (if_elem env) as [p|] eqn:Ep; injection H as <- <- <- <-.
  - eapply (add_element_ok s _ _ (sub_ele (vos_getTime (if_sock env)) a (set_iface ifc s) p i)); [exact Er|apply Hs|by apply Hc|].
    rewrite !keys_split. cbn [pSndQueue pRcvQueue set_pRcvQueue set_iface].
    rewrite keys_append. symmetry. apply Permutation_middle.
  - split; [|apply Hs]. by apply used_release.
Qed.

Lemma req_ele_key ss a s p i r : ele_key (req_ele ss a s p i r) = (p, i).
Proof. unfold req_ele. cbv zeta. by rewrite pdInit_default. Qed.

Lemma request_ok env ss sub a s n err s' n' u : session_ok s n -> call_ok env s ->
  request_in env ss sub a s n = (err, s', n', u) -> session_ok s' n'.
Proof.
  intros Hs Hc H. unfold request_in in H.
  destruct (if_elem env) as [p|] eqn:Ep; [|by injection H as <- <- <- <-].
  destruct (negb (if_frame env)); [by injection H as <- <- <- <-|].
  destruct (trdp_requestSocket _ _ _ _) as [[[r idx] ifc] m] eqn:Er.
  apply (pd_socket_ok _ _ _ _ _ _ _ _ _ _ _ Hs Hc) in Er. cbv zeta in H.
  destruct (is_ok r); [|by injection H as <- <- <- <-]. cbn [negb] in H.
  destruct Er as (i & -> & Er). cbn [default] in H.
  set (e := req_ele _ _ _ _ _ _) in H. set (s2 := set_pSndQueue _ (set_iface ifc s)) in H.
  assert (Hk : ele_key e = (p, i)) by apply req_ele_key. clearbody e. destruct (key_inv e p i Hk) as [Hkp Hki].
  assert (H2 : session_ok s2 m).
  { apply (add_element_ok s s2 m e).
    - rewrite Hki. exact Er.
    - apply Hs.
    - rewrite Hkp. by apply Hc.
    - done. }
  set (r3 := match q_data a with Some d => _ | None => _ end) in H.
  assert (H3 : session_ok (snd r3) m).
  { unfold r3. destruct (q_data a); [|done]. destruct (0 <? _); [|done].
    destruct (put_in _ _ _ _ _) as [x y] eqn:Ept. by eapply put_ok. }
  destruct r3 as [r3 s3]. cbn [snd] in H3. injection H as <- <- <- <-.
  revert H3. apply session_ok_keys; [done|]. rewrite !keys_split.
  cbn [pSndQueue pRcvQueue set_pRcvQueue set_pSndQueue]. rewrite !keys_update; [done| |done].
  intros x. unfold start_timeout. by destruct (timerisset _).
Qed.

Lemma setRedundant_ok r l s n : session_ok s n -> session_ok (snd (setRedundant_in r l s)) n.
Proof.
  apply session_ok_keys; [done|]. rewrite !keys_split. cbn [setRedundant_in snd pSndQueue pRcvQueue set_pSndQueue].
  rewrite keys_map; [done|]. intros e. by case_if.
Qed.

Lemma republish_ok p etb op src dest s n : session_ok s n -> session_ok (republish_in p etb op src dest s) n.
Proof.
  apply session_ok_keys; [done|]. rewrite !keys_split. unfold republish_in.
  cbn [pSndQueue pRcvQueue set_pSndQueue]. rewrite keys_update; [done|]. intros e. by rewrite pdInit_default.
Qed.

(** The number of sockets does not shrink. *)
Lemma session_ok_cnt s n : session_ok s n -> n <= n <= VOS_MAX_SOCKET_CNT.
Proof. intros [[((_ & Hn & _) & _) _] _]. lia. Qed.

Lemma session_ok_mono s n n' : n <= n' <= VOS_MAX_SOCKET_CNT -> session_ok s n -> session_ok s n'.
Proof. intros Hn [Hu Hd]. split; [by eapply used_mono|done]. Qed.

Lemma pd_socket_cnt env s n params src g rm err idx ifc n' : session_ok s n -> call_ok env s ->
  trdp_requestSocket (if_sock env) (pd_socket s params src g rm) (iface s) n = (err, idx, ifc, n') ->
  n <= n' <= VOS_MAX_SOCKET_CNT.
Proof.
  intros [Hu Hd] Hc H. apply (used_request _ _ _ _ (map snd (keys s))) in H as [H _]; [exact H|exact Hu|apply Hc| | |].
  - unfold pd_socket. by destruct (default _ _).
  - unfold pd_socket. by destruct (default _ _).
  - rewrite length_map. apply Hc.
Qed.

Lemma resubscribe_ok env p etb op src dest s n s' n' u : session_ok s n -> call_ok env s ->
  resubscribe_in env p etb op src dest s n = (TRDP_NO_ERR, s', n', u) ->
  session_ok s' n' /\ n <= n' <= VOS_MAX_SOCKET_CNT.
Proof.
  intros Hs Hc H. pose proof (session_ok_cnt _ _ Hs) as Hn. unfold resubscribe_in in H. cbv zeta in H.
  destruct (find_ele p (pRcvQueue s)) as [e|] eqn:Ef; [|by injection H as <- <- <-].
  destruct (_ && _).
  - destruct (trdp_requestSocket _ _ _ _) as [[[r idx] ifc] m] eqn:Er. injection H as -> <- <- _.
    cbn [is_ok]. set (q1 := unlink ele_ptr p (pRcvQueue s)).
    assert (Hk : keys s ≡ₚ ele_key e :: keys (set_pRcvQueue q1 s)).
    { rewrite !keys_split. cbn [pSndQueue pRcvQueue set_pRcvQueue].
      rewrite (keys_unlink p e _ Ef). by rewrite Permutation_middle. }
    set (s1 := set_iface (trdp_releaseSocket (if_sock env) (iface s) (socketIdx e) 0 false) (set_pRcvQueue q1 s)).
    assert (H1 : session_ok s1 n) by (eapply remove_element_ok; [exact Hs|done|exact Hk]).
    assert (Hc1 : call_ok env s1).
    { pose proof (Permutation_length Hk) as Hl. cbn [length] in Hl. split; [apply Hc| |].
      - intros x Hx Hin. apply (call_fresh env s Hc x Hx). change (x ∈ (fst <$> keys s)). rewrite Hk. right. exact Hin.
      - pose proof (call_room env s Hc). change (keys s1) with (keys (set_pRcvQueue q1 s)). lia. }
    pose proof (pd_socket_cnt env s1 n None (realIP s) dest true _ _ _ _ H1 Hc1 Er) as Hm. split; [|exact Hm].
    apply (pd_socket_ok env s1 n None (realIP s) dest true) in Er; [|done|done]. cbn [is_ok] in Er.
    destruct Er as (i & -> & Er). cbn [default].
    eapply (add_element_ok s1 _ _ (set_socketIdx i e)); [exact Er|apply H1| |].
    + destruct Hs as [_ Hd]. change (NoDup (fst <$> keys s)) in Hd. rewrite Hk in Hd. by apply list.NoDup_cons in Hd as [Hd _].
    + rewrite !keys_split. cbn [pSndQueue pRcvQueue set_pRcvQueue set_iface s1].
      destruct Hs as [_ Hd]. rewrite keys_split, map_app in Hd. apply list.NoDup_app in Hd as (_ & _ & Hd).
      rewrite (keys_replace_perm p e _ _ Hd Ef). by rewrite Permutation_middle.
  - injection H as <- <- <-. split; [|done]. revert Hs. apply session_ok_keys; [done|]. rewrite !keys_split.
    cbn [pSndQueue pRcvQueue set_pRcvQueue]. by rewrite keys_update.
Qed.

Ltac cnt_leaves H := cbv zeta in H;
  repeat match type of H with
         | (let '(_, _) := ?x in _) = _ => destruct x
         | (if ?b then _ else _) = _ => destruct b
         | match ?x with Some _ => _ | None => _ end = _ => destruct x
         end; injection H; intros; subst.

Lemma publish_cnt env ss a s n err s' n' h : session_ok s n -> call_ok env s ->
  publish_in env ss a s n = (err, s', n', h) -> n <= n' <= VOS_MAX_SOCKET_CNT.
Proof.
  intros Hs Hc H. pose proof (session_ok_cnt _ _ Hs) as Hn. unfold publish_in in H.
  destruct (trdp_queueFindPubAddr _ _); [by injection H as <- <- <- <-|].
  destruct (if_elem env) as [p|]; [|by injection H as <- <- <- <-].
  destruct (trdp_requestSocket _ _ _ _) as [[[r idx] ifc] m] eqn:Er. apply pd_socket_cnt in Er; [|done|done].
  by cnt_leaves H.
Qed.

Lemma subscribe_cnt env a s n err s' n' h : session_ok s n -> call_ok env s ->
  subscribe_in env a s n = (err, s', n', h) -> n <= n' <= VOS_MAX_SOCKET_CNT.
Proof.
  intros Hs Hc H. pose proof (session_ok_cnt _ _ Hs) as Hn. unfold subscribe_in in H.
  destruct (trdp_queueFindSubAddr _ _); [by injection H as <- <- <- <-|].
  destruct (trdp_requestSocket _ _ _ _) as [[[r idx] ifc] m] eqn:Er. apply pd_socket_cnt in Er; [|done|done].
  by cnt_leaves H.
Qed.

Lemma request_cnt env ss sub a s n err s' n' u : session_ok s n -> call_ok env s ->
  request_in env ss sub a s n = (err, s', n', u) -> n <= n' <= VOS_MAX_SOCKET_CNT.
Proof.
  intros Hs Hc H. pose proof (session_ok_cnt _ _ Hs) as Hn. unfold request_in in H.
  destruct (if_elem env) as [p|]; [|by injection H as <- <- <- <-].
  destruct (negb (if_frame env)); [by injection H as <- <- <- <-|].
  destruct (trdp_requestSocket _ _ _ _) as [[[r idx] ifc] m] eqn:Er. apply pd_socket_cnt in Er; [|done|done].
  by cnt_leaves H.
Qed.

(** ** Rounds of the work loop, and polling *)
Lemma send_in_ok rd s n r s' evs : session_ok s n -> send_in rd s = (r, s', evs) -> session_ok s' n.
Proof.
  unfold send_in. intros Hs H. eapply sendQueued_ok; [|exact H]. revert Hs. by apply session_ok_keys.
Qed.

Lemma listen_in_ok rd r s n r' s' io evs : session_ok s n -> listen_in rd r s = (r', s', io, evs) -> session_ok s' n.
Proof.
  unfold listen_in. intros Hs H. destruct (trdp_pdCheckListenSocks _ _ _ _ _ _) as [[[[e s1] f] c] ev] eqn:E.
  cbn [trdp_mdCheckListenSocks trdp_mdCheckTimeouts no_message_data] in H. injection H as <- <- <- <-.
  by eapply checkListenSocks_ok.
Qed.

Lemma process_in_ok rd s n r s' io evs : session_ok s n -> process_in rd s = (r, s', io, evs) -> session_ok s' n.
Proof.
  unfold process_in. intros Hs H. destruct (send_in rd s) as [[r1 s1] ev1] eqn:E1. apply (send_in_ok _ _ n) in E1; [|done].
  pose proof (handleTimeOuts_ok (rd_now rd) s1 n E1) as H2. destruct (trdp_pdHandleTimeOuts _ _) as [s2 ev2].
  cbn in H. destruct (listen_in _ _ _) as [[[r3 s4] io4] ev3] eqn:E3. injection H as <- <- <- <-.
  by eapply listen_in_ok.
Qed.

Lemma process_recv_in_ok rd s n r s' io evs : session_ok s n -> process_recv_in rd s = (r, s', io, evs) -> session_ok s' n.
Proof.
  unfold process_recv_in. intros Hs H.
  assert (H1 : session_ok (set_nextJob timerclear s) n) by (revert Hs; by apply session_ok_keys).
  pose proof (handleTimeOuts_ok (rd_now rd) _ n H1) as H2. destruct (trdp_pdHandleTimeOuts _ _) as [s2 ev2].
  destruct (listen_in _ _ _) as [[[r3 s4] io4] ev3] eqn:E3. injection H as <- <- <- <-. by eapply listen_in_ok.
Qed.

Lemma process_send_in_ok rd s n r s' evs : session_ok s n -> process_send_in rd s = (r, s', evs) -> session_ok s' n.
Proof.
  unfold process_send_in. intros Hs H. destruct (send_in rd s) as [[r1 s1] ev1] eqn:E1.
  apply (send_in_ok _ _ n) in E1; [|done]. cbn in H. by injection H as <- <- <-.
Qed.

Lemma poll_key now um room e : ele_key (snd (poll now um room e)) = ele_key e.
Proof.
  unfold poll, trdp_pdGet. cbv zeta. destruct (_ && _); [done|]. destruct (flag _ _); [done|]. destruct (flag _ _); [done|].
  destruct room; [|done]. destruct (if flag _ _ then um else None) as [m|]; [|by case_if].
  by destruct (m _ _ _ _) as [[ret bs] n'].
Qed.

Lemma get_in_ok rd p room s n r s' x : session_ok s n -> get_in rd p room s = (r, s', x) -> session_ok s' n.
Proof.
  unfold get_in. intros Hs H. destruct (find_ele p (pRcvQueue s)) as [e|]; [|by injection H as <- <- <-].
  set (q := if flag _ _ then _ else _) in H.
  assert (Hq : session_ok (fst q) n).
  { unfold q. destruct (flag _ _); [done|]. destruct (iface s !! _) as [k|]; [|done].
    destruct (receive_all _ _ _ _ _) as [[[a b] s1] ev] eqn:E. by eapply receive_all_ok. }
  destruct q as [s1 evs]. cbn [fst] in Hq.
  destruct (find_ele p (pRcvQueue s1)) as [e1|] eqn:Ef; [|by injection H as <- <- <-].
  pose proof (poll_key (rd_now rd) (pfCbUnmarshall s1) room e1) as Hk.
  destruct (poll _ _ _ _) as [[[ret bs] k] e2]. injection H as <- <- <-.
  eapply session_ok_keys; [..|exact Hq]; [done|]. rewrite !keys_split.
  cbn [pSndQueue pRcvQueue set_pRcvQueue]. by rewrite (set_rcv_ok s1 n e1 e2).
Qed.

Lemma getInterval_in_ok now fds s n s' t fds' : session_ok s n -> getInterval_in now fds s = (s', t, fds') -> session_ok s' n.
Proof.
  unfold getInterval_in, trdp_pdCheckPending. cbn [trdp_mdCheckPending no_message_data]. cbv zeta. intros Hs H.
  injection H as <- _ _. revert Hs. apply session_ok_keys; by case_if.
Qed.

(** ** All sessions, and the calls of the interface *)
Definition stack_ok (st : TRDP_STACK) : Prop :=
  0 <= sCurrentMaxSocketCnt st <= VOS_MAX_SOCKET_CNT
  /\ Forall (fun p => session_ok (snd p) (sCurrentMaxSocketCnt st)) (sSession st).

(** What a call may count on: see [call_ok]. *)
Definition calls_ok (env : if_env) (st : TRDP_STACK) : Prop :=
  Forall (fun p => call_ok env (snd p)) (sSession st).

Lemma find_session_in st h s : find_session st h = Some s -> exists h', (h', s) ∈ sSession st.
Proof.
  unfold find_session. destruct (find _ _) as [[h' s']|] eqn:E; [|done]. intros [= <-]. exists h'.
  apply find_some in E as [E _]. by apply list_elem_of_In.
Qed.

Lemma find_session_ok st h s : stack_ok st -> find_session st h = Some s -> session_ok s (sCurrentMaxSocketCnt st).
Proof.
  intros [_ Hf] H. apply find_session_in in H as [h' H]. rewrite list.Forall_forall in Hf. apply (Hf _ H).
Qed.

Lemma find_session_call env st s : calls_ok env st -> (exists h, find_session st h = Some s) -> call_ok env s.
Proof.
  intros Hf [h H]. apply find_session_in in H as [h' H]. unfold calls_ok in Hf. rewrite list.Forall_forall in Hf.
  apply (Hf _ H).
Qed.

Lemma put_ok_stack st h s n : stack_ok st -> session_ok s n -> sCurrentMaxSocketCnt st <= n <= VOS_MAX_SOCKET_CNT ->
  stack_ok (set_maxSocket n (put_session h s st)).
Proof.
  intros [Hn Hf] Hs Hm. split; cbn; [lia|]. apply list.Forall_fmap. eapply list.Forall_impl; [exact Hf|].
  intros [h' s'] H. cbn. destruct (h' =? h); [exact Hs|]. by eapply session_ok_mono.
Qed.

Lemma with_session_ok {A} env nolock h st (d : A) f err st' r :
  stack_ok st -> with_session env nolock h st d f = (err, st', r) ->
  (forall s s' n' err' r', session_ok s (sCurrentMaxSocketCnt st) -> (exists h', find_session st h' = Some s) ->
     f s (sCurrentMaxSocketCnt st) = (err', s', n', r') -> (err = err') ->
     session_ok s' n' /\ sCurrentMaxSocketCnt st <= n' <= VOS_MAX_SOCKET_CNT) ->
  stack_ok st'.
Proof.
  intros Hst H Hf. unfold with_session in H. destruct h as [h|]; [|by injection H as <- <- <-].
  destruct (if trdp_isValidSession _ _ _ then _ else _) as [s|] eqn:Ef; [|by injection H as <- <- <-].
  destruct (trdp_isValidSession _ _ _); [|done].
  destruct (negb _); [by injection H as <- <- <-|].
  destruct (f s _) as [[[e s'] n] a] eqn:E. injection H as <- <- <-.
  destruct (Hf s s' n e a (find_session_ok _ _ _ Hst Ef)) as [H1 H2]; [by exists h|exact E|done|].
  by apply put_ok_stack.
Qed.

Lemma fst_result {A B C} (r : A * B * C) a b : fst r = (a, b) -> exists c, r = (a, b, c).
Proof. destruct r as [[x y] z]. cbn. intros [= -> ->]. by exists z. Qed.

(** A call [H] of the interface, whose body keeps the counts: the body's result is left in [H]. *)
Ltac call_body H :=
  try (apply fst_result in H as [? H]);
  eapply with_session_ok; [eassumption|exact H|]; clear H; cbv beta;
  intros s s' n' e' r' Hs Hfind H He.

Lemma session_same st s n n' : stack_ok st -> session_ok s (sCurrentMaxSocketCnt st) -> n' = sCurrentMaxSocketCnt st ->
  n = n' -> session_ok s n' /\ sCurrentMaxSocketCnt st <= n <= VOS_MAX_SOCKET_CNT.
Proof. intros [Hn _] Hs -> ->. split; [done|lia]. Qed.

(** The calls an application makes. The results of the allocator are new pointers; the frames of
    publishers and subscribers are allocated, and a subscription moves to another group only with
    success: [publish_no_frame] and [resubscribe_failed] show what happens otherwise. *)
Inductive api_step (st : TRDP_STACK) : TRDP_STACK -> Prop :=
| do_init a b c err st' : tlc_init a b c st = (err, st') -> api_step st st'
| do_open env room p mutex ip m c o err st' h :
    tlc_openSession env room p mutex ip m c o st = (err, st', h) -> api_step st st'
| do_close env h err st' x : tlc_closeSession env h st = (err, st', x) -> api_step st st'
| do_terminate env k err st' : tlc_terminate env k st = Some (err, st') -> api_step st st'
| do_setRedundant env h r l err st' : tlp_setRedundant env h r l st = (err, st') -> api_step st st'
| do_setEtb env h c err st' : tlc_setETBTopoCount env h c st = (err, st') -> api_step st st'
| do_setOp env h c err st' : tlc_setOpTrainTopoCount env h c st = (err, st') -> api_step st st'
| do_publish env h room a err st' p : calls_ok env st -> if_frame env = true ->
    tlp_publish env h room a st = (err, st', p) -> api_step st st'
| do_republish env h p c o src dst err st' : tlp_republish env h p c o src dst st = (err, st') -> api_step st st'
| do_unpublish env h p err st' : tlp_unpublish env h p st = (err, st') -> api_step st st'
| do_put env h p d k err st' : tlp_put env h p d k st = (err, st') -> api_step st st'
| do_getInterval env h room fds err st' t : tlc_getInterval env h room fds st = (err, st', t) -> api_step st st'
| do_process env h rd err st' x : tlc_process env h rd st = (err, st', x) -> api_step st st'
| do_process_recv env h rd err st' x : tlc_process_recv env h rd st = (err, st', x) -> api_step st st'
| do_process_send env h rd err st' x : tlc_process_send env h rd st = (err, st', x) -> api_step st st'
| do_request env h sub a err st' : calls_ok env st -> tlp_request env h sub a st = (err, st') -> api_step st st'
| do_subscribe env h room a err st' p : calls_ok env st -> if_frame env = true ->
    tlp_subscribe env h room a st = (err, st', p) -> api_step st st'
| do_unsubscribe env h p err st' : tlp_unsubscribe env h p st = (err, st') -> api_step st st'
| do_resubscribe env h p c o src dst st' : calls_ok env st ->
    tlp_resubscribe env h p c o src dst st = (TRDP_NO_ERR, st') -> api_step st st'
| do_get env rd h p room err st' x : tlp_get env rd h p room st = (err, st', x) -> api_step st st'.

Definition initial_stack : TRDP_STACK := mkStack false [] 0.

(** The elements of the queues that hold entry [k]. *)
Definition holders (s : TRDP_SESSION_T) (k : nat) : list PD_ELE_T :=
  filter (fun e => socketIdx e = Z.of_nat k) (pSndQueue s ++ pRcvQueue s).

Lemma holders_refs s k : refs_in (map snd (keys s)) k = Z.of_nat (length (holders s k)).
Proof.
  unfold refs_in, holders, keys, q_keys. rewrite <- map_app, map_map. cbn. f_equal.
  induction (pSndQueue s ++ pRcvQueue s) as [|e q IH]; [done|]. cbn [map]. rewrite !filter_cons.
  case_decide; cbn [length]; congruence.
Qed.

Lemma holders_in s k : Z.of_nat k ∈ map snd (keys s) <-> holders s k <> [].
Proof.
  unfold holders, keys, q_keys. rewrite <- map_app, map_map. cbn.
  induction (pSndQueue s ++ pRcvQueue s) as [|e q IH]; cbn [map].
  { split; [intros H; by apply not_elem_of_nil in H|done]. }
  rewrite filter_cons, list.elem_of_cons. case_decide as Hd; [|rewrite IH; split; [intros [E|E]; [by symmetry in E|done]|by right]].
  split; [done|]. intros _. by left.
Qed.

Lemma fresh_used n : 0 <= n <= VOS_MAX_SOCKET_CNT ->
  used (trdp_initSockets (repeat zero_sock (Z.to_nat VOS_MAX_SOCKET_CNT))) n [].
Proof.
  intros Hn.
  assert (Hf : Forall (fun s => s = set_sock VOS_INVALID_SOCKET zero_sock)
                 (trdp_initSockets (repeat zero_sock (Z.to_nat VOS_MAX_SOCKET_CNT)))).
  { unfold trdp_initSockets. rewrite map_repeat. apply list.Forall_forall. intros x Hx.
    apply list_elem_of_In in Hx. by apply repeat_spec in Hx. }
  split; [split|constructor].
  - split; [|split; [lia|]].
    + unfold trdp_initSockets. by rewrite length_map, repeat_length.
    + eapply list.Forall_impl; [exact Hf|]. intros x ->. apply mc_ok_zero.
  - intros j s Hj. rewrite list.Forall_lookup in Hf. rewrite (Hf _ _ Hj). split; [done|]. by intros [].
Qed.

Lemma open_ok st env room p mutex ip m c o err st' h : stack_ok st ->
  tlc_openSession env room p mutex ip m c o st = (err, st', h) -> stack_ok st'.
Proof.
  intros Hst H. unfold tlc_openSession in H.
  destruct (negb room); [by injection H as <- <- <-|]. destruct (negb (sInited st)); [by injection H as <- <- <-|].
  destruct p as [p|]; [|by injection H as <- <- <-]. cbv zeta in H.
  destruct (negb _); [by injection H as <- <- <-|]. destruct (negb _); [by injection H as <- <- <-|].
  destruct (negb _); [by injection H as <- <- <-|]. injection H as <- <- <-.
  destruct Hst as [Hn Hf]. split; cbn [sSession sCurrentMaxSocketCnt]; [done|]. constructor; [|done].
  cbn [snd]. set (s0 := tlc_configSession m c o (fresh_session ip)).
  assert (Hk : keys s0 = [] /\ iface s0 = repeat zero_sock (Z.to_nat VOS_MAX_SOCKET_CNT)).
  { unfold s0, tlc_configSession. by destruct o, m as [[]|], c. }
  destruct Hk as [Hk Hi]. split.
  - cbn [iface set_iface set_pNewFrame set_nextJob]. change (keys _) with (keys s0). rewrite Hk, Hi.
    by apply fresh_used.
  - change (keys _) with (keys s0). rewrite Hk. constructor.
Qed.

Lemma close_ok st env h err st' x : stack_ok st -> tlc_closeSession env h st = (err, st', x) -> stack_ok st'.
Proof.
  intros [Hn Hf] H. unfold tlc_closeSession in H. destruct h as [h|]; [|by injection H as <- <- <-].
  destruct (negb _); [by injection H as <- <- <-|]. destruct (find_session st h); [|by injection H as <- <- <-].
  injection H as <- <- <-. split; [done|]. apply list.Forall_forall. intros q Hq.
  apply list_elem_of_filter in Hq as [_ Hq]. rewrite list.Forall_forall in Hf. by apply Hf.
Qed.

Lemma terminate_ok env k : forall st ret err st', stack_ok st -> terminate_loop env k ret st = Some (err, st') -> stack_ok st'.
Proof.
  induction k as [|k IH]; intros st ret err st' Hst H; cbn [terminate_loop] in H; destruct (sSession st) as [|[h s] l] eqn:El;
    try (by injection H as <- <-); [done|].
  destruct (tlc_closeSession env (Some h) st) as [[e st1] x] eqn:E. apply close_ok in E; [|done]. by eapply IH.
Qed.

Lemma redundant_call st env h r l err st' : stack_ok st -> tlp_setRedundant env h r l st = (err, st') -> stack_ok st'.
Proof.
  intros Hst H. unfold tlp_setRedundant in H. call_body H. pose proof (setRedundant_ok r l s _ Hs) as Hk.
  destruct (setRedundant_in r l s). injection H as <- <- <- <-. by apply (session_same st).
Qed.

Lemma topo_call st env h c err st' : stack_ok st ->
  tlc_setETBTopoCount env h c st = (err, st') \/ tlc_setOpTrainTopoCount env h c st = (err, st') -> stack_ok st'.
Proof.
  intros Hst [H|H]; [unfold tlc_setETBTopoCount in H|unfold tlc_setOpTrainTopoCount in H]; call_body H;
    injection H as <- <- <- <-; apply (session_same st); try done; revert Hs; by apply session_ok_keys.
Qed.

Lemma publish_call st env h room a err st' p : calls_ok env st -> if_frame env = true -> stack_ok st ->
  tlp_publish env h room a st = (err, st', p) -> stack_ok st'.
Proof.
  intros Hc Hfr Hst H. unfold tlp_publish in H. destruct (_ || _); [by injection H as <- <- <-|]. call_body H.
  pose proof (find_session_call env st s Hc Hfind) as Hcs. split; [by eapply publish_ok|by eapply publish_cnt].
Qed.

Lemma subscribe_call st env h room a err st' p : calls_ok env st -> if_frame env = true -> stack_ok st ->
  tlp_subscribe env h room a st = (err, st', p) -> stack_ok st'.
Proof.
  intros Hc Hfr Hst H. unfold tlp_subscribe in H. destruct (negb _); [by injection H as <- <- <-|]. call_body H.
  pose proof (find_session_call env st s Hc Hfind) as Hcs. split; [by eapply subscribe_ok|by eapply subscribe_cnt].
Qed.

Lemma request_call st env h sub a err st' : calls_ok env st -> stack_ok st ->
  tlp_request env h sub a st = (err, st') -> stack_ok st'.
Proof.
  intros Hc Hst H. unfold tlp_request in H. destruct h as [h|], sub as [sub|]; try (by injection H as <- <-).
  destruct (_ || _); [by injection H as <- <-|]. destruct (negb _); [by injection H as <- <-|]. call_body H.
  pose proof (find_session_call env st s Hc Hfind) as Hcs. split; [by eapply request_ok|by eapply request_cnt].
Qed.

Lemma resubscribe_call st env h p c o src dst st' : calls_ok env st -> stack_ok st ->
  tlp_resubscribe env h p c o src dst st = (TRDP_NO_ERR, st') -> stack_ok st'.
Proof.
  intros Hc Hst H. unfold tlp_resubscribe in H. do 2 (destruct (negb _); [done|]). call_body H. subst e'.
  pose proof (find_session_call env st s Hc Hfind) as Hcs. by eapply resubscribe_ok.
Qed.

Lemma unpublish_call st env h p err st' : stack_ok st -> tlp_unpublish env h p st = (err, st') -> stack_ok st'.
Proof.
  intros Hst H. unfold tlp_unpublish in H. destruct p as [p|]; [|by injection H as <- <-].
  destruct (negb _); [by injection H as <- <-|]. call_body H.
  destruct (unpublish_in env p s) as [e1 s1] eqn:E. injection H as <- <- <- <-.
  apply (session_same st); try done. by eapply unpublish_ok.
Qed.

Lemma put_call st env h p d k err st' : stack_ok st -> tlp_put env h p d k st = (err, st') -> stack_ok st'.
Proof.
  intros Hst H. unfold tlp_put in H. destruct p as [p|]; [|by injection H as <- <-].
  destruct (negb _); [by injection H as <- <-|]. call_body H.
  destruct (put_in env p d k s) as [e1 s1] eqn:E. injection H as <- <- <- <-.
  apply (session_same st); try done. by eapply put_ok.
Qed.

Lemma republish_call st env h p c o src dst err st' : stack_ok st ->
  tlp_republish env h p c o src dst st = (err, st') -> stack_ok st'.
Proof.
  intros Hst H. unfold tlp_republish in H. do 2 (destruct (negb _); [by injection H as <- <-|]). call_body H.
  injection H as <- <- <- <-. apply (session_same st); try done. by apply republish_ok.
Qed.

Lemma unsubscribe_call st env h p err st' : stack_ok st -> tlp_unsubscribe env h p st = (err, st') -> stack_ok st'.
Proof.
  intros Hst H. unfold tlp_unsubscribe in H. destruct p as [p|]; [|by injection H as <- <-].
  destruct (negb _); [by injection H as <- <-|]. call_body H. injection H as <- <- <- <-.
  apply (session_same st); try done. by apply unsubscribe_ok.
Qed.

Lemma get_call st env rd h p room err st' x : stack_ok st ->
  tlp_get env rd h p room st = (err, st', x) -> stack_ok st'.
Proof.
  intros Hst H. unfold tlp_get in H. destruct p as [p|]; [|by injection H as <- <- <-].
  destruct (negb _); [by injection H as <- <- <-|]. call_body H.
  destruct (get_in rd p room s) as [[e1 s1] y] eqn:E. injection H as <- <- <- <-.
  apply (session_same st); try done. by eapply get_in_ok.
Qed.

Lemma interval_call st env h room fds err st' t : stack_ok st ->
  tlc_getInterval env h room fds st = (err, st', t) -> stack_ok st'.
Proof.
  intros Hst H. unfold tlc_getInterval in H. destruct (negb _); [by injection H as <- <- <-|].
  destruct room, fds as [fds|]; try (by injection H as <- <- <-). call_body H.
  destruct (getInterval_in _ _ _) as [[s1 t1] f1] eqn:E. injection H as <- <- <- <-.
  apply (session_same st); try done. by eapply getInterval_in_ok.
Qed.

Lemma process_call st env h rd err st' :
  stack_ok st ->
  (exists x, tlc_process env h rd st = (err, st', x)) \/ (exists x, tlc_process_recv env h rd st = (err, st', x))
  \/ (exists x, tlc_process_send env h rd st = (err, st', x)) -> stack_ok st'.
Proof.
  intros Hst [[x H]|[[x H]|[x H]]].
  - unfold tlc_process in H. call_body H. destruct (process_in rd s) as [[[r1 s1] io] ev] eqn:E.
    injection H as <- <- <- <-. apply (session_same st); try done. by eapply process_in_ok.
  - unfold tlc_process_recv in H. call_body H. destruct (process_recv_in rd s) as [[[r1 s1] io] ev] eqn:E.
    injection H as <- <- <- <-. apply (session_same st); try done. by eapply process_recv_in_ok.
  - unfold tlc_process_send in H. call_body H. destruct (process_send_in rd s) as [[r1 s1] ev] eqn:E.
    injection H as <- <- <- <-. apply (session_same st); try done. by eapply process_send_in_ok.
Qed.

Lemma init_call st a b c err st' : stack_ok st -> tlc_init a b c st = (err, st') -> stack_ok st'.
Proof. unfold tlc_init. intros Hst H. destruct (sInited st); injection H as <- <-; [done|]. by case_if. Qed.

Lemma terminate_call st env k err st' : stack_ok st -> tlc_terminate env k st = Some (err, st') -> stack_ok st'.
Proof.
  unfold tlc_terminate. intros Hst H. destruct (sInited st); [|by injection H as <- <-].
  destruct (terminate_loop _ _ _ _) as [[e st1]|] eqn:E; [|done]. injection H as <- <-. by apply terminate_ok in E.
Qed.

Lemma api_step_ok st st' : stack_ok st -> api_step st st' -> stack_ok st'.
Proof.
  intros Hst [].
  - by eapply init_call.
  - by eapply open_ok.
  - by eapply close_ok.
  - by eapply terminate_call.
  - by eapply redundant_call.
  - eapply topo_call; [done|left; eassumption].
  - eapply topo_call; [done|right; eassumption].
  - by eapply publish_call.
  - by eapply republish_call.
  - by eapply unpublish_call.
  - by eapply put_call.
  - by eapply interval_call.
  - eapply process_call; [done|left; eexists; eassumption].
  - eapply process_call; [done|right; left; eexists; eassumption].
  - eapply process_call; [done|right; right; eexists; eassumption].
  - by eapply request_call.
  - by eapply subscribe_call.
  - by eapply unsubscribe_call.
  - by eapply resubscribe_call.
  - by eapply get_call.
Qed.

Lemma reachable_ok st : rtc api_step initial_stack st -> stack_ok st.
Proof.
  assert (H0 : stack_ok initial_stack) by (split; [by vm_compute|constructor]). revert H0.
  generalize initial_stack. intros st0 H0 H. induction H as [|x y z H _ IH]; [done|].
  apply IH. by eapply api_step_ok.
Qed.


(** A run: a session is opened and two publishers share a socket. *)
Definition demo_env (p : Z) : if_env := mkIfEnv TRDP_NO_ERR TRDP_NO_ERR (Some p) true example_env 0.
Definition demo_args (comId_ : Z) : pub_args :=
  mkPub comId_ 0 0 0 0x0a000002 100000 0 TRDP_FLAGS_NONE None None 0.
Definition demo_init : TRDP_STACK := snd (tlc_init TRDP_NO_ERR TRDP_NO_ERR TRDP_NO_ERR initial_stack).
Definition demo_open : TRDP_STACK :=
  snd (fst (tlc_openSession (demo_env 0) true (Some 1) TRDP_NO_ERR 0x0a000001 None None None demo_init)).
Definition demo_pub1 : TRDP_STACK := snd (fst (tlp_publish (demo_env 10) (Some 1) true (demo_args 1000) demo_open)).
Definition demo_pub2 : TRDP_STACK := snd (fst (tlp_publish (demo_env 20) (Some 1) true (demo_args 2000) demo_pub1)).
Definition demo_session : TRDP_SESSION_T := default (fresh_session 0) (find_session demo_pub2 1).
Definition demo_entry : TRDP_SOCKETS_T := default zero_sock (iface demo_session !! 0%nat).

Lemma pair_result {A B} (r : A * B) : r = (fst r, snd r).
Proof. by destruct r. Qed.
Lemma triple_result {A B C} (r : A * B * C) : r = (fst (fst r), snd (fst r), snd r).
Proof. by destruct r as [[x y] z]. Qed.

Lemma demo_opens : opens_ok example_env.
Proof. by intros o fd [[= <-]|[= <-]]. Qed.

Lemma demo_calls p st : Forall (fun x => x ∉ [p]) (map fst (concat (map (fun q => keys (snd q)) (sSession st)))) ->
  Forall (fun q => Z.of_nat (length (keys (snd q))) < 32767) (sSession st) -> calls_ok (demo_env p) st.
Proof.
  intros Hf Hl. unfold calls_ok. apply list.Forall_forall. intros q Hq. split.
  - exact demo_opens.
  - intros x [= <-] Hx. rewrite list.Forall_forall in Hf. eapply Hf; [|by left].
    apply list_elem_of_In, in_map_iff in Hx as (y & <- & Hy). apply list_elem_of_In, in_map, in_concat.
    exists (keys (snd q)). split; [|exact Hy]. apply (in_map (fun q => keys (snd q))). by apply list_elem_of_In.
  - rewrite list.Forall_forall in Hl. by apply Hl.
Qed.

Lemma demo_reachable : rtc api_step initial_stack demo_pub2.
Proof.
  apply (rtc_l _ _ demo_init); [eapply do_init, pair_result|].
  apply (rtc_l _ _ demo_open); [eapply do_open, triple_result|].
  apply (rtc_l _ _ demo_pub1).
  { eapply (do_publish _ (demo_env 10)); [|done|apply triple_result].
    apply demo_calls; apply (bool_decide_unpack _); vm_compute; exact I. }
  apply (rtc_l _ _ demo_pub2); [|apply rtc_refl].
  eapply (do_publish _ (demo_env 20)); [|done|apply triple_result].
  apply demo_calls; apply (bool_decide_unpack _); vm_compute; exact I.
Qed.


(** ** The time until the next job *)
Lemma job_interval_in_time now next t : time_ok now -> time_ok next -> time_ok t -> timerisset next = true ->
  to_us next <= to_us t ->
  0 <= to_us (job_interval now next) <= Z.max 0 (to_us t - to_us now).
Proof.
  intros Hn Hx Ht Hs Hle. unfold job_interval. rewrite Hs. cbn [andb]. rewrite timer_lt_spec by done.
  destruct (to_us now <? to_us next) eqn:E; bprop; [rewrite subTime_us by done; lia|change (to_us (mkTime 0 0)) with 0; lia].
Qed.

Lemma with_session_result {A} env nolock h st (d : A) f st' r s :
  with_session env nolock (Some h) st d f = (TRDP_NO_ERR, st', r) -> nolock <> TRDP_NO_ERR \/ nolock = if_lock env ->
  find_session st h = Some s ->
  exists s' n', f s (sCurrentMaxSocketCnt st) = (TRDP_NO_ERR, s', n', r) /\ find_session st' h = Some s'.
Proof.
  intros H Hl Hf. unfold with_session in H. destruct (trdp_isValidSession env st (Some h)); [|discriminate H].
  rewrite Hf in H. destruct (is_ok (if_lock env)) eqn:El; cbn [negb] in H.
  - destruct (f s _) as [[[e s'] n] a] eqn:E. injection H as -> <- <-. exists s', n. split; [done|].
    unfold find_session, put_session in *. cbn in *.
    induction (sSession st) as [|[k x] l IH]; [done|]. cbn in *. destruct (k =? h) eqn:Ek; cbn.
    + by rewrite Z.eqb_refl.
    + rewrite Ek. by apply IH.
  - injection H as -> <- <-. destruct Hl as [Hl|Hl]; [done|]. by rewrite <- Hl in El.
Qed.

(** C39: The interval [tlc_getInterval] returns is never negative and, for every subscription that has
    not timed out yet and every cyclic publisher, not longer than the time until it must be
    handled; it is zero when one is overdue. Message data may shorten it. *)
Theorem tlc_getInterval_in_time `{MdLaws} env h fds st st' iv fds' s :
  let now := vos_getTime (if_sock env) in
  let ts := rcv_times (pRcvQueue s) ++ snd_times (pSndQueue s) in
  find_session st h = Some s -> time_ok now -> Forall (fun t => time_ok t /\ timerisset t = true) ts ->
  tlc_getInterval env (Some h) true (Some fds) st = (TRDP_NO_ERR, st', Some (iv, fds')) ->
  Forall (fun t => 0 <= to_us iv <= Z.max 0 (to_us t - to_us now)) ts.
Proof.
  intros now ts Hf Hn Hts H1. unfold tlc_getInterval in H1. destruct (negb _); [done|].
  destruct (with_session_result _ _ _ _ _ _ _ _ s H1 (or_intror eq_refl) Hf) as (s' & n' & E & _). cbv beta in E.
  unfold getInterval_in in E. pose proof (trdp_pdCheckPending_earliest (set_nextJob timerclear s) fds Hts) as [_ He].
  destruct (trdp_pdCheckPending (set_nextJob timerclear s) fds) as [s1 fds1]. cbn [fst] in He.
  pose proof (md_pending_nextJob s1 fds1) as Hmd. destruct (trdp_mdCheckPending s1 fds1) as [s2 fds2].
  cbn [fst] in Hmd. cbv zeta in E, Hmd. injection E as _ _ <- _. fold now.
  change (rcv_times (pRcvQueue (set_nextJob timerclear s)) ++ snd_times (pSndQueue (set_nextJob timerclear s))) with ts in He.
  destruct (decide (ts = [])) as [->|Hne]; [constructor|]. destruct (He Hne) as [Hin Hmin].
  rewrite list.Forall_forall in Hts, Hmin |- *. intros t Ht. destruct (Hts _ Hin) as [Hk Hset]. destruct (Hts _ Ht) as [Htk _].
  destruct Hmd as [->|(Hok & Hs2 & Hlt)]; apply job_interval_in_time; auto.
  unfold earlier in Hlt. rewrite Hset, orb_false_r, timer_lt_spec in Hlt by done. specialize (Hmin _ Ht). bprop. lia.
Qed.

Lemma tlc_getInterval_in_time_witness :
  exists st' iv fds', tlc_getInterval (demo_env 0) (Some 1) true (Some (∅, 0)) demo_pub2 = (TRDP_NO_ERR, st', Some (iv, fds'))
  /\ Forall (fun t => 0 <= to_us iv <= Z.max 0 (to_us t - to_us (mkTime 100 0)))
       (rcv_times (pRcvQueue demo_session) ++ snd_times (pSndQueue demo_session)).
Proof.
  eexists _, _, _. split; [vm_compute; reflexivity|].
  eapply (tlc_getInterval_in_time (demo_env 0) 1 (∅, 0) demo_pub2).
  - by vm_compute.
  - apply (bool_decide_unpack _); vm_compute; exact I.
  - apply (bool_decide_unpack _); vm_compute; exact I.
  - vm_compute; reflexivity.
Defined.

(** ** Redundancy *)
Lemma with_session_locks {A} env h st (d : A) f st' r :
  with_session env (if_lock env) h st d f = (TRDP_NO_ERR, st', r) ->
  is_ok (if_sessionLock env) = true /\ is_ok (if_lock env) = true.
Proof.
  unfold with_session, trdp_isValidSession. destruct h as [h|]; [|done].
  destruct (is_ok (if_sessionLock env)); [|done]. cbn [andb]. destruct (existsb _ _); [|done].
  destruct (find_session st h); [|done]. destruct (if_lock env); done.
Qed.

Lemma with_session_eval {A} env nolock h st (d : A) f s :
  is_ok (if_sessionLock env) = true -> is_ok (if_lock env) = true -> find_session st h = Some s ->
  with_session env nolock (Some h) st d f
  = (let '(err, s', n, a) := f s (sCurrentMaxSocketCnt st) in (err, set_maxSocket n (put_session h s' st), a)).
Proof.
  intros H1 H2 Hf. unfold with_session, trdp_isValidSession. rewrite H1.
  assert (existsb (fun p => fst p =? h) (sSession st) = true) as ->.
  { unfold find_session in Hf. destruct (find _ _) as [x|] eqn:E; [|done].
    apply find_some in E. apply existsb_exists. by exists x. }
  cbn [andb]. by rewrite Hf, H2.
Qed.

Definition redundant (e : PD_ELE_T) : bool := flag (privFlags e) TRDP_REDUNDANT.

Lemma redundant_bit x l :
  flag (if l : bool then clear_flag x TRDP_REDUNDANT else set_flag x TRDP_REDUNDANT) TRDP_REDUNDANT = negb l.
Proof.
  unfold flag, truthy. f_equal. destruct l; cbn [negb].
  - unfold clear_flag, not8. rewrite <- Z.land_assoc. by rewrite Z.land_0_r.
  - unfold set_flag. rewrite Z.land_lor_distr_l, Z.land_diag. apply Z.eqb_neq. intros E.
    apply (f_equal (fun z => z &&& TRDP_REDUNDANT)) in E.
    rewrite Z.land_lor_distr_l, Z.land_diag, <- Z.land_assoc, Z.land_diag in E.
    apply Z.lor_eq_0_iff in E as [_ E]. done.
Qed.

Lemma red_matches_spec r e : red_matches r e = bool_decide (r = 0 \/ redId e = r).
Proof.
  unfold red_matches. destruct (decide (redId e = r)) as [->|Hn].
  - rewrite Z.eqb_refl, bool_decide_eq_true_2 by auto. done.
  - rewrite (proj2 (Z.eqb_neq (redId e) r) Hn). cbn [orb].
    destruct (decide (r = 0)) as [->|Hr].
    + rewrite (proj2 (Z.eqb_neq (redId e) 0) Hn), bool_decide_eq_true_2 by auto. done.
    + rewrite bool_decide_eq_false_2 by (by intros [?|?]). rewrite (proj2 (Z.eqb_neq 0 r)) by done. apply andb_false_r.
Qed.

Lemma setRedundant_read r leader s : r <> 0 -> existsb (red_matches r) (pSndQueue s) = true ->
  getRedundant_in r (snd (setRedundant_in r leader s)) = Some leader.
Proof.
  intros Hr. unfold getRedundant_in. cbn [setRedundant_in snd pSndQueue set_pSndQueue].
  induction (pSndQueue s) as [|e q IH]; [done|]. cbn [existsb map find]. rewrite red_matches_spec.
  intros H. case_bool_decide as Hd.
  - destruct Hd as [?|Hd]; [done|]. change (redId (set_leader leader e)) with (redId e).
    rewrite Hd, Z.eqb_refl. cbn. f_equal. etransitivity; [apply f_equal, redundant_bit|apply negb_involutive].
  - rewrite (proj2 (Z.eqb_neq (redId e) r)) by auto. by apply IH.
Qed.

(** [tlp_setRedundant] with an identifier sets the role of exactly the publishers that carry it,
    and [tlp_getRedundant] reads that role back; with the identifier 0 it sets the role of every
    publisher, those that are in no redundancy group included. *)
Theorem tlp_setRedundant_roles env h r leader st st' s :
  find_session st h = Some s -> tlp_setRedundant env (Some h) r leader st = (TRDP_NO_ERR, st') ->
  exists s', find_session st' h = Some s'
  /\ map redundant (pSndQueue s')
     = map (fun e => if decide (r = 0 \/ redId e = r) then negb leader else redundant e) (pSndQueue s)
  /\ (r <> 0 -> snd (tlp_getRedundant env (Some h) r true st') = Some leader).
Proof.
  intros Hf H. unfold tlp_setRedundant in H. apply fst_result in H as [u H].
  destruct (with_session_result _ _ _ _ _ _ _ _ s H (or_intror eq_refl) Hf) as (s' & n' & E & Hf').
  destruct (with_session_locks _ _ _ _ _ _ _ H) as [L1 L2].
  cbv beta in E. unfold setRedundant_in in E. injection E as Ee <- <-. eexists. split; [exact Hf'|].
  cbn [pSndQueue set_pSndQueue]. split.
  - rewrite map_map. apply map_ext. intros e. rewrite red_matches_spec. unfold redundant.
    case_bool_decide; case_decide; try done. apply redundant_bit.
  - intros Hr. unfold tlp_getRedundant. cbn [negb]. rewrite (with_session_eval _ _ _ _ _ _ _ L1 L2 Hf'). cbn [snd].
    destruct (existsb _ _) eqn:Ex in Ee; [|done]. by apply setRedundant_read.
Qed.

Lemma tlp_setRedundant_roles_witness :
  let st := snd (tlp_setRedundant (demo_env 0) (Some 1) 0 false demo_pub2) in
  map redundant (pSndQueue demo_session) = [false; false]
  /\ exists s', find_session st 1 = Some s' /\ map redundant (pSndQueue s') = [true; true].
Proof.
  split; [by vm_compute|].
  destruct (tlp_setRedundant_roles (demo_env 0) 1 0 false demo_pub2
              (snd (tlp_setRedundant (demo_env 0) (Some 1) 0 false demo_pub2)) demo_session)
    as (s' & H1 & H2 & _); [by vm_compute|by vm_compute|].
  exists s'. split; [exact H1|]. rewrite H2. by vm_compute.
Defined.

(** ** Shutting down *)
Lemma terminate_step env h s l st ret n : sSession st = (h, s) :: l -> is_ok (if_sessionLock env) = true ->
  terminate_loop env (S n) ret st
  = terminate_loop env n (if is_ok (if_lock env) then ret else if_lock env)
      (mkStack (sInited st) (filter (fun p => fst p <> h) l) (sCurrentMaxSocketCnt st)).
Proof.
  intros Hl Hk. cbn [terminate_loop]. unfold tlc_closeSession, find_session. rewrite Hl, Hk. cbn [negb find fst].
  rewrite Z.eqb_refl. cbn [fmap option_fmap option_map snd]. by rewrite filter_cons_False by auto.
Qed.

Lemma terminate_loop_halts env n : forall st ret, is_ok (if_sessionLock env) = true ->
  (length (sSession st) <= n)%nat ->
  exists ret', terminate_loop env n ret st = Some (ret', mkStack (sInited st) [] (sCurrentMaxSocketCnt st)).
Proof.
  induction n as [|n IH]; intros st ret Hk Hn; destruct (sSession st) as [|[h s] l] eqn:El.
  1,3: exists ret; cbn [terminate_loop]; rewrite El; destruct st; cbn in *; by subst.
  - cbn in Hn. lia.
  - rewrite (terminate_step env h s l) by done.
    edestruct (IH (mkStack (sInited st) (filter (fun p => fst p <> h) l) (sCurrentMaxSocketCnt st))) as [r Hr];
      [exact Hk| |exists r; exact Hr].
    cbn. pose proof (length_filter (fun p : Z * TRDP_SESSION_T => fst p <> h) l). cbn in Hn. lia.
Qed.

Lemma terminate_loop_stuck env n : forall st ret, is_ok (if_sessionLock env) = false -> sSession st <> [] ->
  terminate_loop env n ret st = None.
Proof.
  induction n as [|n IH]; intros st ret Hk Hs; cbn [terminate_loop];
    destruct (sSession st) as [|[h s] l] eqn:El; try done.
  unfold tlc_closeSession. rewrite Hk. cbn [negb]. apply IH; [done|by rewrite El].
Qed.

(** [tlc_terminate] closes every session in as many rounds as there are sessions and leaves the
    stack uninitialised, also when the mutex of a session fails; but while the mutex of the session
    list cannot be taken its loop closes nothing and never ends. *)
Theorem tlc_terminate_halts env st : sInited st = true ->
  (is_ok (if_sessionLock env) = true ->
     exists ret, tlc_terminate env (length (sSession st)) st
                 = Some (ret, mkStack false [] (sCurrentMaxSocketCnt st)))
  /\ (is_ok (if_sessionLock env) = false -> sSession st <> [] -> forall n, tlc_terminate env n st = None).
Proof.
  intros Hi. unfold tlc_terminate. rewrite Hi. split.
  - intros Hk. destruct (terminate_loop_halts env _ st TRDP_NO_ERR Hk (le_n _)) as [r ->]. by exists r.
  - intros Hk Hs n. by rewrite terminate_loop_stuck.
Qed.

Lemma tlc_terminate_halts_witness :
  (exists ret, tlc_terminate (demo_env 0) 1 demo_pub2 = Some (ret, mkStack false [] 1))
  /\ forall n, tlc_terminate (mkIfEnv TRDP_MUTEX_ERR TRDP_NO_ERR None true example_env 0) n demo_pub2 = None.
Proof.
  split.
  - destruct (tlc_terminate_halts (demo_env 0) demo_pub2) as [H _]; [by vm_compute|]. apply H. by vm_compute.
  - destruct (tlc_terminate_halts (mkIfEnv TRDP_MUTEX_ERR TRDP_NO_ERR None true example_env 0) demo_pub2) as [_ H];
      [by vm_compute|]. apply H; [by vm_compute|by vm_compute].
Defined.

(** ** What failures leave behind *)
Definition no_frame (p : Z) : if_env := mkIfEnv TRDP_NO_ERR TRDP_NO_ERR (Some p) false example_env 0.

(** When the frame of a new publisher cannot be allocated, [tlp_publish] returns TRDP_NO_ERR
    although nothing is published and no handle is written, and the socket it took stays open. *)
Theorem tlp_publish_no_frame :
  let '(ret, st, h) := tlp_publish (no_frame 10) (Some 1) true (demo_args 1000) demo_open in
  ret = TRDP_NO_ERR /\ h = None
  /\ option_map (fun s => (pSndQueue s, map usage (take 2 (iface s)), map sock (take 2 (iface s)))) (find_session st 1)
     = Some ([], [1; 0], [7; -1]).
Proof. by vm_compute. Qed.

(** Two subscriptions of one multicast group, and a session without a socket to spare: no entry is
    left, and the joining of another group fails. *)
Definition demo_sub (comId_ : Z) : sub_args :=
  mkSub 0 None comId_ 0 0 0 0xef000001 TRDP_FLAGS_NONE 0 TRDP_TO_DEFAULT.
Definition demo_sub2 : TRDP_STACK :=
  let sub p c st := snd (fst (tlp_subscribe (demo_env p) (Some 1) true (demo_sub c) st)) in
  set_maxSocket VOS_MAX_SOCKET_CNT (sub 20 2000 (sub 10 1000 demo_open)).
Definition no_join : if_env :=
  mkIfEnv TRDP_NO_ERR TRDP_NO_ERR None true
    (mkSockEnv (fun _ _ _ => TRDP_SOCK_ERR) (fun _ _ => TRDP_NO_ERR) (fun _ => (TRDP_NO_ERR, 7))
       (fun _ => (TRDP_NO_ERR, 8)) (fun _ _ _ => TRDP_NO_ERR) (fun _ => TRDP_NO_ERR) (mkTime 100 0)) 0.

Definition sub_view (st : TRDP_STACK) : option (list (Z * Z) * Z * Z) :=
  option_map (fun s => let k := default zero_sock (iface s !! 0%nat) in
                       (q_keys (pRcvQueue s), sock k, usage k)) (find_session st 1).

(** A failing [tlp_resubscribe] releases the socket of its subscription twice: a second
    subscription that shares the socket stays in the queue, but its socket is closed. *)
Theorem tlp_resubscribe_closes_shared_socket :
  sub_view demo_sub2 = Some ([(10, 0); (20, 0)], 7, 2)
  /\ let '(ret, st) := tlp_resubscribe no_join (Some 1) 10 0 0 0 0xef000002 demo_sub2 in
     ret = TRDP_MEM_ERR /\ sub_view st = Some ([(20, 0)], -1, 0).
Proof. vm_compute. done. Qed.

(** With traffic shaping the last publisher is withdrawn with an error code, since there is nothing
    left to distribute. *)
Definition demo_shaped : TRDP_STACK :=
  let st := snd (fst (tlc_openSession (demo_env 0) true (Some 1) TRDP_NO_ERR 0x0a000001 None None
                        (Some TRDP_OPTION_TRAFFIC_SHAPING) demo_init)) in
  snd (fst (tlp_publish (demo_env 10) (Some 1) true (demo_args 1000) st)).

Lemma tlp_unpublish_last_shaped :
  let '(ret, st) := tlp_unpublish (demo_env 0) (Some 1) (Some 10) demo_shaped in
  ret = TRDP_PARAM_ERR /\ option_map pSndQueue (find_session st 1) = Some [].
Proof. by vm_compute. Qed.

(** ** Closing a session *)
Lemma refs_in_app l1 l2 k : refs_in (l1 ++ l2) k = refs_in l1 k + refs_in l2 k.
Proof. unfold refs_in. rewrite list.filter_app, length_app. lia. Qed.

Lemma refs_in_twice q k : refs_in q k <= refs_in (concat (map (fun e => [e; e]) q)) k.
Proof.
  induction q as [|e q IH]; cbn [map concat]; [lia|]. rewrite refs_in_app, !refs_in_cons.
  pose proof (refs_in_le [] k). case_decide; lia.
Qed.

Lemma close_in_closes env s n : session_ok s n ->
  Forall (fun k => sock k = VOS_INVALID_SOCKET) (close_in env s).
Proof.
  intros [Hu _]. pose proof Hu as [_ Hf].
  set (rel := fun ifc i => trdp_releaseSocket (if_sock env) ifc i 0 false).
  set (snd_idx := map socketIdx (pSndQueue s)). set (rcv_idx := map socketIdx (pRcvQueue s)).
  assert (Hk : map snd (keys s) = snd_idx ++ rcv_idx).
  { unfold keys, q_keys. by rewrite map_app, !map_map. }
  assert (Hfold : forall q ifc, fold_left (fun ifc e => rel ifc (socketIdx e)) q ifc = fold_left rel (map socketIdx q) ifc).
  { induction q as [|e q IH]; intros ifc; [done|]. cbn. apply IH. }
  assert (Hfold2 : forall q ifc, fold_left (fun ifc e => rel (rel ifc (socketIdx e)) (socketIdx e)) q ifc
                   = fold_left rel (concat (map (fun i => [i; i]) (map socketIdx q))) ifc).
  { induction q as [|e q IH]; intros ifc; [done|]. cbn. apply IH. }
  set (ls := concat (map (fun i => [i; i]) snd_idx) ++ rcv_idx). rewrite Hk in Hu, Hf.
  assert (close_in env s = fold_left rel ls (iface s)) as ->.
  { unfold ls, rcv_idx, snd_idx. rewrite fold_left_app, <- (Hfold (pRcvQueue s)), <- (Hfold2 (pSndQueue s)). done. }
  assert (Hd : due (fold_left rel ls (iface s)) []).
  { apply due_release_all.
    - rewrite list.Forall_forall in Hf |- *. intros i Hi. apply Hf. unfold ls in Hi.
      apply elem_of_app in Hi as [Hi|Hi]; apply elem_of_app; [left|by right].
      apply list_elem_of_In, in_concat in Hi as (x & Hx & Hi). apply in_map_iff in Hx as (y & <- & Hy).
      apply list_elem_of_In. by destruct Hi as [<-|[<-|[]]].
    - rewrite app_nil_r. eapply used_due; [exact Hu|]. intros k. unfold ls. rewrite !refs_in_app.
      pose proof (refs_in_twice snd_idx k). lia. }
  apply Forall_lookup. intros k x Hx. destruct (Hd k x Hx) as [H|(_ & H1 & H2)]; [done|].
  pose proof (refs_in_le [] k). cbn in *. lia.
Qed.

(** C5: Closing a session after any run of calls as in api_sockets_counted (frames of publishers and subscribers
    find memory, a subscription that is moved finds a socket) takes it off the list and closes every socket of its
    pool, although the code releases the sockets of the publishers twice. This is about a session that uses process
    data only: the part of tlc_closeSession for message data, which gives back the element that receives, the two
    queues and the listeners, is the operation trdp_mdClose of the layer, and the layer here is the one without
    message data. *)
Theorem tlc_closeSession_closes_sockets env h st err st' s ifc :
  rtc api_step initial_stack st -> find_session st h = Some s ->
  tlc_closeSession env (Some h) st = (err, st', Some ifc) ->
  err = TRDP_NO_ERR /\ find_session st' h = None /\ Forall (fun k => sock k = VOS_INVALID_SOCKET) ifc.
Proof.
  intros Hr Hf H. unfold tlc_closeSession in H. destruct (negb _); [done|]. rewrite Hf in H.
  pose proof (find_session_ok st h s (reachable_ok _ Hr) Hf) as Hs.
  destruct (if_lock env) eqn:El; try done. injection H as <- <- <-. split; [done|]. split.
  - unfold find_session. cbn [sSession]. destruct (find _ _) as [[h' x]|] eqn:E; [|done].
    apply find_some in E as [Hin He]. apply list_elem_of_In, list_elem_of_filter in Hin as [Hn _].
    cbn in He. bprop. by destruct Hn.
  - by eapply close_in_closes.
Qed.

Lemma tlc_closeSession_closes_sockets_witness :
  map sock (take 1 (iface demo_session)) = [7]
  /\ exists ifc, Forall (fun k => sock k = VOS_INVALID_SOCKET) ifc /\ length ifc = 80%nat.
Proof.
  split; [by vm_compute|].
  destruct (tlc_closeSession_closes_sockets (demo_env 0) 1 demo_pub2 TRDP_NO_ERR
              (snd (fst (tlc_closeSession (demo_env 0) (Some 1) demo_pub2))) demo_session
              (close_in (demo_env 0) demo_session) demo_reachable) as (_ & _ & H); [by vm_compute|by vm_compute|].
  exists (close_in (demo_env 0) demo_session). split; [exact H|by vm_compute].
Defined.
