(* ===== verification/TrdpMd.v ===== *)
(** * Message data: sessions and sending

    Models the sending side of src/app/trdp/tcnopen/trdp_mdcom.c: building the messages of a session
    ([trdp_mdCall], [trdp_mdReply], [trdp_mdConfirm]), the loop that sends what is armed
    ([trdp_mdSend]), the time-outs ([trdp_mdCheckTimeouts]) and the closing of sessions. A function
    takes the session and returns it changed; callbacks, sent messages and released elements are
    appended to its log. Callbacks do not call the stack back. *)
From S2P Require Import Prelude Bytes VosTime VosString VosCrc TrdpTypes TrdpMdTypes TrdpUtils TrdpPd.

(** What the calls of a function answer: the sockets and the clock, the allocator for an element and
    for a packet, a new session identifier, and connecting and sending for an element. *)
Record md_env := mkMdEnv {
  me_sock : sock_env;
  me_elem : option Z;
  me_packet : bool;
  me_uuid : list Z;
  me_connect : Z -> TRDP_ERR_T;
  me_sendTCP : Z -> list Z -> TRDP_ERR_T * Z;
  me_sendUDP : Z -> list Z -> TRDP_ERR_T * Z }.

Definition me_now (env : md_env) : TRDP_TIME_T := vos_getTime (me_sock env).

(** ** The header: the members in front are those of process data *)
Definition off_replyStatus : nat := 24.
Definition off_sessionID : nat := 28.
Definition off_replyTimeout : nat := 44.
Definition off_sourceURI : nat := 48.
Definition off_destinationURI : nat := 80.
Definition off_md_frameCheckSum : nat := 112.
Definition off_md_data : nat := 116.

Definition h_sessionID (f : list Z) : list Z := bget off_sessionID TRDP_SESS_ID_SIZE f.
Definition h_msgType (f : list Z) : Z := get16 off_msgType f.

Definition md_header_crc (f : list Z) : Z :=
  vos_crc32 INITFCS (take (Z.to_nat (sizeof_MD_HEADER_T - SIZE_OF_FCS)) f).

Definition on_packet (f : list Z -> list Z) (e : MD_ELE_T) : MD_ELE_T := set_pPacket (f <$> pPacket e) e.

Definition trdp_mdUpdatePacket (e : MD_ELE_T) : MD_ELE_T :=
  on_packet (fun f => put32le off_md_frameCheckSum (md_header_crc f) f) e.

Definition trdp_mdFillStateElement (msgType : Z) (e : MD_ELE_T) : MD_ELE_T :=
  set_md_stateEle
    (if msgType =? TRDP_MSG_MN then TRDP_ST_TX_NOTIFY_ARM
     else if msgType =? TRDP_MSG_MR then TRDP_ST_TX_REQUEST_ARM
     else if msgType =? TRDP_MSG_MP then TRDP_ST_TX_REPLY_ARM
     else if msgType =? TRDP_MSG_MQ then TRDP_ST_TX_REPLYQUERY_ARM
     else if msgType =? TRDP_MSG_MC then TRDP_ST_TX_CONFIRM_ARM
     else if msgType =? TRDP_MSG_ME then TRDP_ST_TX_REPLY_ARM
     else TRDP_ST_TX_NOTIFY_ARM) e.

Definition cEmptySession : list Z := repeat 0 TRDP_SESS_ID_SIZE.

(** The element, and the identifier returned when a new one was made. *)
Definition trdp_mdManageSessionId (uuid : list Z) (e : MD_ELE_T) : MD_ELE_T * option (list Z) :=
  if negb (bool_decide (md_sessionID e = cEmptySession)) then (e, None)
  else (set_md_sessionID uuid e, Some uuid).

Definition trdp_mdLookupElement (q : list MD_ELE_T) (st : TRDP_MD_ELE_ST_T) (pSessionId : option (list Z))
  : TRDP_ERR_T * option MD_ELE_T :=
  match pSessionId with
  | None => (TRDP_NOLIST_ERR, None)
  | Some sid =>
      match find (fun e => bool_decide (st = md_stateEle e) && bool_decide (md_sessionID e = sid)) q with
      | Some e => (TRDP_NO_ERR, Some e)
      | None => (TRDP_NOLIST_ERR, None)
      end
  end.

Definition md_times (t : Z) : TRDP_TIME_T := mkTime (t / 1000000) (t mod 1000000).

Definition trdp_mdSetSessionTimeout (now : TRDP_TIME_T) (e : MD_ELE_T) : MD_ELE_T :=
  if (tv_sec (md_interval e) =? TDRP_MD_INFINITE_TIME) && (tv_usec (md_interval e) =? TDRP_MD_INFINITE_USEC_TIME)
  then set_md_timeToGo (md_interval e) e
  else set_md_timeToGo (addTime now (md_interval e)) e.

(** ** Callbacks *)

(** [cTrdp_md_info_default] with the members of the packet, then those of the element. *)
Definition md_info (s : TRDP_MD_SESSION_T) (e : MD_ELE_T) (result : TRDP_ERR_T) : TRDP_MD_INFO_T :=
  let f := packet e in
  let has := match pPacket e with Some _ => true | None => false end in
  let replyStatus := if has then s32 (get32 off_replyStatus f) else TRDP_REPLY_UNSPECIFIED_ERROR in
  let full := is_ok result && has in
  let from_packet {A} (a b : A) := if has then a else b in
  mkMdInfo (if full then srcIpAddr (md_addr e) else 0) (destIpAddr (md_addr e))
    (from_packet (get32 off_sequenceCounter f) 0) (from_packet (get16 off_protocolVersion f) 0)
    (from_packet (h_msgType f) 0)
    (if full then get32 off_comId f else comId (md_addr e))
    (if full then get32 off_etbTopoCnt f else etbTopoCnt (md_addr e))
    (if full then get32 off_opTrnTopoCnt f else opTrnTopoCnt (md_addr e))
    (md_morituri e) (numRepliesQuery e) (numConfirmSent e) (numConfirmTimeout e)
    (if replyStatus >=? 0 then u16 replyStatus else 0)
    (if replyStatus >=? 0 then TRDP_REPLY_OK else replyStatus)
    (from_packet (h_sessionID f) cEmptySession) (from_packet (get32 off_replyTimeout f) 0)
    (from_packet (vos_strncpy (repeat 0 33) (bget off_sourceURI 32 f) TRDP_MAX_URI_USER_LEN) (repeat 0 33))
    (from_packet (vos_strncpy (repeat 0 33) (bget off_destinationURI 32 f) TRDP_MAX_URI_USER_LEN) (repeat 0 33))
    (numExpReplies e) (numReplies e) (md_pUserRef e) result.

(** The data of a packet: as many bytes as its header announces. *)
Definition md_data (f : list Z) : list Z := bget off_md_data (Z.to_nat (get32 off_datasetLength f)) f.

(** The callers ask first whether there is a callback. *)
Definition trdp_mdInvokeCallback (e : MD_ELE_T) (result : TRDP_ERR_T) (s : TRDP_MD_SESSION_T) : TRDP_MD_SESSION_T :=
  match md_cb e with
  | None => s
  | Some cb =>
      let data := match pPacket e with
                  | Some f => if is_ok result then Some (md_data f) else None
                  | None => None
                  end in
      log [MdCallback cb (md_refCon (mdDefault s)) (md_info s e result) data] s
  end.

(** ** The queues of a session *)
Inductive md_queue := SndQ | RcvQ.
#[export] Instance md_queue_eq_dec : EqDecision md_queue.
Proof. solve_decision. Defined.

Definition get_q (q : md_queue) (s : TRDP_MD_SESSION_T) : list MD_ELE_T :=
  match q with SndQ => pMDSndQueue s | RcvQ => pMDRcvQueue s end.
Definition set_q (q : md_queue) (l : list MD_ELE_T) (s : TRDP_MD_SESSION_T) : TRDP_MD_SESSION_T :=
  match q with SndQ => set_pMDSndQueue l s | RcvQ => set_pMDRcvQueue l s end.
Definition put_md (q : md_queue) (e : MD_ELE_T) (s : TRDP_MD_SESSION_T) : TRDP_MD_SESSION_T :=
  set_q q (update_md (md_ptr e) (fun _ => e) (get_q q s)) s.

(** The entry of the socket pool, and changing it; an index in front of the array changes nothing. *)
Definition entry (s : TRDP_MD_SESSION_T) (idx : Z) : TRDP_SOCKETS_T := default zero_sock (ms_iface s !! Z.to_nat idx).
Definition on_entry (idx : Z) (f : TRDP_SOCKETS_T -> TRDP_SOCKETS_T) (s : TRDP_MD_SESSION_T) : TRDP_MD_SESSION_T :=
  if idx <? 0 then s else set_ms_iface (alter f (Z.to_nat idx) (ms_iface s)) s.

Definition count_md (tcp : bool) (f : TRDP_MD_STATISTICS_T -> TRDP_MD_STATISTICS_T) (s : TRDP_MD_SESSION_T)
  : TRDP_MD_SESSION_T := if tcp then set_tcpMd (f (tcpMd s)) s else set_udpMd (f (udpMd s)) s.
Definition inc_numSend t := set_md_numSend (u32 (md_numSend t + 1)) t.
Definition inc_numReplyTimeout t := set_md_numReplyTimeout (u32 (md_numReplyTimeout t + 1)) t.
Definition inc_numConfirmTimeout t := set_md_numConfirmTimeout (u32 (md_numConfirmTimeout t + 1)) t.
Definition inc_numNoListener t := set_md_numNoListener (u32 (md_numNoListener t + 1)) t.

(** ** Closing sessions *)
Definition trdp_mdFreeSession (e : MD_ELE_T) (s : TRDP_MD_SESSION_T) : TRDP_MD_SESSION_T := log [MdFree (md_ptr e)] s.

Definition release_md (env : sock_env) (idx : Z) (s : TRDP_MD_SESSION_T) : TRDP_MD_SESSION_T :=
  set_ms_iface (trdp_releaseSocket env (ms_iface s) idx (md_connectTimeout (mdDefault s)) false) s.

(** The loop over a queue, which starts again at the head after each element it removes; the
    number of elements is enough for its rounds. *)
Fixpoint close_loop (env : sock_env) (q : md_queue) (rounds : nat) (s : TRDP_MD_SESSION_T) : TRDP_MD_SESSION_T :=
  match rounds, find md_morituri (get_q q s) with
  | S rounds', Some e =>
      let s1 := if bool_decide (q = SndQ) || md_tcp e then release_md env (md_socketIdx e) s else s in
      let s2 := set_q q (trdp_MDqueueDelElement (get_q q s1) (Some (md_ptr e))) s1 in
      close_loop env q rounds' (trdp_mdFreeSession e s2)
  | _, _ => s
  end.

(** The accepted connection takes the place of an old one. *)
Definition replace_socket (newSocket : Z) (x : TRDP_SOCKETS_T) : TRDP_SOCKETS_T :=
  mkSock newSocket (bindAddr x) (qos x) (ttl x) TRDP_SOCK_MD_TCP true 0 (cornerIp x) false zero_time
    false (sendingTimeout x) true (morituri x) (mcGroups x).

Definition trdp_mdCloseSessions (env : sock_env) (socketIndex newSocket : Z) (checkAllSockets : bool)
    (s : TRDP_MD_SESSION_T) : TRDP_MD_SESSION_T :=
  let s0 := if checkAllSockets
            then set_ms_iface (trdp_releaseSocket env (ms_iface s) TRDP_INVALID_SOCKET_INDEX 0 true) s else s in
  let s1 := close_loop env SndQ (length (pMDSndQueue s0)) s0 in
  let s2 := close_loop env RcvQ (length (pMDRcvQueue s1)) s1 in
  if (socketIndex >? TRDP_INVALID_SOCKET_INDEX) && (newSocket >? VOS_INVALID_SOCKET)
  then on_entry socketIndex (replace_socket newSocket) s2 else s2.

(** ** Time-outs *)

(** Whether the user is told, with which result ([result] where the code leaves it), and the element. *)
Definition reply_timeout_udp (e : MD_ELE_T) (result : TRDP_ERR_T) : bool * TRDP_ERR_T * MD_ELE_T :=
  let '(told, result, e) :=
    if md_morituri e then (false, result, e)
    else match pPacket e with
    | Some f =>
        if (numExpReplies e =? 1) && (numRetries e <? numRetriesMax e) then
          let e1 := set_numRetries (u32 (numRetries e + 1)) (set_md_stateEle TRDP_ST_TX_REQUEST_ARM e) in
          let e2 := on_packet (fun f => put32 off_sequenceCounter (u32 (get32 off_sequenceCounter f + 1)) f) e1 in
          (false, result, trdp_mdUpdatePacket (set_md_timeToGo (addTime (md_timeToGo e2) (md_interval e2)) e2))
        else (true, TRDP_REPLYTO_ERR, set_md_morituri true e)
    | None => (true, TRDP_REPLYTO_ERR, set_md_morituri true e)
    end in
  if bool_decide (md_stateEle e = TRDP_ST_TX_REQUEST_ARM) then (told, result, e)
  else if (numRepliesQuery e =? 0) || (numRepliesQuery e <=? numConfirmSent e)
  then (told, result, set_md_morituri true e)
  else if numRepliesQuery e <=? u32 (numConfirmSent e + numConfirmTimeout e)
  then (true, TRDP_REQCONFIRMTO_ERR, set_md_morituri true e)
  else (told, result, e).

Definition trdp_mdTimeOutStateHandler (e : MD_ELE_T) (result : TRDP_ERR_T) (s : TRDP_MD_SESSION_T)
  : bool * TRDP_ERR_T * MD_ELE_T * TRDP_MD_SESSION_T :=
  let dead := set_md_morituri true e in
  match md_stateEle e with
  | TRDP_ST_RX_REQ_W4AP_REPLY => (true, TRDP_APP_REPLYTO_ERR, dead, s)
  | TRDP_ST_TX_REQ_W4AP_CONFIRM => (true, TRDP_APP_CONFIRMTO_ERR, dead, s)
  | TRDP_ST_TX_REQUEST_W4REPLY =>
      if md_tcp e then (true, TRDP_REPLYTO_ERR, dead, count_md true inc_numReplyTimeout s)
      else (reply_timeout_udp e result, if md_morituri e then s else count_md false inc_numReplyTimeout s)
  | TRDP_ST_RX_REPLYQUERY_W4C => (true, TRDP_CONFIRMTO_ERR, dead, count_md (md_tcp e) inc_numConfirmTimeout s)
  | TRDP_ST_TX_REPLY_RECEIVED =>
      if md_tcp e then (false, result, dead, s)
      else if (numExpReplies e =? 0) || (numReplies e <? numExpReplies e)
      then (true, TRDP_REPLYTO_ERR, dead, s) else (false, result, dead, s)
  | _ => (false, result, e, s)
  end.

(** One round of the loop; [timeOut] keeps its value from the round before when the element is not late. *)
Definition timeout_step (now : TRDP_TIME_T) (q : md_queue) (acc : bool * TRDP_MD_SESSION_T) (p : Z)
  : bool * TRDP_MD_SESSION_T :=
  let '(timeOut, s) := acc in
  match find_md p (get_q q s) with
  | None => acc
  | Some e =>
      let '(timeOut, result, e, s) :=
        if cmpTime (md_timeToGo e) now <? 0
        then let '(t, r, e', s') := trdp_mdTimeOutStateHandler e TRDP_UNKNOWN_ERR s in (t, r, e', put_md q e' s')
        else (timeOut, TRDP_UNKNOWN_ERR, e, s) in
      (timeOut, if timeOut then trdp_mdInvokeCallback e result s else s)
  end.

(** The rounds over a queue, with the clock read in round [k] and the following. *)
Fixpoint md_timeout_loop (now : nat -> TRDP_TIME_T) (q : md_queue) (k : nat) (l : list Z)
    (acc : bool * TRDP_MD_SESSION_T) : bool * TRDP_MD_SESSION_T :=
  match l with
  | [] => acc
  | p :: l' => md_timeout_loop now q (S k) l' (timeout_step (now k) q acc p)
  end.

Definition connect_late (now : TRDP_TIME_T) (x : TRDP_SOCKETS_T) : bool :=
  negb (sock x =? VOS_INVALID_SOCKET) && bool_decide (sock_type x = TRDP_SOCK_MD_TCP) && (usage x =? 0)
  && negb (rcvMostly x) && ((tv_sec (connectionTimeout x) >? 0) || (tv_usec (connectionTimeout x) >? 0))
  && (cmpTime (connectionTimeout x) now <? 0).

Definition send_late (now : TRDP_TIME_T) (x : TRDP_SOCKETS_T) : bool :=
  negb (sock x =? VOS_INVALID_SOCKET) && bool_decide (sock_type x = TRDP_SOCK_MD_TCP)
  && negb (rcvMostly x) && sendNotOk x && (cmpTime (sendingTimeout x) now <? 0).

(** All sessions of the caller on a socket are about to die, and the user is told. *)
Definition abort_ele (idx : Z) (s : TRDP_MD_SESSION_T) (p : Z) : TRDP_MD_SESSION_T :=
  match find_md p (pMDSndQueue s) with
  | Some e => if md_socketIdx e =? idx
              then let e' := set_md_morituri true e in trdp_mdInvokeCallback e' TRDP_TIMEOUT_ERR (put_md SndQ e' s)
              else s
  | None => s
  end.
Definition abort_socket (idx : Z) (s : TRDP_MD_SESSION_T) : TRDP_MD_SESSION_T :=
  on_entry idx (set_morituri true) (fold_left (abort_ele idx) (map md_ptr (pMDSndQueue s)) s).

Definition send_late_step (now : TRDP_TIME_T) (s : TRDP_MD_SESSION_T) (i : nat) : TRDP_MD_SESSION_T :=
  match ms_iface s !! i with
  | Some x => if send_late now x then abort_socket (Z.of_nat i) s else s
  | None => s
  end.

Definition trdp_mdCheckTimeouts (env : sock_env) (now : nat -> TRDP_TIME_T) (s : TRDP_MD_SESSION_T) : TRDP_MD_SESSION_T :=
  let ns := length (pMDSndQueue s) in
  let acc := md_timeout_loop now SndQ 0 (map md_ptr (pMDSndQueue s)) (false, s) in
  let rcv := map md_ptr (pMDRcvQueue (snd acc)) in
  let s1 := snd (md_timeout_loop now RcvQ ns rcv acc) in
  let t := now (ns + length rcv)%nat in
  let s2 := set_ms_iface (map (fun x => if connect_late t x then set_morituri true x else x) (ms_iface s1)) s1 in
  let s3 := fold_left (send_late_step t) (seq 0 (Z.to_nat VOS_MAX_SOCKET_CNT)) s2 in
  trdp_mdCloseSessions env TRDP_INVALID_SOCKET_INDEX VOS_INVALID_SOCKET true s3.

(** ** Building messages *)

(** Quality of service, time to live and retries. *)
Definition send_param : Type := Z * Z * Z.

(** Requesting a socket for an element: result, element and session. *)
Definition md_request (env : md_env) (r : sock_request) (e : MD_ELE_T) (s : TRDP_MD_SESSION_T)
  : TRDP_ERR_T * MD_ELE_T * TRDP_MD_SESSION_T :=
  let '(err, idx, ifc, n) := trdp_requestSocket (me_sock env) r (ms_iface s) (ms_maxSocketCnt s) in
  (err, set_md_socketIdx (default (md_socketIdx e) idx) e, set_ms_maxSocketCnt n (set_ms_iface ifc s)).

Definition trdp_mdConnectSocket (env : md_env) (pSendParam : option send_param) (src dest : Z) (newSession : bool)
    (e : MD_ELE_T) (s : TRDP_MD_SESSION_T) : TRDP_ERR_T * MD_ELE_T * TRDP_MD_SESSION_T :=
  let d := mdDefault s in
  let '(q, t, _) := default (md_qos d, md_ttl d, md_retries d) pSendParam in
  if md_tcp e then
    let '(err, e1, s1) :=
      if md_socketIdx e =? TRDP_INVALID_SOCKET_INDEX
      then md_request env (mkReq (md_tcpPort d) q t src 0 TRDP_SOCK_MD_TCP TRDP_OPTION_NONE false VOS_INVALID_SOCKET dest) e s
      else (TRDP_NO_ERR, e, s) in
    if negb (is_ok err) then (err, e1, s1)
    else (err, set_doConnect (negb (usage (entry s1 (md_socketIdx e1)) >? 1)) e1, s1)
  else if newSession && (md_socketIdx e =? TRDP_INVALID_SOCKET_INDEX)
  then md_request env (mkReq (md_udpPort d) q t src (if vos_isMulticast dest then dest else 0) TRDP_SOCK_MD_UDP
                         (option_ (ms_session s)) false VOS_INVALID_SOCKET 0) e s
  else (TRDP_NO_ERR, e, s).

(** A URI in its member of the header: cleared, then the characters of the string. *)
Definition put_uri (off : nat) (uri : option (list Z)) (f : list Z) : list Z :=
  match uri with
  | Some u => bput off (cstr u) (bput off (repeat 0 TRDP_MAX_URI_USER_LEN) f)
  | None => f
  end.

Record md_msg := mkMsg {
  g_type : Z; g_replyStatus : Z; g_timeout : Z; g_seqCnt : Z; g_data : option (list Z); g_dataSize : Z;
  g_srcURI : option (list Z); g_destURI : option (list Z) }.

Definition md_head (m : md_msg) (e : MD_ELE_T) (f : list Z) : list Z :=
  put_uri off_destinationURI (g_destURI m) (put_uri off_sourceURI (g_srcURI m)
    (put32 off_replyTimeout (g_timeout m)
      (bput off_sessionID (if g_type m =? TRDP_MSG_MN then cEmptySession else md_sessionID e)
        (put32 off_replyStatus (g_replyStatus m) (put32 off_datasetLength (md_dataSize e)
          (put32 off_opTrnTopoCnt (opTrnTopoCnt (md_addr e)) (put32 off_etbTopoCnt (etbTopoCnt (md_addr e))
            (put32 off_comId (comId (md_addr e)) (put16 off_msgType (g_type m)
              (put16 off_protocolVersion TRDP_PROTO_VER (put32 off_sequenceCounter (g_seqCnt m) f))))))))))).

(** The data, marshalled if that is wanted; the result of the callback is ignored. *)
Definition md_body (marshall : option TRDP_MARSHALL_T) (m : md_msg) (e : MD_ELE_T) (f : list Z) : list Z :=
  match g_data m with
  | None => f
  | Some d =>
      match (if flag (md_pktFlags e) TRDP_FLAGS_MARSHALL then marshall else None) with
      | Some mar => let '(_, bs, n) := mar (comId (md_addr e)) d (g_dataSize m) (g_dataSize m) in
                    put32 off_datasetLength n (bput off_md_data bs f)
      | None => bput off_md_data (take (Z.to_nat (g_dataSize m)) d) f
      end
  end.

(** The element with its message; a new session enters the send queue. *)
Definition trdp_mdDetailSenderPacket (m : md_msg) (newSession : bool) (q : md_queue) (e : MD_ELE_T)
    (s : TRDP_MD_SESSION_T) : TRDP_MD_SESSION_T :=
  let e' := on_packet (fun f => md_body (pfCbMarshall (ms_session s)) m e (md_head m e f)) e in
  if newSession
  then set_pMDSndQueue (if md_tcp e' then trdp_MDqueueAppLast (pMDSndQueue s) (Some e')
                        else trdp_MDqueueInsFirst (pMDSndQueue s) (Some e')) s
  else put_md q e' s.

(** [vos_memAlloc] for a packet: cleared memory. *)
Definition new_packet (e : MD_ELE_T) : MD_ELE_T := set_pPacket (Some (repeat 0 (Z.to_nat (md_grossSize e)))) e.

(** ** Requests and notifications *)
Record call_args := mkCall {
  c_msgType : Z; c_userRef : Z; c_cb : option Z; c_comId : Z; c_etbTopoCnt : Z; c_opTrnTopoCnt : Z;
  c_srcIpAddr : Z; c_destIpAddr : Z; c_pktFlags : Z; c_numExpReplies : Z; c_replyTimeout : Z;
  c_replyStatus : Z; c_sendParam : option send_param; c_data : option (list Z); c_dataSize : Z;
  c_srcURI : option (list Z); c_destURI : option (list Z) }.

Definition call_src (a : call_args) (s : TRDP_MD_SESSION_T) : Z :=
  if c_srcIpAddr a =? 0 then realIP (ms_session s) else c_srcIpAddr a.
Definition mc_of (ip : Z) : Z := if vos_isMulticast ip then ip else 0.

(** An infinite time-out is kept as zero, in the element and on the wire. *)
Definition call_infinite (a : call_args) : bool :=
  (c_msgType a =? TRDP_MSG_MR) && (c_replyTimeout a =? TDRP_MD_INFINITE_TIME).

(** The new element, before a socket is looked for. *)
Definition call_ele (now : TRDP_TIME_T) (a : call_args) (s : TRDP_MD_SESSION_T) (p : Z) : MD_ELE_T :=
  let d := mdDefault s in
  let unicast := negb (vos_isMulticast (c_destIpAddr a)) in
  let retries := if negb (flag (c_pktFlags a) TRDP_FLAGS_TCP) && (c_numExpReplies a =? 1) && unicast
                 then match c_sendParam a with Some (_, _, r) => r | None => md_retries d end else 0 in
  let expected := if c_msgType a =? TRDP_MSG_MR then (if unicast then 1 else c_numExpReplies a) else 0 in
  let iv := if call_infinite a then mkTime TDRP_MD_INFINITE_TIME TDRP_MD_INFINITE_USEC_TIME else md_times (c_replyTimeout a) in
  trdp_mdSetSessionTimeout now
    (mkMD p (mkAddr (c_comId a) (call_src a s) (c_destIpAddr a) (mc_of (c_destIpAddr a)) (c_etbTopoCnt a) (c_opTrnTopoCnt a))
      TRDP_PRIV_NONE (if c_pktFlags a =? TRDP_FLAGS_DEFAULT then md_flags d else c_pktFlags a) false iv zero_time
      (c_dataSize a) (trdp_packetSizeMD (c_dataSize a)) 0 TRDP_INVALID_SOCKET_INDEX 0 TRDP_ST_NONE cEmptySession
      expected 0 retries 0 0 0 0 (c_userRef a) (repeat 0 33) (repeat 0 33) false false
      (match c_cb a with Some f => Some f | None => md_cbFunction d end) None).

(** Result, the session identifier where it is written, the session. [lock] is the answer of the mutex. *)
Definition trdp_mdCall (env : md_env) (lock : TRDP_ERR_T) (a : call_args) (s : TRDP_MD_SESSION_T)
  : TRDP_ERR_T * option (list Z) * TRDP_MD_SESSION_T :=
  if (negb (c_msgType a =? TRDP_MSG_MR) && negb (c_msgType a =? TRDP_MSG_MN))
     || match c_sendParam a with Some (_, _, r) => r >? TRDP_MAX_MD_RETRIES | None => false end
  then (TRDP_PARAM_ERR, None, s)
  else if negb (is_ok lock) then (TRDP_MUTEX_ERR, None, s)
  else match me_elem env with
  | None => (TRDP_MEM_ERR, None, s)
  | Some p =>
      let e := call_ele (me_now env) a s p in
      let '(errv, e, s) := trdp_mdConnectSocket env (c_sendParam a) (call_src a s) (c_destIpAddr a) true e s in
      if negb (is_ok errv) then (errv, None, trdp_mdFreeSession e s)
      else
        let '(e, sid) := trdp_mdManageSessionId (me_uuid env) (trdp_mdFillStateElement (c_msgType a) e) in
        if negb (me_packet env) then (TRDP_MEM_ERR, sid, log [MdFree p] s)
        else
          let m := mkMsg (c_msgType a) (c_replyStatus a) (if call_infinite a then 0 else c_replyTimeout a) 0
                     (c_data a) (c_dataSize a) (c_srcURI a) (c_destURI a) in
          (TRDP_NO_ERR, sid, trdp_mdDetailSenderPacket m true SndQ (new_packet e) s)
  end.

(** ** Replies and confirmations *)
Record reply_args := mkReply {
  y_msgType : Z; y_comId : Z; y_timeout : Z; y_replyStatus : Z; y_sendParam : option send_param;
  y_data : option (list Z); y_dataSize : Z }.

(** The session answers to where the message came from. *)
Definition cross (comId_ : Z) (a : TRDP_ADDRESSES_T) : TRDP_ADDRESSES_T :=
  mkAddr comId_ (destIpAddr a) (srcIpAddr a) (mc_of (srcIpAddr a)) (etbTopoCnt a) (opTrnTopoCnt a).

Definition answer_ele (msgType comId_ n : Z) (e : MD_ELE_T) : MD_ELE_T :=
  set_md_morituri false (set_numReplies 0 (set_md_sendSize 0 (set_md_grossSize (trdp_packetSizeMD n)
    (set_md_dataSize n (set_md_privFlags TRDP_PRIV_NONE (set_md_addr (cross comId_ (md_addr e)) e)))))).

(** The second half of both: the packet is replaced; without memory the element is released but
    stays in its queue. *)
Definition answer_packet (env : md_env) (q : md_queue) (m : md_msg) (e : MD_ELE_T) (s : TRDP_MD_SESSION_T)
  : TRDP_ERR_T * TRDP_MD_SESSION_T :=
  if negb (me_packet env)
  then (TRDP_MEM_ERR, log [MdFree (md_ptr e)] (put_md q (set_pPacket None e) s))
  else (TRDP_NO_ERR, trdp_mdDetailSenderPacket m false q (new_packet e) s).

Definition trdp_mdReply (env : md_env) (lock : TRDP_ERR_T) (pSessionId : option (list Z)) (a : reply_args)
    (s : TRDP_MD_SESSION_T) : TRDP_ERR_T * TRDP_MD_SESSION_T :=
  if negb (y_msgType a =? TRDP_MSG_MP) && negb (y_msgType a =? TRDP_MSG_MQ) then (TRDP_PARAM_ERR, s)
  else if negb (is_ok lock) then (TRDP_MUTEX_ERR, s)
  else match pSessionId with
  | None => (TRDP_PARAM_ERR, s)
  | Some _ =>
      match trdp_mdLookupElement (pMDRcvQueue s) TRDP_ST_RX_REQ_W4AP_REPLY pSessionId with
      | (errv, Some e0) =>
          match pPacket e0 with
          | None => (errv, s)
          | Some f =>
              let e := fst (trdp_mdManageSessionId (me_uuid env) (trdp_mdFillStateElement (y_msgType a)
                         (answer_ele (y_msgType a) (y_comId a) (y_dataSize a) e0))) in
              let e := if y_msgType a =? TRDP_MSG_MQ
                       then trdp_mdSetSessionTimeout (me_now env) (set_md_interval (md_times (y_timeout a)) e) else e in
              let '(errv, e, s) := trdp_mdConnectSocket env (y_sendParam a) (destIpAddr (md_addr e0))
                                     (srcIpAddr (md_addr e0)) false e s in
              if negb (is_ok errv) then (errv, put_md RcvQ e s)
              else answer_packet env RcvQ
                     (mkMsg (y_msgType a) (y_replyStatus a) (y_timeout a) (get32 off_sequenceCounter f) (y_data a)
                        (y_dataSize a) (Some (md_destURI e)) (Some (md_srcURI e))) e s
          end
      | (errv, None) => (errv, s)
      end
  end.

Definition trdp_mdConfirm (env : md_env) (lock : TRDP_ERR_T) (pSessionId : option (list Z)) (userStatus : Z)
    (pSendParam : option send_param) (s : TRDP_MD_SESSION_T) : TRDP_ERR_T * TRDP_MD_SESSION_T :=
  if negb (is_ok lock) then (TRDP_MUTEX_ERR, s)
  else match pSessionId with
  | None => (TRDP_PARAM_ERR, s)
  | Some _ =>
      match trdp_mdLookupElement (pMDSndQueue s) TRDP_ST_TX_REQ_W4AP_CONFIRM pSessionId with
      | (_, Some e0) =>
          let e := answer_ele TRDP_MSG_MC 0 0 e0 in
          let '(errv, e, s) := trdp_mdConnectSocket env pSendParam (destIpAddr (md_addr e0)) (srcIpAddr (md_addr e0)) false e s in
          if negb (is_ok errv) then (errv, put_md SndQ e s)
          else answer_packet env SndQ
                 (mkMsg TRDP_MSG_MC userStatus 0 0 None 0 (Some (md_destURI e)) (Some (md_srcURI e)))
                 (trdp_mdFillStateElement TRDP_MSG_MC e) s
      | (errv, None) => (errv, s)
      end
  end.

(** ** Sending what is armed *)
Definition trdp_mdSendPacket (env : md_env) (mdSock port : Z) (e : MD_ELE_T)
  : TRDP_ERR_T * MD_ELE_T * list md_event :=
  let f := take (Z.to_nat (md_grossSize e)) (packet e) in
  let '(err, sent, e', bs) :=
    if md_tcp e then
      let done := md_sendSize e in
      let rest := drop (Z.to_nat done) f in
      let '(err, n) := me_sendTCP env (md_ptr e) rest in
      (err, n, set_md_sendSize (u32 (done + n)) e, take (Z.to_nat n) rest)
    else
      let '(err, n) := me_sendUDP env (md_ptr e) f in
      (err, n, set_md_sendSize n e, take (Z.to_nat n) f) in
  let evs := if sent >? 0 then [MdSent mdSock (md_tcp e) (destIpAddr (md_addr e)) port bs] else [] in
  match err with
  | TRDP_NO_ERR => (if md_sendSize e' =? md_grossSize e' then TRDP_NO_ERR else TRDP_IO_ERR, e', evs)
  | TRDP_NOCONN_ERR => (TRDP_NOCONN_ERR, e', evs)
  | TRDP_IO_ERR => (TRDP_IO_ERR, e', evs)
  | _ => (TRDP_BLOCK_ERR, e', evs)
  end.

(** The state after sending, for the states that are armed. *)
Definition armed (st : TRDP_MD_ELE_ST_T) : option TRDP_MD_ELE_ST_T :=
  match st with
  | TRDP_ST_TX_NOTIFY_ARM | TRDP_ST_TX_REPLY_ARM | TRDP_ST_TX_CONFIRM_ARM => Some TRDP_ST_NONE
  | TRDP_ST_TX_REQUEST_ARM => Some TRDP_ST_TX_REQUEST_W4REPLY
  | TRDP_ST_TX_REPLYQUERY_ARM => Some TRDP_ST_RX_REPLYQUERY_W4C
  | _ => None
  end.

(** The sending time-out of a socket starts with the first failure. *)
Definition start_sending_timeout (now : TRDP_TIME_T) (idx : Z) (s : TRDP_MD_SESSION_T) : TRDP_MD_SESSION_T :=
  on_entry idx (fun x => if sendNotOk x then x
    else set_sendNotOk true (set_sendingTimeout (addTime now (md_times (md_sendingTimeout (mdDefault s)))) x)) s.

(** An element whose message went out. *)
Definition md_sent (now : TRDP_TIME_T) (nextstate : TRDP_MD_ELE_ST_T) (e : MD_ELE_T) : MD_ELE_T :=
  let e1 := if md_tcp e then set_msgUncomplete false e else e in
  let e2 := if bool_decide (nextstate = TRDP_ST_RX_REPLYQUERY_W4C)
            then set_md_timeToGo (addTime now (md_interval e1)) e1 else e1 in
  match md_stateEle e2 with
  | TRDP_ST_TX_CONFIRM_ARM =>
      let e3 := set_numConfirmSent (u32 (numConfirmSent e2 + 1)) e2 in
      if negb (numExpReplies e3 =? 0) && (u32 (numRepliesQuery e3 + numReplies e3) >=? numExpReplies e3)
         && (numConfirmSent e3 >=? numRepliesQuery e3)
      then set_md_stateEle nextstate (set_md_morituri true e3)
      else set_md_stateEle (if numConfirmSent e3 <? numRepliesQuery e3 then TRDP_ST_TX_REQ_W4AP_CONFIRM
                            else TRDP_ST_TX_REQUEST_W4REPLY) e3
  | TRDP_ST_TX_NOTIFY_ARM | TRDP_ST_TX_REPLY_ARM => set_md_stateEle nextstate (set_md_morituri true e2)
  | _ => set_md_stateEle nextstate e2
  end.

Definition md_port (e : MD_ELE_T) (s : TRDP_MD_SESSION_T) : Z :=
  if negb (md_replyPort e =? 0)
     && ((h_msgType (packet e) =? TRDP_MSG_MP) || (h_msgType (packet e) =? TRDP_MSG_MQ))
  then md_replyPort e else md_udpPort (mdDefault s).

(** Sending one element that is connected where it has to be. *)
Definition md_transmit (env : md_env) (q : md_queue) (nextstate : TRDP_MD_ELE_ST_T) (e : MD_ELE_T)
    (result : TRDP_ERR_T) (s : TRDP_MD_SESSION_T) : TRDP_ERR_T * TRDP_MD_SESSION_T :=
  let idx := md_socketIdx e in
  if md_tcp e && notSend (entry s idx) && negb (msgUncomplete e) then (result, put_md q e s)
  else
    let '(result, e1, evs) := trdp_mdSendPacket env (sock (entry s idx)) (md_port e s) e in
    let s := log evs s in
    match result with
    | TRDP_NO_ERR =>
        let s1 := if md_tcp e1 then on_entry idx (fun x => set_addFileDesc true (set_sendNotOk false (set_notSend false x))) s else s in
        (result, put_md q (md_sent (me_now env) nextstate e1) (count_md (md_tcp e1) inc_numSend s1))
    | TRDP_IO_ERR =>
        if md_tcp e1
        then (result, put_md q (set_msgUncomplete true e1)
                        (start_sending_timeout (me_now env) idx (on_entry idx (set_notSend true) s)))
        else (result, put_md q e1 s)
    | _ => (result, abort_socket idx (put_md q e1 s))
    end.

(** One round of the loop. *)
Definition md_send_step (env : md_env) (q : md_queue) (acc : TRDP_ERR_T * TRDP_MD_SESSION_T) (p : Z)
  : TRDP_ERR_T * TRDP_MD_SESSION_T :=
  let '(result, s) := acc in
  match find_md p (get_q q s) with
  | None => acc
  | Some e0 =>
      match armed (md_stateEle e0) with
      | None => acc
      | Some nextstate =>
          if (md_socketIdx e0 =? TRDP_INVALID_SOCKET_INDEX) || flag (md_privFlags e0) TRDP_REDUNDANT then acc
          else
            let e := trdp_mdUpdatePacket e0 in
            if md_tcp e && doConnect e then
              match me_connect env p with
              | TRDP_NO_ERR => md_transmit env q nextstate (set_doConnect false e) result s
              | TRDP_BLOCK_ERR => (result, put_md q (set_doConnect false e) s)
              | _ => (result, put_md q (set_md_morituri true e) (start_sending_timeout (me_now env) (md_socketIdx e) s))
              end
            else md_transmit env q nextstate e result s
      end
  end.

Definition trdp_mdSend (env : md_env) (s : TRDP_MD_SESSION_T) : TRDP_ERR_T * TRDP_MD_SESSION_T :=
  let acc := fold_left (md_send_step env SndQ) (map md_ptr (pMDSndQueue s)) (TRDP_NO_ERR, s) in
  let '(result, s1) := fold_left (md_send_step env RcvQ) (map md_ptr (pMDRcvQueue (snd acc))) acc in
  (result, trdp_mdCloseSessions (me_sock env) TRDP_INVALID_SOCKET_INDEX VOS_INVALID_SOCKET true s1).
