(* ===== verification/TrdpMdRecv.v ===== *)
(** * Message data: receiving

    Models the receiving side of src/app/trdp/tcnopen/trdp_mdcom.c: the check of a message, reading
    one from a UDP socket or piece by piece from a TCP socket, finding the session or the listener
    it is for, the error message, and the loop over the sockets. The receive functions return
    [None] where the code reads or writes outside a buffer. *)
From S2P Require Import Prelude Bytes VosTime VosString VosCrc TrdpTypes TrdpMdTypes TrdpUtils TrdpPd TrdpMd.

Definition cMinimumMDSize : Z := 1480.

(** What the calls answer while one message is received: the environment of the sending side, for
    the error message; the allocator for the element and the packet received into, for an
    unfinished TCP message with its packet, and for a larger packet; the sockets, asked for the header
    or the rest, for a number of bytes; a UDP socket also tells the source, its port and the
    destination, and may be asked to leave the datagram; the comparison of the C library. *)
Record md_rcv_env := mkMdRcv {
  mr_env : md_env;
  mr_elem : option Z;
  mr_packet : bool;
  mr_unc : option Z;
  mr_unc_packet : bool;
  mr_big : bool;
  mr_recvTCP : bool -> Z -> TRDP_ERR_T * list Z;
  mr_recvUDP : bool -> Z -> TRDP_ERR_T * list Z * (Z * Z * Z);
  mr_strnicmp : list Z -> list Z -> Z -> Z }.

Definition mr_now (env : md_rcv_env) : TRDP_TIME_T := me_now (mr_env env).

(** Reading and writing inside a buffer. *)
Definition bread (off n : Z) (buf : list Z) : option (list Z) :=
  if (0 <=? off) && (0 <=? n) && (off + n <=? Z.of_nat (length buf))
  then Some (bget (Z.to_nat off) (Z.to_nat n) buf) else None.
Definition bwrite (off : Z) (bs buf : list Z) : option (list Z) :=
  if (0 <=? off) && (off + Z.of_nat (length bs) <=? Z.of_nat (length buf))
  then Some (bput (Z.to_nat off) bs buf) else None.

(** ** The check *)
Definition md_type_ok (t : Z) : bool :=
  (t =? TRDP_MSG_MN) || (t =? TRDP_MSG_MR) || (t =? TRDP_MSG_MP) || (t =? TRDP_MSG_MQ) || (t =? TRDP_MSG_MC)
  || (t =? TRDP_MSG_ME).

Definition trdp_mdCheck (s : TRDP_MD_SESSION_T) (f : list Z) (packetSize : Z) (checkHeaderOnly : bool) : TRDP_ERR_T :=
  let n := get32 off_datasetLength f in
  if (packetSize <? sizeof_MD_HEADER_T) || (packetSize >? TRDP_MAX_MD_PACKET_SIZE) || (n >? TRDP_MAX_MD_PACKET_SIZE)
  then TRDP_WIRE_ERR
  else if negb (get32le off_md_frameCheckSum f =? md_header_crc f) then TRDP_CRC_ERR
  else if negb ((get16 off_protocolVersion f &&& TRDP_PROTOCOL_VERSION_CHECK_MASK)
                =? (TRDP_PROTO_VER &&& TRDP_PROTOCOL_VERSION_CHECK_MASK)) then TRDP_WIRE_ERR
  else if negb (md_type_ok (h_msgType f)) then TRDP_WIRE_ERR
  else if negb checkHeaderOnly
          && (packetSize <? (if n >? 0 then u32 (sizeof_MD_HEADER_T + n) else sizeof_MD_HEADER_T)) then TRDP_WIRE_ERR
  else if negb (trdp_validTopoCounters (s_etbTopoCnt (ms_session s)) (s_opTrnTopoCnt (ms_session s))
                  (get32 off_etbTopoCnt f) (get32 off_opTrnTopoCnt f)) then TRDP_TOPO_ERR
  else TRDP_NO_ERR.

(** A header that leaves the topography counters open, or matches them. *)
Definition topo_ok (f : list Z) (a : TRDP_ADDRESSES_T) : bool :=
  ((get32 off_etbTopoCnt f =? 0) && (get32 off_opTrnTopoCnt f =? 0))
  || trdp_validTopoCounters (get32 off_etbTopoCnt f) (get32 off_opTrnTopoCnt f) (etbTopoCnt a) (opTrnTopoCnt a).

(** ** UDP *)
Definition set_srcIp (v : Z) (a : TRDP_ADDRESSES_T) : TRDP_ADDRESSES_T :=
  mkAddr (comId a) v (destIpAddr a) (mcGroup a) (etbTopoCnt a) (opTrnTopoCnt a).

(** The buffer, the addresses and the port after a receive call. *)
Definition udp_read (bs : list Z) (ap : Z * Z * Z) (e : MD_ELE_T) : MD_ELE_T :=
  let '(src, port, dst) := ap in
  on_packet (bput 0 bs) (set_md_replyPort port (set_md_addr (set_srcIp src (set_destIpAddr dst (md_addr e))) e)).

Definition trdp_mdRecvUDPPacket (env : md_rcv_env) (e0 : MD_ELE_T) (s : TRDP_MD_SESSION_T) : TRDP_ERR_T * MD_ELE_T :=
  let e1 := set_md_addr (set_srcIp 0 (set_destIpAddr (realIP (ms_session s)) (md_addr e0))) e0 in
  let '(err, bs, ap) := mr_recvUDP env true sizeof_MD_HEADER_T in
  let e2 := udp_read bs ap e1 in
  if negb (is_ok err) then (err, e2)
  else
    let size := Z.of_nat (length bs) in
    if (size =? sizeof_MD_HEADER_T) && is_ok (trdp_mdCheck s (packet e2) size true) then
      let n := get32 off_datasetLength (packet e2) in
      let gross := trdp_packetSizeMD n in
      let e3 := set_md_grossSize gross (set_md_dataSize n e2) in
      if (gross >? cMinimumMDSize) && negb (mr_big env) then (TRDP_MEM_ERR, e3)
      else
        let e4 := if gross >? cMinimumMDSize then new_packet e3 else e3 in
        let '(err, bs, ap) := mr_recvUDP env false gross in
        (err, udp_read bs ap e4)
    else
      let '(_, bs, ap) := mr_recvUDP env false sizeof_MD_HEADER_T in
      (TRDP_NODATA_ERR, udp_read bs ap e2).

(** ** TCP: a message may arrive in pieces, which are kept in [uncompletedTCP] *)
Definition sock_index (s : TRDP_MD_SESSION_T) (mdSock : Z) : option nat :=
  fst <$> list_find (fun x => sock x = mdSock) (take (Z.to_nat VOS_MAX_SOCKET_CNT) (ms_iface s)).

Definition set_unc (i : nat) (u : option MD_ELE_T) (s : TRDP_MD_SESSION_T) : TRDP_MD_SESSION_T :=
  set_uncompletedTCP (<[i := u]> (uncompletedTCP s)) s.

(** The larger buffer, if the message needs it: only the bytes just read are copied. *)
Definition tcp_enlarge (env : md_rcv_env) (storedHeader readSize : Z) (e : MD_ELE_T) : option (TRDP_ERR_T * MD_ELE_T) :=
  let gross := trdp_packetSizeMD (md_dataSize e) in
  if gross >? cMinimumMDSize then
    if negb (mr_big env) then Some (TRDP_MEM_ERR, e)
    else
      bs ← bread storedHeader readSize (packet e);
      big ← bwrite storedHeader bs (repeat 0 (Z.to_nat gross));
      Some (TRDP_NO_ERR, set_pPacket (Some big) e)
  else Some (TRDP_NO_ERR, e).

(** The header, from where it stopped the last time: the result of the call, the element, the bytes
    kept from before, those read now, and both together; or the element whose header is refused. *)
Definition tcp_header (env : md_rcv_env) (s : TRDP_MD_SESSION_T) (e : MD_ELE_T) (u : option MD_ELE_T)
  : option (MD_ELE_T + TRDP_ERR_T * MD_ELE_T * option MD_ELE_T * Z * Z * Z) :=
  let stored := match u with Some u => md_grossSize u | None => 0 end in
  if stored <? sizeof_MD_HEADER_T then
    let '(err, bs) := mr_recvTCP env true (sizeof_MD_HEADER_T - stored) in
    buf ← bwrite stored bs (packet e);
    let e1 := set_pPacket (Some buf) e in
    let readSize := Z.of_nat (length bs) in
    let size := stored + readSize in
    let read u := Some (inr (err, e1, u, stored, readSize, size)) in
    match u with
    | Some u1 =>
        match pPacket u1 with
        | Some uf =>
            if is_ok err && (size >=? sizeof_MD_HEADER_T) then
              if is_ok (trdp_mdCheck s buf size true)
              then read (Some (set_pPacket (Some (put32 off_datasetLength (get32 off_datasetLength buf)
                                 (put32 off_md_frameCheckSum (get32 off_md_frameCheckSum buf) uf))) u1))
              else Some (inl e1)
            else read u
        | None => read u
        end
    | None => read u
    end
  else Some (inr (TRDP_NO_ERR, e, u, 0, 0, 0)).

(** The outcome of the reading part: an early end, or the result of the last call, the element, the
    bytes read in this call and those of them that are data, and the data expected. *)
Inductive tcp_part :=
| TcpEnd (err : TRDP_ERR_T) (e : MD_ELE_T)
| TcpRead (err : TRDP_ERR_T) (e : MD_ELE_T) (readSize readData dataSize : Z).

(** The data that is still missing. *)
Definition tcp_data (env : md_rcv_env) (err : TRDP_ERR_T) (e : MD_ELE_T) (u : option MD_ELE_T)
    (storedHeader readSize size : Z) : option tcp_part :=
  let stored := match u with Some u => md_grossSize u | None => 0 end in
  if (size >=? sizeof_MD_HEADER_T) || (stored >=? sizeof_MD_HEADER_T) then
    let '(total, size, dataSize) :=
      match u ≫= pPacket with
      | Some uf => let total := get32 off_datasetLength uf in
                   let size := u32 (stored + readSize) in
                   (total, size, u32 (total - (size - sizeof_MD_HEADER_T)))
      | None => let total := get32 off_datasetLength (packet e) in (total, size, total)
      end in
    '(merr, e1) ← (if size >=? sizeof_MD_HEADER_T then tcp_enlarge env storedHeader readSize (set_md_dataSize total e)
                   else Some (TRDP_NO_ERR, set_md_dataSize total e));
    if negb (is_ok merr) then Some (TcpEnd merr e1)
    else if dataSize >? 0 then
      let '(err, bs) := mr_recvTCP env false dataSize in
      buf ← bwrite size bs (packet e1);
      let n := Z.of_nat (length bs) in
      Some (TcpRead err (set_md_grossSize (u32 (size + n)) (set_pPacket (Some buf) e1)) (readSize + n) n dataSize)
    else Some (TcpRead err (set_md_grossSize size e1) readSize 0 dataSize)
  else Some (TcpRead err (set_md_grossSize size e) readSize 0 0).

(** A message that is not complete: what was read is kept. *)
Definition tcp_keep (env : md_rcv_env) (e : MD_ELE_T) (u : option MD_ELE_T) (readSize readData : Z)
  : option (TRDP_ERR_T * option MD_ELE_T) :=
  let need := trdp_packetSizeMD (md_dataSize e) in
  let keep stored u1 :=
    if readSize >? 0 then
      bs ← bread stored readSize (packet e);
      uf ← pPacket u1;
      uf' ← bwrite stored bs uf;
      Some (TRDP_PACKET_ERR, Some (set_md_dataSize readData (set_md_grossSize (md_grossSize e) (set_pPacket (Some uf') u1))))
    else Some (TRDP_PARAM_ERR, Some u1) in
  match u with
  | None =>
      match mr_unc env with
      | None => Some (TRDP_MEM_ERR, None)
      | Some p =>
          if negb (mr_unc_packet env) then Some (TRDP_MEM_ERR, Some (zero_md p))
          else keep 0 (set_pPacket (Some (repeat 0 (Z.to_nat (if need <? cMinimumMDSize then cMinimumMDSize else need)))) (zero_md p))
      end
  | Some u1 =>
      let stored := md_grossSize u1 in
      if (stored <? sizeof_MD_HEADER_T) && (md_grossSize e >? sizeof_MD_HEADER_T) && (need >? cMinimumMDSize) then
        if negb (mr_big env) then Some (TRDP_MEM_ERR, u)
        else
          bs ← bread 0 stored (packet e);
          big ← bwrite 0 bs (repeat 0 (Z.to_nat need));
          keep stored (set_pPacket (Some big) u1)
      else keep stored u1
  end.

(** A message that is complete: the pieces kept are put in front of what was read. *)
Definition tcp_finish (e : MD_ELE_T) (u : option MD_ELE_T) (readSize : Z)
  : option (TRDP_ERR_T * MD_ELE_T * option MD_ELE_T) :=
  match u with
  | None => Some (TRDP_NO_ERR, e, None)
  | Some u1 =>
      match pPacket u1 with
      | Some uf =>
          if readSize >? 0 then
            bs ← bread (md_grossSize u1) readSize (packet e);
            uf' ← bwrite (md_grossSize u1) bs uf;
            all ← bread 0 (md_grossSize e) uf';
            buf ← bwrite 0 all (packet e);
            Some (TRDP_NO_ERR, set_pPacket (Some buf) e, None)
          else Some (TRDP_PARAM_ERR, e, u)
      | None => Some (TRDP_PARAM_ERR, e, u)
      end
  end.

Definition tcp_incomplete (e : MD_ELE_T) (readData dataSize : Z) : bool :=
  let noDataToRead := (md_grossSize e =? sizeof_MD_HEADER_T) && (dataSize =? 0) in
  ((md_grossSize e <? sizeof_MD_HEADER_T) && (readData =? 0)) || (negb noDataToRead && negb (readData =? dataSize)).

(** What follows the reading. *)
Definition tcp_rest (env : md_rcv_env) (u : option MD_ELE_T) (part : tcp_part) : option (TRDP_ERR_T * MD_ELE_T * option MD_ELE_T) :=
  match part with
  | TcpEnd err e => Some (err, e, u)
  | TcpRead err e readSize readData dataSize =>
      if is_ok err || (bool_decide (err = TRDP_BLOCK_ERR) && negb (md_tcp e && (readSize =? 0))) then
        if tcp_incomplete e readData dataSize
        then '(r, u') ← tcp_keep env e u readSize readData; Some (r, e, u')
        else tcp_finish e u readSize
      else Some (err, e, u)
  end.

Definition trdp_mdRecvTCPPacket (env : md_rcv_env) (mdSock : Z) (e0 : MD_ELE_T) (s : TRDP_MD_SESSION_T)
  : option (TRDP_ERR_T * MD_ELE_T * TRDP_MD_SESSION_T) :=
  let e := set_md_addr (set_destIpAddr (realIP (ms_session s)) (md_addr e0)) (set_md_dataSize 0 e0) in
  match sock_index s mdSock with
  | None => Some (TRDP_UNKNOWN_ERR, e, s)
  | Some i =>
      hdr ← tcp_header env s e (mjoin (uncompletedTCP s !! i));
      match hdr with
      | inl e => Some (TRDP_NODATA_ERR, e, s)
      | inr (err, e, u, storedHeader, readSize, size) =>
          part ← tcp_data env err e u storedHeader readSize size;
          '(r, e, u) ← tcp_rest env u part;
          Some (r, e, set_unc i u s)
      end
  end.

(** ** A message from a socket *)
Definition inc_numRcv t := set_md_numRcv (u32 (md_numRcv t + 1)) t.
Definition inc_numCrcErr t := set_md_numCrcErr (u32 (md_numCrcErr t + 1)) t.
Definition inc_numProtErr t := set_md_numProtErr (u32 (md_numProtErr t + 1)) t.
Definition inc_numTopoErr t := set_md_numTopoErr (u32 (md_numTopoErr t + 1)) t.

Definition trdp_mdRecvPacket (env : md_rcv_env) (mdSock : Z) (e : MD_ELE_T) (s : TRDP_MD_SESSION_T)
  : option (TRDP_ERR_T * MD_ELE_T * TRDP_MD_SESSION_T) :=
  '(err, e1, s1) ← (if md_tcp e then trdp_mdRecvTCPPacket env mdSock e s
                    else let '(err, e1) := trdp_mdRecvUDPPacket env e s in Some (err, e1, s));
  if negb (is_ok err) then Some (err, e1, s1)
  else
    let err := trdp_mdCheck s1 (packet e1) (md_grossSize e1) false in
    let count := match err with
                 | TRDP_NO_ERR => inc_numRcv | TRDP_CRC_ERR => inc_numCrcErr
                 | TRDP_WIRE_ERR => inc_numProtErr | TRDP_TOPO_ERR => inc_numTopoErr | _ => fun t => t
                 end in
    Some (err, e1, count_md (md_tcp e1) count s1).

(** ** Replies and confirmations *)

(** The queue a message of the type is for. *)
Definition answer_queue (t : Z) : option md_queue :=
  if t =? TRDP_MSG_MC then Some RcvQ
  else if (t =? TRDP_MSG_MQ) || (t =? TRDP_MSG_MP) || (t =? TRDP_MSG_ME) then Some SndQ else None.

(** The session takes over the packet received in [r]. *)
Definition take_packet (r : MD_ELE_T) (e : MD_ELE_T) : MD_ELE_T :=
  let f := packet r in
  let a := md_addr e in
  set_md_addr (mkAddr (if h_msgType f =? TRDP_MSG_ME then comId a else get32 off_comId f) (srcIpAddr (md_addr r))
                 (destIpAddr (md_addr r)) (mcGroup a) (etbTopoCnt a) (opTrnTopoCnt a))
    (set_md_grossSize (md_grossSize r) (set_md_dataSize (get32 off_datasetLength f) (set_pPacket (pPacket r) e))).

Definition replies_done (e : MD_ELE_T) : bool :=
  (numExpReplies e =? 1)
  || (negb (numExpReplies e =? 0) && (u32 (numReplies e + numRepliesQuery e) >=? numExpReplies e)
      && (u32 (numConfirmSent e + numConfirmTimeout e) >=? numRepliesQuery e)).

(** What the type of the message does to the session. *)
Definition answered (now : TRDP_TIME_T) (f : list Z) (e : MD_ELE_T) : MD_ELE_T :=
  let t := h_msgType f in
  if t =? TRDP_MSG_MC then set_md_morituri true (set_md_stateEle TRDP_ST_RX_CONF_RECEIVED e)
  else
    let e1 := set_md_destURI (vos_strncpy (md_destURI e) (bget off_destinationURI 32 f) TRDP_MAX_URI_USER_LEN)
                (set_md_srcURI (vos_strncpy (md_srcURI e) (bget off_sourceURI 32 f) TRDP_MAX_URI_USER_LEN) e) in
    if t =? TRDP_MSG_MQ then
      let iv := md_times (get32 off_replyTimeout f) in
      set_md_timeToGo (addTime now iv) (set_md_interval iv
        (set_md_stateEle TRDP_ST_TX_REQ_W4AP_CONFIRM (set_numRepliesQuery (u32 (numRepliesQuery e1 + 1)) e1)))
    else
      let e2 := set_numReplies (u32 (numReplies e1 + 1)) (set_md_stateEle TRDP_ST_TX_REPLY_RECEIVED e1) in
      if replies_done e2 then set_md_morituri true e2 else e2.

(** The session the message is for, if there is one. *)
Definition trdp_mdHandleConfirmReply (env : md_rcv_env) (s : TRDP_MD_SESSION_T) : option (md_queue * Z) * TRDP_MD_SESSION_T :=
  match pMDRcvEle s with
  | None => (None, s)
  | Some r =>
      let f := packet r in
      match answer_queue (h_msgType f) with
      | None => (None, s)
      | Some q =>
          match find (fun e => topo_ok f (md_addr e) && bool_decide (h_sessionID (packet e) = h_sessionID f)) (get_q q s) with
          | None => (None, s)
          | Some e =>
              (Some (q, md_ptr e),
               put_md q (answered (mr_now env) f (take_packet r e)) (set_pMDRcvEle (Some (set_pPacket None r)) s))
          end
      end
  end.

(** ** The error message *)
Definition me_ele (now : TRDP_TIME_T) (r : MD_ELE_T) (s : TRDP_MD_SESSION_T) (p : Z) : MD_ELE_T :=
  trdp_mdSetSessionTimeout now
    (set_md_cb (md_cb r) (set_md_pktFlags (md_flags (mdDefault s)) (set_md_socketIdx TRDP_INVALID_SOCKET_INDEX
      (set_md_grossSize (trdp_packetSizeMD 0)
        (set_md_addr (mkAddr 0 (destIpAddr (md_addr r)) (srcIpAddr (md_addr r)) 0 0 0) (zero_md p)))))).

Definition trdp_mdSendME (env : md_env) (f : list Z) (replyStatus : Z) (s : TRDP_MD_SESSION_T)
  : TRDP_ERR_T * TRDP_MD_SESSION_T :=
  if negb (replyStatus =? TRDP_REPLY_NO_REPLIER_INST) && negb (replyStatus =? TRDP_REPLY_NO_MEM_REPL)
  then (TRDP_PARAM_ERR, s)
  else match pMDRcvEle s with
  | None => (TRDP_NO_ERR, s)
  | Some r =>
      match me_elem env with
      | None => (TRDP_MEM_ERR, s)
      | Some p =>
          let e := me_ele (me_now env) r s p in
          let d := mdDefault s in
          let '(errv, e, s) := trdp_mdConnectSocket env (Some (md_qos d, md_ttl d, md_retries d)) (srcIpAddr (md_addr e))
                                 (destIpAddr (md_addr e)) true e s in
          if negb (is_ok errv) then (errv, trdp_mdFreeSession e s)
          else
            let e := set_md_sessionID (h_sessionID f) (trdp_mdFillStateElement TRDP_MSG_ME e) in
            if negb (me_packet env) then (TRDP_MEM_ERR, log [MdFree p] s)
            else (TRDP_NO_ERR,
                  trdp_mdDetailSenderPacket
                    (mkMsg TRDP_MSG_ME replyStatus 0 0 None 0 (Some (md_destURI r)) (Some (md_srcURI r)))
                    true SndQ (new_packet e) s)
      end
  end.

(** ** Requests and notifications *)

(** A request for a session that exists: repeated, or the reply is to be sent again. *)
Definition repeated (isTCP : bool) (f : list Z) (e : MD_ELE_T) : option MD_ELE_T :=
  if (get32 off_sequenceCounter f =? get32 off_sequenceCounter (packet e)) || isTCP || negb (mcGroup (md_addr e) =? 0)
     || negb (bool_decide (md_stateEle e = TRDP_ST_RX_REPLYQUERY_W4C))
  then Some e
  else if negb (topo_ok f (md_addr e)) then None
  else
    let e1 := set_numRetries (u32 (numRetries e + 1)) (set_md_stateEle TRDP_ST_TX_REPLYQUERY_ARM e) in
    let e2 := on_packet (put32 off_sequenceCounter (get32 off_sequenceCounter f)) e1 in
    Some (trdp_mdUpdatePacket (set_md_timeToGo (addTime (md_timeToGo e2) (md_interval e2)) e2)).

(** The listener suits the message: TCP listeners have no socket. *)
Definition listens (strnicmp : list Z -> list Z -> Z -> Z) (isTCP : bool) (f : list Z) (dest : Z) (l : MD_LIS_ELE_T) : bool :=
  let byComId := hd 0 (lis_destURI l) =? 0 in
  negb (negb (lis_socketIdx l =? TRDP_INVALID_SOCKET_INDEX) && isTCP)
  && negb (negb (mcGroup (lis_addr l) =? 0) && negb (mcGroup (lis_addr l) =? dest))
  && ((byComId && (get32 off_comId f =? comId (lis_addr l)))
      || (negb byComId && (strnicmp (lis_destURI l) (bget off_destinationURI 32 f) TRDP_DEST_URI_SIZE =? 0)))
  && topo_ok f (lis_addr l).

(** The received element as a new session of the listener. *)
Definition session_of (sockIndex : Z) (st : TRDP_MD_ELE_ST_T) (l : MD_LIS_ELE_T) (r : MD_ELE_T) : MD_ELE_T :=
  let a := md_addr r in
  set_md_socketIdx (if lis_socketIdx l =? TRDP_INVALID_SOCKET_INDEX then sockIndex else lis_socketIdx l)
    (set_md_pktFlags (lis_pktFlags l)
      (set_md_addr (mkAddr (comId a) (srcIpAddr a) (destIpAddr a) (mcGroup a) (etbTopoCnt (lis_addr l)) (opTrnTopoCnt (lis_addr l)))
        (set_md_stateEle st (set_md_cb (lis_cb l) (set_md_pUserRef (lis_pUserRef l) r))))).

Definition start_session (now : TRDP_TIME_T) (f : list Z) (e : MD_ELE_T) : MD_ELE_T :=
  let t := get32 off_replyTimeout f in
  let infinite := (t =? 0) && (h_msgType f =? TRDP_MSG_MR) in
  let iv := if infinite then mkTime TDRP_MD_INFINITE_TIME TDRP_MD_INFINITE_USEC_TIME else md_times t in
  set_md_srcURI (vos_strncpy (md_srcURI e) (bget off_sourceURI 32 f) TRDP_MAX_URI_USER_LEN)
    (set_md_sessionID (h_sessionID f)
      (set_md_timeToGo (if infinite then iv else addTime now iv) (set_md_interval iv e))).

(** Result, and the new session if one is made. *)
Definition trdp_mdHandleRequest (env : md_rcv_env) (isTCP : bool) (sockIndex : Z) (st : TRDP_MD_ELE_ST_T)
    (s : TRDP_MD_SESSION_T) : TRDP_ERR_T * option (md_queue * Z) * TRDP_MD_SESSION_T :=
  match pMDRcvEle s with
  | None => (TRDP_NO_ERR, None, s)
  | Some r =>
      let f := packet r in
      let found := list_find (fun e => h_sessionID (packet e) = h_sessionID f) (pMDRcvQueue s) in
      match from_option (fun x => (fun e => (md_ptr (snd x), e)) <$> repeated isTCP f (snd x)) None found with
      | Some (p, e) => (TRDP_NO_ERR, None, put_md RcvQ e s)
      | None =>
          let numOfReceivers := match found with Some (i, _) => Z.of_nat i + 1 | None => Z.of_nat (length (pMDRcvQueue s)) end in
          if md_maxNumSessions (mdDefault s) <=? numOfReceivers
          then (TRDP_NO_ERR, None, snd (trdp_mdSendME (mr_env env) f TRDP_REPLY_NO_MEM_REPL s))
          else match list_find (fun l => listens (mr_strnicmp env) isTCP f (destIpAddr (md_addr r)) l = true) (pMDListenQueue s) with
          | Some (i, l) =>
              let e := start_session (mr_now env) f (session_of sockIndex st l r) in
              (TRDP_NO_ERR, Some (RcvQ, md_ptr e),
               set_pMDListenQueue (<[i := set_numSessions (u32 (numSessions l + 1)) l]> (pMDListenQueue s))
                 (set_pMDRcvEle None (set_pMDRcvQueue (trdp_MDqueueInsFirst (pMDRcvQueue s) (Some e)) s)))
          | None =>
              (TRDP_NOLIST_ERR, None,
               snd (trdp_mdSendME (mr_env env) f TRDP_REPLY_NO_REPLIER_INST (count_md isTCP inc_numNoListener s)))
          end
      end
  end.

(** ** Receiving *)

(** The element received into, with its packet. *)
Definition recv_element (env : md_rcv_env) (isTCP : bool) (s : TRDP_MD_SESSION_T) : option MD_ELE_T :=
  let r0 := match pMDRcvEle s with
            | Some r => Some r
            | None => (fun p => set_md_pktFlags (md_flags (mdDefault s)) (zero_md p)) <$> mr_elem env
            end in
  (fun r => set_md_pktFlags (if isTCP then set_flag (md_pktFlags r) TRDP_FLAGS_TCP
                             else clear_flag (md_pktFlags r) TRDP_FLAGS_TCP) r) <$> r0.

(** The session that got a message is told, and a notification is over then. *)
Definition tell_session (q : md_queue) (p : Z) (result : TRDP_ERR_T) (s : TRDP_MD_SESSION_T) : TRDP_MD_SESSION_T :=
  match find_md p (get_q q s) with
  | None => s
  | Some e =>
      let s1 := trdp_mdInvokeCallback e result s in
      if bool_decide (md_stateEle e = TRDP_ST_RX_NOTIFY_RECEIVED) then put_md q (set_md_morituri true e) s1 else s1
  end.

Definition trdp_mdRecv (env : md_rcv_env) (sockIndex : Z) (s : TRDP_MD_SESSION_T) : option (TRDP_ERR_T * TRDP_MD_SESSION_T) :=
  let isTCP := bool_decide (sock_type (entry s sockIndex) = TRDP_SOCK_MD_TCP) in
  match recv_element env isTCP s with
  | None => Some (TRDP_MEM_ERR, s)
  | Some r0 =>
      match (match pPacket r0 with
             | Some _ => Some r0
             | None => if mr_packet env then Some (set_pPacket (Some (repeat 0 (Z.to_nat cMinimumMDSize))) r0) else None
             end) with
      | None => Some (TRDP_MEM_ERR, log [MdFree (md_ptr r0)] (set_pMDRcvEle None s))
      | Some r1 =>
          '(result, r2, s1) ← trdp_mdRecvPacket env (sock (entry s sockIndex)) r1 s;
          if negb (is_ok result) then Some (result, set_pMDRcvEle (Some r2) s1)
          else
            let r := if isTCP then set_md_addr (set_srcIp (cornerIp (entry s1 sockIndex)) (md_addr r2)) r2 else r2 in
            let s2 := set_pMDRcvEle (Some r) s1 in
            let t := h_msgType (packet r) in
            let '(result, who, s3) :=
              if (t =? TRDP_MSG_MN) || (t =? TRDP_MSG_MR)
              then trdp_mdHandleRequest env isTCP sockIndex
                     (if t =? TRDP_MSG_MN then TRDP_ST_RX_NOTIFY_RECEIVED else TRDP_ST_RX_REQ_W4AP_REPLY) s2
              else let '(who, s3) := trdp_mdHandleConfirmReply env s2 in (TRDP_NO_ERR, who, s3) in
            Some (result, match who with
                          | Some (q, p) => tell_session q p (if t =? TRDP_MSG_ME then TRDP_NOLIST_ERR else TRDP_NO_ERR) s3
                          | None => s3
                          end)
      end
  end.

(** ** The sockets *)

(** [vos_sockListen] is the answer to listening on a descriptor. *)
Definition trdp_mdGetTCPSocket (env : sock_env) (vos_sockListen : Z -> TRDP_ERR_T) (s : TRDP_MD_SESSION_T)
  : TRDP_ERR_T * TRDP_MD_SESSION_T :=
  if negb (listen_sd s =? VOS_INVALID_SOCKET) then (TRDP_NO_ERR, s)
  else
    let d := mdDefault s in
    let '(err, fd) := vos_sockOpenTCP env (mkSockOpt (md_qos d) (md_ttl d) 0 true true false false) in
    let s1 := set_listen_sd fd s in
    if negb (is_ok err) then (err, s1)
    else
      let err := vos_sockBind env fd (realIP (ms_session s)) (md_tcpPort d) in
      if negb (is_ok err) then (err, s1) else (vos_sockListen fd, s1).

(** A socket among the descriptors to watch; the highest is kept. *)
Definition watch (fd : Z) (fds : gset Z * Z) : gset Z * Z :=
  (fst fds ∪ {[fd]}, if fd >? snd fds then fd else snd fds).
Definition watch_index (ifc : list TRDP_SOCKETS_T) (fds : gset Z * Z) (idx : Z) : gset Z * Z :=
  match (if idx <? 0 then None else ifc !! Z.to_nat idx) with
  | Some x => if negb (sock x =? VOS_INVALID_SOCKET)
                 && (negb (bool_decide (sock_type x = TRDP_SOCK_MD_TCP)) || addFileDesc x)
                 && negb (bool_decide (sock x ∈ fst fds))
              then watch (sock x) fds else fds
  | None => fds
  end.
Definition watch_tcp (fds : gset Z * Z) (x : TRDP_SOCKETS_T) : gset Z * Z :=
  if negb (sock x =? VOS_INVALID_SOCKET) && bool_decide (sock_type x = TRDP_SOCK_MD_TCP) && addFileDesc x
  then watch (sock x) fds else fds.

Definition trdp_mdCheckPending (s : TRDP_MD_SESSION_T) (fds : gset Z * Z) : gset Z * Z :=
  let fds := if negb (listen_sd s =? VOS_INVALID_SOCKET) then watch (listen_sd s) fds else fds in
  let fds := fold_left watch_tcp (take (Z.to_nat VOS_MAX_SOCKET_CNT) (ms_iface s)) fds in
  fold_left (watch_index (ms_iface s))
    (map lis_socketIdx (pMDListenQueue s) ++ map md_socketIdx (pMDRcvQueue s) ++ map md_socketIdx (pMDSndQueue s)) fds.

(** A connection as [vos_sockAccept] delivers it, with the answer to setting its options. *)
Record accepted := mkAccepted { ac_err : TRDP_ERR_T; ac_sock : Z; ac_ip : Z; ac_options : TRDP_ERR_T }.

Definition accept_info (s : TRDP_MD_SESSION_T) (ip : Z) : TRDP_MD_INFO_T :=
  mkMdInfo ip 0 0 0 0 0 (s_etbTopoCnt (ms_session s)) (s_opTrnTopoCnt (ms_session s)) false 0 0 0 0 TRDP_REPLY_OK
    cEmptySession 0 (repeat 0 33) (repeat 0 33) 0 0 0 TRDP_SOCK_ERR.

(** The entry for connections from the same device. *)
Definition same_device (ip : Z) (x : TRDP_SOCKETS_T) : bool :=
  negb (sock x =? VOS_INVALID_SOCKET) && bool_decide (sock_type x = TRDP_SOCK_MD_TCP) && (cornerIp x =? ip) && rcvMostly x.

(** One connection: the set of ready descriptors and their number change with the session. *)
Definition accept_one (env : md_env) (a : accepted) (st : gset Z * Z * TRDP_MD_SESSION_T) : gset Z * Z * TRDP_MD_SESSION_T :=
  let '(rfds, cnt, s) := st in
  if negb (is_ok (ac_options a)) then (rfds, cnt, log [MdLost (ac_sock a)] s)
  else match list_find (fun x => same_device (ac_ip a) x = true) (take (Z.to_nat VOS_MAX_SOCKET_CNT) (ms_iface s)) with
  | Some (i, x) =>
      if usage x >? 0 then (rfds, cnt, log [MdLost (ac_sock a)] s)
      else
        let ready := bool_decide (sock x ∈ rfds) in
        (if ready then rfds ∖ {[sock x]} else rfds, if ready then s32 (cnt - 1) else cnt,
         trdp_mdCloseSessions (me_sock env) (Z.of_nat i) (ac_sock a) true (on_entry (Z.of_nat i) (set_morituri true) s))
  | None =>
      let d := mdDefault s in
      let '(err, _, s') := md_request env (mkReq (md_tcpPort d) (md_qos d) (md_ttl d) (realIP (ms_session s)) 0 TRDP_SOCK_MD_TCP
                             TRDP_OPTION_NONE true (ac_sock a) (ac_ip a)) (zero_md 0) s in
      (rfds, cnt, if is_ok err then s' else log [MdLost (ac_sock a)] s')
  end.

(** The loop of [vos_sockAccept], which ends with the first call without a connection. *)
Fixpoint accept_loop (env : md_env) (l : list accepted) (st : gset Z * Z * TRDP_MD_SESSION_T) : gset Z * Z * TRDP_MD_SESSION_T :=
  match l with
  | [] => st
  | a :: l' =>
      if ac_sock a <? 0 then
        if is_ok (ac_err a) then st
        else
          let '(rfds, cnt, s) := st in
          let s1 := match md_cbFunction (mdDefault s) with
                    | Some cb => log [MdCallback cb (md_refCon (mdDefault s)) (accept_info s (ac_ip a)) None] s
                    | None => s
                    end in
          if ac_sock a =? VOS_INVALID_SOCKET then (rfds, cnt, s1) else accept_loop env l' (rfds, cnt, s1)
      else accept_loop env l' (accept_one env a st)
  end.

(** What a receive result means for a TCP connection. *)
Definition tcp_verdict (env : sock_env) (i : Z) (err : TRDP_ERR_T) (s : TRDP_MD_SESSION_T) : TRDP_MD_SESSION_T :=
  if bool_decide (sock_type (entry s i) = TRDP_SOCK_MD_TCP) then
    match err with
    | TRDP_NODATA_ERR | TRDP_CRC_ERR | TRDP_WIRE_ERR | TRDP_TOPO_ERR =>
        trdp_mdCloseSessions env TRDP_INVALID_SOCKET_INDEX VOS_INVALID_SOCKET true (on_entry i (set_morituri true) s)
    | _ => s
    end
  else s.

(** The loop over the pool from entry [i] on, [n] entries: ready sockets are read, as many as were counted. *)
Fixpoint md_listen_loop (rcv : nat -> md_rcv_env) (n i : nat) (rfds : gset Z) (cnt : option Z) (s : TRDP_MD_SESSION_T)
  : option (gset Z * option Z * TRDP_MD_SESSION_T) :=
  match n with
  | O => Some (rfds, cnt, s)
  | S n' =>
      let x := entry s (Z.of_nat i) in
      if negb (sock x =? VOS_INVALID_SOCKET) && negb (bool_decide (sock_type x = TRDP_SOCK_PD)) && bool_decide (sock x ∈ rfds) then
        let cnt := (fun c => s32 (c - 1)) <$> cnt in
        if from_option (fun c => c <? 0) false cnt then Some (rfds, cnt, s)
        else
          '(err, s1) ← trdp_mdRecv (rcv i) (Z.of_nat i) s;
          md_listen_loop rcv n' (S i) (rfds ∖ {[sock x]}) cnt
            (tcp_verdict (me_sock (mr_env (rcv i))) (Z.of_nat i) err s1)
      else md_listen_loop rcv n' (S i) rfds cnt s
  end.

(** The sockets watched without a set of descriptors. *)
Definition own_fds (s : TRDP_MD_SESSION_T) : gset Z * Z :=
  let fds := if negb (listen_sd s =? VOS_INVALID_SOCKET) then watch (listen_sd s) (∅, VOS_INVALID_SOCKET) else (∅, VOS_INVALID_SOCKET) in
  fold_left (fun fds x => if negb (sock x =? VOS_INVALID_SOCKET) && negb (bool_decide (sock_type x = TRDP_SOCK_PD))
                             && (negb (bool_decide (sock_type x = TRDP_SOCK_MD_TCP)) || addFileDesc x)
                          then watch (sock x) fds else fds)
    (take (Z.to_nat VOS_MAX_SOCKET_CNT) (ms_iface s)) fds.

(** The ready descriptors and their number, after those of [select] where the caller gave none. *)
Definition listen_ready (env : md_env) (accepts : list accepted) (rcv : nat -> md_rcv_env) (rfds : gset Z) (cnt : option Z)
    (s : TRDP_MD_SESSION_T) : option (gset Z * option Z * TRDP_MD_SESSION_T) :=
  let '(rfds, cnt, s) :=
    match cnt with
    | Some c =>
        if (c >? 0) && negb (listen_sd s =? VOS_INVALID_SOCKET) && bool_decide (listen_sd s ∈ rfds)
        then let '(rfds, c, s) := accept_loop env accepts (rfds, s32 (c - 1), s) in (rfds, Some c, s)
        else (rfds, cnt, s)
    | None => (rfds, cnt, s)
    end in
  md_listen_loop rcv (Z.to_nat VOS_MAX_SOCKET_CNT) 0 rfds cnt s.

(** [select] is the answer of [vos_select] to the highest descriptor and the set: the number and the set. *)
Definition trdp_mdCheckListenSocks (env : md_env) (accepts : list accepted) (rcv : nat -> md_rcv_env)
    (select : Z -> gset Z -> Z * gset Z) (pRfds : option (gset Z)) (pCount : option Z) (s : TRDP_MD_SESSION_T)
  : option (option (gset Z) * option Z * TRDP_MD_SESSION_T) :=
  match pRfds with
  | Some rfds => '(rfds, cnt, s) ← listen_ready env accepts rcv rfds pCount s; Some (Some rfds, cnt, s)
  | None =>
      let '(fds, high) := own_fds s in
      if high =? VOS_INVALID_SOCKET then Some (None, pCount, s)
      else
        let '(n, rfds) := select (high + 1) fds in
        if n =? VOS_INVALID_SOCKET then Some (None, pCount, s)
        else '(_, _, s) ← listen_ready env accepts rcv rfds (Some n) s; Some (None, pCount, s)
  end.
