(* ===== verification/TrdpMdIf.v ===== *)
(** * Message data: the programming interface

    Models the functions tlm_* of src/app/trdp/tcnopen/trdp_if.c on one session: each checks the
    handle and takes the mutex of the session, and those that send call trdp_mdcom.c. [te_valid] is
    the answer of [trdp_isValidSession]. [md_close] is the part of tlc_closeSession for message data, and
    [message_data] the layer the work loop of [TrdpIf] calls. *)
From S2P Require Import Prelude Bytes VosTime VosString TrdpTypes TrdpMdTypes TrdpUtils TrdpPd TrdpIf TrdpMd TrdpMdRecv.

Record tlm_env := mkTlm {
  te_valid : bool;
  te_lock : TRDP_ERR_T;
  te_md : md_env;
  te_listener : option Z;
  te_sockListen : Z -> TRDP_ERR_T }.

(** No data with a size, or too much of it. *)
Definition data_refused (pData : option (list Z)) (n : Z) : bool :=
  (match pData with None => negb (n =? 0) | Some _ => false end) || (n >? TRDP_MAX_MD_DATA_SIZE).

Record tlm_args := mkTlmArgs {
  l_userRef : Z; l_cb : option Z; l_comId : Z; l_etbTopoCnt : Z; l_opTrnTopoCnt : Z; l_srcIpAddr : Z; l_destIpAddr : Z;
  l_pktFlags : Z; l_sendParam : option send_param; l_data : option (list Z); l_dataSize : Z;
  l_srcURI : option (list Z); l_destURI : option (list Z) }.

(** The callback is not handed on: the default of the session is used. *)
Definition tlm_notify (env : tlm_env) (a : tlm_args) (s : TRDP_MD_SESSION_T) : TRDP_ERR_T * TRDP_MD_SESSION_T :=
  if negb (te_valid env) then (TRDP_NOINIT_ERR, s)
  else if data_refused (l_data a) (l_dataSize a) then (TRDP_PARAM_ERR, s)
  else
    let '(err, _, s') :=
      trdp_mdCall (te_md env) (te_lock env)
        (mkCall TRDP_MSG_MN (l_userRef a) None (l_comId a) (l_etbTopoCnt a) (l_opTrnTopoCnt a) (l_srcIpAddr a) (l_destIpAddr a)
           (l_pktFlags a) 0 0 TRDP_REPLY_OK (l_sendParam a) (l_data a) (l_dataSize a) (l_srcURI a) (l_destURI a)) s in
    (err, s').

(** No time-out stands for the default, an infinite one is handed on as zero. *)
Definition request_timeout (replyTimeout : Z) (s : TRDP_MD_SESSION_T) : Z :=
  if replyTimeout =? 0 then md_confirmTimeout (mdDefault s)
  else if replyTimeout =? TRDP_INFINITE_TIMEOUT then 0 else replyTimeout.

Definition tlm_request (env : tlm_env) (a : tlm_args) (numReplies replyTimeout : Z) (s : TRDP_MD_SESSION_T)
  : TRDP_ERR_T * option (list Z) * TRDP_MD_SESSION_T :=
  if negb (te_valid env) then (TRDP_NOINIT_ERR, None, s)
  else if data_refused (l_data a) (l_dataSize a) then (TRDP_PARAM_ERR, None, s)
  else if negb (trdp_validTopoCounters (s_etbTopoCnt (ms_session s)) (s_opTrnTopoCnt (ms_session s)) (l_etbTopoCnt a) (l_opTrnTopoCnt a))
  then (TRDP_TOPO_ERR, None, s)
  else trdp_mdCall (te_md env) (te_lock env)
         (mkCall TRDP_MSG_MR (l_userRef a) (l_cb a) (l_comId a) (l_etbTopoCnt a) (l_opTrnTopoCnt a) (l_srcIpAddr a) (l_destIpAddr a)
            (l_pktFlags a) numReplies (request_timeout replyTimeout s) TRDP_REPLY_OK (l_sendParam a) (l_data a) (l_dataSize a)
            (l_srcURI a) (l_destURI a)) s.

Definition tlm_reply (env : tlm_env) (pSessionId : option (list Z)) (comId_ userStatus : Z) (pSendParam : option send_param)
    (pData : option (list Z)) (n : Z) (s : TRDP_MD_SESSION_T) : TRDP_ERR_T * TRDP_MD_SESSION_T :=
  if negb (te_valid env) then (TRDP_NOINIT_ERR, s)
  else if data_refused pData n then (TRDP_PARAM_ERR, s)
  else trdp_mdReply (te_md env) (te_lock env) pSessionId (mkReply TRDP_MSG_MP comId_ 0 userStatus pSendParam pData n) s.

Definition tlm_replyQuery (env : tlm_env) (pSessionId : option (list Z)) (comId_ userStatus confirmTimeout : Z)
    (pSendParam : option send_param) (pData : option (list Z)) (n : Z) (s : TRDP_MD_SESSION_T) : TRDP_ERR_T * TRDP_MD_SESSION_T :=
  if negb (te_valid env) then (TRDP_NOINIT_ERR, s)
  else if data_refused pData n then (TRDP_PARAM_ERR, s)
  else
    let mdTimeOut := if negb (confirmTimeout =? 0) then confirmTimeout else md_confirmTimeout (mdDefault s) in
    trdp_mdReply (te_md env) (te_lock env) pSessionId (mkReply TRDP_MSG_MQ comId_ mdTimeOut userStatus pSendParam pData n) s.

Definition tlm_confirm (env : tlm_env) (pSessionId : option (list Z)) (userStatus : Z) (pSendParam : option send_param)
    (s : TRDP_MD_SESSION_T) : TRDP_ERR_T * TRDP_MD_SESSION_T :=
  if negb (te_valid env) then (TRDP_NOINIT_ERR, s)
  else trdp_mdConfirm (te_md env) (te_lock env) pSessionId userStatus pSendParam s.

(** The loop stops at the end of the first queue that is not empty. *)
Definition tlm_abortSession (env : tlm_env) (pSessionId : option (list Z)) (s : TRDP_MD_SESSION_T)
  : TRDP_ERR_T * TRDP_MD_SESSION_T :=
  if negb (te_valid env) then (TRDP_NOINIT_ERR, s)
  else match pSessionId with
  | None => (TRDP_PARAM_ERR, s)
  | Some sid =>
      if negb (is_ok (te_lock env)) then (TRDP_NOINIT_ERR, s)
      else
        let q := if bool_decide (pMDSndQueue s = []) then RcvQ else SndQ in
        let hit e := bool_decide (md_sessionID e = sid) in
        (if existsb hit (get_q q s) then TRDP_NO_ERR else TRDP_NOSESSION_ERR,
         set_q q (map (fun e => if hit e then set_md_morituri true e else e) (get_q q s)) s)
  end.

(** ** Listeners *)
Definition lis_tcp (flags : Z) : bool := flag flags TRDP_FLAGS_TCP.
Definition count_list (d : Z) (t : TRDP_MD_STATISTICS_T) : TRDP_MD_STATISTICS_T := set_md_numList (u32 (md_numList t + d)) t.

(** The socket of a UDP listener: result, index where it is written, session. *)
Definition listener_socket (env : sock_env) (group : Z) (s : TRDP_MD_SESSION_T) : TRDP_ERR_T * option Z * TRDP_MD_SESSION_T :=
  let d := mdDefault s in
  let '(err, idx, ifc, n) :=
    trdp_requestSocket env (mkReq (md_udpPort d) (md_qos d) (md_ttl d) (realIP (ms_session s)) group TRDP_SOCK_MD_UDP
      (option_ (ms_session s)) true VOS_INVALID_SOCKET 0) (ms_iface s) (ms_maxSocketCnt s) in
  (err, idx, set_ms_maxSocketCnt n (set_ms_iface ifc s)).

Record lis_args := mkLisArgs {
  n_userRef : Z; n_cb : option Z; n_comId : Z; n_etbTopoCnt : Z; n_opTrnTopoCnt : Z; n_mcDestIpAddr : Z; n_pktFlags : Z;
  n_destURI : option (list Z) }.

Definition new_listener (a : lis_args) (s : TRDP_MD_SESSION_T) (p idx : Z) : MD_LIS_ELE_T :=
  mkLis p (mkAddr (n_comId a) 0 0 (mc_of (n_mcDestIpAddr a)) (n_etbTopoCnt a) (n_opTrnTopoCnt a))
    (if vos_isMulticast (n_mcDestIpAddr a) then TRDP_MC_JOINT else 0) (n_pktFlags a) (n_userRef a)
    (match n_destURI a with Some u => vos_strncpy (repeat 0 33) u TRDP_MAX_URI_USER_LEN | None => repeat 0 33 end)
    idx (match n_cb a with Some f => Some f | None => md_cbFunction (mdDefault s) end) 0.

(** Result, the handle where it is not NULL, the session. *)
Definition tlm_addListener (env : tlm_env) (a : lis_args) (s : TRDP_MD_SESSION_T) : TRDP_ERR_T * option Z * TRDP_MD_SESSION_T :=
  if negb (te_valid env) then (TRDP_NOINIT_ERR, None, s)
  else if negb (is_ok (te_lock env)) then (TRDP_NOINIT_ERR, None, s)
  else
    let tcp := lis_tcp (n_pktFlags a) in
    let '(errv, s1) := if tcp then trdp_mdGetTCPSocket (me_sock (te_md env)) (te_sockListen env) s else (TRDP_NO_ERR, s) in
    if negb (is_ok errv) then (errv, None, s1)
    else match te_listener env with
    | None => (TRDP_MEM_ERR, None, s1)
    | Some p =>
        let '(errv, idx, s2) := if tcp then (TRDP_NO_ERR, Some TRDP_INVALID_SOCKET_INDEX, s1)
                                else listener_socket (me_sock (te_md env)) (mc_of (n_mcDestIpAddr a)) s1 in
        if negb (is_ok errv) then (errv, None, s2)
        else (TRDP_NO_ERR, Some p,
              count_md tcp (count_list 1) (set_pMDListenQueue (new_listener a s2 p (default 0 idx) :: pMDListenQueue s2) s2))
    end.

(** The body, without the mutex; the statistics are changed whether or not there was such a listener. *)
Definition delListener_in (env : md_env) (p : Z) (s : TRDP_MD_SESSION_T) : TRDP_MD_SESSION_T :=
  let s1 := match find (fun l => lis_ptr l =? p) (pMDListenQueue s) with
            | Some l =>
                let s' := set_pMDListenQueue (unlink lis_ptr p (pMDListenQueue s)) s in
                log [MdFree p] (if negb (lis_socketIdx l =? TRDP_INVALID_SOCKET_INDEX)
                                then release_md (me_sock env) (lis_socketIdx l) s' else s')
            | None => s
            end in
  count_md (lis_tcp (md_flags (mdDefault s1))) (count_list (-1)) s1.

Definition delListener_handle (env : md_env) (listenHandle : option Z) (s : TRDP_MD_SESSION_T) : TRDP_MD_SESSION_T :=
  match listenHandle with
  | Some p => delListener_in env p s
  | None => count_md (lis_tcp (md_flags (mdDefault s))) (count_list (-1)) s
  end.

Definition tlm_delListener (env : tlm_env) (listenHandle : option Z) (s : TRDP_MD_SESSION_T) : TRDP_ERR_T * TRDP_MD_SESSION_T :=
  if negb (te_valid env) || negb (is_ok (te_lock env)) then (TRDP_NOINIT_ERR, s)
  else (TRDP_NO_ERR, delListener_handle (te_md env) listenHandle s).

Definition update_lis (p : Z) (f : MD_LIS_ELE_T -> MD_LIS_ELE_T) (s : TRDP_MD_SESSION_T) : TRDP_MD_SESSION_T :=
  set_pMDListenQueue (map (fun l => if lis_ptr l =? p then f l else l) (pMDListenQueue s)) s.

(** A listener that changes its group needs another socket; without one it is removed. The handle is
    one of the session's. *)
Definition tlm_readdListener (env : tlm_env) (listenHandle : option Z) (etb op mcDestIpAddr : Z) (s : TRDP_MD_SESSION_T)
  : TRDP_ERR_T * TRDP_MD_SESSION_T :=
  if negb (te_valid env) then (TRDP_NOINIT_ERR, s)
  else match listenHandle with
  | None => (TRDP_PARAM_ERR, s)
  | Some p =>
      if negb (is_ok (te_lock env)) then (TRDP_NOINIT_ERR, s)
      else match find (fun l => lis_ptr l =? p) (pMDListenQueue s) with
      | None => (TRDP_NO_ERR, s)
      | Some l =>
          let readdr l := set_lis_addr (mkAddr (comId (lis_addr l)) (srcIpAddr (lis_addr l)) (destIpAddr (lis_addr l)) mcDestIpAddr etb op) l in
          if negb (lis_tcp (lis_pktFlags l)) && vos_isMulticast mcDestIpAddr && negb (mcGroup (lis_addr l) =? mcDestIpAddr) then
            let s1 := set_ms_iface (trdp_releaseSocket (me_sock (te_md env)) (ms_iface s) (lis_socketIdx l) 0 false) s in
            let '(ret, idx, s2) := listener_socket (me_sock (te_md env)) mcDestIpAddr s1 in
            let s3 := update_lis p (fun l => set_lis_socketIdx (default (lis_socketIdx l) idx) l) s2 in
            (ret, if is_ok ret then update_lis p readdr s3 else delListener_in (te_md env) p s3)
          else (TRDP_NO_ERR, update_lis p readdr s)
      end
  end.

(** ** Closing: the part of [tlc_closeSession] for message data. Every element is given back, and its socket released. *)
Definition close_queue (env : sock_env) (q : md_queue) (s : TRDP_MD_SESSION_T) : TRDP_MD_SESSION_T :=
  set_q q [] (fold_left (fun s e => trdp_mdFreeSession e (release_md env (md_socketIdx e) s)) (get_q q s) s).
Definition close_listeners (env : sock_env) (s : TRDP_MD_SESSION_T) : TRDP_MD_SESSION_T :=
  set_pMDListenQueue [] (fold_left (fun s l => log [MdFree (lis_ptr l)] (if lis_socketIdx l =? -1 then s else release_md env (lis_socketIdx l) s))
                           (pMDListenQueue s) s).
Definition md_close (env : sock_env) (s : TRDP_MD_SESSION_T) : TRDP_MD_SESSION_T :=
  let s := match pMDRcvEle s with Some e => set_pMDRcvEle None (log [MdFree (md_ptr e)] s) | None => s end in
  set_listen_sd VOS_INVALID_SOCKET (close_listeners env (close_queue env RcvQ (close_queue env SndQ s))).

(** ** The layer the work loop calls

    [m] is message data of the session when it is called, [env] and the following are its answers;
    the work loop's session takes the place of the shared members. *)
Definition join_md (m : TRDP_MD_SESSION_T) (s : TRDP_SESSION_T) : TRDP_MD_SESSION_T := set_ms_session s m.

Section Layer.
Context (m : TRDP_MD_SESSION_T) (env : md_env) (now : nat -> TRDP_TIME_T) (accepts : list accepted)
        (rcv : nat -> md_rcv_env) (select : Z -> gset Z -> Z * gset Z)
        (outside : TRDP_SESSION_T * option (gset Z) * option Z).

(** Where receiving runs outside a buffer nothing is promised: what becomes of the session is [outside], which can be
    anything. *)
Definition message_data : MdLayer := {|
  TrdpIf.trdp_mdCheckPending s fds := (s, TrdpMdRecv.trdp_mdCheckPending (join_md m s) fds);
  TrdpIf.trdp_mdSend s := let '(err, m') := TrdpMd.trdp_mdSend env (join_md m s) in (err, ms_session m');
  TrdpIf.trdp_mdCheckListenSocks s fds cnt :=
    match TrdpMdRecv.trdp_mdCheckListenSocks env accepts rcv select fds cnt (join_md m s) with
    | Some (fds', cnt', m') => (ms_session m', fds', cnt')
    | None => outside
    end;
  TrdpIf.trdp_mdCheckTimeouts s := ms_session (TrdpMd.trdp_mdCheckTimeouts (me_sock env) now (join_md m s));
  TrdpIf.trdp_mdClose env' s := ms_session (md_close env' (join_md m s)) |}.
End Layer.
