(* ===== verification/TrdpMdDemo.v ===== *)
(** * Message data: a dialogue

    Two sessions built with the programming interface, a caller and a replier, and what they
    exchange: the concrete inputs of the other files, and an end to end run of a request, a reply
    that asks for a confirmation, and the confirmation. *)
From S2P Require Import Prelude Bytes VosTime TrdpTypes TrdpMdTypes TrdpUtils TrdpPd TrdpIf TrdpMd TrdpMdRecv TrdpMdIf.

Definition demo_mdDefault : TRDP_MD_CONFIG_T :=
  mkMdCfg (Some 900) 77 3 64 2 TRDP_FLAGS_CALLBACK 5000000 1000000 60000000 5000000 17225 17225 1000.

(** A session with an empty pool of sockets. *)
Definition demo_md (ip : Z) : TRDP_MD_SESSION_T :=
  let st := mkMdStat 0 0 0 0 0 0 0 0 0 in
  mkMdSession (set_iface (trdp_initSockets (iface (fresh_session ip))) (fresh_session ip)) 0 VOS_INVALID_SOCKET demo_mdDefault
    [] [] [] None (repeat None (Z.to_nat VOS_MAX_SOCKET_CNT)) st st [].

(** Everything succeeds; the time is [t] seconds, the next element and identifier are [p] and [uuid]. *)
Definition demo_env (t p : Z) : md_env :=
  mkMdEnv (mkSockEnv (fun _ _ _ => TRDP_NO_ERR) (fun _ _ => TRDP_NO_ERR) (fun _ => (TRDP_NO_ERR, 7)) (fun _ => (TRDP_NO_ERR, 8))
             (fun _ _ _ => TRDP_NO_ERR) (fun _ => TRDP_NO_ERR) (mkTime t 0))
    (Some p) true (map Z.of_nat (seq 1 16)) (fun _ => TRDP_NO_ERR)
    (fun _ bs => (TRDP_NO_ERR, Z.of_nat (length bs))) (fun _ bs => (TRDP_NO_ERR, Z.of_nat (length bs))).

Definition demo_tlm (t p : Z) : tlm_env := mkTlm true TRDP_NO_ERR (demo_env t p) (Some p) (fun _ => TRDP_NO_ERR).

(** Receiving a datagram of [bs] from [src] for [dst]; the first call leaves it. *)
Definition demo_rcv (t p src dst : Z) (bs : list Z) : md_rcv_env :=
  mkMdRcv (demo_env t (p + 1)) (Some p) true None true true
    (fun _ _ => (TRDP_NODATA_ERR, []))
    (fun _ n => (TRDP_NO_ERR, take (Z.to_nat n) bs, (src, 17225, dst)))
    (fun _ _ _ => 1).

Definition demo_caller_ip : Z := 0x0a000001.
Definition demo_replier_ip : Z := 0x0a000002.
Definition demo_args (bs : list Z) : tlm_args :=
  mkTlmArgs 55 None 2000 0 0 0 demo_replier_ip 0 None (Some bs) (Z.of_nat (length bs)) None None.

(** The messages a session handed to its sockets. *)
Definition sent_bytes (l : list md_event) : list (list Z) :=
  List.concat (map (fun v => match v with MdSent _ _ _ _ bs => [bs] | _ => [] end) l).
(** Callbacks: result, type and data. *)
Definition told (l : list md_event) : list (TRDP_ERR_T * Z * option (list Z)) :=
  List.concat (map (fun v => match v with MdCallback _ _ i d => [(TrdpMdTypes.i_resultCode i, TrdpMdTypes.i_msgType i, d)] | _ => [] end) l).
Definition freed (l : list md_event) : list Z :=
  List.concat (map (fun v => match v with MdFree p => [p] | _ => [] end) l).

(** The caller asks, the replier listens for the comId. *)
Definition demo_ask : TRDP_MD_SESSION_T :=
  snd (tlm_request (demo_tlm 10 100) (demo_args [1; 2; 3]) 1 2000000 (demo_md demo_caller_ip)).
Definition demo_listen : TRDP_MD_SESSION_T :=
  snd (tlm_addListener (demo_tlm 10 200) (mkLisArgs 66 (Some 901) 2000 0 0 0 0 None) (demo_md demo_replier_ip)).
Definition demo_sid : list Z := map Z.of_nat (seq 1 16).

Definition demo_asked : TRDP_MD_SESSION_T := snd (trdp_mdSend (demo_env 10 101) demo_ask).
Definition demo_request : list Z := hd [] (sent_bytes (md_log demo_asked)).

(** The replier gets the request and answers with a query. *)
Definition demo_got : TRDP_MD_SESSION_T :=
  from_option snd demo_listen (trdp_mdRecv (demo_rcv 11 300 demo_caller_ip demo_replier_ip demo_request) 0 demo_listen).
Definition demo_replied : TRDP_MD_SESSION_T :=
  snd (trdp_mdSend (demo_env 11 0)
    (snd (tlm_replyQuery (demo_tlm 11 0) (Some demo_sid) 2001 7 500000 None (Some [4; 5]) 2 demo_got))).
Definition demo_reply : list Z := hd [] (sent_bytes (md_log demo_replied)).

(** The caller gets the reply and confirms it. *)
Definition demo_answer : TRDP_MD_SESSION_T :=
  from_option snd demo_asked (trdp_mdRecv (demo_rcv 12 400 demo_replier_ip demo_caller_ip demo_reply) 0 demo_asked).
Definition demo_confirmed : TRDP_MD_SESSION_T :=
  snd (trdp_mdSend (demo_env 12 0) (snd (tlm_confirm (demo_tlm 12 0) (Some demo_sid) 0 None demo_answer))).
Definition demo_confirmation : list Z := hd [] (tl (sent_bytes (md_log demo_confirmed))).

(** The replier gets the confirmation and its session ends. *)
Definition demo_over : TRDP_MD_SESSION_T :=
  trdp_mdCheckTimeouts (me_sock (demo_env 13 0)) (fun _ => mkTime 13 0)
    (from_option snd demo_replied (trdp_mdRecv (demo_rcv 13 500 demo_caller_ip demo_replier_ip demo_confirmation) 0 demo_replied)).

(** A whole dialogue over UDP: the request of the caller reaches the callback of the listener with its
    data, the reply-query the callback of the caller, the confirmation the replier; both sessions
    end and are released once, the caller's when the confirmation is sent, the replier's when it
    is received, and only the sockets of the listener stay open. *)
Theorem md_dialogue :
  told (md_log demo_got) = [(TRDP_NO_ERR, TRDP_MSG_MR, Some [1; 2; 3])]
  /\ map md_stateEle (pMDSndQueue demo_asked) = [TRDP_ST_TX_REQUEST_W4REPLY]
  /\ map md_stateEle (pMDRcvQueue demo_got) = [TRDP_ST_RX_REQ_W4AP_REPLY]
  /\ map md_stateEle (pMDRcvQueue demo_replied) = [TRDP_ST_RX_REPLYQUERY_W4C]
  /\ told (md_log demo_answer) = [(TRDP_NO_ERR, TRDP_MSG_MQ, Some [4; 5])]
  /\ map md_stateEle (pMDSndQueue demo_answer) = [TRDP_ST_TX_REQ_W4AP_CONFIRM]
  /\ (pMDSndQueue demo_confirmed, freed (md_log demo_confirmed)) = ([], [100])
  /\ (pMDRcvQueue demo_over, freed (md_log demo_over)) = ([], [300])
  /\ told (md_log demo_over) = [(TRDP_NO_ERR, TRDP_MSG_MR, Some [1; 2; 3]); (TRDP_NO_ERR, TRDP_MSG_MC, Some [])]
  /\ forallb (fun x => sock x =? VOS_INVALID_SOCKET) (ms_iface demo_confirmed) = true
  /\ map usage (List.filter (fun x => negb (sock x =? VOS_INVALID_SOCKET)) (ms_iface demo_over)) = [1].
Proof. split_and!; vm_compute; reflexivity. Qed.
