(* ===== verification/TrdpMdFrame.v ===== *)
(** * Message data: what its functions leave alone

    Every function of TrdpMd.v and TrdpMdRecv.v keeps the members of process data (all but the
    sockets of the pool) and the configuration, and only adds to the log. This discharges the laws
    the work loop of TrdpIf.v relies on. *)
From S2P Require Import Prelude Bytes VosTime TrdpTypes TrdpMdTypes TrdpUtils TrdpPd TrdpIf TrdpMd TrdpMdRecv TrdpMdIf.

(** The session without its sockets. *)
Definition pd_view (s : TRDP_MD_SESSION_T) : TRDP_SESSION_T := set_iface [] (ms_session s).

Record md_frame (s s' : TRDP_MD_SESSION_T) : Prop := mkFrame {
  fr_pd : pd_view s' = pd_view s;
  fr_default : mdDefault s' = mdDefault s;
  fr_log : exists l, md_log s' = md_log s ++ l }.

#[export] Instance md_frame_preorder : PreOrder md_frame.
Proof.
  split.
  - intros s. split; [done..|]. exists []. by rewrite app_nil_r.
  - intros s s1 s2 [H1 H2 [l1 H3]] [H4 H5 [l2 H6]]. split; [congruence..|]. exists (l1 ++ l2). by rewrite H6, H3, app_assoc.
Qed.

Create HintDb md_frame.
#[export] Hint Extern 0 (md_frame ?s ?s) => reflexivity : md_frame.

(** A step that changes neither. *)
Lemma frame_same s0 s s' : md_frame s0 s -> pd_view s' = pd_view s -> mdDefault s' = mdDefault s -> md_log s' = md_log s ->
  md_frame s0 s'.
Proof. intros [H1 H2 [l H3]] H4 H5 H6. split; [congruence..|]. exists l. congruence. Qed.

Section Setters.
Context (s0 s : TRDP_MD_SESSION_T) (H : md_frame s0 s).
Local Ltac same := apply (frame_same s0 s); done.
Lemma frame_SndQueue l : md_frame s0 (set_pMDSndQueue l s). Proof using H. same. Qed.
Lemma frame_RcvQueue l : md_frame s0 (set_pMDRcvQueue l s). Proof using H. same. Qed.
Lemma frame_ListenQueue l : md_frame s0 (set_pMDListenQueue l s). Proof using H. same. Qed.
Lemma frame_RcvEle l : md_frame s0 (set_pMDRcvEle l s). Proof using H. same. Qed.
Lemma frame_maxSocketCnt l : md_frame s0 (set_ms_maxSocketCnt l s). Proof using H. same. Qed.
Lemma frame_iface l : md_frame s0 (set_ms_iface l s). Proof using H. same. Qed.
Lemma frame_unc i u : md_frame s0 (set_unc i u s). Proof using H. same. Qed.
Lemma frame_count t f : md_frame s0 (count_md t f s). Proof using H. destruct t; same. Qed.
Lemma frame_set_q q l : md_frame s0 (set_q q l s). Proof using H. destruct q; same. Qed.
Lemma frame_put_md q e : md_frame s0 (put_md q e s). Proof using H. apply frame_set_q. Qed.
Lemma frame_on_entry i f : md_frame s0 (on_entry i f s). Proof using H. unfold on_entry. destruct (_ <? _); same. Qed.
Lemma frame_release env i : md_frame s0 (release_md env i s). Proof using H. same. Qed.
Lemma frame_logged l : md_frame s0 (log l s).
Proof using H. destruct H as [H1 H2 [k H3]]. split; [done..|]. exists (k ++ l). cbn. by rewrite H3, app_assoc. Qed.
Lemma frame_callback e r : md_frame s0 (trdp_mdInvokeCallback e r s).
Proof using H. unfold trdp_mdInvokeCallback. destruct (md_cb e); [apply frame_logged|done]. Qed.
Lemma frame_free e : md_frame s0 (trdp_mdFreeSession e s). Proof using H. apply frame_logged. Qed.
End Setters.

#[export] Hint Resolve frame_SndQueue frame_RcvQueue frame_ListenQueue frame_RcvEle frame_maxSocketCnt frame_iface frame_unc
  frame_count frame_set_q frame_put_md frame_on_entry frame_release frame_logged frame_callback frame_free : md_frame.

(** A fold of steps that are framed. *)
Lemma frame_fold {A} (f : TRDP_MD_SESSION_T -> A -> TRDP_MD_SESSION_T) l s0 s :
  (forall s x, md_frame s0 s -> md_frame s0 (f s x)) -> md_frame s0 s -> md_frame s0 (fold_left f l s).
Proof. intros Hf. revert s. induction l; cbn; auto. Qed.

Lemma frame_fold_snd {A B} (f : B * TRDP_MD_SESSION_T -> A -> B * TRDP_MD_SESSION_T) l s0 acc :
  (forall acc x, md_frame s0 (snd acc) -> md_frame s0 (snd (f acc x))) -> md_frame s0 (snd acc) -> md_frame s0 (snd (fold_left f l acc)).
Proof. intros Hf. revert acc. induction l; cbn; auto. Qed.

(** ** Closing and time-outs *)
Lemma frame_close_loop env q n s0 s : md_frame s0 s -> md_frame s0 (close_loop env q n s).
Proof.
  revert s. induction n as [|n IH]; intros s H; cbn; [done|]. destruct (find _ _) as [e|]; [|done].
  apply IH, frame_free, frame_set_q. destruct (_ || _); auto with md_frame.
Qed.
#[export] Hint Resolve frame_close_loop : md_frame.

Lemma frame_close env i fd b s0 s : md_frame s0 s -> md_frame s0 (trdp_mdCloseSessions env i fd b s).
Proof. intros H. unfold trdp_mdCloseSessions. destruct b; destruct (_ && _); auto 6 with md_frame. Qed.
#[export] Hint Resolve frame_close : md_frame.

Lemma frame_timeOutState e r s0 s : md_frame s0 s -> md_frame s0 (snd (trdp_mdTimeOutStateHandler e r s)).
Proof. intros H. unfold trdp_mdTimeOutStateHandler. repeat case_match; cbn [snd]; auto with md_frame. Qed.

Lemma frame_timeout_step now q acc p s0 : md_frame s0 (snd acc) -> md_frame s0 (snd (timeout_step now q acc p)).
Proof.
  destruct acc as [t s]. intros H. cbn [snd] in H |- *. unfold timeout_step. destruct (find_md _ _) as [e|]; [|done].
  destruct (_ <? _).
  - pose proof (frame_timeOutState e TRDP_UNKNOWN_ERR s0 s H). destruct (trdp_mdTimeOutStateHandler _ _ _) as [[[? ?] ?] ?].
    cbn [snd] in *. case_match; auto with md_frame.
  - cbn [snd]. case_match; auto with md_frame.
Qed.

Lemma frame_timeout_loop now q l k s0 acc : md_frame s0 (snd acc) -> md_frame s0 (snd (md_timeout_loop now q k l acc)).
Proof. revert k acc. induction l; cbn; auto using frame_timeout_step. Qed.

Lemma frame_abort i s0 s : md_frame s0 s -> md_frame s0 (abort_socket i s).
Proof.
  intros H. apply frame_on_entry, frame_fold; [|done]. intros s1 p H1. unfold abort_ele.
  destruct (find_md _ _); [|done]. destruct (_ =? _); auto with md_frame.
Qed.
#[export] Hint Resolve frame_abort : md_frame.

Lemma frame_checkTimeouts env now s0 s : md_frame s0 s -> md_frame s0 (trdp_mdCheckTimeouts env now s).
Proof.
  intros H. unfold trdp_mdCheckTimeouts. apply frame_close, frame_fold.
  - intros s1 i H1. unfold send_late_step. destruct (_ !! _); [|done]. destruct (send_late _ _); auto with md_frame.
  - apply frame_iface, frame_timeout_loop, frame_timeout_loop. done.
Qed.

(** ** Sending *)
Lemma frame_request env r e s0 s err e' s' : md_request env r e s = (err, e', s') -> md_frame s0 s -> md_frame s0 s'.
Proof. intros E H. unfold md_request in E. destruct (trdp_requestSocket _ _ _ _) as [[[? ?] ?] ?]. injection E as <- <- <-. auto with md_frame. Qed.

Lemma frame_connect env p src dst b e s0 s err e' s' :
  trdp_mdConnectSocket env p src dst b e s = (err, e', s') -> md_frame s0 s -> md_frame s0 s'.
Proof.
  intros E H. unfold trdp_mdConnectSocket in E. destruct (default _ _) as [[q t] n]. destruct (md_tcp e).
  - destruct (_ =? _).
    + destruct (md_request _ _ _ _) as [[er e1] s1] eqn:Er. apply (frame_request _ _ _ s0) in Er; [|done].
      destruct (negb _); congruence.
    + cbn in E. congruence.
  - destruct (_ && _); [eapply frame_request; eauto|congruence].
Qed.

Lemma frame_detail m b q e s0 s : md_frame s0 s -> md_frame s0 (trdp_mdDetailSenderPacket m b q e s).
Proof. intros H. unfold trdp_mdDetailSenderPacket. destruct b; auto with md_frame. Qed.
#[export] Hint Resolve frame_detail : md_frame.

(** Through the socket of the element. *)
Ltac frame_connect :=
  match goal with |- context [trdp_mdConnectSocket ?env ?p ?a ?b ?n ?e ?s] =>
    let E := fresh "E" in destruct (trdp_mdConnectSocket env p a b n e s) as [[? ?] ?] eqn:E;
    eapply frame_connect in E; [|eassumption] end.

Lemma frame_call env lock a s0 s : md_frame s0 s -> md_frame s0 (snd (trdp_mdCall env lock a s)).
Proof.
  intros H. unfold trdp_mdCall. destruct (_ || _); [done|]. destruct (negb _); [done|]. destruct (me_elem env); [|done].
  frame_connect. destruct (negb _); [cbn; auto with md_frame|]. destruct (trdp_mdManageSessionId _ _).
  destruct (negb _); cbn; auto with md_frame.
Qed.

Lemma frame_answer_packet env q m e s0 s : md_frame s0 s -> md_frame s0 (snd (answer_packet env q m e s)).
Proof. intros H. unfold answer_packet. destruct (negb _); cbn [snd]; auto with md_frame. Qed.

Lemma frame_reply env lock sid a s0 s : md_frame s0 s -> md_frame s0 (snd (trdp_mdReply env lock sid a s)).
Proof.
  intros H. unfold trdp_mdReply. destruct (_ && _); [done|]. destruct (negb _); [done|]. destruct sid; [|done].
  destruct (trdp_mdLookupElement _ _ _) as [? [e0|]]; [|done]. destruct (pPacket e0); [|done].
  frame_connect. destruct (negb _); [cbn; auto with md_frame|]. by apply frame_answer_packet.
Qed.

Lemma frame_confirm env lock sid u p s0 s : md_frame s0 s -> md_frame s0 (snd (trdp_mdConfirm env lock sid u p s)).
Proof.
  intros H. unfold trdp_mdConfirm. destruct (negb _); [done|]. destruct sid; [|done].
  destruct (trdp_mdLookupElement _ _ _) as [? [e0|]]; [|done].
  frame_connect. destruct (negb _); [cbn; auto with md_frame|]. by apply frame_answer_packet.
Qed.

Lemma frame_start_sending now i s0 s : md_frame s0 s -> md_frame s0 (start_sending_timeout now i s).
Proof. intros H. by apply frame_on_entry. Qed.
#[export] Hint Resolve frame_start_sending : md_frame.

Lemma frame_transmit env q n e r s0 s : md_frame s0 s -> md_frame s0 (snd (md_transmit env q n e r s)).
Proof.
  intros H. unfold md_transmit. destruct (_ && _); [cbn; auto with md_frame|].
  destruct (trdp_mdSendPacket _ _ _ _) as [[err e1] evs]. destruct err; try destruct (md_tcp e1); cbn [snd]; auto 7 with md_frame.
Qed.

Lemma frame_send_step env q acc p s0 : md_frame s0 (snd acc) -> md_frame s0 (snd (md_send_step env q acc p)).
Proof.
  destruct acc as [r s]. intros H. cbn [snd] in H |- *. unfold md_send_step. destruct (find_md _ _) as [e0|]; [|done].
  destruct (armed _); [|done]. destruct (_ || _); [done|]. destruct (_ && _); [|by apply frame_transmit].
  destruct (me_connect _ _); cbn [snd]; auto with md_frame. by apply frame_transmit.
Qed.

Lemma frame_send env s0 s : md_frame s0 s -> md_frame s0 (snd (TrdpMd.trdp_mdSend env s)).
Proof.
  intros H. unfold TrdpMd.trdp_mdSend. set (acc := fold_left (md_send_step env SndQ) _ _).
  assert (H1 : md_frame s0 (snd acc)) by (apply frame_fold_snd; auto using frame_send_step).
  set (acc2 := fold_left (md_send_step env RcvQ) _ _).
  assert (H2 : md_frame s0 (snd acc2)) by (apply frame_fold_snd; auto using frame_send_step).
  destruct acc2 as [r s2]. cbn [snd] in *. auto with md_frame.
Qed.

(** ** Receiving *)
Lemma frame_recvTCP env fd e s0 s r e' s' : trdp_mdRecvTCPPacket env fd e s = Some (r, e', s') -> md_frame s0 s -> md_frame s0 s'.
Proof.
  unfold trdp_mdRecvTCPPacket. intros E H. destruct (sock_index s fd) as [i|]; [|by injection E as <- <- <-].
  apply bind_Some in E as (hdr & _ & E). destruct hdr as [e1|[[[[[err e1] u] n1] n2] n3]]; [by injection E as <- <- <-|].
  apply bind_Some in E as (part & _ & E). apply bind_Some in E as ([[r1 e2] u2] & _ & E). injection E as <- <- <-. auto with md_frame.
Qed.

Lemma frame_recvPacket env fd e s0 s r e' s' : trdp_mdRecvPacket env fd e s = Some (r, e', s') -> md_frame s0 s -> md_frame s0 s'.
Proof.
  unfold trdp_mdRecvPacket. intros E H. apply bind_Some in E as ([[err e1] s1] & E1 & E).
  assert (H1 : md_frame s0 s1).
  { destruct (md_tcp e); [by eapply frame_recvTCP in E1|]. destruct (trdp_mdRecvUDPPacket _ _ _). by injection E1 as <- <- <-. }
  destruct (negb _); injection E as <- <- <-; auto with md_frame.
Qed.

Lemma frame_sendME env f n s0 s : md_frame s0 s -> md_frame s0 (snd (trdp_mdSendME env f n s)).
Proof.
  intros H. unfold trdp_mdSendME. destruct (_ && _); [done|]. destruct (pMDRcvEle s); [|done]. destruct (me_elem env); [|done].
  frame_connect. destruct (negb _); [cbn; auto with md_frame|]. destruct (negb _); cbn [snd]; auto with md_frame.
Qed.

Lemma frame_handleRequest env t i st s0 s : md_frame s0 s -> md_frame s0 (snd (trdp_mdHandleRequest env t i st s)).
Proof.
  intros H. unfold trdp_mdHandleRequest. destruct (pMDRcvEle s) as [r|]; [|done]. cbv zeta.
  destruct (from_option _ _ _) as [[p e]|]; [cbn; auto with md_frame|].
  destruct (md_maxNumSessions _ <=? _); [by apply frame_sendME|].
  destruct (list_find _ (pMDListenQueue s)) as [[j l]|]; cbn [snd]; auto with md_frame. apply frame_sendME. auto with md_frame.
Qed.

Lemma frame_handleConfirm env s0 s : md_frame s0 s -> md_frame s0 (snd (trdp_mdHandleConfirmReply env s)).
Proof.
  intros H. unfold trdp_mdHandleConfirmReply. destruct (pMDRcvEle s); [|done]. destruct (answer_queue _); [|done].
  destruct (find _ _); cbn [snd]; auto with md_frame.
Qed.

Lemma frame_tell q p r s0 s : md_frame s0 s -> md_frame s0 (tell_session q p r s).
Proof. intros H. unfold tell_session. destruct (find_md _ _); [|done]. case_bool_decide; auto with md_frame. Qed.

Lemma frame_recv env i s0 s r s' : TrdpMdRecv.trdp_mdRecv env i s = Some (r, s') -> md_frame s0 s -> md_frame s0 s'.
Proof.
  unfold trdp_mdRecv. intros E H. destruct (recv_element _ _ _) as [r0|]; [|by injection E as <- <-].
  match type of E with match ?x with Some _ => _ | None => _ end = _ => destruct x as [r1|] end;
    [|injection E as <- <-; auto with md_frame].
  apply bind_Some in E as ([[res r2] s1] & E1 & E). apply (frame_recvPacket _ _ _ s0) in E1; [|done].
  destruct (negb _); [injection E as <- <-; auto with md_frame|]. revert E.
  set (s2 := set_pMDRcvEle _ s1). assert (H2 : md_frame s0 s2) by (unfold s2; auto with md_frame). clearbody s2.
  destruct (_ || _).
  - intros E. match type of E with context [trdp_mdHandleRequest ?a ?b ?c ?d ?s] =>
      pose proof (frame_handleRequest a b c d s0 s H2) as H3; destruct (trdp_mdHandleRequest a b c d s) as [[res2 who] s3] end.
    cbn [snd] in H3. destruct who as [[q p]|]; injection E as <- <-; auto using frame_tell.
  - intros E. pose proof (frame_handleConfirm env s0 s2 H2) as H3. destruct (trdp_mdHandleConfirmReply env s2) as [who s3].
    cbn [snd] in H3. destruct who as [[q p]|]; injection E as <- <-; auto using frame_tell.
Qed.

Lemma frame_accept env l rfds cnt s0 s : md_frame s0 s -> md_frame s0 (snd (accept_loop env l (rfds, cnt, s))).
Proof.
  revert rfds cnt s. induction l as [|a l IH]; intros rfds cnt s H; cbn [accept_loop]; [done|].
  destruct (_ <? _).
  - destruct (is_ok _); [done|]. assert (H1 : md_frame s0 (match md_cbFunction (mdDefault s) with
      Some cb => log [MdCallback cb (md_refCon (mdDefault s)) (accept_info s (ac_ip a)) None] s | None => s end)).
    { destruct (md_cbFunction _); auto with md_frame. }
    destruct (_ =? _); [done|]. by apply IH.
  - unfold accept_one. destruct (negb _); [apply IH; auto with md_frame|].
    destruct (list_find _ _) as [[i x]|].
    + destruct (_ >? _); apply IH; auto with md_frame.
    + destruct (md_request _ _ _ _) as [[err e'] s'] eqn:E. apply (frame_request _ _ _ s0) in E; [|done].
      apply IH. destruct (is_ok err); auto with md_frame.
Qed.

Lemma frame_listen_loop rcv n i rfds cnt s0 s rfds' cnt' s' :
  md_listen_loop rcv n i rfds cnt s = Some (rfds', cnt', s') -> md_frame s0 s -> md_frame s0 s'.
Proof.
  revert i rfds cnt s. induction n as [|n IH]; intros i rfds cnt s E H; cbn [md_listen_loop] in E; [by injection E as <- <- <-|].
  destruct (_ && _); [|by apply IH in E]. destruct (from_option _ _ _); [by injection E as <- <- <-|].
  apply bind_Some in E as ([err s1] & E1 & E). apply (frame_recv _ _ s0) in E1; [|done]. apply IH in E; [done|].
  unfold tcp_verdict. case_bool_decide; [|done]. destruct err; auto with md_frame.
Qed.

Lemma frame_listen_ready env l rcv rfds cnt s0 s rfds' cnt' s' :
  listen_ready env l rcv rfds cnt s = Some (rfds', cnt', s') -> md_frame s0 s -> md_frame s0 s'.
Proof.
  unfold listen_ready. intros E H. destruct cnt as [c|]; [|by eapply frame_listen_loop in E].
  destruct (_ && _); [|by eapply frame_listen_loop in E].
  pose proof (frame_accept env l rfds (s32 (c - 1)) s0 s H) as H1. destruct (accept_loop _ _ _) as [[rf c1] s1].
  by eapply frame_listen_loop in E.
Qed.

Lemma frame_checkListen env l rcv sel fds cnt s0 s fds' cnt' s' :
  TrdpMdRecv.trdp_mdCheckListenSocks env l rcv sel fds cnt s = Some (fds', cnt', s') -> md_frame s0 s -> md_frame s0 s'.
Proof.
  unfold TrdpMdRecv.trdp_mdCheckListenSocks. intros E H. destruct fds as [rfds|].
  - apply bind_Some in E as ([[rf c] s1] & E1 & E). injection E as <- <- <-. by eapply frame_listen_ready in E1.
  - destruct (own_fds s) as [f h]. destruct (h =? _); [by injection E as <- <- <-|]. destruct (sel _ _) as [n rf].
    destruct (n =? _); [by injection E as <- <- <-|]. apply bind_Some in E as ([[rf1 c] s1] & E1 & E).
    injection E as <- <- <-. by eapply frame_listen_ready in E1.
Qed.

(** ** The layer of the work loop *)
Lemma frame_pd m s s' : md_frame (join_md m s) s' -> set_iface [] (ms_session s') = set_iface [] s.
Proof. intros H. exact (fr_pd _ _ H). Qed.

Lemma queues_kept s s' : set_iface [] s' = set_iface [] s -> pSndQueue s' = pSndQueue s /\ pRcvQueue s' = pRcvQueue s.
Proof. intros H. split; [exact (f_equal pSndQueue H)|exact (f_equal pRcvQueue H)]. Qed.

Section Layer.
Context (m : TRDP_MD_SESSION_T) (env : md_env) (now : nat -> TRDP_TIME_T) (accepts : list accepted)
        (rcv : nat -> md_rcv_env) (select : Z -> gset Z -> Z * gset Z)
        (outside : TRDP_SESSION_T * option (gset Z) * option Z).
Let L : MdLayer := message_data m env now accepts rcv select outside.

Lemma send_kept s : set_iface [] (snd (@TrdpIf.trdp_mdSend L s)) = set_iface [] s.
Proof.
  cbn. pose proof (frame_send env (join_md m s) (join_md m s) (PreOrder_Reflexive _)) as H.
  destruct (TrdpMd.trdp_mdSend _ _). exact (frame_pd _ _ _ H).
Qed.
Lemma listen_kept s fds cnt : is_Some (TrdpMdRecv.trdp_mdCheckListenSocks env accepts rcv select fds cnt (join_md m s)) ->
  set_iface [] (fst (fst (@TrdpIf.trdp_mdCheckListenSocks L s fds cnt))) = set_iface [] s.
Proof.
  intros [[[fds' cnt'] s'] E]. cbn. rewrite E.
  apply (frame_checkListen _ _ _ _ _ _ (join_md m s)) in E; [|reflexivity]. exact (frame_pd _ _ _ E).
Qed.
Lemma timeouts_kept s : set_iface [] (@TrdpIf.trdp_mdCheckTimeouts L s) = set_iface [] s.
Proof. exact (frame_pd _ _ _ (frame_checkTimeouts _ _ _ _ (PreOrder_Reflexive _))). Qed.

#[export] Instance message_data_laws : @MdLaws L.
Proof.
  split.
  - done.
  - intros s fds t. by left.
  - intros s. apply queues_kept, send_kept.
Qed.
End Layer.

(** Sending, receiving (inside its buffers) and the time-outs of message data change nothing of the session of process data
    but the entries of the socket pool, so its queues, its next job and its configuration stay. *)
Theorem message_data_keeps_process_data m env now accepts rcv select outside (L := message_data m env now accepts rcv select outside) s fds cnt :
  set_iface [] (snd (@TrdpIf.trdp_mdSend L s)) = set_iface [] s
  /\ (is_Some (TrdpMdRecv.trdp_mdCheckListenSocks env accepts rcv select fds cnt (join_md m s)) ->
      set_iface [] (fst (fst (@TrdpIf.trdp_mdCheckListenSocks L s fds cnt))) = set_iface [] s)
  /\ set_iface [] (@TrdpIf.trdp_mdCheckTimeouts L s) = set_iface [] s.
Proof. split_and!; [apply send_kept|apply listen_kept|apply timeouts_kept]. Qed.
