(* ===== verification/TrdpMdLive.v ===== *)
(** * Message data: sessions live and end

    Properties of the sessions of trdp_mdcom.c: closing removes exactly the sessions about to die,
    a session that is late ends or is repeated a bounded number of times, and the states of the two
    queues stay those of callers and of repliers. *)
From S2P Require Import Prelude Bytes VosTime TrdpTypes TrdpMdTypes TrdpUtils TrdpPd TrdpMd TrdpMdRecv TrdpMdIf TrdpMdDemo.

(** ** Queues *)
Definition md_ptrs (q : list MD_ELE_T) : list Z := map md_ptr q.
Definition dead (q : list MD_ELE_T) : list MD_ELE_T := List.filter md_morituri q.
Definition alive (q : list MD_ELE_T) : list MD_ELE_T := List.filter (fun e => negb (md_morituri e)) q.

Lemma dead_cons e q : dead (e :: q) = if md_morituri e then e :: dead q else dead q.
Proof. done. Qed.
Lemma alive_cons e q : alive (e :: q) = if md_morituri e then alive q else e :: alive q.
Proof. unfold alive. cbn. by destruct (md_morituri e). Qed.
Arguments dead : simpl never.
Arguments alive : simpl never.

Lemma get_set_q q q' l s : get_q q (set_q q' l s) = if decide (q = q') then l else get_q q s.
Proof. by destruct q, q'. Qed.

(** The first dead session: those in front of it live. *)
Lemma find_dead q e : find md_morituri q = Some e ->
  exists pre post, q = pre ++ e :: post /\ dead pre = [] /\ alive pre = pre /\ md_morituri e = true.
Proof.
  induction q as [|x q IH]; cbn; [done|]. destruct (md_morituri x) eqn:E.
  - intros [= ->]. by exists [], q.
  - intros H. destruct (IH H) as (pre & post & -> & Hd & Ha & Hm). exists (x :: pre), post. by rewrite dead_cons, alive_cons, E, Hd, Ha.
Qed.

Lemma unlink_app pre e post : NoDup (md_ptrs (pre ++ e :: post)) -> unlink md_ptr (md_ptr e) (pre ++ e :: post) = pre ++ post.
Proof.
  induction pre as [|x pre IH]; cbn; [by rewrite Z.eqb_refl|]. rewrite list.NoDup_cons. intros [Hx Hnd].
  destruct (Z.eqb_spec (md_ptr x) (md_ptr e)) as [E|_]; [|by rewrite IH].
  destruct Hx. rewrite E. apply list_elem_of_In. apply in_map, in_elt.
Qed.

Lemma md_nodup_remove pre e post : NoDup (md_ptrs (pre ++ e :: post)) -> NoDup (md_ptrs (pre ++ post)).
Proof.
  unfold md_ptrs. rewrite !map_app. cbn [map]. rewrite !list.NoDup_app, list.NoDup_cons. intros (H1 & H2 & H3 & H4).
  split_and!; auto. intros x Hx Hp. apply (H2 x Hx). by right.
Qed.

Lemma dead_app q1 q2 : dead (q1 ++ q2) = dead q1 ++ dead q2.
Proof. apply List.filter_app. Qed.
Lemma alive_app q1 q2 : alive (q1 ++ q2) = alive q1 ++ alive q2.
Proof. apply List.filter_app. Qed.

Lemma no_dead q : find md_morituri q = None -> dead q = [] /\ alive q = q.
Proof.
  induction q as [|x q IH]; cbn [find]; [done|]. rewrite dead_cons, alive_cons. destruct (md_morituri x) eqn:E; [done|]. intros H.
  by destruct (IH H) as [-> ->].
Qed.

(** ** Closing *)

(** The pool after the sessions of a queue gave back their sockets. *)
Definition give_back (env : sock_env) (d : TRDP_MD_CONFIG_T) (q : md_queue) (ifc : list TRDP_SOCKETS_T) (e : MD_ELE_T)
  : list TRDP_SOCKETS_T :=
  if bool_decide (q = SndQ) || md_tcp e then trdp_releaseSocket env ifc (md_socketIdx e) (md_connectTimeout d) false else ifc.

(** One queue without its dead sessions. *)
Definition closed (env : sock_env) (q : md_queue) (s : TRDP_MD_SESSION_T) : TRDP_MD_SESSION_T :=
  log (map (fun e => MdFree (md_ptr e)) (dead (get_q q s)))
    (set_q q (alive (get_q q s))
      (set_ms_iface (fold_left (give_back env (mdDefault s) q) (dead (get_q q s)) (ms_iface s)) s)).

(** One round, as an equation on sessions. *)
Lemma give_back_one env q s e :
  (if bool_decide (q = SndQ) || md_tcp e then release_md env (md_socketIdx e) s else s)
  = set_ms_iface (give_back env (mdDefault s) q (ms_iface s) e) s.
Proof. unfold give_back. destruct (_ || _); [done|]. by destruct s as [[]]. Qed.

Lemma closed_round env q s e pre post : get_q q s = pre ++ e :: post -> dead pre = [] -> alive pre = pre -> md_morituri e = true ->
  closed env q s
  = closed env q (trdp_mdFreeSession e (set_q q (pre ++ post)
      (if bool_decide (q = SndQ) || md_tcp e then release_md env (md_socketIdx e) s else s))).
Proof.
  intros Hq Hd Ha Hm. rewrite give_back_one. unfold closed. rewrite Hq, dead_app, alive_app, dead_cons, alive_cons, Hd, Ha, Hm.
  generalize (give_back env). intros g. destruct s as [[] ? ? ? ? ? ? ? ? ? ? ?], q; cbn in *; subst;
    rewrite dead_app, alive_app, Hd, Ha; unfold log; cbn; by rewrite <- app_assoc.
Qed.

Lemma closed_nothing env q s : find md_morituri (get_q q s) = None -> closed env q s = s.
Proof.
  intros H. apply no_dead in H as [Hd Ha]. unfold closed. rewrite Hd, Ha. cbn [map fold_left].
  destruct s as [[] ? ? ? ? ? ? ? ? ? ? ?], q; unfold log; cbn; by rewrite app_nil_r.
Qed.

(** Any number of rounds that is enough for the dead sessions. *)
Lemma close_loop_closed env q n s : NoDup (md_ptrs (get_q q s)) -> (length (dead (get_q q s)) <= n)%nat ->
  close_loop env q n s = closed env q s.
Proof.
  revert s. induction n as [|n IH]; intros s Hnd Hn.
  - cbn. symmetry. apply closed_nothing. destruct (find _ _) as [e|] eqn:E; [|done].
    destruct (find_dead _ _ E) as (pre & post & Hq & Hd & _ & Hm). rewrite Hq, dead_app, Hd, dead_cons, Hm in Hn. cbn in Hn. lia.
  - cbn [close_loop]. destruct (find _ _) as [e|] eqn:E; [|by rewrite closed_nothing].
    destruct (find_dead _ _ E) as (pre & post & Hq & Hd & Ha & Hm). rewrite (closed_round _ _ _ e pre post) by done. rewrite give_back_one.
    cbn [trdp_MDqueueDelElement]. set (ifc := give_back _ _ _ _ _). assert (Eq : get_q q (set_ms_iface ifc s) = get_q q s) by (by destruct q).
    rewrite Eq, Hq in *. rewrite unlink_app by done. rewrite IH; [done|..].
    + cbn [trdp_mdFreeSession]. replace (get_q q _) with (pre ++ post) by (by destruct q). by apply md_nodup_remove in Hnd.
    + replace (get_q q _) with (pre ++ post) by (by destruct q). rewrite dead_app, dead_cons, Hm, Hd in Hn. rewrite dead_app, Hd. cbn in *. lia.
Qed.

Lemma dead_alive q : dead (alive q) = [].
Proof. induction q as [|e q IH]; [done|]. rewrite alive_cons. destruct (md_morituri e) eqn:E; [done|]. by rewrite dead_cons, E. Qed.

Lemma dead_length q : (length (dead q) <= length q)%nat.
Proof. apply filter_length_le. Qed.

Definition same_queues_of (s s' : TRDP_MD_SESSION_T) : Prop :=
  pMDSndQueue s = pMDSndQueue s' /\ pMDRcvQueue s = pMDRcvQueue s'.

Lemma close_closed env idx fd (b : bool) s : NoDup (md_ptrs (pMDSndQueue s)) -> NoDup (md_ptrs (pMDRcvQueue s)) ->
  let ifc0 := if b then trdp_releaseSocket env (ms_iface s) TRDP_INVALID_SOCKET_INDEX 0 true else ms_iface s in
  trdp_mdCloseSessions env idx fd b s
  = (if (idx >? TRDP_INVALID_SOCKET_INDEX) && (fd >? VOS_INVALID_SOCKET) then on_entry idx (replace_socket fd) else id)
      (closed env RcvQ (closed env SndQ (set_ms_iface ifc0 s))).
Proof.
  intros H1 H2 ifc0. unfold trdp_mdCloseSessions.
  assert (E : (if b then set_ms_iface (trdp_releaseSocket env (ms_iface s) TRDP_INVALID_SOCKET_INDEX 0 true) s else s) = set_ms_iface ifc0 s).
  { unfold ifc0. destruct b; [done|by destruct s as [[]]]. }
  rewrite E. clear E.
  rewrite (close_loop_closed env SndQ) by (first [apply H1 | apply dead_length]).
  rewrite (close_loop_closed env RcvQ) by (first [apply H2 | apply dead_length]). by destruct (_ && _).
Qed.

Lemma on_entry_queues i f s : same_queues_of (on_entry i f s) s.
Proof. unfold on_entry. by destruct (_ <? _). Qed.

Lemma close_queues env idx fd b s : NoDup (md_ptrs (pMDSndQueue s)) -> NoDup (md_ptrs (pMDRcvQueue s)) ->
  pMDSndQueue (trdp_mdCloseSessions env idx fd b s) = alive (pMDSndQueue s)
  /\ pMDRcvQueue (trdp_mdCloseSessions env idx fd b s) = alive (pMDRcvQueue s).
Proof.
  intros H1 H2. rewrite close_closed by done. destruct (_ && _); [|done].
  match goal with |- context [on_entry ?i ?f ?s'] => destruct (on_entry_queues i f s') as [-> ->] end. done.
Qed.

(** C12: In queues that hold no element twice, as md_sessions_well_formed keeps them,
    closing the sessions terminates and removes exactly those about to die, each released once, callers
    first and in their order; the others keep their order. Every caller removed gives back its
    socket, a replier only a TCP connection; a socket marked is closed when all are checked, and the
    new connection takes the place of the old one. More rounds of the loops change nothing. *)
Theorem trdp_mdCloseSessions_exact env idx fd (b : bool) s : NoDup (md_ptrs (pMDSndQueue s)) -> NoDup (md_ptrs (pMDRcvQueue s)) ->
  let s' := trdp_mdCloseSessions env idx fd b s in
  let ifc0 := if b then trdp_releaseSocket env (ms_iface s) TRDP_INVALID_SOCKET_INDEX 0 true else ms_iface s in
  let ifc1 := fold_left (give_back env (mdDefault s) SndQ) (dead (pMDSndQueue s)) ifc0 in
  let ifc2 := fold_left (give_back env (mdDefault s) RcvQ) (dead (pMDRcvQueue s)) ifc1 in
  pMDSndQueue s' = alive (pMDSndQueue s) /\ pMDRcvQueue s' = alive (pMDRcvQueue s)
  /\ md_log s' = md_log s ++ map (fun e => MdFree (md_ptr e)) (dead (pMDSndQueue s) ++ dead (pMDRcvQueue s))
  /\ ms_iface s' = (if (idx >? TRDP_INVALID_SOCKET_INDEX) && (fd >? VOS_INVALID_SOCKET)
                    then alter (replace_socket fd) (Z.to_nat idx) ifc2 else ifc2)
  /\ forall q n s1, NoDup (md_ptrs (get_q q s1)) -> (length (get_q q s1) <= n)%nat ->
       close_loop env q n s1 = close_loop env q (length (get_q q s1)) s1 /\ dead (get_q q (close_loop env q n s1)) = [].
Proof.
  intros H1 H2 s' ifc0 ifc1 ifc2.
  assert (E : s' = (if (idx >? TRDP_INVALID_SOCKET_INDEX) && (fd >? VOS_INVALID_SOCKET) then on_entry idx (replace_socket fd) else id)
                     (closed env RcvQ (closed env SndQ (set_ms_iface ifc0 s)))).
  { by apply close_closed. }
  rewrite E. clear E s'. split_and!.
  - destruct (_ && _); [|done]. unfold on_entry. by destruct (_ <? _).
  - destruct (_ && _); [|done]. unfold on_entry. by destruct (_ <? _).
  - rewrite map_app, app_assoc. destruct (_ && _); [|done]. unfold on_entry. by destruct (_ <? _).
  - destruct (_ && _) eqn:E; [|done]. unfold on_entry. apply andb_prop in E as [E _]. apply Z.gtb_lt in E.
    unfold TRDP_INVALID_SOCKET_INDEX in E. by rewrite (proj2 (Z.ltb_ge idx 0)) by lia.
  - intros q n s1 Hnd Hn. pose proof (dead_length (get_q q s1)). rewrite !close_loop_closed by (done || lia). split; [done|].
    unfold closed. replace (get_q q (log _ _)) with (alive (get_q q s1)) by (by destruct q). apply dead_alive.
Qed.

(** ** Time-outs *)
Definition waiting (st : TRDP_MD_ELE_ST_T) : bool :=
  match st with
  | TRDP_ST_RX_REQ_W4AP_REPLY | TRDP_ST_TX_REQ_W4AP_CONFIRM | TRDP_ST_TX_REQUEST_W4REPLY | TRDP_ST_RX_REPLYQUERY_W4C
  | TRDP_ST_TX_REPLY_RECEIVED => true
  | _ => false
  end.
Definition late (now : TRDP_TIME_T) (e : MD_ELE_T) : bool := cmpTime (md_timeToGo e) now <? 0.

(** What the time-out handler makes of an element; it does not depend on the session. *)
Definition handled (e : MD_ELE_T) : MD_ELE_T :=
  match md_stateEle e with
  | TRDP_ST_TX_REQUEST_W4REPLY => if md_tcp e then set_md_morituri true e else snd (reply_timeout_udp e TRDP_UNKNOWN_ERR)
  | st => if waiting st then set_md_morituri true e else e
  end.
Definition timed (now : TRDP_TIME_T) (e : MD_ELE_T) : MD_ELE_T := if late now e then handled e else e.

Lemma handler_handled e s : snd (fst (trdp_mdTimeOutStateHandler e TRDP_UNKNOWN_ERR s)) = handled e.
Proof.
  unfold trdp_mdTimeOutStateHandler, handled. destruct (md_stateEle e); try done; destruct (md_tcp e); try done; cbn;
    first [by destruct (reply_timeout_udp e TRDP_UNKNOWN_ERR) as [[]] | by destruct (_ || _)].
Qed.

(** Repeated: armed again, one retry more, a later time-out, the packet with the next sequence counter. *)
Definition repeated_request (e e' : MD_ELE_T) : Prop :=
  md_tcp e = false /\ numExpReplies e = 1 /\ numRetries e < numRetriesMax e /\ numRetriesMax e' = numRetriesMax e
  /\ numRetries e' = u32 (numRetries e + 1) /\ md_stateEle e' = TRDP_ST_TX_REQUEST_ARM
  /\ md_timeToGo e' = addTime (md_timeToGo e) (md_interval e)
  /\ exists f, pPacket e = Some f
       /\ let f1 := put32 off_sequenceCounter (u32 (get32 off_sequenceCounter f + 1)) f in
          pPacket e' = Some (put32le off_md_frameCheckSum (md_header_crc f1) f1).

Lemma handled_ptr e : md_ptr (handled e) = md_ptr e.
Proof.
  unfold handled. destruct (md_stateEle e); try done. destruct (md_tcp e); [done|]. unfold reply_timeout_udp.
  repeat case_match; simplify_eq/=; done.
Qed.

(** A session that waits and is late ends or is repeated. *)
Lemma handled_waiting e : waiting (md_stateEle e) = true -> md_morituri (handled e) = true \/ repeated_request e (handled e).
Proof.
  unfold handled. intros Hw. destruct (md_stateEle e) eqn:Hst; try done; try (by left). destruct (md_tcp e) eqn:Ht; [by left|].
  unfold reply_timeout_udp. destruct (md_morituri e) eqn:Hm.
  { left. case_bool_decide; [congruence|]. repeat case_if; done. }
  destruct (pPacket e) as [f|] eqn:Hp.
  - destruct ((numExpReplies e =? 1) && _) eqn:Hr.
    + right. apply andb_prop in Hr as [H1%Z.eqb_eq H2%Z.ltb_lt].
      rewrite bool_decide_eq_true_2 by done. cbn [snd]. split_and!; try done. exists f. split; [done|]. cbn. by rewrite Hp.
    + left. cbn -[u32]. rewrite Hst. cbn -[u32]. by repeat case_if.
  - left. cbn -[u32]. rewrite Hst. cbn -[u32]. by repeat case_if.
Qed.

Lemma find_md_app pre e post : NoDup (md_ptrs (pre ++ e :: post)) -> find_md (md_ptr e) (pre ++ e :: post) = Some e.
Proof.
  induction pre as [|x pre IH]; cbn; [by rewrite Z.eqb_refl|]. rewrite list.NoDup_cons. intros [Hx Hnd].
  destruct (Z.eqb_spec (md_ptr x) (md_ptr e)) as [E|_]; [|by apply IH].
  destruct Hx. rewrite E. apply list_elem_of_In. apply in_map, in_elt.
Qed.

Lemma update_md_notin p f q : p ∉ md_ptrs q -> update_md p f q = q.
Proof.
  induction q as [|x q IH]; cbn; [done|]. rewrite list.not_elem_of_cons. intros [H1 H2].
  rewrite (proj2 (Z.eqb_neq _ _)) by congruence. f_equal. by apply IH.
Qed.

Lemma update_md_app pre e e' post : NoDup (md_ptrs (pre ++ e :: post)) -> md_ptr e' = md_ptr e ->
  update_md (md_ptr e') (fun _ => e') (pre ++ e :: post) = pre ++ e' :: post.
Proof.
  unfold md_ptrs. rewrite map_app, list.NoDup_app. cbn [map]. rewrite list.NoDup_cons. intros (_ & Hpre & Hpost & _) He.
  unfold update_md. rewrite map_app. cbn [map]. rewrite He, Z.eqb_refl. f_equal; [|f_equal]; apply update_md_notin; [|done].
  intros Hin. apply (Hpre _ Hin). by left.
Qed.

(** A queue after the rounds over it: every element with the clock of its round. *)
Fixpoint timed_from (now : nat -> TRDP_TIME_T) (k : nat) (q : list MD_ELE_T) : list MD_ELE_T :=
  match q with [] => [] | e :: q' => timed (now k) e :: timed_from now (S k) q' end.

Lemma timed_ptr t e : md_ptr (timed t e) = md_ptr e.
Proof. unfold timed. destruct (late t e); [apply handled_ptr|done]. Qed.
Lemma timed_from_ptrs now k q : md_ptrs (timed_from now k q) = md_ptrs q.
Proof. revert k. induction q as [|e q IH]; intros k; cbn; [done|]. unfold md_ptrs in *. by rewrite IH, timed_ptr. Qed.
Lemma timed_from_length now k q : length (timed_from now k q) = length q.
Proof. revert k. induction q; intros k; cbn; auto. Qed.
Lemma timed_from_lookup now k q i : timed_from now k q !! i = timed (now (k + i)%nat) <$> q !! i.
Proof.
  revert k i. induction q as [|e q IH]; intros k [|i]; cbn; [done..|by rewrite Nat.add_0_r|]. rewrite IH. by rewrite Nat.add_succ_r.
Qed.

(** Callbacks and counters do not touch the queues. *)
Definition same_queues (s s' : TRDP_MD_SESSION_T) : Prop :=
  pMDSndQueue s' = pMDSndQueue s /\ pMDRcvQueue s' = pMDRcvQueue s /\ ms_iface s' = ms_iface s /\ mdDefault s' = mdDefault s.

Lemma callback_queues e r s : same_queues s (trdp_mdInvokeCallback e r s).
Proof. unfold trdp_mdInvokeCallback. by destruct (md_cb e). Qed.
Lemma count_queues t f s : same_queues s (count_md t f s).
Proof. by destruct t. Qed.
Lemma handler_queues e r s : same_queues s (snd (trdp_mdTimeOutStateHandler e r s)).
Proof. unfold trdp_mdTimeOutStateHandler. repeat case_match; cbn [snd]; try (split; done); apply count_queues. Qed.

Lemma same_queues_get q s s' : same_queues s s' -> get_q q s' = get_q q s.
Proof. intros (H1 & H2 & _). by destruct q. Qed.

Lemma timeout_step_queue now q t s e pre post : get_q q s = pre ++ e :: post -> NoDup (md_ptrs (get_q q s)) ->
  let s' := snd (timeout_step now q (t, s) (md_ptr e)) in
  get_q q s' = pre ++ timed now e :: post
  /\ (forall q', q' <> q -> get_q q' s' = get_q q' s) /\ ms_iface s' = ms_iface s /\ mdDefault s' = mdDefault s.
Proof.
  intros Hq Hnd. unfold timeout_step. rewrite Hq in *. rewrite find_md_app by done. unfold timed, late.
  destruct (_ <? _).
  - pose proof (handler_handled e s) as He. pose proof (handler_queues e TRDP_UNKNOWN_ERR s) as Hs.
    destruct (trdp_mdTimeOutStateHandler _ _ _) as [[[told res] e'] s1]. cbn [fst snd] in *. subst e'.
    assert (H1 : get_q q (put_md q (handled e) s1) = pre ++ handled e :: post).
    { unfold put_md. rewrite get_set_q, decide_True by done. rewrite (same_queues_get q s s1), Hq by done.
      by apply update_md_app; [|apply handled_ptr]. }
    assert (H2 : forall q', q' <> q -> get_q q' (put_md q (handled e) s1) = get_q q' s).
    { intros q' Hne. unfold put_md. rewrite get_set_q, decide_False by done. by apply same_queues_get. }
    assert (ms_iface (put_md q (handled e) s1) = ms_iface s /\ mdDefault (put_md q (handled e) s1) = mdDefault s) as H.
    { destruct Hs as (_ & _ & <- & <-). by destruct q. } destruct H as [H3 H4].
    destruct told; [|by split_and!]. pose proof (callback_queues (handled e) res (put_md q (handled e) s1)) as Hc.
    destruct Hc as (_ & _ & Hi & Hd). rewrite Hi, Hd. split_and!; try done; [|intros q' Hne];
      rewrite (same_queues_get _ _ _ (callback_queues _ _ _)); auto.
  - cbn [snd]. destruct t; [|by split_and!]. destruct (callback_queues e TRDP_UNKNOWN_ERR s) as (H1 & H2 & H3 & H4).
    split_and!; auto; [|intros q' _]; by rewrite (same_queues_get _ _ _ (callback_queues e TRDP_UNKNOWN_ERR s)).
Qed.

Lemma timeout_loop_queue now q todo k t s pre : get_q q s = pre ++ todo -> NoDup (md_ptrs (get_q q s)) ->
  let s' := snd (md_timeout_loop now q k (md_ptrs todo) (t, s)) in
  get_q q s' = pre ++ timed_from now k todo
  /\ (forall q', q' <> q -> get_q q' s' = get_q q' s) /\ ms_iface s' = ms_iface s /\ mdDefault s' = mdDefault s.
Proof.
  revert k t s pre. induction todo as [|e todo IH]; intros k t s pre Hq Hnd; [by split_and!|].
  cbn [md_ptrs map md_timeout_loop timed_from]. destruct (timeout_step_queue (now k) q t s e pre todo Hq Hnd) as (H1 & H2 & H3 & H4).
  destruct (timeout_step (now k) q (t, s) (md_ptr e)) as [t1 s1]. cbn [snd] in *. cbv zeta.
  assert (H5 : NoDup (md_ptrs (get_q q s1))).
  { rewrite H1. rewrite Hq in Hnd. unfold md_ptrs in *. rewrite map_app in *. cbn [map] in *. by rewrite timed_ptr. }
  destruct (IH (S k) t1 s1 (pre ++ [timed (now k) e])) as (H6 & H7 & H8 & H9); [by rewrite H1, <- app_assoc|done|].
  fold (md_ptrs todo). split_and!; [by rewrite H6, <- app_assoc|intros q' Hne; by rewrite H7, H2|congruence..].
Qed.

(** Marking the callers of broken connections keeps what else they are; [P] tells which entries of the pool are broken. *)
Definition marked (P : Z -> Prop) (e e' : MD_ELE_T) : Prop := e' = e \/ (P (md_socketIdx e) /\ e' = set_md_morituri true e).

Lemma Forall2_refl_marked P q : Forall2 (marked P) q q.
Proof. induction q; constructor; auto. by left. Qed.

Lemma marked_trans P q1 q2 q3 : Forall2 (marked P) q1 q2 -> Forall2 (marked P) q2 q3 -> Forall2 (marked P) q1 q3.
Proof.
  intros H. revert q3. induction H as [|a b l1 l2 Hab H IH]; intros q3 H3; inversion H3 as [|? c ? l3 Hbc Hl]; subst; constructor; auto.
  destruct Hab as [->|[? ->]], Hbc as [->|[? ->]]; unfold marked; auto.
Qed.

Lemma marked_mono (P Q : Z -> Prop) q q' : (forall i, P i -> Q i) -> Forall2 (marked P) q q' -> Forall2 (marked Q) q q'.
Proof. intros HPQ H. induction H as [|a b l1 l2 [->|[HP ->]] H IH]; constructor; auto; [by left|right; auto]. Qed.

Lemma update_marked (P : Z -> Prop) p q e : find_md p q = Some e -> P (md_socketIdx e) -> NoDup (md_ptrs q) ->
  Forall2 (marked P) q (update_md p (fun _ => set_md_morituri true e) q).
Proof.
  unfold find_md, update_md. intros H HP Hnd. induction q as [|x q IH]; cbn in *; [done|]. apply list.NoDup_cons in Hnd as [Hx Hnd].
  destruct (Z.eqb_spec (md_ptr x) p) as [E|E].
  - injection H as ->. constructor; [by right|]. fold (update_md p (fun _ => set_md_morituri true e) q).
    rewrite update_md_notin by (by rewrite <- E). apply Forall2_refl_marked.
  - constructor; [by left|auto].
Qed.

Lemma marked_ptrs P q q' : Forall2 (marked P) q q' -> md_ptrs q' = md_ptrs q.
Proof. unfold md_ptrs. induction 1 as [|a b l1 l2 Hab H IH]; cbn; [done|]. rewrite IH. by destruct Hab as [->|[_ ->]]. Qed.

Lemma abort_fold_marked idx l s : NoDup (md_ptrs (pMDSndQueue s)) ->
  let s' := fold_left (abort_ele idx) l s in
  Forall2 (marked (eq idx)) (pMDSndQueue s) (pMDSndQueue s') /\ pMDRcvQueue s' = pMDRcvQueue s /\ ms_iface s' = ms_iface s.
Proof.
  revert s. induction l as [|p l IH]; intros s Hnd; cbn; [split; [apply Forall2_refl_marked|done]|].
  assert (H : Forall2 (marked (eq idx)) (pMDSndQueue s) (pMDSndQueue (abort_ele idx s p)) /\ pMDRcvQueue (abort_ele idx s p) = pMDRcvQueue s
              /\ ms_iface (abort_ele idx s p) = ms_iface s).
  { unfold abort_ele. destruct (find_md p _) as [e|] eqn:E; [|split; [apply Forall2_refl_marked|done]].
    destruct (Z.eqb_spec (md_socketIdx e) idx) as [Ei|]; [|split; [apply Forall2_refl_marked|done]].
    destruct (callback_queues (set_md_morituri true e) TRDP_TIMEOUT_ERR (put_md SndQ (set_md_morituri true e) s)) as (-> & -> & -> & _).
    split; [|done]. cbn. apply find_some in E as Ep. destruct Ep as [_ Ep%Z.eqb_eq]. rewrite Ep. by apply update_marked. }
  destruct H as (H1 & H2 & H2'). destruct (IH (abort_ele idx s p)) as (H3 & H4 & H5); [by rewrite (marked_ptrs _ _ _ H1)|].
  split; [by eapply marked_trans|split; congruence].
Qed.

(** The entry [i] of the pool is a connection on which sending has failed for too long at the time [t]. *)
Definition broken (t : TRDP_TIME_T) (ifc : list TRDP_SOCKETS_T) (i : Z) : Prop := 0 <= i /\ map (send_late t) ifc !! Z.to_nat i = Some true.

Lemma on_entry_late t i b s : map (send_late t) (ms_iface (on_entry i (set_morituri b) s)) = map (send_late t) (ms_iface s).
Proof.
  unfold on_entry. destruct (i <? 0); [done|]. cbn [ms_iface set_ms_iface set_ms_session ms_session iface set_iface].
  generalize (Z.to_nat i). induction (ms_iface s) as [|x l IH]; intros [|k]; cbn; [done|done|done|]. f_equal. apply IH.
Qed.

Lemma send_late_marked t l s : NoDup (md_ptrs (pMDSndQueue s)) ->
  let s' := fold_left (send_late_step t) l s in
  Forall2 (marked (broken t (ms_iface s))) (pMDSndQueue s) (pMDSndQueue s') /\ pMDRcvQueue s' = pMDRcvQueue s.
Proof.
  revert s. induction l as [|i l IH]; intros s Hnd; cbn; [split; [apply Forall2_refl_marked|done]|].
  assert (H : Forall2 (marked (broken t (ms_iface s))) (pMDSndQueue s) (pMDSndQueue (send_late_step t s i)) /\ pMDRcvQueue (send_late_step t s i) = pMDRcvQueue s
              /\ map (send_late t) (ms_iface (send_late_step t s i)) = map (send_late t) (ms_iface s)).
  { unfold send_late_step. destruct (_ !! i) as [x|] eqn:Ex; [|split; [apply Forall2_refl_marked|done]].
    destruct (send_late _ _) eqn:El; [|split; [apply Forall2_refl_marked|done]]. unfold abort_socket.
    destruct (abort_fold_marked (Z.of_nat i) (map md_ptr (pMDSndQueue s)) s Hnd) as (H1 & H2 & H3). split; [|split].
    - eapply marked_mono; [|unfold on_entry; destruct (_ <? _); exact H1]. intros ? <-. split; [lia|]. rewrite Nat2Z.id.
      change (map (send_late t)) with (fmap (send_late t) : list _ -> list _). rewrite list_lookup_fmap, Ex. cbn. by rewrite El.
    - unfold on_entry. by destruct (_ <? _).
    - by rewrite on_entry_late, H3. }
  destruct H as (H1 & H2 & H2'). destruct (IH (send_late_step t s i)) as [H3 H4]; [by rewrite (marked_ptrs _ _ _ H1)|].
  split; [|congruence]. eapply marked_trans; [exact H1|]. eapply marked_mono; [|exact H3]. intros j. unfold broken. by rewrite H2'.
Qed.

Lemma alive_elem e q : e ∈ alive q <-> e ∈ q /\ md_morituri e = false.
Proof. unfold alive. rewrite !list_elem_of_In, filter_In, negb_true_iff. done. Qed.

Lemma handled_sock e : md_socketIdx (handled e) = md_socketIdx e.
Proof.
  unfold handled. destruct (md_stateEle e); try done. destruct (md_tcp e); [done|]. unfold reply_timeout_udp.
  repeat case_match; simplify_eq/=; done.
Qed.
Lemma timed_sock t e : md_socketIdx (timed t e) = md_socketIdx e.
Proof. unfold timed. destruct (late t e); [apply handled_sock|done]. Qed.

Lemma connect_late_keeps t u ifc :
  map (send_late t) (map (fun x => if connect_late u x then set_morituri true x else x) ifc) = map (send_late t) ifc.
Proof. rewrite map_map. apply map_ext. intros x. by destruct (connect_late u x). Qed.

(** The queues after the time-outs: the elements as handled in their rounds, less those about to die
    and the callers on connections that are broken when the rounds are over. *)
Lemma checkTimeouts_left env now s : NoDup (md_ptrs (pMDSndQueue s)) -> NoDup (md_ptrs (pMDRcvQueue s)) ->
  let s' := trdp_mdCheckTimeouts env now s in
  (exists q, Forall2 (marked (broken (now (length (pMDSndQueue s) + length (pMDRcvQueue s))%nat) (ms_iface s)))
               (timed_from now 0 (pMDSndQueue s)) q /\ pMDSndQueue s' = alive q)
  /\ pMDRcvQueue s' = alive (timed_from now (length (pMDSndQueue s)) (pMDRcvQueue s)).
Proof.
  intros H1 H2. unfold trdp_mdCheckTimeouts. fold (md_ptrs (pMDSndQueue s)). set (n := length (pMDSndQueue s)).
  destruct (timeout_loop_queue now SndQ (pMDSndQueue s) 0 false s [] eq_refl H1) as (A1 & A2 & A3 & _).
  specialize (A2 RcvQ ltac:(done)). set (acc := md_timeout_loop now SndQ 0 _ _) in *. destruct acc as [t s1]. cbn [snd get_q app] in *.
  fold (md_ptrs (pMDRcvQueue s1)).
  destruct (timeout_loop_queue now RcvQ (pMDRcvQueue s1) n t s1 [] eq_refl ltac:(cbn [get_q]; by rewrite A2)) as (B1 & B2 & B3 & _).
  specialize (B2 SndQ ltac:(done)). set (acc := md_timeout_loop now RcvQ n _ _) in *. destruct acc as [t2 s2]. cbn [snd get_q app] in *.
  replace (length (md_ptrs (pMDRcvQueue s1))) with (length (pMDRcvQueue s)) by (unfold md_ptrs; by rewrite length_map, A2).
  set (s3 := fold_left _ _ _).
  assert (H3 : NoDup (md_ptrs (pMDSndQueue s2))) by (by rewrite B2, A1, timed_from_ptrs).
  destruct (send_late_marked (now (n + length (pMDRcvQueue s))%nat) (seq 0 (Z.to_nat VOS_MAX_SOCKET_CNT))
    (set_ms_iface (map (fun x => if connect_late (now (n + length (pMDRcvQueue s))%nat) x then set_morituri true x else x) (ms_iface s2)) s2) H3)
    as [C1 C2]. fold s3 in C1, C2. cbn [pMDSndQueue pMDRcvQueue ms_iface set_ms_iface set_ms_session ms_session iface set_iface] in C1, C2.
  assert (H4 : NoDup (md_ptrs (pMDSndQueue s3))) by (by rewrite (marked_ptrs _ _ _ C1)).
  assert (H5 : NoDup (md_ptrs (pMDRcvQueue s3))) by (by rewrite C2, B1, timed_from_ptrs, A2).
  destruct (close_queues env TRDP_INVALID_SOCKET_INDEX VOS_INVALID_SOCKET true s3 H4 H5) as [-> ->]. clearbody s3 n.
  split; [|by rewrite C2, B1, A2]. exists (pMDSndQueue s3). split; [|done]. rewrite B2, A1 in C1. eapply marked_mono; [|exact C1].
  intros k. unfold broken. by rewrite connect_late_keeps, B3, A3.
Qed.

Lemma ptr_unique q i j e1 e2 : NoDup (md_ptrs q) -> q !! i = Some e1 -> q !! j = Some e2 -> md_ptr e1 = md_ptr e2 -> i = j.
Proof.
  intros Hnd H1 H2 E. apply (NoDup_lookup (md_ptrs q) i j (md_ptr e1)); [done|..]; unfold md_ptrs; rewrite list_lookup_fmap.
  - by rewrite H1. - by rewrite H2, E.
Qed.

(** The clock of the round of an element. *)
Definition clock_of (now : nat -> TRDP_TIME_T) (q : md_queue) (s : TRDP_MD_SESSION_T) (i : nat) : TRDP_TIME_T :=
  match q with SndQ => now i | RcvQ => now (length (pMDSndQueue s) + i)%nat end.

Lemma checkTimeouts_from env now s q e' : NoDup (md_ptrs (pMDSndQueue s)) -> NoDup (md_ptrs (pMDRcvQueue s)) ->
  e' ∈ get_q q (trdp_mdCheckTimeouts env now s) ->
  exists i e, get_q q s !! i = Some e /\ e' = timed (clock_of now q s i) e /\ md_morituri e' = false.
Proof.
  intros H1 H2. destruct (checkTimeouts_left env now s H1 H2) as [(l & Hl & Hs) Hr]. revert Hs Hr.
  generalize (trdp_mdCheckTimeouts env now s). intros s' Hs Hr He. destruct q; cbn [get_q] in *.
  - rewrite Hs in He. apply alive_elem in He as [He Hm]. apply list_elem_of_lookup_1 in He as [i Hi].
    destruct (Forall2_lookup_r _ _ _ _ _ Hl Hi) as (x & Hx & Hmk). rewrite timed_from_lookup in Hx. cbn in Hx.
    destruct (pMDSndQueue s !! i) as [e|] eqn:E; [|done]. injection Hx as <-. exists i, e. destruct Hmk as [->|[_ ->]]; [done|].
    by cbn in Hm.
  - rewrite Hr in He. apply alive_elem in He as [He Hm]. apply list_elem_of_lookup_1 in He as [i Hi].
    rewrite timed_from_lookup in Hi. destruct (pMDRcvQueue s !! i) as [e|] eqn:E; [|done]. injection Hi as <-. eauto.
Qed.

(** The caller's connection is broken when all rounds are over. *)
Definition aborted (now : nat -> TRDP_TIME_T) (q : md_queue) (s : TRDP_MD_SESSION_T) (e : MD_ELE_T) : Prop :=
  q = SndQ /\ broken (now (length (pMDSndQueue s) + length (pMDRcvQueue s))%nat) (ms_iface s) (md_socketIdx e).

(** And back: what its round leaves alive stays, but for the callers of broken connections. *)
Lemma checkTimeouts_stays env now s q i e : NoDup (md_ptrs (pMDSndQueue s)) -> NoDup (md_ptrs (pMDRcvQueue s)) ->
  get_q q s !! i = Some e -> ~ aborted now q s e -> md_morituri (timed (clock_of now q s i) e) = false ->
  timed (clock_of now q s i) e ∈ get_q q (trdp_mdCheckTimeouts env now s).
Proof.
  intros H1 H2. destruct (checkTimeouts_left env now s H1 H2) as [(l & Hl & Hs) Hr]. revert Hs Hr.
  generalize (trdp_mdCheckTimeouts env now s). intros s' Hs Hr He Hab Hm. destruct q; cbn [get_q clock_of] in *.
  - rewrite Hs. apply alive_elem. split; [|done].
    assert (Ht : timed_from now 0 (pMDSndQueue s) !! i = Some (timed (now i) e)) by (by rewrite timed_from_lookup, He).
    destruct (Forall2_lookup_l _ _ _ _ _ Hl Ht) as (x & Hx & [->|[Hb _]]); [by eapply list_elem_of_lookup_2|].
    destruct Hab. split; [done|]. by rewrite timed_sock in Hb.
  - rewrite Hr. apply alive_elem. split; [|done]. apply (list_elem_of_lookup_2 _ i). by rewrite timed_from_lookup, He.
Qed.

(** A UDP request for one reply that has retries left (and a packet) is the one to be sent again. *)
Definition may_repeat (e : MD_ELE_T) : Prop :=
  md_stateEle e = TRDP_ST_TX_REQUEST_W4REPLY /\ md_tcp e = false /\ numExpReplies e = 1 /\ numRetries e < numRetriesMax e
  /\ pPacket e <> None.

Lemma handled_repeats e : may_repeat e -> md_morituri e = false -> md_morituri (handled e) = false /\ repeated_request e (handled e).
Proof.
  intros (Hst & Ht & Hn & Hr & Hp) Hm. assert (A : md_morituri (handled e) = false).
  { unfold handled. rewrite Hst, Ht. unfold reply_timeout_udp. rewrite Hm. destruct (pPacket e); [|done].
    rewrite (proj2 (Z.eqb_eq _ _) Hn), (proj2 (Z.ltb_lt _ _) Hr). cbn [andb negb]. case_bool_decide; done. }
  split; [done|]. destruct (handled_waiting e); [by rewrite Hst|congruence|done].
Qed.

(** C11: A session that waits (for a reply, a confirmation or the application) and is late when its round
    comes is no longer in its queue after trdp_mdCheckTimeouts, unless it is a UDP request for one
    reply with retries left: that one is armed to be sent again with the next sequence counter, a
    later time-out and one retry more, never more than its maximum. Every session that is left is
    such a request or is unchanged. Conversely a session that is not marked to die beforehand stays as
    it was when it is not late or does not wait, and stays as the request to be sent again when it is
    late and such a request; only callers on a TCP connection on which sending has failed for too
    long are excepted. *)
Theorem trdp_mdCheckTimeouts_progress env now s : NoDup (md_ptrs (pMDSndQueue s)) -> NoDup (md_ptrs (pMDRcvQueue s)) ->
  let s' := trdp_mdCheckTimeouts env now s in
  (forall q i e e', get_q q s !! i = Some e -> waiting (md_stateEle e) = true -> late (clock_of now q s i) e = true ->
     e' ∈ get_q q s' -> md_ptr e' = md_ptr e -> repeated_request e e')
  /\ (forall q e', e' ∈ get_q q s' -> md_morituri e' = false
        /\ exists e, e ∈ get_q q s /\ md_ptr e = md_ptr e' /\ (e' = e \/ repeated_request e e'))
  /\ (forall q i e, get_q q s !! i = Some e -> md_morituri e = false -> ~ aborted now q s e ->
        (waiting (md_stateEle e) && late (clock_of now q s i) e = false -> e ∈ get_q q s')
        /\ (late (clock_of now q s i) e = true -> may_repeat e ->
             exists e', e' ∈ get_q q s' /\ md_ptr e' = md_ptr e /\ repeated_request e e')).
Proof.
  intros H1 H2 s'. assert (Hnd : forall q, NoDup (md_ptrs (get_q q s))) by (by intros []). split_and!.
  - intros q i e e' Hi Hw Hl He' Hp. destruct (checkTimeouts_from env now s q e' H1 H2 He') as (j & e1 & Hj & E & Hm).
    assert (j = i) as -> by (apply (ptr_unique _ _ _ e1 e (Hnd q) Hj Hi); rewrite <- Hp, E; by rewrite timed_ptr).
    assert (e1 = e) as -> by congruence. unfold timed in E. rewrite Hl in E.
    destruct (handled_waiting e Hw) as [Hd|Hd]; [congruence|by rewrite E].
  - intros q e' He'. destruct (checkTimeouts_from env now s q e' H1 H2 He') as (j & e & Hj & E & Hm). split; [done|].
    exists e. split; [by eapply list_elem_of_lookup_2|]. split; [by rewrite E, timed_ptr|]. unfold timed in E.
    destruct (late _ e); [|by left]. destruct (waiting (md_stateEle e)) eqn:Hw.
    + destruct (handled_waiting e Hw) as [Hd|Hd]; [congruence|right; by rewrite E].
    + left. rewrite E. unfold handled. destruct (md_stateEle e); done.
  - intros q i e He Hm Hab. pose proof (checkTimeouts_stays env now s q i e H1 H2 He Hab) as Hst. fold s' in Hst. split.
    + intros Hwl. assert (E : timed (clock_of now q s i) e = e).
      { unfold timed. destruct (late _ e); [|done]. rewrite andb_true_r in Hwl. unfold handled. by destruct (md_stateEle e). }
      rewrite E in Hst. auto.
    + intros Hl Hr. destruct (handled_repeats e Hr Hm) as [Hm' Hrep]. unfold timed in Hst. rewrite Hl in Hst.
      exists (handled e). split; [by apply Hst|]. by rewrite handled_ptr.
Qed.

Definition demo_clock (t : Z) (k : nat) : TRDP_TIME_T := mkTime t 0.
Definition demo_late : TRDP_MD_SESSION_T := trdp_mdCheckTimeouts (me_sock (demo_env 20 0)) (demo_clock 20) demo_asked.

Lemma trdp_mdCheckTimeouts_progress_witness :
  map (fun e => (md_ptr e, md_stateEle e, numRetries e, md_timeToGo e)) (get_q SndQ demo_late)
  = [(100, TRDP_ST_TX_REQUEST_ARM, 1, mkTime 14 0)]
  /\ NoDup (md_ptrs (pMDSndQueue demo_asked)) /\ NoDup (md_ptrs (pMDRcvQueue demo_asked))
  /\ exists e e', e ∈ get_q SndQ demo_asked /\ e' ∈ get_q SndQ (trdp_mdCheckTimeouts (me_sock (demo_env 20 0)) (demo_clock 20) demo_asked) /\ md_ptr e' = md_ptr e /\ repeated_request e e'.
Proof.
  assert (H1 : NoDup (md_ptrs (pMDSndQueue demo_asked))) by (apply (bool_decide_unpack _); vm_compute; exact I).
  assert (H2 : NoDup (md_ptrs (pMDRcvQueue demo_asked))) by (apply (bool_decide_unpack _); vm_compute; exact I).
  split; [vm_compute; reflexivity|]. split; [exact H1|]. split; [exact H2|].
  pose proof (proj2 (proj2 (trdp_mdCheckTimeouts_progress (me_sock (demo_env 20 0)) (demo_clock 20) demo_asked H1 H2)) SndQ O) as H.
  cbv zeta in H.
  assert (Hd : match get_q SndQ demo_asked !! O with
               | Some e => bool_decide (md_morituri e = false /\ md_socketIdx e = 0 /\ md_stateEle e = TRDP_ST_TX_REQUEST_W4REPLY
                                        /\ md_tcp e = false /\ numExpReplies e = 1 /\ late (demo_clock 20 0) e = true)
                           && (numRetries e <? numRetriesMax e) && match pPacket e with Some _ => true | None => false end
               | None => false
               end = true) by (vm_compute; reflexivity).
  destruct (get_q SndQ demo_asked !! O) as [e|] eqn:He; [|discriminate Hd]. apply andb_prop in Hd as [[Hd Hlt]%andb_prop Hpk].
  apply bool_decide_eq_true_1 in Hd. destruct Hd as (Hm & Hi & Hst & Ht & Hn & Hl). apply Z.ltb_lt in Hlt.
  assert (Hr : may_repeat e). { split_and!; [assumption..|]. intros E. rewrite E in Hpk. discriminate Hpk. }
  specialize (H e eq_refl Hm). destruct H as [_ H]; [|destruct (H Hl Hr) as (e' & He' & Hp & Hrep)].
  - intros [_ [_ Hb]]. rewrite Hi in Hb. vm_compute in Hb. discriminate.
  - exists e, e'. exact (conj (list_elem_of_lookup_2 _ _ _ He) (conj He' (conj Hp Hrep))).
Defined.

Lemma trdp_mdCloseSessions_exact_witness : md_ptrs (pMDSndQueue demo_asked) = [100]
  /\ (pMDSndQueue (trdp_mdCloseSessions (me_sock (demo_env 20 0)) (-1) (-1) true demo_asked) = alive (pMDSndQueue demo_asked)).
Proof.
  assert (H1 : NoDup (md_ptrs (pMDSndQueue demo_asked))) by (apply (bool_decide_unpack _); vm_compute; exact I).
  assert (H2 : NoDup (md_ptrs (pMDRcvQueue demo_asked))) by (apply (bool_decide_unpack _); vm_compute; exact I).
  split; [vm_compute; reflexivity|].
  exact (proj1 (trdp_mdCloseSessions_exact (me_sock (demo_env 20 0)) (-1) (-1) true demo_asked H1 H2)).
Defined.
