(* ===== verification/TrdpMdInv.v ===== *)
(** * Message data: the invariant of the sessions

    In every state reached by the functions of the interface and of the work loop, the elements of the
    send queue are in states of callers and those of the receive queue in states of repliers, a
    session in a final state is about to die, no caller has more retries than allowed, and no two
    elements share their memory. *)
From S2P Require Import Prelude Bytes VosTime TrdpTypes TrdpMdTypes TrdpUtils TrdpPd TrdpMd TrdpMdRecv TrdpMdIf TrdpMdDemo TrdpMdLive.

Definition caller_state (st : TRDP_MD_ELE_ST_T) : bool :=
  match st with
  | TRDP_ST_NONE | TRDP_ST_TX_NOTIFY_ARM | TRDP_ST_TX_REQUEST_ARM | TRDP_ST_TX_REPLY_ARM | TRDP_ST_TX_CONFIRM_ARM
  | TRDP_ST_TX_REQUEST_W4REPLY | TRDP_ST_TX_REQ_W4AP_CONFIRM | TRDP_ST_TX_REPLY_RECEIVED => true
  | _ => false
  end.
Definition replier_state (st : TRDP_MD_ELE_ST_T) : bool :=
  match st with
  | TRDP_ST_NONE | TRDP_ST_TX_REPLY_ARM | TRDP_ST_TX_REPLYQUERY_ARM | TRDP_ST_RX_REPLYQUERY_W4C | TRDP_ST_RX_REQ_W4AP_REPLY
  | TRDP_ST_RX_NOTIFY_RECEIVED | TRDP_ST_RX_CONF_RECEIVED => true
  | _ => false
  end.
Definition final_state (st : TRDP_MD_ELE_ST_T) : bool :=
  match st with TRDP_ST_NONE | TRDP_ST_RX_NOTIFY_RECEIVED | TRDP_ST_RX_CONF_RECEIVED => true | _ => false end.

(** An element of the queue [q]. *)
Definition q_ok (q : md_queue) (e : MD_ELE_T) : Prop :=
  match q with
  | SndQ => caller_state (md_stateEle e) = true /\ 0 <= numRetries e <= numRetriesMax e /\ numRetriesMax e < 2 ^ 32
  | RcvQ => replier_state (md_stateEle e) = true
  end /\ (final_state (md_stateEle e) = true -> md_morituri e = true).

Definition all_ptrs (s : TRDP_MD_SESSION_T) : list Z :=
  md_ptrs (pMDSndQueue s) ++ md_ptrs (pMDRcvQueue s) ++ match pMDRcvEle s with Some r => [md_ptr r] | None => [] end.

Record md_inv (s : TRDP_MD_SESSION_T) : Prop := mkInv {
  inv_q : forall q, Forall (q_ok q) (get_q q s);
  inv_ptrs : NoDup (all_ptrs s);
  inv_retries : 0 <= md_retries (mdDefault s) < 2 ^ 32 }.

Lemma inv_nodup q s : md_inv s -> NoDup (md_ptrs (get_q q s)).
Proof.
  intros [_ H _]. unfold all_ptrs in H. rewrite !list.NoDup_app in H. destruct H as (H1 & _ & H2 & _). by destruct q.
Qed.

(** A step that keeps queues and the element received into. *)
Definition md_same (s s' : TRDP_MD_SESSION_T) : Prop :=
  pMDSndQueue s' = pMDSndQueue s /\ pMDRcvQueue s' = pMDRcvQueue s /\ pMDRcvEle s' = pMDRcvEle s /\ mdDefault s' = mdDefault s.

Lemma inv_same s s' : md_same s s' -> md_inv s -> md_inv s'.
Proof.
  intros (H1 & H2 & H3 & H4) [I1 I2 I3]. split; [|unfold all_ptrs in *; by rewrite H1, H2, H3|by rewrite H4].
  intros q. specialize (I1 q). destruct q; cbn in *; congruence.
Qed.

Lemma md_same_refl s : md_same s s.
Proof. done. Qed.
Lemma md_same_trans s s1 s2 : md_same s s1 -> md_same s1 s2 -> md_same s s2.
Proof. intros (?&?&?&?) (?&?&?&?). split_and!; congruence. Qed.

Create HintDb md_same.
#[export] Hint Resolve md_same_refl : md_same.

Lemma same_log l s : md_same s (log l s). Proof. done. Qed.
Lemma same_iface l s : md_same s (set_ms_iface l s). Proof. done. Qed.
Lemma same_count t f s : md_same s (count_md t f s). Proof. by destruct t. Qed.
Lemma same_callback e r s : md_same s (trdp_mdInvokeCallback e r s). Proof. unfold trdp_mdInvokeCallback. by destruct (md_cb e). Qed.
Lemma same_on_entry i f s : md_same s (on_entry i f s). Proof. unfold on_entry. by destruct (_ <? _). Qed.
Lemma same_unc i u s : md_same s (set_unc i u s). Proof. done. Qed.
Lemma same_listen l s : md_same s (set_pMDListenQueue l s). Proof. done. Qed.
#[export] Hint Resolve same_log same_iface same_count same_callback same_on_entry same_unc same_listen : md_same.

Section Inv.
Context (s : TRDP_MD_SESSION_T) (Hs : md_inv s).
Lemma inv_log l : md_inv (log l s). Proof using Hs. by eapply inv_same; [apply same_log|]. Qed.
Lemma inv_iface l : md_inv (set_ms_iface l s). Proof using Hs. by eapply inv_same; [apply same_iface|]. Qed.
Lemma inv_count t f : md_inv (count_md t f s). Proof using Hs. by eapply inv_same; [apply same_count|]. Qed.
Lemma inv_callback e r : md_inv (trdp_mdInvokeCallback e r s). Proof using Hs. by eapply inv_same; [apply same_callback|]. Qed.
Lemma inv_on_entry i f : md_inv (on_entry i f s). Proof using Hs. by eapply inv_same; [apply same_on_entry|]. Qed.

(** Replacing an element where it stands. *)
Lemma update_ptrs e l : md_ptrs (update_md (md_ptr e) (fun _ => e) l) = md_ptrs l.
Proof using. unfold md_ptrs, update_md. rewrite map_map. apply map_ext. intros x. by destruct (Z.eqb_spec (md_ptr x) (md_ptr e)). Qed.

Lemma update_ok q e l : q_ok q e -> Forall (q_ok q) l -> Forall (q_ok q) (update_md (md_ptr e) (fun _ => e) l).
Proof using. intros He. unfold update_md. rewrite !list.Forall_forall. intros Hl x. rewrite list_elem_of_In, in_map_iff. intros (y & <- & Hy).
  destruct (_ =? _); [done|]. by apply Hl, list_elem_of_In. Qed.

Lemma inv_put_md q e : q_ok q e -> md_inv (put_md q e s).
Proof using Hs.
  intros He. destruct Hs as [I1 I2 I3]. split; [| |by destruct q].
  - intros q'. unfold put_md. rewrite get_set_q. destruct (decide (q' = q)) as [->|]; [by apply update_ok|done].
  - unfold all_ptrs in *. by destruct q; cbn [put_md set_q get_q pMDSndQueue pMDRcvQueue pMDRcvEle]; unfold put_md; cbn; rewrite update_ptrs.
Qed.

Lemma inv_found q f e : find f (get_q q s) = Some e -> q_ok q e.
Proof using Hs. intros H. apply find_some in H as [H _]. destruct Hs as [I1 _ _]. specialize (I1 q). rewrite list.Forall_forall in I1. apply I1, list_elem_of_In, H. Qed.

(** A new caller. *)
Lemma inv_new_snd e l : q_ok SndQ e -> md_ptr e ∉ all_ptrs s -> l = e :: pMDSndQueue s \/ l = pMDSndQueue s ++ [e] ->
  md_inv (set_pMDSndQueue l s).
Proof using Hs.
  intros He Hp Hl. destruct Hs as [I1 I2 I3]. pose proof (I1 SndQ) as I1s. cbn in I1s.
  assert (Hperm : l ≡ₚ e :: pMDSndQueue s) by (destruct Hl as [->| ->]; [done|by rewrite Permutation_app_comm]).
  split; [| |done].
  - intros []; cbn [get_q pMDSndQueue pMDRcvQueue set_pMDSndQueue]; [rewrite Hperm; by constructor|apply (I1 RcvQ)].
  - unfold all_ptrs, md_ptrs in *. cbn. rewrite Hperm. cbn. by constructor.
Qed.
End Inv.
Create HintDb md_inv.
#[export] Hint Resolve inv_log inv_iface inv_count inv_callback inv_on_entry inv_put_md : md_inv.

(** ** Closing and time-outs *)
Lemma alive_sublist q : alive q `sublist_of` q.
Proof. unfold alive. induction q as [|e q IH]; cbn; [constructor|]. destruct (md_morituri e); cbn; by constructor. Qed.

Lemma alive_ptrs q : md_ptrs (alive q) `sublist_of` md_ptrs q.
Proof. apply fmap_sublist, alive_sublist. Qed.
Lemma get_q_iface q l s : get_q q (set_ms_iface l s) = get_q q s.
Proof. by destruct q. Qed.

Lemma inv_queues q l s : md_inv s -> Forall (q_ok q) l -> md_ptrs l `sublist_of` md_ptrs (get_q q s) -> md_inv (set_q q l s).
Proof.
  intros [I1 I2 I3] Hl Hsub. split; [| |by destruct q].
  - intros q'. rewrite get_set_q. by destruct (decide (q' = q)) as [->|].
  - unfold all_ptrs in *. destruct q; cbn in *; eapply sublist_NoDup; [exact I2| |exact I2|];
      repeat apply sublist_app; done.
Qed.

Lemma inv_closed env q s : md_inv s -> md_inv (closed env q s).
Proof.
  intros H. unfold closed. apply inv_log, inv_queues; [by apply inv_iface| |].
  - pose proof (inv_q _ H q) as Hq. rewrite list.Forall_forall in *. intros e He. apply Hq. by apply alive_elem in He as [He _].
  - rewrite get_q_iface. apply alive_ptrs.
Qed.

Lemma inv_close env i fd b s : md_inv s -> md_inv (trdp_mdCloseSessions env i fd b s).
Proof.
  intros H. rewrite close_closed by (first [apply (inv_nodup SndQ s H) | apply (inv_nodup RcvQ s H)]).
  assert (H1 : forall l, md_inv (closed env RcvQ (closed env SndQ (set_ms_iface l s)))) by (intros; by apply inv_closed, inv_closed, inv_iface).
  destruct (_ && _); [apply inv_on_entry|]; apply H1.
Qed.
#[export] Hint Resolve inv_close : md_inv.

Lemma morituri_ok q e : q_ok q e -> q_ok q (set_md_morituri true e).
Proof. intros [H _]. split; [by destruct q|done]. Qed.
#[export] Hint Resolve morituri_ok : md_inv.

Lemma handled_ok q e : q_ok q e -> q_ok q (handled e).
Proof.
  intros Hq. unfold handled. destruct (md_stateEle e) eqn:Hst; cbn [waiting]; auto with md_inv.
  destruct (md_tcp e) eqn:Ht; auto with md_inv. assert (Hw : waiting (md_stateEle e) = true) by (by rewrite Hst).
  destruct (handled_waiting e Hw) as [Hd|Hr]; unfold handled in *; rewrite Hst, Ht in *.
  - destruct Hq as [H1 H2]. unfold reply_timeout_udp in *. revert Hd. destruct q; [|by rewrite Hst in H1].
    destruct H1 as (Hc & Hn & Hm). repeat case_match; simplify_eq/=; intros Hd; split; cbn; rewrite ?Hst; auto; congruence.
  - destruct q; [|destruct Hq as [Hq _]; by rewrite Hst in Hq]. destruct Hq as [(Hc & Hn & Hm) _].
    destruct Hr as (_ & _ & Hlt & Hmax & Hret & Hst' & _). split; [|by rewrite Hst']. rewrite Hst', Hmax, Hret.
    rewrite u32_small by lia. split; [done|lia].
Qed.

Lemma inv_timeout_step now q acc p : md_inv (snd acc) -> md_inv (snd (timeout_step now q acc p)).
Proof.
  destruct acc as [t s]. intros H. cbn [snd] in H |- *. unfold timeout_step. destruct (find_md p (get_q q s)) as [e|] eqn:E; [|done].
  pose proof (inv_found _ H q _ e E) as He. destruct (_ <? _).
  - pose proof (handler_handled e s) as Hh. assert (Hsame : md_same s (snd (trdp_mdTimeOutStateHandler e TRDP_UNKNOWN_ERR s))).
    { unfold trdp_mdTimeOutStateHandler. repeat case_match; cbn [snd]; auto with md_same. }
    destruct (trdp_mdTimeOutStateHandler _ _ _) as [[[told res] e'] s1]. cbn [fst snd] in *. subst e'.
    assert (H1 : md_inv (put_md q (handled e) s1)) by (apply inv_put_md; [by eapply inv_same|by apply handled_ok]).
    destruct told; [by apply inv_callback|done].
  - cbn [snd]. destruct t; [by apply inv_callback|done].
Qed.

Lemma inv_timeout_loop now q l k acc : md_inv (snd acc) -> md_inv (snd (md_timeout_loop now q k l acc)).
Proof. revert k acc. induction l; cbn; auto using inv_timeout_step. Qed.

Lemma inv_fold {A} (f : TRDP_MD_SESSION_T -> A -> TRDP_MD_SESSION_T) l s :
  (forall s x, md_inv s -> md_inv (f s x)) -> md_inv s -> md_inv (fold_left f l s).
Proof. intros Hf. revert s. induction l; cbn; auto. Qed.

Lemma inv_abort i s : md_inv s -> md_inv (abort_socket i s).
Proof.
  intros H. apply inv_on_entry, inv_fold; [|done]. intros s1 p H1. unfold abort_ele.
  destruct (find_md p (pMDSndQueue s1)) as [e|] eqn:E; [|done]. pose proof (inv_found _ H1 SndQ _ e E) as He.
  destruct (_ =? _); auto with md_inv.
Qed.
#[export] Hint Resolve inv_abort : md_inv.

Lemma inv_checkTimeouts env now s : md_inv s -> md_inv (trdp_mdCheckTimeouts env now s).
Proof.
  intros H. unfold trdp_mdCheckTimeouts. apply inv_close, inv_fold.
  - intros s1 i H1. unfold send_late_step. destruct (_ !! _); [|done]. destruct (send_late _ _); auto with md_inv.
  - apply inv_iface, inv_timeout_loop, inv_timeout_loop. done.
Qed.

(** ** Sending *)
Lemma same_request env r e s err e' s' : md_request env r e s = (err, e', s') ->
  md_same s s' /\ exists i, e' = set_md_socketIdx i e.
Proof. intros E. unfold md_request in E. destruct (trdp_requestSocket _ _ _ _) as [[[? ?] ?] ?]. injection E as <- <- <-. split; [done|by eexists]. Qed.

(** What connecting changes of an element. *)
Definition connected (e e' : MD_ELE_T) : Prop :=
  md_ptr e' = md_ptr e /\ md_stateEle e' = md_stateEle e /\ md_morituri e' = md_morituri e /\ numRetries e' = numRetries e
  /\ numRetriesMax e' = numRetriesMax e.

Lemma connected_ok q e e' : connected e e' -> q_ok q e -> q_ok q e'.
Proof. intros (_ & H1 & H2 & H3 & H4). unfold q_ok. by rewrite H1, H2, H3, H4. Qed.

Lemma same_connect env p src dst b e s err e' s' :
  trdp_mdConnectSocket env p src dst b e s = (err, e', s') -> md_same s s' /\ connected e e'.
Proof.
  intros E. unfold trdp_mdConnectSocket in E. destruct (default _ _) as [[q t] n]. destruct (md_tcp e).
  - destruct (_ =? _).
    + destruct (md_request _ _ _ _) as [[er e1] s1] eqn:Er. apply same_request in Er as [Hs [i ->]].
      destruct (negb _); injection E as <- <- <-; done.
    + cbn in E. injection E as <- <- <-. done.
  - destruct (_ && _); [|by injection E as <- <- <-]. apply same_request in E as [Hs [i ->]]. done.
Qed.

Lemma inv_detail_new m e s : md_inv s -> q_ok SndQ e -> md_ptr e ∉ all_ptrs s -> md_inv (trdp_mdDetailSenderPacket m true SndQ e s).
Proof.
  intros H He Hp. unfold trdp_mdDetailSenderPacket. cbv zeta.
  match goal with |- context [on_packet ?f e] => apply (inv_new_snd s H (on_packet f e)) end; [done|done|].
  destruct (md_tcp _); [by right|by left].
Qed.
Lemma inv_detail_old m q e s : md_inv s -> q_ok q e -> md_inv (trdp_mdDetailSenderPacket m false q e s).
Proof. intros H He. by apply inv_put_md. Qed.

(** The memory the allocator answers with is not in use. *)
Definition fresh (s : TRDP_MD_SESSION_T) (p : option Z) : Prop := match p with Some p => p ∉ all_ptrs s | None => True end.
Lemma fresh_same s s' p : md_same s s' -> fresh s p -> fresh s' p.
Proof. intros (H1 & H2 & H3 & _). unfold fresh, all_ptrs. by rewrite H1, H2, H3. Qed.

(** The number of retries asked for is a UINT8. *)
Definition retries_ok (p : option send_param) : Prop := match p with Some (_, _, r) => 0 <= r | None => True end.

Lemma fill_caller t e : t = TRDP_MSG_MN \/ t = TRDP_MSG_MR \/ t = TRDP_MSG_ME \/ t = TRDP_MSG_MC ->
  caller_state (md_stateEle (trdp_mdFillStateElement t e)) = true /\ final_state (md_stateEle (trdp_mdFillStateElement t e)) = false.
Proof. intros [->|[->|[->| ->]]]; done. Qed.

Lemma manage_connected uuid e : connected e (fst (trdp_mdManageSessionId uuid e)).
Proof. unfold trdp_mdManageSessionId. by destruct (negb _). Qed.

Lemma timeout_connected now iv e : connected e (trdp_mdSetSessionTimeout now (set_md_interval iv e)).
Proof. unfold trdp_mdSetSessionTimeout. by destruct (_ && _). Qed.

Lemma inv_call env lock a s : md_inv s -> fresh s (me_elem env) -> retries_ok (c_sendParam a) -> md_inv (snd (trdp_mdCall env lock a s)).
Proof.
  intros H Hf Hr. unfold trdp_mdCall. destruct (_ || _) eqn:Ec; [done|]. destruct (negb (is_ok lock)); [done|]. destruct (me_elem env) as [p|]; [|done].
  destruct (trdp_mdConnectSocket _ _ _ _ _ _ _) as [[err e1] s1] eqn:E. apply same_connect in E as [Hs Hc].
  assert (H1 : md_inv s1) by (by eapply inv_same). destruct (negb (is_ok err)); [by apply inv_log|].
  apply orb_false_iff in Ec as [Ety Ert].
  pose proof (manage_connected (me_uuid env) (trdp_mdFillStateElement (c_msgType a) e1)) as Hm.
  destruct (trdp_mdManageSessionId _ _) as [e2 sid]. cbn [fst] in Hm. destruct (negb (me_packet env)); [by apply inv_log|]. cbn [snd].
  assert (Hp : md_ptr e2 = p).
  { destruct Hm as (-> & _). change (md_ptr (trdp_mdFillStateElement _ e1)) with (md_ptr e1). destruct Hc as (-> & _).
    unfold call_ele, trdp_mdSetSessionTimeout. case_if; done. }
  apply inv_detail_new; [done| |cbn; rewrite Hp; exact (fresh_same _ _ (Some p) Hs Hf)].
  apply (connected_ok SndQ e2); [done|]. apply (connected_ok SndQ _ _ Hm).
  assert (Hty : c_msgType a = TRDP_MSG_MN \/ c_msgType a = TRDP_MSG_MR).
  { apply andb_false_iff in Ety as [Ety|Ety]; apply negb_false_iff, Z.eqb_eq in Ety; auto. }
  destruct (fill_caller (c_msgType a) e1) as [Hcs Hfs]; [by destruct Hty; auto|]. split; [|by rewrite Hfs].
  split; [done|]. destruct Hc as (_ & _ & _ & Hn & Hmx). cbn [numRetries numRetriesMax trdp_mdFillStateElement set_md_stateEle].
  rewrite Hn, Hmx. unfold call_ele, trdp_mdSetSessionTimeout. destruct H as [_ _ Hd].
  assert (Hb : match c_sendParam a with Some (_, _, r) => 0 <= r < 2 ^ 32 | None => True end).
  { destruct (c_sendParam a) as [[[? ?] r]|]; [|done]. cbn in Hr. unfold TRDP_MAX_MD_RETRIES in Ert. lia. }
  clear Ety Ert. case_if; cbn; case_if; try lia; destruct (c_sendParam a) as [[[? ?] r]|]; lia.
Qed.

Lemma inv_answer_packet env q m e s : md_inv s -> q_ok q e -> md_inv (snd (answer_packet env q m e s)).
Proof.
  intros H He. unfold answer_packet. destruct (negb _); cbn [snd].
  - by apply inv_log, inv_put_md.
  - by apply inv_detail_old.
Qed.

Lemma lookup_found q st sid err e : trdp_mdLookupElement q st sid = (err, Some e) ->
  exists f, find f q = Some e /\ md_stateEle e = st.
Proof.
  unfold trdp_mdLookupElement. destruct sid as [sid|]; [|done]. destruct (find _ _) as [x|] eqn:E; [|done]. intros [= _ ->].
  eexists. split; [exact E|]. apply find_some in E as [_ E]. apply andb_prop in E as [E _]. by apply bool_decide_eq_true in E.
Qed.

Lemma inv_reply env lock sid a s : md_inv s -> md_inv (snd (trdp_mdReply env lock sid a s)).
Proof.
  intros H. unfold trdp_mdReply. destruct (_ && _) eqn:Ety; [done|]. destruct (negb (is_ok lock)); [done|]. destruct sid as [sid|]; [|done].
  destruct (trdp_mdLookupElement _ _ _) as [err0 [e0|]]; [|done]. destruct (pPacket e0) as [f|]; [|done].
  destruct (trdp_mdConnectSocket _ _ _ _ _ _ _) as [[err e1] s1] eqn:E. apply same_connect in E as [Hs Hc].
  assert (H1 : md_inv s1) by (by eapply inv_same).
  assert (He : q_ok RcvQ e1).
  { eapply connected_ok; [exact Hc|]. match goal with |- q_ok RcvQ (if ?b then trdp_mdSetSessionTimeout ?n ?x else ?y) =>
      assert (Hst : q_ok RcvQ y) end.
    { eapply connected_ok; [apply manage_connected|]. apply andb_false_iff in Ety.
      destruct Ety as [Ety|Ety]; apply negb_false_iff, Z.eqb_eq in Ety; rewrite Ety; done. }
    clear Ety. case_if; [|done]. eapply connected_ok; [apply timeout_connected|exact Hst]. }
  destruct (negb (is_ok err)); [by apply inv_put_md|]. by apply inv_answer_packet.
Qed.

Lemma inv_confirm env lock sid u p s : md_inv s -> md_inv (snd (trdp_mdConfirm env lock sid u p s)).
Proof.
  intros H. unfold trdp_mdConfirm. destruct (negb _); [done|]. destruct sid as [sid|]; [|done].
  destruct (trdp_mdLookupElement _ _ _) as [err0 [e0|]] eqn:El; [|done]. apply lookup_found in El as (f & Hf & Hst).
  pose proof (inv_found _ H SndQ f e0 Hf) as He0.
  destruct (trdp_mdConnectSocket _ _ _ _ _ _ _) as [[err e1] s1] eqn:E. apply same_connect in E as [Hs Hc].
  assert (H1 : md_inv s1) by (by eapply inv_same).
  assert (Hr : 0 <= numRetries e1 <= numRetriesMax e1 /\ numRetriesMax e1 < 2 ^ 32).
  { destruct Hc as (_ & _ & _ & -> & ->). apply He0. }
  destruct (negb _).
  - apply inv_put_md; [done|]. eapply connected_ok; [exact Hc|]. destruct He0 as [(_ & Hn) _]. split; cbn; rewrite Hst; [|done]. by split.
  - apply inv_answer_packet; [done|]. by split.
Qed.

Lemma armed_next q e st : armed (md_stateEle e) = Some st -> q_ok q e -> forall now e1, connected e e1 -> q_ok q (md_sent now st e1).
Proof.
  intros Ha [H1 _] now e1 (_ & Hst & _ & Hn & Hx).
  assert (Hs : forall e2, (md_stateEle e2 = md_stateEle e1 /\ numRetries e2 = numRetries e1 /\ numRetriesMax e2 = numRetriesMax e1) ->
     md_stateEle e2 = md_stateEle e /\ numRetries e2 = numRetries e /\ numRetriesMax e2 = numRetriesMax e) by (intros e2 (-> & -> & ->); done).
  unfold md_sent. set (e2 := if bool_decide (st = _) then _ else _).
  destruct (Hs e2) as (Es & En & Ex). { unfold e2. repeat case_match; done. } clearbody e2. rewrite Es.
  destruct (md_stateEle e) eqn:E; try done; injection Ha as <-; destruct q; try done; cbn -[u32]; try (split; cbn; rewrite ?En, ?Ex; done);
    try (split; cbn; auto; done).
  destruct H1 as [_ H1]. case_if; [split; cbn; rewrite ?En, ?Ex; done|]. case_if; split; cbn; rewrite ?En, ?Ex; auto; done.
Qed.

Lemma sendPacket_connected env fd port e r e' evs : trdp_mdSendPacket env fd port e = (r, e', evs) -> connected e e'.
Proof.
  unfold trdp_mdSendPacket. destruct (md_tcp e).
  - destruct (me_sendTCP _ _ _) as [err n]. destruct err; intros [= <- <- <-]; done.
  - destruct (me_sendUDP _ _ _) as [err n]. destruct err; intros [= <- <- <-]; done.
Qed.

Lemma connected_trans e e1 e2 : connected e e1 -> connected e1 e2 -> connected e e2.
Proof. intros (?&?&?&?&?) (?&?&?&?&?). split_and!; congruence. Qed.

Lemma inv_transmit env q st e0 e r s : md_inv s -> q_ok q e0 -> armed (md_stateEle e0) = Some st -> connected e0 e ->
  md_inv (snd (md_transmit env q st e r s)).
Proof.
  intros H He0 Ha Hc. pose proof (connected_ok q _ _ Hc He0) as He. unfold md_transmit.
  destruct (_ && _); [by apply inv_put_md|].
  destruct (trdp_mdSendPacket _ _ _ _) as [[err e1] evs] eqn:E. apply sendPacket_connected in E.
  pose proof (connected_trans _ _ _ Hc E) as Hc1. pose proof (connected_ok q _ _ Hc1 He0) as He1.
  assert (Hl : md_inv (log evs s)) by (by apply inv_log).
  assert (Hu : q_ok q (set_msgUncomplete true e1)) by done.
  destruct err; cbn [snd]; try (apply inv_abort, inv_put_md; done).
  - apply inv_put_md; [destruct (md_tcp e1); auto with md_inv|]. by eapply armed_next.
  - destruct (md_tcp e1); cbn [snd]; [|by apply inv_put_md]. apply inv_put_md; [by apply inv_on_entry, inv_on_entry|done].
Qed.

Lemma inv_send_step env q acc p : md_inv (snd acc) -> md_inv (snd (md_send_step env q acc p)).
Proof.
  destruct acc as [r s]. intros H. cbn [snd] in H |- *. unfold md_send_step. destruct (find_md p (get_q q s)) as [e0|] eqn:E; [|done].
  pose proof (inv_found _ H q _ e0 E) as He. destruct (armed (md_stateEle e0)) as [st|] eqn:Ha; [|done].
  destruct (_ || _); [done|]. destruct (md_tcp _ && _); [|by eapply inv_transmit].
  assert (Hd : q_ok q (set_doConnect false (trdp_mdUpdatePacket e0))) by done.
  assert (Hk : q_ok q (set_md_morituri true (trdp_mdUpdatePacket e0))) by (by apply (morituri_ok q (trdp_mdUpdatePacket e0))).
  pose proof (inv_put_md _ H q _ Hd) as G1.
  pose proof (inv_put_md _ (inv_on_entry s H (md_socketIdx (trdp_mdUpdatePacket e0)) (fun x => if sendNotOk x then x
    else set_sendNotOk true (set_sendingTimeout (addTime (me_now env) (md_times (md_sendingTimeout (mdDefault s)))) x))) q _ Hk) as G2.
  destruct (me_connect env p); first [by apply (inv_transmit env q st e0) | exact G1 | exact G2].
Qed.

Lemma inv_fold_snd {A B} (f : B * TRDP_MD_SESSION_T -> A -> B * TRDP_MD_SESSION_T) l acc :
  (forall acc x, md_inv (snd acc) -> md_inv (snd (f acc x))) -> md_inv (snd acc) -> md_inv (snd (fold_left f l acc)).
Proof. intros Hf. revert acc. induction l; cbn; auto. Qed.

Lemma inv_send env s : md_inv s -> md_inv (snd (trdp_mdSend env s)).
Proof.
  intros H. unfold trdp_mdSend. set (acc := fold_left (md_send_step env SndQ) _ _).
  assert (H1 : md_inv (snd acc)) by (apply inv_fold_snd; auto using inv_send_step).
  set (acc2 := fold_left (md_send_step env RcvQ) _ _).
  assert (H2 : md_inv (snd acc2)) by (apply inv_fold_snd; auto using inv_send_step).
  destruct acc2 as [r s2]. cbn [snd] in *. by apply inv_close.
Qed.

(** ** Receiving *)

(** The element received into keeps its place in memory. *)
Lemma enlarge_ptr env a b e r e' : tcp_enlarge env a b e = Some (r, e') -> md_ptr e' = md_ptr e.
Proof.
  unfold tcp_enlarge. destruct (_ >? _); [|by intros [= _ <-]]. destruct (negb _); [by intros [= _ <-]|].
  intros E. apply bind_Some in E as (bs & _ & E). apply bind_Some in E as (big & _ & E). by injection E as _ <-.
Qed.

Lemma header_ptr env s e u hdr : tcp_header env s e u = Some hdr ->
  match hdr with inl e' => md_ptr e' = md_ptr e | inr (_, e', _, _, _, _) => md_ptr e' = md_ptr e end.
Proof.
  unfold tcp_header. destruct (_ <? _); [|by intros [= <-]]. destruct (mr_recvTCP _ _ _) as [err bs].
  intros E. apply bind_Some in E as (buf & _ & E). destruct u as [u1|]; [|by injection E as <-].
  destruct (pPacket u1); [|by injection E as <-]. destruct (is_ok err && _); [|by injection E as <-].
  destruct (is_ok _); by injection E as <-.
Qed.

Lemma data_ptr env err e u a b c part : tcp_data env err e u a b c = Some part ->
  match part with TcpEnd _ e' | TcpRead _ e' _ _ _ => md_ptr e' = md_ptr e end.
Proof.
  unfold tcp_data. destruct (_ || _); [|by intros [= <-]].
  match goal with |- (let '(_, _) := ?x in _) = _ -> _ => destruct x as [[total size] dsz] end.
  intros E. apply bind_Some in E as ([merr e1] & E1 & E). assert (H1 : md_ptr e1 = md_ptr e).
  { destruct (_ >=? _); [by apply enlarge_ptr in E1|by injection E1 as _ <-]. }
  destruct (negb (is_ok merr)); [by injection E as <-|]. destruct (_ >? _); [|by injection E as <-].
  destruct (mr_recvTCP _ _ _) as [err2 bs]. apply bind_Some in E as (buf & _ & E). by injection E as <-.
Qed.

Lemma finish_ptr e u n r e' u' : tcp_finish e u n = Some (r, e', u') -> md_ptr e' = md_ptr e.
Proof.
  unfold tcp_finish. destruct u as [u1|]; [|by intros [= _ <- _]]. destruct (pPacket u1); [|by intros [= _ <- _]].
  destruct (_ >? _); [|by intros [= _ <- _]]. intros E. do 4 apply bind_Some in E as (? & _ & E). by injection E as _ <- _.
Qed.

Lemma rest_ptr env u part r e' u' : tcp_rest env u part = Some (r, e', u') ->
  md_ptr e' = match part with TcpEnd _ e | TcpRead _ e _ _ _ => md_ptr e end.
Proof.
  unfold tcp_rest. destruct part as [err e|err e n1 n2 n3]; [by intros [= _ <- _]|]. destruct (_ || _); [|by intros [= _ <- _]].
  destruct (tcp_incomplete _ _ _); [|apply finish_ptr]. intros E. apply bind_Some in E as ([r1 u1] & _ & E). by injection E as _ <- _.
Qed.

Lemma udp_read_ptr bs ap e : md_ptr (udp_read bs ap e) = md_ptr e.
Proof. by destruct ap as [[? ?] ?]. Qed.

Lemma recvUDP_ptr env e s r e' : trdp_mdRecvUDPPacket env e s = (r, e') -> md_ptr e' = md_ptr e.
Proof.
  unfold trdp_mdRecvUDPPacket. destruct (mr_recvUDP env true _) as [[er1 bs1] ap]. cbv zeta.
  set (e2 := udp_read bs1 ap _). assert (H2 : md_ptr e2 = md_ptr e) by (unfold e2; by rewrite udp_read_ptr). clearbody e2.
  destruct (negb (is_ok er1)); [congruence|]. set (n := get32 _ (packet e2)). clearbody n.
  destruct (_ && is_ok _).
  - set (e3 := set_md_grossSize _ _). assert (H3 : md_ptr e3 = md_ptr e) by exact H2. clearbody e3.
    destruct ((_ >? _) && _); [congruence|]. destruct (mr_recvUDP env false _) as [[er2 bs2] ap2]. intros [= _ <-].
    rewrite udp_read_ptr. by destruct (_ >? _).
  - destruct (mr_recvUDP env false _) as [[er2 bs2] ap2]. intros [= _ <-]. by rewrite udp_read_ptr.
Qed.

Lemma recvPacket_ptr env fd e s r e' s' : trdp_mdRecvPacket env fd e s = Some (r, e', s') -> md_ptr e' = md_ptr e /\ md_same s s'.
Proof.
  unfold trdp_mdRecvPacket. intros E. apply bind_Some in E as ([[err e1] s1] & E1 & E).
  assert (H1 : md_ptr e1 = md_ptr e /\ md_same s s1).
  { destruct (md_tcp e).
    - unfold trdp_mdRecvTCPPacket in E1. destruct (sock_index s fd) as [i|]; [|by injection E1 as _ <- <-].
      apply bind_Some in E1 as (hdr & Eh & E1). apply header_ptr in Eh.
      destruct hdr as [e2|[[[[[err2 e2] u] n1] n2] n3]]; [injection E1 as _ <- <-; done|].
      apply bind_Some in E1 as (part & Ep & E1). apply data_ptr in Ep.
      apply bind_Some in E1 as ([[r1 e3] u2] & Er & E1). apply rest_ptr in Er. injection E1 as _ <- <-.
      split; [|done]. rewrite Er. destruct part; by rewrite Ep.
    - destruct (trdp_mdRecvUDPPacket env e s) as [err1 e2] eqn:Eu. injection E1 as _ <- <-. split; [|done]. by eapply recvUDP_ptr. }
  destruct (negb _); injection E as _ <- <-; [done|]. split; [apply H1|]. eapply md_same_trans; [apply H1|apply same_count].
Qed.

Lemma inv_sendME env f n s : md_inv s -> fresh s (me_elem env) -> md_inv (snd (trdp_mdSendME env f n s)).
Proof.
  intros H Hf. unfold trdp_mdSendME. destruct (_ && _); [done|]. destruct (pMDRcvEle s) as [r|]; [|done].
  destruct (me_elem env) as [p|]; [|done].
  destruct (trdp_mdConnectSocket _ _ _ _ _ _ _) as [[err e1] s1] eqn:E. apply same_connect in E as [Hs Hc].
  assert (H1 : md_inv s1) by (by eapply inv_same). destruct (negb (is_ok err)); [by apply inv_log|].
  destruct (negb (me_packet env)); [by apply inv_log|]. cbn [snd].
  assert (Hme : connected (zero_md p) (me_ele (me_now env) r s p)).
  { unfold me_ele, trdp_mdSetSessionTimeout. by destruct (_ && _). }
  pose proof (connected_trans _ _ _ Hme Hc) as (Hp & _ & _ & Hn & Hx).
  apply inv_detail_new; [done| |].
  - split; [|done]. split; [done|]. cbn. rewrite Hn, Hx. cbn. lia.
  - cbn. rewrite Hp. exact (fresh_same _ _ (Some p) Hs Hf).
Qed.

(** The element received into, and when it becomes a session. *)
Lemma inv_rcvEle s r : md_inv s -> match pMDRcvEle s with Some r0 => md_ptr r = md_ptr r0 | None => md_ptr r ∉ all_ptrs s end ->
  md_inv (set_pMDRcvEle (Some r) s).
Proof.
  intros [I1 I2 I3] Hr. split; [intros []; [apply (I1 SndQ)|apply (I1 RcvQ)]| |done].
  unfold all_ptrs in *. cbn. destruct (pMDRcvEle s) as [r0|]; [by rewrite Hr|].
  rewrite app_nil_r in *. rewrite app_assoc, Permutation_app_comm. cbn. by constructor.
Qed.

Lemma inv_no_rcvEle s : md_inv s -> md_inv (set_pMDRcvEle None s).
Proof.
  intros [I1 I2 I3]. split; [intros []; [apply (I1 SndQ)|apply (I1 RcvQ)]| |done].
  unfold all_ptrs in *. cbn. eapply sublist_NoDup; [exact I2|]. repeat apply sublist_app; try done. apply sublist_nil_l.
Qed.

Lemma inv_new_rcv s r e : md_inv s -> pMDRcvEle s = Some r -> md_ptr e = md_ptr r -> q_ok RcvQ e ->
  md_inv (set_pMDRcvEle None (set_pMDRcvQueue (e :: pMDRcvQueue s) s)).
Proof.
  intros [I1 I2 I3] Hr Hp He. pose proof (I1 RcvQ) as Hq. cbn in Hq. split; [|..|done].
  - intros []; [apply (I1 SndQ)|]. cbn. by constructor.
  - unfold all_ptrs in *. cbn. rewrite Hr, Hp, app_nil_r in *. eapply NoDup_Permutation_proper; [|exact I2].
    apply Permutation_app_head. by rewrite Permutation_app_comm.
Qed.

Lemma inv_tell q p r s : md_inv s -> md_inv (tell_session q p r s).
Proof.
  intros H. unfold tell_session. destruct (find_md p (get_q q s)) as [e|] eqn:E; [|done].
  pose proof (inv_found _ H q _ e E) as He. case_bool_decide; auto with md_inv.
Qed.

Lemma tell_new l r e res s0 s : md_inv s0 -> pMDRcvEle s0 = Some r -> md_ptr e = md_ptr r ->
  md_stateEle e = TRDP_ST_RX_NOTIFY_RECEIVED \/ md_stateEle e = TRDP_ST_RX_REQ_W4AP_REPLY ->
  s = set_pMDListenQueue l (set_pMDRcvEle None (set_pMDRcvQueue (e :: pMDRcvQueue s0) s0)) ->
  md_inv (tell_session RcvQ (md_ptr e) res s).
Proof.
  intros H Hr Hp Hst ->. unfold tell_session. cbn [get_q pMDRcvQueue set_pMDListenQueue set_pMDRcvEle set_pMDRcvQueue find_md find].
  rewrite Z.eqb_refl. set (s1 := trdp_mdInvokeCallback e res _).
  assert (Hs : md_same (set_pMDRcvEle None (set_pMDRcvQueue (e :: pMDRcvQueue s0) s0)) s1).
  { eapply md_same_trans; [apply same_listen|apply same_callback]. } clearbody s1.
  destruct Hst as [Hst|Hst]; rewrite Hst; cbn [bool_decide decide].
  - rewrite bool_decide_eq_true_2 by done. set (e1 := set_md_morituri true e).
    assert (H1 : md_inv (set_pMDRcvEle None (set_pMDRcvQueue (e1 :: pMDRcvQueue s0) s0))).
    { apply (inv_new_rcv s0 r e1); [done..|]. split; cbn; [by rewrite Hst|done]. }
    eapply inv_same; [|exact H1]. destruct Hs as (E1 & E2 & E3 & E4). split_and!; cbn in *; try done. rewrite E2. cbn.
    rewrite Z.eqb_refl. f_equal. apply update_md_notin. destruct H as [_ I2 _]. unfold all_ptrs in I2. rewrite Hr in I2.
    rewrite !list.NoDup_app in I2. destruct I2 as (_ & _ & _ & I2 & _). intros Hin. apply (I2 _ Hin). change (md_ptr e1) with (md_ptr e).
    rewrite Hp. by left.
  - rewrite bool_decide_eq_false_2 by done. eapply inv_same; [exact Hs|]. apply (inv_new_rcv s0 r e); [done..|].
    split; [by rewrite Hst|by rewrite Hst].
Qed.

Lemma repeated_ok t f e e' : repeated t f e = Some e' -> q_ok RcvQ e -> md_ptr e' = md_ptr e /\ q_ok RcvQ e'.
Proof.
  unfold repeated. intros E He. destruct (_ || _); [by injection E as <-|]. destruct (negb _); [done|]. injection E as <-. done.
Qed.

Lemma started_ele now f i st l r e : e = start_session now f (session_of i st l r) -> md_ptr e = md_ptr r /\ md_stateEle e = st.
Proof. intros ->. done. Qed.

Lemma inv_request env t i st s res : md_inv s -> fresh s (me_elem (mr_env env)) ->
  st = TRDP_ST_RX_NOTIFY_RECEIVED \/ st = TRDP_ST_RX_REQ_W4AP_REPLY ->
  let '(_, who, s') := trdp_mdHandleRequest env t i st s in
  md_inv (match who with Some (q, p) => tell_session q p res s' | None => s' end).
Proof.
  intros H Hf Hst. unfold trdp_mdHandleRequest. destruct (pMDRcvEle s) as [r|] eqn:Hr; [|done]. cbv zeta.
  destruct (list_find _ (pMDRcvQueue s)) as [[j e0]|] eqn:Ej; cbn [from_option snd].
  - apply list_find_Some in Ej as (Hj & _). assert (He0 : q_ok RcvQ e0).
    { pose proof (inv_q _ H RcvQ) as Hq. rewrite list.Forall_forall in Hq. by eapply Hq, list_elem_of_lookup_2. }
    destruct (repeated t (packet r) e0) as [e'|] eqn:Er; cbn [fmap option_fmap option_map].
    { destruct (repeated_ok _ _ _ _ Er He0) as [_ Ho]. by apply inv_put_md. }
    destruct (md_maxNumSessions _ <=? _); [by apply inv_sendME|].
    destruct (list_find _ (pMDListenQueue s)) as [[k l]|].
    + match goal with |- context [trdp_MDqueueInsFirst _ (Some ?e)] => destruct (started_ele (mr_now env) (packet r) i st l r e eq_refl) as [Hp Hs] end.
      eapply (tell_new _ r _ _ s); eauto.
    + apply inv_sendME; [by apply inv_count|]. eapply fresh_same; [apply same_count|done].
  - destruct (md_maxNumSessions _ <=? _); [by apply inv_sendME|].
    destruct (list_find _ (pMDListenQueue s)) as [[k l]|].
    + match goal with |- context [trdp_MDqueueInsFirst _ (Some ?e)] => destruct (started_ele (mr_now env) (packet r) i st l r e eq_refl) as [Hp Hs] end.
      eapply (tell_new _ r _ _ s); eauto.
    + apply inv_sendME; [by apply inv_count|]. eapply fresh_same; [apply same_count|done].
Qed.

Lemma answered_ok q now r e : answer_queue (h_msgType (packet r)) = Some q -> q_ok q e -> q_ok q (answered now (packet r) (take_packet r e)).
Proof.
  intros Hq He. unfold answer_queue in Hq. unfold answered.
  destruct (h_msgType (packet r) =? TRDP_MSG_MC) eqn:Em; [injection Hq as <-; done|].
  assert (q = SndQ) as -> by (destruct (_ || _); congruence). destruct He as [(_ & Hn) _].
  destruct (_ =? TRDP_MSG_MQ); [split; [|done]; split; [done|exact Hn]|].
  destruct (replies_done _); (split; [|done]); (split; [done|exact Hn]).
Qed.

Lemma inv_handleConfirm env s : md_inv s -> md_inv (snd (trdp_mdHandleConfirmReply env s)).
Proof.
  intros H. unfold trdp_mdHandleConfirmReply. destruct (pMDRcvEle s) as [r|] eqn:Hr; [|done].
  destruct (answer_queue _) as [q|] eqn:Eq; [|done]. destruct (find _ (get_q q s)) as [e|] eqn:E; [|done]. cbn [snd].
  pose proof (inv_found _ H q _ e E) as He. apply inv_put_md; [|by apply answered_ok].
  apply inv_rcvEle; [done|]. by rewrite Hr.
Qed.

(** New memory for what is received and for an error message. *)
Definition rcv_fresh (s : TRDP_MD_SESSION_T) (env : md_rcv_env) : Prop :=
  fresh s (mr_elem env) /\ fresh s (me_elem (mr_env env)) /\ forall p, mr_elem env = Some p -> me_elem (mr_env env) <> Some p.

Lemma inv_recv env i s r s' : md_inv s -> rcv_fresh s env -> trdp_mdRecv env i s = Some (r, s') -> md_inv s'.
Proof.
  intros H (F1 & F2 & F3). unfold trdp_mdRecv. set (isTCP := bool_decide _). destruct (recv_element env isTCP s) as [r0|] eqn:E0; [|congruence].
  assert (Hr0 : match pMDRcvEle s with Some x => md_ptr r0 = md_ptr x | None => mr_elem env = Some (md_ptr r0) end).
  { unfold recv_element in E0. destruct (pMDRcvEle s) as [x|]; [by injection E0 as <-|].
    destruct (mr_elem env) as [p|]; [|done]. by injection E0 as <-. }
  assert (Hin : forall x, md_ptr x = md_ptr r0 -> md_inv (set_pMDRcvEle (Some x) s)).
  { intros x Hx. apply inv_rcvEle; [done|]. destruct (pMDRcvEle s); [congruence|]. rewrite Hr0 in F1. by rewrite Hx. }
  destruct (match pPacket r0 with Some _ => _ | None => _ end) as [r1|] eqn:E1; [|intros [= <- <-]; by apply inv_log, inv_no_rcvEle].
  assert (Hr1 : md_ptr r1 = md_ptr r0).
  { destruct (pPacket r0); [by injection E1 as <-|]. destruct (mr_packet env); [by injection E1 as <-|done]. }
  intros E. apply bind_Some in E as ([[res r2] s1] & E2 & E). apply recvPacket_ptr in E2 as [Hr2 Hs1].
  assert (Hin1 : forall x, md_ptr x = md_ptr r0 -> md_inv (set_pMDRcvEle (Some x) s1)).
  { intros x Hx. destruct Hs1 as (A1 & A2 & A3 & A4). eapply inv_same; [|apply (Hin x Hx)]. done. }
  assert (Hf2 : forall x, md_ptr x = md_ptr r0 -> fresh (set_pMDRcvEle (Some x) s1) (me_elem (mr_env env))).
  { intros x Hx. destruct Hs1 as (A1 & A2 & A3 & A4). destruct (me_elem (mr_env env)) as [p|] eqn:Ep; [|done].
    cbn in F2 |- *. unfold all_ptrs in *. cbn. rewrite A1, A2, Hx. rewrite !elem_of_app in *.
    destruct (pMDRcvEle s) as [y|]; [by rewrite Hr0|]. intros [Hp|[Hp|Hp]]; [tauto..|].
    apply list_elem_of_singleton in Hp as ->. by apply (F3 _ Hr0). }
  destruct (negb _); [injection E as <- <-; apply Hin1; congruence|].
  set (x := if isTCP then _ else r2) in E. assert (Hx : md_ptr x = md_ptr r0) by (unfold x; destruct isTCP; cbn; congruence). clearbody x.
  pose proof (Hin1 x Hx) as H2. pose proof (Hf2 x Hx) as Hf. set (s2 := set_pMDRcvEle (Some x) s1) in *. clearbody s2.
  revert E. case_if.
  - intros G. match type of G with context [trdp_mdHandleRequest env isTCP i ?st s2] =>
      pose proof (inv_request env isTCP i st s2 (if h_msgType (packet x) =? TRDP_MSG_ME then TRDP_NOLIST_ERR else TRDP_NO_ERR) H2 Hf) as H3;
      destruct (trdp_mdHandleRequest env isTCP i st s2) as [[res2 who] s3] end.
    injection G as <- <-. destruct who as [[q p]|]; apply H3; destruct (_ =? TRDP_MSG_MN); auto.
  - intros G. pose proof (inv_handleConfirm env s2 H2) as H3. destruct (trdp_mdHandleConfirmReply env s2) as [who s3].
    cbn [snd] in H3. injection G as <- <-. destruct who as [[q p]|]; [by apply inv_tell|done].
Qed.

(** ** The functions of the interface and the rounds of the work loop *)
Lemma same_listener_socket env g s err idx s' : listener_socket env g s = (err, idx, s') -> md_same s s'.
Proof. unfold listener_socket. destruct (trdp_requestSocket _ _ _ _) as [[[? ?] ?] ?]. by intros [= _ _ <-]. Qed.

Lemma same_delListener env p s : md_same s (delListener_in env p s).
Proof.
  unfold delListener_in. eapply md_same_trans; [|apply same_count]. destruct (find _ _) as [l|]; [|done]. by destruct (negb _).
Qed.

Lemma same_addListener env a s : md_same s (snd (tlm_addListener env a s)).
Proof.
  unfold tlm_addListener. destruct (negb (te_valid env)); [done|]. destruct (negb (is_ok (te_lock env))); [done|].
  assert (H1 : md_same s (snd (if lis_tcp (n_pktFlags a) then trdp_mdGetTCPSocket (me_sock (te_md env)) (te_sockListen env) s else (TRDP_NO_ERR, s)))).
  { destruct (lis_tcp _); [|done]. unfold trdp_mdGetTCPSocket. destruct (negb _); [done|]. destruct (vos_sockOpenTCP _ _) as [er fd].
    destruct (negb _); [done|]. destruct (negb _); done. }
  destruct (if lis_tcp _ then _ else _) as [er1 s1]. cbn [snd] in H1. destruct (negb (is_ok er1)); [done|]. destruct (te_listener env) as [p|]; [|done].
  destruct (lis_tcp (n_pktFlags a)); cbn [negb is_ok].
  - exact H1.
  - destruct (listener_socket _ _ _) as [[er2 idx] s2] eqn:E2. apply same_listener_socket in E2.
    pose proof (md_same_trans _ _ _ H1 E2) as H2. destruct (negb _); exact H2.
Qed.

Lemma same_readdListener env h etb op mc s : md_same s (snd (tlm_readdListener env h etb op mc s)).
Proof.
  unfold tlm_readdListener. destruct (negb _); [done|]. destruct h as [p|]; [|done]. destruct (negb _); [done|].
  destruct (find _ _) as [l|]; [|done]. destruct (_ && _); [|done].
  destruct (listener_socket _ _ _) as [[ret idx] s2] eqn:E2. apply same_listener_socket in E2. cbn [snd].
  assert (H3 : md_same s (update_lis p (fun l0 => set_lis_socketIdx (default (lis_socketIdx l0) idx) l0) s2)).
  { eapply md_same_trans; [|apply same_listen]. exact E2. }
  destruct (is_ok ret); (eapply md_same_trans; [exact H3|]); [apply same_listen|apply same_delListener].
Qed.

Lemma inv_abortSession env sid s : md_inv s -> md_inv (snd (tlm_abortSession env sid s)).
Proof.
  intros H. unfold tlm_abortSession. destruct (negb _); [done|]. destruct sid as [sid|]; [|done]. destruct (negb _); [done|]. cbn [snd].
  set (q := if bool_decide _ then RcvQ else SndQ). clearbody q. apply inv_queues; [done| |].
  - pose proof (inv_q _ H q) as Hq. rewrite list.Forall_forall in *. intros x Hx. apply list_elem_of_In, in_map_iff in Hx as (e & <- & He).
    apply list_elem_of_In, Hq in He. destruct (bool_decide _); auto with md_inv.
  - unfold md_ptrs. rewrite map_map. erewrite map_ext; [done|]. intros e. cbn. by destruct (bool_decide _).
Qed.

Lemma inv_verdict env i r s : md_inv s -> md_inv (tcp_verdict env i r s).
Proof. intros H. unfold tcp_verdict. case_bool_decide; [|done]. destruct r; auto with md_inv. Qed.

Lemma inv_accept env l rfds cnt s : md_inv s -> md_inv (snd (accept_loop env l (rfds, cnt, s))).
Proof.
  revert rfds cnt s. induction l as [|a l IH]; intros rfds cnt s H; cbn [accept_loop]; [done|]. destruct (_ <? _).
  - destruct (is_ok _); [done|]. assert (H1 : md_inv (match md_cbFunction (mdDefault s) with
      Some cb => log [MdCallback cb (md_refCon (mdDefault s)) (accept_info s (ac_ip a)) None] s | None => s end)).
    { destruct (md_cbFunction _); auto with md_inv. }
    destruct (_ =? _); [done|]. by apply IH.
  - unfold accept_one. destruct (negb _); [by apply IH, inv_log|]. destruct (list_find _ _) as [[i x]|].
    + destruct (_ >? _); apply IH; auto with md_inv.
    + destruct (md_request _ _ _ _) as [[err e'] s'] eqn:E. apply same_request in E as [E _].
      apply IH. destruct (is_ok err); [|apply inv_log]; by eapply inv_same.
Qed.

(** One call of the application, or one round of the work loop: sending, a message from a socket with
    its verdict on the connection, new connections, time-outs. *)
Inductive md_step (s : TRDP_MD_SESSION_T) : TRDP_MD_SESSION_T -> Prop :=
| step_notify env a : fresh s (me_elem (te_md env)) -> retries_ok (l_sendParam a) -> md_step s (snd (tlm_notify env a s))
| step_request env a n t : fresh s (me_elem (te_md env)) -> retries_ok (l_sendParam a) -> md_step s (snd (tlm_request env a n t s))
| step_reply env sid c u p d n : md_step s (snd (tlm_reply env sid c u p d n s))
| step_replyQuery env sid c u t p d n : md_step s (snd (tlm_replyQuery env sid c u t p d n s))
| step_confirm env sid u p : md_step s (snd (tlm_confirm env sid u p s))
| step_abort env sid : md_step s (snd (tlm_abortSession env sid s))
| step_addListener env a : md_step s (snd (tlm_addListener env a s))
| step_delListener env h : md_step s (snd (tlm_delListener env h s))
| step_readdListener env h etb op mc : md_step s (snd (tlm_readdListener env h etb op mc s))
| step_send env : md_step s (snd (trdp_mdSend env s))
| step_recv env i r s' : rcv_fresh s env -> trdp_mdRecv env i s = Some (r, s') -> md_step s (tcp_verdict (me_sock (mr_env env)) i r s')
| step_accept env l rfds cnt : md_step s (snd (accept_loop env l (rfds, cnt, s)))
| step_timeouts env now : md_step s (trdp_mdCheckTimeouts env now s).

Lemma step_inv s s' : md_step s s' -> md_inv s -> md_inv s'.
Proof.
  intros Hst H. destruct Hst; auto using inv_send, inv_accept, inv_checkTimeouts, inv_abortSession.
  - unfold tlm_notify. destruct (negb _); [done|]. destruct (data_refused _ _); [done|].
    match goal with |- context [trdp_mdCall ?e ?l ?a ?s] => pose proof (inv_call e l a s H ltac:(done) ltac:(done)) as Hcall;
      destruct (trdp_mdCall e l a s) as [[err sid] s1] end. done.
  - unfold tlm_request. destruct (negb (te_valid _)); [done|]. destruct (data_refused _ _); [done|]. destruct (negb _); [done|]. by apply inv_call.
  - unfold tlm_reply. destruct (negb (te_valid _)); [done|]. destruct (data_refused _ _); [done|]. by apply inv_reply.
  - unfold tlm_replyQuery. destruct (negb (te_valid _)); [done|]. destruct (data_refused _ _); [done|]. by apply inv_reply.
  - unfold tlm_confirm. destruct (negb (te_valid _)); [done|]. by apply inv_confirm.
  - eapply inv_same; [apply same_addListener|done].
  - unfold tlm_delListener. destruct (_ || _); [done|]. cbn [snd]. unfold delListener_handle. destruct h.
    + eapply inv_same; [apply same_delListener|done].
    + by apply inv_count.
  - eapply inv_same; [apply same_readdListener|done].
  - apply inv_verdict. by eapply inv_recv.
Qed.

Definition md_initial (s : TRDP_MD_SESSION_T) : Prop :=
  pMDSndQueue s = [] /\ pMDRcvQueue s = [] /\ pMDRcvEle s = None /\ 0 <= md_retries (mdDefault s) < 2 ^ 32.


