(* ===== verification/TrdpMdMsg.v ===== *)
(** * Message data: messages from the caller to the listener

    Properties of trdp_mdcom.c: a message built by the sending side passes the check of the receiving
    side with the members it was given, and a request or notification sent over UDP reaches the
    callback of the listener with its data. *)
From S2P Require Import Prelude Bytes VosTime VosString VosCrc TrdpTypes TrdpMdTypes TrdpUtils TrdpPd TrdpMd TrdpMdRecv TrdpMdDemo TrdpMdFrame TrdpMdLive.

(** ** Reading a header *)
Ltac md_off := unfold off_sequenceCounter, off_protocolVersion, off_msgType, off_comId, off_etbTopoCnt,
  off_opTrnTopoCnt, off_datasetLength, off_replyStatus, off_sessionID, off_replyTimeout, off_sourceURI,
  off_destinationURI, off_md_frameCheckSum, off_md_data, TRDP_MAX_URI_USER_LEN, TRDP_SESS_ID_SIZE in *; lia.

Ltac md_lia := unfold off_sequenceCounter, off_protocolVersion, off_msgType, off_comId, off_etbTopoCnt,
  off_opTrnTopoCnt, off_datasetLength, off_replyStatus, off_sessionID, off_replyTimeout, off_sourceURI,
  off_destinationURI, off_md_frameCheckSum, off_md_data, TRDP_MAX_URI_USER_LEN, TRDP_SESS_ID_SIZE; lia.

(** Two buffers that agree in the first 116 bytes have the same header. *)
Definition same_head (f g : list Z) : Prop := take 116 f = take 116 g.

Lemma same_head_bget f g off n : same_head f g -> (off + n <= 116)%nat -> bget off n f = bget off n g.
Proof. intros H Hn. rewrite <- (bget_take off n 116 f), <- (bget_take off n 116 g) by done. by rewrite H. Qed.
Lemma same_head_get32 f g off : same_head f g -> (off + 4 <= 116)%nat -> get32 off f = get32 off g.
Proof. intros. unfold get32. by rewrite (same_head_bget f g). Qed.
Lemma same_head_get16 f g off : same_head f g -> (off + 2 <= 116)%nat -> get16 off f = get16 off g.
Proof. intros. unfold get16. by rewrite (same_head_bget f g). Qed.

Lemma mdCheck_same_head s f g n b : same_head f g -> trdp_mdCheck s f n b = trdp_mdCheck s g n b.
Proof.
  intros H. unfold trdp_mdCheck, h_msgType, md_header_crc.
  change (take (Z.to_nat (sizeof_MD_HEADER_T - SIZE_OF_FCS))) with (bget 0 112).
  unfold get32le. rewrite (same_head_bget f g off_md_frameCheckSum 4), (same_head_bget f g 0 112) by (done || md_off).
  rewrite !(same_head_get32 f g), !(same_head_get16 f g) by (done || md_off). done.
Qed.

(** What a message must be to pass the check whatever its length. *)
Record md_head_ok (f : list Z) : Prop := mkHeadOk {
  hd_length : (116 <= length f)%nat;
  hd_crc : get32le off_md_frameCheckSum f = md_header_crc f;
  hd_version : get16 off_protocolVersion f &&& TRDP_PROTOCOL_VERSION_CHECK_MASK = 0x0100;
  hd_type : md_type_ok (h_msgType f) = true;
  hd_size : 0 <= get32 off_datasetLength f <= TRDP_MAX_MD_DATA_SIZE }.

Lemma head_ok_check s f n b : md_head_ok f -> sizeof_MD_HEADER_T <= n <= TRDP_MAX_MD_PACKET_SIZE ->
  (b = true \/ sizeof_MD_HEADER_T + get32 off_datasetLength f <= n) -> trdp_mdCheck s f n b = TRDP_NO_ERR.
Proof.
  intros [Hl Hc Hv Ht Hd] Hn Hb. unfold trdp_mdCheck.
  unfold sizeof_MD_HEADER_T, TRDP_MAX_MD_PACKET_SIZE, TRDP_MAX_MD_DATA_SIZE in *.
  destruct (_ || _) eqn:E; [rewrite !orb_true_iff in E; bprop; unfold sizeof_MD_HEADER_T in *; lia|].
  rewrite Hc, Z.eqb_refl, Hv, Ht. cbn [negb].
  change (negb (0x0100 =? (TRDP_PROTO_VER &&& TRDP_PROTOCOL_VERSION_CHECK_MASK))) with false. cbv iota.
  assert ((negb b && (n <? (if get32 off_datasetLength f >? 0 then u32 (116 + get32 off_datasetLength f) else 116))) = false) as ->.
  { destruct Hb as [->|Hb]; [done|]. destruct b; [done|]. cbn [negb andb]. apply Z.ltb_ge.
    clear E. destruct (_ >? _); [|lia]. rewrite u32_small by lia. lia. }
  done.
Qed.

(** ** The message an element sends *)

(** The packet of an element after [trdp_mdDetailSenderPacket] and [trdp_mdUpdatePacket]. *)
Definition finished (m : md_msg) (e : MD_ELE_T) : list Z :=
  packet (trdp_mdUpdatePacket (on_packet (fun f => md_body None m e (md_head m e f)) (new_packet e))).

Definition uri_ok (u : option (list Z)) : Prop :=
  match u with Some u => bytes u /\ (length (cstr u) <= TRDP_MAX_URI_USER_LEN)%nat | None => True end.

(** A message with its data that fits the protocol. *)
Record md_msg_ok (m : md_msg) (e : MD_ELE_T) (d : list Z) : Prop := mkMsgOk {
  mo_type : md_type_ok (g_type m) = true;
  mo_data : g_data m = Some d \/ (g_data m = None /\ d = []);
  mo_bytes : bytes d;
  mo_size : g_dataSize m = Z.of_nat (length d) /\ md_dataSize e = g_dataSize m /\ md_dataSize e <= TRDP_MAX_MD_DATA_SIZE;
  mo_gross : md_grossSize e = trdp_packetSizeMD (md_dataSize e);
  mo_sid : bytes (md_sessionID e) /\ length (md_sessionID e) = TRDP_SESS_ID_SIZE;
  mo_src : uri_ok (g_srcURI m);
  mo_dest : uri_ok (g_destURI m) }.

Lemma cstr_bytes u : bytes u -> bytes (cstr u).
Proof. induction 1 as [|c u Hc _ IH]; cbn; [constructor|]. destruct (c =? 0); constructor; auto. Qed.

Lemma zeros_bytes n : bytes (repeat 0 n).
Proof. induction n; cbn; constructor; auto. unfold byte. lia. Qed.

Lemma put_uri_length off u f : length (put_uri off u f) = length f.
Proof. destruct u; cbn; by rewrite ?bput_length. Qed.
#[export] Hint Rewrite put_uri_length : buf.

Lemma put_uri_bytes off u f : uri_ok u -> bytes f -> bytes (put_uri off u f).
Proof.
  destruct u as [u|]; [|done]. intros [Hu _] Hf. cbn [put_uri]. apply bput_bytes; [by apply cstr_bytes|].
  apply bput_bytes; [apply zeros_bytes|done].
Qed.

Lemma put_uri_other off u off' n f : uri_ok u -> (off' + n <= off \/ off + 32 <= off')%nat ->
  bget off' n (put_uri off u f) = bget off' n f.
Proof.
  destruct u as [u|]; [|done]. intros [_ Hu] Ho. cbn [put_uri].
  rewrite !bget_bput_other by (rewrite ?repeat_length; md_off). done.
Qed.

Lemma md_head_length m e f : length (md_head m e f) = length f.
Proof. unfold md_head. by autorewrite with buf. Qed.
Lemma md_body_length m e f : length (md_body None m e f) = length f.
Proof. unfold md_body. destruct (g_data m); [|done]. destruct (flag _ _); by autorewrite with buf. Qed.

Section Finished.
Context (m : md_msg) (e : MD_ELE_T) (d : list Z) (Hm : md_msg_ok m e d).

Let sid := if g_type m =? TRDP_MSG_MN then cEmptySession else md_sessionID e.
Let blank := repeat 0 (Z.to_nat (md_grossSize e)).
Let body := md_body None m e (md_head m e blank).

Lemma sid_length : length sid = TRDP_SESS_ID_SIZE.
Proof. unfold sid. destruct (_ =? _); [done|]. apply Hm. Qed.

Lemma gross_room : md_grossSize e = sizeof_MD_HEADER_T + 4 * ((md_dataSize e + 3) / 4).
Proof.
  destruct Hm as [_ _ _ (H1 & H2 & H3) Hg _ _ _]. unfold TRDP_MAX_MD_DATA_SIZE in H3.
  rewrite Hg. apply padded_size_eq; unfold sizeof_MD_HEADER_T; lia.
Qed.

Lemma blank_length : Z.of_nat (length blank) = md_grossSize e /\ sizeof_MD_HEADER_T + md_dataSize e <= md_grossSize e
  /\ 0 <= md_dataSize e.
Proof.
  pose proof gross_room. destruct Hm as [_ _ _ (H1 & H2 & H3) _ _ _ _]. unfold blank, sizeof_MD_HEADER_T in *.
  rewrite repeat_length. dlia.
Qed.

Lemma body_length : length body = Z.to_nat (md_grossSize e).
Proof. unfold body. rewrite md_body_length, md_head_length. apply repeat_length. Qed.

Lemma finished_eq : finished m e = put32le off_md_frameCheckSum (md_header_crc body) body.
Proof. reflexivity. Qed.

(** What the header says where the data does not reach. *)
Lemma body_head off n : (off + n <= 116)%nat -> bget off n body = bget off n (md_head m e blank).
Proof.
  intros H. unfold body, md_body. destruct (g_data m); [|done]. destruct (flag _ _); by rewrite bget_bput_other by md_off.
Qed.

Lemma finished_bget off n : (off + n <= 112 \/ 116 <= off)%nat -> bget off n (finished m e) = bget off n body.
Proof. intros H. rewrite finished_eq. unfold put32le. by rewrite bget_bput_other by (rewrite length_rev, be_bytes_length; md_lia). Qed.

Lemma finished_head off n : (off + n <= 112)%nat -> bget off n (finished m e) = bget off n (md_head m e blank).
Proof. intros H. rewrite finished_bget by lia. apply body_head. lia. Qed.

Lemma finished_length : length (finished m e) = Z.to_nat (md_grossSize e).
Proof. rewrite finished_eq. autorewrite with buf. apply body_length. Qed.

Lemma body_bytes : bytes body.
Proof.
  destruct Hm as [_ Hd Hb _ _ [Hs _] Hsrc Hdest]. assert (Hsb : bytes sid).
  { unfold sid. destruct (_ =? _); [apply zeros_bytes|done]. }
  assert (Hh : bytes (md_head m e blank)).
  { unfold md_head. apply put_uri_bytes; [done|]. apply put_uri_bytes; [done|]. apply put32_bytes, bput_bytes; [done|].
    do 5 apply put32_bytes. do 2 apply put16_bytes. apply put32_bytes, zeros_bytes. }
  unfold body, md_body. destruct Hd as [-> |[-> _]]; [|done]. destruct (flag _ _); apply bput_bytes; auto; by apply Forall_take.
Qed.

Lemma finished_crc : get32le off_md_frameCheckSum (finished m e) = md_header_crc (finished m e).
Proof.
  assert (E : md_header_crc (finished m e) = md_header_crc body).
  { unfold md_header_crc. change (take (Z.to_nat (sizeof_MD_HEADER_T - SIZE_OF_FCS))) with (bget 0 112).
    by rewrite finished_bget by lia. }
  rewrite E, finished_eq. pose proof blank_length as (_ & Hr & H0). unfold sizeof_MD_HEADER_T in *.
  rewrite get32le_put32le by (rewrite body_length; md_off). apply u32_small. unfold md_header_crc.
  apply vos_crc32_range; [unfold INITFCS; lia|]. apply Forall_take, body_bytes.
Qed.

(** The members of the header. *)
Lemma head_room off n : (off + n <= 116)%nat -> (off + n <= length blank)%nat.
Proof. pose proof blank_length as (Hl & Hr & H0). unfold sizeof_MD_HEADER_T in *. lia. Qed.

(** Through the writes in front of a member to the one of the member itself. *)
Local Ltac to_member :=
  rewrite finished_head by md_lia; unfold md_head, put32, put16; fold sid;
  rewrite !put_uri_other by (first [exact (mo_src _ _ _ Hm) | exact (mo_dest _ _ _ Hm) | md_lia]);
  repeat (rewrite bget_bput_other; [|rewrite ?be_bytes_length, ?sid_length; md_lia]).

Lemma member_value off n v l : length l = length blank -> (off + n <= 116)%nat ->
  be_value (bget off n (bput off (be_bytes n v) l)) = v mod 256 ^ Z.of_nat n.
Proof.
  intros Hl Hn. pose proof (head_room off n Hn) as Hr.
  replace (bget off n) with (bget off (length (be_bytes n v))) by (by rewrite be_bytes_length).
  rewrite bget_bput_same by (rewrite be_bytes_length; lia). apply be_value_bytes.
Qed.

Lemma finished_members :
  get16 off_protocolVersion (finished m e) = TRDP_PROTO_VER
  /\ h_msgType (finished m e) = u16 (g_type m)
  /\ get32 off_comId (finished m e) = u32 (comId (md_addr e))
  /\ get32 off_datasetLength (finished m e) = md_dataSize e
  /\ get32 off_sequenceCounter (finished m e) = u32 (g_seqCnt m)
  /\ get32 off_replyStatus (finished m e) = u32 (g_replyStatus m)
  /\ get32 off_replyTimeout (finished m e) = u32 (g_timeout m)
  /\ h_sessionID (finished m e) = sid.
Proof.
  destruct blank_length as (_ & _ & H0). assert (H1 : md_dataSize e <= 65388) by apply Hm.
  unfold h_msgType, h_sessionID, get32, get16. split_and!;
    try (to_member; rewrite member_value by (autorewrite with buf; done || md_lia); try done).
  - apply u32_small. lia.
  - to_member. rewrite <- sid_length at 1. apply bget_bput_same. rewrite sid_length. autorewrite with buf.
    apply head_room. md_lia.
Qed.

Lemma finished_data : md_data (finished m e) = d.
Proof.
  unfold md_data. destruct finished_members as (_ & _ & _ & -> & _).
  pose proof blank_length as (Hl & Hr & H0). destruct Hm as [_ Hd _ (H1 & H2 & _) _ _ _ _].
  assert (Hn : Z.to_nat (md_dataSize e) = length d) by lia. rewrite finished_bget by md_lia.
  unfold body, md_body. destruct Hd as [-> |[-> ->]]; [|by rewrite Hn].
  assert (H : bget off_md_data (Z.to_nat (md_dataSize e)) (bput off_md_data (take (Z.to_nat (g_dataSize m)) d) (md_head m e blank)) = d).
  { rewrite take_ge by lia. rewrite Hn. apply bget_bput_same. rewrite md_head_length. unfold sizeof_MD_HEADER_T in Hr. md_lia. }
  by destruct (flag _ _).
Qed.

Lemma finished_ok : md_head_ok (finished m e).
Proof.
  destruct finished_members as (Hv & Ht & _ & Hs & _). pose proof blank_length as (Hl & Hr & H0).
  unfold sizeof_MD_HEADER_T in Hr. destruct Hm as [Hty _ _ (H1 & H2 & H3) _ _ _ _]. split.
  - rewrite finished_length. lia.
  - apply finished_crc.
  - by rewrite Hv.
  - rewrite Ht. unfold md_type_ok in Hty. rewrite !orb_true_iff, !Z.eqb_eq in Hty. destruct Hty as [[[[[-> | ->]| ->]| ->]| ->]| ->]; done.
  - rewrite Hs. lia.
Qed.

(** A damaged byte of the header. *)
Lemma damaged_crc i b : (i < 112)%nat -> byte b -> finished m e !! i <> Some b ->
  get32le off_md_frameCheckSum (<[i := b]> (finished m e)) <> md_header_crc (<[i := b]> (finished m e)).
Proof.
  intros Hi Hb Hne. destruct finished_ok as [Hl Hc _ _ _].
  assert (Hf : bytes (finished m e)).
  { rewrite finished_eq. apply put32le_bytes, body_bytes. }
  assert (E : get32le off_md_frameCheckSum (<[i := b]> (finished m e)) = get32le off_md_frameCheckSum (finished m e)).
  { unfold get32le, bget. by rewrite drop_insert_lt by md_lia. }
  rewrite E, Hc. apply not_eq_sym. destruct (lookup_lt_is_Some_2 (finished m e) i ltac:(lia)) as [x Hx].
  unfold md_header_crc. change (Z.to_nat (sizeof_MD_HEADER_T - SIZE_OF_FCS)) with 112%nat.
  rewrite take_insert_lt by lia. assert (Ht : take 112 (finished m e) !! i = Some x) by by rewrite lookup_take_lt.
  pose proof (take_drop_middle _ _ _ Ht) as E2. rewrite <- E2. apply lookup_lt_Some in Ht as Hlt.
  rewrite insert_app_r_alt by (rewrite length_take; lia). rewrite length_take, Nat.min_l by lia. rewrite Nat.sub_diag.
  cbn [insert list_insert]. apply not_eq_sym, vos_crc32_detects_byte_error; auto; try congruence.
  - unfold INITFCS. lia.
  - rewrite E2. by apply Forall_take.
Qed.
End Finished.

(** C10: A message built by trdp_mdDetailSenderPacket and finished by trdp_mdUpdatePacket passes the check of
    the receiver, whole and its header alone; the receiver reads back the type, the comId, the size,
    the sequence counter, the reply status, the time-out, the session identifier (none for a
    notification) and exactly the data it was given. When any byte in front of the checksum is
    changed, the message is refused: for its length, or with TRDP_CRC_ERR. *)
Theorem trdp_md_message_protected (s : TRDP_MD_SESSION_T) m e d : md_msg_ok m e d ->
  let f := finished m e in
  trdp_mdCheck s f (md_grossSize e) false = TRDP_NO_ERR
  /\ trdp_mdCheck s f sizeof_MD_HEADER_T true = TRDP_NO_ERR
  /\ (h_msgType f, get32 off_comId f, get32 off_datasetLength f, get32 off_sequenceCounter f, get32 off_replyStatus f,
      get32 off_replyTimeout f, h_sessionID f)
     = (u16 (g_type m), u32 (comId (md_addr e)), md_dataSize e, u32 (g_seqCnt m), u32 (g_replyStatus m),
        u32 (g_timeout m), if g_type m =? TRDP_MSG_MN then cEmptySession else md_sessionID e)
  /\ md_data f = d
  /\ forall i b n checkHeaderOnly, (i < 112)%nat -> byte b -> f !! i <> Some b -> sizeof_MD_HEADER_T <= n <= TRDP_MAX_MD_PACKET_SIZE ->
       let f' := <[i := b]> f in
       trdp_mdCheck s f' n checkHeaderOnly
       = if get32 off_datasetLength f' >? TRDP_MAX_MD_PACKET_SIZE then TRDP_WIRE_ERR else TRDP_CRC_ERR.
Proof.
  intros Hm f. pose proof (finished_ok m e d Hm) as Hok. destruct (finished_members m e d Hm) as (_ & Ht & Hc & Hs & Hq & Hr & Hto & Hid).
  pose proof (gross_room m e d Hm) as Hg. destruct (blank_length m e d Hm) as (Hl & Hroom & H0).
  assert (Hmax : md_dataSize e <= TRDP_MAX_MD_DATA_SIZE) by apply Hm. unfold TRDP_MAX_MD_DATA_SIZE in Hmax.
  unfold TRDP_MAX_MD_PACKET_SIZE, TRDP_MAX_MD_DATA_SIZE, sizeof_MD_HEADER_T in *. split_and!.
  - apply head_ok_check; [done| |right; fold f in Hs |- *]; unfold TRDP_MAX_MD_PACKET_SIZE, TRDP_MAX_MD_DATA_SIZE, sizeof_MD_HEADER_T; [dlia|rewrite Hs; lia].
  - apply head_ok_check; [done| |by left]. done.
  - unfold f. by rewrite Ht, Hc, Hs, Hq, Hr, Hto, Hid.
  - by apply finished_data.
  - intros i b n h Hi Hb Hne Hn. unfold trdp_mdCheck, TRDP_MAX_MD_PACKET_SIZE, TRDP_MAX_MD_DATA_SIZE, sizeof_MD_HEADER_T in *.
    rewrite (proj2 (Z.ltb_ge n 116)), Z.gtb_ltb, (proj2 (Z.ltb_ge _ n)) by lia. cbn [orb].
    case_if; [done|]. rewrite (proj2 (Z.eqb_neq _ _)); [done|]. by apply (damaged_crc m e d Hm).
Qed.

(** ** Receiving it over UDP *)

(** A buffer that starts with the message. *)
Definition holds (buf f : list Z) : Prop := take (length f) buf = f.

Lemma holds_bget buf f off n : holds buf f -> (off + n <= length f)%nat -> bget off n buf = bget off n f.
Proof. intros H Hn. rewrite <- (bget_take off n (length f) buf) by done. by rewrite H. Qed.
Lemma holds_head buf f : holds buf f -> (116 <= length f)%nat -> same_head buf f.
Proof.
  intros H Hl. unfold same_head. transitivity (take 116 (take (length f) buf)); [by rewrite take_take, Nat.min_l by lia|by rewrite H].
Qed.

Lemma bput_holds bs buf : (length bs <= length buf)%nat -> holds (bput 0 bs buf) bs.
Proof. intros H. apply (bget_bput_same 0 bs buf). lia. Qed.

Lemma same_head_trans f g h : same_head f g -> same_head g h -> same_head f h.
Proof. unfold same_head. congruence. Qed.

(** What the two reads of a datagram give. *)
Record udp_gives (env : md_rcv_env) (f : list Z) (src port dst : Z) : Prop := mkGives {
  ug_head : mr_recvUDP env true sizeof_MD_HEADER_T = (TRDP_NO_ERR, take 116 f, (src, port, dst));
  ug_all : mr_recvUDP env false (Z.of_nat (length f)) = (TRDP_NO_ERR, f, (src, port, dst)) }.

Section Receive.
Context (m : md_msg) (e : MD_ELE_T) (d : list Z) (Hm : md_msg_ok m e d) (f : list Z) (Hf : f = finished m e).

Lemma f_length : Z.of_nat (length f) = md_grossSize e /\ (116 <= length f)%nat /\ sizeof_MD_HEADER_T <= md_grossSize e <= TRDP_MAX_MD_PACKET_SIZE.
Proof.
  rewrite Hf, finished_length. pose proof (gross_room m e d Hm) as Hg. destruct (blank_length m e d Hm) as (_ & Hr & H0).
  assert (Hmax : md_dataSize e <= TRDP_MAX_MD_DATA_SIZE) by apply Hm.
  unfold TRDP_MAX_MD_PACKET_SIZE, TRDP_MAX_MD_DATA_SIZE, sizeof_MD_HEADER_T in *. split_and!; dlia.
Qed.

Lemma check_holds s buf : same_head buf f -> trdp_mdCheck s buf (md_grossSize e) false = TRDP_NO_ERR
  /\ trdp_mdCheck s buf sizeof_MD_HEADER_T true = TRDP_NO_ERR.
Proof.
  intros H. destruct f_length as (_ & _ & Hg). rewrite !(mdCheck_same_head s buf f) by done. rewrite Hf.
  pose proof (finished_ok m e d Hm) as Hok. destruct (finished_members m e d Hm) as (_ & _ & _ & Hs & _). destruct (blank_length m e d Hm) as (_ & Hr & H0).
  split; apply head_ok_check; try done; [|by left]. right. rewrite Hs. done.
Qed.

(** The element has the message, its sizes and the addresses; nothing else changed. *)
Lemma recvUDP_message env s r P src port dst : udp_gives env f src port dst -> pPacket r = Some P -> (1480 <= length P)%nat -> mr_big env = true ->
  exists r2 buf, trdp_mdRecvUDPPacket env r s = (TRDP_NO_ERR, r2) /\ pPacket r2 = Some buf /\ holds buf f
    /\ md_grossSize r2 = md_grossSize e /\ md_pktFlags r2 = md_pktFlags r /\ md_ptr r2 = md_ptr r /\ md_morituri r2 = md_morituri r
    /\ srcIpAddr (md_addr r2) = src /\ destIpAddr (md_addr r2) = dst.
Proof.
  intros [Hh Ha] HP HPl Hbig. destruct f_length as (Hl & H116 & Hg). unfold trdp_mdRecvUDPPacket. rewrite Hh. cbn [is_ok negb].
  set (e1 := set_md_addr _ r). set (e2 := udp_read (take 116 f) (src, port, dst) e1).
  assert (Hp2 : pPacket e2 = Some (bput 0 (take 116 f) P)). { unfold e2, e1. cbn. by rewrite HP. }
  assert (Hb : holds (bput 0 (take 116 f) P) (take 116 f)) by (apply bput_holds; rewrite length_take; lia).
  assert (Hsh : same_head (packet e2) f).
  { unfold packet. rewrite Hp2. cbn [default]. unfold holds in Hb. rewrite length_take, Nat.min_l in Hb by lia. exact Hb. }
  rewrite length_take, Nat.min_l by lia. change (Z.of_nat 116) with sizeof_MD_HEADER_T. rewrite Z.eqb_refl.
  destruct (check_holds s _ Hsh) as [_ ->]. cbn [is_ok andb].
  rewrite (same_head_get32 _ _ off_datasetLength Hsh) by md_lia. destruct (finished_members m e d Hm) as (_ & _ & _ & Hs & _).
  rewrite <- Hf in Hs. rewrite Hs. replace (trdp_packetSizeMD (md_dataSize e)) with (Z.of_nat (length f)) by (rewrite Hl; apply Hm).
  rewrite Hbig. cbn [negb]. rewrite andb_false_r. rewrite Ha.
  set (e3 := set_md_grossSize _ (set_md_dataSize _ e2)).
  destruct (_ >? _) eqn:Egr; eexists _, _; (split; [reflexivity|]); cbn.
  - split_and!; try done. apply bput_holds. rewrite repeat_length. lia.
  - unfold e2, e1. cbn. rewrite HP. cbn. split_and!; try done.
    apply bput_holds. rewrite bput_length. unfold cMinimumMDSize in Egr. rewrite Z.gtb_ltb, Z.ltb_ge in Egr. lia.
Qed.
End Receive.

Lemma listens_same_head cmp t buf f dst l : same_head buf f -> listens cmp t buf dst l = listens cmp t f dst l.
Proof.
  intros H. unfold listens, topo_ok. rewrite !(same_head_get32 buf f) by (done || md_lia). by rewrite (same_head_bget buf f) by (done || md_lia).
Qed.

(** A session for the message. *)
Record md_session_of (m : md_msg) (e : MD_ELE_T) (l : MD_LIS_ELE_T) (p src : Z) (x : MD_ELE_T) : Prop := mkSessionOf {
  so_ptr : md_ptr x = p;
  so_state : md_stateEle x = if g_type m =? TRDP_MSG_MN then TRDP_ST_RX_NOTIFY_RECEIVED else TRDP_ST_RX_REQ_W4AP_REPLY;
  so_morituri : md_morituri x = (g_type m =? TRDP_MSG_MN);
  so_sid : md_sessionID x = if g_type m =? TRDP_MSG_MN then cEmptySession else md_sessionID e;
  so_cb : md_cb x = lis_cb l;
  so_src : srcIpAddr (md_addr x) = src }.

(** What the callback is told of the message. *)
Record md_told_of (m : md_msg) (e : MD_ELE_T) (src : Z) (info : TRDP_MD_INFO_T) : Prop := mkToldOf {
  to_result : TrdpMdTypes.i_resultCode info = TRDP_NO_ERR;
  to_type : TrdpMdTypes.i_msgType info = g_type m;
  to_comId : TrdpMdTypes.i_comId info = u32 (comId (md_addr e));
  to_sid : i_sessionId info = if g_type m =? TRDP_MSG_MN then cEmptySession else md_sessionID e;
  to_timeout : i_replyTimeout info = u32 (g_timeout m);
  to_src : TrdpMdTypes.i_srcIpAddr info = src }.

Definition told_callback (cb : option Z) (ref : Z) (info : TRDP_MD_INFO_T) (data : list Z) : list md_event :=
  match cb with Some cb => [MdCallback cb ref info (Some data)] | None => [] end.

(** The first half: the message is in the element received into. *)
Lemma recvPacket_message env s r P m e d f src port dst fd : md_msg_ok m e d -> f = finished m e ->
  udp_gives env f src port dst -> pPacket r = Some P -> (1480 <= length P)%nat -> mr_big env = true -> md_tcp r = false ->
  exists r2 buf, trdp_mdRecvPacket env fd r s = Some (TRDP_NO_ERR, r2, count_md false inc_numRcv s)
    /\ pPacket r2 = Some buf /\ holds buf f /\ md_ptr r2 = md_ptr r /\ md_morituri r2 = md_morituri r
    /\ srcIpAddr (md_addr r2) = src /\ destIpAddr (md_addr r2) = dst.
Proof.
  intros Hm Hf Hg HP HPl Hbig Ht. destruct (recvUDP_message m e d Hm f Hf env s r P src port dst Hg HP HPl Hbig)
    as (r2 & buf & E & Hp & Hb & Hgr & Hfl & Hpt & Hmo & Hs & Hd).
  exists r2, buf. unfold trdp_mdRecvPacket. rewrite Ht, E. cbn [mbind option_bind is_ok negb]. unfold packet. rewrite Hp. change (default [] (Some buf)) with buf.
  destruct (f_length m e d Hm f Hf) as (_ & H116 & _).
  destruct (check_holds m e d Hm f Hf s buf (holds_head _ _ Hb H116)) as [Hck _]. rewrite Hgr, Hck.
  assert (Htc : md_tcp r2 = false) by (unfold md_tcp in *; by rewrite Hfl). rewrite Htc. by split_and!.
Qed.

Lemma hd_data m e d buf f : md_msg_ok m e d -> f = finished m e -> holds buf f -> md_data buf = d.
Proof.
  intros Hm Hf Hb. destruct (f_length m e d Hm f Hf) as (Hl & H116 & _). rewrite <- (finished_data m e d Hm), <- Hf.
  unfold md_data. rewrite (same_head_get32 buf f off_datasetLength (holds_head _ _ Hb H116)) by md_lia.
  apply holds_bget; [done|]. destruct (finished_members m e d Hm) as (_ & _ & _ & Hs & _). rewrite Hf at 1. rewrite Hs.
  destruct (blank_length m e d Hm) as (_ & Hr & H0). unfold sizeof_MD_HEADER_T in Hr. md_lia.
Qed.

(** What a buffer with the message says. *)
Lemma held_members m e d buf f : md_msg_ok m e d -> f = finished m e -> holds buf f ->
  h_msgType buf = u16 (g_type m) /\ get32 off_comId buf = u32 (comId (md_addr e)) /\ get32 off_replyStatus buf = u32 (g_replyStatus m)
  /\ get32 off_replyTimeout buf = u32 (g_timeout m)
  /\ h_sessionID buf = if g_type m =? TRDP_MSG_MN then cEmptySession else md_sessionID e.
Proof.
  intros Hm Hf Hb. destruct (f_length m e d Hm f Hf) as (Hl & H116 & _). pose proof (holds_head _ _ Hb H116) as Hh.
  destruct (finished_members m e d Hm) as (_ & H1 & H2 & _ & _ & H3 & H4 & H5). rewrite <- Hf in *.
  unfold h_msgType, h_sessionID in *.
  rewrite !(same_head_get32 buf f), (same_head_get16 buf f), (same_head_bget buf f) by (done || md_lia). done.
Qed.

Lemma clear_flag_tcp x : flag (clear_flag x TRDP_FLAGS_TCP) TRDP_FLAGS_TCP = false.
Proof. unfold flag, clear_flag, not8. rewrite <- Z.land_assoc. cbn. by rewrite Z.land_0_r. Qed.

Lemma log_nil s : log [] s = s.
Proof. destruct s. unfold log. cbn. by rewrite app_nil_r. Qed.

(** The session of a listener that was found. *)
Lemma handleRequest_new env idx st s r i l : pMDRcvEle s = Some r ->
  Forall (fun x => h_sessionID (packet x) <> h_sessionID (packet r)) (pMDRcvQueue s) ->
  Z.of_nat (length (pMDRcvQueue s)) < md_maxNumSessions (mdDefault s) ->
  list_find (fun l => listens (mr_strnicmp env) false (packet r) (destIpAddr (md_addr r)) l = true) (pMDListenQueue s) = Some (i, l) ->
  trdp_mdHandleRequest env false idx st s
  = let e := start_session (mr_now env) (packet r) (session_of idx st l r) in
    (TRDP_NO_ERR, Some (RcvQ, md_ptr e), set_pMDListenQueue (<[i := set_numSessions (u32 (numSessions l + 1)) l]> (pMDListenQueue s))
       (set_pMDRcvEle None (set_pMDRcvQueue (e :: pMDRcvQueue s) s))).
Proof.
  intros Hr Hun Hmx Hli. unfold trdp_mdHandleRequest. rewrite Hr. cbv zeta.
  assert (Hn : list_find (fun e => h_sessionID (packet e) = h_sessionID (packet r)) (pMDRcvQueue s) = None).
  { by apply list_find_None. }
  rewrite Hn. cbn [from_option]. rewrite (proj2 (Z.leb_gt _ _)) by done. rewrite Hli. done.
Qed.

Lemma tell_session_head res e q s : pMDRcvQueue s = e :: q ->
  tell_session RcvQ (md_ptr e) res s
  = let s1 := trdp_mdInvokeCallback e res s in
    if bool_decide (md_stateEle e = TRDP_ST_RX_NOTIFY_RECEIVED) then put_md RcvQ (set_md_morituri true e) s1 else s1.
Proof. intros H. unfold tell_session. cbn [get_q]. rewrite H. cbn [find_md find]. by rewrite Z.eqb_refl. Qed.

(** The second half: the new session is told. *)
Lemma told_message m e d src p l x s0 s3 buf q : md_msg_ok m e d -> g_type m = TRDP_MSG_MN \/ g_type m = TRDP_MSG_MR ->
  pMDRcvQueue s3 = x :: q -> pMDRcvQueue s0 = q -> p ∉ md_ptrs q -> pPacket x = Some buf -> md_data buf = d ->
  h_msgType buf = g_type m -> get32 off_comId buf = u32 (comId (md_addr e)) -> get32 off_replyTimeout buf = u32 (g_timeout m) ->
  h_sessionID buf = (if g_type m =? TRDP_MSG_MN then cEmptySession else md_sessionID e) ->
  md_cb x = lis_cb l -> md_ptr x = p -> md_morituri x = false -> srcIpAddr (md_addr x) = src ->
  md_sessionID x = (if g_type m =? TRDP_MSG_MN then cEmptySession else md_sessionID e) ->
  md_stateEle x = (if g_type m =? TRDP_MSG_MN then TRDP_ST_RX_NOTIFY_RECEIVED else TRDP_ST_RX_REQ_W4AP_REPLY) ->
  exists x' info, let s' := tell_session RcvQ (md_ptr x) TRDP_NO_ERR s3 in
    pMDRcvQueue s' = x' :: q /\ pMDSndQueue s' = pMDSndQueue s3 /\ md_session_of m e l p src x'
    /\ md_log s' = md_log s3 ++ told_callback (lis_cb l) (md_refCon (mdDefault s3)) info d /\ md_told_of m e src info
    /\ udpMd s' = udpMd s3.
Proof.
  intros Hm Hty Hq Hq0 Hfr Xp Hdat B1 B2 B4 B5 Xc Xq Xm Xs Xi Xt. rewrite (tell_session_head TRDP_NO_ERR x q s3) by done.
  assert (Hinfo : md_told_of m e src (md_info s3 x TRDP_NO_ERR)).
  { split; unfold md_info, packet; rewrite Xp; cbn [is_ok andb default]; cbn; auto. }
  assert (Hcb : trdp_mdInvokeCallback x TRDP_NO_ERR s3 = log (told_callback (lis_cb l) (md_refCon (mdDefault s3)) (md_info s3 x TRDP_NO_ERR) d) s3).
  { unfold trdp_mdInvokeCallback. rewrite Xc. destruct (lis_cb l); cbn [told_callback]; [|by rewrite log_nil]. rewrite Xp. cbn [is_ok]. by rewrite Hdat. }
  revert Hinfo Hcb. generalize (md_info s3 x TRDP_NO_ERR). intros info Hinfo Hcb. cbv zeta. rewrite Hcb, Xt.
  exists (if g_type m =? TRDP_MSG_MN then set_md_morituri true x else x), info. destruct Hty as [Hty|Hty]; rewrite Hty in *.
  - change (TRDP_MSG_MN =? TRDP_MSG_MN) with true in *. cbv iota in *. rewrite bool_decide_eq_true_2 by done.
    split_and!; try done; [|split; rewrite ?Hty; auto]. unfold put_md. cbn [get_q set_q log set_md_log pMDRcvQueue set_pMDRcvQueue].
    rewrite Hq. cbn [update_md map]. change (md_ptr (set_md_morituri true x)) with (md_ptr x).
    rewrite Z.eqb_refl. f_equal. apply update_md_notin. by rewrite Xq.
  - change (TRDP_MSG_MR =? TRDP_MSG_MN) with false in *. cbv iota in *. rewrite bool_decide_eq_false_2 by done.
    split_and!; try done. split; rewrite ?Hty; auto.
Qed.

(** ** Sending it over UDP *)
Lemma scan_index env r n i e ifc res ifc' : sock_scan env r n i e ifc = (res, ifc') -> e = VOS_INVALID_SOCKET \/ 0 <= e ->
  match res with Taken _ k => 0 <= k | NotFound e' => e' = VOS_INVALID_SOCKET \/ 0 <= e' end.
Proof.
  revert i e ifc. induction n as [|n IH]; intros i e ifc H He; cbn [sock_scan] in H; [by injection H as <- <-|].
  destruct (ifc !! i) as [x|]; [|by injection H as <- <-]. destruct (negb _ && _); [injection H as <- <-; lia|].
  destruct (sock_suits r x).
  - destruct (try_join env r x) as [[] x']; [|by eapply IH]. destruct (take_socket env r x'). injection H as <- <-. lia.
  - eapply IH; [exact H|]. destruct (_ && _); [right; lia|done].
Qed.

Lemma request_index env r ifc n idx ifc' n' : trdp_requestSocket env r ifc n = (TRDP_NO_ERR, idx, ifc', n') -> 0 <= n ->
  exists i, idx = Some i /\ 0 <= i.
Proof.
  unfold trdp_requestSocket. intros H Hn. destruct (sock_scan _ _ _ _ _ _) as [res ifc1] eqn:E.
  apply scan_index in E; [|by left]. destruct res as [err k|e]; [injection H as _ <- _ _; eauto|].
  destruct (_ <? _); [|done]. cbv zeta in H.
  assert (Hli : 0 <= if negb (e =? VOS_INVALID_SOCKET) && negb (n =? e) then e else n).
  { destruct (e =? VOS_INVALID_SOCKET) eqn:Ee; [done|]. apply Z.eqb_neq in Ee. destruct (_ && _); [|done].
    unfold VOS_INVALID_SOCKET in *. lia. }
  revert H Hli. generalize (if negb (e =? VOS_INVALID_SOCKET) && negb (n =? e) then e else n). intros li H Hli.
  destruct (negb (r_useSocket r =? _)); [injection H as <- _ _; eauto|]. destruct (open_entry env r _) as [err x].
  destruct err; cbn [is_ok] in H; try discriminate. injection H as <- _ _. eauto.
Qed.

(** Only the pool changed. *)
Definition md_same_mem (s s' : TRDP_MD_SESSION_T) : Prop :=
  pMDSndQueue s' = pMDSndQueue s /\ mdDefault s' = mdDefault s /\ md_log s' = md_log s
  /\ pfCbMarshall (ms_session s') = pfCbMarshall (ms_session s).

(** A new session over UDP has a socket. *)
Lemma connect_index env par src dst e s e' s' : trdp_mdConnectSocket env par src dst true e s = (TRDP_NO_ERR, e', s') ->
  md_tcp e = false -> md_socketIdx e = TRDP_INVALID_SOCKET_INDEX -> 0 <= ms_maxSocketCnt s ->
  exists i, e' = set_md_socketIdx i e /\ 0 <= i /\ md_same_mem s s'.
Proof.
  unfold trdp_mdConnectSocket. intros H Ht Hi Hn. destruct (default _ _) as [[q t] k]. rewrite Ht, Hi in H. cbn [andb] in H.
  change (TRDP_INVALID_SOCKET_INDEX =? TRDP_INVALID_SOCKET_INDEX) with true in H. cbv iota in H. unfold md_request in H.
  destruct (trdp_requestSocket _ _ _ _) as [[[er idx] ifc] n] eqn:E. injection H as -> <- <-.
  destruct (request_index _ _ _ _ _ _ _ E Hn) as (i & -> & Hi0). by exists i.
Qed.

(** The element in front of the queue, armed and with its message, is sent by the first round. *)
Lemma send_first env s m e q d st : md_msg_ok m e d -> pMDSndQueue s = e :: q -> pPacket e = Some (md_body None m e (md_head m e (repeat 0 (Z.to_nat (md_grossSize e))))) ->
  armed (md_stateEle e) = Some st -> md_socketIdx e <> TRDP_INVALID_SOCKET_INDEX -> md_privFlags e = TRDP_PRIV_NONE -> md_tcp e = false ->
  md_replyPort e = 0 -> me_sendUDP env (md_ptr e) (finished m e) = (TRDP_NO_ERR, md_grossSize e) ->
  exists rest, md_log (snd (trdp_mdSend env s))
    = md_log s ++ MdSent (sock (entry s (md_socketIdx e))) false (destIpAddr (md_addr e)) (md_udpPort (mdDefault s)) (finished m e) :: rest.
Proof.
  intros Hm Hq Hp Ha Hi Hpf Ht Hrp Hsend. unfold trdp_mdSend. rewrite Hq. cbn [map fold_left].
  destruct (f_length m e d Hm (finished m e) eq_refl) as (Hl & H116 & Hg).
  assert (Hpk : packet (trdp_mdUpdatePacket e) = finished m e).
  { unfold packet, trdp_mdUpdatePacket, on_packet. cbn. rewrite Hp. cbn. done. }
  set (ev := MdSent _ _ _ _ _). assert (H1 : exists e1, md_send_step env SndQ (TRDP_NO_ERR, s) (md_ptr e)
    = (TRDP_NO_ERR, put_md SndQ e1 (count_md false inc_numSend (log [ev] s)))).
  { unfold md_send_step. cbn [get_q]. rewrite Hq. cbn [find_md find]. rewrite Z.eqb_refl, Ha.
    apply Z.eqb_neq in Hi. rewrite Hi, Hpf. change (flag TRDP_PRIV_NONE TRDP_REDUNDANT) with false. cbn [orb].
    assert (Htu : md_tcp (trdp_mdUpdatePacket e) = false) by exact Ht. rewrite Htu. cbn [andb]. unfold md_transmit. rewrite Htu. cbn [andb].
    unfold md_port. change (md_replyPort (trdp_mdUpdatePacket e)) with (md_replyPort e). rewrite Hrp. cbn [Z.eqb negb andb].
    unfold trdp_mdSendPacket. rewrite Htu, Hpk. change (md_grossSize (trdp_mdUpdatePacket e)) with (md_grossSize e).
    rewrite take_ge by lia. change (md_ptr (trdp_mdUpdatePacket e)) with (md_ptr e). rewrite Hsend. cbv zeta iota beta.
    set (e2 := set_md_sendSize _ _). change (md_sendSize e2) with (md_grossSize e). change (md_grossSize e2) with (md_grossSize e).
    rewrite Z.eqb_refl. change (md_tcp e2) with (md_tcp e). rewrite Ht, take_ge by lia.
    assert (Hpos : (md_grossSize e >? 0) = true) by (unfold sizeof_MD_HEADER_T in Hg; lia). rewrite Hpos. eexists. reflexivity. }
  destruct H1 as [e1 ->]. set (s1 := put_md SndQ e1 _).
  assert (Hs1 : md_log s1 = md_log s ++ [ev]) by done. clearbody s1.
  set (acc := fold_left (md_send_step env SndQ) (map md_ptr q) (TRDP_NO_ERR, s1)).
  assert (F1 : md_frame s1 (snd acc)) by (apply frame_fold_snd; [intros; by apply frame_send_step|reflexivity]).
  set (acc2 := fold_left (md_send_step env RcvQ) _ _).
  assert (F2 : md_frame s1 (snd acc2)) by (apply frame_fold_snd; [intros; by apply frame_send_step|done]).
  destruct acc2 as [r s2]. cbn [snd] in F2 |- *.
  destruct (frame_close (me_sock env) TRDP_INVALID_SOCKET_INDEX VOS_INVALID_SOCKET true _ _ F2) as [_ _ [rest Hrest]].
  exists rest. rewrite Hrest, Hs1, <- app_assoc. done.
Qed.

(** What the caller hands over. *)
Record call_ok (a : call_args) (d : list Z) : Prop := mkCallOk {
  co_data : c_data a = Some d \/ (c_data a = None /\ d = []);
  co_bytes : bytes d;
  co_size : c_dataSize a = Z.of_nat (length d) /\ c_dataSize a <= TRDP_MAX_MD_DATA_SIZE;
  co_udp : flag (c_pktFlags a) TRDP_FLAGS_TCP = false /\ c_pktFlags a <> TRDP_FLAGS_DEFAULT;
  co_src : uri_ok (c_srcURI a);
  co_dest : uri_ok (c_destURI a) }.

(** The message of a call. *)
Definition call_msg (a : call_args) : md_msg :=
  mkMsg (c_msgType a) (c_replyStatus a) (if call_infinite a then 0 else c_replyTimeout a) 0 (c_data a) (c_dataSize a) (c_srcURI a) (c_destURI a).

Lemma call_ele_is now a s p : exists iv go,
  call_ele now a s p = set_md_timeToGo go (set_md_interval iv (call_ele now a s p))
  /\ md_ptr (call_ele now a s p) = p /\ md_dataSize (call_ele now a s p) = c_dataSize a
  /\ md_grossSize (call_ele now a s p) = trdp_packetSizeMD (c_dataSize a) /\ md_privFlags (call_ele now a s p) = TRDP_PRIV_NONE
  /\ md_socketIdx (call_ele now a s p) = TRDP_INVALID_SOCKET_INDEX /\ md_replyPort (call_ele now a s p) = 0
  /\ md_sessionID (call_ele now a s p) = cEmptySession /\ comId (md_addr (call_ele now a s p)) = c_comId a
  /\ destIpAddr (md_addr (call_ele now a s p)) = c_destIpAddr a
  /\ md_pktFlags (call_ele now a s p) = (if c_pktFlags a =? TRDP_FLAGS_DEFAULT then md_flags (mdDefault s) else c_pktFlags a).
Proof.
  exists (md_interval (call_ele now a s p)), (md_timeToGo (call_ele now a s p)).
  split; [by destruct (call_ele now a s p)|]. unfold call_ele, trdp_mdSetSessionTimeout. by destruct (_ && _).
Qed.

(** C8: After a call of trdp_mdCall over UDP that succeeded (a notification or a request, without a
    marshalling function), the next trdp_mdSend first hands the socket of the new session one
    datagram for the destination of the call and the port of message data: the message with the
    type, comId, time-out and data of the call and the new session identifier, complete with its
    checksum, so the receiver accepts it. *)
Theorem trdp_mdCall_sends env lock a s d sid s1 p : call_ok a d ->
  c_msgType a = TRDP_MSG_MN \/ c_msgType a = TRDP_MSG_MR ->
  me_elem env = Some p -> bytes (me_uuid env) -> length (me_uuid env) = TRDP_SESS_ID_SIZE ->
  pfCbMarshall (ms_session s) = None -> 0 <= ms_maxSocketCnt s ->
  trdp_mdCall env lock a s = (TRDP_NO_ERR, sid, s1) ->
  exists e, md_msg_ok (call_msg a) e d /\ comId (md_addr e) = c_comId a /\ md_sessionID e = me_uuid env /\ sid = Some (me_uuid env)
    /\ md_ptr e = p
    /\ forall env2, me_sendUDP env2 p (finished (call_msg a) e) = (TRDP_NO_ERR, Z.of_nat (length (finished (call_msg a) e))) ->
         exists rest, md_log (snd (trdp_mdSend env2 s1))
           = md_log s ++ MdSent (sock (entry s1 (md_socketIdx e))) false (c_destIpAddr a) (md_udpPort (mdDefault s)) (finished (call_msg a) e) :: rest.
Proof.
  intros [Cd Cb [Cs Cm] [Cu Cf] Csrc Cdst] Hty Hel Hub Hul Hma Hmx. unfold trdp_mdCall. destruct (_ || _); [done|].
  destruct (negb (is_ok lock)); [done|]. rewrite Hel. destruct (call_ele_is (me_now env) a s p) as (iv & go & _ & E1 & E2 & E3 & E4 & E5 & E6 & E7 & E8 & E9 & E10).
  destruct (trdp_mdConnectSocket _ _ _ _ _ _ _) as [[err e1] s2] eqn:Ec. destruct err; try done. cbn [is_ok negb].
  apply connect_index in Ec as (i & -> & Hi & (S1 & S2 & S3 & S4)); [|unfold md_tcp; rewrite E10; by apply Z.eqb_neq in Cf as ->|done|done].
  set (e0 := call_ele (me_now env) a s p) in *. clearbody e0. unfold trdp_mdManageSessionId.
  change (md_sessionID (trdp_mdFillStateElement _ _)) with (md_sessionID e0). rewrite E7, bool_decide_eq_true_2 by done. cbn [negb].
  destruct (negb (me_packet env)); [done|]. intros [= <- <-].
  set (e := new_packet (set_md_sessionID (me_uuid env) (trdp_mdFillStateElement (c_msgType a) (set_md_socketIdx i e0)))).
  assert (Hm : md_msg_ok (call_msg a) e d).
  { split; cbn; try done; [by destruct Hty as [->| ->]|rewrite E2; split_and!; done|by rewrite E2, E3]. }
  exists e. split_and!; try done. intros env2 Hsend. destruct (f_length _ _ _ Hm _ eq_refl) as (Hl & _). rewrite Hl in Hsend.
  assert (Ht : md_tcp e = false). { unfold md_tcp. change (md_pktFlags e) with (md_pktFlags e0). rewrite E10. by apply Z.eqb_neq in Cf as ->. }
  change (mkMsg _ _ _ _ _ _ _ _) with (call_msg a). unfold trdp_mdDetailSenderPacket. rewrite S4, Hma. cbv zeta.
  set (ef := on_packet _ e). assert (Htf : md_tcp ef = false) by exact Ht. rewrite Htf.
  assert (Hpf : pPacket ef = Some (md_body None (call_msg a) e (md_head (call_msg a) e (repeat 0 (Z.to_nat (md_grossSize e)))))) by done.
  assert (Harm : exists st, armed (md_stateEle ef) = Some st).
  { change (md_stateEle ef) with (md_stateEle (trdp_mdFillStateElement (c_msgType a) e0)). destruct Hty as [->| ->]; by eexists. }
  destruct Harm as [st Harm].
  destruct (send_first env2 (set_pMDSndQueue (trdp_MDqueueInsFirst (pMDSndQueue s2) (Some ef)) s2) (call_msg a) ef (pMDSndQueue s2) d st) as [rest Hrest];
    try done; [by destruct Hm; split|change (md_socketIdx ef) with i; unfold TRDP_INVALID_SOCKET_INDEX; lia| |].
  { change (md_ptr ef) with (md_ptr e0). rewrite E1. exact Hsend. }
  exists rest. etransitivity; [exact Hrest|]. cbn [md_log set_pMDSndQueue mdDefault]. rewrite S3, S2. f_equal. f_equal.
  change (destIpAddr (md_addr ef)) with (destIpAddr (md_addr e0)). by rewrite E9.
Qed.

(** C7: A notification or request that arrives over UDP, for a listener of the session and not for a session
    that exists, makes a new session at the front of the receive queue and calls the callback of the
    listener once, with TRDP_NO_ERR, the members of the message, the address of the sender and
    exactly the data; a notification's session is about to die at once. Nothing is sent, and the
    buffers are not overrun. *)
Theorem trdp_mdRecv_delivers env idx s m e d src port dst i l p : md_msg_ok m e d ->
  g_type m = TRDP_MSG_MN \/ g_type m = TRDP_MSG_MR ->
  let f := finished m e in
  udp_gives env f src port dst -> mr_big env = true -> mr_packet env = true -> mr_elem env = Some p ->
  p ∉ md_ptrs (pMDRcvQueue s) -> sock_type (entry s idx) <> TRDP_SOCK_MD_TCP -> pMDRcvEle s = None ->
  Forall (fun x => h_sessionID (packet x) <> h_sessionID f) (pMDRcvQueue s) ->
  Z.of_nat (length (pMDRcvQueue s)) < md_maxNumSessions (mdDefault s) ->
  list_find (fun l => listens (mr_strnicmp env) false f dst l = true) (pMDListenQueue s) = Some (i, l) ->
  exists s' x info, trdp_mdRecv env idx s = Some (TRDP_NO_ERR, s')
    /\ pMDRcvQueue s' = x :: pMDRcvQueue s /\ pMDSndQueue s' = pMDSndQueue s /\ md_session_of m e l p src x
    /\ md_log s' = md_log s ++ told_callback (lis_cb l) (md_refCon (mdDefault s)) info d /\ md_told_of m e src info
    /\ md_numRcv (udpMd s') = u32 (md_numRcv (udpMd s) + 1).
Proof.
  intros Hm Hty f Hg Hbig Hpk Hel Hfr Hso Hre Hun Hmx Hli.
  assert (Hf : f = finished m e) by done. clearbody f. unfold trdp_mdRecv. rewrite bool_decide_eq_false_2 by done.
  unfold recv_element. rewrite Hre, Hel. cbn [fmap option_fmap option_map]. set (r0 := set_md_pktFlags _ _).
  change (pPacket r0) with (@None (list Z)). cbv iota. rewrite Hpk. set (P := repeat 0 _). set (r1 := set_pPacket (Some P) r0).
  assert (Ht : md_tcp r1 = false) by (apply clear_flag_tcp).
  destruct (recvPacket_message env s r1 P m e d f src port dst (sock (entry s idx)) Hm Hf Hg eq_refl ltac:(by unfold P; rewrite repeat_length) Hbig Ht)
    as (r2 & buf & -> & Hp2 & Hb & Hpt & Hmo & Hsrc & Hdst). cbn [mbind option_bind is_ok negb].
  destruct (held_members m e d buf f Hm Hf Hb) as (B1 & B2 & B3 & B4 & B5). destruct (f_length m e d Hm f Hf) as (_ & H116 & _).
  pose proof (holds_head _ _ Hb H116) as Hh. pose proof (hd_data m e d buf f Hm Hf Hb) as Hdat.
  assert (Hpb : packet r2 = buf) by (unfold packet; by rewrite Hp2). assert (Hp : md_ptr r2 = p) by (by rewrite Hpt).
  assert (Hmor : md_morituri r2 = false) by (by rewrite Hmo). clearbody r1. clear r0 P Ht Hpt Hmo.
  set (s1 := set_pMDRcvEle (Some r2) (count_md false inc_numRcv s)).
  assert (Hfs : h_sessionID f = h_sessionID buf) by (symmetry; apply same_head_bget; [done|md_lia]).
  assert (Ht : u16 (g_type m) = g_type m) by (by destruct Hty as [->| ->]). rewrite Ht in B1. rewrite Hpb, B1.
  rewrite (handleRequest_new env idx _ s1 r2 i l); [|done|rewrite Hpb, <- Hfs; exact Hun|exact Hmx|].
  2: { rewrite Hpb, Hdst. rewrite <- Hli. apply list_find_ext. intros x. by rewrite (listens_same_head _ _ buf f). }
  rewrite Hpb. set (x := start_session _ _ _).
  assert (Hcond : (g_type m =? TRDP_MSG_MN) || (g_type m =? TRDP_MSG_MR) = true) by (by destruct Hty as [->| ->]).
  assert (Hnme : (g_type m =? TRDP_MSG_ME) = false) by (by destruct Hty as [->| ->]). rewrite Hcond, Hnme. cbv zeta beta iota.
  set (s3 := set_pMDListenQueue _ _).
  destruct (told_message m e d src p l x s s3 buf (pMDRcvQueue s)) as (x' & info & T1 & T2 & T3 & T4 & T5 & T6); try done.
  exists (tell_session RcvQ (md_ptr x) TRDP_NO_ERR s3), x', info. split; [done|]. rewrite T6. by split_and!.
Qed.

(** ** Concrete inputs *)
Definition demo_call : call_args :=
  mkCall TRDP_MSG_MR 55 None 2000 0 0 0 demo_replier_ip TRDP_FLAGS_CALLBACK 1 2000000 TRDP_REPLY_OK None (Some [1; 2; 3]) 3 None None.
Definition demo_ele : MD_ELE_T :=
  hd (zero_md 0) (pMDSndQueue (snd (trdp_mdCall (demo_env 10 100) TRDP_NO_ERR demo_call (demo_md demo_caller_ip)))).
Definition demo_frame : list Z := finished (call_msg demo_call) demo_ele.

Lemma demo_bytes (l : list Z) : forallb (fun x => (0 <=? x) && (x <? 256)) l = true -> bytes l.
Proof. rewrite forallb_forall. intros H. apply list.Forall_forall. intros x Hx. apply list_elem_of_In, H in Hx. unfold byte. lia. Qed.

Lemma demo_msg_ok : md_msg_ok (call_msg demo_call) demo_ele [1; 2; 3].
Proof.
  split.
  - reflexivity.
  - left. reflexivity.
  - apply demo_bytes. reflexivity.
  - split; [reflexivity|]. split; [vm_compute; reflexivity|]. vm_compute. discriminate.
  - vm_compute. reflexivity.
  - split; [apply demo_bytes; vm_compute; reflexivity|vm_compute; reflexivity].
  - exact I.
  - exact I.
Qed.

Lemma trdp_md_message_protected_witness :
  trdp_mdCheck (demo_md demo_replier_ip) demo_frame (md_grossSize demo_ele) false = TRDP_NO_ERR /\ md_data demo_frame = [1; 2; 3].
Proof.
  pose proof (trdp_md_message_protected (demo_md demo_replier_ip) (call_msg demo_call) demo_ele [1; 2; 3] demo_msg_ok) as H.
  cbv zeta in H. destruct H as (H1 & _ & _ & H2 & _). split; [exact H1|exact H2].
Defined.

Lemma trdp_mdCall_sends_witness : exists e s1,
  trdp_mdCall (demo_env 10 100) TRDP_NO_ERR demo_call (demo_md demo_caller_ip) = (TRDP_NO_ERR, Some demo_sid, s1)
  /\ md_msg_ok (call_msg demo_call) e [1; 2; 3]
  /\ exists rest, md_log (snd (trdp_mdSend (demo_env 10 101) s1))
       = MdSent (sock (entry s1 (md_socketIdx e))) false demo_replier_ip 17225 (finished (call_msg demo_call) e) :: rest.
Proof.
  destruct (trdp_mdCall (demo_env 10 100) TRDP_NO_ERR demo_call (demo_md demo_caller_ip)) as [[err sid] s1] eqn:E.
  assert (He : (err, sid) = (TRDP_NO_ERR, Some demo_sid)).
  { transitivity (fst (trdp_mdCall (demo_env 10 100) TRDP_NO_ERR demo_call (demo_md demo_caller_ip))); [by rewrite E|vm_compute; reflexivity]. }
  injection He as -> ->. assert (Hc : call_ok demo_call [1; 2; 3]).
  { split; [by left|apply demo_bytes; reflexivity|by split|by split|exact I|exact I]. }
  assert (Hb : bytes (me_uuid (demo_env 10 100))) by (apply demo_bytes; reflexivity).
  destruct (trdp_mdCall_sends (demo_env 10 100) TRDP_NO_ERR demo_call (demo_md demo_caller_ip) [1; 2; 3] (Some demo_sid) s1 100
    Hc (or_intror eq_refl) eq_refl Hb eq_refl eq_refl ltac:(cbn; lia) E) as (e & Hm & _ & _ & _ & _ & Hs).
  exists e, s1. split; [reflexivity|]. split; [exact Hm|]. destruct (Hs (demo_env 10 101) eq_refl) as [rest Hr]. exists rest. exact Hr.
Defined.

Lemma demo_gives : udp_gives (demo_rcv 11 300 demo_caller_ip demo_replier_ip demo_frame) demo_frame demo_caller_ip 17225 demo_replier_ip.
Proof. split; cbn; [done|]. by rewrite Nat2Z.id, take_ge by lia. Qed.

Lemma trdp_mdRecv_delivers_witness : exists s' x info,
  trdp_mdRecv (demo_rcv 11 300 demo_caller_ip demo_replier_ip demo_frame) 0 demo_listen = Some (TRDP_NO_ERR, s')
  /\ pMDRcvQueue s' = [x] /\ md_log s' = told_callback (Some 901) 77 info [1; 2; 3].
Proof.
  assert (H1 : sock_type (entry demo_listen 0) <> TRDP_SOCK_MD_TCP) by (vm_compute; discriminate).
  assert (H2 : Forall (fun x => h_sessionID (packet x) <> h_sessionID demo_frame) (pMDRcvQueue demo_listen)) by (vm_compute; constructor).
  assert (H3 : Z.of_nat (length (pMDRcvQueue demo_listen)) < md_maxNumSessions (mdDefault demo_listen)) by (vm_compute; reflexivity).
  assert (H4 : exists l, list_find (fun l => listens (fun _ _ _ => 1) false demo_frame demo_replier_ip l = true) (pMDListenQueue demo_listen) = Some (0%nat, l)
     /\ lis_cb l = Some 901).
  { eexists. split; vm_compute; reflexivity. }
  destruct H4 as (l & H4 & Hcb).
  destruct (trdp_mdRecv_delivers (demo_rcv 11 300 demo_caller_ip demo_replier_ip demo_frame) 0 demo_listen (call_msg demo_call) demo_ele
    [1; 2; 3] demo_caller_ip 17225 demo_replier_ip 0 l 300 demo_msg_ok (or_intror eq_refl) demo_gives eq_refl eq_refl eq_refl
    ltac:(vm_compute; apply not_elem_of_nil) H1 eq_refl H2 H3 H4) as (s' & x & info & R1 & R2 & _ & _ & R3 & _).
  exists s', x, info. split; [exact R1|]. split; [exact R2|]. rewrite Hcb in R3. exact R3.
Defined.
