(* ===== verification/TrdpMdTcp.v ===== *)
(** * Message data: reading a message piece by piece

    A TCP connection hands a message over in pieces of any size; [trdp_mdRecvTCPPacket] keeps what it
    got and goes on in the next call. The theorem states that the message is put together whatever
    the pieces are. It covers the messages that fit into the receive buffer. *)
From S2P Require Import Prelude Bytes VosTime VosCrc TrdpTypes TrdpMdTypes TrdpUtils TrdpPd TrdpMd TrdpMdRecv TrdpMdIf TrdpMdDemo TrdpMdMsg.

(** ** Buffers that start alike *)
Definition agrees (k : nat) (B F : list Z) : Prop := forall i, (i < k)%nat -> B !! i = F !! i.

Lemma agrees_bget k B F off n : agrees k B F -> (off + n <= k)%nat -> bget off n B = bget off n F.
Proof. intros H Hn. apply list_eq. intros i. rewrite !lookup_bget. destruct (Nat.ltb_spec i n); [apply H; lia|done]. Qed.

Lemma agrees_head B F : agrees 116 B F -> same_head B F.
Proof. intros H. exact (agrees_bget 116 B F 0 116 H (le_n _)). Qed.

Lemma agrees_weaken k k' B F : agrees k B F -> (k' <= k)%nat -> agrees k' B F.
Proof. intros H Hk i Hi. apply H. lia. Qed.

Lemma agrees_bput k c B F : agrees k B F -> (k + length c <= length B)%nat -> c = bget k (length c) F ->
  agrees (k + length c) (bput k c B) F.
Proof.
  intros H Hl Hc i Hi. rewrite lookup_bput by done. destruct (Nat.ltb_spec i k); [by apply H|].
  destruct (Nat.ltb_spec i (k + length c)); [|lia]. rewrite Hc at 1. rewrite lookup_bget.
  destruct (Nat.ltb_spec (i - k) (length c)); [f_equal; lia|lia].
Qed.

(** Writing a member read from such a buffer changes nothing in front. *)
Lemma agrees_put32 k U F g off : agrees k U F -> get32 off g = get32 off F -> bytes F ->
  (off + 4 <= length F)%nat -> (off + 4 <= length U)%nat -> agrees k (put32 off (get32 off g) U) F.
Proof.
  intros H Hg Hb HF HU i Hi. rewrite Hg. unfold put32.
  pose proof (be_bytes_value (bget off 4 F) (bget_bytes _ _ _ Hb)) as E. rewrite bget_length in E by done.
  unfold get32. rewrite E. rewrite lookup_bput by (rewrite bget_length by done; done). rewrite bget_length by done.
  destruct (Nat.ltb_spec i off); [by apply H|]. destruct (Nat.ltb_spec i (off + 4)); [|by apply H].
  rewrite lookup_bget. destruct (Nat.ltb_spec (i - off) 4); [f_equal; lia|lia].
Qed.

Lemma bput_nil k B : (k <= length B)%nat -> bput k [] B = B.
Proof. intros H. unfold bput. rewrite (proj2 (Nat.leb_le _ _)) by (cbn; lia). cbn [length app]. by rewrite Nat.add_0_r, take_drop. Qed.

(** Two writes one after the other are one. *)
Lemma bput_piece k j c B : (j <= length c)%nat -> (k + length c <= length B)%nat ->
  bput (k + j) (drop j c) (bput k (take j c) B) = bput k c B.
Proof.
  intros Hj Hl. apply list_eq. intros i.
  rewrite !lookup_bput by (rewrite ?bput_length, ?length_drop, ?length_take; lia).
  rewrite length_drop, length_take, Nat.min_l by lia.
  destruct (Nat.ltb_spec i k); destruct (Nat.ltb_spec i (k + j)); try lia; try done.
  - destruct (Nat.ltb_spec i (k + length c)); [|lia]. by rewrite lookup_take_lt by lia.
  - destruct (Nat.ltb_spec i (k + j + (length c - j))), (Nat.ltb_spec i (k + length c)); try lia; [|done].
    rewrite lookup_drop. f_equal. lia.
Qed.

Lemma bwrite_at k c B : (k + length c <= length B)%nat -> bwrite (Z.of_nat k) c B = Some (bput k c B).
Proof.
  intros H. unfold bwrite. rewrite (proj2 (Z.leb_le 0 _)), (proj2 (Z.leb_le _ _)) by lia. by rewrite Nat2Z.id.
Qed.
Lemma bread_at k n B : (k + n <= length B)%nat -> bread (Z.of_nat k) (Z.of_nat n) B = Some (bget k n B).
Proof.
  intros H. unfold bread. rewrite !(proj2 (Z.leb_le _ _)) by lia. by rewrite !Nat2Z.id.
Qed.

Lemma bwrite_0 c B : (length c <= length B)%nat -> bwrite 0 c B = Some (bput 0 c B).
Proof. exact (bwrite_at 0 c B). Qed.
Lemma bread_0 n B : (n <= length B)%nat -> bread 0 (Z.of_nat n) B = Some (bget 0 n B).
Proof. exact (bread_at 0 n B). Qed.

(** ** The socket *)

(** A socket with the bytes [c] after [k] bytes of the message were taken from it: a call gets what is
    there, or the result for nothing. *)
Definition piece (k : nat) (c : list Z) (env : md_rcv_env) : md_rcv_env :=
  mkMdRcv (mr_env env) (mr_elem env) (mr_packet env) (mr_unc env) (mr_unc_packet env) (mr_big env)
    (fun header n =>
       let bs := take (Z.to_nat n) (if header : bool then c else drop (116 - k) c) in
       (if bool_decide (bs = []) then TRDP_BLOCK_ERR else TRDP_NO_ERR, bs))
    (mr_recvUDP env) (mr_strnicmp env).

(** One call for each piece: the results, the element and the session. *)
Fixpoint receive_pieces (env : md_rcv_env) (sd : Z) (k : nat) (cs : list (list Z)) (e : MD_ELE_T) (s : TRDP_MD_SESSION_T)
  : option (list TRDP_ERR_T * MD_ELE_T * TRDP_MD_SESSION_T) :=
  match cs with
  | [] => Some ([], e, s)
  | c :: cs' =>
      '(r, e', s') ← trdp_mdRecvTCPPacket (piece k c env) sd e s;
      '(rs, e'', s'') ← receive_pieces env sd (k + length c) cs' e' s';
      Some (r :: rs, e'', s'')
  end.

(** A message as it crosses the connection: the header and the bytes it announces. *)
Record tcp_message (F : list Z) : Prop := mkTcpMsg {
  tm_head : md_head_ok F;
  tm_bytes : bytes F;
  tm_size : Z.of_nat (length F) = sizeof_MD_HEADER_T + get32 off_datasetLength F;
  tm_fits : trdp_packetSizeMD (get32 off_datasetLength F) <= cMinimumMDSize }.

(** What is kept between two calls after [k] bytes. *)
Definition kept (k : nat) (u : option MD_ELE_T) (F : list Z) : Prop :=
  match u with
  | None => k = O
  | Some u1 => md_grossSize u1 = Z.of_nat k /\ (0 < k)%nat
               /\ exists U, pPacket u1 = Some U /\ length U = 1480%nat /\ agrees k U F
  end.

Lemma message_length F : tcp_message F -> (116 <= length F <= 1480)%nat.
Proof.
  intros HF. destruct HF as [Ho _ Hs Hf]. pose proof (hd_size _ Ho) as Hd.
  unfold trdp_packetSizeMD, cMinimumMDSize, sizeof_MD_HEADER_T, TRDP_MAX_MD_DATA_SIZE in *.
  rewrite padded_size_eq in Hf by lia. dlia.
Qed.

Section Round.
Context (env : md_rcv_env) (F : list Z) (HF : tcp_message F) (k : nat) (c : list Z) (u : option MD_ELE_T)
        (P : list Z) (e : MD_ELE_T) (s : TRDP_MD_SESSION_T).
Context (Hk : kept k u F) (HP : pPacket e = Some P) (HPl : length P = 1480%nat) (HPk : (k < 116)%nat -> agrees k P F).
Context (Hc : c = bget k (length c) F) (Hne : c <> []) (Hfit : (k + length c <= length F)%nat).

Lemma piece_call header n :
  mr_recvTCP (piece k c env) header n
  = (let bs := take (Z.to_nat n) (if header then c else drop (116 - k) c) in
     (if bool_decide (bs = []) then TRDP_BLOCK_ERR else TRDP_NO_ERR, bs)).
Proof. done. Qed.

(** The header: what it adds, and the element whose header is complete. *)
Lemma header_read : (k < 116)%nat ->
  let j := Nat.min (116 - k) (length c) in
  exists u1, tcp_header (piece k c env) s e u
             = Some (inr (TRDP_NO_ERR, set_pPacket (Some (bput k (take j c) P)) e, u1, Z.of_nat k, Z.of_nat j, Z.of_nat (k + j)))
    /\ kept k u1 F /\ (u = None <-> u1 = None)
    /\ ((116 <= k + j)%nat -> from_option (fun U => get32 off_datasetLength U = get32 off_datasetLength F) True (u1 ≫= pPacket)).
Proof.
  intros Hlt j. pose proof (message_length F HF) as Hn.
  assert (Hst : match u with Some u => md_grossSize u | None => 0 end = Z.of_nat k).
  { destruct u; cbn in Hk; [by destruct Hk|by rewrite Hk]. }
  unfold tcp_header. rewrite Hst. unfold sizeof_MD_HEADER_T. rewrite (proj2 (Z.ltb_lt _ _)) by lia.
  rewrite piece_call. replace (Z.to_nat (116 - Z.of_nat k)) with (116 - k)%nat by lia.
  assert (Htake : take (116 - k) c = take j c).
  { unfold j. destruct (Nat.le_gt_cases (116 - k) (length c)); [by rewrite Nat.min_l|]. rewrite Nat.min_r by lia.
    rewrite !take_ge by lia. done. }
  cbv zeta. rewrite Htake. assert (Hj : length (take j c) = j) by (rewrite length_take; lia).
  assert (Hj0 : (0 < j)%nat) by (destruct c; [done|cbn [length] in *; lia]).
  rewrite bool_decide_eq_false_2 by (intros E; rewrite E in Hj; cbn in Hj; lia).
  unfold packet. rewrite HP. cbn [default from_option id]. rewrite bwrite_at by (rewrite Hj; lia). cbn [mbind option_bind].
  rewrite Hj. replace (Z.of_nat k + Z.of_nat j) with (Z.of_nat (k + j)) by lia.
  assert (Hag : agrees (k + j) (bput k (take j c) P) F).
  { rewrite <- Hj at 1. apply agrees_bput; [by apply HPk|lia|]. rewrite Hj, Hc. unfold bget. rewrite take_take. f_equal. lia. }
  destruct u as [u1|].
  - destruct Hk as (Hg & Hk0 & U & HU & HUl & HUa). rewrite HU. cbn [is_ok andb].
    destruct (Z.geb_spec (Z.of_nat (k + j)) 116) as [Hge|Hge].
    + assert (Hkj : (k + j = 116)%nat) by lia. rewrite Hkj in *. 
      assert (Hsame : same_head (bput k (take j c) P) F) by by apply agrees_head.
      change (Z.of_nat 116) with sizeof_MD_HEADER_T. rewrite (mdCheck_same_head s _ F) by done.
      rewrite head_ok_check; [|apply HF|done|by left]. cbn [is_ok]. eexists. split; [reflexivity|].
      split_and!; [|done|].
      * cbn. split_and!; [done|lia|]. eexists. split; [reflexivity|]. rewrite !put32_length. split; [done|].
        apply agrees_put32; [|by rewrite (same_head_get32 _ F) by (done || md_lia)|apply HF|md_off|rewrite put32_length; md_off].
        apply agrees_put32; [done|by rewrite (same_head_get32 _ F) by (done || md_lia)|apply HF|md_off|md_off].
      * intros _. cbn -[put32 get32]. rewrite get32_put32 by (rewrite put32_length; md_off).
        rewrite (same_head_get32 _ F) by (done || md_lia). apply u32_small.
        pose proof (hd_size _ (tm_head _ HF)) as Hd. unfold TRDP_MAX_MD_DATA_SIZE in Hd. lia.
    + eexists. split; [reflexivity|]. split_and!; [|done|lia]. cbn. split_and!; [done|lia|eauto].
  - eexists. split; [reflexivity|]. split_and!; [done|done|done].
Qed.

(** The data: what was read in this call stands in the buffer behind what came before. *)
Definition read_result (p : option tcp_part) : Prop :=
  exists r e2 rd ds, p = Some (TcpRead r e2 (Z.of_nat (length c)) rd ds)
    /\ pPacket e2 = Some (bput k c P) /\ md_pktFlags e2 = md_pktFlags e /\ md_grossSize e2 = Z.of_nat (k + length c)
    /\ (r = TRDP_NO_ERR \/ r = TRDP_BLOCK_ERR) /\ tcp_incomplete e2 rd ds = negb (k + length c =? length F)%nat
    /\ trdp_packetSizeMD (md_dataSize e2) <= cMinimumMDSize.

Lemma enlarge_none sh rs e1 : trdp_packetSizeMD (md_dataSize e1) <= cMinimumMDSize ->
  tcp_enlarge (piece k c env) sh rs e1 = Some (TRDP_NO_ERR, e1).
Proof. intros H. unfold tcp_enlarge. by rewrite Z.gtb_ltb, (proj2 (Z.ltb_ge _ _)). Qed.

(** The second read of a call, at [sz], when the header is complete. *)
Lemma data_read sz err e1 rs : let n := get32 off_datasetLength F in
  (116 <= sz)%nat -> (sz = k + (116 - k))%nat -> (sz <= k + length c)%nat -> (err = TRDP_NO_ERR \/ err = TRDP_BLOCK_ERR) ->
  md_dataSize e1 = n -> pPacket e1 = Some (bput k (take (116 - k) c) P) -> md_pktFlags e1 = md_pktFlags e -> rs = Z.of_nat (Nat.min (116 - k) (length c)) ->
  read_result
    (let dataSize := Z.of_nat (length F - sz) in
     if dataSize >? 0 then
       let '(err, bs) := mr_recvTCP (piece k c env) false dataSize in
       buf ← bwrite (Z.of_nat sz) bs (packet e1);
       let n := Z.of_nat (length bs) in
       Some (TcpRead err (set_md_grossSize (u32 (Z.of_nat sz + n)) (set_pPacket (Some buf) e1)) (rs + n) n dataSize)
     else Some (TcpRead err (set_md_grossSize (Z.of_nat sz) e1) rs 0 dataSize)).
Proof.
  intros n Hsz Hszk Hszc Herr Hd Hp Hfl ->. pose proof (message_length F HF) as Hn. destruct HF as [_ _ HN Hfits].
  fold n in HN, Hfits. cbv zeta. destruct (Z.gtb_spec (Z.of_nat (length F - sz)) 0) as [Hpos|Hpos].
  - rewrite piece_call. cbv zeta. rewrite (take_ge (drop _ _)) by (rewrite length_drop; lia).
    unfold packet. rewrite Hp. cbn [default from_option id]. rewrite Hszk at 1.
    rewrite bwrite_at by (rewrite bput_length, length_drop; lia). cbn [mbind option_bind].
    rewrite bput_piece by lia. rewrite length_drop, u32_small by lia. unfold read_result.
    eexists _, _, _, _. split; [f_equal; f_equal; lia|]. cbn [pPacket md_pktFlags md_grossSize md_dataSize set_md_grossSize set_pPacket].
    split_and!; [done|done|lia|case_bool_decide; auto| |by rewrite Hd].
    unfold tcp_incomplete. cbn [md_grossSize set_md_grossSize]. unfold sizeof_MD_HEADER_T.
    rewrite (proj2 (Z.ltb_ge _ _)), (proj2 (Z.eqb_neq (Z.of_nat (length F - sz)) 0)), andb_false_r by lia. cbn [andb orb negb].
    f_equal. destruct (Nat.eqb_spec (k + length c) (length F)); [apply Z.eqb_eq|apply Z.eqb_neq]; lia.
  - assert (Hall : sz = length F) by lia. unfold read_result. eexists _, _, _, _. split; [f_equal; f_equal; lia|]. cbn [pPacket md_pktFlags md_grossSize md_dataSize set_md_grossSize].
    rewrite Hp, take_ge by lia. split_and!; [done|done|lia|done| |by rewrite Hd].
    unfold tcp_incomplete. cbn [md_grossSize set_md_grossSize]. unfold sizeof_MD_HEADER_T.
    rewrite (proj2 (Z.ltb_ge _ _)) by lia. replace (Z.of_nat (length F - sz)) with 0 by lia. rewrite Z.eqb_refl.
    cbn [negb andb orb]. rewrite andb_false_r. symmetry. apply negb_false_iff, Nat.eqb_eq. lia.
Qed.

Lemma call_read : md_dataSize e = 0 ->
  exists err e1 u1 sh rs sz, tcp_header (piece k c env) s e u = Some (inr (err, e1, u1, sh, rs, sz))
    /\ kept k u1 F /\ read_result (tcp_data (piece k c env) err e1 u1 sh rs sz).
Proof.
  intros Hd0. pose proof (message_length F HF) as Hn. pose proof (tm_size F HF) as HN. pose proof (tm_fits F HF) as Hfits.
  unfold sizeof_MD_HEADER_T in HN. destruct (Nat.lt_ge_cases k 116) as [Hlt|Hge].
  - destruct (header_read Hlt) as (u1 & Hh & Hk1 & Hu & Hl). cbv zeta in Hh. eexists _, _, _, _, _, _. split; [exact Hh|]. split; [done|].
    unfold tcp_data. unfold sizeof_MD_HEADER_T.
    assert (Hst : (match u1 with Some u => md_grossSize u | None => 0 end) = Z.of_nat k).
    { destruct u1; cbn in Hk1; [by destruct Hk1|by rewrite Hk1]. }
    rewrite Hst, (Z.geb_leb (Z.of_nat k)), (proj2 (Z.leb_gt _ _)), orb_false_r by lia.
    destruct (Z.geb_spec (Z.of_nat (k + (116 - k) `min` length c)) 116) as [Hc1|Hc1].
    + assert (Hj : ((116 - k) `min` length c = 116 - k)%nat) by lia. rewrite Hj in *.
      set (e1 := set_pPacket _ e).
      assert (Hag : same_head (packet e1) F).
      { apply agrees_head. unfold packet. cbn. assert (Ht : length (take (116 - k) c) = (116 - k)%nat) by (rewrite length_take; lia).
        replace 116%nat with (k + length (take (116 - k) c))%nat at 1 by lia. apply agrees_bput; [by apply HPk|lia|].
        rewrite Ht. rewrite Hc at 1. unfold bget. rewrite take_take. f_equal. lia. }
      assert (Ht : match u1 ≫= pPacket with
                   | Some uf => (get32 off_datasetLength uf, u32 (Z.of_nat k + Z.of_nat (116 - k)),
                                 u32 (get32 off_datasetLength uf - (u32 (Z.of_nat k + Z.of_nat (116 - k)) - 116)))
                   | None => (get32 off_datasetLength (packet e1), Z.of_nat (k + (116 - k)), get32 off_datasetLength (packet e1))
                   end = (get32 off_datasetLength F, Z.of_nat (k + (116 - k)), Z.of_nat (length F - (k + (116 - k))))).
      { destruct (u1 ≫= pPacket) as [uf|]; [cbn -[get32] in Hl; rewrite Hl by lia|]; cbv zeta.
        - rewrite !u32_small by (rewrite ?u32_small; lia). repeat f_equal; lia.
        - rewrite (same_head_get32 _ F) by (done || md_lia). repeat f_equal; lia. }
      rewrite Ht. cbv iota beta zeta. rewrite enlarge_none by exact Hfits. rewrite (Z.geb_leb (Z.of_nat (k + (116 - k)))), (proj2 (Z.leb_le 116 _)) by lia.
      cbn [mbind option_bind is_ok negb]. apply (data_read _ _ (set_md_dataSize (get32 off_datasetLength F) e1)); try done; try lia; auto.
    + unfold read_result. assert (Hj : ((116 - k) `min` length c = length c)%nat) by lia. rewrite Hj in *.
      eexists _, _, _, _. split; [reflexivity|]. cbn [pPacket md_pktFlags md_grossSize md_dataSize set_md_grossSize set_pPacket].
      rewrite take_ge by lia. rewrite Hd0. split_and!; auto; [|done].
      unfold tcp_incomplete. cbn [md_grossSize set_md_grossSize]. unfold sizeof_MD_HEADER_T. rewrite (proj2 (Z.ltb_lt _ _)) by lia.
      cbn [andb orb]. change (0 =? 0) with true. cbn [orb]. symmetry. apply negb_true_iff, Nat.eqb_neq. lia.
  - destruct u as [u1|]; cbn in Hk; [|lia]. destruct Hk as (Hg & Hk0 & U & HU & HUl & HUa).
    eexists _, _, (Some u1), _, _, _. split.
    { unfold tcp_header. rewrite Hg. unfold sizeof_MD_HEADER_T. rewrite (proj2 (Z.ltb_ge _ _)) by lia. reflexivity. }
    split; [cbn; split_and!; [done|done|exists U; done]|]. unfold tcp_data, sizeof_MD_HEADER_T. cbv zeta iota beta. rewrite Hg, (Z.geb_leb (Z.of_nat k)), (proj2 (Z.leb_le _ _)), orb_true_r by lia.
    cbn [mbind option_bind]. rewrite HU.
    assert (Hag : same_head U F) by (apply agrees_head; by apply (agrees_weaken k)).
    rewrite (same_head_get32 U F) by (done || md_lia). rewrite Z.add_0_r, !u32_small by (rewrite ?u32_small; lia).
    replace (get32 off_datasetLength F - (Z.of_nat k - 116)) with (Z.of_nat (length F - k)) by lia.
    rewrite (Z.geb_leb (Z.of_nat k)), (proj2 (Z.leb_le 116 _)), enlarge_none by (exact Hfits || lia). cbn [mbind option_bind is_ok negb].
    apply (data_read _ _ (set_md_dataSize (get32 off_datasetLength F) e)); try done; try lia; auto.
    cbn. replace (116 - k)%nat with 0%nat by lia. rewrite HP. f_equal. cbn. by rewrite bput_nil by lia.
Qed.

Context (Hmem : exists p, mr_unc env = Some p) (Hmem' : mr_unc_packet env = true) (Htcp : md_tcp e = true).

(** What a call leaves: the whole message, or what is kept and the buffer for the next call. *)
Definition call_result (x : option (TRDP_ERR_T * MD_ELE_T * option MD_ELE_T)) : Prop :=
  exists e' u' P', x = Some (if (k + length c =? length F)%nat then TRDP_NO_ERR else TRDP_PACKET_ERR, e', u')
    /\ md_tcp e' = true /\ pPacket e' = Some P' /\ length P' = 1480%nat
    /\ if (k + length c =? length F)%nat
       then u' = None /\ agrees (length F) P' F /\ md_grossSize e' = Z.of_nat (length F)
       else kept (k + length c) u' F /\ ((k + length c < 116)%nat -> agrees (k + length c) P' F).

Lemma piece_agrees B : agrees k B F -> length B = 1480%nat -> agrees (k + length c) (bput k c B) F.
Proof. intros H Hl. pose proof (message_length F HF). apply agrees_bput; [done|lia|done]. Qed.

Lemma piece_there : bread (Z.of_nat k) (Z.of_nat (length c)) (bput k c P) = Some c.
Proof. pose proof (message_length F HF). rewrite bread_at by (rewrite bput_length; lia). by rewrite bget_bput_same by lia. Qed.

Lemma nonempty_piece : (Z.of_nat (length c) >? 0) = true.
Proof. destruct c; [done|]. cbn [length]. rewrite Z.gtb_ltb. apply Z.ltb_lt. lia. Qed.

(** Keeping a piece in the buffer [U] of the element kept. *)
Lemma keep_piece e2 u1 rd : kept k u1 F -> pPacket e2 = Some (bput k c P) -> md_grossSize e2 = Z.of_nat (k + length c) ->
  trdp_packetSizeMD (md_dataSize e2) <= cMinimumMDSize ->
  exists u2, tcp_keep (piece k c env) e2 u1 (Z.of_nat (length c)) rd = Some (TRDP_PACKET_ERR, Some u2) /\ kept (k + length c) (Some u2) F.
Proof.
  intros Hk1 Hp Hg Hfits. pose proof (message_length F HF) as Hn. unfold tcp_keep. rewrite nonempty_piece. unfold packet. rewrite Hp. cbn [default from_option id].
  assert (Hpos : (0 < k + length c)%nat) by (pose proof nonempty_piece as H; rewrite Z.gtb_ltb in H; apply Z.ltb_lt in H; lia).
  destruct u1 as [u1|].
  - destruct Hk1 as (Hg1 & Hk0 & U & HU & HUl & HUa). rewrite Hg1.
    assert ((trdp_packetSizeMD (md_dataSize e2) >? cMinimumMDSize) = false) as -> by (rewrite Z.gtb_ltb; by apply Z.ltb_ge).
    rewrite andb_false_r, piece_there. cbn [mbind option_bind]. rewrite HU. cbn [mbind option_bind]. rewrite bwrite_at by lia. cbn [mbind option_bind].
    eexists. split; [reflexivity|]. cbn. split_and!; [done|done|]. eexists. split; [reflexivity|]. rewrite bput_length. split; [done|by apply piece_agrees].
  - cbn in Hk1. destruct Hmem as [p Hp']. cbn [mr_unc piece mr_unc_packet]. rewrite Hp', Hmem'. cbn [negb].
    assert (Ht : bread 0 (Z.of_nat (length c)) (bput k c P) = Some c) by (pose proof piece_there as H; rewrite Hk1 in H at 1; exact H).
    rewrite Ht. cbn [mbind option_bind pPacket set_pPacket].
    set (U := repeat 0 _). assert (HUl : length U = 1480%nat).
    { unfold U. rewrite repeat_length. unfold cMinimumMDSize in *. case_if; bprop; lia. }
    rewrite bwrite_0 by lia. cbn [mbind option_bind]. eexists. split; [reflexivity|]. cbn. split_and!; [done|done|].
    eexists. split; [reflexivity|]. rewrite bput_length. split; [done|].
    assert (Ha : agrees (k + length c) (bput k c U) F) by (apply piece_agrees; [intros i Hi; lia|done]).
    rewrite Hk1 in Ha at 2. exact Ha.
Qed.

Lemma call_rest part u1 : kept k u1 F -> read_result part -> call_result (part ≫= tcp_rest (piece k c env) u1).
Proof.
  intros Hk1 (r & e2 & rd & ds & -> & Hp & Hfl & Hg & Hr & Hinc & Hfits). pose proof (message_length F HF) as Hn.
  cbn [mbind option_bind]. unfold tcp_rest.
  assert (Hgo : is_ok r || bool_decide (r = TRDP_BLOCK_ERR) && negb (md_tcp e2 && (Z.of_nat (length c) =? 0)) = true).
  { pose proof nonempty_piece as H. rewrite Z.gtb_ltb in H. apply Z.ltb_lt in H. rewrite (proj2 (Z.eqb_neq _ 0)), andb_false_r by lia. by destruct Hr as [-> | ->]. }
  rewrite Hgo, Hinc. assert (Htcp2 : md_tcp e2 = true) by (unfold md_tcp in *; by rewrite Hfl). unfold call_result.
  destruct (Nat.eqb_spec (k + length c) (length F)) as [Hend|Hmore]; cbn [negb].
  - unfold tcp_finish. rewrite nonempty_piece. destruct u1 as [u1|].
    + destruct Hk1 as (Hg1 & Hk0 & U & HU & HUl & HUa). rewrite HU, Hg1. unfold packet. rewrite Hp. cbn [default from_option id].
      rewrite piece_there. cbn [mbind option_bind]. rewrite bwrite_at by lia. cbn [mbind option_bind]. rewrite Hg.
      rewrite bread_0 by (rewrite bput_length; lia). cbn [mbind option_bind]. set (A := bget 0 _ _).
      assert (HA : A = bget 0 (length F) F).
      { unfold A. rewrite Hend. apply (agrees_bget (length F)); [|lia]. rewrite <- Hend at 1. by apply piece_agrees. }
      assert (HAl : length A = length F) by (rewrite HA, bget_length; lia). clearbody A.
      rewrite bwrite_0 by (rewrite bput_length; lia). cbn [mbind option_bind]. eexists _, _, _. split; [reflexivity|].
      split; [exact Htcp2|]. split; [reflexivity|]. rewrite !bput_length. split; [exact HPl|]. split; [done|]. split.
      * rewrite <- HAl at 1. apply (agrees_bput 0 A); [intros i Hi; lia|rewrite bput_length; lia|by rewrite HAl].
      * rewrite <- Hend. exact Hg.
    + cbn in Hk1. eexists _, _, _. split; [reflexivity|]. rewrite bput_length.
      split_and!; [done|done|done|done| |by rewrite <- Hend].
      rewrite <- Hend. apply agrees_bput; [intros i Hi; lia|lia|done].
  - destruct (keep_piece e2 u1 rd Hk1 Hp Hg Hfits) as (u2 & -> & Hk2). cbn [mbind option_bind].
    eexists _, _, _. split; [reflexivity|]. rewrite bput_length.
    split_and!; [done|done|done|done|]. intros H116. apply piece_agrees; [|done]. apply HPk. lia.
Qed.
End Round.

Section Stream.
Context (env : md_rcv_env) (F : list Z) (HF : tcp_message F) (sd : Z) (i : nat) (p : Z).
Context (Hmem : mr_unc env = Some p) (Hmem' : mr_unc_packet env = true).

Lemma call_piece k c u P e s : sock_index s sd = Some i -> uncompletedTCP s !! i = Some u ->
  kept k u F -> pPacket e = Some P -> length P = 1480%nat -> ((k < 116)%nat -> agrees k P F) ->
  c = bget k (length c) F -> c <> [] -> (k + length c <= length F)%nat -> md_tcp e = true ->
  exists e' u' P', trdp_mdRecvTCPPacket (piece k c env) sd e s
    = Some (if (k + length c =? length F)%nat then TRDP_NO_ERR else TRDP_PACKET_ERR, e', set_unc i u' s)
    /\ md_tcp e' = true /\ pPacket e' = Some P' /\ length P' = 1480%nat
    /\ if (k + length c =? length F)%nat
       then u' = None /\ agrees (length F) P' F /\ md_grossSize e' = Z.of_nat (length F)
       else kept (k + length c) u' F /\ ((k + length c < 116)%nat -> agrees (k + length c) P' F).
Proof.
  intros Hi Hu Hk HP HPl HPk Hc Hne Hfit Htcp. unfold trdp_mdRecvTCPPacket. rewrite Hi, Hu.
  set (e0 := set_md_addr _ _). change (mjoin (Some u)) with u.
  destruct (call_read env F HF k c u P e0 s Hk HP HPl HPk Hc Hne Hfit eq_refl) as (err & e1 & u1 & sh & rs & sz & Hh & Hk1 & Hr).
  rewrite Hh. cbn [mbind option_bind].
  destruct (call_rest env F HF k c P e0 HPl HPk Hc Hne Hfit (ex_intro _ p Hmem) Hmem' Htcp _ u1 Hk1 Hr) as (e' & u' & P' & Hx & Hres).
  destruct (tcp_data _ err e1 u1 sh rs sz) as [part|]; [|discriminate]. cbn [mbind option_bind] in Hx |- *. rewrite Hx. cbn [mbind option_bind].
  exists e', u', P'. split; [reflexivity|exact Hres].
Qed.

Lemma set_unc_twice u u' s : set_unc i u' (set_unc i u s) = set_unc i u' s.
Proof. unfold set_unc. cbn. by rewrite list_insert_insert_eq. Qed.

Lemma receive_stream cs : forall k e s u P, sock_index s sd = Some i -> uncompletedTCP s !! i = Some u ->
  kept k u F -> pPacket e = Some P -> length P = 1480%nat -> ((k < 116)%nat -> agrees k P F) -> md_tcp e = true ->
  cs <> [] -> Forall (fun c => c <> []) cs -> drop k F = List.concat cs -> (k <= length F)%nat ->
  exists e' P', receive_pieces env sd k cs e s
    = Some (repeat TRDP_PACKET_ERR (length cs - 1) ++ [TRDP_NO_ERR], e', set_unc i None s)
    /\ pPacket e' = Some P' /\ agrees (length F) P' F /\ md_grossSize e' = Z.of_nat (length F).
Proof.
  induction cs as [|c cs IH]; intros k e s u P Hi Hu Hk HP HPl HPk Htcp Hcs Hne HF' Hle; [done|].
  inversion Hne as [|? ? Hc0 Hcs0]; subst. cbn [List.concat] in HF'.
  assert (Hlen : (length F - k = length c + length (List.concat cs))%nat) by (rewrite <- length_drop, HF', length_app; done).
  assert (Hc : c = bget k (length c) F) by (unfold bget; rewrite HF'; symmetry; apply take_app_length).
  assert (Hd : drop (k + length c) F = List.concat cs) by (rewrite <- drop_drop, HF'; apply drop_app_length).
  destruct (call_piece k c u P e s Hi Hu Hk HP HPl HPk Hc Hc0 ltac:(lia) Htcp) as (e1 & u1 & P1 & Hcall & Ht1 & HP1 & HPl1 & Hres).
  cbn [receive_pieces]. rewrite Hcall. cbn [mbind option_bind].
  assert (Hl : (i < length (uncompletedTCP s))%nat) by (by eapply lookup_lt_Some).
  destruct cs as [|c' cs'].
  - cbn in Hlen. rewrite (proj2 (Nat.eqb_eq _ _)) in * by lia. destruct Hres as (-> & Ha & Hg). cbn. exists e1, P1. done.
  - assert (0 < length (List.concat (c' :: cs')))%nat.
    { inversion Hcs0 as [|? ? Hc' _]; subst. cbn [List.concat]. rewrite length_app. destruct c'; [done|]. cbn [length]. lia. }
    rewrite (proj2 (Nat.eqb_neq _ _)) in * by lia. destruct Hres as (Hk1 & HPk1).
    destruct (IH (k + length c)%nat e1 (set_unc i u1 s) u1 P1) as (e' & P' & -> & Hrest); try done.
    { unfold set_unc. cbn. by apply list_lookup_insert_eq. } { lia. }
    cbn [mbind option_bind]. rewrite set_unc_twice. exists e', P'. split; [|exact Hrest].
    cbn [length]. replace (S (S (length cs')) - 1)%nat with (S (S (length cs') - 1)) by lia. reflexivity.
Qed.
End Stream.

Lemma unc_same i s : uncompletedTCP s !! i = Some None -> set_unc i None s = s.
Proof. intros H. unfold set_unc. rewrite list_insert_id by done. by destruct s. Qed.


(** ** A connection of the replier to the caller, on descriptor 9 *)
Definition demo_tcp_listen : TRDP_MD_SESSION_T :=
  snd (tlm_addListener (demo_tlm 10 200) (mkLisArgs 66 (Some 901) 2000 0 0 0 TRDP_FLAGS_TCP None) (demo_md demo_replier_ip)).
Definition demo_conn : TRDP_MD_SESSION_T :=
  set_ms_iface (<[0%nat := mkSock 9 0 3 64 TRDP_SOCK_MD_TCP true 0 demo_caller_ip false zero_time false zero_time true false []]>
                  (ms_iface demo_tcp_listen)) demo_tcp_listen.
Definition demo_message : list Z := take 119 demo_frame.
Definition demo_buffer : MD_ELE_T := set_md_pktFlags TRDP_FLAGS_TCP (set_pPacket (Some (repeat 0 1480)) (zero_md 300)).
Definition demo_pieces : list (list Z) := [take 50 demo_message; bget 50 67 demo_message; drop 117 demo_message].
Definition demo_stream (bs : list Z) : md_rcv_env := piece 0 bs (mkMdRcv (demo_env 11 301) (Some 300) true (Some 700) true true
  (fun _ _ => (TRDP_NODATA_ERR, [])) (fun _ _ => (TRDP_NODATA_ERR, [], (0, 0, 0))) (fun _ _ _ => 1)).

Lemma demo_tcp_message : tcp_message demo_message.
Proof.
  split; [split|apply demo_bytes| |]; vm_compute; first [reflexivity|discriminate|lia|split; discriminate].
Qed.


(** The sender pads the message to a multiple of four and sends the padding over TCP too, the receiver
    reads only the bytes the header announces: of two good messages with three bytes of data, sent as
    they stand on one connection, the first is delivered and the second is refused with a wrong
    checksum, since its header is read one byte too early; the connection is then given up. *)
Theorem trdp_mdRecvTCP_padding_desyncs :
  let sent := demo_frame ++ demo_frame in
  (length demo_frame, length demo_message) = (120%nat, 119%nat)
  /\ match trdp_mdRecv (demo_stream sent) 0 demo_conn with
     | Some (err, s1) =>
         (err, told (md_log s1)) = (TRDP_NO_ERR, [(TRDP_NO_ERR, TRDP_MSG_MR, Some [1; 2; 3])])
         /\ match trdp_mdRecv (demo_stream (drop 119 sent)) 0 s1 with
            | Some (err, s2) =>
                err = TRDP_CRC_ERR /\ told (md_log s2) = told (md_log s1)
                /\ sock (entry (tcp_verdict (me_sock (demo_env 11 0)) 0 err s2) 0) = VOS_INVALID_SOCKET
            | None => False
            end
     | None => False
     end.
Proof. vm_compute. repeat split. Qed.
