(* ===== verification/TrdpMdFlaws.v ===== *)
(** * Message data: inputs on which the code misbehaves

    Each theorem runs trdp_mdcom.c or trdp_if.c on a concrete session of [TrdpMdDemo] or [TrdpMdTcp]. *)
From S2P Require Import Prelude Bytes VosTime TrdpTypes TrdpMdTypes TrdpUtils TrdpPd TrdpIf TrdpMd TrdpMdRecv TrdpMdIf TrdpMdDemo TrdpMdTcp.

(** A header and the bytes after it, on the connection of [demo_conn]: the data length is 2^32 - 100. *)
Definition demo_flood : list Z := put32 off_datasetLength (2 ^ 32 - 100) (take 116 demo_message) ++ repeat 0xAA 1400.
Definition flood_stream (bs : list Z) : md_rcv_env :=
  let env := demo_stream bs in
  mkMdRcv (mr_env env) (mr_elem env) (mr_packet env) (mr_unc env) (mr_unc_packet env) (mr_big env)
    (fun header n => (TRDP_NO_ERR, if header then take 116 bs else drop 116 bs)) (mr_recvUDP env) (mr_strnicmp env).

(** The data length of a header that arrives whole is used before the header is checked, and the size
    of the packet wraps around: with the length 2^32 - 100 no larger buffer is allocated and the
    bytes that follow are written past the end of the 1480 that are there. The sum of the header
    is not looked at; any peer that can connect can do this. *)
Theorem trdp_mdRecvTCP_overruns_buffer :
  trdp_packetSizeMD (2 ^ 32 - 100) = 16
  /\ trdp_mdRecv (flood_stream demo_flood) 0 demo_conn = None
  /\ exists err s, trdp_mdRecv (flood_stream (take 1480 demo_flood)) 0 demo_conn = Some (err, s).
Proof. split; [|split]; [vm_compute; reflexivity..|]. eexists _, _. vm_compute. reflexivity. Qed.

(** Two notifications as [tlm_notify] sends them. *)
Definition demo_note (d : list Z) : list Z :=
  hd [] (sent_bytes (md_log (snd (trdp_mdSend (demo_env 10 101)
    (snd (tlm_notify (demo_tlm 10 100) (demo_args d) (demo_md demo_caller_ip))))))).
Definition demo_two_notes (between : TRDP_MD_SESSION_T -> TRDP_MD_SESSION_T) : list (TRDP_ERR_T * Z * option (list Z)) :=
  let s1 := from_option snd demo_listen (trdp_mdRecv (demo_rcv 11 300 demo_caller_ip demo_replier_ip (demo_note [1; 2; 3])) 0 demo_listen) in
  let s2 := from_option snd s1 (trdp_mdRecv (demo_rcv 11 400 demo_caller_ip demo_replier_ip (demo_note [4; 5])) 0 (between s1)) in
  told (md_log s2).

(** A notification carries neither a session identifier nor a sequence counter. While one is still in
    the receive queue, that is until the next call of trdp_mdCheckTimeouts, a second one, also one with
    other data, counts as its repetition and is lost. *)
Theorem trdp_mdRecv_drops_second_notification :
  demo_two_notes id = [(TRDP_NO_ERR, TRDP_MSG_MN, Some [1; 2; 3])]
  /\ demo_two_notes (trdp_mdCheckTimeouts (me_sock (demo_env 11 0)) (fun _ => mkTime 11 0))
     = [(TRDP_NO_ERR, TRDP_MSG_MN, Some [1; 2; 3]); (TRDP_NO_ERR, TRDP_MSG_MN, Some [4; 5])].
Proof. split; vm_compute; reflexivity. Qed.

(** A request that is not repeated. *)
Definition ask_once (t p timeout : Z) (bs : list Z) (s : TRDP_MD_SESSION_T) : TRDP_MD_SESSION_T :=
  snd (tlm_request (demo_tlm t p)
    (mkTlmArgs 55 None 2000 0 0 0 demo_replier_ip 0 (Some (3, 64, 0)) (Some bs) (Z.of_nat (length bs)) None None) 1 timeout s).
Definition sent_at (t : Z) (s : TRDP_MD_SESSION_T) : TRDP_MD_SESSION_T := snd (trdp_mdSend (demo_env t 0) s).
Definition timeouts_at (t : Z) (s : TRDP_MD_SESSION_T) : TRDP_MD_SESSION_T :=
  trdp_mdCheckTimeouts (me_sock (demo_env t 0)) (fun _ => mkTime t 0) s.

(** Trdp_mdCheckTimeouts does not clear its mark between two elements: once a session is over because its
    time-out came, the callback of every session behind it in the queues is called with
    TRDP_UNKNOWN_ERR, although their time is not up. *)
Theorem trdp_mdCheckTimeouts_tells_others :
  let s := sent_at 10 (ask_once 10 110 1000000 [2] (ask_once 10 100 60000000 [1] (demo_md demo_caller_ip))) in
  let after := timeouts_at 12 s in
  map (fun e => (md_ptr e, cmpTime (md_timeToGo e) (mkTime 12 0))) (pMDSndQueue s) = [(110, -1); (100, 1)]
  /\ told (md_log after) = [(TRDP_REPLYTO_ERR, TRDP_MSG_MR, None); (TRDP_UNKNOWN_ERR, TRDP_MSG_MR, None)]
  /\ map md_ptr (pMDSndQueue after) = [100].
Proof. split_and!; vm_compute; reflexivity. Qed.

(** A request that shall wait for ever is over at the next call of trdp_mdCheckTimeouts: the infinite
    time-out is handed on as zero and kept as the interval zero, which nothing takes for infinite
    when the time is compared. *)
Theorem tlm_request_infinite_expires :
  let s := sent_at 10 (ask_once 10 100 TRDP_INFINITE_TIMEOUT [1; 2; 3] (demo_md demo_caller_ip)) in
  let after := timeouts_at 11 s in
  map md_stateEle (pMDSndQueue s) = [TRDP_ST_TX_REQUEST_W4REPLY]
  /\ told (md_log after) = [(TRDP_REPLYTO_ERR, TRDP_MSG_MR, None)] /\ pMDSndQueue after = [].
Proof. split_and!; vm_compute; reflexivity. Qed.

(** The replier that has itself asked cannot end the session of a request: the loop of tlm_abortSession
    looks at the receive queue only when the send queue is empty. *)
Theorem tlm_abortSession_misses_receiver :
  let busy := ask_once 11 800 60000000 [9] demo_got in
  map md_sessionID (pMDRcvQueue demo_got) = [demo_sid]
  /\ fst (tlm_abortSession (demo_tlm 11 0) (Some demo_sid) demo_got) = TRDP_NO_ERR
  /\ tlm_abortSession (demo_tlm 11 0) (Some demo_sid) (set_pMDSndQueue (map (set_md_sessionID (repeat 7 16)) (pMDSndQueue busy)) busy)
     = (TRDP_NOSESSION_ERR, set_pMDSndQueue (map (set_md_sessionID (repeat 7 16)) (pMDSndQueue busy)) busy).
Proof. split_and!; vm_compute; reflexivity. Qed.

(** Without memory for the packet of a reply the element is released, yet it stays in the receive queue
    and the next search walks over it. *)
Definition no_packet (env : tlm_env) : tlm_env :=
  let m := te_md env in
  mkTlm (te_valid env) (te_lock env) (mkMdEnv (me_sock m) (me_elem m) false (me_uuid m) (me_connect m) (me_sendTCP m) (me_sendUDP m))
    (te_listener env) (te_sockListen env).

Theorem tlm_reply_frees_queued_element :
  let '(err, s) := tlm_reply (no_packet (demo_tlm 11 0)) (Some demo_sid) 2001 0 None (Some [4]) 1 demo_got in
  err = TRDP_MEM_ERR /\ freed (md_log s) = [300] /\ map md_ptr (pMDRcvQueue s) = [300].
Proof. vm_compute. repeat split. Qed.

(** Removing a listener counts down although there is none, and by the default of the session. *)
Theorem tlm_delListener_miscounts :
  let '(err, s) := tlm_delListener (demo_tlm 10 0) None (demo_md demo_replier_ip) in
  (err, md_numList (udpMd s), md_numList (tcpMd s)) = (TRDP_NO_ERR, 2 ^ 32 - 1, 0)
  /\ md_numList (udpMd (snd (tlm_delListener (demo_tlm 10 0) (Some 200) demo_tcp_listen))) = 2 ^ 32 - 1
  /\ md_numList (tcpMd (snd (tlm_delListener (demo_tlm 10 0) (Some 200) demo_tcp_listen))) = 1.
Proof. vm_compute. repeat split. Qed.
