(* ===== verification/TrdpStats.v ===== *)
(** * Statistics of the stack

    Models src/app/trdp/tcnopen/trdp_stats.c: the counters of a session, the tables of subscriptions,
    publishers, listeners, redundancy groups and joins handed to the application, and the statistics
    packet that answers a pull request. The counters process data and message data keep in their
    states are members of the record [TRDP_STATISTICS_T]. A table is given as the list of its rows. *)
From S2P Require Import Prelude Bytes VosTime VosString VosMem TrdpTypes TrdpMdTypes TrdpUtils TrdpPd TrdpMd.

(** [TRDP_MEM_STATISTICS_T] *)
Record TRDP_MEM_STATISTICS_T := mkMemStat {
  m_total : Z; m_free : Z; m_minFree : Z; m_numAllocBlocks : Z; m_numAllocErr : Z; m_numFreeErr : Z;
  m_blockSize : list Z; m_usedBlockSize : list Z }.

(** The members of the process data and message data statistics the other files do not keep. *)
Record pd_extra := mkPdExtra { p_defQos : Z; p_defTtl : Z; p_defTimeout : Z; p_numNoSubs : Z; p_numNoPub : Z; p_numMissed : Z }.
Record md_defaults := mkMdDef { d_defQos : Z; d_defTtl : Z; d_defReplyTimeout : Z; d_defConfirmTimeout : Z }.

Record TRDP_STATISTICS_T := mkStats {
  st_version : Z; st_sec : Z; st_usec : Z; st_upTime : Z; st_statisticTime : Z;
  st_hostName : list Z; st_leaderName : list Z;
  st_ownIpAddr : Z; st_leaderIpAddr : Z; st_processPrio : Z; st_processCycle : Z; st_numJoin : Z; st_numRed : Z;
  st_mem : TRDP_MEM_STATISTICS_T; st_pd : TRDP_PD_STATISTICS_T; st_pdx : pd_extra;
  st_udp : md_defaults; st_udpMd : TRDP_MD_STATISTICS_T; st_tcp : md_defaults; st_tcpMd : TRDP_MD_STATISTICS_T }.

Definition TRDP_MAX_LABEL_LEN : nat := 16.
Definition zero_stats : TRDP_STATISTICS_T :=
  let md := mkMdStat 0 0 0 0 0 0 0 0 0 in
  mkStats 0 0 0 0 0 (repeat 0 TRDP_MAX_LABEL_LEN) (repeat 0 TRDP_MAX_LABEL_LEN) 0 0 0 0 0 0
    (mkMemStat 0 0 0 0 0 0 (repeat 0 15) (repeat 0 15)) (mkPdStat 0 0 0 0 0 0 0 0) (mkPdExtra 0 0 0 0 0 0)
    (mkMdDef 0 0 0 0) md (mkMdDef 0 0 0 0) md.

(** "unknown" *)
Definition cUnknown : list Z := [117; 110; 107; 110; 111; 119; 110].

(** [version] is that of the stack: version, release, update, evolution. *)
Definition trdp_initStats (version : Z * Z * Z * Z) : TRDP_STATISTICS_T :=
  let '(ver, rel, upd, evo) := version in
  let label := vos_strncpy (repeat 0 TRDP_MAX_LABEL_LEN) cUnknown (TRDP_MAX_LABEL_LEN - 1) in
  let z := zero_stats in
  mkStats (u32 (ver <<< 24) ||| u32 (rel <<< 16) ||| u32 (upd <<< 8) ||| evo) 0 0 0 0 label label 0 0 0 0 0 0
    (st_mem z) (st_pd z) (st_pdx z) (st_udp z) (st_udpMd z) (st_tcp z) (st_tcpMd z).

(** Everything but the time the session is up is cleared. *)
Definition tlc_resetStatistics (valid : bool) (st : TRDP_STATISTICS_T) : TRDP_ERR_T * TRDP_STATISTICS_T :=
  if negb valid then (TRDP_NOINIT_ERR, st)
  else
    let z := zero_stats in
    (TRDP_NO_ERR, mkStats 0 0 0 (st_upTime st) 0 (st_hostName z) (st_leaderName z) 0 0 0 0 0 0
       (st_mem z) (st_pd z) (st_pdx z) (st_udp z) (st_udpMd z) (st_tcp z) (st_tcpMd z)).

Definition sum_missed (q : list PD_ELE_T) : Z := fold_left (fun acc e => u32 (acc + numMissed e)) q 0.
Definition count_joins (ifc : list TRDP_SOCKETS_T) : Z :=
  fold_left (fun acc x => fold_left (fun acc g => if negb (g =? 0) then u32 (acc + 1) else acc) (mcGroups x) acc) ifc 0.

(** The clock, the time the session was opened, the pool of memory; the queues, sockets and counters of
    process data are those of the session. *)
Definition trdp_UpdateStats (now initTime : TRDP_TIME_T) (g : MEM_CONTROL_T) (s : TRDP_SESSION_T) (st : TRDP_STATISTICS_T)
  : TRDP_STATISTICS_T :=
  let up := u32 (tv_sec (subTime now initTime)) in
  let diff := u32 (st_upTime st - u32 (tv_sec now)) in
  let '(total, free, minFree, blocks, allocErr, freeErr, sizes, used) := vos_memCount g in
  let pd := pd_stats s in
  let x := st_pdx st in
  mkStats (st_version st) (st_sec st) (st_usec st) up (u32 (up - diff)) (st_hostName st) (st_leaderName st)
    (st_ownIpAddr st) (st_leaderIpAddr st) (st_processPrio st) (st_processCycle st)
    (count_joins (take (Z.to_nat VOS_MAX_SOCKET_CNT) (iface s))) (st_numRed st)
    (mkMemStat total free minFree blocks allocErr freeErr sizes used)
    (set_numPub (u16 (Z.of_nat (length (pSndQueue s)))) (set_numSub (u16 (Z.of_nat (length (pRcvQueue s)))) pd))
    (mkPdExtra (p_defQos x) (p_defTtl x) (p_defTimeout x) (p_numNoSubs x) (p_numNoPub x) (sum_missed (pRcvQueue s)))
    (st_udp st) (st_udpMd st) (st_tcp st) (st_tcpMd st).

Definition tlc_getStatistics (valid wanted : bool) (now initTime : TRDP_TIME_T) (g : MEM_CONTROL_T) (s : TRDP_SESSION_T)
    (st : TRDP_STATISTICS_T) : TRDP_ERR_T * option TRDP_STATISTICS_T * TRDP_STATISTICS_T :=
  if negb wanted then (TRDP_PARAM_ERR, None, st)
  else if negb valid then (TRDP_NOINIT_ERR, None, st)
  else let st' := trdp_UpdateStats now initTime g s st in (TRDP_NO_ERR, Some st', st').

(** ** The tables *)

(** The arguments every table function checks: the session, the number and the memory for the rows. *)
Definition table_args (valid : bool) (n : option Z) (room : bool) : TRDP_ERR_T :=
  if negb valid then TRDP_NOINIT_ERR
  else match n with Some k => if negb room || (k =? 0) then TRDP_PARAM_ERR else TRDP_NO_ERR | None => TRDP_PARAM_ERR end.

(** A row for each element while there is room; whether elements are left. *)
Fixpoint fill_rows {A B} (row : A -> B) (n : nat) (q : list A) : list B * bool :=
  match q, n with
  | [], _ => ([], false)
  | _, O => ([], true)
  | e :: q', S n' => let '(rows, more) := fill_rows row n' q' in (row e :: rows, more)
  end.

Definition table {A B} (row : A -> B) (valid : bool) (n : option Z) (room : bool) (q : list A) : TRDP_ERR_T * option Z * list B :=
  match table_args valid n room with
  | TRDP_NO_ERR => let '(rows, more) := fill_rows row (Z.to_nat (default 0 n)) q in
                   (if more then TRDP_MEM_ERR else TRDP_NO_ERR, Some (Z.of_nat (length rows)), rows)
  | err => (err, n, [])
  end.

Definition micros (t : TRDP_TIME_T) : Z := u32 (u32 (tv_usec t) + u32 (u32 (tv_sec t) * 1000000)).

Record TRDP_SUBS_STATISTICS_T := mkSubs {
  sb_comId : Z; sb_joinedAddr : Z; sb_filterAddr : Z; sb_callBack : Z; sb_userRef : Z; sb_timeout : Z; sb_status : TRDP_ERR_T;
  sb_toBehav : TRDP_TO_BEHAVIOR_T; sb_numRecv : Z; sb_numMissed : Z }.

Definition subs_row (e : PD_ELE_T) : TRDP_SUBS_STATISTICS_T :=
  mkSubs (comId (addr e)) (mcGroup (addr e)) (srcIpAddr (addr e)) (u32 (default 0 (pfCbFunction e))) (u32 (pUserRef e))
    (micros (interval e)) (lastErr e) (toBehavior e) (numRxTx e) (numMissed e).

Definition tlc_getSubsStatistics (valid : bool) (n : option Z) (room : bool) (s : TRDP_SESSION_T) := table subs_row valid n room (pRcvQueue s).

Record TRDP_PUB_STATISTICS_T := mkPub {
  pb_comId : Z; pb_destAddr : Z; pb_cycle : Z; pb_redId : Z; pb_redState : Z; pb_numPut : Z; pb_numSend : Z }.

(** The group is that of the session, which nothing sets, not that of the publisher. *)
Definition pub_row (redID : Z) (e : PD_ELE_T) : TRDP_PUB_STATISTICS_T :=
  mkPub (comId (addr e)) (destIpAddr (addr e)) (micros (interval e)) redID (b2z (flag (privFlags e) TRDP_REDUNDANT)) (updPkts e) (numRxTx e).

Definition tlc_getPubStatistics (valid : bool) (redID : Z) (n : option Z) (room : bool) (s : TRDP_SESSION_T) :=
  table (pub_row redID) valid n room (pSndQueue s).

Definition tlc_getJoinStatistics (valid : bool) (n : option Z) (room : bool) (s : TRDP_SESSION_T) :=
  table (fun e => mcGroup (addr e)) valid n room (pRcvQueue s).

Record TRDP_LIST_STATISTICS_T := mkListStat {
  ls_comId : Z; ls_uri : list Z; ls_joinedAddr : Z; ls_callBack : Z; ls_userRef : Z; ls_numSessions : Z }.

Definition list_row (l : MD_LIS_ELE_T) : TRDP_LIST_STATISTICS_T :=
  mkListStat (comId (lis_addr l)) (vos_strncpy (repeat 0 33) (lis_destURI l) TRDP_MAX_URI_USER_LEN) (mcGroup (lis_addr l))
    (u32 (default 0 (lis_cb l))) (u32 (lis_pUserRef l)) (numSessions l).

(** The listeners of one transport; more of them than rows is no error. *)
Definition list_table (tcp : bool) (valid : bool) (n : option Z) (room : bool) (m : TRDP_MD_SESSION_T) :=
  match table_args valid n room with
  | TRDP_NO_ERR =>
      let '(rows, _) := fill_rows list_row (Z.to_nat (default 0 n))
                          (List.filter (fun l => eqb (flag (lis_pktFlags l) TRDP_FLAGS_TCP) tcp) (pMDListenQueue m)) in
      (TRDP_NO_ERR, Some (Z.of_nat (length rows)), rows)
  | err => (err, n, [])
  end.
Definition tlc_getUdpListStatistics := list_table false.
Definition tlc_getTcpListStatistics := list_table true.

Record TRDP_RED_STATISTICS_T := mkRed { rd_id : Z; rd_state : Z }.
Definition TRDP_RED_FOLLOWER : Z := 0.
Definition TRDP_RED_LEADER : Z := 1.
Definition red_row (e : PD_ELE_T) : TRDP_RED_STATISTICS_T :=
  mkRed (redId e) (if flag (privFlags e) TRDP_REDUNDANT then TRDP_RED_FOLLOWER else TRDP_RED_LEADER).

(** Its pointers are not checked; a row for each publisher with a group. *)
Definition tlc_getRedStatistics (valid : bool) (n : Z) (s : TRDP_SESSION_T) : TRDP_ERR_T * Z * list TRDP_RED_STATISTICS_T :=
  if negb valid then (TRDP_NOINIT_ERR, n, [])
  else let '(rows, _) := fill_rows red_row (Z.to_nat n) (List.filter (fun e => negb (redId e =? 0)) (pSndQueue s)) in
       (TRDP_NO_ERR, Z.of_nat (length rows), rows).

(** ** The statistics packet *)
Definition sizeof_TRDP_STATISTICS_T : nat := 380.

Definition mem_words (m : TRDP_MEM_STATISTICS_T) : list Z :=
  [m_total m; m_free m; m_minFree m; m_numAllocBlocks m; m_numAllocErr m; m_numFreeErr m]
  ++ take 15 (m_blockSize m) ++ take 15 (m_usedBlockSize m).
Definition pd_words (p : TRDP_PD_STATISTICS_T) (x : pd_extra) : list Z :=
  [p_defQos x; p_defTtl x; p_defTimeout x; numSub p; numPub p; numRcv p; numCrcErr p; numProtErr p; numTopoErr p;
   p_numNoSubs x; p_numNoPub x; numTimeout p; numSend p; p_numMissed x].
Definition md_words (d : md_defaults) (m : TRDP_MD_STATISTICS_T) : list Z :=
  [d_defQos d; d_defTtl d; d_defReplyTimeout d; d_defConfirmTimeout d; md_numList m; md_numRcv m; md_numCrcErr m; md_numProtErr m;
   md_numTopoErr m; md_numNoListener m; md_numReplyTimeout m; md_numConfirmTimeout m; md_numSend m].

(** The 32-bit members before the names, between the names and the joins, and after the groups. *)
Definition head_words (st : TRDP_STATISTICS_T) : list Z :=
  [st_version st; st_sec st; st_usec st; st_upTime st; st_statisticTime st].
Definition id_words (st : TRDP_STATISTICS_T) : list Z :=
  [st_ownIpAddr st; st_leaderIpAddr st; st_processPrio st; st_processCycle st].
Definition tail_words (st : TRDP_STATISTICS_T) : list Z :=
  mem_words (st_mem st) ++ pd_words (st_pd st) (st_pdx st) ++ md_words (st_udp st) (st_udpMd st) ++ md_words (st_tcp st) (st_tcpMd st).

(** Storing words one after the other. *)
Fixpoint put_words (off : nat) (l : list Z) (f : list Z) : list Z :=
  match l with [] => f | v :: l' => put_words (off + 4) l' (put32 off v f) end.

(** A label: 15 characters, filled up with zeros; the last byte keeps its value. *)
Definition put_label (off : nat) (label f : list Z) : list Z :=
  let n := (TRDP_MAX_LABEL_LEN - 1)%nat in
  bput off (take n (cstr (take n label) ++ repeat 0 n)) f.

(** The data of the frame: the joins and the groups (bytes 68 to 75) are not written. *)
Definition stats_data (st : TRDP_STATISTICS_T) (f : list Z) : list Z :=
  put_words 76 (tail_words st)
    (put_label 36 (st_leaderName st) (put_label 20 (st_hostName st)
      (put_words 52 (id_words st) (put_words 0 (head_words st) f)))).

(** The whole function: the frame of the publisher gets the statistics of now. *)
Definition prepare_stats (now initTime : TRDP_TIME_T) (g : MEM_CONTROL_T) (s : TRDP_SESSION_T) (st : TRDP_STATISTICS_T) (e : PD_ELE_T)
  : PD_ELE_T * TRDP_STATISTICS_T :=
  let st' := trdp_UpdateStats now initTime g s st in
  (trdp_pdPrepareStats (stats_data st' (bget off_data sizeof_TRDP_STATISTICS_T (pFrame e))) e, st').

(** * Properties *)

(** ** The tables *)
Lemma fill_rows_spec {A B} (row : A -> B) n q :
  fill_rows row n q = (map row (take n q), (n <? length q)%nat).
Proof.
  revert n. induction q as [|e q IH]; intros [|n]; cbn [fill_rows take map length]; try done. rewrite IH. done.
Qed.

(** The table of subscriptions holds, for a valid session and room for [n] rows, one row for each of the first
    [n] elements of the receive queue in their order; TRDP_MEM_ERR says that there are more of them
    and nothing else does; other calls write nothing. The tables of publishers and of joins are
    made in the same way. *)
Theorem tlc_getSubsStatistics_rows valid n room s :
  tlc_getSubsStatistics valid n room s
  = match n with
    | Some k => if negb valid then (TRDP_NOINIT_ERR, n, [])
                else if negb room || (k =? 0) then (TRDP_PARAM_ERR, n, [])
                else let rows := map subs_row (take (Z.to_nat k) (pRcvQueue s)) in
                     (if (Z.to_nat k <? length (pRcvQueue s))%nat then TRDP_MEM_ERR else TRDP_NO_ERR, Some (Z.of_nat (length rows)), rows)
    | None => (if valid then TRDP_PARAM_ERR else TRDP_NOINIT_ERR, n, [])
    end.
Proof.
  unfold tlc_getSubsStatistics, table, table_args. destruct valid, n as [k|]; try reflexivity. cbn [negb].
  destruct (negb room || (k =? 0)); [done|]. by rewrite fill_rows_spec.
Qed.

(** ** The packet *)
Lemma put_words_length l : forall off f, length (put_words off l f) = length f.
Proof. induction l as [|v l IH]; intros off f; [done|]. cbn [put_words]. by rewrite IH, put32_length. Qed.

Lemma put_label_length off l f : length (put_label off l f) = length f.
Proof. unfold put_label. cbv zeta. apply bput_length. Qed.

Lemma put_words_other l : forall off f off' n, (off' + n <= off \/ off + 4 * length l <= off')%nat -> bget off' n (put_words off l f) = bget off' n f.
Proof.
  induction l as [|v l IH]; intros off f off' n H; [done|]. cbn [put_words length] in *. rewrite IH by lia.
  apply bget_bput_other. rewrite be_bytes_length. lia.
Qed.

Lemma put_words_get l : forall off f k v, (off + 4 * length l <= length f)%nat -> l !! k = Some v -> get32 (off + 4 * k) (put_words off l f) = u32 v.
Proof.
  induction l as [|x l IH]; intros off f k v Hl Hk; [done|]. cbn [put_words length] in *. destruct k as [|k].
  - injection Hk as ->. rewrite Nat.mul_0_r, Nat.add_0_r. unfold get32. rewrite put_words_other by lia. apply get32_put32. lia.
  - replace (off + 4 * S k)%nat with (off + 4 + 4 * k)%nat by lia. apply IH; [rewrite put32_length; lia|done].
Qed.

Lemma label_bytes_length (label : list Z) : length (take 15 (cstr (take 15 label) ++ repeat 0 15)) = 15%nat.
Proof. rewrite length_take, length_app, repeat_length. lia. Qed.

Lemma put_label_other off label f off' n : (off' + n <= off \/ off + 15 <= off')%nat -> bget off' n (put_label off label f) = bget off' n f.
Proof. intros H. unfold put_label. apply bget_bput_other. change (TRDP_MAX_LABEL_LEN - 1)%nat with 15%nat. rewrite label_bytes_length. lia. Qed.

Lemma words_get_other l off f off' : (off' + 4 <= off \/ off + 4 * length l <= off')%nat -> get32 off' (put_words off l f) = get32 off' f.
Proof. intros H. unfold get32. by rewrite put_words_other. Qed.
Lemma label_get_other off label f off' : (off' + 4 <= off \/ off + 15 <= off')%nat -> get32 off' (put_label off label f) = get32 off' f.
Proof. intros H. unfold get32. by rewrite put_label_other. Qed.

(** A label: a string of up to 15 characters, then zeros. *)
Definition label_ok (l : list Z) : Prop := l = take 15 (cstr (take 15 l) ++ repeat 0 15) ++ [0].

Lemma put_label_get off label f : label_ok label -> (off + 16 <= length f)%nat -> f !! (off + 15)%nat = Some 0 ->
  bget off 16 (put_label off label f) = label.
Proof.
  intros Hl Hf H0. unfold put_label. change (TRDP_MAX_LABEL_LEN - 1)%nat with 15%nat. cbv zeta. unfold label_ok in Hl.
  pose proof (label_bytes_length label) as Hb. set (bs := take 15 _) in *. clearbody bs. subst label. apply list_eq. intros i.
  rewrite lookup_bget. destruct (Nat.ltb_spec i 16).
  - rewrite lookup_bput by lia. rewrite (proj2 (Nat.ltb_ge (off + i) off)) by lia. rewrite Hb. destruct (Nat.ltb_spec (off + i) (off + 15)).
    + rewrite lookup_app_l by lia. f_equal. lia.
    + replace i with 15%nat by lia. rewrite H0, lookup_app_r by lia. by rewrite Hb.
  - symmetry. apply lookup_ge_None. rewrite length_app. cbn. lia.
Qed.

(** The members of a packet, read where the structure has them. *)
Definition read_mem (d : list Z) : TRDP_MEM_STATISTICS_T :=
  mkMemStat (get32 76 d) (get32 80 d) (get32 84 d) (get32 88 d) (get32 92 d) (get32 96 d)
    (map (fun k => get32 (100 + 4 * k) d) (seq 0 15)) (map (fun k => get32 (160 + 4 * k) d) (seq 0 15)).
Definition read_md_defaults (off : nat) (d : list Z) : md_defaults :=
  mkMdDef (get32 off d) (get32 (off + 4) d) (get32 (off + 8) d) (get32 (off + 12) d).
Definition read_md (off : nat) (d : list Z) : TRDP_MD_STATISTICS_T :=
  mkMdStat (get32 (off + 16) d) (get32 (off + 20) d) (get32 (off + 24) d) (get32 (off + 28) d) (get32 (off + 32) d) (get32 (off + 36) d)
    (get32 (off + 40) d) (get32 (off + 44) d) (get32 (off + 48) d).
Definition read_stats (d : list Z) : TRDP_STATISTICS_T :=
  mkStats (get32 0 d) (get32 4 d) (get32 8 d) (get32 12 d) (get32 16 d) (bget 20 16 d) (bget 36 16 d)
    (get32 52 d) (get32 56 d) (get32 60 d) (get32 64 d) (get32 68 d) (get32 72 d) (read_mem d)
    (mkPdStat (get32 232 d) (get32 236 d) (get32 240 d) (get32 244 d) (get32 248 d) (get32 252 d) (get32 264 d) (get32 268 d))
    (mkPdExtra (get32 220 d) (get32 224 d) (get32 228 d) (get32 256 d) (get32 260 d) (get32 272 d))
    (read_md_defaults 276 d) (read_md 276 d) (read_md_defaults 328 d) (read_md 328 d).

(** The joins and the groups are not in the packet. *)
Definition without_joins (joins red : Z) (st : TRDP_STATISTICS_T) : TRDP_STATISTICS_T :=
  mkStats (st_version st) (st_sec st) (st_usec st) (st_upTime st) (st_statisticTime st) (st_hostName st) (st_leaderName st)
    (st_ownIpAddr st) (st_leaderIpAddr st) (st_processPrio st) (st_processCycle st) joins red
    (st_mem st) (st_pd st) (st_pdx st) (st_udp st) (st_udpMd st) (st_tcp st) (st_tcpMd st).

Record stats_ok (st : TRDP_STATISTICS_T) : Prop := mkStatsOk {
  sk_words : Forall (fun v => 0 <= v < 4294967296) (head_words st ++ id_words st ++ tail_words st);
  sk_sizes : length (m_blockSize (st_mem st)) = 15%nat /\ length (m_usedBlockSize (st_mem st)) = 15%nat;
  sk_labels : label_ok (st_hostName st) /\ label_ok (st_leaderName st) }.

Section Packet.
Context (st : TRDP_STATISTICS_T) (f : list Z) (Hst : stats_ok st) (Hf : length f = sizeof_TRDP_STATISTICS_T).

Lemma tail_length : length (tail_words st) = 76%nat.
Proof. destruct (sk_sizes _ Hst) as [H1 H2]. unfold tail_words, mem_words. rewrite !length_app, !length_take, H1, H2. done. Qed.

Lemma word_in v l : v ∈ l -> incl l (head_words st ++ id_words st ++ tail_words st) -> u32 v = v.
Proof.
  intros Hv Hl. apply u32_small. pose proof (sk_words _ Hst) as H. rewrite list.Forall_forall in H. apply H.
  apply list_elem_of_In. apply Hl. by apply list_elem_of_In.
Qed.

Lemma head_read k v : head_words st !! k = Some v -> get32 (4 * k) (stats_data st f) = v.
Proof.
  intros Hk. pose proof (lookup_lt_Some _ _ _ Hk) as Hlt. cbn in Hlt. unfold stats_data.
  rewrite words_get_other, !label_get_other, words_get_other by lia. change (get32 (4 * k)) with (get32 (0 + 4 * k)).
  rewrite (put_words_get (head_words st) 0 f k v) by (rewrite ?Hf; done || (cbv; lia)).
  apply (word_in v (head_words st)); [by eapply list_elem_of_lookup_2|]. intros x Hx. apply in_or_app. by left.
Qed.

Lemma id_read k v : id_words st !! k = Some v -> get32 (52 + 4 * k) (stats_data st f) = v.
Proof.
  intros Hk. pose proof (lookup_lt_Some _ _ _ Hk) as Hlt. cbn in Hlt. unfold stats_data.
  rewrite words_get_other, !label_get_other by lia.
  rewrite (put_words_get (id_words st) 52 _ k v) by (rewrite ?put_words_length, ?Hf; done || (cbv; lia)).
  apply (word_in v (id_words st)); [by eapply list_elem_of_lookup_2|]. intros x Hx. apply in_or_app. right. apply in_or_app. by left.
Qed.

Lemma tail_read k v : tail_words st !! k = Some v -> get32 (76 + 4 * k) (stats_data st f) = v.
Proof.
  intros Hk. unfold stats_data.
  rewrite (put_words_get (tail_words st) 76 _ k v) by (rewrite ?put_label_length, ?put_words_length, ?tail_length, ?Hf; done || (cbv; lia)).
  apply (word_in v (tail_words st)); [by eapply list_elem_of_lookup_2|]. intros x Hx. apply in_or_app. right. apply in_or_app. by right.
Qed.
End Packet.

Section Read.
Context (st : TRDP_STATISTICS_T) (f : list Z) (Hst : stats_ok st) (Hf : length f = sizeof_TRDP_STATISTICS_T).

(** The word at [off] of the packet, by its number among the last members. *)
Lemma word_at off k v : off = (76 + 4 * k)%nat -> tail_words st !! k = Some v -> get32 off (stats_data st f) = v.
Proof. intros -> H. by apply tail_read. Qed.

(** The tables of block sizes, 15 words from [off] on. *)
Lemma words_at off k l : off = (76 + 4 * k)%nat -> (forall i, (i < 15)%nat -> tail_words st !! (k + i)%nat = l !! i) -> length l = 15%nat ->
  map (fun i => get32 (off + 4 * i) (stats_data st f)) (seq 0 15) = l.
Proof.
  intros -> H Hl. apply list_eq. intros i. destruct (Nat.lt_ge_cases i 15) as [Hi|Hi].
  - destruct (lookup_lt_is_Some_2 l i) as [v Hv]; [lia|]. rewrite Hv, list_lookup_fmap. rewrite lookup_seq_lt by lia. cbn [fmap option_fmap option_map].
    f_equal. apply word_at with (k := (k + i)%nat); [lia|]. by rewrite H.
  - rewrite !lookup_ge_None_2; [done|lia|]. by rewrite length_map, length_seq.
Qed.

Lemma mem_read : read_mem (stats_data st f) = st_mem st.
Proof.
  destruct (sk_sizes _ Hst) as [H1 H2]. unfold read_mem.
  assert (Hb : map (fun i => get32 (100 + 4 * i) (stats_data st f)) (seq 0 15) = m_blockSize (st_mem st)).
  { apply (words_at 100 6); [done| |done]. intros i Hi. unfold tail_words, mem_words. rewrite <- !app_assoc.
    rewrite lookup_app_r by (cbn; lia). cbn [length]. replace (6 + i - 6)%nat with i by lia.
    rewrite lookup_app_l by (rewrite length_take; lia). apply lookup_take_lt. lia. }
  assert (Hu : map (fun i => get32 (160 + 4 * i) (stats_data st f)) (seq 0 15) = m_usedBlockSize (st_mem st)).
  { apply (words_at 160 21); [done| |done]. intros i Hi. unfold tail_words, mem_words. rewrite <- !app_assoc.
    rewrite lookup_app_r by (cbn; lia). cbn [length]. rewrite lookup_app_r by (rewrite length_take; lia). rewrite length_take, H1.
    rewrite lookup_app_l by (rewrite length_take; lia). replace (21 + i - 6 - (15 `min` 15))%nat with i by lia. apply lookup_take_lt. lia. }
  rewrite Hb, Hu. rewrite (word_at 76 0 (m_total (st_mem st))), (word_at 80 1 (m_free (st_mem st))), (word_at 84 2 (m_minFree (st_mem st))),
    (word_at 88 3 (m_numAllocBlocks (st_mem st))), (word_at 92 4 (m_numAllocErr (st_mem st))), (word_at 96 5 (m_numFreeErr (st_mem st))) by reflexivity.
  by destruct (st_mem st).
Qed.

(** The [k]th word after the memory statistics. *)
Lemma later_word off k v : off = (220 + 4 * k)%nat ->
  (pd_words (st_pd st) (st_pdx st) ++ md_words (st_udp st) (st_udpMd st) ++ md_words (st_tcp st) (st_tcpMd st)) !! k = Some v ->
  get32 off (stats_data st f) = v.
Proof.
  intros -> H. apply (word_at _ (36 + k)); [lia|]. destruct (sk_sizes _ Hst) as [H1 H2]. unfold tail_words.
  assert (Hl : length (mem_words (st_mem st)) = 36%nat) by (unfold mem_words; rewrite !length_app, !length_take, H1, H2; done).
  rewrite lookup_app_r by lia. rewrite Hl. by replace (36 + k - 36)%nat with k by lia.
Qed.

Lemma pd_read : (get32 220 (stats_data st f), get32 224 (stats_data st f), get32 228 (stats_data st f), get32 232 (stats_data st f),
    get32 236 (stats_data st f), get32 240 (stats_data st f), get32 244 (stats_data st f)) =
  (p_defQos (st_pdx st), p_defTtl (st_pdx st), p_defTimeout (st_pdx st), numSub (st_pd st), numPub (st_pd st), numRcv (st_pd st), numCrcErr (st_pd st))
  /\ (get32 248 (stats_data st f), get32 252 (stats_data st f), get32 256 (stats_data st f), get32 260 (stats_data st f),
    get32 264 (stats_data st f), get32 268 (stats_data st f), get32 272 (stats_data st f)) =
  (numProtErr (st_pd st), numTopoErr (st_pd st), p_numNoSubs (st_pdx st), p_numNoPub (st_pdx st), numTimeout (st_pd st), numSend (st_pd st), p_numMissed (st_pdx st)).
Proof.
  split; [rewrite (later_word 220 0 (p_defQos (st_pdx st))), (later_word 224 1 (p_defTtl (st_pdx st))), (later_word 228 2 (p_defTimeout (st_pdx st))),
    (later_word 232 3 (numSub (st_pd st))), (later_word 236 4 (numPub (st_pd st))), (later_word 240 5 (numRcv (st_pd st))), (later_word 244 6 (numCrcErr (st_pd st)))|
    rewrite (later_word 248 7 (numProtErr (st_pd st))), (later_word 252 8 (numTopoErr (st_pd st))), (later_word 256 9 (p_numNoSubs (st_pdx st))),
    (later_word 260 10 (p_numNoPub (st_pdx st))), (later_word 264 11 (numTimeout (st_pd st))), (later_word 268 12 (numSend (st_pd st))), (later_word 272 13 (p_numMissed (st_pdx st)))];
  reflexivity.
Qed.

(** The 13 words of message data that start [k] words after the memory statistics. *)
Lemma md_read off k d m : off = (220 + 4 * k)%nat ->
  (forall i v, md_words d m !! i = Some v -> (pd_words (st_pd st) (st_pdx st) ++ md_words (st_udp st) (st_udpMd st) ++ md_words (st_tcp st) (st_tcpMd st)) !! (k + i)%nat = Some v) ->
  read_md_defaults off (stats_data st f) = d /\ read_md off (stats_data st f) = m.
Proof.
  intros -> H. set (b := (220 + 4 * k)%nat). assert (E : forall o i v, o = (b + 4 * i)%nat -> md_words d m !! i = Some v -> get32 o (stats_data st f) = v).
  { intros o i v -> Hv. apply (later_word _ (k + i)); [unfold b; lia|by apply H]. }
  unfold read_md_defaults, read_md. split.
  - rewrite (E b 0%nat _ ltac:(lia) eq_refl), (E (b + 4)%nat 1%nat _ eq_refl eq_refl), (E (b + 8)%nat 2%nat _ eq_refl eq_refl),
      (E (b + 12)%nat 3%nat _ eq_refl eq_refl). by destruct d.
  - rewrite (E (b + 16)%nat 4%nat _ eq_refl eq_refl), (E (b + 20)%nat 5%nat _ eq_refl eq_refl), (E (b + 24)%nat 6%nat _ eq_refl eq_refl),
      (E (b + 28)%nat 7%nat _ eq_refl eq_refl), (E (b + 32)%nat 8%nat _ eq_refl eq_refl), (E (b + 36)%nat 9%nat _ eq_refl eq_refl),
      (E (b + 40)%nat 10%nat _ eq_refl eq_refl), (E (b + 44)%nat 11%nat _ eq_refl eq_refl), (E (b + 48)%nat 12%nat _ eq_refl eq_refl). by destruct m.
Qed.

Lemma names_read : f !! 35%nat = Some 0 -> f !! 51%nat = Some 0 ->
  bget 20 16 (stats_data st f) = st_hostName st /\ bget 36 16 (stats_data st f) = st_leaderName st.
Proof.
  intros H1 H2. destruct (sk_labels _ Hst) as [Hh Hl]. unfold stats_data. rewrite !put_words_other by lia.
  set (f1 := put_words 52 _ _). assert (Hf1 : length f1 = 380%nat) by (unfold f1; rewrite !put_words_length; exact Hf).
  assert (Hsame : forall i, (20 <= i < 52)%nat -> f1 !! i = f !! i).
  { intros i Hi. apply lookup_of_bget. unfold f1. rewrite !put_words_other; [done|cbn; lia|cbn; lia]. }
  split.
  - rewrite put_label_other by lia. apply put_label_get; [done|lia|]. by rewrite Hsame by lia.
  - apply put_label_get; [done|rewrite put_label_length; lia|].
    rewrite (lookup_of_bget _ f1) by (apply put_label_other; lia). by rewrite Hsame by lia.
Qed.

Lemma joins_read : get32 68 (stats_data st f) = get32 68 f /\ get32 72 (stats_data st f) = get32 72 f.
Proof.
  unfold stats_data. rewrite !words_get_other, !label_get_other, !words_get_other by (cbn; lia). done.
Qed.

Lemma stats_data_read : f !! 35%nat = Some 0 -> f !! 51%nat = Some 0 ->
  read_stats (stats_data st f) = without_joins (get32 68 f) (get32 72 f) st.
Proof.
  intros H1 H2. unfold read_stats, without_joins. rewrite mem_read.
  destruct (md_read 276 14 (st_udp st) (st_udpMd st) eq_refl) as [-> ->].
  { intros i v Hv. rewrite lookup_app_r by (cbn; lia). cbn [length pd_words]. replace (14 + i - 14)%nat with i by lia.
    by rewrite lookup_app_l by (by eapply lookup_lt_Some). }
  destruct (md_read 328 27 (st_tcp st) (st_tcpMd st) eq_refl) as [-> ->].
  { intros i v Hv. rewrite lookup_app_r by (cbn; lia). cbn [length pd_words]. rewrite lookup_app_r by (cbn; lia). cbn [length md_words].
    by replace (27 + i - 14 - 13)%nat with i by lia. }
  destruct pd_read as [Hp Hq]. injection Hp as -> -> -> -> -> -> ->. injection Hq as -> -> -> -> -> -> ->.
  destruct (names_read H1 H2) as [-> ->]. destruct joins_read as [-> ->].
  pose proof (fun k => head_read st f Hst Hf k) as Hh. pose proof (fun k => id_read st f Hst Hf k) as Hi.
  rewrite (Hh 0%nat _ eq_refl : get32 0 (stats_data st f) = st_version st), (Hh 1%nat _ eq_refl : get32 4 (stats_data st f) = st_sec st),
    (Hh 2%nat _ eq_refl : get32 8 (stats_data st f) = st_usec st), (Hh 3%nat _ eq_refl : get32 12 (stats_data st f) = st_upTime st),
    (Hh 4%nat _ eq_refl : get32 16 (stats_data st f) = st_statisticTime st).
  rewrite (Hi 0%nat _ eq_refl : get32 52 (stats_data st f) = st_ownIpAddr st), (Hi 1%nat _ eq_refl : get32 56 (stats_data st f) = st_leaderIpAddr st),
    (Hi 2%nat _ eq_refl : get32 60 (stats_data st f) = st_processPrio st), (Hi 3%nat _ eq_refl : get32 64 (stats_data st f) = st_processCycle st).
  f_equal; [by destruct (st_pd st)|by destruct (st_pdx st)].
Qed.
End Read.

(** The whole packet: the statistics of the moment, every member in network order where the structure has it;
    only the joins and the groups are what stood in the frame before. *)
Theorem trdp_pdPrepareStats_packet now initTime g s st e : let st' := trdp_UpdateStats now initTime g s st in
  let before := bget off_data sizeof_TRDP_STATISTICS_T (pFrame e) in
  stats_ok st' -> (off_data + sizeof_TRDP_STATISTICS_T <= length (pFrame e))%nat -> before !! 35%nat = Some 0 -> before !! 51%nat = Some 0 ->
  exists e', prepare_stats now initTime g s st e = (e', st')
    /\ dataSize e' = 380 /\ flag (privFlags e') TRDP_INVALID_DATA = false /\ take off_data (pFrame e') = take off_data (pFrame e)
    /\ read_stats (bget off_data sizeof_TRDP_STATISTICS_T (pFrame e')) = without_joins (get32 68 before) (get32 72 before) st'.
Proof.
  intros st' before Hok Hroom Hl1 Hl2. eexists. split; [reflexivity|].
  assert (Hbl : length before = sizeof_TRDP_STATISTICS_T) by (by apply bget_length).
  fold st'. fold before. pose proof (stats_data_read st' before Hok Hbl Hl1 Hl2) as Hd. clearbody st'. set (d := stats_data st' before) in *.
  assert (Hdl : length d = sizeof_TRDP_STATISTICS_T).
  { unfold d, stats_data. by rewrite put_words_length, !put_label_length, !put_words_length. }
  unfold trdp_pdPrepareStats. cbn [dataSize privFlags pFrame set_privFlags set_dataSize on_frame].
  split; [by rewrite Hdl|]. split; [apply clear_flag_spec; by right|]. split.
  { exact (bget_bput_other 0 off_data off_data d (pFrame e) (or_introl (le_n _))). }
  assert (E : bget off_data sizeof_TRDP_STATISTICS_T (bput off_data d (pFrame e)) = d).
  { rewrite <- Hdl. apply bget_bput_same. by rewrite Hdl. }
  change (pFrame (on_frame (bput off_data d) e)) with (bput off_data d (pFrame e)). by rewrite E.
Qed.

(** ** Examples *)
Definition demo_session : TRDP_SESSION_T :=
  let e := mkPD 1 0 (mkAddr 1000 0 0 0xEF000001 0 0) 0 0 7 0 0 None 5 0 0 3 TRDP_NO_ERR 0 0 (mkTime 0 100000) zero_time TRDP_TO_DEFAULT
             0 0 0 0 0 None (repeat 0 (40 + sizeof_TRDP_STATISTICS_T)) in
  mkSession 0x0a000001 0 0 zero_time (mkPdCfg None 0 5 64 0 100000 TRDP_TO_SET_TO_ZERO 17224) 0
    [mkSock 9 0 5 64 TRDP_SOCK_PD false 1 0 false zero_time false zero_time false false [0xEF000001; 0xEF000002]]
    None None [e] [e; e] [] (mkPdStat 0 0 11 1 0 0 2 7).
Definition demo_element : PD_ELE_T := hd (mkPD 0 0 zero_addr 0 0 0 0 0 None 0 0 0 0 TRDP_NO_ERR 0 0 zero_time zero_time TRDP_TO_DEFAULT 0 0 0 0 0 None [])
  (pSndQueue demo_session).
Definition demo_pool : MEM_CONTROL_T := snd (vos_memInit true true None (Some 4096) 640000 None gMem_init).
Definition demo_stats : TRDP_STATISTICS_T := trdp_initStats (1, 2, 3, 4).

Lemma words_small (l : list Z) : forallb (fun v => (0 <=? v) && (v <? 4294967296)) l = true -> Forall (fun v => 0 <= v < 4294967296) l.
Proof.
  intros H. apply list.Forall_forall. intros v Hv. rewrite forallb_forall in H. apply list_elem_of_In in Hv. apply H in Hv. bprop. lia.
Qed.

Lemma trdp_pdPrepareStats_packet_witness :
  exists e', prepare_stats (mkTime 1000 0) (mkTime 900 0) demo_pool demo_session demo_stats demo_element
             = (e', trdp_UpdateStats (mkTime 1000 0) (mkTime 900 0) demo_pool demo_session demo_stats)
    /\ let d := read_stats (bget off_data sizeof_TRDP_STATISTICS_T (pFrame e')) in
       (st_version d, st_upTime d, st_hostName d, numSub (st_pd d), numPub (st_pd d), numRcv (st_pd d), p_numMissed (st_pdx d), m_total (st_mem d))
       = (0x01020304, 100, cUnknown ++ repeat 0 9, 2, 1, 11, 6, 640000).
Proof.
  destruct (trdp_pdPrepareStats_packet (mkTime 1000 0) (mkTime 900 0) demo_pool demo_session demo_stats demo_element) as (e' & He & _ & _ & _ & Hd).
  - split; [|split; vm_compute; reflexivity|split; vm_compute; reflexivity].
    apply words_small. vm_compute. reflexivity.
  - vm_compute. lia.
  - vm_compute. reflexivity.
  - vm_compute. reflexivity.
  - exists e'. split; [exact He|]. cbv zeta. rewrite Hd. vm_compute. reflexivity.
Defined.

(** Two joined groups are counted, but the packet announces none: numJoin and numRed are never written. *)
Theorem trdp_pdPrepareStats_omits_joins :
  let '(e', st') := prepare_stats (mkTime 1000 0) (mkTime 900 0) demo_pool demo_session demo_stats demo_element in
  st_numJoin st' = 2 /\ st_numJoin (read_stats (bget off_data sizeof_TRDP_STATISTICS_T (pFrame e'))) = 0.
Proof. vm_compute. split; reflexivity. Qed.

(** The time since the last reset of the statistics is none: 100 seconds after the session was opened, at
    1000 seconds of the clock, it is 1100 seconds, and later the clock plus the time since the
    call before. *)
Theorem trdp_UpdateStats_statistic_time :
  let st1 := trdp_UpdateStats (mkTime 1000 0) (mkTime 900 0) demo_pool demo_session demo_stats in
  let st2 := trdp_UpdateStats (mkTime 1060 0) (mkTime 900 0) demo_pool demo_session st1 in
  (st_upTime st1, st_statisticTime st1, st_upTime st2, st_statisticTime st2) = (100, 1100, 160, 1120).
Proof. vm_compute. reflexivity. Qed.

(** A reset also clears the version, the addresses and the names. *)
Theorem tlc_resetStatistics_forgets :
  let '(err, st) := tlc_resetStatistics true demo_stats in
  (err, st_version demo_stats, st_version st, take 7 (st_hostName demo_stats), take 7 (st_hostName st))
  = (TRDP_NO_ERR, 0x01020304, 0, cUnknown, repeat 0 7).
Proof. vm_compute. reflexivity. Qed.

(** The group in the table of publishers is that of the session, which is always zero. *)
Theorem tlc_getPubStatistics_group :
  map pb_redId (snd (tlc_getPubStatistics true 0 (Some 4) true (set_pSndQueue (map (set_redId 3) (pSndQueue demo_session)) demo_session))) = [0]
  /\ snd (tlc_getRedStatistics true 4 (set_pSndQueue (map (set_redId 3) (pSndQueue demo_session)) demo_session)) = [mkRed 3 TRDP_RED_LEADER].
Proof. vm_compute. split; reflexivity. Qed.
