(* ===== verification/TauCtrl.v ===== *)
(** * Control of the train switch

    Models src/app/trdp/tcnopen/tau_ctrl.c: a service over the programming interface of the stack ([TrdpIf]) and of
    message data ([TrdpMdIf]). The variables of the file and the stack are the record [ctrl]; a session that does not
    exist cannot be asked for its address, which is the result [None]. Logging is left out. *)
From stdpp Require Import relations.
From S2P Require Import Prelude Bytes VosTime TrdpTypes TrdpMdTypes TrdpUtils TrdpPd TrdpIf TrdpMd TrdpMdRecv TrdpMdIf TrdpMdDemo.

Definition ECSP_CTRL_CYCLE : Z := 1000000.
Definition ECSP_STAT_TIMEOUT : Z := 5000000.
Definition ECSP_CONF_REPLY_TIMEOUT : Z := 3000000.
Definition TRDP_ECSP_CTRL_COMID : Z := 120.
Definition TRDP_ECSP_STAT_COMID : Z := 121.
Definition TRDP_ECSP_CONF_REQ_COMID : Z := 122.
Definition sizeof_TRDP_ECSP_CTRL_T : Z := 40.
Definition sizeof_TRDP_ECSP_STAT_T : Z := 40.
Definition sizeof_TRDP_ECSP_CONF_REQUEST_T : Z := 1556.

(** The variables of the file, and the stack below. *)
Record ctrl := mkCtrl {
  priv_pubHandle : option Z;
  priv_subHandle : option Z;
  priv_ecspIpAddr : Z;
  priv_ecspCtrlInitialised : bool;
  c_stack : TRDP_STACK }.

(** A handle that was written replaces the old one. *)
Definition written (new old : option Z) : option Z := match new with Some _ => new | None => old end.

Definition ctrl_pub (realIP_ ecspIpAddr : Z) : pub_args :=
  mkPub TRDP_ECSP_CTRL_COMID 0 0 realIP_ ecspIpAddr ECSP_CTRL_CYCLE 0 TRDP_FLAGS_MARSHALL None None sizeof_TRDP_ECSP_CTRL_T.
Definition ctrl_sub (realIP_ : Z) : sub_args :=
  mkSub 0 None TRDP_ECSP_STAT_COMID 0 0 0 realIP_ TRDP_FLAGS_MARSHALL ECSP_STAT_TIMEOUT TRDP_TO_SET_TO_ZERO.

(** [env1] is what the publication finds, [env2] what the subscription does. *)
Definition tau_initEcspCtrl (env1 env2 : if_env) (appHandle : option Z) (ecspIpAddr : Z) (c : ctrl) : option (TRDP_ERR_T * ctrl) :=
  s ← appHandle ≫= find_session (c_stack c);
  let '(err, st1, p) := tlp_publish env1 appHandle true (ctrl_pub (realIP s) ecspIpAddr) (c_stack c) in
  let c1 := mkCtrl (written p (priv_pubHandle c)) (priv_subHandle c) ecspIpAddr (priv_ecspCtrlInitialised c) st1 in
  if negb (is_ok err) then Some (err, c1) else
  s1 ← appHandle ≫= find_session st1;
  let '(err, st2, q) := tlp_subscribe env2 appHandle true (ctrl_sub (realIP s1)) st1 in
  let c2 := mkCtrl (priv_pubHandle c1) (written q (priv_subHandle c)) ecspIpAddr (priv_ecspCtrlInitialised c || is_ok err) st2 in
  Some (err, c2).

Definition tau_terminateEcspCtrl (env1 env2 : if_env) (appHandle : option Z) (c : ctrl) : TRDP_ERR_T * ctrl :=
  if priv_ecspCtrlInitialised c then
    let '(err, st1) := tlp_unpublish env1 appHandle (priv_pubHandle c) (c_stack c) in
    let c1 := mkCtrl (priv_pubHandle c) (priv_subHandle c) (priv_ecspIpAddr c) false st1 in
    if negb (is_ok err) then (err, c1) else
    let '(err, st2) := tlp_unsubscribe env2 appHandle (priv_subHandle c) st1 in
    (err, mkCtrl (priv_pubHandle c) (priv_subHandle c) (priv_ecspIpAddr c) false st2)
  else (TRDP_NOINIT_ERR, c).

Definition set_c_stack (st : TRDP_STACK) (c : ctrl) : ctrl :=
  mkCtrl (priv_pubHandle c) (priv_subHandle c) (priv_ecspIpAddr c) (priv_ecspCtrlInitialised c) st.

Definition tau_setEcspCtrl (env : if_env) (appHandle : option Z) (pEcspCtrl : option (list Z)) (c : ctrl) : TRDP_ERR_T * ctrl :=
  if priv_ecspCtrlInitialised c then
    let '(err, st) := tlp_put env appHandle (priv_pubHandle c) pEcspCtrl sizeof_TRDP_ECSP_CTRL_T (c_stack c) in (err, set_c_stack st c)
  else (TRDP_NOINIT_ERR, c).

(** [room]: whether there is a place for the state; with it its bytes, and what is known of the telegram. *)
Definition tau_getEcspStat (env : if_env) (rd : round_env) (appHandle : option Z) (pEcspStat : bool) (c : ctrl)
    : TRDP_ERR_T * ctrl * option (list Z * option Z * TRDP_PD_INFO_T * list pd_event) :=
  if priv_ecspCtrlInitialised c then
    let '(err, st, r) := tlp_get env rd appHandle (priv_subHandle c) (if pEcspStat then Some sizeof_TRDP_ECSP_STAT_T else None) (c_stack c) in
    (err, set_c_stack st c, r)
  else (TRDP_NOINIT_ERR, c, None).

(** The address of the parameter is handed on: the data begin with the pointer itself, then come the bytes [behind] it
    on the stack. *)
Definition confirm_data (pEcspConfRequest : Z) (behind : list Z) : list Z :=
  take (Z.to_nat sizeof_TRDP_ECSP_CONF_REQUEST_T) (rev (be_bytes 8 pEcspConfRequest) ++ behind).
Definition tau_requestEcspConfirm (env : tlm_env) (pUserRef : Z) (pfCbFunction : option Z) (pEcspConfRequest : Z) (behind : list Z)
    (c : ctrl) (s : TRDP_MD_SESSION_T) : TRDP_ERR_T * TRDP_MD_SESSION_T :=
  if priv_ecspCtrlInitialised c then
    let '(err, _, s) :=
      tlm_request env
        (mkTlmArgs pUserRef pfCbFunction TRDP_ECSP_CONF_REQ_COMID 0 0 (realIP (ms_session s)) (priv_ecspIpAddr c) TRDP_FLAGS_NONE None
           (Some (confirm_data pEcspConfRequest behind)) sizeof_TRDP_ECSP_CONF_REQUEST_T None None)
        1 ECSP_CONF_REPLY_TIMEOUT s in
    (err, s)
  else (TRDP_NOINIT_ERR, s).

(** * Properties *)

(** ** Elements and sessions *)
Lemma find_ele_skip p q l : p ∉ map fst (q_keys q) -> find_ele p (q ++ l) = find_ele p l.
Proof.
  induction q as [|x q IH]; [done|]. intros Hp. cbn in Hp |- *. apply not_elem_of_cons in Hp as [Hx Hq].
  rewrite (proj2 (Z.eqb_neq _ _)) by (intros E; by apply Hx). by apply IH.
Qed.

Lemma find_ele_here p q l e : find_ele p q = Some e -> find_ele p (q ++ l) = Some e.
Proof. unfold find_ele. induction q as [|x q IH]; [done|]. cbn. by destruct (ele_ptr x =? p). Qed.

Lemma unlink_last e q : ele_ptr e ∉ map fst (q_keys q) -> unlink ele_ptr (ele_ptr e) (q ++ [e]) = q.
Proof.
  induction q as [|x q IH]; intros Hp; cbn in Hp |- *; [by rewrite Z.eqb_refl|]. apply not_elem_of_cons in Hp as [Hx Hq].
  rewrite (proj2 (Z.eqb_neq _ _)) by (intros E; by apply Hx). by rewrite IH.
Qed.

Lemma find_put st h s s' n : find_session st h = Some s -> find_session (set_maxSocket n (put_session h s' st)) h = Some s'.
Proof.
  unfold find_session, put_session. cbn. induction (sSession st) as [|[k x] l IH]; [done|]. cbn. destruct (k =? h) eqn:E; cbn.
  - by rewrite Z.eqb_refl.
  - rewrite E. exact IH.
Qed.

Lemma find_put_other st h h' s' n : h' <> h -> find_session (set_maxSocket n (put_session h s' st)) h' = find_session st h'.
Proof.
  intros Hh. unfold find_session, put_session. cbn. induction (sSession st) as [|[k x] l IH]; [done|]. cbn. destruct (k =? h) eqn:E; cbn.
  - bprop. rewrite (proj2 (Z.eqb_neq h h')), (proj2 (Z.eqb_neq k h')) by congruence. exact IH.
  - destruct (k =? h'); [done|exact IH].
Qed.

(** No element of another session has the address [p]. *)
Definition elsewhere (h p : Z) (st : TRDP_STACK) : Prop :=
  Forall (fun x => fst x <> h -> p ∉ map fst (keys (snd x))) (sSession st).

(** The element a handle refers to, once it is in a session. *)
Lemma magic_put p h s' st e n : elsewhere h p st -> find_ele p (pSndQueue s' ++ pRcvQueue s') = Some e ->
  (exists s, find_session st h = Some s) -> handle_magic p (set_maxSocket n (put_session h s' st)) = magic e.
Proof.
  intros Hf He [s Hs]. unfold handle_magic.
  match goal with |- context [find_ele p ?l] => enough (find_ele p l = Some e) as -> by done end.
  unfold trdp_sessionQueue, put_session, set_maxSocket. cbn [sSession].
  unfold find_session in Hs. revert Hs. induction Hf as [|[k x] l Hk _ IH]; [done|]. cbn [find fst snd map concat]. intros Hs.
  destruct (k =? h) eqn:E; cbn [snd].
  - by apply find_ele_here.
  - rewrite find_ele_skip; [by apply IH|]. unfold q_keys. rewrite map_app. bprop. by apply Hk.
Qed.

Lemma calls_elsewhere env st h p : calls_ok env st -> if_elem env = Some p -> elsewhere h p st.
Proof. intros Hc Hp. eapply list.Forall_impl; [exact Hc|]. intros x Hx _. by apply Hx. Qed.

Lemma fresh_session_keys env st p h s : calls_ok env st -> if_elem env = Some p -> find_session st h = Some s ->
  (p ∉ map fst (q_keys (pSndQueue s))) /\ (p ∉ map fst (q_keys (pRcvQueue s))).
Proof.
  intros Hc Hp Hs. pose proof (call_fresh _ _ (find_session_call _ _ _ Hc (ex_intro _ h Hs)) _ Hp) as Hf.
  unfold keys in Hf. rewrite map_app, not_elem_of_app in Hf. exact Hf.
Qed.

(** ** Publishing without data and subscribing *)
Lemma pub_ele_magic env ss a s p i : magic (pub_ele env ss a s p i) = TRDP_MAGIC_PUB_HNDL_VALUE /\ dataSize (pub_ele env ss a s p i) = p_dataSize a.
Proof.
  unfold pub_ele. cbv zeta. unfold trdp_pdInit, on_frame, first_send. destruct (p_interval a =? 0), (_ && _); destruct (is_null _); done.
Qed.

Lemma update_const e q : ele_ptr e ∉ map fst (q_keys q) -> update_ele (ele_ptr e) (fun _ => e) (q ++ [e]) = q ++ [e].
Proof.
  intros Hp. unfold update_ele. rewrite map_app. cbn [map]. rewrite Z.eqb_refl. f_equal. exact (update_none _ _ _ Hp).
Qed.

Lemma publish_in_run env ss a s n s' n' r : publish_in env ss a s n = (TRDP_NO_ERR, s', n', r) -> if_frame env = true ->
  flag (option_ s) TRDP_OPTION_TRAFFIC_SHAPING = false -> p_data a = None -> p_dataSize a <> 0 ->
  (forall p, if_elem env = Some p -> p ∉ map fst (q_keys (pSndQueue s))) ->
  exists p e, if_elem env = Some p /\ r = Some p /\ ele_ptr e = p /\ magic e = TRDP_MAGIC_PUB_HNDL_VALUE /\ pSndQueue s' = pSndQueue s ++ [e]
    /\ pRcvQueue s' = pRcvQueue s /\ option_ s' = option_ s.
Proof.
  intros H Hfr Hfl Hd Hn Hp. unfold publish_in in H. destruct (trdp_queueFindPubAddr _ _); [done|].
  destruct (if_elem env) as [p|]; [|done]. specialize (Hp p eq_refl).
  destruct (trdp_requestSocket _ _ _ _) as [[[ret idx] ifc] m]. cbv zeta in H. destruct (is_ok ret) eqn:Er; cbn [negb] in H; [|by injection H as -> _ _ _].
  rewrite Hfr, (proj2 (Z.eqb_neq _ _) Hn), Hd in H. cbn [negb] in H.
  pose proof (pub_ele_magic env ss a (set_iface ifc s) p (default 0 idx)) as [Hm Hsz]. pose proof (pub_ele_key env ss a (set_iface ifc s) p (default 0 idx)) as Hk.
  set (e := pub_ele _ _ _ _ _ _) in *. clearbody e. destruct (key_inv _ _ _ Hk) as [<- _].
  assert (Ef : find_ele (ele_ptr e) (pSndQueue s ++ [e]) = Some e) by (rewrite find_ele_skip by done; cbn; by rewrite Z.eqb_refl).
  unfold put_in in H. cbn [pSndQueue set_pSndQueue set_iface trdp_queueAppLast] in H. rewrite Ef in H. cbn [trdp_pdPut] in H.
  rewrite Hsz, (proj2 (Z.eqb_neq _ _) Hn) in H. cbn [andb is_ok] in H. unfold shape_in in H. cbn [option_ set_pSndQueue set_iface] in H.
  rewrite Hfl in H. injection H as <- _ <-. exists (ele_ptr e), e. repeat split; [exact Hm|]. cbn. by apply update_const.
Qed.

Lemma subscribe_in_run env a s n s' n' r : subscribe_in env a s n = (TRDP_NO_ERR, s', n', r) ->
  exists p e, if_elem env = Some p /\ r = Some p /\ ele_ptr e = p /\ magic e = TRDP_MAGIC_SUB_HNDL_VALUE /\ pRcvQueue s' = pRcvQueue s ++ [e]
    /\ pSndQueue s' = pSndQueue s /\ option_ s' = option_ s.
Proof.
  intros H. unfold subscribe_in in H. destruct (trdp_queueFindSubAddr _ _); [done|].
  destruct (trdp_requestSocket _ _ _ _) as [[[ret idx] ifc] m]. cbv zeta in H. destruct (is_ok ret) eqn:Er; cbn [negb] in H; [|by injection H as -> _ _ _].
  destruct (if_elem env) as [p|]; [|done]. destruct (if_frame env); cbn [negb] in H; [|done]. injection H as <- _ <-.
  exists p, (sub_ele (vos_getTime (if_sock env)) a (set_iface ifc s) p (default 0 idx)). by repeat split.
Qed.

Lemma shape_flag s : flag (option_ s) TRDP_OPTION_TRAFFIC_SHAPING = false -> shape_in s = (TRDP_NO_ERR, s).
Proof. unfold shape_in. by intros ->. Qed.

Lemma with_session_put {A} env nolock h st (d : A) f st' r s :
  with_session env nolock (Some h) st d f = (TRDP_NO_ERR, st', r) -> nolock <> TRDP_NO_ERR \/ nolock = if_lock env -> find_session st h = Some s ->
  exists s' n, f s (sCurrentMaxSocketCnt st) = (TRDP_NO_ERR, s', n, r) /\ st' = set_maxSocket n (put_session h s' st).
Proof.
  intros H Hl Hs. unfold with_session in H. destruct (trdp_isValidSession _ _ _); [|done]. rewrite Hs in H.
  destruct (is_ok (if_lock env)) eqn:El; cbn [negb] in H.
  - destruct (f s _) as [[[e s'] n] a]. injection H as -> <- <-. by exists s', n.
  - injection H as -> _ _. destruct Hl as [Hl|Hl]; [done|]. by rewrite <- Hl in El.
Qed.

(** ** Opening and closing the service *)

(** What a successful start leaves of a session [s0]: the elements [e] and [f] at the ends of its queues, in a stack in
    which the handles are theirs. *)
Record started (h : Z) (s0 s : TRDP_SESSION_T) (st0 st : TRDP_STACK) (e f : PD_ELE_T) : Prop := {
  st_session : find_session st h = Some s;
  st_snd : pSndQueue s = pSndQueue s0 ++ [e];
  st_rcv : pRcvQueue s = pRcvQueue s0 ++ [f];
  st_option : option_ s = option_ s0;
  st_pub : magic e = TRDP_MAGIC_PUB_HNDL_VALUE;
  st_sub : magic f = TRDP_MAGIC_SUB_HNDL_VALUE;
  st_fresh_pub : elsewhere h (ele_ptr e) st0 /\ (ele_ptr e ∉ map fst (q_keys (pSndQueue s0)));
  st_fresh_sub : elsewhere h (ele_ptr f) st0 /\ (ele_ptr f ∉ map fst (q_keys (pSndQueue s0))) /\ (ele_ptr f ∉ map fst (q_keys (pRcvQueue s0)));
  st_differ : ele_ptr e <> ele_ptr f;
  st_stack : exists n, st = set_maxSocket n (put_session h s st0) }.

Lemma put_twice h s s' n n' st :
  set_maxSocket n' (put_session h s' (set_maxSocket n (put_session h s st))) = set_maxSocket n' (put_session h s' st).
Proof.
  unfold set_maxSocket, put_session. cbn. f_equal. rewrite map_map. apply map_ext. intros [k x]. cbn. destruct (k =? h) eqn:E; cbn; [by rewrite Z.eqb_refl|by rewrite E].
Qed.

Lemma elsewhere_put h p s n st : elsewhere h p (set_maxSocket n (put_session h s st)) -> elsewhere h p st.
Proof.
  unfold elsewhere, set_maxSocket, put_session. cbn [sSession]. rewrite !list.Forall_forall. intros Hp x Hx Hh. refine (Hp x _ Hh).
  apply list_elem_of_In, in_map_iff. exists x. split; [|by apply list_elem_of_In]. by rewrite (proj2 (Z.eqb_neq _ _) Hh).
Qed.

Lemma some_bind {A B} (a : A) (f : A -> option B) : Some a ≫= f = f a.
Proof. done. Qed.

Lemma tau_init_started env1 env2 h ip c c' s0 : find_session (c_stack c) h = Some s0 ->
  calls_ok env1 (c_stack c) -> (forall st, st = snd (fst (tlp_publish env1 (Some h) true (ctrl_pub (realIP s0) ip) (c_stack c))) -> calls_ok env2 st) ->
  if_frame env1 = true -> flag (option_ s0) TRDP_OPTION_TRAFFIC_SHAPING = false ->
  tau_initEcspCtrl env1 env2 (Some h) ip c = Some (TRDP_NO_ERR, c') ->
  exists s e f, started h s0 s (c_stack c) (c_stack c') e f /\ priv_pubHandle c' = Some (ele_ptr e) /\ priv_subHandle c' = Some (ele_ptr f)
    /\ priv_ecspCtrlInitialised c' = true.
Proof.
  intros Hs Hc1 Hc2 Hfr Hfl H. unfold tau_initEcspCtrl in H. rewrite some_bind, Hs, some_bind in H.
  destruct (tlp_publish _ _ _ _ _) as [[err st1] p] eqn:Ep. specialize (Hc2 st1 eq_refl).
  destruct (is_ok err) eqn:Er; cbn [negb] in H; [|by injection H as -> _]. apply is_ok_true in Er as ->.
  apply (with_session_put _ _ _ _ _ _ _ _ s0) in Ep as (s1 & n1 & E1 & ->); [|by right|done].
  apply publish_in_run in E1 as (p' & e & Hp & -> & <- & Hme & Hsnd & Hrcv & Ho); try done.
  2: { intros x Hx. by apply (fresh_session_keys env1 (c_stack c) x h). }
  pose proof (find_put (c_stack c) h s0 s1 n1 Hs) as Hs1. rewrite some_bind, Hs1, some_bind in H.
  destruct (tlp_subscribe _ _ _ _ _) as [[err st2] q] eqn:Eq.
  injection H as -> <-.
  apply (with_session_put _ _ _ _ _ _ _ _ s1) in Eq as (s2 & n2 & E2 & ->); [|by left|done].
  apply subscribe_in_run in E2 as (q' & f & Hq & -> & <- & Hmf & Hrcv2 & Hsnd2 & Ho2).
  destruct (fresh_session_keys _ _ _ _ _ Hc2 Hq Hs1) as [Hq1 Hq2]. rewrite Hsnd in Hq1. rewrite Hrcv in Hq2. unfold q_keys in Hq1. rewrite !map_app in Hq1.
  apply not_elem_of_app in Hq1 as [Hq1 Hne]. cbn in Hne. rewrite list_elem_of_singleton in Hne.
  exists s2, e, f. split; [|by cbn; rewrite orb_true_r]. rewrite put_twice. split.
  - by apply (find_put _ _ s0).
  - by rewrite Hsnd2.
  - by rewrite Hrcv2, Hrcv.
  - congruence.
  - done.
  - done.
  - split; [by apply (calls_elsewhere env1)|]. by apply (fresh_session_keys env1 (c_stack c) _ h).
  - split; [|done]. eapply elsewhere_put, calls_elsewhere; [exact Hc2|done].
  - done.
  - by exists n2.
Qed.

(** The service is on: the variables of the file are those of a started session. *)
Record serving (h : Z) (s0 : TRDP_SESSION_T) (st0 : TRDP_STACK) (c : ctrl) (s : TRDP_SESSION_T) (e f : PD_ELE_T) : Prop := {
  sv_started : started h s0 s st0 (c_stack c) e f;
  sv_pub : priv_pubHandle c = Some (ele_ptr e);
  sv_sub : priv_subHandle c = Some (ele_ptr f);
  sv_on : priv_ecspCtrlInitialised c = true;
  sv_there : exists s1, find_session st0 h = Some s1 }.

Lemma started_find h s0 s st0 st e f : started h s0 s st0 st e f ->
  find_ele (ele_ptr e) (pSndQueue s) = Some e /\ find_ele (ele_ptr f) (pSndQueue s ++ pRcvQueue s) = Some f.
Proof.
  intros H. rewrite (st_snd _ _ _ _ _ _ _ H), (st_rcv _ _ _ _ _ _ _ H). destruct (st_fresh_pub _ _ _ _ _ _ _ H) as [_ He].
  destruct (st_fresh_sub _ _ _ _ _ _ _ H) as (_ & Hf1 & Hf2). pose proof (st_differ _ _ _ _ _ _ _ H) as Hd. split.
  - rewrite find_ele_skip by done. cbn. by rewrite Z.eqb_refl.
  - rewrite <- app_assoc, find_ele_skip by done. unfold find_ele. cbn [app find]. rewrite (proj2 (Z.eqb_neq _ _) Hd).
    apply (find_ele_skip (ele_ptr f)) with (l := [f]) in Hf2. unfold find_ele in Hf2. rewrite Hf2. cbn. by rewrite Z.eqb_refl.
Qed.

Lemma pdPut_magic a m d n e err e' : trdp_pdPut a m d n (Some e) = (err, Some e') -> magic e' = magic e.
Proof.
  cbn [trdp_pdPut]. intros H.
  repeat match type of H with
  | context [match ?x with _ => _ end] => destruct x
  | context [if ?x then _ else _] => destruct x
  end; injection H as _ <-; try done; by destruct (dataSize e =? 0).
Qed.

Lemma find_magic h s0 s st0 st e f : started h s0 s st0 st e f -> (exists s1, find_session st0 h = Some s1) ->
  handle_magic (ele_ptr e) st = TRDP_MAGIC_PUB_HNDL_VALUE /\ handle_magic (ele_ptr f) st = TRDP_MAGIC_SUB_HNDL_VALUE.
Proof.
  intros H Ht. destruct (started_find _ _ _ _ _ _ _ H) as [He Hf]. pose proof (st_stack _ _ _ _ _ _ _ H) as [n ->].
  rewrite <- (st_pub _ _ _ _ _ _ _ H), <- (st_sub _ _ _ _ _ _ _ H). split; apply magic_put; try done.
  - apply (st_fresh_pub _ _ _ _ _ _ _ H).
  - by apply find_ele_here.
  - apply (st_fresh_sub _ _ _ _ _ _ _ H).
Qed.

(** Data that are set, or refused, leave the service on. *)
Lemma set_serving h s0 st0 c s e f env d err c' : serving h s0 st0 c s e f -> tau_setEcspCtrl env (Some h) d c = (err, c') ->
  exists s' e', serving h s0 st0 c' s' e' f.
Proof.
  intros [Hst Hp Hq Hon Ht] H. unfold tau_setEcspCtrl in H. rewrite Hon, Hp in H.
  destruct (tlp_put _ _ _ _ _ _) as [err' st'] eqn:Ep. injection H as -> <-.
  assert (Hkeep : st' = c_stack c -> exists s' e', serving h s0 st0 (set_c_stack st' c) s' e' f).
  { intros ->. exists s, e. by split. }
  unfold tlp_put in Ep. rewrite (proj1 (find_magic _ _ _ _ _ _ _ Hst Ht)) in Ep. cbn [negb Z.eqb] in Ep. rewrite Z.eqb_refl in Ep. cbn [negb] in Ep.
  unfold with_session in Ep. rewrite (st_session _ _ _ _ _ _ _ Hst) in Ep.
  destruct (trdp_isValidSession _ _ _); [|injection Ep as _ <-; by apply Hkeep].
  destruct (negb _); [injection Ep as _ <-; by apply Hkeep|].
  destruct (put_in _ _ _ _ s) as [r s'] eqn:Ei. cbn [fst] in Ep. injection Ep as _ <-.
  unfold put_in in Ei. rewrite (proj1 (started_find _ _ _ _ _ _ _ Hst)) in Ei.
  destruct (trdp_pdPut _ _ _ _ _) as [r' [e'|]] eqn:Epp; injection Ei as _ <-.
  2: { exists s, e. split; try done. destruct Hst. split; try done; [by eapply find_put|]. destruct st_stack0 as [n ->]. rewrite put_twice. by eexists. }
  pose proof (pdPut_key _ _ _ _ _ _ _ Epp) as Hk. pose proof (pdPut_magic _ _ _ _ _ _ _ Epp) as Hm. injection Hk as Hk _.
  assert (Eu : update_ele (ele_ptr e) (fun _ => e') (pSndQueue s) = pSndQueue s0 ++ [e']).
  { rewrite (st_snd _ _ _ _ _ _ _ Hst). unfold update_ele. rewrite map_app. cbn [map]. rewrite Z.eqb_refl. f_equal.
    apply (update_none (ele_ptr e) (fun _ => e')), (st_fresh_pub _ _ _ _ _ _ _ Hst). }
  rewrite Eu. exists (set_pSndQueue (pSndQueue s0 ++ [e']) s), e'. destruct Hst. split; [|cbn; congruence|done|done|done].
  split; try done; try (rewrite Hk; done); try congruence; [by eapply find_put|].
  destruct st_stack0 as [n ->]. cbn [c_stack set_c_stack]. rewrite put_twice. by eexists.
Qed.

(** A session that can be used, in an environment whose locks are free. *)
Definition unlocked (env : if_env) : Prop := is_ok (if_sessionLock env) = true /\ is_ok (if_lock env) = true.

Lemma terminate_serving h s0 st0 c s e f env1 env2 : serving h s0 st0 c s e f -> unlocked env1 -> unlocked env2 ->
  flag (option_ s0) TRDP_OPTION_TRAFFIC_SHAPING = false ->
  exists s' n, tau_terminateEcspCtrl env1 env2 (Some h) c
      = (TRDP_NO_ERR, mkCtrl (priv_pubHandle c) (priv_subHandle c) (priv_ecspIpAddr c) false (set_maxSocket n (put_session h s' st0)))
    /\ pSndQueue s' = pSndQueue s0 /\ pRcvQueue s' = pRcvQueue s0.
Proof.
  intros [Hst Hp Hq Hon Ht] [Hl1 Hl2] [Hl3 Hl4] Hfl. unfold tau_terminateEcspCtrl. rewrite Hon, Hp, Hq.
  destruct (find_magic _ _ _ _ _ _ _ Hst Ht) as [Hm1 _]. destruct (started_find _ _ _ _ _ _ _ Hst) as [He Hf].
  unfold tlp_unpublish. rewrite Hm1, Z.eqb_refl. cbn [negb].
  rewrite (with_session_eval _ _ _ _ _ _ s Hl1 Hl2) by apply Hst. unfold unpublish_in. rewrite He.
  rewrite shape_flag by (cbn; by rewrite (st_option _ _ _ _ _ _ _ Hst)). cbn [fst is_ok negb].
  set (s1 := set_iface _ _). set (st1 := set_maxSocket _ _).
  assert (E1 : pSndQueue s1 = pSndQueue s0).
  { subst s1. cbn. rewrite (st_snd _ _ _ _ _ _ _ Hst). apply unlink_last, (st_fresh_pub _ _ _ _ _ _ _ Hst). }
  assert (E2 : pRcvQueue s1 = pRcvQueue s0 ++ [f]) by (subst s1; cbn; apply (st_rcv _ _ _ _ _ _ _ Hst)). clearbody s1.
  destruct (st_stack _ _ _ _ _ _ _ Hst) as [n0 Es]. pose proof (st_session _ _ _ _ _ _ _ Hst) as Hs.
  assert (Es1 : st1 = set_maxSocket (sCurrentMaxSocketCnt (c_stack c)) (put_session h s1 st0)) by (subst st1; rewrite Es at 2; apply put_twice).
  destruct (st_fresh_sub _ _ _ _ _ _ _ Hst) as (Hf0 & Hf1 & Hf2).
  assert (Hff : find_ele (ele_ptr f) (pRcvQueue s1) = Some f) by (rewrite E2, find_ele_skip by done; cbn; by rewrite Z.eqb_refl).
  unfold tlp_unsubscribe. replace (handle_magic (ele_ptr f) st1) with TRDP_MAGIC_SUB_HNDL_VALUE.
  2: { rewrite Es1, <- (st_sub _ _ _ _ _ _ _ Hst). symmetry. apply magic_put; [done| |done]. by rewrite E1, find_ele_skip. }
  rewrite Z.eqb_refl. cbn [negb]. rewrite (with_session_eval _ _ _ _ _ _ s1 Hl3 Hl4) by (subst st1; by eapply find_put).
  unfold unsubscribe_in. rewrite Hff. cbn [fst]. rewrite Es1, put_twice. eexists _, _. split; [reflexivity|]. cbn. split; [done|].
  rewrite E2. by apply unlink_last.
Qed.

(** Data that are set one after the other. *)
Definition set_all (h : Z) (l : list (if_env * option (list Z))) (c : ctrl) : ctrl :=
  fold_left (fun c x => snd (tau_setEcspCtrl (fst x) (Some h) (snd x) c)) l c.

Lemma set_all_serving h s0 st0 l : forall c s e f, serving h s0 st0 c s e f -> exists s' e', serving h s0 st0 (set_all h l c) s' e' f.
Proof.
  induction l as [|x l IH]; intros c s e f H; [by exists s, e|]. cbn [set_all fold_left].
  destruct (tau_setEcspCtrl (fst x) (Some h) (snd x) c) as [err c'] eqn:E. destruct (set_serving _ _ _ _ _ _ _ _ _ _ _ H E) as (s' & e' & H').
  exact (IH _ _ _ _ H').
Qed.

(** The control service gives back what it took: whatever data were set, and however that ended, after it is closed the
    queues of the session are those before it was opened, the other sessions are untouched and the service is off. *)
Theorem tau_terminateEcspCtrl_undoes env1 env2 env3 env4 h ip c c1 s0 l :
  find_session (c_stack c) h = Some s0 -> flag (option_ s0) TRDP_OPTION_TRAFFIC_SHAPING = false ->
  calls_ok env1 (c_stack c) -> calls_ok env2 (snd (fst (tlp_publish env1 (Some h) true (ctrl_pub (realIP s0) ip) (c_stack c)))) ->
  if_frame env1 = true -> unlocked env3 -> unlocked env4 ->
  tau_initEcspCtrl env1 env2 (Some h) ip c = Some (TRDP_NO_ERR, c1) ->
  exists c2 s2, tau_terminateEcspCtrl env3 env4 (Some h) (set_all h l c1) = (TRDP_NO_ERR, c2)
    /\ find_session (c_stack c2) h = Some s2 /\ pSndQueue s2 = pSndQueue s0 /\ pRcvQueue s2 = pRcvQueue s0
    /\ (forall h', h' <> h -> find_session (c_stack c2) h' = find_session (c_stack c) h')
    /\ priv_ecspCtrlInitialised c2 = false /\ tau_setEcspCtrl env3 (Some h) None c2 = (TRDP_NOINIT_ERR, c2).
Proof.
  intros Hs Hfl Hc1 Hc2 Hfr Hl3 Hl4 H.
  destruct (tau_init_started env1 env2 h ip c c1 s0 Hs Hc1 ltac:(intros st Est; rewrite Est; exact Hc2) Hfr Hfl H) as (s & e & f & Hst & Hp & Hq & Hon).
  assert (Hv : serving h s0 (c_stack c) c1 s e f) by (split; try done; by exists s0).
  destruct (set_all_serving _ _ _ l _ _ _ _ Hv) as (s' & e' & Hv').
  destruct (terminate_serving _ _ _ _ _ _ _ env3 env4 Hv' Hl3 Hl4 Hfl) as (s2 & n & E & E1 & E2).
  eexists _, s2. split; [exact E|]. cbn. split; [exact (find_put _ _ _ _ n Hs)|]. split; [done|]. split; [done|].
  split; [intros h' Hh; exact (find_put_other (c_stack c) h h' s2 n Hh)|done].
Qed.

Section Steps.
Context `{MdLaws}.

(** Every function of the service is a sequence of calls of the interface, so what holds of all such sequences
    ([stack_ok]: sockets are counted) holds of a process that uses it. *)
Theorem tau_ctrl_steps env1 env2 rd h ip b d c :
  calls_ok env1 (c_stack c) -> if_frame env1 = true -> if_frame env2 = true ->
  (forall st x, find_session (c_stack c) h = Some x ->
     st = snd (fst (tlp_publish env1 (Some h) true (ctrl_pub (realIP x) ip) (c_stack c))) -> calls_ok env2 st) ->
  (forall r, tau_initEcspCtrl env1 env2 (Some h) ip c = Some r -> rtc api_step (c_stack c) (c_stack (snd r)))
  /\ rtc api_step (c_stack c) (c_stack (snd (tau_terminateEcspCtrl env1 env2 (Some h) c)))
  /\ rtc api_step (c_stack c) (c_stack (snd (tau_setEcspCtrl env1 (Some h) d c)))
  /\ rtc api_step (c_stack c) (c_stack (snd (fst (tau_getEcspStat env1 rd (Some h) b c)))).
Proof.
  intros Hc1 Hf1 Hf2 Hc2. split_and!.
  - intros r Hr. unfold tau_initEcspCtrl in Hr. rewrite some_bind in Hr. destruct (find_session (c_stack c) h) as [x|] eqn:Ex; [|done].
    rewrite some_bind in Hr. specialize (Hc2 _ x eq_refl eq_refl). destruct (tlp_publish _ _ _ _ _) as [[err st1] p] eqn:Ep. cbn in Hc2.
    pose proof (do_publish _ _ _ _ _ _ _ _ Hc1 Hf1 Ep) as H1. destruct (negb (is_ok err)); [injection Hr as <-; by apply rtc_once|].
    rewrite some_bind in Hr. destruct (find_session st1 h) as [x1|]; [|done]. rewrite some_bind in Hr.
    destruct (tlp_subscribe _ _ _ _ _) as [[err2 st2] q] eqn:Eq. injection Hr as <-.
    apply (rtc_l _ _ st1); [done|]. by eapply rtc_once, do_subscribe.
  - unfold tau_terminateEcspCtrl. destruct (priv_ecspCtrlInitialised c); [|apply rtc_refl].
    destruct (tlp_unpublish _ _ _ _) as [err st1] eqn:E1. pose proof (do_unpublish _ _ _ _ _ _ E1) as H1.
    destruct (negb (is_ok err)); [by apply rtc_once|]. destruct (tlp_unsubscribe _ _ _ _) as [err2 st2] eqn:E2.
    apply (rtc_l _ _ st1); [done|]. by eapply rtc_once, do_unsubscribe.
  - unfold tau_setEcspCtrl. destruct (priv_ecspCtrlInitialised c); [|apply rtc_refl].
    destruct (tlp_put _ _ _ _ _ _) as [err st1] eqn:E1. by eapply rtc_once, do_put.
  - unfold tau_getEcspStat. destruct (priv_ecspCtrlInitialised c); [|apply rtc_refl].
    destruct (tlp_get _ _ _ _ _ _) as [[err st1] r] eqn:E1. by eapply rtc_once, do_get.
Qed.
End Steps.

(** ** Results that mislead *)
Lemma unpublish_refused env h p st err st1 : tlp_unpublish env h p st = (err, st1) -> err <> TRDP_NO_ERR ->
  forall env2 q ip, tau_terminateEcspCtrl env env2 h (mkCtrl p q ip true st) = (err, mkCtrl p q ip false st1).
Proof. intros E He env2 q ip. unfold tau_terminateEcspCtrl. cbn. rewrite E. destruct (is_ok err) eqn:Ei; [by apply is_ok_true in Ei|done]. Qed.

(** Where the subscription is refused the publication made before stays in the send queue, and cannot be withdrawn
    through the service, which is off. *)
Theorem tau_initEcspCtrl_keeps_publication env1 env2 h ip c c1 err s0 st1 p :
  find_session (c_stack c) h = Some s0 -> flag (option_ s0) TRDP_OPTION_TRAFFIC_SHAPING = false -> calls_ok env1 (c_stack c) -> if_frame env1 = true ->
  priv_ecspCtrlInitialised c = false -> tlp_publish env1 (Some h) true (ctrl_pub (realIP s0) ip) (c_stack c) = (TRDP_NO_ERR, st1, p) ->
  tau_initEcspCtrl env1 env2 (Some h) ip c = Some (err, c1) -> err <> TRDP_NO_ERR ->
  exists s1 e, find_session st1 h = Some s1 /\ pSndQueue s1 = pSndQueue s0 ++ [e] /\ priv_pubHandle c1 = Some (ele_ptr e)
    /\ forall env3 env4, tau_terminateEcspCtrl env3 env4 (Some h) c1 = (TRDP_NOINIT_ERR, c1).
Proof.
  intros Hs Hfl Hc Hfr Hoff Ep H He. unfold tau_initEcspCtrl in H. rewrite some_bind, Hs, some_bind, Ep in H. cbn [is_ok negb] in H.
  apply (with_session_put _ _ _ _ _ _ _ _ s0) in Ep as (s1 & n1 & E1 & ->); [|by right|done].
  apply publish_in_run in E1 as (p' & e & Hp & -> & <- & _ & Hsnd & _); try done.
  2: { intros x Hx. by apply (fresh_session_keys env1 (c_stack c) x h). }
  pose proof (find_put (c_stack c) h s0 s1 n1 Hs) as Hs1. rewrite some_bind, Hs1, some_bind in H.
  destruct (tlp_subscribe _ _ _ _ _) as [[err2 st2] q]. injection H as -> <-. exists s1, e. split; [done|]. split; [done|]. split; [done|].
  intros env3 env4. unfold tau_terminateEcspCtrl. cbn. rewrite Hoff. destruct (is_ok err) eqn:Ei; [by apply is_ok_true in Ei|done].
Qed.

(** ** A run *)
Definition ctrl0 : ctrl := mkCtrl None None 0 false demo_open.
Definition ctrl_on : ctrl := from_option snd ctrl0 (tau_initEcspCtrl (TrdpIf.demo_env 10) (TrdpIf.demo_env 20) (Some 1) 0x0a000001 ctrl0).
Definition ctrl_data : list Z := map Z.of_nat (seq 1 40).
Definition ctrl_session : TRDP_SESSION_T := default (fresh_session 0) (find_session demo_open 1).

Lemma ctrl_calls : calls_ok (TrdpIf.demo_env 10) demo_open
  /\ calls_ok (TrdpIf.demo_env 20) (snd (fst (tlp_publish (TrdpIf.demo_env 10) (Some 1) true (ctrl_pub (realIP ctrl_session) 0x0a000001) demo_open))).
Proof. split; apply demo_calls; apply (bool_decide_unpack _); vm_compute; exact I. Qed.

Lemma tau_terminateEcspCtrl_undoes_witness :
  option_map (fun s => (map ele_ptr (pSndQueue s), map ele_ptr (pRcvQueue s), map (frame_data 40) (map pFrame (pSndQueue s))))
    (find_session (c_stack (set_all 1 [(TrdpIf.demo_env 0, Some ctrl_data)] ctrl_on)) 1) = Some ([10], [20], [ctrl_data])
  /\ exists c2 s2, tau_terminateEcspCtrl (TrdpIf.demo_env 0) (TrdpIf.demo_env 0) (Some 1) (set_all 1 [(TrdpIf.demo_env 0, Some ctrl_data)] ctrl_on) = (TRDP_NO_ERR, c2)
    /\ find_session (c_stack c2) 1 = Some s2 /\ pSndQueue s2 = [] /\ pRcvQueue s2 = [].
Proof.
  split; [vm_compute; reflexivity|].
  destruct (tau_terminateEcspCtrl_undoes (TrdpIf.demo_env 10) (TrdpIf.demo_env 20) (TrdpIf.demo_env 0) (TrdpIf.demo_env 0) 1 0x0a000001 ctrl0 ctrl_on ctrl_session
    [(TrdpIf.demo_env 0, Some ctrl_data)]) as (c2 & s2 & E & Hf & H1 & H2 & _);
    [vm_compute; reflexivity|vm_compute; reflexivity|apply ctrl_calls|apply ctrl_calls|reflexivity|split; reflexivity|split; reflexivity|vm_compute; reflexivity|].
  exists c2, s2. split; [exact E|]. split; [exact Hf|]. rewrite H1, H2. split; vm_compute; reflexivity.
Defined.

(** With traffic shaping the result of withdrawing the last publication ends the closing before the subscription. *)
Definition ctrl_shaped : ctrl :=
  let c := mkCtrl None None 0 false (snd (fst (tlc_openSession (TrdpIf.demo_env 0) true (Some 1) TRDP_NO_ERR 0x0a000001 None None
                        (Some TRDP_OPTION_TRAFFIC_SHAPING) demo_init))) in
  from_option snd c (tau_initEcspCtrl (TrdpIf.demo_env 10) (TrdpIf.demo_env 20) (Some 1) 0x0a000001 c).
Example tau_terminate_last_shaped :
  let '(err, c) := tau_terminateEcspCtrl (TrdpIf.demo_env 0) (TrdpIf.demo_env 0) (Some 1) ctrl_shaped in
  err = TRDP_PARAM_ERR /\ priv_ecspCtrlInitialised c = false
  /\ option_map (fun s => (map ele_ptr (pSndQueue s), map ele_ptr (pRcvQueue s))) (find_session (c_stack c) 1) = Some ([], [20]).
Proof. by vm_compute. Qed.

(** The request holds the address of the data, and what lies behind it on the stack, instead of the data. *)
Example tau_requestEcspConfirm_sends_pointer :
  let '(err, s) := tau_requestEcspConfirm (demo_tlm 10 100) 55 None 0x7f0011223344 (repeat 9 2000) ctrl_on (demo_md demo_caller_ip) in
  let bs := hd [] (sent_bytes (md_log (snd (trdp_mdSend (TrdpMdDemo.demo_env 10 101) s)))) in
  err = TRDP_NO_ERR /\ take 12 (drop 116 bs) = [0x44; 0x33; 0x22; 0x11; 0; 0x7f; 0; 0; 9; 9; 9; 9].
Proof. by vm_compute. Qed.
