(* ===== verification/TauDnrName.v ===== *)
(** * Names and packets of the domain name service

    Models the queries and responses of src/app/trdp/tcnopen/tau_dnr.c: names as labels with their lengths, read
    through pointers, the query, and the address in a response. Reading is a program that may leave its packet or
    the arrays it fills ([Outside], where the C program is undefined) or not end ([Hangs]: the rounds given did
    not suffice). A packet is the list of its bytes; characters are unsigned, as on the project's processor. *)
From S2P Require Import Prelude Bytes VosString.

Definition TAU_MAX_DNS_BUFFER_SIZE : nat := 1500.
Definition TAU_MAX_URI_SIZE : nat := 64.
Definition TAU_MAX_NAME_SIZE : nat := 256.

(** Sizes of the structures, and of the table of answers. *)
Definition sizeof_TAU_DNS_HEADER_T : nat := 12.
Definition sizeof_TAU_R_DATA_T : nat := 10.
Definition answers_size : nat := 20.

Inductive dns (A : Type) := Got (a : A) | Outside | Hangs.
Arguments Got {A} a.
Arguments Outside {A}.
Arguments Hangs {A}.
#[global] Instance dns_ret : MRet dns := fun A a => Got a.
#[global] Instance dns_bind : MBind dns := fun A B f m => match m with Got a => f a | Outside => Outside | Hangs => Hangs end.

(** ** Names *)

(** The first loop of [readName]: the bytes of the name, up to its end or 255 of them, and how far the reader moves
    on. [r] is the position of [pReader]. *)
Fixpoint read_raw (rounds : nat) (pkt : list Z) (r : nat) (raw : list Z) (jumped : bool) (count : nat) : dns (list Z * nat) :=
  match rounds with
  | O => Hangs
  | S rounds =>
      match pkt !! r with
      | None => Outside
      | Some c =>
          if (c =? 0) || negb (length raw <? TAU_MAX_NAME_SIZE - 1)%nat then Got (raw, if jumped then S count else count)
          else if 192 <=? c then
            match pkt !! S r with
            | None => Outside
            | Some c' => read_raw rounds pkt (Z.to_nat (c * 256 + c' - 49152)) raw true count
            end
          else read_raw rounds pkt (S r) (raw ++ [c]) jumped (if jumped then count else S count)
      end
  end.

(** The second loop: every length gives way to its label, with a dot behind it. *)
Fixpoint dotted (rounds : nat) (pName : list Z) (i : nat) : dns (list Z * nat) :=
  match rounds with
  | O => Hangs
  | S rounds =>
      if (i <? length (cstr pName))%nat && (i <? TAU_MAX_NAME_SIZE - 1)%nat then
        let p := Z.to_nat (pName !!! i) in
        if (i + p <? TAU_MAX_NAME_SIZE)%nat
        then dotted rounds (take i pName ++ take p (drop (S i) pName) ++ [46] ++ drop (S (i + p)) pName) (S (i + p))
        else Outside
      else Got (pName, i)
  end.

(** What the reader skips, and the buffer with the name. *)
Definition readName (rounds : nat) (pkt : list Z) (pReader : nat) (pName : list Z) : dns (nat * list Z) :=
  '(raw, pCount) ← read_raw rounds pkt pReader [] false 1;
  let pName := raw ++ [0] ++ drop (S (length raw)) pName in
  '(pName, i) ← dotted TAU_MAX_NAME_SIZE pName 0;
  match i with
  | O => Outside
  | S i' => Got (pCount, <[i' := 0]> pName)
  end.

(** [label]: the characters since the last dot. *)
Fixpoint dns_labels (label host : list Z) : list Z :=
  match host with
  | [] => [0]
  | c :: host => if c =? 46 then u8 (Z.of_nat (length label)) :: label ++ dns_labels [] host else dns_labels (label ++ [c]) host
  end.

(** The name, and the host with the dot that was put behind it. *)
Definition changetoDnsNameFormat (pHost : list Z) : list Z * list Z :=
  let pHost := pHost ++ [46] in (dns_labels [] pHost, pHost).

(** ** The query: the packet and [*pSize]. [stack] is what [strBuf] holds before. *)
Definition query_packet (stack pUri : list Z) (id : Z) : dns (list Z * nat) :=
  let strBuf := cstr (vos_strncpy stack pUri (TAU_MAX_URI_SIZE - 1)) in
  if (S (length strBuf) <? TAU_MAX_URI_SIZE + 3)%nat then
    let '(pDns, strBuf) := changetoDnsNameFormat strBuf in
    let pSize := S (length strBuf) in
    let header := be_bytes 2 id ++ [1; 0] ++ be_bytes 2 1 ++ repeat 0 6 in
    Got (header ++ pDns ++ [0; 1; 0; 1], (pSize + 4)%nat)
  else Outside.

(** ** The response *)
Definition inside (pkt : list Z) (off n : nat) : dns unit := if (off + n <=? length pkt)%nat then Got tt else Outside.

(** The loop over the answers from number [i] on. *)
Fixpoint read_answers (rounds : nat) (cnt i : nat) (pkt : list Z) (pReader : nat) (name : list Z) (ip : Z) : dns Z :=
  match cnt with
  | O => Got ip
  | S cnt =>
      '(skip, name) ← readName rounds pkt pReader name;
      let resource := (pReader + skip)%nat in
      if (i <? answers_size)%nat then
        let pReader := (resource + sizeof_TAU_R_DATA_T)%nat in
        _ ← inside pkt resource sizeof_TAU_R_DATA_T;
        let data_len := get16 (resource + 8) pkt in
        if get16 resource pkt =? 1 then
          let ip := if negb (data_len =? 4) then 0 else ip in
          _ ← inside pkt pReader 4;
          let ip := get32 pReader pkt in
          read_answers rounds cnt (S i) pkt (pReader + Z.to_nat data_len) name ip
        else
          '(skip, name) ← readName rounds pkt pReader name;
          read_answers rounds cnt (S i) pkt (pReader + skip) name ip
      else Outside
  end.

(** Neither the size of the packet nor the identification is looked at. *)
Definition parseResponse (rounds : nat) (pPacket : list Z) (querySize : nat) (name : list Z) (ip : Z) : dns Z :=
  read_answers rounds (Z.to_nat (get16 6 pPacket)) 0 pPacket (sizeof_TAU_DNS_HEADER_T + querySize) name ip.

(** * Properties *)

Lemma bind_got {A B} (a : A) (f : A -> dns B) : (Got a ≫= f) = f a.
Proof. done. Qed.

(** ** Names as lists of labels *)
Definition label_ok (l : list Z) : Prop := (1 <= length l <= 63)%nat /\ Forall (fun c => 1 <= c < 192 /\ c <> 46) l.

(** The host name, the labels with their lengths, the name of a packet. *)
Definition with_dots (labels : list (list Z)) : list Z := concat (map (fun l => l ++ [46]) labels).
Definition host_of (labels : list (list Z)) : list Z := removelast (with_dots labels).
Definition raw_of (labels : list (list Z)) : list Z := concat (map (fun l => Z.of_nat (length l) :: l) labels).
Definition encode (labels : list (list Z)) : list Z := raw_of labels ++ [0].

Record name_ok (labels : list (list Z)) : Prop := {
  name_some : labels <> [];
  name_labels : Forall label_ok labels;
  name_short : (length (raw_of labels) < TAU_MAX_NAME_SIZE)%nat }.

Lemma raw_length labels : length (raw_of labels) = length (with_dots labels).
Proof.
  unfold raw_of, with_dots. induction labels as [|l ls IH]; [done|]. cbn [map concat]. rewrite !length_app. cbn [length]. lia.
Qed.

Lemma host_dot labels : labels <> [] -> host_of labels ++ [46] = with_dots labels.
Proof.
  intros Hn. unfold host_of. assert (exists m, with_dots labels = m ++ [46]) as [m ->].
  { unfold with_dots. destruct (exists_last Hn) as (ls & l & ->). rewrite map_app, concat_app. cbn.
    exists (concat (map (fun l => l ++ [46]) ls) ++ l). by rewrite app_nil_r, app_assoc. }
  by rewrite removelast_last.
Qed.

Lemma raw_bytes labels : Forall label_ok labels -> Forall (fun c => 1 <= c < 192) (raw_of labels).
Proof.
  induction 1 as [|l ls [Hl Hc] _ IH]; [constructor|]. unfold raw_of in *. cbn [map concat]. constructor; [lia|].
  apply Forall_app. split; [|done]. eapply Forall_impl; [|exact Hc]. intros c. cbn. lia.
Qed.

Lemma dots_nonzero labels : Forall label_ok labels -> Forall (fun c => c <> 0) (with_dots labels).
Proof.
  induction 1 as [|l ls [Hl Hc] _ IH]; [constructor|]. unfold with_dots in *. cbn [map concat].
  rewrite !Forall_app. split; [split; [|by repeat constructor]|done]. eapply Forall_impl; [|exact Hc]. intros c. cbn. lia.
Qed.

Lemma host_nonzero labels : name_ok labels -> Forall (fun c => c <> 0) (host_of labels).
Proof.
  intros [Hn Hl _]. pose proof (dots_nonzero labels Hl) as Hnz. rewrite <- (host_dot labels Hn) in Hnz.
  by apply Forall_app in Hnz as [Hnz _].
Qed.

Lemma host_nonempty labels : name_ok labels -> host_of labels <> [].
Proof.
  intros [Hn Hl _] E. pose proof (host_dot labels Hn) as Ed. rewrite E in Ed. unfold with_dots in Ed.
  destruct Hl as [|l ls [Hl _] _]; [done|]. cbn in Ed. destruct l as [|c l]; cbn in *; [lia|]. by destruct l.
Qed.

Lemma dns_labels_one l rest : forall label, Forall (fun c => c <> 46) l ->
  dns_labels label (l ++ 46 :: rest) = u8 (Z.of_nat (length (label ++ l))) :: (label ++ l) ++ dns_labels [] rest.
Proof.
  induction l as [|c l IH]; intros label Hl; cbn [app dns_labels].
  - by rewrite Z.eqb_refl, app_nil_r.
  - inversion_clear Hl as [|? ? Hc Hl']. rewrite (proj2 (Z.eqb_neq c 46) Hc), IH by done. by rewrite <- app_assoc.
Qed.

(** The host name is put into the packet's form. *)
Lemma changetoDnsNameFormat_encode labels : name_ok labels ->
  changetoDnsNameFormat (host_of labels) = (encode labels, with_dots labels).
Proof.
  intros [Hn Hl _]. unfold changetoDnsNameFormat. rewrite host_dot by done. f_equal. unfold encode, raw_of, with_dots.
  clear Hn. induction Hl as [|l ls [Hl Hc] _ IH]; [done|]. cbn [map concat]. rewrite <- app_assoc. cbn [app].
  rewrite dns_labels_one by (eapply Forall_impl; [|exact Hc]; intros c; cbn; lia). cbn [app].
  rewrite IH, u8_small by lia. by rewrite <- app_assoc.
Qed.

(** ** Reading *)

(** [s] is in the packet at [r]. *)
Definition at_pos (pkt : list Z) (r : nat) (s : list Z) : Prop := forall k c, s !! k = Some c -> pkt !! (r + k)%nat = Some c.

Lemma at_pos_app pkt r a b : at_pos pkt r (a ++ b) <-> at_pos pkt r a /\ at_pos pkt (r + length a) b.
Proof.
  split.
  - intros H. split; intros k c Hk.
    + apply H. by apply lookup_app_l_Some.
    + replace (r + length a + k)%nat with (r + (length a + k))%nat by lia. apply H.
      rewrite lookup_app_r by lia. by replace (length a + k - length a)%nat with k by lia.
  - intros [Ha Hb] k c Hk. apply lookup_app_Some in Hk. destruct Hk as [Hk|[Hl Hk]]; [by apply Ha|].
    replace (r + k)%nat with (r + length a + (k - length a))%nat by lia. by apply Hb.
Qed.

Lemma at_pos_cons pkt r c s : at_pos pkt r (c :: s) <-> pkt !! r = Some c /\ at_pos pkt (S r) s.
Proof.
  change (c :: s) with ([c] ++ s). rewrite at_pos_app. cbn [length]. replace (r + 1)%nat with (S r) by lia.
  split; intros [H1 H2]; (split; [|done]).
  - specialize (H1 0%nat c eq_refl). by rewrite Nat.add_0_r in H1.
  - intros [|k] c' Hk; [|done]. cbn in Hk. rewrite Nat.add_0_r. congruence.
Qed.

Lemma at_pos_here pre s post : at_pos (pre ++ s ++ post) (length pre) s.
Proof. intros k c Hk. rewrite lookup_app_r by lia. replace (length pre + k - length pre)%nat with k by lia. by apply lookup_app_l_Some. Qed.

Lemma read_raw_plain s : forall rounds pkt r raw jumped count, Forall (fun c => 1 <= c < 192) s -> at_pos pkt r (s ++ [0]) ->
  (length raw + length s < TAU_MAX_NAME_SIZE)%nat -> (length s < rounds)%nat ->
  read_raw rounds pkt r raw jumped count
  = Got (raw ++ s, if jumped then S count else (count + length s)%nat).
Proof.
  induction s as [|c s IH]; intros rounds pkt r raw jumped count Hs Hat Hl Hr; (destruct rounds as [|rounds]; [cbn in Hr; lia|]).
  - cbn [app] in Hat. apply at_pos_cons in Hat as [E _]. cbn [read_raw]. rewrite E. cbn. rewrite app_nil_r, Nat.add_0_r. done.
  - cbn [app] in Hat. apply at_pos_cons in Hat as [E Hat]. inversion_clear Hs as [|? ? Hc Hs']. cbn [read_raw]. rewrite E.
    cbn [length] in Hl, Hr. rewrite (proj2 (Z.eqb_neq c 0)) by lia.
    replace (length raw <? TAU_MAX_NAME_SIZE - 1)%nat with true by (symmetry; apply Nat.ltb_lt; lia).
    cbn [orb negb]. rewrite (proj2 (Z.leb_gt 192 c)) by lia.
    rewrite IH by (try done; rewrite ?length_app; cbn; lia). rewrite <- app_assoc. cbn [app].
    destruct jumped; [done|]. cbn [length]. by rewrite Nat.add_succ_r.
Qed.

Lemma dotted_labels labels : Forall label_ok labels -> forall rounds done rest,
  Forall (fun c => c <> 0) done -> (length done + length (raw_of labels) < TAU_MAX_NAME_SIZE)%nat ->
  (length labels < rounds)%nat ->
  dotted rounds (done ++ raw_of labels ++ 0 :: rest) (length done)
  = Got (done ++ with_dots labels ++ 0 :: rest, length (done ++ with_dots labels)).
Proof.
  induction 1 as [|l ls [Hl Hc] Hls IH]; intros rounds dn rest Hd Hs Hr; (destruct rounds as [|rounds]; [lia|]).
  - cbn [raw_of with_dots map concat app dotted]. rewrite cstr_app_zero by done. by rewrite Nat.ltb_irrefl, app_nil_r.
  - assert (Hraw : raw_of (l :: ls) = Z.of_nat (length l) :: l ++ raw_of ls) by done.
    assert (Hwd : with_dots (l :: ls) = l ++ 46 :: with_dots ls) by (unfold with_dots; cbn [map concat]; by rewrite <- app_assoc).
    assert (Hnz : Forall (fun c => c <> 0) (raw_of (l :: ls))).
    { eapply Forall_impl; [|apply raw_bytes; constructor; [by split|exact Hls]]. intros c. cbn. lia. }
    cbn [length] in Hr. cbn [dotted].
    replace (cstr (dn ++ raw_of (l :: ls) ++ 0 :: rest)) with (dn ++ raw_of (l :: ls))
      by (rewrite (app_assoc dn), cstr_app_zero by (by apply Forall_app); done).
    rewrite Hraw in Hs |- *. cbn [length] in Hs. rewrite length_app in Hs |- *. cbn [length].
    replace (length dn <? length dn + S (length (l ++ raw_of ls)))%nat with true by (symmetry; apply Nat.ltb_lt; lia).
    rewrite ?length_app in Hs.
    replace (length dn <? TAU_MAX_NAME_SIZE - 1)%nat with true by (symmetry; apply Nat.ltb_lt; lia). cbn [andb].
    assert (Ep : (dn ++ (Z.of_nat (length l) :: l ++ raw_of ls) ++ 0 :: rest) !!! length dn = Z.of_nat (length l)).
    { apply list_lookup_total_correct. cbn [app]. apply list_lookup_middle. done. }
    rewrite Ep, Nat2Z.id.
    replace (length dn + length l <? TAU_MAX_NAME_SIZE)%nat with true by (symmetry; apply Nat.ltb_lt; lia).
    specialize (IH rounds (dn ++ l ++ [46]) rest). rewrite !length_app in IH. cbn [length] in IH.
    rewrite Hwd. rewrite take_app_length. cbn [app].
    replace (drop (S (length dn)) (dn ++ Z.of_nat (length l) :: (l ++ raw_of ls) ++ 0 :: rest)) with (l ++ raw_of ls ++ 0 :: rest)
      by (rewrite drop_app_ge by lia; replace (S (length dn) - length dn)%nat with 1%nat by lia; cbn; by rewrite <- app_assoc).
    replace (drop (S (length dn + length l)) (dn ++ Z.of_nat (length l) :: (l ++ raw_of ls) ++ 0 :: rest)) with (raw_of ls ++ 0 :: rest)
      by (rewrite drop_app_ge by lia; replace (S (length dn + length l) - length dn)%nat with (S (length l)) by lia; cbn;
          rewrite <- app_assoc; by rewrite drop_app_length).
    rewrite take_app_length. replace (S (length dn + length l)) with (length dn + (length l + 1))%nat by lia.
    rewrite <- !app_assoc in *. cbn [app] in *. rewrite IH.
    + repeat (rewrite <- ?app_assoc; cbn [app]; rewrite ?length_app; cbn [length]). do 2 f_equal. lia.
    + rewrite !Forall_app. split; [done|]. split; [|by repeat constructor].
      eapply Forall_impl; [|exact Hc]. intros c. cbn. lia.
    + lia.
    + lia.
Qed.

Lemma labels_length labels : (length labels <= length (raw_of labels))%nat.
Proof.
  unfold raw_of. induction labels as [|l ls IH]; [done|]. cbn [map concat]. rewrite length_app. cbn [length]. lia.
Qed.

(** What reading leaves: the host in a buffer of the same size. *)
Definition holds_name (labels : list (list Z)) (pName : list Z) : Prop :=
  cstr pName = host_of labels /\ length pName = TAU_MAX_NAME_SIZE.

Lemma readName_raw rounds pkt r labels name count : name_ok labels -> length name = TAU_MAX_NAME_SIZE ->
  read_raw rounds pkt r [] false 1 = Got (raw_of labels, count) ->
  exists name', readName rounds pkt r name = Got (count, name') /\ holds_name labels name'.
Proof.
  intros [Hn Hl Hs] Hlen E. set (rest := drop (S (length (raw_of labels))) name).
  assert (Hd : dotted TAU_MAX_NAME_SIZE (raw_of labels ++ [0] ++ rest) 0 = Got (with_dots labels ++ 0 :: rest, length (with_dots labels))).
  { pose proof (dotted_labels labels Hl TAU_MAX_NAME_SIZE [] rest) as Hd. apply Hd; [constructor|done|].
    pose proof (labels_length labels). lia. }
  unfold readName. rewrite E, bind_got. cbv beta iota zeta. fold rest. rewrite Hd, bind_got. cbv beta iota zeta.
  rewrite <- (host_dot labels Hn), length_app. cbn [length]. rewrite Nat.add_1_r.
  eexists. split; [reflexivity|]. split.
  - rewrite <- app_assoc. cbn [app]. rewrite insert_app_r_alt by lia. rewrite Nat.sub_diag. cbn [insert list_insert].
    apply cstr_app_zero. pose proof (dots_nonzero labels Hl) as Hnz. rewrite <- (host_dot labels Hn) in Hnz.
    by apply Forall_app in Hnz as [Hnz _].
  - rewrite length_insert, !length_app. cbn [length]. pose proof (raw_length labels) as Er.
    rewrite <- (host_dot labels Hn), length_app in Er. cbn [length] in Er. unfold rest. rewrite length_drop. lia.
Qed.

(** A name is read where it lies, and through a pointer to it; the first is skipped, of the second two bytes. *)
Lemma readName_encode rounds pkt r labels name : name_ok labels -> length name = TAU_MAX_NAME_SIZE ->
  at_pos pkt r (encode labels) -> (TAU_MAX_NAME_SIZE < rounds)%nat ->
  exists name', readName rounds pkt r name = Got (length (encode labels), name') /\ holds_name labels name'.
Proof.
  intros Hok Hlen Hat Hr. apply readName_raw; [done|done|]. destruct Hok as [Hn Hl Hs].
  unfold encode. rewrite (read_raw_plain (raw_of labels)) by (first [by apply raw_bytes | done | cbn; lia]).
  cbn [app]. do 2 f_equal. rewrite length_app. cbn [length]. lia.
Qed.

Lemma readName_pointer rounds pkt r t labels name : name_ok labels -> length name = TAU_MAX_NAME_SIZE ->
  at_pos pkt r [192 + Z.of_nat t / 256; Z.of_nat t mod 256] -> Z.of_nat t < 16384 -> at_pos pkt t (encode labels) -> (TAU_MAX_NAME_SIZE < rounds)%nat ->
  exists name', readName rounds pkt r name = Got (2%nat, name') /\ holds_name labels name'.
Proof.
  intros Hok Hlen Hp Ht Hat Hr. apply readName_raw; [done|done|]. destruct Hok as [Hn Hl Hs].
  apply at_pos_cons in Hp as [E1 Hp]. apply at_pos_cons in Hp as [E2 _].
  destruct rounds as [|rounds]; [lia|]. cbn [read_raw]. rewrite E1.
  rewrite (proj2 (Z.eqb_neq _ 0)) by dlia. cbn [length]. cbn [orb negb Nat.ltb Nat.leb TAU_MAX_NAME_SIZE Nat.sub].
  rewrite (proj2 (Z.leb_le _ _)) by dlia. rewrite E2.
  replace (Z.to_nat _) with t by dlia.
  rewrite (read_raw_plain (raw_of labels)) by (first [by apply raw_bytes | done | cbn; lia]). done.
Qed.

Lemma at_pos_bget pkt r s : at_pos pkt r s -> bget r (length s) pkt = s.
Proof.
  intros Hat. apply list_eq. intros k. rewrite lookup_bget. destruct (Nat.ltb_spec k (length s)) as [Hk|Hk].
  - destruct (lookup_lt_is_Some_2 s k Hk) as [c Ec]. by rewrite Ec, (Hat k c Ec).
  - by rewrite (lookup_ge_None_2 s) by lia.
Qed.

Lemma at_pos_inside pkt r s : at_pos pkt r s -> s <> [] -> inside pkt r (length s) = Got tt.
Proof.
  intros Hat Hs. unfold inside. replace (r + length s <=? length pkt)%nat with true; [done|]. symmetry. apply Nat.leb_le.
  destruct (lookup_lt_is_Some_2 s (length s - 1)) as [c Ec]; [destruct s; [done|cbn; lia]|].
  apply Hat, lookup_lt_Some in Ec. destruct s; [done|]. cbn [length] in *. lia.
Qed.

Lemma at_pos_get16 pkt r v : at_pos pkt r (be_bytes 2 v) -> 0 <= v < 65536 -> get16 r pkt = v.
Proof.
  intros Hat Hv. unfold get16. rewrite <- (be_bytes_length 2 v), at_pos_bget by done.
  rewrite be_value_bytes. by apply Z.mod_small.
Qed.

Lemma at_pos_get32 pkt r v : at_pos pkt r (be_bytes 4 v) -> 0 <= v < 4294967296 -> get32 r pkt = v.
Proof.
  intros Hat Hv. unfold get32. rewrite <- (be_bytes_length 4 v), at_pos_bget by done.
  rewrite be_value_bytes. by apply Z.mod_small.
Qed.

(** ** A response: the answers give an address, or another name *)
Inductive answer := Address (ttl ip : Z) | Alias (ty ttl : Z) (labels : list (list Z)).
Definition answer_ok (a : answer) : Prop :=
  match a with
  | Address _ ip => 0 <= ip < 4294967296
  | Alias ty _ labels => 0 <= ty < 65536 /\ ty <> 1 /\ name_ok labels
  end.
Definition record_bytes (ty ttl : Z) (data : list Z) : list Z :=
  [192; 12] ++ be_bytes 2 ty ++ [0; 1] ++ be_bytes 4 ttl ++ be_bytes 2 (Z.of_nat (length data)) ++ data.
Definition answer_bytes (a : answer) : list Z :=
  match a with
  | Address ttl ip => record_bytes 1 ttl (be_bytes 4 ip)
  | Alias ty ttl labels => record_bytes ty ttl (encode labels)
  end.
Definition response (id : Z) (labels : list (list Z)) (answers : list answer) : list Z :=
  (be_bytes 2 id ++ [0x81; 0x80; 0; 1] ++ be_bytes 2 (Z.of_nat (length answers)) ++ [0; 0; 0; 0])
  ++ (encode labels ++ [0; 1; 0; 1]) ++ concat (map answer_bytes answers).
Definition last_ip (answers : list answer) (ip : Z) : Z :=
  fold_left (fun ip a => match a with Address _ ip' => ip' | Alias _ _ _ => ip end) answers ip.

Lemma read_answers_run rounds pkt labels answers : name_ok labels -> at_pos pkt 12 (encode labels) -> (TAU_MAX_NAME_SIZE < rounds)%nat ->
  Forall answer_ok answers -> forall i r name ip, at_pos pkt r (concat (map answer_bytes answers)) ->
  (i + length answers <= answers_size)%nat -> length name = TAU_MAX_NAME_SIZE ->
  read_answers rounds (length answers) i pkt r name ip = Got (last_ip answers ip).
Proof.
  intros Hok H12 Hr. induction 1 as [|a answers Ha _ IH]; intros i r name ip Hat Hi Hn; [done|].
  cbn [map concat] in Hat. apply at_pos_app in Hat as [Ha1 Hat]. cbn [length] in Hi |- *. cbn [read_answers].
  assert (exists ty ttl data, answer_bytes a = record_bytes ty ttl data /\ 0 <= ty < 65536 /\ Z.of_nat (length data) < 65536 /\ data <> []
    /\ match a with Address _ ip' => ty = 1 /\ data = be_bytes 4 ip' | Alias _ _ ls => ty <> 1 /\ data = encode ls end)
    as (ty & ttl & data & Eb & Hty & Hdl & Hdn & Hcase).
  { destruct a as [ttl ip'|ty ttl ls].
    - exists 1, ttl, (be_bytes 4 ip'). rewrite be_bytes_length. split_and!; try done; lia.
    - destruct Ha as (Hty & Hne & [_ _ Hs]). exists ty, ttl, (encode ls). unfold encode, TAU_MAX_NAME_SIZE in *.
      rewrite length_app. cbn [length]. split_and!; try done; try lia. intros E. by apply app_eq_nil in E as [_ ?]. }
  rewrite Eb in Ha1, Hat. unfold record_bytes in Ha1.
  rewrite !at_pos_app in Ha1. destruct Ha1 as (Hp & Ht & Hc & Hl & Hdlen & Hdata).
  rewrite !be_bytes_length in *. cbn [length] in *.
  destruct (readName_pointer rounds pkt r 12 labels name Hok Hn) as (name' & E & Hh).
  { exact Hp. } { done. } { done. } { done. }
  rewrite E, bind_got. cbv beta iota zeta. replace (i <? answers_size)%nat with true by (symmetry; apply Nat.ltb_lt; lia).
  assert (Hat' : at_pos pkt (r + 2 + sizeof_TAU_R_DATA_T + length data) (concat (map answer_bytes answers))).
  { revert Hat. unfold record_bytes. rewrite !length_app, !be_bytes_length. cbn [length]. unfold sizeof_TAU_R_DATA_T.
    replace (r + (2 + (2 + (2 + (4 + (2 + length data))))))%nat with (r + 2 + 10 + length data)%nat by lia. done. }
  replace (r + 2 + 2 + 2 + 4)%nat with (r + 2 + 8)%nat in Hdlen by lia.
  assert (Hdata' : at_pos pkt (r + 2 + sizeof_TAU_R_DATA_T) data).
  { unfold sizeof_TAU_R_DATA_T. by replace (r + 2 + 10)%nat with (r + 2 + 2 + 2 + 4 + 2)%nat by lia. }
  assert (Ein : inside pkt (r + 2) sizeof_TAU_R_DATA_T = Got tt).
  { pose proof (at_pos_inside _ _ _ Hdata' Hdn) as Hi'. unfold inside in *. unfold sizeof_TAU_R_DATA_T in *.
    destruct (Nat.leb_spec (r + 2 + 10 + length data) (length pkt)); [|done].
    replace (r + 2 + 10 <=? length pkt)%nat with true; [done|]. symmetry. apply Nat.leb_le. lia. }
  rewrite Ein, bind_got. rewrite (at_pos_get16 _ _ _ Hdlen), (at_pos_get16 _ _ _ Ht) by lia. cbv zeta.
  destruct Hh as [_ Hn']. destruct a as [ttl' ip'|ty' ttl' ls]; destruct Hcase as [Ety ->].
  - subst ty. rewrite Z.eqb_refl. pose proof (at_pos_inside _ _ _ Hdata' Hdn) as Hi'. rewrite be_bytes_length in *. rewrite Hi', bind_got.
    rewrite (at_pos_get32 _ _ _ Hdata') by done. rewrite Nat2Z.id. rewrite IH; [done|done|lia|done].
  - rewrite (proj2 (Z.eqb_neq ty 1)) by done. destruct Ha as (_ & _ & Hls).
    destruct (readName_encode rounds pkt _ ls name' Hls Hn' Hdata' Hr) as (name'' & E2 & [_ Hn'']).
    rewrite E2, bind_got. cbv beta iota zeta. rewrite IH; [done|done|lia|done].
Qed.

(** The query for a host and the answer to it: from every response that repeats the question, with addresses and
    aliases in any order, the last address is taken. *)
Theorem dns_query_answered rounds stack labels id id' answers name ip :
  name_ok labels -> (length (host_of labels) < TAU_MAX_URI_SIZE - 1)%nat -> length stack = (TAU_MAX_URI_SIZE + 3)%nat ->
  Forall answer_ok answers -> (length answers <= answers_size)%nat ->
  let r := response id' labels answers in (length r <= TAU_MAX_DNS_BUFFER_SIZE)%nat ->
  length name = TAU_MAX_NAME_SIZE -> (TAU_MAX_NAME_SIZE < rounds)%nat ->
  exists packet querySize, query_packet stack (host_of labels) id = Got (packet, querySize)
    /\ packet = (be_bytes 2 id ++ [1; 0; 0; 1; 0; 0; 0; 0; 0; 0]) ++ encode labels ++ [0; 1; 0; 1]
    /\ parseResponse rounds (r ++ repeat 0 (TAU_MAX_DNS_BUFFER_SIZE - length r)) querySize name ip = Got (last_ip answers ip).
Proof.
  intros Hok Hh Hst Ha Hc r Hlen Hn Hr.
  assert (Hcs : cstr (vos_strncpy stack (host_of labels) (TAU_MAX_URI_SIZE - 1)) = host_of labels).
  { apply cstr_vos_strncpy; [by apply host_nonzero|done|rewrite Hst; unfold TAU_MAX_URI_SIZE; lia]. }
  exists ((be_bytes 2 id ++ [1; 0; 0; 1; 0; 0; 0; 0; 0; 0]) ++ encode labels ++ [0; 1; 0; 1]), (length (encode labels) + 4)%nat.
  split_and!; [|done|].
  - unfold query_packet. rewrite Hcs.
    replace (S (length (host_of labels)) <? TAU_MAX_URI_SIZE + 3)%nat with true by (symmetry; apply Nat.ltb_lt; lia).
    rewrite changetoDnsNameFormat_encode by done. cbv beta iota zeta.
    assert (S (length (with_dots labels)) = length (encode labels)) as ->
      by (unfold encode; rewrite length_app, raw_length; cbn [length]; lia).
    change (be_bytes 2 1) with [0; 1]. change (repeat 0 6) with [0; 0; 0; 0; 0; 0]. rewrite <- !app_assoc. done.
  - unfold parseResponse.
    assert (Hat : at_pos (r ++ repeat 0 (TAU_MAX_DNS_BUFFER_SIZE - length r)) 0 r) by apply (at_pos_here []).
    unfold r in Hat at 3. unfold response in Hat. rewrite !at_pos_app, !be_bytes_length in Hat. cbn [length] in Hat.
    destruct Hat as ((_ & _ & Hcnt & _) & (Hq & _) & Hans).
    rewrite (at_pos_get16 _ 6 (Z.of_nat (length answers)) Hcnt) by (unfold answers_size in *; lia). rewrite Nat2Z.id.
    apply (read_answers_run rounds _ labels); try done.
    rewrite !length_app in Hans. exact Hans.
Qed.

(** ** Whether reading ends *)

(** Pointers of the packet lead back. *)
Definition backward (pkt : list Z) : Prop :=
  forall r c c', pkt !! r = Some c -> 192 <= c -> pkt !! S r = Some c' -> (Z.to_nat (c * 256 + c' - 49152) < r)%nat.

Lemma read_raw_ends pkt : backward pkt -> forall rounds r raw jumped count, (r <= length pkt)%nat ->
  ((TAU_MAX_NAME_SIZE - length raw) * S (length pkt) + r < rounds)%nat -> read_raw rounds pkt r raw jumped count <> Hangs.
Proof.
  intros Hb. induction rounds as [|rounds IH]; intros r raw jumped count Hl Hr; [by apply Nat.nlt_0_r in Hr|]. cbn [read_raw].
  destruct (pkt !! r) as [c|] eqn:E; [|done]. pose proof (lookup_lt_Some _ _ _ E).
  destruct (_ || _) eqn:Estop; [done|]. apply orb_false_elim in Estop as [_ Estop]. apply negb_false_iff, Nat.ltb_lt in Estop.
  destruct (192 <=? c) eqn:Ec; bprop.
  - destruct (pkt !! S r) as [c'|] eqn:E'; [|done]. pose proof (Hb r c c' E Ec E'). apply IH; [lia|].
    revert Hr. generalize ((TAU_MAX_NAME_SIZE - length raw) * S (length pkt))%nat. lia.
  - apply IH; [lia|]. rewrite length_app. cbn [length]. replace (TAU_MAX_NAME_SIZE - length raw)%nat with (S (TAU_MAX_NAME_SIZE - (length raw + 1)))%nat in Hr by lia.
    rewrite Nat.mul_succ_l in Hr. revert Hr. generalize ((TAU_MAX_NAME_SIZE - (length raw + 1)) * S (length pkt))%nat. lia.
Qed.

Lemma dotted_ends rounds : forall pName i, (TAU_MAX_NAME_SIZE <= i + rounds)%nat -> (0 < rounds)%nat -> dotted rounds pName i <> Hangs.
Proof.
  induction rounds as [|rounds IH]; intros pName i Hi Hr; [lia|]. cbn [dotted].
  destruct (_ && _) eqn:E; [|done]. apply andb_prop in E as [_ E]. apply Nat.ltb_lt in E.
  destruct (_ <? _)%nat; [|done]. apply IH; lia.
Qed.

(** Reading a name ends where the pointers of the packet lead back, whatever else it holds: the rounds that suffice
    are bounded by its length and the longest name. *)
Theorem readName_ends pkt r name rounds : backward pkt -> (r <= length pkt)%nat -> (S TAU_MAX_NAME_SIZE * S (length pkt) < rounds)%nat ->
  readName rounds pkt r name <> Hangs.
Proof.
  intros Hb Hl Hr. unfold readName. pose proof (read_raw_ends pkt Hb rounds r [] false 1 Hl) as He.
  destruct (read_raw rounds pkt r [] false 1) as [[raw count]| |]; [|done|exfalso; apply He; [cbn [length]; lia|done]].
  rewrite bind_got. cbv beta iota zeta.
  pose proof (dotted_ends TAU_MAX_NAME_SIZE (raw ++ [0] ++ drop (S (length raw)) name) 0) as Hd.
  destruct (dotted TAU_MAX_NAME_SIZE _ 0) as [[pName [|i]]| |]; [done|done|done|exfalso; apply Hd; [lia|unfold TAU_MAX_NAME_SIZE; lia|done]].
Qed.

(** A pointer to itself keeps the reader in its loop forever. *)
Theorem readName_self_pointer_hangs pkt r name : Z.of_nat r < 16384 ->
  at_pos pkt r [192 + Z.of_nat r / 256; Z.of_nat r mod 256] -> forall rounds, readName rounds pkt r name = Hangs.
Proof.
  intros Hr Hat rounds. apply at_pos_cons in Hat as [E1 Hat]. apply at_pos_cons in Hat as [E2 _].
  unfold readName. assert (forall jumped count, read_raw rounds pkt r [] jumped count = Hangs) as E; [|by rewrite E].
  induction rounds as [|rounds IH]; intros jumped count; [done|]. cbn [read_raw]. rewrite E1, E2.
  rewrite (proj2 (Z.eqb_neq _ 0)), (proj2 (Z.leb_le _ _)) by dlia. cbn [length orb negb Nat.ltb Nat.leb TAU_MAX_NAME_SIZE Nat.sub].
  replace (Z.to_nat _) with r by dlia. apply IH.
Qed.

(** A name of one label, and a pointer back to it. *)
Lemma readName_ends_witness : readName (S TAU_MAX_NAME_SIZE * 7) [1; 97; 0; 192; 0] 3 (repeat 0 TAU_MAX_NAME_SIZE) <> Hangs.
Proof.
  apply (readName_ends [1; 97; 0; 192; 0] 3).
  - intros [|[|[|[|[|r]]]]] c c' E Hc E'; cbn in E, E'; try (injection E as <-; lia); try congruence.
    injection E as <-. injection E' as <-. cbn. lia.
  - cbn [length]. lia.
  - cbn [length]. unfold TAU_MAX_NAME_SIZE. lia.
Defined.
