(* ===== verification/TauDnr.v ===== *)
(** * Resolving names

    Models src/app/trdp/tcnopen/tau_dnr.c: the cache of host names and the functions of the interface. The cache is
    the list of the entries in use; behind them the array holds zeros. What the network and the operating system
    answer is an argument ([dns_env], [tcn_env]); sorting and searching are the C library's, by the class [Libc].
    A result [Outside] is where the C program leaves its arrays or follows a null pointer, and where it copies a name
    that does not end within the place of the cache over the fields behind it. *)
From Stdlib Require Import String.
From stdpp Require Import sorting.
From S2P Require Import Prelude Bytes VosString TrdpTypes TauDnrName.

Definition TAU_MAX_HOSTS_LINE_LENGTH : nat := 120.
Definition TAU_MAX_NO_CACHE_ENTRY : nat := 50.
Definition TAU_DNS_TIME_OUT_LONG : Z := 10.
Definition TAU_DNS_TIME_OUT_SHORT : Z := 1.
Definition TAU_MAX_HOST_URI_LEN : nat := 80.
Definition TRDP_MAX_LABEL_LEN : nat := 16.
Definition TRDP_MAX_URI_HOST_LEN : nat := 64.
Definition TCN_DNS_REP_COMID : Z := 141.
Definition VOS_INADDR_ANY : Z := 0.

Inductive TRDP_DNR_STATE_T := TRDP_DNR_UNKNOWN | TRDP_DNR_NOT_AVAILABLE | TRDP_DNR_ACTIVE | TRDP_DNR_HOSTSFILE.
Inductive TRDP_DNR_OPTS_T := TRDP_DNR_COMMON_THREAD | TRDP_DNR_OWN_THREAD | TRDP_DNR_STANDARD_DNS.
#[global] Instance TRDP_DNR_OPTS_T_eq_dec : EqDecision TRDP_DNR_OPTS_T.
Proof. solve_decision. Defined.
Definition dnr_opts_value (o : TRDP_DNR_OPTS_T) : Z :=
  match o with TRDP_DNR_COMMON_THREAD => 0 | TRDP_DNR_OWN_THREAD => 1 | TRDP_DNR_STANDARD_DNS => 2 end.

Record TAU_DNR_ENTRY_T := mkEntry { uri : list Z; ipAddr : Z; etbTopoCnt : Z; opTrnTopoCnt : Z; fixedEntry : bool }.
Record TAU_DNR_DATA_T := mkDnr { dnsIpAddr : Z; dnsPort : Z; timeout : Z; useTCN_DNS : TRDP_DNR_OPTS_T; cache : list TAU_DNR_ENTRY_T }.
Definition noOfCachedEntries (pDNR : TAU_DNR_DATA_T) : nat := length (cache pDNR).
Definition set_cache (c : list TAU_DNR_ENTRY_T) (d : TAU_DNR_DATA_T) : TAU_DNR_DATA_T :=
  mkDnr (dnsIpAddr d) (dnsPort d) (timeout d) (useTCN_DNS d) c.

(** An entry of the array that was never used. *)
Definition blank_uri : list Z := repeat 0 (TRDP_MAX_URI_HOST_LEN + 1).

(** What the resolver uses of the application's session. *)
Record app_session := mkApp { session : TRDP_SESSION_T; hostName : list Z; pUser : option TAU_DNR_DATA_T }.
Definition set_pUser (d : option TAU_DNR_DATA_T) (a : app_session) : app_session := mkApp (session a) (hostName a) d.

Definition compareURI (arg1 arg2 : list Z) : Z := vos_strnicmp arg1 arg2 TRDP_MAX_URI_HOST_LEN.
Definition uri_le (a b : TAU_DNR_ENTRY_T) : Prop := compareURI (uri a) (uri b) <= 0.

(** The C library: sorting and searching with [compareURI], addresses in text. *)
Class Libc := {
  vos_qsort : list TAU_DNR_ENTRY_T -> list TAU_DNR_ENTRY_T;
  vos_bsearch : list Z -> list TAU_DNR_ENTRY_T -> option nat;
  inet_aton : list Z -> option Z }.
Class LibcLaws `{Libc} := {
  qsort_perm l : vos_qsort l ≡ₚ l;
  qsort_sorted l : StronglySorted uri_le (vos_qsort l);
  bsearch_found key l i : StronglySorted uri_le l -> vos_bsearch key l = Some i ->
    exists e, l !! i = Some e /\ compareURI key (uri e) = 0;
  bsearch_none key l : StronglySorted uri_le l -> vos_bsearch key l = None -> Forall (fun e => compareURI key (uri e) <> 0) l }.

(** ** The file of hosts *)
Definition iscntrl (c : Z) : bool := (c <? 32) || (c =? 127).
Definition ispunct (c : Z) : bool :=
  ((33 <=? c) && (c <=? 47)) || ((58 <=? c) && (c <=? 64)) || ((91 <=? c) && (c <=? 96)) || ((123 <=? c) && (c <=? 126)).

(** At most [n] characters, up to the end of the line; and the rest of the file. *)
Fixpoint fgets (n : nat) (file : list Z) : list Z * list Z :=
  match n, file with
  | O, _ => ([], file)
  | S n, [] => ([], [])
  | S n, c :: file => if c =? 10 then ([c], file) else let '(line, file) := fgets n file in (c :: line, file)
  end.

Fixpoint skip_while (p : Z -> bool) (l : list Z) : list Z :=
  match l with c :: l' => if p c then skip_while p l' else l | [] => [] end.
Fixpoint take_while (p : Z -> bool) (l : list Z) : list Z :=
  match l with c :: l' => if p c then c :: take_while p l' else [] | [] => [] end.
Definition uri_char (c : Z) : bool := negb (is_space c) && negb (iscntrl c) && negb (c =? 35).

Section Dnr.
Context `{Libc}.

(** The entry of a line, if it has one. The name is copied without its end, which the blank entry has where there is room. *)
Definition host_line (line : list Z) : dns (option TAU_DNR_ENTRY_T) :=
  let line := cstr line in
  let c := hd 0 line in
  if (c =? 35) || (c =? 0) || iscntrl c then mret None else
  let ip := vos_dottedIP inet_aton line in
  if ip =? VOS_INADDR_ANY then mret None else
  let line := skip_while (fun c => is_digit c || ispunct c) line in
  let line := skip_while is_space line in
  let name := take_while uri_char line in
  match skip_while uri_char line, name with
  | [], _ | _, [] => mret None
  | _, _ =>
      if (length name <=? TRDP_MAX_URI_HOST_LEN)%nat
      then mret (Some (mkEntry (bput 0 name blank_uri) ip 0 0 true)) else Outside
  end.

Fixpoint host_lines (rounds : nat) (file : list Z) (entries : list TAU_DNR_ENTRY_T) : dns (list TAU_DNR_ENTRY_T) :=
  match rounds, file with
  | O, _ | _, [] => mret entries
  | S rounds, _ =>
      if (length entries <? TAU_MAX_NO_CACHE_ENTRY)%nat then
        let '(line, file) := fgets (TAU_MAX_HOSTS_LINE_LENGTH - 1) file in
        e ← host_line line;
        host_lines rounds file (match e with Some e => entries ++ [e] | None => entries end)
      else mret entries
  end.

(** Every round takes a character of the file at least. *)
Definition readHostsFile (pDNR : TAU_DNR_DATA_T) (file : option (list Z)) : dns (TRDP_ERR_T * TAU_DNR_DATA_T) :=
  match file with
  | None => mret (TRDP_PARAM_ERR, pDNR)
  | Some file =>
      entries ← host_lines (length file) file (cache pDNR);
      mret (TRDP_NO_ERR, set_cache (vos_qsort entries) pDNR)
  end.

(** ** Asking a DNS server *)

(** What the socket gives: a datagram with its sender, or nothing but an error. *)
Inductive arrival := Datagram (data : list Z) (srcIp srcPort : Z) | Receive_error.
(** The socket, the result of sending, what arrives before the time-out; the rounds allowed for a name; what the
    buffers on the stack hold before. *)
Record dns_env := mkDnsEnv {
  sock_opened : bool; send_ok : bool; arrivals : list arrival; rounds : nat; stack : list Z; name_buffer : list Z }.

Definition topo_now (a : app_session) (e : TAU_DNR_ENTRY_T) (ip : Z) : TAU_DNR_ENTRY_T :=
  mkEntry (uri e) ip (s_etbTopoCnt (session a)) (s_opTrnTopoCnt (session a)) (fixedEntry e).

(** A new entry in the cache: behind the others, or in place of the first. [n] is the number of characters that
    are copied, with zeros behind the name; zeros behind the name's 65 go to the fields that are set afterwards. A
    name that does not end within its place runs over those fields instead, and whoever reads it goes on there. *)
Definition put_entry (a : app_session) (n : nat) (pUri : list Z) (ip : Z) (pDNR : TAU_DNR_DATA_T) : dns TAU_DNR_DATA_T :=
  let full := negb (noOfCachedEntries pDNR <? TAU_MAX_NO_CACHE_ENTRY)%nat in
  let old := if full then from_option uri blank_uri (hd_error (cache pDNR)) else blank_uri in
  if (TRDP_MAX_URI_HOST_LEN <? length (cstr (take n pUri)))%nat then Outside else
  let name := take (TRDP_MAX_URI_HOST_LEN + 1) (vos_strncpy (old ++ repeat 0 (TAU_MAX_HOST_URI_LEN - length old)) pUri n) in
  let e := mkEntry name ip (s_etbTopoCnt (session a)) (s_opTrnTopoCnt (session a)) false in
  mret (set_cache (vos_qsort (if full then e :: tl (cache pDNR) else cache pDNR ++ [e])) pDNR).

Definition store_answer (a : app_session) (pTemp : option nat) (pUri : list Z) (ip : Z) (pDNR : TAU_DNR_DATA_T) : dns TAU_DNR_DATA_T :=
  match pTemp ≫= fun i => (fun e => (i, e)) <$> cache pDNR !! i with
  | Some (i, e) =>
      if negb (ip =? VOS_INADDR_ANY) && negb (fixedEntry e) then mret (set_cache (<[i := topo_now a e ip]> (cache pDNR)) pDNR)
      else put_entry a (TAU_MAX_URI_SIZE - 1) pUri ip pDNR
  | None => put_entry a (TAU_MAX_URI_SIZE - 1) pUri ip pDNR
  end.

(** The buffer with a datagram: as much as there is room for, over zeros. *)
Definition packet_buffer (data : list Z) : list Z :=
  let data := take TAU_MAX_DNS_BUFFER_SIZE data in data ++ repeat 0 (TAU_MAX_DNS_BUFFER_SIZE - length data).

(** The loop that waits for a reply. The sender of a datagram becomes the server. *)
Fixpoint wait_reply (env : dns_env) (a : app_session) (pTemp : option nat) (pUri : list Z) (querySize : nat)
    (l : list arrival) (pDNR : TAU_DNR_DATA_T) : dns TAU_DNR_DATA_T :=
  match l with
  | [] => mret pDNR
  | Receive_error :: l => wait_reply env a pTemp pUri querySize l pDNR
  | Datagram data srcIp srcPort :: l =>
      let pDNR := mkDnr srcIp srcPort (timeout pDNR) (useTCN_DNS pDNR) (cache pDNR) in
      match data with
      | [] => wait_reply env a pTemp pUri querySize l pDNR
      | _ =>
          ip ← parseResponse (rounds env) (packet_buffer data) querySize (name_buffer env) VOS_INADDR_ANY;
          store_answer a pTemp pUri ip pDNR
      end
  end.

(** [createSendQuery]: the packet is sent to the server; [None] is an error. *)
Definition createSendQuery (env : dns_env) (pUri : list Z) (id : Z) : dns (option nat) :=
  match cstr pUri with
  | [] => mret None
  | _ => '(packet, pSize) ← query_packet (stack env) pUri id; mret (if send_ok env then Some pSize else None)
  end.

Definition updateDNSentry (env : dns_env) (id : Z) (a : app_session) (pDNR : TAU_DNR_DATA_T) (pTemp : option nat) (pUri : list Z)
    : dns TAU_DNR_DATA_T :=
  if negb (sock_opened env) then mret pDNR else
  q ← createSendQuery env pUri id;
  match q with
  | None => mret pDNR
  | Some querySize => wait_reply env a pTemp pUri querySize (arrivals env) pDNR
  end.

(** ** Asking the TCN-DNS server *)

(** Needs an update: no address, or another topography than the session's, unless fixed or of the own consist. *)
Definition needs_update (a : app_session) (e : TAU_DNR_ENTRY_T) : bool :=
  if fixedEntry e || (negb (ipAddr e =? 0) && (etbTopoCnt e =? 0) && (opTrnTopoCnt e =? 0)) then false
  else (ipAddr e =? 0) || negb (etbTopoCnt e =? s_etbTopoCnt (session a)) || negb (opTrnTopoCnt e =? s_opTrnTopoCnt (session a)).

Definition sizeof_TCN_URI_T : nat := 92.
Definition sizeof_TRDP_ETB_CTRL_VDP_T : nat := 16.

(** The request: header, one [TCN_URI_T] per entry, the trailer. The counters are in the order of the host. *)
Definition buildRequest (a : app_session) (pDNR : TAU_DNR_DATA_T) : list Z :=
  let uris := take 255 (filter (fun e => needs_update a e = true) (cache pDNR)) in
  [1; 0; 0; 0] ++ vos_strncpy (repeat 0 TRDP_MAX_LABEL_LEN) (hostName a) TRDP_MAX_LABEL_LEN
  ++ rev (be_bytes 4 (s_etbTopoCnt (session a))) ++ rev (be_bytes 4 (s_opTrnTopoCnt (session a)))
  ++ [255; 0; 0; u8 (Z.of_nat (length uris))]
  ++ concat (map (fun e => vos_strncpy (repeat 0 TAU_MAX_HOST_URI_LEN) (uri e) (TAU_MAX_HOST_URI_LEN - 1) ++ repeat 0 12) uris)
  ++ repeat 0 sizeof_TRDP_ETB_CTRL_VDP_T.

Definition addEntry (a : app_session) (pURI : list Z) (pDNR : TAU_DNR_DATA_T) : dns TAU_DNR_DATA_T :=
  put_entry a TAU_MAX_HOST_URI_LEN pURI 0 pDNR.

(** One entry of the reply, at [off]. *)
Definition reply_entry (pReply : list Z) (off : nat) (c : list TAU_DNR_ENTRY_T) : dns (list TAU_DNR_ENTRY_T) :=
  _ ← inside pReply off sizeof_TCN_URI_T;
  if s16 (get16 (off + 82) pReply) =? -1 then mret c else
  let tcnUriStr := bget off TAU_MAX_HOST_URI_LEN pReply in
  match vos_bsearch tcnUriStr c ≫= fun i => (fun e => (i, e)) <$> c !! i with
  | None => mret c
  | Some (i, e) =>
      mret (<[i := mkEntry (vos_strncpy (uri e) tcnUriStr TAU_MAX_URI_SIZE) (get32 (off + 84) pReply)
                     (get32 20 pReply) (get32 24 pReply) false]> c)
  end.

Fixpoint reply_entries (cnt : nat) (pReply : list Z) (off : nat) (c : list TAU_DNR_ENTRY_T) : dns (list TAU_DNR_ENTRY_T) :=
  match cnt with
  | O => mret c
  | S cnt => c ← reply_entry pReply off c; reply_entries cnt pReply (off + sizeof_TCN_URI_T) c
  end.

(** The number of entries is the one the reply gives; its size is not looked at. *)
Definition parseUpdateTCNResponse (pDNR : TAU_DNR_DATA_T) (pReply : list Z) : dns TAU_DNR_DATA_T :=
  _ ← inside pReply 0 32;
  c ← reply_entries (Z.to_nat (pReply !!! 31%nat)) pReply 32 (cache pDNR);
  mret (set_cache (vos_qsort c) pDNR).

(** A message for the callback, and whether it gives the semaphore. *)
Record md_message := mkMsg { msg_comId : Z; resultCode : TRDP_ERR_T; pData : list Z }.
Definition dnrMDCallback (pDNR : TAU_DNR_DATA_T) (pMsg : md_message) : dns (TAU_DNR_DATA_T * bool) :=
  match pData pMsg with
  | [] => mret (pDNR, false)
  | _ =>
      if (msg_comId pMsg =? TCN_DNS_REP_COMID) && is_ok (resultCode pMsg)
      then d ← parseUpdateTCNResponse pDNR (pData pMsg); mret (d, true)
      else mret (pDNR, false)
  end.

Fixpoint deliver (l : list md_message) (pDNR : TAU_DNR_DATA_T) (given : bool) : dns (TAU_DNR_DATA_T * bool) :=
  match l with
  | [] => mret (pDNR, given)
  | m :: l => '(d, g) ← dnrMDCallback pDNR m; deliver l d (given || g)
  end.

(** The semaphore, the request, and what comes while it is waited for: the first time and the second. *)
Record tcn_env := mkTcnEnv { sema_created : bool; requested : bool; first_wait : list md_message; second_wait : list md_message }.

Definition updateTCNDNSentry (env : tcn_env) (a : app_session) (pDNR : TAU_DNR_DATA_T) (pTemp : option nat) (pUri : list Z)
    : dns TAU_DNR_DATA_T :=
  if negb (sema_created env) then mret pDNR else
  pDNR ← match pTemp with None => addEntry a pUri pDNR | Some _ => mret pDNR end;
  if negb (requested env) then mret pDNR else
  '(pDNR, taken) ← deliver (first_wait env) pDNR false;
  match useTCN_DNS pDNR with
  | TRDP_DNR_OWN_THREAD => if (taken : bool) then Got pDNR else '(pDNR, _) ← deliver (second_wait env) pDNR false; Got pDNR
  | _ => Got pDNR
  end.

(** What is sent to the server meanwhile. *)
Definition tcn_request (a : app_session) (pDNR : TAU_DNR_DATA_T) (pTemp : option nat) (pUri : list Z) : dns (list Z) :=
  pDNR ← match pTemp with None => addEntry a pUri pDNR | Some _ => mret pDNR end; mret (buildRequest a pDNR).

(** ** The interface *)
Definition tau_initDnr (mem : bool) (a : app_session) (dns_ip dns_port : Z) (hosts : option (option (list Z))) (dnsOptions : TRDP_DNR_OPTS_T)
    : dns (TRDP_ERR_T * app_session) :=
  if negb mem then mret (TRDP_MEM_ERR, a) else
  let port := if dns_port =? 0 then (match dnsOptions with TRDP_DNR_STANDARD_DNS => 53 | _ => 17225 end) else dns_port in
  let d := mkDnr (if dns_ip =? 0 then 0x0a000001 else dns_ip) port 0 dnsOptions [] in
  match hosts with
  | Some file =>
      '(err, d) ← readHostsFile d file;
      mret (err, set_pUser (Some (mkDnr (dnsIpAddr d) (dnsPort d) TAU_DNS_TIME_OUT_SHORT (useTCN_DNS d) (cache d))) a)
  | None => mret (TRDP_NO_ERR, set_pUser (Some (mkDnr (dnsIpAddr d) (dnsPort d) TAU_DNS_TIME_OUT_LONG (useTCN_DNS d) [])) a)
  end.

Definition tau_deInitDnr (appHandle : option app_session) : option app_session := set_pUser None <$> appHandle.

Definition tau_DNRstatus (appHandle : option app_session) : TRDP_DNR_STATE_T :=
  match appHandle ≫= pUser with
  | None => TRDP_DNR_NOT_AVAILABLE
  | Some d =>
      if timeout d =? TAU_DNS_TIME_OUT_SHORT then TRDP_DNR_HOSTSFILE
      else if (0 <? noOfCachedEntries d)%nat then TRDP_DNR_ACTIVE else TRDP_DNR_UNKNOWN
  end.

Definition tau_getOwnIds : TRDP_ERR_T := TRDP_PARAM_ERR.

(** [interfaces]: the address of the adapter and the first six bytes of its MAC address. *)
Definition tau_getOwnAddr (interfaces : list (Z * list Z)) (appHandle : option app_session) : Z :=
  match appHandle with
  | Some a =>
      if realIP (session a) =? VOS_INADDR_ANY
      then match list_find (fun i => existsb truthy (snd i) = true) (take 8 interfaces) with
           | Some (_, i) => fst i
           | None => VOS_INADDR_ANY
           end
      else VOS_INADDR_ANY
  | None => VOS_INADDR_ANY
  end.

Record resolver_env := mkEnv { on_dns : dns_env; on_tcn : tcn_env }.

(** Whether an entry found is taken. *)
Definition entry_valid (a : app_session) (e : TAU_DNR_ENTRY_T) : bool :=
  fixedEntry e || (etbTopoCnt e =? s_etbTopoCnt (session a)) || (opTrnTopoCnt e =? s_opTrnTopoCnt (session a))
  || ((s_etbTopoCnt (session a) =? 0) && (s_opTrnTopoCnt (session a) =? 0)).

(** The two attempts. *)
Fixpoint resolve (envs : list resolver_env) (id : Z) (a : app_session) (pDNR : TAU_DNR_DATA_T) (pUri : list Z) : dns (TRDP_ERR_T * Z * TAU_DNR_DATA_T) :=
  match envs with
  | [] => mret (TRDP_UNRESOLVED_ERR, VOS_INADDR_ANY, pDNR)
  | env :: envs =>
      let pTemp := vos_bsearch pUri (cache pDNR) in
      match pTemp ≫= fun i => cache pDNR !! i ≫= fun e => if entry_valid a e then Some e else None with
      | Some e => mret (TRDP_NO_ERR, ipAddr e, pDNR)
      | None =>
          d ← (if negb (dnr_opts_value (useTCN_DNS pDNR) =? 0) then updateTCNDNSentry (on_tcn env) a pDNR pTemp pUri
               else updateDNSentry (on_dns env) id a pDNR pTemp pUri);
          resolve envs id a d pUri
      end
  end.

(** [id] is the low half of the session's address; [env1] and [env2] are for the two attempts. *)
Definition tau_uri2Addr (env1 env2 : resolver_env) (interfaces : list (Z * list Z)) (id : Z)
    (appHandle : option app_session) (pAddr : bool) (pUri : option (list Z)) : dns (TRDP_ERR_T * option Z * option app_session) :=
  match appHandle with
  | None => mret (TRDP_PARAM_ERR, None, None)
  | Some a =>
      if negb pAddr then mret (TRDP_PARAM_ERR, None, Some a) else
      match pUri with
      | None => mret (TRDP_NO_ERR, Some (tau_getOwnAddr interfaces (Some a)), Some a)
      | Some u =>
          let addr := vos_dottedIP inet_aton u in
          if negb (addr =? VOS_INADDR_ANY) then mret (TRDP_NO_ERR, Some addr, Some a) else
          match pUser a with
          | None => Outside
          | Some d => '(err, addr, d) ← resolve [env1; env2] id a d u; mret (err, Some addr, Some (set_pUser (Some d) a))
          end
      end
  end.

(** The URI is copied to a buffer of 65 bytes, [pUri]. *)
Definition addr_matches (a : app_session) (addr : Z) (e : TAU_DNR_ENTRY_T) : bool :=
  (ipAddr e =? addr)
  && ((s_etbTopoCnt (session a) =? 0) || (etbTopoCnt e =? s_etbTopoCnt (session a)))
  && ((s_opTrnTopoCnt (session a) =? 0) || (opTrnTopoCnt e =? s_opTrnTopoCnt (session a))).
Definition tau_addr2Uri (appHandle : option app_session) (pUri : option (list Z)) (addr : Z) : dns (TRDP_ERR_T * option (list Z)) :=
  match appHandle, pUri with
  | Some a, Some u =>
      if addr =? VOS_INADDR_ANY then mret (TRDP_UNRESOLVED_ERR, pUri) else
      match pUser a with
      | None => Outside
      | Some d =>
          match list_find (fun e => addr_matches a addr e = true) (cache d) with
          | Some (_, e) => mret (TRDP_NO_ERR, Some (vos_strncpy u (uri e) (TRDP_MAX_URI_HOST_LEN + 1)))
          | None => mret (TRDP_UNRESOLVED_ERR, pUri)
          end
      end
  | _, _ => mret (TRDP_PARAM_ERR, pUri)
  end.
End Dnr.

(** * Properties *)

(** ** The cache stays sorted and within its array *)

(** The name ends within its place: the last of the 65 bytes stays zero. *)
Definition uri_fits (e : TAU_DNR_ENTRY_T) : Prop :=
  length (uri e) = (TRDP_MAX_URI_HOST_LEN + 1)%nat /\ uri e !! TRDP_MAX_URI_HOST_LEN = Some 0.
Record cache_ok (d : TAU_DNR_DATA_T) : Prop := {
  cache_bound : (noOfCachedEntries d <= TAU_MAX_NO_CACHE_ENTRY)%nat;
  cache_sorted : StronglySorted uri_le (cache d);
  cache_uris : Forall uri_fits (cache d) }.
Definition app_ok (a : app_session) : Prop := match pUser a with Some d => cache_ok d | None => True end.

(** What holds of a result, if there is one. *)
Definition yields {A} (m : dns A) (P : A -> Prop) : Prop := match m with Got a => P a | _ => True end.

Lemma yields_bind {A B} (m : dns A) (f : A -> dns B) P Q : yields m P -> (forall a, P a -> yields (f a) Q) -> yields (m ≫= f) Q.
Proof. intros Hm Hf. destruct m; cbn in *; auto. Qed.
Lemma yields_any {A B} (m : dns A) (f : A -> dns B) Q : (forall a, yields (f a) Q) -> yields (m ≫= f) Q.
Proof. intros Hf. destruct m; cbn in *; auto. Qed.

Section Props.
Context `{LibcLaws}.

Lemma sorted_by_uri l l' : map uri l = map uri l' -> StronglySorted uri_le l -> StronglySorted uri_le l'.
Proof.
  intros E Hs. revert l' E. induction Hs as [|e l Hs IH Hall]; intros [|e' l'] E; try done; [constructor|].
  cbn in E. injection E as E1 E2. constructor; [by apply IH|]. unfold uri_le in *. rewrite <- E1.
  assert (HF : Forall (fun u => compareURI (uri e) u <= 0) (map uri l)) by (by apply Forall_map).
  rewrite E2 in HF. rewrite Forall_map in HF. exact HF.
Qed.

Lemma sorted_ok c d : (length c <= TAU_MAX_NO_CACHE_ENTRY)%nat -> Forall uri_fits c -> cache_ok (set_cache (vos_qsort c) d).
Proof.
  intros Hl Hf. split; cbn [cache set_cache noOfCachedEntries].
  - unfold noOfCachedEntries. cbn. by rewrite (Permutation_length (qsort_perm c)).
  - apply qsort_sorted.
  - by rewrite (qsort_perm c).
Qed.

Lemma insert_same_uri c i e e' : c !! i = Some e -> uri e' = uri e -> map uri (<[i := e']> c) = map uri c.
Proof.
  intros E Eu. rewrite list_fmap_insert. apply list_insert_id. by rewrite list_lookup_fmap, E, Eu.
Qed.

Lemma lookup_repeat {A} (x : A) n i : (i < n)%nat -> repeat x n !! i = Some x.
Proof. revert i. induction n as [|n IH]; intros [|i] Hi; cbn; [lia|lia|done|]. apply IH. lia. Qed.

(** Copying a name that ends before the last byte, or less than that byte's place, leaves the last byte. *)
Lemma strncpy_last dst src n k : (n <= length dst)%nat -> (k < length dst)%nat -> dst !! k = Some 0 -> (length (cstr (take n src)) <= k)%nat ->
  vos_strncpy dst src n !! k = Some 0.
Proof.
  intros Hn Hk Hz Hc. unfold vos_strncpy. assert (Hl : length (take n (cstr (take n src) ++ repeat 0 n)) = n).
  { rewrite length_take, length_app, repeat_length. lia. }
  rewrite lookup_bput by lia. rewrite Hl, Nat.sub_0_r, Nat.add_0_l. change (k <? 0)%nat with false. cbv iota. destruct (Nat.ltb_spec k n) as [Hkn|Hkn]; [|done].
  rewrite lookup_take_lt, lookup_app_r by lia. apply lookup_repeat. lia.
Qed.

Lemma put_entry_ok a n u ip d : cache_ok d -> (n <= TAU_MAX_HOST_URI_LEN)%nat -> yields (put_entry a n u ip d) cache_ok.
Proof.
  intros [Hb Hs Hf] Hn. unfold put_entry. cbv zeta. unfold noOfCachedEntries in *.
  set (old := if negb _ then from_option _ _ _ else _).
  assert (Ho : length old = (TRDP_MAX_URI_HOST_LEN + 1)%nat /\ old !! TRDP_MAX_URI_HOST_LEN = Some 0).
  { unfold old. destruct (negb _); [|done]. destruct (cache d) as [|e c]; [done|]. cbn. by inversion_clear Hf. }
  clearbody old. destruct Ho as [Hol Hoz]. destruct (Nat.ltb_spec TRDP_MAX_URI_HOST_LEN (length (cstr (take n u)))) as [|Hc]; [done|].
  cbn [yields mret dns_ret]. set (padded := old ++ repeat 0 (TAU_MAX_HOST_URI_LEN - length old)).
  assert (Hp : length padded = TAU_MAX_HOST_URI_LEN).
  { unfold padded. rewrite length_app, repeat_length, Hol. unfold TRDP_MAX_URI_HOST_LEN, TAU_MAX_HOST_URI_LEN. lia. }
  set (e := mkEntry _ _ _ _ _). assert (Hu : uri_fits e).
  { split; cbn [e uri].
    - rewrite length_take, vos_strncpy_length, Hp. unfold TRDP_MAX_URI_HOST_LEN, TAU_MAX_HOST_URI_LEN. lia.
    - rewrite lookup_take_lt by lia. apply strncpy_last; [lia|rewrite Hp; unfold TRDP_MAX_URI_HOST_LEN, TAU_MAX_HOST_URI_LEN; lia| |done].
      unfold padded. rewrite lookup_app_l by (rewrite Hol; lia). done. }
  apply sorted_ok; destruct (Nat.ltb_spec (length (cache d)) TAU_MAX_NO_CACHE_ENTRY) as [Hlt|Hge]; cbn [negb].
  - rewrite length_app. cbn [length]. lia.
  - destruct (cache d); cbn [tl length] in *; unfold TAU_MAX_NO_CACHE_ENTRY in *; lia.
  - apply Forall_app. split; [done|]. constructor; [exact Hu|constructor].
  - constructor; [exact Hu|]. destruct (cache d); [done|]. by inversion_clear Hf.
Qed.

(** A name that is short enough is put. *)
Lemma put_entry_got a n u ip d : (n <= TRDP_MAX_URI_HOST_LEN \/ length (cstr u) <= TRDP_MAX_URI_HOST_LEN)%nat -> exists d', put_entry a n u ip d = Got d'.
Proof.
  intros Hn. unfold put_entry. cbv zeta. destruct (Nat.ltb_spec TRDP_MAX_URI_HOST_LEN (length (cstr (take n u)))) as [Hc|]; [|by eexists].
  rewrite cstr_take, length_take in Hc. lia.
Qed.

Lemma store_answer_ok a t u ip d : cache_ok d -> yields (store_answer a t u ip d) cache_ok.
Proof.
  intros Hok. assert (Hput : yields (put_entry a (TAU_MAX_URI_SIZE - 1) u ip d) cache_ok).
  { apply put_entry_ok; [done|]. unfold TAU_MAX_URI_SIZE, TAU_MAX_HOST_URI_LEN. lia. }
  unfold store_answer. destruct t as [i|]; [|done]. cbn. destruct (cache d !! i) as [e|] eqn:E; [|done].
  cbn. destruct (_ && _); [|done]. destruct Hok as [Hb Hs Hf]. split; cbn.
  - unfold noOfCachedEntries in *. cbn. by rewrite length_insert.
  - eapply sorted_by_uri; [|exact Hs]. symmetry. by apply (insert_same_uri _ _ e).
  - apply Forall_insert; [done|]. unfold uri_fits. cbn. by apply (Forall_lookup_1 _ _ _ _ Hf E).
Qed.

Lemma store_answer_got a t u ip d : exists d', store_answer a t u ip d = Got d'.
Proof.
  assert (Hput : exists d', put_entry a (TAU_MAX_URI_SIZE - 1) u ip d = Got d').
  { apply put_entry_got. left. unfold TAU_MAX_URI_SIZE, TRDP_MAX_URI_HOST_LEN. lia. }
  unfold store_answer. destruct (_ ≫= _) as [[i e]|]; [|done]. destruct (_ && _); [by eexists|done].
Qed.

(** What asking for a name keeps: the cache's form and the mode. *)
Definition kept (d d' : TAU_DNR_DATA_T) : Prop := (cache_ok d -> cache_ok d') /\ useTCN_DNS d' = useTCN_DNS d.

Lemma kept_refl d : kept d d.
Proof. done. Qed.
Lemma kept_trans d1 d2 d3 : kept d1 d2 -> kept d2 d3 -> kept d1 d3.
Proof. intros [H1' M1] [H2' M2]. split; [auto|]. by rewrite M2. Qed.
Lemma put_entry_mode a n u ip d : yields (put_entry a n u ip d) (fun d' => useTCN_DNS d' = useTCN_DNS d).
Proof. unfold put_entry. cbv zeta. by destruct (_ <? _)%nat. Qed.
Lemma put_entry_kept a n u ip d : (n <= TAU_MAX_HOST_URI_LEN)%nat -> yields (put_entry a n u ip d) (kept d).
Proof.
  intros Hn. pose proof (put_entry_ok a n u ip d) as Hok. pose proof (put_entry_mode a n u ip d) as Hm.
  destruct (put_entry _ _ _ _ _); [|done|done]. split; cbn in *; auto.
Qed.
Lemma store_answer_mode a t u ip d : yields (store_answer a t u ip d) (fun d' => useTCN_DNS d' = useTCN_DNS d).
Proof. unfold store_answer. destruct (_ ≫= _) as [[i e]|]; [destruct (_ && _); [done|]|]; apply put_entry_mode. Qed.

Lemma wait_reply_kept env a t u q l : forall d, yields (wait_reply env a t u q l d) (kept d).
Proof.
  induction l as [|[data ip port|] l IH]; intros d; cbn [wait_reply]; [apply kept_refl| |apply IH].
  set (d1 := mkDnr ip port (timeout d) (useTCN_DNS d) (cache d)).
  assert (K1 : kept d d1) by (split; [intros [? ? ?]; by split|done]).
  destruct data as [|c data]; [specialize (IH d1); destruct (wait_reply _ _ _ _ _ _ d1); cbn in *; [by apply (kept_trans d d1)|done|done]|].
  apply yields_any. intros ip'. pose proof (store_answer_ok a t u ip' d1) as Hok. pose proof (store_answer_mode a t u ip' d1) as Hm.
  destruct (store_answer _ _ _ _ _); [|done|done]. cbn in *. apply (kept_trans d d1); [done|]. by split.
Qed.

Lemma updateDNSentry_kept env id a d t u : yields (updateDNSentry env id a d t u) (kept d).
Proof.
  unfold updateDNSentry. destruct (negb _); [apply kept_refl|]. apply yields_any. intros [q|]; [apply wait_reply_kept|apply kept_refl].
Qed.

Lemma reply_entry_fits r off c : Forall uri_fits c -> yields (reply_entry r off c) (fun c' => Forall uri_fits c' /\ length c' = length c).
Proof.
  intros Hf. unfold reply_entry. apply yields_any. intros _. destruct (_ =? -1); [done|].
  destruct (vos_bsearch _ c) as [i|]; [|done]. cbn. destruct (c !! i) as [e|] eqn:E; [|done]. cbn. split; [|apply length_insert].
  apply (Forall_lookup_1 _ _ _ _ Hf) in E as [El Ez]. apply Forall_insert; [done|]. unfold uri_fits. cbn [uri]. rewrite vos_strncpy_length.
  split; [done|]. apply strncpy_last; [rewrite El; unfold TAU_MAX_URI_SIZE, TRDP_MAX_URI_HOST_LEN; lia|rewrite El; lia|done|].
  rewrite cstr_take, length_take. unfold TAU_MAX_URI_SIZE, TRDP_MAX_URI_HOST_LEN. lia.
Qed.

Lemma reply_entries_fit cnt r : forall off c, Forall uri_fits c ->
  yields (reply_entries cnt r off c) (fun c' => Forall uri_fits c' /\ length c' = length c).
Proof.
  induction cnt as [|cnt IH]; intros off c Hf; [done|]. cbn [reply_entries].
  eapply yields_bind; [by apply reply_entry_fits|]. intros c' [Hf' Hl]. cbn. specialize (IH (off + sizeof_TCN_URI_T)%nat c' Hf').
  destruct (reply_entries _ _ _ c'); [|done|done]. cbn in *. by rewrite <- Hl.
Qed.

Lemma dnrMDCallback_kept d m : yields (dnrMDCallback d m) (fun r => kept d (fst r)).
Proof.
  unfold dnrMDCallback. destruct (pData m); [apply kept_refl|]. destruct (_ && _); [|apply kept_refl].
  apply yields_bind with (P := kept d); [|by intros d' Hd'].
  unfold parseUpdateTCNResponse. apply yields_any. intros _.
  destruct (reply_entries _ _ _ (cache d)) as [c| |] eqn:E; [|done|done]. cbn. split; [|done].
  intros [Hb Hs Hf]. pose proof (reply_entries_fit (Z.to_nat ((z :: l) !!! 31%nat)) (z :: l) 32 (cache d) Hf) as Hr. rewrite E in Hr. cbn in Hr. destruct Hr as [Hf' Hl].
  apply sorted_ok; [|done]. unfold noOfCachedEntries in Hb. lia.
Qed.

Lemma deliver_kept l : forall d g, yields (deliver l d g) (fun r => kept d (fst r)).
Proof.
  induction l as [|m l IH]; intros d g; [apply kept_refl|]. cbn [deliver].
  eapply yields_bind; [apply dnrMDCallback_kept|]. intros [d' g'] Hk. cbn in Hk. specialize (IH d' (g || g')).
  destruct (deliver l d' _) as [[d'' g'']| |]; [|done|done]. cbn in *. by apply (kept_trans d d').
Qed.

Lemma updateTCNDNSentry_kept env a d t u : yields (updateTCNDNSentry env a d t u) (kept d).
Proof.
  unfold updateTCNDNSentry. destruct (negb _); [apply kept_refl|]. eapply yields_bind.
  { instantiate (1 := kept d). destruct t; [apply kept_refl|by apply put_entry_kept]. }
  intros d1 K1. destruct (negb _); [done|]. eapply yields_bind; [apply deliver_kept|]. intros [d2 taken] K2. cbn [fst] in K2.
  assert (kept d d2) by (by apply (kept_trans d d1)).
  destruct (useTCN_DNS d2); [done| |done]. destruct taken; [done|]. eapply yields_bind; [apply deliver_kept|].
  intros [d3 g] K3. cbn in *. by apply (kept_trans d d2).
Qed.

Lemma resolve_kept envs id a u : forall d, yields (resolve envs id a d u) (fun r => kept d (snd r)).
Proof.
  induction envs as [|env envs IH]; intros d; [apply kept_refl|]. cbn [resolve].
  destruct (_ ≫= _); [apply kept_refl|]. eapply yields_bind with (P := kept d).
  - destruct (negb _); [apply updateTCNDNSentry_kept|apply updateDNSentry_kept].
  - intros d' K. cbn. specialize (IH d'). destruct (resolve envs id a d' u) as [[[err addr] d'']| |]; [|done|done]. cbn in *.
    by apply (kept_trans d d').
Qed.

Lemma host_line_fits line : yields (host_line line) (fun e => match e with Some e => uri_fits e | None => True end).
Proof.
  unfold host_line. destruct (_ || _); [done|]. destruct (_ =? _); [done|]. destruct (skip_while uri_char _); [done|].
  destruct (take_while _ _) as [|c name]; [done|]. destruct (Nat.leb_spec (length (c :: name)) TRDP_MAX_URI_HOST_LEN) as [Hl|]; [|done].
  cbn [yields mret dns_ret]. unfold uri_fits. cbn [uri]. rewrite bput_length. split; [done|].
  assert (Hb : length blank_uri = 65%nat) by done. unfold TRDP_MAX_URI_HOST_LEN in *.
  rewrite lookup_bput by lia. change (64 <? 0)%nat with false.
  cbv iota. by rewrite Nat.add_0_l, (proj2 (Nat.ltb_ge _ _)) by lia.
Qed.

Lemma host_lines_fit n : forall file c, Forall uri_fits c -> (length c <= TAU_MAX_NO_CACHE_ENTRY)%nat ->
  yields (host_lines n file c) (fun c' => Forall uri_fits c' /\ (length c' <= TAU_MAX_NO_CACHE_ENTRY)%nat).
Proof.
  induction n as [|n IH]; intros file c Hf Hl; [done|]. cbn [host_lines]. destruct file as [|ch file]; [done|].
  destruct (Nat.ltb_spec (length c) TAU_MAX_NO_CACHE_ENTRY); [|done]. destruct (fgets _ _) as [line file'].
  eapply yields_bind; [apply host_line_fits|]. intros [e|] He; apply IH; try done.
  - apply Forall_app. split; [done|]. by constructor.
  - rewrite length_app. cbn [length]. lia.
Qed.

(** *** Calls that stay inside *)
Lemma cstr_nonzero l : Forall (fun c => c <> 0) (cstr l).
Proof. induction l as [|c l IH]; cbn; [constructor|]. destruct (Z.eqb_spec c 0); [constructor|by constructor]. Qed.

(** A result there is. *)
Definition got {A} (m : dns A) : Prop := exists x, m = Got x.
Lemma got_ret {A} (x : A) : got (mret x).
Proof. by exists x. Qed.
Lemma got_bind {A B} (m : dns A) (f : A -> dns B) : got m -> (forall a, m = Got a -> got (f a)) -> got (m ≫= f).
Proof. intros [a ->] Hf. by apply Hf. Qed.
#[local] Hint Resolve got_ret : core.

(** The query for the name is built in the buffer, and the parser gets through every datagram. *)
Definition readable (env : dns_env) (u : list Z) (id : Z) : Prop :=
  length (stack env) = (TAU_MAX_URI_SIZE + 3)%nat
  /\ forall data ip port packet q, Datagram data ip port ∈ arrivals env -> query_packet (stack env) u id = Got (packet, q) ->
       got (parseResponse (rounds env) (packet_buffer data) q (name_buffer env) VOS_INADDR_ANY).
(** A reply is as long as the number of names in it says. *)
Definition whole_reply (m : md_message) : Prop :=
  pData m = [] \/ (msg_comId m =? TCN_DNS_REP_COMID) && is_ok (resultCode m) = false
  \/ (32 + sizeof_TCN_URI_T * Z.to_nat (pData m !!! 31%nat) <= length (pData m))%nat.
(** What the servers answer in the resolver's mode. *)
Definition replied (d : TAU_DNR_DATA_T) (u : list Z) (id : Z) (env : resolver_env) : Prop :=
  if dnr_opts_value (useTCN_DNS d) =? 0 then readable (on_dns env) u id
  else Forall whole_reply (first_wait (on_tcn env)) /\ Forall whole_reply (second_wait (on_tcn env)).

Lemma query_got stack u id : length stack = (TAU_MAX_URI_SIZE + 3)%nat -> (length (cstr u) < TAU_MAX_URI_SIZE - 1)%nat -> got (query_packet stack u id).
Proof.
  intros Hs Hl. unfold query_packet. assert (E : cstr (vos_strncpy stack u (TAU_MAX_URI_SIZE - 1)) = cstr u).
  { assert (Eu : vos_strncpy stack u (TAU_MAX_URI_SIZE - 1) = vos_strncpy stack (cstr u) (TAU_MAX_URI_SIZE - 1)).
    { unfold vos_strncpy. by rewrite !cstr_take, cstr_idemp. }
    rewrite Eu. apply cstr_vos_strncpy; [apply cstr_nonzero|done|rewrite Hs; lia]. }
  rewrite E. rewrite (proj2 (Nat.ltb_lt _ _)) by lia. by destruct (changetoDnsNameFormat _).
Qed.

Lemma wait_reply_got env a t u q l : (forall data ip port, Datagram data ip port ∈ l ->
    got (parseResponse (rounds env) (packet_buffer data) q (name_buffer env) VOS_INADDR_ANY)) ->
  forall d, got (wait_reply env a t u q l d).
Proof.
  induction l as [|x l IH]; intros Hr d; [apply got_ret|]. cbn [wait_reply].
  assert (IH' : forall d, got (wait_reply env a t u q l d)) by (intros; apply IH; intros data ip port Hin; eapply Hr; by right).
  destruct x as [data ip port|]; [|done]. destruct data as [|c data]; [done|].
  apply got_bind; [eapply Hr; left|]. intros ip' _. apply store_answer_got.
Qed.

Lemma updateDNSentry_got env id a d t u : readable env u id -> (length (cstr u) < TAU_MAX_URI_SIZE - 1)%nat -> got (updateDNSentry env id a d t u).
Proof.
  intros [Hs Hr] Hl. unfold updateDNSentry. destruct (negb _); [apply got_ret|]. unfold createSendQuery.
  destruct (cstr u) as [|c u'] eqn:Eu; [apply got_ret|]. rewrite <- Eu in Hl. destruct (query_got (stack env) u id Hs Hl) as [[packet q] E].
  rewrite E, bind_got. destruct (send_ok env); [|apply got_ret]. rewrite bind_got. apply wait_reply_got. intros data ip port Hin. by eapply Hr.
Qed.

Lemma reply_entries_got cnt r : forall off c, (off + sizeof_TCN_URI_T * cnt <= length r)%nat -> got (reply_entries cnt r off c).
Proof.
  induction cnt as [|cnt IH]; intros off c Hl; [apply got_ret|]. cbn [reply_entries]. apply got_bind; [|intros c' _; apply IH; lia].
  unfold reply_entry, inside. rewrite (proj2 (Nat.leb_le _ _)) by lia. rewrite bind_got. destruct (_ =? -1); [apply got_ret|].
  destruct (_ ≫= _) as [[i e]|]; apply got_ret.
Qed.

Lemma deliver_got l : Forall whole_reply l -> forall d g, got (deliver l d g).
Proof.
  induction 1 as [|m l Hm _ IH]; intros d g; [apply got_ret|]. cbn [deliver]. apply got_bind; [|by intros [d' g'] _].
  unfold dnrMDCallback. destruct (pData m) as [|c data] eqn:Ed; [apply got_ret|]. destruct Hm as [Hm|[Hm|Hm]]; [congruence|rewrite Hm; apply got_ret|].
  destruct (_ && _); [|apply got_ret]. apply got_bind; [|intros d' _; apply got_ret]. rewrite Ed in Hm. unfold parseUpdateTCNResponse, inside.
  rewrite (proj2 (Nat.leb_le _ _)) by lia. rewrite bind_got. apply got_bind; [by apply reply_entries_got|intros c' _; apply got_ret].
Qed.

Lemma updateTCNDNSentry_got env a d t u : Forall whole_reply (first_wait env) -> Forall whole_reply (second_wait env) ->
  (length (cstr u) <= TRDP_MAX_URI_HOST_LEN)%nat -> got (updateTCNDNSentry env a d t u).
Proof.
  intros H1' H2' Hl. unfold updateTCNDNSentry. destruct (negb _); [apply got_ret|]. apply got_bind.
  { destruct t; [apply got_ret|]. apply put_entry_got. by right. }
  intros d1 _. destruct (negb _); [apply got_ret|]. apply got_bind; [by apply deliver_got|]. intros [d2 taken] _.
  destruct (useTCN_DNS d2); [by eexists| |by eexists]. destruct taken; [by eexists|]. apply got_bind; [by apply deliver_got|]. by intros [d3 g] _; eexists.
Qed.

Lemma resolve_got envs id a u d0 : (length (cstr u) < TAU_MAX_URI_SIZE - 1)%nat -> Forall (replied d0 u id) envs ->
  forall d, useTCN_DNS d = useTCN_DNS d0 -> got (resolve envs id a d u).
Proof.
  intros Hl. induction 1 as [|env envs He _ IH]; intros d Hd; [apply got_ret|]. cbn [resolve]. destruct (_ ≫= _); [apply got_ret|].
  unfold replied in He. rewrite <- Hd in He. destruct (dnr_opts_value (useTCN_DNS d) =? 0); cbn [negb].
  - apply got_bind; [by apply updateDNSentry_got|]. intros d' E. apply IH. rewrite <- Hd.
    pose proof (updateDNSentry_kept (on_dns env) id a d (vos_bsearch u (cache d)) u) as K. rewrite E in K. apply K.
  - destruct He as [He1 He2]. apply got_bind.
    { apply updateTCNDNSentry_got; [done|done|]. unfold TAU_MAX_URI_SIZE, TRDP_MAX_URI_HOST_LEN in *. lia. }
    intros d' E. apply IH. rewrite <- Hd. pose proof (updateTCNDNSentry_kept (on_tcn env) a d (vos_bsearch u (cache d)) u) as K. rewrite E in K. apply K.
Qed.

(** C32: In the cache the entries are sorted, there are no more than its array has room for, and every name ends within its
    place. This holds from the start of the resolver and after every call that gives a result, whatever the hosts file,
    the servers and the network give. A call for a name of fewer than 63 characters does give a result, inside all
    arrays, when the answers can be read: in the mode of standard DNS the parser gets through every datagram that
    comes, otherwise every reply is as long as its number of names says. (A name of 65 characters or more may run over
    the fields behind its place, a shorter reply is read beyond its end, and a name in a response may point to
    itself: then there is no result.) *)
Theorem dnr_cache_invariant :
  (forall mem a ip port hosts opts, app_ok a -> yields (tau_initDnr mem a ip port hosts opts) (fun r => app_ok (snd r)))
  /\ (forall env1 env2 ifs id a pAddr pUri, app_ok a ->
      yields (tau_uri2Addr env1 env2 ifs id (Some a) pAddr pUri) (fun r => match snd r with Some a' => app_ok a' | None => False end))
  /\ (forall env1 env2 ifs id a d u, pUser a = Some d -> cache_ok d -> (length (cstr u) < TAU_MAX_URI_SIZE - 1)%nat ->
      replied d u id env1 -> replied d u id env2 ->
      exists err addr d', tau_uri2Addr env1 env2 ifs id (Some a) true (Some u) = Got (err, Some addr, Some (set_pUser (Some d') a)) /\ cache_ok d').
Proof.
  split; [|split].
  - intros mem a ip port hosts opts Ha. unfold tau_initDnr. destruct (negb mem); [done|].
    destruct hosts as [[file|]|].
    + unfold readHostsFile. eapply yields_bind with (P := fun r => cache_ok (snd r)); [|by intros [err d] [? ? ?]; split].
      eapply yields_bind; [apply host_lines_fit; [constructor|cbn; lia]|]. intros c [Hf Hl]. by apply sorted_ok.
    + split; cbn; [lia|constructor|constructor].
    + split; cbn; [lia|constructor|constructor].
  - intros env1 env2 ifs id a pAddr pUri Ha. unfold tau_uri2Addr. destruct (negb pAddr); [done|]. destruct pUri as [u|]; [|done].
    destruct (negb _); [done|]. destruct (pUser a) as [d|] eqn:Ed; [|done].
    eapply yields_bind; [apply resolve_kept|]. intros [[err addr] d'] [K _]. cbn in *. unfold app_ok in *. cbn. rewrite Ed in Ha. auto.
  - intros env1 env2 ifs id a d u Ed Hok Hl Ha1 Ha2. unfold tau_uri2Addr. cbn [negb]. destruct (negb _).
    { eexists _, _, d. split; [|done]. destruct a as [s h p]. cbn in *. by subst p. }
    rewrite Ed. destruct (resolve_got [env1; env2] id a u d Hl ltac:(by repeat constructor) d eq_refl) as [[[err addr] d'] E].
    pose proof (resolve_kept [env1; env2] id a u d) as K. rewrite E in K |- *. cbn in K. rewrite bind_got. eexists _, _, d'. split; [done|]. by apply K.
Qed.

(** ** Resolving *)

Lemma found_new key e c l : Forall (fun e' => compareURI key (uri e') <> 0) c -> compareURI key (uri e) = 0 ->
  l ≡ₚ e :: c -> StronglySorted uri_le l -> exists i, vos_bsearch key l = Some i /\ l !! i = Some e.
Proof.
  intros Hc He Hp Hs. destruct (vos_bsearch key l) as [i|] eqn:E.
  - destruct (bsearch_found key l i Hs E) as (e' & El & Hz). exists i. split; [done|].
    assert (He' : e' ∈ e :: c) by (rewrite <- Hp; by eapply list_elem_of_lookup_2).
    apply elem_of_cons in He' as [->|He']; [done|]. rewrite Forall_forall in Hc. apply list_elem_of_In in He'. by apply Hc in He'.
  - pose proof (bsearch_none key l Hs E) as Hn. rewrite Hp in Hn. inversion_clear Hn. done.
Qed.

Lemma new_name host n : Forall (fun c => c <> 0) host -> (length host < n)%nat -> (n <= TAU_MAX_HOST_URI_LEN)%nat -> (length host <= TRDP_MAX_URI_HOST_LEN)%nat ->
  cstr (take (TRDP_MAX_URI_HOST_LEN + 1) (vos_strncpy (blank_uri ++ repeat 0 (TAU_MAX_HOST_URI_LEN - length blank_uri)) host n)) = host.
Proof.
  intros Hnz Hl Hn Hm. rewrite cstr_take, cstr_vos_strncpy; [apply take_ge; lia|done|done|].
  rewrite length_app. unfold blank_uri. rewrite !repeat_length. unfold TRDP_MAX_URI_HOST_LEN, TAU_MAX_HOST_URI_LEN in *. lia.
Qed.

Lemma compareURI_same a b : cstr a = cstr b -> compareURI a b = 0.
Proof. intros E. apply vos_strnicmp_zero. by rewrite E. Qed.

(** The entry put for a name that is not in the cache is the one found for it. *)
Lemma put_entry_found a n host ip d : cache_ok d -> (noOfCachedEntries d < TAU_MAX_NO_CACHE_ENTRY)%nat ->
  Forall (fun e => compareURI host (uri e) <> 0) (cache d) ->
  Forall (fun c => c <> 0) host -> (length host < n)%nat -> (n <= TAU_MAX_HOST_URI_LEN)%nat -> (length host <= TRDP_MAX_URI_HOST_LEN)%nat ->
  exists d' i e, put_entry a n host ip d = Got d' /\ cache d' ≡ₚ e :: cache d /\ vos_bsearch host (cache d') = Some i
    /\ cache d' !! i = Some e /\ cstr (uri e) = host
    /\ (dnsIpAddr d', dnsPort d', useTCN_DNS d') = (dnsIpAddr d, dnsPort d, useTCN_DNS d)
    /\ (ipAddr e, etbTopoCnt e, opTrnTopoCnt e, fixedEntry e) = (ip, s_etbTopoCnt (session a), s_opTrnTopoCnt (session a), false).
Proof.
  intros Hok Hlt Hnew Hnz Hl Hn Hm. unfold put_entry. replace (noOfCachedEntries d <? TAU_MAX_NO_CACHE_ENTRY)%nat with true by (symmetry; by apply Nat.ltb_lt).
  cbn [negb]. cbv zeta. rewrite (proj2 (Nat.ltb_ge TRDP_MAX_URI_HOST_LEN _)) by (rewrite cstr_take, length_take, (cstr_all host) by done; lia).
  set (e := mkEntry _ _ _ _ _). eexists. 
  assert (Ec : cstr (uri e) = host) by (apply new_name; done).
  assert (Hp : vos_qsort (cache d ++ [e]) ≡ₚ e :: cache d) by (rewrite qsort_perm; symmetry; apply Permutation_cons_append).
  destruct (found_new host e (cache d) (vos_qsort (cache d ++ [e])) Hnew) as (i & Eb & El); [|done|apply qsort_sorted|].
  { apply compareURI_same. rewrite Ec. by apply cstr_all. }
  exists i, e. split; [reflexivity|]. cbn [cache set_cache]. by split_and!.
Qed.

(** What comes before the answer and is passed over. *)
Definition idle (x : arrival) : Prop := match x with Datagram [] _ _ | Receive_error => True | _ => False end.

Lemma wait_reply_idle env a t u q l x l' : Forall idle l -> forall d, exists ip port,
  wait_reply env a t u q (l ++ x :: l') d = wait_reply env a t u q (x :: l') (mkDnr ip port (timeout d) (useTCN_DNS d) (cache d)).
Proof.
  induction 1 as [|y l Hy _ IH]; intros d; [exists (dnsIpAddr d), (dnsPort d); by destruct d|].
  destruct y as [[|c data] ip port|]; [|done|].
  - destruct (IH (mkDnr ip port (timeout d) (useTCN_DNS d) (cache d))) as (ip' & port' & E). exists ip', port'. exact E.
  - destruct (IH d) as (ip' & port' & E). exists ip', port'. exact E.
Qed.


(** A reply of the TCN-DNS server with one name; [head], [mid] and [tail] are what the resolver does not look at. *)
Definition tcn_reply (head mid tail host : list Z) (ip etb op : Z) : list Z :=
  head ++ be_bytes 4 etb ++ be_bytes 4 op ++ mid ++ [1]
  ++ (vos_strncpy (repeat 0 TAU_MAX_HOST_URI_LEN) host TAU_MAX_HOST_URI_LEN ++ [0; 0; 0; 0] ++ be_bytes 4 ip ++ be_bytes 4 0) ++ tail.

Lemma insert_perm {A} (l c : list A) i x y : l !! i = Some x -> l ≡ₚ x :: c -> <[i := y]> l ≡ₚ y :: c.
Proof.
  intros El Hp. pose proof (lookup_lt_Some _ _ _ El). rewrite insert_take_drop by done. rewrite <- Permutation_middle. constructor.
  rewrite <- (take_drop_middle l i x El), <- Permutation_middle in Hp. by apply Permutation_cons_inv in Hp.
Qed.

Lemma compareURI_key a b x : cstr a = cstr b -> compareURI a x = 0 <-> compareURI b x = 0.
Proof. intros E. unfold compareURI. by rewrite !vos_strnicmp_zero, E. Qed.

Lemma key80 host : Forall (fun c => c <> 0) host -> (length host < TAU_MAX_URI_SIZE)%nat ->
  cstr (vos_strncpy (repeat 0 TAU_MAX_HOST_URI_LEN) host TAU_MAX_HOST_URI_LEN) = host.
Proof.
  intros Hnz Hl. apply cstr_vos_strncpy; [done|unfold TAU_MAX_URI_SIZE, TAU_MAX_HOST_URI_LEN in *; lia|]. rewrite repeat_length. lia.
Qed.

(** The reply replaces the entry that was put for the name. *)
Lemma tcn_reply_stored a d host head mid tail ip etb op : cache_ok d -> (noOfCachedEntries d < TAU_MAX_NO_CACHE_ENTRY)%nat ->
  Forall (fun e => compareURI host (uri e) <> 0) (cache d) -> Forall (fun c => c <> 0) host -> (length host < TAU_MAX_URI_SIZE)%nat ->
  length head = 20%nat -> length mid = 3%nat -> 0 <= ip < 4294967296 -> 0 <= etb < 4294967296 -> 0 <= op < 4294967296 ->
  exists d1 d' i e, addEntry a host d = Got d1 /\ parseUpdateTCNResponse d1 (tcn_reply head mid tail host ip etb op) = Got d'
    /\ useTCN_DNS d' = useTCN_DNS d /\ cache d' ≡ₚ e :: cache d /\ vos_bsearch host (cache d') = Some i /\ cache d' !! i = Some e
    /\ cstr (uri e) = host /\ (ipAddr e, etbTopoCnt e, opTrnTopoCnt e) = (ip, etb, op).
Proof.
  intros Hok Hlt Hnew Hnz Hl Hh Hm Hip Hetb Hop. set (k := vos_strncpy (repeat 0 TAU_MAX_HOST_URI_LEN) host TAU_MAX_HOST_URI_LEN).
  assert (Hk : cstr k = host) by by apply key80. assert (Hkl : length k = TAU_MAX_HOST_URI_LEN) by (unfold k; by rewrite vos_strncpy_length, repeat_length).
  destruct (put_entry_found a TAU_MAX_HOST_URI_LEN host 0 d Hok Hlt Hnew Hnz) as (d1 & i1 & e1 & Ed1 & Hp1 & _ & El1 & Ee1 & Es & _).
  1-3: unfold TAU_MAX_URI_SIZE, TAU_MAX_HOST_URI_LEN, TRDP_MAX_URI_HOST_LEN in *; lia.
  pose proof (put_entry_ok a TAU_MAX_HOST_URI_LEN host 0 d Hok ltac:(done)) as Hok1. rewrite Ed1 in Hok1. cbn [yields] in Hok1.
  injection Es as _ _ Es.
  assert (Hck : compareURI k (uri e1) = 0) by (apply compareURI_same; by rewrite Hk, Ee1).
  assert (Hnk : Forall (fun e => compareURI k (uri e) <> 0) (cache d)).
  { eapply Forall_impl; [|exact Hnew]. intros e Hne Hz. apply Hne.
    assert (Ek : cstr k = cstr host) by (by rewrite Hk, cstr_all). by apply (proj1 (compareURI_key k host (uri e) Ek)). }
  destruct (found_new k e1 (cache d) (cache d1) Hnk Hck Hp1 (cache_sorted _ Hok1)) as (i & Ebs & El).
  set (e2 := mkEntry (vos_strncpy (uri e1) k TAU_MAX_URI_SIZE) ip etb op false).
  set (d2 := set_cache (vos_qsort (<[i := e2]> (cache d1))) d1).
  set (r := tcn_reply head mid tail host ip etb op).
  assert (Hat : at_pos r 0 (head ++ be_bytes 4 etb ++ be_bytes 4 op ++ mid ++ [1] ++ (k ++ [0; 0; 0; 0] ++ be_bytes 4 ip ++ be_bytes 4 0) ++ tail)).
  { rewrite <- (app_nil_r r). apply (at_pos_here [] r []). }
  rewrite !at_pos_app, !be_bytes_length, Hh, Hm, Hkl in Hat. cbn [length Nat.add] in Hat.
  destruct Hat as (_ & Hetb' & Hop' & _ & Hcnt & (Hkey & Hst & Hip' & _) & _).
  assert (Hst' : at_pos r 114 (be_bytes 2 0)) by exact (proj2 (proj1 (at_pos_app r 112 [0; 0] [0; 0]) Hst)).
  assert (Hip'' : at_pos r 116 (be_bytes 4 ip)) by exact Hip'. clear Hst Hip'.
  assert (Hlen : (124 <= length r)%nat).
  { unfold r, tcn_reply. rewrite !length_app, !be_bytes_length, Hh, Hm. fold k. rewrite Hkl. cbn [length]. unfold TAU_MAX_HOST_URI_LEN. lia. }
  assert (Hc31 : r !!! 31%nat = 1) by (apply list_lookup_total_correct, (Hcnt 0%nat 1 eq_refl)).
  assert (Hkb : bget 32 TAU_MAX_HOST_URI_LEN r = k) by (rewrite <- Hkl; by apply at_pos_bget).
  assert (Er : parseUpdateTCNResponse d1 r = Got d2).
  { unfold parseUpdateTCNResponse, inside. replace (0 + 32 <=? length r)%nat with true by (symmetry; apply Nat.leb_le; lia).
    rewrite bind_got, Hc31. change (Z.to_nat 1) with 1%nat. cbn [reply_entries]. unfold reply_entry, inside, sizeof_TCN_URI_T.
    replace (32 + 92 <=? length r)%nat with true by (symmetry; apply Nat.leb_le; lia). rewrite bind_got.
    change (32 + 82)%nat with 114%nat. change (32 + 84)%nat with 116%nat. rewrite (at_pos_get16 _ _ _ Hst') by lia.
    change (s16 0 =? -1) with false. cbv iota zeta. rewrite Hkb, Ebs. cbn [mbind option_bind]. rewrite El. cbn [fmap option_fmap option_map].
    rewrite (at_pos_get32 _ _ _ Hip''), (at_pos_get32 _ _ _ Hetb'), (at_pos_get32 _ _ _ Hop') by done. done. }
  assert (Hp2 : cache d2 ≡ₚ e2 :: cache d) by (cbn; rewrite qsort_perm; by apply (insert_perm _ _ _ e1)).
  assert (Ee2 : cstr (uri e2) = host).
  { unfold e2. cbn [uri]. unfold vos_strncpy. assert (Ek : cstr (take TAU_MAX_URI_SIZE k) = host) by (rewrite cstr_take, Hk; apply take_ge; lia).
    rewrite Ek. pose proof (cstr_vos_strncpy (uri e1) host TAU_MAX_URI_SIZE Hnz Hl) as Hc. unfold vos_strncpy in Hc.
    rewrite (take_ge host), (cstr_all _ Hnz) in Hc by lia. apply Hc.
    pose proof (cache_uris _ Hok1) as Hf. apply (Forall_lookup_1 _ _ _ _ Hf) in El. destruct El as [El _]. rewrite El.
    unfold TAU_MAX_URI_SIZE, TRDP_MAX_URI_HOST_LEN. lia. }
  destruct (found_new host e2 (cache d) (cache d2) Hnew) as (i2 & Eb2 & El2).
  { apply compareURI_same. rewrite Ee2. by apply cstr_all. } { done. } { apply qsort_sorted. }
  exists d1, d2, i2, e2. by split_and!.
Qed.

(** A host that is not in the cache, with one of the options that ask TCN-DNS: when the reply with its address arrives
    while the semaphore is waited for, the address is the result, provided that the reply's topography is one the
    session accepts. *)
Theorem uri2Addr_asks_tcn a d host env1 env2 ifs id head mid tail ip etb op before after :
  pUser a = Some d -> cache_ok d -> useTCN_DNS d <> TRDP_DNR_COMMON_THREAD -> (noOfCachedEntries d < TAU_MAX_NO_CACHE_ENTRY)%nat ->
  vos_dottedIP inet_aton host = 0 -> Forall (fun e => compareURI host (uri e) <> 0) (cache d) ->
  Forall (fun c => c <> 0) host -> (length host < TAU_MAX_URI_SIZE)%nat ->
  length head = 20%nat -> length mid = 3%nat -> 0 <= ip < 4294967296 -> 0 <= etb < 4294967296 -> 0 <= op < 4294967296 ->
  etb = s_etbTopoCnt (session a) \/ op = s_opTrnTopoCnt (session a) ->
  let env := on_tcn env1 in
  sema_created env = true -> requested env = true ->
  Forall (fun m => msg_comId m <> TCN_DNS_REP_COMID) before -> Forall (fun m => msg_comId m <> TCN_DNS_REP_COMID) after ->
  first_wait env = before ++ mkMsg TCN_DNS_REP_COMID TRDP_NO_ERR (tcn_reply head mid tail host ip etb op) :: after ->
  exists d' e, tau_uri2Addr env1 env2 ifs id (Some a) true (Some host) = Got (TRDP_NO_ERR, Some ip, Some (set_pUser (Some d') a))
    /\ cache d' ≡ₚ e :: cache d /\ cstr (uri e) = host /\ (ipAddr e, etbTopoCnt e, opTrnTopoCnt e) = (ip, etb, op).
Proof.
  intros Hu Hok Hmode Hlt Hdot Hnew Hnz Hl Hh Hm Hip Hetb Hop Htopo env Hsema Hreq Hbefore Hafter Hwait.
  destruct (tcn_reply_stored a d host head mid tail ip etb op Hok Hlt Hnew Hnz Hl Hh Hm Hip Hetb Hop)
    as (d1 & d' & i & e & Ed1 & Er & Em & Hp & Ebs & El & Ee & Ef).
  assert (Hnone : forall l d g, Forall (fun m => msg_comId m <> TCN_DNS_REP_COMID) l -> deliver l d g = Got (d, g)).
  { intros l d0 g Hl0. revert g. induction Hl0 as [|m l Hne _ IH]; intros g; [done|]. cbn [deliver]. unfold dnrMDCallback.
    rewrite (proj2 (Z.eqb_neq _ _) Hne). cbn [andb]. destruct (pData m); rewrite bind_got, orb_false_r; apply IH. }
  assert (Hdel : deliver (first_wait env) d1 false = Got (d', true)).
  { rewrite Hwait. clear Hwait Ed1. rename Er into Er1.
    induction Hbefore as [|m l Hne _ IH]; cbn [app deliver].
    - unfold dnrMDCallback. cbn [pData msg_comId resultCode].
      destruct (tcn_reply head mid tail host ip etb op) as [|c r'] eqn:Ec; [by destruct head|]. rewrite <- Ec in *.
      cbn [is_ok andb]. rewrite Z.eqb_refl. cbn [andb]. rewrite Er1, !bind_got. cbn [orb]. by apply Hnone.
    - unfold dnrMDCallback at 1. rewrite (proj2 (Z.eqb_neq _ _) Hne). cbn [andb]. destruct (pData m); rewrite bind_got; cbn [orb]; exact IH. }
  assert (Eb : vos_bsearch host (cache d) = None).
  { destruct (vos_bsearch host (cache d)) as [j|] eqn:E; [|done]. destruct (bsearch_found _ _ _ (cache_sorted d Hok) E) as (e' & El' & Hz).
    by apply (Forall_lookup_1 _ _ _ _ Hnew) in El'. }
  assert (Eupd : updateTCNDNSentry env a d None host = Got d').
  { unfold updateTCNDNSentry. rewrite Hsema, Hreq. cbn [negb]. rewrite Ed1, bind_got, Hdel, bind_got. destruct (useTCN_DNS d'); done. }
  injection Ef as Ei Et Eo. exists d', e. split; [|by rewrite Ei, Et, Eo].
  unfold tau_uri2Addr. cbn [negb]. rewrite Hdot. cbn [negb Z.eqb VOS_INADDR_ANY]. rewrite Hu.
  cbn [resolve]. rewrite Eb. cbn [mbind option_bind].
  replace (negb (dnr_opts_value (useTCN_DNS d) =? 0)) with true by (by destruct (useTCN_DNS d)). fold env. rewrite Eupd, bind_got.
  rewrite Ebs. cbn [mbind option_bind]. rewrite El. cbn [mbind option_bind].
  replace (entry_valid a e) with true; [by rewrite Ei|]. unfold entry_valid. rewrite Et, Eo. symmetry.
  destruct Htopo as [-> | ->]; rewrite Z.eqb_refl; by rewrite ?orb_true_r.
Qed.


(** A name in the cache whose entry is valid is answered from there, and nobody is asked. *)
Theorem uri2Addr_from_cache a d u i e env1 env2 ifs id : pUser a = Some d -> vos_dottedIP inet_aton u = 0 ->
  vos_bsearch u (cache d) = Some i -> cache d !! i = Some e -> entry_valid a e = true ->
  tau_uri2Addr env1 env2 ifs id (Some a) true (Some u) = Got (TRDP_NO_ERR, Some (ipAddr e), Some a).
Proof.
  intros Hu Hdot Eb El Hv. unfold tau_uri2Addr. cbn [negb]. rewrite Hdot. cbn [negb Z.eqb VOS_INADDR_ANY]. rewrite Hu.
  cbn [resolve]. rewrite Eb. cbn [mbind option_bind]. rewrite El. cbn [mbind option_bind]. rewrite Hv. rewrite bind_got.
  destruct a. cbn in *. by subst.
Qed.

(** The options are exchanged: with the option for a thread that serves TCN-DNS nobody is asked over TCN-DNS, and
    with the one for standard DNS no DNS server is. *)
Theorem dnr_options_exchanged a d u ifs id n1 n2 t1 t2 : pUser a = Some d ->
  (useTCN_DNS d = TRDP_DNR_COMMON_THREAD -> forall t1' t2',
    tau_uri2Addr (mkEnv n1 t1) (mkEnv n2 t2) ifs id (Some a) true (Some u)
    = tau_uri2Addr (mkEnv n1 t1') (mkEnv n2 t2') ifs id (Some a) true (Some u))
  /\ (useTCN_DNS d = TRDP_DNR_STANDARD_DNS -> forall n1' n2',
    tau_uri2Addr (mkEnv n1 t1) (mkEnv n2 t2) ifs id (Some a) true (Some u)
    = tau_uri2Addr (mkEnv n1' t1) (mkEnv n2' t2) ifs id (Some a) true (Some u)).
Proof.
  intros Hu.
  assert (Hr : forall n t n' t' envs, (useTCN_DNS d = TRDP_DNR_COMMON_THREAD /\ n' = n) \/ (useTCN_DNS d = TRDP_DNR_STANDARD_DNS /\ t' = t) ->
    forall envs' , (forall d', useTCN_DNS d' = useTCN_DNS d -> resolve envs id a d' u = resolve envs' id a d' u) ->
    forall d', useTCN_DNS d' = useTCN_DNS d -> resolve (mkEnv n t :: envs) id a d' u = resolve (mkEnv n' t' :: envs') id a d' u).
  { intros n t n' t' envs Hm envs' IH d' Hd'. cbn [resolve on_dns on_tcn]. destruct (_ ≫= _); [done|]. rewrite Hd'.
    destruct Hm as [[-> ->]|[-> ->]]; cbn [dnr_opts_value Z.eqb negb].
    - pose proof (updateDNSentry_kept n id a d' (vos_bsearch u (cache d')) u) as K.
      destruct (updateDNSentry _ _ _ d' _ u) as [d1| |]; [|done|done]. rewrite !bind_got. apply IH. destruct K as [_ ->]. done.
    - pose proof (updateTCNDNSentry_kept t a d' (vos_bsearch u (cache d')) u) as K.
      destruct (updateTCNDNSentry _ _ d' _ u) as [d1| |]; [|done|done]. rewrite !bind_got. apply IH. destruct K as [_ ->]. done. }
  unfold tau_uri2Addr. rewrite Hu. cbn [negb]. split; intros Hm x1 x2; (destruct (negb _); [done|]); f_equal.
  all: apply Hr; [tauto| |done]; intros d' Hd'; apply Hr; [tauto|done|done].
Qed.

(** The own address is given only where none was set for the session: otherwise the result is 0, and so is what an
    empty URI resolves to. *)
Theorem getOwnAddr_forgets a env1 env2 ifs id : realIP (session a) <> 0 ->
  tau_getOwnAddr ifs (Some a) = 0
  /\ tau_uri2Addr env1 env2 ifs id (Some a) true None = Got (TRDP_NO_ERR, Some 0, Some a).
Proof.
  intros Hr. assert (E : tau_getOwnAddr ifs (Some a) = 0) by (unfold tau_getOwnAddr; change VOS_INADDR_ANY with 0; by rewrite (proj2 (Z.eqb_neq _ _) Hr)).
  split; [done|]. unfold tau_uri2Addr. cbn [negb]. by rewrite E.
Qed.
End Props.

(** ** A C library and a network to run the resolver with *)
#[global] Instance uri_le_dec : RelDecision uri_le.
Proof. intros a b. unfold uri_le. apply _. Defined.
#[global] Instance uri_le_trans : Transitive uri_le.
Proof. intros a b c. apply vos_strnicmp_trans. Qed.
#[global] Instance uri_le_total : Total uri_le.
Proof. intros a b. unfold uri_le, compareURI. rewrite (vos_strnicmp_opp _ (uri a) (uri b)). lia. Qed.

#[global] Instance demo_libc : Libc := {|
  vos_qsort := merge_sort uri_le;
  vos_bsearch key l := fst <$> list_find (fun e => compareURI key (uri e) = 0) l;
  inet_aton _ := None |}.
#[global] Instance demo_libc_laws : LibcLaws.
Proof.
  split; cbn [vos_qsort vos_bsearch demo_libc].
  - intros l. apply merge_sort_Permutation.
  - intros l. by apply StronglySorted_merge_sort; apply _.
  - intros key l i _ E. destruct (list_find _ l) as [[j e]|] eqn:Ef; [|done]. cbn in E. injection E as <-.
    apply list_find_Some in Ef as (El & Hz & _). by exists e.
  - intros key l _ E. destruct (list_find _ l) as [[j e]|] eqn:Ef; [done|]. by apply list_find_None in Ef.
Defined.

Definition demo_dnr (mode : TRDP_DNR_OPTS_T) : TAU_DNR_DATA_T :=
  mkDnr 0x0a000001 53 TAU_DNS_TIME_OUT_LONG mode
    [mkEntry (vos_strncpy blank_uri (str "devecsp.anyveh") 64) 0x0a000101 7 9 false].
Definition demo_session : TRDP_SESSION_T :=
  mkSession 0x0a000001 7 9 zero_time (mkPdCfg None 0 5 64 TRDP_FLAGS_NONE 100000 TRDP_TO_KEEP_LAST_VALUE 17224) 0
    [] None None [] [] [] (mkPdStat 0 0 0 0 0 0 0 0).
Definition demo_app (mode : TRDP_DNR_OPTS_T) : app_session :=
  mkApp demo_session (str "dev") (Some (demo_dnr mode)).

Definition demo_labels : list (list Z) := [str "hmi"; str "veh2"; str "ltrn"].
Definition demo_answers : list answer := [Alias 5 60 [str "hmi"; str "veh7"]; Address 60 0x0a000203].
Definition demo_response : list Z := response 1 demo_labels demo_answers.
Definition demo_dns : dns_env :=
  mkDnsEnv true true [Receive_error; Datagram demo_response 0x0a000002 53] 300 (repeat 1 67) (repeat 1 256).
Definition no_tcn : tcn_env := mkTcnEnv false false [] [].
Definition demo_env : resolver_env := mkEnv demo_dns no_tcn.

Lemma demo_cache_ok mode : cache_ok (demo_dnr mode).
Proof. split; [vm_compute; lia|repeat constructor|repeat constructor]. Qed.

Lemma demo_name_ok l : l = demo_labels \/ l = [str "hmi"; str "veh7"] -> name_ok l.
Proof.
  intros Hl. split; [by destruct Hl as [-> | ->]| |destruct Hl as [-> | ->]; vm_compute; lia].
  destruct Hl as [-> | ->]; repeat constructor; vm_compute; try lia; congruence.
Qed.

(** A request over TCN-DNS, with a message of somebody else before the reply. *)
Definition demo_tcn_reply : list Z := tcn_reply (repeat 0 20) (repeat 0 3) (repeat 0 16) (str "hmi.veh2.ltrn") 0x0a000203 7 9.
Definition demo_tcn : tcn_env :=
  mkTcnEnv true true [mkMsg 2500 TRDP_NO_ERR [1; 2]; mkMsg TCN_DNS_REP_COMID TRDP_NO_ERR demo_tcn_reply] [].

Lemma dnr_cache_invariant_witness : exists err addr d',
  tau_uri2Addr (mkEnv demo_dns demo_tcn) (mkEnv demo_dns demo_tcn) [] 1 (Some (demo_app TRDP_DNR_OWN_THREAD)) true (Some (host_of demo_labels))
    = Got (err, Some addr, Some (set_pUser (Some d') (demo_app TRDP_DNR_OWN_THREAD))) /\ cache_ok d'.
Proof.
  assert (Hw : replied (demo_dnr TRDP_DNR_OWN_THREAD) (host_of demo_labels) 1 (mkEnv demo_dns demo_tcn)).
  { split; [|constructor]. constructor; [right; left; reflexivity|]. constructor; [|constructor]. right. right. vm_compute. lia. }
  apply (proj2 (proj2 dnr_cache_invariant)) with (d := demo_dnr TRDP_DNR_OWN_THREAD); [reflexivity|apply demo_cache_ok|vm_compute; lia|exact Hw|exact Hw].
Defined.


Lemma dnr_options_exchanged_witness :
  tau_uri2Addr demo_env demo_env [] 1 (Some (demo_app TRDP_DNR_STANDARD_DNS)) true (Some (str "hmi.veh2.ltrn"))
  = tau_uri2Addr (mkEnv (mkDnsEnv false false [] 0 [] []) no_tcn) (mkEnv (mkDnsEnv false false [] 0 [] []) no_tcn) [] 1
      (Some (demo_app TRDP_DNR_STANDARD_DNS)) true (Some (str "hmi.veh2.ltrn")).
Proof.
  apply (proj2 (dnr_options_exchanged (demo_app TRDP_DNR_STANDARD_DNS) (demo_dnr TRDP_DNR_STANDARD_DNS) (str "hmi.veh2.ltrn") [] 1
    demo_dns demo_dns no_tcn no_tcn eq_refl)). reflexivity.
Defined.

Lemma uri2Addr_asks_tcn_witness : exists d' e,
  tau_uri2Addr (mkEnv demo_dns demo_tcn) demo_env [] 1 (Some (demo_app TRDP_DNR_OWN_THREAD)) true (Some (str "hmi.veh2.ltrn"))
  = Got (TRDP_NO_ERR, Some 0x0a000203, Some (set_pUser (Some d') (demo_app TRDP_DNR_OWN_THREAD)))
  /\ cache d' ≡ₚ e :: cache (demo_dnr TRDP_DNR_OWN_THREAD).
Proof.
  destruct (uri2Addr_asks_tcn (demo_app TRDP_DNR_OWN_THREAD) (demo_dnr TRDP_DNR_OWN_THREAD) (str "hmi.veh2.ltrn") (mkEnv demo_dns demo_tcn) demo_env
    [] 1 (repeat 0 20) (repeat 0 3) (repeat 0 16) 0x0a000203 7 9 [mkMsg 2500 TRDP_NO_ERR [1; 2]] []) as (d' & e & E & Hp & _).
  - reflexivity.
  - apply demo_cache_ok.
  - discriminate.
  - vm_compute. lia.
  - reflexivity.
  - repeat constructor. vm_compute. congruence.
  - repeat constructor; vm_compute; congruence.
  - vm_compute. lia.
  - reflexivity.
  - reflexivity.
  - lia.
  - lia.
  - lia.
  - by left.
  - reflexivity.
  - reflexivity.
  - repeat constructor. vm_compute. congruence.
  - constructor.
  - reflexivity.
  - exists d', e. split; [exact E|exact Hp].
Defined.
