(* ===== verification/TauTti.v ===== *)
(** * Train topology information

    Models src/app/trdp/tcnopen/tau_tti.c: the directories of the train, taken from the telegrams of the train
    topology database, and the questions about them. The structures are kept as the bytes the program copies them
    as, in memory order; offsets are those of tau_tti_types.h with 64-bit pointers. A consist info is a block of
    the heap with the bytes of its telegram. A result [Outside] is where the program leaves an array or follows a
    pointer that leads nowhere, [Hangs] where rounds or depth given did not suffice.

    Every request calls [tlc_process], which may deliver telegrams to the callbacks below, and these send requests in
    turn. [script] holds, for each of these calls, the answers of the resolver and what is delivered. *)
From Stdlib Require Import String.
From stdpp Require Import gmap.
From S2P Require Import Prelude Bytes VosCrc VosString TrdpTypes TauDnrName TauDnr.

Definition TRDP_MAX_CST_CNT : nat := 63.
Definition TTI_CACHED_CONSISTS : nat := 8.

Definition TTDB_STATUS_COMID : Z := 100.
Definition TTDB_STATUS_TO : Z := 5000.
Definition TTDB_OP_DIR_INFO_COMID : Z := 101.
Definition TTDB_TRN_DIR_REQ_COMID : Z := 102.
Definition TTDB_TRN_DIR_REQ_TO : Z := 3000.
Definition TTDB_TRN_DIR_REP_COMID : Z := 103.
Definition TTDB_STAT_CST_REQ_COMID : Z := 104.
Definition TTDB_STAT_CST_REQ_TO : Z := 3000.
Definition TTDB_STAT_CST_REP_COMID : Z := 105.
Definition TTDB_NET_DIR_REQ_COMID : Z := 106.
Definition TTDB_NET_DIR_REQ_TO : Z := 3000.
Definition TTDB_NET_DIR_REP_COMID : Z := 107.
Definition TTDB_OP_DIR_INFO_REQ_COMID : Z := 108.
Definition TTDB_OP_DIR_INFO_REQ_TO : Z := 3000.
Definition TTDB_OP_DIR_INFO_REP_COMID : Z := 109.
Definition TTDB_READ_CMPLT_REQ_COMID : Z := 110.
Definition TTDB_READ_CMPLT_REQ_TO : Z := 3000.
Definition TTDB_READ_CMPLT_REP_COMID : Z := 111.

Definition TTDB_OP_DIR_INFO_REQ_URI : list Z := str "devECSP.anyVeh.lCst".
Definition TTDB_TRN_DIR_REQ_URI : list Z := str "devECSP.anyVeh.lCst.lClTrn.lTrn".
Definition TTDB_NET_DIR_REQ_URI : list Z := str "devECSP.anyVeh.lCst".
Definition TTDB_READ_CMPLT_REQ_URI : list Z := str "devECSP.anyVeh.lCst".
Definition TTDB_STAT_CST_REQ_URI : list Z := str "devECSP.anyVeh.lCst.lClTrn.lTrn".

(** ** Sizes and offsets of the structures *)
Definition sizeof_TRDP_UUID_T : nat := 16.
Definition sizeof_TRDP_NET_LABEL_T : nat := 16.
Definition sizeof_TRDP_CONSIST_T : nat := 24.
Definition sizeof_TRDP_OP_CONSIST_T : nat := 20.
Definition sizeof_TRDP_OP_VEHICLE_T : nat := 24.
Definition sizeof_TRDP_TRAIN_NET_DIR_ENTRY_T : nat := 20.
Definition sizeof_TRDP_OP_TRAIN_DIR_STATE_T : nat := 48.
Definition sizeof_TRDP_OP_TRAIN_DIR_STATUS_INFO_T : nat := 72.
Definition sizeof_TRDP_OP_TRAIN_DIR_T : nat := 2788.
Definition sizeof_TRDP_TRAIN_DIR_T : nat := 1520.
Definition sizeof_TRDP_TRAIN_NET_DIR_T : nat := 1268.
Definition sizeof_TRDP_READ_COMPLETE_REPLY_T : nat :=
  sizeof_TRDP_OP_TRAIN_DIR_STATE_T + sizeof_TRDP_OP_TRAIN_DIR_T + sizeof_TRDP_TRAIN_DIR_T + sizeof_TRDP_TRAIN_NET_DIR_T.
Definition sizeof_TRDP_CONSIST_INFO_T : nat := 152.

(** [TRDP_OP_TRAIN_DIR_STATUS_INFO_T]: [state.opTrnTopoCnt], [state.crc], [etbTopoCnt], [ownTrnCstNo]. *)
Definition state_opTrnTopoCnt : nat := 40.
Definition state_crc : nat := 44.
Definition status_etbTopoCnt : nat := 48.
Definition status_ownTrnCstNo : nat := 53.

(** [TRDP_OP_TRAIN_DIR_T], its consists and its vehicles. *)
Definition opDir_opCstCnt : nat := 7.
Definition opDir_opCstList : nat := 8.
Definition opDir_opVehCnt : nat := 1271.
Definition opDir_opVehList : nat := 1272.
Definition opDir_opTrnTopoCnt : nat := 2784.
Definition opCst_opCstNo : nat := 16.
Definition opCst_opCstOrient : nat := 17.
Definition opCst_trnCstNo : nat := 18.
Definition opVeh_vehOrient : nat := 20.
Definition opVeh_ownOpCstNo : nat := 21.

(** [TRDP_TRAIN_DIR_T] and its consists; [TRDP_TRAIN_NET_DIR_T] and its entries. *)
Definition trnDir_cstCnt : nat := 3.
Definition trnDir_cstList : nat := 4.
Definition trnDir_trnTopoCnt : nat := 1516.
Definition cst_cstTopoCnt : nat := 16.
Definition netDir_entryCnt : nat := 2.
Definition netDir_trnNetDir : nat := 4.
Definition netDir_etbTopoCnt : nat := 1264.
Definition net_cstNetProp : nat := 16.

(** [TRDP_CONSIST_INFO_T]. *)
Definition info_cstId : nat := 4.
Definition info_cstUUID : nat := 52.
Definition info_etbCnt : nat := 80.
Definition info_vehCnt : nat := 98.
Definition info_fctCnt : nat := 114.
Definition info_cstTopoCnt : nat := 144.

(** A 16-bit number in the order of the host. *)
Definition put16le (off : nat) (v : Z) : list Z -> list Z := bput off (rev (be_bytes 2 v)).

(** ** The state *)
Record TAU_TTDB_T := mkTtdb {
  opTrnState : list Z; opTrnDir : list Z; trnDir : list Z; trnNetDir : list Z;
  noOfCachedCst : Z; cstSize : list Z; cstInfo : list (option nat) }.

(** A message for [tlm_request], with its time-out; the semaphore given; what is asked of the stack besides. *)
Inductive tti_event :=
| Requested (comId etbTopoCnt opTrnTopoCnt destIpAddr replyTimeout : Z) (data : option (list Z))
| Sema_given
| Subscribed (comId timeout : Z)
| Listening (comId : Z)
| Not_listening
| Unsubscribed.

(** A telegram that is delivered: of process data, with whether its element has a user reference; or of message
    data, with whether the session has a reference for callbacks. *)
Inductive delivery :=
| Pd_delivered (userRef : bool) (m : md_message)
| Md_delivered (refCon : bool) (m : md_message).

(** A call of [tlc_process]: the answers to the resolver before it, and what is delivered. *)
Record process_round := mkRound { first_try : resolver_env; second_try : resolver_env; handle_id : Z; delivered : list delivery }.
Definition silent : resolver_env := mkEnv (mkDnsEnv false false [] 0 [] []) (mkTcnEnv false false [] []).
Definition quiet_round : process_round := mkRound silent silent 0 [].

(** [pTTDB]: [None] is the null pointer, [Some None] a pointer to memory that was given back. [heap] holds the
    blocks of the consist infos, [memory] whether an allocation succeeds, by its number [allocated]. *)
Record tti := mkTti {
  app : app_session; pTTDB : option (option TAU_TTDB_T);
  heap : gmap nat (list Z); memory : nat -> bool; allocated : nat;
  script : list process_round; log : list tti_event }.

Definition set_app (a : app_session) (s : tti) : tti := mkTti a (pTTDB s) (heap s) (memory s) (allocated s) (script s) (log s).
Definition set_pTTDB (p : option (option TAU_TTDB_T)) (s : tti) : tti := mkTti (app s) p (heap s) (memory s) (allocated s) (script s) (log s).
Definition set_heap (h : gmap nat (list Z)) (s : tti) : tti := mkTti (app s) (pTTDB s) h (memory s) (allocated s) (script s) (log s).
Definition set_script (l : list process_round) (s : tti) : tti := mkTti (app s) (pTTDB s) (heap s) (memory s) (allocated s) l (log s).
Definition emit (e : tti_event) (s : tti) : tti := mkTti (app s) (pTTDB s) (heap s) (memory s) (allocated s) (script s) (log s ++ [e]).

Definition etb_of (s : tti) : Z := s_etbTopoCnt (session (app s)).
Definition op_of (s : tti) : Z := s_opTrnTopoCnt (session (app s)).
Definition on_app_session (f : TRDP_SESSION_T -> TRDP_SESSION_T) (s : tti) : tti :=
  set_app (mkApp (f (session (app s))) (hostName (app s)) (pUser (app s))) s.
(** [tlc_setETBTopoCount], [tlc_setOpTrainTopoCount] within a call of the stack. *)
Definition set_etb (v : Z) : tti -> tti := on_app_session (set_s_etbTopoCnt v).
Definition set_op (v : Z) : tti -> tti := on_app_session (set_s_opTrnTopoCnt v).

(** The database, if the pointer leads to it. *)
Definition the_ttdb (s : tti) : dns TAU_TTDB_T := match pTTDB s with Some (Some t) => Got t | _ => Outside end.
Definition put_ttdb (t : TAU_TTDB_T) : tti -> tti := set_pTTDB (Some (Some t)).
Definition set_opTrnState (b : list Z) (t : TAU_TTDB_T) := mkTtdb b (opTrnDir t) (trnDir t) (trnNetDir t) (noOfCachedCst t) (cstSize t) (cstInfo t).
Definition set_opTrnDir (b : list Z) (t : TAU_TTDB_T) := mkTtdb (opTrnState t) b (trnDir t) (trnNetDir t) (noOfCachedCst t) (cstSize t) (cstInfo t).
Definition set_trnDir (b : list Z) (t : TAU_TTDB_T) := mkTtdb (opTrnState t) (opTrnDir t) b (trnNetDir t) (noOfCachedCst t) (cstSize t) (cstInfo t).
Definition set_trnNetDir (b : list Z) (t : TAU_TTDB_T) := mkTtdb (opTrnState t) (opTrnDir t) (trnDir t) b (noOfCachedCst t) (cstSize t) (cstInfo t).
Definition set_cstInfo (i : nat) (p : option nat) (t : TAU_TTDB_T) :=
  mkTtdb (opTrnState t) (opTrnDir t) (trnDir t) (trnNetDir t) (noOfCachedCst t) (cstSize t) (<[i := p]> (cstInfo t)).
Definition set_cstSize (i : nat) (n : Z) (t : TAU_TTDB_T) :=
  mkTtdb (opTrnState t) (opTrnDir t) (trnDir t) (trnNetDir t) (noOfCachedCst t) (<[i := n]> (cstSize t)) (cstInfo t).

(** [cstInfo[i]] of an index within the array. *)
Definition info_ptr (t : TAU_TTDB_T) (i : nat) : option nat := (cstInfo t !! i) ≫= id.

(** ** Memory *)
Definition block (s : tti) (p : nat) : dns (list Z) := match heap s !! p with Some b => Got b | None => Outside end.
Definition free_block (p : nat) (s : tti) : tti := set_heap (delete p (heap s)) s.
(** [vos_memAlloc]; the block is filled at once, as its only caller does. *)
Definition alloc_block (data : list Z) (s : tti) : option nat * tti :=
  let s' := mkTti (app s) (pTTDB s) (heap s) (memory s) (S (allocated s)) (script s) (log s) in
  match data with
  | [] => (None, s)
  | _ => if memory s (allocated s) then (Some (allocated s), set_heap (<[allocated s := data]> (heap s)) s') else (None, s')
  end.

Section Tti.
Context `{Libc}.

(** ** Searching the directories *)

(** Every access to a directory is one inside it. *)
Definition field8 (b : list Z) (off : nat) : dns Z := match b !! off with Some c => Got c | None => Outside end.
Definition field (b : list Z) (off n : nat) : dns (list Z) := _ ← inside b off n; Got (bget off n b).

(** [memcpy] into a structure: beyond its end the fields of what is behind would be written. *)
Definition copy_in (off : nat) (bs b : list Z) : dns (list Z) :=
  if (off + length bs <=? length b)%nat then Got (bput off bs b) else Outside.

Definition ipFromURI (r : process_round) (uri : list Z) (s : tti) : dns (Z * tti) :=
  '(_, addr, a) ← tau_uri2Addr (first_try r) (second_try r) [] (handle_id r) (Some (app s)) true (Some uri);
  Got (default VOS_INADDR_ANY addr, match a with Some a => set_app a s | None => s end).

(** The consist with number [opCstNo] among those from [j] on. *)
Fixpoint find_op_consist (rest j : nat) (d : list Z) (opCstNo : Z) : dns (option (list Z)) :=
  match rest with
  | O => Got None
  | S rest =>
      no ← field8 d (opDir_opCstList + sizeof_TRDP_OP_CONSIST_T * j + opCst_opCstNo);
      if opCstNo =? no then uuid ← field d (opDir_opCstList + sizeof_TRDP_OP_CONSIST_T * j) sizeof_TRDP_UUID_T; Got (Some uuid)
      else find_op_consist rest (S j) d opCstNo
  end.

Fixpoint find_op_vehicle (rest i : nat) (d label : list Z) : dns (list Z) :=
  match rest with
  | O => Got (repeat 0 sizeof_TRDP_UUID_T)
  | S rest =>
      let veh := (opDir_opVehList + sizeof_TRDP_OP_VEHICLE_T * i)%nat in
      vehId ← field d veh sizeof_TRDP_NET_LABEL_T;
      if vos_strnicmp vehId label sizeof_TRDP_NET_LABEL_T =? 0 then
        opCstNo ← field8 d (veh + opVeh_ownOpCstNo);
        cnt ← field8 d opDir_opCstCnt;
        found ← find_op_consist (Z.to_nat cnt) 0 d opCstNo;
        match found with Some uuid => Got uuid | None => find_op_vehicle rest (S i) d label end
      else find_op_vehicle rest (S i) d label
  end.

Definition ttiGetUUIDfromLabel (cstLabel : list Z) (s : tti) : dns (list Z) :=
  t ← the_ttdb s;
  cnt ← field8 (opTrnDir t) opDir_opVehCnt;
  find_op_vehicle (Z.to_nat cnt) 0 (opTrnDir t) cstLabel.

Fixpoint own_cst_loop (rest i : nat) (d : list Z) (own : Z) (pTelegram : list Z) : dns bool :=
  match rest with
  | O => Got false
  | S rest =>
      let cst := (opDir_opCstList + sizeof_TRDP_OP_CONSIST_T * i)%nat in
      no ← field8 d (cst + opCst_trnCstNo);
      if own =? no then
        uuid ← field d cst sizeof_TRDP_UUID_T;
        uuid' ← field pTelegram info_cstUUID sizeof_TRDP_UUID_T;
        Got (bool_decide (uuid = uuid'))
      else own_cst_loop rest (S i) d own pTelegram
  end.
Definition ttiIsOwnCstInfo (pTelegram : list Z) (s : tti) : dns bool :=
  t ← the_ttdb s;
  cnt ← field8 (opTrnDir t) opDir_opCstCnt;
  own ← field8 (opTrnState t) status_ownTrnCstNo;
  own_cst_loop (Z.to_nat cnt) 0 (opTrnDir t) own pTelegram.

(** ** The callback for process data *)

(** The message is the state of the operational train. *)
Definition ttiPDCallback (userRef : bool) (pMsg : md_message) (s : tti) : dns tti :=
  if negb (msg_comId pMsg =? TTDB_STATUS_COMID) then Got s else
  let data := pData pMsg in
  let finish (changed : bool) (s : tti) := if changed && userRef then emit Sema_given s else s in
  if is_ok (resultCode pMsg) && (length data <=? sizeof_TRDP_OP_TRAIN_DIR_STATUS_INFO_T)%nat then
    state ← field data 0 sizeof_TRDP_OP_TRAIN_DIR_STATE_T;
    let crc := vos_sc32 0xFFFFFFFF (take (sizeof_TRDP_OP_TRAIN_DIR_STATE_T - 4) state) in
    if negb (crc =? get32 state_crc data) then Got (set_op 0 s) else
    t ← the_ttdb s;
    _ ← inside data status_etbTopoCnt 4;
    let etb := get32 status_etbTopoCnt data in
    let op := get32 state_opTrnTopoCnt data in
    b ← copy_in 0 state (opTrnState t);
    let b := put32le state_crc (get32 state_crc data) (put32le state_opTrnTopoCnt op (put32le status_etbTopoCnt etb b)) in
    let s := put_ttdb (set_opTrnState b t) s in
    let c1 := negb (etb_of s =? etb) in
    let s := if c1 then set_etb etb s else s in
    let c2 := negb (op_of s =? op) in
    let s := if c2 then set_op op s else s in
    Got (finish (c1 || c2) s)
  else match resultCode pMsg with
  | TRDP_TIMEOUT_ERR =>
      let c1 := negb (etb_of s =? 0) in
      let s := if c1 then set_etb 0 s else s in
      let c2 := negb (op_of s =? 0) in
      let s := if c2 then set_op 0 s else s in
      Got (finish (c1 || c2) s)
  | _ => Got s
  end.

(** ** Storing the directories *)

(** The vehicles are copied over the consists, to the start of the directory; their number is not looked at, and with 117
    or more the copy runs over the other directories and the cache behind this one. *)
Definition ttiStoreOpTrnDir (data : list Z) (s : tti) : dns tti :=
  cnt ← field8 data opDir_opCstCnt;
  if Z.of_nat TRDP_MAX_CST_CNT <? cnt then Got s else
  t ← the_ttdb s;
  let size := (8 + Z.to_nat cnt * sizeof_TRDP_OP_CONSIST_T)%nat in
  consists ← field data 0 size;
  b ← copy_in 0 consists (opTrnDir t);
  vehCnt ← field8 data (size + 3);
  let size' := (Z.to_nat vehCnt * sizeof_TRDP_OP_VEHICLE_T + 4)%nat in
  vehicles ← field data (size + 4) size';
  b ← copy_in 0 vehicles b;
  let op := get32 opDir_opTrnTopoCnt b in
  Got (set_op op (put_ttdb (set_opTrnDir (put32le opDir_opTrnTopoCnt op b) t) s)).

(** The numbers at [off], [off + step], ... to the order of the host. *)
Fixpoint swap_fields (cnt off step : nat) (b : list Z) : list Z :=
  match cnt with O => b | S cnt => swap_fields cnt (off + step) step (put32le off (get32 off b) b) end.

Definition ttiStoreTrnDir (data : list Z) (s : tti) : dns tti :=
  cnt ← field8 data trnDir_cstCnt;
  if Z.of_nat TRDP_MAX_CST_CNT <? cnt then Got s else
  t ← the_ttdb s;
  let size := (4 + Z.to_nat cnt * sizeof_TRDP_CONSIST_T)%nat in
  consists ← field data 0 size;
  b ← copy_in 0 consists (trnDir t);
  _ ← inside data size 4;
  let b := put32le trnDir_trnTopoCnt (get32 size data) b in
  let b := swap_fields (Z.to_nat cnt) (trnDir_cstList + cst_cstTopoCnt) sizeof_TRDP_CONSIST_T b in
  Got (put_ttdb (set_trnDir b t) s).

(** The number of entries is stored before it is compared; the entries are copied from the start of the telegram. *)
Definition ttiStoreTrnNetDir (data : list Z) (s : tti) : dns tti :=
  t ← the_ttdb s;
  _ ← inside data netDir_entryCnt 2;
  let entryCnt := get16 netDir_entryCnt data in
  let b := put16le netDir_entryCnt entryCnt (bput 0 [0; 0] (trnNetDir t)) in
  if Z.of_nat TRDP_MAX_CST_CNT <? entryCnt then Got (put_ttdb (set_trnNetDir b t) s) else
  let size := (Z.to_nat entryCnt * sizeof_TRDP_TRAIN_NET_DIR_ENTRY_T)%nat in
  entries ← field data 0 size;
  b ← copy_in netDir_trnNetDir entries b;
  _ ← inside data (4 + size) 4;
  let b := put32le netDir_etbTopoCnt (get32 (4 + size) data) b in
  let b := swap_fields (Z.to_nat entryCnt) (netDir_trnNetDir + net_cstNetProp) sizeof_TRDP_TRAIN_NET_DIR_ENTRY_T b in
  Got (put_ttdb (set_trnNetDir b t) s).

(** The entry with the consist of the telegram, from [i] on; it is given back. *)
Fixpoint loaded_loop (rest i : nat) (pTelegram : list Z) (s : tti) : dns (option nat) :=
  match rest with
  | O => Got None
  | S rest =>
      t ← the_ttdb s;
      match info_ptr t i with
      | None => loaded_loop rest (S i) pTelegram s
      | Some p =>
          b ← block s p;
          _ ← inside b info_cstTopoCnt 4;
          if get32le info_cstTopoCnt b =? 0 then loaded_loop rest (S i) pTelegram s else
          uuid ← field b info_cstUUID sizeof_TRDP_UUID_T;
          uuid' ← field pTelegram info_cstUUID sizeof_TRDP_UUID_T;
          if bool_decide (uuid = uuid') then Got (Some i) else loaded_loop rest (S i) pTelegram s
      end
  end.

(** [vos_memFree(cstInfo[i])] and clearing the pointer. *)
Definition drop_info (i : nat) (s : tti) : dns tti :=
  t ← the_ttdb s;
  Got (match info_ptr t i with Some p => put_ttdb (set_cstInfo i None t) (free_block p s) | None => s end).

Definition ttiStoreCstInfo (data : list Z) (s : tti) : dns tti :=
  own ← ttiIsOwnCstInfo data s;
  '(curEntry, s) ← (if (own : bool) then s ← drop_info 0 s; Got (0%nat, s)
                    else loaded ← loaded_loop (TRDP_MAX_CST_CNT - 1) 1 data s;
                         match loaded with Some i => s ← drop_info i s; Got (i, s) | None => Got (1%nat, s) end);
  let '(p, s) := alloc_block data s in
  t ← the_ttdb s;
  let t := set_cstInfo curEntry p t in
  Got (put_ttdb (match p with Some _ => set_cstSize curEntry (Z.of_nat (length data)) t | None => t end) s).

(** ** Requests, and the callback for message data *)
Section Callback.
(** What [tlc_process] does with the telegrams that arrive. *)
Variable deliver : list delivery -> tti -> dns tti.

Definition request_of (comID : Z) (cstUUID : option (list Z)) : option (list Z * Z * option (list Z)) :=
  if comID =? TTDB_OP_DIR_INFO_REQ_COMID then Some (TTDB_OP_DIR_INFO_REQ_URI, TTDB_OP_DIR_INFO_REQ_TO, Some [0])
  else if comID =? TTDB_TRN_DIR_REQ_COMID then Some (TTDB_TRN_DIR_REQ_URI, TTDB_TRN_DIR_REQ_TO, Some [0])
  else if comID =? TTDB_NET_DIR_REQ_COMID then Some (TTDB_NET_DIR_REQ_URI, TTDB_NET_DIR_REQ_TO, Some [0])
  else if comID =? TTDB_READ_CMPLT_REQ_COMID then Some (TTDB_READ_CMPLT_REQ_URI, TTDB_READ_CMPLT_REQ_TO, Some [0])
  else if comID =? TTDB_STAT_CST_REQ_COMID then Some (TTDB_STAT_CST_REQ_URI, TTDB_STAT_CST_REQ_TO, cstUUID)
  else None.

Definition ttiRequestTTDBdata (comID : Z) (cstUUID : option (list Z)) (s : tti) : dns tti :=
  let r := hd quiet_round (script s) in
  let s := set_script (tl (script s)) s in
  s ← match request_of comID cstUUID with
      | Some (uri, timeout, data) =>
          '(ip, s') ← ipFromURI r uri s;
          Got (emit (Requested comID (etb_of s) (op_of s) ip timeout data) s')
      | None => Got s
      end;
  deliver (delivered r) s.

Fixpoint drop_infos (rest i : nat) (s : tti) : dns tti :=
  match rest with O => Got s | S rest => s ← drop_info i s; drop_infos rest (S i) s end.

(** The consist infos of the directory are requested, up to the first without a topography counter. *)
Fixpoint request_infos (rest i : nat) (s : tti) : dns tti :=
  match rest with
  | O => Got s
  | S rest =>
      t ← the_ttdb s;
      let cst := (trnDir_cstList + sizeof_TRDP_CONSIST_T * i)%nat in
      if get32le (cst + cst_cstTopoCnt) (trnDir t) =? 0 then Got s else
      s ← ttiRequestTTDBdata TTDB_STAT_CST_REQ_COMID (Some (bget cst sizeof_TRDP_UUID_T (trnDir t))) s;
      request_infos rest (S i) s
  end.

(** The complete database: the state, then the three directories. *)
Definition store_complete (data : list Z) (s : tti) : dns tti :=
  _ ← inside data 0 sizeof_TRDP_OP_TRAIN_DIR_STATE_T;
  let crc := vos_crc32 0xFFFFFFFF (take (length data - 4) data) in
  if negb (crc =? get32le state_crc data) then Got (set_op 0 s) else
  t ← the_ttdb s;
  let op := get32 state_opTrnTopoCnt data in
  b ← copy_in 0 (take sizeof_TRDP_OP_TRAIN_DIR_STATE_T data) (opTrnState t);
  let s := put_ttdb (set_opTrnState (put32le state_crc (get32le state_crc data) (put32le state_opTrnTopoCnt op b)) t) (set_op op s) in
  let dir := drop sizeof_TRDP_OP_TRAIN_DIR_STATE_T data in
  s ← ttiStoreOpTrnDir dir s;
  s ← ttiStoreTrnDir (drop sizeof_TRDP_OP_TRAIN_DIR_T dir) s;
  ttiStoreTrnNetDir (drop (sizeof_TRDP_OP_TRAIN_DIR_T + sizeof_TRDP_TRAIN_DIR_T) dir) s.

Definition ttiMDCallback (refCon : bool) (pMsg : md_message) (s : tti) : dns tti :=
  let data := pData pMsg in
  let comId := msg_comId pMsg in
  let taken (n : nat) := is_ok (resultCode pMsg) && (length data <=? n)%nat in
  if (comId =? TTDB_OP_DIR_INFO_COMID) || (comId =? TTDB_OP_DIR_INFO_REP_COMID) then
    if taken sizeof_TRDP_OP_TRAIN_DIR_T
    then s ← ttiStoreOpTrnDir data s; Got (if refCon then emit Sema_given s else s)
    else Got s
  else if comId =? TTDB_TRN_DIR_REP_COMID then
    if taken sizeof_TRDP_TRAIN_DIR_T then
      s ← ttiStoreTrnDir data s;
      s ← drop_infos TTI_CACHED_CONSISTS 0 s;
      request_infos TTI_CACHED_CONSISTS 0 s
    else Got s
  else if comId =? TTDB_NET_DIR_REP_COMID then
    if taken sizeof_TRDP_TRAIN_NET_DIR_T then ttiStoreTrnNetDir data s else Got s
  else if comId =? TTDB_READ_CMPLT_REP_COMID then
    if taken sizeof_TRDP_READ_COMPLETE_REPLY_T then store_complete data s else Got s
  else if comId =? TTDB_STAT_CST_REP_COMID then
    if taken sizeof_TRDP_CONSIST_INFO_T then ttiStoreCstInfo data s else Got s
  else Got s.

Definition callback (d : delivery) : tti -> dns tti :=
  match d with Pd_delivered u m => ttiPDCallback u m | Md_delivered r m => ttiMDCallback r m end.
End Callback.

(** [tlc_process]: the telegrams in their order, each with the requests it leads to. [depth] bounds how far these
    are nested; each takes a round of the script, so one more than its length suffices. *)
Fixpoint deliver_all (depth : nat) (l : list delivery) (s : tti) : dns tti :=
  match l, depth with
  | [], _ => Got s
  | _, O => Hangs
  | _, S depth => foldl (fun m d => s ← m; callback (deliver_all depth) d s) (Got s) l
  end.
Definition depth_of (s : tti) : nat := S (length (script s)).
Definition request (comID : Z) (cstUUID : option (list Z)) (s : tti) : dns tti :=
  ttiRequestTTDBdata (deliver_all (depth_of s)) comID cstUUID s.

(** ** The interface *)

(** The database in memory that was cleared. *)
Definition fresh_ttdb : TAU_TTDB_T :=
  mkTtdb (repeat 0 sizeof_TRDP_OP_TRAIN_DIR_STATUS_INFO_T) (repeat 0 sizeof_TRDP_OP_TRAIN_DIR_T) (repeat 0 sizeof_TRDP_TRAIN_DIR_T)
    (repeat 0 sizeof_TRDP_TRAIN_NET_DIR_T) 0 (repeat 0 TRDP_MAX_CST_CNT) (repeat None TRDP_MAX_CST_CNT).

(** Whether the subscription and the listener are accepted. *)
Definition tau_initTTIaccess (sub_ok listen_ok : bool) (appHandle : option tti) : TRDP_ERR_T * option tti :=
  match appHandle with
  | None => (TRDP_INIT_ERR, None)
  | Some s =>
      match pTTDB s with
      | Some _ => (TRDP_INIT_ERR, Some s)
      | None =>
          let n := allocated s in
          let s := mkTti (app s) (pTTDB s) (heap s) (memory s) (S n) (script s) (log s) in
          if negb (memory s n) then (TRDP_MEM_ERR, Some s) else
          if negb sub_ok then (TRDP_INIT_ERR, Some (set_pTTDB (Some None) s)) else
          let s := emit (Subscribed TTDB_STATUS_COMID (TTDB_STATUS_TO * 1000)) s in
          if negb listen_ok then (TRDP_INIT_ERR, Some (set_pTTDB (Some None) s)) else
          (TRDP_NO_ERR, Some (put_ttdb fresh_ttdb (emit (Listening TTDB_OP_DIR_INFO_COMID) s)))
      end
  end.

Definition tau_deInitTTI (appHandle : option tti) : dns tti :=
  match appHandle with
  | None => Outside
  | Some s =>
      match pTTDB s with
      | None => Got s
      | Some _ =>
          t ← the_ttdb s;
          s ← drop_infos (Z.to_nat (noOfCachedCst t)) 0 s;
          Got (set_pTTDB None (emit Unsubscribed (emit Not_listening s)))
      end
  end.

(** A function on a session with a database; the other results are those of a parameter error. *)
Definition with_ttdb {A} (appHandle : option tti) (pointers : bool) (f : tti -> TAU_TTDB_T -> dns (TRDP_ERR_T * option A * tti))
    : dns (TRDP_ERR_T * option A * option tti) :=
  match appHandle with
  | None => Got (TRDP_PARAM_ERR, None, None)
  | Some s =>
      match pTTDB s with
      | None => Got (TRDP_PARAM_ERR, None, Some s)
      | Some _ =>
          if negb pointers then Got (TRDP_PARAM_ERR, None, Some s) else
          t ← the_ttdb s;
          '(err, r, s) ← f s t;
          Got (err, r, Some s)
      end
  end.

(** Ask for the directory, and come back later. *)
Definition try_later {A} (comID : Z) (cstUUID : option (list Z)) (s : tti) : dns (TRDP_ERR_T * option A * tti) :=
  s ← request comID cstUUID s; Got (TRDP_NODATA_ERR, None, s).

(** Out parameters: [None] is a null pointer, or nothing written. *)
Definition tau_getOpTrDirectory (appHandle : option tti) (pOpTrnDirState pOpTrnDir : bool)
    : dns (TRDP_ERR_T * option (option (list Z) * option (list Z)) * option tti) :=
  with_ttdb appHandle true (fun s t =>
    cnt ← field8 (opTrnDir t) opDir_opCstCnt;
    if (cnt =? 0) || negb (get32le opDir_opTrnTopoCnt (opTrnDir t) =? op_of s) then try_later TTDB_OP_DIR_INFO_REQ_COMID None s
    else Got (TRDP_NO_ERR, Some (if pOpTrnDirState then Some (take sizeof_TRDP_OP_TRAIN_DIR_STATE_T (opTrnState t)) else None,
                                 if pOpTrnDir then Some (opTrnDir t) else None), s)).

Definition tau_getOpTrnDirectoryStatusInfo (appHandle : option tti) (pOpTrnDirStatusInfo : bool)
    : dns (TRDP_ERR_T * option (list Z) * option tti) :=
  with_ttdb appHandle pOpTrnDirStatusInfo (fun s t => Got (TRDP_NO_ERR, Some (opTrnState t), s)).

Definition tau_getTrDirectory (appHandle : option tti) (pTrnDir : bool) : dns (TRDP_ERR_T * option (list Z) * option tti) :=
  with_ttdb appHandle pTrnDir (fun s t =>
    cnt ← field8 (trnDir t) trnDir_cstCnt;
    if (cnt =? 0) || negb (get32le trnDir_trnTopoCnt (trnDir t) =? etb_of s) then try_later TTDB_TRN_DIR_REQ_COMID None s
    else Got (TRDP_NO_ERR, Some (trnDir t), s)).

(** The first of the cached infos that [p] holds of, from [i] on; [TTI_CACHED_CONSISTS] if there is none. *)
Fixpoint find_info (rest i : nat) (p : list Z -> dns bool) (s : tti) (t : TAU_TTDB_T) : dns nat :=
  match rest with
  | O => Got i
  | S rest =>
      match info_ptr t i with
      | None => find_info rest (S i) p s t
      | Some a => b ← block s a; found ← p b; if (found : bool) then Got i else find_info rest (S i) p s t
      end
  end.

Definition tau_getStaticCstInfo (appHandle : option tti) (pCstInfo : bool) (cstUUID : option (list Z))
    : dns (TRDP_ERR_T * option (list Z) * option tti) :=
  with_ttdb appHandle pCstInfo (fun s t =>
    l_index ← match cstUUID with
              | None => Got 0%nat
              | Some u => find_info TTI_CACHED_CONSISTS 0
                            (fun b => uuid ← field b info_cstUUID sizeof_TRDP_UUID_T; Got (bool_decide (uuid = u))) s t
              end;
    match (if (l_index <? TTI_CACHED_CONSISTS)%nat then info_ptr t l_index else None) with
    | Some a =>
        b ← block s a;
        info ← field b 0 (Z.to_nat (default 0 (cstSize t !! l_index)));
        Got (TRDP_NO_ERR, Some info, s)
    | None => try_later TTDB_STAT_CST_REQ_COMID cstUUID s
    end).

Definition tau_getTTI (appHandle : option tti) (pOpTrnDirState pOpTrnDir pTrnDir pTrnNetDir : bool)
    : dns (TRDP_ERR_T * option (option (list Z) * option (list Z) * option (list Z) * option (list Z)) * option tti) :=
  with_ttdb appHandle true (fun s t =>
    let given (p : bool) (b : list Z) := if p then Some b else None in
    Got (TRDP_NO_ERR, Some (given pOpTrnDirState (take sizeof_TRDP_OP_TRAIN_DIR_STATE_T (opTrnState t)), given pOpTrnDir (opTrnDir t),
                            given pTrnDir (trnDir t), given pTrnNetDir (trnNetDir t)), s)).

(** The number asked for, if the train directory is there. *)
Definition train_count (cnt_of : TAU_TTDB_T -> dns Z) (appHandle : option tti) (p : bool) : dns (TRDP_ERR_T * option Z * option tti) :=
  with_ttdb appHandle p (fun s t =>
    cnt ← field8 (trnDir t) trnDir_cstCnt;
    if (cnt =? 0) || negb (get32le status_etbTopoCnt (opTrnState t) =? etb_of s) then try_later TTDB_TRN_DIR_REQ_COMID None s
    else n ← cnt_of t; Got (TRDP_NO_ERR, Some n, s)).
Definition tau_getTrnCstCnt : option tti -> bool -> dns (TRDP_ERR_T * option Z * option tti) :=
  train_count (fun t => field8 (trnDir t) trnDir_cstCnt).
Definition tau_getTrnVehCnt : option tti -> bool -> dns (TRDP_ERR_T * option Z * option tti) :=
  train_count (fun t => field8 (opTrnDir t) opDir_opVehCnt).

(** The consist info with a label, the own one if there is none, is given to [f], which may read it; where no info
    has the label, it is asked for. *)
Definition labelled_index (pCstLabel : option (list Z)) (s : tti) (t : TAU_TTDB_T) : dns nat :=
  match pCstLabel with
  | None => Got 0%nat
  | Some label =>
      find_info TTI_CACHED_CONSISTS 0
        (fun b => cstId ← field b info_cstId sizeof_TRDP_NET_LABEL_T; Got (vos_strnicmp cstId label sizeof_TRDP_NET_LABEL_T =? 0)) s t
  end.
Definition the_info (s : tti) (t : TAU_TTDB_T) (i : nat) : dns (list Z) :=
  match info_ptr t i with Some a => block s a | None => Outside end.
Definition with_info {A} (appHandle : option tti) (pointers : bool) (pCstLabel : option (list Z))
    (f : dns (list Z) -> TAU_TTDB_T -> dns (option A)) : dns (TRDP_ERR_T * option A * option tti) :=
  with_ttdb appHandle pointers (fun s t =>
    l_index ← labelled_index pCstLabel s t;
    if (l_index <? TTI_CACHED_CONSISTS)%nat then
      r ← f (the_info s t l_index) t;
      Got (TRDP_NO_ERR, r, s)
    else
      cstUUID ← ttiGetUUIDfromLabel (default [] pCstLabel) s;
      try_later TTDB_STAT_CST_REQ_COMID (Some cstUUID) s).

Definition field16 (b : list Z) (off : nat) : dns Z := _ ← inside b off 2; Got (get16 off b).

Definition tau_getCstVehCnt (appHandle : option tti) (pCstVehCnt : bool) (pCstLabel : option (list Z)) : dns (TRDP_ERR_T * option Z * option tti) :=
  with_info appHandle pCstVehCnt pCstLabel (fun cst _ => b ← cst; n ← field16 b info_vehCnt; Got (Some n)).
Definition tau_getCstFctCnt (appHandle : option tti) (pCstFctCnt : bool) (pCstLabel : option (list Z)) : dns (TRDP_ERR_T * option Z * option tti) :=
  with_info appHandle pCstFctCnt pCstLabel (fun cst _ => b ← cst; n ← field16 b info_fctCnt; Got (Some n)).

(** An element of a list whose pointer came with the telegram. *)
Definition through_wire_pointer {A} : dns A := Outside.

(** The functions that are returned: none, or the pointer of the telegram is followed. *)
Definition tau_getCstFctInfo (appHandle : option tti) (pFctInfo : bool) (pCstLabel : option (list Z)) (maxFctCnt : Z)
    : dns (TRDP_ERR_T * option (list (list Z)) * option tti) :=
  with_info appHandle (pFctInfo && negb (maxFctCnt =? 0)) pCstLabel (fun cst _ =>
    b ← cst;
    n ← field16 b info_fctCnt;
    if (0 <? n) && (0 <? maxFctCnt) then through_wire_pointer else Got (Some [])).

(** Without a label of a vehicle too, every vehicle of the list is read. *)
Definition tau_getVehInfo (appHandle : option tti) (pVehInfo : bool) (pVehLabel pCstLabel : option (list Z))
    : dns (TRDP_ERR_T * option (list Z) * option tti) :=
  with_info appHandle pVehInfo pCstLabel (fun cst _ =>
    b ← cst;
    n ← field16 b info_vehCnt;
    if 0 <? n then through_wire_pointer else Got None).

Definition tau_getCstInfo (appHandle : option tti) (pCstInfo : bool) (pCstLabel : option (list Z)) : dns (TRDP_ERR_T * option (list Z) * option tti) :=
  with_info appHandle pCstInfo pCstLabel (fun cst _ =>
    b ← cst;
    info ← field b 0 sizeof_TRDP_CONSIST_INFO_T;
    let swap (off : nat) (i : list Z) := put16le off (get16 off i) i in
    Got (Some (swap info_fctCnt (swap info_vehCnt (swap info_etbCnt info))))).

(** The first vehicle of the consist [opCstNo]. *)
Fixpoint find_orient (rest i : nat) (d : list Z) (opCstNo : Z) : dns (option Z) :=
  match rest with
  | O => Got None
  | S rest =>
      let veh := (opDir_opVehList + sizeof_TRDP_OP_VEHICLE_T * i)%nat in
      no ← field8 d (veh + opVeh_ownOpCstNo);
      if no =? opCstNo then o ← field8 d (veh + opVeh_vehOrient); Got (Some o) else find_orient rest (S i) d opCstNo
  end.
(** [(vehOrient, cstOrient)], from the consists of the directory with the UUID. *)
Fixpoint orient_loop (rest i : nat) (d uuid : list Z) (r : Z * Z) : dns (Z * Z) :=
  match rest with
  | O => Got r
  | S rest =>
      let cst := (opDir_opCstList + sizeof_TRDP_OP_CONSIST_T * i)%nat in
      u ← field d cst sizeof_TRDP_UUID_T;
      if vos_strnicmp u uuid sizeof_TRDP_UUID_T =? 0 then
        cstOrient ← field8 d (cst + opCst_opCstOrient);
        no ← field8 d (cst + opCst_opCstNo);
        vehCnt ← field8 d opDir_opVehCnt;
        found ← find_orient (Z.to_nat vehCnt) 0 d no;
        match found with Some vehOrient => Got (vehOrient, cstOrient) | None => orient_loop rest (S i) d uuid (fst r, cstOrient) end
      else orient_loop rest (S i) d uuid r
  end.
(** [pVehLabel] is not looked at. Where the info is asked for, both results are 0. *)
Definition tau_getVehOrient (appHandle : option tti) (pVehOrient pCstOrient : bool) (pVehLabel pCstLabel : option (list Z))
    : dns (TRDP_ERR_T * option (Z * Z) * option tti) :=
  '(err, r, s) ← with_info appHandle (pVehOrient && pCstOrient) pCstLabel (fun cst t =>
    cnt ← field8 (opTrnDir t) opDir_opCstCnt;
    uuid ← (if cnt =? 0 then Got [] else b ← cst; field b info_cstUUID sizeof_TRDP_UUID_T);
    r ← orient_loop (Z.to_nat cnt) 0 (opTrnDir t) uuid (0, 0);
    Got (Some r));
  Got (err, match err, r with TRDP_PARAM_ERR, _ => None | _, Some r => Some r | _, None => Some (0, 0) end, s).
End Tti.
