(* ===== verification/TauTtiInv.v ===== *)
(** * The cache of consist infos, and how requests nest

    What every function of [TauTti] keeps: the sizes of the directories, and the pointers of the cache, each to a
    block of its own that was not given back. Requests that are sent while telegrams are delivered nest no deeper than
    the rounds of the script. *)
From stdpp Require Import gmap.
From S2P Require Import Prelude Bytes VosString TrdpTypes TauDnrName TauDnr TauTti.

(** ** The invariant *)
Record ttdb_ok (h : gmap nat (list Z)) (t : TAU_TTDB_T) : Prop := {
  ttdb_state : length (opTrnState t) = sizeof_TRDP_OP_TRAIN_DIR_STATUS_INFO_T;
  ttdb_opDir : length (opTrnDir t) = sizeof_TRDP_OP_TRAIN_DIR_T;
  ttdb_trnDir : length (trnDir t) = sizeof_TRDP_TRAIN_DIR_T;
  ttdb_netDir : length (trnNetDir t) = sizeof_TRDP_TRAIN_NET_DIR_T;
  ttdb_sizes : length (cstSize t) = TRDP_MAX_CST_CNT;
  ttdb_infos : length (cstInfo t) = TRDP_MAX_CST_CNT;
  ttdb_cached : noOfCachedCst t = 0;
  ttdb_blocks : forall i p, info_ptr t i = Some p -> exists b, h !! p = Some b /\ cstSize t !! i = Some (Z.of_nat (length b));
  ttdb_distinct : forall i j p, info_ptr t i = Some p -> info_ptr t j = Some p -> i = j }.

Record tti_ok (s : tti) : Prop := {
  tti_heap : forall p b, heap s !! p = Some b -> (p < allocated s)%nat;
  tti_ttdb : match pTTDB s with Some (Some t) => ttdb_ok (heap s) t | _ => True end }.

(** What a step keeps: the invariant, and that rounds are only used up. *)
Definition holds (s s' : tti) : Prop := (tti_ok s -> tti_ok s') /\ script s' `suffix_of` script s.

Lemma holds_refl s : holds s s.
Proof. done. Qed.
Lemma holds_trans s1 s2 s3 : holds s1 s2 -> holds s2 s3 -> holds s1 s3.
Proof. intros [H1 L1] [H2 L2]. split; [auto|by etrans]. Qed.
Lemma holds_length s s' : holds s s' -> (length (script s') <= length (script s))%nat.
Proof. intros [_ L]. by apply suffix_length. Qed.

(** A step that leaves the database and the heap alone. *)
Lemma holds_alike s s' : pTTDB s' = pTTDB s -> heap s' = heap s -> allocated s' = allocated s ->
  script s' `suffix_of` script s -> holds s s'.
Proof. intros Et Eh Ea El. split; [|done]. intros [H1 H2]. split; by rewrite ?Et, ?Eh, ?Ea. Qed.

Lemma the_ttdb_eq s t : the_ttdb s = Got t <-> pTTDB s = Some (Some t).
Proof. unfold the_ttdb. destruct (pTTDB s) as [[t'|]|]; split; congruence. Qed.

Lemma ttdb_of s t : tti_ok s -> the_ttdb s = Got t -> ttdb_ok (heap s) t.
Proof. intros [_ H] E. apply the_ttdb_eq in E. by rewrite E in H. Qed.

(** Binding, with what is known of the first result. *)
Lemma yields_bind_eq {A B} (m : dns A) (f : A -> dns B) Q : (forall a, m = Got a -> yields (f a) Q) -> yields (m ≫= f) Q.
Proof. intros Hf. destruct m; cbn in *; auto. Qed.

Lemma swap_fields_length cnt : forall off step b, length (swap_fields cnt off step b) = length b.
Proof. induction cnt as [|cnt IH]; intros off step b; [done|]. cbn [swap_fields]. by rewrite IH, put32le_length. Qed.
Lemma put16le_length off v b : length (put16le off v b) = length b.
Proof. apply bput_length. Qed.
#[local] Hint Rewrite swap_fields_length put16le_length : buf.

Lemma copy_in_length off bs b b' : copy_in off bs b = Got b' -> length b' = length b.
Proof. unfold copy_in. destruct (_ <=? _)%nat; [|done]. intros [= <-]. apply bput_length. Qed.
Lemma copy_in_got off bs b : (off + length bs <= length b)%nat -> copy_in off bs b = Got (bput off bs b).
Proof. intros Hl. unfold copy_in. by rewrite (proj2 (Nat.leb_le _ _) Hl). Qed.

(** Other bytes of the directories, of the same number. *)
Lemma holds_bytes s s' t t' : the_ttdb s = Got t -> pTTDB s' = Some (Some t') -> heap s' = heap s -> allocated s' = allocated s -> script s' = script s ->
  cstInfo t' = cstInfo t -> cstSize t' = cstSize t -> noOfCachedCst t' = noOfCachedCst t ->
  length (opTrnState t') = length (opTrnState t) -> length (opTrnDir t') = length (opTrnDir t) ->
  length (trnDir t') = length (trnDir t) -> length (trnNetDir t') = length (trnNetDir t) -> holds s s'.
Proof.
  intros Et Ep Eh Ea Es Ei Ez En L1 L2 L3 L4. split; [|by rewrite Es]. intros Hok. pose proof (ttdb_of s t Hok Et) as [T1 T2 T3 T4 T5 T6 T0 T7 T8].
  destruct Hok as [H1 _]. split; [by rewrite Eh, Ea|]. rewrite Ep, Eh.
  split; try congruence; unfold info_ptr in *; rewrite Ei, ?Ez; done.
Qed.
Ltac other_bytes t := eapply (holds_bytes _ _ t); [eassumption|reflexivity|reflexivity|reflexivity|reflexivity|reflexivity|reflexivity|reflexivity|..];
  cbn [opTrnState opTrnDir trnDir trnNetDir set_opTrnState set_opTrnDir set_trnDir set_trnNetDir]; autorewrite with buf;
  repeat match goal with E : copy_in _ _ _ = Got _ |- _ => apply copy_in_length in E end; autorewrite with buf in *; first [reflexivity|congruence].

Lemma info_ptr_set t i j p : (i < length (cstInfo t))%nat -> info_ptr (set_cstInfo i p t) j = if decide (i = j) then p else info_ptr t j.
Proof.
  intros Hi. unfold info_ptr, set_cstInfo. cbn [cstInfo]. destruct (decide (i = j)) as [->|Hne].
  - by rewrite list_lookup_insert_eq.
  - by rewrite list_lookup_insert_ne.
Qed.
Lemma info_ptr_lt t i p : info_ptr t i = Some p -> (i < length (cstInfo t))%nat.
Proof. unfold info_ptr. intros E. destruct (cstInfo t !! i) eqn:El; [|done]. by eapply lookup_lt_Some. Qed.

Lemma drop_info_holds i s : yields (drop_info i s) (holds s).
Proof.
  unfold drop_info. apply yields_bind_eq. intros t Et. cbn [yields]. destruct (info_ptr t i) as [p|] eqn:Ep; [|apply holds_refl].
  split; [|done]. intros Hok. pose proof (ttdb_of s t Hok Et) as [T1 T2 T3 T4 T5 T6 T0 T7 T8]. destruct Hok as [H1 _].
  assert (Hi : (i < length (cstInfo t))%nat) by by eapply info_ptr_lt.
  split; cbn [heap allocated put_ttdb set_pTTDB free_block set_heap pTTDB].
  - intros q b E. apply lookup_delete_Some in E as [_ E]. by eapply H1.
  - split; try done; [by cbn; rewrite length_insert| |].
    + intros j q. rewrite info_ptr_set by done. case_decide; [done|]. intros Eq. destruct (T7 j q Eq) as (b & Eb & Es).
      exists b. split; [|done]. apply lookup_delete_Some. split; [|done]. intros ->. by apply (T8 i j) in Eq.
    + intros j k q. rewrite !info_ptr_set by done. case_decide; [done|]. case_decide; [done|]. apply T8.
Qed.

(** A new block, in an entry whose pointer is lost or was dropped. *)
Lemma store_block_holds i data s t : the_ttdb s = Got t -> (i < TRDP_MAX_CST_CNT)%nat ->
  holds s (let '(p, s) := alloc_block data s in
           put_ttdb (match p with Some _ => set_cstSize i (Z.of_nat (length data)) (set_cstInfo i p t) | None => set_cstInfo i p t end) s).
Proof.
  intros Et Hi. split; [|unfold alloc_block; destruct data; [done|]; by destruct (memory _ _)].
  intros Hok. pose proof (ttdb_of s t Hok Et) as [T1 T2 T3 T4 T5 T6 T0 T7 T8]. destruct Hok as [H1 _].
  assert (Hi' : (i < length (cstInfo t))%nat) by by rewrite T6.
  assert (Hnone : forall h, h = heap s -> ttdb_ok h (set_cstInfo i None t)).
  { intros h ->. split; try done; [by cbn; rewrite length_insert| |].
    - intros j q. rewrite info_ptr_set by done. case_decide; [done|]. apply T7.
    - intros j k q. rewrite !info_ptr_set by done. case_decide; [done|]. case_decide; [done|]. apply T8. }
  unfold alloc_block. destruct data as [|c data]; [split; [exact H1|by apply Hnone]|].
  destruct (memory s (allocated s)); [|split; [intros p b E; cbn; apply H1 in E; lia|by apply Hnone]].
  assert (Hfresh : heap s !! allocated s = None).
  { destruct (heap s !! allocated s) eqn:E; [|done]. apply H1 in E. lia. }
  split; cbn [heap allocated put_ttdb set_pTTDB set_heap pTTDB].
  - intros q b E. apply lookup_insert_Some in E as [[<- _]|[_ E]]; [lia|]. apply H1 in E. lia.
  - set (t' := set_cstInfo i (Some (allocated s)) t).
    split; try done; [by cbn; rewrite length_insert|by cbn; rewrite length_insert| |].
    + intros j q Eq. change (info_ptr t' j = Some q) in Eq. unfold t' in Eq. rewrite info_ptr_set in Eq by done. cbn [cstSize set_cstSize t' set_cstInfo].
      case_decide as Hij; [subst j; injection Eq as <-|].
      * exists (c :: data). split; [by apply lookup_insert_eq|]. apply list_lookup_insert_eq. by rewrite T5.
      * destruct (T7 j q Eq) as (b & Eb & Es). exists b. split; [|by rewrite list_lookup_insert_ne].
        rewrite lookup_insert_ne; [done|]. intros <-. congruence.
    + intros j k q Ej Ek. change (info_ptr t' j = Some q) in Ej. change (info_ptr t' k = Some q) in Ek. unfold t' in *. rewrite info_ptr_set in Ej, Ek by done.
      case_decide; case_decide; try congruence.
      * injection Ek as <-. destruct (T7 j _ Ej) as (b & Eb & _). congruence.
      * injection Ej as <-. destruct (T7 k _ Ek) as (b & Eb & _). congruence.
      * by eapply T8.
Qed.

(** ** Every step *)
Section Steps.
Context `{Libc}.

(** A result that is there is kept by a step. *)
Lemma yields_holds_bind {A} (m : dns A) (f : A -> dns tti) s : (forall a, yields (f a) (holds s)) -> yields (m ≫= f) (holds s).
Proof. apply yields_any. Qed.
Lemma holds_bind (m : dns tti) (f : tti -> dns tti) s : yields m (holds s) -> (forall s', yields (f s') (holds s')) -> yields (m ≫= f) (holds s).
Proof.
  intros Hm Hf. eapply yields_bind; [exact Hm|]. intros s' Hs. specialize (Hf s'). destruct (f s'); cbn in *; [|done|done]. by eapply holds_trans.
Qed.

Lemma ipFromURI_same r u s : yields (ipFromURI r u s) (fun x => pTTDB (snd x) = pTTDB s /\ heap (snd x) = heap s /\ allocated (snd x) = allocated s
  /\ script (snd x) = script s /\ log (snd x) = log s /\ memory (snd x) = memory s).
Proof. unfold ipFromURI. apply yields_any. intros [[err addr] [a|]]; cbn; auto 10. Qed.

Ltac app_only := apply holds_alike; [reflexivity|reflexivity|reflexivity|done].
(** Topography counters and semaphores. *)
Lemma app_steps_hold s s' : pTTDB s' = pTTDB s -> heap s' = heap s -> allocated s' = allocated s -> script s' = script s -> holds s s'.
Proof. intros Et Eh Ea Es. apply holds_alike; try done. by rewrite Es. Qed.

Lemma ttiPDCallback_holds u m s : yields (ttiPDCallback u m s) (holds s).
Proof.
  unfold ttiPDCallback. destruct (negb _); [apply holds_refl|]. destruct (_ && _).
  - apply yields_any. intros state. destruct (negb _); [app_only|]. apply yields_bind_eq. intros t Et. apply yields_any. intros _. cbv zeta.
    apply yields_bind_eq. intros b Eb. set (t' := set_opTrnState _ t). apply (holds_trans _ (put_ttdb t' s)); [unfold t'; other_bytes t|].
    generalize (put_ttdb t' s). intros s1. cbn [yields]. destruct (negb (etb_of s1 =? _)); destruct (negb _); destruct u; cbn [orb andb]; by apply app_steps_hold.
  - destruct (resultCode m); try apply holds_refl. cbn [yields]. destruct (negb _); destruct (negb _); destruct u; cbn [orb andb]; by apply app_steps_hold.
Qed.

Lemma ttiStoreOpTrnDir_holds data s : yields (ttiStoreOpTrnDir data s) (holds s).
Proof.
  unfold ttiStoreOpTrnDir. apply yields_any. intros cnt. destruct (_ <? _); [apply holds_refl|]. apply yields_bind_eq. intros t Et.
  apply yields_any. intros consists. apply yields_bind_eq. intros b1 E1. do 2 (apply yields_any; intros ?). cbv zeta.
  apply yields_bind_eq. intros b2 E2. cbn [yields].
  apply (holds_trans _ (put_ttdb (set_opTrnDir (put32le opDir_opTrnTopoCnt (get32 opDir_opTrnTopoCnt b2) b2) t) s)); [other_bytes t|by apply app_steps_hold].
Qed.
Lemma ttiStoreTrnDir_holds data s : yields (ttiStoreTrnDir data s) (holds s).
Proof.
  unfold ttiStoreTrnDir. apply yields_any. intros cnt. destruct (_ <? _); [apply holds_refl|]. apply yields_bind_eq. intros t Et.
  apply yields_any. intros consists. apply yields_bind_eq. intros b1 E1. apply yields_any. intros _. cbv zeta. cbn [yields]. other_bytes t.
Qed.
Lemma ttiStoreTrnNetDir_holds data s : yields (ttiStoreTrnNetDir data s) (holds s).
Proof.
  unfold ttiStoreTrnNetDir. apply yields_bind_eq. intros t Et. apply yields_any. intros _. cbv zeta.
  destruct (_ <? _); [cbn [yields]; other_bytes t|].
  apply yields_any. intros entries. apply yields_bind_eq. intros b1 E1. apply yields_any. intros _. cbn [yields]. other_bytes t.
Qed.

Lemma loaded_loop_range rest : forall i data s, yields (loaded_loop rest i data s) (fun r => match r with Some j => (i <= j < i + rest)%nat | None => True end).
Proof.
  induction rest as [|rest IH]; intros i data s; [done|]. cbn [loaded_loop].
  assert (Hn : yields (loaded_loop rest (S i) data s) (fun r => match r with Some j => (i <= j < i + S rest)%nat | None => True end)).
  { specialize (IH (S i) data s). destruct (loaded_loop _ _ _ _) as [[j|]| |]; cbn in *; [lia|done|done|done]. }
  apply yields_any. intros t. destruct (info_ptr t i); [|done]. do 2 (apply yields_any; intros ?). destruct (_ =? _); [done|].
  do 2 (apply yields_any; intros ?). case_bool_decide; [cbn; lia|done].
Qed.

Lemma ttiStoreCstInfo_holds data s : yields (ttiStoreCstInfo data s) (holds s).
Proof.
  unfold ttiStoreCstInfo. apply yields_any. intros own.
  eapply yields_bind with (P := fun x => (fst x < TRDP_MAX_CST_CNT)%nat /\ holds s (snd x)).
  - destruct own.
    + eapply yields_bind; [apply drop_info_holds|]. intros s' Hs. split; [cbn; unfold TRDP_MAX_CST_CNT; lia|done].
    + eapply yields_bind; [apply loaded_loop_range|]. intros [i|] Hi.
      * eapply yields_bind; [apply drop_info_holds|]. intros s' Hs. split; [cbn; unfold TRDP_MAX_CST_CNT in *; lia|done].
      * split; [cbn; unfold TRDP_MAX_CST_CNT; lia|apply holds_refl].
  - intros [i s1] [Hi Hs]. cbn in Hi, Hs.
    destruct (the_ttdb s1) as [t| |] eqn:Et.
    + pose proof (store_block_holds i data s1 t Et Hi) as Hb. destruct (alloc_block data s1) as [p s2] eqn:Ea.
      assert (Et2 : the_ttdb s2 = Got t).
      { apply the_ttdb_eq in Et. apply the_ttdb_eq. rewrite <- Et. unfold alloc_block in Ea.
        destruct data; [|destruct (memory _ _)]; by injection Ea as _ <-. }
      rewrite Et2, bind_got. cbv zeta. cbn [yields]. by eapply holds_trans.
    + destruct (alloc_block data s1) as [p s2] eqn:Ea. assert (Et2 : the_ttdb s2 = Outside); [|by rewrite Et2].
      rewrite <- Et. unfold the_ttdb, alloc_block in *. destruct data; [|destruct (memory _ _)]; by injection Ea as _ <-.
    + exfalso. unfold the_ttdb in Et. by destruct (pTTDB s1) as [[?|]|].
Qed.

Section Callback.
Variable deliver : list delivery -> tti -> dns tti.
Hypothesis deliver_holds : forall l s, yields (deliver l s) (holds s).

Lemma ttiRequestTTDBdata_holds c u s : yields (ttiRequestTTDBdata deliver c u s) (holds s).
Proof.
  unfold ttiRequestTTDBdata. apply holds_bind; [|intros; apply deliver_holds].
  assert (Hp : holds s (set_script (tl (script s)) s)) by (apply holds_alike; [done..|destruct (script s); [done|by apply suffix_cons_r]]).
  destruct (request_of c u) as [[[uri timeout] data]|]; [|exact Hp].
  eapply yields_bind; [apply ipFromURI_same|]. intros [ip s'] (E1 & E2 & E3 & E4 & _). cbn in *. eapply holds_trans; [exact Hp|].
  by apply app_steps_hold.
Qed.

Lemma drop_infos_holds rest : forall i s, yields (drop_infos rest i s) (holds s).
Proof.
  induction rest as [|rest IH]; intros i s; [apply holds_refl|]. cbn [drop_infos]. apply holds_bind; [apply drop_info_holds|]. intros; apply IH.
Qed.
Lemma request_infos_holds rest : forall i s, yields (request_infos deliver rest i s) (holds s).
Proof.
  induction rest as [|rest IH]; intros i s; [apply holds_refl|]. cbn [request_infos]. apply yields_any. intros t.
  destruct (_ =? _); [apply holds_refl|]. apply holds_bind; [apply ttiRequestTTDBdata_holds|]. intros; apply IH.
Qed.

Lemma store_complete_holds data s : yields (store_complete data s) (holds s).
Proof.
  unfold store_complete. apply yields_any. intros _. cbv zeta. destruct (negb _); [by apply app_steps_hold|]. apply yields_bind_eq. intros t Et.
  apply yields_bind_eq. intros b Eb. set (s1 := put_ttdb _ _). assert (H1 : holds s s1).
  { apply (holds_trans _ (set_op (get32 state_opTrnTopoCnt data) s)); [by apply app_steps_hold|]. unfold s1. other_bytes t. }
  clearbody s1. apply holds_bind; [|intros; apply holds_bind; [apply ttiStoreTrnDir_holds|intros; apply ttiStoreTrnNetDir_holds]].
  pose proof (ttiStoreOpTrnDir_holds (drop sizeof_TRDP_OP_TRAIN_DIR_STATE_T data) s1) as H2.
  destruct (ttiStoreOpTrnDir _ s1); cbn in *; [|done|done]. by eapply holds_trans.
Qed.

Lemma ttiMDCallback_holds r m s : yields (ttiMDCallback deliver r m s) (holds s).
Proof.
  unfold ttiMDCallback. cbv zeta.
  destruct (_ || _); [destruct (_ && _); [|apply holds_refl]; apply holds_bind; [apply ttiStoreOpTrnDir_holds|intros s'; destruct r; by apply app_steps_hold]|].
  destruct (_ =? _); [destruct (_ && _); [|apply holds_refl]; apply holds_bind; [apply ttiStoreTrnDir_holds|];
    intros; apply holds_bind; [apply drop_infos_holds|intros; apply request_infos_holds]|].
  destruct (_ =? _); [destruct (_ && _); [apply ttiStoreTrnNetDir_holds|apply holds_refl]|].
  destruct (_ =? _); [destruct (_ && _); [apply store_complete_holds|apply holds_refl]|].
  destruct (_ =? _); [destruct (_ && _); [apply ttiStoreCstInfo_holds|apply holds_refl]|apply holds_refl].
Qed.

Lemma callback_holds d s : yields (callback deliver d s) (holds s).
Proof. destruct d; [apply ttiPDCallback_holds|apply ttiMDCallback_holds]. Qed.
End Callback.

Lemma deliver_all_holds depth : forall l s, yields (deliver_all depth l s) (holds s).
Proof.
  induction depth as [|depth IH]; intros [|d l] s; [apply holds_refl|exact I|apply holds_refl|]. cbn [deliver_all].
  assert (Hm : forall l m, yields m (holds s) -> yields (foldl (fun m d => s ← m; callback (deliver_all depth) d s) m l) (holds s)).
  { clear d l. induction l as [|d l IHl]; intros m Hm; [done|]. cbn [foldl]. apply IHl.
    apply holds_bind; [done|]. intros s'. by apply callback_holds. }
  apply Hm. apply holds_refl.
Qed.

Lemma request_holds c u s : yields (request c u s) (holds s).
Proof. apply ttiRequestTTDBdata_holds. apply deliver_all_holds. Qed.

(** ** The interface *)
Definition result_holds {A} (s : tti) (r : TRDP_ERR_T * option A * option tti) : Prop :=
  match snd r with Some s' => holds s s' | None => False end.

Lemma with_ttdb_holds {A} s p (f : tti -> TAU_TTDB_T -> dns (TRDP_ERR_T * option A * tti)) :
  (forall t, yields (f s t) (fun r => holds s (snd r))) -> yields (with_ttdb (Some s) p f) (result_holds s).
Proof.
  intros Hf. unfold with_ttdb. destruct (pTTDB s) as [o|]; [|apply holds_refl]. destruct (negb p); [apply holds_refl|].
  apply yields_any. intros t. eapply yields_bind; [apply Hf|]. intros [[err r] s']. done.
Qed.
Lemma try_later_holds {A} c u s : yields (try_later (A := A) c u s) (fun r => holds s (snd r)).
Proof. unfold try_later. eapply yields_bind; [apply request_holds|]. done. Qed.
Lemma with_info_holds {A} s p l (f : dns (list Z) -> TAU_TTDB_T -> dns (option A)) : yields (with_info (Some s) p l f) (result_holds s).
Proof.
  apply with_ttdb_holds. intros t. apply yields_any. intros i. destruct (_ <? _)%nat.
  - apply yields_any. intros r. apply holds_refl.
  - apply yields_any. intros u. apply try_later_holds.
Qed.


Lemma train_count_holds f s p : yields (train_count f (Some s) p) (result_holds s).
Proof.
  apply with_ttdb_holds. intros t. apply yields_any. intros cnt. destruct (_ || _); [apply try_later_holds|]. apply yields_any. intros n. apply holds_refl.
Qed.
Lemma getOpTrDirectory_holds s p q : yields (tau_getOpTrDirectory (Some s) p q) (result_holds s).
Proof. apply with_ttdb_holds. intros t. apply yields_any. intros cnt. destruct (_ || _); [apply try_later_holds|apply holds_refl]. Qed.
Lemma getTrDirectory_holds s p : yields (tau_getTrDirectory (Some s) p) (result_holds s).
Proof. apply with_ttdb_holds. intros t. apply yields_any. intros cnt. destruct (_ || _); [apply try_later_holds|apply holds_refl]. Qed.
Lemma getStaticCstInfo_holds s p u : yields (tau_getStaticCstInfo (Some s) p u) (result_holds s).
Proof.
  apply with_ttdb_holds. intros t. apply yields_any. intros i. destruct (if (i <? TTI_CACHED_CONSISTS)%nat then info_ptr t i else None); [|apply try_later_holds].
  do 2 (apply yields_any; intros ?). apply holds_refl.
Qed.
Lemma getVehOrient_holds s p q v l : yields (tau_getVehOrient (Some s) p q v l) (result_holds s).
Proof. unfold tau_getVehOrient. eapply yields_bind; [apply with_info_holds|]. intros [[err r] s']. done. Qed.

Lemma fresh_none i : info_ptr fresh_ttdb i = None.
Proof.
  unfold info_ptr, fresh_ttdb. cbn [cstInfo]. destruct (repeat None _ !! i) as [o|] eqn:El; [|done].
  apply list_elem_of_lookup_2, list_elem_of_In, repeat_spec in El. by subst.
Qed.
Lemma fresh_ok h : ttdb_ok h fresh_ttdb.
Proof.
  split; [apply repeat_length..|done| |].
  - intros i p Ei. by rewrite fresh_none in Ei.
  - intros i j p Ei. by rewrite fresh_none in Ei.
Qed.

Lemma initTTIaccess_ok a b s err s' : tau_initTTIaccess a b (Some s) = (err, Some s') -> tti_ok s -> tti_ok s'.
Proof.
  intros E [H1 H2]. unfold tau_initTTIaccess in E.
  assert (Hh : forall p c, heap s !! p = Some c -> (p < S (allocated s))%nat) by (intros p c Ep; apply H1 in Ep; lia).
  destruct (pTTDB s) eqn:Et; [injection E as _ <-; split; [done|by rewrite Et]|].
  destruct (negb (memory _ _)); [injection E as _ <-; by split|].
  destruct (negb a); [injection E as _ <-; by split|]. destruct (negb b); [injection E as _ <-; by split|].
  injection E as _ <-. split; [done|]. cbn [pTTDB put_ttdb set_pTTDB heap].
  apply fresh_ok.
Qed.

Lemma deInitTTI_ok s s' : tau_deInitTTI (Some s) = Got s' -> tti_ok s -> tti_ok s'.
Proof.
  intros E Hok. unfold tau_deInitTTI in E. destruct (pTTDB s); [|by injection E as <-].
  destruct (the_ttdb s) as [t| |]; [|done|done]. rewrite bind_got in E. pose proof (drop_infos_holds (Z.to_nat (noOfCachedCst t)) 0 s) as Hd.
  destruct (drop_infos _ _ s) as [s1| |]; [|done|done]. rewrite bind_got in E. injection E as <-. destruct Hd as [Hd _].
  destruct (Hd Hok) as [H1 _]. split; done.
Qed.

(** The calls of an application, and the work loop with what it receives. *)
Inductive tti_call : tti -> tti -> Prop :=
| call_init a b s err s' : tau_initTTIaccess a b (Some s) = (err, Some s') -> tti_call s s'
| call_deInit s s' : tau_deInitTTI (Some s) = Got s' -> tti_call s s'
| call_process l s s' : deliver_all (depth_of s) l s = Got s' -> tti_call s s'
| call_getOpTrDirectory p q s err r s' : tau_getOpTrDirectory (Some s) p q = Got (err, r, Some s') -> tti_call s s'
| call_getOpTrnDirectoryStatusInfo p s err r s' : tau_getOpTrnDirectoryStatusInfo (Some s) p = Got (err, r, Some s') -> tti_call s s'
| call_getTrDirectory p s err r s' : tau_getTrDirectory (Some s) p = Got (err, r, Some s') -> tti_call s s'
| call_getStaticCstInfo p u s err r s' : tau_getStaticCstInfo (Some s) p u = Got (err, r, Some s') -> tti_call s s'
| call_getTTI p q x y s err r s' : tau_getTTI (Some s) p q x y = Got (err, r, Some s') -> tti_call s s'
| call_getTrnCstCnt p s err r s' : tau_getTrnCstCnt (Some s) p = Got (err, r, Some s') -> tti_call s s'
| call_getTrnVehCnt p s err r s' : tau_getTrnVehCnt (Some s) p = Got (err, r, Some s') -> tti_call s s'
| call_getCstVehCnt p l s err r s' : tau_getCstVehCnt (Some s) p l = Got (err, r, Some s') -> tti_call s s'
| call_getCstFctCnt p l s err r s' : tau_getCstFctCnt (Some s) p l = Got (err, r, Some s') -> tti_call s s'
| call_getCstFctInfo p l n s err r s' : tau_getCstFctInfo (Some s) p l n = Got (err, r, Some s') -> tti_call s s'
| call_getVehInfo p v l s err r s' : tau_getVehInfo (Some s) p v l = Got (err, r, Some s') -> tti_call s s'
| call_getCstInfo p l s err r s' : tau_getCstInfo (Some s) p l = Got (err, r, Some s') -> tti_call s s'
| call_getVehOrient p q v l s err r s' : tau_getVehOrient (Some s) p q v l = Got (err, r, Some s') -> tti_call s s'.

Lemma question_ok {A} s (m : dns (TRDP_ERR_T * option A * option tti)) err r s' :
  yields m (result_holds s) -> m = Got (err, r, Some s') -> tti_ok s -> tti_ok s'.
Proof. intros Hy -> Hok. by apply Hy. Qed.

Lemma tti_call_ok s s' : tti_call s s' -> tti_ok s -> tti_ok s'.
Proof.
  intros Hc Hok. destruct Hc; match goal with
    | E : tau_initTTIaccess _ _ _ = _ |- _ => by eapply initTTIaccess_ok; eassumption
    | E : tau_deInitTTI _ = _ |- _ => by eapply deInitTTI_ok; eassumption
    | E : deliver_all ?d ?l ?s = Got _ |- _ => pose proof (deliver_all_holds d l s) as Hd; rewrite E in Hd; by apply Hd
    | E : _ = Got (_, _, Some _) |- _ => eapply question_ok; [|exact E|exact Hok]; clear E
    end.
  - apply getOpTrDirectory_holds.
  - apply with_ttdb_holds. intros t. apply holds_refl.
  - apply getTrDirectory_holds.
  - apply getStaticCstInfo_holds.
  - apply with_ttdb_holds. intros t. apply holds_refl.
  - apply train_count_holds.
  - apply train_count_holds.
  - apply with_info_holds.
  - apply with_info_holds.
  - apply with_info_holds.
  - apply with_info_holds.
  - apply with_info_holds.
  - apply getVehOrient_holds.
Qed.

(** ** Telegrams that are stored inside *)

(** A telegram is as long as it counts: the operational train directory, whose vehicles have room in the directory too,
    the train directory, the train network directory. More than 63 consists are refused, whatever the length. *)
Definition op_dir_whole (data : list Z) : Prop := exists cnt, data !! opDir_opCstCnt = Some cnt /\
  (Z.of_nat TRDP_MAX_CST_CNT < cnt \/
   exists veh, let size := (8 + Z.to_nat cnt * sizeof_TRDP_OP_CONSIST_T)%nat in
     data !! (size + 3)%nat = Some veh /\ (size + 4 + (Z.to_nat veh * sizeof_TRDP_OP_VEHICLE_T + 4) <= length data)%nat
     /\ (Z.to_nat veh * sizeof_TRDP_OP_VEHICLE_T + 4 <= sizeof_TRDP_OP_TRAIN_DIR_T)%nat).
Definition train_dir_whole (data : list Z) : Prop := exists cnt, data !! trnDir_cstCnt = Some cnt /\
  (Z.of_nat TRDP_MAX_CST_CNT < cnt \/ (4 + Z.to_nat cnt * sizeof_TRDP_CONSIST_T + 4 <= length data)%nat).
Definition net_dir_whole (data : list Z) : Prop := (4 <= length data)%nat /\
  (Z.of_nat TRDP_MAX_CST_CNT < get16 netDir_entryCnt data
   \/ (4 + Z.to_nat (get16 netDir_entryCnt data) * sizeof_TRDP_TRAIN_NET_DIR_ENTRY_T + 4 <= length data)%nat).

Lemma inside_eq b off n : (off + n <= length b)%nat -> inside b off n = Got tt.
Proof. intros Hn. unfold inside. by rewrite (proj2 (Nat.leb_le _ _) Hn). Qed.
Lemma field_eq b off n : (off + n <= length b)%nat -> exists x, field b off n = Got x /\ length x = n.
Proof. intros Hn. unfold field. rewrite inside_eq by done. eexists. split; [done|]. by apply bget_length. Qed.
Lemma field8_eq b off c : b !! off = Some c -> field8 b off = Got c.
Proof. unfold field8. by intros ->. Qed.

Lemma storeOp_got data s t : the_ttdb s = Got t -> length (opTrnDir t) = sizeof_TRDP_OP_TRAIN_DIR_T -> op_dir_whole data -> got (ttiStoreOpTrnDir data s).
Proof.
  intros Et Hl (cnt & Ec & Hw). unfold ttiStoreOpTrnDir. rewrite (field8_eq _ _ _ Ec), bind_got. destruct (Z.ltb_spec (Z.of_nat TRDP_MAX_CST_CNT) cnt); [by eexists|].
  destruct Hw as [|(veh & Ev & Hd & Hv)]; [lia|]. rewrite Et, bind_got. cbv zeta.
  destruct (field_eq data 0 (8 + Z.to_nat cnt * sizeof_TRDP_OP_CONSIST_T)) as (consists & E1 & L1); [lia|]. rewrite E1, bind_got.
  rewrite copy_in_got by (rewrite L1, Hl; unfold TRDP_MAX_CST_CNT, sizeof_TRDP_OP_CONSIST_T, sizeof_TRDP_OP_TRAIN_DIR_T in *; lia).
  rewrite bind_got, (field8_eq _ _ _ Ev), bind_got.
  destruct (field_eq data (8 + Z.to_nat cnt * sizeof_TRDP_OP_CONSIST_T + 4) (Z.to_nat veh * sizeof_TRDP_OP_VEHICLE_T + 4)) as (vehicles & E2 & L2); [lia|].
  rewrite E2, bind_got, copy_in_got by (rewrite L2, bput_length, Hl; lia). by eexists.
Qed.
Lemma storeTrn_got data s t : the_ttdb s = Got t -> length (trnDir t) = sizeof_TRDP_TRAIN_DIR_T -> train_dir_whole data -> got (ttiStoreTrnDir data s).
Proof.
  intros Et Hl (cnt & Ec & Hw). unfold ttiStoreTrnDir. rewrite (field8_eq _ _ _ Ec), bind_got. destruct (Z.ltb_spec (Z.of_nat TRDP_MAX_CST_CNT) cnt); [by eexists|].
  destruct Hw as [|Hd]; [lia|]. rewrite Et, bind_got. cbv zeta.
  destruct (field_eq data 0 (4 + Z.to_nat cnt * sizeof_TRDP_CONSIST_T)) as (consists & E1 & L1); [lia|]. rewrite E1, bind_got.
  rewrite copy_in_got by (rewrite L1, Hl; unfold TRDP_MAX_CST_CNT, sizeof_TRDP_CONSIST_T, sizeof_TRDP_TRAIN_DIR_T in *; lia).
  rewrite bind_got, inside_eq by lia. by eexists.
Qed.
Lemma storeNet_got data s t : the_ttdb s = Got t -> length (trnNetDir t) = sizeof_TRDP_TRAIN_NET_DIR_T -> net_dir_whole data -> got (ttiStoreTrnNetDir data s).
Proof.
  intros Et Hl (H4 & Hw). unfold ttiStoreTrnNetDir. rewrite Et, bind_got.
  rewrite (inside_eq data netDir_entryCnt 2) by (unfold netDir_entryCnt; lia). rewrite bind_got. cbv zeta.
  destruct (Z.ltb_spec (Z.of_nat TRDP_MAX_CST_CNT) (get16 netDir_entryCnt data)); [by eexists|]. destruct Hw as [|Hd]; [lia|].
  set (cnt := Z.to_nat (get16 netDir_entryCnt data)) in *. assert (Hc : (cnt <= TRDP_MAX_CST_CNT)%nat) by lia. clearbody cnt.
  destruct (field_eq data 0 (cnt * sizeof_TRDP_TRAIN_NET_DIR_ENTRY_T)) as (entries & E1 & L1); [lia|]. rewrite E1, bind_got.
  rewrite copy_in_got by (rewrite L1, put16le_length, bput_length, Hl;
    unfold TRDP_MAX_CST_CNT, netDir_trnNetDir, sizeof_TRDP_TRAIN_NET_DIR_ENTRY_T, sizeof_TRDP_TRAIN_NET_DIR_T in *; lia).
  rewrite bind_got, inside_eq by lia. by eexists.
Qed.
Lemma pd_got u m s t : the_ttdb s = Got t -> length (opTrnState t) = sizeof_TRDP_OP_TRAIN_DIR_STATUS_INFO_T -> (52 <= length (pData m))%nat -> got (ttiPDCallback u m s).
Proof.
  intros Et Hl Hd. unfold ttiPDCallback. destruct (negb _); [by eexists|]. destruct (_ && _); [|destruct (resultCode m); by eexists].
  destruct (field_eq (pData m) 0 sizeof_TRDP_OP_TRAIN_DIR_STATE_T) as (state & E1 & L1); [unfold sizeof_TRDP_OP_TRAIN_DIR_STATE_T; lia|].
  rewrite E1, bind_got. cbv zeta. destruct (negb _); [by eexists|]. rewrite Et, bind_got, inside_eq, bind_got by (unfold status_etbTopoCnt; lia).
  rewrite copy_in_got by (rewrite L1, Hl; unfold sizeof_TRDP_OP_TRAIN_DIR_STATE_T, sizeof_TRDP_OP_TRAIN_DIR_STATUS_INFO_T; lia). by eexists.
Qed.

(** C33: In every run of the calls of an application and of the work loop with telegrams that are processed without leaving
    an array: the directories keep their size, and each pointer of the cache leads to a block of its own, as long as its
    entry says, which was not given back. And a directory or a state that arrives is stored without leaving its place or
    the telegram when the telegram is as long as it counts, also where it counts more consists than there is room for;
    of the vehicles, whose number the program does not look at, there must be room for those that are counted. *)
Theorem tti_cache_invariant s s' : rtc tti_call s s' -> tti_ok s ->
  tti_ok s' /\
  forall t data, the_ttdb s' = Got t ->
    (op_dir_whole data -> got (ttiStoreOpTrnDir data s')) /\ (train_dir_whole data -> got (ttiStoreTrnDir data s'))
    /\ (net_dir_whole data -> got (ttiStoreTrnNetDir data s'))
    /\ forall u m, pData m = data -> (52 <= length data)%nat -> got (ttiPDCallback u m s').
Proof.
  intros Hrun Hok. assert (Hok' : tti_ok s'). { induction Hrun as [|s1 s2 s3 Hc _ IH]; [done|]. apply IH. by eapply tti_call_ok. }
  split; [done|]. intros t data Et. destruct (ttdb_of s' t Hok' Et) as [L1 L2 L3 L4 _ _ _ _ _].
  split_and!; [by eapply storeOp_got|by eapply storeTrn_got|by eapply storeNet_got|]. intros u m <- Hl. by eapply pd_got.
Qed.

(** ** Nesting *)
Lemma bind_agree (m : dns tti) (f g : tti -> dns tti) : (forall a, m = Got a -> f a = g a) -> (m ≫= f) = (m ≫= g).
Proof. intros Hfg. destruct m; cbn; auto. Qed.

(** Two ways to deliver that agree where fewer than [n] rounds are left, or nothing is delivered. *)
Definition agree (n : nat) (d1 d2 : list delivery -> tti -> dns tti) : Prop :=
  forall l s, (length (script s) < n)%nat \/ l = [] -> d1 l s = d2 l s.

Section Agree.
Variables (d1 d2 : list delivery -> tti -> dns tti) (n : nat).
Hypotheses (Hd : forall l s, yields (d1 l s) (holds s)) (Ha : agree n d1 d2).

Lemma request_agree c u s : (length (script s) <= n)%nat -> ttiRequestTTDBdata d1 c u s = ttiRequestTTDBdata d2 c u s.
Proof.
  intros Hn. unfold ttiRequestTTDBdata. apply bind_agree. intros s' E. apply Ha.
  destruct (script s) as [|r rest] eqn:Es; [by right|]. left. cbn [length] in Hn.
  assert (Es' : script s' = rest); [|by rewrite Es'].
  destruct (request_of c u) as [[[uri timeout] data]|]; [|by injection E as <-].
  pose proof (ipFromURI_same (hd quiet_round (r :: rest)) uri (set_script rest s)) as Hi.
  cbn [tl] in E. destruct (ipFromURI _ uri _) as [[ip s1]| |]; [|done|done]. rewrite bind_got in E. injection E as <-. by destruct Hi as (_ & _ & _ & Hi & _).
Qed.

Lemma request_infos_agree rest : forall i s, (length (script s) <= n)%nat -> request_infos d1 rest i s = request_infos d2 rest i s.
Proof.
  induction rest as [|rest IH]; intros i s Hn; [done|]. cbn [request_infos]. destruct (the_ttdb s) as [t| |]; [|done|done]. rewrite !bind_got.
  destruct (_ =? _); [done|]. rewrite request_agree by done. apply bind_agree. intros s' E. apply IH.
  pose proof (ttiRequestTTDBdata_holds d1 Hd TTDB_STAT_CST_REQ_COMID (Some (bget (trnDir_cstList + sizeof_TRDP_CONSIST_T * i) sizeof_TRDP_UUID_T (trnDir t))) s) as Hr.
  rewrite request_agree, E in Hr by done. apply holds_length in Hr. lia.
Qed.

Lemma callback_agree d s : (length (script s) <= n)%nat -> callback d1 d s = callback d2 d s.
Proof.
  intros Hn. destruct d as [u m|r m]; [done|]. cbn [callback]. unfold ttiMDCallback. cbv zeta.
  destruct (_ || _); [done|]. destruct (_ =? _); [|done]. destruct (_ && _); [|done].
  apply bind_agree. intros s1 E1. apply bind_agree. intros s2 E2. apply request_infos_agree.
  pose proof (ttiStoreTrnDir_holds (pData m) s) as K1. rewrite E1 in K1. pose proof (drop_infos_holds TTI_CACHED_CONSISTS 0 s1) as K2. rewrite E2 in K2.
  apply holds_length in K1, K2. lia.
Qed.
End Agree.

Lemma deliver_all_agree k1 : forall k2 l s, (length (script s) < k1)%nat -> (length (script s) < k2)%nat -> deliver_all k1 l s = deliver_all k2 l s.
Proof.
  induction k1 as [|k1 IH]; intros [|k2] [|d l] s H1 H2; try lia; [reflexivity|]. cbn [deliver_all].
  assert (Ha : agree (length (script s)) (deliver_all k1) (deliver_all k2)).
  { intros l' s' [Hl | ->]; [apply IH; lia|destruct k1, k2; reflexivity]. }
  assert (Hf : forall l m, yields m (holds s) -> foldl (fun m d => s ← m; callback (deliver_all k1) d s) m l
                                             = foldl (fun m d => s ← m; callback (deliver_all k2) d s) m l).
  { clear l d. induction l as [|d l IHl]; intros m Hm; [cbn [foldl]; reflexivity|]. cbn [foldl].
    assert (E : (s ← m; callback (deliver_all k1) d s) = (s ← m; callback (deliver_all k2) d s)).
    { apply bind_agree. intros s' ->. apply (callback_agree _ _ _ (deliver_all_holds k1) Ha). by apply holds_length. }
    rewrite <- E. apply IHl. apply holds_bind; [done|]. intros s'. apply callback_holds. apply deliver_all_holds. }
  apply Hf. apply holds_refl.
Qed.

(** ** Ending *)
Definition ends {A} (m : dns A) : Prop := m <> Hangs.
Lemma ends_bind {A B} (m : dns A) (f : A -> dns B) : ends m -> (forall a, m = Got a -> ends (f a)) -> ends (m ≫= f).
Proof. unfold ends. intros Hm Hf. destruct m; cbn; auto. Qed.
Lemma field8_ends b off : ends (field8 b off).
Proof. unfold field8. by destruct (b !! off). Qed.
Lemma inside_ends b off n : ends (inside b off n).
Proof. unfold inside. by destruct (_ <=? _)%nat. Qed.
Lemma field_ends b off n : ends (field b off n).
Proof. apply ends_bind; [apply inside_ends|done]. Qed.
Lemma copy_in_ends off bs b : ends (copy_in off bs b).
Proof. unfold copy_in. by destruct (_ <=? _)%nat. Qed.
Lemma the_ttdb_ends s : ends (the_ttdb s).
Proof. unfold the_ttdb. by destruct (pTTDB s) as [[?|]|]. Qed.
Lemma block_ends s p : ends (block s p).
Proof. unfold block. by destruct (heap s !! p). Qed.
Create HintDb ends.
#[local] Hint Resolve copy_in_ends field8_ends inside_ends field_ends the_ttdb_ends block_ends : ends.
Ltac ends := repeat (first [done | solve [auto 2 with ends] | apply ends_bind; [|intros] | case_match]).

Lemma find_own_ends rest : forall i d own data, ends (own_cst_loop rest i d own data).
Proof. induction rest as [|rest IH]; intros; cbn [own_cst_loop]; ends. Qed.
Lemma loaded_ends rest : forall i data s, ends (loaded_loop rest i data s).
Proof. induction rest as [|rest IH]; intros; cbn [loaded_loop]; ends. Qed.
Lemma drop_info_ends i s : ends (drop_info i s).
Proof. unfold drop_info. ends. Qed.
#[local] Hint Resolve find_own_ends loaded_ends drop_info_ends : ends.
Lemma storeOp_ends data s : ends (ttiStoreOpTrnDir data s).
Proof. unfold ttiStoreOpTrnDir. ends. Qed.
Lemma storeTrn_ends data s : ends (ttiStoreTrnDir data s).
Proof. unfold ttiStoreTrnDir. ends. Qed.
Lemma storeNet_ends data s : ends (ttiStoreTrnNetDir data s).
Proof. unfold ttiStoreTrnNetDir. ends. Qed.
Lemma storeInfo_ends data s : ends (ttiStoreCstInfo data s).
Proof. unfold ttiStoreCstInfo, ttiIsOwnCstInfo. ends. Qed.
Lemma pd_ends u m s : ends (ttiPDCallback u m s).
Proof. unfold ttiPDCallback. ends. Qed.
Lemma drops_end rest : forall i s, ends (drop_infos rest i s).
Proof. induction rest as [|rest IH]; intros; cbn [drop_infos]; ends. Qed.
#[local] Hint Resolve storeOp_ends storeTrn_ends storeNet_ends storeInfo_ends pd_ends drops_end : ends.

(** The resolver finds an end for every name. *)
Definition round_ends (r : process_round) : Prop := forall uri s, ends (ipFromURI r uri s).

Definition rounds_end (s : tti) : Prop := Forall round_ends (script s).

Lemma quiet_ends : round_ends quiet_round.
Proof.
  intros uri s. unfold ipFromURI, tau_uri2Addr. cbn [negb first_try second_try quiet_round handle_id]. apply ends_bind; [|intros [[err addr] a] _; done].
  destruct (negb _); [done|]. destruct (pUser (app s)) as [d|]; [|done]. apply ends_bind; [|intros [[err addr] d'] _; done].
  cbn [resolve silent on_dns on_tcn]. unfold updateDNSentry, updateTCNDNSentry. cbn [sock_opened sema_created negb].
  destruct (_ ≫= _); [done|]. destruct (negb _); rewrite bind_got; (destruct (_ ≫= _); [done|]); by destruct (negb _).
Qed.

Lemma rounds_end_later s s' : holds s s' -> rounds_end s -> rounds_end s'.
Proof. intros [_ [k E]] Hs. unfold rounds_end in *. rewrite E in Hs. by apply Forall_app in Hs as [_ Hs]. Qed.

Section Ends.
Variables (d : list delivery -> tti -> dns tti) (n : nat).
Hypotheses (Hd : forall l s, yields (d l s) (holds s))
  (He : forall l s, rounds_end s -> (length (script s) < n)%nat \/ l = [] -> ends (d l s)).

Lemma request_ends c u s : rounds_end s -> (length (script s) <= n)%nat -> ends (ttiRequestTTDBdata d c u s).
Proof.
  intros Hs Hn. unfold ttiRequestTTDBdata. set (r := hd quiet_round (script s)).
  assert (Hr : round_ends r) by (unfold r; destruct (script s) eqn:E; [apply quiet_ends|unfold rounds_end in Hs; rewrite E in Hs; by inversion Hs]).
  apply ends_bind; [destruct (request_of c u) as [[[uri timeout] data]|]; [apply ends_bind; [apply Hr|]; intros [ip s'] _|]; done|].
  intros s' E.
  assert (Es' : script s' = tl (script s)).
  { destruct (request_of c u) as [[[uri timeout] data]|]; [|by injection E as <-].
    pose proof (ipFromURI_same r uri (set_script (tl (script s)) s)) as Hi. destruct (ipFromURI _ uri _) as [[ip s1]| |]; [|done|done].
    rewrite bind_got in E. injection E as <-. by destruct Hi as (_ & _ & _ & Hi & _). }
  unfold rounds_end in Hs. apply He; [unfold rounds_end; rewrite Es'; clear - Hs; destruct (script s); [done|by inversion_clear Hs]|]. rewrite Es'.
  unfold r. destruct (script s); [by right|left; cbn [length tl] in *; lia].
Qed.

Lemma request_infos_end rest : forall i s, rounds_end s -> (length (script s) <= n)%nat -> ends (request_infos d rest i s).
Proof.
  induction rest as [|rest IH]; intros i s Hs Hn; [done|]. cbn [request_infos]. apply ends_bind; [apply the_ttdb_ends|]. intros t _.
  destruct (_ =? _); [done|]. apply ends_bind; [by apply request_ends|]. intros s' E.
  pose proof (ttiRequestTTDBdata_holds d Hd TTDB_STAT_CST_REQ_COMID (Some (bget (trnDir_cstList + sizeof_TRDP_CONSIST_T * i) sizeof_TRDP_UUID_T (trnDir t))) s) as Hr.
  rewrite E in Hr. apply IH; [by eapply rounds_end_later|]. apply holds_length in Hr. lia.
Qed.

Lemma callback_ends x s : rounds_end s -> (length (script s) <= n)%nat -> ends (callback d x s).
Proof.
  intros Hs Hn. destruct x as [u m|r m]; [apply pd_ends|]. cbn [callback]. unfold ttiMDCallback. cbv zeta.
  destruct (_ || _); [ends|]. destruct (_ =? _); [|unfold store_complete; ends]. destruct (_ && _); [|done].
  apply ends_bind; [apply storeTrn_ends|]. intros s1 E1. apply ends_bind; [apply drops_end|]. intros s2 E2.
  pose proof (ttiStoreTrnDir_holds (pData m) s) as K1. rewrite E1 in K1. pose proof (drop_infos_holds TTI_CACHED_CONSISTS 0 s1) as K2. rewrite E2 in K2.
  pose proof (holds_trans _ _ _ K1 K2) as K. apply request_infos_end; [by eapply rounds_end_later|]. apply holds_length in K. lia.
Qed.
End Ends.

Lemma deliver_all_ends k : forall l s, rounds_end s -> (length (script s) < k)%nat \/ l = [] -> ends (deliver_all k l s).
Proof.
  induction k as [|k IH]; intros [|x l] s Hs Hk; try (destruct Hk; [lia|done]); try done. destruct Hk as [Hk|]; [|done]. cbn [deliver_all].
  assert (Hf : forall l m, ends m -> yields m (holds s) -> ends (foldl (fun m d => s ← m; callback (deliver_all k) d s) m l)).
  { clear l x. induction l as [|x l IHl]; intros m Hm Hy; [exact Hm|]. cbn [foldl]. apply IHl.
    - apply ends_bind; [done|]. intros s' ->. cbn in Hy. apply (callback_ends _ k (deliver_all_holds k) IH); [by eapply rounds_end_later|].
      apply holds_length in Hy. lia.
    - apply holds_bind; [done|]. intros s'. apply callback_holds. apply deliver_all_holds. }
  apply Hf; [done|apply holds_refl].
Qed.

(** However the telegrams lead to requests, and these to further telegrams: where the resolver finds an end for each
    name, delivering ends, at the depth the interface uses. *)
Theorem tti_deliveries_end l s : rounds_end s -> deliver_all (depth_of s) l s <> Hangs.
Proof. intros Hs. apply deliver_all_ends; [done|]. left. unfold depth_of. lia. Qed.

(** A greater depth does not change the result. *)
Lemma deliver_all_depth l s depth : (depth_of s <= depth)%nat -> deliver_all depth l s = deliver_all (depth_of s) l s.
Proof. intros Hd. apply deliver_all_agree; unfold depth_of in *; lia. Qed.
End Steps.

(** ** An example: a session is started, the infos of two consists arrive, and the application asks *)
Definition demo_idle : tti := mkTti (demo_app TRDP_DNR_STANDARD_DNS) None ∅ (fun _ => true) 0 [] [].
Definition demo_tti : tti := mkTti (demo_app TRDP_DNR_STANDARD_DNS) (Some (Some fresh_ttdb)) ∅ (fun _ => true) 0 [] [].
Definition demo_info (n : Z) : delivery := Md_delivered true (mkMsg TTDB_STAT_CST_REP_COMID TRDP_NO_ERR (repeat n 152)).
Definition demo_started : tti := default demo_idle (snd (tau_initTTIaccess true true (Some demo_idle))).
Definition demo_process (l : list delivery) (s : tti) : tti := match deliver_all (depth_of s) l s with Got s' => s' | _ => s end.

Definition demo_train_dir : list Z := [1; 0; 0; 1] ++ repeat 1 24 ++ be_bytes 4 7.
Lemma tti_cache_invariant_witness (s := demo_process [demo_info 1; demo_info 2] demo_started) :
  tti_ok s /\ (exists t, the_ttdb s = Got t /\ info_ptr t 1 = Some 2%nat) /\ heap s !! 2%nat = Some (repeat 2 152)
  /\ got (ttiStoreTrnDir demo_train_dir s) /\ got (ttiStoreTrnDir (repeat 255 1520) s).
Proof.
  assert (Hr : rtc tti_call demo_idle s).
  { eapply rtc_l; [|eapply rtc_l; [|apply rtc_refl]].
    + exact (call_init true true demo_idle TRDP_NO_ERR demo_started eq_refl).
    + apply (call_process [demo_info 1; demo_info 2]). vm_compute. reflexivity. }
  assert (H0 : tti_ok demo_idle) by (split; [intros p b E; discriminate E|exact I]).
  destruct (tti_cache_invariant demo_idle s Hr H0) as [Hok Hst].
  assert (Ht : exists t, the_ttdb s = Got t /\ info_ptr t 1 = Some 2%nat) by (eexists; split; vm_compute; reflexivity).
  split; [exact Hok|]. split; [exact Ht|]. split; [vm_compute; reflexivity|]. destruct Ht as (t & Et & _). split; apply (Hst t); try exact Et.
  - exists 1. split; [reflexivity|]. right. vm_compute. lia.
  - exists 255. split; [reflexivity|]. left. vm_compute. reflexivity.
Defined.

(** A train directory whose consist is asked for, in a session with one round left. *)
Lemma tti_deliveries_end_witness
  (l := [Md_delivered true (mkMsg TTDB_TRN_DIR_REP_COMID TRDP_NO_ERR ([1; 0; 0; 1] ++ repeat 1 24 ++ be_bytes 4 7))]) (s := set_script [quiet_round] demo_tti) :
  deliver_all (depth_of s) l s <> Hangs.
Proof. apply (tti_deliveries_end l s). constructor; [exact quiet_ends|constructor]. Defined.
