(* ===== verification/TauTtiDir.v ===== *)
(** * The directories of the train

    What the telegrams of the train topology database leave in the session, and what the functions of [TauTti]
    answer from it; and where the program does not store what it was told. *)
From Stdlib Require Import String.
From stdpp Require Import gmap.
From S2P Require Import Prelude Bytes VosCrc VosString TrdpTypes TauDnrName TauDnr TauTti TauTtiInv.

(** ** Reading at a place *)
Lemma inside_got b off n : (off + n <= length b)%nat -> inside b off n = Got tt.
Proof. intros Hn. unfold inside. by rewrite (proj2 (Nat.leb_le _ _) Hn). Qed.
Lemma field_got b off n : (off + n <= length b)%nat -> field b off n = Got (bget off n b).
Proof. intros Hn. unfold field. by rewrite inside_got. Qed.
Lemma field8_got b off c : b !! off = Some c -> field8 b off = Got c.
Proof. unfold field8. by intros ->. Qed.

Lemma bget_bget off n off' n' b : (off' + n' <= n)%nat -> bget off' n' (bget off n b) = bget (off + off') n' b.
Proof.
  intros Hn. apply list_eq. intros i. rewrite !lookup_bget. destruct (Nat.ltb_spec i n'); [|done].
  rewrite (proj2 (Nat.ltb_lt (off' + i) n)) by lia. f_equal. lia.
Qed.
Lemma get32_bget off n off' b : (off' + 4 <= n)%nat -> get32 off' (bget off n b) = get32 (off + off') b.
Proof. intros Hn. unfold get32. by rewrite bget_bget. Qed.

Lemma cleared_bytes n : bytes (repeat 0 n).
Proof. induction n; constructor; [done|done]. Qed.

Lemma cleared_get32le o n : get32le o (repeat 0 n) = 0.
Proof.
  assert (Hz : forall l, Forall (eq 0) l -> be_value l = 0) by (induction 1 as [|b l <- _ IH]; [done|rewrite be_value_cons; lia]).
  apply Hz. apply Forall_rev. apply Forall_take, Forall_drop. induction n; by constructor.
Qed.

(** The record [i] of a list of records of the same size. *)
Lemma concat_record {A} (f : A -> list Z) n l i x off k : (forall a, a ∈ l -> length (f a) = n) -> l !! i = Some x -> (off + k <= n)%nat ->
  bget (n * i + off) k (concat (map f l)) = bget off k (f x).
Proof.
  revert i. induction l as [|a l IH]; intros [|i] Hn E Hk; try done.
  - injection E as ->. rewrite Nat.mul_0_r. cbn [map concat Nat.add]. apply list_eq. intros j. rewrite !lookup_bget. destruct (Nat.ltb_spec j k); [|done].
    apply lookup_app_l. rewrite Hn by (by left). lia.
  - cbn [map concat]. rewrite <- (IH i) by (try done; intros; apply Hn; by right). apply list_eq. intros j. rewrite !lookup_bget.
    destruct (Nat.ltb_spec j k); [|done]. rewrite lookup_app_r by (rewrite Hn by (by left); nia). f_equal. rewrite Hn by (by left). nia.
Qed.
Lemma concat_length {A} (f : A -> list Z) n l : (forall a, a ∈ l -> length (f a) = n) -> length (concat (map f l)) = (n * length l)%nat.
Proof.
  induction l as [|a l IH]; intros Hn; [cbn; lia|]. cbn [map concat length]. rewrite length_app, IH, Hn by (try (by left); intros; apply Hn; by right). lia.
Qed.

(** ** Numbers brought to the order of the host *)
Lemma get32le_put32le_other off off' v b : (off + 4 <= off' \/ off' + 4 <= off)%nat -> get32le off (put32le off' v b) = get32le off b.
Proof. intros Ho. unfold get32le, put32le. rewrite bget_bput_other; [done|]. rewrite length_rev, be_bytes_length. lia. Qed.

Lemma bget_put32le_other off n off' v b : (off + n <= off' \/ off' + 4 <= off)%nat -> bget off n (put32le off' v b) = bget off n b.
Proof. intros Ho. unfold put32le. apply bget_bput_other. rewrite length_rev, be_bytes_length. lia. Qed.

Lemma get32_put32le_other off off' v b : (off + 4 <= off' \/ off' + 4 <= off)%nat -> get32 off (put32le off' v b) = get32 off b.
Proof. intros Ho. unfold get32. by rewrite bget_put32le_other. Qed.

Lemma get32le_put off v b : (off + 4 <= length b)%nat -> 0 <= v < 2 ^ 32 -> get32le off (put32le off v b) = v.
Proof. intros Ho Hv. rewrite get32le_put32le by done. by apply u32_small. Qed.

Lemma swap_fields_other cnt : forall off step b o n, (o + n <= off)%nat \/ (off + step * cnt <= o + step - 4 /\ 4 <= step)%nat \/ cnt = 0%nat ->
  bget o n (swap_fields cnt off step b) = bget o n b.
Proof.
  induction cnt as [|cnt IH]; intros off step b o n Ho; [done|]. cbn [swap_fields]. rewrite IH by nia. apply bget_put32le_other. nia.
Qed.

Lemma swap_fields_between cnt : forall off step b i o n, (i < cnt)%nat -> (off + step * i + 4 <= o)%nat -> (o + n <= off + step * S i)%nat ->
  bget o n (swap_fields cnt off step b) = bget o n b.
Proof.
  induction cnt as [|cnt IH]; intros off step b i o n Hi H1 H2; [lia|]. cbn [swap_fields]. destruct i as [|i].
  - rewrite swap_fields_other by nia. apply bget_put32le_other. nia.
  - rewrite (IH _ _ _ i) by nia. apply bget_put32le_other. nia.
Qed.

Lemma swap_fields_at cnt : forall off step b i, bytes b -> (4 <= step)%nat -> (i < cnt)%nat -> (off + step * i + 4 <= length b)%nat ->
  get32le (off + step * i) (swap_fields cnt off step b) = get32 (off + step * i) b.
Proof.
  induction cnt as [|cnt IH]; intros off step b i Hb Hs Hi Hl; [lia|]. cbn [swap_fields]. destruct i as [|i].
  - rewrite Nat.mul_0_r, Nat.add_0_r in *. unfold get32le. rewrite swap_fields_other by nia. fold (get32le off (put32le off (get32 off b) b)).
    apply get32le_put; [done|]. by apply get32_range.
  - replace (off + step * S i)%nat with (off + step + step * i)%nat in * by lia. rewrite IH by (autorewrite with buf; auto with cint; lia).
    apply get32_put32le_other. nia.
Qed.

Section Dir.
Context `{Libc}.

(** ** The state of the operational train *)

(** [head]: the fields in front of the counter; [tail]: those behind the topography counter. *)
Definition status_telegram (head : list Z) (op etb : Z) (tail : list Z) : list Z :=
  (head ++ be_bytes 4 op) ++ be_bytes 4 (vos_sc32 0xFFFFFFFF (head ++ be_bytes 4 op)) ++ be_bytes 4 etb ++ tail.

Lemma status_read head op etb tail (data := status_telegram head op etb tail) : length head = 40%nat -> bytes head ->
  0 <= op < 4294967296 -> 0 <= etb < 4294967296 ->
  (52 <= length data)%nat /\ bget 0 44 data = head ++ be_bytes 4 op
  /\ get32 state_crc data = vos_sc32 0xFFFFFFFF (head ++ be_bytes 4 op) /\ get32 state_opTrnTopoCnt data = op /\ get32 status_etbTopoCnt data = etb.
Proof.
  intros Hh Hb Hop Hetb. set (crc := vos_sc32 0xFFFFFFFF (head ++ be_bytes 4 op)).
  assert (Hc : 0 <= crc < 4294967296) by (apply vos_sc32_range; [lia|]; apply Forall_app; split; [done|apply be_bytes_bytes]).
  assert (Hat : at_pos data 0 data) by (pose proof (at_pos_here [] data []) as Hp; by rewrite app_nil_r in Hp).
  unfold data at 2, status_telegram in Hat. fold crc in Hat. rewrite !at_pos_app, !length_app, !be_bytes_length, Hh in Hat.
  cbn [Nat.add] in Hat. destruct Hat as ((H0 & H1) & H2 & H3 & _).
  split; [unfold data, status_telegram; rewrite !length_app, !be_bytes_length, Hh; lia|].
  unfold state_crc, state_opTrnTopoCnt, status_etbTopoCnt. split; [|by split; [apply at_pos_get32|split; apply at_pos_get32]].
  replace 44%nat with (length (head ++ be_bytes 4 op)) by (rewrite length_app, be_bytes_length, Hh; done).
  apply at_pos_bget. apply at_pos_app. rewrite Hh. done.
Qed.

(** A telegram with the state of the operational train, of process data: the session takes both its topography counters,
    the semaphore is given if one of them changed, and the state is answered with them in the order of the host. *)
Theorem status_telegram_taken u head op etb tail s t (data := status_telegram head op etb tail) :
  the_ttdb s = Got t -> length (opTrnState t) = sizeof_TRDP_OP_TRAIN_DIR_STATUS_INFO_T -> (length tail <= 20)%nat ->
  length head = 40%nat -> bytes head -> 0 <= op < 4294967296 -> 0 <= etb < 4294967296 ->
  exists s' b, ttiPDCallback u (mkMsg TTDB_STATUS_COMID TRDP_NO_ERR data) s = Got s'
    /\ etb_of s' = etb /\ op_of s' = op
    /\ log s' = log s ++ (if (negb (etb_of s =? etb) || negb (op_of s =? op)) && u then [Sema_given] else [])
    /\ tau_getOpTrnDirectoryStatusInfo (Some s') true = Got (TRDP_NO_ERR, Some b, Some s')
    /\ bget 0 40 b = head /\ get32le state_opTrnTopoCnt b = op /\ get32le status_etbTopoCnt b = etb.
Proof.
  intros Et Hlt Hta Hh Hb Hop Hetb. destruct (status_read head op etb tail Hh Hb Hop Hetb) as (Hl & Hhead & Hcrc & Ho & He). fold data in Hl, Hhead, Hcrc, Ho, He.
  assert (Hl' : (length data <= 72)%nat) by (unfold data, status_telegram; rewrite !length_app, !be_bytes_length, Hh; lia).
  set (b := put32le state_crc (get32 state_crc data) (put32le state_opTrnTopoCnt op (put32le status_etbTopoCnt etb (bput 0 (bget 0 sizeof_TRDP_OP_TRAIN_DIR_STATE_T data) (opTrnState t))))).
  set (s1 := put_ttdb (set_opTrnState b t) s).
  set (s2 := if negb (etb_of s =? etb) then set_etb etb s1 else s1). set (s3 := if negb (op_of s =? op) then set_op op s2 else s2).
  set (s4 := if (negb (etb_of s =? etb) || negb (op_of s =? op)) && u then emit Sema_given s3 else s3).
  assert (E : ttiPDCallback u (mkMsg TTDB_STATUS_COMID TRDP_NO_ERR data) s = Got s4).
  { unfold ttiPDCallback. cbn [msg_comId resultCode pData is_ok]. rewrite Z.eqb_refl. cbn [negb andb].
    rewrite (proj2 (Nat.leb_le _ _)) by (unfold sizeof_TRDP_OP_TRAIN_DIR_STATUS_INFO_T; lia).
    rewrite field_got by (unfold sizeof_TRDP_OP_TRAIN_DIR_STATE_T; lia). rewrite bind_got. cbv zeta.
    replace (take (sizeof_TRDP_OP_TRAIN_DIR_STATE_T - 4) (bget 0 sizeof_TRDP_OP_TRAIN_DIR_STATE_T data)) with (bget 0 44 data)
      by (unfold bget; cbn [drop sizeof_TRDP_OP_TRAIN_DIR_STATE_T Nat.sub]; by rewrite take_take).
    rewrite Hhead, Hcrc, Z.eqb_refl. cbn [negb]. rewrite Et, bind_got, inside_got by (unfold status_etbTopoCnt; lia). rewrite bind_got. rewrite He, Ho.
    rewrite copy_in_got by (rewrite bget_length, Hlt by (unfold sizeof_TRDP_OP_TRAIN_DIR_STATE_T; lia);
      unfold sizeof_TRDP_OP_TRAIN_DIR_STATE_T, sizeof_TRDP_OP_TRAIN_DIR_STATUS_INFO_T; lia). rewrite bind_got.
    rewrite <- Hcrc. fold b s1. change (etb_of s1) with (etb_of s). fold s2.
    replace (op_of s2) with (op_of s) by (unfold s2; by destruct (negb _)). fold s3. reflexivity. }
  assert (Hs : forall x, pTTDB (if (negb (etb_of s =? etb) || negb (op_of s =? op)) && u then emit Sema_given x else x) = pTTDB x) by (intros; by destruct (_ && u)).
  assert (Hp : pTTDB s4 = Some (Some (set_opTrnState b t))) by (unfold s4; rewrite Hs; unfold s3, s2; by destruct (negb _), (negb _)).
  assert (Hlb : length (opTrnState t) = 72%nat) by exact Hlt.
  exists s4, b. split; [exact E|]. repeat split.
  - unfold s4, s3, s2. destruct (Z.eqb_spec (etb_of s) etb); destruct (negb (op_of s =? op)); cbn [negb orb andb]; destruct u; done.
  - unfold s4, s3, s2. destruct (Z.eqb_spec (op_of s) op); destruct (negb (etb_of s =? etb)); cbn [negb orb andb]; destruct u; done.
  - unfold s4, s3, s2. destruct (negb (etb_of s =? etb)), (negb (op_of s =? op)), u; cbn; by rewrite ?app_nil_r.
  - unfold tau_getOpTrnDirectoryStatusInfo, with_ttdb, the_ttdb. by rewrite Hp.
  - unfold b, sizeof_TRDP_OP_TRAIN_DIR_STATE_T, state_crc, state_opTrnTopoCnt, status_etbTopoCnt. rewrite !bget_put32le_other by lia. rewrite bget_bput_prefix by (rewrite ?bget_length; lia).
    rewrite bget_bget by lia. rewrite <- (bget_bget 0 44 0 40) by lia. rewrite Hhead. unfold bget. cbn [drop]. apply take_app_length'. done.
  - unfold b, state_crc, state_opTrnTopoCnt, status_etbTopoCnt. rewrite get32le_put32le_other by lia. apply get32le_put; [|lia].
    rewrite put32le_length, bput_length. lia.
  - unfold b, state_crc, state_opTrnTopoCnt, status_etbTopoCnt. rewrite !get32le_put32le_other by lia. apply get32le_put; [|lia].
    rewrite bput_length. lia.
Qed.

(** With a wrong checksum nothing is stored, and the session has no counter of an operational train any more; when the
    telegram stays out, it has no counter at all. *)
Theorem status_telegram_refused u m s : msg_comId m = TTDB_STATUS_COMID ->
  (resultCode m = TRDP_NO_ERR -> (sizeof_TRDP_OP_TRAIN_DIR_STATE_T <= length (pData m) <= sizeof_TRDP_OP_TRAIN_DIR_STATUS_INFO_T)%nat ->
   vos_sc32 0xFFFFFFFF (take 44 (pData m)) <> get32 state_crc (pData m) -> ttiPDCallback u m s = Got (set_op 0 s))
  /\ (resultCode m = TRDP_TIMEOUT_ERR -> exists s', ttiPDCallback u m s = Got s' /\ etb_of s' = 0 /\ op_of s' = 0 /\ pTTDB s' = pTTDB s).
Proof.
  intros Hc. unfold ttiPDCallback. rewrite Hc, Z.eqb_refl. cbn [negb]. split.
  - intros -> [H1 H2] Hne. cbn [is_ok andb]. rewrite (proj2 (Nat.leb_le _ _) H2), field_got, bind_got by exact H1. cbv zeta.
    replace (take _ (bget 0 _ (pData m))) with (take 44 (pData m)) by (unfold bget; cbn [drop sizeof_TRDP_OP_TRAIN_DIR_STATE_T Nat.sub]; by rewrite take_take).
    by rewrite (proj2 (Z.eqb_neq _ _) Hne).
  - intros ->. cbn [is_ok andb]. eexists. split; [reflexivity|].
    unfold op_of, etb_of. destruct (Z.eqb_spec (s_etbTopoCnt (session (app s))) 0) as [Ee|Ee]; cbn [negb];
      destruct (Z.eqb_spec (s_opTrnTopoCnt (session (app s))) 0) as [Eo|Eo]; destruct u; cbn; rewrite ?Eo; cbn; auto.
    all: rewrite (proj2 (Z.eqb_neq _ _) Eo); cbn; auto.
Qed.

(** ** The train directory *)

(** A consist of the directory: its UUID, its topography counter, and its number, orientation and reserved bytes. *)
Record consist := mkConsist { cst_uuid : list Z; cst_topo : Z; cst_rest : list Z }.
Definition consist_ok (c : consist) : Prop :=
  length (cst_uuid c) = 16%nat /\ length (cst_rest c) = 4%nat /\ bytes (cst_uuid c) /\ bytes (cst_rest c) /\ 0 <= cst_topo c < 4294967296.
Definition consist_bytes (c : consist) : list Z := cst_uuid c ++ be_bytes 4 (cst_topo c) ++ cst_rest c.
(** [head]: the version and the number of the backbone. *)
Definition train_dir_telegram (head : list Z) (consists : list consist) (trnTopo : Z) : list Z :=
  head ++ [Z.of_nat (length consists)] ++ concat (map consist_bytes consists) ++ be_bytes 4 trnTopo.

Definition dir_holds (d : list Z) (consists : list consist) (trnTopo : Z) : Prop :=
  d !! trnDir_cstCnt = Some (Z.of_nat (length consists)) /\ get32le trnDir_trnTopoCnt d = trnTopo
  /\ forall i c, consists !! i = Some c ->
       bget (trnDir_cstList + sizeof_TRDP_CONSIST_T * i) sizeof_TRDP_UUID_T d = cst_uuid c
       /\ get32le (trnDir_cstList + sizeof_TRDP_CONSIST_T * i + cst_cstTopoCnt) d = cst_topo c.

Lemma consist_length c : consist_ok c -> length (consist_bytes c) = 24%nat.
Proof. intros (H1 & H2 & _). unfold consist_bytes. by rewrite !length_app, be_bytes_length, H1, H2. Qed.
Lemma consist_is_bytes c : consist_ok c -> bytes (consist_bytes c).
Proof. intros (_ & _ & H1 & H2 & _). unfold consist_bytes. apply Forall_app; split; [done|]. apply Forall_app; split; [apply be_bytes_bytes|done]. Qed.

Lemma consists_length l : Forall consist_ok l -> length (concat (map consist_bytes l)) = (24 * length l)%nat.
Proof. intros Hl. apply concat_length. intros c Hc. apply consist_length. rewrite Forall_forall in Hl. apply Hl. by apply list_elem_of_In. Qed.

Lemma consists_bytes l : Forall consist_ok l -> bytes (concat (map consist_bytes l)).
Proof. induction 1 as [|c l Hc _ IH]; [constructor|]. cbn. apply Forall_app; split; [by apply consist_is_bytes|done]. Qed.

(** The bytes of the consist [i], at their places. *)
Lemma consist_read l i c : Forall consist_ok l -> l !! i = Some c ->
  bget (24 * i) 16 (concat (map consist_bytes l)) = cst_uuid c /\ get32 (24 * i + 16) (concat (map consist_bytes l)) = cst_topo c.
Proof.
  intros Hl E. assert (Hc : consist_ok c) by by apply (Forall_lookup_1 _ _ _ _ Hl E). destruct Hc as (H1 & H2 & _ & _ & Ht).
  assert (Hn : forall a, a ∈ l -> length (consist_bytes a) = 24%nat) by (intros a Ha; apply consist_length; rewrite Forall_forall in Hl; apply Hl; by apply list_elem_of_In).
  split.
  - rewrite <- (Nat.add_0_r (24 * i)), (concat_record _ 24 _ _ c) by (done || lia). unfold consist_bytes, bget. cbn [drop]. by apply take_app_length'.
  - unfold get32. rewrite (concat_record _ 24 _ _ c) by (done || lia). unfold consist_bytes. fold (get32 16 (cst_uuid c ++ be_bytes 4 (cst_topo c) ++ cst_rest c)).
    apply at_pos_get32; [|done]. rewrite <- H1. apply at_pos_here.
Qed.

Lemma ttiStoreTrnDir_holds_dir head l trnTopo s t : the_ttdb s = Got t -> length (trnDir t) = sizeof_TRDP_TRAIN_DIR_T -> bytes (trnDir t) ->
  length head = 3%nat -> bytes head -> Forall consist_ok l -> (length l <= TRDP_MAX_CST_CNT)%nat -> 0 <= trnTopo < 4294967296 ->
  exists d, ttiStoreTrnDir (train_dir_telegram head l trnTopo) s = Got (put_ttdb (set_trnDir d t) s) /\ dir_holds d l trnTopo
    /\ forall o, (4 + 24 * length l <= o)%nat -> (o + 4 <= trnDir_trnTopoCnt)%nat -> get32le o d = get32le o (trnDir t).
Proof.
  intros Et Hd Hdb Hh Hhb Hl Hn Ht. set (data := train_dir_telegram head l trnTopo). unfold sizeof_TRDP_TRAIN_DIR_T, TRDP_MAX_CST_CNT in *.
  set (body := head ++ [Z.of_nat (length l)] ++ concat (map consist_bytes l)).
  assert (Hbl : length body = (4 + 24 * length l)%nat) by (unfold body; rewrite !length_app, Hh, (consists_length l Hl); cbn [length]; lia).
  assert (Ed : data = body ++ be_bytes 4 trnTopo) by (unfold data, train_dir_telegram, body; by rewrite <- !app_assoc).
  assert (Hbb : bytes body).
  { unfold body. apply Forall_app; split; [done|]. constructor; [unfold byte; lia|by apply consists_bytes]. }
  assert (Htake : bget 0 (4 + length l * 24) data = body) by (unfold bget; cbn [drop]; rewrite Ed; apply take_app_length'; lia).
  assert (Hcnt : data !! 3%nat = Some (Z.of_nat (length l))).
  { rewrite Ed. unfold body. rewrite <- app_assoc. rewrite lookup_app_r by lia. by rewrite Hh. }
  set (b := put32le trnDir_trnTopoCnt trnTopo (bput 0 body (trnDir t))).
  set (d := swap_fields (length l) (trnDir_cstList + cst_cstTopoCnt) sizeof_TRDP_CONSIST_T b). exists d.
  assert (Hb : bytes b) by (unfold b; auto with cint).
  assert (Hbl' : length b = 1520%nat) by (unfold b; autorewrite with buf; done).
  assert (Hread : forall o n, (o + n <= 4 + 24 * length l)%nat -> bget o n b = bget o n body).
  { intros o n Ho. unfold b, trnDir_trnTopoCnt. rewrite bget_put32le_other by lia. apply bget_bput_prefix; lia. }
  assert (Hcell : forall i o n, (o + n <= 24)%nat -> (i < length l)%nat -> bget (4 + 24 * i + o) n body = bget (24 * i + o) n (concat (map consist_bytes l))).
  { intros i o n Ho Hi. unfold body. apply list_eq. intros j. rewrite !lookup_bget. destruct (Nat.ltb_spec j n); [|done].
    rewrite lookup_app_r by lia. rewrite lookup_app_r by (cbn [length]; lia). f_equal. cbn [length]. lia. }
  split; [|split; [split; [|split]|]].
  - unfold ttiStoreTrnDir. rewrite (field8_got data trnDir_cstCnt _ Hcnt), bind_got. rewrite (proj2 (Z.ltb_ge _ _)) by (unfold TRDP_MAX_CST_CNT; lia).
    rewrite Et, bind_got. cbv zeta. rewrite !Nat2Z.id. unfold sizeof_TRDP_CONSIST_T.
    rewrite field_got, bind_got by (rewrite Ed, length_app, be_bytes_length; lia). rewrite Htake.
    rewrite copy_in_got, bind_got by lia. rewrite inside_got, bind_got by (rewrite Ed, length_app, be_bytes_length; lia).
    replace (get32 (4 + length l * 24) data) with trnTopo; [reflexivity|]. symmetry. apply at_pos_get32; [|done]. rewrite Ed.
    replace (4 + length l * 24)%nat with (length body) by lia. rewrite <- (app_nil_r (be_bytes 4 trnTopo)). apply at_pos_here.
  - transitivity (b !! 3%nat).
    + apply lookup_of_bget. unfold d. apply swap_fields_other. unfold trnDir_cstCnt, trnDir_cstList, cst_cstTopoCnt. lia.
    + transitivity (body !! 3%nat); [apply lookup_of_bget, Hread; lia|]. unfold body. rewrite lookup_app_r by lia. by rewrite Hh.
  - transitivity (get32le trnDir_trnTopoCnt b); [|unfold b; apply get32le_put; [rewrite bput_length; unfold trnDir_trnTopoCnt; lia|lia]].
    unfold get32le. f_equal. f_equal. apply swap_fields_other. right. left. unfold trnDir_trnTopoCnt, trnDir_cstList, cst_cstTopoCnt, sizeof_TRDP_CONSIST_T. lia.
  - intros i c E. pose proof (lookup_lt_Some _ _ _ E) as Hi. destruct (consist_read l i c Hl E) as [Hu Htopo].
    unfold trnDir_cstList, sizeof_TRDP_CONSIST_T, sizeof_TRDP_UUID_T, cst_cstTopoCnt. split.
    + transitivity (bget (4 + 24 * i) 16 b).
      * unfold d, trnDir_cstList, cst_cstTopoCnt, sizeof_TRDP_CONSIST_T. destruct i as [|i]; [apply swap_fields_other; lia|].
        apply (swap_fields_between _ _ _ _ i); lia.
      * rewrite Hread by lia. rewrite <- (Nat.add_0_r (4 + 24 * i)), Hcell by lia. by rewrite Nat.add_0_r.
    + replace (4 + 24 * i + 16)%nat with (trnDir_cstList + cst_cstTopoCnt + sizeof_TRDP_CONSIST_T * i)%nat by (unfold trnDir_cstList, cst_cstTopoCnt, sizeof_TRDP_CONSIST_T; lia).
      unfold d. rewrite swap_fields_at by (unfold trnDir_cstList, cst_cstTopoCnt, sizeof_TRDP_CONSIST_T; (done || lia)).
      unfold trnDir_cstList, cst_cstTopoCnt, sizeof_TRDP_CONSIST_T. replace (4 + 16 + 24 * i)%nat with (4 + 24 * i + 16)%nat by lia.
      rewrite <- Htopo. unfold get32. rewrite Hread, Hcell by lia. done.
  - intros o H1 H2. unfold get32le. f_equal. f_equal. unfold d. rewrite swap_fields_other.
    + unfold b. rewrite bget_put32le_other by lia. rewrite bget_bput_other by lia. done.
    + destruct l; [right; by right|]. right. left. unfold trnDir_cstList, cst_cstTopoCnt, sizeof_TRDP_CONSIST_T. cbn [length] in *. lia.
Qed.

(** What a step leaves alone, but for the cache of consist infos and the heap. *)
Record same_but_cache (s s' : tti) (t t' : TAU_TTDB_T) : Prop := {
  sb_app : app s' = app s; sb_script : script s' = script s; sb_log : log s' = log s;
  sb_state : opTrnState t' = opTrnState t; sb_opDir : opTrnDir t' = opTrnDir t; sb_trnDir : trnDir t' = trnDir t; sb_netDir : trnNetDir t' = trnNetDir t;
  sb_length : length (cstInfo t') = length (cstInfo t) }.

Lemma drop_infos_got rest : forall i s t, the_ttdb s = Got t -> (i + rest <= length (cstInfo t))%nat ->
  exists s' t', drop_infos rest i s = Got s' /\ the_ttdb s' = Got t' /\ same_but_cache s s' t t'
    /\ (forall j, (i <= j < i + rest)%nat \/ info_ptr t j = None -> info_ptr t' j = None)
    /\ (forall j p, (i <= j < i + rest)%nat -> info_ptr t j = Some p -> heap s' !! p = None)
    /\ (forall p, heap s !! p = None -> heap s' !! p = None)
    /\ (forall p, (forall j, (i <= j < i + rest)%nat -> info_ptr t j <> Some p) -> heap s' !! p = heap s !! p).
Proof.
  induction rest as [|rest IH]; intros i s t Et Hl; cbn [drop_infos].
  - exists s, t. split_and!; try done; [intros j [Hj|]; [lia|done]|intros j p Hj; lia].
  - unfold drop_info. rewrite Et, bind_got.
    assert (Hd : exists s1 t1, Got (match info_ptr t i with Some p => put_ttdb (set_cstInfo i None t) (free_block p s) | None => s end) = Got s1
      /\ the_ttdb s1 = Got t1 /\ same_but_cache s s1 t t1 /\ (forall j, info_ptr t1 j = if decide (i = j) then None else info_ptr t j)
      /\ heap s1 = match info_ptr t i with Some p => delete p (heap s) | None => heap s end).
    { destruct (info_ptr t i) as [p|] eqn:Ep.
      - exists (put_ttdb (set_cstInfo i None t) (free_block p s)), (set_cstInfo i None t). split_and!; try done; [split; try done; by cbn; rewrite length_insert|].
        intros j. by rewrite info_ptr_set by lia.
      - exists s, t. split_and!; try done. intros j. case_decide; [by subst|done]. }
    destruct Hd as (s1 & t1 & -> & Et1 & Hs1 & Hp1 & Hh1). rewrite bind_got.
    destruct (IH (S i) s1 t1 Et1) as (s2 & t2 & E2 & Et2 & Hs2 & Hp2 & Hf2 & Hn2 & Hk2); [rewrite (sb_length _ _ _ _ Hs1); lia|].
    exists s2, t2. split; [done|]. split; [done|]. split; [destruct Hs1, Hs2; split; congruence|]. split_and!.
    + intros j Hj. apply Hp2. rewrite Hp1. case_decide; [by right|]. destruct Hj as [Hj|Hj]; [left; lia|by right].
    + intros j p Hj Ej. destruct (decide (i = j)) as [->|Hne].
      * apply Hn2. rewrite Hh1, Ej. apply lookup_delete_eq.
      * apply (Hf2 j); [lia|]. by rewrite Hp1, decide_False.
    + intros p Ep. apply Hn2. rewrite Hh1. destruct (info_ptr t i); [|done]. apply lookup_delete_None. by right.
    + intros p Hp. rewrite Hk2.
      * rewrite Hh1. destruct (info_ptr t i) as [p'|] eqn:Ep; [|done]. apply lookup_delete_ne. intros ->. by apply (Hp i); [lia|].
      * intros j Hj. rewrite Hp1. case_decide; [done|]. apply Hp. lia.
Qed.

(** A resolver nobody answers: the address is the one of its cache, or none. *)
Lemma resolve_silent id a d u : exists err addr, resolve [silent; silent] id a d u = Got (err, addr, d).
Proof.
  cbn [resolve silent on_dns on_tcn]. unfold updateDNSentry, updateTCNDNSentry. cbn [sock_opened sema_created negb].
  assert (Hm : forall b : bool, (if b then mret d else mret d) = Got d) by by intros [].
  destruct (_ ≫= _) as [e|] eqn:E; [by eexists _, _|]. rewrite Hm, bind_got, E, Hm, bind_got. by eexists _, _.
Qed.
Lemma quiet_address s uri dn : pUser (app s) = Some dn -> exists ip, forall s', app s' = app s -> ipFromURI quiet_round uri s' = Got (ip, s').
Proof.
  intros Hu. destruct (resolve_silent 0 (app s) dn uri) as (err & addr & Er).
  exists (if negb (vos_dottedIP inet_aton uri =? VOS_INADDR_ANY) then vos_dottedIP inet_aton uri else addr). intros s' Es.
  assert (Ha : set_app (app s) s' = s') by (rewrite <- Es; by destruct s').
  unfold ipFromURI, tau_uri2Addr. cbn [first_try second_try quiet_round handle_id negb]. rewrite Es, Hu, Er.
  destruct (negb _); rewrite !bind_got; cbn [default]; [by rewrite Ha|].
  replace (set_pUser (Some dn) (app s)) with (app s); [by rewrite Ha|]. destruct (app s). cbn in *. by subst.
Qed.

Fixpoint until_zero (l : list consist) : list consist :=
  match l with [] => [] | c :: l => if cst_topo c =? 0 then [] else c :: until_zero l end.

Lemma quiet_request dn uri timeout k u s ip : pUser (app s) = Some dn -> script s = [] -> request_of TTDB_STAT_CST_REQ_COMID (Some u) = Some (uri, timeout, Some u) ->
  (forall s', app s' = app s -> ipFromURI quiet_round uri s' = Got (ip, s')) ->
  ttiRequestTTDBdata (deliver_all k) TTDB_STAT_CST_REQ_COMID (Some u) s = Got (emit (Requested TTDB_STAT_CST_REQ_COMID (etb_of s) (op_of s) ip timeout (Some u)) s).
Proof.
  intros Hu Hs Hr Hip. unfold ttiRequestTTDBdata. rewrite Hs, Hr. cbn [hd tl].
  assert (E : set_script [] s = s) by (destruct s; cbn in *; by subst). rewrite E, Hip, !bind_got by done. cbn [delivered quiet_round]. by destruct k.
Qed.

(** The requests for the consists, from [i] on. *)
Lemma request_infos_quiet l k dn ip rest : forall i s t, the_ttdb s = Got t -> pUser (app s) = Some dn -> script s = [] ->
  (forall s', app s' = app s -> ipFromURI quiet_round TTDB_STAT_CST_REQ_URI s' = Got (ip, s')) -> (i + rest <= TRDP_MAX_CST_CNT)%nat ->
  (forall j c, l !! j = Some c -> bget (trnDir_cstList + sizeof_TRDP_CONSIST_T * j) sizeof_TRDP_UUID_T (trnDir t) = cst_uuid c
     /\ get32le (trnDir_cstList + sizeof_TRDP_CONSIST_T * j + cst_cstTopoCnt) (trnDir t) = cst_topo c) ->
  (forall j, (length l <= j < TRDP_MAX_CST_CNT)%nat -> get32le (trnDir_cstList + sizeof_TRDP_CONSIST_T * j + cst_cstTopoCnt) (trnDir t) = 0) ->
  request_infos (deliver_all k) rest i s
  = Got (foldl (fun s c => emit (Requested TTDB_STAT_CST_REQ_COMID (etb_of s) (op_of s) ip TTDB_STAT_CST_REQ_TO (Some (cst_uuid c))) s) s (until_zero (take rest (drop i l)))).
Proof.
  induction rest as [|rest IH]; intros i s t Et Hu Hs Hip Hr Hin Hout; [done|]. cbn [request_infos]. rewrite Et, bind_got.
  destruct (drop i l) as [|c l'] eqn:Ed.
  - assert (Hi : (length l <= i)%nat) by (pose proof (f_equal length Ed) as El; rewrite length_drop in El; cbn in El; lia).
    rewrite (Hout i) by lia. done.
  - assert (Ec : l !! i = Some c) by (rewrite <- (Nat.add_0_r i), <- lookup_drop, Ed; done). destruct (Hin i c Ec) as [E1 E2].
    assert (El' : l' = drop (S i) l) by (replace (S i) with (i + 1)%nat by lia; rewrite <- drop_drop, Ed; done).
    rewrite E2. cbn [take until_zero]. destruct (cst_topo c =? 0); [done|]. rewrite E1, (quiet_request dn TTDB_STAT_CST_REQ_URI TTDB_STAT_CST_REQ_TO _ _ s ip), bind_got by done.
    cbn [foldl]. rewrite El'. apply (IH (S i) _ t); try done. lia.
Qed.

Lemma requests_logged ip l : forall s, let s' := foldl (fun s c => emit (Requested TTDB_STAT_CST_REQ_COMID (etb_of s) (op_of s) ip TTDB_STAT_CST_REQ_TO (Some (cst_uuid c))) s) s l in
  pTTDB s' = pTTDB s /\ app s' = app s /\ heap s' = heap s
  /\ log s' = log s ++ map (fun c => Requested TTDB_STAT_CST_REQ_COMID (etb_of s) (op_of s) ip TTDB_STAT_CST_REQ_TO (Some (cst_uuid c))) l.
Proof.
  induction l as [|c l IH]; intros s; cbn [foldl map]; [by rewrite app_nil_r|]. destruct (IH (emit (Requested TTDB_STAT_CST_REQ_COMID (etb_of s) (op_of s) ip
    TTDB_STAT_CST_REQ_TO (Some (cst_uuid c))) s)) as (E1 & E2 & E2' & E3). split; [done|]. split; [done|]. split; [done|]. rewrite E3. cbn [log emit]. by rewrite <- app_assoc.
Qed.

(** C35: A train directory of 1 to 63 consists that arrives in a session without one, when no further telegrams arrive
    while the requests are sent (the script is empty) and the resolver is started: the infos of the consists are asked
    for, up to eight and up to the first consist without a topography counter, at the address the resolver gives for
    their URI when no server answers; the blocks of the first eight infos in the cache are given back and their pointers
    cleared, and no other block is; and the directory, its counters in the order of the host, is the answer when it
    belongs to the session's topography. *)
Theorem train_directory_stored r head l trnTopo s t dn (m := mkMsg TTDB_TRN_DIR_REP_COMID TRDP_NO_ERR (train_dir_telegram head l trnTopo)) :
  the_ttdb s = Got t -> trnDir t = repeat 0 sizeof_TRDP_TRAIN_DIR_T -> length (cstInfo t) = TRDP_MAX_CST_CNT -> script s = [] -> pUser (app s) = Some dn ->
  length head = 3%nat -> bytes head -> Forall consist_ok l -> l <> [] -> (length l <= TRDP_MAX_CST_CNT)%nat -> 0 <= trnTopo < 4294967296 ->
  exists ip s' t', deliver_all (depth_of s) [Md_delivered r m] s = Got s' /\ the_ttdb s' = Got t'
    /\ ipFromURI quiet_round TTDB_STAT_CST_REQ_URI s = Got (ip, s)
    /\ log s' = log s ++ map (fun c => Requested TTDB_STAT_CST_REQ_COMID (etb_of s) (op_of s) ip TTDB_STAT_CST_REQ_TO (Some (cst_uuid c)))
                             (until_zero (take TTI_CACHED_CONSISTS l))
    /\ (forall i, (i < TTI_CACHED_CONSISTS)%nat -> info_ptr t' i = None)
    /\ (forall i p, (i < TTI_CACHED_CONSISTS)%nat -> info_ptr t i = Some p -> heap s' !! p = None)
    /\ (forall p, (forall i, (i < TTI_CACHED_CONSISTS)%nat -> info_ptr t i <> Some p) -> heap s' !! p = heap s !! p)
    /\ (trnTopo = etb_of s -> exists d, tau_getTrDirectory (Some s') true = Got (TRDP_NO_ERR, Some d, Some s') /\ dir_holds d l trnTopo).
Proof.
  intros Et Hd Hi Hs Hu Hh Hhb Hl Hne Hn Ht.
  destruct (ttiStoreTrnDir_holds_dir head l trnTopo s t Et) as (d & E1 & Hdir & Hrest); try done; [by rewrite Hd; apply repeat_length|rewrite Hd; apply cleared_bytes|].
  set (s1 := put_ttdb (set_trnDir d t) s) in *.
  destruct (drop_infos_got TTI_CACHED_CONSISTS 0 s1 (set_trnDir d t) eq_refl) as (s2 & t2 & E2 & Et2 & Hs2 & Hp2 & Hf2 & _ & Hk2); [cbn; rewrite Hi; unfold TTI_CACHED_CONSISTS, TRDP_MAX_CST_CNT; lia|].
  destruct Hs2 as [Ea Esc El Est Eop Etd Enet _]. cbn in Ea, Esc, El, Etd.
  destruct (quiet_address s2 TTDB_STAT_CST_REQ_URI dn) as [ip Hip]; [by rewrite Ea|].
  pose proof (request_infos_quiet l 0 dn ip TTI_CACHED_CONSISTS 0 s2 t2 Et2) as Hr. rewrite Ea, Esc, Etd in Hr.
  destruct (requests_logged ip (until_zero (take TTI_CACHED_CONSISTS l)) s2) as (P1 & P2 & P4 & P3). set (s3 := foldl _ _ _) in *.
  assert (E3 : request_infos (deliver_all 0) TTI_CACHED_CONSISTS 0 s2 = Got s3).
  { apply Hr; try done; [by rewrite <- Ea|unfold TTI_CACHED_CONSISTS, TRDP_MAX_CST_CNT; lia|apply Hdir|].
    intros j Hj. rewrite Hrest; [rewrite Hd| |]; unfold TRDP_MAX_CST_CNT, trnDir_cstList, trnDir_trnTopoCnt, cst_cstTopoCnt, sizeof_TRDP_CONSIST_T in *; try lia.
    apply cleared_get32le. }
  exists ip, s3, t2. split; [|split; [by apply the_ttdb_eq; rewrite P1; apply the_ttdb_eq|split; [by apply Hip; rewrite Ea|split; [|split; [|split; [|split]]]]]].
  - unfold depth_of. rewrite Hs. cbn [length deliver_all foldl]. rewrite bind_got. cbn [callback]. unfold ttiMDCallback. cbn [msg_comId pData resultCode m is_ok].
    change (_ || _) with false. cbv iota. rewrite Z.eqb_refl. cbn [andb].
    rewrite (proj2 (Nat.leb_le _ _)); [by rewrite E1, bind_got, E2, bind_got|]. unfold train_dir_telegram.
    rewrite !length_app, Hh, (consists_length l Hl), be_bytes_length. cbn [length]. unfold sizeof_TRDP_TRAIN_DIR_T, TRDP_MAX_CST_CNT in *. lia.
  - rewrite P3, El. unfold etb_of, op_of. by rewrite Ea.
  - intros i Hi8. apply Hp2. left. lia.
  - intros i p Hi8 Ep. rewrite P4. apply (Hf2 i); [lia|exact Ep].
  - intros p Hp. rewrite P4. rewrite Hk2; [done|]. intros j Hj. apply Hp. lia.
  - intros ->. exists d. split; [|done]. destruct Hdir as (H1 & H2 & _).
    assert (Ep : pTTDB s3 = Some (Some t2)) by (rewrite P1; by apply the_ttdb_eq).
    unfold tau_getTrDirectory, with_ttdb. rewrite Ep. cbn [negb]. unfold the_ttdb at 1. rewrite Ep, bind_got, Etd, (field8_got _ _ _ H1), bind_got.
    rewrite (proj2 (Z.eqb_neq _ 0)) by (destruct l; [done|cbn [length]; lia]). rewrite H2. unfold etb_of. rewrite P2, Ea, Z.eqb_refl. done.
Qed.

(** ** The operational train directory *)
Definition op_dir_telegram (head consists vehicles : list Z) (vehCnt op : Z) : list Z :=
  head ++ [Z.of_nat (length consists / sizeof_TRDP_OP_CONSIST_T)] ++ consists ++ [0; 0; 0] ++ [vehCnt] ++ vehicles ++ be_bytes 4 op.

(** What is stored of a telegram: [first] up to the consists, [second] from the vehicles on. *)
Definition stored_op_dir (first second : list Z) (t : TAU_TTDB_T) (s : tti) : tti :=
  let b := bput 0 second (bput 0 first (opTrnDir t)) in
  set_op (get32 opDir_opTrnTopoCnt b) (put_ttdb (set_opTrnDir (put32le opDir_opTrnTopoCnt (get32 opDir_opTrnTopoCnt b) b) t) s).

Lemma storeOp_eq first second k n s t : the_ttdb s = Got t -> length (opTrnDir t) = sizeof_TRDP_OP_TRAIN_DIR_T -> (k <= TRDP_MAX_CST_CNT)%nat -> length first = (8 + k * 20)%nat ->
  first !! 7%nat = Some (Z.of_nat k) -> length second = (n * 24 + 4)%nat -> (n * 24 + 4 <= sizeof_TRDP_OP_TRAIN_DIR_T)%nat ->
  ttiStoreOpTrnDir (first ++ [0; 0; 0; Z.of_nat n] ++ second) s = Got (stored_op_dir first second t s).
Proof.
  intros Et Hlt Hk Hf H7 Hs Hn. set (data := first ++ _). assert (Hl : length data = (8 + k * 20 + 4 + (n * 24 + 4))%nat)
    by (unfold data; rewrite !length_app, Hf, Hs; cbn [length]; lia).
  unfold ttiStoreOpTrnDir. rewrite (field8_got data opDir_opCstCnt (Z.of_nat k)), bind_got
    by (unfold data; rewrite lookup_app_l by (unfold opDir_opCstCnt; lia); exact H7).
  rewrite (proj2 (Z.ltb_ge _ _)) by lia. rewrite Et, bind_got. cbv zeta. rewrite !Nat2Z.id. unfold sizeof_TRDP_OP_CONSIST_T.
  rewrite field_got, bind_got by lia. replace (bget 0 (8 + k * 20) data) with first by (unfold bget, data; cbn [drop]; symmetry; by apply take_app_length').
  rewrite copy_in_got, bind_got by (rewrite Hlt; unfold TRDP_MAX_CST_CNT, sizeof_TRDP_OP_TRAIN_DIR_T in *; lia).
  rewrite (field8_got _ _ (Z.of_nat n)), bind_got by (unfold data; rewrite lookup_app_r by lia; rewrite Hf; replace (_ - _)%nat with 3%nat by lia; done).
  rewrite Nat2Z.id. unfold sizeof_TRDP_OP_VEHICLE_T. rewrite field_got, bind_got by lia.
  replace (bget _ (n * 24 + 4) data) with second; [rewrite copy_in_got by (rewrite bput_length, Hlt; lia); by rewrite bind_got|].
  symmetry. rewrite <- Hs. apply at_pos_bget. unfold data. rewrite app_assoc.
  replace (8 + k * 20 + 4)%nat with (length (first ++ [0; 0; 0; Z.of_nat n])) by (rewrite length_app, Hf; cbn [length]; lia).
  rewrite <- (app_nil_r second) at 1. apply at_pos_here.
Qed.

Lemma lookup_cleared n i : (i < n)%nat -> repeat 0 n !! i = Some 0.
Proof. revert i. induction n as [|n IH]; intros [|i] Hi; cbn; try lia; [done|]. apply IH. lia. Qed.

(** The vehicles are copied over the head and the consists: in a session without a directory, the number of consists
    becomes a character of the first vehicle's identifier, the number of vehicles stays 0, and the session gets 0 for the
    topography counter of the operational train, whatever the telegram says. *)
Theorem op_directory_overwritten head consists vehicles n op s t (data := op_dir_telegram head consists vehicles (Z.of_nat n) op) :
  the_ttdb s = Got t -> opTrnDir t = repeat 0 sizeof_TRDP_OP_TRAIN_DIR_T -> length head = 7%nat ->
  (exists k, length consists = (20 * k)%nat /\ (k <= TRDP_MAX_CST_CNT)%nat) -> length vehicles = (24 * n)%nat -> (1 <= n <= 52)%nat ->
  exists s' t', ttiStoreOpTrnDir data s = Got s' /\ the_ttdb s' = Got t' /\ op_of s' = 0
    /\ opTrnDir t' !! opDir_opCstCnt = vehicles !! 7%nat /\ opTrnDir t' !! opDir_opVehCnt = Some 0.
Proof.
  intros Et Hd Hh (k & Hc & Hk) Hv Hn. unfold TRDP_MAX_CST_CNT, sizeof_TRDP_OP_TRAIN_DIR_T in *.
  assert (Hdiv : (length consists / sizeof_TRDP_OP_CONSIST_T = k)%nat) by (rewrite Hc, Nat.mul_comm; by apply Nat.div_mul).
  set (first := head ++ [Z.of_nat k] ++ consists). set (second := vehicles ++ be_bytes 4 op).
  assert (Ed : data = first ++ [0; 0; 0; Z.of_nat n] ++ second) by (unfold data, op_dir_telegram, first, second; by rewrite Hdiv, <- !app_assoc).
  assert (Hf : length first = (8 + k * 20)%nat) by (unfold first; rewrite !length_app, Hh, Hc; cbn [length]; lia).
  assert (Hs : length second = (n * 24 + 4)%nat) by (unfold second; rewrite length_app, be_bytes_length, Hv; lia).
  set (b := bput 0 second (bput 0 first (repeat 0 2788))).
  assert (Hlb : length (bput 0 first (repeat 0 2788)) = 2788%nat) by (rewrite bput_length; apply repeat_length).
  assert (Hfar : forall i, (8 + k * 20 <= i < 2788)%nat -> (n * 24 + 4 <= i)%nat -> b !! i = Some 0).
  { intros i Hi Hi'. unfold b. rewrite lookup_bput by lia. destruct (Nat.ltb_spec i 0); [lia|]. destruct (Nat.ltb_spec i (0 + length second)); [lia|].
    rewrite lookup_bput by (rewrite repeat_length; lia). destruct (Nat.ltb_spec i 0); [lia|]. destruct (Nat.ltb_spec i (0 + length first)); [lia|].
    apply lookup_cleared. lia. }
  assert (Hop : get32 opDir_opTrnTopoCnt b = 0).
  { unfold get32. assert (E : bget opDir_opTrnTopoCnt 4 b = [0; 0; 0; 0]); [|by rewrite E]. apply list_eq. intros i. rewrite lookup_bget.
    destruct (Nat.ltb_spec i 4) as [Hi|Hi].
    - unfold opDir_opTrnTopoCnt. rewrite Hfar by lia. destruct i as [|[|[|[|i]]]]; done || lia.
    - symmetry. apply lookup_ge_None_2. cbn [length]. lia. }
  exists (stored_op_dir first second t s), (set_opTrnDir (put32le opDir_opTrnTopoCnt (get32 opDir_opTrnTopoCnt b) b) t).
  unfold stored_op_dir. rewrite Hd. fold b. split; [|split; [done|split; [exact Hop|split]]].
  - rewrite Ed. rewrite (storeOp_eq first second k n s t) by (try done; try (by rewrite Hd; apply repeat_length); unfold first; rewrite ?lookup_app_r, ?Hh by lia; done || (unfold sizeof_TRDP_OP_TRAIN_DIR_T; lia)).
    unfold stored_op_dir. by rewrite Hd.
  - cbn [opTrnDir set_opTrnDir]. transitivity (b !! 7%nat); [apply lookup_of_bget, bget_put32le_other; unfold opDir_opCstCnt, opDir_opTrnTopoCnt; lia|].
    unfold b. rewrite lookup_bput by lia. destruct (Nat.ltb_spec 7 0); [lia|]. destruct (Nat.ltb_spec 7 (0 + length second)); [|lia].
    unfold second. apply lookup_app_l. lia.
  - cbn [opTrnDir set_opTrnDir]. transitivity (b !! opDir_opVehCnt); [apply lookup_of_bget, bget_put32le_other; unfold opDir_opVehCnt, opDir_opTrnTopoCnt; lia|].
    apply Hfar; unfold opDir_opVehCnt; lia.
Qed.

(** ** Consist infos *)
Definition empty_cache (t : TAU_TTDB_T) : Prop := forall i, info_ptr t i = None.

Lemma info_ptr_size t i n j : info_ptr (set_cstSize i n t) j = info_ptr t j.
Proof. done. Qed.

Lemma loaded_loop_none rest : forall i data s t, the_ttdb s = Got t -> (forall j, (i <= j < i + rest)%nat -> info_ptr t j = None) ->
  loaded_loop rest i data s = Got None.
Proof.
  induction rest as [|rest IH]; intros i data s t Et Hn; [done|]. cbn [loaded_loop]. rewrite Et, bind_got, (Hn i) by lia. apply (IH _ _ _ t Et). intros j Hj. apply Hn. lia.
Qed.

(** The state after the telegram of a consist that is not the own one and not in the cache yet. *)
Lemma storeCstInfo_new data s t : the_ttdb s = Got t -> ttiIsOwnCstInfo data s = Got false ->
  loaded_loop (TRDP_MAX_CST_CNT - 1) 1 data s = Got None -> data <> [] -> memory s (allocated s) = true ->
  exists s', ttiStoreCstInfo data s = Got s' /\ heap s' = <[allocated s := data]> (heap s)
    /\ the_ttdb s' = Got (set_cstSize 1 (Z.of_nat (length data)) (set_cstInfo 1 (Some (allocated s)) t))
    /\ app s' = app s /\ log s' = log s /\ script s' = script s.
Proof.
  intros Et Ho Hl Hd Hm. unfold ttiStoreCstInfo. rewrite Ho, bind_got, Hl, !bind_got. cbv iota beta.
  unfold alloc_block. rewrite Hm. destruct data as [|c data]; [done|].
  replace (the_ttdb _) with (Got t) by (symmetry; exact Et). rewrite bind_got. eexists. split; [reflexivity|]. by repeat split.
Qed.

Lemma find_info_first p s t i a b : info_ptr t i = Some a -> heap s !! a = Some b -> p b = Got true -> (forall j, (j < i)%nat -> info_ptr t j = None) ->
  (i < TTI_CACHED_CONSISTS)%nat -> find_info TTI_CACHED_CONSISTS 0 p s t = Got i.
Proof.
  intros Ei Ea Ep Hn Hi. assert (Hf : forall rest j, (j <= i < j + rest)%nat -> find_info rest j p s t = Got i).
  { induction rest as [|rest IH]; intros j Hj; [lia|]. cbn [find_info]. destruct (decide (j = i)) as [->|Hne].
    - rewrite Ei. unfold block. by rewrite Ea, bind_got, Ep, bind_got.
    - rewrite (Hn j) by lia. apply IH. lia. }
  apply Hf. lia.
Qed.

(** A consist info that arrives in a session without any, of another consist than the own: it is the answer for its
    UUID, byte for byte, and for its label the numbers of vehicles and functions it states. *)
Theorem consist_info_answered r data s t (m := mkMsg TTDB_STAT_CST_REP_COMID TRDP_NO_ERR data) :
  the_ttdb s = Got t -> empty_cache t -> length (cstInfo t) = TRDP_MAX_CST_CNT -> length (cstSize t) = TRDP_MAX_CST_CNT ->
  ttiIsOwnCstInfo data s = Got false -> (116 <= length data <= sizeof_TRDP_CONSIST_INFO_T)%nat -> memory s (allocated s) = true ->
  exists s', deliver_all (depth_of s) [Md_delivered r m] s = Got s'
    /\ tau_getStaticCstInfo (Some s') true (Some (bget info_cstUUID 16 data)) = Got (TRDP_NO_ERR, Some data, Some s')
    /\ tau_getCstVehCnt (Some s') true (Some (bget info_cstId 16 data)) = Got (TRDP_NO_ERR, Some (get16 info_vehCnt data), Some s')
    /\ tau_getCstFctCnt (Some s') true (Some (bget info_cstId 16 data)) = Got (TRDP_NO_ERR, Some (get16 info_fctCnt data), Some s').
Proof.
  intros Et He Hi Hz Ho Hl Hm.
  destruct (storeCstInfo_new data s t Et Ho) as (s' & E & Eh & Et' & _); [apply (loaded_loop_none _ _ _ _ t Et); intros; apply He|by intros ->; cbn in Hl; lia|done|].
  exists s'. set (t' := set_cstSize 1 (Z.of_nat (length data)) (set_cstInfo 1 (Some (allocated s)) t)) in *.
  assert (E1 : info_ptr t' 1 = Some (allocated s)) by (unfold t';
    by rewrite info_ptr_size, info_ptr_set by (rewrite Hi; unfold TRDP_MAX_CST_CNT; lia)).
  assert (E0 : forall j, (j < 1)%nat -> info_ptr t' j = None).
  { intros j Hj. unfold t'. rewrite info_ptr_size, info_ptr_set by (rewrite Hi; unfold TRDP_MAX_CST_CNT; lia). case_decide; [lia|apply He]. }
  assert (Eb : heap s' !! allocated s = Some data) by (rewrite Eh; apply lookup_insert_eq).
  assert (Ep : pTTDB s' = Some (Some t')) by by apply the_ttdb_eq.
  assert (H8 : (1 < TTI_CACHED_CONSISTS)%nat) by (unfold TTI_CACHED_CONSISTS; lia).
  assert (Hlabel : labelled_index (Some (bget info_cstId 16 data)) s' t' = Got 1%nat).
  { apply (find_info_first _ _ _ 1 (allocated s) data); try done. rewrite field_got, bind_got by (unfold info_cstId, sizeof_TRDP_NET_LABEL_T; lia).
    by rewrite vos_strnicmp_refl. }
  split; [|split].
  - unfold depth_of. cbn [deliver_all foldl]. rewrite bind_got. cbn [callback]. unfold ttiMDCallback. cbn [msg_comId pData resultCode m is_ok].
    change (_ || _) with false. change (TTDB_STAT_CST_REP_COMID =? TTDB_TRN_DIR_REP_COMID) with false.
    change (TTDB_STAT_CST_REP_COMID =? TTDB_NET_DIR_REP_COMID) with false. change (TTDB_STAT_CST_REP_COMID =? TTDB_READ_CMPLT_REP_COMID) with false.
    rewrite Z.eqb_refl. cbn [andb]. cbv iota.
    by rewrite (proj2 (Nat.leb_le _ _)) by lia.
  - unfold tau_getStaticCstInfo, with_ttdb. rewrite Ep, Et', bind_got. cbn [negb].
    rewrite (find_info_first _ _ _ 1 (allocated s) data), bind_got; try done.
    2: { rewrite field_got, bind_got by (unfold info_cstUUID, sizeof_TRDP_UUID_T; lia). by rewrite bool_decide_true. }
    cbn [Nat.ltb Nat.leb TTI_CACHED_CONSISTS]. rewrite E1. unfold block. rewrite Eb, bind_got.
    replace (cstSize t' !! 1%nat) with (Some (Z.of_nat (length data)))
      by (symmetry; apply list_lookup_insert_eq; cbn [cstSize set_cstInfo]; rewrite Hz; unfold TRDP_MAX_CST_CNT; lia).
    cbn [from_option id]. rewrite Nat2Z.id, field_got, !bind_got by lia. unfold bget. cbn [drop]. by rewrite firstn_all.
  - all: split; unfold tau_getCstVehCnt, tau_getCstFctCnt, with_info, with_ttdb; rewrite Ep, Et', bind_got; cbn [negb];
      rewrite Hlabel, bind_got; cbn [Nat.ltb Nat.leb TTI_CACHED_CONSISTS]; unfold the_info; rewrite E1; unfold block; rewrite Eb, bind_got;
      unfold field16; rewrite inside_got, !bind_got by (unfold info_vehCnt, info_fctCnt; lia); done.
Qed.

(** Where entry [i] is another consist's and those after it are empty, the consist is not in the cache. *)
Lemma loaded_loop_other rest i data s t p b : the_ttdb s = Got t -> info_ptr t i = Some p -> heap s !! p = Some b ->
  (148 <= length b)%nat -> get32le info_cstTopoCnt b <> 0 -> (68 <= length data)%nat ->
  bget info_cstUUID 16 data <> bget info_cstUUID 16 b -> (forall j, (S i <= j < S i + rest)%nat -> info_ptr t j = None) ->
  loaded_loop (S rest) i data s = Got None.
Proof.
  intros Et E1 Ep Hb Ht Hd Hne Hn. cbn [loaded_loop]. rewrite Et, bind_got, E1. unfold block. rewrite Ep, bind_got.
  rewrite inside_got, bind_got by (unfold info_cstTopoCnt; lia). rewrite (proj2 (Z.eqb_neq _ _) Ht).
  rewrite !field_got, !bind_got by (unfold info_cstUUID, sizeof_TRDP_UUID_T; lia). rewrite bool_decide_false by (intros Heq; by apply Hne).
  by apply (loaded_loop_none _ _ _ _ t Et).
Qed.

(** The info of a second consist takes the place of the first in the cache, whose block is given back to nobody. *)
Theorem consist_info_leaks data s t p b : the_ttdb s = Got t -> info_ptr t 1 = Some p -> heap s !! p = Some b ->
  (forall i, i <> 1%nat -> info_ptr t i = None) -> length (cstInfo t) = TRDP_MAX_CST_CNT -> (p < allocated s)%nat ->
  (sizeof_TRDP_CONSIST_INFO_T <= length b)%nat -> get32le info_cstTopoCnt b <> 0 -> (68 <= length data)%nat ->
  bget info_cstUUID 16 data <> bget info_cstUUID 16 b -> ttiIsOwnCstInfo data s = Got false -> memory s (allocated s) = true ->
  exists s' t', ttiStoreCstInfo data s = Got s' /\ the_ttdb s' = Got t' /\ heap s' !! p = Some b /\ forall i, info_ptr t' i <> Some p.
Proof.
  intros Et E1 Ep Hn Hi Hp Hb Ht Hd Hne Ho Hm. assert (Hnil : data <> []) by (destruct data; [cbn [length] in Hd; lia|discriminate]).
  assert (Hl : loaded_loop (TRDP_MAX_CST_CNT - 1) 1 data s = Got None).
  { apply (loaded_loop_other (TRDP_MAX_CST_CNT - 2) 1 data s t p b Et E1 Ep); try assumption; [unfold sizeof_TRDP_CONSIST_INFO_T in Hb; lia|].
    intros j Hj. apply Hn. lia. }
  destruct (storeCstInfo_new data s t Et Ho Hl Hnil Hm) as (s' & E & Eh & Et' & _).
  exists s', (set_cstSize 1 (Z.of_nat (length data)) (set_cstInfo 1 (Some (allocated s)) t)).
  split; [exact E|]. split; [exact Et'|]. split; [rewrite Eh, lookup_insert_ne by lia; exact Ep|].
  intros i. rewrite info_ptr_size, info_ptr_set by (rewrite Hi; unfold TRDP_MAX_CST_CNT; lia).
  case_decide as Hd1; [intros [= Hq]; lia|]. rewrite Hn by (intros ->; by apply Hd1). discriminate.
Qed.

(** ** Starting and stopping *)

(** Where the subscription is refused, the database is given back but the session keeps the pointer: it cannot be
    started again, and every question follows the pointer. *)
Theorem initTTI_leaves_pointer s listen_ok : pTTDB s = None -> memory s (allocated s) = true ->
  exists s', tau_initTTIaccess false listen_ok (Some s) = (TRDP_INIT_ERR, Some s')
    /\ (forall a b, tau_initTTIaccess a b (Some s') = (TRDP_INIT_ERR, Some s'))
    /\ (forall p q x y, tau_getTTI (Some s') p q x y = Outside) /\ tau_deInitTTI (Some s') = Outside.
Proof. intros Hp Hm. unfold tau_initTTIaccess. rewrite Hp. cbv zeta. cbn [memory]. rewrite Hm. cbn [negb]. by eexists. Qed.

(** Stopping gives back none of the consist infos: the number it goes by is never counted. *)
Theorem deInitTTI_leaks s t : tti_ok s -> the_ttdb s = Got t -> exists s', tau_deInitTTI (Some s) = Got s' /\ pTTDB s' = None /\ heap s' = heap s.
Proof.
  intros Hok Et. pose proof (ttdb_cached _ _ (ttdb_of s t Hok Et)) as Hc. unfold tau_deInitTTI. pose proof Et as Ep. apply the_ttdb_eq in Ep.
  rewrite Ep, Et, bind_got, Hc. cbn [Z.to_nat drop_infos]. eexists. by split.
Qed.
End Dir.

(** ** Examples *)
Definition demo_consist (n : Z) : consist := mkConsist (repeat n 16) n [0; 1; 0; 0].

Lemma status_telegram_taken_witness : exists s' b,
  ttiPDCallback true (mkMsg TTDB_STATUS_COMID TRDP_NO_ERR (status_telegram (repeat 1 40) 5 6 (repeat 0 20))) demo_tti = Got s'
  /\ op_of s' = 5 /\ tau_getOpTrnDirectoryStatusInfo (Some s') true = Got (TRDP_NO_ERR, Some b, Some s') /\ get32le status_etbTopoCnt b = 6.
Proof.
  destruct (status_telegram_taken true (repeat 1 40) 5 6 (repeat 0 20) demo_tti fresh_ttdb) as (s' & b & E & _ & Ho & _ & Er & _ & _ & He).
  - reflexivity.
  - reflexivity.
  - cbn. lia.
  - reflexivity.
  - repeat constructor; lia.
  - lia.
  - lia.
  - exists s', b. split; [exact E|]. split; [exact Ho|]. split; [exact Er|exact He].
Defined.

(** A session with an info in its cache. *)
Definition demo_ttdb : TAU_TTDB_T := set_cstSize 0 3 (set_cstInfo 0 (Some 5%nat) fresh_ttdb).
Definition demo_cached : tti := mkTti (demo_app TRDP_DNR_STANDARD_DNS) (Some (Some demo_ttdb)) {[5%nat := [1; 2; 3]; 6%nat := [4]]} (fun _ => true) 7 [] [].

Lemma train_directory_stored_witness : exists ip s' d,
  deliver_all (depth_of demo_cached) [Md_delivered true (mkMsg TTDB_TRN_DIR_REP_COMID TRDP_NO_ERR
     (train_dir_telegram [1; 0; 0] [demo_consist 3; demo_consist 4] 7))] demo_cached = Got s'
  /\ log s' = map (fun c => Requested TTDB_STAT_CST_REQ_COMID 7 9 ip TTDB_STAT_CST_REQ_TO (Some (cst_uuid c))) [demo_consist 3; demo_consist 4]
  /\ heap s' !! 5%nat = None
  /\ tau_getTrDirectory (Some s') true = Got (TRDP_NO_ERR, Some d, Some s') /\ dir_holds d [demo_consist 3; demo_consist 4] 7.
Proof.
  destruct (train_directory_stored true [1; 0; 0] [demo_consist 3; demo_consist 4] 7 demo_cached demo_ttdb (demo_dnr TRDP_DNR_STANDARD_DNS))
    as (ip & s' & t' & E & _ & _ & El & _ & Hf & _ & Hd).
  - reflexivity.
  - reflexivity.
  - reflexivity.
  - reflexivity.
  - reflexivity.
  - reflexivity.
  - repeat constructor; lia.
  - repeat constructor; try reflexivity; cbn; lia.
  - discriminate.
  - cbn. unfold TRDP_MAX_CST_CNT. lia.
  - lia.
  - destruct (Hd eq_refl) as (d & Er & Hh).
    exists ip, s', d. split; [exact E|]. split; [exact El|]. split; [|split; [exact Er|exact Hh]].
    apply (Hf 0%nat); [unfold TTI_CACHED_CONSISTS; lia|reflexivity].
Defined.

Lemma op_directory_overwritten_witness : exists s' t',
  ttiStoreOpTrnDir (op_dir_telegram (repeat 1 7) (repeat 2 20) (str "veh1abcdefghijklmnopqrst") 1 9) demo_tti = Got s'
  /\ the_ttdb s' = Got t' /\ op_of s' = 0 /\ opTrnDir t' !! opDir_opCstCnt = Some 100 /\ opTrnDir t' !! opDir_opVehCnt = Some 0.
Proof.
  apply (op_directory_overwritten (repeat 1 7) (repeat 2 20) (str "veh1abcdefghijklmnopqrst") 1 9 demo_tti fresh_ttdb); try reflexivity; try lia.
  exists 1%nat. unfold TRDP_MAX_CST_CNT. split; [reflexivity|lia].
Defined.

Lemma fresh_empty : empty_cache fresh_ttdb.
Proof.
  intros i. unfold info_ptr. cbn [cstInfo fresh_ttdb]. generalize TRDP_MAX_CST_CNT as n. revert i.
  induction i as [|i IH]; intros [|n]; try reflexivity. exact (IH n).
Qed.

Lemma consist_info_answered_witness (data := repeat 1 116) : exists s',
  deliver_all (depth_of demo_tti) [Md_delivered true (mkMsg TTDB_STAT_CST_REP_COMID TRDP_NO_ERR data)] demo_tti = Got s'
  /\ tau_getStaticCstInfo (Some s') true (Some (repeat 1 16)) = Got (TRDP_NO_ERR, Some data, Some s')
  /\ tau_getCstVehCnt (Some s') true (Some (repeat 1 16)) = Got (TRDP_NO_ERR, Some 257, Some s').
Proof.
  destruct (consist_info_answered true data demo_tti fresh_ttdb) as (s' & E & E1 & E2 & _); try reflexivity.
  - exact fresh_empty.
  - unfold data. rewrite repeat_length. unfold sizeof_TRDP_CONSIST_INFO_T. lia.
  - exists s'. split; [exact E|]. split; [exact E1|exact E2].
Defined.
