(* ===== verification/Tadma.v ===== *)
(** * The time-aware DMA: streams and their schedule

    Models the configuration of src/driver/xilinx/xilinx_tsn_tadma.c and the program
    src/app/misc-utils/tadma_prog.c that drives it. A stream is a destination address and a comId;
    the driver gives each stream a queue (sid) and each entry of the schedule a slot of the fetch
    memory (sfm), and sorts transmitted packets into the queues. The fields of axienet_local the
    functions use, with the static counters [get_sid] and [get_sfm], form one record; device
    registers are a function from offsets to words. [hash_64] of the kernel is a parameter; a
    position outside the table of buckets is [None], where the code would leave its memory. *)
From Stdlib Require Import Sorted.
From stdpp Require Import sorting.
From S2P Require Import Prelude Bytes.

Definition XTADMA_USFM_OFFSET : Z := 0x1000.
Definition XTADMA_LSFM_OFFSET : Z := 0x2000.
Definition XTADMA_CR_OFFSET : Z := 0x0.
Definition XTADMA_INT_EN_OFFSET : Z := 0x10.
Definition XTADMA_SCHED_ENABLE : Z := BIT 4.
Definition XTADMA_CFG_DONE : Z := BIT 0.
Definition XTADMA_IE_INT_EN : Z := BIT 11.
Definition XTADMA_FFI_INT_EN : Z := BIT 0.
Definition XTADMA_STR_ID_SHIFT : Z := 0.
Definition XTADMA_STR_ID_MASK : Z := 0xFF.
Definition XTADMA_STR_NUM_FRM_SHIFT : Z := 16.
Definition XTADMA_STR_NUM_FRM_MASK : Z := 0x30000.
Definition XTADMA_STR_QUE_TYPE_SHIFT : Z := 20.
Definition XTADMA_STR_QUE_TYPE_MASK : Z := 0x300000.
Definition XTADMA_STR_CONT_FETCH_EN : Z := BIT 22.
Definition XTADMA_STR_ENTRY_VALID : Z := BIT 31.
Definition MAX_TRIG_COUNT : Z := 4.
Definition STRID_BE : Z := 0.
Definition NSEC_PER_MSEC : Z := 1000000.
Definition EINVAL : Z := 22.
Definition EEXIST : Z := 17.
Definition ENOMEM : Z := 12.

Inductive sfm_half := SFM_UPPER | SFM_LOWER.
Inductive qtype := qt_st | qt_res | qt_be | qt_resbe.
Definition qtype_val (q : qtype) : Z := match q with qt_st => 0 | qt_res => 1 | qt_be => 2 | qt_resbe => 3 end.

Record tadma_stream := mkStream {
  st_ip : list Z; st_comid : Z; st_trigger : Z; st_count : Z; st_start : bool }.

Record tadma_stream_entry := mkEntry {
  e_hashtag : list Z; e_tticks : Z; e_sid : Z; e_sfm : Z; e_count : Z }.

Record axienet_local := mkLocal {
  num_streams : Z; num_entries : Z; active_sfm : sfm_half; tadma_hash_bits : Z;
  stream_hash : list (list tadma_stream_entry);
  tadma_regs : Z -> Z;
  get_sid : Z; get_sfm : Z }.

Definition set_stream_hash h lp :=
  mkLocal (num_streams lp) (num_entries lp) (active_sfm lp) (tadma_hash_bits lp) h (tadma_regs lp) (get_sid lp) (get_sfm lp).
Definition set_get_sid n lp :=
  mkLocal (num_streams lp) (num_entries lp) (active_sfm lp) (tadma_hash_bits lp) (stream_hash lp) (tadma_regs lp) n (get_sfm lp).
Definition set_get_sfm n lp :=
  mkLocal (num_streams lp) (num_entries lp) (active_sfm lp) (tadma_hash_bits lp) (stream_hash lp) (tadma_regs lp) (get_sid lp) n.
Definition set_active_sfm a lp :=
  mkLocal (num_streams lp) (num_entries lp) a (tadma_hash_bits lp) (stream_hash lp) (tadma_regs lp) (get_sid lp) (get_sfm lp).
Definition tadma_ior (lp : axienet_local) (offset : Z) : Z := tadma_regs lp offset.
Definition tadma_iow (offset value : Z) (lp : axienet_local) : axienet_local :=
  mkLocal (num_streams lp) (num_entries lp) (active_sfm lp) (tadma_hash_bits lp) (stream_hash lp)
    (fun o => if o =? offset then value else tadma_regs lp o) (get_sid lp) (get_sfm lp).

(** [while (!((num_streams >> count) & 1)) count++]: [None] when [n] rounds do not suffice. *)
Fixpoint count_bits (n : nat) (streams count : Z) : option Z :=
  if truthy ((streams >>> count) &&& 1) then Some count
  else match n with O => None | S n' => count_bits n' streams (u8 (count + 1)) end.

(** ** The fetch memory *)
Definition sfm_entry_offset (lp : axienet_local) (sid : Z) : Z :=
  match active_sfm lp with
  | SFM_UPPER => XTADMA_USFM_OFFSET + sid * 8
  | SFM_LOWER => XTADMA_LSFM_OFFSET + sid * 8
  end.

Definition sfm_cfg (sid count : Z) : Z :=
  let cfg := (sid <<< XTADMA_STR_ID_SHIFT) &&& XTADMA_STR_ID_MASK in
  let cfg := cfg ||| ((qtype_val qt_st <<< XTADMA_STR_QUE_TYPE_SHIFT) &&& XTADMA_STR_QUE_TYPE_MASK) in
  let cfg := if negb (count =? 0) then cfg &&& not32 XTADMA_STR_CONT_FETCH_EN
             else cfg ||| XTADMA_STR_CONT_FETCH_EN in
  let cfg := cfg ||| XTADMA_STR_ENTRY_VALID in
  let count := if count >? 0 then count - 1 else count in
  cfg ||| (u32 (count <<< XTADMA_STR_NUM_FRM_SHIFT) &&& XTADMA_STR_NUM_FRM_MASK).

Definition tadma_sfm_program (sid tticks count : Z) (lp : axienet_local) : axienet_local :=
  let offset := sfm_entry_offset lp sid in
  tadma_iow (offset + 4) (sfm_cfg sid count) (tadma_iow offset (tticks / 8) lp).

Definition tadma_sfm_init (lp : axienet_local) : axienet_local :=
  tadma_sfm_program STRID_BE NSEC_PER_MSEC 0 (set_active_sfm SFM_UPPER lp).

Definition tadma_sfm_hash_init (lp : axienet_local) : axienet_local :=
  set_stream_hash (repeat [] (Z.to_nat (num_entries lp))) lp.

(** ** The table of streams *)
Section Hash.
Context (hash_64 : Z -> Z -> Z).

(** A hash tag read as a 64-bit word of the little endian processor, and as 16-bit words. *)
Definition tadma_hashtag_hash (lp : axienet_local) (tag : list Z) : Z :=
  hash_64 (be_value (rev tag)) (tadma_hash_bits lp).

Definition half (i : nat) (tag : list Z) : Z := be_value (rev (bget (2 * i) 2 tag)).

Definition hash_tag_equal (addr1 addr2 : list Z) : bool :=
  negb (truthy ((half 0 addr1 ^^^ half 0 addr2) ||| (half 1 addr1 ^^^ half 1 addr2)
                ||| (half 2 addr1 ^^^ half 2 addr2) ||| (half 3 addr1 ^^^ half 3 addr1))).

Definition tadma_hash_lookup_stream (head : list tadma_stream_entry) (hash_tag : list Z)
  : option tadma_stream_entry :=
  find (fun e => hash_tag_equal (e_hashtag e) hash_tag) head.

Definition hash_tag (ip : list Z) (comid : Z) : list Z :=
  take 4 ip ++ [comid &&& 0xff; (comid >>> 8) &&& 0xff; (comid >>> 16) &&& 0xff; (comid >>> 24) &&& 0xff].

(** The bucket of a tag. *)
Definition bucket (lp : axienet_local) (tag : list Z) : option (list tadma_stream_entry) :=
  stream_hash lp !! Z.to_nat (tadma_hashtag_hash lp tag).

(** The queue of a packet: [daddr] and [pdu] are the destination address and the TRDP packet. *)
Definition tadma_get_strid (lp : axienet_local) (daddr pdu : list Z) : option Z :=
  if get_sid lp =? 0 then Some 0
  else
    let tag := hash_tag daddr (get32 8 pdu) in
    b ← bucket lp tag;
    Some (from_option e_sid (-1) (tadma_hash_lookup_stream b tag)).

(** [mem_ok] is the answer of the allocator. *)
Definition axienet_tadma_add_stream (mem_ok : bool) (stream : tadma_stream) (lp : axienet_local)
  : option (Z * axienet_local) :=
  if st_count stream >? MAX_TRIG_COUNT then Some (- EINVAL, lp)
  else
    let lp := if st_start stream then set_get_sfm 0 (set_get_sid 0 lp) else lp in
    let tag := hash_tag (st_ip stream) (st_comid stream) in
    b ← bucket lp tag;
    let entry := tadma_hash_lookup_stream b tag in
    if from_option (fun e => (e_count e =? st_count stream) && (e_tticks e =? st_trigger stream)) false entry
    then Some (- EEXIST, lp)
    else
      let '(sid, lp) := match entry with
                        | Some e => (e_sid e, lp)
                        | None => (get_sid lp, set_get_sid (u32 (get_sid lp + 1)) lp)
                        end in
      if sid >=? num_streams lp then Some (- EINVAL, lp)
      else if get_sfm lp >=? num_entries lp then Some (- EINVAL, lp)
      else if negb mem_ok then Some (- ENOMEM, lp)
      else
        let e := mkEntry tag (st_trigger stream) sid (get_sfm lp) (st_count stream) in
        let lp := set_get_sfm (u32 (get_sfm lp + 1)) lp in
        Some (0, set_stream_hash (<[Z.to_nat (tadma_hashtag_hash lp tag) := e :: b]> (stream_hash lp)) lp).

Definition program_entry (e : tadma_stream_entry) (lp : axienet_local) : axienet_local :=
  tadma_sfm_program (e_sfm e) (e_tticks e) (e_count e) lp.

Definition axienet_tadma_program (lp : axienet_local) : axienet_local :=
  let lp := fold_left (fun lp e => program_entry e lp) (concat (stream_hash lp)) lp in
  let lp := tadma_iow XTADMA_INT_EN_OFFSET (XTADMA_FFI_INT_EN ||| XTADMA_IE_INT_EN) lp in
  tadma_iow XTADMA_CR_OFFSET (XTADMA_CFG_DONE ||| XTADMA_SCHED_ENABLE) lp.

Definition axienet_tadma_off (lp : axienet_local) : axienet_local :=
  let lp := tadma_iow XTADMA_INT_EN_OFFSET (XTADMA_FFI_INT_EN ||| XTADMA_IE_INT_EN) lp in
  let lp := tadma_sfm_program STRID_BE NSEC_PER_MSEC 0 lp in
  set_get_sid 0 (tadma_iow XTADMA_CR_OFFSET XTADMA_CFG_DONE lp).

(** The slots and the buckets have the same range of numbers. *)
Definition flush_slot (hash : nat) (lp : axienet_local) : axienet_local :=
  let offset := sfm_entry_offset lp (Z.of_nat hash) in
  tadma_iow (offset + 4) 0 (tadma_iow offset 0 lp).

Definition axienet_tadma_flush_stream (lp : axienet_local) : axienet_local :=
  let n := Z.to_nat (num_entries lp) in
  let lp := fold_left (fun lp h => flush_slot h lp) (seq 0 n) (tadma_iow XTADMA_CR_OFFSET 0 lp) in
  set_stream_hash (map (fun _ => []) (stream_hash lp)) lp.

(** ** The configuration program *)

(** [qsort] of the C library on the streams, with the comparison [sortbytrigger]. *)
Context (qsort : list tadma_stream -> list tadma_stream).

(** An element of the configuration file: address, comId, trigger, count. *)
Definition setting : Type := list Z * Z * Z * Z.

(** The streams read from the file, marked where the low byte of [i] is 0, or nothing when a count
    is too large. *)
Fixpoint read_streams (i : Z) (l : list setting) : option (list tadma_stream) :=
  match l with
  | [] => Some []
  | (ip, comid, trigger, count) :: l' =>
      if count >? 4 then None
      else rest ← read_streams (i + 1) l';
           Some (mkStream ip comid trigger count (negb (truthy (u8 i))) :: rest)
  end.

Fixpoint add_all (l : list tadma_stream) (lp : axienet_local) : option (list Z * axienet_local) :=
  match l with
  | [] => Some ([], lp)
  | s :: l' =>
      r ← axienet_tadma_add_stream true s lp;
      q ← add_all l' (snd r);
      Some (fst r :: fst q, snd q)
  end.

(** The results of adding the streams, and the driver after it; a file without streams only shows
    how the program is used. *)
Definition tadma_prog (cfg : list setting) (lp : axienet_local) : option (list Z * axienet_local) :=
  match (if bool_decide (cfg = []) then None else read_streams 0 cfg) with
  | None => Some ([], lp)
  | Some streams =>
      r ← add_all (qsort streams) (axienet_tadma_flush_stream lp);
      Some (fst r, axienet_tadma_program (snd r))
  end.
End Hash.

Definition sortbytrigger (a b : tadma_stream) : Z := s32 (u32 (st_trigger a - st_trigger b)).

(** * Properties *)

(** ** Tags *)
Definition ip_ok (ip : list Z) : Prop := length ip = 4%nat /\ bytes ip.

Lemma comid_bytes_low c c' : 0 <= c -> 0 <= c' ->
  (c &&& 0xff = c' &&& 0xff /\ (c >>> 8) &&& 0xff = (c' >>> 8) &&& 0xff) <-> c mod 65536 = c' mod 65536.
Proof.
  intros H H'. change 0xff with (Z.ones 8). rewrite !Z.land_ones, !Z.shiftr_div_pow2 by lia. change (2 ^ 8) with 256.
  assert (forall x, x mod 65536 = x mod 256 + 256 * ((x / 256) mod 256)) as E.
  { intros x. change 65536 with (256 * 256). by rewrite Z.rem_mul_r by lia. }
  rewrite !E. pose proof (Z.mod_pos_bound c 256). pose proof (Z.mod_pos_bound c' 256).
  split; [intros [-> ->]; lia|]. intros. lia.
Qed.

Lemma half_pair a b : be_value (rev [a; b]) = b * 256 + a.
Proof. cbn. lia. Qed.

(** Two tags are equal for the driver when address and lower half of the comId agree. *)
Lemma hash_tag_equal_spec ip c ip' c' : ip_ok ip -> ip_ok ip' -> 0 <= c -> 0 <= c' ->
  hash_tag_equal (hash_tag ip c) (hash_tag ip' c') = true <-> ip = ip' /\ c mod 65536 = c' mod 65536.
Proof.
  intros [Hl Hb] [Hl' Hb'] Hc Hc'.
  destruct ip as [|a0 [|a1 [|a2 [|a3 [|? ?]]]]]; try discriminate Hl.
  destruct ip' as [|b0 [|b1 [|b2 [|b3 [|? ?]]]]]; try discriminate Hl'.
  repeat match goal with H : bytes (_ :: _) |- _ => apply list.Forall_cons in H as [? H] end. unfold byte in *.
  rewrite <- comid_bytes_low by done. unfold hash_tag_equal, half. cbn [hash_tag take bget drop app Nat.mul Nat.add].
  rewrite !half_pair, negb_true_iff. unfold truthy. rewrite negb_false_iff, Z.eqb_eq, !Z.lor_eq_0_iff, !Z.lxor_eq_0_iff.
  assert (forall x, 0 <= x &&& 0xff < 256) as Hf.
  { intros x. change 0xff with (Z.ones 8). rewrite Z.land_ones by lia. apply Z.mod_pos_bound. lia. }
  pose proof (Hf c). pose proof (Hf c'). pose proof (Hf (c >>> 8)). pose proof (Hf (c' >>> 8)).
  split.
  - intros (((E1 & E2) & E3) & _). split; [|lia]. repeat f_equal; lia.
  - intros ([= -> -> -> ->] & -> & ->). done.
Qed.

Lemma hash_tag_length ip c : ip_ok ip -> length (hash_tag ip c) = 8%nat.
Proof. intros [Hl _]. unfold hash_tag. by rewrite length_app, length_take, Hl. Qed.

(** The hash tag of a configured stream, and of the packets meant for it. *)
Definition stream_tag (s : tadma_stream) : list Z := hash_tag (st_ip s) (st_comid s).
Definition stream_ok (s : tadma_stream) : Prop :=
  ip_ok (st_ip s) /\ 0 <= st_comid s < 2 ^ 32 /\ 0 <= st_trigger s < 2 ^ 31 /\ 0 <= st_count s <= MAX_TRIG_COUNT.
Definition same_stream (s t : tadma_stream) : Prop :=
  st_ip s = st_ip t /\ st_comid s mod 65536 = st_comid t mod 65536.

Lemma same_stream_tags s t : stream_ok s -> stream_ok t ->
  hash_tag_equal (stream_tag s) (stream_tag t) = true <-> same_stream s t.
Proof. intros (Hs & Hc & _) (Ht & Hd & _). apply hash_tag_equal_spec; auto; lia. Qed.

(** ** The fields of a slot *)
Definition flagged (x f : Z) : bool := truthy (x &&& f).
Definition cfg_check (sid count : Z) : bool :=
  let cfg := sfm_cfg sid count in
  (cfg &&& XTADMA_STR_ID_MASK =? sid) && flagged cfg XTADMA_STR_ENTRY_VALID
  && eqb (flagged cfg XTADMA_STR_CONT_FETCH_EN) (count =? 0)
  && ((cfg &&& XTADMA_STR_NUM_FRM_MASK) >>> XTADMA_STR_NUM_FRM_SHIFT =? Z.max 0 (count - 1))
  && (cfg &&& XTADMA_STR_QUE_TYPE_MASK =? qtype_val qt_st).

(** What the word of a slot says: the stream, that it is valid, the number of frames less one, or
    that frames are fetched without end. *)
Definition cfg_fields (cfg sid count : Z) : Prop :=
  cfg &&& XTADMA_STR_ID_MASK = sid
  /\ flagged cfg XTADMA_STR_ENTRY_VALID = true
  /\ flagged cfg XTADMA_STR_CONT_FETCH_EN = (count =? 0)
  /\ (cfg &&& XTADMA_STR_NUM_FRM_MASK) >>> XTADMA_STR_NUM_FRM_SHIFT = Z.max 0 (count - 1)
  /\ cfg &&& XTADMA_STR_QUE_TYPE_MASK = qtype_val qt_st.

Lemma sfm_cfg_fields sid count : 0 <= sid < 256 -> 0 <= count <= 4 -> cfg_fields (sfm_cfg sid count) sid count.
Proof.
  intros Hs Hc.
  assert (H : all_below 256 (fun s => all_below 5 (cfg_check s)) = true) by (vm_compute; reflexivity).
  apply (all_below_spec 256 _ sid) in H; [|lia]. apply (all_below_spec 5 _ count) in H; [|lia].
  unfold cfg_check in H. bprop. apply eqb_prop in H2. by split_and!.
Qed.

(** ** Programming the slots *)
Lemma ior_iow lp o v o' : tadma_regs (tadma_iow o v lp) o' = if o' =? o then v else tadma_regs lp o'.
Proof. done. Qed.

Definition slot_is (lp : axienet_local) (e : tadma_stream_entry) : Prop :=
  let o := sfm_entry_offset lp (e_sfm e) in
  tadma_regs lp o = e_tticks e / 8 /\ tadma_regs lp (o + 4) = sfm_cfg (e_sfm e) (e_count e).

Lemma program_entry_other e lp o : o <> sfm_entry_offset lp (e_sfm e) -> o <> sfm_entry_offset lp (e_sfm e) + 4 ->
  tadma_regs (program_entry e lp) o = tadma_regs lp o.
Proof.
  intros H1 H2. unfold program_entry, tadma_sfm_program. rewrite !ior_iow.
  rewrite (proj2 (Z.eqb_neq o _)) by exact H2. by rewrite (proj2 (Z.eqb_neq o _)) by exact H1.
Qed.

(** Entries with slots of their own: each finds its slot as it programmed it, and nothing outside
    their slots changes. *)
Lemma program_all es : forall lp, NoDup (map e_sfm es) ->
  let lp' := fold_left (fun lp e => program_entry e lp) es lp in
  active_sfm lp' = active_sfm lp /\ stream_hash lp' = stream_hash lp /\ get_sid lp' = get_sid lp
  /\ tadma_hash_bits lp' = tadma_hash_bits lp
  /\ Forall (slot_is lp') es
  /\ forall o, (forall e, e ∈ es -> o <> sfm_entry_offset lp (e_sfm e) /\ o <> sfm_entry_offset lp (e_sfm e) + 4) ->
     tadma_regs lp' o = tadma_regs lp o.
Proof.
  induction es as [|e es IH]; intros lp Hd; cbn [fold_left]; [done|].
  cbn [map] in Hd. apply list.NoDup_cons in Hd as [Hn Hd].
  destruct (IH (program_entry e lp) Hd) as (H1 & H2 & H3 & H4 & H5 & H6). cbv zeta.
  set (lp' := fold_left _ _ _) in *.
  assert (Ho : forall i, sfm_entry_offset lp' i = sfm_entry_offset lp i) by (intros i; unfold sfm_entry_offset; by rewrite H1).
  split_and!; [exact H1|exact H2|exact H3|exact H4| |].
  - constructor; [|exact H5].
    assert (Hother : forall e', e' ∈ es -> e_sfm e' <> e_sfm e).
    { intros e' He Heq. apply Hn. rewrite <- Heq. apply list_elem_of_In, in_map. by apply list_elem_of_In. }
    assert (Hoff : forall e', e' ∈ es -> sfm_entry_offset lp (e_sfm e') <> sfm_entry_offset lp (e_sfm e)
              /\ sfm_entry_offset lp (e_sfm e') + 4 <> sfm_entry_offset lp (e_sfm e)
              /\ sfm_entry_offset lp (e_sfm e') <> sfm_entry_offset lp (e_sfm e) + 4).
    { intros e' He. specialize (Hother e' He). unfold sfm_entry_offset. destruct (active_sfm lp); lia. }
    unfold slot_is. rewrite !Ho. split; rewrite H6; unfold program_entry, tadma_sfm_program; rewrite ?ior_iow.
    + rewrite (proj2 (Z.eqb_neq _ _)) by lia. by rewrite Z.eqb_refl.
    + intros e' He. destruct (Hoff e' He) as (A & B & C). change (sfm_entry_offset _ (e_sfm e')) with (sfm_entry_offset lp (e_sfm e')). lia.
    + by rewrite Z.eqb_refl.
    + intros e' He. destruct (Hoff e' He) as (A & B & C). change (sfm_entry_offset _ (e_sfm e')) with (sfm_entry_offset lp (e_sfm e')). lia.
  - intros o Hall. rewrite H6.
    + destruct (Hall e) as [A B]; [by left|]. by apply program_entry_other.
    + intros e' He. apply (Hall e'). by right.
Qed.

(** ** The table after adding streams one by one *)
Section Table.
Context (hash_64 : Z -> Z -> Z).
Context (hash_range : forall v bits, 0 <= bits <= 64 -> 0 <= hash_64 v bits < 2 ^ bits).

(** What probing establishes: a bucket for every hash value. *)
Definition probed (lp : axienet_local) : Prop :=
  0 <= tadma_hash_bits lp /\ num_streams lp = 2 ^ tadma_hash_bits lp
  /\ num_streams lp <= num_entries lp <= 128.

Definition entry_of (k : nat) (s : tadma_stream) : tadma_stream_entry :=
  mkEntry (stream_tag s) (st_trigger s) (Z.of_nat k) (Z.of_nat k) (st_count s).

Record configured (l : list tadma_stream) (lp : axienet_local) : Prop := mkConfigured {
  cf_probed : probed lp;
  cf_buckets : length (stream_hash lp) = Z.to_nat (num_entries lp);
  cf_entries : concat (stream_hash lp) ≡ₚ imap entry_of l;
  cf_place i b e : stream_hash lp !! i = Some b -> e ∈ b ->
    Z.to_nat (tadma_hashtag_hash hash_64 lp (e_hashtag e)) = i;
  cf_count : l <> [] -> get_sid lp = Z.of_nat (length l) /\ get_sfm lp = Z.of_nat (length l) }.

Definition distinct (l : list tadma_stream) : Prop :=
  Forall stream_ok l /\ forall i j s t, l !! i = Some s -> l !! j = Some t -> same_stream s t -> i = j.

Lemma hash_below lp tag : probed lp -> length (stream_hash lp) = Z.to_nat (num_entries lp) ->
  (Z.to_nat (tadma_hashtag_hash hash_64 lp tag) < length (stream_hash lp))%nat.
Proof.
  intros (Hb & Hn & He) Hl. unfold tadma_hashtag_hash.
  assert (Hb64 : tadma_hash_bits lp <= 64).
  { destruct (Z.le_gt_cases (tadma_hash_bits lp) 64) as [?|Hgt]; [done|]. exfalso.
    pose proof (Z.pow_le_mono_r 2 8 (tadma_hash_bits lp)). lia. }
  pose proof (hash_range (be_value (rev tag)) (tadma_hash_bits lp) (conj Hb Hb64)). lia.
Qed.

Lemma bucket_some lp tag : probed lp -> length (stream_hash lp) = Z.to_nat (num_entries lp) ->
  exists b, bucket hash_64 lp tag = Some b.
Proof. intros Hp Hl. apply lookup_lt_is_Some_2. by apply hash_below. Qed.

Lemma entry_origin l lp e i b : configured l lp -> stream_hash lp !! i = Some b -> e ∈ b ->
  exists k s, l !! k = Some s /\ e = entry_of k s.
Proof.
  intros Hc Hi He. assert (Hin : e ∈ imap entry_of l).
  { rewrite <- (cf_entries _ _ Hc). apply list_elem_of_In, in_concat. exists b.
    split; apply list_elem_of_In; [by eapply list_elem_of_lookup_2|done]. }
  apply elem_of_lookup_imap in Hin as (k & s & -> & Hk). by exists k, s.
Qed.

(** A tag is found exactly if its stream was added. *)
Lemma lookup_added l lp k s b : configured l lp -> distinct l -> l !! k = Some s ->
  bucket hash_64 lp (stream_tag s) = Some b -> tadma_hash_lookup_stream b (stream_tag s) = Some (entry_of k s).
Proof.
  intros Hc [Hok Hd] Hk Hb. unfold tadma_hash_lookup_stream.
  assert (Hs : stream_ok s) by (rewrite list.Forall_lookup in Hok; by eapply Hok).
  destruct (find _ b) as [e|] eqn:Ef.
  - apply find_some in Ef as [He Ht]. apply list_elem_of_In in He.
    destruct (entry_origin _ _ _ _ _ Hc Hb He) as (j & t & Hj & ->). cbn [e_hashtag entry_of] in Ht.
    assert (Htk : stream_ok t) by (rewrite list.Forall_lookup in Hok; by eapply Hok).
    apply same_stream_tags in Ht; [|done|done]. assert (j = k) as -> by (by eapply Hd). rewrite Hk in Hj.
    by injection Hj as ->.
  - assert (Hin : entry_of k s ∈ concat (stream_hash lp)).
    { rewrite (cf_entries _ _ Hc). apply elem_of_lookup_imap. by exists k, s. }
    apply list_elem_of_In, in_concat in Hin as (b' & Hb' & Hin). apply list_elem_of_In, list_elem_of_lookup in Hb' as [i Hi].
    apply list_elem_of_In in Hin. pose proof (cf_place _ _ Hc _ _ _ Hi Hin) as Hp.
    unfold bucket in Hb. cbn [e_hashtag entry_of] in Hp. rewrite Hp, Hi in Hb. injection Hb as ->.
    apply list_elem_of_In in Hin. eapply find_none in Ef; [|exact Hin]. cbn [e_hashtag entry_of] in Ef.
    rewrite (proj2 (same_stream_tags s s Hs Hs)) in Ef; done.
Qed.

Lemma lookup_new l lp s b : configured l lp -> Forall stream_ok l -> stream_ok s ->
  Forall (fun t => ~ same_stream t s) l ->
  bucket hash_64 lp (stream_tag s) = Some b -> tadma_hash_lookup_stream b (stream_tag s) = None.
Proof.
  intros Hc Hok Hs Hn Hb. unfold tadma_hash_lookup_stream. destruct (find _ b) as [e|] eqn:Ef; [|done].
  apply find_some in Ef as [He Ht]. apply list_elem_of_In in He.
  destruct (entry_origin _ _ _ _ _ Hc Hb He) as (j & t & Hj & ->). cbn [e_hashtag entry_of] in Ht.
  rewrite list.Forall_lookup in Hok, Hn. apply same_stream_tags in Ht; [|by eapply Hok|done].
  by destruct (Hn _ _ Hj).
Qed.

Lemma concat_insert_cons (h : list (list tadma_stream_entry)) i b e : h !! i = Some b ->
  concat (<[i := e :: b]> h) ≡ₚ e :: concat h.
Proof.
  revert i. induction h as [|x h IH]; intros [|i] Hi; cbn in Hi |- *; [done|done|by injection Hi as ->|].
  rewrite (IH i Hi). by rewrite Permutation_middle.
Qed.

Lemma gtb_false a b : a <= b -> (a >? b) = false.
Proof. rewrite Z.gtb_ltb, Z.ltb_ge. done. Qed.
Lemma geb_false a b : a < b -> (a >=? b) = false.
Proof. rewrite Z.geb_leb, Z.leb_gt. done. Qed.

Lemma configured_start l lp s : configured l lp -> st_start s = bool_decide (l = []) ->
  let lp0 := if st_start s then set_get_sfm 0 (set_get_sid 0 lp) else lp in
  configured l lp0 /\ get_sid lp0 = Z.of_nat (length l) /\ get_sfm lp0 = Z.of_nat (length l).
Proof.
  intros Hc Hs lp0. unfold lp0. rewrite Hs. case_bool_decide as Hl; [subst l|by split; [|apply Hc]].
  split; [|done]. split; apply Hc || done.
Qed.

Lemma add_one l lp s : configured l lp -> distinct (l ++ [s]) -> st_start s = bool_decide (l = []) ->
  Z.of_nat (length l) < num_streams lp ->
  exists lp', axienet_tadma_add_stream hash_64 true s lp = Some (0, lp') /\ configured (l ++ [s]) lp'
              /\ num_streams lp' = num_streams lp.
Proof.
  intros Hc0 [Hok Hd] Hst Hroom. destruct (configured_start l lp s Hc0 Hst) as (Hc & Hsid & Hsfm).
  apply list.Forall_app in Hok as [Hok Hs]. rewrite list.Forall_singleton in Hs.
  assert (Hnew : Forall (fun t => ~ same_stream t s) l).
  { apply Forall_lookup. intros j t Hj Hsame. pose proof (lookup_lt_Some _ _ _ Hj).
    assert (j = length l) as ->; [|lia]. eapply Hd; [by apply lookup_app_l_Some| |exact Hsame].
    by rewrite lookup_app_r, Nat.sub_diag by lia. }
  unfold axienet_tadma_add_stream. pose proof Hs as (_ & _ & _ & Hcnt).
  rewrite gtb_false by lia.
  fold (stream_tag s). set (lp0 := if st_start s then _ else _) in *.
  assert (Hn : num_streams lp0 = num_streams lp /\ num_entries lp0 = num_entries lp) by (unfold lp0; by case_if).
  destruct Hn as [Hn1 Hn2]. pose proof (cf_probed _ _ Hc) as (Hb1 & Hb2 & Hb3).
  destruct (bucket_some lp0 (stream_tag s) (cf_probed _ _ Hc) (cf_buckets _ _ Hc)) as [b Hb]. rewrite Hb.
  cbn [mbind option_bind]. rewrite (lookup_new l lp0 s b Hc Hok Hs Hnew Hb). cbn [from_option].
  cbn [num_streams num_entries get_sfm set_get_sid]. rewrite Hsid, Hsfm.
  rewrite !geb_false by lia.
  cbn [negb]. eexists. split; [reflexivity|]. split; [|exact Hn1].
  set (i := Z.to_nat (tadma_hashtag_hash hash_64 _ (stream_tag s))).
  change (mkEntry (stream_tag s) (st_trigger s) (Z.of_nat (length l)) (Z.of_nat (length l)) (st_count s))
    with (entry_of (length l) s).
  change (bucket hash_64 lp0 (stream_tag s)) with (stream_hash lp0 !! i) in Hb.
  split; cbn [num_streams num_entries get_sid get_sfm stream_hash set_stream_hash set_get_sfm set_get_sid].
  - apply (cf_probed _ _ Hc).
  - rewrite length_insert. apply Hc.
  - rewrite (concat_insert_cons _ i b _ Hb), (cf_entries _ _ Hc), imap_app. cbn [imap].
    rewrite Nat.add_0_r. by rewrite <- Permutation_cons_append.
  - intros j b' e Hj He. destruct (decide (i = j)) as [<-|Hij].
    + rewrite list_lookup_insert_eq in Hj by (apply lookup_lt_Some in Hb; exact Hb). injection Hj as <-.
      apply list.elem_of_cons in He as [->|He]; [done|]. apply (cf_place _ _ Hc _ _ _ Hb He).
    + rewrite list_lookup_insert_ne in Hj by done. apply (cf_place _ _ Hc _ _ _ Hj He).
  - intros _. rewrite length_app, !u32_small by lia. cbn. lia.
Qed.

Lemma add_streams post : forall pre lp, configured pre lp -> distinct (pre ++ post) ->
  (forall k s, (pre ++ post) !! k = Some s -> st_start s = bool_decide (k = 0%nat)) ->
  Z.of_nat (length (pre ++ post)) <= num_streams lp ->
  exists lp', add_all hash_64 post lp = Some (repeat 0 (length post), lp') /\ configured (pre ++ post) lp'
              /\ num_streams lp' = num_streams lp.
Proof.
  induction post as [|s post IH]; intros pre lp Hc Hd Hst Hlen; cbn [add_all].
  { exists lp. by rewrite app_nil_r in *. }
  assert (Hs : st_start s = bool_decide (pre = [])).
  { rewrite (Hst (length pre) s) by (rewrite lookup_app_r, Nat.sub_diag by lia; done).
    apply bool_decide_ext. by destruct pre. }
  rewrite length_app in Hlen. cbn in Hlen.
  assert (Hd' : distinct (pre ++ [s])).
  { change (s :: post) with ([s] ++ post) in Hd. rewrite (assoc_L app) in Hd. destruct Hd as [Hok Hd].
    apply list.Forall_app in Hok as [Hok _]. split; [exact Hok|]. intros i j x y Hi Hj Hxy.
    eapply Hd; [| |exact Hxy]; by apply lookup_app_l_Some. }
  destruct (add_one pre lp s Hc Hd' Hs) as (lp1 & -> & Hc1 & Hn1); [lia|]. cbn [mbind option_bind fst snd].
  change (s :: post) with ([s] ++ post) in Hd, Hst. rewrite (assoc_L app) in Hd, Hst.
  destruct (IH (pre ++ [s]) lp1 Hc1 Hd Hst) as (lp2 & -> & Hc2 & Hn2).
  { rewrite !length_app. cbn. lia. }
  cbn. exists lp2. rewrite <- (assoc_L app) in Hc2. split_and!; [done|exact Hc2|congruence].
Qed.

(** ** Flushing *)
Lemma flush_slots n : forall k lp, let lp' := fold_left (fun lp h => flush_slot h lp) (seq k n) lp in
  num_streams lp' = num_streams lp /\ num_entries lp' = num_entries lp /\ active_sfm lp' = active_sfm lp
  /\ tadma_hash_bits lp' = tadma_hash_bits lp /\ stream_hash lp' = stream_hash lp.
Proof. induction n as [|n IH]; intros k lp; [done|]. cbn [seq fold_left]. apply (IH (S k) (flush_slot k lp)). Qed.

Lemma flush_empty lp : probed lp -> length (stream_hash lp) = Z.to_nat (num_entries lp) ->
  configured [] (axienet_tadma_flush_stream lp) /\ num_streams (axienet_tadma_flush_stream lp) = num_streams lp.
Proof.
  intros Hp Hl. unfold axienet_tadma_flush_stream.
  destruct (flush_slots (Z.to_nat (num_entries lp)) 0 (tadma_iow XTADMA_CR_OFFSET 0 lp)) as (H1 & H2 & H3 & H4 & H5).
  set (lp1 := fold_left _ _ _) in *. cbn in H1, H2, H4, H5.
  assert (He : forall h : list (list tadma_stream_entry), concat (map (fun _ => []) h) = @nil tadma_stream_entry).
  { induction h as [|x h IH]; [done|exact IH]. }
  split; [|exact H1]. split; cbn [stream_hash set_stream_hash num_entries].
  - unfold probed in *. cbn. by rewrite H1, H2, H4.
  - by rewrite length_map, H2, H5.
  - by rewrite He.
  - intros i b e Hi Hin. rewrite list_lookup_fmap in Hi. destruct (stream_hash lp1 !! i); [|done].
    injection Hi as <-. by apply not_elem_of_nil in Hin.
  - done.
Qed.

(** ** Programming a configured table *)
Lemma entry_slots l i : map e_sfm (imap (fun k => entry_of (i + k)) l) = map Z.of_nat (seq i (length l)).
Proof.
  revert i. induction l as [|s l IH]; intros i; [done|]. cbn [imap map length seq]. f_equal; [cbn; lia|].
  rewrite <- IH. f_equal. apply imap_ext. intros k x _. cbn. f_equal. lia.
Qed.

Lemma slots_distinct l lp : configured l lp -> NoDup (map e_sfm (concat (stream_hash lp))).
Proof.
  intros Hc. change (NoDup (e_sfm <$> concat (stream_hash lp))). rewrite (cf_entries _ _ Hc).
  change (NoDup (map e_sfm (imap (fun k => entry_of (0 + k)) l))). rewrite entry_slots.
  apply NoDup_fmap_2; [intros x y; lia|apply NoDup_seq].
Qed.

Lemma program_configured l lp k s : configured l lp -> distinct l -> l !! k = Some s ->
  Z.of_nat (length l) <= num_streams lp ->
  let lp' := axienet_tadma_program lp in
  (forall pdu, get32 8 pdu = st_comid s -> tadma_get_strid hash_64 lp' (st_ip s) pdu = Some (Z.of_nat k))
  /\ tadma_ior lp' (sfm_entry_offset lp' (Z.of_nat k)) = st_trigger s / 8
  /\ cfg_fields (tadma_ior lp' (sfm_entry_offset lp' (Z.of_nat k) + 4)) (Z.of_nat k) (st_count s).
Proof.
  intros Hc Hd Hk Hlen lp'. pose proof (cf_probed _ _ Hc) as (_ & _ & Hb).
  destruct (program_all _ lp (slots_distinct l lp Hc)) as (H1 & H2 & H3 & H4 & H5 & _).
  pose proof (lookup_lt_Some _ _ _ Hk) as Hlt.
  assert (Hne : l <> []) by (intros ->; done). destruct (cf_count _ _ Hc Hne) as [Hsid _].
  assert (Hin : entry_of k s ∈ concat (stream_hash lp)).
  { rewrite (cf_entries _ _ Hc). apply elem_of_lookup_imap. by exists k, s. }
  split; [|].
  - intros pdu Hpdu. unfold tadma_get_strid, lp'. cbn [get_sid axienet_tadma_program tadma_iow].
    rewrite H3, Hsid, (proj2 (Z.eqb_neq (Z.of_nat (length l)) 0)) by lia. rewrite Hpdu. fold (stream_tag s).
    destruct (bucket_some lp (stream_tag s) (cf_probed _ _ Hc) (cf_buckets _ _ Hc)) as [b Hb'].
    unfold bucket, tadma_hashtag_hash, axienet_tadma_program in *.
    cbn [stream_hash tadma_iow tadma_hash_bits] in *. rewrite H2, H4, Hb'. cbn [mbind option_bind].
    by rewrite (lookup_added l lp k s b Hc Hd Hk Hb').
  - rewrite list.Forall_forall in H5. destruct (H5 _ Hin) as [Ha Hbb]. cbn [e_tticks e_sfm e_count entry_of] in Ha, Hbb.
    set (lp1 := fold_left _ _ lp) in *.
    assert (Hoff : sfm_entry_offset lp' (Z.of_nat k) = sfm_entry_offset lp1 (Z.of_nat k)) by done.
    assert (Hpos : 4096 <= sfm_entry_offset lp1 (Z.of_nat k)).
    { unfold sfm_entry_offset, XTADMA_USFM_OFFSET, XTADMA_LSFM_OFFSET. destruct (active_sfm lp1); lia. }
    assert (Hout : forall o, 4096 <= o -> tadma_ior lp' o = tadma_regs lp1 o).
    { intros o Ho. unfold lp', axienet_tadma_program, tadma_ior. fold lp1. rewrite !ior_iow.
      unfold XTADMA_CR_OFFSET, XTADMA_INT_EN_OFFSET. by rewrite !(proj2 (Z.eqb_neq o _)) by lia. }
    rewrite Hoff, !Hout, Ha, Hbb by lia. split; [done|]. apply sfm_cfg_fields; [lia|].
    destruct Hd as [Hok _]. rewrite list.Forall_lookup in Hok. by apply (Hok _ _ Hk).
Qed.

(** ** The configuration program *)
Lemma read_start cfg : forall i l, read_streams i cfg = Some l -> 0 <= i -> i + Z.of_nat (length cfg) <= 256 ->
  length l = length cfg /\ forall k s, l !! k = Some s -> st_start s = bool_decide (i + Z.of_nat k = 0).
Proof.
  induction cfg as [|[[[ip c] t] n] cfg IH]; intros i l H Hi Hlen; cbn [read_streams] in H.
  { injection H as <-. done. }
  destruct (n >? 4); [done|]. destruct (read_streams (i + 1) cfg) as [rest|] eqn:E; [|done]. injection H as <-.
  cbn in Hlen. destruct (IH _ _ E) as [H1 H2]; [lia|lia|]. split; [cbn; lia|].
  intros [|k] s Hk; cbn in Hk.
  - injection Hk as <-. cbn. rewrite u8_small by lia. unfold truthy. rewrite negb_involutive, Z.add_0_r.
    destruct (Z.eqb_spec i 0); by case_bool_decide.
  - rewrite (H2 k s Hk). apply bool_decide_ext. lia.
Qed.

Context (qsort : list tadma_stream -> list tadma_stream).
Context (qsort_spec : forall l, Forall stream_ok l ->
  qsort l ≡ₚ l /\ StronglySorted (fun a b => sortbytrigger a b <= 0) (qsort l)).

Lemma sortbytrigger_le a b : stream_ok a -> stream_ok b -> sortbytrigger a b <= 0 -> st_trigger a <= st_trigger b.
Proof.
  intros (_ & _ & Ha & _) (_ & _ & Hb & _). unfold sortbytrigger, s32, u32.
  rewrite Zplus_mod_idemp_l. intros H. rewrite Z.mod_small in H by lia. lia.
Qed.

(** The stream read first stays first when its trigger is the earliest. *)
Lemma qsort_first s0 rest : Forall stream_ok (s0 :: rest) ->
  Forall (fun s => st_trigger s0 < st_trigger s) rest ->
  exists t, qsort (s0 :: rest) = s0 :: t /\ t ≡ₚ rest.
Proof.
  intros Hok Hlt. destruct (qsort_spec _ Hok) as [Hp Hs]. destruct (qsort (s0 :: rest)) as [|h t] eqn:E.
  { by apply Permutation_nil_cons in Hp. }
  assert (Hh : h ∈ s0 :: rest) by (rewrite <- Hp; by left).
  assert (H0 : s0 ∈ h :: t) by (rewrite Hp; by left).
  assert (h = s0) as ->.
  { apply list.elem_of_cons in Hh as [?|Hh]; [done|]. apply list.elem_of_cons in H0 as [?|H0]; [done|]. exfalso.
    rewrite list.Forall_forall in Hlt, Hok. apply StronglySorted_inv in Hs as [_ Hs]. rewrite list.Forall_forall in Hs.
    specialize (Hlt _ Hh). apply Hs, sortbytrigger_le in H0; [lia|apply Hok; by right|apply Hok; by left]. }
  exists t. split; [done|]. by apply Permutation_cons_inv in Hp.
Qed.

Lemma distinct_perm l l' : l ≡ₚ l' -> NoDup l -> distinct l -> distinct l'.
Proof.
  intros Hp Hn [Hok Hd]. split; [by rewrite <- Hp|]. intros i j s t Hi Hj Hst.
  assert (Hs : s ∈ l) by (rewrite Hp; by eapply list_elem_of_lookup_2).
  assert (Ht : t ∈ l) by (rewrite Hp; by eapply list_elem_of_lookup_2).
  apply list_elem_of_lookup in Hs as [a Ha]. apply list_elem_of_lookup in Ht as [b Hb].
  assert (a = b) as -> by (by eapply Hd). rewrite Ha in Hb. injection Hb as ->.
  assert (Hn' : NoDup l') by (by rewrite <- Hp). eapply NoDup_lookup; eauto.
Qed.

Lemma distinct_nodup l : distinct l -> NoDup l.
Proof. intros [_ Hd]. apply NoDup_alt. intros i j x Hi Hj. by eapply Hd. Qed.

(** C23: Programming the schedule from a file whose first stream has a trigger before all others: when the streams
    are pairwise different to the hash (another address, or another low half of the comId), their numbers fit their
    fields, and there are no more of them than the core has queues, every stream is accepted; in the order of the
    triggers the k-th stream has queue k and slot k, its slot holds its trigger in ticks of 8 ns and its number of
    frames, and the packets with its address and comId are put into its queue. (Of two streams that the hash does
    not tell apart one is lost, hash_tag_equal_ignores_high_comid; a second trigger of a stream sends another's
    packets, tadma_second_trigger_wrong_stream.) *)
Theorem tadma_prog_configures cfg s0 rest lp :
  probed lp -> length (stream_hash lp) = Z.to_nat (num_entries lp) ->
  read_streams 0 cfg = Some (s0 :: rest) -> distinct (s0 :: rest) ->
  Z.of_nat (length cfg) <= num_streams lp -> Forall (fun s => st_trigger s0 < st_trigger s) rest ->
  exists lp', tadma_prog hash_64 qsort cfg lp = Some (repeat 0 (length cfg), lp')
  /\ forall k s, qsort (s0 :: rest) !! k = Some s ->
     (forall pdu, get32 8 pdu = st_comid s -> tadma_get_strid hash_64 lp' (st_ip s) pdu = Some (Z.of_nat k))
     /\ tadma_ior lp' (sfm_entry_offset lp' (Z.of_nat k)) = st_trigger s / 8
     /\ cfg_fields (tadma_ior lp' (sfm_entry_offset lp' (Z.of_nat k) + 4)) (Z.of_nat k) (st_count s).
Proof.
  intros Hp Hl Hr Hd Hlen Hlt. pose proof Hp as (_ & _ & Hb).
  destruct (read_start _ _ _ Hr) as [Hlr Hst]; [lia|lia|].
  destruct (qsort_first s0 rest (proj1 Hd) Hlt) as (t & Hq & Ht).
  destruct (flush_empty lp Hp Hl) as [Hc Hn].
  assert (Hdq : distinct (s0 :: t)) by (eapply distinct_perm; [|by apply distinct_nodup|exact Hd]; by rewrite Ht).
  assert (Hlq : length (s0 :: t) = length cfg) by (rewrite <- Hlr; cbn; by rewrite Ht).
  destruct (add_streams (s0 :: t) [] _ Hc Hdq) as (lp1 & Ha & Hc1 & Hn1).
  - intros k s Hk. destruct k as [|k]; cbn in Hk.
    + injection Hk as <-. by rewrite (Hst 0%nat s0 eq_refl).
    + assert (Hs : s ∈ rest) by (rewrite <- Ht; by eapply list_elem_of_lookup_2).
      apply list_elem_of_lookup in Hs as [j Hj]. rewrite (Hst (S j) s Hj). apply bool_decide_ext. lia.
  - rewrite Hn. cbn [app]. lia.
  - unfold tadma_prog. rewrite bool_decide_eq_false_2 by (intros ->; discriminate Hr). rewrite Hr, Hq, Ha.
    cbn [mbind option_bind fst snd]. eexists. split; [by rewrite Hlq|].
    intros k s Hk. apply (program_configured (s0 :: t) lp1 k s Hc1 Hdq Hk).
    rewrite Hn1, Hn. cbn [app]. lia.
Qed.
End Table.

(** ** A concrete driver: the hash function of Linux, and a sorting function *)
Definition linux_hash_64 (v bits : Z) : Z := u64 (v * 0x61C8864680B583EB) >>> (64 - bits).

Definition by_trigger (a b : tadma_stream) : Prop := st_trigger a <= st_trigger b.
#[export] Instance by_trigger_dec : RelDecision by_trigger := fun a b => decide (st_trigger a <= st_trigger b).
Definition sort_streams (l : list tadma_stream) : list tadma_stream := merge_sort by_trigger l.

Lemma sort_streams_spec l : Forall stream_ok l ->
  sort_streams l ≡ₚ l /\ StronglySorted (fun a b => sortbytrigger a b <= 0) (sort_streams l).
Proof.
  intros Hok. assert (Hp : sort_streams l ≡ₚ l) by apply merge_sort_Permutation. split; [exact Hp|].
  assert (Hs : StronglySorted by_trigger (sort_streams l)).
  { apply StronglySorted_merge_sort; unfold by_trigger; [intros a b c; lia|intros a b; lia]. }
  rewrite <- Hp in Hok. clear Hp. revert Hok. induction Hs as [|a q Hq IH Ha]; intros Hok; [constructor|].
  apply list.Forall_cons in Hok as [Hoa Hok]. constructor; [by apply IH|].
  rewrite list.Forall_forall in Ha, Hok |- *. intros b Hb. specialize (Ha b Hb). unfold by_trigger in Ha.
  destruct Hoa as (_ & _ & Ht & _). destruct (Hok b Hb) as (_ & _ & Htb & _).
  unfold sortbytrigger, s32, u32. rewrite Zplus_mod_idemp_l, Z.mod_small by lia. lia.
Qed.

(** The hash function of Linux keeps its range for the table sizes of the driver. *)
Lemma linux_hash_range v bits : 0 <= bits <= 64 -> 0 <= linux_hash_64 v bits < 2 ^ bits.
Proof.
  intros Hb. unfold linux_hash_64. rewrite Z.shiftr_div_pow2 by lia. pose proof (u64_range (v * 0x61C8864680B583EB)) as H.
  split; [apply Z.div_pos; lia|]. apply Z.div_lt_upper_bound; [lia|]. rewrite <- Z.pow_add_r by lia.
  replace (64 - bits + bits) with 64 by lia. exact (proj2 H).
Qed.

(** Probing finds the number of hash bits of a power of two; opening clears the table. *)
Definition axienet_tadma_probe (streams entries : Z) (regs : Z -> Z) : option axienet_local :=
  bits ← count_bits 32 streams 0;
  Some (mkLocal streams entries SFM_UPPER bits [] regs 0 0).

Definition axienet_tadma_open (lp : axienet_local) : axienet_local :=
  let lp := tadma_iow XTADMA_INT_EN_OFFSET (XTADMA_FFI_INT_EN ||| XTADMA_IE_INT_EN) lp in
  tadma_iow XTADMA_CR_OFFSET XTADMA_CFG_DONE (tadma_sfm_hash_init (tadma_sfm_init lp)).

Lemma opened_probed k entries regs : 0 <= k <= 7 -> 2 ^ k <= entries <= 128 ->
  exists lp, axienet_tadma_probe (2 ^ k) entries regs = Some lp /\ probed (axienet_tadma_open lp)
  /\ length (stream_hash (axienet_tadma_open lp)) = Z.to_nat (num_entries (axienet_tadma_open lp)).
Proof.
  intros Hk He. assert (Hc : count_bits 32 (2 ^ k) 0 = Some k).
  { assert (H : all_below 8 (fun k => bool_decide (count_bits 32 (2 ^ k) 0 = Some k)) = true) by (vm_compute; reflexivity).
    apply (all_below_spec 8 _ k) in H; [|lia]. by apply bool_decide_eq_true in H. }
  unfold axienet_tadma_probe. rewrite Hc. eexists. split; [reflexivity|]. split.
  - split_and!; cbn; lia.
  - cbn. apply repeat_length.
Qed.

Definition demo_driver : axienet_local :=
  axienet_tadma_open (default (mkLocal 0 0 SFM_UPPER 0 [] (fun _ => 0) 0 0) (axienet_tadma_probe 8 8 (fun _ => 0))).
Definition demo_ip : list Z := [10; 0; 0; 2].
Definition demo_pdu (comid : Z) : list Z := put32 8 comid (repeat 0 40).

(** A file in the order of the triggers. *)
Definition demo_cfg : list setting :=
  [(demo_ip, 1000, 100000, 1); (demo_ip, 1001, 300000, 2); (demo_ip, 1002, 200000, 4)].
Definition demo_streams : list tadma_stream := default [] (read_streams 0 demo_cfg).

Lemma demo_distinct : distinct demo_streams.
Proof.
  split.
  - repeat constructor; vm_compute; intuition discriminate.
  - intros i j s t Hi Hj [_ Hc]. revert Hi Hj Hc.
    destruct i as [|[|[|i]]], j as [|[|[|j]]]; cbn; intros [= <-] [= <-]; vm_compute; done.
Qed.

Lemma tadma_prog_configures_witness :
  exists lp', tadma_prog linux_hash_64 sort_streams demo_cfg demo_driver = Some ([0; 0; 0], lp')
  /\ tadma_get_strid linux_hash_64 lp' demo_ip (demo_pdu 1002) = Some 1
  /\ tadma_ior lp' (sfm_entry_offset lp' 1) = 25000.
Proof.
  destruct (tadma_prog_configures linux_hash_64 linux_hash_range sort_streams sort_streams_spec demo_cfg
              (default (mkStream [] 0 0 0 false) (head demo_streams)) (tail demo_streams) demo_driver)
    as (lp' & H & Hall).
  - split_and!; vm_compute; done.
  - by vm_compute.
  - by vm_compute.
  - exact demo_distinct.
  - by vm_compute.
  - apply (bool_decide_unpack _). vm_compute. exact I.
  - exists lp'. split; [exact H|].
    destruct (Hall 1%nat (mkStream demo_ip 1002 200000 4 false)) as (H1 & H2 & _); [by vm_compute|].
    split; [apply H1; by vm_compute|exact H2].
Defined.

(** ** Where the schedule goes wrong *)

(** The program marks the first stream of the file, but sorts the streams afterwards: when the
    first stream of the file is not the earliest, the counters of the driver restart in the middle,
    and two streams get the same queue and the same slot; the trigger of one of them is lost
    although every call succeeds. *)
Theorem tadma_prog_start_after_sort :
  let cfg := [(demo_ip, 1000, 200000, 1); (demo_ip, 1001, 100000, 1)] in
  match tadma_prog linux_hash_64 sort_streams cfg demo_driver with
  | Some (rets, lp) =>
      rets = [0; 0]
      /\ map (fun c => tadma_get_strid linux_hash_64 lp demo_ip (demo_pdu c)) [1000; 1001] = [Some 0; Some 0]
      /\ tadma_ior lp (sfm_entry_offset lp 0) = 12500
      /\ map (fun k => tadma_ior lp (sfm_entry_offset lp k + 4)) [1; 2] = [0; 0]
  | None => False
  end.
Proof. vm_compute. split_and!; reflexivity. Qed.

(** The comparison of hash tags skips the upper half of the comId: a packet whose comId was never
    configured is put into the queue of a stream with the same lower half, when both fall into the
    same bucket. *)
Theorem hash_tag_equal_ignores_high_comid :
  match tadma_prog linux_hash_64 sort_streams [(demo_ip, 1000, 100000, 1)] demo_driver with
  | Some (_, lp) =>
      map (fun c => tadma_get_strid linux_hash_64 lp demo_ip (demo_pdu c)) [1000; 1000 + 2 * 65536; 1001]
      = [Some 0; Some 0; Some (-1)]
  | None => False
  end.
Proof. vm_compute. reflexivity. Qed.

(** A stream with two triggers keeps its queue, but the second slot names another stream: the
    driver programs the number of the slot where the number of the stream belongs. *)
Theorem tadma_second_trigger_wrong_stream :
  match tadma_prog linux_hash_64 sort_streams [(demo_ip, 1000, 100000, 1); (demo_ip, 1000, 300000, 1)] demo_driver with
  | Some (rets, lp) =>
      rets = [0; 0] /\ map e_sid (concat (stream_hash lp)) = [0; 0]
      /\ map (fun k => tadma_ior lp (sfm_entry_offset lp k + 4) &&& XTADMA_STR_ID_MASK) [0; 1] = [0; 1]
  | None => False
  end.
Proof. vm_compute. split_and!; reflexivity. Qed.
