(* ===== verification/TadmaRing.v ===== *)
(** * The time-aware DMA: transmission

    Models the data path of src/driver/xilinx/xilinx_tsn_tadma.c: [axienet_tadma_xmit], which hands
    a packet to the hardware through a ring of buffers per stream, and the interrupt that takes back
    what was sent. The arrays tx_bd, tx_bd_head, tx_bd_tail and tx_bd_rd are grouped by stream. The
    hardware may change its registers at any time: its steps are arbitrary. Addresses of the DMA are
    arguments; the packets freed are listed in the state, oldest first. The functions run under the
    driver's spin lock. *)
From S2P Require Import Prelude.

Definition XTADMA_PM_OFFSET : Z := 0x3000.
Definition XTADMA_PM_RD_MASK : Z := 0xFF.
Definition XTADMA_PM_WR_MASK : Z := 0xFF0000.
Definition XTADMA_PM_WR_SHIFT : Z := 16.
Definition XTADMA_ALM_OFFSET : Z := 0x40000.
Definition XTADMA_INT_STA_OFFSET : Z := 0x14.
Definition XTADMA_INT_CLR_OFFSET : Z := 0x18.
Definition XTADMA_ALM_TOT_PKT_SZ_BY8_SHIFT : Z := 8.
Definition XTADMA_ALM_TOT_PKT_SZ_BY8_MASK : Z := 0xFF00.
Definition XTADMA_ALM_FETCH_SZ_SHIFT : Z := 16.
Definition XTADMA_ALM_FETCH_SZ_MASK : Z := 0xFFF0000.
Definition XTADMA_ALM_UFF : Z := BIT 28.
Definition XTADMA_ALM_SOP : Z := BIT 30.
Definition XTADMA_ALM_EOP : Z := BIT 31.
Definition FFI_INT : Z := BIT 0.

Inductive dma_map := DESC_DMA_MAP_SINGLE | DESC_DMA_MAP_PAGE.
Inductive netdev_tx := NETDEV_TX_OK | NETDEV_TX_BUSY.

Record axitadma_bd := mkBd {
  bd_phys : Z; tx_skb : Z; tx_desc_mapping : dma_map; bd_num_frag : Z; bd_len : Z }.

Record tx_stream := mkTx { tx_bd : list axitadma_bd; tx_bd_head : Z; tx_bd_tail : Z; tx_bd_rd : Z }.

(** [freed] lists the packets given back, [stopped] is whether the queue was stopped. *)
Record tx_state := mkState {
  num_tadma_buffers : Z; streams : list tx_stream; regs : Z -> Z;
  tx_packets : Z; tx_bytes : Z; stopped : bool; freed : list Z }.

Definition set_bd (b : list axitadma_bd) r := mkTx b (tx_bd_head r) (tx_bd_tail r) (tx_bd_rd r).
Definition set_head h r := mkTx (tx_bd r) h (tx_bd_tail r) (tx_bd_rd r).
Definition set_tail t r := mkTx (tx_bd r) (tx_bd_head r) t (tx_bd_rd r).
Definition set_rd p r := mkTx (tx_bd r) (tx_bd_head r) (tx_bd_tail r) p.
Definition set_streams l s :=
  mkState (num_tadma_buffers s) l (regs s) (tx_packets s) (tx_bytes s) (stopped s) (freed s).
Definition set_regs f s :=
  mkState (num_tadma_buffers s) (streams s) f (tx_packets s) (tx_bytes s) (stopped s) (freed s).
Definition set_stopped b s :=
  mkState (num_tadma_buffers s) (streams s) (regs s) (tx_packets s) (tx_bytes s) b (freed s).
Definition free_skb p s :=
  mkState (num_tadma_buffers s) (streams s) (regs s) (tx_packets s) (tx_bytes s) (stopped s) (freed s ++ [p]).
Definition count_tx packets size s :=
  mkState (num_tadma_buffers s) (streams s) (regs s) (u64 (tx_packets s + packets)) (u64 (tx_bytes s + size))
    (stopped s) (freed s).
Definition iow (offset value : Z) (s : tx_state) : tx_state :=
  set_regs (fun o => if o =? offset then value else regs s o) s.

Definition zero_bd : axitadma_bd := mkBd 0 0 DESC_DMA_MAP_SINGLE 0 0.
Definition bd_at (r : tx_stream) (i : Z) : axitadma_bd := default zero_bd (tx_bd r !! Z.to_nat i).

(** ** Sending *)

(** A packet: its address, the bytes of the linear part, and the fragments. *)
Record sk_buff := mkSkb { skb_ptr : Z; skb_headlen : Z; skb_frags : list Z }.

Definition axienet_check_pm_space (num_frag wr rd total : Z) : bool :=
  let avail := s32 (u32 (rd - wr)) in
  let avail := if avail <? 0 then total + avail else avail in
  num_frag <=? avail.

Definition tadma_stream_alm_offset (s : tx_state) (sid wr : Z) : Z :=
  let n := num_tadma_buffers s in
  let wr := (u32 (wr + n - 1)) &&& (n - 1) in
  XTADMA_ALM_OFFSET + sid * 8 * n + wr * 8.

Definition tadma_stream_alm_offset_irq (s : tx_state) (sid tx_bd_rd : Z) : Z :=
  XTADMA_ALM_OFFSET + sid * 8 * num_tadma_buffers s + tx_bd_rd * 8.

(** The descriptor at the head of the ring is filled in, and the head moves on. *)
Definition put_bd (n : Z) (b : axitadma_bd) (r : tx_stream) : tx_stream :=
  set_head (u32 (tx_bd_head r + 1) mod n) (set_bd (<[Z.to_nat (tx_bd_head r) := b]> (tx_bd r)) r).

Definition fetch_size (len cfg : Z) : Z :=
  (cfg &&& not32 XTADMA_ALM_FETCH_SZ_MASK)
  ||| (u32 (len <<< XTADMA_ALM_FETCH_SZ_SHIFT) &&& XTADMA_ALM_FETCH_SZ_MASK).

Definition total_size (tot_len cfg : Z) : Z :=
  let tot_sz8 := tot_len / 8 + 1 in
  (cfg &&& not32 XTADMA_ALM_TOT_PKT_SZ_BY8_MASK)
  ||| ((tot_sz8 <<< XTADMA_ALM_TOT_PKT_SZ_BY8_SHIFT) &&& XTADMA_ALM_TOT_PKT_SZ_BY8_MASK).

(** The fragments: [skb] is the packet, [frags] the lengths with the addresses of the DMA. *)
Fixpoint put_frags (sid skb : Z) (frags : list (Z * Z)) (write_p : Z) (r : tx_stream) (s : tx_state)
  : Z * tx_stream * tx_state :=
  match frags with
  | [] => (write_p, r, s)
  | (len, phys) :: frags' =>
      let last := match frags' with [] => true | _ => false end in
      let cfg := u32 (phys >>> 32) in
      let cfg := if last then cfg ||| XTADMA_ALM_EOP else cfg in
      let cfg := fetch_size len cfg ||| XTADMA_ALM_UFF in
      let n := num_tadma_buffers s in
      let r := put_bd n (mkBd (u32 phys) (if last then skb else 0) DESC_DMA_MAP_PAGE 0 len) r in
      let write_p := u32 (write_p + 1) &&& (n - 1) in
      let alm_offset := tadma_stream_alm_offset s sid write_p in
      put_frags sid skb frags' write_p r (iow (alm_offset + 4) cfg (iow alm_offset (u32 phys) s))
  end.

(** [sid] is the result of [tadma_get_strid]; [phys] the address of the linear part, if it can be
    mapped, [frag_phys] those of the fragments. *)
Definition axienet_tadma_xmit (sid : Z) (skb : sk_buff) (phys : option Z) (frag_phys : list Z) (s : tx_state)
  : netdev_tx * tx_state :=
  if sid <? 0 then (NETDEV_TX_OK, free_skb (skb_ptr skb) s)
  else match streams s !! Z.to_nat sid with
  | None => (NETDEV_TX_BUSY, s)
  | Some r =>
      let num_frag := Z.of_nat (length (skb_frags skb)) in
      let n := num_tadma_buffers s in
      let pm := regs s (XTADMA_PM_OFFSET + sid * 4) in
      let read_p := pm &&& XTADMA_PM_RD_MASK in
      let write_p := (pm &&& XTADMA_PM_WR_MASK) >>> XTADMA_PM_WR_SHIFT in
      if negb (axienet_check_pm_space (num_frag + 1) write_p read_p n) then (NETDEV_TX_BUSY, s)
      else if u32 (tx_bd_head r + (num_frag + 1)) mod n =? tx_bd_tail r
      then (NETDEV_TX_BUSY, set_stopped true s)
      else match phys with
      | None => (NETDEV_TX_BUSY, s)
      | Some phys =>
          let alm_offset_fframe := tadma_stream_alm_offset s sid write_p in
          let len := skb_headlen skb in
          let tot_len := fold_left Z.add (skb_frags skb) len in
          let linear := num_frag =? 0 in
          let cfg := u32 (phys >>> 32) in
          let cfg := cfg ||| (if linear then XTADMA_ALM_SOP ||| XTADMA_ALM_EOP else XTADMA_ALM_SOP) in
          let cfg := fetch_size len cfg in
          let r := put_bd n (mkBd (u32 phys) (if linear then skb_ptr skb else 0) DESC_DMA_MAP_SINGLE (num_frag + 1) len) r in
          let '(write_p, r, s) := put_frags sid (skb_ptr skb) (zip (skb_frags skb) frag_phys) write_p r s in
          let cfg := total_size tot_len cfg ||| XTADMA_ALM_UFF in
          let s := iow (alm_offset_fframe + 4) cfg (iow alm_offset_fframe (u32 phys) s) in
          let write_p := u32 (write_p + 1) &&& (n - 1) in
          let pm := (pm &&& not32 XTADMA_PM_WR_MASK) ||| (write_p <<< XTADMA_PM_WR_SHIFT) in
          let s := iow (XTADMA_PM_OFFSET + sid * 4) pm s in
          (NETDEV_TX_OK, set_streams (<[Z.to_nat sid := r]> (streams s)) s)
      end
  end.

(** ** Taking back *)

(** The loop of [tadma_xmit_done]: at most [cnt] descriptors are taken from the tail. *)
Fixpoint done_loop (n : Z) (cnt : nat) (r : tx_stream) (packets size : Z) (skbs : list Z)
  : tx_stream * Z * Z * list Z :=
  match cnt with
  | O => (r, packets, size, skbs)
  | S cnt' =>
      if tx_bd_head r =? tx_bd_tail r then (r, packets, size, skbs)
      else
        let b := bd_at r (tx_bd_tail r) in
        done_loop n cnt' (set_tail (u32 (tx_bd_tail r + 1) mod n) r) (u32 (packets + 1)) (u32 (size + bd_len b))
          (if truthy (tx_skb b) then skbs ++ [tx_skb b] else skbs)
  end.

Definition tadma_xmit_done (sid : nat) (cnt : Z) (s : tx_state) : tx_state :=
  match streams s !! sid with
  | None => s
  | Some r =>
      if tx_bd_head r =? tx_bd_tail r then s
      else
        let '(r', packets, size, skbs) := done_loop (num_tadma_buffers s) (Z.to_nat cnt) r 0 0 [] in
        let s1 := count_tx packets size (set_streams (<[sid := r']> (streams s)) s) in
        mkState (num_tadma_buffers s1) (streams s1) (regs s1) (tx_packets s1) (tx_bytes s1) (stopped s1)
          (freed s1 ++ skbs)
  end.

(** The loop of the interrupt over one stream: [tx_bd_rd] moves over the descriptors whose UFF bit
    the hardware has cleared. *)
Fixpoint rd_loop (s : tx_state) (sid : Z) (fuel : nat) (rd head cnt : Z) : Z * Z :=
  match fuel with
  | O => (rd, cnt)
  | S fuel' =>
      let cfg := regs s (tadma_stream_alm_offset_irq s sid rd + 4) in
      if (cfg &&& XTADMA_ALM_UFF =? 0) && (cnt <? num_tadma_buffers s) && negb (rd =? head)
      then rd_loop s sid fuel' (u32 (rd + 1) mod num_tadma_buffers s) head (cnt + 1)
      else (rd, cnt)
  end.

Definition irq_stream (s : tx_state) (sid : nat) : tx_state :=
  match streams s !! sid with
  | None => s
  | Some r =>
      let '(rd, cnt) := rd_loop s (Z.of_nat sid) (Z.to_nat (num_tadma_buffers s)) (tx_bd_rd r) (tx_bd_head r) 0 in
      let s1 := set_streams (<[sid := set_rd rd r]> (streams s)) s in
      if truthy cnt then tadma_xmit_done sid cnt s1 else s1
  end.

Definition tadma_irq (s : tx_state) : tx_state :=
  let status := regs s XTADMA_INT_STA_OFFSET in
  let s := iow XTADMA_INT_CLR_OFFSET status s in
  let s := if truthy (status &&& FFI_INT) then fold_left irq_stream (seq 0 (length (streams s))) s else s in
  set_stopped false s.

(** The rings [axienet_tadma_open] sets up; the descriptors are not initialised. *)
Definition open_rings (n : Z) (num_streams : nat) (bds : list axitadma_bd) (r : Z -> Z) : tx_state :=
  mkState n (repeat (mkTx bds 0 0 0) num_streams) r 0 0 false [].

(** * Properties *)

(** ** The ring as a queue: the packets of the descriptors from the tail up to the head *)
Fixpoint ring_from (n : Z) (r : tx_stream) (i : Z) (c : nat) : list Z :=
  match c with
  | O => []
  | S c' => tx_skb (bd_at r i) :: ring_from n r ((i + 1) mod n) c'
  end.

Definition used_bds (n : Z) (r : tx_stream) : nat := Z.to_nat ((tx_bd_head r - tx_bd_tail r) mod n).
Definition pending (n : Z) (r : tx_stream) : list Z := ring_from n r (tx_bd_tail r) (used_bds n r).

Definition ring_ok (n : Z) (r : tx_stream) : Prop :=
  length (tx_bd r) = Z.to_nat n /\ 0 <= tx_bd_head r < n /\ 0 <= tx_bd_tail r < n /\ tx_bd_rd r = tx_bd_tail r.

Section Ring.
Context (n : Z) (n_range : 1 <= n <= 256).

Lemma next_mod i : 0 <= i < n -> u32 (i + 1) mod n = (i + 1) mod n.
Proof. intros Hi. by rewrite u32_small by lia. Qed.

Lemma mod_next i : 0 <= i < n -> (i + 1) mod n = if i + 1 =? n then 0 else i + 1.
Proof.
  intros Hi. destruct (i + 1 =? n) eqn:E; bprop; [rewrite E; apply Z.mod_same; lia|apply Z.mod_small; lia].
Qed.

Lemma mod_sub a b : 0 <= a < n -> 0 <= b < n -> (a - b) mod n = if b <=? a then a - b else a - b + n.
Proof.
  intros Ha Hb. destruct (b <=? a) eqn:E; bprop; [apply Z.mod_small; lia|].
  rewrite <- (Z.mod_add (a - b) 1 n) by lia. rewrite Z.mul_1_l. apply Z.mod_small. lia.
Qed.

Lemma length_ring_from r i c : length (ring_from n r i c) = c.
Proof. revert i. induction c as [|c IH]; intros i; cbn; [done|by rewrite IH]. Qed.

Lemma ring_from_bds r r' c : tx_bd r' = tx_bd r -> forall i, ring_from n r' i c = ring_from n r i c.
Proof.
  intros H. induction c as [|c IH]; intros i; [done|]. cbn [ring_from]. unfold bd_at. by rewrite H, IH.
Qed.

Lemma pending_rd p r : pending n (set_rd p r) = pending n r.
Proof. unfold pending. by apply ring_from_bds. Qed.

(** Descriptors of the ring other than [h] are read the same after [h] is written. *)
Lemma ring_from_ext r r' h c : forall i, 0 <= i < n -> 0 <= h < n ->
  (forall j, j <> h -> 0 <= j -> bd_at r' j = bd_at r j) -> Z.of_nat c <= (h - i) mod n ->
  ring_from n r' i c = ring_from n r i c.
Proof.
  induction c as [|c IH]; intros i Hi Hh Hr Hc; [done|]. cbn [ring_from].
  rewrite mod_sub in Hc by lia.
  assert (i <> h) by (intros ->; rewrite Z.leb_refl in Hc; lia).
  rewrite Hr by lia. f_equal. apply IH; [apply Z.mod_pos_bound; lia|done|done|].
  assert (0 <= (i + 1) mod n < n) by (apply Z.mod_pos_bound; lia).
  rewrite mod_sub by lia. rewrite mod_next in * by lia. repeat case_if; repeat case_if_in Hc; bprop; lia.
Qed.

Lemma ring_from_snoc r c : forall i h, 0 <= i < n -> 0 <= h < n -> Z.of_nat c = (h - i) mod n ->
  ring_from n r i (S c) = ring_from n r i c ++ [tx_skb (bd_at r h)].
Proof.
  induction c as [|c IH]; intros i h Hi Hh Hc.
  - rewrite mod_sub in Hc by lia. assert (i = h) as -> by (case_if_in Hc; bprop; lia). done.
  - change (ring_from n r i (S (S c))) with (tx_skb (bd_at r i) :: ring_from n r ((i + 1) mod n) (S c)).
    assert (0 <= (i + 1) mod n < n) by (apply Z.mod_pos_bound; lia).
    rewrite (IH _ h); [done|done|done|]. rewrite mod_sub in Hc |- * by lia. rewrite mod_next in * by lia.
    repeat case_if; repeat case_if_in Hc; bprop; lia.
Qed.

Lemma put_bd_at b r j : ring_ok n r -> 0 <= j ->
  bd_at (put_bd n b r) j = if j =? tx_bd_head r then b else bd_at r j.
Proof.
  intros (Hl & Hh & _) Hj. unfold bd_at, put_bd. cbn [tx_bd set_head set_bd].
  destruct (j =? tx_bd_head r) eqn:E; bprop.
  - subst j. by rewrite list_lookup_insert_eq by lia.
  - by rewrite list_lookup_insert_ne by lia.
Qed.

(** A descriptor put at the head of a ring that is not full joins the end of the queue. *)
Lemma put_bd_pending b r : ring_ok n r -> (tx_bd_head r + 1) mod n <> tx_bd_tail r ->
  ring_ok n (put_bd n b r) /\ pending n (put_bd n b r) = pending n r ++ [tx_skb b].
Proof.
  intros Hr Hfull. pose proof Hr as (Hl & Hh & Ht & Hrd).
  assert (Hh' : tx_bd_head (put_bd n b r) = (tx_bd_head r + 1) mod n) by (cbn; by rewrite next_mod by lia).
  assert (Hb : 0 <= (tx_bd_head r + 1) mod n < n) by (apply Z.mod_pos_bound; lia).
  split.
  { split_and!; [cbn; by rewrite length_insert| | | | |]; rewrite ?Hh'; try lia; cbn; lia. }
  unfold pending, used_bds. rewrite Hh'. change (tx_bd_tail (put_bd n b r)) with (tx_bd_tail r).
  assert (Hc : Z.to_nat (((tx_bd_head r + 1) mod n - tx_bd_tail r) mod n)
               = S (Z.to_nat ((tx_bd_head r - tx_bd_tail r) mod n))).
  { rewrite !mod_sub by lia. rewrite mod_next in * by lia.
    repeat case_if; repeat case_if_in Hfull; bprop; lia. }
  rewrite Hc. rewrite (ring_from_snoc _ _ _ (tx_bd_head r)); [|lia..|rewrite Z2Nat.id; [done|apply Z.mod_pos_bound; lia]].
  f_equal.
  - apply (ring_from_ext r _ (tx_bd_head r)); [lia|lia| |rewrite Z2Nat.id; [lia|apply Z.mod_pos_bound; lia]].
    intros j Hj Hj0. rewrite put_bd_at by done. by rewrite (proj2 (Z.eqb_neq j _)).
  - rewrite put_bd_at by (done || lia). by rewrite Z.eqb_refl.
Qed.

(** Taking [cnt] descriptors from the tail takes the first [cnt] packets of the queue. *)
Lemma done_loop_pending cnt : forall r packets size skbs, ring_ok n (set_rd (tx_bd_tail r) r) ->
  (cnt <= used_bds n r)%nat -> Forall (fun p => p <> 0) (pending n r) ->
  let '(r', _, _, skbs') := done_loop n cnt r packets size skbs in
  tx_bd r' = tx_bd r /\ tx_bd_head r' = tx_bd_head r /\ tx_bd_rd r' = tx_bd_rd r
  /\ tx_bd_tail r' = (tx_bd_tail r + Z.of_nat cnt) mod n
  /\ skbs' ++ pending n r' = skbs ++ pending n r.
Proof.
  induction cnt as [|cnt IH]; intros r packets size skbs Hr Hc Hnz; cbn [done_loop].
  { pose proof Hr as (_ & _ & Ht & _). cbn in Ht. rewrite Z.add_0_r, Z.mod_small by lia. done. }
  pose proof Hr as (Hl & Hh & Ht & _). cbn in Hl, Hh, Ht.
  unfold used_bds in Hc. destruct (tx_bd_head r =? tx_bd_tail r) eqn:E; bprop.
  { rewrite E, Z.sub_diag, Z.mod_0_l in Hc by lia. cbn in Hc. lia. }
  set (b := bd_at r (tx_bd_tail r)). set (r1 := set_tail _ r).
  assert (Ht1 : tx_bd_tail r1 = (tx_bd_tail r + 1) mod n) by (cbn; by rewrite next_mod by lia).
  assert (Hb1 : 0 <= (tx_bd_tail r + 1) mod n < n) by (apply Z.mod_pos_bound; lia).
  assert (Hu : used_bds n r = S (used_bds n r1)).
  { unfold used_bds. rewrite Ht1. change (tx_bd_head r1) with (tx_bd_head r).
    rewrite !mod_sub by lia. rewrite mod_next in * by lia. repeat case_if; bprop; lia. }
  assert (Hp : pending n r = tx_skb b :: pending n r1).
  { unfold pending. rewrite Hu, Ht1. cbn [ring_from]. f_equal.
    symmetry. by apply ring_from_bds. }
  rewrite Hp in Hnz |- *. apply list.Forall_cons in Hnz as [Hb Hnz].
  assert (truthy (tx_skb b) = true) as -> by (unfold truthy; apply negb_true_iff, Z.eqb_neq, Hb).
  specialize (IH r1 (u32 (packets + 1)) (u32 (size + bd_len b)) (skbs ++ [tx_skb b])).
  destruct (done_loop n cnt r1 _ _ _) as [[[r' p'] z'] skbs'].
  destruct IH as (H1 & H2 & H3 & H4 & H5); [|unfold used_bds in *; lia|exact Hnz|].
  { split_and!; cbn; try done; try lia; rewrite next_mod by lia; lia. }
  split_and!; [exact H1|exact H2|exact H3| |by rewrite H5, <- app_assoc].
  rewrite H4, Ht1, Z.add_mod_idemp_l by lia. f_equal. lia.
Qed.

Lemma rd_loop_spec s sid fuel : forall rd head cnt rd' cnt', num_tadma_buffers s = n ->
  0 <= rd < n -> 0 <= head < n -> rd_loop s sid fuel rd head cnt = (rd', cnt') ->
  exists k, cnt' = cnt + Z.of_nat k /\ rd' = (rd + Z.of_nat k) mod n /\ Z.of_nat k <= (head - rd) mod n.
Proof.
  induction fuel as [|fuel IH]; intros rd head cnt rd' cnt' Hn Hrd Hh H; cbn [rd_loop] in H.
  { injection H as <- <-. exists 0%nat. rewrite !Z.add_0_r, (Z.mod_small rd) by lia.
    pose proof (Z.mod_pos_bound (head - rd) n). lia. }
  case_if_in H.
  2: { injection H as <- <-. exists 0%nat. rewrite !Z.add_0_r, (Z.mod_small rd) by lia.
       pose proof (Z.mod_pos_bound (head - rd) n). lia. }
  bprop. rewrite Hn, next_mod in H by lia. assert (0 <= (rd + 1) mod n < n) by (apply Z.mod_pos_bound; lia).
  apply IH in H as (k & -> & -> & Hk); [|done|done|done]. exists (S k). split; [lia|]. split.
  - rewrite Z.add_mod_idemp_l by lia. f_equal. lia.
  - rewrite mod_sub in Hk |- * by lia. rewrite mod_next in * by lia.
    repeat case_if; repeat case_if_in Hk; bprop; lia.
Qed.

(** What holds between the calls: [accepted] are the packets the driver took. *)
Record state_ok (accepted : list Z) (s : tx_state) : Prop := mkStateOk {
  so_n : num_tadma_buffers s = n;
  so_rings : Forall (ring_ok n) (streams s);
  so_skbs : Forall (fun r => Forall (fun p => p <> 0) (pending n r)) (streams s);
  so_all : accepted ≡ₚ freed s ++ concat (map (pending n) (streams s)) }.

Lemma concat_insert (l : list tx_stream) i r r' : l !! i = Some r ->
  concat (map (pending n) l) ≡ₚ pending n r ++ concat (map (pending n) (delete i l))
  /\ concat (map (pending n) (<[i := r']> l)) ≡ₚ pending n r' ++ concat (map (pending n) (delete i l)).
Proof.
  revert i. induction l as [|x l IH]; intros [|i] Hi; cbn in Hi |- *; [done|done|by injection Hi as ->|].
  destruct (IH i Hi) as [H1 H2]. rewrite H1, H2. split; by rewrite Permutation_app_swap_app.
Qed.

(** The interrupt over one stream: what is freed are the first packets of the queue. *)
Lemma irq_stream_ok accepted s i : state_ok accepted s -> state_ok accepted (irq_stream s i)
  /\ length (streams (irq_stream s i)) = length (streams s)
  /\ forall r, streams s !! i = Some r -> exists r' l, streams (irq_stream s i) !! i = Some r'
     /\ pending n r = l ++ pending n r' /\ freed (irq_stream s i) = freed s ++ l.
Proof.
  intros Hs. unfold irq_stream. destruct (streams s !! i) as [r|] eqn:Ei; [|by split_and!].
  pose proof Hs as [Hn Hrs Hnz Hall]. rewrite list.Forall_lookup in Hrs, Hnz.
  pose proof (Hrs _ _ Ei) as Hr. specialize (Hnz _ _ Ei). pose proof Hr as (Hl & Hh & Ht & Hrd).
  pose proof (lookup_lt_Some _ _ _ Ei) as Hi.
  destruct (rd_loop _ _ _ _ _ _) as [rd cnt] eqn:E.
  apply rd_loop_spec in E as (k & -> & -> & Hk); [|done|lia|done]. rewrite Z.add_0_l, Hrd in *.
  set (r1 := set_rd ((tx_bd_tail r + Z.of_nat k) mod n) r).
  assert (Hfin : forall r' sk pk by_, tx_bd r' = tx_bd r -> tx_bd_head r' = tx_bd_head r ->
      tx_bd_rd r' = tx_bd_rd r1 -> tx_bd_tail r' = (tx_bd_tail r + Z.of_nat k) mod n ->
      sk ++ pending n r' = pending n r ->
      let s' := mkState (num_tadma_buffers s) (<[i := r']> (streams s)) (regs s) pk by_ (stopped s) (freed s ++ sk) in
      state_ok accepted s' /\ length (streams s') = length (streams s)
      /\ forall r0, Some r = Some r0 -> exists r2 l, streams s' !! i = Some r2 /\ pending n r0 = l ++ pending n r2
         /\ freed s' = freed s ++ l).
  { intros r' sk pk by_ A1 A2 A3 A4 A5 s'. split; [|split].
    - split; cbn [s' num_tadma_buffers streams freed].
      + exact Hn.
      + apply Forall_insert; [by apply Forall_lookup|]. unfold ring_ok. rewrite A1, A2, A3, A4. cbn.
        split_and!; try lia; apply Z.mod_pos_bound; lia.
      + apply Forall_insert; [apply Hs|]. rewrite <- A5 in Hnz. by apply list.Forall_app in Hnz as [_ Hnz].
      + destruct (concat_insert _ i r r' Ei) as [C1 C2]. by rewrite Hall, C1, C2, <- A5, !app_assoc.
    - cbn. by rewrite length_insert.
    - intros r0 [= <-]. exists r', sk. cbn. by rewrite list_lookup_insert_eq by done. }
  destruct (truthy (Z.of_nat k)) eqn:Ek; unfold truthy in Ek; bprop.
  - unfold tadma_xmit_done. cbn [streams set_streams]. rewrite list_lookup_insert_eq by done.
    change (tx_bd_head r1) with (tx_bd_head r). change (tx_bd_tail r1) with (tx_bd_tail r).
    rewrite (proj2 (Z.eqb_neq (tx_bd_head r) (tx_bd_tail r))) by (intros Hx; rewrite Hx, Z.sub_diag, Z.mod_0_l in Hk; lia).
    assert (Hr1 : ring_ok n (set_rd (tx_bd_tail r1) r1)) by (split_and!; cbn; lia).
    pose proof (done_loop_pending (Z.to_nat (Z.of_nat k)) r1 0 0 [] Hr1) as Hdone. 
    change (num_tadma_buffers (set_streams _ s)) with (num_tadma_buffers s). rewrite Hn.
    destruct (done_loop _ _ _ _ _ _) as [[[r' pk] z] sk].
    assert (Hp1 : pending n r1 = pending n r) by apply pending_rd. rewrite Hp1 in Hdone.
    destruct Hdone as (D1 & D2 & D3 & D4 & D5); [unfold used_bds; cbn; lia|exact Hnz|].
    rewrite list_insert_insert_eq. rewrite Nat2Z.id in D4. apply Hfin; [done|done|done|exact D4|exact D5].
  - assert (k = 0%nat) as -> by lia. destruct (Hfin r1 [] (tx_packets s) (tx_bytes s)) as (F1 & F2 & F3); try done.
    { cbn. by rewrite Z.add_0_r, Z.mod_small by lia. }
    { apply pending_rd. }
    rewrite app_nil_r in F1, F3. by split_and!.
Qed.

(** A packet without fragments: it is taken, at the end of its ring or, without a stream, by giving
    it back at once; or nothing changes but the queue. *)
Lemma xmit_ok accepted sid skb phys fp s ret s' : state_ok accepted s ->
  skb_frags skb = [] -> skb_ptr skb <> 0 ->
  axienet_tadma_xmit sid skb phys fp s = (ret, s') ->
  state_ok (match ret with NETDEV_TX_OK => accepted ++ [skb_ptr skb] | NETDEV_TX_BUSY => accepted end) s'.
Proof.
  intros Hs Hfr Hp H. unfold axienet_tadma_xmit in H. rewrite Hfr in H. cbn [length zip zip_with fold_left put_frags] in H.
  destruct (sid <? 0).
  { injection H as <- <-. destruct Hs as [Hn Hr Hz Ha]. split; [done|done|done|]. cbn [freed free_skb streams].
    rewrite Ha, <- !app_assoc. apply Permutation_app_head, Permutation_app_comm. }
  destruct (streams s !! Z.to_nat sid) as [r|] eqn:Ei; [|by injection H as <- <-].
  destruct (negb _); [by injection H as <- <-|].
  destruct (_ =? tx_bd_tail r) eqn:Efull in H; [injection H as <- <-; split; apply Hs|]. bprop.
  destruct phys as [phys|]; [|by injection H as <- <-]. cbv zeta in H. injection H as <- <-.
  destruct Hs as [Hn Hr Hz Ha]. rewrite list.Forall_lookup in Hr, Hz.
  pose proof (Hr _ _ Ei) as Hri. specialize (Hz _ _ Ei) as Hzi. pose proof Hri as (_ & Hh & _).
  cbn [num_tadma_buffers set_streams set_regs iow] in *. rewrite Hn in *.
  change (Z.of_nat 0) with 0 in *. cbn [Z.add] in Efull. rewrite next_mod in Efull by lia.
  cbn [Z.eqb].
  match goal with |- context [put_bd n ?x r] => set (b := x) end.
  destruct (put_bd_pending b r Hri Efull) as [Hok Hpe]. change (tx_skb b) with (skb_ptr skb) in Hpe.
  split; cbn [num_tadma_buffers streams freed set_streams set_regs iow].
  - exact Hn.
  - apply Forall_insert; [by apply Forall_lookup|exact Hok].
  - apply Forall_insert; [by apply Forall_lookup|]. rewrite Hpe. apply list.Forall_app. split; [exact Hzi|by constructor].
  - destruct (concat_insert _ _ r (put_bd n b r) Ei) as [C1 C2]. rewrite Ha, C1, C2, Hpe, <- !app_assoc.
    do 2 apply Permutation_app_head. apply Permutation_app_comm.
Qed.

Lemma irq_loop_ok accepted is_ : forall s, state_ok accepted s -> state_ok accepted (fold_left irq_stream is_ s).
Proof.
  induction is_ as [|i is_ IH]; intros s Hs; [done|]. cbn [fold_left]. apply IH. by apply irq_stream_ok.
Qed.

Lemma irq_ok accepted s : state_ok accepted s -> state_ok accepted (tadma_irq s).
Proof.
  intros Hs. unfold tadma_irq. set (s1 := iow _ _ s).
  assert (H1 : state_ok accepted s1) by (split; apply Hs).
  assert (H2 : forall b x, state_ok accepted x -> state_ok accepted (set_stopped b x)) by (intros b x []; by split).
  apply H2. case_if; [|done]. by apply irq_loop_ok.
Qed.
End Ring.

(** ** Runs: packets without fragments are sent, interrupts come in, the hardware does as it likes *)
Inductive tx_step : list Z * tx_state -> list Z * tx_state -> Prop :=
| step_xmit acc s sid skb phys fp ret s' :
    skb_frags skb = [] -> skb_ptr skb <> 0 ->
    axienet_tadma_xmit sid skb phys fp s = (ret, s') ->
    tx_step (acc, s) (match ret with NETDEV_TX_OK => acc ++ [skb_ptr skb] | NETDEV_TX_BUSY => acc end, s')
| step_irq acc s : tx_step (acc, s) (acc, tadma_irq s)
| step_hw acc s r : tx_step (acc, s) (acc, set_regs r s).

Lemma rings_opened_ok n k bds r : 1 <= n <= 256 -> length bds = Z.to_nat n -> state_ok n [] (open_rings n k bds r).
Proof.
  intros Hn Hl. assert (H0 : pending n (mkTx bds 0 0 0) = []).
  { unfold pending, used_bds. cbn. by rewrite Z.mod_0_l by lia. }
  split; cbn [open_rings num_tadma_buffers streams freed].
  - done.
  - apply list.Forall_forall. intros x Hx. apply list_elem_of_In, repeat_spec in Hx as ->. split_and!; cbn; try done; lia.
  - apply list.Forall_forall. intros x Hx. apply list_elem_of_In, repeat_spec in Hx as ->. by rewrite H0.
  - induction k as [|k IH]; [done|]. cbn [repeat map concat]. by rewrite H0.
Qed.

Lemma run_ok n acc s : 1 <= n <= 256 -> forall k bds r, length bds = Z.to_nat n ->
  rtc tx_step ([], open_rings n k bds r) (acc, s) -> state_ok n acc s.
Proof.
  intros Hn k bds r Hl. assert (H0 := rings_opened_ok n k bds r Hn Hl). revert H0. generalize (open_rings n k bds r).
  intros s0 H0 H. change (state_ok n (fst (acc, s)) (snd (acc, s))).
  assert (Hstart : state_ok n (fst ([] : list Z, s0)) (snd ([] : list Z, s0))) by exact H0.
  induction H as [x|x y z Hxy _ IH]; [done|]. apply IH. clear IH z H0. destruct Hxy; cbn [fst snd] in *.
  - by eapply xmit_ok.
  - by apply irq_ok.
  - split; apply Hstart.
Qed.

(** C22: In any run of packets without fragments, interrupts and changes of the hardware, every packet
    the driver accepted is given back or still waits in the ring of its stream: none is lost and
    none given back twice; a ring never holds more than one buffer less than its size. *)
Theorem tadma_packets_conserved n k bds r acc s :
  1 <= n <= 256 -> length bds = Z.to_nat n -> rtc tx_step ([], open_rings n k bds r) (acc, s) ->
  acc ≡ₚ freed s ++ concat (map (pending n) (streams s))
  /\ (NoDup acc -> NoDup (freed s))
  /\ Forall (fun q => tx_bd_rd q = tx_bd_tail q /\ Z.of_nat (length (pending n q)) <= n - 1) (streams s).
Proof.
  intros Hn Hl H. destruct (run_ok n acc s Hn k bds r Hl H) as [_ Hr _ Ha]. split; [exact Ha|]. split.
  - intros Hd. rewrite Ha in Hd. by apply list.NoDup_app in Hd as [Hd _].
  - eapply list.Forall_impl; [exact Hr|]. intros q (_ & Hh & Ht & Hrd). split; [exact Hrd|].
    unfold pending. rewrite length_ring_from by done. unfold used_bds.
    pose proof (Z.mod_pos_bound (tx_bd_head q - tx_bd_tail q) n). lia.
Qed.

Definition pm_word (wr rd : Z) : Z := (wr <<< XTADMA_PM_WR_SHIFT) ||| rd.
Definition hw_pointers (wr rd : Z) (o : Z) : Z := if o =? XTADMA_PM_OFFSET then pm_word wr rd else 0.
Definition demo_rings : tx_state := open_rings 4 2 (repeat zero_bd 4) (hw_pointers 1 0).
Definition demo_xmit (p : Z) (frags : list Z) (s : tx_state) : netdev_tx * tx_state :=
  axienet_tadma_xmit 0 (mkSkb p 60 frags) (Some 0x1000) (map (fun _ => 0x2000) frags) s.
(** Both are sent; the hardware has fetched the first. *)
Definition demo_sent : tx_state := snd (demo_xmit 101 [] (snd (demo_xmit 100 [] demo_rings))).
Definition demo_fetched : tx_state :=
  iow (XTADMA_ALM_OFFSET + 4) 0 (iow XTADMA_INT_STA_OFFSET FFI_INT demo_sent).

Lemma demo_run : rtc tx_step ([], demo_rings) ([100; 101], tadma_irq demo_fetched).
Proof.
  apply (rtc_l _ _ ([] ++ [100], snd (demo_xmit 100 [] demo_rings))).
  { eapply (step_xmit [] demo_rings 0 (mkSkb 100 60 []) (Some 0x1000) [] NETDEV_TX_OK); [done|done|vm_compute; reflexivity]. }
  apply (rtc_l _ _ ([100] ++ [101], demo_sent)).
  { eapply (step_xmit [100] _ 0 (mkSkb 101 60 []) (Some 0x1000) [] NETDEV_TX_OK); [done|done|vm_compute; reflexivity]. }
  apply (rtc_l _ _ ([100; 101], demo_fetched)).
  { exact (step_hw [100; 101] demo_sent (regs demo_fetched)). }
  apply (rtc_l _ _ ([100; 101], tadma_irq demo_fetched)); [eapply step_irq|apply rtc_refl].
Qed.

Lemma tadma_packets_conserved_witness :
  freed (tadma_irq demo_fetched) = [100] /\ map (pending 4) (streams (tadma_irq demo_fetched)) = [[101]; []]
  /\ [100; 101] ≡ₚ freed (tadma_irq demo_fetched) ++ concat (map (pending 4) (streams (tadma_irq demo_fetched)))
  /\ NoDup (freed (tadma_irq demo_fetched)).
Proof.
  destruct (tadma_packets_conserved 4 2 (repeat zero_bd 4) (hw_pointers 1 0) [100; 101] (tadma_irq demo_fetched))
    as (H1 & H2 & _); [lia|done|exact demo_run|].
  split; [by vm_compute|]. split; [by vm_compute|]. split; [exact H1|]. apply H2.
  apply (bool_decide_unpack _). vm_compute. exact I.
Defined.

(** The room of a ring is only compared for equality: while the interrupt has not yet taken back
    two packets, a packet of three parts passes the check, and the head of the ring overtakes the
    tail: the two packets are never given back. *)
Theorem tadma_xmit_overruns_ring :
  let s := set_regs (hw_pointers 3 2) demo_sent in
  map (pending 4) (streams s) = [[100; 101]; []]
  /\ let '(ret, s') := demo_xmit 102 [500; 500] s in
     ret = NETDEV_TX_OK /\ freed s' = [] /\ map (pending 4) (streams s') = [[102]; []].
Proof. vm_compute. split_and!; reflexivity. Qed.

(** ** What the hardware is told *)

(** The word of the only descriptor of a packet. *)
Definition linear_word (hi len : Z) : Z :=
  total_size len (fetch_size len (hi ||| (XTADMA_ALM_SOP ||| XTADMA_ALM_EOP))) ||| XTADMA_ALM_UFF.

Lemma linear_word_eq hi len : 0 <= hi < 256 -> 0 <= len < 2040 ->
  linear_word hi len = ((hi <<< 0) ||| ((len / 8 + 1) <<< 8)) ||| ((len <<< 16) ||| (0xD <<< 28)).
Proof.
  intros Hh Hl. assert (Ht : 0 <= len / 8 + 1 < 2 ^ 8).
  { split; [pose proof (Z.div_pos len 8); lia|]. pose proof (Z.div_lt_upper_bound len 8 255). lia. }
  assert (Hs : u32 (len <<< 16) = len <<< 16) by (apply u32_small; rewrite Z.shiftl_mul_pow2 by lia; lia).
  unfold linear_word, total_size, fetch_size, XTADMA_ALM_FETCH_SZ_SHIFT, XTADMA_ALM_TOT_PKT_SZ_BY8_SHIFT. rewrite Hs.
  change XTADMA_ALM_FETCH_SZ_MASK with (Z.ones 12 <<< 16). change XTADMA_ALM_TOT_PKT_SZ_BY8_MASK with (Z.ones 8 <<< 8).
  rewrite (place_mask len 12 16), (place_mask _ 8 8 Ht) by lia. rewrite Z.shiftl_0_r.
  assert (Hhi : hi = hi &&& 0xff) by (change 0xff with (Z.ones 8); rewrite Z.land_ones, Z.mod_small; lia).
  assert (Hlen : len <<< 16 = (len <<< 16) &&& (Z.ones 12 <<< 16)) by (symmetry; apply place_mask; lia).
  rewrite !Z.land_lor_distr_l. rewrite Hhi at 1. rewrite Hlen at 1. rewrite <- !Z.land_assoc.
  change (255 &&& (not32 (Z.ones 12 <<< 16) &&& not32 (Z.ones 8 <<< 8))) with 0xff.
  change ((Z.ones 12 <<< 16) &&& not32 (Z.ones 8 <<< 8)) with (Z.ones 12 <<< 16). rewrite <- Hhi, <- Hlen.
  change (XTADMA_ALM_SOP &&& (not32 (Z.ones 12 <<< 16) &&& not32 (Z.ones 8 <<< 8))) with XTADMA_ALM_SOP.
  change (XTADMA_ALM_EOP &&& (not32 (Z.ones 12 <<< 16) &&& not32 (Z.ones 8 <<< 8))) with XTADMA_ALM_EOP.
  change (13 <<< 28) with ((XTADMA_ALM_SOP ||| XTADMA_ALM_EOP) ||| XTADMA_ALM_UFF).
  apply Z.bits_inj. intros i. rewrite !Z.lor_spec.
  destruct (Z.testbit hi i), (Z.testbit (len <<< 16) i), (Z.testbit ((len / 8 + 1) <<< 8) i),
    (Z.testbit XTADMA_ALM_SOP i), (Z.testbit XTADMA_ALM_EOP i), (Z.testbit XTADMA_ALM_UFF i); done.
Qed.

Lemma linear_word_fields hi len : 0 <= hi < 256 -> 0 <= len < 2040 ->
  let cfg := linear_word hi len in
  field cfg 0xFF 0 = hi
  /\ field cfg XTADMA_ALM_TOT_PKT_SZ_BY8_MASK XTADMA_ALM_TOT_PKT_SZ_BY8_SHIFT = len / 8 + 1
  /\ field cfg XTADMA_ALM_FETCH_SZ_MASK XTADMA_ALM_FETCH_SZ_SHIFT = len
  /\ cfg &&& (XTADMA_ALM_UFF ||| XTADMA_ALM_SOP ||| XTADMA_ALM_EOP) = XTADMA_ALM_UFF ||| XTADMA_ALM_SOP ||| XTADMA_ALM_EOP.
Proof.
  intros Hh Hl cfg. unfold cfg. rewrite linear_word_eq by done.
  assert (Ht : 0 <= len / 8 + 1 < 2 ^ 8).
  { split; [pose proof (Z.div_pos len 8); lia|]. pose proof (Z.div_lt_upper_bound len 8 255). lia. }
  assert (Hl2 : 0 <= len < 2 ^ 12) by lia.
  rewrite !field_lor. split_and!.
  - change 0xFF with (Z.ones 8 <<< 0). rewrite (field_place hi 8 0), (field_elsewhere _ 8 8), (field_elsewhere len 12 16),
      (field_elsewhere 13 4 28), !Z.lor_0_r by (lia || done). done.
  - change XTADMA_ALM_TOT_PKT_SZ_BY8_MASK with (Z.ones 8 <<< 8). change XTADMA_ALM_TOT_PKT_SZ_BY8_SHIFT with 8.
    rewrite (field_elsewhere hi 8 0), (field_place _ 8 8), (field_elsewhere len 12 16),
      (field_elsewhere 13 4 28), Z.lor_0_l, !Z.lor_0_r by (lia || done). done.
  - change XTADMA_ALM_FETCH_SZ_MASK with (Z.ones 12 <<< 16). change XTADMA_ALM_FETCH_SZ_SHIFT with 16.
    rewrite (field_elsewhere hi 8 0), (field_elsewhere _ 8 8), (field_place len 12 16),
      (field_elsewhere 13 4 28), !Z.lor_0_l, !Z.lor_0_r by (lia || done). done.
  - assert (Hz : forall v w sh, 0 <= v < 2 ^ w -> 0 <= w -> 0 <= sh -> (Z.ones w <<< sh) &&& (XTADMA_ALM_UFF ||| XTADMA_ALM_SOP ||| XTADMA_ALM_EOP) = 0 ->
      (v <<< sh) &&& (XTADMA_ALM_UFF ||| XTADMA_ALM_SOP ||| XTADMA_ALM_EOP) = 0).
    { intros v w sh Hv Hw Hs Hm. pose proof (field_elsewhere v w sh _ 0 Hv Hw Hs Hm) as H. unfold field in H.
      by rewrite Z.shiftr_0_r in H. }
    rewrite !Z.land_lor_distr_l. rewrite (Hz hi 8 0), (Hz _ 8 8 Ht), (Hz len 12 16) by (lia || done). done.
Qed.

Lemma alm_offset_range s sid wr : 1 <= num_tadma_buffers s -> 0 <= sid ->
  XTADMA_ALM_OFFSET <= tadma_stream_alm_offset s sid wr.
Proof.
  intros Hn Hs. unfold tadma_stream_alm_offset.
  assert (0 <= u32 (wr + num_tadma_buffers s - 1) &&& (num_tadma_buffers s - 1)) by (apply Z.land_nonneg; right; lia). nia.
Qed.

(** The pointers with the write pointer moved. *)
Lemma pm_moved pm k : 0 <= k <= 8 ->
  let wr := field pm XTADMA_PM_WR_MASK XTADMA_PM_WR_SHIFT in
  let pm' := (pm &&& not32 XTADMA_PM_WR_MASK) ||| ((u32 (wr + 1) &&& (2 ^ k - 1)) <<< XTADMA_PM_WR_SHIFT) in
  field pm' XTADMA_PM_WR_MASK XTADMA_PM_WR_SHIFT = (wr + 1) mod 2 ^ k
  /\ pm' &&& XTADMA_PM_RD_MASK = pm &&& XTADMA_PM_RD_MASK.
Proof.
  intros Hk wr pm'.
  assert (Hwr : 0 <= wr < 256).
  { unfold wr, field. rewrite Z.shiftr_land. change (XTADMA_PM_WR_MASK >>> XTADMA_PM_WR_SHIFT) with (Z.ones 8).
    rewrite Z.land_ones by lia. apply Z.mod_pos_bound. lia. }
  assert (Hv : u32 (wr + 1) &&& (2 ^ k - 1) = (wr + 1) mod 2 ^ k).
  { rewrite u32_small by lia. replace (2 ^ k - 1) with (Z.ones k) by (rewrite Z.ones_equiv; lia). apply Z.land_ones. lia. }
  assert (Hb : 0 <= (wr + 1) mod 2 ^ k < 2 ^ 8).
  { pose proof (Z.mod_pos_bound (wr + 1) (2 ^ k)). pose proof (Z.pow_le_mono_r 2 k 8). lia. }
  unfold pm'. rewrite Hv. change XTADMA_PM_WR_MASK with (Z.ones 8 <<< 16). change XTADMA_PM_WR_SHIFT with 16. split.
  - rewrite field_lor, field_place by lia. unfold field. rewrite <- Z.land_assoc.
    change (not32 (Z.ones 8 <<< 16) &&& (Z.ones 8 <<< 16)) with 0. by rewrite Z.land_0_r, Z.shiftr_0_l.
  - rewrite Z.land_lor_distr_l, <- Z.land_assoc. change (not32 (Z.ones 8 <<< 16) &&& XTADMA_PM_RD_MASK) with XTADMA_PM_RD_MASK.
    pose proof (field_elsewhere ((wr + 1) mod 2 ^ k) 8 16 XTADMA_PM_RD_MASK 0 Hb) as H. unfold field in H.
    rewrite Z.shiftr_0_r in H. rewrite H by (lia || done). apply Z.lor_0_r.
Qed.

(** A packet without fragments that is accepted is described to the hardware in the slot before
    the write pointer: the address in two parts, its length, its size in units of 8 bytes, that it
    starts and ends here and that the slot is in use; the write pointer moves on by one, the read
    pointer stays. *)
Theorem tadma_xmit_describes sid skb phys fp s s' k :
  num_tadma_buffers s = 2 ^ k -> 0 <= k <= 8 -> 0 <= sid < 128 -> skb_frags skb = [] ->
  0 <= skb_headlen skb < 2040 -> 0 <= phys < 2 ^ 40 ->
  axienet_tadma_xmit sid skb (Some phys) fp s = (NETDEV_TX_OK, s') ->
  let pm := regs s (XTADMA_PM_OFFSET + sid * 4) in
  let wr := field pm XTADMA_PM_WR_MASK XTADMA_PM_WR_SHIFT in
  let slot := tadma_stream_alm_offset s sid wr in
  let cfg := regs s' (slot + 4) in
  let pm' := regs s' (XTADMA_PM_OFFSET + sid * 4) in
  regs s' slot + 2 ^ 32 * field cfg 0xFF 0 = phys
  /\ field cfg XTADMA_ALM_FETCH_SZ_MASK XTADMA_ALM_FETCH_SZ_SHIFT = skb_headlen skb
  /\ field cfg XTADMA_ALM_TOT_PKT_SZ_BY8_MASK XTADMA_ALM_TOT_PKT_SZ_BY8_SHIFT = skb_headlen skb / 8 + 1
  /\ cfg &&& (XTADMA_ALM_UFF ||| XTADMA_ALM_SOP ||| XTADMA_ALM_EOP) = XTADMA_ALM_UFF ||| XTADMA_ALM_SOP ||| XTADMA_ALM_EOP
  /\ field pm' XTADMA_PM_WR_MASK XTADMA_PM_WR_SHIFT = (wr + 1) mod 2 ^ k
  /\ pm' &&& XTADMA_PM_RD_MASK = pm &&& XTADMA_PM_RD_MASK.
Proof.
  intros Hn Hk Hsid Hfr Hlen Hphys H pm wr slot cfg pm'. unfold axienet_tadma_xmit in H. rewrite Hfr in H.
  cbn [length zip zip_with fold_left put_frags] in H. cbv zeta in H. fold pm in H.
  change ((pm &&& XTADMA_PM_WR_MASK) >>> XTADMA_PM_WR_SHIFT) with wr in H. fold slot in H.
  rewrite (proj2 (Z.ltb_ge sid 0)) in H by lia.
  destruct (streams s !! Z.to_nat sid) as [r|]; [|done]. destruct (negb _); [done|]. destruct (_ =? _); [done|].
  change (Z.of_nat 0 =? 0) with true in H. cbv iota in H. rewrite Hn in H.
  change (total_size (skb_headlen skb) _ ||| XTADMA_ALM_UFF) with (linear_word (u32 (phys >>> 32)) (skb_headlen skb)) in H.
  injection H as <-. subst cfg pm'. cbn [regs set_streams iow set_regs].
  assert (Hslot : XTADMA_ALM_OFFSET <= slot).
  { apply alm_offset_range; [|lia]. rewrite Hn. pose proof (Z.pow_pos_nonneg 2 k). lia. }
  unfold XTADMA_ALM_OFFSET in Hslot.
  rewrite !(proj2 (Z.eqb_neq _ (XTADMA_PM_OFFSET + sid * 4))) by (unfold XTADMA_PM_OFFSET; lia).
  rewrite !Z.eqb_refl, (proj2 (Z.eqb_neq slot (slot + 4))) by lia.
  assert (Hhi : u32 (phys >>> 32) = phys / 2 ^ 32 /\ 0 <= phys / 2 ^ 32 < 256).
  { rewrite Z.shiftr_div_pow2 by lia. assert (0 <= phys / 2 ^ 32 < 256).
    { split; [apply Z.div_pos; lia|apply Z.div_lt_upper_bound; lia]. } by rewrite u32_small by lia. }
  destruct Hhi as [-> Hhi]. destruct (linear_word_fields _ _ Hhi Hlen) as (F1 & F2 & F3 & F4).
  destruct (pm_moved pm k Hk) as [P1 P2]. split_and!; try assumption.
  rewrite F1. unfold u32. pose proof (Z.div_mod phys (2 ^ 32)). lia.
Qed.

Lemma tadma_xmit_describes_witness :
  let s' := snd (demo_xmit 100 [] demo_rings) in
  let cfg := regs s' (XTADMA_ALM_OFFSET + 4) in
  field cfg XTADMA_ALM_FETCH_SZ_MASK XTADMA_ALM_FETCH_SZ_SHIFT = 60
  /\ field (regs s' XTADMA_PM_OFFSET) XTADMA_PM_WR_MASK XTADMA_PM_WR_SHIFT = 2.
Proof.
  destruct (tadma_xmit_describes 0 (mkSkb 100 60 []) 0x1000 [] demo_rings (snd (demo_xmit 100 [] demo_rings)) 2)
    as (_ & H1 & _ & _ & H2 & _); [done|lia|lia|done|cbn; lia|lia|vm_compute; reflexivity|].
  split; [exact H1|exact H2].
Defined.
