(* ===== verification/QbvShaper.v ===== *)
(** * The time-aware shaper: gate control lists

    Models src/driver/xilinx/xilinx_tsn_shaper.c, which writes a schedule of gates to the registers of a
    port and reads the operative one back, and what src/app/misc-utils/qbv_sched.c makes of a
    configuration. The registers are a function from offsets to words. The theorem states that a
    schedule written and taken over by the core is the schedule read back. *)
From S2P Require Import Prelude.

Definition CTRL_LIST_BASE : Z := 0x1000.
Definition ADMIN_CTRL_LIST (n : Z) : Z := CTRL_LIST_BASE + n * 8.
Definition ACL_GATE_STATE_SHIFT : Z := 8.
Definition ACL_GATE_STATE_MASK : Z := 0x7.
Definition ADMIN_CTRL_LIST_TIME (n : Z) : Z := ADMIN_CTRL_LIST n + 4.
Definition OPER_CTRL_LIST (n : Z) : Z := CTRL_LIST_BASE + 0x800 + n * 8.
Definition OPER_CTRL_LIST_TIME (n : Z) : Z := OPER_CTRL_LIST n + 4.
Definition CTRL_LIST_TIME_INTERVAL_MASK : Z := 0xFFFFF.
Definition CONFIG_CHANGE : Z := 0x0.
Definition CC_ADMIN_GATE_STATE_SHIFT : Z := 0x7.
Definition CC_ADMIN_CTRL_LIST_LENGTH_SHIFT : Z := 8.
Definition CC_ADMIN_CTRL_LIST_LENGTH_MASK : Z := 0x1FF.
Definition CC_ADMIN_CONFIG_CHANGE_BIT : Z := BIT 30.
Definition CC_ADMIN_GATE_ENABLE_BIT : Z := BIT 31.
Definition GATE_STATE : Z := 0x8.
Definition GS_OPER_CTRL_LIST_LENGTH_SHIFT : Z := 8.
Definition GS_OPER_CTRL_LIST_LENGTH_MASK : Z := 0x3F.
Definition GS_SUP_MAX_LIST_LENGTH_SHIFT : Z := 16.
Definition GS_SUP_MAX_LIST_LENGTH_MASK : Z := 0x3F.
Definition ADMIN_CYCLE_TIME_DENOMINATOR : Z := 0x18.
Definition ADMIN_BASE_TIME_NS : Z := 0x20.
Definition ADMIN_BASE_TIME_SEC : Z := 0x24.
Definition ADMIN_BASE_TIME_SECS : Z := 0x28.
Definition INT_STATUS : Z := 0x30.
Definition INT_CLEAR : Z := 0x38.
Definition PORT_STATUS : Z := 0x3c.
Definition OPER_CYCLE_TIME_DENOMINATOR : Z := 0x58.
Definition CYCLE_TIME_DENOMINATOR_MASK : Z := 0x3FFFFFFF.
Definition OPER_BASE_TIME_NS : Z := 0x60.
Definition OPER_BASE_TIME_NS_MASK : Z := 0x3FFFFFFF.
Definition OPER_BASE_TIME_SEC : Z := 0x64.
Definition OPER_BASE_TIME_SECS : Z := 0x68.
Definition BASE_TIME_SECS_MASK : Z := 0xFFFF.
Definition GS_BE_OPEN : Z := BIT 0.
Definition GS_RE_OPEN : Z := BIT 1.
Definition GS_ST_OPEN : Z := BIT 2.
Definition QBV_MAX_ENTRIES : Z := 256.
Definition EALREADY : Z := 114.

(** [struct qbv_info]; the two arrays have [QBV_MAX_ENTRIES] elements. *)
Record qbv_info := mkQbv {
  qbv_port : Z;
  qbv_force : Z;
  cycle_time : Z;
  ptp_time_sec : Z;
  ptp_time_ns : Z;
  list_length : Z;
  acl_gate_state : list Z;
  acl_gate_time : list Z }.

(** The registers of the shaper. *)
Definition qbv_regs : Type := Z -> Z.
Definition axienet_qbv_ior (r : qbv_regs) (offset : Z) : Z := r offset.
Definition axienet_qbv_iow (offset value : Z) (r : qbv_regs) : qbv_regs := fun o => if o =? offset then u32 value else r o.

(** The bits of the gates in hardware: the scheduled queue is the last of two or three. *)
Definition axienet_map_gs_to_hw (num_tc gs : Z) : Z :=
  let st_queue := if num_tc =? 2 then 1 else 2 in
  let m := if truthy (gs &&& GS_BE_OPEN) then 1 <<< 0 else 0 in
  let m := if truthy (gs &&& GS_ST_OPEN) then m ||| (1 <<< st_queue) else m in
  if (num_tc =? 3) && truthy (gs &&& GS_RE_OPEN) then m ||| (1 <<< 1) else m.

(** The loop over the entries; its index has 16 bits. [None] where the code reads behind the arrays. *)
Fixpoint program_entries (num_tc : Z) (qbv : qbv_info) (rounds : nat) (i : Z) (r : qbv_regs) : option qbv_regs :=
  if i <? list_length qbv then
    match rounds with
    | O => None
    | S rounds' =>
        gs ← acl_gate_state qbv !! Z.to_nat i;
        t ← acl_gate_time qbv !! Z.to_nat i;
        program_entries num_tc qbv rounds' (u16 (i + 1))
          (axienet_qbv_iow (ADMIN_CTRL_LIST_TIME i) (t &&& CTRL_LIST_TIME_INTERVAL_MASK)
            (axienet_qbv_iow (ADMIN_CTRL_LIST i) ((axienet_map_gs_to_hw num_tc gs &&& ACL_GATE_STATE_MASK) <<< ACL_GATE_STATE_SHIFT) r))
    end
  else Some r.

Definition with_length (n cc : Z) : Z :=
  (cc &&& not32 (CC_ADMIN_CTRL_LIST_LENGTH_MASK <<< CC_ADMIN_CTRL_LIST_LENGTH_SHIFT))
  ||| ((n &&& CC_ADMIN_CTRL_LIST_LENGTH_MASK) <<< CC_ADMIN_CTRL_LIST_LENGTH_SHIFT).

(** The number of rounds is the length of the arrays: one more round leaves them. *)
Definition axienet_set_schedule (num_tc : Z) (qbv : qbv_info) (r : qbv_regs) : option (Z * qbv_regs) :=
  if cycle_time qbv =? 0
  then Some (0, axienet_qbv_iow CONFIG_CHANGE ((0 &&& not32 CC_ADMIN_GATE_ENABLE_BIT) ||| CC_ADMIN_GATE_STATE_SHIFT) r)
  else
    let pending := truthy (axienet_qbv_ior r PORT_STATUS &&& 1) in
    if pending && negb (truthy (qbv_force qbv)) then Some (- EALREADY, r)
    else
      let r := if pending then axienet_qbv_iow CONFIG_CHANGE (0 &&& not32 CC_ADMIN_GATE_ENABLE_BIT) r else r in
      let r := axienet_qbv_iow ADMIN_CYCLE_TIME_DENOMINATOR (cycle_time qbv &&& CYCLE_TIME_DENOMINATOR_MASK) r in
      let r := axienet_qbv_iow ADMIN_BASE_TIME_NS (ptp_time_ns qbv) r in
      let r := axienet_qbv_iow ADMIN_BASE_TIME_SEC (ptp_time_sec qbv &&& 0xFFFFFFFF) r in
      let r := axienet_qbv_iow ADMIN_BASE_TIME_SECS ((ptp_time_sec qbv >>> 32) &&& BASE_TIME_SECS_MASK) r in
      let cc := with_length (list_length qbv) (axienet_qbv_ior r CONFIG_CHANGE) in
      r ← program_entries num_tc qbv (S (Z.to_nat QBV_MAX_ENTRIES)) 0 r;
      let r := axienet_qbv_iow INT_STATUS 0 r in
      Some (0, axienet_qbv_iow CONFIG_CHANGE ((cc ||| CC_ADMIN_CONFIG_CHANGE_BIT) ||| CC_ADMIN_GATE_ENABLE_BIT) r).

(** In a system of two queues the scheduled queue is bit 1; the user's bit is 2. *)
Definition gs_to_user (num_tc hw : Z) : Z := if (num_tc =? 2) && (hw =? 2) then 4 else hw.

(** Storing the entries read; [None] where the code writes behind the arrays. *)
Fixpoint read_entries (num_tc : Z) (r : qbv_regs) (n : nat) (i : nat) (qbv : qbv_info) : option qbv_info :=
  match n with
  | O => Some qbv
  | S n' =>
      if Z.of_nat i <? QBV_MAX_ENTRIES then
        let state := (axienet_qbv_ior r (OPER_CTRL_LIST (Z.of_nat i)) >>> ACL_GATE_STATE_SHIFT) &&& ACL_GATE_STATE_MASK in
        let t := axienet_qbv_ior r (OPER_CTRL_LIST_TIME (Z.of_nat i)) &&& CTRL_LIST_TIME_INTERVAL_MASK in
        read_entries num_tc r n' (S i)
          (mkQbv (qbv_port qbv) (qbv_force qbv) (cycle_time qbv) (ptp_time_sec qbv) (ptp_time_ns qbv) (list_length qbv)
             (<[i := gs_to_user num_tc state]> (acl_gate_state qbv)) (<[i := t]> (acl_gate_time qbv)))
      else None
  end.

Definition axienet_get_schedule (num_tc : Z) (r : qbv_regs) (qbv : qbv_info) : option qbv_info :=
  if negb (truthy (axienet_qbv_ior r CONFIG_CHANGE &&& CC_ADMIN_GATE_ENABLE_BIT))
  then Some (mkQbv (qbv_port qbv) (qbv_force qbv) 0 (ptp_time_sec qbv) (ptp_time_ns qbv) (list_length qbv) (acl_gate_state qbv) (acl_gate_time qbv))
  else
    let n := (axienet_qbv_ior r GATE_STATE >>> CC_ADMIN_CTRL_LIST_LENGTH_SHIFT) &&& CC_ADMIN_CTRL_LIST_LENGTH_MASK in
    let cycle := axienet_qbv_ior r OPER_CYCLE_TIME_DENOMINATOR &&& CYCLE_TIME_DENOMINATOR_MASK in
    let ns := axienet_qbv_ior r OPER_BASE_TIME_NS &&& OPER_BASE_TIME_NS_MASK in
    let sec := axienet_qbv_ior r OPER_BASE_TIME_SEC ||| ((axienet_qbv_ior r OPER_BASE_TIME_SECS &&& BASE_TIME_SECS_MASK) <<< 32) in
    read_entries num_tc r (Z.to_nat n) 0
      (mkQbv (qbv_port qbv) (qbv_force qbv) cycle sec ns n (acl_gate_state qbv) (acl_gate_time qbv)).

(** [axienet_qbv_irq] clears the interrupt. *)
Definition axienet_qbv_irq (r : qbv_regs) : qbv_regs := axienet_qbv_iow INT_CLEAR 0 r.

(** ** The configuration program *)
Definition MAX_CYCLE_TIME : Z := 1000000000.

(** The settings of a port; state and time of the gates are ints, [now] the seconds of the clock. *)
Record qbv_cfg := mkQbvCfg { cfg_cycle_time : Z; cfg_start_sec : Z; cfg_start_ns : Z; cfg_gate_list : list (Z * Z) }.

(** What is handed to the driver, if anything: [old] is the content of the arrays before. *)
Definition qbv_prog (port force now : Z) (cfg : qbv_cfg) (old : list Z * list Z) : option qbv_info :=
  let c := u32 (cfg_cycle_time cfg) in
  let c := if c >? MAX_CYCLE_TIME then MAX_CYCLE_TIME else c in
  let sec := u64 (cfg_start_sec cfg) in
  let ns := u32 (cfg_start_ns cfg) in
  let '(sec, ns) := if sec =? 0 then (u64 (now + 1), 0) else (sec, ns) in
  let gates := cfg_gate_list cfg in
  if Z.of_nat (length gates) >? QBV_MAX_ENTRIES then None
  else Some (mkQbv port force c sec ns (Z.of_nat (length gates))
               (map (fun g => u32 (fst g)) gates ++ drop (length gates) (fst old))
               (map (fun g => u32 (Z.quot (snd g) 8)) gates ++ drop (length gates) (snd old))).

(** * Properties *)

Lemma iow_same o v r : axienet_qbv_iow o v r o = u32 v.
Proof. unfold axienet_qbv_iow. by rewrite Z.eqb_refl. Qed.
Lemma iow_other o v r o' : o' <> o -> axienet_qbv_iow o v r o' = r o'.
Proof. intros H. unfold axienet_qbv_iow. by rewrite (proj2 (Z.eqb_neq _ _)). Qed.

(** The gates fit into three bits. *)
Lemma hw_range num_tc gs : num_tc = 2 \/ num_tc = 3 -> 0 <= axienet_map_gs_to_hw num_tc gs < 2 ^ 3.
Proof. intros [-> | ->]; unfold axienet_map_gs_to_hw; cbn [Z.eqb Pos.eqb andb]; repeat case_if; vm_compute; split; congruence. Qed.

(** A schedule a port can take: as many entries as arrays and registers have, fields within their width. *)
Record schedule_ok (qbv : qbv_info) : Prop := mkSchedule {
  so_cycle : 0 < cycle_time qbv < 2 ^ 30;
  so_ns : 0 <= ptp_time_ns qbv < 2 ^ 30;
  so_sec : 0 <= ptp_time_sec qbv < 2 ^ 48;
  so_length : 0 <= list_length qbv <= QBV_MAX_ENTRIES;
  so_states : Z.of_nat (length (acl_gate_state qbv)) = QBV_MAX_ENTRIES;
  so_times : Z.of_nat (length (acl_gate_time qbv)) = QBV_MAX_ENTRIES;
  so_time : forall i t, acl_gate_time qbv !! i = Some t -> Z.of_nat i < list_length qbv -> 0 <= t < 2 ^ 20 }.

(** What the registers say about entry [i]. *)
Definition entry_written (num_tc : Z) (qbv : qbv_info) (r : qbv_regs) (i : nat) : Prop :=
  exists gs t, acl_gate_state qbv !! i = Some gs /\ acl_gate_time qbv !! i = Some t
    /\ r (ADMIN_CTRL_LIST (Z.of_nat i)) = axienet_map_gs_to_hw num_tc gs <<< ACL_GATE_STATE_SHIFT
    /\ r (ADMIN_CTRL_LIST_TIME (Z.of_nat i)) = t.

Lemma word_small v : 0 <= v < 2 ^ 3 -> u32 ((v &&& ACL_GATE_STATE_MASK) <<< ACL_GATE_STATE_SHIFT) = v <<< ACL_GATE_STATE_SHIFT.
Proof.
  intros H. change ACL_GATE_STATE_MASK with (Z.ones 3). rewrite Z.land_ones, Z.mod_small by lia.
  apply u32_small. rewrite Z.shiftl_mul_pow2 by (unfold ACL_GATE_STATE_SHIFT; lia). unfold ACL_GATE_STATE_SHIFT. lia.
Qed.

Lemma time_small t : 0 <= t < 2 ^ 20 -> u32 (t &&& CTRL_LIST_TIME_INTERVAL_MASK) = t.
Proof.
  intros H. change CTRL_LIST_TIME_INTERVAL_MASK with (Z.ones 20). rewrite Z.land_ones, Z.mod_small by lia. apply u32_small. lia.
Qed.

(** The loop writes the entries from [i] on and nothing else. *)
Lemma program_entries_spec num_tc qbv : num_tc = 2 \/ num_tc = 3 -> schedule_ok qbv -> forall rounds i r,
  Z.of_nat i <= list_length qbv -> list_length qbv < Z.of_nat (i + rounds) ->
  exists r', program_entries num_tc qbv rounds (Z.of_nat i) r = Some r'
    /\ (forall j, (i <= j)%nat -> Z.of_nat j < list_length qbv -> entry_written num_tc qbv r' j)
    /\ (forall o, o < ADMIN_CTRL_LIST (Z.of_nat i) \/ ADMIN_CTRL_LIST QBV_MAX_ENTRIES <= o -> r' o = r o).
Proof.
  intros Htc Hs. pose proof (so_length _ Hs) as Hl. unfold QBV_MAX_ENTRIES in *.
  induction rounds as [|rounds IH]; intros i r Hi Hr.
  - cbn [program_entries]. lia.
  - cbn [program_entries]. destruct (Z.ltb_spec (Z.of_nat i) (list_length qbv)) as [Hlt|Hge].
    + rewrite Nat2Z.id. pose proof (so_states _ Hs) as H1. pose proof (so_times _ Hs) as H2. unfold QBV_MAX_ENTRIES in *.
      destruct (lookup_lt_is_Some_2 (acl_gate_state qbv) i) as [gs Hgs]; [lia|].
      destruct (lookup_lt_is_Some_2 (acl_gate_time qbv) i) as [t Ht]; [lia|].
      rewrite Hgs, Ht. cbn [mbind option_bind]. rewrite u16_small by lia. replace (Z.of_nat i + 1) with (Z.of_nat (S i)) by lia.
      set (r1 := axienet_qbv_iow _ _ _). destruct (IH (S i) r1) as (r' & Hp & Hw & Hk); [lia|lia|]. exists r'. split; [exact Hp|]. split.
      * intros j Hj Hjl. destruct (Nat.eq_dec j i) as [->|Hne]; [|apply Hw; lia]. exists gs, t.
        assert (Ha : r' (ADMIN_CTRL_LIST (Z.of_nat i)) = r1 (ADMIN_CTRL_LIST (Z.of_nat i)))
          by (apply Hk; left; unfold ADMIN_CTRL_LIST, CTRL_LIST_BASE; lia).
        assert (Hb : r' (ADMIN_CTRL_LIST_TIME (Z.of_nat i)) = r1 (ADMIN_CTRL_LIST_TIME (Z.of_nat i)))
          by (apply Hk; left; unfold ADMIN_CTRL_LIST_TIME, ADMIN_CTRL_LIST, CTRL_LIST_BASE; lia).
        split_and!; [done|done| |].
        -- rewrite Ha. unfold r1. rewrite iow_other by (unfold ADMIN_CTRL_LIST_TIME; lia). rewrite iow_same. apply word_small, hw_range, Htc.
        -- rewrite Hb. unfold r1. rewrite iow_same. apply time_small. by apply (so_time _ Hs i).
      * intros o Ho. rewrite Hk by (unfold ADMIN_CTRL_LIST, CTRL_LIST_BASE in *; lia). unfold r1.
        rewrite !iow_other; [done| |]; unfold ADMIN_CTRL_LIST_TIME, ADMIN_CTRL_LIST, CTRL_LIST_BASE in *; lia.
    + exists r. split; [done|]. split; [intros; lia|done].
Qed.

(** The word that starts a schedule: the length is in its field, the gates are enabled. *)
Lemma config_word n x : 0 <= n <= QBV_MAX_ENTRIES ->
  let v := u32 ((with_length n x ||| CC_ADMIN_CONFIG_CHANGE_BIT) ||| CC_ADMIN_GATE_ENABLE_BIT) in
  (v >>> CC_ADMIN_CTRL_LIST_LENGTH_SHIFT) &&& CC_ADMIN_CTRL_LIST_LENGTH_MASK = n
  /\ truthy (v &&& CC_ADMIN_GATE_ENABLE_BIT) = true.
Proof.
  intros Hn v. unfold QBV_MAX_ENTRIES in Hn. split.
  - unfold v, CC_ADMIN_CTRL_LIST_LENGTH_SHIFT. change CC_ADMIN_CTRL_LIST_LENGTH_MASK with (Z.ones 9).
    rewrite field_read, field_u32, !field_lor by lia. unfold with_length, CC_ADMIN_CTRL_LIST_LENGTH_SHIFT.
    change CC_ADMIN_CTRL_LIST_LENGTH_MASK with (Z.ones 9). rewrite field_lor, field_land.
    rewrite (Z.land_ones n), (Z.mod_small n), (field_place n 9 8) by lia.
    change (not32 (Z.ones 9 <<< 8) &&& (Z.ones 9 <<< 8)) with 0. unfold field. rewrite Z.land_0_r.
    change (CC_ADMIN_CONFIG_CHANGE_BIT &&& (Z.ones 9 <<< 8)) with 0. change (CC_ADMIN_GATE_ENABLE_BIT &&& (Z.ones 9 <<< 8)) with 0.
    by rewrite !Z.shiftr_0_l, !Z.lor_0_r, Z.lor_0_l.
  - unfold truthy. apply negb_true_iff, Z.eqb_neq. intros E. apply (f_equal (fun z => Z.testbit z 31)) in E.
    rewrite Z.bits_0 in E. unfold v, u32 in E. rewrite Z.land_spec, Z.mod_pow2_bits_low, Z.lor_spec in E by lia.
    change (Z.testbit CC_ADMIN_GATE_ENABLE_BIT 31) with true in E. by rewrite orb_true_r in E.
Qed.

(** The core takes over the first [n] entries of the schedule that was written. In the register of the gates the header
    gives the length six bits from bit 8 on, and the greatest length the core supports six bits from bit 16 on; the
    bits between them are not used. *)
Record takes_over (n : nat) (r r' : qbv_regs) : Prop := mkTakes {
  to_enable : r' CONFIG_CHANGE &&& CC_ADMIN_GATE_ENABLE_BIT = r CONFIG_CHANGE &&& CC_ADMIN_GATE_ENABLE_BIT;
  to_length : (r' GATE_STATE >>> GS_OPER_CTRL_LIST_LENGTH_SHIFT) &&& GS_OPER_CTRL_LIST_LENGTH_MASK
              = (r CONFIG_CHANGE >>> CC_ADMIN_CTRL_LIST_LENGTH_SHIFT) &&& GS_OPER_CTRL_LIST_LENGTH_MASK;
  to_unused : (r' GATE_STATE >>> 14) &&& 3 = 0;
  to_cycle : r' OPER_CYCLE_TIME_DENOMINATOR = r ADMIN_CYCLE_TIME_DENOMINATOR;
  to_ns : r' OPER_BASE_TIME_NS = r ADMIN_BASE_TIME_NS;
  to_sec : r' OPER_BASE_TIME_SEC = r ADMIN_BASE_TIME_SEC;
  to_secs : r' OPER_BASE_TIME_SECS = r ADMIN_BASE_TIME_SECS;
  to_entry : forall i, (i < n)%nat -> r' (OPER_CTRL_LIST (Z.of_nat i)) = r (ADMIN_CTRL_LIST (Z.of_nat i))
                                   /\ r' (OPER_CTRL_LIST_TIME (Z.of_nat i)) = r (ADMIN_CTRL_LIST_TIME (Z.of_nat i)) }.
Definition max_length (r : qbv_regs) : Z := (r GATE_STATE >>> GS_SUP_MAX_LIST_LENGTH_SHIFT) &&& GS_SUP_MAX_LIST_LENGTH_MASK.

(** The driver reads nine bits: the six, the two between, and the lowest of the greatest length. *)
Lemma nine_bits x : 0 <= x -> (x >>> CC_ADMIN_CTRL_LIST_LENGTH_SHIFT) &&& CC_ADMIN_CTRL_LIST_LENGTH_MASK
  = ((x >>> GS_OPER_CTRL_LIST_LENGTH_SHIFT) &&& GS_OPER_CTRL_LIST_LENGTH_MASK) + 64 * ((x >>> 14) &&& 3)
    + 256 * (((x >>> GS_SUP_MAX_LIST_LENGTH_SHIFT) &&& GS_SUP_MAX_LIST_LENGTH_MASK) mod 2).
Proof.
  intros Hx. unfold CC_ADMIN_CTRL_LIST_LENGTH_SHIFT, GS_OPER_CTRL_LIST_LENGTH_SHIFT, GS_SUP_MAX_LIST_LENGTH_SHIFT.
  change CC_ADMIN_CTRL_LIST_LENGTH_MASK with (Z.ones 9). change GS_OPER_CTRL_LIST_LENGTH_MASK with (Z.ones 6).
  change GS_SUP_MAX_LIST_LENGTH_MASK with (Z.ones 6). change 3 with (Z.ones 2). rewrite !Z.land_ones, !Z.shiftr_div_pow2 by lia.
  change (2 ^ 9) with 512. change (2 ^ 8) with 256. change (2 ^ 6) with 64. change (2 ^ 14) with 16384. change (2 ^ 2) with 4. change (2 ^ 16) with 65536.
  Z.to_euclidean_division_equations. lia.
Qed.

Lemma length_read n r r' : takes_over n r r' -> 0 <= r' GATE_STATE ->
  0 <= (r CONFIG_CHANGE >>> CC_ADMIN_CTRL_LIST_LENGTH_SHIFT) &&& CC_ADMIN_CTRL_LIST_LENGTH_MASK < 64 ->
  (r' GATE_STATE >>> CC_ADMIN_CTRL_LIST_LENGTH_SHIFT) &&& CC_ADMIN_CTRL_LIST_LENGTH_MASK
  = ((r CONFIG_CHANGE >>> CC_ADMIN_CTRL_LIST_LENGTH_SHIFT) &&& CC_ADMIN_CTRL_LIST_LENGTH_MASK) + 256 * (max_length r' mod 2).
Proof.
  intros Hto H0 Hn. rewrite nine_bits by done. rewrite (to_length _ _ _ Hto), (to_unused _ _ _ Hto). unfold max_length.
  assert (E : (r CONFIG_CHANGE >>> CC_ADMIN_CTRL_LIST_LENGTH_SHIFT) &&& GS_OPER_CTRL_LIST_LENGTH_MASK
            = (r CONFIG_CHANGE >>> CC_ADMIN_CTRL_LIST_LENGTH_SHIFT) &&& CC_ADMIN_CTRL_LIST_LENGTH_MASK); [|lia].
  revert Hn. change GS_OPER_CTRL_LIST_LENGTH_MASK with (Z.ones 6). change CC_ADMIN_CTRL_LIST_LENGTH_MASK with (Z.ones 9).
  rewrite !Z.land_ones by lia. generalize (r CONFIG_CHANGE >>> CC_ADMIN_CTRL_LIST_LENGTH_SHIFT). intros x Hn.
  change (2 ^ 9) with 512 in *. change (2 ^ 6) with 64. Z.to_euclidean_division_equations. lia.
Qed.

(** What is read back of the gates [gs]. *)
Definition gates_shown (num_tc gs : Z) : Z := gs_to_user num_tc (axienet_map_gs_to_hw num_tc gs).

Lemma gate_read num_tc gs : num_tc = 2 \/ num_tc = 3 ->
  ((axienet_map_gs_to_hw num_tc gs <<< ACL_GATE_STATE_SHIFT) >>> ACL_GATE_STATE_SHIFT) &&& ACL_GATE_STATE_MASK = axienet_map_gs_to_hw num_tc gs.
Proof.
  intros H. unfold ACL_GATE_STATE_SHIFT. change ACL_GATE_STATE_MASK with (Z.ones 3). rewrite field_read by lia.
  apply (field_place _ 3 8); [by apply hw_range|lia|lia].
Qed.

Lemma read_entries_spec num_tc qbv r r' : num_tc = 2 \/ num_tc = 3 -> schedule_ok qbv -> forall n i q,
  Z.of_nat (i + n) <= list_length qbv -> takes_over (i + n) r r' ->
  (forall j, Z.of_nat j < list_length qbv -> entry_written num_tc qbv r j) ->
  length (acl_gate_state q) = Z.to_nat QBV_MAX_ENTRIES -> length (acl_gate_time q) = Z.to_nat QBV_MAX_ENTRIES ->
  exists st tm, read_entries num_tc r' n i q
      = Some (mkQbv (qbv_port q) (qbv_force q) (cycle_time q) (ptp_time_sec q) (ptp_time_ns q) (list_length q) st tm)
    /\ (forall j, (i <= j < i + n)%nat -> st !! j = gates_shown num_tc <$> (acl_gate_state qbv !! j) /\ tm !! j = acl_gate_time qbv !! j)
    /\ (forall j, (j < i)%nat -> st !! j = acl_gate_state q !! j /\ tm !! j = acl_gate_time q !! j).
Proof.
  intros Htc Hs. pose proof (so_length _ Hs) as Hl. unfold QBV_MAX_ENTRIES in Hl.
  induction n as [|n IH]; intros i q Hn Hto Hw Hq1 Hq2.
  - destruct q. cbn. eexists _, _. split; [reflexivity|]. split; [intros; lia|done].
  - cbn [read_entries]. unfold QBV_MAX_ENTRIES in *. rewrite (proj2 (Z.ltb_lt _ _)) by lia.
    destruct (to_entry _ _ _ Hto i) as [Ha Hb]; [lia|]. destruct (Hw i) as (gs & t & Hgs & Ht & Hrs & Hrt); [lia|].
    unfold axienet_qbv_ior. rewrite Ha, Hb, Hrs, Hrt, gate_read by done. change (gs_to_user num_tc _) with (gates_shown num_tc gs).
    set (q1 := mkQbv _ _ _ _ _ _ _ _). assert (Htm : t &&& CTRL_LIST_TIME_INTERVAL_MASK = t).
    { change CTRL_LIST_TIME_INTERVAL_MASK with (Z.ones 20). rewrite Z.land_ones, Z.mod_small; [done| |lia]. apply (so_time _ Hs i); [done|lia]. }
    destruct (IH (S i) q1) as (st & tm & Hr & Hnew & Hold); [lia|by replace (S i + n)%nat with (i + S n)%nat by lia|done| | |].
    { unfold q1. cbn. by rewrite length_insert. } { unfold q1. cbn. by rewrite length_insert. }
    exists st, tm. split; [exact Hr|]. split.
    + intros j Hj. destruct (Nat.eq_dec j i) as [->|]; [|apply Hnew; lia]. destruct (Hold i) as [-> ->]; [lia|]. unfold q1. cbn.
      rewrite !list_lookup_insert_eq by lia. by rewrite Hgs, Ht, Htm.
    + intros j Hj. destruct (Hold j) as [-> ->]; [lia|]. unfold q1. cbn. by rewrite !list_lookup_insert_ne by lia.
Qed.

(** Writing a schedule: accepted when none is pending or it is forced, and what the registers say then. *)
Lemma set_schedule_spec num_tc qbv r : num_tc = 2 \/ num_tc = 3 -> schedule_ok qbv ->
  truthy (r PORT_STATUS &&& 1) = false \/ qbv_force qbv <> 0 ->
  exists r1, axienet_set_schedule num_tc qbv r = Some (0, r1)
    /\ (forall j, Z.of_nat j < list_length qbv -> entry_written num_tc qbv r1 j)
    /\ r1 ADMIN_CYCLE_TIME_DENOMINATOR = cycle_time qbv /\ r1 ADMIN_BASE_TIME_NS = ptp_time_ns qbv
    /\ r1 ADMIN_BASE_TIME_SEC = ptp_time_sec qbv mod 2 ^ 32 /\ r1 ADMIN_BASE_TIME_SECS = ptp_time_sec qbv / 2 ^ 32
    /\ exists x, r1 CONFIG_CHANGE = u32 ((with_length (list_length qbv) x ||| CC_ADMIN_CONFIG_CHANGE_BIT) ||| CC_ADMIN_GATE_ENABLE_BIT).
Proof.
  intros Htc Hs Hp. unfold axienet_set_schedule. pose proof (so_cycle _ Hs) as Hc. rewrite (proj2 (Z.eqb_neq _ _)) by lia.
  assert (Hgo : truthy (axienet_qbv_ior r PORT_STATUS &&& 1) && negb (truthy (qbv_force qbv)) = false).
  { unfold axienet_qbv_ior. destruct Hp as [->|Hf]; [done|]. unfold truthy at 2. rewrite (proj2 (Z.eqb_neq _ _)) by done. by rewrite andb_false_r. }
  rewrite Hgo. cbv zeta. set (ra := axienet_qbv_iow ADMIN_BASE_TIME_SECS _ _).
  pose proof (so_length _ Hs) as Hl. unfold QBV_MAX_ENTRIES in *.
  destruct (program_entries_spec num_tc qbv Htc Hs 257 0 ra) as (r1 & Hprog & Hw & Hk); [lia|lia|].
  change (S (Z.to_nat 256)) with 257%nat. change (Z.of_nat 0) with 0 in Hprog. rewrite Hprog. cbn [mbind option_bind].
  eexists. split; [reflexivity|].
  pose proof (so_ns _ Hs) as Hns. pose proof (so_sec _ Hs) as Hsec. assert (Hd : 0 <= ptp_time_sec qbv / 2 ^ 32 < 2 ^ 16) by dlia.
  split_and!.
  - intros j Hj. destruct (Hw j) as (gs & t & H1 & H2 & H3 & H4); [lia|done|]. exists gs, t.
    rewrite !iow_other by (unfold ADMIN_CTRL_LIST_TIME, ADMIN_CTRL_LIST, CTRL_LIST_BASE, CONFIG_CHANGE, INT_STATUS; lia). done.
  - rewrite !iow_other, Hk by (done || (left; done)). unfold ra. rewrite !iow_other by done. rewrite iow_same.
    change CYCLE_TIME_DENOMINATOR_MASK with (Z.ones 30). rewrite Z.land_ones, Z.mod_small, u32_small by lia. done.
  - rewrite !iow_other, Hk by (done || (left; done)). unfold ra. rewrite !iow_other by done. rewrite iow_same, u32_small by lia. done.
  - rewrite !iow_other, Hk by (done || (left; done)). unfold ra. rewrite !iow_other by done. rewrite iow_same.
    change 0xFFFFFFFF with (Z.ones 32). rewrite Z.land_ones by lia. apply u32_small, u32_range.
  - rewrite !iow_other, Hk by (done || (left; done)). unfold ra. rewrite iow_same.
    change BASE_TIME_SECS_MASK with (Z.ones 16). rewrite Z.shiftr_div_pow2, Z.land_ones, Z.mod_small by lia. apply u32_small. lia.
  - eexists. by rewrite iow_same.
Qed.

(** What is shown of the gates for two queues: there is no reserved gate, the best effort gate and the scheduled gate alone
    are shown as they are, and both together as the best effort and the reserved gate. *)
Definition shown_of_two (gs : Z) : Z :=
  if truthy (gs &&& GS_BE_OPEN) && truthy (gs &&& GS_ST_OPEN) then GS_BE_OPEN ||| GS_RE_OPEN else gs &&& (GS_BE_OPEN ||| GS_ST_OPEN).

(** C37: A schedule of at most 63 entries whose fields fit is accepted when none is pending (or it is forced). When the core
    has taken it over, and says by an even number how long a list it supports at most, reading gives back its cycle, its
    base time to 48 bits of seconds, its length and the time of each entry; the gates of each entry as they were set for
    three queues. For two queues the best effort gate alone and the scheduled gate alone are given back, the reserved gate
    is left out, and the best effort and the scheduled gate together are shown as the best effort and the reserved gate.
    (The driver reads the length with the mask for writing it, nine bits where the header gives the register six: the
    lowest bit of the greatest length supported is read as 256 entries more.) *)
Theorem qbv_schedule_roundtrip num_tc qbv r n : num_tc = 2 \/ num_tc = 3 -> schedule_ok qbv -> list_length qbv < 64 -> n = Z.to_nat (list_length qbv) ->
  truthy (r PORT_STATUS &&& 1) = false \/ qbv_force qbv <> 0 ->
  exists r1, axienet_set_schedule num_tc qbv r = Some (0, r1) /\
    forall r2 old, takes_over n r1 r2 -> 0 <= r2 GATE_STATE -> max_length r2 mod 2 = 0 ->
    length (acl_gate_state old) = 256%nat -> length (acl_gate_time old) = 256%nat ->
    exists q, axienet_get_schedule num_tc r2 old = Some q
      /\ (cycle_time q, ptp_time_sec q, ptp_time_ns q, list_length q) = (cycle_time qbv, ptp_time_sec qbv, ptp_time_ns qbv, list_length qbv)
      /\ forall i gs, (i < n)%nat -> acl_gate_state qbv !! i = Some gs -> 0 <= gs < 8 ->
           acl_gate_time q !! i = acl_gate_time qbv !! i
           /\ acl_gate_state q !! i = Some (if num_tc =? 3 then gs else shown_of_two gs).
Proof.
  intros Htc Hs Hlt -> Hp. destruct (set_schedule_spec num_tc qbv r Htc Hs Hp) as (r1 & Hset & Hw & Hcy & Hns & Hsec & Hsecs & x & Hcc).
  exists r1. split; [exact Hset|]. intros r2 old Hto H0 Hev Ho1 Ho2. pose proof (so_length _ Hs) as Hl.
  destruct (config_word (list_length qbv) x Hl) as [Hlen Hen]. rewrite <- Hcc in Hlen, Hen.
  unfold axienet_get_schedule, axienet_qbv_ior. rewrite (to_enable _ _ _ Hto), Hen. rewrite (length_read _ _ _ Hto H0), Hev, Hlen by (rewrite Hlen; lia).
  rewrite Z.add_0_r. cbn [negb].
  rewrite (to_cycle _ _ _ Hto), (to_ns _ _ _ Hto), (to_sec _ _ _ Hto), (to_secs _ _ _ Hto), Hcy, Hns, Hsec, Hsecs.
  match goal with |- context [read_entries _ _ _ _ ?q] => set (q0 := q) end.
  destruct (read_entries_spec num_tc qbv r1 r2 Htc Hs (Z.to_nat (list_length qbv)) 0 q0) as (st & tm & Hr & Hnew & _); try done; [lia|].
  exists (mkQbv (qbv_port q0) (qbv_force q0) (cycle_time q0) (ptp_time_sec q0) (ptp_time_ns q0) (list_length q0) st tm). split; [exact Hr|].
  pose proof (so_cycle _ Hs). pose proof (so_ns _ Hs). pose proof (so_sec _ Hs) as Hse. split.
  - assert (E1 : cycle_time q0 = cycle_time qbv).
    { cbn. change CYCLE_TIME_DENOMINATOR_MASK with (Z.ones 30). rewrite Z.land_ones, Z.mod_small by lia. done. }
    assert (E2 : ptp_time_sec q0 = ptp_time_sec qbv).
    { cbn. change BASE_TIME_SECS_MASK with (Z.ones 16). assert (0 <= ptp_time_sec qbv / 2 ^ 32 < 2 ^ 16) by dlia.
      rewrite Z.land_ones, (Z.mod_small (_ / _)) by lia. rewrite lor_join by dlia. symmetry. rewrite Z.add_comm, Z.mul_comm. apply Z.div_mod. lia. }
    assert (E3 : ptp_time_ns q0 = ptp_time_ns qbv).
    { cbn. change OPER_BASE_TIME_NS_MASK with (Z.ones 30). rewrite Z.land_ones, Z.mod_small by lia. done. }
    cbn [cycle_time ptp_time_sec ptp_time_ns list_length]. by rewrite E1, E2, E3.
  - intros i gs Hi Hgs Hg. destruct (Hnew i ltac:(lia)) as [Hst Htm]. cbn [acl_gate_state acl_gate_time]. rewrite Hst, Hgs, Htm. split; [done|].
    cbn [fmap option_fmap option_map]. f_equal.
    assert (gs = 0 \/ gs = 1 \/ gs = 2 \/ gs = 3 \/ gs = 4 \/ gs = 5 \/ gs = 6 \/ gs = 7) as Hcases by lia.
    destruct Htc as [-> | ->]; repeat destruct Hcases as [-> | Hcases]; try reflexivity; by subst gs.
Qed.

(** Where the core says by an odd number how long a list it supports, 256 entries more are read, and stored behind the
    arrays of the schedule. *)
Theorem qbv_odd_maximum_overflows num_tc r1 r2 n q : takes_over n r1 r2 -> 0 <= r2 GATE_STATE -> max_length r2 mod 2 = 1 ->
  0 < (r1 CONFIG_CHANGE >>> CC_ADMIN_CTRL_LIST_LENGTH_SHIFT) &&& CC_ADMIN_CTRL_LIST_LENGTH_MASK < 64 ->
  (r1 CONFIG_CHANGE &&& CC_ADMIN_GATE_ENABLE_BIT =? 0) = false -> axienet_get_schedule num_tc r2 q = None.
Proof.
  intros Hto H0 Hodd Hn Hen. unfold axienet_get_schedule, axienet_qbv_ior. rewrite (to_enable _ _ _ Hto). unfold truthy. rewrite Hen. cbn [negb].
  rewrite (length_read _ _ _ Hto H0), Hodd by lia.
  assert (Hfull : forall n i q, 256 < Z.of_nat (i + n) -> (i <= 256)%nat -> read_entries num_tc r2 n i q = None); [|apply Hfull; lia].
  induction n0 as [|n0 IH]; intros i q0 Hn0 Hi; [lia|]. cbn [read_entries]. unfold QBV_MAX_ENTRIES. case_if; [|done]. bprop. apply IH; lia.
Qed.

(** A core that takes the schedule over at once; it supports 32 entries. *)
Definition core_takes (r : qbv_regs) : qbv_regs := fun o =>
  if (OPER_CTRL_LIST 0 <=? o) && (o <? OPER_CTRL_LIST QBV_MAX_ENTRIES) then r (o - 0x800)
  else if o =? GATE_STATE then (((r CONFIG_CHANGE >>> 8) &&& GS_OPER_CTRL_LIST_LENGTH_MASK) <<< GS_OPER_CTRL_LIST_LENGTH_SHIFT) ||| (32 <<< GS_SUP_MAX_LIST_LENGTH_SHIFT)
  else if o =? OPER_CYCLE_TIME_DENOMINATOR then r ADMIN_CYCLE_TIME_DENOMINATOR
  else if o =? OPER_BASE_TIME_NS then r ADMIN_BASE_TIME_NS
  else if o =? OPER_BASE_TIME_SEC then r ADMIN_BASE_TIME_SEC
  else if o =? OPER_BASE_TIME_SECS then r ADMIN_BASE_TIME_SECS
  else r o.

Lemma core_gate_state r : core_takes r GATE_STATE
  = (((r CONFIG_CHANGE >>> 8) &&& GS_OPER_CTRL_LIST_LENGTH_MASK) <<< GS_OPER_CTRL_LIST_LENGTH_SHIFT) ||| (32 <<< GS_SUP_MAX_LIST_LENGTH_SHIFT).
Proof. reflexivity. Qed.
Lemma gate_state_word x : let w := ((x &&& Z.ones 6) <<< 8) ||| (32 <<< 16) in
  0 <= w /\ (w >>> 8) &&& Z.ones 6 = x &&& Z.ones 6 /\ (w >>> 14) &&& Z.ones 2 = 0 /\ ((w >>> 16) &&& Z.ones 6) mod 2 = 0.
Proof.
  cbv zeta. rewrite Z.land_ones by lia. pose proof (Z.mod_pos_bound x (2 ^ 6) ltac:(lia)) as Hm. set (m := x mod 2 ^ 6) in *.
  assert (E : (m <<< 8) ||| (32 <<< 16) = m * 256 + 32 * 65536).
  { rewrite <- Z.lxor_lor, <- Z.add_nocarry_lxor; [by rewrite !Z.shiftl_mul_pow2 by lia| |].
    all: apply Z.bits_inj'; intros k Hk; rewrite Z.land_spec, Z.bits_0, !Z.shiftl_spec by lia;
      destruct (Z.ltb_spec (k - 8) 6); [rewrite (Z.testbit_neg_r 32) by lia; apply andb_false_r|];
      rewrite (proj2 (Z.testbit_false m (k - 8) ltac:(lia))); [done|]; rewrite Z.div_small; [done|]; split; [lia|];
      apply (Z.lt_le_trans _ (2 ^ 6)); [lia|]; apply Z.pow_le_mono_r; lia. }
  rewrite E. rewrite !Z.land_ones, !Z.shiftr_div_pow2 by lia.
  change (2 ^ 8) with 256. change (2 ^ 6) with 64 in *. change (2 ^ 14) with 16384. change (2 ^ 2) with 4. change (2 ^ 16) with 65536.
  split; [lia|]. clearbody m. split_and!; Z.to_euclidean_division_equations; lia.
Qed.

Lemma core_takes_over r n : (n <= 256)%nat -> takes_over n r (core_takes r) /\ 0 <= core_takes r GATE_STATE /\ max_length (core_takes r) mod 2 = 0.
Proof.
  intros Hn. destruct (gate_state_word (r CONFIG_CHANGE >>> 8)) as (H0 & H1 & H2 & H3).
  split; [|split; [exact H0|exact H3]]. split; try reflexivity; [exact H1|exact H2|].
  intros i Hi. unfold core_takes, OPER_CTRL_LIST_TIME, OPER_CTRL_LIST, QBV_MAX_ENTRIES, CTRL_LIST_BASE.
  rewrite !(proj2 (Z.leb_le _ _)), !(proj2 (Z.ltb_lt _ _)) by lia. cbn [andb].
  split; f_equal; unfold ADMIN_CTRL_LIST_TIME, ADMIN_CTRL_LIST, CTRL_LIST_BASE; lia.
Qed.

Definition blank_info : qbv_info := mkQbv 0 0 0 0 0 0 (repeat 0 256) (repeat 0 256).
Definition demo_schedule (gates : list (Z * Z)) : qbv_info :=
  default blank_info (qbv_prog 1 0 1700000000 (mkQbvCfg 10000000 0 0 gates) (repeat 0 256, repeat 0 256)).
Definition shown (num_tc : Z) (q : qbv_info) : option (list (Z * Z)) :=
  '(_, r) ← axienet_set_schedule num_tc q (fun _ => 0);
  q' ← axienet_get_schedule num_tc (core_takes r) blank_info;
  Some (take (Z.to_nat (list_length q')) (combine (acl_gate_state q') (acl_gate_time q'))).

Lemma qbv_schedule_roundtrip_witness : exists r1,
  axienet_set_schedule 3 (demo_schedule [(4, 2000000); (3, 8000000)]) (fun _ => 0) = Some (0, r1)
  /\ exists q, axienet_get_schedule 3 (core_takes r1) blank_info = Some q
     /\ (cycle_time q, ptp_time_sec q, list_length q) = (10000000, 1700000001, 2)
     /\ (acl_gate_state q !! 0%nat, acl_gate_time q !! 0%nat, acl_gate_state q !! 1%nat, acl_gate_time q !! 1%nat)
        = (Some 4, Some 250000, Some 3, Some 1000000).
Proof.
  set (s := demo_schedule _).
  assert (Hs : schedule_ok s).
  { split; [vm_compute; split; congruence|vm_compute; split; congruence|vm_compute; split; congruence|vm_compute; split; congruence|reflexivity|reflexivity|]. intros i t Ht Hi. change (list_length s) with 2 in Hi.
    destruct i as [|[|i]]; [| |lia]; vm_compute in Ht; injection Ht as <-; lia. }
  destruct (qbv_schedule_roundtrip 3 s (fun _ => 0) 2 (or_intror eq_refl) Hs ltac:(reflexivity) eq_refl (or_introl eq_refl)) as (r1 & H1 & H2).
  destruct (core_takes_over r1 2 ltac:(lia)) as (Hto & H0 & Hev).
  exists r1. split; [exact H1|]. destruct (H2 (core_takes r1) blank_info Hto H0 Hev eq_refl eq_refl) as (q & Hq & Hf & He).
  exists q. split; [exact Hq|]. injection Hf as Hc Hsec Hns Hlen. rewrite Hc, Hsec, Hlen. split; [reflexivity|].
  destruct (He 0%nat 4 ltac:(lia) eq_refl ltac:(lia)) as (-> & ->). destruct (He 1%nat 3 ltac:(lia) eq_refl ltac:(lia)) as (-> & ->). reflexivity.
Defined.

(** With two queues an entry that opens the scheduled and the best effort gate (5) is shown as one that opens
    the best effort and the reserved gate (3), and an entry that opens all (7) as well. *)
Theorem qbv_two_queues_misread :
  shown 2 (demo_schedule [(5, 800); (4, 800); (1, 800); (7, 800)]) = Some [(3, 100); (4, 100); (1, 100); (3, 100)].
Proof. vm_compute. reflexivity. Qed.

(** The time of an entry is cut to 20 bits of 8 ns without a word: a gate of 10 ms is programmed, in a
    cycle of 10 ms, for 1.6 ms. *)
Theorem qbv_long_gate_truncated : shown 3 (demo_schedule [(7, 10000000)]) = Some [(7, 201424)].
Proof. vm_compute. reflexivity. Qed.

(** Neither the driver nor the core bounds the length of the list: a list of 257 entries is read past the end
    of the arrays of the user, and a length register above 256 makes reading write past them. *)
Theorem qbv_length_unchecked num_tc r q : cycle_time q <> 0 -> truthy (r PORT_STATUS &&& 1) = false ->
  list_length q = 257 -> length (acl_gate_state q) = 256%nat -> axienet_set_schedule num_tc q r = None.
Proof.
  intros Hc Hp Hl Hs. unfold axienet_set_schedule. rewrite (proj2 (Z.eqb_neq _ _)) by done. unfold axienet_qbv_ior at 1. rewrite Hp. cbn [andb]. cbv zeta.
  assert (H : forall rounds i ra, (i <= 256)%nat -> program_entries num_tc q rounds (Z.of_nat i) ra = None).
  { induction rounds as [|rounds IH]; intros i ra Hi; cbn [program_entries]; rewrite Hl, (proj2 (Z.ltb_lt _ _)) by lia; [done|].
    rewrite Nat2Z.id. destruct (acl_gate_state q !! i) as [gs|] eqn:E; [|done]. apply lookup_lt_Some in E. cbn [mbind option_bind].
    destruct (acl_gate_time q !! i); [|done]. cbn [mbind option_bind]. rewrite u16_small by lia. replace (Z.of_nat i + 1) with (Z.of_nat (S i)) by lia. apply IH. lia. }
  pose proof (H (S (Z.to_nat QBV_MAX_ENTRIES)) 0%nat) as H0. change (Z.of_nat 0) with 0 in H0. by rewrite H0 by lia.
Qed.

Lemma read_entries_full num_tc r n : forall i q, 256 < Z.of_nat (i + n) -> (i <= 256)%nat -> read_entries num_tc r n i q = None.
Proof.
  induction n as [|n IH]; intros i q Hn Hi; [lia|]. cbn [read_entries]. unfold QBV_MAX_ENTRIES. case_if; [|done]. bprop. apply IH; lia.
Qed.
