(* ===== verification/TsnRegs.v ===== *)
(** * Registers of a device

    The access of src/driver/xilinx/xilinx_axienet.h to memory mapped registers, as programs over a
    device: [Device] is the hardware (what a read answers may change it), [io] a program that uses it.
    [poll_while] is the drivers' loop that waits for a bit with a time-out. [RegLaws] says which
    registers merely keep what is written to them. The lemmas on [slice] compute the fields of words. *)
From S2P Require Import Prelude.

(** Error numbers of the kernel. *)
Definition EPERM : Z := 1.
Definition ENOMEM : Z := 12.
Definition EFAULT : Z := 14.
Definition EINVAL : Z := 22.

(** The hardware: reading an offset gives a word, writing one changes the device. *)
Class Device := {
  dev : Type;
  dev_rd : Z -> dev -> Z * dev;
  dev_wr : Z -> Z -> dev -> dev }.

Section Io.
Context `{Device}.

(** A program that uses the device. *)
Definition io (A : Type) : Type := dev -> A * dev.

#[global] Instance io_ret : MRet io := fun A a d => (a, d).
#[global] Instance io_bind : MBind io := fun A B f m d => let '(a, d') := m d in f a d'.

Definition axienet_ior (offset : Z) : io Z := fun d => let '(v, d') := dev_rd offset d in (u32 v, d').
Definition axienet_iow (offset value : Z) : io unit := fun d => (tt, dev_wr offset (u32 value) d).

(** [while ((u_value = axienet_ior(offset)) is busy && timeout) timeout--;]: the last word read and what
    is left of the time-out. *)
Fixpoint poll_while (offset : Z) (busy : Z -> bool) (timeout : nat) : io (Z * nat) :=
  u_value ← axienet_ior offset;
  if busy u_value then match timeout with O => mret (u_value, O) | S t => poll_while offset busy t end
  else mret (u_value, timeout).

Lemma bind_io {A B} (m : io A) (f : A -> io B) d : (m ≫= f) d = let '(a, d') := m d in f a d'.
Proof. done. Qed.

Lemma ret_io {A} (a : A) d : mret (M := io) a d = (a, d).
Proof. done. Qed.

Lemma run_bind_io {A B} (m : io A) (f : A -> io B) d a d' : m d = (a, d') -> (m ≫= f) d = f a d'.
Proof. intros E. unfold mbind, io_bind. by rewrite E. Qed.

(** What a program's result satisfies whatever the device answers. *)
Definition always {A} (m : io A) (P : A -> Prop) : Prop := forall d, P (fst (m d)).

Lemma always_ret {A} (a : A) (P : A -> Prop) : P a -> always (mret a) P.
Proof. by intros Ha d. Qed.

Lemma always_bind {A B} (m : io A) (f : A -> io B) (P : B -> Prop) : (forall a, always (f a) P) -> always (m ≫= f) P.
Proof. intros Hf d. rewrite bind_io. destruct (m d) as [a d']. apply Hf. Qed.

Lemma always_bind_of {A B} (m : io A) (f : A -> io B) (Q : A -> Prop) (P : B -> Prop) :
  always m Q -> (forall a, Q a -> always (f a) P) -> always (m ≫= f) P.
Proof. intros Hm Hf d. rewrite bind_io. specialize (Hm d). destruct (m d) as [a d']. by apply Hf. Qed.
End Io.

(** The time-out of the drivers' loops. *)
Definition TIMEOUT : nat := Z.to_nat 20000.

(** Registers that keep what is written to them: reading one changes nothing. *)
Class RegLaws `{Device} (plain : Z -> bool) := {
  reg : dev -> Z -> Z;
  reg_rd o d : plain o = true -> dev_rd o d = (reg d o, d);
  reg_wr o v d o' : plain o = true -> plain o' = true -> reg (dev_wr o v d) o' = (if o' =? o then v else reg d o') }.

(** ** Fields of words: the [w] bits of [x] from bit [s] up *)
Definition slice (x s w : Z) : Z := (x >>> s) &&& Z.ones w.

Lemma slice_spec x s w i : 0 <= s -> 0 <= w -> 0 <= i -> Z.testbit (slice x s w) i = (i <? w) && Z.testbit x (i + s).
Proof.
  intros Hs Hw Hi. unfold slice. rewrite Z.land_spec, Z.shiftr_spec, Z.testbit_ones_nonneg by lia.
  apply andb_comm.
Qed.

Lemma slice_range x s w : 0 <= w -> 0 <= slice x s w < 2 ^ w.
Proof. intros. unfold slice. rewrite Z.land_ones by lia. apply Z.mod_pos_bound. lia. Qed.

Lemma slice_lor x y s w : slice (x ||| y) s w = slice x s w ||| slice y s w.
Proof. unfold slice. by rewrite Z.shiftr_lor, Z.land_lor_distr_l. Qed.

Ltac by_bits := apply Z.bits_inj'; let i := fresh "i" in let Hi := fresh "Hi" in intros i Hi.

(** A value moved up. *)
Lemma slice_shift v t s w : 0 <= t <= s -> 0 <= w -> slice (v <<< t) s w = slice v (s - t) w.
Proof.
  intros. by_bits. rewrite !slice_spec, Z.shiftl_spec by lia. do 2 f_equal. lia.
Qed.

Lemma slice_below v t s w : 0 <= s -> 0 <= w -> s + w <= t -> slice (v <<< t) s w = 0.
Proof.
  intros. by_bits. rewrite slice_spec, Z.bits_0 by lia. destruct (Z.ltb_spec i w); [|done].
  rewrite Z.shiftl_spec_low by lia. done.
Qed.

Lemma not32_bits x i : 0 <= i < 32 -> Z.testbit (not32 x) i = negb (Z.testbit x i).
Proof.
  intros Hi. unfold not32. rewrite Z.lxor_spec. change (2 ^ 32 - 1) with (Z.ones 32).
  rewrite Z.ones_spec_low by lia. by rewrite xorb_true_r.
Qed.

(** Clearing a field. *)
Lemma slice_clear_same x s w : 0 <= s -> 0 <= w -> s + w <= 32 -> slice (x &&& not32 (Z.ones w <<< s)) s w = 0.
Proof.
  intros Hs Hw H. by_bits. rewrite slice_spec, Z.bits_0 by lia. destruct (Z.ltb_spec i w); [|done]. cbn [andb].
  rewrite Z.land_spec, not32_bits, Z.shiftl_spec, Z.add_simpl_r, Z.ones_spec_low by lia. apply andb_false_r.
Qed.

Lemma slice_clear_other x t n s w : 0 <= s -> 0 <= w -> 0 <= t -> 0 <= n -> s + w <= 32 -> (t + n <=? s) || (s + w <=? t) = true ->
  slice (x &&& not32 (Z.ones n <<< t)) s w = slice x s w.
Proof.
  intros Hs Hw Ht Hn H Hd. by_bits. rewrite !slice_spec by lia. destruct (Z.ltb_spec i w); [|done]. cbn [andb].
  rewrite Z.land_spec, not32_bits, Z.shiftl_spec, Z.testbit_ones by lia.
  apply orb_prop in Hd. destruct Hd as [Hd|Hd]; apply Z.leb_le in Hd.
  - destruct (Z.ltb_spec (i + s - t) n); [lia|]. by rewrite andb_false_r, andb_true_r.
  - destruct (Z.leb_spec 0 (i + s - t)); [lia|]. by rewrite andb_true_r.
Qed.

Lemma slice_u32 x s w : 0 <= s -> 0 <= w -> s + w <= 32 -> slice (u32 x) s w = slice x s w.
Proof.
  intros Hs Hw H. by_bits. rewrite !slice_spec by lia. destruct (Z.ltb_spec i w); [|done]. cbn [andb].
  unfold u32. by rewrite Z.mod_pow2_bits_low by lia.
Qed.

(** A field all of whose bits are set. *)
Lemma slice_set x s w : 0 <= s -> 0 <= w -> slice x s w ||| Z.ones w = Z.ones w.
Proof.
  intros Hs Hw. by_bits. rewrite Z.lor_spec, slice_spec, Z.testbit_ones_nonneg by lia.
  destruct (i <? w); [apply orb_true_r|done].
Qed.

(** A masked value. *)
Lemma slice_low x w : slice x 0 w = x &&& Z.ones w.
Proof. unfold slice. by rewrite Z.shiftr_0_r. Qed.
Lemma slice_id x w : 0 <= w -> 0 <= x < 2 ^ w -> slice x 0 w = x.
Proof. intros. rewrite slice_low, Z.land_ones by lia. by apply Z.mod_small. Qed.
Lemma slice_narrow x n w : 0 <= x < 2 ^ n -> n <= w -> 0 <= w -> slice x 0 w = x.
Proof.
  intros Hx Hn Hw. apply slice_id; [lia|]. split; [lia|].
  apply Z.lt_le_trans with (2 ^ n); [lia|]. apply Z.pow_le_mono_r; lia.
Qed.
Lemma slice_zero s w : slice 0 s w = 0.
Proof. unfold slice. by rewrite Z.shiftr_0_l. Qed.

Lemma slice_atom_other v n s w : 0 <= v < 2 ^ n -> n <= s -> 0 <= w -> slice v s w = 0.
Proof.
  intros Hv Hn Hw. destruct (Z.ltb_spec s 0) as [|Hs].
  { rewrite Z.pow_neg_r in Hv by lia. lia. }
  by_bits. rewrite slice_spec, Z.bits_0 by lia. rewrite (testbit_above v n) by lia. apply andb_false_r.
Qed.

(** A field of a field. *)
Lemma slice_slice x s w s' w' : 0 <= s -> 0 <= s' -> 0 <= w' -> s' + w' <= w -> slice (slice x s w) s' w' = slice x (s + s') w'.
Proof.
  intros. by_bits. rewrite !slice_spec by lia. destruct (Z.ltb_spec i w'); [|done].
  destruct (Z.ltb_spec (i + s') w); [|lia]. cbn [andb]. f_equal. lia.
Qed.

Lemma b2z_range b : 0 <= b2z b < 2 ^ 1.
Proof. destruct b; cbn; lia. Qed.

Lemma truthy_b2z b : truthy (b2z b) = b.
Proof. by destruct b. Qed.

Lemma truthy_bit x k : 0 <= k -> truthy (x &&& BIT k) = Z.testbit x k.
Proof.
  intros Hk. unfold truthy, BIT. rewrite Z.shiftl_1_l. destruct (Z.testbit x k) eqn:E.
  - apply negb_true_iff, Z.eqb_neq. intros H0. assert (Z.testbit (x &&& 2 ^ k) k = false) as Hf by (by rewrite H0, Z.bits_0).
    rewrite Z.land_spec, E, Z.pow2_bits_true in Hf by lia. done.
  - apply negb_false_iff, Z.eqb_eq. by_bits. rewrite Z.land_spec, Z.pow2_bits_eqb, Z.bits_0 by lia.
    destruct (Z.eqb_spec k i) as [<-|]; [by rewrite E|apply andb_false_r].
Qed.

Lemma slice_testbit x s i w : 0 <= s -> 0 <= i < w -> Z.testbit (slice x s w) i = Z.testbit x (i + s).
Proof. intros. rewrite slice_spec by lia. destruct (Z.ltb_spec i w); [done|lia]. Qed.

(** A bit as the code tests it is a field of width one. *)
Lemma slice_bit x k : 0 <= k -> slice x k 1 = b2z (Z.testbit x k).
Proof.
  intros Hk. by_bits. rewrite slice_spec by lia. destruct (Z.ltb_spec i 1).
  - replace i with 0 by lia. cbn [andb]. rewrite Z.add_0_l. by destruct (Z.testbit x k).
  - destruct (Z.testbit x k); [|by rewrite Z.bits_0]. cbn [b2z]. rewrite (testbit_above 1 1) by lia. done.
Qed.

Lemma truthy_slice x k : 0 <= k -> truthy (x &&& BIT k) = truthy (slice x k 1).
Proof. intros Hk. by rewrite truthy_bit, slice_bit, truthy_b2z. Qed.

(** Position and width of a mask. *)
Definition mask_lo (m : Z) : Z := Z.log2 (Z.land m (- m)).
Definition mask_w (m : Z) : Z := Z.log2 (m / 2 ^ mask_lo m + 1).

Lemma slice_masked x s w : 0 <= s -> 0 <= w -> (x &&& (Z.ones w <<< s)) >>> s = slice x s w.
Proof. intros. rewrite Z.shiftr_land, Z.shiftr_shiftl_l, Z.sub_diag, Z.shiftl_0_r by lia. done. Qed.

Lemma slice_u8 x : u8 x = slice x 0 8.
Proof. rewrite slice_low, Z.land_ones by lia. done. Qed.
Lemma slice_u16 x : u16 x = slice x 0 16.
Proof. rewrite slice_low, Z.land_ones by lia. done. Qed.

(** The width of a term. *)
Ltac width_of v :=
  lazymatch v with
  | slice _ _ ?n => n
  | b2z _ => constr:(1)
  | _ => match goal with H : 0 <= v < 2 ^ ?n |- _ => n end
  end.
Ltac in_width := first [assumption | apply slice_range; lia | apply b2z_range].

(** Whether all bits of a number are low ones, which is how it masks. *)
Ltac low_mask m :=
  lazymatch m with Zpos _ => idtac end;
  let w := eval vm_compute in (mask_w m) in
  lazymatch eval vm_compute in (Z.ones w =? m) with true => idtac end.

(** Reads the fields the code takes out of words as such. *)
Ltac as_slices :=
  repeat match goal with
  | |- context [(?x &&& ?m) >>> ?s] =>
      lazymatch m with Zpos _ => idtac end;
      let w := eval vm_compute in (mask_w m) in
      replace ((x &&& m) >>> s) with (slice x s w) by (symmetry; exact (slice_masked x s w ltac:(lia) ltac:(lia)))
  | |- context [(?x >>> ?s) &&& ?m] =>
      low_mask m; let w := eval vm_compute in (mask_w m) in
      change ((x >>> s) &&& m) with (slice x s w)
  | |- context [?x &&& ?m] =>
      low_mask m; let w := eval vm_compute in (mask_w m) in
      replace (x &&& m) with (slice x 0 w) by (exact (slice_low x w))
  | |- context [u16 ?x] => rewrite (slice_u16 x)
  | |- context [u8 ?x] => rewrite (slice_u8 x)
  end.

(** Computes the fields of words put together from fields. *)
Ltac slice_step :=
  match goal with
  | |- context [slice (u32 ?x) ?s ?w] => rewrite (slice_u32 x s w) by lia
  | |- context [slice (?x ||| ?y) ?s ?w] => rewrite (slice_lor x y s w)
  | |- context [slice (?x &&& not32 ?m) ?s ?w] =>
      let t := eval vm_compute in (mask_lo m) in
      let n := eval vm_compute in (mask_w m) in
      replace (not32 m) with (not32 (Z.ones n <<< t)) by reflexivity;
      first [rewrite (slice_clear_other x t n s w) by (first [lia | reflexivity])
            |rewrite (slice_clear_same x s w) by lia]
  | |- context [slice (slice ?x ?a ?b) ?s ?w] =>
      rewrite (slice_slice x a b s w) by lia;
      let k := eval vm_compute in (a + s) in change (a + s) with k
  | |- context [slice (?v <<< ?t) ?s ?w] =>
      first [rewrite (slice_below v t s w) by lia
            |rewrite (slice_shift v t s w) by lia; let k := eval vm_compute in (s - t) in change (s - t) with k]
  | |- context [slice (Zpos ?p) ?s ?w] =>
      let k := eval vm_compute in (slice (Zpos p) s w) in change (slice (Zpos p) s w) with k
  | |- context [slice 0 ?s ?w] => rewrite (slice_zero s w)
  | |- context [slice ?v ?s ?w] =>
      let n := width_of v in
      first [rewrite (slice_atom_other v n s w) by (first [in_width | lia])
            |rewrite (slice_narrow v n w) by (first [in_width | lia])]
  | |- context [slice ?x ?s ?w ||| Zpos ?p] =>
      lazymatch eval vm_compute in (Z.ones w =? Zpos p) with true => idtac end;
      replace (slice x s w ||| Zpos p) with (Zpos p) by (symmetry; exact (slice_set x s w ltac:(lia) ltac:(lia)))
  | |- context [0 ||| ?x] => rewrite (Z.lor_0_l x)
  | |- context [?x ||| 0] => rewrite (Z.lor_0_r x)
  end.
Ltac slices := as_slices; repeat slice_step.

Example slices_example (a b c x : Z) : 0 <= a < 2 ^ 8 -> 0 <= b < 2 ^ 8 ->
  (u32 ((a <<< 24) ||| (b <<< 16) ||| ((c &&& 0xFFF) <<< 0) ||| (x &&& not32 (0xFF <<< 16))) >>> 16) &&& 0xFF = b.
Proof. intros. slices. reflexivity. Qed.

(** ** Programs on registers that keep their values *)
Section Regs.
Context `{RegLaws}.

Lemma run_ior o d : plain o = true -> axienet_ior o d = (u32 (reg d o), d).
Proof. intros Ho. unfold axienet_ior. by rewrite reg_rd. Qed.

Lemma run_iow o v d : axienet_iow o v d = (tt, dev_wr o (u32 v) d).
Proof. done. Qed.
End Regs.

(** A device that is memory. *)
#[global] Instance memory_device : Device := {|
  dev := Z -> Z;
  dev_rd o d := (d o, d);
  dev_wr o v d := fun o' => if o' =? o then v else d o' |}.
#[global] Instance memory_laws : RegLaws (fun _ => true).
Proof. by refine (Build_RegLaws memory_device (fun _ => true) (fun (d : Z -> Z) o => d o) _ _). Defined.

(** Decides the comparisons of offsets. *)
Ltac offsets :=
  repeat match goal with
  | |- context [?a =? ?b] =>
      lazymatch eval vm_compute in (a =? b) with
      | true => change (a =? b) with true
      | false => change (a =? b) with false
      end; cbv iota
  end.

(** Runs a program read by read and write by write; [known] proves that a register is plain. *)
Ltac run_io known :=
  repeat first
    [ rewrite bind_io
    | rewrite run_iow
    | rewrite run_ior by known
    | rewrite ret_io
    | progress cbv beta iota zeta
    | progress cbn [fst snd] ];
  repeat (rewrite reg_wr by known; offsets).
