(* ===== verification/TsnStream.v ===== *)
(** * Stream filtering and seamless redundancy

    Models src/driver/xilinx/xilinx_tsn_qci.c (per-stream filtering and policing) and
    src/driver/xilinx/xilinx_tsn_cb.c (frame replication and elimination): the words written to the
    registers of the switch and the settings read back. The theorems state what is read back and which
    settings of a stream a call leaves alone. *)
From S2P Require Import Prelude TsnRegs.

Definition PSFP_CONTROL_OFFSET : Z := 0x1200.
Definition STREAM_FILTER_CONFIG_OFFSET : Z := 0x1204.
Definition STREAM_METER_CIR_OFFSET : Z := 0x1208.
Definition STREAM_METER_EIR_OFFSET : Z := 0x120C.
Definition STREAM_METER_CBR_OFFSET : Z := 0x1210.
Definition STREAM_METER_EBR_OFFSET : Z := 0x1214.
Definition TOTAL_PSFP_FRAMES_OFFSET : Z := 0x2000.
Definition FLTR_INGS_PORT_ERR_OFFSET : Z := 0x2800.
Definition FLTR_STDU_ERR_OFFSET : Z := 0x3000.
Definition METER_ERR_OFFSET : Z := 0x3800.
Definition FRER_CONTROL_OFFSET : Z := 0x1300.
Definition INGRESS_FILTER_OFFSET : Z := 0x1304.
Definition FRER_CONFIG_REG1 : Z := 0x1308.
Definition FRER_CONFIG_REG2 : Z := 0x130C.
Definition TOTAL_FRER_FRAMES_OFFSET : Z := 0x4000.
Definition FRER_DISCARD_INGS_FLTR_OFFSET : Z := 0x4800.
Definition FRER_PASS_FRAMES_INDV_OFFSET : Z := 0x5000.
Definition FRER_DISCARD_FRAMES_INDV_OFFSET : Z := 0x5800.
Definition FRER_PASS_FRAMES_SEQ_OFFSET : Z := 0x6000.
Definition FRER_DISCARD_FRAMES_SEQ_OFFSET : Z := 0x6800.
Definition FRER_ROGUE_FRAMES_SEQ_OFFSET : Z := 0x7000.
Definition SEQ_RECV_RESETS_OFFSET : Z := 0x7800.

(** [struct static_cntr]: a counter of 64 bits in two words. *)
Record static_cntr := mkCntr { cntr_msb : Z; cntr_lsb : Z }.

(** The structures of filtering. *)
Record psfp_config := mkPsfp {
  psfp_gate_id : Z; psfp_meter_id : Z; en_meter : bool; allow_stream : bool; en_psfp : bool;
  psfp_wr_op_type : Z; psfp_op_type : bool }.
Record meter_config := mkMeter { cir : Z; eir : Z; cbr : Z; ebr : Z; meter_mode : Z }.
Record stream_filter := mkFilter { in_pid : Z; max_fr_size : Z }.
Record psfp_static_counter := mkPsfpCnt {
  psfp_fr_count : static_cntr; err_filter_ins_port : static_cntr; err_filtr_sdu : static_cntr; err_meter : static_cntr; psfp_num : Z }.
Record qci := mkQci {
  meter_config_data : meter_config; stream_config_data : stream_filter; psfp_config_data : psfp_config; psfp_counter_data : psfp_static_counter }.

(** The structures of redundancy. *)
Record frer_ctrl := mkFrer {
  frer_gate_id : Z; memb_id : Z; seq_reset : bool; gate_state : bool; rcvry_tmout : bool; frer_valid : bool;
  frer_wr_op_type : Z; frer_op_type : bool }.
Record in_fltr := mkInFltr { in_port_id : Z; max_seq_id : Z }.
Record frer_memb_config := mkMemb { seq_rec_hist_len : Z; split_strm_egport_id : Z; split_strm_vlan_id : Z; rem_ticks : Z }.
Record frer_static_counter := mkFrerCnt {
  frer_fr_count : static_cntr; disc_frames_in_portid : static_cntr; pass_frames_seq_recv : static_cntr;
  disc_frames_seq_recv : static_cntr; rogue_frames_seq_recv : static_cntr; pass_frames_ind_recv : static_cntr;
  disc_frames_ind_recv : static_cntr; seq_recv_rst : static_cntr; frer_num : Z }.
Record cb := mkCb {
  frer_ctrl_data : frer_ctrl; in_fltr_data : in_fltr; frer_memb_config_data : frer_memb_config; frer_counter_data : frer_static_counter }.

(** The masks and shifts of xilinx_tsn_qci.c. *)
Definition SMC_MODE_SHIFT : Z := 28.
Definition SMC_CBR_MASK : Z := 0x00FFFFFF.
Definition SMC_EBR_MASK : Z := 0x00FFFFFF.
Definition IN_PORTID_MASK : Z := 0x3.
Definition IN_PORT_SHIFT : Z := 14.
Definition MAX_FR_SIZE_MASK : Z := 0x00000FFF.
Definition GATE_ID_SHIFT : Z := 24.
Definition METER_ID_SHIFT : Z := 8.
Definition EN_METER_SHIFT : Z := 6.
Definition ALLOW_STREM_SHIFT : Z := 5.
Definition EN_PSFP_SHIFT : Z := 4.
Definition WR_OP_TYPE_MASK : Z := 0x3.
Definition WR_OP_TYPE_SHIFT : Z := 2.
Definition OP_TYPE_SHIFT : Z := 1.
Definition PSFP_EN_CONTROL_MASK : Z := 0x1.

(** The masks and shifts of xilinx_tsn_cb.c. *)
Definition IN_PORTID_SHIFT : Z := 24.
Definition MAX_SEQID_MASK : Z := 0x0000FFFF.
Definition REMAINING_TICKS_MASK : Z := 0x0000FFFF.
Definition SEQ_REC_HIST_LEN_MASK : Z := 0x000000FF.
Definition SEQ_REC_HIST_LEN_SHIFT : Z := 16.
Definition SPLIT_STREAM_INPORTID_SHIFT : Z := 12.
Definition SPLIT_STREAM_INPORTID_MASK : Z := 0x3.
Definition SPLIT_STREAM_VLANID_MASK : Z := 0x00000FFF.
Definition MEMBER_ID_SHIFT : Z := 8.
Definition SEQ_RESET_SHIFT : Z := 7.
Definition REC_TIMEOUT_SHIFT : Z := 6.
Definition GATE_STATE_SHIFT : Z := 5.
Definition FRER_VALID_SHIFT : Z := 4.
Definition FRER_EN_CONTROL_MASK : Z := 0x1.

Section Stream.
Context `{Device}.

(** The two words of a counter, low word first. *)
Definition read_cntr (offset : Z) : io static_cntr :=
  lsb ← axienet_ior offset;
  msb ← axienet_ior (offset + 4);
  mret (mkCntr msb lsb).

(** ** Filtering and policing *)

(** The word of the control register. *)
Definition psfp_word (data : psfp_config) : Z :=
  (psfp_gate_id data <<< GATE_ID_SHIFT) ||| (psfp_meter_id data <<< METER_ID_SHIFT) ||| (b2z (en_meter data) <<< EN_METER_SHIFT)
  ||| (b2z (allow_stream data) <<< ALLOW_STREM_SHIFT) ||| (b2z (en_psfp data) <<< EN_PSFP_SHIFT)
  ||| ((psfp_wr_op_type data &&& WR_OP_TYPE_MASK) <<< WR_OP_TYPE_SHIFT) ||| (b2z (psfp_op_type data) <<< OP_TYPE_SHIFT)
  ||| PSFP_EN_CONTROL_MASK.

(** A time-out is only logged. *)
Definition psfp_control (data : psfp_config) : io unit :=
  axienet_iow PSFP_CONTROL_OFFSET (psfp_word data);;
  poll_while PSFP_CONTROL_OFFSET (fun v => truthy (v &&& PSFP_EN_CONTROL_MASK)) TIMEOUT;;
  mret tt.

Definition get_stream_filter_config : io stream_filter :=
  reg_val ← axienet_ior STREAM_FILTER_CONFIG_OFFSET;
  mret (mkFilter ((reg_val >>> IN_PORT_SHIFT) &&& IN_PORTID_MASK) (reg_val &&& MAX_FR_SIZE_MASK)).

Definition config_stream_filter (data : stream_filter) : io unit :=
  axienet_iow STREAM_FILTER_CONFIG_OFFSET
    (((in_pid data &&& IN_PORTID_MASK) <<< IN_PORT_SHIFT) ||| (max_fr_size data &&& MAX_FR_SIZE_MASK)).

(** [conf_r4 & 0xF0000000] moved down. *)
Definition get_meter_reg : io meter_config :=
  c ← axienet_ior STREAM_METER_CIR_OFFSET;
  e ← axienet_ior STREAM_METER_EIR_OFFSET;
  b ← axienet_ior STREAM_METER_CBR_OFFSET;
  conf_r4 ← axienet_ior STREAM_METER_EBR_OFFSET;
  mret (mkMeter c e (b &&& SMC_CBR_MASK) (conf_r4 &&& SMC_EBR_MASK) ((conf_r4 &&& 0xF0000000) >>> SMC_MODE_SHIFT)).

Definition program_meter_reg (data : meter_config) : io unit :=
  axienet_iow STREAM_METER_CIR_OFFSET (cir data);;
  axienet_iow STREAM_METER_EIR_OFFSET (eir data);;
  axienet_iow STREAM_METER_CBR_OFFSET (cbr data &&& SMC_CBR_MASK);;
  axienet_iow STREAM_METER_EBR_OFFSET ((ebr data &&& SMC_EBR_MASK) ||| (meter_mode data <<< SMC_MODE_SHIFT)).

Definition get_psfp_static_counter (num : Z) : io psfp_static_counter :=
  let offset := num * 8 in
  a ← read_cntr (TOTAL_PSFP_FRAMES_OFFSET + offset);
  b ← read_cntr (FLTR_INGS_PORT_ERR_OFFSET + offset);
  c ← read_cntr (FLTR_STDU_ERR_OFFSET + offset);
  d ← read_cntr (METER_ERR_OFFSET + offset);
  mret (mkPsfpCnt a b c d num).

(** ** Replication and elimination *)

Definition frer_word (data : frer_ctrl) : Z :=
  (frer_gate_id data <<< GATE_ID_SHIFT) ||| (memb_id data <<< MEMBER_ID_SHIFT) ||| (b2z (seq_reset data) <<< SEQ_RESET_SHIFT)
  ||| (b2z (gate_state data) <<< GATE_STATE_SHIFT) ||| (b2z (rcvry_tmout data) <<< REC_TIMEOUT_SHIFT)
  ||| (b2z (frer_valid data) <<< FRER_VALID_SHIFT)
  ||| ((frer_wr_op_type data &&& WR_OP_TYPE_MASK) <<< WR_OP_TYPE_SHIFT) ||| (b2z (frer_op_type data) <<< OP_TYPE_SHIFT)
  ||| FRER_EN_CONTROL_MASK.

(** The loop without a time-out: whether it ends within [rounds] reads. *)
Fixpoint frer_wait (rounds : nat) : io bool :=
  v ← axienet_ior FRER_CONTROL_OFFSET;
  if truthy (v &&& FRER_EN_CONTROL_MASK) then match rounds with O => mret false | S r => frer_wait r end
  else mret true.

Definition frer_control (rounds : nat) (data : frer_ctrl) : io bool :=
  axienet_iow FRER_CONTROL_OFFSET (frer_word data);;
  frer_wait rounds.

Definition get_ingress_filter_config : io in_fltr :=
  reg_val ← axienet_ior INGRESS_FILTER_OFFSET;
  mret (mkInFltr ((reg_val >>> IN_PORTID_SHIFT) &&& IN_PORTID_MASK) (reg_val &&& MAX_SEQID_MASK)).

Definition config_ingress_filter (data : cb) : io unit :=
  conf_r1 ← axienet_ior INGRESS_FILTER_OFFSET;
  axienet_iow INGRESS_FILTER_OFFSET
    ((conf_r1 &&& not32 (IN_PORTID_MASK <<< IN_PORTID_SHIFT)) ||| ((in_port_id (in_fltr_data data) &&& IN_PORTID_MASK) <<< IN_PORTID_SHIFT));;
  conf_r1 ← axienet_ior FRER_CONFIG_REG1;
  axienet_iow FRER_CONFIG_REG1
    ((conf_r1 &&& not32 (SEQ_REC_HIST_LEN_MASK <<< SEQ_REC_HIST_LEN_SHIFT))
     ||| ((seq_rec_hist_len (frer_memb_config_data data) &&& SEQ_REC_HIST_LEN_MASK) <<< SEQ_REC_HIST_LEN_SHIFT));;
  conf_r1 ← axienet_ior FRER_CONFIG_REG2;
  axienet_iow FRER_CONFIG_REG2 ((conf_r1 &&& not32 REMAINING_TICKS_MASK) ||| rem_ticks (frer_memb_config_data data)).

(** [rem_ticks] has 16 bits. *)
Definition get_member_reg : io frer_memb_config :=
  conf_r1 ← axienet_ior FRER_CONFIG_REG1;
  ticks ← axienet_ior FRER_CONFIG_REG2;
  mret (mkMemb ((conf_r1 >>> SEQ_REC_HIST_LEN_SHIFT) &&& SEQ_REC_HIST_LEN_MASK)
          ((conf_r1 >>> SPLIT_STREAM_INPORTID_SHIFT) &&& SPLIT_STREAM_INPORTID_MASK)
          (conf_r1 &&& SPLIT_STREAM_VLANID_MASK) (u16 ticks)).

Definition program_member_reg (data : cb) : io unit :=
  conf_r1 ← axienet_ior FRER_CONFIG_REG1;
  let conf_r1 := conf_r1 &&& not32 (SPLIT_STREAM_INPORTID_MASK <<< SPLIT_STREAM_INPORTID_SHIFT) &&& not32 SPLIT_STREAM_VLANID_MASK in
  axienet_iow FRER_CONFIG_REG1
    (conf_r1 ||| ((split_strm_egport_id (frer_memb_config_data data) &&& SPLIT_STREAM_INPORTID_MASK) <<< SPLIT_STREAM_INPORTID_SHIFT)
     ||| (split_strm_vlan_id (frer_memb_config_data data) &&& SPLIT_STREAM_VLANID_MASK));;
  axienet_iow FRER_CONFIG_REG2 (rem_ticks (frer_memb_config_data data));;
  conf_r1 ← axienet_ior INGRESS_FILTER_OFFSET;
  axienet_iow INGRESS_FILTER_OFFSET ((conf_r1 &&& not32 MAX_SEQID_MASK) ||| (max_seq_id (in_fltr_data data) &&& MAX_SEQID_MASK)).

Definition get_frer_static_counter (num : Z) : io frer_static_counter :=
  let offset := num * 8 in
  total ← read_cntr (TOTAL_FRER_FRAMES_OFFSET + offset);
  disc_in ← read_cntr (FRER_DISCARD_INGS_FLTR_OFFSET + offset);
  pass_ind ← read_cntr (FRER_PASS_FRAMES_INDV_OFFSET + offset);
  disc_ind ← read_cntr (FRER_DISCARD_FRAMES_INDV_OFFSET + offset);
  pass_seq ← read_cntr (FRER_PASS_FRAMES_SEQ_OFFSET + offset);
  disc_seq ← read_cntr (FRER_DISCARD_FRAMES_SEQ_OFFSET + offset);
  rogue ← read_cntr (FRER_ROGUE_FRAMES_SEQ_OFFSET + offset);
  resets ← read_cntr (SEQ_RECV_RESETS_OFFSET + offset);
  mret (mkFrerCnt total disc_in pass_seq disc_seq rogue pass_ind disc_ind resets num).
End Stream.

(** ** What is read back *)
Section StreamLaws.
Context `{RegLaws}.

(** The registers of the streams are plain ones. *)
Definition stream_regs : list Z :=
  [STREAM_FILTER_CONFIG_OFFSET; STREAM_METER_CIR_OFFSET; STREAM_METER_EIR_OFFSET; STREAM_METER_CBR_OFFSET; STREAM_METER_EBR_OFFSET;
   INGRESS_FILTER_OFFSET; FRER_CONFIG_REG1; FRER_CONFIG_REG2].
Hypothesis stream_plain : forallb plain stream_regs = true.

Lemma stream_reg o : existsb (Z.eqb o) stream_regs = true -> plain o = true.
Proof.
  intros Ho. apply existsb_exists in Ho. destruct Ho as (o' & Hin & E). apply Z.eqb_eq in E. subst.
  rewrite forallb_forall in stream_plain. by apply stream_plain.
Qed.

Ltac known := apply stream_reg; vm_compute; reflexivity.
Ltac run := run_io known.
Ltac masks := cbv [SMC_MODE_SHIFT SMC_CBR_MASK SMC_EBR_MASK IN_PORTID_MASK IN_PORT_SHIFT MAX_FR_SIZE_MASK GATE_ID_SHIFT METER_ID_SHIFT
  EN_METER_SHIFT ALLOW_STREM_SHIFT EN_PSFP_SHIFT WR_OP_TYPE_MASK WR_OP_TYPE_SHIFT OP_TYPE_SHIFT PSFP_EN_CONTROL_MASK IN_PORTID_SHIFT
  MAX_SEQID_MASK REMAINING_TICKS_MASK SEQ_REC_HIST_LEN_MASK SEQ_REC_HIST_LEN_SHIFT SPLIT_STREAM_INPORTID_SHIFT SPLIT_STREAM_INPORTID_MASK
  SPLIT_STREAM_VLANID_MASK MEMBER_ID_SHIFT SEQ_RESET_SHIFT REC_TIMEOUT_SHIFT GATE_STATE_SHIFT FRER_VALID_SHIFT FRER_EN_CONTROL_MASK].

(** A meter or a filter that was programmed is read back, cut to the widths of its fields. *)
Lemma meter_roundtrip data d : 0 <= cir data < 2 ^ 32 -> 0 <= eir data < 2 ^ 32 ->
  fst (get_meter_reg (snd (program_meter_reg data d)))
  = mkMeter (cir data) (eir data) (slice (cbr data) 0 24) (slice (ebr data) 0 24) (slice (meter_mode data) 0 4).
Proof.
  intros. unfold program_meter_reg, get_meter_reg. run. masks.
  f_equal; first [by rewrite !u32_small by (rewrite ?u32_small; lia) | by slices].
Qed.

Lemma filter_roundtrip data d :
  fst (get_stream_filter_config (snd (config_stream_filter data d))) = mkFilter (slice (in_pid data) 0 2) (slice (max_fr_size data) 0 12).
Proof. unfold config_stream_filter, get_stream_filter_config. run. masks. f_equal; by slices. Qed.

(** What [config_ingress_filter] sets of a member, and what it leaves. *)
Lemma ingress_member data d : 0 <= rem_ticks (frer_memb_config_data data) < 2 ^ 16 ->
  fst (get_member_reg (snd (config_ingress_filter data d)))
  = mkMemb (slice (seq_rec_hist_len (frer_memb_config_data data)) 0 8) (split_strm_egport_id (fst (get_member_reg d)))
      (split_strm_vlan_id (fst (get_member_reg d))) (rem_ticks (frer_memb_config_data data)).
Proof.
  intros. unfold config_ingress_filter, get_member_reg. run. masks. cbn [split_strm_egport_id split_strm_vlan_id].
  f_equal; by slices.
Qed.

Lemma ingress_filter data d :
  fst (get_ingress_filter_config (snd (config_ingress_filter data d)))
  = mkInFltr (slice (in_port_id (in_fltr_data data)) 0 2) (max_seq_id (fst (get_ingress_filter_config d))).
Proof.
  intros. unfold config_ingress_filter, get_ingress_filter_config. run. masks. cbn [max_seq_id].
  f_equal; by slices.
Qed.

Lemma member_member data d : 0 <= rem_ticks (frer_memb_config_data data) < 2 ^ 16 ->
  fst (get_member_reg (snd (program_member_reg data d)))
  = mkMemb (seq_rec_hist_len (fst (get_member_reg d))) (slice (split_strm_egport_id (frer_memb_config_data data)) 0 2)
      (slice (split_strm_vlan_id (frer_memb_config_data data)) 0 12) (rem_ticks (frer_memb_config_data data)).
Proof.
  intros. unfold program_member_reg, get_member_reg. run. masks. cbn [seq_rec_hist_len].
  f_equal; by slices.
Qed.

Lemma member_filter data d :
  fst (get_ingress_filter_config (snd (program_member_reg data d)))
  = mkInFltr (in_port_id (fst (get_ingress_filter_config d))) (slice (max_seq_id (in_fltr_data data)) 0 16).
Proof.
  intros. unfold program_member_reg, get_ingress_filter_config. run. masks. cbn [in_port_id].
  f_equal; by slices.
Qed.

(** The settings of a stream as they fit the registers. *)
Definition memb_fits (m : frer_memb_config) : Prop :=
  0 <= seq_rec_hist_len m < 2 ^ 8 /\ 0 <= split_strm_egport_id m < 2 ^ 2 /\ 0 <= split_strm_vlan_id m < 2 ^ 12 /\ 0 <= rem_ticks m < 2 ^ 16.
Definition in_fltr_fits (f : in_fltr) : Prop := 0 <= in_port_id f < 2 ^ 2 /\ 0 <= max_seq_id f < 2 ^ 16.

(** Redundancy: the two calls that configure a stream share three registers and keep each other's fields:
    after both, in any order, exactly the settings handed over are read back, whatever was there before; each
    alone changes its own settings only. *)
Theorem frer_settings_roundtrip data d :
  memb_fits (frer_memb_config_data data) -> in_fltr_fits (in_fltr_data data) ->
  let member := program_member_reg data in
  let ingress := config_ingress_filter data in
  fst (get_member_reg (snd (ingress (snd (member d))))) = frer_memb_config_data data
  /\ fst (get_ingress_filter_config (snd (ingress (snd (member d))))) = in_fltr_data data
  /\ fst (get_member_reg (snd (member (snd (ingress d))))) = frer_memb_config_data data
  /\ fst (get_ingress_filter_config (snd (member (snd (ingress d))))) = in_fltr_data data
  /\ split_strm_vlan_id (fst (get_member_reg (snd (ingress d)))) = split_strm_vlan_id (fst (get_member_reg d))
  /\ seq_rec_hist_len (fst (get_member_reg (snd (member d)))) = seq_rec_hist_len (fst (get_member_reg d)).
Proof.
  intros (Hh & He & Hv & Ht) (Hp & Hq). cbv zeta.
  rewrite !ingress_member, !ingress_filter, !member_member, !member_filter by done.
  rewrite ?ingress_member, ?ingress_filter by done. cbn.
  rewrite !slice_id by lia. destruct data as [? [? ?] [? ? ? ?] ?]. cbn in *. done.
Qed.

(** ** The control words *)

(** Every setting has its own bits of the word. *)
Lemma psfp_word_fields data :
  0 <= psfp_gate_id data < 2 ^ 8 -> 0 <= psfp_meter_id data < 2 ^ 8 ->
  slice (psfp_word data) 24 8 = psfp_gate_id data /\ slice (psfp_word data) 8 8 = psfp_meter_id data
  /\ slice (psfp_word data) 6 1 = b2z (en_meter data) /\ slice (psfp_word data) 5 1 = b2z (allow_stream data)
  /\ slice (psfp_word data) 4 1 = b2z (en_psfp data) /\ slice (psfp_word data) 2 2 = slice (psfp_wr_op_type data) 0 2
  /\ slice (psfp_word data) 1 1 = b2z (psfp_op_type data) /\ slice (psfp_word data) 0 1 = 1.
Proof. intros. unfold psfp_word. masks. repeat split; by slices. Qed.

Lemma frer_word_fields data :
  0 <= frer_gate_id data < 2 ^ 8 -> 0 <= memb_id data < 2 ^ 8 ->
  slice (frer_word data) 24 8 = frer_gate_id data /\ slice (frer_word data) 8 8 = memb_id data
  /\ slice (frer_word data) 7 1 = b2z (seq_reset data) /\ slice (frer_word data) 6 1 = b2z (rcvry_tmout data)
  /\ slice (frer_word data) 5 1 = b2z (gate_state data) /\ slice (frer_word data) 4 1 = b2z (frer_valid data)
  /\ slice (frer_word data) 2 2 = slice (frer_wr_op_type data) 0 2
  /\ slice (frer_word data) 1 1 = b2z (frer_op_type data) /\ slice (frer_word data) 0 1 = 1.
Proof. intros. unfold frer_word. masks. repeat split; by slices. Qed.
End StreamLaws.

(** A device whose control register keeps the bit set: the call never returns, however long one waits; the
    one for filtering gives up after its time-out. *)
Lemma frer_control_hangs `{Device} data rounds d :
  (forall d', truthy (fst (axienet_ior FRER_CONTROL_OFFSET d') &&& FRER_EN_CONTROL_MASK) = true) ->
  fst (frer_control rounds data d) = false.
Proof.
  intros Hb. unfold frer_control. rewrite bind_io, run_iow. generalize (dev_wr FRER_CONTROL_OFFSET (u32 (frer_word data)) d).
  induction rounds as [|n IH]; intros e; cbn [frer_wait]; rewrite bind_io; specialize (Hb e);
    destruct (axienet_ior FRER_CONTROL_OFFSET e) as [v e']; cbn [fst] in Hb; rewrite Hb; [done|apply IH].
Qed.

(** ** Example *)
Definition demo_cb : cb :=
  mkCb (mkFrer 1 2 false true false true 1 false) (mkInFltr 2 4095) (mkMemb 16 1 10 1000)
    (let z := mkCntr 0 0 in mkFrerCnt z z z z z z z z 0).

Lemma frer_settings_roundtrip_witness :
  let d : dev := fun _ => 0xFFFFFFFF in
  fst (get_member_reg (snd (config_ingress_filter demo_cb (snd (program_member_reg demo_cb d))))) = mkMemb 16 1 10 1000.
Proof.
  intros d.
  refine (proj1 (frer_settings_roundtrip (plain := fun _ => true) _ demo_cb d _ _));
    [reflexivity | repeat split; vm_compute; congruence | repeat split; vm_compute; congruence].
Defined.
