(* ===== verification/TsnSwitch.v ===== *)
(** * The switch

    Models src/driver/xilinx/xilinx_tsn_switch.c over the device of [TsnRegs]: the forwarding table (CAM), learning, states
    of the ports, membership in VLANs, the VLAN of untagged frames, start and the commands of the user.
    Structures of the user are arguments ([None]: the copy from the user fails); results copied to the
    user are returned. *)
From S2P Require Import Prelude TsnRegs TsnStream.

Definition GET_STATUS_SWITCH : Z := 0x16.
Definition SET_STATUS_SWITCH : Z := 0x17.
Definition ADD_CAM_ENTRY : Z := 0x18.
Definition DELETE_CAM_ENTRY : Z := 0x19.
Definition PORT_VLAN_MEM_CTRL : Z := 0x20.
Definition SET_FRAME_TYPE_FIELD : Z := 0x21.
Definition SET_MAC1_MNGMNT_Q_CONFIG : Z := 0x22.
Definition SET_MAC2_MNGMNT_Q_CONFIG : Z := 0x23.
Definition CONFIG_METER_MEM : Z := 0x24.
Definition CONFIG_GATE_MEM : Z := 0x25.
Definition PSFP_CONTROL : Z := 0x26.
Definition GET_STATIC_PSFP_COUNTER : Z := 0x27.
Definition GET_METER_REG : Z := 0x28.
Definition GET_STREAM_FLTR_CONFIG : Z := 0x29.
Definition CONFIG_MEMBER_MEM : Z := 0x2A.
Definition CONFIG_INGRESS_FLTR : Z := 0x2B.
Definition FRER_CONTROL : Z := 0x2C.
Definition GET_STATIC_FRER_COUNTER : Z := 0x2D.
Definition GET_MEMBER_REG : Z := 0x2E.
Definition GET_INGRESS_FLTR : Z := 0x2F.
Definition SET_MAC_ADDR_LEARN_CONFIG : Z := 0x30.
Definition GET_MAC_ADDR_LEARN_CONFIG : Z := 0x31.
Definition GET_MAC_ADDR_LEARNT_LIST : Z := 0x32.
Definition SET_PORT_STATUS : Z := 0x33.
Definition GET_PORT_STATUS : Z := 0x34.
Definition ADD_PORT_VLAN : Z := 0x35.
Definition DEL_PORT_VLAN : Z := 0x36.
Definition SET_VLAN_MAC_ADDR_LEARN_CONFIG : Z := 0x37.
Definition GET_VLAN_MAC_ADDR_LEARN_CONFIG : Z := 0x38.
Definition READ_CAM_ENTRY : Z := 0x39.
Definition SET_PORT_NATIVE_VLAN : Z := 0x3A.
Definition GET_PORT_NATIVE_VLAN : Z := 0x3B.
Definition GET_VLAN_MAC_ADDR_LEARN_CONFIG_VLANM : Z := 0x3C.
Definition XAS_STATUS_OFFSET : Z := 0x00000.
Definition XAS_CONTROL_OFFSET : Z := 0x00004.
Definition XAS_PMAP_OFFSET : Z := 0x00008.
Definition XAS_MAC_LSB_OFFSET : Z := 0x0000C.
Definition XAS_MAC_MSB_OFFSET : Z := 0x00010.
Definition XAS_MAC_MSB_FF_MASK_SHIFT : Z := 16.
Definition XAS_EP2MAC_ST_FIFOT_OFFSET : Z := 0x00020.
Definition XAS_EP2MAC_RE_FIFOT_OFFSET : Z := 0x00024.
Definition XAS_EP2MAC_BE_FIFOT_OFFSET : Z := 0x00028.
Definition XAS_MAC2MAC_ST_FIFOT_OFFSET : Z := 0x00030.
Definition XAS_MAC2MAC_RE_FIFOT_OFFSET : Z := 0x00034.
Definition XAS_MAC2MAC_BE_FIFOT_OFFSET : Z := 0x00038.
Definition XAS_EP_PORT_VLAN_OFFSET : Z := 0x00040.
Definition XAS_MAC_PORT_VLAN_OFFSET : Z := 0x00044.
Definition XAS_HW_ADDR_LEARN_CTRL_OFFSET : Z := 0x00048.
Definition XAS_PORT_STATE_CTRL_OFFSET : Z := 0x0004c.
Definition XAS_FRM_FLTR_TYPE_FIELD_OPT_OFFSET : Z := 0x00050.
Definition XAS_MNG_Q_CTRL_OFFSET : Z := 0x00054.
Definition XAS_MNG_Q_SRC_MAC_FIL_EN_SHIFT : Z := 4.
Definition XAS_MNG_Q_SIDEBAND_EN_SHIFT : Z := 3.
Definition XAS_MAC1_MNG_Q_OPTION_OFFSET : Z := 0x00058.
Definition XAS_ST_MAX_FRAME_SIZE_OFFSET : Z := 0x00060.
Definition XAS_RE_MAX_FRAME_SIZE_OFFSET : Z := 0x00064.
Definition XAS_BE_MAX_FRAME_SIZE_OFFSET : Z := 0x00068.
Definition XAS_SDL_CAM_CTRL_OFFSET : Z := 0x1000.
Definition XAS_SDL_CAM_STATUS_OFFSET : Z := 0x1004.
Definition XAS_SDL_CAM_KEY1_OFFSET : Z := 0x1008.
Definition XAS_SDL_CAM_KEY2_OFFSET : Z := 0x100C.
Definition XAS_SDL_CAM_TV1_OFFSET : Z := 0x1010.
Definition XAS_SDL_CAM_TV2_OFFSET : Z := 0x1014.
Definition XAS_SDL_CAM_PORT_ACT_OFFSET : Z := 0x1018.
Definition XAS_VLAN_MEMB_CTRL_REG : Z := 0x1100.
Definition XAS_VLAN_MEMB_DATA_REG : Z := 0x1104.
Definition XAE_EP_EXT_CTRL_OFFSET : Z := 0x0058.
Definition XAE_MGMT_QUEUING_OPTIONS_OFFSET : Z := 0x0054.
Definition XAE_EX_EP_BROADCAST_PKT_SWITCH : Z := BIT 7.
Definition XAE_EX_EP_MULTICAST_PKT_SWITCH : Z := BIT 6.
Definition XAE_EX_EP_EXT_CTRL_DATA_TC_3 : Z := 0x00135419.
Definition XAE_EX_EP_EXT_CTRL_DATA_TC_2 : Z := 0x000DC401.
Definition XAE_EP_EXT_CTRL_DATA_TC_3 : Z := 0x00400419.
Definition XAE_EP_EXT_CTRL_DATA_TC_2 : Z := 0x00400409.
Definition XAE_EX_EP_EXT_CTRL_MASK : Z := 0xFFE00000.
Definition XAE_EP_EXT_CTRL_MASK : Z := 0xFF1FF000.
Definition XAS_CAM_IPV_EN : Z := BIT 0.
Definition XAS_CAM_EP_MGMTQ_EN : Z := BIT 1.
Definition XAS_CAM_VALID : Z := BIT 2.
Definition MAX_NUM_MAC_ENTRIES : Z := 2048.
Definition ADD : Z := 1.
Definition DELETE : Z := 0.
Definition PMAP_EGRESS_QUEUE1_SELECT : Z := 0x1.
Definition PMAP_EGRESS_QUEUE2_SELECT : Z := 0x2.
Definition SDL_EN_CAM_IPV_SHIFT : Z := 28.
Definition SDL_CAM_IPV_SHIFT : Z := 29.
Definition SDL_CAM_WR_ENABLE : Z := BIT 0.
Definition SDL_CAM_READ_KEY_ENTRY : Z := 0x1.
Definition SDL_CAM_ADD_ENTRY : Z := 0x3.
Definition SDL_CAM_DELETE_ENTRY : Z := 0x5.
Definition SDL_CAM_READ_ENTRY : Z := 0x7.
Definition SDL_CAM_VLAN_SHIFT : Z := 16.
Definition SDL_CAM_VLAN_MASK : Z := 0xFFF.
Definition SDL_CAM_IPV_MASK : Z := 0x7.
Definition SDL_CAM_PORT_LIST_SHIFT : Z := 8.
Definition SDL_GATEID_SHIFT : Z := 16.
Definition SDL_CAM_EP_MGMTQ_EN : Z := BIT 15.
Definition SDL_CAM_EP_ACTION_LIST_SHIFT : Z := 0.
Definition SDL_CAM_MAC_ACTION_LIST_SHIFT : Z := 4.
Definition SDL_CAM_LEARNT_ENT_MAC2_SHIFT : Z := 20.
Definition SDL_CAM_LEARNT_ENT_MAC1_SHIFT : Z := 8.
Definition SDL_CAM_LEARNT_ENT_MASK : Z := 0xFFF.
Definition SDL_CAM_FOUND_BIT : Z := BIT 7.
Definition SDL_CAM_READ_KEY_ADDR_SHIFT : Z := 8.
Definition HW_ADDR_AGING_TIME_SHIFT : Z := 8.
Definition HW_ADDR_AGING_TIME_MASK : Z := 0xFFFFF.
Definition HW_ADDR_AGING_BIT : Z := BIT 2.
Definition HW_ADDR_LEARN_UNTAG_BIT : Z := BIT 1.
Definition HW_ADDR_LEARN_BIT : Z := BIT 0.
Definition PORT_MAC_ADDR_LSB_MASK : Z := 0xF.
Definition MAC2_PORT_MAC_ADDR_LSB_SHIFT : Z := 20.
Definition PORT_STATUS_MASK : Z := 0x7.
Definition MAC2_PORT_STATUS_SHIFT : Z := 17.
Definition MAC2_PORT_STATUS_CHG_BIT : Z := BIT 16.
Definition MAC1_PORT_MAC_ADDR_LSB_SHIFT : Z := 12.
Definition MAC1_PORT_STATUS_SHIFT : Z := 9.
Definition MAC1_PORT_STATUS_CHG_BIT : Z := BIT 8.
Definition EP_PORT_STATUS_SHIFT : Z := 1.
Definition EP_PORT_STATUS_CHG_BIT : Z := BIT 0.
Definition EX_EP_PORT_STATUS_SHIFT : Z := 25.
Definition EX_EP_PORT_STATUS_CHG_BIT : Z := BIT 24.
Definition PORT_VLAN_ID_SHIFT : Z := 16.
Definition PORT_VLAN_ID_MASK : Z := 0xFFF.
Definition PORT_VLAN_IPV_SHIFT : Z := 13.
Definition PORT_VLAN_EN_IPV_SHIFT : Z := 12.
Definition PORT_VLAN_WRITE : Z := 0x3.
Definition PORT_VLAN_READ : Z := 0x1.
Definition PORT_VLAN_WRITE_READ_EN_BIT : Z := BIT 0.
Definition PORT_VLAN_PORT_LIST_VALID_BIT : Z := BIT 3.
Definition PORT_VLAN_HW_ADDR_LEARN_BIT : Z := BIT 9.
Definition PORT_VLAN_HW_ADDR_AGING_BIT : Z := BIT 11.
Definition PORT_VLAN_HW_ADDR_AGING_TIME_SHIFT : Z := 12.
Definition NATIVE_MAC1_PCP_SHIFT : Z := 13.
Definition NATIVE_MAC2_VLAN_SHIFT : Z := 16.
Definition NATIVE_MAC2_PCP_SHIFT : Z := 29.
Definition XAS_MEM_STCNTR_CAM_LOOKUP : Z := 0x400.
Definition XAS_MEM_STCNTR_MULTCAST : Z := 0x408.
Definition XAS_MEM_STCNTR_ERR_MAC1 : Z := 0x410.
Definition XAS_MEM_STCNTR_ERR_MAC2 : Z := 0x418.
Definition XAS_MEM_STCNTR_SC_MAC1_EP : Z := 0x420.
Definition XAS_MEM_STCNTR_RES_MAC1_EP : Z := 0x428.
Definition XAS_MEM_STCNTR_BE_MAC1_EP : Z := 0x430.
Definition XAS_MEM_STCNTR_ERR_SC_MAC1_EP : Z := 0x438.
Definition XAS_MEM_STCNTR_ERR_RES_MAC1_EP : Z := 0x440.
Definition XAS_MEM_STCNTR_ERR_BE_MAC1_EP : Z := 0x448.
Definition XAS_MEM_STCNTR_SC_MAC2_EP : Z := 0x458.
Definition XAS_MEM_STCNTR_RES_MAC2_EP : Z := 0x460.
Definition XAS_MEM_STCNTR_BE_MAC2_EP : Z := 0x468.
Definition XAS_MEM_STCNTR_ERR_SC_MAC2_EP : Z := 0x470.
Definition XAS_MEM_STCNTR_ERR_RES_MAC2_EP : Z := 0x478.
Definition XAS_MEM_STCNTR_ERR_BE_MAC2_EP : Z := 0x480.
Definition XAS_MEM_STCNTR_SC_EP_MAC1 : Z := 0x490.
Definition XAS_MEM_STCNTR_RES_EP_MAC1 : Z := 0x498.
Definition XAS_MEM_STCNTR_BE_EP_MAC1 : Z := 0x4A0.
Definition XAS_MEM_STCNTR_ERR_SC_EP_MAC1 : Z := 0x4A8.
Definition XAS_MEM_STCNTR_ERR_RES_EP_MAC1 : Z := 0x4B0.
Definition XAS_MEM_STCNTR_ERR_BE_EP_MAC1 : Z := 0x4B8.
Definition XAS_MEM_STCNTR_SC_MAC2_MAC1 : Z := 0x4C0.
Definition XAS_MEM_STCNTR_RES_MAC2_MAC1 : Z := 0x4C8.
Definition XAS_MEM_STCNTR_BE_MAC2_MAC1 : Z := 0x4D0.
Definition XAS_MEM_STCNTR_ERR_SC_MAC2_MAC1 : Z := 0x4D8.
Definition XAS_MEM_STCNTR_ERR_RES_MAC2_MAC1 : Z := 0x4E0.
Definition XAS_MEM_STCNTR_ERR_BE_MAC2_MAC1 : Z := 0x4E8.
Definition XAS_MEM_STCNTR_SC_EP_MAC2 : Z := 0x4F0.
Definition XAS_MEM_STCNTR_RES_EP_MAC2 : Z := 0x4F8.
Definition XAS_MEM_STCNTR_BE_EP_MAC2 : Z := 0x500.
Definition XAS_MEM_STCNTR_ERR_SC_EP_MAC2 : Z := 0x508.
Definition XAS_MEM_STCNTR_ERR_RES_EP_MAC2 : Z := 0x510.
Definition XAS_MEM_STCNTR_ERR_BE_EP_MAC2 : Z := 0x518.
Definition XAS_MEM_STCNTR_SC_MAC1_MAC2 : Z := 0x520.
Definition XAS_MEM_STCNTR_RES_MAC1_MAC2 : Z := 0x528.
Definition XAS_MEM_STCNTR_BE_MAC1_MAC2 : Z := 0x530.
Definition XAS_MEM_STCNTR_ERR_SC_MAC1_MAC2 : Z := 0x538.
Definition XAS_MEM_STCNTR_ERR_RES_MAC1_MAC2 : Z := 0x540.
Definition XAS_MEM_STCNTR_ERR_BE_MAC1_MAC2 : Z := 0x548.

(** The settings of the endpoint that the switch looks at. *)
Record ep_conf := mkEpConf { ex_ep : bool; packet_switch : bool }.

(** [enum switch_port] *)
Definition PORT_EP : Z := 1.
Definition PORT_MAC1 : Z := 2.
Definition PORT_MAC2 : Z := 4.
Definition PORT_EX_ONLY : Z := 8.
Definition PORT_EX_EP : Z := 16.

(** The structures of xilinx_tsn_switch.h. Addresses are lists of six bytes. *)
Record cam_struct := mkCam {
  cam_src_addr : list Z; cam_dest_addr : list Z; cam_vlanid : Z; cam_tv_vlanid : Z; cam_fwd_port : Z; cam_gate_id : Z;
  cam_ipv : Z; cam_flags : Z; cam_ep_port_act : Z; cam_mac_port_act : Z }.
Record thershold := mkThld { thld_t1 : Z; thld_t2 : Z }.
Record ff_type := mkFf { ff_type1 : Z; ff_type2 : Z }.
Record mac_addr_learn := mkLearn {
  ml_aging : bool; ml_is_age : bool; ml_learning : bool; ml_is_learn : bool; ml_learn_untag : bool; ml_is_untag : bool; ml_aging_time : Z }.
Record mac_learnt := mkLearnt { learnt_addr : list Z; learnt_vlan : Z }.
Record mac_addr_list := mkMacList { list_port_num : Z; num_list : Z; learnt : list mac_learnt }.
Record port_status := mkPs { ps_port_num : Z; ps_port_status : Z }.
Record port_vlan := mkPv {
  pv_aging : bool; pv_is_age : bool; pv_learning : bool; pv_is_learn : bool; pv_is_mgmtq : bool; pv_en_ipv : bool; pv_en_port_status : bool;
  pv_mgmt_ext_id : Z; pv_port_num : Z; pv_ipv : Z; pv_port_status : Z; pv_vlan_id : Z; pv_aging_time : Z }.
Record native_vlan := mkNv { nv_en_ipv : bool; nv_port_num : Z; nv_ipv : Z; nv_vlan_id : Z }.

Record mem_static_arr_cntr := mkMemCnt {
  cam_lookup : static_cntr; multicast_fr : static_cntr; err_mac1 : static_cntr; err_mac2 : static_cntr;
  sc_mac1_ep : static_cntr; res_mac1_ep : static_cntr; be_mac1_ep : static_cntr; err_sc_mac1_ep : static_cntr;
  err_res_mac1_ep : static_cntr; err_be_mac1_ep : static_cntr; sc_mac2_ep : static_cntr; res_mac2_ep : static_cntr;
  be_mac2_ep : static_cntr; err_sc_mac2_ep : static_cntr; err_res_mac2_ep : static_cntr; err_be_mac2_ep : static_cntr;
  sc_ep_mac1 : static_cntr; res_ep_mac1 : static_cntr; be_ep_mac1 : static_cntr; err_sc_ep_mac1 : static_cntr;
  err_res_ep_mac1 : static_cntr; err_be_ep_mac1 : static_cntr; sc_mac2_mac1 : static_cntr; res_mac2_mac1 : static_cntr;
  be_mac2_mac1 : static_cntr; err_sc_mac2_mac1 : static_cntr; err_res_mac2_mac1 : static_cntr; err_be_mac2_mac1 : static_cntr;
  sc_ep_mac2 : static_cntr; res_ep_mac2 : static_cntr; be_ep_mac2 : static_cntr; err_sc_ep_mac2 : static_cntr;
  err_res_ep_mac2 : static_cntr; err_be_ep_mac2 : static_cntr; sc_mac1_mac2 : static_cntr; res_mac1_mac2 : static_cntr;
  be_mac1_mac2 : static_cntr; err_sc_mac1_mac2 : static_cntr; err_res_mac1_mac2 : static_cntr; err_be_mac1_mac2 : static_cntr }.

Record switch_data := mkSwData {
  switch_status : Z; switch_ctrl : Z; switch_prt : Z; sw_mac_addr : list Z;
  thld_ep_mac : list thershold; thld_mac_mac : list thershold; ep_vlan : Z; mac_vlan : Z;
  max_frame_sc_que : Z; max_frame_res_que : Z; max_frame_be_que : Z; mem_arr_cnt : mem_static_arr_cntr; cam_data : cam_struct;
  typefield : ff_type; mac1_config : Z; mac2_config : Z; port_vlan_mem_ctrl_ : Z; port_vlan_mem_data : Z }.

(** Byte [i] of an address. *)
Definition byte_of (m : list Z) (i : nat) : Z := nth i m 0.

(** Four bytes of an address in a word, first one highest, and two. *)
Definition word4 (m : list Z) (i : nat) : Z :=
  (byte_of m i <<< 24) ||| (byte_of m (i + 1) <<< 16) ||| (byte_of m (i + 2) <<< 8) ||| byte_of m (i + 3).
Definition word2 (m : list Z) (i : nat) : Z := (byte_of m i <<< 8) ||| byte_of m (i + 1).

Section Switch.
Context `{Device}.

(** ** Simple registers *)
Definition set_frame_filter_opt (type1 type2 : Z) : io unit :=
  type ← axienet_ior XAS_FRM_FLTR_TYPE_FIELD_OPT_OFFSET;
  let type := if truthy type1 then (type &&& 0x0000FFFF) ||| (type1 <<< 16) else type in
  let type := if truthy type2 then (type &&& 0xFFFF0000) ||| type2 else type in
  axienet_iow XAS_FRM_FLTR_TYPE_FIELD_OPT_OFFSET type.

Definition set_mac1_mngmntq (config : Z) : io unit := axienet_iow XAS_MAC1_MNG_Q_OPTION_OFFSET config.
Definition set_mac2_mngmntq (config : Z) : io unit := axienet_iow XAS_MNG_Q_CTRL_OFFSET config.
Definition port_vlan_mem_ctrl (port_vlan_mem : Z) : io unit := axienet_iow XAS_VLAN_MEMB_CTRL_REG port_vlan_mem.

Definition thld (l : list thershold) (i : nat) : thershold := nth i l (mkThld 0 0).
Definition thld_word (t : thershold) : Z := (thld_t1 t <<< 16) ||| thld_t2 t.

Definition set_switch_regs (data : switch_data) : io unit :=
  axienet_iow XAS_CONTROL_OFFSET (switch_ctrl data);;
  axienet_iow XAS_PMAP_OFFSET (switch_prt data);;
  axienet_iow XAS_MAC_LSB_OFFSET (word4 (sw_mac_addr data) 0);;
  axienet_iow XAS_MAC_MSB_OFFSET (word2 (sw_mac_addr data) 4);;
  axienet_iow XAS_EP2MAC_ST_FIFOT_OFFSET (thld_word (thld (thld_ep_mac data) 0));;
  axienet_iow XAS_EP2MAC_RE_FIFOT_OFFSET (thld_word (thld (thld_ep_mac data) 1));;
  axienet_iow XAS_EP2MAC_BE_FIFOT_OFFSET (thld_word (thld (thld_ep_mac data) 2));;
  axienet_iow XAS_MAC2MAC_ST_FIFOT_OFFSET (thld_word (thld (thld_mac_mac data) 0));;
  axienet_iow XAS_MAC2MAC_RE_FIFOT_OFFSET (thld_word (thld (thld_mac_mac data) 1));;
  axienet_iow XAS_MAC2MAC_BE_FIFOT_OFFSET (thld_word (thld (thld_mac_mac data) 2));;
  axienet_iow XAS_EP_PORT_VLAN_OFFSET (ep_vlan data);;
  axienet_iow XAS_MAC_PORT_VLAN_OFFSET (mac_vlan data);;
  axienet_iow XAS_ST_MAX_FRAME_SIZE_OFFSET (max_frame_sc_que data);;
  axienet_iow XAS_RE_MAX_FRAME_SIZE_OFFSET (max_frame_res_que data);;
  axienet_iow XAS_BE_MAX_FRAME_SIZE_OFFSET (max_frame_be_que data).

Definition read_thld (offset : Z) : io thershold :=
  tmp ← axienet_ior offset;
  mret (mkThld ((tmp >>> 16) &&& 0xFFFF) (tmp &&& 0xFFFF)).

(** The structure is the caller's: counters, CAM data and [type1] stay as they are; [type2] is stored
    twice. [port_vlan_mem_data] has 8 bits. *)
Definition get_switch_regs (data : switch_data) : io switch_data :=
  status ← axienet_ior XAS_STATUS_OFFSET;
  ctrl ← axienet_ior XAS_CONTROL_OFFSET;
  prt ← axienet_ior XAS_PMAP_OFFSET;
  lsb ← axienet_ior XAS_MAC_LSB_OFFSET;
  msb ← axienet_ior XAS_MAC_MSB_OFFSET;
  e0 ← read_thld XAS_EP2MAC_ST_FIFOT_OFFSET;
  e1 ← read_thld XAS_EP2MAC_RE_FIFOT_OFFSET;
  e2 ← read_thld XAS_EP2MAC_BE_FIFOT_OFFSET;
  m0 ← read_thld XAS_MAC2MAC_ST_FIFOT_OFFSET;
  m1 ← read_thld XAS_MAC2MAC_RE_FIFOT_OFFSET;
  m2 ← read_thld XAS_MAC2MAC_BE_FIFOT_OFFSET;
  epv ← axienet_ior XAS_EP_PORT_VLAN_OFFSET;
  macv ← axienet_ior XAS_MAC_PORT_VLAN_OFFSET;
  sc ← axienet_ior XAS_ST_MAX_FRAME_SIZE_OFFSET;
  res ← axienet_ior XAS_RE_MAX_FRAME_SIZE_OFFSET;
  be ← axienet_ior XAS_BE_MAX_FRAME_SIZE_OFFSET;
  tf ← axienet_ior XAS_FRM_FLTR_TYPE_FIELD_OPT_OFFSET;
  q1 ← axienet_ior XAS_MAC1_MNG_Q_OPTION_OFFSET;
  q2 ← axienet_ior XAS_MNG_Q_CTRL_OFFSET;
  vc ← axienet_ior XAS_VLAN_MEMB_CTRL_REG;
  vd ← axienet_ior XAS_VLAN_MEMB_DATA_REG;
  mret (mkSwData status ctrl prt
    [(lsb &&& 0xFF000000) >>> 24; (lsb &&& 0xFF0000) >>> 16; (lsb &&& 0xFF00) >>> 8; lsb &&& 0xFF; (msb &&& 0xFF00) >>> 8; msb &&& 0xFF]
    [e0; e1; e2] [m0; m1; m2] epv macv (sc &&& 0xFFFF) (res &&& 0xFFFF) (be &&& 0xFFFF)
    (mem_arr_cnt data) (cam_data data) (mkFf (ff_type1 (typefield data)) (tf &&& 0x0000FFFF))
    (s32 q1) (s32 q2) (s32 vc) (u8 vd)).

Definition get_memory_static_counter : io mem_static_arr_cntr :=
  c0 ← read_cntr XAS_MEM_STCNTR_CAM_LOOKUP;
  c1 ← read_cntr XAS_MEM_STCNTR_MULTCAST;
  c2 ← read_cntr XAS_MEM_STCNTR_ERR_MAC1;
  c3 ← read_cntr XAS_MEM_STCNTR_ERR_MAC2;
  c4 ← read_cntr XAS_MEM_STCNTR_SC_MAC1_EP;
  c5 ← read_cntr XAS_MEM_STCNTR_RES_MAC1_EP;
  c6 ← read_cntr XAS_MEM_STCNTR_BE_MAC1_EP;
  c7 ← read_cntr XAS_MEM_STCNTR_ERR_SC_MAC1_EP;
  c8 ← read_cntr XAS_MEM_STCNTR_ERR_RES_MAC1_EP;
  c9 ← read_cntr XAS_MEM_STCNTR_ERR_BE_MAC1_EP;
  c10 ← read_cntr XAS_MEM_STCNTR_SC_MAC2_EP;
  c11 ← read_cntr XAS_MEM_STCNTR_RES_MAC2_EP;
  c12 ← read_cntr XAS_MEM_STCNTR_BE_MAC2_EP;
  c13 ← read_cntr XAS_MEM_STCNTR_ERR_SC_MAC2_EP;
  c14 ← read_cntr XAS_MEM_STCNTR_ERR_RES_MAC2_EP;
  c15 ← read_cntr XAS_MEM_STCNTR_ERR_BE_MAC2_EP;
  c16 ← read_cntr XAS_MEM_STCNTR_SC_EP_MAC1;
  c17 ← read_cntr XAS_MEM_STCNTR_RES_EP_MAC1;
  c18 ← read_cntr XAS_MEM_STCNTR_BE_EP_MAC1;
  c19 ← read_cntr XAS_MEM_STCNTR_ERR_SC_EP_MAC1;
  c20 ← read_cntr XAS_MEM_STCNTR_ERR_RES_EP_MAC1;
  c21 ← read_cntr XAS_MEM_STCNTR_ERR_BE_EP_MAC1;
  c22 ← read_cntr XAS_MEM_STCNTR_SC_MAC2_MAC1;
  c23 ← read_cntr XAS_MEM_STCNTR_RES_MAC2_MAC1;
  c24 ← read_cntr XAS_MEM_STCNTR_BE_MAC2_MAC1;
  c25 ← read_cntr XAS_MEM_STCNTR_ERR_SC_MAC2_MAC1;
  c26 ← read_cntr XAS_MEM_STCNTR_ERR_RES_MAC2_MAC1;
  c27 ← read_cntr XAS_MEM_STCNTR_ERR_BE_MAC2_MAC1;
  c28 ← read_cntr XAS_MEM_STCNTR_SC_EP_MAC2;
  c29 ← read_cntr XAS_MEM_STCNTR_RES_EP_MAC2;
  c30 ← read_cntr XAS_MEM_STCNTR_BE_EP_MAC2;
  c31 ← read_cntr XAS_MEM_STCNTR_ERR_SC_EP_MAC2;
  c32 ← read_cntr XAS_MEM_STCNTR_ERR_RES_EP_MAC2;
  c33 ← read_cntr XAS_MEM_STCNTR_ERR_BE_EP_MAC2;
  c34 ← read_cntr XAS_MEM_STCNTR_SC_MAC1_MAC2;
  c35 ← read_cntr XAS_MEM_STCNTR_RES_MAC1_MAC2;
  c36 ← read_cntr XAS_MEM_STCNTR_BE_MAC1_MAC2;
  c37 ← read_cntr XAS_MEM_STCNTR_ERR_SC_MAC1_MAC2;
  c38 ← read_cntr XAS_MEM_STCNTR_ERR_RES_MAC1_MAC2;
  c39 ← read_cntr XAS_MEM_STCNTR_ERR_BE_MAC1_MAC2;
  mret (mkMemCnt c0 c1 c2 c3 c4 c5 c6 c7 c8 c9 c10 c11 c12 c13 c14 c15 c16 c17 c18 c19 c20 c21 c22 c23 c24 c25 c26 c27 c28 c29 c30 c31 c32 c33 c34 c35 c36 c37 c38 c39).

(** ** The forwarding table *)

(** What the loops wait for: a bit to come, a bit to go. *)
Definition not_ready (v : Z) : bool := negb (truthy (v &&& SDL_CAM_WR_ENABLE)).
Definition in_progress (v : Z) : bool := truthy (v &&& SDL_CAM_WR_ENABLE).

(** The guard on the ports of an extended endpoint: [add && EX_ONLY || EX_EP], in this precedence. *)
Definition cam_refused (ep : ep_conf) (data : cam_struct) (add : bool) : bool :=
  if (add && truthy (cam_fwd_port data &&& PORT_EX_ONLY)) || truthy (cam_fwd_port data &&& PORT_EX_EP) then
    if negb (ex_ep ep) then true
    else if truthy (cam_fwd_port data &&& PORT_EX_ONLY) && truthy (cam_fwd_port data &&& PORT_EX_EP) then negb (packet_switch ep)
    else false
  else false.

(** The words of an entry; the gate is written in builds with filtering or redundancy, as here. *)
Definition cam_key1 (data : cam_struct) : Z := word4 (cam_dest_addr data) 0.
Definition cam_key2 (data : cam_struct) : Z :=
  word2 (cam_dest_addr data) 4 ||| ((cam_vlanid data &&& SDL_CAM_VLAN_MASK) <<< SDL_CAM_VLAN_SHIFT).
Definition cam_tv1 (data : cam_struct) : Z := word4 (cam_src_addr data) 0.
Definition cam_tv2 (data : cam_struct) : Z :=
  let en_ipv := b2z (truthy (cam_flags data &&& XAS_CAM_IPV_EN)) in
  (word2 (cam_src_addr data) 4 ||| ((cam_tv_vlanid data &&& SDL_CAM_VLAN_MASK) <<< SDL_CAM_VLAN_SHIFT))
  ||| ((cam_ipv data &&& SDL_CAM_IPV_MASK) <<< SDL_CAM_IPV_SHIFT) ||| (en_ipv <<< SDL_EN_CAM_IPV_SHIFT).
Definition cam_port_action (data : cam_struct) : Z :=
  let pa := if truthy (cam_fwd_port data &&& PORT_EP) then cam_ep_port_act data <<< SDL_CAM_EP_ACTION_LIST_SHIFT else 0 in
  let pa := if truthy (cam_fwd_port data &&& PORT_MAC1) || truthy (cam_fwd_port data &&& PORT_MAC2)
            then pa ||| (cam_mac_port_act data <<< SDL_CAM_MAC_ACTION_LIST_SHIFT) else pa in
  let pa := if truthy (cam_flags data &&& XAS_CAM_EP_MGMTQ_EN) then pa ||| SDL_CAM_EP_MGMTQ_EN else pa in
  pa ||| (cam_fwd_port data <<< SDL_CAM_PORT_LIST_SHIFT) ||| (cam_gate_id data <<< SDL_GATEID_SHIFT).

Definition tsn_switch_cam_set (ep : ep_conf) (data : cam_struct) (add : bool) : io Z :=
  '(_, timeout) ← poll_while XAS_SDL_CAM_STATUS_OFFSET not_ready TIMEOUT;
  if (timeout =? 0)%nat then mret (- EINVAL)
  else if cam_refused ep data add then mret (- EINVAL)
  else
    axienet_iow XAS_SDL_CAM_KEY1_OFFSET (cam_key1 data);;
    axienet_iow XAS_SDL_CAM_KEY2_OFFSET (cam_key2 data);;
    axienet_iow XAS_SDL_CAM_TV1_OFFSET (cam_tv1 data);;
    axienet_iow XAS_SDL_CAM_TV2_OFFSET (cam_tv2 data);;
    axienet_iow XAS_SDL_CAM_PORT_ACT_OFFSET (cam_port_action data);;
    axienet_iow XAS_SDL_CAM_CTRL_OFFSET (if add then SDL_CAM_ADD_ENTRY else SDL_CAM_DELETE_ENTRY);;
    '(_, timeout) ← poll_while XAS_SDL_CAM_CTRL_OFFSET in_progress TIMEOUT;
    mret (if (timeout =? 0)%nat then - EINVAL else 0).

(** The fields of an entry found, put into the caller's structure. *)
Definition cam_fill (ep : ep_conf) (data : cam_struct) (tv1 tv2 act : Z) : cam_struct :=
  let flags := if truthy ((tv2 >>> SDL_EN_CAM_IPV_SHIFT) &&& 0x1) then cam_flags data ||| XAS_CAM_IPV_EN else cam_flags data in
  mkCam [(tv1 >>> 24) &&& 0xFF; (tv1 >>> 16) &&& 0xFF; (tv1 >>> 8) &&& 0xFF; tv1 &&& 0xFF; (tv2 >>> 8) &&& 0xFF; tv2 &&& 0xFF]
    (cam_dest_addr data) (cam_vlanid data) ((tv2 >>> SDL_CAM_VLAN_SHIFT) &&& SDL_CAM_VLAN_MASK)
    (if ex_ep ep then (act >>> SDL_CAM_PORT_LIST_SHIFT) &&& 0x1F else (act >>> SDL_CAM_PORT_LIST_SHIFT) &&& 0x7)
    ((act >>> SDL_GATEID_SHIFT) &&& 0xFF)
    ((tv2 >>> SDL_CAM_IPV_SHIFT) &&& SDL_CAM_IPV_MASK)
    (flags ||| XAS_CAM_VALID)
    ((act >>> SDL_CAM_EP_ACTION_LIST_SHIFT) &&& 0xF) ((act >>> SDL_CAM_MAC_ACTION_LIST_SHIFT) &&& 0xF).
Definition cam_invalid (data : cam_struct) : cam_struct :=
  mkCam (cam_src_addr data) (cam_dest_addr data) (cam_vlanid data) (cam_tv_vlanid data) (cam_fwd_port data) (cam_gate_id data)
    (cam_ipv data) (cam_flags data &&& not32 XAS_CAM_VALID) (cam_ep_port_act data) (cam_mac_port_act data).

(** Time-outs are only logged. [to_user]: the copy to the user succeeds. *)
Definition read_cam_entry (ep : ep_conf) (data : cam_struct) (to_user : bool) : io (Z * option cam_struct) :=
  poll_while XAS_SDL_CAM_STATUS_OFFSET not_ready TIMEOUT;;
  axienet_iow XAS_SDL_CAM_KEY1_OFFSET (cam_key1 data);;
  axienet_iow XAS_SDL_CAM_KEY2_OFFSET (cam_key2 data);;
  axienet_iow XAS_SDL_CAM_CTRL_OFFSET SDL_CAM_READ_ENTRY;;
  '(u_value, _) ← poll_while XAS_SDL_CAM_CTRL_OFFSET in_progress TIMEOUT;
  data ← (if truthy (u_value &&& SDL_CAM_FOUND_BIT) then
            tv1 ← axienet_ior XAS_SDL_CAM_TV1_OFFSET;
            tv2 ← axienet_ior XAS_SDL_CAM_TV2_OFFSET;
            act ← axienet_ior XAS_SDL_CAM_PORT_ACT_OFFSET;
            mret (cam_fill ep data tv1 tv2 act)
          else mret (cam_invalid data));
  mret (if to_user then (0, Some data) else (- EINVAL, None)).

(** ** Learning *)
Definition set_mac_addr_learn (arg : option mac_addr_learn) : io Z :=
  match arg with
  | None => mret (- EINVAL)
  | Some mac_learn =>
      v ← axienet_ior XAS_HW_ADDR_LEARN_CTRL_OFFSET;
      let v := if truthy (ml_aging_time mac_learn)
               then (v &&& not32 (HW_ADDR_AGING_TIME_MASK <<< HW_ADDR_AGING_TIME_SHIFT)) ||| (ml_aging_time mac_learn <<< HW_ADDR_AGING_TIME_SHIFT)
               else v in
      let v := if ml_is_age mac_learn then (if negb (ml_aging mac_learn) then v ||| HW_ADDR_AGING_BIT else v &&& not32 HW_ADDR_AGING_BIT) else v in
      let v := if ml_is_learn mac_learn then (if negb (ml_learning mac_learn) then v ||| HW_ADDR_LEARN_BIT else v &&& not32 HW_ADDR_LEARN_BIT) else v in
      let v := if ml_is_untag mac_learn then (if ml_learn_untag mac_learn then v ||| HW_ADDR_LEARN_UNTAG_BIT else v &&& not32 HW_ADDR_LEARN_UNTAG_BIT) else v in
      axienet_iow XAS_HW_ADDR_LEARN_CTRL_OFFSET v;;
      mret 0
  end.

(** [stack] is what the uninitialised local structure holds: the fields that are not set are copied too. *)
Definition get_mac_addr_learn (stack : mac_addr_learn) (to_user : bool) : io (Z * option mac_addr_learn) :=
  v ← axienet_ior XAS_HW_ADDR_LEARN_CTRL_OFFSET;
  let r := mkLearn (truthy (v &&& HW_ADDR_AGING_BIT)) (ml_is_age stack) (truthy (v &&& HW_ADDR_LEARN_BIT)) (ml_is_learn stack)
             (truthy (v &&& HW_ADDR_LEARN_UNTAG_BIT)) (ml_is_untag stack) ((v >>> HW_ADDR_AGING_TIME_SHIFT) &&& HW_ADDR_AGING_TIME_MASK) in
  axienet_ior XAS_PORT_STATE_CTRL_OFFSET;;
  mret (if to_user then (0, Some r) else (- EINVAL, None)).

(** The entries learnt: each is read by its number; entries not found stay zero. *)
Fixpoint learnt_loop (read_key_addr : Z) (n : nat) (i : Z) : io (list mac_learnt) :=
  match n with
  | O => mret []
  | S n' =>
      poll_while XAS_SDL_CAM_STATUS_OFFSET not_ready TIMEOUT;;
      axienet_iow XAS_SDL_CAM_CTRL_OFFSET (((read_key_addr + i) <<< SDL_CAM_READ_KEY_ADDR_SHIFT) ||| SDL_CAM_READ_KEY_ENTRY);;
      '(u_value, _) ← poll_while XAS_SDL_CAM_CTRL_OFFSET in_progress TIMEOUT;
      e ← (if truthy (u_value &&& SDL_CAM_FOUND_BIT) then
             k1 ← axienet_ior XAS_SDL_CAM_KEY1_OFFSET;
             k2 ← axienet_ior XAS_SDL_CAM_KEY2_OFFSET;
             mret (mkLearnt [(k1 >>> 24) &&& 0xFF; (k1 >>> 16) &&& 0xFF; (k1 >>> 8) &&& 0xFF; k1 &&& 0xFF; (k2 >>> 8) &&& 0xFF; k2 &&& 0xFF]
                            ((k2 >>> 16) &&& 0xFFF))
           else mret (mkLearnt [0; 0; 0; 0; 0; 0] 0));
      rest ← learnt_loop read_key_addr n' (i + 1);
      mret (e :: rest)
  end.

(** [arg] is the first byte of the user's structure; [alloc]: the allocation succeeds. *)
Definition get_mac_addr_learnt_list (alloc : bool) (arg : option Z) (to_user : bool) : io (Z * option mac_addr_list) :=
  if negb alloc then mret (- ENOMEM, None)
  else match arg with
  | None => mret (- EINVAL, None)
  | Some port_num =>
      '(u_value, _) ← poll_while XAS_SDL_CAM_STATUS_OFFSET not_ready TIMEOUT;
      let '(num, key) :=
        if port_num =? PORT_MAC1 then ((u_value >>> SDL_CAM_LEARNT_ENT_MAC1_SHIFT) &&& SDL_CAM_LEARNT_ENT_MASK, 0)
        else ((u_value >>> SDL_CAM_LEARNT_ENT_MAC2_SHIFT) &&& SDL_CAM_LEARNT_ENT_MASK, 0x800) in
      l ← learnt_loop key (Z.to_nat MAX_NUM_MAC_ENTRIES) 0;
      mret (if to_user then (0, Some (mkMacList port_num num l)) else (- EINVAL, None))
  end.

(** ** States of the ports *)

(** One [case]: the state is put in its place unless a change is pending. *)
Definition stp_case (u_value status shift chg : Z) : Z * Z :=
  if negb (truthy (u_value &&& chg))
  then ((u_value &&& not32 (PORT_STATUS_MASK <<< shift)) ||| (status <<< shift), chg)
  else (u_value, 1).

(** The [switch]: the word without the bit that asks for the change, and this bit; [None]: -EINVAL. *)
Definition stp_request (ep : ep_conf) (port : port_status) (u_value : Z) : option (Z * Z) :=
  let n := ps_port_num port in
  let s := ps_port_status port in
  if n =? PORT_EP then Some (stp_case u_value s EP_PORT_STATUS_SHIFT EP_PORT_STATUS_CHG_BIT)
  else if n =? PORT_MAC1 then Some (stp_case u_value s MAC1_PORT_STATUS_SHIFT MAC1_PORT_STATUS_CHG_BIT)
  else if n =? PORT_MAC2 then Some (stp_case u_value s MAC2_PORT_STATUS_SHIFT MAC2_PORT_STATUS_CHG_BIT)
  else if n =? PORT_EX_ONLY then
    if ex_ep ep then Some (stp_case u_value s EX_EP_PORT_STATUS_SHIFT EX_EP_PORT_STATUS_CHG_BIT) else None
  else Some (u_value, 1).

Definition tsn_switch_set_stp_state (ep : ep_conf) (port : port_status) : io Z :=
  u_value ← axienet_ior XAS_PORT_STATE_CTRL_OFFSET;
  match stp_request ep port u_value with
  | None => mret (- EINVAL)
  | Some (u_value, chg) =>
      axienet_iow XAS_PORT_STATE_CTRL_OFFSET (u_value ||| chg);;
      poll_while XAS_PORT_STATE_CTRL_OFFSET (fun v => truthy (v &&& chg)) TIMEOUT;;
      mret 0
  end.

Definition set_port_status (ep : ep_conf) (arg : option port_status) : io Z :=
  match arg with None => mret (- EINVAL) | Some port => tsn_switch_set_stp_state ep port end.

(** The state of a port; another number leaves the caller's value. *)
Definition get_port_status (ep : ep_conf) (arg : option port_status) (to_user : bool) : io (Z * option port_status) :=
  match arg with
  | None => mret (- EINVAL, None)
  | Some port =>
      u_value ← axienet_ior XAS_PORT_STATE_CTRL_OFFSET;
      let n := ps_port_num port in
      let get shift := Some ((u_value >>> shift) &&& PORT_STATUS_MASK) in
      let r := if n =? PORT_EP then get EP_PORT_STATUS_SHIFT
               else if n =? PORT_MAC1 then get MAC1_PORT_STATUS_SHIFT
               else if n =? PORT_MAC2 then get MAC2_PORT_STATUS_SHIFT
               else if n =? PORT_EX_ONLY then (if ex_ep ep then get EX_EP_PORT_STATUS_SHIFT else None)
               else Some (ps_port_status port) in
      mret (match r with
            | None => (- EINVAL, None)
            | Some s => if to_user then (0, Some (mkPs n s)) else (- EINVAL, None)
            end)
  end.

(** ** Membership in VLANs *)

(** The VLAN a command is for. *)
Definition vlan_cmd (vlan_id op : Z) : Z := ((vlan_id &&& PORT_VLAN_ID_MASK) <<< PORT_VLAN_ID_SHIFT) ||| op.
Definition vlan_in_progress (v : Z) : bool := truthy (v &&& PORT_VLAN_WRITE_READ_EN_BIT).

(** What is written to the control register with the ports. *)
Definition vlan_write_word (port : port_vlan) : Z :=
  let u_value := vlan_cmd (pv_vlan_id port) PORT_VLAN_WRITE in
  let u_value := if pv_en_port_status port
                 then u_value ||| (((pv_port_status port &&& SDL_CAM_IPV_MASK) <<< PORT_VLAN_IPV_SHIFT) ||| (1 <<< PORT_VLAN_EN_IPV_SHIFT))
                 else u_value in
  if pv_en_ipv port
  then u_value ||| (((pv_ipv port &&& SDL_CAM_IPV_MASK) <<< PORT_VLAN_IPV_SHIFT) ||| (1 <<< PORT_VLAN_EN_IPV_SHIFT))
  else u_value.

(** The member ports are read from the data register first; only then is the VLAN selected. *)
Definition tsn_switch_vlan_add (port : port_vlan) (add : bool) : io Z :=
  u_value1 ← axienet_ior XAS_VLAN_MEMB_DATA_REG;
  let learning := negb (truthy (u_value1 &&& PORT_VLAN_HW_ADDR_LEARN_BIT)) in
  if (if learning then pv_en_ipv port else pv_en_port_status port) then mret (- EPERM)
  else
    axienet_iow XAS_VLAN_MEMB_CTRL_REG (vlan_cmd (pv_vlan_id port) PORT_VLAN_READ);;
    poll_while XAS_VLAN_MEMB_CTRL_REG vlan_in_progress TIMEOUT;;
    axienet_iow XAS_VLAN_MEMB_DATA_REG
      (if add then u_value1 ||| (PORT_VLAN_PORT_LIST_VALID_BIT ||| pv_port_num port) else u_value1 &&& not32 (pv_port_num port));;
    axienet_iow XAS_VLAN_MEMB_CTRL_REG (vlan_write_word port);;
    poll_while XAS_VLAN_MEMB_CTRL_REG vlan_in_progress TIMEOUT;;
    mret 0.

Definition add_del_port_vlan (arg : option port_vlan) (add : bool) : io Z :=
  match arg with None => mret (- EINVAL) | Some port => tsn_switch_vlan_add port add end.

(** The data of a VLAN with the settings of learning changed. *)
Definition vlan_learn_word (port : port_vlan) (u_value1 : Z) : Z :=
  let v := if truthy (pv_aging_time port)
           then (u_value1 &&& not32 (u32 (HW_ADDR_AGING_TIME_MASK <<< PORT_VLAN_HW_ADDR_AGING_TIME_SHIFT)))
                ||| u32 (pv_aging_time port <<< PORT_VLAN_HW_ADDR_AGING_TIME_SHIFT)
           else u_value1 in
  let v := if pv_is_age port then (if pv_aging port then v ||| PORT_VLAN_HW_ADDR_AGING_BIT else v &&& not32 PORT_VLAN_HW_ADDR_AGING_BIT) else v in
  if pv_is_learn port then (if pv_learning port then v &&& not32 PORT_VLAN_HW_ADDR_LEARN_BIT else v ||| PORT_VLAN_HW_ADDR_LEARN_BIT) else v.

Definition set_vlan_mac_addr_learn (arg : option port_vlan) : io Z :=
  match arg with
  | None => mret (- EINVAL)
  | Some port =>
      axienet_iow XAS_VLAN_MEMB_CTRL_REG (vlan_cmd (pv_vlan_id port) PORT_VLAN_READ);;
      '(u_value, _) ← poll_while XAS_VLAN_MEMB_CTRL_REG vlan_in_progress TIMEOUT;
      u_value1 ← axienet_ior XAS_VLAN_MEMB_DATA_REG;
      axienet_iow XAS_VLAN_MEMB_DATA_REG (vlan_learn_word port u_value1);;
      axienet_iow XAS_VLAN_MEMB_CTRL_REG (u_value ||| PORT_VLAN_WRITE);;
      poll_while XAS_VLAN_MEMB_CTRL_REG vlan_in_progress TIMEOUT;;
      mret 0
  end.

(** What is read of a VLAN, in a build with filtering. *)
Definition vlan_shown (port : port_vlan) (u_value u_value1 : Z) : port_vlan :=
  let learning := negb (truthy (u_value &&& PORT_VLAN_HW_ADDR_LEARN_BIT)) in
  let prio := (u_value1 >>> PORT_VLAN_IPV_SHIFT) &&& SDL_CAM_IPV_MASK in
  let en := truthy ((u_value1 >>> PORT_VLAN_EN_IPV_SHIFT) &&& 0x1) in
  mkPv (truthy (u_value &&& PORT_VLAN_HW_ADDR_AGING_BIT)) (pv_is_age port) learning (pv_is_learn port) (pv_is_mgmtq port)
    (if learning then pv_en_ipv port else en) (if learning then en else pv_en_port_status port)
    (pv_mgmt_ext_id port) (u_value &&& PORT_STATUS_MASK)
    (if learning then pv_ipv port else prio) (if learning then prio else pv_port_status port)
    (pv_vlan_id port) ((u_value >>> PORT_VLAN_HW_ADDR_AGING_TIME_SHIFT) &&& HW_ADDR_AGING_TIME_MASK).

Definition get_vlan_mac_addr_learn (arg : option port_vlan) (to_user : bool) : io (Z * option port_vlan) :=
  match arg with
  | None => mret (- EINVAL, None)
  | Some port =>
      axienet_iow XAS_VLAN_MEMB_CTRL_REG (vlan_cmd (pv_vlan_id port) PORT_VLAN_READ);;
      '(u_value1, _) ← poll_while XAS_VLAN_MEMB_CTRL_REG vlan_in_progress TIMEOUT;
      u_value ← axienet_ior XAS_VLAN_MEMB_DATA_REG;
      mret (if to_user then (0, Some (vlan_shown port u_value u_value1)) else (- EINVAL, None))
  end.

(** ** The VLAN of untagged frames *)

(** One [case]: identifier and priority of a port in its word. *)
Definition pvid_word (port : native_vlan) (vlan_shift pcp_shift u_value : Z) : Z :=
  let v := (u_value &&& not32 (PORT_VLAN_ID_MASK <<< vlan_shift)) ||| (nv_vlan_id port <<< vlan_shift) in
  if nv_en_ipv port then (v &&& not32 (u32 (SDL_CAM_IPV_MASK <<< pcp_shift))) ||| (nv_ipv port <<< pcp_shift) else v.

Definition tsn_switch_pvid_add (port : native_vlan) : io Z :=
  let n := nv_port_num port in
  (if n =? PORT_EP then
     u_value ← axienet_ior XAS_EP_PORT_VLAN_OFFSET;
     axienet_iow XAS_EP_PORT_VLAN_OFFSET (pvid_word port 0 NATIVE_MAC1_PCP_SHIFT u_value)
   else if n =? PORT_MAC1 then
     u_value ← axienet_ior XAS_MAC_PORT_VLAN_OFFSET;
     axienet_iow XAS_MAC_PORT_VLAN_OFFSET (pvid_word port 0 NATIVE_MAC1_PCP_SHIFT u_value)
   else if n =? PORT_MAC2 then
     u_value ← axienet_ior XAS_MAC_PORT_VLAN_OFFSET;
     axienet_iow XAS_MAC_PORT_VLAN_OFFSET (pvid_word port NATIVE_MAC2_VLAN_SHIFT NATIVE_MAC2_PCP_SHIFT u_value)
   else mret tt);;
  mret 0.

Definition set_native_vlan (arg : option native_vlan) : io Z :=
  match arg with None => mret (- EINVAL) | Some port => tsn_switch_pvid_add port end.

Definition pvid_shown (port : native_vlan) (vlan_shift pcp_shift u_value : Z) : native_vlan :=
  mkNv (nv_en_ipv port) (nv_port_num port) ((u_value >>> pcp_shift) &&& SDL_CAM_IPV_MASK) ((u_value >>> vlan_shift) &&& PORT_VLAN_ID_MASK).

(** Another port number leaves the caller's structure as it is. *)
Definition tsn_switch_pvid_get (port : native_vlan) : io native_vlan :=
  let n := nv_port_num port in
  if n =? PORT_EP then
    u_value ← axienet_ior XAS_EP_PORT_VLAN_OFFSET; mret (pvid_shown port 0 NATIVE_MAC1_PCP_SHIFT u_value)
  else if n =? PORT_MAC1 then
    u_value ← axienet_ior XAS_MAC_PORT_VLAN_OFFSET; mret (pvid_shown port 0 NATIVE_MAC1_PCP_SHIFT u_value)
  else if n =? PORT_MAC2 then
    u_value ← axienet_ior XAS_MAC_PORT_VLAN_OFFSET; mret (pvid_shown port NATIVE_MAC2_VLAN_SHIFT NATIVE_MAC2_PCP_SHIFT u_value)
  else mret port.

Definition get_native_vlan (arg : option native_vlan) (to_user : bool) : io (Z * option native_vlan) :=
  match arg with
  | None => mret (- EINVAL, None)
  | Some port => port ← tsn_switch_pvid_get port; mret (if to_user then (0, Some port) else (- EINVAL, None))
  end.

(** ** Start *)

(** The queue of every priority, four bits each. *)
Fixpoint pmap_loop (num_q st_pcp res_pcp : Z) (n : nat) (i pmap : Z) : Z :=
  match n with
  | O => pmap
  | S n' =>
      let pmap :=
        if num_q =? 3 then
          if truthy (st_pcp &&& (1 <<< i)) then pmap ||| (PMAP_EGRESS_QUEUE2_SELECT <<< (4 * i))
          else if truthy (res_pcp &&& (1 <<< i)) then pmap ||| (PMAP_EGRESS_QUEUE1_SELECT <<< (4 * i))
          else pmap
        else if truthy (st_pcp &&& (1 <<< i)) then pmap ||| (PMAP_EGRESS_QUEUE1_SELECT <<< (4 * i)) else pmap in
      pmap_loop num_q st_pcp res_pcp n' (i + 1) pmap
  end.

Definition tsn_switch_cam_init (num_q st_pcp res_pcp : Z) : io Z :=
  poll_while XAS_STATUS_OFFSET not_ready TIMEOUT;;
  axienet_iow XAS_PMAP_OFFSET (pmap_loop num_q st_pcp res_pcp 8 0 0);;
  poll_while XAS_SDL_CAM_STATUS_OFFSET not_ready TIMEOUT;;
  mret 0.

Definition tsn_switch_set_src_mac_filter (mac : list Z) (port : Z) : io unit :=
  let shift := if port =? 1 then MAC1_PORT_MAC_ADDR_LSB_SHIFT else MAC2_PORT_MAC_ADDR_LSB_SHIFT in
  val ← axienet_ior XAS_PORT_STATE_CTRL_OFFSET;
  axienet_iow XAS_PORT_STATE_CTRL_OFFSET
    ((val &&& not32 (PORT_MAC_ADDR_LSB_MASK <<< shift)) ||| ((byte_of mac 5 &&& PORT_MAC_ADDR_LSB_MASK) <<< shift)).

(** The filters of the ports from [port] up to [num_ports]; [ports] are the addresses of the device tree from
    there. The last address used; [None] where one is missing. *)
Fixpoint src_mac_loop (ports : list (option (list Z))) (n : nat) (port : Z) (mac_addr : option (list Z)) : io (option (option (list Z))) :=
  match n with
  | O => mret (Some mac_addr)
  | S n' =>
      match ports with
      | Some mac :: rest => tsn_switch_set_src_mac_filter mac port;; src_mac_loop rest n' (port + 1) (Some mac)
      | _ => mret None
      end
  end.

(** The addresses of the management frames, in the order of the code. *)
Definition mgmt_addrs : list (list Z) :=
  [[0x01; 0x80; 0xc2; 0x00; 0x00; 0x00]; [0x01; 0x80; 0xc2; 0x00; 0x00; 0x0e]; [0x01; 0x00; 0x0c; 0xcc; 0xcc; 0xcc];
   [0x01; 0x00; 0x5e; 0x00; 0x01; 0x81]; [0x01; 0x00; 0x5e; 0x00; 0x00; 0x6b]].
Definition mgmt_cam (addr : list Z) : cam_struct :=
  mkCam [0; 0; 0; 0; 0; 0] addr 1 0 7 0 0 (0 ||| XAS_CAM_EP_MGMTQ_EN) 0 0.

Fixpoint fdb_loop (ep : ep_conf) (addrs : list (list Z)) : io unit :=
  match addrs with
  | [] => mret tt
  | a :: rest => tsn_switch_cam_set ep (mgmt_cam a) true;; fdb_loop ep rest
  end.

(** [None]: no network port in the device tree, the code follows a null pointer. A failed entry is only
    logged. *)
Definition tsn_switch_fdb_init (ep : ep_conf) (num_ports : option Z) (ports : list (option (list Z))) : io (option Z) :=
  match num_ports with
  | None => mret (Some (-1))
  | Some num_ports =>
      val ← axienet_ior XAS_MNG_Q_CTRL_OFFSET;
      axienet_iow XAS_MNG_Q_CTRL_OFFSET (val ||| (1 <<< XAS_MNG_Q_SRC_MAC_FIL_EN_SHIFT));;
      r ← src_mac_loop ports (Z.to_nat (num_ports - 1)) 1 None;
      match r with
      | None => mret (Some (-1))
      | Some None => mret None
      | Some (Some mac_addr) =>
          axienet_iow XAS_MAC_LSB_OFFSET (word4 mac_addr 2);;
          axienet_iow XAS_MAC_MSB_OFFSET ((0xF <<< XAS_MAC_MSB_FF_MASK_SHIFT) ||| (byte_of mac_addr 0 <<< 8) ||| byte_of mac_addr 1);;
          fdb_loop ep mgmt_addrs;;
          val ← axienet_ior XAS_MNG_Q_CTRL_OFFSET;
          axienet_iow XAS_MNG_Q_CTRL_OFFSET (val ||| (1 <<< XAS_MNG_Q_SIDEBAND_EN_SHIFT));;
          mret (Some 0)
      end
  end.
End Switch.
