(* ===== verification/TsnSwitchHw.v ===== *)
(** * What the driver expects of the switch

    [SwitchLaws] states what the driver of [TsnSwitch] relies on: plain registers keep their words, a
    command ends before the time-out and has its effect on the forwarding table or on the memory of the
    VLANs. [demo_switch] is a device that does so. *)
From S2P Require Import Prelude TsnRegs TsnStream TsnSwitch.

(** What a switch holds: words of registers, entries of the forwarding table by key, data and priority
    bits of every VLAN, and the number of free entries. *)
Record sw_view := mkView {
  v_reg : Z -> Z;
  v_cam : Z * Z -> option (Z * Z * Z);
  v_vlan : Z -> Z * Z;
  v_free : nat }.

(** Registers that start a command or tell of its end. The state of the ports is neither one of them nor a plain one. *)
Definition cmd_regs : list Z :=
  [XAS_STATUS_OFFSET; XAS_SDL_CAM_CTRL_OFFSET; XAS_SDL_CAM_STATUS_OFFSET; XAS_VLAN_MEMB_CTRL_REG].
Definition sw_cmd (o : Z) : bool := existsb (Z.eqb o) cmd_regs.
Definition sw_plain (o : Z) : bool :=
  negb (sw_cmd o || existsb (Z.eqb o) [XAS_PORT_STATE_CTRL_OFFSET; PSFP_CONTROL_OFFSET; FRER_CONTROL_OFFSET]).

(** Whether the word read from a register of commands says that one has to wait. *)
Definition sw_busy (o v : Z) : bool :=
  if (o =? XAS_STATUS_OFFSET) || (o =? XAS_SDL_CAM_STATUS_OFFSET) then not_ready v else in_progress v.

(** Key and content the registers of the table hold. *)
Definition staged_key (s : sw_view) : Z * Z := (v_reg s XAS_SDL_CAM_KEY1_OFFSET, v_reg s XAS_SDL_CAM_KEY2_OFFSET).
Definition staged_entry (s : sw_view) : Z * Z * Z :=
  (v_reg s XAS_SDL_CAM_TV1_OFFSET, v_reg s XAS_SDL_CAM_TV2_OFFSET, v_reg s XAS_SDL_CAM_PORT_ACT_OFFSET).

(** One register is written, nothing else changes. *)
Definition reg_set (o v : Z) (s s' : sw_view) : Prop :=
  (forall o', v_reg s' o' = if o' =? o then v else v_reg s o') /\ v_cam s' = v_cam s /\ v_vlan s' = v_vlan s /\ v_free s' = v_free s.

(** All plain registers but those listed are the same. *)
Definition regs_kept (but : list Z) (s s' : sw_view) : Prop :=
  forall o, sw_plain o = true -> existsb (Z.eqb o) but = false -> v_reg s' o = v_reg s o.

Class SwitchLaws `{Device} := {
  view : dev -> sw_view;
  polls : dev -> Z -> nat;
  polls_prompt d o : (polls d o < TIMEOUT)%nat;
  rd_plain d o : sw_plain o = true -> dev_rd o d = (v_reg (view d) o, d);
  rd_wait d o n : sw_cmd o = true -> polls d o = S n ->
    exists v d', dev_rd o d = (v, d') /\ sw_busy o (u32 v) = true /\ view d' = view d /\ polls d' o = n;
  rd_done d o : sw_cmd o = true -> polls d o = O ->
    dev_rd o d = (v_reg (view d) o, d) /\ sw_busy o (u32 (v_reg (view d) o)) = false;
  wr_plain d o v : sw_plain o = true -> reg_set o v (view d) (view (dev_wr o v d));
  cam_add d :
    let s := view d in let s' := view (dev_wr XAS_SDL_CAM_CTRL_OFFSET SDL_CAM_ADD_ENTRY d) in
    v_cam s (staged_key s) <> None \/ (0 < v_free s)%nat ->
    (forall k, v_cam s' k = if decide (k = staged_key s) then Some (staged_entry s) else v_cam s k)
    /\ v_vlan s' = v_vlan s /\ regs_kept [] s s' /\ (v_free s <= S (v_free s'))%nat;
  cam_delete d :
    let s := view d in let s' := view (dev_wr XAS_SDL_CAM_CTRL_OFFSET SDL_CAM_DELETE_ENTRY d) in
    (forall k, v_cam s' k = if decide (k = staged_key s) then None else v_cam s k)
    /\ v_vlan s' = v_vlan s /\ regs_kept [] s s' /\ (v_free s <= v_free s')%nat;
  cam_read d :
    let s := view d in let s' := view (dev_wr XAS_SDL_CAM_CTRL_OFFSET SDL_CAM_READ_ENTRY d) in
    match v_cam s (staged_key s) with
    | Some e => staged_entry s' = e /\ truthy (u32 (v_reg s' XAS_SDL_CAM_CTRL_OFFSET) &&& SDL_CAM_FOUND_BIT) = true
    | None => truthy (u32 (v_reg s' XAS_SDL_CAM_CTRL_OFFSET) &&& SDL_CAM_FOUND_BIT) = false
    end
    /\ v_cam s' = v_cam s /\ v_vlan s' = v_vlan s /\ v_free s' = v_free s
    /\ regs_kept [XAS_SDL_CAM_TV1_OFFSET; XAS_SDL_CAM_TV2_OFFSET; XAS_SDL_CAM_PORT_ACT_OFFSET] s s';
  vlan_read d v : slice v 0 2 = PORT_VLAN_READ ->
    let s := view d in let s' := view (dev_wr XAS_VLAN_MEMB_CTRL_REG v d) in
    v_reg s' XAS_VLAN_MEMB_DATA_REG = fst (v_vlan s (slice v 16 12))
    /\ slice (v_reg s' XAS_VLAN_MEMB_CTRL_REG) 16 12 = slice v 16 12
    /\ slice (v_reg s' XAS_VLAN_MEMB_CTRL_REG) 12 4 = slice (snd (v_vlan s (slice v 16 12))) 0 4
    /\ v_cam s' = v_cam s /\ v_vlan s' = v_vlan s /\ v_free s' = v_free s /\ regs_kept [XAS_VLAN_MEMB_DATA_REG] s s';
  vlan_write d v : slice v 0 2 = PORT_VLAN_WRITE ->
    let s := view d in let s' := view (dev_wr XAS_VLAN_MEMB_CTRL_REG v d) in
    (forall id, v_vlan s' id = if id =? slice v 16 12 then (v_reg s XAS_VLAN_MEMB_DATA_REG, slice v 12 4) else v_vlan s id)
    /\ v_cam s' = v_cam s /\ v_free s' = v_free s /\ regs_kept [] s s' }.

(** ** Programs on such a switch *)
Section Laws.
Context `{SwitchLaws}.

#[global] Instance switch_regs : RegLaws sw_plain.
Proof.
  refine (Build_RegLaws _ sw_plain (fun d => v_reg (view d)) _ _).
  - intros o d Ho. by apply rd_plain.
  - intros o v d o' Ho _. apply (wr_plain d o v Ho).
Defined.

Lemma io_rd o d : sw_plain o = true -> axienet_ior o d = (u32 (v_reg (view d) o), d).
Proof. intros Ho. unfold axienet_ior. by rewrite rd_plain. Qed.

Lemma wr_reg o v d o' : sw_plain o = true -> v_reg (view (dev_wr o v d)) o' = (if o' =? o then v else v_reg (view d) o').
Proof. intros Ho. apply (wr_plain d o v Ho). Qed.
Lemma wr_cam o v d : sw_plain o = true -> v_cam (view (dev_wr o v d)) = v_cam (view d).
Proof. intros Ho. apply (wr_plain d o v Ho). Qed.
Lemma wr_vlan o v d : sw_plain o = true -> v_vlan (view (dev_wr o v d)) = v_vlan (view d).
Proof. intros Ho. apply (wr_plain d o v Ho). Qed.
Lemma wr_free o v d : sw_plain o = true -> v_free (view (dev_wr o v d)) = v_free (view d).
Proof. intros Ho. apply (wr_plain d o v Ho). Qed.

(** A single read of a register of commands. *)
Lemma io_rd_cmd o d : sw_cmd o = true -> exists v d', axienet_ior o d = (v, d') /\ view d' = view d.
Proof.
  intros Ho. unfold axienet_ior. destruct (polls d o) as [|n] eqn:E.
  - destruct (rd_done d o Ho E) as [-> _]. eauto.
  - destruct (rd_wait d o n Ho E) as (v & d' & -> & _ & Hv & _). eauto.
Qed.

(** The loop ends in time and leaves what the switch holds alone. *)
Lemma poll_done o d : sw_cmd o = true -> forall n t, polls d o = n -> (n < t)%nat ->
  exists d', poll_while o (sw_busy o) t d = ((u32 (v_reg (view d) o), (t - n)%nat), d') /\ view d' = view d.
Proof.
  intros Ho n. revert d. induction n as [|n IH]; intros d t Hp Ht.
  - destruct (rd_done d o Ho Hp) as [E Hb]. exists d. split; [|done].
    destruct t as [|t]; [lia|]. cbn [poll_while]. rewrite bind_io. unfold axienet_ior. rewrite E, Hb. done.
  - destruct (rd_wait d o n Ho Hp) as (v & d1 & E & Hb & Hv & Hn). destruct t as [|t]; [lia|].
    destruct (IH d1 t Hn ltac:(lia)) as (d' & E' & Hv'). exists d'. split; [|congruence].
    cbn [poll_while]. rewrite bind_io. unfold axienet_ior. rewrite E, Hb, E', Hv. do 3 f_equal. 
Qed.

Lemma poll_cmd o d : sw_cmd o = true ->
  exists t d', poll_while o (sw_busy o) TIMEOUT d = ((u32 (v_reg (view d) o), S t), d') /\ view d' = view d.
Proof.
  intros Ho. pose proof (polls_prompt d o) as Hp. destruct (poll_done o d Ho _ TIMEOUT eq_refl Hp) as (d' & E & Hv).
  exists (TIMEOUT - polls d o - 1)%nat, d'. split; [|done]. rewrite E. do 2 f_equal. clear E. revert Hp. generalize TIMEOUT. lia.
Qed.
End Laws.

(** Runs reads and writes of plain registers, and computes what the registers hold then. *)
Ltac plain := reflexivity.
Ltac run_sw := repeat first [rewrite bind_io | rewrite run_iow | rewrite io_rd by plain | rewrite ret_io | progress cbv beta iota zeta].
Ltac seen := repeat first [rewrite wr_reg by plain; offsets | rewrite wr_cam by plain | rewrite wr_vlan by plain | rewrite wr_free by plain].

(** ** A switch *)
Record demo_dev := mkDemo { demo_view : sw_view; demo_pending : nat }.

(** A register written. *)
Definition set_reg (o v : Z) (s : sw_view) : sw_view :=
  mkView (fun o' => if o' =? o then v else v_reg s o') (v_cam s) (v_vlan s) (v_free s).

(** Registers of commands show the end of the last one. *)
Definition demo_shown (s : sw_view) (o : Z) : Z :=
  if (o =? XAS_STATUS_OFFSET) || (o =? XAS_SDL_CAM_STATUS_OFFSET) then 1
  else if sw_cmd o then v_reg s o &&& not32 1 else v_reg s o.

Definition demo_rd (o : Z) (d : demo_dev) : Z * demo_dev :=
  match sw_cmd o, Nat.min (demo_pending d) 2 with
  | true, S n => (if (o =? XAS_STATUS_OFFSET) || (o =? XAS_SDL_CAM_STATUS_OFFSET) then 0 else 1, mkDemo (demo_view d) n)
  | _, _ => (demo_shown (demo_view d) o, d)
  end.

Definition demo_cmd (o v : Z) (s : sw_view) : sw_view :=
  if o =? XAS_SDL_CAM_CTRL_OFFSET then
    if v =? SDL_CAM_ADD_ENTRY then
      match v_free s, v_cam s (staged_key s) with
      | O, None => s
      | n, e => mkView (v_reg s) (fun k => if decide (k = staged_key s) then Some (staged_entry s) else v_cam s k) (v_vlan s)
                  (match e with None => n - 1 | Some _ => n end)%nat
      end
    else if v =? SDL_CAM_DELETE_ENTRY then
      mkView (v_reg s) (fun k => if decide (k = staged_key s) then None else v_cam s k) (v_vlan s)
        (match v_cam s (staged_key s) with None => v_free s | Some _ => S (v_free s) end)
    else if v =? SDL_CAM_READ_ENTRY then
      match v_cam s (staged_key s) with
      | Some (t1, t2, a) =>
          set_reg XAS_SDL_CAM_CTRL_OFFSET SDL_CAM_FOUND_BIT
            (set_reg XAS_SDL_CAM_TV1_OFFSET t1 (set_reg XAS_SDL_CAM_TV2_OFFSET t2 (set_reg XAS_SDL_CAM_PORT_ACT_OFFSET a s)))
      | None => set_reg XAS_SDL_CAM_CTRL_OFFSET 0 s
      end
    else s
  else
    let id := slice v 16 12 in
    if slice v 0 2 =? PORT_VLAN_READ then
      set_reg XAS_VLAN_MEMB_CTRL_REG ((id <<< 16) ||| (slice (snd (v_vlan s id)) 0 4 <<< 12)) (set_reg XAS_VLAN_MEMB_DATA_REG (fst (v_vlan s id)) s)
    else if slice v 0 2 =? PORT_VLAN_WRITE then
      mkView (v_reg s) (v_cam s) (fun i => if i =? id then (v_reg s XAS_VLAN_MEMB_DATA_REG, slice v 12 4) else v_vlan s i) (v_free s)
    else s.

Definition demo_wr (o v : Z) (d : demo_dev) : demo_dev :=
  if (o =? XAS_SDL_CAM_CTRL_OFFSET) || (o =? XAS_VLAN_MEMB_CTRL_REG) then mkDemo (demo_cmd o v (demo_view d)) 2
  else mkDemo (set_reg o v (demo_view d)) (demo_pending d).

(** Two reads at most are answered busy. *)
Definition demo_polls (d : demo_dev) (o : Z) : nat := if sw_cmd o then Nat.min (demo_pending d) 2 else O.

#[global] Instance demo_switch : Device := {| dev := demo_dev; dev_rd := demo_rd; dev_wr := demo_wr |}.

Definition demo_seen (d : demo_dev) : sw_view :=
  let s := demo_view d in mkView (demo_shown s) (v_cam s) (v_vlan s) (v_free s).

Lemma demo_plain s o : sw_plain o = true -> demo_shown s o = v_reg s o.
Proof.
  unfold sw_plain, demo_shown. destruct (sw_cmd o) eqn:E; [done|]. intros _.
  unfold sw_cmd, cmd_regs in E. cbn [existsb] in E. apply orb_false_elim in E. destruct E as [-> E].
  apply orb_false_elim in E. destruct E as [_ E]. apply orb_false_elim in E. by destruct E as [-> _].
Qed.

Lemma plain_neq o o' : sw_plain o = true -> sw_plain o' = false -> (o =? o') = false.
Proof. intros Ho Ho'. apply Z.eqb_neq. by intros ->; rewrite Ho in Ho'. Qed.

Lemma demo_shown_set s o v o' : sw_plain o = true -> demo_shown (set_reg o v s) o' = (if o' =? o then v else demo_shown s o').
Proof.
  intros Ho. destruct (Z.eqb_spec o' o) as [->|Hn].
  - rewrite demo_plain by done. cbn. by rewrite Z.eqb_refl.
  - unfold demo_shown, set_reg. cbn [v_reg]. by rewrite (proj2 (Z.eqb_neq o' o) Hn).
Qed.

Lemma demo_set o v d : sw_plain o = true -> reg_set o v (demo_seen d) (demo_seen (demo_wr o v d)).
Proof.
  intros Ho. unfold demo_wr. rewrite !(plain_neq o _ Ho) by reflexivity. cbn [orb].
  repeat split. intros o'. by apply demo_shown_set.
Qed.

(** A write to a register of commands changes no plain register but those it fills. *)
Lemma demo_kept_set but o v s t : sw_plain o = false \/ existsb (Z.eqb o) but = true ->
  (forall o', sw_plain o' = true -> existsb (Z.eqb o') but = false -> v_reg t o' = demo_shown s o') ->
  (forall o', sw_plain o' = true -> existsb (Z.eqb o') but = false -> v_reg (set_reg o v t) o' = demo_shown s o').
Proof.
  intros Ho Ht o' Hp Hb. cbn. destruct (Z.eqb_spec o' o) as [->|]; [|by apply Ht].
  destruct Ho; congruence.
Qed.

Lemma demo_kept but d t : (forall o', sw_plain o' = true -> existsb (Z.eqb o') but = false -> v_reg t o' = demo_shown (demo_view d) o') ->
  regs_kept but (demo_seen d) (demo_seen (mkDemo t 2)).
Proof. intros Ht o' Hp Hb. cbn. rewrite demo_plain by done. by apply Ht. Qed.

Lemma demo_same but d t : v_reg t = v_reg (demo_view d) -> regs_kept but (demo_seen d) (demo_seen (mkDemo t 2)).
Proof. intros E. apply demo_kept. intros o Ho _. by rewrite E, demo_plain. Qed.

#[global] Instance demo_switch_laws : SwitchLaws.
Proof.
  refine (Build_SwitchLaws demo_switch demo_seen demo_polls _ _ _ _ _ _ _ _ _ _).
  - intros d o. unfold demo_polls, TIMEOUT. destruct (sw_cmd o); cbn; lia.
  - intros d o Ho. cbn. unfold demo_rd. unfold sw_plain in Ho. by destruct (sw_cmd o).
  - intros d o n Ho Hp. cbn. unfold demo_rd, demo_polls in *. rewrite Ho in *. rewrite Hp.
    eexists _, _. split; [done|]. split; [|split; [done|]].
    + unfold sw_busy. by destruct (_ || _).
    + cbn [demo_pending]. lia.
  - intros d o Ho Hp. cbn. unfold demo_rd, demo_polls in *. rewrite Ho in *. rewrite Hp. split; [done|].
    unfold sw_busy, demo_shown. rewrite Ho. destruct (_ || _); [done|].
    unfold in_progress, SDL_CAM_WR_ENABLE. rewrite truthy_slice by lia. by slices.
  - intros d o v Ho. by apply demo_set.
  - intros d s s' Hroom. subst s s'. cbn [dev_wr demo_switch]. unfold demo_wr, demo_cmd. offsets. cbn [orb].
    change (staged_key (demo_seen d)) with (staged_key (demo_view d)) in *.
    change (staged_entry (demo_seen d)) with (staged_entry (demo_view d)) in *.
    cbn [demo_seen v_cam v_free] in *.
    destruct (v_free (demo_view d)) eqn:Ef, (v_cam (demo_view d) (staged_key (demo_view d))) eqn:Ec; cbn;
      try (split; [done|]; split; [done|]; split; [by apply demo_same|lia]).
    exfalso. destruct Hroom as [Hr|Hr]; [by apply Hr|lia].
  - intros d s s'. subst s s'. cbn [dev_wr demo_switch]. unfold demo_wr, demo_cmd. offsets. cbn [orb].
    change (staged_key (demo_seen d)) with (staged_key (demo_view d)) in *.
    cbn. split; [done|]; split; [done|]; split; [by apply demo_same|].
    destruct (v_cam _ _); lia.
  - intros d s s'. subst s s'. cbn [dev_wr demo_switch]. unfold demo_wr, demo_cmd. offsets. cbn [orb].
    change (staged_key (demo_seen d)) with (staged_key (demo_view d)) in *. cbn [demo_seen v_cam].
    destruct (v_cam (demo_view d) (staged_key (demo_view d))) as [[[t1 t2] a]|].
    + split; [done|]. repeat (split; [done|]). apply demo_kept.
      repeat (apply demo_kept_set; [by (left; reflexivity) || (right; reflexivity)|]). intros; symmetry; by apply demo_plain.
    + split; [done|]. repeat (split; [done|]). apply demo_kept.
      apply demo_kept_set; [by left|]. intros; symmetry; by apply demo_plain.
  - intros d v Hv s s'. subst s s'. cbn [dev_wr demo_switch]. unfold demo_wr, demo_cmd. offsets. rewrite Hv. offsets. cbn [orb].
    assert (forall w s, v_reg (demo_seen (mkDemo (set_reg XAS_VLAN_MEMB_CTRL_REG w s) 2)) XAS_VLAN_MEMB_CTRL_REG = w &&& not32 1) as Hw by done.
    rewrite !Hw. split; [done|]. split; [by slices|]. split; [by slices|].
    repeat (split; [done|]).
    apply demo_kept. apply demo_kept_set; [by left|]. apply demo_kept_set; [by right|]. intros; symmetry; by apply demo_plain.
  - intros d v Hv s s'. subst s s'. cbn [dev_wr demo_switch]. unfold demo_wr, demo_cmd. offsets. rewrite Hv. offsets. cbn [orb].
    split; [done|]. split; [done|]. split; [done|]. by apply demo_same.
Defined.
