(* ===== verification/TsnSwitchCam.v ===== *)
(** * The forwarding table

    What the functions of [TsnSwitch] on the forwarding table do, on any switch that satisfies
    [SwitchLaws]: they refine a finite map from addresses and VLANs to entries. *)
From S2P Require Import Prelude TsnRegs TsnStream TsnSwitch TsnSwitchHw.

(** ** The table as a map *)
Record fdb_entry := mkFdb {
  fdb_src : list Z; fdb_tv_vlan : Z; fdb_en_ipv : bool; fdb_ipv : Z; fdb_ports : Z; fdb_gate : Z; fdb_ep_act : Z; fdb_mac_act : Z }.
Definition fdb : Type := gmap (list Z * Z) fdb_entry.

Inductive fdb_op :=
| Fdb_add (data : cam_struct)
| Fdb_delete (data : cam_struct)
| Fdb_read (data : cam_struct).

(** Key and entry of a request: 12 bits of the VLANs, 3 of the priority; actions only for the ports named. *)
Definition fdb_key (data : cam_struct) : list Z * Z := (cam_dest_addr data, slice (cam_vlanid data) 0 12).
Definition fdb_of (data : cam_struct) : fdb_entry :=
  mkFdb (cam_src_addr data) (slice (cam_tv_vlanid data) 0 12) (truthy (cam_flags data &&& XAS_CAM_IPV_EN)) (slice (cam_ipv data) 0 3)
    (cam_fwd_port data) (cam_gate_id data)
    (if truthy (cam_fwd_port data &&& PORT_EP) then cam_ep_port_act data else 0)
    (if truthy (cam_fwd_port data &&& PORT_MAC1) || truthy (cam_fwd_port data &&& PORT_MAC2) then cam_mac_port_act data else 0).

(** An entry in the structure of the caller. *)
Definition fdb_show (data : cam_struct) (e : fdb_entry) : cam_struct :=
  mkCam (fdb_src e) (cam_dest_addr data) (cam_vlanid data) (fdb_tv_vlan e) (fdb_ports e) (fdb_gate e) (fdb_ipv e)
    ((if fdb_en_ipv e then cam_flags data ||| XAS_CAM_IPV_EN else cam_flags data) ||| XAS_CAM_VALID) (fdb_ep_act e) (fdb_mac_act e).

Definition fdb_step (ep : ep_conf) (op : fdb_op) (m : fdb) : (Z * option cam_struct) * fdb :=
  match op with
  | Fdb_add data => if cam_refused ep data true then ((- EINVAL, None), m) else ((0, None), <[fdb_key data := fdb_of data]> m)
  | Fdb_delete data => if cam_refused ep data false then ((- EINVAL, None), m) else ((0, None), delete (fdb_key data) m)
  | Fdb_read data => ((0, Some (match m !! fdb_key data with Some e => fdb_show data e | None => cam_invalid data end)), m)
  end.

Fixpoint fdb_run (ep : ep_conf) (ops : list fdb_op) (m : fdb) : list (Z * option cam_struct) * fdb :=
  match ops with
  | [] => ([], m)
  | op :: rest => let '(r, m) := fdb_step ep op m in let '(rs, m) := fdb_run ep rest m in (r :: rs, m)
  end.

(** ** The calls of the driver *)
Section Cam.
Context `{SwitchLaws}.

Definition cam_call (ep : ep_conf) (op : fdb_op) : io (Z * option cam_struct) :=
  match op with
  | Fdb_add data => r ← tsn_switch_cam_set ep data true; mret (r, None)
  | Fdb_delete data => r ← tsn_switch_cam_set ep data false; mret (r, None)
  | Fdb_read data => read_cam_entry ep data true
  end.

Fixpoint cam_calls (ep : ep_conf) (ops : list fdb_op) : io (list (Z * option cam_struct)) :=
  match ops with
  | [] => mret []
  | op :: rest => r ← cam_call ep op; rs ← cam_calls ep rest; mret (r :: rs)
  end.

(** ** Requests that fit the registers *)
Definition mac_ok (m : list Z) : Prop := length m = 6%nat /\ Forall (fun b => 0 <= b < 2 ^ 8) m.
Definition cam_ok (data : cam_struct) : Prop :=
  mac_ok (cam_src_addr data) /\ mac_ok (cam_dest_addr data) /\ 0 <= cam_fwd_port data < 2 ^ 5 /\ 0 <= cam_gate_id data < 2 ^ 8
  /\ 0 <= cam_ep_port_act data < 2 ^ 4 /\ 0 <= cam_mac_port_act data < 2 ^ 4.

(** The words of a key, and the entry in the words of the table. *)
Definition key_words (k : list Z * Z) : Z * Z := (u32 (word4 (fst k) 0), u32 (word2 (fst k) 4 ||| (snd k <<< 16))).
Definition entry_of (ep : ep_conf) (t : Z * Z * Z) : fdb_entry :=
  let '(t1, t2, a) := t in
  mkFdb [slice t1 24 8; slice t1 16 8; slice t1 8 8; slice t1 0 8; slice t2 8 8; slice t2 0 8]
    (slice t2 16 12) (truthy (slice t2 28 1)) (slice t2 29 3) (if ex_ep ep then slice a 8 5 else slice a 8 3) (slice a 16 8)
    (slice a 0 4) (slice a 4 4).

(** The table of the switch is the map, on all keys. *)
Definition key_ok (k : list Z * Z) : Prop := mac_ok (fst k) /\ 0 <= snd k < 2 ^ 12.
Definition holds (ep : ep_conf) (d : dev) (m : fdb) : Prop :=
  forall k, key_ok k -> entry_of ep <$> v_cam (view d) (key_words k) = m !! k.

Lemma mac_bytes m : mac_ok m -> exists a b c d e f, m = [a; b; c; d; e; f]
  /\ 0 <= a < 2 ^ 8 /\ 0 <= b < 2 ^ 8 /\ 0 <= c < 2 ^ 8 /\ 0 <= d < 2 ^ 8 /\ 0 <= e < 2 ^ 8 /\ 0 <= f < 2 ^ 8.
Proof.
  intros [Hl Hf]. destruct m as [|a [|b [|c [|d [|e [|f [|]]]]]]]; try done.
  exists a, b, c, d, e, f. split; [done|]. repeat (apply Forall_cons_1 in Hf as [? Hf]). done.
Qed.

Lemma key_words_inj k k' : key_ok k -> key_ok k' -> key_words k = key_words k' -> k = k'.
Proof.
  destruct k as [m v], k' as [m' v']. intros [Hm Hv] [Hm' Hv'] [=E1 E2]. cbn [fst snd] in *.
  destruct (mac_bytes m Hm) as (a & b & c & d & e & f & -> & ? & ? & ? & ? & ? & ?), (mac_bytes m' Hm') as (a' & b' & c' & d' & e' & f' & -> & ? & ? & ? & ? & ? & ?).
  unfold word4, word2, byte_of in *. cbn [nth Nat.add] in *.
  assert (forall s, slice (u32 ((a <<< 24) ||| (b <<< 16) ||| (c <<< 8) ||| d)) s 8 = slice (u32 ((a' <<< 24) ||| (b' <<< 16) ||| (c' <<< 8) ||| d')) s 8) as F1 by (intros; by rewrite E1).
  assert (forall s w, slice (u32 ((e <<< 8) ||| f ||| (v <<< 16))) s w = slice (u32 ((e' <<< 8) ||| f' ||| (v' <<< 16))) s w) as F2 by (intros; by rewrite E2).
  clear E1 E2.
  assert (a = a') by (specialize (F1 24); revert F1; slices; done).
  assert (b = b') by (specialize (F1 16); revert F1; slices; done).
  assert (c = c') by (specialize (F1 8); revert F1; slices; done).
  assert (d = d') by (specialize (F1 0); revert F1; slices; done).
  assert (e = e') by (specialize (F2 8 8); revert F2; slices; done).
  assert (f = f') by (specialize (F2 0 8); revert F2; slices; done).
  assert (v = v') by (specialize (F2 16 12); revert F2; slices; done).
  congruence.
Qed.

(** Ports of a table without an extended endpoint. *)
Lemma ports_below_8 p : 0 <= p < 2 ^ 5 -> truthy (p &&& PORT_EX_ONLY) = false -> truthy (p &&& PORT_EX_EP) = false -> 0 <= p < 2 ^ 3.
Proof.
  intros Hp H8 H16.
  pose proof (all_below_spec 32 (fun p => truthy (p &&& PORT_EX_ONLY) || truthy (p &&& PORT_EX_EP) || (p <? 8)) p eq_refl ltac:(lia)) as E.
  cbn beta in E. rewrite H8, H16 in E. apply Z.ltb_lt in E. lia.
Qed.

Ltac cam_consts := cbv [SDL_CAM_VLAN_MASK SDL_CAM_VLAN_SHIFT SDL_CAM_IPV_MASK SDL_CAM_IPV_SHIFT SDL_EN_CAM_IPV_SHIFT
  SDL_CAM_EP_ACTION_LIST_SHIFT SDL_CAM_MAC_ACTION_LIST_SHIFT SDL_CAM_PORT_LIST_SHIFT SDL_GATEID_SHIFT SDL_CAM_EP_MGMTQ_EN].

(** The words written hold the entry. *)
Lemma cam_encode ep data : cam_ok data -> cam_refused ep data true = false ->
  entry_of ep (u32 (cam_tv1 data), u32 (cam_tv2 data), u32 (cam_port_action data)) = fdb_of data.
Proof.
  intros (Hs & _ & Hp & Hg & He & Hm) Href. unfold entry_of, fdb_of.
  destruct (mac_bytes _ Hs) as (a & b & c & d & e & f & Es & ? & ? & ? & ? & ? & ?).
  f_equal.
  - rewrite Es. unfold cam_tv1, cam_tv2, word4, word2, byte_of. rewrite Es. cbn [nth Nat.add]. cam_consts. slices. done.
  - unfold cam_tv2, word2, byte_of. rewrite Es. cbn [nth Nat.add]. cam_consts. slices. done.
  - unfold cam_tv2, word2, byte_of. rewrite Es. cbn [nth Nat.add]. cam_consts. slices. apply truthy_b2z.
  - unfold cam_tv2, word2, byte_of. rewrite Es. cbn [nth Nat.add]. cam_consts. slices. done.
  - assert (ex_ep ep = false -> 0 <= cam_fwd_port data < 2 ^ 3) as H8.
    { intros Ex. unfold cam_refused in Href. rewrite Ex in Href. cbn [andb negb] in Href.
      destruct (truthy (cam_fwd_port data &&& PORT_EX_ONLY)) eqn:?, (truthy (cam_fwd_port data &&& PORT_EX_EP)) eqn:?; try done.
      by apply ports_below_8. }
    unfold cam_port_action. cam_consts. unfold BIT. destruct (ex_ep ep); [|specialize (H8 eq_refl); clear Hp];
      repeat case_if; slices; done.
  - unfold cam_port_action. cam_consts. unfold BIT. repeat case_if; slices; done.
  - unfold cam_port_action. cam_consts. unfold BIT. repeat case_if; slices; done.
  - unfold cam_port_action. cam_consts. unfold BIT. repeat case_if; slices; done.
Qed.

Lemma key_words_of data : key_words (fdb_key data) = (u32 (cam_key1 data), u32 (cam_key2 data)).
Proof. unfold key_words, fdb_key, cam_key1, cam_key2. cbn [fst snd]. by rewrite slice_low. Qed.

Lemma fdb_key_ok data : cam_ok data -> key_ok (fdb_key data).
Proof. intros (_ & Hd & _). split; [done|]. apply slice_range. lia. Qed.

(** The table after the entry of a key was changed. *)
Lemma holds_change ep d d' m k e : holds ep d m -> key_ok k ->
  (forall x, v_cam (view d') x = if decide (x = key_words k) then e else v_cam (view d) x) ->
  holds ep d' (match entry_of ep <$> e with Some e => <[k := e]> m | None => delete k m end).
Proof.
  intros Hm Hk Hd k' Hk'. unfold fdb in *. rewrite Hd. destruct (decide (key_words k' = key_words k)) as [E|Hne].
  - rewrite (key_words_inj k' k Hk' Hk E). destruct e as [t|]; cbv [fmap option_fmap option_map];
      [by rewrite lookup_insert_eq|by rewrite lookup_delete_eq].
  - rewrite Hm by done. assert (k <> k') by (intros ->; done).
    destruct e as [t|]; cbv [fmap option_fmap option_map]; [by rewrite lookup_insert_ne|by rewrite lookup_delete_ne].
Qed.

Lemma holds_same ep d d' m : v_cam (view d') = v_cam (view d) -> holds ep d m -> holds ep d' m.
Proof. intros E Hm k Hk. rewrite E. by apply Hm. Qed.

(** Key and content are staged, then the command is written and its end awaited. *)
Definition staged (data : cam_struct) (d : dev) : dev :=
  dev_wr XAS_SDL_CAM_PORT_ACT_OFFSET (u32 (cam_port_action data)) (dev_wr XAS_SDL_CAM_TV2_OFFSET (u32 (cam_tv2 data))
    (dev_wr XAS_SDL_CAM_TV1_OFFSET (u32 (cam_tv1 data)) (dev_wr XAS_SDL_CAM_KEY2_OFFSET (u32 (cam_key2 data))
      (dev_wr XAS_SDL_CAM_KEY1_OFFSET (u32 (cam_key1 data)) d)))).

Lemma staged_view data d :
  staged_key (view (staged data d)) = key_words (fdb_key data)
  /\ staged_entry (view (staged data d)) = (u32 (cam_tv1 data), u32 (cam_tv2 data), u32 (cam_port_action data))
  /\ v_cam (view (staged data d)) = v_cam (view d) /\ v_free (view (staged data d)) = v_free (view d).
Proof. rewrite key_words_of. unfold staged, staged_key, staged_entry. by repeat split; seen. Qed.

Lemma cam_set_runs ep data (add : bool) d : exists d1 d2, view d1 = view d
  /\ view d2 = view (dev_wr XAS_SDL_CAM_CTRL_OFFSET (if add then SDL_CAM_ADD_ENTRY else SDL_CAM_DELETE_ENTRY) (staged data d1))
  /\ tsn_switch_cam_set ep data add d = if cam_refused ep data add then (- EINVAL, d1) else (0, d2).
Proof.
  destruct (poll_cmd XAS_SDL_CAM_STATUS_OFFSET d eq_refl) as (t1 & d1 & E1 & V1).
  set (cmd := if add then SDL_CAM_ADD_ENTRY else SDL_CAM_DELETE_ENTRY).
  assert (u32 cmd = cmd) as Ec by (by unfold cmd; destruct add).
  destruct (poll_cmd XAS_SDL_CAM_CTRL_OFFSET (dev_wr XAS_SDL_CAM_CTRL_OFFSET cmd (staged data d1)) eq_refl) as (t2 & d2 & E2 & V2).
  exists d1, d2. split; [done|]. split; [done|]. unfold tsn_switch_cam_set. rewrite bind_io.
  change not_ready with (sw_busy XAS_SDL_CAM_STATUS_OFFSET). rewrite E1. cbn [Nat.eqb].
  destruct (cam_refused ep data add); [done|]. run_sw. fold cmd. rewrite Ec.
  change in_progress with (sw_busy XAS_SDL_CAM_CTRL_OFFSET). unfold staged in E2. by rewrite E2.
Qed.

(** Reading an entry leaves the table alone; the words of the entry are those of the table. *)
Lemma read_runs ep data d : exists d1 d2, view d1 = view d /\ v_cam (view d2) = v_cam (view d) /\ v_free (view d2) = v_free (view d)
  /\ read_cam_entry ep data true d
     = ((0, Some (match v_cam (view d) (key_words (fdb_key data)) with
                  | Some (t1, t2, a) => cam_fill ep data (u32 t1) (u32 t2) (u32 a)
                  | None => cam_invalid data
                  end)), d2).
Proof.
  destruct (poll_cmd XAS_SDL_CAM_STATUS_OFFSET d eq_refl) as (t1 & d1 & E1 & V1).
  set (d3 := dev_wr XAS_SDL_CAM_KEY2_OFFSET (u32 (cam_key2 data)) (dev_wr XAS_SDL_CAM_KEY1_OFFSET (u32 (cam_key1 data)) d1)).
  destruct (cam_read d3) as (Hr & Hc & _ & Hf & _).
  destruct (poll_cmd XAS_SDL_CAM_CTRL_OFFSET (dev_wr XAS_SDL_CAM_CTRL_OFFSET SDL_CAM_READ_ENTRY d3) eq_refl) as (t2 & d2 & E2 & V2).
  assert (staged_key (view d3) = key_words (fdb_key data)) as Hk.
  { rewrite key_words_of. unfold d3, staged_key. by seen. }
  assert (v_cam (view d3) = v_cam (view d)) as Hc3 by (unfold d3; seen; by rewrite V1).
  assert (v_free (view d3) = v_free (view d)) as Hf3 by (unfold d3; seen; by rewrite V1).
  rewrite Hk, Hc3 in Hr.
  exists d1, d2. split; [done|]. split; [congruence|]. split; [congruence|].
  unfold read_cam_entry. rewrite bind_io. change not_ready with (sw_busy XAS_SDL_CAM_STATUS_OFFSET). rewrite E1. run_sw.
  change (u32 SDL_CAM_READ_ENTRY) with SDL_CAM_READ_ENTRY. fold d3.
  change in_progress with (sw_busy XAS_SDL_CAM_CTRL_OFFSET). rewrite E2.
  destruct (v_cam (view d) (key_words (fdb_key data))) as [[[e1 e2] e3]|].
  - destruct Hr as [[=He1 He2 He3] ->]. run_sw. rewrite V2, He1, He2, He3. done.
  - rewrite Hr. done.
Qed.

Lemma cam_fill_show ep data t1 t2 a : cam_fill ep data (u32 t1) (u32 t2) (u32 a) = fdb_show data (entry_of ep (t1, t2, a)).
Proof.
  unfold cam_fill, fdb_show, entry_of. cam_consts. cbn [fdb_src fdb_tv_vlan fdb_en_ipv fdb_ipv fdb_ports fdb_gate fdb_ep_act fdb_mac_act].
  slices. done.
Qed.

(** ** Every call does what the map does *)
Lemma cam_call_refines ep op d m :
  match op with Fdb_add data | Fdb_delete data | Fdb_read data => cam_ok data end ->
  holds ep d m -> (0 < v_free (view d))%nat ->
  exists d', cam_call ep op d = (fst (fdb_step ep op m), d') /\ holds ep d' (snd (fdb_step ep op m))
    /\ (v_free (view d) <= S (v_free (view d')))%nat.
Proof.
  destruct op as [data|data|data]; intros Hok Hm Hf; cbn [cam_call fdb_step].
  - destruct (cam_set_runs ep data true d) as (d1 & d2 & V1 & V2 & E).
    destruct (staged_view data d1) as (Hk & He & Hc & Hfr). rewrite V1 in Hc, Hfr.
    rewrite bind_io, E. destruct (cam_refused ep data true) eqn:Href.
    { exists d1. split; [done|]. split; [by apply (holds_same ep d); [rewrite V1|]|rewrite V1; lia]. }
    exists d2. split; [done|]. cbn [snd].
    destruct (cam_add (staged data d1)) as (Ha & _ & _ & Hf'); [right; lia|]. rewrite <- V2 in Ha, Hf'. rewrite Hfr in Hf'.
    split; [|done]. rewrite Hk, He, Hc in Ha.
    pose proof (holds_change ep d d2 m _ _ Hm (fdb_key_ok _ Hok) Ha) as Hh. cbv [fmap option_fmap option_map] in Hh.
    by rewrite cam_encode in Hh.
  - destruct (cam_set_runs ep data false d) as (d1 & d2 & V1 & V2 & E).
    destruct (staged_view data d1) as (Hk & He & Hc & Hfr). rewrite V1 in Hc, Hfr.
    rewrite bind_io, E. destruct (cam_refused ep data false) eqn:Href.
    { exists d1. split; [done|]. split; [by apply (holds_same ep d); [rewrite V1|]|rewrite V1; lia]. }
    exists d2. split; [done|]. cbn [snd].
    destruct (cam_delete (staged data d1)) as (Ha & _ & _ & Hf'). rewrite <- V2 in Ha, Hf'. rewrite Hfr in Hf'.
    split; [|lia]. rewrite Hk, Hc in Ha. by apply (holds_change ep d d2 m _ None Hm (fdb_key_ok _ Hok) Ha).
  - destruct (read_runs ep data d) as (d1 & d2 & V1 & Hc & Hf' & E). rewrite E. exists d2.
    split; [|split; [by apply (holds_same ep d)|cbn [snd]; lia]].
    cbn [fst snd]. do 3 f_equal. rewrite <- (Hm _ (fdb_key_ok _ Hok)).
    destruct (v_cam (view d) (key_words (fdb_key data))) as [[[t1 t2] a]|]; [|done]. apply cam_fill_show.
Qed.

Definition op_ok (op : fdb_op) : Prop := match op with Fdb_add data | Fdb_delete data | Fdb_read data => cam_ok data end.

(** C27: The forwarding table of the switch is a finite map from addresses and VLANs to entries: any sequence of
    additions, deletions and reads whose fields fit (address bytes, ports below 32, actions below 16) gives the
    results the map gives, and afterwards table and map agree again on all keys. An entry added is read back until
    it is deleted or overwritten, under its key only; the VLAN and the IPV number are cut to the widths of their
    fields by the code, while a larger port list or action would run into the fields beside it. Entries for the
    extended endpoint are refused where the design has none. The table must have room for as many entries as there
    are calls. *)
Theorem cam_refines_map ep ops d m :
  Forall op_ok ops -> holds ep d m -> (length ops <= v_free (view d))%nat ->
  exists d', cam_calls ep ops d = (fst (fdb_run ep ops m), d') /\ holds ep d' (snd (fdb_run ep ops m)).
Proof.
  revert d m. induction ops as [|op rest IH]; intros d m Hok Hm Hf; [by exists d|].
  apply Forall_cons_1 in Hok as [Ho Hok]. cbn [length] in Hf.
  destruct (cam_call_refines ep op d m Ho Hm ltac:(lia)) as (d1 & E & Hm1 & Hf1).
  cbn [cam_calls fdb_run]. rewrite bind_io, E.
  destruct (fdb_step ep op m) as [r m1]. cbn [fst snd] in *.
  destruct (IH d1 m1 Hok Hm1 ltac:(lia)) as (d2 & E2 & Hm2).
  rewrite bind_io, E2. destruct (fdb_run ep rest m1) as [rs m2]. by exists d2.
Qed.
End Cam.

(** ** Example *)
Definition demo_cam (dest : Z) : cam_struct :=
  mkCam [0x02; 0; 0; 0; 0; 1] [0x01; 0; 0x5e; 0; 0; dest] 5 6 6 3 4 (BIT 0) 2 9.
Definition demo_ops : list fdb_op :=
  [Fdb_add (demo_cam 7); Fdb_read (demo_cam 8); Fdb_read (demo_cam 7); Fdb_delete (demo_cam 7); Fdb_read (demo_cam 7)].
Definition demo_empty : dev (Device := demo_switch) := mkDemo (mkView (fun _ => 0xFFFFFFFF) (fun _ => None) (fun _ => (0, 0)) 100) 1.

Lemma cam_refines_map_witness :
  exists d', cam_calls (mkEpConf false false) demo_ops demo_empty
    = ([(0, None); (0, Some (cam_invalid (demo_cam 8)));
        (0, Some (mkCam [0x02; 0; 0; 0; 0; 1] [0x01; 0; 0x5e; 0; 0; 7] 5 6 6 3 4 (BIT 0 ||| BIT 2) 0 9));
        (0, None); (0, Some (cam_invalid (demo_cam 7)))], d').
Proof.
  destruct (cam_refines_map (mkEpConf false false) demo_ops demo_empty ∅) as (d' & E & _).
  - assert (forall x, 0 <= x < 2 ^ 8 -> cam_ok (demo_cam x)) as Hc.
    { intros x Hx. repeat split; try (vm_compute; congruence); repeat apply Forall_cons_2; try apply Forall_nil_2; lia. }
    repeat (apply Forall_cons_2; [apply Hc; lia|]). apply Forall_nil_2.
  - intros k _. reflexivity.
  - vm_compute. lia.
  - exists d'. rewrite E. reflexivity.
Defined.
