(* ===== verification/TsnSwitchVlan.v ===== *)
(** * VLANs, learning and ports of the switch

    What the functions of [TsnSwitch] on VLANs, on learning and on the states of ports do on a switch that
    satisfies [SwitchLaws]: settings written are read back and stay with their VLAN or port; and the inputs on which
    the code does something else. *)
From S2P Require Import Prelude TsnRegs TsnStream TsnSwitch TsnSwitchHw.

Ltac vlan_consts := cbv [PORT_VLAN_ID_MASK PORT_VLAN_ID_SHIFT PORT_VLAN_READ PORT_VLAN_WRITE PORT_VLAN_IPV_SHIFT PORT_VLAN_EN_IPV_SHIFT
  PORT_VLAN_HW_ADDR_LEARN_BIT PORT_VLAN_HW_ADDR_AGING_BIT PORT_VLAN_HW_ADDR_AGING_TIME_SHIFT HW_ADDR_AGING_TIME_MASK SDL_CAM_IPV_MASK
  PORT_STATUS_MASK HW_ADDR_AGING_TIME_SHIFT HW_ADDR_AGING_BIT HW_ADDR_LEARN_UNTAG_BIT HW_ADDR_LEARN_BIT
  NATIVE_MAC1_PCP_SHIFT NATIVE_MAC2_VLAN_SHIFT NATIVE_MAC2_PCP_SHIFT
  EP_PORT_STATUS_SHIFT MAC1_PORT_STATUS_SHIFT MAC2_PORT_STATUS_SHIFT EX_EP_PORT_STATUS_SHIFT
  EP_PORT_STATUS_CHG_BIT MAC1_PORT_STATUS_CHG_BIT MAC2_PORT_STATUS_CHG_BIT EX_EP_PORT_STATUS_CHG_BIT].
Ltac bits := vlan_consts; rewrite ?truthy_slice by lia; unfold BIT; slices.

(** The identifier of a VLAN as the switch takes it. *)
Definition vid (id : Z) : Z := slice id 0 12.

Lemma vlan_cmd_op id op : 0 <= op < 2 ^ 2 -> slice (u32 (vlan_cmd id op)) 0 2 = op /\ slice (u32 (vlan_cmd id op)) 16 12 = vid id.
Proof. intros Ho. unfold vlan_cmd, vid. vlan_consts. split; by slices. Qed.

Section Vlan.
Context `{SwitchLaws}.

(** ** Reading the settings of a VLAN *)
Lemma vlan_shown_prio port u c p : slice c 12 4 = slice p 0 4 -> vlan_shown port u c = vlan_shown port u (slice p 0 4 <<< 12).
Proof.
  intros E. unfold vlan_shown. vlan_consts. as_slices.
  assert (slice c 13 3 = slice p 1 3) as E1 by (transitivity (slice (slice c 12 4) 1 3); [|rewrite E]; by slices).
  assert (slice c 12 1 = slice p 0 1) as E2 by (transitivity (slice (slice c 12 4) 0 1); [|rewrite E]; by slices).
  rewrite E1, E2. by slices.
Qed.

Lemma get_vlan_runs port d : exists d',
  get_vlan_mac_addr_learn (Some port) true d
  = ((0, Some (vlan_shown port (u32 (fst (v_vlan (view d) (vid (pv_vlan_id port))))) (slice (snd (v_vlan (view d) (vid (pv_vlan_id port)))) 0 4 <<< 12))), d')
  /\ v_vlan (view d') = v_vlan (view d)
  /\ v_reg (view d') XAS_VLAN_MEMB_DATA_REG = fst (v_vlan (view d) (vid (pv_vlan_id port))).
Proof.
  set (w := u32 (vlan_cmd (pv_vlan_id port) PORT_VLAN_READ)).
  destruct (vlan_cmd_op (pv_vlan_id port) PORT_VLAN_READ ltac:(done)) as [Hop Hid]. fold w in Hop, Hid.
  destruct (vlan_read d w Hop) as (Hd & _ & Hp & _ & Hv & _). rewrite Hid in *.
  destruct (poll_cmd XAS_VLAN_MEMB_CTRL_REG (dev_wr XAS_VLAN_MEMB_CTRL_REG w d) eq_refl) as (t & d' & E & V).
  exists d'. rewrite V. split; [|done]. unfold get_vlan_mac_addr_learn. run_sw. fold w.
  change vlan_in_progress with (sw_busy XAS_VLAN_MEMB_CTRL_REG). rewrite E. run_sw. rewrite V, Hd.
  do 3 f_equal. apply vlan_shown_prio. by rewrite slice_u32 by lia.
Qed.

(** ** Settings of learning *)
Lemma write_op u : slice (u32 (u ||| PORT_VLAN_WRITE)) 0 2 = PORT_VLAN_WRITE.
Proof. unfold PORT_VLAN_WRITE. by slices. Qed.

Lemma set_vlan_runs port d : exists d',
  set_vlan_mac_addr_learn (Some port) d = (0, d')
  /\ forall i, v_vlan (view d') i = if i =? vid (pv_vlan_id port)
      then (u32 (vlan_learn_word port (u32 (fst (v_vlan (view d) i)))), slice (snd (v_vlan (view d) i)) 0 4) else v_vlan (view d) i.
Proof.
  set (w := u32 (vlan_cmd (pv_vlan_id port) PORT_VLAN_READ)).
  destruct (vlan_cmd_op (pv_vlan_id port) PORT_VLAN_READ ltac:(done)) as [Hop Hid]. fold w in Hop, Hid.
  destruct (vlan_read d w Hop) as (Hd & Hi & Hp & _ & Hv & _). rewrite Hid in *.
  destruct (poll_cmd XAS_VLAN_MEMB_CTRL_REG (dev_wr XAS_VLAN_MEMB_CTRL_REG w d) eq_refl) as (t & d1 & E1 & V1).
  set (c := u32 (v_reg (view (dev_wr XAS_VLAN_MEMB_CTRL_REG w d)) XAS_VLAN_MEMB_CTRL_REG)) in *.
  set (x := u32 (vlan_learn_word port (u32 (v_reg (view d1) XAS_VLAN_MEMB_DATA_REG)))).
  set (d2 := dev_wr XAS_VLAN_MEMB_DATA_REG x d1).
  destruct (vlan_write d2 _ (write_op c)) as (Hw & _).
  destruct (poll_cmd XAS_VLAN_MEMB_CTRL_REG (dev_wr XAS_VLAN_MEMB_CTRL_REG (u32 (c ||| PORT_VLAN_WRITE)) d2) eq_refl) as (t3 & d3 & E3 & V3).
  exists d3. split.
  - unfold set_vlan_mac_addr_learn. run_sw. fold w. change vlan_in_progress with (sw_busy XAS_VLAN_MEMB_CTRL_REG). rewrite E1. run_sw.
    fold x d2. by rewrite E3.
  - assert (slice (u32 (c ||| PORT_VLAN_WRITE)) 16 12 = vid (pv_vlan_id port)) as Ei.
    { unfold c, PORT_VLAN_WRITE. slices. done. }
    assert (slice (u32 (c ||| PORT_VLAN_WRITE)) 12 4 = slice (snd (v_vlan (view d) (vid (pv_vlan_id port)))) 0 4) as Ep.
    { unfold c, PORT_VLAN_WRITE. slices. done. }
    intros i. rewrite V3, Hw, Ei, Ep. unfold d2. seen. rewrite V1, Hv.
    destruct (Z.eqb_spec i (vid (pv_vlan_id port))) as [->|]; [|done]. unfold x. by rewrite V1, Hd.
Qed.

(** The settings of learning belong to their VLAN: what was set for one VLAN is read back for it, with its
    member ports as they were, and every other VLAN reads as before. The time has 20 bits. *)
Theorem vlan_learning_roundtrip port q d :
  pv_is_age port = true -> pv_is_learn port = true -> 0 < pv_aging_time port < 2 ^ 20 ->
  exists d0 r0 d1 d2 r,
    get_vlan_mac_addr_learn (Some q) true d = ((0, Some r0), d0)
    /\ set_vlan_mac_addr_learn (Some port) d = (0, d1)
    /\ get_vlan_mac_addr_learn (Some q) true d1 = ((0, Some r), d2)
    /\ if vid (pv_vlan_id q) =? vid (pv_vlan_id port)
       then pv_aging r = pv_aging port /\ pv_learning r = pv_learning port /\ pv_aging_time r = pv_aging_time port
            /\ pv_port_num r = pv_port_num r0
       else r = r0.
Proof.
  intros Ha Hl Ht. destruct (get_vlan_runs q d) as (d0 & E0 & _ & _). destruct (set_vlan_runs port d) as (d1 & E1 & V1).
  destruct (get_vlan_runs q d1) as (d2 & E2 & _ & _).
  eexists d0, _, d1, d2, _. split; [exact E0|]. split; [exact E1|]. split; [exact E2|]. clear E0 E1 E2.
  rewrite !V1. destruct (vid (pv_vlan_id q) =? vid (pv_vlan_id port)); [|done]. cbn [fst snd].
  generalize (u32 (fst (v_vlan (view d) (vid (pv_vlan_id q))))). intros u.
  assert (0 <= pv_aging_time port < 2 ^ 20) as Hr by lia.
  assert (truthy (pv_aging_time port) = true) as Hn by (apply negb_true_iff, Z.eqb_neq; lia).
  unfold vlan_shown, vlan_learn_word. cbn [pv_aging pv_learning pv_aging_time pv_port_num]. rewrite Ha, Hl, Hn.
  destruct (pv_aging port), (pv_learning port); repeat split; bits; done.
Qed.

(** ** Members of VLANs *)
Definition vlan_refused (port : port_vlan) (u : Z) : bool :=
  if negb (truthy (u &&& PORT_VLAN_HW_ADDR_LEARN_BIT)) then pv_en_ipv port else pv_en_port_status port.

Definition members (port : port_vlan) (add : bool) (u : Z) : Z :=
  if add then u ||| (PORT_VLAN_PORT_LIST_VALID_BIT ||| pv_port_num port) else u &&& not32 (pv_port_num port).

Lemma vlan_write_fields port : slice (u32 (vlan_write_word port)) 0 2 = PORT_VLAN_WRITE /\ slice (u32 (vlan_write_word port)) 16 12 = vid (pv_vlan_id port).
Proof.
  unfold vlan_write_word, vlan_cmd, vid. vlan_consts. destruct (pv_en_port_status port), (pv_en_ipv port); split; by slices.
Qed.

(** The VLAN gets the ports that happen to be in the data register. *)
Lemma vlan_add_runs port (add : bool) d : vlan_refused port (u32 (v_reg (view d) XAS_VLAN_MEMB_DATA_REG)) = false -> exists d',
  tsn_switch_vlan_add port add d = (0, d')
  /\ forall i, fst (v_vlan (view d') i)
      = if i =? vid (pv_vlan_id port) then u32 (members port add (u32 (v_reg (view d) XAS_VLAN_MEMB_DATA_REG))) else fst (v_vlan (view d) i).
Proof.
  intros Href. set (u := u32 (v_reg (view d) XAS_VLAN_MEMB_DATA_REG)) in *.
  set (w := u32 (vlan_cmd (pv_vlan_id port) PORT_VLAN_READ)).
  destruct (vlan_cmd_op (pv_vlan_id port) PORT_VLAN_READ ltac:(done)) as [Hop Hid]. fold w in Hop, Hid.
  destruct (vlan_read d w Hop) as (_ & _ & _ & _ & Hv & _).
  destruct (poll_cmd XAS_VLAN_MEMB_CTRL_REG (dev_wr XAS_VLAN_MEMB_CTRL_REG w d) eq_refl) as (t & d1 & E1 & V1).
  set (d2 := dev_wr XAS_VLAN_MEMB_DATA_REG (u32 (members port add u)) d1).
  destruct (vlan_write_fields port) as [Hop2 Hid2]. destruct (vlan_write d2 _ Hop2) as (Hw & _). rewrite Hid2 in Hw.
  destruct (poll_cmd XAS_VLAN_MEMB_CTRL_REG (dev_wr XAS_VLAN_MEMB_CTRL_REG (u32 (vlan_write_word port)) d2) eq_refl) as (t3 & d3 & E3 & V3).
  exists d3. split.
  - unfold tsn_switch_vlan_add. run_sw. fold u. unfold vlan_refused in Href. rewrite Href. run_sw. fold w.
    change vlan_in_progress with (sw_busy XAS_VLAN_MEMB_CTRL_REG). rewrite E1. run_sw.
    fold (members port add u) d2. by rewrite E3.
  - intros i. rewrite V3, Hw. unfold d2. seen. rewrite V1, Hv. by destruct (_ =? _).
Qed.

(** A port added to a VLAN after another VLAN was looked at: the driver takes the member ports from the data
    register before it selects the VLAN, so the VLAN gets the ports of the other one and loses its own. The
    call reports success. *)
Theorem vlan_add_takes_other_ports port q d :
  pv_en_ipv port = false -> pv_en_port_status port = false ->
  exists r d1 d2,
    get_vlan_mac_addr_learn (Some q) true d = ((0, Some r), d1)
    /\ tsn_switch_vlan_add port true d1 = (0, d2)
    /\ slice (fst (v_vlan (view d2) (vid (pv_vlan_id port)))) 0 3
       = slice (fst (v_vlan (view d) (vid (pv_vlan_id q)))) 0 3 ||| slice (pv_port_num port) 0 3.
Proof.
  intros Hi Hs. destruct (get_vlan_runs q d) as (d1 & E1 & V1 & D1).
  destruct (vlan_add_runs port true d1) as (d2 & E2 & V2).
  { unfold vlan_refused. by rewrite Hi, Hs; destruct (negb _). }
  eexists _, d1, d2. split; [exact E1|]. split; [exact E2|].
  rewrite V2, Z.eqb_refl, D1. unfold members, PORT_VLAN_PORT_LIST_VALID_BIT, BIT. by slices.
Qed.

(** ** The VLAN of untagged frames *)
Definition pvid_ok (port : native_vlan) : Prop := 0 <= nv_vlan_id port < 2 ^ 12 /\ 0 <= nv_ipv port < 2 ^ 3.
Definition pvid_port (n : Z) : Prop := n = PORT_EP \/ n = PORT_MAC1 \/ n = PORT_MAC2.

(** Identifier and priority of a port's untagged frames are read back as set, without a priority the old one stays,
    and the other ports, two of which share a register, keep theirs. *)
Theorem pvid_roundtrip port q d :
  pvid_ok port -> pvid_port (nv_port_num port) -> pvid_port (nv_port_num q) ->
  let before := fst (tsn_switch_pvid_get q d) in
  let after := fst (tsn_switch_pvid_get q (snd (tsn_switch_pvid_add port d))) in
  fst (tsn_switch_pvid_add port d) = 0
  /\ if nv_port_num q =? nv_port_num port
     then nv_vlan_id after = nv_vlan_id port /\ nv_ipv after = (if nv_en_ipv port then nv_ipv port else nv_ipv before)
     else after = before.
Proof.
  intros [Hv Hi] Hp Hq. unfold tsn_switch_pvid_add, tsn_switch_pvid_get, pvid_word.
  destruct Hp as [-> | [-> | ->]], Hq as [-> | [-> | ->]]; offsets;
    run_sw; cbn [fst snd]; run_sw; cbn [fst snd]; seen; (split; [done|]); unfold pvid_shown; cbn [nv_vlan_id nv_ipv];
    destruct (nv_en_ipv port); bits; done.
Qed.

(** ** Learning of the whole switch *)

(** What the driver writes for aging and learning it reads back inverted; the time and the handling of untagged frames come
    back as set. *)
Lemma mac_learning_inverted l stack d :
  ml_is_age l = true -> ml_is_learn l = true -> ml_is_untag l = true -> 0 < ml_aging_time l < 2 ^ 20 ->
  match fst (get_mac_addr_learn stack true (snd (set_mac_addr_learn (Some l) d))) with
  | (e, Some r) => e = 0 /\ ml_aging r = negb (ml_aging l) /\ ml_learning r = negb (ml_learning l)
      /\ ml_learn_untag r = ml_learn_untag l /\ ml_aging_time r = ml_aging_time l
  | _ => False
  end.
Proof.
  intros Ha Hl Hu Ht. unfold set_mac_addr_learn, get_mac_addr_learn. rewrite Ha, Hl, Hu. run_sw. cbn [fst snd]. run_sw.
  destruct (axienet_ior XAS_PORT_STATE_CTRL_OFFSET _) as [v d']. cbn [fst snd]. run_sw. cbn [fst snd ml_aging ml_learning ml_learn_untag ml_aging_time]. seen.
  assert (0 <= ml_aging_time l < 2 ^ 20) as Hr by lia.
  assert (truthy (ml_aging_time l) = true) as -> by (apply negb_true_iff, Z.eqb_neq; lia).
  split; [done|]. destruct (ml_aging l), (ml_learning l), (ml_learn_untag l); cbn [negb]; repeat split; bits; done.
Qed.
End Vlan.

(** ** States of ports *)

(** Place of the state of a port, and the bit that asks for the change, one below. *)
Definition stp_place (n : Z) : option Z :=
  if n =? PORT_EP then Some 1 else if n =? PORT_MAC1 then Some 9 else if n =? PORT_MAC2 then Some 17 else if n =? PORT_EX_ONLY then Some 25 else None.

Ltac places :=
  repeat match goal with
  | H : context [Zpos ?a - 1] |- _ => let k := eval vm_compute in (Zpos a - 1) in change (Zpos a - 1) with k in *
  | |- context [Zpos ?a - 1] => let k := eval vm_compute in (Zpos a - 1) in change (Zpos a - 1) with k
  end.

(** Without a change pending the state of the port is put in its place, its bit set, and the rest of the word,
    the states and bits of all other ports included, left alone. *)
Lemma stp_request_fields ep port u p n q :
  stp_place (ps_port_num port) = Some p -> (ps_port_num port = PORT_EX_ONLY -> ex_ep ep = true) ->
  0 <= ps_port_status port < 2 ^ 3 -> slice u (p - 1) 1 = 0 -> stp_place n = Some q -> n <> ps_port_num port ->
  match stp_request ep port u with
  | Some (w, chg) => slice (w ||| chg) p 3 = ps_port_status port /\ slice (w ||| chg) (p - 1) 1 = 1
      /\ slice (w ||| chg) (q - 1) 4 = slice u (q - 1) 4
  | None => False
  end.
Proof.
  intros Hp Hex Hs Hu Hq Hn. unfold stp_request, stp_place in *.
  repeat case_if_in Hp; simplify_eq; bprop; repeat match goal with H : ps_port_num _ = _ |- _ => rewrite H in * end; offsets;
    try (rewrite (Hex eq_refl)); unfold stp_case; vlan_consts; rewrite truthy_slice by lia; places; rewrite Hu; cbn [negb truthy Z.eqb];
    repeat case_if_in Hq; simplify_eq; bprop; try done; places; repeat split; bits; done.
Qed.

(** With a change of the port pending, or for a number that is no port, nothing of the port is written, but
    the bit that asks for a change of the endpoint is; the call reports success all the same. *)
Lemma stp_pending_asks_endpoint ep port u :
  match stp_place (ps_port_num port) with
  | Some p => slice u (p - 1) 1 = 1 /\ (ps_port_num port = PORT_EX_ONLY -> ex_ep ep = true)
  | None => True
  end ->
  stp_request ep port u = Some (u, EP_PORT_STATUS_CHG_BIT).
Proof.
  unfold stp_request, stp_place. intros Hp.
  repeat case_if; bprop; repeat match goal with H : ps_port_num _ = _ |- _ => rewrite H in * end; try done;
    destruct Hp as [Hu Hex]; unfold stp_case; vlan_consts; rewrite ?truthy_slice by lia; places; rewrite ?Hu; try done.
  all: specialize (Hex eq_refl); congruence.
Qed.

(** ** Queues of the priorities *)

(** The queue of priority [j]: the scheduled one is 2 of three or 1 of two, the reserved one 1 of three. *)
Definition queue_of (num_q st_pcp res_pcp j : Z) : Z :=
  if Z.testbit st_pcp j then (if num_q =? 3 then 2 else 1) else if (num_q =? 3) && Z.testbit res_pcp j then 1 else 0.

Lemma pmap_loop_slices num_q st_pcp res_pcp n : forall i pmap j, 0 <= i -> 0 <= j ->
  slice (pmap_loop num_q st_pcp res_pcp n i pmap) (4 * j) 4
  = if (i <=? j) && (j <? i + Z.of_nat n) then slice pmap (4 * j) 4 ||| queue_of num_q st_pcp res_pcp j else slice pmap (4 * j) 4.
Proof.
  induction n as [|n IH]; intros i pmap j Hi Hj; cbn [pmap_loop].
  { destruct (Z.leb_spec i j), (Z.ltb_spec j (i + Z.of_nat 0)); cbn [andb]; done || lia. }
  assert (forall q, 0 <= q < 2 ^ 4 -> slice (pmap ||| (q <<< (4 * i))) (4 * j) 4 = slice pmap (4 * j) 4 ||| (if i =? j then q else 0)) as Hs.
  { intros q Hq. rewrite slice_lor. f_equal. destruct (Z.eqb_spec i j) as [->|Hne].
    - rewrite slice_shift, Z.sub_diag by lia. by apply slice_id.
    - destruct (Z.ltb_spec j i); [by apply slice_below; lia|]. rewrite slice_shift by lia. apply (slice_atom_other q 4); lia. }
  rewrite IH by lia. rewrite Nat2Z.inj_succ.
  match goal with |- context [slice ?p (4 * j) 4] => assert (slice p (4 * j) 4 = slice pmap (4 * j) 4 ||| (if i =? j then queue_of num_q st_pcp res_pcp i else 0)) as -> end.
  { change (1 <<< i) with (BIT i). rewrite !truthy_bit by lia. unfold queue_of, PMAP_EGRESS_QUEUE2_SELECT, PMAP_EGRESS_QUEUE1_SELECT.
    repeat case_if; cbn [andb] in *; try discriminate; rewrite ?Z.lor_0_r; try done; rewrite Hs by lia; repeat match goal with E : (i =? j) = _ |- _ => rewrite E end; by rewrite ?Z.lor_0_r. }
  destruct (Z.leb_spec i j), (Z.ltb_spec j (i + Z.succ (Z.of_nat n))), (Z.leb_spec (i + 1) j), (Z.ltb_spec j (i + 1 + Z.of_nat n)), (Z.eqb_spec i j);
    cbn [andb]; try lia; subst; rewrite ?Z.lor_0_r; done.
Qed.

(** After the start the register of the priorities holds, for each of the eight, the queue the configuration
    names: scheduled before reserved before best effort. *)
Theorem cam_init_maps_priorities `{SwitchLaws} num_q st_pcp res_pcp d :
  exists d', tsn_switch_cam_init num_q st_pcp res_pcp d = (0, d')
    /\ forall j, 0 <= j < 8 -> slice (v_reg (view d') XAS_PMAP_OFFSET) (4 * j) 4 = queue_of num_q st_pcp res_pcp j.
Proof.
  destruct (poll_cmd XAS_STATUS_OFFSET d eq_refl) as (t1 & d1 & E1 & V1).
  set (w := u32 (pmap_loop num_q st_pcp res_pcp 8 0 0)).
  destruct (poll_cmd XAS_SDL_CAM_STATUS_OFFSET (dev_wr XAS_PMAP_OFFSET w d1) eq_refl) as (t2 & d2 & E2 & V2).
  exists d2. split.
  - unfold tsn_switch_cam_init. rewrite bind_io. change (poll_while XAS_STATUS_OFFSET not_ready) with (poll_while XAS_STATUS_OFFSET (sw_busy XAS_STATUS_OFFSET)).
    rewrite E1. run_sw. fold w. change not_ready with (sw_busy XAS_SDL_CAM_STATUS_OFFSET). by rewrite E2.
  - intros j Hj. rewrite V2. seen. unfold w. rewrite slice_u32, pmap_loop_slices, slice_zero, Z.lor_0_l by lia.
    destruct (Z.leb_spec 0 j), (Z.ltb_spec j (0 + Z.of_nat 8)); cbn [andb]; done || lia.
Qed.

(** ** The registers of the switch as a whole *)
Definition thld_ok (t : thershold) : Prop := 0 <= thld_t1 t < 2 ^ 16 /\ 0 <= thld_t2 t < 2 ^ 16.
Definition regs_ok (s : switch_data) : Prop :=
  (exists a b c d e f, sw_mac_addr s = [a; b; c; d; e; f] /\ 0 <= a < 2 ^ 8 /\ 0 <= b < 2 ^ 8 /\ 0 <= c < 2 ^ 8
     /\ 0 <= d < 2 ^ 8 /\ 0 <= e < 2 ^ 8 /\ 0 <= f < 2 ^ 8)
  /\ (exists x y z, thld_ep_mac s = [x; y; z] /\ thld_ok x /\ thld_ok y /\ thld_ok z)
  /\ (exists x y z, thld_mac_mac s = [x; y; z] /\ thld_ok x /\ thld_ok y /\ thld_ok z)
  /\ 0 <= switch_ctrl s < 2 ^ 32 /\ 0 <= switch_prt s < 2 ^ 32 /\ 0 <= ep_vlan s < 2 ^ 32 /\ 0 <= mac_vlan s < 2 ^ 32
  /\ 0 <= max_frame_sc_que s < 2 ^ 16 /\ 0 <= max_frame_res_que s < 2 ^ 16 /\ 0 <= max_frame_be_que s < 2 ^ 16.

(** What the switch is told, as the program that reads the state sees it. *)
Definition set_part (s : switch_data) := (switch_ctrl s, switch_prt s, sw_mac_addr s, thld_ep_mac s, thld_mac_mac s, ep_vlan s, mac_vlan s,
  (max_frame_sc_que s, max_frame_res_que s, max_frame_be_que s)).

(** What was set is read back; the status, the counters and the rest of the structure are not part of it. *)
Lemma switch_regs_roundtrip `{SwitchLaws} s stack d : regs_ok s ->
  set_part (fst (get_switch_regs stack (snd (set_switch_regs s d)))) = set_part s.
Proof.
  intros ((a & b & c & e & f & g & Em & ? & ? & ? & ? & ? & ?) & (x & y & z & Ee & [? ?] & [? ?] & [? ?])
    & (x' & y' & z' & Ec & [? ?] & [? ?] & [? ?]) & ? & ? & ? & ? & ? & ? & ?).
  destruct x as [x1 x2], y as [y1 y2], z as [z1 z2], x' as [u1 u2], y' as [v1 v2], z' as [w1 w2]. cbn [thld_t1 thld_t2] in *.
  set (d1 := snd (set_switch_regs s d)).
  destruct (io_rd_cmd XAS_STATUS_OFFSET d1 eq_refl) as (v & d2 & E & V).
  destruct (io_rd_cmd XAS_VLAN_MEMB_CTRL_REG d2 eq_refl) as (v' & d3 & E' & V').
  unfold get_switch_regs, read_thld. rewrite bind_io, E. run_sw. rewrite E'. run_sw. cbn [fst].
  unfold set_part. cbn [switch_ctrl switch_prt sw_mac_addr thld_ep_mac thld_mac_mac ep_vlan mac_vlan max_frame_sc_que max_frame_res_que max_frame_be_que].
  rewrite Em, Ee, Ec, V. subst d1. unfold set_switch_regs. run_sw. cbn [snd]. seen.
  unfold word4, word2, byte_of, thld_word, thld. rewrite Em, Ee, Ec. cbn [nth Nat.add thld_t1 thld_t2].
  assert (forall w, u32 w = slice w 0 32) as Hw by (intros w; rewrite slice_low, Z.land_ones by lia; done).
  repeat f_equal; try (rewrite !Hw); by slices.
Qed.

(** ** Examples *)
Definition demo_vlans : dev (Device := demo_switch) :=
  mkDemo (mkView (fun _ => 0) (fun _ => None) (fun id => if id =? 10 then (BIT 3 ||| 3, 0) else if id =? 20 then (BIT 3 ||| 4, 0) else (0, 0)) 10) 1.
Definition demo_port (id num : Z) (time : Z) : port_vlan := mkPv true true false true false false false 0 num 0 0 id time.

Lemma vlan_learning_roundtrip_witness :
  exists d0 r0 d1 d2 r,
    get_vlan_mac_addr_learn (Some (demo_port 10 0 0)) true demo_vlans = ((0, Some r0), d0)
    /\ set_vlan_mac_addr_learn (Some (demo_port 10 0 300)) demo_vlans = (0, d1)
    /\ get_vlan_mac_addr_learn (Some (demo_port 10 0 0)) true d1 = ((0, Some r), d2)
    /\ pv_aging r = true /\ pv_learning r = false /\ pv_aging_time r = 300 /\ pv_port_num r = pv_port_num r0.
Proof. exact (vlan_learning_roundtrip (demo_port 10 0 300) (demo_port 10 0 0) demo_vlans eq_refl eq_refl ltac:(cbn; lia)). Defined.

Lemma vlan_add_takes_other_ports_witness :
  exists r d1 d2,
    get_vlan_mac_addr_learn (Some (demo_port 10 0 0)) true demo_vlans = ((0, Some r), d1)
    /\ tsn_switch_vlan_add (demo_port 20 PORT_MAC1 0) true d1 = (0, d2)
    /\ slice (fst (v_vlan (view d2) 20)) 0 3 = 3 /\ slice (fst (v_vlan (view demo_vlans) 20)) 0 3 = 4.
Proof.
  destruct (vlan_add_takes_other_ports (demo_port 20 PORT_MAC1 0) (demo_port 10 0 0) demo_vlans eq_refl eq_refl) as (r & d1 & d2 & E1 & E2 & E3).
  exists r, d1, d2. split; [exact E1|]. split; [exact E2|]. split; [exact E3|reflexivity].
Defined.

Lemma pvid_roundtrip_witness :
  nv_vlan_id (fst (tsn_switch_pvid_get (mkNv false PORT_MAC2 0 0) (snd (tsn_switch_pvid_add (mkNv true PORT_MAC2 5 77) demo_vlans)))) = 77.
Proof.
  refine (proj1 (proj2 (pvid_roundtrip (mkNv true PORT_MAC2 5 77) (mkNv false PORT_MAC2 0 0) demo_vlans _ _ _))).
  - split; cbn; lia.
  - by right; right.
  - by right; right.
Defined.
