(* ===== verification/TsnSwitchDev.v ===== *)
(** * The switch as the user and the kernel see it

    The commands of the device file and the start of src/driver/xilinx/xilinx_tsn_switch.c, the mask of
    priorities of xilinx_tsn_ep.c and the calls of xilinx_tsn_switchdev.c, by which the kernel's bridge uses the switch.
    Memory of the user is an argument, and what an uninitialised local structure holds is one too. *)
From S2P Require Import Prelude TsnRegs TsnStream TsnSwitch TsnSwitchHw TsnSwitchCam.

(** What copying from the user yields, for each type the code reads the memory as ([None]: the copy fails), whether copies to
    the user succeed, and whether memory is available. *)
Record user_mem := mkUser {
  um_data : option switch_data; um_learn : option mac_addr_learn; um_port_num : option Z; um_status : option port_status;
  um_vlan : option port_vlan; um_native : option native_vlan; um_qci : option qci; um_cb : option cb;
  um_writable : bool; um_alloc : bool }.

(** What is copied to the user. *)
Inductive user_out :=
| Out_none
| Out_data (s : switch_data)
| Out_cam (c : cam_struct)
| Out_learn (l : mac_addr_learn)
| Out_list (l : mac_addr_list)
| Out_status (p : port_status)
| Out_vlan (p : port_vlan)
| Out_native (p : native_vlan)
| Out_qci (q : qci)
| Out_cb (c : cb).

(** The content of the local structures on entry. *)
Record local_mem := mkLocal { lm_data : switch_data; lm_learn : mac_addr_learn; lm_qci : qci; lm_cb : cb }.

Definition with_counters (s : switch_data) (c : mem_static_arr_cntr) : switch_data :=
  mkSwData (switch_status s) (switch_ctrl s) (switch_prt s) (sw_mac_addr s) (thld_ep_mac s) (thld_mac_mac s) (ep_vlan s) (mac_vlan s)
    (max_frame_sc_que s) (max_frame_res_que s) (max_frame_be_que s) c (cam_data s) (typefield s) (mac1_config s) (mac2_config s)
    (port_vlan_mem_ctrl_ s) (port_vlan_mem_data s).

Section Ioctl.
Context `{Device}.

(** The result of a command; [None]: the call does not return within the rounds given. *)
Definition outcome : Type := option (Z * user_out).

Definition done_io (r : Z) : io outcome := mret (Some (r, Out_none)).
(** The copy from the user, with its error. *)
Definition from_user {T} (arg : option T) (f : T -> io outcome) : io outcome :=
  match arg with None => done_io (- EINVAL) | Some x => f x end.
(** The copy to the user. *)
Definition to_user (m : user_mem) (o : user_out) : io outcome :=
  if um_writable m then mret (Some (0, o)) else done_io (- EINVAL).
(** A function with its own copy. *)
Definition copied {T} (f : T -> user_out) (m : io (Z * option T)) : io outcome :=
  '(r, o) ← m; mret (Some (r, match o with Some x => f x | None => Out_none end)).

(** The commands on the switch itself. *)
Definition ioctl_switch (ep : ep_conf) (lm : local_mem) (cmd : Z) (m : user_mem) : option (io outcome) :=
  if cmd =? GET_STATUS_SWITCH then Some (
    s ← get_switch_regs (lm_data lm); c ← get_memory_static_counter; to_user m (Out_data (with_counters s c)))
  else if cmd =? SET_STATUS_SWITCH then Some (from_user (um_data m) (fun s => set_switch_regs s;; done_io 0))
  else if cmd =? ADD_CAM_ENTRY then Some (from_user (um_data m) (fun s =>
    r ← tsn_switch_cam_set ep (cam_data s) true; done_io (if truthy r then - EINVAL else 0)))
  else if cmd =? DELETE_CAM_ENTRY then Some (from_user (um_data m) (fun s =>
    r ← tsn_switch_cam_set ep (cam_data s) false; done_io (if truthy r then - EINVAL else 0)))
  else if cmd =? PORT_VLAN_MEM_CTRL then Some (from_user (um_data m) (fun s => port_vlan_mem_ctrl (port_vlan_mem_ctrl_ s);; done_io 0))
  else if cmd =? SET_FRAME_TYPE_FIELD then Some (from_user (um_data m) (fun s =>
    set_frame_filter_opt (ff_type1 (typefield s)) (ff_type2 (typefield s));; done_io 0))
  else if cmd =? SET_MAC1_MNGMNT_Q_CONFIG then Some (from_user (um_data m) (fun s => set_mac1_mngmntq (mac1_config s);; done_io 0))
  else if cmd =? SET_MAC2_MNGMNT_Q_CONFIG then Some (from_user (um_data m) (fun s => set_mac2_mngmntq (mac2_config s);; done_io 0))
  else if cmd =? READ_CAM_ENTRY then Some (from_user (um_data m) (fun s =>
    '(r, o) ← read_cam_entry ep (cam_data s) (um_writable m);
    mret (Some (if truthy r then - EINVAL else 0, match o with Some c => Out_cam c | None => Out_none end))))
  else None.

(** The commands on learning, ports and VLANs; those on learning need a switch that learns. *)
Definition ioctl_learning (en_hw_addr_learning : bool) (ep : ep_conf) (lm : local_mem) (cmd : Z) (m : user_mem) : option (io outcome) :=
  let learning (f : io outcome) : option (io outcome) := Some (if en_hw_addr_learning then f else done_io (- EPERM)) in
  let code (f : io Z) : io outcome := r ← f; done_io r in
  if cmd =? SET_MAC_ADDR_LEARN_CONFIG then learning (code (set_mac_addr_learn (um_learn m)))
  else if cmd =? GET_MAC_ADDR_LEARN_CONFIG then learning (copied Out_learn (get_mac_addr_learn (lm_learn lm) (um_writable m)))
  else if cmd =? GET_MAC_ADDR_LEARNT_LIST then learning (copied Out_list (get_mac_addr_learnt_list (um_alloc m) (um_port_num m) (um_writable m)))
  else if cmd =? SET_PORT_STATUS then learning (code (set_port_status ep (um_status m)))
  else if cmd =? GET_PORT_STATUS then learning (copied Out_status (get_port_status ep (um_status m) (um_writable m)))
  else if cmd =? ADD_PORT_VLAN then Some (r ← add_del_port_vlan (um_vlan m) true; done_io (if r <? 0 then - EPERM else 0))
  else if cmd =? DEL_PORT_VLAN then Some (r ← add_del_port_vlan (um_vlan m) false; done_io (if r <? 0 then - EPERM else 0))
  else if cmd =? SET_VLAN_MAC_ADDR_LEARN_CONFIG then learning (code (set_vlan_mac_addr_learn (um_vlan m)))
  else if cmd =? GET_VLAN_MAC_ADDR_LEARN_CONFIG then learning (copied Out_vlan (get_vlan_mac_addr_learn (um_vlan m) (um_writable m)))
  else if cmd =? GET_VLAN_MAC_ADDR_LEARN_CONFIG_VLANM then Some (copied Out_vlan (get_vlan_mac_addr_learn (um_vlan m) (um_writable m)))
  else if cmd =? SET_PORT_NATIVE_VLAN then Some (code (set_native_vlan (um_native m)))
  else if cmd =? GET_PORT_NATIVE_VLAN then Some (copied Out_native (get_native_vlan (um_native m) (um_writable m)))
  else None.

(** The commands on filtering; what is not read stays as the structure had it. *)
Definition ioctl_qci (lm : local_mem) (cmd : Z) (m : user_mem) : option (io outcome) :=
  if cmd =? CONFIG_METER_MEM then Some (from_user (um_qci m) (fun q => program_meter_reg (meter_config_data q);; done_io 0))
  else if cmd =? CONFIG_GATE_MEM then Some (from_user (um_qci m) (fun q => config_stream_filter (stream_config_data q);; done_io 0))
  else if cmd =? PSFP_CONTROL then Some (from_user (um_qci m) (fun q => psfp_control (psfp_config_data q);; done_io 0))
  else if cmd =? GET_STATIC_PSFP_COUNTER then Some (from_user (um_qci m) (fun q =>
    c ← get_psfp_static_counter (psfp_num (psfp_counter_data q));
    to_user m (Out_qci (mkQci (meter_config_data q) (stream_config_data q) (psfp_config_data q) c))))
  else if cmd =? GET_METER_REG then Some (
    c ← get_meter_reg;
    to_user m (Out_qci (mkQci c (stream_config_data (lm_qci lm)) (psfp_config_data (lm_qci lm)) (psfp_counter_data (lm_qci lm)))))
  else if cmd =? GET_STREAM_FLTR_CONFIG then Some (
    c ← get_stream_filter_config;
    to_user m (Out_qci (mkQci (meter_config_data (lm_qci lm)) c (psfp_config_data (lm_qci lm)) (psfp_counter_data (lm_qci lm)))))
  else None.

(** The commands on redundancy. *)
Definition ioctl_cb (rounds : nat) (lm : local_mem) (cmd : Z) (m : user_mem) : option (io outcome) :=
  if cmd =? CONFIG_MEMBER_MEM then Some (from_user (um_cb m) (fun c => program_member_reg c;; done_io 0))
  else if cmd =? CONFIG_INGRESS_FLTR then Some (from_user (um_cb m) (fun c => config_ingress_filter c;; done_io 0))
  else if cmd =? FRER_CONTROL then Some (from_user (um_cb m) (fun c =>
    returned ← frer_control rounds (frer_ctrl_data c); if returned : bool then done_io 0 else mret None))
  else if cmd =? GET_STATIC_FRER_COUNTER then Some (from_user (um_cb m) (fun c =>
    k ← get_frer_static_counter (frer_num (frer_counter_data c));
    to_user m (Out_cb (mkCb (frer_ctrl_data c) (in_fltr_data c) (frer_memb_config_data c) k))))
  else if cmd =? GET_MEMBER_REG then Some (
    r ← get_member_reg;
    to_user m (Out_cb (mkCb (frer_ctrl_data (lm_cb lm)) (in_fltr_data (lm_cb lm)) r (frer_counter_data (lm_cb lm)))))
  else if cmd =? GET_INGRESS_FLTR then Some (
    r ← get_ingress_filter_config;
    to_user m (Out_cb (mkCb (frer_ctrl_data (lm_cb lm)) r (frer_memb_config_data (lm_cb lm)) (frer_counter_data (lm_cb lm)))))
  else None.

(** Another command does nothing and reports success. *)
Definition switch_ioctl (en_hw_addr_learning : bool) (ep : ep_conf) (rounds : nat) (lm : local_mem) (cmd : Z) (m : user_mem) : io outcome :=
  match ioctl_switch ep lm cmd m with
  | Some f => f
  | None =>
      match ioctl_learning en_hw_addr_learning ep lm cmd m with
      | Some f => f
      | None =>
          match ioctl_qci lm cmd m with
          | Some f => f
          | None => match ioctl_cb rounds lm cmd m with Some f => f | None => done_io 0 end
          end
      end
  end.

(** ** Start *)

(** The priorities of a class from the module's parameters, [default] when there are none or one is not a priority. *)
Fixpoint pcp_loop (l : list Z) (mask : Z) : option Z :=
  match l with
  | [] => Some mask
  | p :: rest => if p >=? 8 then None else pcp_loop rest (u8 (mask ||| (1 <<< p)))
  end.
Definition pcp_mask (count : Z) (pcps : list Z) (default : Z) : Z :=
  if (count =? 0) || (count >? 8) then default
  else match pcp_loop (firstn (Z.to_nat count) pcps) 0 with Some mask => mask | None => default end.

(** [st_pcp] and [res_pcp] of the driver. *)
Definition axienet_get_pcp_mask (num_tc st_count res_count : Z) (st_pcp res_pcp : list Z) : Z * Z :=
  (pcp_mask st_count st_pcp (1 <<< 4), if num_tc =? 3 then pcp_mask res_count res_pcp ((1 <<< 2) ||| (1 <<< 3)) else 0).

(** What the device tree and the kernel answer. *)
Record probe_env := mkProbe {
  pe_ioremap : option Z;
  pe_num_tc : option Z;
  pe_st_count : Z; pe_res_count : Z; pe_st_pcp : list Z; pe_res_pcp : list Z;
  pe_misc_register : Z;
  pe_inband_mgmt_tag : bool;
  pe_num_ports : option Z;
  pe_ports : list (option (list Z));
  pe_ep : ep_conf }.

(** The channels of the endpoint. *)
Definition ep_ext_ctrl (ep : ep_conf) (num_tc data : Z) : io unit :=
  if ex_ep ep then
    (if num_tc =? 3 then axienet_iow XAE_EP_EXT_CTRL_OFFSET ((data &&& XAE_EX_EP_EXT_CTRL_MASK) ||| XAE_EX_EP_EXT_CTRL_DATA_TC_3)
     else if num_tc =? 2 then axienet_iow XAE_EP_EXT_CTRL_OFFSET ((data &&& XAE_EX_EP_EXT_CTRL_MASK) ||| XAE_EX_EP_EXT_CTRL_DATA_TC_2)
     else mret tt);;
    value ← axienet_ior XAE_MGMT_QUEUING_OPTIONS_OFFSET;
    axienet_iow XAE_MGMT_QUEUING_OPTIONS_OFFSET (value ||| XAE_EX_EP_BROADCAST_PKT_SWITCH ||| XAE_EX_EP_MULTICAST_PKT_SWITCH)
  else if num_tc =? 3 then axienet_iow XAE_EP_EXT_CTRL_OFFSET ((data &&& XAE_EP_EXT_CTRL_MASK) ||| XAE_EP_EXT_CTRL_DATA_TC_3)
  else if num_tc =? 2 then axienet_iow XAE_EP_EXT_CTRL_OFFSET ((data &&& XAE_EP_EXT_CTRL_MASK) ||| XAE_EP_EXT_CTRL_DATA_TC_2)
  else mret tt.

(** [None]: the code follows a null pointer. *)
Definition tsnswitch_probe (pe : probe_env) : io (option Z) :=
  match pe_ioremap pe with
  | Some err => mret (Some err)
  | None =>
      let num_tc := match pe_num_tc pe with Some n => if (n =? 2) || (n =? 3) then n else 3 | None => 3 end in
      let '(st_pcp, res_pcp) := axienet_get_pcp_mask num_tc (pe_st_count pe) (pe_res_count pe) (pe_st_pcp pe) (pe_res_pcp pe) in
      if truthy (pe_misc_register pe) then mret (Some (pe_misc_register pe))
      else
        ret ← tsn_switch_cam_init num_tc st_pcp res_pcp;
        ret ← (if pe_inband_mgmt_tag pe then mret (Some ret) else tsn_switch_fdb_init (pe_ep pe) (pe_num_ports pe) (pe_ports pe));
        match ret with
        | None => mret None
        | Some ret =>
            data ← axienet_ior XAE_EP_EXT_CTRL_OFFSET;
            ep_ext_ctrl (pe_ep pe) num_tc data;;
            mret (Some ret)
        end
  end.

(** ** The calls of the kernel's bridge *)
Definition EOPNOTSUPP : Z := 95.

(** An address the bridge adds or deletes, on the port of the device. *)
Definition xlnx_switch_fdb_set (ep : ep_conf) (switch_prt : Z) (addr : list Z) (vid : Z) (adding : bool) : io Z :=
  tsn_switch_cam_set ep (mkCam [0; 0; 0; 0; 0; 0] addr vid 0 switch_prt 0 0 0 0 0) adding.

Inductive fdb_event := FDB_ADD_TO_DEVICE | FDB_DEL_TO_DEVICE.

(** Events of the bridge; others are not taken. *)
Inductive switchdev_event := Fdb_event (event : fdb_event) (addr : list Z) (vid : Z) | Other_event.

(** Work queued: event, copy of the address, VLAN. *)
Definition sw_work : Type := fdb_event * list Z * Z.
Definition NOTIFY_DONE : Z := 0.
Definition NOTIFY_BAD : Z := 0x8002.

(** The address is copied, the work is queued behind what waits already. *)
Definition xlnx_switchdev_event (alloc : bool) (ev : switchdev_event) (queue : list sw_work) : Z * list sw_work :=
  if negb alloc then (NOTIFY_BAD, queue)
  else match ev with
  | Fdb_event event addr vid => (NOTIFY_DONE, queue ++ [(event, addr, vid)])
  | Other_event => (NOTIFY_DONE, queue)
  end.

(** The queued work: whether the bridge is told that the entry was taken over. *)
Definition xlnx_switchdev_event_work (ep : ep_conf) (switch_prt : Z) (event : fdb_event) (addr : list Z) (vid : Z) : io bool :=
  match event with
  | FDB_ADD_TO_DEVICE => err ← xlnx_switch_fdb_set ep switch_prt addr vid true; mret (negb (truthy err))
  | FDB_DEL_TO_DEVICE => xlnx_switch_fdb_set ep switch_prt addr vid false;; mret false
  end.

(** The ordered queue. *)
Fixpoint run_queue (ep : ep_conf) (switch_prt : Z) (queue : list sw_work) : io (list bool) :=
  match queue with
  | [] => mret []
  | (event, addr, vid) :: rest =>
      told ← xlnx_switchdev_event_work ep switch_prt event addr vid;
      more ← run_queue ep switch_prt rest;
      mret (told :: more)
  end.

(** The states of the bridge, numbered by the kernel, and those of the switch. *)
Inductive br_state := BR_STATE_DISABLED | BR_STATE_LISTENING | BR_STATE_LEARNING | BR_STATE_FORWARDING | BR_STATE_BLOCKING.
Definition tsn_to_linux_sw_state (s : br_state) : Z :=
  match s with
  | BR_STATE_DISABLED => 0
  | BR_STATE_BLOCKING => 1
  | BR_STATE_LISTENING => 2
  | BR_STATE_LEARNING => 3
  | BR_STATE_FORWARDING => 4
  end.

(** [prepare]: the phase in which nothing is done. *)
Definition xlnx_sw_port_attr_stp_state_set (ep : ep_conf) (switch_prt : Z) (state : br_state) (prepare : bool) : io Z :=
  if prepare then mret 0 else tsn_switch_set_stp_state ep (mkPs switch_prt (tsn_to_linux_sw_state state)).

(** Structures with everything zero but port and VLAN. *)
Definition pvl_of (switch_prt vid : Z) : port_vlan := mkPv false false false false false false false 0 switch_prt 0 0 vid 0.

(** The loop over a range of VLANs, which ends at the first error. *)
Fixpoint vid_loop (f : Z -> io Z) (n : nat) (vid : Z) : io Z :=
  match n with
  | O => mret 0
  | S n' => err ← f vid; if truthy err then mret err else vid_loop f n' (vid + 1)
  end.
Definition vid_count (vid_begin vid_end : Z) : nat := Z.to_nat (vid_end - vid_begin + 1).

Definition xlnx_sw_port_obj_vlan_add (switch_prt : Z) (flag_pvid : bool) (vid_begin vid_end : Z) (prepare : bool) : io Z :=
  if prepare then mret 0
  else vid_loop (fun vid => if flag_pvid then tsn_switch_pvid_add (mkNv false switch_prt 0 vid) else tsn_switch_vlan_add (pvl_of switch_prt vid) true)
         (vid_count vid_begin vid_end) vid_begin.

(** The VLAN of untagged frames falls back to 1; from then on it is compared with 1. *)
Fixpoint vlan_del_loop (switch_prt : Z) (nvl : native_vlan) (n : nat) (vid : Z) : io Z :=
  match n with
  | O => mret 0
  | S n' =>
      if vid =? nv_vlan_id nvl then
        let nvl := mkNv (nv_en_ipv nvl) (nv_port_num nvl) (nv_ipv nvl) 1 in
        err ← tsn_switch_pvid_add nvl;
        if truthy err then mret err else vlan_del_loop switch_prt nvl n' (vid + 1)
      else
        err ← tsn_switch_vlan_add (pvl_of switch_prt vid) false;
        if truthy err then mret err else vlan_del_loop switch_prt nvl n' (vid + 1)
  end.

Definition xlnx_sw_port_obj_vlan_del (switch_prt vid_begin vid_end : Z) : io Z :=
  nvl ← tsn_switch_pvid_get (mkNv false switch_prt 0 0);
  vlan_del_loop switch_prt nvl (vid_count vid_begin vid_end) vid_begin.

(** What the bridge sets and adds; unknown attributes and objects are refused. *)
Inductive sw_attr := Attr_stp_state (state : br_state) | Attr_bridge_flags | Attr_ageing_time | Attr_vlan_filtering | Attr_other.
Definition xlnx_sw_attr_set (ep : ep_conf) (switch_prt : Z) (attr : sw_attr) (prepare : bool) : io Z :=
  match attr with
  | Attr_stp_state state => xlnx_sw_port_attr_stp_state_set ep switch_prt state prepare
  | Attr_bridge_flags | Attr_ageing_time | Attr_vlan_filtering => mret 0
  | Attr_other => mret (- EOPNOTSUPP)
  end.

Inductive sw_obj := Obj_port_vlan (flag_pvid : bool) (vid_begin vid_end : Z) | Obj_other.
Definition xlnx_sw_obj_add (switch_prt : Z) (obj : sw_obj) (prepare : bool) : io Z :=
  match obj with
  | Obj_port_vlan flag_pvid vid_begin vid_end => xlnx_sw_port_obj_vlan_add switch_prt flag_pvid vid_begin vid_end prepare
  | Obj_other => mret (- EOPNOTSUPP)
  end.
Definition xlnx_sw_obj_del (switch_prt : Z) (obj : sw_obj) : io Z :=
  match obj with
  | Obj_port_vlan _ vid_begin vid_end => xlnx_sw_port_obj_vlan_del switch_prt vid_begin vid_end
  | Obj_other => mret (- EOPNOTSUPP)
  end.
End Ioctl.

(** ** The table of the bridge is that of the switch *)
Section Bridge.
Context `{SwitchLaws}.

(** What the bridge knows after an event on a port. *)
Definition bridge_entry (switch_prt : Z) : fdb_entry := mkFdb [0; 0; 0; 0; 0; 0] 0 false 0 switch_prt 0 0 0.
Definition bridge_step (switch_prt : Z) (ev : switchdev_event) (m : fdb) : fdb :=
  match ev with
  | Fdb_event FDB_ADD_TO_DEVICE addr vid => <[(addr, slice vid 0 12) := bridge_entry switch_prt]> m
  | Fdb_event FDB_DEL_TO_DEVICE addr vid => delete (addr, slice vid 0 12) m
  | Other_event => m
  end.
Definition bridge_run (switch_prt : Z) (evs : list switchdev_event) (m : fdb) : fdb := fold_left (fun m ev => bridge_step switch_prt ev m) evs m.

(** The events as the notifier queues them. *)
Definition notify_all (evs : list switchdev_event) : list sw_work :=
  fold_left (fun q ev => snd (xlnx_switchdev_event true ev q)) evs [].
Definition added (w : sw_work) : bool := match w with (FDB_ADD_TO_DEVICE, _, _) => true | _ => false end.

Lemma notify_all_cons ev evs : notify_all (ev :: evs) = match ev with Fdb_event e a v => (e, a, v) :: notify_all evs | Other_event => notify_all evs end.
Proof.
  assert (forall evs q, fold_left (fun q ev => snd (xlnx_switchdev_event true ev q)) evs q = q ++ notify_all evs) as Hq.
  { clear. intros evs. unfold notify_all. induction evs as [|x evs IH]; intros q; cbn [fold_left]; [by rewrite app_nil_r|].
    rewrite (IH (snd (xlnx_switchdev_event true x q))), (IH (snd (xlnx_switchdev_event true x []))).
    destruct x; cbn; [by rewrite <- app_assoc|done]. }
  unfold notify_all at 1. cbn [fold_left]. rewrite Hq. by destruct ev.
Qed.

Definition event_ok (ev : switchdev_event) : Prop := match ev with Fdb_event _ addr _ => mac_ok addr | Other_event => True end.

(** One piece of work. *)
Lemma event_work_refines ep prt event addr vid d m : 0 <= prt < 2 ^ 3 -> mac_ok addr -> holds ep d m -> (0 < v_free (view d))%nat ->
  exists d', xlnx_switchdev_event_work ep prt event addr vid d = (added (event, addr, vid), d')
    /\ holds ep d' (bridge_step prt (Fdb_event event addr vid) m) /\ (v_free (view d) <= S (v_free (view d')))%nat.
Proof.
  intros Hp Ha Hm Hf. set (data := mkCam [0; 0; 0; 0; 0; 0] addr vid 0 prt 0 0 0 0 0).
  assert (cam_ok data) as Hok.
  { repeat split; cbn; try done; try lia; try apply Ha. repeat (apply Forall_cons_2; [lia|]). apply Forall_nil_2. }
  pose proof (all_below_spec 8 (fun p => negb (truthy (p &&& PORT_EX_ONLY)) && negb (truthy (p &&& PORT_EX_EP))) prt eq_refl ltac:(lia)) as Hx.
  cbn beta in Hx. apply andb_prop in Hx as [H8 H16]. apply negb_true_iff in H8, H16.
  assert (forall b, cam_refused ep data b = false) as Href.
  { intros b. unfold cam_refused. cbn [cam_fwd_port data]. rewrite H8, H16. by destruct b. }
  assert (fdb_of data = bridge_entry prt) as He.
  { unfold fdb_of, bridge_entry. cbn [data cam_src_addr cam_tv_vlanid cam_flags cam_ipv cam_fwd_port cam_gate_id cam_ep_port_act cam_mac_port_act].
    repeat case_if; reflexivity. }
  destruct event.
  - destruct (cam_call_refines ep (Fdb_add data) d m Hok Hm Hf) as (d' & E & Hh & Hfr).
    cbn [cam_call fdb_step] in E, Hh. rewrite Href in E, Hh. rewrite bind_io in E. rewrite He in Hh.
    exists d'. split; [|by split]. unfold xlnx_switchdev_event_work, xlnx_switch_fdb_set. rewrite bind_io. fold data.
    destruct (tsn_switch_cam_set ep data true d) as [r d1]. by injection E as -> ->.
  - destruct (cam_call_refines ep (Fdb_delete data) d m Hok Hm Hf) as (d' & E & Hh & Hfr).
    cbn [cam_call fdb_step] in E, Hh. rewrite Href in E, Hh. rewrite bind_io in E.
    exists d'. split; [|by split]. unfold xlnx_switchdev_event_work, xlnx_switch_fdb_set. rewrite bind_io. fold data.
    destruct (tsn_switch_cam_set ep data false d) as [r d1]. by injection E as -> ->.
Qed.

(** C28: The notifier, its queue and the driver together: whatever events the bridge reports for a port, once the
    queue has been worked off the table of the switch holds the bridge's addresses and no others than before, and
    the bridge was told of exactly the additions. This holds when there is memory for the work of every event and
    the table has room for as many entries as there are events. (With a full table the driver does not learn that an
    entry was not stored, and the bridge is told that it was; without memory the event is lost.) *)
Theorem bridge_events_reach_table ep prt evs d m :
  0 <= prt < 2 ^ 3 -> Forall event_ok evs -> holds ep d m -> (length evs <= v_free (view d))%nat ->
  exists d', run_queue ep prt (notify_all evs) d = (map added (notify_all evs), d') /\ holds ep d' (bridge_run prt evs m).
Proof.
  intros Hp. revert d m. induction evs as [|ev evs IH]; intros d m Hok Hm Hf; [by exists d|].
  apply Forall_cons_1 in Hok as [Ho Hok]. cbn [length] in Hf. rewrite notify_all_cons.
  destruct ev as [event addr vid|]; [|by apply (IH d m); [..|lia]].
  destruct (event_work_refines ep prt event addr vid d m Hp Ho Hm ltac:(lia)) as (d1 & E1 & Hm1 & Hf1).
  destruct (IH d1 _ Hok Hm1 ltac:(lia)) as (d2 & E2 & Hm2). exists d2. split; [|done].
  cbn [run_queue map]. by rewrite bind_io, E1, bind_io, E2.
Qed.
End Bridge.

(** ** What the user gets to see *)

(** What [get_switch_regs] does not store. *)
Lemma get_switch_regs_keeps `{Device} s :
  always (get_switch_regs s) (fun r => cam_data r = cam_data s /\ ff_type1 (typefield r) = ff_type1 (typefield s)).
Proof. unfold get_switch_regs. repeat (apply always_bind; intros ?). by apply always_ret. Qed.

(** Reading the state of the switch hands the user what the kernel's stack held before: the structure is not
    initialised, and its entry of the forwarding table and the first type of the frame filter are never
    stored. *)
Theorem get_status_discloses_stack `{Device} en ep rounds lm m d :
  um_writable m = true ->
  exists r, fst (switch_ioctl en ep rounds lm GET_STATUS_SWITCH m d) = Some (0, Out_data r)
    /\ cam_data r = cam_data (lm_data lm) /\ ff_type1 (typefield r) = ff_type1 (typefield (lm_data lm)).
Proof.
  intros Hw. change (switch_ioctl en ep rounds lm GET_STATUS_SWITCH m)
    with (s ← get_switch_regs (lm_data lm); c ← get_memory_static_counter; to_user m (Out_data (with_counters s c))).
  revert d. change (always (s ← get_switch_regs (lm_data lm); c ← get_memory_static_counter; to_user m (Out_data (with_counters s c)))
    (fun o => exists r, o = Some (0, Out_data r) /\ cam_data r = cam_data (lm_data lm) /\ ff_type1 (typefield r) = ff_type1 (typefield (lm_data lm)))).
  eapply always_bind_of; [apply get_switch_regs_keeps|]. intros s [Hc Ht]. apply always_bind. intros c.
  unfold to_user. rewrite Hw. apply always_ret. by exists (with_counters s c).
Qed.

Definition zero_cntr : static_cntr := mkCntr 0 0.
Definition demo_local : local_mem :=
  mkLocal (mkSwData 0 0 0 [] [] [] 0 0 0 0 0 (mkMemCnt zero_cntr zero_cntr zero_cntr zero_cntr zero_cntr zero_cntr zero_cntr zero_cntr
      zero_cntr zero_cntr zero_cntr zero_cntr zero_cntr zero_cntr zero_cntr zero_cntr zero_cntr zero_cntr zero_cntr zero_cntr
      zero_cntr zero_cntr zero_cntr zero_cntr zero_cntr zero_cntr zero_cntr zero_cntr zero_cntr zero_cntr zero_cntr zero_cntr
      zero_cntr zero_cntr zero_cntr zero_cntr zero_cntr zero_cntr zero_cntr zero_cntr)
      (mkCam [0xDE; 0xAD; 0xBE; 0xEF; 0; 1] [] 0 0 0 0 0 0 0 0) (mkFf 0xBEEF 0) 0 0 0 0)
    (mkLearn false false false false false false 0)
    (mkQci (mkMeter 0 0 0 0 0) (mkFilter 0 0) (mkPsfp 0 0 false false false 0 false) (mkPsfpCnt zero_cntr zero_cntr zero_cntr zero_cntr 0))
    (mkCb (mkFrer 0 0 false false false false 0 false) (mkInFltr 0 0) (mkMemb 0 0 0 0)
      (mkFrerCnt zero_cntr zero_cntr zero_cntr zero_cntr zero_cntr zero_cntr zero_cntr zero_cntr 0)).
Definition demo_user : user_mem := mkUser None None None None None None None None true true.

Lemma get_status_discloses_stack_witness :
  exists r, fst (switch_ioctl (H := memory_device) false (mkEpConf false false) 0 demo_local GET_STATUS_SWITCH demo_user (fun _ => 0)) = Some (0, Out_data r)
    /\ cam_src_addr (cam_data r) = [0xDE; 0xAD; 0xBE; 0xEF; 0; 1] /\ ff_type1 (typefield r) = 0xBEEF.
Proof.
  destruct (get_status_discloses_stack (H := memory_device) false (mkEpConf false false) 0 demo_local demo_user (fun _ => 0) eq_refl) as (r & E & Hc & Ht).
  exists r. split; [exact E|]. rewrite Hc, Ht. split; reflexivity.
Defined.

Lemma bridge_events_reach_table_witness :
  exists d', run_queue (mkEpConf false false) PORT_MAC1
      (notify_all [Fdb_event FDB_ADD_TO_DEVICE [2; 0; 0; 0; 0; 9] 7; Other_event; Fdb_event FDB_DEL_TO_DEVICE [2; 0; 0; 0; 0; 9] 7]) demo_empty
    = ([true; false], d') /\ holds (mkEpConf false false) d' ∅.
Proof.
  refine (bridge_events_reach_table (mkEpConf false false) PORT_MAC1
    [Fdb_event FDB_ADD_TO_DEVICE [2; 0; 0; 0; 0; 9] 7; Other_event; Fdb_event FDB_DEL_TO_DEVICE [2; 0; 0; 0; 0; 9] 7] demo_empty ∅ _ _ _ _).
  - vm_compute. split; congruence.
  - assert (mac_ok [2; 0; 0; 0; 0; 9]) as Hm by (split; [done|]; repeat (apply Forall_cons_2; [lia|]); apply Forall_nil_2).
    repeat (apply Forall_cons_2; [by cbn|]). apply Forall_nil_2.
  - intros k _. reflexivity.
  - vm_compute. lia.
Defined.
