(* ===== verification/TsnPreempt.v ===== *)
(** * Frame preemption

    Models src/driver/xilinx/xilinx_tsn_preemption.c over the registers of a port: enabling, control and status,
    the overrides of hold and release, and the statistics. Structures of the user are arguments ([None]: the
    copy from the user fails). The theorems state what is read back of a configuration. *)
From S2P Require Import Prelude TsnRegs.

Definition PREEMPTION_ENABLE_REG : Z := 0x00000440.
Definition PREEMPTION_CTRL_STS_REG : Z := 0x00000444.
Definition QBU_USER_OVERRIDE_REG : Z := 0x00000448.
Definition QBU_CORE_STS_REG : Z := 0x0000044c.
Definition TX_HOLD_REG : Z := 0x00000910.
Definition RX_BYTES_EMAC_REG : Z := 0x00000200.
Definition RX_BYTES_PMAC_REG : Z := 0x00000800.
Definition XAE_TSN_ABL_OFFSET : Z := 0x000004FC.
Definition PREEMPTION_ENABLE : Z := BIT 0.
Definition PREEMPTION_SUPPORT : Z := BIT 15.
Definition TX_PREEMPTION_STS : Z := BIT 31.
Definition MAC_MERGE_TX_VERIFY_STS_MASK : Z := 0x7.
Definition MAC_MERGE_TX_VERIFY_STS_SHIFT : Z := 24.
Definition VERIFY_TIMER_VALUE_MASK : Z := 0x7F.
Definition VERIFY_TIMER_VALUE_SHIFT : Z := 8.
Definition ADDITIONAL_FRAG_SIZE_MASK : Z := 0x3.
Definition ADDITIONAL_FRAG_SIZE_SHIFT : Z := 4.
Definition DISABLE_PREEMPTION_VERIFY : Z := BIT 0.
Definition USER_HOLD_REL_ENABLE_VALUE : Z := BIT 31.
Definition USER_HOLD_TIME_MASK : Z := 0x1FF.
Definition USER_HOLD_TIME_SHIFT : Z := 16.
Definition USER_REL_TIME_MASK : Z := 0x3F.
Definition USER_REL_TIME_SHIFT : Z := 8.
Definition GUARD_BAND_OVERRUN_CNT_INC_OVERRIDE : Z := BIT 3.
Definition HOLD_REL_WINDOW_OVERRIDE : Z := BIT 2.
Definition HOLD_TIME_OVERRIDE : Z := BIT 1.
Definition REL_TIME_OVERRIDE : Z := BIT 0.
Definition HOLD_REL_ENABLE_STS : Z := BIT 31.
Definition HOLD_TIME_STS_MASK : Z := 0x1FF.
Definition HOLD_TIME_STS_SHIFT : Z := 16.
Definition REL_TIME_STS_MASK : Z := 0x3F.
Definition REL_TIME_STS_SHIFT : Z := 8.
Definition PMAC_HOLD_REQ_STS : Z := BIT 0.
Definition QBU_WINDOW : Z := BIT 0.
Definition QBU_GUARD_BAND : Z := BIT 1.
Definition QBU_HOLD_TIME : Z := BIT 2.
Definition QBU_REL_TIME : Z := BIT 3.

Record preempt_ctrl_sts := mkPreempt {
  tx_preemp_sts : Z; mac_tx_verify_sts : Z; verify_timer_value : Z; additional_frag_size : Z; disable_preemp_verify : Z }.
Record preempt_status := mkPreemptStatus { preemp_en : Z; preemp_sup : Z; pctrl : preempt_ctrl_sts }.
(** Bit fields: nine bits of hold time, six of release time, one of each flag. *)
Record qbu_prog_override := mkOverride {
  enable_value : bool; user_hold_time : Z; user_rel_time : Z; guard_band : bool; hold_rel_window : bool;
  hold_time_override : bool; rel_time_override : bool }.
Record qbu_prog := mkProg { prog_user : qbu_prog_override; prog_set : Z }.
Record qbu_core_status := mkCore { core_hold_time : Z; core_rel_time : Z; hold_rel_en : bool; pmac_hold_req : bool }.
Record qbu_all_status := mkAllStatus { st_prog : qbu_prog_override; st_core : qbu_core_status }.
(** The statistics as the words of their structures. *)
Record emac_pmac_stats := mkStats { stats_preemp_en : Z; stats_emac : list Z; stats_pmac_sts : list Z; stats_pmac_merge : list Z }.

(** 34 and 6 counters of two words. *)
Definition statistics_counters_words : nat := 68.
Definition mac_merge_counters_words : nat := 12.

Section Preempt.
Context `{Device}.

Definition axienet_preemption (useraddr : option Z) : io Z :=
  match useraddr with
  | None => mret (- EFAULT)
  | Some preemp => axienet_iow PREEMPTION_ENABLE_REG (preemp &&& PREEMPTION_ENABLE);; mret 0
  end.

Definition ctrl_word (data : preempt_ctrl_sts) (value : Z) : Z :=
  let value := value &&& not32 (VERIFY_TIMER_VALUE_MASK <<< VERIFY_TIMER_VALUE_SHIFT) in
  let value := value ||| (verify_timer_value data <<< VERIFY_TIMER_VALUE_SHIFT) in
  let value := value &&& not32 (ADDITIONAL_FRAG_SIZE_MASK <<< ADDITIONAL_FRAG_SIZE_SHIFT) in
  let value := value ||| (additional_frag_size data <<< ADDITIONAL_FRAG_SIZE_SHIFT) in
  let value := value &&& not32 DISABLE_PREEMPTION_VERIFY in
  value ||| disable_preemp_verify data.

Definition axienet_preemption_ctrl (useraddr : option preempt_ctrl_sts) : io Z :=
  match useraddr with
  | None => mret (- EFAULT)
  | Some data =>
      value ← axienet_ior PREEMPTION_CTRL_STS_REG;
      axienet_iow PREEMPTION_CTRL_STS_REG (ctrl_word data value);;
      mret 0
  end.

Definition axienet_preemption_sts (to_user : bool) : io (Z * option preempt_status) :=
  en ← axienet_ior PREEMPTION_ENABLE_REG;
  abl ← axienet_ior XAE_TSN_ABL_OFFSET;
  value ← axienet_ior PREEMPTION_CTRL_STS_REG;
  let status := mkPreemptStatus (en &&& PREEMPTION_ENABLE) (if truthy (abl &&& PREEMPTION_SUPPORT) then 1 else 0)
    (mkPreempt (if truthy (value &&& TX_PREEMPTION_STS) then 1 else 0)
       ((value >>> MAC_MERGE_TX_VERIFY_STS_SHIFT) &&& MAC_MERGE_TX_VERIFY_STS_MASK)
       ((value >>> VERIFY_TIMER_VALUE_SHIFT) &&& VERIFY_TIMER_VALUE_MASK)
       ((value >>> ADDITIONAL_FRAG_SIZE_SHIFT) &&& ADDITIONAL_FRAG_SIZE_MASK)
       (value &&& DISABLE_PREEMPTION_VERIFY)) in
  mret (if to_user then (0, Some status) else (- EFAULT, None)).

Definition axienet_preemption_receive : io Z :=
  value ← axienet_ior XAE_TSN_ABL_OFFSET;
  let preemption_support := if truthy (value &&& PREEMPTION_SUPPORT) then 1 else 0 in
  (if preemption_support =? 1 then
     value ← axienet_ior PREEMPTION_ENABLE_REG;
     axienet_iow PREEMPTION_ENABLE_REG (value ||| PREEMPTION_ENABLE)
   else mret tt);;
  mret 0.

(** [count] registers from [addr_off] on. *)
Fixpoint statistic_cnts (count : nat) (addr_off : Z) : io (list Z) :=
  match count with
  | O => mret []
  | S n => w ← axienet_ior addr_off; rest ← statistic_cnts n (addr_off + 4); mret (w :: rest)
  end.

(** The local structure is not initialised: without preemption the second half is what [stack] holds.
    [preemp_en] has 8 bits. *)
Definition axienet_preemption_cnt (stack : emac_pmac_stats) (to_user : bool) : io (Z * option emac_pmac_stats) :=
  emac ← statistic_cnts statistics_counters_words RX_BYTES_EMAC_REG;
  en ← axienet_ior PREEMPTION_ENABLE_REG;
  let en := u8 en in
  stats ← (if truthy en then
             sts ← statistic_cnts statistics_counters_words RX_BYTES_PMAC_REG;
             merge ← statistic_cnts mac_merge_counters_words TX_HOLD_REG;
             mret (mkStats en emac sts merge)
           else mret (mkStats en emac (stats_pmac_sts stack) (stats_pmac_merge stack)));
  mret (if to_user then (0, Some stats) else (- EFAULT, None)).

(** The word of the overrides: only what [set] names is changed. *)
Definition window_word (data : qbu_prog) (value : Z) : Z :=
  if truthy (prog_set data &&& QBU_WINDOW) then
    if hold_rel_window (prog_user data) then value ||| USER_HOLD_REL_ENABLE_VALUE ||| HOLD_REL_WINDOW_OVERRIDE
    else value &&& not32 USER_HOLD_REL_ENABLE_VALUE &&& not32 HOLD_REL_WINDOW_OVERRIDE
  else value.
Definition guard_word (data : qbu_prog) (value : Z) : Z :=
  if truthy (prog_set data &&& QBU_GUARD_BAND) then
    if guard_band (prog_user data) then value ||| GUARD_BAND_OVERRUN_CNT_INC_OVERRIDE else value &&& not32 GUARD_BAND_OVERRUN_CNT_INC_OVERRIDE
  else value.
Definition hold_word (data : qbu_prog) (value : Z) : Z :=
  if truthy (prog_set data &&& QBU_HOLD_TIME) then
    if hold_time_override (prog_user data)
    then ((value ||| HOLD_TIME_OVERRIDE) &&& not32 (USER_HOLD_TIME_MASK <<< USER_HOLD_TIME_SHIFT)) ||| (user_hold_time (prog_user data) <<< USER_HOLD_TIME_SHIFT)
    else value &&& not32 HOLD_TIME_OVERRIDE &&& not32 (USER_HOLD_TIME_MASK <<< USER_HOLD_TIME_SHIFT)
  else value.
Definition release_word (data : qbu_prog) (value : Z) : Z :=
  if truthy (prog_set data &&& QBU_REL_TIME) then
    if rel_time_override (prog_user data)
    then ((value ||| REL_TIME_OVERRIDE) &&& not32 (USER_REL_TIME_MASK <<< USER_REL_TIME_SHIFT)) ||| (user_rel_time (prog_user data) <<< USER_REL_TIME_SHIFT)
    else value &&& not32 REL_TIME_OVERRIDE &&& not32 (USER_REL_TIME_MASK <<< USER_REL_TIME_SHIFT)
  else value.
Definition override_word (data : qbu_prog) (value : Z) : Z := release_word data (hold_word data (guard_word data (window_word data value))).

Definition axienet_qbu_user_override (useraddr : option qbu_prog) : io Z :=
  match useraddr with
  | None => mret (- EFAULT)
  | Some data =>
      value ← axienet_ior QBU_USER_OVERRIDE_REG;
      axienet_iow QBU_USER_OVERRIDE_REG (override_word data value);;
      mret 0
  end.

(** [enable_value] and the two flags of the overrides keep what [stack] holds. *)
Definition axienet_qbu_sts (stack : qbu_prog_override) (to_user : bool) : io (Z * option qbu_all_status) :=
  v ← axienet_ior QBU_USER_OVERRIDE_REG;
  let prog := mkOverride (enable_value stack) ((v >>> USER_HOLD_TIME_SHIFT) &&& USER_HOLD_TIME_MASK)
    ((v >>> USER_REL_TIME_SHIFT) &&& USER_REL_TIME_MASK) (truthy (v &&& GUARD_BAND_OVERRUN_CNT_INC_OVERRIDE))
    (truthy (v &&& USER_HOLD_REL_ENABLE_VALUE)) (hold_time_override stack) (rel_time_override stack) in
  c ← axienet_ior QBU_CORE_STS_REG;
  let core := mkCore ((c >>> HOLD_TIME_STS_SHIFT) &&& HOLD_TIME_STS_MASK) ((c >>> REL_TIME_STS_SHIFT) &&& REL_TIME_STS_MASK)
    (truthy (c &&& HOLD_REL_ENABLE_STS)) (truthy (c &&& PMAC_HOLD_REQ_STS)) in
  mret (if to_user then (0, Some (mkAllStatus prog core)) else (- EFAULT, None)).
End Preempt.

(** ** What is read back *)
Section PreemptLaws.
Context `{RegLaws}.
Definition preempt_regs : list Z :=
  [PREEMPTION_ENABLE_REG; PREEMPTION_CTRL_STS_REG; QBU_USER_OVERRIDE_REG; QBU_CORE_STS_REG; XAE_TSN_ABL_OFFSET].
Hypothesis preempt_plain : forallb plain preempt_regs = true.

Lemma preempt_reg o : existsb (Z.eqb o) preempt_regs = true -> plain o = true.
Proof.
  intros Ho. apply existsb_exists in Ho. destruct Ho as (o' & Hin & E). apply Z.eqb_eq in E. subst.
  rewrite forallb_forall in preempt_plain. by apply preempt_plain.
Qed.

Ltac run := run_io ltac:(apply preempt_reg; reflexivity).
Ltac masks := cbv [PREEMPTION_ENABLE PREEMPTION_SUPPORT TX_PREEMPTION_STS MAC_MERGE_TX_VERIFY_STS_MASK MAC_MERGE_TX_VERIFY_STS_SHIFT
  VERIFY_TIMER_VALUE_MASK VERIFY_TIMER_VALUE_SHIFT ADDITIONAL_FRAG_SIZE_MASK ADDITIONAL_FRAG_SIZE_SHIFT DISABLE_PREEMPTION_VERIFY
  USER_HOLD_REL_ENABLE_VALUE USER_HOLD_TIME_MASK USER_HOLD_TIME_SHIFT USER_REL_TIME_MASK USER_REL_TIME_SHIFT
  GUARD_BAND_OVERRUN_CNT_INC_OVERRIDE HOLD_REL_WINDOW_OVERRIDE HOLD_TIME_OVERRIDE REL_TIME_OVERRIDE
  HOLD_REL_ENABLE_STS HOLD_TIME_STS_MASK HOLD_TIME_STS_SHIFT REL_TIME_STS_MASK REL_TIME_STS_SHIFT PMAC_HOLD_REQ_STS].

(** The settings of preemption as they fit the register. *)
Definition preempt_fits (c : preempt_ctrl_sts) : Prop :=
  0 <= verify_timer_value c < 2 ^ 7 /\ 0 <= additional_frag_size c < 2 ^ 2 /\ 0 <= disable_preemp_verify c < 2 ^ 1.

(** Preemption: the control that was set is the one the status shows, the status bits of the core stay as they
    were, and enabling is read back too. *)
Theorem preemption_roundtrip c en d : preempt_fits c ->
  match fst (axienet_preemption_sts true (snd (axienet_preemption (Some en) (snd (axienet_preemption_ctrl (Some c) d))))),
        fst (axienet_preemption_sts true d) with
  | (_, Some after), (_, Some before) =>
      verify_timer_value (pctrl after) = verify_timer_value c
      /\ additional_frag_size (pctrl after) = additional_frag_size c
      /\ disable_preemp_verify (pctrl after) = disable_preemp_verify c
      /\ tx_preemp_sts (pctrl after) = tx_preemp_sts (pctrl before) /\ mac_tx_verify_sts (pctrl after) = mac_tx_verify_sts (pctrl before)
      /\ preemp_en after = slice en 0 1 /\ preemp_sup after = preemp_sup before
  | _, _ => False
  end.
Proof.
  intros (Hv & Ha & Hd). unfold axienet_preemption_sts, axienet_preemption, axienet_preemption_ctrl, ctrl_word. run.
  cbn [preemp_en preemp_sup pctrl verify_timer_value additional_frag_size disable_preemp_verify tx_preemp_sts mac_tx_verify_sts].
  masks. rewrite !truthy_slice by lia. change (BIT 0) with 1. unfold BIT. repeat split; slices; done.
Qed.

(** The four fields of the word after each part of the request. *)
Ltac part := masks; unfold BIT; repeat case_if; repeat split; slices; done.
Lemma window_fields data v :
  slice (window_word data v) 31 1 = (if truthy (prog_set data &&& QBU_WINDOW) then b2z (hold_rel_window (prog_user data)) else slice v 31 1)
  /\ slice (window_word data v) 3 1 = slice v 3 1 /\ slice (window_word data v) 16 9 = slice v 16 9 /\ slice (window_word data v) 8 6 = slice v 8 6.
Proof. unfold window_word. part. Qed.
Lemma guard_fields data v :
  slice (guard_word data v) 3 1 = (if truthy (prog_set data &&& QBU_GUARD_BAND) then b2z (guard_band (prog_user data)) else slice v 3 1)
  /\ slice (guard_word data v) 31 1 = slice v 31 1 /\ slice (guard_word data v) 16 9 = slice v 16 9 /\ slice (guard_word data v) 8 6 = slice v 8 6.
Proof. unfold guard_word. part. Qed.
Lemma hold_fields data v : 0 <= user_hold_time (prog_user data) < 2 ^ 9 ->
  slice (hold_word data v) 16 9 = (if truthy (prog_set data &&& QBU_HOLD_TIME)
    then (if hold_time_override (prog_user data) then user_hold_time (prog_user data) else 0) else slice v 16 9)
  /\ slice (hold_word data v) 31 1 = slice v 31 1 /\ slice (hold_word data v) 3 1 = slice v 3 1 /\ slice (hold_word data v) 8 6 = slice v 8 6.
Proof. intros. unfold hold_word. part. Qed.
Lemma release_fields data v : 0 <= user_rel_time (prog_user data) < 2 ^ 6 ->
  slice (release_word data v) 8 6 = (if truthy (prog_set data &&& QBU_REL_TIME)
    then (if rel_time_override (prog_user data) then user_rel_time (prog_user data) else 0) else slice v 8 6)
  /\ slice (release_word data v) 31 1 = slice v 31 1 /\ slice (release_word data v) 3 1 = slice v 3 1 /\ slice (release_word data v) 16 9 = slice v 16 9.
Proof. intros. unfold release_word. part. Qed.

(** An override changes what the request names and nothing else. *)
Lemma override_roundtrip stack data d :
  0 <= user_hold_time (prog_user data) < 2 ^ 9 -> 0 <= user_rel_time (prog_user data) < 2 ^ 6 ->
  match fst (axienet_qbu_sts stack true (snd (axienet_qbu_user_override (Some data) d))), fst (axienet_qbu_sts stack true d) with
  | (_, Some after), (_, Some before) =>
      let u := prog_user data in
      hold_rel_window (st_prog after) = (if truthy (prog_set data &&& QBU_WINDOW) then hold_rel_window u else hold_rel_window (st_prog before))
      /\ guard_band (st_prog after) = (if truthy (prog_set data &&& QBU_GUARD_BAND) then guard_band u else guard_band (st_prog before))
      /\ user_hold_time (st_prog after)
         = (if truthy (prog_set data &&& QBU_HOLD_TIME) then (if hold_time_override u then user_hold_time u else 0) else user_hold_time (st_prog before))
      /\ user_rel_time (st_prog after)
         = (if truthy (prog_set data &&& QBU_REL_TIME) then (if rel_time_override u then user_rel_time u else 0) else user_rel_time (st_prog before))
      /\ st_core after = st_core before
  | _, _ => False
  end.
Proof.
  intros Hh Hr. unfold axienet_qbu_sts, axienet_qbu_user_override. run. cbn [st_prog st_core hold_rel_window guard_band user_hold_time user_rel_time].
  unfold override_word. masks. rewrite !truthy_slice by lia. as_slices. repeat (rewrite slice_u32 by lia).
  destruct (release_fields data (hold_word data (guard_word data (window_word data (u32 (reg d QBU_USER_OVERRIDE_REG))))) Hr) as (-> & -> & -> & ->).
  destruct (hold_fields data (guard_word data (window_word data (u32 (reg d QBU_USER_OVERRIDE_REG)))) Hh) as (-> & -> & -> & ->).
  destruct (guard_fields data (window_word data (u32 (reg d QBU_USER_OVERRIDE_REG)))) as (-> & -> & -> & ->).
  destruct (window_fields data (u32 (reg d QBU_USER_OVERRIDE_REG))) as (-> & -> & -> & ->).
  repeat (rewrite slice_u32 by lia).
  repeat split; repeat case_if; by rewrite ?truthy_b2z.
Qed.
End PreemptLaws.

Lemma preemption_roundtrip_witness :
  match fst (axienet_preemption_sts (H := memory_device) true
    (snd (axienet_preemption (Some 1) (snd (axienet_preemption_ctrl (Some (mkPreempt 0 0 10 3 1)) (fun _ => 0xFFFFFFFF)))))) with
  | (_, Some after) => verify_timer_value (pctrl after) = 10
  | _ => False
  end.
Proof.
  exact (proj1 (preemption_roundtrip (plain := fun _ => true) eq_refl (mkPreempt 0 0 10 3 1) 1 (fun _ => 0xFFFFFFFF)
    ltac:(repeat split; vm_compute; congruence))).
Defined.
