(* ===== verification/TsnPtp.v ===== *)
(** * Packets of the precision time protocol

    Models src/driver/xilinx/xilinx_tsn_ptp_xmit.c: frames go to one of eight transmit slots of the device and
    come from a ring of sixteen receive slots, each with a time stamp. [ptp] is a program over the port's data
    ([axienet_local]), what it hands to the network stack ([event]) and the device; [None] is a crash of the
    kernel. Functions of the kernel are the parameter [Kernel]. The host is little endian and the buffers of
    packets are linear. *)
From S2P Require Import Prelude Bytes TsnRegs.

Definition ETH_HLEN : nat := 14.
Definition PTP_HW_TSTAMP_SIZE : Z := 8.
Definition PTP_RX_HWBUF_SIZE : Z := 256.
Definition PTP_RX_FRAME_SIZE : nat := 252.
Definition PTP_HW_TSTAMP_OFFSET : Z := PTP_RX_HWBUF_SIZE - PTP_HW_TSTAMP_SIZE.
Definition PTP_MSG_TYPE_MASK : Z := BIT 3.
Definition PTP_TYPE_SYNC : Z := 0x0.
Definition PTP_TX_CONTROL_OFFSET : Z := 0x00012000.
Definition PTP_RX_CONTROL_OFFSET : Z := 0x00012004.
Definition PTP_RX_BASE_OFFSET : Z := 0x00010000.
Definition PTP_RX_PACKET_FIELD_MASK : Z := 0x00000F00.
Definition PTP_TX_BUFFER_OFFSET (index : Z) : Z := 0x00011000 + index * 0x100.
Definition PTP_TX_CMD_FIELD_LEN : Z := 8.
Definition PTP_TX_CMD_1STEP_SHIFT : Z := BIT 16.
Definition PTP_TX_BUFFER_CMD2_FIELD : Z := 0x4.
Definition PTP_TX_FRAME_WAITING_MASK : Z := 0x0000ff00.
Definition PTP_TX_FRAME_WAITING_SHIFT : Z := 8.
Definition PTP_TX_PACKET_FIELD_MASK : Z := 0x00070000.
Definition PTP_TX_PACKET_FIELD_SHIFT : Z := 16.
Definition PTP_TOD_FIELD_OFFSET : Z := 48.

(** Constants of the kernel. *)
Definition NETDEV_TX_OK : Z := 0.
Definition NETDEV_TX_BUSY : Z := 16.
Definition IRQ_HANDLED : Z := 1.
Definition HWTSTAMP_TX_ONESTEP_SYNC : Z := 2.
Definition SKBTX_HW_TSTAMP : Z := BIT 0.
Definition SKBTX_IN_PROGRESS : Z := BIT 2.
Definition CHECKSUM_UNNECESSARY : Z := 1.

(** What the module uses of a packet: its bytes, the flags for time stamps, the first byte of the driver's
    own area, and what is set for the stack. *)
Record sk_buff := mkSkb {
  skb_data : list Z; tx_flags : Z; cb0 : Z; protocol : Z; ip_summed : Z; hwtstamp : Z }.
Definition skb_len (skb : sk_buff) : Z := Z.of_nat (length (skb_data skb)).

(** A byte of a packet; what is past its end reads as 0. *)
Definition byte_at (n : nat) (data : list Z) : Z := default 0 (data !! n).

(** The functions of the kernel. [netdev_alloc_skb size n] is the buffer, with its contents, that the [n]th
    allocation gives. *)
Class Kernel := {
  fls : Z -> Z;
  ktime_set : Z -> Z -> Z;
  eth_type_trans : sk_buff -> Z * sk_buff;
  netdev_alloc_skb : nat -> nat -> option (list Z) }.

Class KernelLaws `{Kernel} := {
  fls_0 : fls 0 = 0;
  fls_range x : 0 < x < 2 ^ 32 -> 0 < fls x /\ 2 ^ (fls x - 1) <= x < 2 ^ fls x;
  ktime_set_ns sec ns : 0 <= sec < 2 ^ 32 -> 0 <= ns < 2 ^ 32 -> ktime_set sec ns = sec * 1000000000 + ns;
  alloc_room size n buf : netdev_alloc_skb size n = Some buf -> (size <= length buf)%nat }.

(** The port's data, and of its [net_device] the statistics and whether its queue is stopped. *)
Record axienet_local := mkLocal {
  ptp_ts_type : Z; ptp_rx_hw_pointer : Z; ptp_rx_sw_pointer : Z; ptp_txq : list sk_buff;
  queue_stopped : bool; rx_packets : Z; rx_bytes : Z; tx_packets : Z; tx_bytes : Z; allocs : nat }.

Definition set_rx_hw v l := mkLocal (ptp_ts_type l) v (ptp_rx_sw_pointer l) (ptp_txq l) (queue_stopped l)
  (rx_packets l) (rx_bytes l) (tx_packets l) (tx_bytes l) (allocs l).
Definition set_rx_sw v l := mkLocal (ptp_ts_type l) (ptp_rx_hw_pointer l) v (ptp_txq l) (queue_stopped l)
  (rx_packets l) (rx_bytes l) (tx_packets l) (tx_bytes l) (allocs l).
Definition set_txq q l := mkLocal (ptp_ts_type l) (ptp_rx_hw_pointer l) (ptp_rx_sw_pointer l) q (queue_stopped l)
  (rx_packets l) (rx_bytes l) (tx_packets l) (tx_bytes l) (allocs l).
Definition set_stopped b l := mkLocal (ptp_ts_type l) (ptp_rx_hw_pointer l) (ptp_rx_sw_pointer l) (ptp_txq l) b
  (rx_packets l) (rx_bytes l) (tx_packets l) (tx_bytes l) (allocs l).
Definition set_allocs n l := mkLocal (ptp_ts_type l) (ptp_rx_hw_pointer l) (ptp_rx_sw_pointer l) (ptp_txq l) (queue_stopped l)
  (rx_packets l) (rx_bytes l) (tx_packets l) (tx_bytes l) n.
Definition count_rx p b l := mkLocal (ptp_ts_type l) (ptp_rx_hw_pointer l) (ptp_rx_sw_pointer l) (ptp_txq l) (queue_stopped l)
  (u64 (rx_packets l + p)) (u64 (rx_bytes l + b)) (tx_packets l) (tx_bytes l) (allocs l).
Definition count_tx p b l := mkLocal (ptp_ts_type l) (ptp_rx_hw_pointer l) (ptp_rx_sw_pointer l) (ptp_txq l) (queue_stopped l)
  (rx_packets l) (rx_bytes l) (u64 (tx_packets l + p)) (u64 (tx_bytes l + b)) (allocs l).

(** What the module hands over: packets to the stack, time stamps of sent packets, packets it is done with. *)
Inductive event :=
| Software_tstamp (skb : sk_buff) | Netif_rx (skb : sk_buff) | Tstamp_tx (skb : sk_buff) (stamp : Z)
| Free (skb : sk_buff) | Schedule_tstamp_work.

(** The four bytes of a word in memory. *)
Definition word_bytes (w : Z) : list Z := rev (be_bytes 4 w).
Definition bytes_word (l : list Z) : Z := be_value (rev l).

Section Ptp.
Context `{Device} `{Kernel}.

Fixpoint memcpy_fromio_32 (offset : Z) (len : nat) : io (list Z) :=
  match len with
  | O => mret []
  | S (S (S (S len'))) =>
      w ← axienet_ior offset; rest ← memcpy_fromio_32 (offset + 4) len'; mret (word_bytes w ++ rest)
  | _ => leftover ← axienet_ior offset; mret (take len (word_bytes leftover))
  end.

Fixpoint memcpy_toio_32 (offset : Z) (data : list Z) : io unit :=
  match data with
  | [] => mret tt
  | b0 :: b1 :: b2 :: b3 :: data' => axienet_iow offset (bytes_word [b0; b1; b2; b3]);; memcpy_toio_32 (offset + 4) data'
  | _ => axienet_iow offset (bytes_word data)
  end.

Record ptp_state := mkState { lp : axienet_local; trace : list event; hw : dev }.
Definition ptp (A : Type) : Type := ptp_state -> option (A * ptp_state).
#[global] Instance ptp_ret : MRet ptp := fun A a s => Some (a, s).
#[global] Instance ptp_bind : MBind ptp := fun A B f m s => match m s with Some (a, s') => f a s' | None => None end.

Definition oops {A} : ptp A := fun s => None.
Definition on_hw {A} (m : io A) : ptp A := fun s => let '(a, d) := m (hw s) in Some (a, mkState (lp s) (trace s) d).
Definition field_of {A} (f : axienet_local -> A) : ptp A := fun s => Some (f (lp s), s).
Definition modify (f : axienet_local -> axienet_local) : ptp unit := fun s => Some (tt, mkState (f (lp s)) (trace s) (hw s)).
Definition emit (e : event) : ptp unit := fun s => Some (tt, mkState (lp s) (trace s ++ [e]) (hw s)).

Definition is_sync (skb : sk_buff) : bool := (byte_at ETH_HLEN (skb_data skb) &&& 0xf) =? PTP_TYPE_SYNC.

Definition queue_tail (skb : sk_buff) : ptp unit := modify (fun l => set_txq (ptp_txq l ++ [skb]) l).

(** The packet as it is queued for its time stamp. *)
Definition pending (free_index : Z) (skb : sk_buff) : sk_buff :=
  mkSkb (skb_data skb)
    (if truthy (tx_flags skb &&& SKBTX_HW_TSTAMP) then tx_flags skb ||| SKBTX_IN_PROGRESS else tx_flags skb)
    free_index (protocol skb) (ip_summed skb) (hwtstamp skb).

Definition axienet_ptp_xmit (skb : sk_buff) : ptp Z :=
  c ← on_hw (axienet_ior PTP_TX_CONTROL_OFFSET);
  let tx_frame_waiting := u8 ((c &&& PTP_TX_FRAME_WAITING_MASK) >>> PTP_TX_FRAME_WAITING_SHIFT) in
  if truthy (tx_frame_waiting &&& (1 <<< 7)) then
    modify (fun l => if queue_stopped l then l else set_stopped true l);; mret NETDEV_TX_BUSY
  else
    let free_index := u8 (fls tx_frame_waiting) in
    ptp_ts_type ← field_of ptp_ts_type;
    let one_step := (ptp_ts_type =? HWTSTAMP_TX_ONESTEP_SYNC) && is_sync skb in
    let cmd1_field := if one_step then PTP_TX_CMD_1STEP_SHIFT else 0 in
    let cmd2_field := if one_step then PTP_TOD_FIELD_OFFSET else 0 in
    let cmd1_field := u32 (cmd1_field ||| skb_len skb) in
    on_hw (axienet_iow (PTP_TX_BUFFER_OFFSET free_index) cmd1_field);;
    on_hw (axienet_iow (PTP_TX_BUFFER_OFFSET free_index + PTP_TX_BUFFER_CMD2_FIELD) cmd2_field);;
    on_hw (memcpy_toio_32 (PTP_TX_BUFFER_OFFSET free_index + PTP_TX_CMD_FIELD_LEN) (skb_data skb));;
    on_hw (axienet_iow PTP_TX_CONTROL_OFFSET (1 <<< free_index));;
    (if one_step then mret tt
     else queue_tail (pending free_index skb);; emit (Software_tstamp (pending free_index skb)));;
    mret NETDEV_TX_OK.

Definition axienet_set_timestamp (offset : Z) : io Z :=
  captured_ns ← axienet_ior (offset + 4);
  captured_sec ← axienet_ior offset;
  mret (ktime_set captured_sec captured_ns).

(** [skb_put] on an empty packet of the buffer [buf]: past its end the kernel panics. *)
Definition skb_put (buf : list Z) (len : nat) : ptp (list Z) :=
  if (len <=? length buf)%nat then mret (take len buf) else oops.

(** One round of the receive loop. *)
Definition ptp_recv_frame (bytes packets : Z) : ptp (Z * Z) :=
  n ← field_of allocs; modify (set_allocs (S n));;
  modify (fun l => set_rx_sw (u8 (ptp_rx_sw_pointer l + 1)) l);;
  sw ← field_of ptp_rx_sw_pointer;
  let ptp_frame_base_addr := PTP_RX_BASE_OFFSET + (sw &&& 0xf) * PTP_RX_HWBUF_SIZE in
  match netdev_alloc_skb PTP_RX_FRAME_SIZE n with
  | None => oops
  | Some buf =>
      frame ← on_hw (memcpy_fromio_32 ptp_frame_base_addr PTP_RX_FRAME_SIZE);
      let buf := frame ++ drop PTP_RX_FRAME_SIZE buf in
      let msg_type := byte_at ETH_HLEN buf &&& 0xf in
      let msg_len := get16 (ETH_HLEN + 2) buf in
      data ← skb_put buf (Z.to_nat msg_len + ETH_HLEN);
      let bytes := u32 (bytes + Z.of_nat (length data)) in
      let packets := u32 (packets + 1) in
      let '(proto, skb) := eth_type_trans (mkSkb data 0 0 0 0 0) in
      stamp ← (if truthy (msg_type &&& PTP_MSG_TYPE_MASK) then mret (hwtstamp skb)
               else on_hw (axienet_set_timestamp (ptp_frame_base_addr + PTP_HW_TSTAMP_OFFSET)));
      emit (Netif_rx (mkSkb (skb_data skb) (tx_flags skb) (cb0 skb) proto CHECKSUM_UNNECESSARY stamp));;
      mret (bytes, packets)
  end.

Fixpoint ptp_recv_loop (fuel : nat) (bytes packets : Z) : ptp (Z * Z) :=
  match fuel with
  | O => mret (bytes, packets)
  | S fuel' =>
      hwp ← field_of ptp_rx_hw_pointer; sw ← field_of ptp_rx_sw_pointer;
      if (hwp &&& 0xf) =? (sw &&& 0xf) then mret (bytes, packets)
      else '(bytes, packets) ← ptp_recv_frame bytes packets; ptp_recv_loop fuel' bytes packets
  end.

(** There are sixteen slots. *)
Definition axienet_ptp_recv : ptp unit :=
  '(bytes, packets) ← ptp_recv_loop 16 0 0;
  modify (count_rx packets bytes).

Definition axienet_ptp_rx_irq : ptp Z :=
  c ← on_hw (axienet_ior PTP_RX_CONTROL_OFFSET);
  modify (set_rx_hw (u8 ((c &&& PTP_RX_PACKET_FIELD_MASK) >>> 8)));;
  axienet_ptp_recv;;
  mret IRQ_HANDLED.

(** The loop of the time stamp work on the queue [q]: what is left of it, bytes and packets. *)
Fixpoint tx_tstamp_loop (tx_packet : Z) (q : list sk_buff) (bytes packets : Z) : ptp (list sk_buff * Z * Z) :=
  match q with
  | [] => mret ([], bytes, packets)
  | skb :: q =>
      let index := u8 (cb0 skb) in
      if index >? tx_packet then mret (q ++ [skb], bytes, packets)
      else
        let ts_reg_offset := PTP_TX_BUFFER_OFFSET index + PTP_HW_TSTAMP_OFFSET in
        (if truthy (tx_flags skb &&& SKBTX_IN_PROGRESS)
         then stamp ← on_hw (axienet_set_timestamp ts_reg_offset); emit (Tstamp_tx skb stamp) else mret tt);;
        emit (Free skb);;
        tx_tstamp_loop tx_packet q (u32 (bytes + skb_len skb)) (u32 (packets + 1))
  end.

Definition axienet_tx_tstamp : ptp unit :=
  c ← on_hw (axienet_ior PTP_TX_CONTROL_OFFSET);
  let tx_packet := u8 ((c &&& PTP_TX_PACKET_FIELD_MASK) >>> PTP_TX_PACKET_FIELD_SHIFT) in
  q ← field_of ptp_txq;
  '(q, bytes, packets) ← tx_tstamp_loop tx_packet q 0 0;
  modify (set_txq q);;
  modify (count_tx packets bytes).

Definition axienet_ptp_tx_irq : ptp Z :=
  on_hw (axienet_ior PTP_TX_CONTROL_OFFSET);;
  emit Schedule_tstamp_work;;
  modify (set_stopped false);;
  mret IRQ_HANDLED.
End Ptp.

(** ** Running the programs *)
Section Run.
Context `{Device}.

Lemma bind_ptp {A B} (m : ptp A) (f : A -> ptp B) s : (m ≫= f) s = match m s with Some (a, s') => f a s' | None => None end.
Proof. done. Qed.
Lemma ret_ptp {A} (a : A) s : mret (M := ptp) a s = Some (a, s).
Proof. done. Qed.
Lemma run_on_hw {A} (m : io A) l t d : on_hw m (mkState l t d) = Some (fst (m d), mkState l t (snd (m d))).
Proof. unfold on_hw. cbn [hw lp trace]. by destruct (m d). Qed.
Lemma run_field_of {A} (f : axienet_local -> A) l t d : field_of f (mkState l t d) = Some (f l, mkState l t d).
Proof. done. Qed.
Lemma run_modify f l t d : modify f (mkState l t d) = Some (tt, mkState (f l) t d).
Proof. done. Qed.
Lemma run_emit e l t d : emit e (mkState l t d) = Some (tt, mkState l (t ++ [e]) d).
Proof. done. Qed.
End Run.

Ltac run_ptp :=
  repeat first
    [ rewrite bind_ptp | rewrite ret_ptp | rewrite run_on_hw | rewrite run_field_of | rewrite run_modify | rewrite run_emit
    | progress cbv beta iota zeta | progress cbn [fst snd] ].

(** ** Words and bytes *)
Lemma word_bytes_length w : length (word_bytes w) = 4%nat.
Proof. unfold word_bytes. by rewrite length_rev, be_bytes_length. Qed.

Lemma bytes_word_range l : bytes l -> (length l <= 4)%nat -> 0 <= bytes_word l < 4294967296.
Proof.
  intros Hl Hn. unfold bytes_word. pose proof (be_value_range (rev l) ltac:(by apply Forall_rev)) as Hr.
  rewrite length_rev in Hr. split; [lia|]. apply Z.lt_le_trans with (256 ^ Z.of_nat (length l)); [lia|].
  transitivity (256 ^ 4); [apply Z.pow_le_mono_r; lia|]. done.
Qed.

Lemma bytes_word_pad l n : bytes_word (l ++ repeat 0 n) = bytes_word l.
Proof.
  unfold bytes_word. rewrite rev_app_distr, rev_repeat. induction n as [|n IH]; [done|].
  cbn [repeat app]. rewrite be_value_cons, IH. lia.
Qed.

(** The bytes of a word that was put together from bytes, the last ones of a buffer or four of them. *)
Lemma take_word_bytes l : bytes l -> (length l <= 4)%nat -> take (length l) (word_bytes (u32 (bytes_word l))) = l.
Proof.
  intros Hl Hn. rewrite u32_small by (by apply bytes_word_range).
  rewrite <- (bytes_word_pad l (4 - length l)). unfold bytes_word, word_bytes.
  set (p := l ++ repeat 0 (4 - length l)).
  assert (Hp : length (rev p) = 4%nat) by (unfold p; rewrite length_rev, length_app, repeat_length; lia).
  rewrite <- Hp at 1. rewrite be_bytes_value, rev_involutive.
  - unfold p. by rewrite take_app_length.
  - apply Forall_rev. unfold p. apply Forall_app. split; [done|].
    generalize (4 - length l)%nat. intros n. induction n; cbn; constructor; done.
Qed.

(** Induction on a buffer by its words. *)
Lemma by_words (P : list Z -> Prop) :
  P [] -> (forall l, (0 < length l < 4)%nat -> P l) ->
  (forall b0 b1 b2 b3 l, P l -> P (b0 :: b1 :: b2 :: b3 :: l)) -> forall l, P l.
Proof.
  intros H0 Hs H4 l. remember (length l) as n eqn:En. revert l En.
  induction n as [n IH] using (well_founded_ind lt_wf). intros l ->.
  destruct l as [|b0 [|b1 [|b2 [|b3 l]]]]; [done|apply Hs; cbn; lia..|].
  apply H4. apply (IH (length l)); cbn; lia.
Qed.

Section Laws.
Context `{RegLaws} `{Kernel}.

Definition plain_range (o : Z) (n : nat) : Prop := forall p, o <= p < o + Z.of_nat n -> plain p = true.

Lemma toio_short o l d : (0 < length l < 4)%nat -> memcpy_toio_32 o l d = (tt, dev_wr o (u32 (bytes_word l)) d).
Proof. intros Hl. by destruct l as [|b0 [|b1 [|b2 [|b3 l]]]]; cbn in Hl; try lia. Qed.

Lemma fromio_short o n d : plain o = true -> (0 < n < 4)%nat ->
  memcpy_fromio_32 o n d = (take n (word_bytes (u32 (reg d o))), d).
Proof.
  intros Ho Hn. destruct n as [|[|[|[|n]]]]; try lia; cbn [memcpy_fromio_32]; by rewrite bind_io, run_ior, ret_io.
Qed.

(** Writing a buffer changes no other register. *)
Lemma toio_other l : forall o d p, plain_range o (length l) -> plain p = true ->
  p < o \/ o + Z.of_nat (length l) <= p -> reg (snd (memcpy_toio_32 o l d)) p = reg d p.
Proof.
  induction l as [|l Hl|b0 b1 b2 b3 l IH] using by_words; intros o d p Hr Hp Hd; [done|..].
  - rewrite toio_short by done. cbn [snd]. rewrite reg_wr by (first [done | apply Hr; lia]).
    destruct (Z.eqb_spec p o); [lia|done].
  - cbn [memcpy_toio_32]. rewrite bind_io, run_iow. cbn [length] in *.
    rewrite IH; [|intros q Hq; apply Hr; lia|done|lia]. rewrite reg_wr by (first [done | apply Hr; lia]).
    destruct (Z.eqb_spec p o); [lia|done].
Qed.

(** Reading a buffer changes nothing, and depends on its registers only. *)
Lemma fromio_state n : forall o d, plain_range o n -> snd (memcpy_fromio_32 o n d) = d.
Proof.
  induction n as [n IH] using (well_founded_ind lt_wf). intros o d Hr.
  destruct n as [|[|[|[|n]]]]; [done|rewrite fromio_short; [done|apply Hr; lia|lia]..|].
  cbn [memcpy_fromio_32]. rewrite bind_io, run_ior by (apply Hr; lia).
  rewrite bind_io. destruct (memcpy_fromio_32 (o + 4) n d) as [r d'] eqn:E. rewrite ret_io. cbn [snd].
  specialize (IH n ltac:(lia) (o + 4) d ltac:(intros q Hq; apply Hr; lia)). by rewrite E in IH.
Qed.

Lemma fromio_length n : forall o d, length (fst (memcpy_fromio_32 o n d)) = n.
Proof.
  induction n as [n IH] using (well_founded_ind lt_wf). intros o d.
  destruct n as [|[|[|[|n]]]]; [done|cbn [memcpy_fromio_32]; rewrite bind_io; destruct (axienet_ior o d); cbn [fst];
    rewrite ret_io; cbn [fst]; rewrite length_take, word_bytes_length; lia..|].
  cbn [memcpy_fromio_32]. rewrite bind_io. destruct (axienet_ior o d) as [w d1]. rewrite bind_io.
  destruct (memcpy_fromio_32 (o + 4) n d1) as [r d'] eqn:E. rewrite ret_io. cbn [fst].
  rewrite length_app, word_bytes_length. specialize (IH n ltac:(lia) (o + 4) d1). rewrite E in IH. cbn in IH. lia.
Qed.

Lemma fromio_run o n d : plain_range o n -> memcpy_fromio_32 o n d = (fst (memcpy_fromio_32 o n d), d).
Proof. intros Hr. rewrite <- (fromio_state n o d Hr) at 3. apply surjective_pairing. Qed.

Lemma fromio_agree n : forall o d d', plain_range o n -> (forall p, o <= p < o + Z.of_nat n -> reg d p = reg d' p) ->
  fst (memcpy_fromio_32 o n d) = fst (memcpy_fromio_32 o n d').
Proof.
  induction n as [n IH] using (well_founded_ind lt_wf). intros o d d' Hr Hd.
  destruct n as [|[|[|[|n]]]]; [done|rewrite !fromio_short by (first [apply Hr; lia|lia]); rewrite Hd by lia; done..|].
  cbn [memcpy_fromio_32]. rewrite !bind_io, !run_ior by (apply Hr; lia). rewrite !bind_io, Hd by lia.
  assert (Hr' : plain_range (o + 4) n) by (intros q Hq; apply Hr; lia).
  rewrite (fromio_run _ n d), (fromio_run _ n d') by done. rewrite !ret_io. cbn [fst]. f_equal. apply IH; [lia|done|]. intros. apply Hd. lia.
Qed.

(** A buffer is read back as it was written, whatever its length. *)
Lemma io_buffer_roundtrip l : forall o d, bytes l -> plain_range o (length l) ->
  memcpy_fromio_32 o (length l) (snd (memcpy_toio_32 o l d)) = (l, snd (memcpy_toio_32 o l d)).
Proof.
  induction l as [|l Hl|b0 b1 b2 b3 l IH] using by_words; intros o d Hb Hr; [done|..].
  - rewrite fromio_short by (first [apply Hr; lia|lia]). rewrite toio_short by done. cbn [snd].
    rewrite reg_wr by (apply Hr; lia). rewrite Z.eqb_refl, u32_idemp, take_word_bytes by (done || lia). done.
  - cbn [length] in Hr. assert (Hr' : plain_range (o + 4) (length l)) by (intros q Hq; apply Hr; lia).
    assert (Ho : plain o = true) by (apply Hr; lia).
    inversion_clear Hb as [|? ? B0 Hb1].
    inversion_clear Hb1 as [|? ? B1 Hb2]. inversion_clear Hb2 as [|? ? B2 Hb3]. inversion_clear Hb3 as [|? ? B3 Hb].
    assert (E4 : word_bytes (u32 (bytes_word [b0; b1; b2; b3])) = [b0; b1; b2; b3]).
    { rewrite <- (take_ge (word_bytes _) 4) by (rewrite word_bytes_length; lia).
      apply (take_word_bytes [b0; b1; b2; b3]); [repeat constructor; apply B0 || apply B1 || apply B2 || apply B3|cbn; lia]. }
    cbn [memcpy_toio_32]. rewrite bind_io, run_iow. set (d1 := dev_wr _ _ d).
    assert (E1 : reg d1 o = u32 (bytes_word [b0; b1; b2; b3])) by (unfold d1; by rewrite reg_wr, Z.eqb_refl).
    specialize (IH (o + 4) d1 Hb Hr').
    assert (E2 : reg (snd (memcpy_toio_32 (o + 4) l d1)) o = reg d1 o) by (apply toio_other; [done|done|lia]).
    revert IH E2. generalize (snd (memcpy_toio_32 (o + 4) l d1)). intros d2 IH E2.
    cbn [length memcpy_fromio_32]. rewrite bind_io, run_ior by done. rewrite bind_io, IH, ret_io, E2, E1, u32_idemp, E4. done.
Qed.

(** ** Sending *)

(** The hardware: its slots keep what is written to them, and reading a control register leaves them. *)
Class PtpLaws := {
  rx_slots_plain o : PTP_RX_BASE_OFFSET <= o < PTP_RX_BASE_OFFSET + 16 * PTP_RX_HWBUF_SIZE -> plain o = true;
  tx_slots_plain o : PTP_TX_BUFFER_OFFSET 0 <= o < PTP_TX_BUFFER_OFFSET 8 -> plain o = true;
  control_keeps o d p : o = PTP_TX_CONTROL_OFFSET \/ o = PTP_RX_CONTROL_OFFSET -> plain p = true ->
    reg (snd (dev_rd o d)) p = reg d p }.

(** The frame [data] is in slot [k], and the rest of the slots as it was. *)
Record in_slot (k : Z) (one_step : bool) (data : list Z) (d d' : dev) : Prop := {
  slot_cmd1 : reg d' (PTP_TX_BUFFER_OFFSET k) = (if one_step then 2 ^ 16 else 0) + Z.of_nat (length data);
  slot_cmd2 : reg d' (PTP_TX_BUFFER_OFFSET k + PTP_TX_BUFFER_CMD2_FIELD) = (if one_step then PTP_TOD_FIELD_OFFSET else 0);
  slot_data : memcpy_fromio_32 (PTP_TX_BUFFER_OFFSET k + PTP_TX_CMD_FIELD_LEN) (length data) d' = (data, d');
  slot_others p : plain p = true -> p < PTP_TX_BUFFER_OFFSET k \/ PTP_TX_BUFFER_OFFSET k + 256 <= p -> reg d' p = reg d p }.

Lemma free_slot `{!KernelLaws} w : 0 <= w < 128 ->
  0 <= fls w < 8 /\ (forall i, fls w <= i -> Z.testbit w i = false) /\ (0 < fls w -> Z.testbit w (fls w - 1) = true).
Proof.
  intros Hw. destruct (Z.eq_dec w 0) as [->|].
  { rewrite fls_0. split; [lia|]. split; [intros; apply Z.bits_0|lia]. }
  destruct (fls_range w ltac:(lia)) as (Hp & Hlo & Hhi).
  assert (fls w - 1 < 7) by (apply (Z.pow_lt_mono_r_iff 2); lia). split; [lia|]. split.
  - intros i Hi. apply (testbit_above w (fls w)); lia.
  - intros _. replace (fls w - 1) with (Z.log2 w); [apply Z.bit_log2; lia|]. apply Z.log2_unique; [lia|].
    replace (Z.succ (fls w - 1)) with (fls w) by lia. lia.
Qed.

Lemma put_in_slot `{!PtpLaws} k (one_step : bool) data d : 0 <= k < 8 -> bytes data -> (length data <= 248)%nat ->
  let d1 := dev_wr (PTP_TX_BUFFER_OFFSET k) (u32 (u32 ((if one_step then PTP_TX_CMD_1STEP_SHIFT else 0) ||| Z.of_nat (length data)))) d in
  let d2 := dev_wr (PTP_TX_BUFFER_OFFSET k + PTP_TX_BUFFER_CMD2_FIELD) (u32 (if one_step then PTP_TOD_FIELD_OFFSET else 0)) d1 in
  in_slot k one_step data d (snd (memcpy_toio_32 (PTP_TX_BUFFER_OFFSET k + PTP_TX_CMD_FIELD_LEN) data d2)).
Proof.
  intros Hk Hb Hl d1 d2. assert (Hs : plain_range (PTP_TX_BUFFER_OFFSET k) 256).
  { intros p Hp. apply tx_slots_plain. unfold PTP_TX_BUFFER_OFFSET in *. lia. }
  assert (Hd : plain_range (PTP_TX_BUFFER_OFFSET k + PTP_TX_CMD_FIELD_LEN) (length data)).
  { intros p Hp. apply Hs. unfold PTP_TX_CMD_FIELD_LEN in Hp. lia. }
  assert (P0 : plain (PTP_TX_BUFFER_OFFSET k) = true) by (apply Hs; lia).
  assert (P4 : plain (PTP_TX_BUFFER_OFFSET k + PTP_TX_BUFFER_CMD2_FIELD) = true)
    by (apply Hs; unfold PTP_TX_BUFFER_CMD2_FIELD; lia).
  assert (Eo : forall p, plain p = true -> p < PTP_TX_BUFFER_OFFSET k + PTP_TX_CMD_FIELD_LEN \/ PTP_TX_BUFFER_OFFSET k + 256 <= p ->
    reg (snd (memcpy_toio_32 (PTP_TX_BUFFER_OFFSET k + PTP_TX_CMD_FIELD_LEN) data d2)) p
    = (if p =? PTP_TX_BUFFER_OFFSET k + PTP_TX_BUFFER_CMD2_FIELD then u32 (if one_step then PTP_TOD_FIELD_OFFSET else 0)
       else if p =? PTP_TX_BUFFER_OFFSET k
       then u32 (u32 ((if one_step then PTP_TX_CMD_1STEP_SHIFT else 0) ||| Z.of_nat (length data))) else reg d p)).
  { intros p Hp Hq. rewrite toio_other by (first [done | unfold PTP_TX_CMD_FIELD_LEN in *; lia]). unfold d2, d1.
    by rewrite !reg_wr by done. }
  unfold PTP_TX_CMD_FIELD_LEN, PTP_TX_BUFFER_CMD2_FIELD in *. split; unfold PTP_TX_BUFFER_CMD2_FIELD, PTP_TX_CMD_FIELD_LEN in *.
  - rewrite Eo by (done || lia). destruct (Z.eqb_spec (PTP_TX_BUFFER_OFFSET k) (PTP_TX_BUFFER_OFFSET k + 4)); [lia|].
    rewrite Z.eqb_refl, u32_idemp. destruct one_step; [|by rewrite Z.lor_0_l, u32_small by lia].
    rewrite Z.lor_comm. unfold PTP_TX_CMD_1STEP_SHIFT, BIT. rewrite lor_join, u32_small by lia. lia.
  - rewrite Eo by (done || lia). rewrite Z.eqb_refl. by destruct one_step.
  - by apply io_buffer_roundtrip.
  - intros p Hp Hq. rewrite Eo by (done || lia). destruct (Z.eqb_spec p (PTP_TX_BUFFER_OFFSET k + 4)); [lia|].
    destruct (Z.eqb_spec p (PTP_TX_BUFFER_OFFSET k)); [lia|done].
Qed.

Lemma in_slot_from k one_step data d d0 d' : (forall p, plain p = true -> reg d p = reg d0 p) ->
  in_slot k one_step data d d' -> in_slot k one_step data d0 d'.
Proof. intros He [H1' H2' H3' H4']. split; [done..|]. intros p Hp Hq. by rewrite H4', He. Qed.

(** What the module has to do for a frame: it is written to a slot that is free, as all above it are, and is
    there complete when its transmission starts; unless the hardware puts in the time itself the packet waits
    in the queue for its time stamp. *)
Theorem ptp_xmit_fills_free_slot `{!KernelLaws} `{!PtpLaws} skb l t d c d1 :
  dev_rd PTP_TX_CONTROL_OFFSET d = (c, d1) -> Z.testbit c 15 = false -> bytes (skb_data skb) -> (length (skb_data skb) <= 248)%nat ->
  let one_step := (ptp_ts_type l =? HWTSTAMP_TX_ONESTEP_SYNC) && is_sync skb in
  exists k d2, 0 <= k < 8 /\ (forall i, k <= i < 8 -> Z.testbit c (8 + i) = false) /\ (0 < k -> Z.testbit c (7 + k) = true)
    /\ in_slot k one_step (skb_data skb) d d2
    /\ axienet_ptp_xmit skb (mkState l t d)
       = Some (NETDEV_TX_OK,
               if one_step then mkState l t (dev_wr PTP_TX_CONTROL_OFFSET (2 ^ k) d2)
               else mkState (set_txq (ptp_txq l ++ [pending k skb]) l) (t ++ [Software_tstamp (pending k skb)])
                            (dev_wr PTP_TX_CONTROL_OFFSET (2 ^ k) d2)).
Proof.
  intros Hc H15 Hb Hl one_step.
  set (w := u8 ((u32 c &&& PTP_TX_FRAME_WAITING_MASK) >>> PTP_TX_FRAME_WAITING_SHIFT)).
  assert (Hw : forall i, 0 <= i < 8 -> Z.testbit w i = Z.testbit c (8 + i)).
  { intros i Hi. unfold w. cbv [PTP_TX_FRAME_WAITING_MASK PTP_TX_FRAME_WAITING_SHIFT]. slices.
    rewrite slice_spec by lia. destruct (Z.ltb_spec i 8); [|lia]. by rewrite andb_true_l, Z.add_comm. }
  assert (Hr : 0 <= w < 128).
  { assert (0 <= w < 2 ^ 8) by apply u8_range. apply (bits_bounded w 7); [lia|lia|]. intros i Hi.
    destruct (Z.ltb_spec i 8); [|by apply (testbit_above w 8)]. rewrite Hw by lia. by replace (8 + i) with 15 by lia. }
  destruct (free_slot w Hr) as (Hk & Hf & Htop). set (k := fls w) in *.
  set (d2 := dev_wr (PTP_TX_BUFFER_OFFSET k + PTP_TX_BUFFER_CMD2_FIELD) (u32 (if one_step then PTP_TOD_FIELD_OFFSET else 0))
    (dev_wr (PTP_TX_BUFFER_OFFSET k) (u32 (u32 ((if one_step then PTP_TX_CMD_1STEP_SHIFT else 0) ||| skb_len skb))) d1)).
  exists k, (snd (memcpy_toio_32 (PTP_TX_BUFFER_OFFSET k + PTP_TX_CMD_FIELD_LEN) (skb_data skb) d2)).
  split; [done|]. split; [intros i Hi; rewrite <- Hw by lia; apply Hf; lia|].
  split; [intros Hp; replace (7 + k) with (8 + (k - 1)) by lia; rewrite <- Hw by lia; by apply Htop|].
  split.
  - apply (in_slot_from _ _ _ d1); [|by apply put_in_slot].
    intros p Hp. rewrite <- (control_keeps PTP_TX_CONTROL_OFFSET d p) by tauto. by rewrite Hc.
  - assert (Ec : axienet_ior PTP_TX_CONTROL_OFFSET d = (u32 c, d1)) by (unfold axienet_ior; by rewrite Hc).
    unfold axienet_ptp_xmit. run_ptp. rewrite !Ec. cbn [fst snd]. fold w.
    replace (truthy (w &&& (1 <<< 7))) with false by (change (1 <<< 7) with (BIT 7); rewrite truthy_bit, Hw by lia; done).
    run_ptp. fold k. rewrite (u8_small k) by lia. fold one_step. rewrite !run_iow. cbn [fst snd]. fold d2.
    assert (u32 (1 <<< k) = 2 ^ k) as ->.
    { rewrite Z.shiftl_1_l. apply u32_small. split; [lia|]. apply Z.lt_le_trans with (2 ^ 8); [|done]. apply Z.pow_lt_mono_r; lia. }
    destruct one_step; unfold queue_tail; by run_ptp.
Qed.

(** ** Receiving *)

(** Slot [i] of the ring, its frame, and the packet made of the frame [frame] of the slot. *)
Definition rx_slot (i : Z) : Z := PTP_RX_BASE_OFFSET + (i mod 16) * PTP_RX_HWBUF_SIZE.
Definition slot_frame (d : dev) (i : Z) : list Z := fst (memcpy_fromio_32 (rx_slot i) PTP_RX_FRAME_SIZE d).
Definition frame_len (frame : list Z) : nat := Z.to_nat (get16 (ETH_HLEN + 2) frame) + ETH_HLEN.
Definition slot_stamp (d : dev) (base : Z) : Z := ktime_set (u32 (reg d base)) (u32 (reg d (base + 4))).
Definition received (d : dev) (i : Z) (data : list Z) : sk_buff :=
  let '(proto, skb) := eth_type_trans (mkSkb data 0 0 0 0 0) in
  mkSkb (skb_data skb) (tx_flags skb) (cb0 skb) proto CHECKSUM_UNNECESSARY
    (if truthy ((byte_at ETH_HLEN (slot_frame d i) &&& 0xf) &&& PTP_MSG_TYPE_MASK) then hwtstamp skb
     else slot_stamp d (rx_slot i + PTP_HW_TSTAMP_OFFSET)).

Lemma low4 x : u8 x &&& 0xf = x mod 16.
Proof. change 0xf with (Z.ones 4). rewrite Z.land_ones by lia. unfold u8. change (2 ^ 4) with 16. dlia. Qed.

Lemma get16_app off a b : (off + 2 <= length a)%nat -> get16 off (a ++ b) = get16 off a.
Proof. intros Hl. unfold get16, bget. rewrite drop_app_le, take_app_le by (rewrite ?length_drop; lia). done. Qed.

Lemma byte_at_app n a b : (n < length a)%nat -> byte_at n (a ++ b) = byte_at n a.
Proof. intros Hl. unfold byte_at. by rewrite lookup_app_l. Qed.

Lemma set_timestamp_run base d : plain base = true -> plain (base + 4) = true ->
  axienet_set_timestamp base d = (slot_stamp d base, d).
Proof. intros H4 H0'. unfold axienet_set_timestamp. by rewrite bind_io, run_ior, bind_io, run_ior, ret_io. Qed.

Lemma rx_slot_plain `{!PtpLaws} i p : rx_slot i <= p < rx_slot i + PTP_RX_HWBUF_SIZE -> plain p = true.
Proof.
  intros Hp. pose proof (Z.mod_pos_bound i 16 ltac:(lia)).
  apply rx_slots_plain; unfold rx_slot, PTP_RX_HWBUF_SIZE in *; lia.
Qed.

Lemma slot_frame_length d i : length (slot_frame d i) = PTP_RX_FRAME_SIZE.
Proof. apply fromio_length. Qed.

(** One round delivers the frame of the next slot; its length is the one the frame claims. *)
Lemma recv_frame_run `{!PtpLaws} b p l t d buf :
  let i := ptp_rx_sw_pointer l + 1 in
  netdev_alloc_skb PTP_RX_FRAME_SIZE (allocs l) = Some buf ->
  let len := frame_len (slot_frame d i) in
  let data := take len (slot_frame d i ++ drop PTP_RX_FRAME_SIZE buf) in
  ptp_recv_frame b p (mkState l t d)
  = if (len <=? length (slot_frame d i ++ drop PTP_RX_FRAME_SIZE buf))%nat
    then Some ((u32 (b + Z.of_nat (length data)), u32 (p + 1)),
               mkState (set_rx_sw (u8 i) (set_allocs (S (allocs l)) l)) (t ++ [Netif_rx (received d i data)]) d)
    else None.
Proof.
  intros i Ha len data. unfold ptp_recv_frame. run_ptp. cbn [ptp_rx_sw_pointer set_rx_sw set_allocs allocs].
  fold i. rewrite Ha. run_ptp. rewrite low4. fold (rx_slot i). fold (slot_frame d i).
  assert (snd (memcpy_fromio_32 (rx_slot i) PTP_RX_FRAME_SIZE d) = d) as ->.
  { apply fromio_state. intros q Hq. apply (rx_slot_plain i). unfold PTP_RX_HWBUF_SIZE, PTP_RX_FRAME_SIZE in *. lia. }
  pose proof (slot_frame_length d i) as Hsl. rewrite get16_app, byte_at_app by (rewrite Hsl; unfold PTP_RX_FRAME_SIZE, ETH_HLEN; lia).
  fold (frame_len (slot_frame d i)). fold len. unfold skb_put. destruct (_ <=? _)%nat; [|done]. run_ptp.
  fold data. unfold received. destruct (eth_type_trans _) as [proto skb]. destruct (truthy _); run_ptp; [done|].
  rewrite set_timestamp_run.
  2,3: apply (rx_slot_plain i); unfold PTP_HW_TSTAMP_OFFSET, PTP_RX_HWBUF_SIZE, PTP_HW_TSTAMP_SIZE; lia.
  done.
Qed.

Definition delivered (d : dev) (i : Z) : sk_buff := received d i (take (frame_len (slot_frame d i)) (slot_frame d i)).
Definition ring_bytes (d : dev) (ix : list Z) : Z := fold_right (fun i n => Z.of_nat (frame_len (slot_frame d i)) + n) 0 ix.

(** The ring holds [n] frames from slot [z + 1] on, for each of which there is memory and which fit the slots. *)
Record ring_ready (l : axienet_local) (d : dev) (z n : Z) : Prop := {
  ready_at : ptp_rx_sw_pointer l = u8 z;
  ready_count : 0 <= n < 16;
  ready_last : (ptp_rx_hw_pointer l) mod 16 = (z + n) mod 16;
  ready_byte : 0 <= ptp_rx_hw_pointer l < 256;
  ready_memory k : (Z.of_nat k < n) -> exists buf, netdev_alloc_skb PTP_RX_FRAME_SIZE (allocs l + k) = Some buf;
  ready_fits i : z < i <= z + n -> (frame_len (slot_frame d i) <= PTP_RX_FRAME_SIZE)%nat }.

Lemma rx_slot_u8 z : rx_slot (u8 z + 1) = rx_slot (z + 1).
Proof. unfold rx_slot, u8. do 2 f_equal. change (2 ^ 8) with 256. dlia. Qed.

Lemma ring_bytes_bound d z n : 0 <= n -> (forall i, z < i <= z + n -> (frame_len (slot_frame d i) <= PTP_RX_FRAME_SIZE)%nat) ->
  0 <= ring_bytes d (seqZ (z + 1) n) <= 252 * n.
Proof.
  intros Hn. revert z. pattern n. apply natlike_ind; [done| |done]. clear n Hn. intros n Hn IH z Hf.
  rewrite seqZ_cons by lia. cbn [ring_bytes fold_right]. rewrite Z.pred_succ. fold (ring_bytes d (seqZ (Z.succ (z + 1)) n)).
  replace (Z.succ (z + 1)) with ((z + 1) + 1) by lia.
  pose proof (Hf (z + 1) ltac:(lia)). specialize (IH (z + 1) ltac:(intros; apply Hf; lia)).
  unfold PTP_RX_FRAME_SIZE in *. lia.
Qed.

Lemma step_state v w n l : 0 < n ->
  let l1 := set_rx_sw w (set_allocs (S (allocs l)) l) in
  set_rx_sw v (set_allocs (allocs l1 + Z.to_nat (n - 1))%nat l1) = set_rx_sw v (set_allocs (allocs l + Z.to_nat n)%nat l).
Proof. intros Hn l1. destruct l. unfold l1, set_rx_sw, set_allocs. cbn [allocs]. f_equal. lia. Qed.

Lemma recv_loop_run `{!KernelLaws} `{!PtpLaws} fuel : forall n z b p l t d, ring_ready l d z n -> n <= Z.of_nat fuel ->
  0 <= b -> 0 <= p -> b + 252 * n < 4294967296 -> p + n < 4294967296 ->
  ptp_recv_loop fuel b p (mkState l t d)
  = Some ((b + ring_bytes d (seqZ (z + 1) n), p + n),
          mkState (set_rx_sw (u8 (z + n)) (set_allocs (allocs l + Z.to_nat n)%nat l))
                  (t ++ map (fun i => Netif_rx (delivered d i)) (seqZ (z + 1) n)) d).
Proof.
  assert (Hdone : forall l z, ptp_rx_sw_pointer l = u8 z -> set_rx_sw (u8 (z + 0)) (set_allocs (allocs l + Z.to_nat 0)%nat l) = l).
  { intros l z Hsw. rewrite Z.add_0_r, Nat.add_0_r, <- Hsw. by destruct l. }
  induction fuel as [|fuel IH]; intros n z b p l t d [Hsw Hn Hhw Hby Hm Hf] Hfuel Hb Hp Hbn Hpn.
  { assert (n = 0) as -> by lia. cbn [ptp_recv_loop]. run_ptp. rewrite Hdone by done. cbn. by rewrite !Z.add_0_r, app_nil_r. }
  cbn [ptp_recv_loop]. run_ptp. rewrite <- (u8_small _ Hby), Hsw, !low4, Hhw.
  destruct (Z.eqb_spec ((z + n) mod 16) (z mod 16)) as [E|E].
  { assert (n = 0) as -> by dlia. run_ptp. rewrite Hdone by done. cbn. by rewrite !Z.add_0_r, app_nil_r. }
  assert (0 < n) by (destruct (Z.eq_dec n 0) as [->|]; [by rewrite Z.add_0_r in E|lia]).
  run_ptp. destruct (Hm 0%nat ltac:(lia)) as [buf Ha]. rewrite Nat.add_0_r in Ha.
  rewrite (recv_frame_run _ _ _ _ _ buf Ha), Hsw.
  assert (Es : slot_frame d (u8 z + 1) = slot_frame d (z + 1)) by (unfold slot_frame; by rewrite rx_slot_u8).
  assert (Er : forall data, received d (u8 z + 1) data = received d (z + 1) data) by (intros; unfold received; by rewrite Es, rx_slot_u8).
  rewrite Es, Er. pose proof (Hf (z + 1) ltac:(lia)) as Hlen. pose proof (slot_frame_length d (z + 1)) as Hsl.
  rewrite take_app_le by lia. destruct (Nat.leb_spec (frame_len (slot_frame d (z + 1)))
    (length (slot_frame d (z + 1) ++ drop PTP_RX_FRAME_SIZE buf))); [|rewrite length_app in *; lia].
  fold (delivered d (z + 1)). rewrite length_take, Hsl, Nat.min_l by done.
  set (len := frame_len (slot_frame d (z + 1))) in *. unfold PTP_RX_FRAME_SIZE in Hlen. rewrite !u32_small by lia.
  rewrite (IH (n - 1) (z + 1)).
  - rewrite (seqZ_cons (z + 1) n) by lia. cbn [ring_bytes fold_right map]. fold len.
    replace (Z.succ (z + 1)) with (z + 1 + 1) by lia. replace (Z.pred n) with (n - 1) by lia.
    fold (ring_bytes d (seqZ (z + 1 + 1) (n - 1))). rewrite <- app_assoc. cbn [app].
    replace (z + 1 + (n - 1)) with (z + n) by lia.
    rewrite Z.add_assoc. replace (p + 1 + (n - 1)) with (p + n) by lia.
    by rewrite step_state.
  - split; cbn [set_rx_sw set_allocs ptp_rx_sw_pointer ptp_rx_hw_pointer allocs].
    + unfold u8. change (2 ^ 8) with 256. dlia.
    + lia.
    + rewrite Hhw. f_equal. lia.
    + exact Hby.
    + intros k Hk. replace (S (allocs l) + k)%nat with (allocs l + S k)%nat by lia. apply Hm. lia.
    + intros i Hi. apply Hf. lia.
  - lia.
  - lia.
  - lia.
  - lia.
  - lia.
Qed.

(** C29: The receive interrupt empties the ring, when there is memory for every frame and none is longer than the
    252 bytes of its slot before the time stamp: every frame up to the slot the device names is given to the stack
    once and in order, event messages with the time stamp of their slot, and the loop ends with the two pointers
    together. (The driver does not compare the length the slot names with the memory, ptp_rx_length_unchecked.) *)
Theorem ptp_rx_irq_drains_ring `{!KernelLaws} `{!PtpLaws} l t d c d1 z n :
  dev_rd PTP_RX_CONTROL_OFFSET d = (c, d1) ->
  let l0 := set_rx_hw (slice c 8 4) l in
  ring_ready l0 d1 z n ->
  axienet_ptp_rx_irq (mkState l t d)
  = Some (IRQ_HANDLED,
          mkState (count_rx n (ring_bytes d1 (seqZ (z + 1) n)) (set_rx_sw (u8 (z + n)) (set_allocs (allocs l + Z.to_nat n)%nat l0)))
                  (t ++ map (fun i => Netif_rx (delivered d1 i)) (seqZ (z + 1) n)) d1)
  /\ (slice c 8 4 &&& 0xf) = (u8 (z + n) &&& 0xf).
Proof.
  intros Hc l0 Hr. assert (E : u8 ((u32 c &&& PTP_RX_PACKET_FIELD_MASK) >>> 8) = slice c 8 4).
  { cbv [PTP_RX_PACKET_FIELD_MASK]. by slices. }
  split.
  - unfold axienet_ptp_rx_irq, axienet_ptp_recv. run_ptp. unfold axienet_ior. rewrite Hc. cbn [fst snd]. rewrite E. fold l0.
    rewrite (recv_loop_run 16 n z 0 0 l0 t d1 Hr) by (destruct Hr; lia). by run_ptp.
  - destruct Hr as [_ _ Hlast Hby _ _]. rewrite low4, <- Hlast. unfold l0 in *. cbn [ptp_rx_hw_pointer set_rx_hw] in *.
    rewrite <- (low4 (slice c 8 4)), u8_small by done. reflexivity.
Qed.

(** The length a frame claims is not checked: beyond the slot's 252 bytes the packet carries on with what the
    buffer held before, to the stack, and beyond the buffer the kernel stops. *)
Theorem ptp_rx_length_unchecked `{!PtpLaws} b p l t d buf :
  let i := ptp_rx_sw_pointer l + 1 in let len := frame_len (slot_frame d i) in
  netdev_alloc_skb PTP_RX_FRAME_SIZE (allocs l) = Some buf -> (PTP_RX_FRAME_SIZE < len)%nat ->
  ptp_recv_frame b p (mkState l t d)
  = if (len <=? length (drop PTP_RX_FRAME_SIZE buf) + PTP_RX_FRAME_SIZE)%nat
    then Some ((u32 (b + Z.of_nat len), u32 (p + 1)),
               mkState (set_rx_sw (u8 i) (set_allocs (S (allocs l)) l))
                 (t ++ [Netif_rx (received d i (slot_frame d i ++ take (len - PTP_RX_FRAME_SIZE) (drop PTP_RX_FRAME_SIZE buf)))]) d)
    else None.
Proof.
  intros i len Ha Hlen. rewrite (recv_frame_run _ _ _ _ _ buf Ha). fold i. fold len.
  pose proof (slot_frame_length d i) as Hsl. rewrite length_app, Hsl, Nat.add_comm.
  destruct (Nat.leb_spec len (length (drop PTP_RX_FRAME_SIZE buf) + PTP_RX_FRAME_SIZE)); [|done].
  rewrite take_app_ge, Hsl by lia. rewrite length_app, length_take, Hsl, Nat.min_l by lia.
  by replace (PTP_RX_FRAME_SIZE + (len - PTP_RX_FRAME_SIZE))%nat with len by lia.
Qed.

(** ** Time stamps of sent frames *)
Definition index_of (skb : sk_buff) : Z := u8 (cb0 skb).
Fixpoint sent_part (tx_packet : Z) (q : list sk_buff) : list sk_buff :=
  match q with [] => [] | skb :: q => if index_of skb >? tx_packet then [] else skb :: sent_part tx_packet q end.
(** What stays: the packet that stopped the loop goes to the end. *)
Fixpoint kept_part (tx_packet : Z) (q : list sk_buff) : list sk_buff :=
  match q with [] => [] | skb :: q => if index_of skb >? tx_packet then q ++ [skb] else kept_part tx_packet q end.
Definition stamp_events (d : dev) (skb : sk_buff) : list event :=
  (if truthy (tx_flags skb &&& SKBTX_IN_PROGRESS)
   then [Tstamp_tx skb (slot_stamp d (PTP_TX_BUFFER_OFFSET (index_of skb) + PTP_HW_TSTAMP_OFFSET))] else []) ++ [Free skb].
Definition sum_len (q : list sk_buff) : Z := fold_right (fun skb n => skb_len skb + n) 0 q.

Lemma tx_stamp_plain `{!PtpLaws} k p : 0 <= k < 8 -> PTP_TX_BUFFER_OFFSET k <= p < PTP_TX_BUFFER_OFFSET k + 256 -> plain p = true.
Proof. intros Hk Hp. apply tx_slots_plain. unfold PTP_TX_BUFFER_OFFSET in *. lia. Qed.

Lemma tx_loop_run `{!PtpLaws} tx q : 0 <= tx < 8 -> forall b p l t d,
  tx_tstamp_loop tx q b p (mkState l t d)
  = Some ((kept_part tx q, fold_left (fun b skb => u32 (b + skb_len skb)) (sent_part tx q) b,
           fold_left (fun p _ => u32 (p + 1)) (sent_part tx q) p),
          mkState l (t ++ concat (map (stamp_events d) (sent_part tx q))) d).
Proof.
  intros Htx. induction q as [|skb q IH]; intros b p l t d; cbn [tx_tstamp_loop kept_part sent_part].
  { run_ptp. cbn. by rewrite app_nil_r. }
  fold (index_of skb). destruct (index_of skb >? tx) eqn:E; [cbn; run_ptp; by rewrite app_nil_r|].
  assert (Hi : 0 <= index_of skb < 8) by (pose proof (u8_range (cb0 skb)); unfold index_of in *; bprop; lia).
  cbn [fold_left map concat]. unfold stamp_events at 1.
  destruct (truthy _); run_ptp; [|by rewrite IH, <- !app_assoc].
  rewrite set_timestamp_run; [|apply (tx_stamp_plain (index_of skb)); [done|unfold PTP_HW_TSTAMP_OFFSET, PTP_RX_HWBUF_SIZE, PTP_HW_TSTAMP_SIZE; lia]..].
  cbn [fst snd]. by rewrite IH, <- !app_assoc.
Qed.

Lemma slot_stamp_keeps `{!PtpLaws} d c d1 k : dev_rd PTP_TX_CONTROL_OFFSET d = (c, d1) -> 0 <= k < 8 ->
  slot_stamp d1 (PTP_TX_BUFFER_OFFSET k + PTP_HW_TSTAMP_OFFSET) = slot_stamp d (PTP_TX_BUFFER_OFFSET k + PTP_HW_TSTAMP_OFFSET).
Proof.
  intros Hc Hk. assert (forall p, PTP_TX_BUFFER_OFFSET k <= p < PTP_TX_BUFFER_OFFSET k + 256 -> reg d1 p = reg d p) as E.
  { intros p Hp. rewrite <- (control_keeps PTP_TX_CONTROL_OFFSET d p); [by rewrite Hc|tauto|by apply (tx_stamp_plain k)]. }
  unfold slot_stamp. rewrite !E by (unfold PTP_HW_TSTAMP_OFFSET, PTP_RX_HWBUF_SIZE, PTP_HW_TSTAMP_SIZE; lia). done.
Qed.

(** What the work does on every queue: packets up to the first whose slot is above the one the device names are
    stamped, if asked for, with the time of their own slot and freed, in order; that first one goes to the end. *)
Lemma tx_tstamp_run `{!PtpLaws} l t d c d1 : dev_rd PTP_TX_CONTROL_OFFSET d = (c, d1) ->
  let sent := sent_part (slice c 16 3) (ptp_txq l) in
  axienet_tx_tstamp (mkState l t d)
  = Some (tt, mkState (count_tx (fold_left (fun p _ => u32 (p + 1)) sent 0)
                                (fold_left (fun b skb => u32 (b + skb_len skb)) sent 0)
                                (set_txq (kept_part (slice c 16 3) (ptp_txq l)) l))
                      (t ++ concat (map (stamp_events d1) sent)) d1).
Proof.
  intros Hc sent. assert (E : u8 ((u32 c &&& PTP_TX_PACKET_FIELD_MASK) >>> PTP_TX_PACKET_FIELD_SHIFT) = slice c 16 3).
  { cbv [PTP_TX_PACKET_FIELD_MASK PTP_TX_PACKET_FIELD_SHIFT]. by slices. }
  unfold axienet_tx_tstamp. run_ptp. unfold axienet_ior. rewrite Hc. cbn [fst snd]. rewrite E.
  rewrite tx_loop_run by (apply (slice_range c 16 3); lia). by run_ptp.
Qed.

(** The rotation of the queue withholds time stamps: when the work runs before the first of two frames is sent
    and again when it is, the second frame is the first in the queue and the sent one gets nothing. *)
Theorem ptp_tx_tstamp_withholds `{!PtpLaws} l t d a b c d1 c' d2 : ptp_txq l = [a; b] ->
  dev_rd PTP_TX_CONTROL_OFFSET d = (c, d1) -> slice c 16 3 < index_of a ->
  dev_rd PTP_TX_CONTROL_OFFSET d1 = (c', d2) -> slice c' 16 3 = index_of a -> index_of a < index_of b ->
  exists l', (_ ← axienet_tx_tstamp; axienet_tx_tstamp) (mkState l t d) = Some (tt, mkState l' t d2) /\ ptp_txq l' = [a; b].
Proof.
  intros Hq Hc Ha Hc' Ha' Hab. rewrite bind_ptp, (tx_tstamp_run l t d c d1 Hc), Hq. cbn [sent_part kept_part fold_left map concat].
  destruct (Z.gtb_spec (index_of a) (slice c 16 3)); [|lia]. cbn [fold_left map concat app].
  rewrite (tx_tstamp_run _ _ d1 c' d2 Hc'). cbn [ptp_txq set_txq count_tx sent_part kept_part].
  destruct (Z.gtb_spec (index_of b) (slice c' 16 3)); [|lia]. cbn [fold_left map concat app]. rewrite !app_nil_r.
  eexists. split; [reflexivity|]. reflexivity.
Qed.

(** The work looks at the number of the last slot sent, not at what waits: a frame put into a slot no higher than
    that one is taken for sent while it waits, stamped with what the slot's time stamp was, and freed. *)
Theorem ptp_tx_tstamp_before_sent `{!PtpLaws} l t d skb c d1 : ptp_txq l = [skb] ->
  dev_rd PTP_TX_CONTROL_OFFSET d = (c, d1) -> index_of skb <= slice c 16 3 -> Z.testbit c (8 + index_of skb) = true ->
  truthy (tx_flags skb &&& SKBTX_IN_PROGRESS) = true ->
  exists l', axienet_tx_tstamp (mkState l t d)
    = Some (tt, mkState l' (t ++ [Tstamp_tx skb (slot_stamp d (PTP_TX_BUFFER_OFFSET (index_of skb) + PTP_HW_TSTAMP_OFFSET)); Free skb]) d1)
    /\ ptp_txq l' = [].
Proof.
  intros Hq Hc Hi _ Hp. rewrite (tx_tstamp_run l t d c d1 Hc), Hq. cbn [sent_part kept_part].
  assert (0 <= index_of skb < 8) by (pose proof (u8_range (cb0 skb)); pose proof (slice_range c 16 3); unfold index_of in *; lia).
  rewrite <- (slot_stamp_keeps d c d1) by done. destruct (Z.gtb_spec (index_of skb) (slice c 16 3)); [lia|].
  cbn [fold_left map concat]. unfold stamp_events. rewrite Hp. cbn [app]. eexists. split; reflexivity.
Qed.

(** When the topmost slot waits, nothing is sent and the queue of the device stops, until the interrupt. *)
Theorem ptp_busy_until_irq skb l t d c d1 c' d2 : dev_rd PTP_TX_CONTROL_OFFSET d = (c, d1) -> Z.testbit c 15 = true ->
  dev_rd PTP_TX_CONTROL_OFFSET d1 = (c', d2) ->
  axienet_ptp_xmit skb (mkState l t d) = Some (NETDEV_TX_BUSY, mkState (set_stopped true l) t d1)
  /\ axienet_ptp_tx_irq (mkState (set_stopped true l) t d1)
     = Some (IRQ_HANDLED, mkState (set_stopped false l) (t ++ [Schedule_tstamp_work]) d2).
Proof.
  intros Hc H15 Hc'. assert (Ec : axienet_ior PTP_TX_CONTROL_OFFSET d = (u32 c, d1)) by (unfold axienet_ior; by rewrite Hc).
  assert (Ec' : axienet_ior PTP_TX_CONTROL_OFFSET d1 = (u32 c', d2)) by (unfold axienet_ior; by rewrite Hc').
  split.
  - unfold axienet_ptp_xmit. run_ptp. rewrite !Ec. cbn [fst snd].
    assert (truthy (u8 ((u32 c &&& PTP_TX_FRAME_WAITING_MASK) >>> PTP_TX_FRAME_WAITING_SHIFT) &&& (1 <<< 7)) = true) as ->.
    { change (1 <<< 7) with (BIT 7). rewrite truthy_bit by lia. cbv [PTP_TX_FRAME_WAITING_MASK PTP_TX_FRAME_WAITING_SHIFT]. slices.
      by rewrite slice_spec by lia. }
    run_ptp. destruct l as [ts hwp swp q [] rp rb tp tb al]; reflexivity.
  - unfold axienet_ptp_tx_irq. run_ptp. by rewrite !Ec'.
Qed.
End Laws.

(** ** A device and a kernel to run the handlers on *)
#[global] Instance demo_ptp : PtpLaws (H0 := memory_laws).
Proof. by split. Defined.
#[global] Instance demo_kernel : Kernel := {|
  fls x := if x <=? 0 then 0 else Z.log2 x + 1;
  ktime_set sec ns := sec * 1000000000 + ns;
  eth_type_trans skb := (get16 12 (skb_data skb), mkSkb (drop ETH_HLEN (skb_data skb)) (tx_flags skb) (cb0 skb) 0 0 0);
  netdev_alloc_skb size n := Some (replicate (size + 68) 0xA5) |}.
#[global] Instance demo_kernel_laws : KernelLaws.
Proof.
  split; cbn.
  - done.
  - intros x Hx. destruct (Z.leb_spec x 0); [lia|]. pose proof (Z.log2_nonneg x). split; [lia|].
    destruct (Z.log2_spec x ltac:(lia)) as [Hl Hh]. rewrite Z.add_simpl_r. replace (Z.log2 x + 1) with (Z.succ (Z.log2 x)) by lia. done.
  - done.
  - intros size n buf E. injection E as <-. rewrite length_replicate. lia.
Defined.

Definition demo_local : axienet_local := mkLocal 1 0 0xff [] false 0 0 0 0 0.
(** A frame of 34 bytes: addresses, type, and a PTP message of type [ty] and length 20. *)
Definition demo_frame (ty : Z) : list Z :=
  [1;0x80;0xc2;0;0;0xe; 2;2;2;2;2;2; 0x88;0xf7; ty;2;0;20] ++ replicate 16 7.
Definition demo_skb (ty : Z) : sk_buff := mkSkb (demo_frame ty) SKBTX_HW_TSTAMP 0 0 0 0.
(** Two frames wait: slots 0 and 1. *)
Definition demo_waiting : dev := dev_wr PTP_TX_CONTROL_OFFSET 0x300 ((fun _ => 0) : dev).
(** The ring with an event message and a general one, each with its time stamp. *)
Definition demo_ring : dev :=
  let d := dev_wr PTP_RX_CONTROL_OFFSET 0x100 ((fun _ => 0) : dev) in
  let d := snd (memcpy_toio_32 (rx_slot 0) (demo_frame 0x2 ++ replicate 214 0 ++ [5;0;0;0;9;0;0;0]) d) in
  snd (memcpy_toio_32 (rx_slot 1) (demo_frame 0x8 ++ replicate 214 0 ++ [6;0;0;0;9;0;0;0]) d).

Lemma ptp_xmit_fills_free_slot_witness : exists k d2, 0 <= k < 8
  /\ in_slot k false (demo_frame 0) demo_waiting d2
  /\ axienet_ptp_xmit (demo_skb 0) (mkState demo_local [] demo_waiting)
     = Some (NETDEV_TX_OK, mkState (set_txq [pending k (demo_skb 0)] demo_local) [Software_tstamp (pending k (demo_skb 0))]
                                   (dev_wr PTP_TX_CONTROL_OFFSET (2 ^ k) d2)).
Proof.
  destruct (ptp_xmit_fills_free_slot (demo_skb 0) demo_local [] demo_waiting 0x300 demo_waiting) as (k & d2 & Hk & _ & _ & Hs & E).
  - reflexivity.
  - reflexivity.
  - cbn. repeat constructor; lia.
  - cbn. lia.
  - exists k, d2. split; [exact Hk|]. split; [exact Hs|exact E].
Defined.

Lemma ptp_rx_irq_drains_ring_witness :
  axienet_ptp_rx_irq (mkState demo_local [] demo_ring)
  = Some (IRQ_HANDLED, mkState (mkLocal 1 1 1 [] false 2 68 0 0 2)
      [Netif_rx (mkSkb (drop 14 (demo_frame 0x2)) 0 0 0x88f7 1 5000000009); Netif_rx (mkSkb (drop 14 (demo_frame 0x8)) 0 0 0x88f7 1 0)]
      demo_ring).
Proof.
  destruct (ptp_rx_irq_drains_ring demo_local [] demo_ring 0x100 demo_ring (-1) 2) as [E _].
  - reflexivity.
  - split; [reflexivity|lia|reflexivity|cdec| |].
    + intros k Hk. eexists. reflexivity.
    + intros i Hi. assert (i = 0 \/ i = 1) as [-> | ->] by lia; vm_compute; lia.
  - etransitivity; [exact E|]. vm_compute. reflexivity.
Defined.
