(* ===== verification/TsnPtpClock.v ===== *)
(** * The clock of the precision time protocol

    Models src/driver/xilinx/xilinx_tsn_ptp_clock.c: the clock's operations over the registers of the timer
    (offsets from its base), its interrupt, and how it is set up and removed. The kernel's [timespec64]
    arithmetic is the parameter [Timespec]. [ClockLaws] says what the hardware shows: a counter that runs freely
    plus the offset. A handler runs under the register lock and takes no time. *)
From S2P Require Import Prelude TsnRegs.

Definition XTIMER1588_RTC_OFFSET_NS : Z := 0x00000.
Definition XTIMER1588_RTC_OFFSET_SEC_L : Z := 0x00008.
Definition XTIMER1588_RTC_OFFSET_SEC_H : Z := 0x0000C.
Definition XTIMER1588_RTC_INCREMENT : Z := 0x00010.
Definition XTIMER1588_CURRENT_RTC_NS : Z := 0x00014.
Definition XTIMER1588_CURRENT_RTC_SEC_L : Z := 0x00018.
Definition XTIMER1588_INTERRUPT : Z := 0x00020.
Definition XTIMER1588_INT_SHIFT : Z := 0.
Definition PULSESIN1PPS : Z := 128.
(** [max_adj] of the clock's description. *)
Definition max_adj : Z := 999999999.
Definition EOPNOTSUPP : Z := 95.

Record timespec64 := mkTs { tv_sec : Z; tv_nsec : Z }.
Definition NSEC_PER_SEC : Z := 1000000000.
Definition ts_ns (ts : timespec64) : Z := tv_sec ts * NSEC_PER_SEC + tv_nsec ts.
Definition normal (ts : timespec64) : Prop := 0 <= tv_nsec ts < NSEC_PER_SEC.

(** The kernel's arithmetic; results are normal. *)
Class Timespec := {
  timespec64_add : timespec64 -> timespec64 -> timespec64;
  timespec64_sub : timespec64 -> timespec64 -> timespec64;
  ns_to_timespec64 : Z -> timespec64 }.
Definition in_s40 (ts : timespec64) : Prop := - 2 ^ 40 <= tv_sec ts < 2 ^ 40 /\ - 2 ^ 40 <= tv_nsec ts < 2 ^ 40.
Class TimespecLaws `{Timespec} := {
  ts_add a b : in_s40 a -> in_s40 b -> ts_ns (timespec64_add a b) = ts_ns a + ts_ns b /\ normal (timespec64_add a b);
  ts_sub a b : in_s40 a -> in_s40 b -> ts_ns (timespec64_sub a b) = ts_ns a - ts_ns b /\ normal (timespec64_sub a b);
  ts_of_ns n : - 2 ^ 63 <= n < 2 ^ 63 -> ts_ns (ns_to_timespec64 n) = n /\ normal (ns_to_timespec64 n) }.

(** The requests of [xlnx_ptp_enable]. *)
Inductive ptp_clock_request := PTP_CLK_REQ_EXTTS | PTP_CLK_REQ_PEROUT | PTP_CLK_REQ_PPS.

Record xlnx_ptp_timer := mkTimer { ptp_clock : option Z; irq : Z; pps_enable : Z; countpulse : Z }.

(** What the module asks of the kernel. *)
Inductive timer_event :=
| Kzalloc | Kfree | Clock_register (index : Z) | Clock_unregister (index : Z) | Irq_request (n : Z) | Irq_free (n : Z)
| Pps_event (index : Z).

Section Clock.
Context `{Device} `{Timespec}.

Definition in_be32 (offset : Z) : io Z := axienet_ior offset.
Definition out_be32 (offset value : Z) : io unit := axienet_iow offset value.

Definition xlnx_tod_read : io timespec64 :=
  nsec ← in_be32 XTIMER1588_CURRENT_RTC_NS;
  sec ← in_be32 XTIMER1588_CURRENT_RTC_SEC_L;
  mret (mkTs sec nsec).

Definition xlnx_rtc_offset_write (ts : timespec64) : io unit :=
  out_be32 XTIMER1588_RTC_OFFSET_SEC_H 0;;
  out_be32 XTIMER1588_RTC_OFFSET_SEC_L (tv_sec ts);;
  out_be32 XTIMER1588_RTC_OFFSET_NS (tv_nsec ts).

Definition xlnx_rtc_offset_read : io timespec64 :=
  sec ← in_be32 XTIMER1588_RTC_OFFSET_SEC_L;
  nsec ← in_be32 XTIMER1588_RTC_OFFSET_NS;
  mret (mkTs sec nsec).

(** The increment of [xlnx_ptp_adjfreq]. *)
Definition increment (ppb : Z) : Z :=
  let incval := 0x800000 in
  let neg_adj := ppb <? 0 in
  let ppb := if neg_adj then - ppb else ppb in
  let freq := u64 (incval * ppb) in
  let diff := u32 (freq / 1000000000) in
  u32 (if neg_adj then incval - diff else incval + diff).

Definition xlnx_ptp_adjfreq (ppb : Z) : io Z := out_be32 XTIMER1588_RTC_INCREMENT (increment ppb);; mret 0.

Definition xlnx_ptp_adjtime (delta : Z) : io Z :=
  let thn := ns_to_timespec64 delta in
  now ← xlnx_rtc_offset_read;
  xlnx_rtc_offset_write (timespec64_add now thn);;
  mret 0.

Definition xlnx_ptp_gettime : io (timespec64 * Z) := ts ← xlnx_tod_read; mret (ts, 0).

Definition xlnx_ptp_settime (ts : timespec64) : io Z :=
  xlnx_rtc_offset_write (mkTs 0 0);;
  tod ← xlnx_tod_read;
  let delta := timespec64_sub ts tod in
  let delta := if tv_sec delta <=? 0 then mkTs 0 (if tv_nsec delta <? 0 then 0 else tv_nsec delta) else delta in
  xlnx_rtc_offset_write delta;;
  mret 0.

(** The state of the module: the timer, the variable [axienet_phc_index], what was asked of the kernel. *)
Record clock_state := mkClock { timer : xlnx_ptp_timer; axienet_phc_index : Z; asked : list timer_event; hw : dev }.
Definition clk (A : Type) : Type := clock_state -> A * clock_state.
#[global] Instance clk_ret : MRet clk := fun A a s => (a, s).
#[global] Instance clk_bind : MBind clk := fun A B f m s => let '(a, s') := m s in f a s'.
Definition on_hw {A} (m : io A) : clk A := fun s =>
  let '(a, d) := m (hw s) in (a, mkClock (timer s) (axienet_phc_index s) (asked s) d).
Definition ask (e : timer_event) : clk unit := fun s => (tt, mkClock (timer s) (axienet_phc_index s) (asked s ++ [e]) (hw s)).
Definition the_timer : clk xlnx_ptp_timer := fun s => (timer s, s).
Definition set_timer (t : xlnx_ptp_timer) : clk unit := fun s => (tt, mkClock t (axienet_phc_index s) (asked s) (hw s)).
Definition set_phc (n : Z) : clk unit := fun s => (tt, mkClock (timer s) n (asked s) (hw s)).

Definition xlnx_ptp_enable (rq : ptp_clock_request) (on : Z) : clk Z :=
  match rq with
  | PTP_CLK_REQ_PPS => t ← the_timer; set_timer (mkTimer (ptp_clock t) (irq t) 1 (countpulse t));; mret 0
  | _ => mret (- EOPNOTSUPP)
  end.

Definition xlnx_ptp_timer_isr : clk Z :=
  t ← the_timer;
  let countpulse := s32 (countpulse t + 1) in
  let wrap := PULSESIN1PPS <=? countpulse in
  set_timer (mkTimer (ptp_clock t) (irq t) (pps_enable t) (if wrap then 0 else countpulse));;
  (match ptp_clock t with
   | Some index => if wrap && truthy (pps_enable t) then ask (Pps_event index) else mret tt
   | None => mret tt
   end);;
  on_hw (out_be32 XTIMER1588_INTERRUPT (1 <<< XTIMER1588_INT_SHIFT));;
  mret 1.

Definition axienet_ptp_timer_remove : clk Z :=
  t ← the_timer;
  ask (Irq_free (irq t));;
  set_phc (-1);;
  (match ptp_clock t with
   | Some index => ask (Clock_unregister index);; set_timer (mkTimer None (irq t) (pps_enable t) (countpulse t))
   | None => mret tt
   end);;
  ask Kfree;;
  mret 0.

Definition axienet_get_phc_index : clk Z :=
  t ← the_timer; mret (match ptp_clock t with Some index => index | None => -1 end).

(** What the kernel answers to [axienet_ptp_timer_probe]: memory, the two interrupts' numbers, the index of the
    registered clock ([None] is an error), the time, and the result of [request_irq]. *)
Record probe_env := mkProbe {
  memory : bool; irq_by_name : Z; irq_deprecated : Z; registered : option Z; real_time : Z; request_irq : Z }.

(** Whether the timer is returned; otherwise NULL. *)
Definition axienet_ptp_timer_probe (env : probe_env) : clk bool :=
  if negb (memory env) then mret false else
  ask Kzalloc;; set_timer (mkTimer None (irq_by_name env) 0 0);;
  if (irq_by_name env <? 0) && negb (irq_deprecated env >? 0) then
    set_timer (mkTimer None (irq_deprecated env) 0 0);; ask Kfree;; mret false
  else
    let n := if irq_by_name env <? 0 then irq_deprecated env else irq_by_name env in
    match registered env with
    | None => set_timer (mkTimer None n 0 0);; mret false
    | Some index =>
        ask (Clock_register index);; set_timer (mkTimer (Some index) n 0 0);;
        set_phc index;;
        on_hw (xlnx_ptp_settime (ns_to_timespec64 (real_time env)));;
        if truthy (request_irq env) then
          ask (Clock_unregister index);; set_timer (mkTimer None n 0 0);; mret false
        else ask (Irq_request n);; mret true
    end.
End Clock.

(** ** The registers *)

(** The hardware: its counter, which the offset's registers leave alone, and the time it shows. *)
Section Laws.
Context `{RegLaws} `{Timespec}.

Definition offset_ns (d : dev) : Z :=
  (reg d XTIMER1588_RTC_OFFSET_SEC_H * 2 ^ 32 + reg d XTIMER1588_RTC_OFFSET_SEC_L) * NSEC_PER_SEC + reg d XTIMER1588_RTC_OFFSET_NS.

Definition offset_reg (o : Z) : bool :=
  (o =? XTIMER1588_RTC_OFFSET_SEC_H) || (o =? XTIMER1588_RTC_OFFSET_SEC_L) || (o =? XTIMER1588_RTC_OFFSET_NS).

Class ClockLaws := {
  rtc : dev -> Z;
  offset_plain o : offset_reg o = true -> plain o = true;
  rtc_kept o v d : offset_reg o = true -> rtc (dev_wr o v d) = rtc d;
  shown_ns d : dev_rd XTIMER1588_CURRENT_RTC_NS d = ((rtc d + offset_ns d) mod NSEC_PER_SEC, d);
  shown_sec d : dev_rd XTIMER1588_CURRENT_RTC_SEC_L d = ((rtc d + offset_ns d) / NSEC_PER_SEC, d) }.

(** What the clock shows, as nanoseconds. *)
Definition shown `{!ClockLaws} (d : dev) : Z := rtc d + offset_ns d.
Definition span : Z := 2 ^ 32 * NSEC_PER_SEC.

Lemma tod_run `{!ClockLaws} d : 0 <= shown d < span ->
  xlnx_tod_read d = (mkTs (shown d / NSEC_PER_SEC) (shown d mod NSEC_PER_SEC), d).
Proof.
  intros Hs. unfold xlnx_tod_read, in_be32, axienet_ior. rewrite bind_io, shown_ns, bind_io, shown_sec, ret_io.
  fold (shown d). unfold span, NSEC_PER_SEC in *. rewrite !u32_small by dlia. done.
Qed.

Lemma ts_eq a b : normal a -> normal b -> ts_ns a = ts_ns b -> a = b.
Proof.
  destruct a as [s n], b as [s' n']. unfold normal, ts_ns, NSEC_PER_SEC. cbn. intros Hn Hn' E.
  assert (s = s') by lia. subst. f_equal. lia.
Qed.

Lemma shown_normal `{!ClockLaws} d : let ts := mkTs (shown d / NSEC_PER_SEC) (shown d mod NSEC_PER_SEC) in normal ts /\ ts_ns ts = shown d.
Proof. unfold normal, ts_ns, NSEC_PER_SEC. cbn [tv_sec tv_nsec]. dlia. Qed.

(** Writing the offset: seconds lose what does not fit 32 bits. *)
Lemma offset_write_run `{!ClockLaws} ts d : normal ts ->
  exists d', xlnx_rtc_offset_write ts d = (tt, d') /\ rtc d' = rtc d /\ offset_ns d' = ts_ns ts mod span
    /\ reg d' XTIMER1588_RTC_OFFSET_SEC_L = u32 (tv_sec ts) /\ reg d' XTIMER1588_RTC_OFFSET_NS = tv_nsec ts.
Proof.
  intros Hn. unfold xlnx_rtc_offset_write, out_be32. rewrite bind_io, run_iow, bind_io, !run_iow. eexists. split; [reflexivity|].
  split; [by rewrite !rtc_kept|]. unfold offset_ns. rewrite !reg_wr by (by apply offset_plain).
  cbn -[Z.mul Z.pow u32 NSEC_PER_SEC]. split; [|split; [done|]].
  - unfold normal, ts_ns, span, u32, NSEC_PER_SEC in *. rewrite (Z.mod_small (tv_nsec ts)) by lia. dlia.
  - unfold normal, NSEC_PER_SEC in Hn. apply u32_small. lia.
Qed.

(** The offset's registers hold a normal time; every write of the module leaves them so. *)
Record offset_ok (d : dev) : Prop := {
  ok_sec_h : reg d XTIMER1588_RTC_OFFSET_SEC_H = 0;
  ok_sec : 0 <= reg d XTIMER1588_RTC_OFFSET_SEC_L < 4294967296;
  ok_ns : 0 <= reg d XTIMER1588_RTC_OFFSET_NS < NSEC_PER_SEC }.

Lemma offset_write_ok `{!ClockLaws} ts d : normal ts -> offset_ok (snd (xlnx_rtc_offset_write ts d)).
Proof.
  intros Hn. unfold xlnx_rtc_offset_write, out_be32. rewrite bind_io, run_iow, bind_io, !run_iow. cbn [snd].
  split; rewrite !reg_wr by (by apply offset_plain); cbn -[u32 NSEC_PER_SEC]; [done|apply u32_range|].
  unfold normal, NSEC_PER_SEC in *. rewrite u32_small by lia. lia.
Qed.

Lemma normal_s40 ts : normal ts -> - 2 ^ 40 <= tv_sec ts < 2 ^ 40 -> in_s40 ts.
Proof. intros Hn Hs. split; [done|]. unfold normal, NSEC_PER_SEC in Hn. lia. Qed.

(** Adjusting the time adds to the offset, modulo the 32 bits of seconds the module writes: where the sum is
    negative the clock jumps ahead by 2^32 seconds less that. *)
Theorem adjtime_moves_offset `{!TimespecLaws} `{!ClockLaws} d delta : offset_ok d -> - 2 ^ 63 <= delta < 2 ^ 63 ->
  exists d', xlnx_ptp_adjtime delta d = (0, d') /\ offset_ok d' /\ rtc d' = rtc d
    /\ offset_ns d' = (offset_ns d + delta) mod span.
Proof.
  intros [Hh Hs Hn] Hd. destruct (ts_of_ns delta Hd) as [Et Nt].
  set (now := mkTs (reg d XTIMER1588_RTC_OFFSET_SEC_L) (reg d XTIMER1588_RTC_OFFSET_NS)).
  assert (En : ts_ns now = offset_ns d) by (unfold ts_ns, offset_ns, now; rewrite Hh; cbn -[Z.mul]; f_equal).
  destruct (ts_add now (ns_to_timespec64 delta)) as [Ea Na].
  { apply normal_s40; [done|]. cbn. lia. }
  { apply normal_s40; [done|]. unfold normal, ts_ns, NSEC_PER_SEC in *. lia. }
  unfold xlnx_ptp_adjtime, xlnx_rtc_offset_read, in_be32.
  rewrite !bind_io, run_ior by (by apply offset_plain). rewrite bind_io, run_ior by (by apply offset_plain).
  rewrite ret_io, !u32_small by (unfold NSEC_PER_SEC in *; lia). fold now. rewrite bind_io.
  destruct (offset_write_run (timespec64_add now (ns_to_timespec64 delta)) d Na) as (d' & E & Er & Eo & _).
  pose proof (offset_write_ok _ d Na) as Hok. rewrite E in Hok |- *. cbn [snd] in Hok. exists d'. rewrite ret_io.
  split; [done|]. split; [done|]. split; [done|]. by rewrite Eo, Ea, En, Et.
Qed.

(** C30: Setting the time and getting it: exact where it is not before the free running counter; before that the
    clock shows the counter plus what the difference has beyond whole seconds, up to a second later. *)
Theorem settime_gettime `{!TimespecLaws} `{!ClockLaws} d ts :
  normal ts -> 0 <= tv_sec ts < 2 ^ 32 -> 0 <= rtc d -> rtc d + NSEC_PER_SEC <= span ->
  exists d', xlnx_ptp_settime ts d = (0, d') /\ offset_ok d'
    /\ xlnx_ptp_gettime d'
       = ((if rtc d <=? ts_ns ts then ts
           else let t := rtc d + (ts_ns ts - rtc d) mod NSEC_PER_SEC in mkTs (t / NSEC_PER_SEC) (t mod NSEC_PER_SEC), 0), d').
Proof.
  intros Hn Hs Hr0 Hr.
  destruct (offset_write_run (mkTs 0 0) d) as (d1 & E1 & Er1 & Eo1 & _); [done|].
  assert (Es1 : shown d1 = rtc d) by (unfold shown; rewrite Er1, Eo1; apply Z.add_0_r).
  destruct (shown_normal d1) as [Ntod Etod]. set (tod := mkTs (shown d1 / NSEC_PER_SEC) (shown d1 mod NSEC_PER_SEC)) in *.
  destruct (ts_sub ts tod) as [Ed Nd].
  { apply normal_s40; [done|lia]. }
  { apply normal_s40; [done|]. unfold tod. cbn [tv_sec]. rewrite Es1. unfold span, NSEC_PER_SEC in *. dlia. }
  rewrite Etod, Es1 in Ed. set (delta := timespec64_sub ts tod) in *.
  set (w := if tv_sec delta <=? 0 then mkTs 0 (if tv_nsec delta <? 0 then 0 else tv_nsec delta) else delta).
  assert (Nw : normal w).
  { unfold w. unfold normal in Nd. destruct (tv_sec delta <=? 0); [|done]. destruct (Z.ltb_spec (tv_nsec delta) 0); [lia|done]. }
  assert (Ew : ts_ns w = if rtc d <=? ts_ns ts then ts_ns ts - rtc d else (ts_ns ts - rtc d) mod NSEC_PER_SEC).
  { unfold w, normal, ts_ns in *. unfold NSEC_PER_SEC in *.
    destruct (Z.leb_spec (tv_sec delta) 0), (Z.ltb_spec (tv_nsec delta) 0), (Z.leb_spec (rtc d) (tv_sec ts * 1000000000 + tv_nsec ts));
      cbn [tv_sec tv_nsec]; try lia. rewrite <- Ed, (Z.add_comm (tv_sec delta * _)), Z.mod_add, Z.mod_small; lia. }
  destruct (offset_write_run w d1 Nw) as (d2 & E2 & Er2 & Eo2 & _). pose proof (offset_write_ok w d1 Nw) as Hok.
  rewrite E2 in Hok. cbn [snd] in Hok. exists d2. split; [|split; [done|]].
  { unfold xlnx_ptp_settime. rewrite bind_io, E1, bind_io, tod_run by (rewrite Es1; unfold NSEC_PER_SEC in *; lia).
    fold tod. fold delta. fold w. by rewrite bind_io, E2. }
  assert (Es2 : shown d2 = rtc d + ts_ns w).
  { unfold shown. rewrite Er2, Er1, Eo2, Z.mod_small; [done|]. rewrite Ew. unfold span, normal, ts_ns, NSEC_PER_SEC in *.
    destruct (Z.leb_spec (rtc d) (tv_sec ts * 1000000000 + tv_nsec ts)); [lia|]. dlia. }
  assert (0 <= shown d2 < span).
  { rewrite Es2, Ew. unfold span, normal, ts_ns, NSEC_PER_SEC in *.
    destruct (Z.leb_spec (rtc d) (tv_sec ts * 1000000000 + tv_nsec ts)); [lia|]. dlia. }
  unfold xlnx_ptp_gettime. rewrite bind_io, tod_run, ret_io by done. do 2 f_equal. rewrite Es2, Ew.
  destruct (Z.leb_spec (rtc d) (ts_ns ts)); [|done]. replace (rtc d + (ts_ns ts - rtc d)) with (ts_ns ts) by lia.
  unfold ts_ns, normal, NSEC_PER_SEC in *. destruct ts as [sec nsec]. cbn [tv_sec tv_nsec] in *. f_equal; dlia.
Qed.
End Laws.

(** ** The rate *)

(** For every adjustment the clock allows, the increment is the nominal one scaled, to within one unit; it fits
    its 26 bits and is never zero: the clock does not stop. *)
Theorem adjfreq_increment ppb : - max_adj <= ppb <= max_adj ->
  Z.abs (increment ppb * 1000000000 - 0x800000 * (1000000000 + ppb)) < 1000000000 /\ 0 < increment ppb < 2 ^ 24.
Proof.
  unfold max_adj, increment, u64. intros Hp.
  destruct (Z.ltb_spec ppb 0); rewrite (Z.mod_small (_ * _)) by lia; rewrite (u32_small (_ / _)) by dlia;
    rewrite u32_small by dlia; dlia.
Qed.

(** ** Pulses *)
Section Pulses.
Context `{Device}.

(** [n] interrupts in a row. *)
Fixpoint interrupts (n : nat) : clk unit :=
  match n with O => mret tt | S n => xlnx_ptp_timer_isr;; interrupts n end.

Definition pulses (t : xlnx_ptp_timer) (n : Z) : list timer_event :=
  match ptp_clock t with
  | Some index => if truthy (pps_enable t) then replicate (Z.to_nat n) (Pps_event index) else []
  | None => []
  end.

Lemma pulses_app t a b : 0 <= a -> 0 <= b -> pulses t a ++ pulses t b = pulses t (a + b).
Proof.
  intros Ha Hb. unfold pulses. destruct (ptp_clock t); [|done]. destruct (truthy _); [|done].
  rewrite Z2Nat.inj_add by lia. symmetry. apply replicate_add.
Qed.

Lemma isr_run s : 0 <= countpulse (timer s) < PULSESIN1PPS ->
  let c := countpulse (timer s) + 1 in let t := timer s in
  exists d, xlnx_ptp_timer_isr s
  = (1, mkClock (mkTimer (ptp_clock t) (irq t) (pps_enable t) (c mod PULSESIN1PPS)) (axienet_phc_index s)
                (asked s ++ pulses t (c / PULSESIN1PPS)) d).
Proof.
  intros Hc c t. destruct s as [[clk n pps cnt] phc tr d0]. subst c t. cbn [timer countpulse ptp_clock pps_enable irq asked axienet_phc_index] in *.
  unfold xlnx_ptp_timer_isr, mbind, clk_bind, the_timer, set_timer, mret, clk_ret. cbn -[s32 Z.add Z.leb]. unfold PULSESIN1PPS in *. rewrite s32_small by lia. unfold pulses. cbn [ptp_clock pps_enable].
  destruct (Z.leb_spec 128 (cnt + 1)).
  - assert (cnt = 127) as -> by lia. eexists. destruct clk; [destruct (truthy pps)|]; cbn; rewrite ?app_nil_r; reflexivity.
  - rewrite Z.div_small, Z.mod_small by lia. eexists. destruct clk; [destruct (truthy pps)|]; cbn; rewrite ?app_nil_r; reflexivity.
Qed.

(** The count stays below 128, and every 128th interrupt is a pulse if they are enabled. *)
Lemma isr_pulses n : forall s, 0 <= countpulse (timer s) < PULSESIN1PPS ->
  let s' := snd (interrupts n s) in
  asked s' = asked s ++ pulses (timer s) ((countpulse (timer s) + Z.of_nat n) / PULSESIN1PPS)
  /\ countpulse (timer s') = (countpulse (timer s) + Z.of_nat n) mod PULSESIN1PPS
  /\ (ptp_clock (timer s'), pps_enable (timer s')) = (ptp_clock (timer s), pps_enable (timer s)).
Proof.
  induction n as [|n IH]; intros s Hc.
  { cbn -[Z.div Z.modulo]. rewrite Z.add_0_r, Z.div_small, Z.mod_small by done.
    split; [|done]. unfold pulses. destruct (ptp_clock _); [destruct (truthy _)|]; by rewrite ?app_nil_r. }
  destruct (isr_run s Hc) as [d E]. cbn [interrupts]. unfold mbind, clk_bind. rewrite E.
  set (s1 := mkClock _ _ _ d). specialize (IH s1). cbn [timer countpulse ptp_clock pps_enable asked s1] in IH.
  destruct IH as (Ia & Ic & It); [apply Z.mod_pos_bound; done|]. cbn zeta. rewrite Ia, Ic, It. unfold PULSESIN1PPS in *.
  split; [|split; [|done]].
  - rewrite <- app_assoc. f_equal. unfold pulses at 2. cbn [ptp_clock pps_enable]. fold (pulses (timer s)).
    change (match ptp_clock (timer s) with Some _ => _ | None => _ end) with (pulses (timer s) (((countpulse (timer s) + 1) mod 128 + Z.of_nat n) / 128)).
    rewrite pulses_app by dlia. f_equal. dlia.
  - dlia.
Qed.
End Pulses.

(** ** Setting up and removing *)
Section Life.
Context `{Device} `{Timespec}.

(** A request to stop the pulses starts them like any other. *)
Theorem pps_request_ignores_on on s : 0 <= countpulse (timer s) < PULSESIN1PPS -> forall index, ptp_clock (timer s) = Some index ->
  asked (snd ((xlnx_ptp_enable PTP_CLK_REQ_PPS on;; interrupts 128) s)) = asked s ++ [Pps_event index].
Proof.
  intros Hc index Hi. set (s1 := mkClock (mkTimer (ptp_clock (timer s)) (irq (timer s)) 1 (countpulse (timer s))) (axienet_phc_index s) (asked s) (hw s)).
  change ((xlnx_ptp_enable PTP_CLK_REQ_PPS on;; interrupts 128) s) with (interrupts 128 s1).
  destruct (isr_pulses 128 s1 Hc) as (E & _). rewrite E. unfold s1. cbn [asked timer countpulse]. f_equal.
  unfold pulses. cbn [ptp_clock pps_enable]. rewrite Hi. unfold PULSESIN1PPS in *.
  replace ((countpulse (timer s) + Z.of_nat 128) / 128) with 1 by dlia. reflexivity.
Qed.

Definition fresh (s : clock_state) : Prop := asked s = [] /\ axienet_phc_index s = -1.

(** What is left of an attempt to set the clock up: everything is in place, or nothing is asked for that is not
    given back, except that where the registration or the interrupt fails the timer's memory is not freed, and
    that after the latter [axienet_phc_index] still names the clock that is gone. Removing undoes all. *)
Theorem timer_probe_outcomes env s : fresh s ->
  let '(ok, s') := axienet_ptp_timer_probe env s in
  let n := if irq_by_name env <? 0 then irq_deprecated env else irq_by_name env in
  let no_irq := (irq_by_name env <? 0) && negb (irq_deprecated env >? 0) in
  (ok, asked s', axienet_phc_index s')
  = (if negb (memory env) then (false, [], -1)
     else if no_irq then (false, [Kzalloc; Kfree], -1)
     else match registered env with
          | None => (false, [Kzalloc], -1)
          | Some index =>
              if truthy (request_irq env) then (false, [Kzalloc; Clock_register index; Clock_unregister index], index)
              else (true, [Kzalloc; Clock_register index; Irq_request n], index)
          end)
  /\ (ok = true -> let s'' := snd (axienet_ptp_timer_remove s') in
      exists index, registered env = Some index /\ axienet_phc_index s'' = -1
        /\ asked s'' = [Kzalloc; Clock_register index; Irq_request n; Irq_free n; Clock_unregister index; Kfree]).
Proof.
  destruct s as [t phc tr d]. intros [Ht Hp]. cbn [asked axienet_phc_index] in Ht, Hp. subst tr phc.
  unfold axienet_ptp_timer_probe. destruct (negb (memory env)); [done|].
  unfold mbind, clk_bind, set_timer, set_phc, ask, on_hw, mret, clk_ret. cbn [timer asked hw axienet_phc_index app].
  destruct ((irq_by_name env <? 0) && _); [done|]. destruct (registered env) as [index|]; [|done].
  cbn [timer asked hw axienet_phc_index app]. destruct (xlnx_ptp_settime _ d) as [a d'].
  destruct (truthy (request_irq env)); [done|]. split; [done|]. intros _. exists index. done.
Qed.
End Life.

(** ** A clock to run the operations on: a counter that stands still, and registers *)
#[global] Instance demo_clock : Device := {|
  dev := Z * (Z -> Z);
  dev_rd o d :=
    let '(r, m) := d in
    let now := r + ((m XTIMER1588_RTC_OFFSET_SEC_H * 2 ^ 32 + m XTIMER1588_RTC_OFFSET_SEC_L) * NSEC_PER_SEC + m XTIMER1588_RTC_OFFSET_NS) in
    (if o =? XTIMER1588_CURRENT_RTC_NS then now mod NSEC_PER_SEC
     else if o =? XTIMER1588_CURRENT_RTC_SEC_L then now / NSEC_PER_SEC else m o, d);
  dev_wr o v d := let '(r, m) := d in (r, fun o' => if o' =? o then v else m o') |}.
#[global] Instance demo_clock_regs : RegLaws (H := demo_clock) offset_reg.
Proof.
  refine (@Build_RegLaws demo_clock offset_reg (fun (d : Z * (Z -> Z)) o => snd d o) _ _).
  - intros o [r m] Ho. cbn. unfold offset_reg in Ho. destruct (Z.eqb_spec o XTIMER1588_CURRENT_RTC_NS) as [->|]; [done|].
    destruct (Z.eqb_spec o XTIMER1588_CURRENT_RTC_SEC_L) as [->|]; [done|]. done.
  - intros o v [r m] o' _ _. done.
Defined.
#[global] Instance demo_clock_laws : ClockLaws (H0 := demo_clock_regs).
Proof.
  refine (@Build_ClockLaws demo_clock offset_reg demo_clock_regs (fun (d : Z * (Z -> Z)) => fst d) _ _ _ _).
  - done.
  - by intros o v [r m] _.
  - by intros [r m].
  - by intros [r m].
Defined.

#[global] Instance demo_timespec : Timespec := {|
  timespec64_add a b := let n := ts_ns a + ts_ns b in mkTs (n / NSEC_PER_SEC) (n mod NSEC_PER_SEC);
  timespec64_sub a b := let n := ts_ns a - ts_ns b in mkTs (n / NSEC_PER_SEC) (n mod NSEC_PER_SEC);
  ns_to_timespec64 n := mkTs (n / NSEC_PER_SEC) (n mod NSEC_PER_SEC) |}.
#[global] Instance demo_timespec_laws : TimespecLaws.
Proof. split; intros; cbn -[Z.mul Z.div Z.modulo ts_ns]; unfold normal, ts_ns at 1, NSEC_PER_SEC; cbn [tv_sec tv_nsec]; dlia. Defined.

(** The counter is at 1000.9 s. *)
Definition demo_time : dev (Device := demo_clock) := (1000900000000, fun _ => 0).

(** Setting 2000.5 s and 999.2 s: the first is shown, the second gives 1001.2 s. *)
Lemma settime_gettime_witness :
  (let d' := snd (xlnx_ptp_settime (mkTs 2000 500000000) demo_time) in
   xlnx_ptp_gettime d' = (mkTs 2000 500000000, 0, d'))
  /\ (let d' := snd (xlnx_ptp_settime (mkTs 999 200000000) demo_time) in
      xlnx_ptp_gettime d' = (mkTs 1001 200000000, 0, d')).
Proof.
  split.
  - destruct (settime_gettime demo_time (mkTs 2000 500000000)) as (d' & E & _ & G); [cdec..|]. cbn zeta. rewrite E. exact G.
  - destruct (settime_gettime demo_time (mkTs 999 200000000)) as (d' & E & _ & G); [cdec..|]. cbn zeta. rewrite E. exact G.
Defined.

Lemma adjtime_moves_offset_witness : exists d', xlnx_ptp_adjtime (-5) demo_time = (0, d') /\ offset_ns d' = span - 5.
Proof.
  destruct (adjtime_moves_offset demo_time (-5)) as (d' & E & _ & _ & O); [split; cdec|cdec|].
  exists d'. split; [exact E|]. rewrite O. vm_compute. reflexivity.
Defined.

Lemma adjfreq_increment_witness : increment (-100000) = 8387770 /\ 0 < increment (-100000) < 2 ^ 24.
Proof. split; [reflexivity|]. apply (adjfreq_increment (-100000)). vm_compute. split; discriminate. Defined.
