(* ===== verification/AxiRing.v ===== *)
(** * Rings of descriptors

    What the rings of src/driver/xilinx/xilinx_axienet_main.c share: a list of [N] descriptors, indices that wrap around
    at [N], and the window of [c] descriptors from an index on, as a list. Writing a descriptor outside a window leaves
    it, writing one inside replaces one element. *)
From S2P Require Import Prelude.

Section Ring.
Context {D : Type} (N : Z) (N_pos : 0 < N) (d0 : D).

Definition bd_at (l : list D) (i : Z) : D := default d0 (l !! Z.to_nat i).
Definition next (i : Z) : Z := u32 (i + 1) mod N.

Fixpoint window (l : list D) (i : Z) (c : nat) : list D :=
  match c with
  | O => []
  | S c => bd_at l i :: window l ((i + 1) mod N) c
  end.

Lemma next_eq i : 0 <= i < N -> N < 2 ^ 32 -> next i = (i + 1) mod N.
Proof. intros Hi HN. unfold next. by rewrite u32_small by lia. Qed.

Lemma mod_step i k : ((i + 1) mod N + k) mod N = (i + (1 + k)) mod N.
Proof. rewrite Z.add_mod_idemp_l by lia. f_equal. lia. Qed.

Lemma length_window l c : forall i, length (window l i c) = c.
Proof. induction c as [|c IH]; intros i; [done|]. cbn. by rewrite IH. Qed.

Lemma window_ext l l' c : forall i, (forall k, 0 <= k < Z.of_nat c -> bd_at l' ((i + k) mod N) = bd_at l ((i + k) mod N)) -> 0 <= i < N ->
  window l' i c = window l i c.
Proof.
  induction c as [|c IH]; intros i Hk Hi; [done|]. cbn [window]. f_equal.
  - specialize (Hk 0). rewrite Z.add_0_r, Z.mod_small in Hk by lia. apply Hk. lia.
  - apply IH; [|apply Z.mod_pos_bound; lia]. intros k Hr. rewrite mod_step. apply Hk. lia.
Qed.

Lemma window_app l c1 c2 : forall i, 0 <= i < N -> window l i (c1 + c2) = window l i c1 ++ window l ((i + Z.of_nat c1) mod N) c2.
Proof.
  induction c1 as [|c1 IH]; intros i Hi; [by rewrite Z.add_0_r, Z.mod_small|]. cbn [Nat.add window app]. f_equal.
  rewrite IH by (apply Z.mod_pos_bound; lia). rewrite mod_step. do 3 f_equal. lia.
Qed.

Lemma window_snoc l c i : 0 <= i < N -> window l i (S c) = window l i c ++ [bd_at l ((i + Z.of_nat c) mod N)].
Proof. intros Hi. replace (S c) with (c + 1)%nat by lia. by rewrite window_app. Qed.

Lemma window_lookup l c : forall i k, 0 <= i < N -> (k < c)%nat -> window l i c !! k = Some (bd_at l ((i + Z.of_nat k) mod N)).
Proof.
  induction c as [|c IH]; intros i [|k] Hi Hk; [lia|lia| |]; cbn [window lookup list_lookup].
  - by rewrite Z.add_0_r, Z.mod_small.
  - rewrite IH by (lia || (apply Z.mod_pos_bound; lia)). rewrite mod_step. do 3 f_equal. lia.
Qed.

Lemma bd_at_insert l j x i : length l = Z.to_nat N -> 0 <= j < N -> 0 <= i -> bd_at (<[Z.to_nat j := x]> l) i = if i =? j then x else bd_at l i.
Proof.
  intros Hl Hj Hi. unfold bd_at. destruct (i =? j) eqn:E; bprop.
  - subst. by rewrite list_lookup_insert_eq by lia.
  - by rewrite list_lookup_insert_ne by lia.
Qed.

Lemma window_insert_out l j x i c : length l = Z.to_nat N -> 0 <= j < N -> 0 <= i < N -> Z.of_nat c <= (j - i) mod N ->
  window (<[Z.to_nat j := x]> l) i c = window l i c.
Proof.
  intros Hl Hj Hi Hc. apply window_ext; [|done]. intros k Hk. rewrite bd_at_insert by (done || apply Z.mod_pos_bound; lia).
  rewrite (proj2 (Z.eqb_neq _ _)); [done|]. intros E. rewrite <- E, Zminus_mod_idemp_l in Hc.
  replace (i + k - i) with k in Hc by lia. pose proof (Z.mod_le k N). lia.
Qed.

Lemma window_insert_in l x i c : forall k, length l = Z.to_nat N -> 0 <= i < N -> (c <= Z.to_nat N)%nat -> (k < c)%nat ->
  window (<[Z.to_nat ((i + Z.of_nat k) mod N) := x]> l) i c = <[k := x]> (window l i c).
Proof.
  revert i. induction c as [|c IH]; intros i [|k] Hl Hi Hc Hk; [lia|lia| |].
  - cbn [window]. rewrite Z.add_0_r, Z.mod_small by lia. rewrite bd_at_insert, Z.eqb_refl by (done || lia). cbn. f_equal.
    apply window_insert_out; [done|done|apply Z.mod_pos_bound; lia|]. rewrite Zminus_mod_idemp_r.
    replace (i - (i + 1)) with (-1) by lia. rewrite <- (Z.mod_add (-1) 1 N), Z.mod_small by lia. lia.
  - cbn [window insert list_insert]. f_equal.
    + rewrite bd_at_insert by (done || lia || (apply Z.mod_pos_bound; lia)). rewrite (proj2 (Z.eqb_neq _ _)); [done|].
      intros E. assert (H : (i + Z.of_nat (S k) - i) mod N = 0) by (rewrite Zminus_mod, <- E, Zminus_mod_idemp_r, Z.sub_diag; apply Z.mod_0_l; lia).
      replace (i + Z.of_nat (S k) - i) with (Z.of_nat (S k)) in H by lia. rewrite Z.mod_small in H by lia. lia.
    + rewrite <- IH by (done || lia || (apply Z.mod_pos_bound; lia)). rewrite mod_step. do 4 f_equal. lia.
Qed.

(** The descriptor behind a window is written: the window grows by it. *)
Lemma window_grow l i n x : length l = Z.to_nat N -> 0 <= i < N -> Z.of_nat n < N ->
  window (<[Z.to_nat ((i + Z.of_nat n) mod N) := x]> l) i (S n) = window l i n ++ [x].
Proof.
  intros Hl Hi Hn. assert (Hb : 0 <= (i + Z.of_nat n) mod N < N) by (apply Z.mod_pos_bound; lia).
  rewrite window_snoc by done. f_equal; [|by rewrite bd_at_insert, Z.eqb_refl by lia].
  apply window_insert_out; try done. rewrite Zminus_mod_idemp_l. replace (i + Z.of_nat n - i) with (Z.of_nat n) by lia. by rewrite Z.mod_small by lia.
Qed.

(** The whole ring turns by one when the first descriptor is written and the index moves on. *)
Lemma window_turn l i x : length l = Z.to_nat N -> 0 <= i < N ->
  window (<[Z.to_nat i := x]> l) ((i + 1) mod N) (Z.to_nat N) = tail (window l i (Z.to_nat N)) ++ [x].
Proof.
  intros Hl Hi. assert (Hm : 0 <= (i + 1) mod N < N) by (apply Z.mod_pos_bound; lia).
  destruct (Z.to_nat N) as [|n] eqn:En; [lia|]. rewrite <- En in Hl. cbn [window tail].
  change (?a :: window ?b ?c n) with (window (<[Z.to_nat i := x]> l) ((i + 1) mod N) (S n)). rewrite window_snoc by done. f_equal.
  - apply window_insert_out; try done. rewrite Zminus_mod_idemp_r. replace (i - (i + 1)) with (-1) by lia.
    rewrite <- (Z.mod_add (-1) 1 N), Z.mod_small by lia. lia.
  - rewrite bd_at_insert by (done || (apply Z.mod_pos_bound; lia)). rewrite Z.add_mod_idemp_l by lia.
    replace (i + 1 + Z.of_nat n) with (i + 1 * N) by lia. rewrite Z.mod_add, Z.mod_small, Z.eqb_refl by lia. done.
Qed.

(** The number of descriptors from [a] up to [b]. *)
Definition span (a b : Z) : nat := Z.to_nat ((b - a) mod N).

Lemma span_lt a b : Z.of_nat (span a b) < N.
Proof. unfold span. pose proof (Z.mod_pos_bound (b - a) N). lia. Qed.

Lemma span_z a b : Z.of_nat (span a b) = (b - a) mod N.
Proof. unfold span. pose proof (Z.mod_pos_bound (b - a) N). lia. Qed.

Lemma span_end a b : 0 <= b < N -> (a + Z.of_nat (span a b)) mod N = b.
Proof. intros Hb. rewrite span_z, Z.add_mod_idemp_r by lia. replace (a + (b - a)) with b by lia. by apply Z.mod_small. Qed.

Lemma span_add a b k : 0 <= b < N -> Z.of_nat (span a b) + k < N -> 0 <= k -> Z.of_nat (span a ((b + k) mod N)) = Z.of_nat (span a b) + k.
Proof.
  intros Hb Hk H0. rewrite !span_z in *. rewrite Zminus_mod_idemp_l. replace (b + k - a) with (b - a + k) by lia.
  rewrite <- (Z.add_mod_idemp_l (b - a)) by lia. apply Z.mod_small. pose proof (Z.mod_pos_bound (b - a) N). lia.
Qed.

Lemma span_cons a b : 0 <= a < N -> 0 <= b < N -> a <> b -> span a b = S (span ((a + 1) mod N) b).
Proof.
  intros Ha Hb Hab. apply Nat2Z.inj. rewrite Nat2Z.inj_succ, !span_z, Zminus_mod_idemp_r.
  assert (H : 0 < (b - a) mod N).
  { pose proof (Z.mod_pos_bound (b - a) N). destruct (decide ((b - a) mod N = 0)) as [E|]; [|lia].
    apply Z.mod_divide in E as [q E]; [|lia]. destruct (Z.lt_trichotomy q 0) as [?|[->|?]]; nia. }
  replace (b - (a + 1)) with (b - a - 1) by lia. rewrite <- (Zminus_mod_idemp_l (b - a)).
  rewrite (Z.mod_small ((b - a) mod N - 1)); [lia|]. pose proof (Z.mod_pos_bound (b - a) N). lia.
Qed.

Lemma span_same a : span a a = O.
Proof. unfold span. by rewrite Z.sub_diag. Qed.

Lemma index_inj a i j : 0 <= i < N -> 0 <= j < N -> (a + i) mod N = (a + j) mod N -> i = j.
Proof.
  intros Hi Hj E. assert (H : (a + i - (a + j)) mod N = 0) by (rewrite Zminus_mod, E, Z.sub_diag; apply Z.mod_0_l; lia).
  apply Z.mod_divide in H as [q H]; [|lia]. destruct (Z.lt_trichotomy q 0) as [?|[->|?]]; nia.
Qed.

(** Every index of the ring is in the window or behind it. *)
Lemma index_cases a j c : 0 <= j < N -> (c <= Z.to_nat N)%nat ->
  (exists k, (k < c)%nat /\ j = (a + Z.of_nat k) mod N) \/ Z.of_nat c <= (j - a) mod N.
Proof.
  intros Hj Hc. destruct (decide ((j - a) mod N < Z.of_nat c)) as [H|H]; [left|right; lia].
  exists (span a j). split; [rewrite <- span_z in H; lia|by rewrite span_end].
Qed.
End Ring.
