(* ===== verification/AxiTx.v ===== *)
(** * The Ethernet driver: sending

    Models the transmit path of src/driver/xilinx/xilinx_axienet_main.c over the multi-channel DMA, as the TSN endpoint
    builds it (CONFIG_AXIENET_HAS_MCDMA and CONFIG_XILINX_TSN, without the time stamps of CONFIG_XILINX_AXI_EMAC_HWTSTAMP):
    [axienet_queue_xmit] puts a packet into the ring of a queue and tells the hardware, [axienet_start_xmit_done] takes
    back what was sent. The state is one queue with what the driver did to the outside: packets given back, mappings
    released, the tail pointers written. A call is one step: [axienet_queue_xmit] holds the lock of the queue
    ([tx_lock]), while [axienet_start_xmit_done], which the interrupt calls, takes no lock in the program, so that runs in
    which it starts in the middle of a transmission on another processor are outside the model. The addresses that
    the DMA mapping gives are arguments. *)
From stdpp Require Import relations.
From S2P Require Import Prelude AxiRing.

Definition TX_BD_NUM : Z := 64.
Definition XAE_MAX_PKT_LEN : Z := 8192.
Definition XXV_MAC_MIN_PKT_LEN : Z := 64.
Definition XAXIDMA_BD_CTRL_LENGTH_MASK : Z := 0x007FFFFF.
Definition XAXIDMA_BD_STS_ACTUAL_LEN_MASK : Z := 0x007FFFFF.
Definition XAXIDMA_BD_STS_COMPLETE_MASK : Z := 0x80000000.
Definition XMCDMA_BD_CTRL_TXSOF_MASK : Z := 0x80000000.
Definition XMCDMA_BD_CTRL_TXEOF_MASK : Z := 0x40000000.
Definition XMCDMA_BD_STS_ALL_MASK : Z := 0xF0000000.
Definition XAE_FEATURE_PARTIAL_RX_CSUM : Z := BIT 0.
Definition XAE_FEATURE_FULL_RX_CSUM : Z := BIT 2.
Definition XAE_FEATURE_FULL_TX_CSUM : Z := BIT 3.
(** The size of a descriptor, which is aligned to 128 bytes. *)
Definition sizeof_aximcdma_bd : Z := 128.

Inductive axienet_ip_type := XAXIENET_1G | XAXIENET_2_5G | XAXIENET_LEGACY_10G | XAXIENET_10G_25G.
#[export] Instance axienet_ip_type_eq_dec : EqDecision axienet_ip_type.
Proof. solve_decision. Defined.
Inductive checksum := CHECKSUM_NONE | CHECKSUM_UNNECESSARY | CHECKSUM_COMPLETE | CHECKSUM_PARTIAL.
#[export] Instance checksum_eq_dec : EqDecision checksum.
Proof. solve_decision. Defined.
Inductive mapping := DESC_DMA_MAP_SINGLE | DESC_DMA_MAP_PAGE.
Inductive netdev_tx := NETDEV_TX_OK | NETDEV_TX_BUSY.

(** A descriptor of the ring, shared with the hardware; for sending, [b_sband] is its status. *)
Record aximcdma_bd := mkBd {
  b_phys : Z; b_cntrl : Z; b_status : Z; b_sband : Z; b_app0 : Z; b_app1 : Z; b_app2 : Z; b_app4 : Z; b_tx_skb : Z; b_mapping : mapping }.
Definition zero_bd : aximcdma_bd := mkBd 0 0 0 0 0 0 0 0 0 DESC_DMA_MAP_SINGLE.
Definition set_apps (a0 a1 : Z) (b : aximcdma_bd) : aximcdma_bd :=
  mkBd (b_phys b) (b_cntrl b) (b_status b) (b_sband b) a0 a1 (b_app2 b) (b_app4 b) (b_tx_skb b) (b_mapping b).
Definition set_buf (phys cntrl : Z) (b : aximcdma_bd) : aximcdma_bd :=
  mkBd phys cntrl (b_status b) (b_sband b) (b_app0 b) (b_app1 b) (b_app2 b) (b_app4 b) (b_tx_skb b) (b_mapping b).
Definition set_mapping (m : mapping) (b : aximcdma_bd) : aximcdma_bd :=
  mkBd (b_phys b) (b_cntrl b) (b_status b) (b_sband b) (b_app0 b) (b_app1 b) (b_app2 b) (b_app4 b) (b_tx_skb b) m.
Definition set_last (skb : Z) (b : aximcdma_bd) : aximcdma_bd :=
  mkBd (b_phys b) (b_cntrl b ||| XMCDMA_BD_CTRL_TXEOF_MASK) (b_status b) (b_sband b) (b_app0 b) (b_app1 b) (b_app2 b) (b_app4 b) skb (b_mapping b).
Definition set_sband (v : Z) (b : aximcdma_bd) : aximcdma_bd :=
  mkBd (b_phys b) (b_cntrl b) (b_status b) v (b_app0 b) (b_app1 b) (b_app2 b) (b_app4 b) (b_tx_skb b) (b_mapping b).

(** What the device and the queue are like. *)
Record tx_conf := mkTxConf {
  mactype : axienet_ip_type; eth_hasnobuf : bool; features : Z; eth_hasdre : bool; tx_bd_p : Z; tx_bufs_dma : Z }.

(** A queue: its ring, whether the stack may not use it, and what was done outside, oldest first. *)
Record txq := mkTxq {
  txq_bd_v : list aximcdma_bd; tx_bd_ci : Z; tx_bd_tail : Z; tx_packets : Z; tx_bytes : Z; stopped : bool;
  freed : list Z; unmapped : list (mapping * Z * Z); tails : list Z }.
Definition set_ring (l : list aximcdma_bd) (q : txq) : txq :=
  mkTxq l (tx_bd_ci q) (tx_bd_tail q) (tx_packets q) (tx_bytes q) (stopped q) (freed q) (unmapped q) (tails q).
Definition set_tail (i : Z) (q : txq) : txq :=
  mkTxq (txq_bd_v q) (tx_bd_ci q) i (tx_packets q) (tx_bytes q) (stopped q) (freed q) (unmapped q) (tails q).
Definition set_stopped (b : bool) (q : txq) : txq :=
  mkTxq (txq_bd_v q) (tx_bd_ci q) (tx_bd_tail q) (tx_packets q) (tx_bytes q) b (freed q) (unmapped q) (tails q).
Definition bdout (tail_p : Z) (q : txq) : txq :=
  mkTxq (txq_bd_v q) (tx_bd_ci q) (tx_bd_tail q) (tx_packets q) (tx_bytes q) (stopped q) (freed q) (unmapped q) (tails q ++ [tail_p]).
(** The descriptor at [i] is changed by [f]. *)
Definition upd_bd (i : Z) (f : aximcdma_bd -> aximcdma_bd) (q : txq) : txq :=
  set_ring (<[Z.to_nat i := f (bd_at zero_bd (txq_bd_v q) i)]> (txq_bd_v q)) q.

(** ** Sending *)

(** A packet: its address, that of its data, the bytes of the linear part, the lengths of the fragments. *)
Record sk_buff := mkSkb {
  skb_ptr : Z; skb_data : Z; skb_headlen : Z; skb_frags : list Z; ip_summed : checksum; skb_transport_offset : Z; skb_csum_offset : Z }.
Definition skb_len (skb : sk_buff) : Z := fold_left Z.add (skb_frags skb) (skb_headlen skb).

Definition CIRC_SPACE (head tail size : Z) : Z := u32 (tail - (head + 1)) &&& (size - 1).
Definition axienet_check_tx_bd_space (q : txq) (num_frag : Z) : bool :=
  (CIRC_SPACE (tx_bd_tail q) (tx_bd_ci q) TX_BD_NUM <? num_frag + 1)
  || truthy (b_sband (bd_at zero_bd (txq_bd_v q) (u32 (tx_bd_tail q + num_frag) mod TX_BD_NUM)) &&& XMCDMA_BD_STS_ALL_MASK).

(** The words that ask the hardware for the checksum. *)
Definition csum_words (c : tx_conf) (skb : sk_buff) (b : aximcdma_bd) : aximcdma_bd :=
  let possible := negb (eth_hasnobuf c) && bool_decide (mactype c = XAXIENET_1G) in
  match ip_summed skb with
  | CHECKSUM_PARTIAL =>
      if possible then
        if truthy (features c &&& XAE_FEATURE_FULL_TX_CSUM) then set_apps (b_app0 b ||| 2) (b_app1 b) b
        else if truthy (features c &&& XAE_FEATURE_PARTIAL_RX_CSUM) then
          let csum_start_off := u32 (skb_transport_offset skb) in
          let csum_index_off := u32 (csum_start_off + skb_csum_offset skb) in
          set_apps (b_app0 b ||| 1) (u32 (csum_start_off <<< 16) ||| csum_index_off) b
        else b
      else b
  | CHECKSUM_UNNECESSARY => if possible then set_apps (b_app0 b ||| 2) (b_app1 b) b else b
  | _ => b
  end.

Definition tx_pad (c : tx_conf) (skb : sk_buff) : Z :=
  if (skb_len skb <? XXV_MAC_MIN_PKT_LEN) && bool_decide (mactype c = XAXIENET_10G_25G) then XXV_MAC_MIN_PKT_LEN - skb_len skb else 0.

(** The fragments from number [ii] on; [phys ii] is the address of fragment [ii]. *)
Fixpoint put_frags (phys : nat -> Z) (pad : Z) (ii : nat) (frags : list Z) (q : txq) : txq :=
  match frags with
  | [] => q
  | len :: frags' =>
      let q := set_tail (next TX_BD_NUM (tx_bd_tail q)) q in
      let cntrl := u32 (match frags' with [] => len + pad | _ => len end) in
      put_frags phys pad (S ii) frags' (upd_bd (tx_bd_tail q) (fun b => set_mapping DESC_DMA_MAP_PAGE (set_buf (phys ii) cntrl b)) q)
  end.

(** Without the realignment engine a packet that is not aligned, or has fragments, is copied to the buffer of its
    descriptor. *)
Definition bounced (c : tx_conf) (skb : sk_buff) : bool :=
  negb (eth_hasdre c) && (truthy (skb_data skb &&& 3) || (0 <? Z.of_nat (length (skb_frags skb)))).

(** The descriptors of a packet, from the tail on; the tail is left on the last of them. [phys] is the address of the
    linear part, [frag_phys] those of the fragments. *)
Definition put_packet (c : tx_conf) (phys : Z) (frag_phys : nat -> Z) (skb : sk_buff) (q : txq) : txq :=
  let pad := tx_pad c skb in
  let first := tx_bd_tail q in
  let q := upd_bd first (csum_words c skb) q in
  let q :=
    if bounced c skb then
      upd_bd first (set_buf (tx_bufs_dma c + first * XAE_MAX_PKT_LEN) (u32 (skb_len skb) ||| XMCDMA_BD_CTRL_TXSOF_MASK)) q
    else
      let cntrl := u32 ((skb_headlen skb ||| XMCDMA_BD_CTRL_TXSOF_MASK) + (match skb_frags skb with [] => pad | _ => 0 end)) in
      put_frags frag_phys pad 0 (skb_frags skb) (upd_bd first (fun b => set_mapping DESC_DMA_MAP_SINGLE (set_buf phys cntrl b)) q) in
  upd_bd (tx_bd_tail q) (set_last (skb_ptr skb)) q.

Definition axienet_queue_xmit (c : tx_conf) (phys : Z) (frag_phys : nat -> Z) (skb : sk_buff) (q : txq) : netdev_tx * txq :=
  if axienet_check_tx_bd_space q (Z.of_nat (length (skb_frags skb))) then (NETDEV_TX_BUSY, set_stopped true q) else
  let q := put_packet c phys frag_phys skb q in
  let q := bdout (tx_bd_p c + sizeof_aximcdma_bd * tx_bd_tail q) q in
  (NETDEV_TX_OK, set_tail (next TX_BD_NUM (tx_bd_tail q)) q).

(** ** Taking back *)

(** A descriptor that was taken back; its address, length and kind of mapping stay. *)
Definition clear_bd (b : aximcdma_bd) : aximcdma_bd := mkBd (b_phys b) (b_cntrl b) 0 0 0 0 0 0 0 (b_mapping b).

(** Descriptors are taken from [tx_bd_ci] on while they are complete; [None] when [rounds] did not suffice. *)
Fixpoint done_loop (rounds : nat) (q : txq) (size packets : Z) : option (txq * Z * Z) :=
  match rounds with
  | O => None
  | S rounds =>
      let b := bd_at zero_bd (txq_bd_v q) (tx_bd_ci q) in
      let status := b_sband b in
      if truthy (status &&& XAXIDMA_BD_STS_COMPLETE_MASK) then
        let q' := mkTxq (<[Z.to_nat (tx_bd_ci q) := clear_bd b]> (txq_bd_v q)) (next TX_BD_NUM (tx_bd_ci q)) (tx_bd_tail q) (tx_packets q) (tx_bytes q)
                    (stopped q) (if truthy (b_tx_skb b) then freed q ++ [b_tx_skb b] else freed q)
                    (unmapped q ++ [(b_mapping b, b_phys b, b_cntrl b &&& XAXIDMA_BD_CTRL_LENGTH_MASK)]) (tails q) in
        done_loop rounds q' (u32 (size + (status &&& XAXIDMA_BD_STS_ACTUAL_LEN_MASK))) (u32 (packets + 1))
      else Some (q, size, packets)
  end.
Definition axienet_start_xmit_done (rounds : nat) (q : txq) : option txq :=
  match done_loop rounds q 0 0 with
  | None => None
  | Some (q, size, packets) =>
      Some (mkTxq (txq_bd_v q) (tx_bd_ci q) (tx_bd_tail q) (u64 (tx_packets q + packets)) (u64 (tx_bytes q + size)) false
              (freed q) (unmapped q) (tails q))
  end.

(** The queue [axienet_mcdma_tx_q_init] sets up, as far as sending is concerned. *)
Definition empty_txq : txq := mkTxq (repeat zero_bd (Z.to_nat TX_BD_NUM)) 0 0 0 0 false [] [] [].

(** * Properties *)

(** ** The ring as a queue *)
#[local] Abbreviation N := TX_BD_NUM.
Definition in_flight (q : txq) : list aximcdma_bd := window N zero_bd (txq_bd_v q) (tx_bd_ci q) (span N (tx_bd_ci q) (tx_bd_tail q)).
Definition pending (q : txq) : list Z := filter (fun p => p <> 0) (map b_tx_skb (in_flight q)).

(** A descriptor that is nobody's. *)
Definition idle (b : aximcdma_bd) : Prop := b_sband b = 0 /\ b_tx_skb b = 0 /\ b_app0 b = 0 /\ b_app1 b = 0.

Record txq_ok (q : txq) : Prop := {
  ok_len : length (txq_bd_v q) = Z.to_nat N;
  ok_ci : 0 <= tx_bd_ci q < N;
  ok_tail : 0 <= tx_bd_tail q < N;
  ok_idle k : Z.of_nat (span N (tx_bd_ci q) (tx_bd_tail q)) <= k < N -> idle (bd_at zero_bd (txq_bd_v q) ((tx_bd_ci q + k) mod N)) }.

Lemma N_pos : 0 < N.
Proof. done. Qed.
#[local] Hint Resolve N_pos : core.

Lemma upd_upd i f g q : length (txq_bd_v q) = Z.to_nat N -> 0 <= i < N -> upd_bd i g (upd_bd i f q) = upd_bd i (fun b => g (f b)) q.
Proof.
  intros Hl Hi. unfold upd_bd, set_ring. cbn. rewrite (bd_at_insert N) by (done || lia). rewrite Z.eqb_refl. by rewrite list_insert_insert_eq.
Qed.

Lemma upd_at i f q j : length (txq_bd_v q) = Z.to_nat N -> 0 <= i < N -> 0 <= j ->
  bd_at zero_bd (txq_bd_v (upd_bd i f q)) j = if j =? i then f (bd_at zero_bd (txq_bd_v q) i) else bd_at zero_bd (txq_bd_v q) j.
Proof. intros Hl Hi Hj. unfold upd_bd. cbn. by apply (bd_at_insert N). Qed.

(** What the hardware reads of a descriptor, and whose packet it ends. *)
Definition view (b : aximcdma_bd) : Z * Z * Z * Z := (b_phys b, b_cntrl b, b_sband b, b_tx_skb b).

Fixpoint frag_views (phys : nat -> Z) (pad skb : Z) (ii : nat) (frags : list Z) : list (Z * Z * Z * Z) :=
  match frags with
  | [] => []
  | [len] => [(phys ii, u32 (len + pad) ||| XMCDMA_BD_CTRL_TXEOF_MASK, 0, skb)]
  | len :: frags => (phys ii, u32 len, 0, 0) :: frag_views phys pad skb (S ii) frags
  end.
(** The descriptors of a packet that is sent from [tail] on: the first marked, the last marked and with the packet. *)
Definition packet_views (c : tx_conf) (phys : Z) (frag_phys : nat -> Z) (skb : sk_buff) (tail : Z) : list (Z * Z * Z * Z) :=
  if bounced c skb then
    [(tx_bufs_dma c + tail * XAE_MAX_PKT_LEN, u32 (skb_len skb) ||| XMCDMA_BD_CTRL_TXSOF_MASK ||| XMCDMA_BD_CTRL_TXEOF_MASK, 0, skb_ptr skb)]
  else match skb_frags skb with
  | [] => [(phys, u32 ((skb_headlen skb ||| XMCDMA_BD_CTRL_TXSOF_MASK) + tx_pad c skb) ||| XMCDMA_BD_CTRL_TXEOF_MASK, 0, skb_ptr skb)]
  | frags => (phys, u32 (skb_headlen skb ||| XMCDMA_BD_CTRL_TXSOF_MASK), 0, 0) :: frag_views frag_phys (tx_pad c skb) (skb_ptr skb) 0 frags
  end.

(** What a part of sending leaves alone. *)
Definition same_rest (q q' : txq) : Prop :=
  tx_bd_ci q' = tx_bd_ci q /\ length (txq_bd_v q') = length (txq_bd_v q) /\ tx_packets q' = tx_packets q /\ tx_bytes q' = tx_bytes q
  /\ stopped q' = stopped q /\ freed q' = freed q /\ unmapped q' = unmapped q.

(** [q'] continues the window of [n] descriptors of [q] by [new] ones; what lies behind is as it was. *)
Definition extends (q q' : txq) (n : nat) (new : list aximcdma_bd) : Prop :=
  same_rest q q' /\ window N zero_bd (txq_bd_v q') (tx_bd_ci q) (n + length new) = window N zero_bd (txq_bd_v q) (tx_bd_ci q) n ++ new
  /\ forall k, Z.of_nat (n + length new) <= k < N -> bd_at zero_bd (txq_bd_v q') ((tx_bd_ci q + k) mod N) = bd_at zero_bd (txq_bd_v q) ((tx_bd_ci q + k) mod N).

Lemma extends_one q n f i : length (txq_bd_v q) = Z.to_nat N -> 0 <= tx_bd_ci q < N -> Z.of_nat n < N -> i = (tx_bd_ci q + Z.of_nat n) mod N ->
  extends q (upd_bd i f q) n [f (bd_at zero_bd (txq_bd_v q) i)].
Proof.
  intros Hl Hc Hn ->. assert (Hb : 0 <= (tx_bd_ci q + Z.of_nat n) mod N < N) by (by apply Z.mod_pos_bound).
  split; [by split_and!; cbn; rewrite ?length_insert|]. split.
  - cbn [length]. rewrite Nat.add_1_r. by apply window_grow.
  - cbn [length]. intros k Hk. rewrite upd_at by (done || apply Z.mod_pos_bound; done). rewrite (proj2 (Z.eqb_neq _ _)); [done|].
    intros E. apply index_inj in E; lia.
Qed.

Ltac extend_one := match goal with |- extends _ (upd_bd ?i ?f ?q) ?n _ => apply (extends_one q n f i) end.

Lemma extends_app q q1 q2 n new1 new2 : extends q q1 n new1 -> extends q1 q2 (n + length new1) new2 -> extends q q2 n (new1 ++ new2).
Proof.
  intros (S1 & W1 & R1) (S2 & W2 & R2). destruct S1 as (A1 & A2 & A3 & A4 & A5 & A6 & A7). destruct S2 as (B1 & B2 & B3 & B4 & B5 & B6 & B7).
  split; [by split_and!; etransitivity|]. rewrite length_app, Nat.add_assoc. rewrite A1 in *. split.
  - by rewrite W2, W1, app_assoc.
  - intros k Hk. rewrite R2, R1 by lia. done.
Qed.

Lemma extends_tail q q' n new t : extends q q' n new -> extends q (set_tail t q') n new.
Proof. done. Qed.

Lemma tail_next q n : 0 <= tx_bd_ci q < N -> Z.of_nat n < N -> tx_bd_tail q = (tx_bd_ci q + Z.of_nat n) mod N ->
  next N (tx_bd_tail q) = (tx_bd_ci q + Z.of_nat (S n)) mod N.
Proof.
  intros Hc Hn ->. rewrite next_eq by (done || apply Z.mod_pos_bound; done). rewrite Z.add_mod_idemp_l by done. f_equal. lia.
Qed.

(** The fragments, and the mark on the last of them. *)
Lemma put_frags_extends phys pad skb : forall frags ii q n, frags <> [] -> length (txq_bd_v q) = Z.to_nat N -> 0 <= tx_bd_ci q < N ->
  tx_bd_tail q = (tx_bd_ci q + Z.of_nat n) mod N -> Z.of_nat (n + length frags) < N ->
  (forall k, Z.of_nat n < k < N -> idle (bd_at zero_bd (txq_bd_v q) ((tx_bd_ci q + k) mod N))) ->
  let q' := put_frags phys pad ii frags q in
  exists new, length new = length frags /\ extends q (upd_bd (tx_bd_tail q') (set_last skb) q') (S n) new
    /\ map view new = frag_views phys pad skb ii frags /\ tx_bd_tail q' = (tx_bd_ci q + Z.of_nat (n + length frags)) mod N /\ tails q' = tails q.
Proof.
  induction frags as [|len frags IH]; intros ii q n Hne Hl Hc Ht Hn Hidle; [done|]. cbn [put_frags]. cbv zeta.
  cbn [length] in Hn. pose proof (tail_next q n Hc ltac:(lia) Ht) as Hnx. set (t1 := next N (tx_bd_tail q)) in *. cbn [tx_bd_tail set_tail].
  destruct (Hidle (Z.of_nat (S n)) ltac:(lia)) as (Hi1 & Hi2 & _). rewrite <- Hnx in Hi1, Hi2.
  assert (Hb : 0 <= t1 < N) by (rewrite Hnx; by apply Z.mod_pos_bound).
  destruct frags as [|len2 frags].
  - cbn [put_frags tx_bd_tail upd_bd set_ring set_tail]. eexists [_]. split; [done|]. split; [|split; [|split; [|done]]].
    + match goal with |- extends _ ?x _ _ => change x with (upd_bd t1 (set_last skb) (upd_bd t1 (fun b => set_mapping DESC_DMA_MAP_PAGE (set_buf (phys ii) (u32 (len + pad)) b)) (set_tail t1 q))) end.
      rewrite upd_upd by done. extend_one; try done; lia.
    + cbn. unfold view. cbn. by rewrite Hi1.
    + rewrite Hnx. cbn. do 2 f_equal. lia.
  - set (q1 := upd_bd t1 _ _).
    assert (E1 : extends q q1 (S n) [set_mapping DESC_DMA_MAP_PAGE (set_buf (phys ii) (u32 len) (bd_at zero_bd (txq_bd_v q) t1))]).
    { subst q1. extend_one; try done; lia. }
    pose proof E1 as ((C1 & C2 & _) & _ & R1).
    destruct (IH (S ii) q1 (S n)) as (new & L2 & E2 & V2 & T2 & X2); [done|by rewrite C2|by rewrite C1|by rewrite C1|cbn [length] in *; lia| |].
    { intros k Hk. rewrite C1, R1 by (cbn; lia). apply Hidle. lia. }
    cbv zeta in T2, E2. rewrite C1 in T2. eexists (_ :: new). split; [by cbn; rewrite L2|]. split; [|split; [|split; [|by rewrite X2]]].
    + apply (extends_app _ _ _ _ [_] new E1). cbn [length]. replace (S n + 1)%nat with (S (S n)) by lia. exact E2.
    + cbn [map frag_views]. rewrite V2. f_equal. unfold view. cbn. by rewrite Hi1, Hi2.
    + rewrite T2. cbn [length]. do 2 f_equal. lia.
Qed.

Lemma csum_keeps c skb b : b_sband (csum_words c skb b) = b_sband b /\ b_tx_skb (csum_words c skb b) = b_tx_skb b.
Proof. unfold csum_words. destruct (ip_summed skb); try done; destruct (_ && _); try done. destruct (truthy _); [done|by destruct (truthy _)]. Qed.

Lemma circ_space q : txq_ok q -> CIRC_SPACE (tx_bd_tail q) (tx_bd_ci q) N = N - 1 - Z.of_nat (span N (tx_bd_ci q) (tx_bd_tail q)).
Proof.
  intros Hq. pose proof (ok_ci q Hq). pose proof (ok_tail q Hq). unfold CIRC_SPACE. change (N - 1) with (Z.ones 6). rewrite Z.land_ones by lia.
  rewrite span_z by done. unfold u32. change N with 64 in *. change (Z.ones 6) with 63. change (2 ^ 6) with 64. change (2 ^ 32) with (64 * 2 ^ 26).
  rewrite Z.mod_mod_divide by (by exists (2 ^ 26)). dlia.
Qed.

(** The status of the last descriptor never refuses what the count of free descriptors allows. *)
Lemma check_space q n : txq_ok q -> 0 <= n ->
  axienet_check_tx_bd_space q n = (N - 1 - Z.of_nat (span N (tx_bd_ci q) (tx_bd_tail q)) <? n + 1).
Proof.
  intros Hq Hn. unfold axienet_check_tx_bd_space. rewrite circ_space by done. destruct (_ <? n + 1) eqn:E; [done|]. bprop. cbn [orb].
  pose proof (ok_ci q Hq). pose proof (ok_tail q Hq). rewrite u32_small by (change N with 64 in *; lia).
  destruct (ok_idle q Hq (Z.of_nat (span N (tx_bd_ci q) (tx_bd_tail q)) + n)) as [Hs _]; [lia|].
  rewrite Z.add_assoc, <- Z.add_mod_idemp_l, span_end in Hs by done. by rewrite Hs.
Qed.

Lemma extends_finish q q' new t : txq_ok q -> extends q q' (span N (tx_bd_ci q) (tx_bd_tail q)) new ->
  Z.of_nat (span N (tx_bd_ci q) (tx_bd_tail q) + length new) < N -> t = (tx_bd_ci q + Z.of_nat (span N (tx_bd_ci q) (tx_bd_tail q) + length new)) mod N ->
  txq_ok (set_tail t q') /\ in_flight (set_tail t q') = in_flight q ++ new.
Proof.
  intros Hq ((C1 & C2 & _) & W & R) Hn ->. pose proof (ok_ci q Hq). pose proof (ok_tail q Hq). set (n := span N _ _) in *.
  assert (E : span N (tx_bd_ci q) ((tx_bd_ci q + Z.of_nat (n + length new)) mod N) = (n + length new)%nat).
  { apply Nat2Z.inj. rewrite span_z by done. rewrite Zminus_mod_idemp_l. replace (tx_bd_ci q + _ - _) with (Z.of_nat (n + length new)) by lia.
    by apply Z.mod_small; lia. }
  split; [split; cbn|].
  - by rewrite C2, ok_len.
  - by rewrite C1.
  - by apply Z.mod_pos_bound.
  - rewrite C1, E. intros k Hk. rewrite R by lia. apply (ok_idle q Hq). unfold n in *. lia.
  - unfold in_flight. cbn [txq_bd_v tx_bd_ci tx_bd_tail set_tail]. rewrite C1, E. exact W.
Qed.

Lemma put_packet_extends c phys fp skb q : txq_ok q -> let n := span N (tx_bd_ci q) (tx_bd_tail q) in
  Z.of_nat (n + length (skb_frags skb)) < N ->
  exists new, extends q (put_packet c phys fp skb q) n new /\ (1 <= length new <= 1 + length (skb_frags skb))%nat
    /\ tx_bd_tail (put_packet c phys fp skb q) = (tx_bd_ci q + Z.of_nat (n + length new) - 1) mod N
    /\ tails (put_packet c phys fp skb q) = tails q /\ map view new = packet_views c phys fp skb (tx_bd_tail q).
Proof.
  intros Hq n Hn. pose proof (ok_len q Hq) as Hl. pose proof (ok_ci q Hq) as Hc. pose proof (ok_tail q Hq) as Htl.
  assert (Ht : tx_bd_tail q = (tx_bd_ci q + Z.of_nat n) mod N) by (symmetry; by apply span_end).
  destruct (ok_idle q Hq (Z.of_nat n) ltac:(fold n; lia)) as (Hi1 & Hi2 & _). rewrite <- Ht in Hi1, Hi2.
  destruct (csum_keeps c skb (bd_at zero_bd (txq_bd_v q) (tx_bd_tail q))) as [Hs1 Hs2]. rewrite Hi1 in Hs1. rewrite Hi2 in Hs2.
  unfold put_packet, packet_views. destruct (bounced c skb).
  - cbn [tx_bd_tail upd_bd set_ring]. rewrite !upd_upd by (done || cbn; by rewrite length_insert).
    eexists. split; [extend_one; try done; lia|]. cbn. unfold view. cbn. rewrite Hs1. split; [lia|]. split; [rewrite Ht; f_equal; lia|done].
  - destruct (skb_frags skb) as [|len frags].
    + cbn [put_frags tx_bd_tail upd_bd set_ring]. rewrite !upd_upd by (done || cbn; by rewrite length_insert).
      eexists. split; [extend_one; try done; lia|]. cbn. unfold view. cbn. rewrite Hs1. split; [lia|]. split; [rewrite Ht; f_equal; lia|done].
    + rewrite Z.add_0_r, upd_upd by done. match goal with |- context [put_frags _ _ _ _ ?x] => set (q1 := x) end.
      assert (E1 : extends q q1 n [set_mapping DESC_DMA_MAP_SINGLE (set_buf phys (u32 (skb_headlen skb ||| XMCDMA_BD_CTRL_TXSOF_MASK))
          (csum_words c skb (bd_at zero_bd (txq_bd_v q) (tx_bd_tail q))))]) by (subst q1; extend_one; try done; lia).
      pose proof E1 as ((C1 & C2 & _) & _ & R1). cbn [length] in Hn.
      destruct (put_frags_extends fp (tx_pad c skb) (skb_ptr skb) (len :: frags) 0 q1 n) as (new & L & E2 & V & T & X); [done|by rewrite C2|by rewrite C1|by rewrite C1|cbn; lia| |].
      { intros k Hk. rewrite C1, R1 by (cbn; lia). apply (ok_idle q Hq). fold n. lia. }
      exists (set_mapping DESC_DMA_MAP_SINGLE (set_buf phys (u32 (skb_headlen skb ||| XMCDMA_BD_CTRL_TXSOF_MASK))
          (csum_words c skb (bd_at zero_bd (txq_bd_v q) (tx_bd_tail q)))) :: new). split; [|split; [|split; [|split; [exact X|]]]].
      * apply (extends_app _ _ _ _ [_] new E1). cbn [length]. rewrite Nat.add_1_r. exact E2.
      * cbn [length] in *. rewrite L. lia.
      * cbv zeta in T. cbn [tx_bd_tail upd_bd set_ring]. rewrite T, C1. cbn [length]. rewrite L. cbn [length]. f_equal. lia.
      * cbn [map]. rewrite V. f_equal. unfold view. cbn. by rewrite Hs1, Hs2.
Qed.

(** A packet is taken where the ring has room for its parts: its descriptors join the end of those in flight, marked,
    with the addresses and lengths of its parts, and the hardware is told the address of the last. Where there is no room
    nothing changes but that the queue is stopped. *)
Theorem axienet_queue_xmit_appends c phys fp skb q : txq_ok q ->
  let room := N - 1 - Z.of_nat (length (in_flight q)) in
  let parts := Z.of_nat (length (skb_frags skb)) + 1 in
  (room < parts -> axienet_queue_xmit c phys fp skb q = (NETDEV_TX_BUSY, set_stopped true q))
  /\ (parts <= room -> exists q' new, axienet_queue_xmit c phys fp skb q = (NETDEV_TX_OK, q') /\ txq_ok q'
      /\ in_flight q' = in_flight q ++ new /\ map view new = packet_views c phys fp skb (tx_bd_tail q)
      /\ tails q' = tails q ++ [tx_bd_p c + sizeof_aximcdma_bd * ((tx_bd_tail q + Z.of_nat (length new) - 1) mod N)]
      /\ freed q' = freed q /\ stopped q' = stopped q).
Proof.
  intros Hq room parts. unfold room, parts, in_flight. rewrite length_window. unfold axienet_queue_xmit. rewrite check_space by (done || lia).
  set (n := span N (tx_bd_ci q) (tx_bd_tail q)). split; intros Hr; [by rewrite (proj2 (Z.ltb_lt _ _) Hr)|].
  rewrite (proj2 (Z.ltb_ge _ _)) by lia. destruct (put_packet_extends c phys fp skb q Hq) as (new & He & Hlen & Ht & Hx & Hv); [fold n; lia|].
  fold n in He, Ht. set (q2 := put_packet c phys fp skb q) in *. set (q3 := bdout _ q2). exists (set_tail (next N (tx_bd_tail q3)) q3), new.
  destruct (extends_finish q q3 new (next N (tx_bd_tail q3)) Hq He) as [F1 F2]; [fold n; lia| |].
  { change (tx_bd_tail q3) with (tx_bd_tail q2). rewrite Ht, next_eq by (done || apply Z.mod_pos_bound; done). rewrite Z.add_mod_idemp_l by done. f_equal. fold n. lia. }
  split; [done|]. split; [exact F1|]. split; [exact F2|]. split; [done|]. destruct He as ((_ & _ & _ & _ & S1 & S2 & _) & _).
  split; [|done]. change (tails q2 ++ [tx_bd_p c + sizeof_aximcdma_bd * tx_bd_tail q2] = tails q ++ [tx_bd_p c + sizeof_aximcdma_bd * ((tx_bd_tail q + Z.of_nat (length new) - 1) mod N)]).
  rewrite Hx, Ht. do 4 f_equal. pose proof (ok_tail q Hq). rewrite <- (span_end N ltac:(done) (tx_bd_ci q) (tx_bd_tail q)) by lia.
  fold n. rewrite Z.add_sub_swap, <- Z.add_sub_assoc, Z.add_mod_idemp_l by done. f_equal. lia.
Qed.

(** ** Taking back *)
Definition complete (b : aximcdma_bd) : bool := truthy (b_sband b &&& XAXIDMA_BD_STS_COMPLETE_MASK).
Definition skbs (l : list aximcdma_bd) : list Z := filter (fun p => p <> 0) (map b_tx_skb l).
Definition unmap_of (b : aximcdma_bd) : mapping * Z * Z := (b_mapping b, b_phys b, b_cntrl b &&& XAXIDMA_BD_CTRL_LENGTH_MASK).

Lemma skbs_app l1 l2 : skbs (l1 ++ l2) = skbs l1 ++ skbs l2.
Proof. unfold skbs. by rewrite map_app, list.filter_app. Qed.

Lemma skbs_one b : skbs [b] = if truthy (b_tx_skb b) then [b_tx_skb b] else [].
Proof.
  unfold skbs, truthy. change (map b_tx_skb [b]) with [b_tx_skb b]. rewrite filter_cons, list.filter_nil.
  destruct (b_tx_skb b =? 0) eqn:E; bprop; cbn [negb]; case_decide; done.
Qed.

(** The first descriptor in flight is taken back. *)
Definition take_back (q : txq) : txq :=
  let b := bd_at zero_bd (txq_bd_v q) (tx_bd_ci q) in
  mkTxq (<[Z.to_nat (tx_bd_ci q) := clear_bd b]> (txq_bd_v q)) (next N (tx_bd_ci q)) (tx_bd_tail q) (tx_packets q) (tx_bytes q) (stopped q)
    (if truthy (b_tx_skb b) then freed q ++ [b_tx_skb b] else freed q) (unmapped q ++ [unmap_of b]) (tails q).

Lemma take_back_ok q b rest : txq_ok q -> in_flight q = b :: rest ->
  bd_at zero_bd (txq_bd_v q) (tx_bd_ci q) = b /\ txq_ok (take_back q) /\ in_flight (take_back q) = rest /\ freed (take_back q) = freed q ++ skbs [b].
Proof.
  intros Hq Hf. pose proof (ok_len q Hq) as Hl. pose proof (ok_ci q Hq) as Hc. pose proof (ok_tail q Hq) as Ht. unfold in_flight in Hf.
  destruct (decide (tx_bd_ci q = tx_bd_tail q)) as [E|Hne]; [rewrite E, span_same in Hf; discriminate Hf|].
  pose proof (span_cons N ltac:(done) _ _ Hc Ht Hne) as Hs. rewrite Hs in Hf. cbn [window] in Hf. injection Hf as Hb Hr.
  pose proof (span_lt N ltac:(done) (tx_bd_ci q) (tx_bd_tail q)) as Hlt. rewrite Hs in Hlt.
  assert (Hnx : tx_bd_ci (take_back q) = (tx_bd_ci q + 1) mod N) by (cbn; by apply next_eq).
  assert (Hm : 0 <= (tx_bd_ci q + 1) mod N < N) by (by apply Z.mod_pos_bound).
  split; [done|]. split; [split|split].
  - cbn. by rewrite length_insert.
  - by rewrite Hnx.
  - done.
  - rewrite Hnx. change (tx_bd_tail (take_back q)) with (tx_bd_tail q). intros k Hk. rewrite mod_step by done. cbn [take_back txq_bd_v].
    rewrite (bd_at_insert N) by (done || apply Z.mod_pos_bound; done). destruct (_ =? tx_bd_ci q) eqn:E; [done|]. bprop.
    apply (ok_idle q Hq). rewrite Hs. split; [lia|]. destruct (decide (1 + k = N)) as [Ek|]; [|lia]. exfalso. apply E. rewrite Ek.
    rewrite <- (Z.add_mod_idemp_r _ N), Z.mod_same, Z.add_0_r by done. by apply Z.mod_small.
  - unfold in_flight. rewrite Hnx. change (tx_bd_tail (take_back q)) with (tx_bd_tail q). cbn [take_back txq_bd_v]. rewrite <- Hr.
    apply window_insert_out; [done|done|done|done|]. rewrite Zminus_mod_idemp_r. replace (tx_bd_ci q - (tx_bd_ci q + 1)) with (-1) by lia.
    change (-1 mod N) with (N - 1). lia.
  - cbn [take_back freed]. rewrite skbs_one, Hb. destruct (truthy _); [done|by rewrite app_nil_r].
Qed.

(** What taking back makes of a queue: the complete descriptors [gone] from the front, and no others. *)
Record taken (q q' : txq) (gone rest : list aximcdma_bd) : Prop := {
  tk_ok : txq_ok q';
  tk_split : in_flight q = gone ++ rest;
  tk_gone : Forall (fun b => complete b = true) gone;
  tk_rest b : head rest = Some b -> complete b = false;
  tk_flight : in_flight q' = rest;
  tk_freed : freed q' = freed q ++ skbs gone;
  tk_unmapped : unmapped q' = unmapped q ++ map unmap_of gone;
  tk_tails : tails q' = tails q /\ tx_bd_tail q' = tx_bd_tail q }.

Lemma idle_incomplete b : idle b -> complete b = false.
Proof. unfold complete. by intros [-> _]. Qed.

Lemma taken_none q : txq_ok q -> complete (bd_at zero_bd (txq_bd_v q) (tx_bd_ci q)) = false -> taken q q [] (in_flight q).
Proof.
  intros Hq Hb. split; try done; [|by rewrite app_nil_r|by rewrite app_nil_r]. unfold in_flight. intros b.
  destruct (span _ _ _) as [|n]; [done|]. cbn. by intros [= <-].
Qed.

Lemma in_flight_nil q : txq_ok q -> in_flight q = [] -> complete (bd_at zero_bd (txq_bd_v q) (tx_bd_ci q)) = false.
Proof.
  intros Hq Hf. apply idle_incomplete. pose proof (ok_ci q Hq). unfold in_flight in Hf. apply (f_equal length) in Hf. rewrite length_window in Hf. cbn in Hf.
  rewrite <- (Z.mod_small (tx_bd_ci q) N), <- (Z.add_0_r (tx_bd_ci q)) at 1 by done. apply (ok_idle q Hq). rewrite Hf. lia.
Qed.

(** As many rounds as are in flight and one more are enough. *)
Lemma done_loop_spec rounds : forall q size packets, txq_ok q -> (length (in_flight q) < rounds)%nat -> 0 <= packets < 2 ^ 32 ->
  exists q' size' gone rest, done_loop rounds q size packets = Some (q', size', u32 (packets + Z.of_nat (length gone))) /\ taken q q' gone rest
    /\ tx_packets q' = tx_packets q.
Proof.
  induction rounds as [|rounds IH]; intros q size packets Hq Hr Hp; [lia|]. cbn [done_loop].
  change (truthy (b_sband ?b &&& XAXIDMA_BD_STS_COMPLETE_MASK)) with (complete b).
  destruct (complete _) eqn:Eb.
  2: { exists q, size, [], (in_flight q). cbn. rewrite Z.add_0_r, u32_small by lia. split; [done|]. split; [by apply taken_none|done]. }
  destruct (in_flight q) as [|b rest] eqn:Ef; [by rewrite in_flight_nil in Eb|].
  destruct (take_back_ok q b rest Hq Ef) as (Hb & Hq1 & Hf1 & Hfr). rewrite Hb in Eb.
  match goal with |- context [done_loop rounds ?x ?y _] => change x with (take_back q); set (size1 := y) end.
  destruct (IH (take_back q) size1 (u32 (packets + 1)) Hq1) as (q' & size' & gone & rest' & E & T & Hpk); [rewrite Hf1; cbn in Hr; lia|apply u32_range|].
  exists q', size', (b :: gone), rest'. split; [|split; [|by rewrite Hpk]].
  - rewrite E. do 2 f_equal. unfold u32. rewrite Z.add_mod_idemp_l by done. f_equal. cbn [length]. lia.
  - destruct T as [T1 T2 T3 T4 T5 T6 T7 [T8 T9]]. split; try done.
    + by rewrite Ef, <- Hf1, T2.
    + by constructor.
    + rewrite T6, Hfr, <- app_assoc. f_equal. change (b :: gone) with ([b] ++ gone). by rewrite skbs_app.
    + rewrite T7. cbn [take_back unmapped]. by rewrite Hb, <- app_assoc.
Qed.

(** ** Runs *)
Inductive tx_step (c : tx_conf) : list Z * txq -> list Z * txq -> Prop :=
| step_xmit acc q phys fp skb ret q' : skb_ptr skb <> 0 -> axienet_queue_xmit c phys fp skb q = (ret, q') ->
    tx_step c (acc, q) (match ret with NETDEV_TX_OK => acc ++ [skb_ptr skb] | NETDEV_TX_BUSY => acc end, q')
| step_done acc q q' : axienet_start_xmit_done (Z.to_nat N) q = Some q' -> tx_step c (acc, q) (acc, q')
| step_hw acc q k status : (k < length (in_flight q))%nat ->
    tx_step c (acc, q) (acc, upd_bd ((tx_bd_ci q + Z.of_nat k) mod N) (set_sband status) q)
| step_wake acc q : tx_step c (acc, q) (acc, set_stopped false q).

Lemma skbs_views l : skbs l = filter (fun p => p <> 0) (map snd (map view l)).
Proof. unfold skbs. rewrite map_map. done. Qed.

Lemma frag_skbs phys pad skb : skb <> 0 -> forall frags ii, frags <> [] -> filter (fun p => p <> 0) (map snd (frag_views phys pad skb ii frags)) = [skb].
Proof.
  intros Hs. induction frags as [|len [|len2 frags] IH]; intros ii Hf; [done| |].
  - change (map snd (frag_views phys pad skb ii [len])) with [skb]. rewrite filter_cons, list.filter_nil. by rewrite decide_True.
  - change (map snd (frag_views phys pad skb ii (len :: len2 :: frags))) with (0 :: map snd (frag_views phys pad skb (S ii) (len2 :: frags))).
    rewrite filter_cons, decide_False by (intros Hx; by apply Hx). by apply IH.
Qed.

(** The packet is named once, by its last descriptor. *)
Lemma packet_skbs c phys fp skb tail : skb_ptr skb <> 0 ->
  filter (fun p => p <> 0) (map snd (packet_views c phys fp skb tail)) = [skb_ptr skb].
Proof.
  intros Hs. unfold packet_views. assert (H1 : filter (fun p => p <> 0) [skb_ptr skb] = [skb_ptr skb]) by (rewrite filter_cons, list.filter_nil; by rewrite decide_True).
  destruct (bounced c skb); [exact H1|]. destruct (skb_frags skb) as [|len frags]; [exact H1|].
  change (map snd (?v :: ?l)) with (0 :: map snd l). rewrite filter_cons, decide_False by (intros Hx; by apply Hx). by apply frag_skbs.
Qed.

Lemma hw_ok q k status : txq_ok q -> (k < length (in_flight q))%nat ->
  let q' := upd_bd ((tx_bd_ci q + Z.of_nat k) mod N) (set_sband status) q in
  txq_ok q' /\ map b_tx_skb (in_flight q') = map b_tx_skb (in_flight q) /\ freed q' = freed q.
Proof.
  intros Hq Hk q'. pose proof (ok_len q Hq) as Hl. pose proof (ok_ci q Hq) as Hc. unfold in_flight in Hk. rewrite length_window in Hk.
  pose proof (span_lt N ltac:(done) (tx_bd_ci q) (tx_bd_tail q)) as Hlt. assert (Hb : 0 <= (tx_bd_ci q + Z.of_nat k) mod N < N) by (by apply Z.mod_pos_bound).
  split; [split|split; [|done]].
  - cbn. by rewrite length_insert.
  - done.
  - apply Hq.
  - intros j Hj. cbn [q' upd_bd set_ring tx_bd_ci tx_bd_tail] in Hj. cbn [q' upd_bd set_ring tx_bd_ci txq_bd_v].
    rewrite (bd_at_insert N) by (done || apply Z.mod_pos_bound; done). rewrite (proj2 (Z.eqb_neq _ _)); [by apply (ok_idle q Hq)|].
    intros E. apply index_inj in E; lia.
  - unfold in_flight. cbn [q' upd_bd set_ring tx_bd_ci tx_bd_tail txq_bd_v]. rewrite window_insert_in by (done || lia).
    change (map b_tx_skb) with (fmap b_tx_skb : list aximcdma_bd -> list Z). rewrite list_fmap_insert. apply list_insert_id. 
    by rewrite list_lookup_fmap, window_lookup by lia.
Qed.

Lemma empty_ok : txq_ok empty_txq /\ in_flight empty_txq = [].
Proof.
  split; [|done]. split; try done. intros k _. cbn [empty_txq txq_bd_v]. unfold bd_at. destruct (repeat zero_bd _ !! _) as [b|] eqn:E; [|done].
  cbn. apply list_elem_of_lookup_2, list_elem_of_In, repeat_spec in E. by rewrite E.
Qed.

(** What holds of the packets accepted. *)
Definition conserved (x : list Z * txq) : Prop := txq_ok (snd x) /\ fst x = freed (snd x) ++ pending (snd x).

Lemma done_run q : txq_ok q -> exists q' gone rest, axienet_start_xmit_done (Z.to_nat N) q = Some q' /\ taken q q' gone rest
  /\ tx_packets q' = u64 (tx_packets q + Z.of_nat (length gone)) /\ stopped q' = false.
Proof.
  intros Hq. assert (Hlt : (length (in_flight q) < Z.to_nat N)%nat).
  { unfold in_flight. rewrite length_window. pose proof (span_lt N ltac:(done) (tx_bd_ci q) (tx_bd_tail q)). lia. }
  destruct (done_loop_spec (Z.to_nat N) q 0 0 Hq Hlt ltac:(done)) as (q1 & size & gone & rest & E & T & Hp).
  unfold axienet_start_xmit_done. rewrite E. eexists _, gone, rest. split; [reflexivity|]. cbn [tx_packets stopped]. rewrite Hp.
  split; [|split; [|done]].
  - destruct T as [T1 T2 T3 T4 T5 T6 T7 [T8 T9]]. by destruct T1.
  - f_equal. f_equal. rewrite Z.add_0_l. apply u32_small. rewrite (tk_split _ _ _ _ T), length_app in Hlt. change (Z.to_nat N) with 64%nat in Hlt. lia.
Qed.

Lemma tx_step_conserved c x y : conserved x -> tx_step c x y -> conserved y.
Proof.
  intros [Hq Ha] Hs. destruct Hs as [acc q phys fp skb ret q' Hne E|acc q q' E|acc q k status Hk|acc q]; cbn [fst snd] in *.
  - destruct (axienet_queue_xmit_appends c phys fp skb q Hq) as [Hbusy Hgo].
    destruct (decide (N - 1 - Z.of_nat (length (in_flight q)) < Z.of_nat (length (skb_frags skb)) + 1)) as [Hd|Hd].
    + rewrite Hbusy in E by done. injection E as <- <-. split; [by destruct Hq|done].
    + destruct Hgo as (q2 & new & E2 & Hq2 & Hf & Hv & _ & Hfr & _); [lia|]. rewrite E2 in E. injection E as <- <-.
      split; [done|]. cbn [fst snd]. change (pending ?q) with (skbs (in_flight q)) in *. rewrite Hfr, Hf, skbs_app, (skbs_views new), Hv, packet_skbs, Ha by done.
      by rewrite app_assoc.
  - destruct (done_run q Hq) as (q2 & gone & rest & E2 & T & _). rewrite E2 in E. injection E as <-. split; [apply T|]. cbn [fst snd].
    change (pending ?q) with (skbs (in_flight q)) in *. rewrite (tk_freed _ _ _ _ T), (tk_flight _ _ _ _ T), Ha, (tk_split _ _ _ _ T), skbs_app. by rewrite app_assoc.
  - destruct (hw_ok q k status Hq Hk) as (H1 & H2 & H3). split; [done|]. cbn [fst snd]. unfold pending. by rewrite H2, H3.
  - split; [by destruct Hq|done].
Qed.

(** C19: In every run of packets that are sent, descriptors the hardware finishes in any order, and interrupts, the packets the
    driver accepted are, in the order in which they were sent, those given back followed by those still in the ring: none
    is lost, given back twice or before its turn. The interrupt ends, and where all in flight are finished it gives back
    all. *)
Theorem axienet_tx_conserves c acc q : rtc (tx_step c) ([], empty_txq) (acc, q) ->
  acc = freed q ++ pending q /\ (length (in_flight q) <= 63)%nat
  /\ exists q', axienet_start_xmit_done (Z.to_nat N) q = Some q'
     /\ (Forall (fun b => complete b = true) (in_flight q) -> freed q' = acc /\ in_flight q' = []).
Proof.
  intros Hr. assert (H0 : conserved ([], empty_txq)) by (split; [apply empty_ok|done]).
  assert (H : conserved (acc, q)) by (revert H0; induction Hr as [|x y z Hxy _ IH]; [done|]; intros Hx; by apply IH, (tx_step_conserved c x)).
  destruct H as [Hq Ha]. cbn [fst snd] in *. split; [done|]. split.
  - unfold in_flight. rewrite length_window. pose proof (span_lt N ltac:(done) (tx_bd_ci q) (tx_bd_tail q)). change N with 64 in *. lia.
  - destruct (done_run q Hq) as (q' & gone & rest & E & T & _). exists q'. split; [done|]. intros Hall.
    assert (rest = []) as ->.
    { destruct rest as [|b rest]; [done|]. rewrite (tk_split _ _ _ _ T) in Hall. apply list.Forall_app in Hall as [_ Hall]. inversion Hall as [|? ? Hb _]; subst.
      by rewrite (tk_rest _ _ _ _ T b) in Hb. }
    rewrite (tk_freed _ _ _ _ T), (tk_flight _ _ _ _ T), Ha. unfold pending. rewrite (tk_split _ _ _ _ T), app_nil_r. done.
Qed.

(** ** What the hardware is told of a packet *)
Definition v_cntrl (v : Z * Z * Z * Z) : Z := snd (fst (fst v)).
Definition v_len (v : Z * Z * Z * Z) : Z := v_cntrl v &&& Z.ones 30.
Definition v_marks (v : Z * Z * Z * Z) : Z := v_cntrl v >>> 30.
Definition sum (l : list Z) : Z := foldr Z.add 0 l.
(** The first descriptor is marked with 2, the last with 1. *)
Definition marks (n : nat) : list Z := match n with O => [] | S O => [3] | S (S n) => 2 :: repeat 0 n ++ [1] end.

Lemma fold_sum l : forall a, fold_left Z.add l a = a + sum l.
Proof. induction l as [|x l IH]; intros a; [cbn; lia|]. cbn [fold_left]. rewrite IH. unfold sum. cbn [foldr]. lia. Qed.

Lemma sum_nonneg l : Forall (fun x => 0 <= x) l -> 0 <= sum l.
Proof. induction 1 as [|x l Hx _ IH]; cbn; [lia|]. unfold sum in IH. lia. Qed.

(** A length with marks above it. *)
Lemma marked x m : 0 <= x < 2 ^ 30 -> 0 <= m -> (x ||| (m <<< 30)) &&& Z.ones 30 = x /\ (x ||| (m <<< 30)) >>> 30 = m.
Proof.
  intros Hx Hm. rewrite lor_join by lia. rewrite Z.land_ones, Z.shiftr_div_pow2 by lia.
  rewrite Z.mod_add, Z.div_add, Z.mod_small, Z.div_small by lia. split; lia.
Qed.

Lemma unmarked x : 0 <= x < 2 ^ 30 -> u32 x = x /\ x &&& Z.ones 30 = x /\ x >>> 30 = 0.
Proof. intros Hx. rewrite u32_small by lia. destruct (marked x 0 Hx ltac:(lia)) as [H1 H2]. by rewrite Z.shiftl_0_l, Z.lor_0_r in H1, H2. Qed.

Lemma frags_told phys pad skb : 0 <= pad -> forall frags ii, frags <> [] -> Forall (fun x => 0 <= x) frags -> sum frags + pad < 2 ^ 30 ->
  let l := frag_views phys pad skb ii frags in
  sum (map v_len l) = sum frags + pad /\ map v_marks l = repeat 0 (length frags - 1) ++ [1] /\ length l = length frags.
Proof.
  intros Hp. induction frags as [|len [|len2 frags] IH]; intros ii Hne Hf Hs l; [done| |].
  - subst l. inversion Hf; subst. unfold sum in Hs. cbn [foldr] in Hs. destruct (marked (len + pad) 1 ltac:(lia) ltac:(lia)) as [M1 M2].
    cbn. unfold v_len, v_marks, v_cntrl. cbn [fst snd]. rewrite (proj1 (unmarked (len + pad) ltac:(lia))). change XMCDMA_BD_CTRL_TXEOF_MASK with (1 <<< 30). rewrite M1, M2. unfold sum. cbn [foldr]. split; [lia|done].
  - subst l. inversion Hf as [|? ? Hx Hf2]; subst. pose proof (sum_nonneg _ Hf2) as Hn. change (sum (len :: len2 :: frags)) with (len + sum (len2 :: frags)) in Hs.
    destruct (unmarked len ltac:(lia)) as (U1 & U2 & U3). destruct (IH (S ii) ltac:(done) Hf2 ltac:(lia)) as (I1 & I2 & I3).
    change (frag_views phys pad skb ii (len :: len2 :: frags)) with ((phys ii, u32 len, 0, 0) :: frag_views phys pad skb (S ii) (len2 :: frags)).
    split; [|split].
    + change (v_len (phys ii, u32 len, 0, 0) + sum (map v_len (frag_views phys pad skb (S ii) (len2 :: frags))) = len + sum (len2 :: frags) + pad).
      rewrite I1. unfold v_len, v_cntrl. cbn [fst snd]. rewrite U1, U2. lia.
    + cbn [map]. rewrite I2. unfold v_marks, v_cntrl. cbn [fst snd length]. rewrite U1, U3. cbn [Nat.sub]. by rewrite Nat.sub_0_r.
    + cbn [length]. by rewrite I3.
Qed.

(** The descriptors of a packet tell the hardware all of it: their lengths add up to that of the packet and the bytes that
    fill it up to the smallest length, the first is marked as the start and the last as the end, and no other is. *)
Theorem packet_described c phys fp skb tail : 0 <= skb_headlen skb -> Forall (fun x => 0 <= x) (skb_frags skb) -> skb_len skb + tx_pad c skb < 2 ^ 30 ->
  let l := packet_views c phys fp skb tail in
  sum (map v_len l) = skb_len skb + (if bounced c skb then 0 else tx_pad c skb) /\ map v_marks l = marks (length l).
Proof.
  intros Hh Hf Hl. assert (Hpad : 0 <= tx_pad c skb) by (unfold tx_pad; destruct (_ && _) eqn:E; bprop; lia).
  unfold skb_len in *. rewrite fold_sum in *. pose proof (sum_nonneg _ Hf) as Hn. unfold packet_views, skb_len. rewrite fold_sum.
  assert (Hsof : forall x, 0 <= x < 2 ^ 30 -> x ||| XMCDMA_BD_CTRL_TXSOF_MASK = x ||| (2 <<< 30)) by done.
  destruct (bounced c skb); [|destruct (skb_frags skb) as [|len frags] eqn:Ef].
  - cbn. unfold v_len, v_marks, v_cntrl. cbn [fst snd]. rewrite (proj1 (unmarked (skb_headlen skb + sum (skb_frags skb)) ltac:(lia))), <- Z.lor_assoc.
    change (XMCDMA_BD_CTRL_TXSOF_MASK ||| XMCDMA_BD_CTRL_TXEOF_MASK) with (3 <<< 30).
    destruct (marked (skb_headlen skb + sum (skb_frags skb)) 3 ltac:(lia) ltac:(lia)) as [-> ->]. split; [lia|done].
  - change (sum []) with 0 in *. cbn. unfold v_len, v_marks, v_cntrl. cbn [fst snd]. rewrite Hsof, lor_join by lia. rewrite u32_small by lia.
    replace (skb_headlen skb + 2 * 2 ^ 30 + tx_pad c skb) with (skb_headlen skb + tx_pad c skb + 2 * 2 ^ 30) by lia.
    rewrite <- lor_join, <- Z.lor_assoc by lia. change ((2 <<< 30) ||| XMCDMA_BD_CTRL_TXEOF_MASK) with (3 <<< 30).
    destruct (marked (skb_headlen skb + tx_pad c skb) 3 ltac:(lia) ltac:(lia)) as [-> ->]. split; [lia|done].
  - destruct (frags_told fp (tx_pad c skb) (skb_ptr skb) Hpad (len :: frags) 0 ltac:(done) Hf ltac:(lia)) as (F1 & F2 & F3).
    cbn zeta in *. destruct (marked (skb_headlen skb) 2 ltac:(lia) ltac:(lia)) as [M1 M2].
    assert (Hu : u32 (skb_headlen skb ||| XMCDMA_BD_CTRL_TXSOF_MASK) = skb_headlen skb ||| (2 <<< 30)).
    { rewrite Hsof, lor_join by lia. apply u32_small. lia. }
    split.
    + change (sum (map v_len (?v :: ?l))) with (v_len v + sum (map v_len l)). rewrite F1. unfold v_len, v_cntrl. cbn [fst snd]. rewrite Hu, M1. lia.
    + cbn [map length]. rewrite F2, F3. unfold v_marks, v_cntrl. cbn [fst snd]. rewrite Hu, M2. cbn [length marks Nat.sub]. by rewrite Nat.sub_0_r.
Qed.

(** ** A run: two packets are sent, the second in three parts, and the hardware finishes the first *)
Definition demo_conf : tx_conf := mkTxConf XAXIENET_1G false XAE_FEATURE_FULL_TX_CSUM true 0x10000 0x80000.
Definition demo_skb (p : Z) (frags : list Z) : sk_buff := mkSkb p 0x2001 60 frags CHECKSUM_PARTIAL 34 16.
Definition demo_xmit (p : Z) (frags : list Z) (q : txq) : txq := snd (axienet_queue_xmit demo_conf 0x5000 (fun i => 0x6000 + Z.of_nat i) (demo_skb p frags) q).
Definition demo_sent : txq := demo_xmit 101 [700; 800] (demo_xmit 100 [] empty_txq).
Definition demo_hw : txq := upd_bd 0 (set_sband 0x8000003c) demo_sent.
Definition demo_done : txq := default empty_txq (axienet_start_xmit_done 64 demo_hw).

Lemma demo_tx_run : rtc (tx_step demo_conf) ([], empty_txq) ([100; 101], demo_done).
Proof.
  apply (rtc_l _ _ ([] ++ [100], demo_xmit 100 [] empty_txq)).
  { eapply (step_xmit demo_conf [] empty_txq 0x5000 (fun i => 0x6000 + Z.of_nat i) (demo_skb 100 []) NETDEV_TX_OK); [discriminate|vm_compute; reflexivity]. }
  apply (rtc_l _ _ ([100] ++ [101], demo_sent)).
  { eapply (step_xmit demo_conf [100] _ 0x5000 (fun i => 0x6000 + Z.of_nat i) (demo_skb 101 [700; 800]) NETDEV_TX_OK); [discriminate|vm_compute; reflexivity]. }
  apply (rtc_l _ _ ([100; 101], demo_hw)).
  { apply (step_hw demo_conf [100; 101] demo_sent 0 0x8000003c). vm_compute. lia. }
  apply (rtc_l _ _ ([100; 101], demo_done)); [|apply rtc_refl].
  apply step_done. vm_compute. reflexivity.
Qed.

Lemma axienet_tx_conserves_witness : freed demo_done = [100] /\ pending demo_done = [101] /\ length (in_flight demo_done) = 3%nat
  /\ [100; 101] = freed demo_done ++ pending demo_done.
Proof.
  destruct (axienet_tx_conserves demo_conf [100; 101] demo_done demo_tx_run) as (H & _).
  split; [vm_compute; reflexivity|]. split; [vm_compute; reflexivity|]. split; [vm_compute; reflexivity|exact H].
Defined.

Lemma axienet_queue_xmit_appends_witness : exists q' new, axienet_queue_xmit demo_conf 0x5000 (fun i => 0x6000 + Z.of_nat i) (demo_skb 101 [700; 800]) empty_txq = (NETDEV_TX_OK, q')
  /\ in_flight q' = new /\ map view new = [(0x5000, 0x8000003c, 0, 0); (0x6000, 700, 0, 0); (0x6001, 0x40000320, 0, 101)] /\ tails q' = [0x10100].
Proof.
  destruct empty_ok as [H0 H1]. destruct (axienet_queue_xmit_appends demo_conf 0x5000 (fun i => 0x6000 + Z.of_nat i) (demo_skb 101 [700; 800]) empty_txq H0) as [_ H].
  rewrite H1 in H. destruct H as (q' & new & E & _ & F & V & T & _); [vm_compute; discriminate|]. exists q', new. split; [exact E|]. split; [exact F|].
  assert (L : length new = 3%nat) by (apply (f_equal length) in V; rewrite length_map in V; exact V). rewrite L in T.
  split; [exact V|exact T].
Defined.

Lemma packet_described_witness (l := packet_views demo_conf 0x5000 (fun i => 0x6000 + Z.of_nat i) (demo_skb 101 [700; 800]) 0) :
  sum (map v_len l) = 1560 /\ map v_marks l = [2; 0; 1].
Proof.
  destruct (packet_described demo_conf 0x5000 (fun i => 0x6000 + Z.of_nat i) (demo_skb 101 [700; 800]) 0) as [H1 H2];
    [cbn; lia|repeat constructor; lia|vm_compute; reflexivity|]. split; [exact H1|exact H2].
Defined.

(** A packet that is copied was never mapped; when it is taken back the address of the copy is unmapped all the same, as
    the kind of mapping that the descriptor had before. *)
Example copied_is_unmapped :
  let c := mkTxConf XAXIENET_1G false 0 false 0x10000 0x80000 in
  let q := upd_bd 0 (set_sband 0x80000000) (snd (axienet_queue_xmit c 0x5000 (fun _ => 0) (demo_skb 100 []) empty_txq)) in
  option_map unmapped (axienet_start_xmit_done 64 q) = Some [(DESC_DMA_MAP_SINGLE, 0x80000, 60)].
Proof. vm_compute. reflexivity. Qed.
