(* ===== verification/AxiRx.v ===== *)
(** * The Ethernet driver: receiving

    Models the receive path of src/driver/xilinx/xilinx_axienet_main.c over the multi-channel DMA, built as in [AxiTx]:
    [axienet_recv] hands the frames the hardware has stored to the network devices and puts fresh buffers into the ring,
    [xaxienet_rx_poll] calls it while the hardware reports frames. What is done outside is a log; the buffers that are
    allocated and their DMA addresses are arguments, as is what the hardware does between two looks at its status. *)
From stdpp Require Import relations.
From S2P Require Import Prelude AxiRing AxiTx.

Definition RX_BD_NUM : Z := 128.
Definition XAE_FULL_CSUM_STATUS_MASK : Z := 0x38.
Definition XAE_IP_UDP_CSUM_VALIDATED : Z := 3.
Definition XAE_IP_TCP_CSUM_VALIDATED : Z := 2.
Definition XMCDMA_BD_SD_STS_ALL_MASK : Z := 0x30.
Definition XMCDMA_BD_SD_STS_TUSER_EP : Z := 0x00.
Definition XMCDMA_BD_SD_STS_TUSER_MAC_1 : Z := 0x10.
Definition XMCDMA_BD_SD_STS_TUSER_MAC_2 : Z := 0x20.
Definition XMCDMA_BD_SD_STS_TUSER_EX_EP : Z := 0x30.
Definition MCDMA_MGMT_CHAN : Z := BIT 0.
Definition MCDMA_EP_EX_CHAN : Z := BIT 1.
Definition XMCDMA_IRQ_IOC_MASK : Z := BIT 5.
Definition XMCDMA_IRQ_DELAY_MASK : Z := BIT 6.
Definition XMCDMA_IRQ_ERR_MASK : Z := BIT 7.
(** The header that [eth_type_trans] takes off. *)
Definition ETH_HLEN : Z := 14.

(** The network devices a frame can be for: the endpoint, the two ports, the extended endpoint. *)
Inductive target := Ep | Mac1 | Mac2 | ExEp.
#[export] Instance target_eq_dec : EqDecision target.
Proof. solve_decision. Defined.

(** A descriptor for receiving; [r_skb] is the field sw_id_offset. *)
Record rx_bd := mkRxBd {
  r_phys : Z; r_cntrl : Z; r_status : Z; r_sband : Z; r_app2 : Z; r_app3 : Z; r_app4 : Z; r_skb : Z }.
Definition zero_rx : rx_bd := mkRxBd 0 0 0 0 0 0 0 0.

Inductive rx_event :=
| Unmapped (phys : Z)
| Received (t : target) (skb length : Z) (summed : checksum) (csum : Z)
| Dropped (skb : Z).

(** What the device and the queue are like; [running] tells which network devices are up. *)
Record rx_conf := mkRxConf {
  r_mactype : axienet_ip_type; r_hasnobuf : bool; r_features : Z; max_frm_size : Z; rx_bd_p : Z; flags : Z; ex_ep : bool; running : target -> bool }.

Record rxq := mkRxq {
  rxq_bd_v : list rx_bd; rx_bd_ci : Z; rx_packets : Z; rx_bytes : Z; log : list rx_event; rx_tails : list Z }.

(** ** One frame *)
Definition frame_length (c : rx_conf) (b : rx_bd) : Z :=
  if r_hasnobuf c || negb (bool_decide (r_mactype c = XAXIENET_1G)) then r_status b &&& XAXIDMA_BD_STS_ACTUAL_LEN_MASK else r_app4 b &&& 0xFFFF.

Definition swab32 (x : Z) : Z :=
  ((x &&& 0xff) <<< 24) ||| ((x >>> 8 &&& 0xff) <<< 16) ||| ((x >>> 16 &&& 0xff) <<< 8) ||| (x >>> 24 &&& 0xff).

(** What is said of the checksum; [ip] is whether the frame is one of the internet protocol. *)
Definition rx_summed (c : rx_conf) (ip : bool) (length : Z) (b : rx_bd) : checksum * Z :=
  let possible := bool_decide (r_mactype c = XAXIENET_1G) && negb (r_hasnobuf c) in
  if truthy (r_features c &&& XAE_FEATURE_FULL_RX_CSUM) && possible then
    let csumstatus := (r_app2 b &&& XAE_FULL_CSUM_STATUS_MASK) >>> 3 in
    (if (csumstatus =? XAE_IP_TCP_CSUM_VALIDATED) || (csumstatus =? XAE_IP_UDP_CSUM_VALIDATED) then CHECKSUM_UNNECESSARY else CHECKSUM_NONE, 0)
  else if truthy (r_features c &&& XAE_FEATURE_PARTIAL_RX_CSUM) && ip && (64 <? length - ETH_HLEN) && possible
  then (CHECKSUM_COMPLETE, swab32 (r_app3 b &&& 0xFFFF))
  else (CHECKSUM_NONE, 0).

(** The network device of a frame of the management channel, by the side band; [temp_ndev] is kept where none fits. *)
Definition mgmt_target (c : rx_conf) (sband_status : Z) (temp_ndev : option target) : option target :=
  let s := sband_status &&& XMCDMA_BD_SD_STS_ALL_MASK in
  if s =? XMCDMA_BD_SD_STS_TUSER_MAC_1 then Some Mac1
  else if s =? XMCDMA_BD_SD_STS_TUSER_MAC_2 then Some Mac2
  else if s =? XMCDMA_BD_SD_STS_TUSER_EP then Some Ep
  else if ex_ep c && (s =? XMCDMA_BD_SD_STS_TUSER_EX_EP) then Some ExEp
  else temp_ndev.

(** The variable temp_ndev afterwards, and where the frame goes. *)
Definition rx_target (c : rx_conf) (sband_status : Z) (temp_ndev : option target) : option target * option target :=
  let up t := match t with Some x => if running c x then Some x else None | None => None end in
  if truthy (flags c &&& MCDMA_MGMT_CHAN) then let t := mgmt_target c sband_status temp_ndev in (t, up t)
  else if truthy (flags c &&& MCDMA_EP_EX_CHAN) then let t := if ex_ep c then Some ExEp else None in (t, up t)
  else (temp_ndev, Some Ep).

Definition rx_events (c : rx_conf) (ip : Z -> bool) (dest : option target) (b : rx_bd) : list rx_event :=
  let '(summed, csum) := rx_summed c (ip (r_skb b)) (frame_length c b) b in
  [Unmapped (r_phys b); match dest with Some t => Received t (r_skb b) (frame_length c b) summed csum | None => Dropped (r_skb b) end].

(** The descriptor with a new buffer. *)
Definition refill (c : rx_conf) (map_single : Z -> Z) (new_skb : Z) (b : rx_bd) : rx_bd :=
  mkRxBd (map_single new_skb) (max_frm_size c) 0 (r_sband b) (r_app2 b) (r_app3 b) (r_app4 b) new_skb.

(** ** Receiving *)

(** [k] counts the descriptors, [alloc k] is the buffer allocated for the [k]th of them. The result: how many were
    processed, the queue, the bytes and packets, the last tail pointer. *)
Fixpoint recv_loop (c : rx_conf) (ip : Z -> bool) (alloc : nat -> option Z) (map_single : Z -> Z) (sband_status : Z)
    (budget k : nat) (temp_ndev : option target) (tail_p size packets : Z) (q : rxq) : nat * rxq * Z * Z * Z :=
  let b := bd_at zero_rx (rxq_bd_v q) (rx_bd_ci q) in
  match budget with
  | O => (k, q, size, packets, tail_p)
  | S budget =>
      if truthy (r_status b &&& XAXIDMA_BD_STS_COMPLETE_MASK) then
        let tail_p := rx_bd_p c + sizeof_aximcdma_bd * rx_bd_ci q in
        let '(temp_ndev, dest) := rx_target c sband_status temp_ndev in
        let log' := log q ++ rx_events c ip dest b in
        let size := u32 (size + frame_length c b) in
        let packets := u32 (packets + 1) in
        match alloc k with
        | None => (k, mkRxq (rxq_bd_v q) (rx_bd_ci q) (rx_packets q) (rx_bytes q) log' (rx_tails q), size, packets, tail_p)
        | Some new_skb =>
            recv_loop c ip alloc map_single sband_status budget (S k) temp_ndev tail_p size packets
              (mkRxq (<[Z.to_nat (rx_bd_ci q) := refill c map_single new_skb b]> (rxq_bd_v q)) (next RX_BD_NUM (rx_bd_ci q)) (rx_packets q) (rx_bytes q)
                 log' (rx_tails q))
        end
      else (k, q, size, packets, tail_p)
  end.

(** The side band is read once, of the first descriptor. *)
Definition axienet_recv (c : rx_conf) (ip : Z -> bool) (alloc : nat -> option Z) (map_single : Z -> Z) (budget : nat) (q : rxq) : nat * rxq :=
  let sband_status := r_sband (bd_at zero_rx (rxq_bd_v q) (rx_bd_ci q)) in
  let '(numbdfree, q, size, packets, tail_p) := recv_loop c ip alloc map_single sband_status budget 0 None 0 0 0 q in
  (numbdfree, mkRxq (rxq_bd_v q) (rx_bd_ci q) (u64 (rx_packets q + packets)) (u64 (rx_bytes q + size)) (log q)
                (if truthy tail_p then rx_tails q ++ [tail_p] else rx_tails q)).

(** [read_sr i q]: the status read the [i]th time, and the ring with what the hardware stored until then. The result: the
    work done, the words written back to the status register, whether the interrupts were enabled again. *)
Fixpoint poll_loop (c : rx_conf) (ip : Z -> bool) (alloc : nat -> nat -> option Z) (map_single : Z -> Z) (read_sr : nat -> rxq -> Z * rxq)
    (rounds i : nat) (status : Z) (quota work_done : nat) (acks : list Z) (q : rxq) : option (nat * list Z * rxq) :=
  if truthy (status &&& (XMCDMA_IRQ_IOC_MASK ||| XMCDMA_IRQ_DELAY_MASK)) && (work_done <? quota)%nat then
    match rounds with
    | O => None
    | S rounds =>
        let acks := acks ++ [status] in
        if truthy (status &&& XMCDMA_IRQ_ERR_MASK) then Some (work_done, acks, q) else
        let '(n, q) := axienet_recv c ip (alloc i) map_single (quota - work_done) q in
        let '(status, q) := read_sr i q in
        poll_loop c ip alloc map_single read_sr rounds (S i) status quota (work_done + n) acks q
    end
  else Some (work_done, acks, q).
Definition xaxienet_rx_poll (c : rx_conf) (ip : Z -> bool) (alloc : nat -> nat -> option Z) (map_single : Z -> Z) (read_sr : nat -> rxq -> Z * rxq)
    (rounds quota : nat) (q : rxq) : option (nat * list Z * bool * rxq) :=
  let '(status, q) := read_sr O q in
  match poll_loop c ip alloc map_single read_sr rounds 1 status quota 0 [] q with
  | None => None
  | Some (work_done, acks, q) => Some (work_done, acks, (work_done <? quota)%nat, q)
  end.

(** * Properties *)

#[local] Abbreviation N := RX_BD_NUM.
(** The ring from the index of the driver on. *)
Definition whole (q : rxq) : list rx_bd := window N zero_rx (rxq_bd_v q) (rx_bd_ci q) (Z.to_nat N).
Definition rxq_ok (q : rxq) : Prop := length (rxq_bd_v q) = Z.to_nat N /\ 0 <= rx_bd_ci q < N.
Definition full (b : rx_bd) : bool := truthy (r_status b &&& XAXIDMA_BD_STS_COMPLETE_MASK).

(** The buffers that replace those of [gone], the first of them being the [k]th allocated. *)
Fixpoint refills (c : rx_conf) (alloc : nat -> option Z) (map_single : Z -> Z) (k : nat) (gone : list rx_bd) : list rx_bd :=
  match gone with
  | [] => []
  | b :: gone => refill c map_single (default 0 (alloc k)) b :: refills c alloc map_single (S k) gone
  end.

Lemma whole_cons q : rxq_ok q -> whole q = bd_at zero_rx (rxq_bd_v q) (rx_bd_ci q) :: tail (whole q).
Proof. intros _. unfold whole. by change (Z.to_nat N) with 128%nat. Qed.

(** The network device is the same for all frames of a call. *)
Lemma rx_target_same c s : rx_target c s (fst (rx_target c s None)) = rx_target c s None.
Proof.
  unfold rx_target. destruct (truthy (flags c &&& MCDMA_MGMT_CHAN)); [|by destruct (truthy _)]. cbn [fst].
  enough (E : mgmt_target c s (mgmt_target c s None) = mgmt_target c s None) by (by rewrite E).
  unfold mgmt_target. by repeat (destruct (_ =? _) || destruct (ex_ep c && _)).
Qed.

Lemma rx_pos : 0 < N.
Proof. done. Qed.
#[local] Hint Resolve rx_pos : core.

(** A descriptor is given a new buffer and the index moves on: the ring turns by one. *)
Lemma whole_turn q b rest x log : rxq_ok q -> whole q = b :: rest ->
  let q' := mkRxq (<[Z.to_nat (rx_bd_ci q) := x]> (rxq_bd_v q)) (next N (rx_bd_ci q)) (rx_packets q) (rx_bytes q) log (rx_tails q) in
  rxq_ok q' /\ whole q' = rest ++ [x] /\ rx_bd_ci q' = (rx_bd_ci q + 1) mod N.
Proof.
  intros [Hl Hc] Hw q'. assert (Hn : next N (rx_bd_ci q) = (rx_bd_ci q + 1) mod N) by (by apply next_eq).
  split; [split|split; [|exact Hn]].
  - cbn [q' rxq_bd_v]. by rewrite length_insert.
  - cbn [q' rx_bd_ci]. rewrite Hn. by apply Z.mod_pos_bound.
  - unfold whole in *. cbn [q' rx_bd_ci rxq_bd_v]. rewrite Hn, window_turn by done. by rewrite Hw.
Qed.

(** The frame that is handed out though no buffer is found for its descriptor: the first of the [rest], where it is full and
    the budget is not used up. *)
Definition stuck (budget : nat) (gone rest : list rx_bd) : list rx_bd :=
  match rest with b :: _ => if (length gone <? budget)%nat && full b then [b] else [] | [] => [] end.

Lemma stuck_cons budget b gone rest : stuck (S budget) (b :: gone) rest = stuck budget gone rest.
Proof. done. Qed.

(** What [budget] steps of the loop do: the first of [old], as many as are full and buffers are found for, are handed out in
    their order and replaced behind [new], which are not full. *)
Lemma recv_loop_any c ip alloc ms s dest : snd (rx_target c s None) = dest -> forall budget k temp tail_p size packets q old new,
  rx_target c s temp = rx_target c s None -> rxq_ok q -> whole q = old ++ new -> Forall (fun b => full b = false) new ->
  0 <= packets -> packets + Z.of_nat budget < 2 ^ 32 ->
  exists gone rest q' size' tail', recv_loop c ip alloc ms s budget k temp tail_p size packets q
      = ((k + length gone)%nat, q', size', packets + Z.of_nat (length (gone ++ stuck budget gone rest)), tail')
    /\ rxq_ok q' /\ old = gone ++ rest /\ whole q' = rest ++ new ++ refills c alloc ms k gone /\ Forall (fun b => full b = true) gone
    /\ (length gone <= budget)%nat /\ (forall j, (j < length gone)%nat -> is_Some (alloc (k + j)%nat))
    /\ (stuck budget gone rest <> [] -> alloc (k + length gone)%nat = None)
    /\ log q' = log q ++ concat (map (rx_events c ip dest) (gone ++ stuck budget gone rest))
    /\ rx_packets q' = rx_packets q /\ rx_bytes q' = rx_bytes q /\ rx_tails q' = rx_tails q
    /\ rx_bd_ci q' = (rx_bd_ci q + Z.of_nat (length gone)) mod N
    /\ tail' = match stuck budget gone rest, gone with
               | _ :: _, _ => rx_bd_p c + sizeof_aximcdma_bd * rx_bd_ci q'
               | [], [] => tail_p
               | [], _ => rx_bd_p c + sizeof_aximcdma_bd * ((rx_bd_ci q' - 1) mod N)
               end.
Proof.
  intros Hd. induction budget as [|budget IH]; intros k temp tail_p size packets q old new Ht Hq Hw Hnew Hp0 Hp.
  - assert (E : stuck 0 [] old = []) by (by destruct old). exists [], old, q, size, tail_p. rewrite E.
    cbn [recv_loop length refills map concat app]. rewrite Nat.add_0_r, !Z.add_0_r, !app_nil_r.
    split_and!; try done; [intros; lia|]. symmetry. apply Z.mod_small, Hq.
  - pose proof (whole_cons q Hq) as Hwc. remember (bd_at zero_rx (rxq_bd_v q) (rx_bd_ci q)) as b eqn:Hb. symmetry in Hb.
    destruct (full b) eqn:Ef.
    2:{ assert (E : stuck (S budget) [] old = []).
        { destruct old as [|b' old]; [done|]. rewrite Hwc in Hw. injection Hw as <- E0. unfold stuck. by rewrite Ef, andb_false_r. }
        exists [], old, q, size, tail_p. rewrite E. cbn [recv_loop length refills map concat app]. rewrite Hb. unfold full in Ef.
        rewrite Ef, Nat.add_0_r, !Z.add_0_r, !app_nil_r. split_and!; try done; [lia|intros; lia|]. symmetry. apply Z.mod_small, Hq. }
    destruct old as [|b' old].
    { rewrite Hwc in Hw. cbn [app] in Hw. rewrite <- Hw in Hnew. apply list.Forall_cons in Hnew as [Hnew _]. by rewrite Hnew in Ef. }
    rewrite Hw in Hwc. injection Hwc as ->.
    cbn [recv_loop]. rewrite Hb. pose proof Ef as Ef'. unfold full in Ef'. rewrite Ef'.
    destruct (rx_target c s temp) as [temp' d] eqn:Et. rewrite <- Ht in Hd. cbn [snd] in Hd. subst d.
    rewrite (u32_small (packets + 1)) by lia. destruct (alloc k) as [new_skb|] eqn:Enew.
    2:{ eexists [], (b :: old), _, _, _. cbn [stuck length Nat.ltb Nat.leb andb]. rewrite Ef. cbn [length app refills map concat].
        split; [by rewrite Nat.add_0_r|]. rewrite Nat.add_0_r, Z.add_0_r, !app_nil_r. cbn [rx_packets rx_bytes rx_tails rx_bd_ci log].
        destruct Hq as [Hl Hc]. split_and!; try done; [lia|intros; lia|]. by rewrite Z.mod_small. }
    destruct (whole_turn q b (old ++ new) (refill c ms new_skb b) (log q ++ rx_events c ip dest b) Hq Hw) as (Hq1 & Hw1 & Hc1).
    rewrite <- app_assoc in Hw1. match type of Hq1 with rxq_ok ?x => set (q1 := x) in * end.
    edestruct (IH (S k) temp' (rx_bd_p c + sizeof_aximcdma_bd * rx_bd_ci q) (u32 (size + frame_length c b)) (packets + 1) q1 old (new ++ [refill c ms new_skb b]))
      as (gone & rest & q' & size' & tail' & E & R1 & R2 & R3 & R4 & R5 & R6 & R6' & R7 & R8 & R9 & R10 & R11 & R12);
      [|exact Hq1|exact Hw1| |lia|lia|].
    { pose proof (rx_target_same c s) as X. rewrite <- Ht in X. by rewrite <- Ht. }
    { apply list.Forall_app. split; [done|]. by repeat constructor. }
    exists (b :: gone), rest, q', size', tail'. rewrite stuck_cons.
    match goal with |- context [recv_loop _ _ _ _ _ _ _ _ _ _ _ ?x] => change x with q1 end. rewrite E. cbn [length app]. split.
    { replace (k + S (length gone))%nat with (S k + length gone)%nat by lia.
      by rewrite Nat2Z.inj_succ, <- Z.add_assoc, <- Z.add_1_l. }
    split; [done|]. split; [by rewrite R2|]. split; [rewrite R3; cbn [refills]; rewrite Enew; by rewrite <- !app_assoc|]. split; [by constructor|].
    split; [lia|]. split; [intros [|j] Hj; [rewrite Nat.add_0_r, Enew; by eexists|rewrite Nat.add_succ_r; apply (R6 j); lia]|].
    split; [intros Hs; rewrite <- (R6' Hs); f_equal; lia|]. split; [rewrite R7; cbn [map concat]; by rewrite app_assoc|]. split_and!; try done.
    + rewrite R11, Hc1. rewrite Z.add_mod_idemp_l by done. f_equal. lia.
    + rewrite R12. destruct (stuck _ _ _); [|done]. destruct gone as [|g gone]; [|done]. rewrite R11, Hc1. cbn [length].
      rewrite Z.add_0_r, Z.mod_mod, Zminus_mod_idemp_l by done. replace (rx_bd_ci q + 1 - 1) with (rx_bd_ci q) by lia. rewrite Z.mod_small; [done|apply Hq].
Qed.

(** The same where every allocation succeeds: no frame is stuck. *)
Lemma recv_loop_spec c ip alloc ms s dest : snd (rx_target c s None) = dest -> forall budget k temp tail_p size packets q old new,
  rx_target c s temp = rx_target c s None -> rxq_ok q -> whole q = old ++ new -> Forall (fun b => full b = false) new ->
  (forall j, (k <= j < k + budget)%nat -> is_Some (alloc j)) -> 0 <= packets -> packets + Z.of_nat budget < 2 ^ 32 ->
  exists gone rest q' size' tail', recv_loop c ip alloc ms s budget k temp tail_p size packets q
      = ((k + length gone)%nat, q', size', packets + Z.of_nat (length gone), tail')
    /\ rxq_ok q' /\ old = gone ++ rest /\ whole q' = rest ++ new ++ refills c alloc ms k gone /\ Forall (fun b => full b = true) gone
    /\ (length gone <= budget)%nat /\ ((length gone < budget)%nat -> match rest with b :: _ => full b = false | [] => True end)
    /\ log q' = log q ++ concat (map (rx_events c ip dest) gone) /\ rx_packets q' = rx_packets q /\ rx_bytes q' = rx_bytes q /\ rx_tails q' = rx_tails q
    /\ rx_bd_ci q' = (rx_bd_ci q + Z.of_nat (length gone)) mod N
    /\ tail' = match gone with [] => tail_p | _ => rx_bd_p c + sizeof_aximcdma_bd * ((rx_bd_ci q' - 1) mod N) end.
Proof.
  intros Hd budget k temp tail_p size packets q old new Ht Hq Hw Hnew Ha Hp0 Hp.
  destruct (recv_loop_any c ip alloc ms s dest Hd budget k temp tail_p size packets q old new Ht Hq Hw Hnew Hp0 Hp)
    as (gone & rest & q' & size' & tail' & E & R1 & R2 & R3 & R4 & R5 & R6 & R6' & R7 & R8 & R9 & R10 & R11 & R12).
  assert (Hs : stuck budget gone rest = []).
  { destruct (stuck budget gone rest) as [|x l] eqn:Es; [done|]. assert (Hlt : (length gone < budget)%nat).
    { unfold stuck in Es. destruct rest; [done|]. destruct (Nat.ltb_spec (length gone) budget); [done|discriminate Es]. }
    destruct (Ha (k + length gone)%nat ltac:(lia)) as [? E']. rewrite R6' in E' by done. done. }
  rewrite Hs, app_nil_r in *. exists gone, rest, q', size', tail'. split_and!; try done. intros Hlt. destruct rest as [|b rest]; [done|].
  unfold stuck in Hs. rewrite (proj2 (Nat.ltb_lt _ _) Hlt) in Hs. cbn [andb] in Hs. by destruct (full b).
Qed.

(** A call that finds a buffer for every descriptor. *)
Lemma recv_with_memory c ip alloc ms budget q (dest := snd (rx_target c (r_sband (bd_at zero_rx (rxq_bd_v q) (rx_bd_ci q))) None)) :
  rxq_ok q -> (forall j, (j < budget)%nat -> is_Some (alloc j)) -> Z.of_nat budget < 2 ^ 32 ->
  exists gone rest q', axienet_recv c ip alloc ms budget q = (length gone, q') /\ rxq_ok q'
    /\ whole q = gone ++ rest /\ whole q' = rest ++ refills c alloc ms 0 gone
    /\ (length gone <= budget)%nat /\ Forall (fun b => full b = true) gone
    /\ ((length gone < budget)%nat -> match rest with b :: _ => full b = false | [] => True end)
    /\ log q' = log q ++ concat (map (rx_events c ip dest) gone).
Proof.
  intros Hq Ha Hb. unfold axienet_recv.
  edestruct (recv_loop_spec c ip alloc ms (r_sband (bd_at zero_rx (rxq_bd_v q) (rx_bd_ci q))) dest eq_refl budget 0 None 0 0 0 q (whole q) [])
    as (gone & rest & q1 & size & tail & E & R1 & R2 & R3 & R4 & R5 & R6 & R7 & _);
    [done|done|by rewrite app_nil_r|done|intros j Hj; apply Ha; lia|lia|lia|].
  rewrite E. eexists gone, rest, _. split; [reflexivity|]. split; [by destruct R1|]. by split_and!.
Qed.

(** C20: One call hands out, in the order of the ring and no more than [budget], the frames the hardware has stored; it stops
    at the first descriptor that holds none, or for which no buffer can be allocated. Each is replaced by a fresh buffer
    at the end of the ring, so that the hardware has as many as before, and the tail pointer tells it of the last. All
    frames go to one network device. Where no buffer was found the frame has been handed out and counted all the
    same, but its descriptor stays first in the ring, full and with the buffer given away, and the tail pointer is that
    descriptor's. *)
Theorem axienet_recv_delivers c ip alloc ms budget q (dest := snd (rx_target c (r_sband (bd_at zero_rx (rxq_bd_v q) (rx_bd_ci q))) None)) :
  rxq_ok q -> Z.of_nat budget < 2 ^ 32 ->
  exists gone rest q', axienet_recv c ip alloc ms budget q = (length gone, q') /\ rxq_ok q'
    /\ whole q = gone ++ rest /\ whole q' = rest ++ refills c alloc ms 0 gone
    /\ (length gone <= budget)%nat /\ Forall (fun b => full b = true) gone /\ (forall j, (j < length gone)%nat -> is_Some (alloc j))
    /\ ((length gone < budget)%nat -> match rest with b :: _ => full b = false \/ alloc (length gone) = None | [] => True end)
    /\ log q' = log q ++ concat (map (rx_events c ip dest) (gone ++ stuck budget gone rest))
    /\ rx_packets q' = u64 (rx_packets q + Z.of_nat (length (gone ++ stuck budget gone rest)))
    /\ (0 < rx_bd_p c -> rx_tails q' = rx_tails q ++ match stuck budget gone rest, gone with
                          | _ :: _, _ => [rx_bd_p c + sizeof_aximcdma_bd * rx_bd_ci q']
                          | [], [] => []
                          | [], _ => [rx_bd_p c + sizeof_aximcdma_bd * ((rx_bd_ci q' - 1) mod N)]
                          end).
Proof.
  intros Hq Hb. unfold axienet_recv.
  edestruct (recv_loop_any c ip alloc ms (r_sband (bd_at zero_rx (rxq_bd_v q) (rx_bd_ci q))) dest eq_refl budget 0 None 0 0 0 q (whole q) [])
    as (gone & rest & q1 & size & tail & E & R1 & R2 & R3 & R4 & R5 & R6 & R6' & R7 & R8 & R9 & R10 & R11 & R12);
    [done|done|by rewrite app_nil_r|done|lia|lia|].
  rewrite E. eexists gone, rest, _. split; [reflexivity|]. split; [by destruct R1|]. cbn [log rx_packets rx_tails rx_bd_ci].
  rewrite R8, R10, Z.add_0_l. split_and!; try done.
  - intros Hlt. destruct rest as [|b rest]; [done|]. destruct (full b) eqn:Ef; [right|by left]. apply R6'.
    unfold stuck. by rewrite (proj2 (Nat.ltb_lt _ _) Hlt), Ef.
  - intros Hp. subst tail. destruct R1 as [_ Hc]. pose proof (Z.mod_pos_bound (rx_bd_ci q1 - 1) N rx_pos) as Hm.
    unfold truthy, sizeof_aximcdma_bd. destruct (stuck _ _ _), gone as [|g gone]; [by rewrite app_nil_r|..];
      (rewrite (proj2 (Z.eqb_neq _ _)); [done|lia]).
Qed.

(** ** Runs of the driver and the hardware *)

(** The buffer of an event that gives it away. *)
Definition handed (e : rx_event) : option Z := match e with Unmapped _ => None | Received _ skb _ _ _ => Some skb | Dropped skb => Some skb end.
Definition taken_skbs (n : nat) (alloc : nat -> option Z) : list Z := map (fun k => default 0 (alloc k)) (seq 0 n).
(** A frame is stored: the hardware writes the status and the words behind it. *)
Definition store_frame (status sband app2 app3 app4 : Z) (b : rx_bd) : rx_bd :=
  mkRxBd (r_phys b) (r_cntrl b) status sband app2 app3 app4 (r_skb b).
Definition set_rx_ring (l : list rx_bd) (q : rxq) : rxq := mkRxq l (rx_bd_ci q) (rx_packets q) (rx_bytes q) (log q) (rx_tails q).

(** The buffers that were allocated so far, and the queue. *)
Inductive rx_step (c : rx_conf) : list Z * rxq -> list Z * rxq -> Prop :=
| rx_step_recv acc q ip alloc ms budget n q' : (forall j, (j < budget)%nat -> is_Some (alloc j)) -> Z.of_nat budget < 2 ^ 32 ->
    axienet_recv c ip alloc ms budget q = (n, q') -> rx_step c (acc, q) (acc ++ taken_skbs n alloc, q')
| rx_step_hw acc q k status sband app2 app3 app4 : (k < Z.to_nat N)%nat ->
    let i := (rx_bd_ci q + Z.of_nat k) mod N in
    rx_step c (acc, q) (acc, set_rx_ring (<[Z.to_nat i := store_frame status sband app2 app3 app4 (bd_at zero_rx (rxq_bd_v q) i)]> (rxq_bd_v q)) q).

Lemma refills_skbs c alloc ms gone : forall k, map r_skb (refills c alloc ms k gone) = map (fun j => default 0 (alloc j)) (seq k (length gone)).
Proof. induction gone as [|b gone IH]; intros k; [done|]. cbn [refills map length seq]. by rewrite IH. Qed.

Lemma events_handed c ip dest gone : omap handed (concat (map (rx_events c ip dest) gone)) = map r_skb gone.
Proof.
  induction gone as [|b gone IH]; [done|]. cbn [map concat]. rewrite omap_app, IH. unfold rx_events. destruct (rx_summed _ _ _ _). by destruct dest.
Qed.

Definition rx_conserved (x : list Z * rxq) : Prop := rxq_ok (snd x) /\ fst x = omap handed (log (snd x)) ++ map r_skb (whole (snd x)).

Lemma rx_step_conserved c x y : rx_conserved x -> rx_step c x y -> rx_conserved y.
Proof.
  intros [Hq Ha] Hs. destruct Hs as [acc q ip alloc ms budget n q' Hal Hb E|acc q k status sband app2 app3 app4 Hk i]; cbn [fst snd] in *.
  - destruct (recv_with_memory c ip alloc ms budget q Hq Hal Hb) as (gone & rest & q2 & E2 & Hq2 & W & W2 & _ & _ & _ & L).
    rewrite E2 in E. injection E as <- <-. split; [done|]. cbn [fst snd]. unfold taken_skbs.
    rewrite L, W2, Ha, W, omap_app, events_handed, !map_app, refills_skbs. by rewrite !app_assoc.
  - destruct Hq as [Hl Hc]. split; [split; [cbn; by rewrite length_insert|done]|]. cbn [fst snd set_rx_ring log]. rewrite Ha. f_equal.
    unfold whole, set_rx_ring. cbn [rxq_bd_v rx_bd_ci]. subst i. rewrite window_insert_in by (done || lia).
    change (map r_skb) with (fmap r_skb : list rx_bd -> list Z). rewrite list_fmap_insert. symmetry. apply list_insert_id.
    by rewrite list_lookup_fmap, window_lookup by (done || lia).
Qed.

(** C21: In every run of calls that find memory and frames that the hardware stores in any order, the buffers that were ever
    allocated are, in the order of their allocation, those handed to the stack or freed and then those in the ring: none is
    lost, none is given away twice, and the hardware always has all [RX_BD_NUM]. *)
Theorem axienet_rx_conserves c acc0 q0 acc q : rxq_ok q0 -> log q0 = [] -> acc0 = map r_skb (whole q0) -> rtc (rx_step c) (acc0, q0) (acc, q) ->
  acc = omap handed (log q) ++ map r_skb (whole q) /\ length (whole q) = Z.to_nat N.
Proof.
  intros Hq0 Hlog Hacc Hr. assert (H0 : rx_conserved (acc0, q0)) by (split; [done|cbn [fst snd]; by rewrite Hlog, Hacc]).
  assert (H : rx_conserved (acc, q)).
  { revert H0. clear - Hr. induction Hr as [|x y z Hxy _ IH]; [done|]. intros Hx. by apply IH, (rx_step_conserved c x). }
  destruct H as [_ H]. split; [exact H|]. unfold whole. apply length_window.
Qed.

(** Where a buffer cannot be allocated the call ends after it has given the frame away, and leaves the descriptor as it
    is: the next call gives the same buffer away again, though the stack already owns it. *)
Theorem axienet_recv_without_memory c ip alloc alloc' ms budget q (b := bd_at zero_rx (rxq_bd_v q) (rx_bd_ci q)) :
  full b = true -> alloc O = None -> alloc' O = None -> 0 < rx_bd_p c -> 0 <= rx_bd_ci q ->
  exists q1 q2, axienet_recv c ip alloc ms (S budget) q = (O, q1) /\ rxq_bd_v q1 = rxq_bd_v q /\ rx_bd_ci q1 = rx_bd_ci q
    /\ axienet_recv c ip alloc' ms (S budget) q1 = (O, q2)
    /\ omap handed (log q2) = omap handed (log q) ++ [r_skb b; r_skb b]
    /\ rx_tails q1 = rx_tails q ++ [rx_bd_p c + sizeof_aximcdma_bd * rx_bd_ci q].
Proof.
  intros Hf Ha Ha' Hp Hc.
  assert (H : forall al q0, bd_at zero_rx (rxq_bd_v q0) (rx_bd_ci q0) = b -> rx_bd_ci q0 = rx_bd_ci q -> al O = None -> exists q', axienet_recv c ip al ms (S budget) q0 = (O, q')
     /\ rxq_bd_v q' = rxq_bd_v q0 /\ rx_bd_ci q' = rx_bd_ci q0 /\ omap handed (log q') = omap handed (log q0) ++ [r_skb b]
     /\ rx_tails q' = rx_tails q0 ++ [rx_bd_p c + sizeof_aximcdma_bd * rx_bd_ci q]).
  { intros al q0 Hb Hci Hal. unfold axienet_recv. cbn [recv_loop]. rewrite Hb. unfold full in Hf. rewrite Hf. destruct (rx_target c (r_sband b) None) as [t d].
    rewrite Hal. eexists. split; [reflexivity|]. cbn [rxq_bd_v rx_bd_ci log rx_tails]. split_and!; try done.
    - rewrite omap_app. f_equal. unfold rx_events. destruct (rx_summed _ _ _ _). by destruct d.
    - unfold truthy. rewrite Hci, (proj2 (Z.eqb_neq _ _)); [done|]. unfold sizeof_aximcdma_bd. lia. }
  destruct (H alloc q eq_refl eq_refl Ha) as (q1 & E1 & V1 & C1 & L1 & T1).
  destruct (H alloc' q1 ltac:(by rewrite V1, C1) C1 Ha') as (q2 & E2 & _ & _ & L2 & _).
  exists q1, q2. split_and!; try done. by rewrite L2, L1, <- app_assoc.
Qed.

(** ** Polling *)

(** What polling is told: while the hardware reports frames without an error, the first descriptor holds one; the driver
    is not run at the same time. *)
Definition honest (read_sr : nat -> rxq -> Z * rxq) : Prop :=
  forall i q, rxq_ok q -> let '(status, q') := read_sr i q in
    rxq_ok q' /\ rx_bd_ci q' = rx_bd_ci q
    /\ (truthy (status &&& (XMCDMA_IRQ_IOC_MASK ||| XMCDMA_IRQ_DELAY_MASK)) = true -> full (bd_at zero_rx (rxq_bd_v q') (rx_bd_ci q')) = true).

Lemma poll_loop_ends c ip alloc ms read_sr quota : honest read_sr -> (forall i j, is_Some (alloc i j)) -> Z.of_nat quota < 2 ^ 32 ->
  forall rounds i status work_done acks q, (quota - work_done < rounds)%nat -> (work_done <= quota)%nat -> rxq_ok q ->
  (truthy (status &&& (XMCDMA_IRQ_IOC_MASK ||| XMCDMA_IRQ_DELAY_MASK)) = true -> full (bd_at zero_rx (rxq_bd_v q) (rx_bd_ci q)) = true) ->
  exists n acks' q', poll_loop c ip alloc ms read_sr rounds i status quota work_done acks q = Some (n, acks', q') /\ (n <= quota)%nat /\ rxq_ok q'.
Proof.
  intros Hh Ha Hqt. induction rounds as [|rounds IH]; intros i status work_done acks q Hr Hw Hq Hf; [lia|]. cbn [poll_loop].
  destruct (truthy _) eqn:Es; [|cbn [andb]; by eexists _, _, _]. cbn [andb]. destruct (work_done <? quota)%nat eqn:El; [|by eexists _, _, _].
  apply Nat.ltb_lt in El. destruct (truthy (status &&& XMCDMA_IRQ_ERR_MASK)); [by eexists _, _, _|].
  destruct (recv_with_memory c ip (alloc i) ms (quota - work_done) q Hq ltac:(intros; apply Ha) ltac:(lia))
    as (gone & rest & q1 & E & Hq1 & W & _ & Hle & _ & Hrest & _).
  rewrite E. specialize (Hh i q1 Hq1). destruct (read_sr i q1) as [status' q2]. destruct Hh as (Hq2 & _ & Hf2).
  assert (gone <> []).
  { intros ->. specialize (Hrest ltac:(cbn; lia)). cbn [app] in W. rewrite whole_cons in W by done. subst rest. by rewrite Hf in Hrest. }
  destruct gone as [|g gone]; [done|]. cbn [length] in *. apply IH; [lia|lia|done|done].
Qed.

(** Polling takes at most [quota] frames, it ends, and it lets the interrupts in again exactly when it took fewer. *)
Theorem xaxienet_rx_poll_ends c ip alloc ms read_sr quota q : honest read_sr -> (forall i j, is_Some (alloc i j)) -> Z.of_nat quota < 2 ^ 32 -> rxq_ok q ->
  exists n acks irq q', xaxienet_rx_poll c ip alloc ms read_sr (S quota) quota q = Some (n, acks, irq, q') /\ (n <= quota)%nat
    /\ (irq = true <-> (n < quota)%nat) /\ rxq_ok q'.
Proof.
  intros Hh Ha Hqt Hq. unfold xaxienet_rx_poll. pose proof (Hh O q Hq) as H0. destruct (read_sr O q) as [status q1]. destruct H0 as (Hq1 & _ & Hf).
  destruct (poll_loop_ends c ip alloc ms read_sr quota Hh Ha Hqt (S quota) 1 status 0 [] q1 ltac:(lia) ltac:(lia) Hq1 Hf) as (n & acks & q' & E & Hn & Hq').
  rewrite E. eexists _, _, _, _. split; [reflexivity|]. split; [done|]. split; [apply Nat.ltb_lt|done].
Qed.

(** ** A run: two frames come in, of one port each *)
Definition demo_rx_conf : rx_conf := mkRxConf XAXIENET_1G true 0 1522 0x20000 MCDMA_MGMT_CHAN false (fun _ => true).
Definition demo_rxq : rxq := mkRxq (map (fun k => mkRxBd (0x900000 + Z.of_nat k) 1522 0 0 0 0 0 (1000 + Z.of_nat k)) (seq 0 128)) 0 0 0 [] [].
Definition demo_store (k sband : Z) (q : rxq) : rxq :=
  set_rx_ring (<[Z.to_nat k := store_frame 0x80000040 sband 0 0 0 (bd_at zero_rx (rxq_bd_v q) k)]> (rxq_bd_v q)) q.
Definition demo_in : rxq := demo_store 1 XMCDMA_BD_SD_STS_TUSER_MAC_2 (demo_store 0 XMCDMA_BD_SD_STS_TUSER_MAC_1 demo_rxq).
Definition demo_alloc (j : nat) : option Z := Some (2000 + Z.of_nat j).
Definition demo_out : rxq := snd (axienet_recv demo_rx_conf (fun _ => true) demo_alloc (fun p => p) 8 demo_in).

Lemma demo_rxq_ok : rxq_ok demo_rxq /\ rxq_ok demo_in.
Proof. by split; split. Qed.

(** The side band is looked at once for a call: both frames go to the first port, though the second came in at the
    other one. *)
Example one_target_for_all : omap (fun e => match e with Received t skb _ _ _ => Some (t, skb) | _ => None end) (log demo_out) = [(Mac1, 1000); (Mac1, 1001)].
Proof. vm_compute. reflexivity. Qed.

Lemma axienet_recv_delivers_witness : exists gone rest q', axienet_recv demo_rx_conf (fun _ => true) demo_alloc (fun p => p) 8 demo_in = (length gone, q')
  /\ whole demo_in = gone ++ rest
  /\ log q' = concat (map (rx_events demo_rx_conf (fun _ => true) (Some Mac1)) (gone ++ stuck 8 gone rest)) /\ rx_packets demo_out = 2.
Proof.
  destruct (axienet_recv_delivers demo_rx_conf (fun _ => true) demo_alloc (fun p => p) 8 demo_in) as (gone & rest & q' & E & _ & W & _ & _ & _ & _ & _ & L & _);
    [apply demo_rxq_ok|reflexivity|].
  exists gone, rest, q'. split; [exact E|]. split; [exact W|]. split; [exact L|vm_compute; reflexivity].
Defined.

Lemma demo_rx_run : rtc (rx_step demo_rx_conf) (map r_skb (whole demo_rxq), demo_rxq) (map r_skb (whole demo_rxq) ++ [2000; 2001], demo_out).
Proof.
  apply (rtc_l _ _ (map r_skb (whole demo_rxq), demo_store 0 XMCDMA_BD_SD_STS_TUSER_MAC_1 demo_rxq)).
  { apply (rx_step_hw demo_rx_conf (map r_skb (whole demo_rxq)) demo_rxq 0 0x80000040 XMCDMA_BD_SD_STS_TUSER_MAC_1 0 0 0). apply Nat.ltb_lt. reflexivity. }
  apply (rtc_l _ _ (map r_skb (whole demo_rxq), demo_in)).
  { apply (rx_step_hw demo_rx_conf (map r_skb (whole demo_rxq)) (demo_store 0 XMCDMA_BD_SD_STS_TUSER_MAC_1 demo_rxq) 1 0x80000040 XMCDMA_BD_SD_STS_TUSER_MAC_2 0 0 0).
    apply Nat.ltb_lt. reflexivity. }
  apply (rtc_l _ _ (map r_skb (whole demo_rxq) ++ taken_skbs 2 demo_alloc, demo_out)); [|apply rtc_refl].
  apply (rx_step_recv demo_rx_conf (map r_skb (whole demo_rxq)) demo_in (fun _ => true) demo_alloc (fun p => p) 8 2 demo_out); [intros j _; by eexists|done|].
  vm_compute. reflexivity.
Qed.

Lemma axienet_rx_conserves_witness : map r_skb (whole demo_rxq) ++ [2000; 2001] = omap handed (log demo_out) ++ map r_skb (whole demo_out)
  /\ omap handed (log demo_out) = [1000; 1001] /\ length (whole demo_out) = 128%nat.
Proof.
  destruct (axienet_rx_conserves demo_rx_conf (map r_skb (whole demo_rxq)) demo_rxq (map r_skb (whole demo_rxq) ++ [2000; 2001]) demo_out) as [H1 H2];
    [apply demo_rxq_ok|reflexivity|reflexivity|exact demo_rx_run|]. split; [exact H1|]. split; [vm_compute; reflexivity|exact H2].
Defined.

Lemma axienet_recv_without_memory_witness : exists q1 q2, axienet_recv demo_rx_conf (fun _ => true) (fun _ => None) (fun p => p) 8 demo_in = (O, q1)
  /\ axienet_recv demo_rx_conf (fun _ => true) (fun _ => None) (fun p => p) 8 q1 = (O, q2) /\ omap handed (log q2) = [1000; 1000].
Proof.
  destruct (axienet_recv_without_memory demo_rx_conf (fun _ => true) (fun _ => None) (fun _ => None) (fun p => p) 7 demo_in)
    as (q1 & q2 & E1 & _ & _ & E2 & L & _); [vm_compute; reflexivity|reflexivity|reflexivity|reflexivity|vm_compute; discriminate|].
  exists q1, q2. split; [exact E1|]. split; [exact E2|exact L].
Defined.

(** The status tells the truth: it reports a frame where the first descriptor has one. *)
Definition demo_sr (i : nat) (q : rxq) : Z * rxq := (if full (bd_at zero_rx (rxq_bd_v q) (rx_bd_ci q)) then XMCDMA_IRQ_IOC_MASK else 0, q).

Lemma xaxienet_rx_poll_ends_witness : exists n acks irq q',
  xaxienet_rx_poll demo_rx_conf (fun _ => true) (fun _ => demo_alloc) (fun p => p) demo_sr 9 8 demo_in = Some (n, acks, irq, q') /\ (n <= 8)%nat /\ n = 2%nat /\ irq = true.
Proof.
  destruct (xaxienet_rx_poll_ends demo_rx_conf (fun _ => true) (fun _ => demo_alloc) (fun p => p) demo_sr 8 demo_in) as (n & acks & irq & q' & E & Hn & Hi & _).
  - intros i q Hq. unfold demo_sr. split; [exact Hq|]. split; [reflexivity|]. by destruct (full _).
  - intros i j. by eexists.
  - reflexivity.
  - apply demo_rxq_ok.
  - assert (E2 : option_map (fun r => (fst (fst (fst r)), snd (fst r))) (Some (n, acks, irq, q')) = Some (2%nat, true)) by (rewrite <- E; vm_compute; reflexivity).
    injection E2 as En Ei. exists n, acks, irq, q'. split; [exact E|]. split; [exact Hn|]. split; [exact En|exact Ei].
Defined.
