(* ===== verification/AxiMac.v ===== *)
(** * The Ethernet driver: the registers of the MAC

    Models the functions of src/driver/xilinx/xilinx_axienet_main.c that set the MAC up, and
    src/driver/xilinx/xilinx_axienet_mdio.c, as programs over a device (see [TsnRegs]): the option word with its table, the
    station address, the table of multicast addresses, the speed of the link, pause frames, the modes of time stamps, and
    the bus to the PHY. What the driver keeps beside the registers (the option word, flags, the address) goes in and comes
    out. *)
From S2P Require Import Prelude TsnRegs AxiTx.

Definition ETIMEDOUT : Z := 110.
Definition ERANGE : Z := 34.
Definition EBUSY : Z := 16.
Definition XAE_OPTION_PROMISC : Z := BIT 0.
Definition XAE_OPTION_JUMBO : Z := BIT 1.
Definition XAE_OPTION_VLAN : Z := BIT 2.
Definition XAE_OPTION_FLOW_CONTROL : Z := BIT 4.
Definition XAE_OPTION_FCS_STRIP : Z := BIT 5.
Definition XAE_OPTION_FCS_INSERT : Z := BIT 6.
Definition XAE_OPTION_LENTYPE_ERR : Z := BIT 7.
Definition XAE_OPTION_TXEN : Z := BIT 11.
Definition XAE_OPTION_RXEN : Z := BIT 12.
Definition XAE_RCW1_OFFSET : Z := 0x404.
Definition XAE_TC_OFFSET : Z := 0x408.
Definition XAE_FCC_OFFSET : Z := 0x40C.
Definition XAE_EMMC_OFFSET : Z := 0x410.
Definition XAE_MDIO_MC_OFFSET : Z := 0x500.
Definition XAE_MDIO_MCR_OFFSET : Z := 0x504.
Definition XAE_MDIO_MWD_OFFSET : Z := 0x508.
Definition XAE_MDIO_MRD_OFFSET : Z := 0x50C.
Definition XAE_UAW0_OFFSET : Z := 0x700.
Definition XAE_UAW1_OFFSET : Z := 0x704.
Definition XAE_FMC_OFFSET : Z := 0x708.
Definition XAE_AF0_OFFSET : Z := 0x710.
Definition XAE_AF1_OFFSET : Z := 0x714.
Definition XAE_AF2_OFFSET : Z := 0x71C.
Definition XAE_RCW1_INBAND1588_MASK : Z := 0x00400000.
Definition XAE_RCW1_JUM_MASK : Z := 0x40000000.
Definition XAE_RCW1_FCS_MASK : Z := 0x20000000.
Definition XAE_RCW1_RX_MASK : Z := 0x10000000.
Definition XAE_RCW1_VLAN_MASK : Z := 0x08000000.
Definition XAE_RCW1_LT_DIS_MASK : Z := 0x02000000.
Definition XAE_TC_INBAND1588_MASK : Z := 0x00400000.
Definition XAE_TC_JUM_MASK : Z := 0x40000000.
Definition XAE_TC_FCS_MASK : Z := 0x20000000.
Definition XAE_TC_TX_MASK : Z := 0x10000000.
Definition XAE_TC_VLAN_MASK : Z := 0x08000000.
Definition XAE_FCC_FCRX_MASK : Z := 0x20000000.
Definition XAE_FCC_FCTX_MASK : Z := 0x40000000.
Definition XAE_FMC_PM_MASK : Z := 0x80000000.
Definition XAE_UAW1_UNICASTADDR_MASK : Z := 0xFFFF.
Definition XAE_MULTICAST_CAM_TABLE_NUM : nat := 4.
Definition XAE_EMMC_LINKSPEED_MASK : Z := 0xC0000000.
Definition XAE_EMMC_LINKSPD_10 : Z := 0.
Definition XAE_EMMC_LINKSPD_100 : Z := 0x40000000.
Definition XAE_EMMC_LINKSPD_1000 : Z := 0x80000000.
Definition XAE_EMMC_LINKSPD_2500 : Z := 0x80000000.
Definition XAE_MDIO_MC_MDIOEN_MASK : Z := 0x40.
Definition XAE_MDIO_MCR_PHYAD_MASK : Z := 0x1F000000.
Definition XAE_MDIO_MCR_PHYAD_SHIFT : Z := 24.
Definition XAE_MDIO_MCR_REGAD_MASK : Z := 0x001F0000.
Definition XAE_MDIO_MCR_REGAD_SHIFT : Z := 16.
Definition XAE_MDIO_MCR_OP_READ_MASK : Z := 0x8000.
Definition XAE_MDIO_MCR_OP_WRITE_MASK : Z := 0x4000.
Definition XAE_MDIO_MCR_INITIATE_MASK : Z := 0x800.
Definition XAE_MDIO_MCR_READY_MASK : Z := 0x80.
Definition XXV_TC_OFFSET : Z := 0x0C.
Definition XXV_RCW1_OFFSET : Z := 0x14.
Definition XXV_TC_TX_MASK : Z := BIT 0.
Definition XXV_RCW1_RX_MASK : Z := BIT 0.
Definition XXV_RCW1_FCS_MASK : Z := BIT 1.
Definition XXV_TC_FCS_MASK : Z := BIT 1.
Definition MAX_MDIO_FREQ : Z := 2500000.
Definition DEFAULT_CLOCK_DIVISOR : Z := 29.
(** Flags of a network device and speeds of a PHY, as the kernel has them. *)
Definition IFF_PROMISC : Z := BIT 8.
Definition IFF_ALLMULTI : Z := BIT 9.
Definition SPEED_10 : Z := 10.
Definition SPEED_100 : Z := 100.
Definition SPEED_1000 : Z := 1000.
Definition SPEED_2500 : Z := 2500.
Definition VLAN_ETH_HLEN : Z := 18.
Definition XAE_TRL_SIZE : Z := 4.

(** An option: its bit in the option word, the register and its bits there. *)
Record axienet_option := mkOpt { opt : Z; opt_reg : Z; m_or : Z }.
Definition axienet_options : list axienet_option :=
  [mkOpt XAE_OPTION_JUMBO XAE_TC_OFFSET XAE_TC_JUM_MASK; mkOpt XAE_OPTION_JUMBO XAE_RCW1_OFFSET XAE_RCW1_JUM_MASK;
   mkOpt XAE_OPTION_VLAN XAE_TC_OFFSET XAE_TC_VLAN_MASK; mkOpt XAE_OPTION_VLAN XAE_RCW1_OFFSET XAE_RCW1_VLAN_MASK;
   mkOpt XAE_OPTION_FCS_STRIP XAE_RCW1_OFFSET XAE_RCW1_FCS_MASK; mkOpt XAE_OPTION_FCS_INSERT XAE_TC_OFFSET XAE_TC_FCS_MASK;
   mkOpt XAE_OPTION_LENTYPE_ERR XAE_RCW1_OFFSET XAE_RCW1_LT_DIS_MASK;
   mkOpt XAE_OPTION_FLOW_CONTROL XAE_FCC_OFFSET XAE_FCC_FCRX_MASK; mkOpt XAE_OPTION_FLOW_CONTROL XAE_FCC_OFFSET XAE_FCC_FCTX_MASK;
   mkOpt XAE_OPTION_PROMISC XAE_FMC_OFFSET XAE_FMC_PM_MASK;
   mkOpt XAE_OPTION_TXEN XAE_TC_OFFSET XAE_TC_TX_MASK; mkOpt XAE_OPTION_RXEN XAE_RCW1_OFFSET XAE_RCW1_RX_MASK].
Definition xxvenet_options : list axienet_option :=
  [mkOpt XAE_OPTION_FCS_STRIP XXV_RCW1_OFFSET XXV_RCW1_FCS_MASK; mkOpt XAE_OPTION_FCS_INSERT XXV_TC_OFFSET XXV_TC_FCS_MASK;
   mkOpt XAE_OPTION_TXEN XXV_TC_OFFSET XXV_TC_TX_MASK; mkOpt XAE_OPTION_RXEN XXV_RCW1_OFFSET XXV_RCW1_RX_MASK].

(** A byte of an address. *)
Definition byte_at (l : list Z) (k : nat) : Z := default 0 (l !! k).
Definition low_word (a : list Z) : Z := byte_at a 0 ||| (byte_at a 1 <<< 8) ||| (byte_at a 2 <<< 16) ||| (byte_at a 3 <<< 24).
Definition high_word (a : list Z) : Z := byte_at a 4 ||| (byte_at a 5 <<< 8).

Inductive hwtstamp_tx := HWTSTAMP_TX_OFF | HWTSTAMP_TX_ON | HWTSTAMP_TX_ONESTEP_SYNC.
Inductive hwtstamp_filter := HWTSTAMP_FILTER_NONE | HWTSTAMP_FILTER_ALL | HWTSTAMP_FILTER_PTP_V2_L2_EVENT | HWTSTAMP_FILTER_PTP_V2_L4_EVENT.
#[export] Instance hwtstamp_filter_eq_dec : EqDecision hwtstamp_filter.
Proof. solve_decision. Defined.
(** [None] for a type of transmit stamps that is none of these. *)
Record hwtstamp_config := mkTsConf { ts_flags : Z; tx_type : option hwtstamp_tx; rx_filter : hwtstamp_filter }.
Record ts_state := mkTsState { tstamp_config : hwtstamp_config; current_rx_filter : hwtstamp_filter; flag_ptp_v2_udp : bool; ptp_ts_type : option hwtstamp_tx }.

Section Mac.
Context `{Device}.

(** ** Options *)
Fixpoint set_options (table : list axienet_option) (options : Z) : io unit :=
  match table with
  | [] => mret tt
  | tp :: table =>
      v ← axienet_ior (opt_reg tp);
      let reg := v &&& not32 (m_or tp) in
      let reg := if truthy (options &&& opt tp) then reg ||| m_or tp else reg in
      axienet_iow (opt_reg tp) reg;;
      set_options table options
  end.
(** [lp_options] is the option word of the device. *)
Definition axienet_setoptions (options lp_options : Z) : io Z := set_options axienet_options options;; mret (lp_options ||| options).
Definition xxvenet_setoptions (options lp_options : Z) : io Z := set_options xxvenet_options options;; mret (lp_options ||| options).
Definition setoptions (mt : axienet_ip_type) : Z -> Z -> io Z :=
  match mt with XAXIENET_10G_25G => xxvenet_setoptions | _ => axienet_setoptions end.

(** ** Addresses *)

(** [valid] is is_valid_ether_addr of the kernel, [random] what eth_hw_addr_random would choose. *)
Definition axienet_set_mac_address (mt : axienet_ip_type) (valid : list Z -> bool) (random : list Z) (address : option (list Z)) (dev_addr : list Z) : io (list Z) :=
  let dev_addr := match address with Some a => a | None => dev_addr end in
  let dev_addr := if valid dev_addr then dev_addr else random in
  if bool_decide (mt <> XAXIENET_1G) && bool_decide (mt <> XAXIENET_2_5G) then mret dev_addr else
  axienet_iow XAE_UAW0_OFFSET (low_word dev_addr);;
  v ← axienet_ior XAE_UAW1_OFFSET;
  axienet_iow XAE_UAW1_OFFSET ((v &&& not32 XAE_UAW1_UNICASTADDR_MASK) ||| high_word dev_addr);;
  mret dev_addr.

Definition netdev_set_mac_address (mt : axienet_ip_type) (valid : list Z -> bool) (random addr dev_addr : list Z) : io (Z * list Z) :=
  dev_addr ← axienet_set_mac_address mt valid random (Some addr) dev_addr;
  mret (0, dev_addr).

(** Entry [i] of the table of addresses. *)
Definition put_filter (i : nat) (af0 af1 : Z) : io unit :=
  v ← axienet_ior XAE_FMC_OFFSET;
  axienet_iow XAE_FMC_OFFSET ((v &&& 0xFFFFFF00) ||| Z.of_nat i);;
  axienet_iow XAE_AF0_OFFSET af0;;
  axienet_iow XAE_AF1_OFFSET af1.
Fixpoint put_filters (i : nat) (mc : list (list Z)) : io unit :=
  match mc with
  | [] => mret tt
  | a :: mc => if (XAE_MULTICAST_CAM_TABLE_NUM <=? i)%nat then mret tt else (put_filter i (low_word a) (high_word a);; put_filters (S i) mc)
  end.
Fixpoint clear_filters (i n : nat) : io unit :=
  match n with O => mret tt | S n => put_filter i 0 0;; clear_filters (S i) n end.

(** [flags] are those of the network device, [mc] its multicast addresses. *)
Definition axienet_set_multicast_list (mt : axienet_ip_type) (hasnobuf : bool) (flags : Z) (mc : list (list Z)) : io Z :=
  if bool_decide (mt <> XAXIENET_1G) || hasnobuf then mret flags else
  if truthy (flags &&& (IFF_ALLMULTI ||| IFF_PROMISC)) || (XAE_MULTICAST_CAM_TABLE_NUM <? length mc)%nat then
    reg ← axienet_ior XAE_FMC_OFFSET;
    axienet_iow XAE_FMC_OFFSET (reg ||| XAE_FMC_PM_MASK);;
    mret (flags ||| IFF_PROMISC)
  else match mc with
  | _ :: _ => put_filters 0 mc;; mret flags
  | [] =>
      reg ← axienet_ior XAE_FMC_OFFSET;
      axienet_iow XAE_FMC_OFFSET (reg &&& not32 XAE_FMC_PM_MASK);;
      clear_filters 0 XAE_MULTICAST_CAM_TABLE_NUM;;
      mret flags
  end.

(** ** Link, sizes, pause frames *)
Inductive phy_interface := PHY_INTERFACE_MODE_1000BASEX | PHY_INTERFACE_MODE_MII | PHY_INTERFACE_OTHER.

(** The speed the register is given, where it is one of those known. *)
Definition link_speed_bits (speed : Z) : Z :=
  if speed =? SPEED_2500 then XAE_EMMC_LINKSPD_2500 else if speed =? SPEED_1000 then XAE_EMMC_LINKSPD_1000
  else if speed =? SPEED_100 then XAE_EMMC_LINKSPD_100 else if speed =? SPEED_10 then XAE_EMMC_LINKSPD_10 else 0.
(** The result is last_link. *)
Definition axienet_adjust_link (phy_mode : phy_interface) (speed duplex link last_link : Z) : io Z :=
  let link_state := speed ||| (duplex <<< 1) ||| link in
  if last_link =? link_state then mret last_link else
  let setspeed :=
    if (speed =? SPEED_10) || (speed =? SPEED_100) then match phy_mode with PHY_INTERFACE_MODE_1000BASEX => false | _ => true end
    else match phy_mode with PHY_INTERFACE_MODE_MII => negb (speed =? SPEED_1000) | _ => true end in
  (if setspeed then
     emmc_reg ← axienet_ior XAE_EMMC_OFFSET;
     axienet_iow XAE_EMMC_OFFSET ((emmc_reg &&& not32 XAE_EMMC_LINKSPEED_MASK) ||| link_speed_bits speed)
   else mret tt);;
  mret link_state.

(** The result: the error and the mtu. *)
Definition axienet_change_mtu (running : bool) (rxmem new_mtu mtu : Z) : Z * Z :=
  if running then (- EBUSY, mtu) else
  if rxmem <? u32 (new_mtu + VLAN_ETH_HLEN + XAE_TRL_SIZE) then (- EINVAL, mtu) else (0, new_mtu).

(** tx_pause and rx_pause. *)
Definition axienet_ethtools_get_pauseparam : io (Z * Z) :=
  regval ← axienet_ior XAE_FCC_OFFSET;
  mret (regval &&& XAE_FCC_FCTX_MASK, regval &&& XAE_FCC_FCRX_MASK).
Definition axienet_ethtools_set_pauseparam (running : bool) (tx_pause rx_pause : Z) : io Z :=
  if running then mret (- EFAULT) else
  regval ← axienet_ior XAE_FCC_OFFSET;
  let regval := if truthy tx_pause then regval ||| XAE_FCC_FCTX_MASK else regval &&& not32 XAE_FCC_FCTX_MASK in
  let regval := if truthy rx_pause then regval ||| XAE_FCC_FCRX_MASK else regval &&& not32 XAE_FCC_FCRX_MASK in
  axienet_iow XAE_FCC_OFFSET regval;;
  mret 0.

(** ** Time stamps *)
Definition set_ts_type (t : option hwtstamp_tx) (s : ts_state) : ts_state := mkTsState (tstamp_config s) (current_rx_filter s) (flag_ptp_v2_udp s) t.
Definition set_rx_filter (f : hwtstamp_filter) (c : hwtstamp_config) : hwtstamp_config := mkTsConf (ts_flags c) (tx_type c) f.

(** The result: the error, the configuration, the state. *)
Definition axienet_set_timestamp_mode (is_tsn : bool) (mt : axienet_ip_type) (c : hwtstamp_config) (s : ts_state) : io (Z * hwtstamp_config * ts_state) :=
  if truthy (ts_flags c) then mret (- EINVAL, c, s) else
  if is_tsn then
    match tx_type c with
    | None => mret (- ERANGE, c, s)
    | Some t =>
        let c' := match rx_filter c with HWTSTAMP_FILTER_NONE => c | _ => set_rx_filter (current_rx_filter s) c end in
        mret (0, c', set_ts_type (Some t) s)
    end
  else
    regval ← axienet_ior XAE_TC_OFFSET;
    match tx_type c with
    | None => mret (- ERANGE, c, s)
    | Some t =>
        let regval := match t with HWTSTAMP_TX_OFF => regval &&& not32 XAE_TC_INBAND1588_MASK | _ => regval ||| XAE_TC_INBAND1588_MASK end in
        (if bool_decide (mt <> XAXIENET_10G_25G) then axienet_iow XAE_TC_OFFSET regval else mret tt);;
        regval ← axienet_ior XAE_RCW1_OFFSET;
        let '(c, regval) := match rx_filter c with
          | HWTSTAMP_FILTER_NONE => (c, regval &&& not32 XAE_RCW1_INBAND1588_MASK)
          | _ => (set_rx_filter HWTSTAMP_FILTER_ALL c, regval ||| XAE_RCW1_INBAND1588_MASK) end in
        (if bool_decide (mt <> XAXIENET_10G_25G) then axienet_iow XAE_RCW1_OFFSET regval else mret tt);;
        mret (0, c, s)
    end.

Fixpoint write_all (l : list (Z * Z)) : io unit :=
  match l with [] => mret tt | (o, v) :: l => axienet_iow o v;; write_all l end.
Definition change_filter_values_to_udp : io unit :=
  write_all [(0x708, 0x100); (XAE_AF2_OFFSET, 0x8); (0x724, 0x11000000); (0x734, 0x3f01); (0x738, 0x02000000);
             (0x750, 0); (0x754, 0); (0x764, 0xff000000); (0x774, 0xffff); (0x778, 0xff000000)].
Definition change_filter_values_to_gptp : io unit :=
  write_all [(XAE_AF2_OFFSET, 0xF788); (0x750, 0xffffffff); (0x754, 0xffff); (0x764, 0); (0x774, 0); (0x778, 0)].

(** [config] is what the user passed ([None]: it could not be read); the result has what is copied back. *)
Definition axienet_set_ts_config (is_tsn : bool) (mt : axienet_ip_type) (config : option hwtstamp_config) (writable : bool) (s : ts_state)
    : io (Z * option hwtstamp_config * ts_state) :=
  match config with
  | None => mret (- EFAULT, None, s)
  | Some config =>
      s ← (if bool_decide (rx_filter config = HWTSTAMP_FILTER_PTP_V2_L2_EVENT) && bool_decide (current_rx_filter s = HWTSTAMP_FILTER_PTP_V2_L4_EVENT)
           then change_filter_values_to_gptp;; mret (mkTsState (tstamp_config s) HWTSTAMP_FILTER_PTP_V2_L2_EVENT false (ptp_ts_type s))
           else mret s);
      s ← (if bool_decide (rx_filter config = HWTSTAMP_FILTER_PTP_V2_L4_EVENT) && bool_decide (current_rx_filter s = HWTSTAMP_FILTER_PTP_V2_L2_EVENT)
           then change_filter_values_to_udp;; mret (mkTsState (tstamp_config s) HWTSTAMP_FILTER_PTP_V2_L4_EVENT true (ptp_ts_type s))
           else mret s);
      r ← axienet_set_timestamp_mode is_tsn mt config s;
      let '(err, config, s) := r in
      if truthy err then mret (err, None, s) else
      let s := mkTsState config (current_rx_filter s) (flag_ptp_v2_udp s) (ptp_ts_type s) in
      mret (if writable then (0, Some config, s) else (- EFAULT, None, s))
  end.
Definition axienet_get_ts_config (writable : bool) (s : ts_state) : Z * option hwtstamp_config :=
  if writable then (0, Some (tstamp_config s)) else (- EFAULT, None).

(** ** The bus to the PHY *)

(** [polls]: how many times the register is read again before two ticks of the clock are over. *)
Fixpoint axienet_mdio_wait_until_ready (polls : nat) : io Z :=
  v ← axienet_ior XAE_MDIO_MCR_OFFSET;
  if truthy (v &&& XAE_MDIO_MCR_READY_MASK) then mret 0
  else match polls with O => mret (- ETIMEDOUT) | S polls => axienet_mdio_wait_until_ready polls end.

Definition mdio_command (phy_id reg op : Z) : Z :=
  ((phy_id <<< XAE_MDIO_MCR_PHYAD_SHIFT) &&& XAE_MDIO_MCR_PHYAD_MASK) ||| ((reg <<< XAE_MDIO_MCR_REGAD_SHIFT) &&& XAE_MDIO_MCR_REGAD_MASK)
  ||| XAE_MDIO_MCR_INITIATE_MASK ||| op.

Definition axienet_mdio_read (polls : nat) (phy_id reg : Z) : io Z :=
  ret ← axienet_mdio_wait_until_ready polls;
  if ret <? 0 then mret ret else
  axienet_iow XAE_MDIO_MCR_OFFSET (mdio_command phy_id reg XAE_MDIO_MCR_OP_READ_MASK);;
  ret ← axienet_mdio_wait_until_ready polls;
  if ret <? 0 then mret ret else
  rc ← axienet_ior XAE_MDIO_MRD_OFFSET;
  mret (rc &&& 0xFFFF).

Definition axienet_mdio_write (polls : nat) (phy_id reg val : Z) : io Z :=
  ret ← axienet_mdio_wait_until_ready polls;
  if ret <? 0 then mret ret else
  axienet_iow XAE_MDIO_MWD_OFFSET val;;
  axienet_iow XAE_MDIO_MCR_OFFSET (mdio_command phy_id reg XAE_MDIO_MCR_OP_WRITE_MASK);;
  ret ← axienet_mdio_wait_until_ready polls;
  if ret <? 0 then mret ret else mret 0.

(** The divisor of the clock of the bus; [None]: the device tree does not tell the frequency of the host. *)
Definition mdio_clk_div (host_clock : option Z) : Z :=
  match host_clock with
  | None => DEFAULT_CLOCK_DIVISOR
  | Some h => let clk_div := u32 (h / (MAX_MDIO_FREQ * 2) - 1) in if truthy (h mod (MAX_MDIO_FREQ * 2)) then u32 (clk_div + 1) else clk_div
  end.
(** Whether the bus is registered: [alloc] and [register] are the results of the kernel. *)
Definition axienet_mdio_setup (polls : nat) (host_clock : option Z) (alloc : bool) (register : Z) : io (Z * bool) :=
  axienet_iow XAE_MDIO_MC_OFFSET (mdio_clk_div host_clock ||| XAE_MDIO_MC_MDIOEN_MASK);;
  ret ← axienet_mdio_wait_until_ready polls;
  if ret <? 0 then mret (ret, false) else
  if negb alloc then mret (- ENOMEM, false) else
  if truthy register then mret (register, false) else mret (0, true).
End Mac.

(** * Properties *)

(** ** The option word *)

(** The option that a bit of a register belongs to, by a table. *)
Fixpoint owner (table : list axienet_option) (o i : Z) : option Z :=
  match table with
  | [] => None
  | tp :: table =>
      match owner table o i with
      | Some w => Some w
      | None => if (opt_reg tp =? o) && Z.testbit (m_or tp) i then Some (opt tp) else None
      end
  end.
Definition option_table (mt : axienet_ip_type) : list axienet_option :=
  match mt with XAXIENET_10G_25G => xxvenet_options | _ => axienet_options end.

(** No bit of a register is in two options. *)
Definition own_bits (table : list axienet_option) : bool :=
  forallb (fun tp => forallb (fun i => negb (Z.testbit (m_or tp) (Z.of_nat i)) || bool_decide (owner table (opt_reg tp) (Z.of_nat i) = Some (opt tp))) (seq 0 32)) table.

Lemma tables_own_bits mt : own_bits (option_table mt) = true.
Proof. by destruct mt. Qed.

Lemma testbit_u32 x i : 0 <= i < 32 -> Z.testbit (u32 x) i = Z.testbit x i.
Proof. intros Hi. unfold u32. by rewrite Z.mod_pow2_bits_low by lia. Qed.

(** A part of a field that is cleared. *)
Lemma slice_clear_within x t n s w : 0 <= t <= s -> 0 <= w -> s + w <= t + n -> t + n <= 32 -> slice (x &&& not32 (Z.ones n <<< t)) s w = 0.
Proof.
  intros. by_bits. rewrite slice_spec, Z.bits_0 by lia. destruct (Z.ltb_spec i w); [|done]. cbn [andb].
  rewrite Z.land_spec, not32_bits, Z.shiftl_spec, Z.ones_spec_low by lia. apply andb_false_r.
Qed.

Section MacLaws.
Context `{RegLaws}.

Lemma testbit_option options tp v i : 0 <= i < 32 ->
  Z.testbit (u32 (if truthy (options &&& opt tp) then (v &&& not32 (m_or tp)) ||| m_or tp else v &&& not32 (m_or tp))) i
  = if Z.testbit (m_or tp) i then truthy (options &&& opt tp) else Z.testbit v i.
Proof.
  intros Hi. rewrite testbit_u32 by lia. destruct (truthy _); rewrite ?Z.lor_spec, Z.land_spec, not32_bits by lia; destruct (Z.testbit (m_or tp) i);
    cbn [negb]; by rewrite ?andb_false_r, ?andb_true_r, ?orb_true_r, ?orb_false_r.
Qed.

Lemma set_options_bits options table : forall d o i, Forall (fun tp => plain (opt_reg tp) = true) table -> plain o = true -> 0 <= i < 32 ->
  Z.testbit (reg (snd (set_options table options d)) o) i
  = match owner table o i with Some w => truthy (options &&& w) | None => Z.testbit (reg d o) i end.
Proof.
  induction table as [|tp table IH]; intros d o i Hp Ho Hi; [done|]. inversion Hp as [|? ? Hp1 Hp2]; subst. cbn [set_options owner].
  rewrite bind_io, run_ior by done. cbv beta iota zeta. rewrite bind_io, run_iow. rewrite IH by done. destruct (owner table o i) as [w|]; [done|].
  rewrite reg_wr by done. rewrite (Z.eqb_sym o). destruct (Z.eqb_spec (opt_reg tp) o) as [<-|]; [|done]. cbn [andb]. rewrite testbit_option by done.
  destruct (Z.testbit (m_or tp) i); [done|]. by rewrite testbit_u32 by lia.
Qed.

(** Setting the options puts every bit of every option to whether the option is wanted, and changes no other bit of a
    register. The option word of the driver only grows. *)
Theorem axienet_setoptions_exact mt options lp_options d r d' :
  Forall (fun tp => plain (opt_reg tp) = true) (option_table mt) -> setoptions mt options lp_options d = (r, d') ->
  (forall tp i, tp ∈ option_table mt -> 0 <= i < 32 -> Z.testbit (m_or tp) i = true -> Z.testbit (reg d' (opt_reg tp)) i = truthy (options &&& opt tp))
  /\ (forall o i, plain o = true -> 0 <= i < 32 -> owner (option_table mt) o i = None -> Z.testbit (reg d' o) i = Z.testbit (reg d o) i)
  /\ r = lp_options ||| options.
Proof.
  intros Hp E. assert (Es : setoptions mt options lp_options d = (lp_options ||| options, snd (set_options (option_table mt) options d))).
  { by destruct mt; cbn [setoptions option_table]; unfold axienet_setoptions, xxvenet_setoptions; rewrite bind_io; destruct (set_options _ _ d). }
  rewrite Es in E. injection E as <- <-. split; [|split; [|done]].
  - intros tp i Htp Hi Hb. rewrite set_options_bits by (done || by eapply list.Forall_forall in Hp).
    pose proof (tables_own_bits mt) as Ho. unfold own_bits in Ho. rewrite forallb_forall in Ho. apply list_elem_of_In in Htp. specialize (Ho tp Htp).
    rewrite forallb_forall in Ho. specialize (Ho (Z.to_nat i) ltac:(apply in_seq; lia)). rewrite Z2Nat.id, Hb in Ho by lia. cbn [negb orb] in Ho.
    apply bool_decide_eq_true in Ho. by rewrite Ho.
  - intros o i Ho Hi Hn. rewrite set_options_bits by done. by rewrite Hn.
Qed.

(** ** The station address *)
Definition is_byte (x : Z) : Prop := 0 <= x < 2 ^ 8.
Definition is_mac (a : list Z) : Prop := length a = 6%nat /\ Forall is_byte a.

Lemma byte_at_range a k : Forall is_byte a -> 0 <= byte_at a k < 2 ^ 8.
Proof. intros Ha. unfold byte_at. destruct (a !! k) as [x|] eqn:E; cbn [default]; [|lia]. exact (Forall_lookup_1 _ _ _ _ Ha E). Qed.

(** Computes a byte of a word put together from bytes. *)
Ltac byte_slices :=
  match goal with |- slice _ ?s _ = _ => let k := eval vm_compute in s in change s with k end; slices; done.

Lemma low_word_bytes a k : Forall is_byte a -> (k < 4)%nat -> slice (u32 (low_word a)) (8 * Z.of_nat k) 8 = byte_at a k.
Proof.
  intros Ha Hk. pose proof (byte_at_range a 0 Ha). pose proof (byte_at_range a 1 Ha). pose proof (byte_at_range a 2 Ha). pose proof (byte_at_range a 3 Ha).
  unfold low_word. destruct k as [|[|[|[|k]]]]; [| | | |lia]; byte_slices.
Qed.

Lemma high_word_bytes a v k : Forall is_byte a -> (4 <= k < 6)%nat ->
  slice (u32 ((v &&& not32 XAE_UAW1_UNICASTADDR_MASK) ||| high_word a)) (8 * (Z.of_nat k - 4)) 8 = byte_at a k.
Proof.
  intros Ha Hk. pose proof (byte_at_range a 4 Ha). pose proof (byte_at_range a 5 Ha). unfold high_word, XAE_UAW1_UNICASTADDR_MASK.
  rewrite slice_u32, slice_lor by lia. change 65535 with (Z.ones 16 <<< 0). rewrite slice_clear_within, Z.lor_0_l by lia.
  destruct k as [|[|[|[|[|[|k]]]]]]; try lia; byte_slices.
Qed.

(** The address that is read from the two registers. *)
Definition station_address (d : dev) : list Z :=
  map (fun k => if (k <? 4)%nat then slice (reg d XAE_UAW0_OFFSET) (8 * Z.of_nat k) 8 else slice (reg d XAE_UAW1_OFFSET) (8 * (Z.of_nat k - 4)) 8) (seq 0 6).

(** The address the kernel gives the device, or a random one where it is not valid, is the one the MAC filters by, and
    what else is in its second register stays. *)
Theorem set_mac_address_filters mt valid random addr dev_addr d r d' :
  plain XAE_UAW0_OFFSET = true -> plain XAE_UAW1_OFFSET = true -> (mt = XAXIENET_1G \/ mt = XAXIENET_2_5G) -> is_mac random -> is_mac addr ->
  axienet_set_mac_address mt valid random (Some addr) dev_addr d = (r, d') ->
  r = (if valid addr then addr else random) /\ station_address d' = r
  /\ slice (reg d' XAE_UAW1_OFFSET) 16 16 = slice (reg d XAE_UAW1_OFFSET) 16 16.
Proof.
  intros P0 P1 Hmt Hrnd Haddr E. set (a := if valid addr then addr else random). assert (Ha : is_mac a) by (subst a; by destruct (valid addr)).
  unfold axienet_set_mac_address in E. fold a in E. rewrite (proj2 (andb_false_iff _ _)) in E.
  2:{ destruct Hmt as [->| ->]; [left|right]; apply bool_decide_eq_false_2; by intros X. }
  rewrite !bind_io, run_iow in E. cbv beta iota zeta in E. rewrite bind_io, run_ior in E by done. cbv beta iota zeta in E.
  rewrite bind_io, run_iow, ret_io in E. injection E as <- <-. destruct Ha as [Hl Hb].
  assert (R0 : forall v w, reg (dev_wr XAE_UAW1_OFFSET v (dev_wr XAE_UAW0_OFFSET w d)) XAE_UAW0_OFFSET = w) by (intros; by rewrite !reg_wr).
  assert (R1 : forall v w, reg (dev_wr XAE_UAW1_OFFSET v (dev_wr XAE_UAW0_OFFSET w d)) XAE_UAW1_OFFSET = v) by (intros; by rewrite reg_wr).
  assert (R2 : forall w, reg (dev_wr XAE_UAW0_OFFSET w d) XAE_UAW1_OFFSET = reg d XAE_UAW1_OFFSET) by (intros; by rewrite reg_wr).
  split; [done|]. split.
  - unfold station_address. rewrite R0, R1, R2.
    assert (E : a = map (byte_at a) (seq 0 6)) by (destruct a as [|a0 [|a1 [|a2 [|a3 [|a4 [|a5 [|]]]]]]]; done).
    etransitivity; [|symmetry; exact E]. apply map_ext_in. intros k Hk%in_seq. destruct (Nat.ltb_spec k 4); [apply low_word_bytes|apply high_word_bytes]; done || lia.
  - rewrite R1, R2. pose proof (byte_at_range a 4 Hb). pose proof (byte_at_range a 5 Hb). unfold high_word, XAE_UAW1_UNICASTADDR_MASK. slices. done.
Qed.

(** ** Pause frames and the link *)

(** What was asked for is what is told afterwards; the rest of the register stays. *)
Theorem pauseparam_roundtrip tx rx d r d' : plain XAE_FCC_OFFSET = true -> axienet_ethtools_set_pauseparam false tx rx d = (r, d') ->
  r = 0 /\ (exists t x, fst (axienet_ethtools_get_pauseparam d') = (t, x) /\ truthy t = truthy tx /\ truthy x = truthy rx)
  /\ (forall i, 0 <= i < 29 -> Z.testbit (reg d' XAE_FCC_OFFSET) i = Z.testbit (reg d XAE_FCC_OFFSET) i).
Proof.
  intros P E. unfold axienet_ethtools_set_pauseparam in E. rewrite bind_io, run_ior in E by done. cbv beta iota zeta in E.
  rewrite bind_io, run_iow, ret_io in E. cbv beta iota zeta in E. injection E as <- <-. split; [done|].
  assert (R : forall v, reg (dev_wr XAE_FCC_OFFSET v d) XAE_FCC_OFFSET = v) by (intros; by rewrite reg_wr, Z.eqb_refl). split.
  - eexists _, _. unfold axienet_ethtools_get_pauseparam. rewrite bind_io, run_ior, ret_io, R by done. cbn [fst]. split; [reflexivity|].
    change XAE_FCC_FCTX_MASK with (BIT 30). change XAE_FCC_FCRX_MASK with (BIT 29). rewrite !truthy_bit, !testbit_u32 by lia.
    split; destruct (truthy tx), (truthy rx); rewrite ?Z.lor_spec, ?Z.land_spec, ?not32_bits, ?Z.lor_spec, ?Z.land_spec, ?not32_bits by lia; cbn [BIT];
      change (Z.testbit (BIT 30) 30) with true; change (Z.testbit (BIT 29) 29) with true; change (Z.testbit (BIT 29) 30) with false; change (Z.testbit (BIT 30) 29) with false;
      cbn [negb]; by rewrite ?andb_false_r, ?orb_true_r, ?andb_true_r.
  - intros i Hi. rewrite R, testbit_u32 by lia.
    assert (B : forall k, 29 <= k < 32 -> Z.testbit (BIT k) i = false).
    { intros k Hk. unfold BIT. rewrite Z.shiftl_1_l. apply Z.pow2_bits_false. lia. }
    change XAE_FCC_FCTX_MASK with (BIT 30). change XAE_FCC_FCRX_MASK with (BIT 29).
    destruct (truthy tx), (truthy rx); rewrite ?Z.lor_spec, ?Z.land_spec, ?not32_bits, ?Z.lor_spec, ?Z.land_spec, ?not32_bits, !B, testbit_u32 by lia; cbn [negb];
      by rewrite ?andb_true_r, ?orb_false_r.
Qed.

(** The speed is told to the MAC when the state of the link changes and the mode allows it; the register keeps the rest. *)
Theorem adjust_link_sets_speed mode speed duplex link last d r d' : plain XAE_EMMC_OFFSET = true ->
  axienet_adjust_link mode speed duplex link last d = (r, d') ->
  r = speed ||| (duplex <<< 1) ||| link
  /\ slice (reg d' XAE_EMMC_OFFSET) 0 30 = slice (reg d XAE_EMMC_OFFSET) 0 30
  /\ (last <> r -> mode = PHY_INTERFACE_OTHER -> slice (reg d' XAE_EMMC_OFFSET) 30 2 = link_speed_bits speed >>> 30)
  /\ (last = r -> d' = d).
Proof.
  intros P E. unfold axienet_adjust_link in E. destruct (Z.eqb_spec last (speed ||| (duplex <<< 1) ||| link)) as [El|El].
  { rewrite ret_io in E. injection E as <- <-. by subst last. }
  assert (Hs : link_speed_bits speed = 0 \/ link_speed_bits speed = 1 <<< 30 \/ link_speed_bits speed = 2 <<< 30).
  { unfold link_speed_bits.
    destruct (speed =? SPEED_2500), (speed =? SPEED_1000), (speed =? SPEED_100), (speed =? SPEED_10); first [by left|by right; left|by right; right]. }
  assert (R : forall v, reg (dev_wr XAE_EMMC_OFFSET v d) XAE_EMMC_OFFSET = v) by (intros; by rewrite reg_wr, Z.eqb_refl).
  destruct (if (speed =? SPEED_10) || (speed =? SPEED_100) then _ else _) eqn:Em in E.
  - rewrite !bind_io, run_ior in E by done. cbv beta iota zeta in E. rewrite run_iow, ret_io in E. injection E as <- <-. rewrite R. unfold XAE_EMMC_LINKSPEED_MASK.
    split; [done|]. split; [|split; [|done]].
    + destruct Hs as [->|[->| ->]]; slices; by rewrite ?Z.lor_0_r.
    + intros _ _. destruct Hs as [->|[->| ->]]; slices; done.
  - rewrite bind_io, ret_io in E. cbv beta iota zeta in E. rewrite ret_io in E. injection E as <- <-. split; [done|]. split; [done|]. split; [|done].
    intros _ ->. destruct (_ || _) in Em; done.
Qed.
End MacLaws.

(** ** The table of multicast addresses *)

(** What the driver expects of the MAC: the frame filter register selects the entry of the table that the two address
    registers write. *)
Class FilterLaws `{RegLaws} := {
  cam : dev -> nat -> Z * Z;
  fmc_plain : plain XAE_FMC_OFFSET = true;
  cam_fmc v d j : cam (dev_wr XAE_FMC_OFFSET v d) j = cam d j;
  cam_af0 v d j : cam (dev_wr XAE_AF0_OFFSET v d) j = if Z.of_nat j =? slice (reg d XAE_FMC_OFFSET) 0 2 then (v, snd (cam d j)) else cam d j;
  cam_af1 v d j : cam (dev_wr XAE_AF1_OFFSET v d) j = if Z.of_nat j =? slice (reg d XAE_FMC_OFFSET) 0 2 then (fst (cam d j), v) else cam d j;
  fmc_af0 v d : reg (dev_wr XAE_AF0_OFFSET v d) XAE_FMC_OFFSET = reg d XAE_FMC_OFFSET;
  fmc_af1 v d : reg (dev_wr XAE_AF1_OFFSET v d) XAE_FMC_OFFSET = reg d XAE_FMC_OFFSET }.

(** The address of an entry. *)
Definition cam_address (e : Z * Z) : list Z :=
  map (fun k => if (k <? 4)%nat then slice (fst e) (8 * Z.of_nat k) 8 else slice (snd e) (8 * (Z.of_nat k - 4)) 8) (seq 0 6).

Lemma cam_address_words a : is_mac a -> cam_address (u32 (low_word a), u32 (high_word a)) = a.
Proof.
  intros [Hl Hb]. assert (E : a = map (byte_at a) (seq 0 6)) by (destruct a as [|a0 [|a1 [|a2 [|a3 [|a4 [|a5 [|]]]]]]]; done).
  etransitivity; [|symmetry; exact E]. apply map_ext_in. intros k Hk%in_seq. destruct (Nat.ltb_spec k 4); [by apply low_word_bytes|]. cbn [snd].
  rewrite <- (high_word_bytes a 0 k) by (done || lia). rewrite Z.land_0_l, Z.lor_0_l. done.
Qed.

Section Filters.
Context `{FilterLaws}.

(** Whether every frame is taken. *)
Definition promiscuous (d : dev) : bool := Z.testbit (reg d XAE_FMC_OFFSET) 31.

Lemma put_filter_spec i af0 af1 d : (i < 4)%nat -> let d' := snd (put_filter i af0 af1 d) in
  (forall j, cam d' j = if (j =? i)%nat then (u32 af0, u32 af1) else cam d j) /\ promiscuous d' = promiscuous d.
Proof.
  intros Hi d'. subst d'. unfold put_filter, promiscuous. pose proof fmc_plain as P.
  rewrite bind_io, run_ior by done. cbv beta iota zeta. rewrite !bind_io, !run_iow. cbv beta iota zeta. rewrite bind_io, !run_iow. cbn [snd].
  set (w := u32 ((u32 (reg d XAE_FMC_OFFSET) &&& 0xFFFFFF00) ||| Z.of_nat i)).
  assert (R : reg (dev_wr XAE_FMC_OFFSET w d) XAE_FMC_OFFSET = w) by (by rewrite reg_wr, Z.eqb_refl).
  assert (Hw : slice w 0 2 = Z.of_nat i).
  { subst w. rewrite slice_u32, slice_lor by lia. assert (Ei : slice (Z.of_nat i) 0 2 = Z.of_nat i) by (apply slice_id; lia). rewrite Ei.
    replace (slice (u32 (reg d XAE_FMC_OFFSET) &&& 0xFFFFFF00) 0 2) with 0; [done|]. by_bits. rewrite slice_spec, Z.land_spec, Z.bits_0 by lia.
    destruct (Z.ltb_spec i0 2); [|done]. assert (i0 = 0 \/ i0 = 1) as [->| ->] by lia; by rewrite andb_false_r. }
  split.
  - intros j. rewrite cam_af1, fmc_af0, R, Hw, cam_af0, R, Hw, cam_fmc. destruct (Nat.eqb_spec j i) as [->|Hne]; [by rewrite Z.eqb_refl|].
    by rewrite (proj2 (Z.eqb_neq _ _)) by lia.
  - rewrite fmc_af1, fmc_af0, R. subst w. rewrite testbit_u32, Z.lor_spec, Z.land_spec, testbit_u32 by lia.
    rewrite (testbit_above (Z.of_nat i) 3 31) by lia. by rewrite andb_true_r, orb_false_r.
Qed.

Lemma put_filters_spec mc : forall i d, (i + length mc <= 4)%nat -> let d' := snd (put_filters i mc d) in
  (forall j, cam d' j = match mc !! (j - i)%nat with Some a => if (i <=? j)%nat then (u32 (low_word a), u32 (high_word a)) else cam d j | None => cam d j end)
  /\ promiscuous d' = promiscuous d.
Proof.
  induction mc as [|a mc IH]; intros i d Hl; [done|]. cbn [length] in Hl. cbn [put_filters]. unfold XAE_MULTICAST_CAM_TABLE_NUM.
  rewrite (proj2 (Nat.leb_gt 4 i)) by lia. rewrite bind_io. destruct (put_filter_spec i (low_word a) (high_word a) d ltac:(lia)) as [C1 P1].
  destruct (put_filter i (low_word a) (high_word a) d) as [u d1]. cbn [snd] in C1, P1. destruct (IH (S i) d1 ltac:(lia)) as [C2 P2]. split; [|by rewrite P2].
  intros j. rewrite C2, C1. destruct (Nat.leb_spec i j) as [Hij|Hij].
  - destruct (Nat.eqb_spec j i) as [->|Hne].
    + rewrite Nat.sub_diag. cbn [lookup list_lookup]. destruct (mc !! _); [|done]. by rewrite (proj2 (Nat.leb_gt (S i) i)) by lia.
    + replace (j - i)%nat with (S (j - S i)) by lia. cbn [lookup list_lookup]. destruct (mc !! _); [|done]. by rewrite (proj2 (Nat.leb_le (S i) j)) by lia.
  - rewrite (proj2 (Nat.eqb_neq _ _)) by lia. destruct (mc !! (j - S i)%nat), ((a :: mc) !! (j - i)%nat); by rewrite ?(proj2 (Nat.leb_gt (S i) j)) by lia.
Qed.

Lemma clear_filters_spec n : forall i d, (i + n <= 4)%nat -> let d' := snd (clear_filters i n d) in
  (forall j, cam d' j = if (i <=? j)%nat && (j <? i + n)%nat then (0, 0) else cam d j) /\ promiscuous d' = promiscuous d.
Proof.
  induction n as [|n IH]; intros i d Hl.
  { split; [|done]. intros j. destruct (Nat.leb_spec i j), (Nat.ltb_spec j (i + 0)); done || lia. }
  cbn [clear_filters]. rewrite bind_io. destruct (put_filter_spec i 0 0 d ltac:(lia)) as [C1 P1].
  destruct (put_filter i 0 0 d) as [u d1]. cbn [snd] in C1, P1. destruct (IH (S i) d1 ltac:(lia)) as [C2 P2]. split; [|by rewrite P2].
  intros j. rewrite C2, C1. destruct (Nat.leb_spec (S i) j), (Nat.ltb_spec j (S i + n)), (Nat.leb_spec i j), (Nat.ltb_spec j (i + S n)), (Nat.eqb_spec j i);
    done || lia.
Qed.

(** C34: On a MAC of 1 Gbit/s with buffers, whose frame filter register selects the entry of the table that the two address
    registers write ([FilterLaws]): up to four multicast addresses are put into the table in their order, while the
    promiscuous mode and the entries behind them stay as they were (entries of before are not cleared); without any
    address the table is emptied and the promiscuous mode left; with more than four, or where the flags of the device
    ask for all frames, the MAC takes all of them, the device is marked promiscuous, and the table stays. *)
Theorem set_multicast_list_filters flags mc d r d' : Forall is_mac mc -> axienet_set_multicast_list XAXIENET_1G false flags mc d = (r, d') ->
  let all := truthy (flags &&& (IFF_ALLMULTI ||| IFF_PROMISC)) || (4 <? length mc)%nat in
  (all = true -> r = flags ||| IFF_PROMISC /\ promiscuous d' = true /\ forall j, cam d' j = cam d j)
  /\ (all = false -> mc <> [] -> r = flags /\ promiscuous d' = promiscuous d /\ (forall j a, mc !! j = Some a -> cam_address (cam d' j) = a)
      /\ forall j, (length mc <= j)%nat -> cam d' j = cam d j)
  /\ (all = false -> mc = [] -> r = flags /\ promiscuous d' = false /\ forall j, (j < 4)%nat -> cam d' j = (0, 0)).
Proof.
  intros Hmc E all. unfold axienet_set_multicast_list in E. rewrite bool_decide_eq_false_2 in E by (by intros X). cbn [orb] in E.
  unfold XAE_MULTICAST_CAM_TABLE_NUM in E. pose proof fmc_plain as P. change (truthy _ || _) with all in E. destruct all eqn:Eall.
  - rewrite bind_io, run_ior in E by done. cbv beta iota zeta in E. rewrite bind_io, run_iow, ret_io in E. injection E as <- <-.
    split; [|by split]. intros _. split; [done|]. split; [|intros j; by rewrite cam_fmc]. unfold promiscuous. rewrite reg_wr, Z.eqb_refl by done.
    rewrite testbit_u32, Z.lor_spec by lia. apply orb_true_r.
  - split; [done|]. destruct mc as [|a mc]; (split; [|try done]).
    + done.
    + rewrite bind_io, run_ior in E by done. cbv beta iota zeta in E. rewrite bind_io, run_iow in E. cbv beta iota zeta in E. rewrite bind_io in E.
      set (d1 := dev_wr XAE_FMC_OFFSET _ d) in E. destruct (clear_filters_spec 4 0 d1 ltac:(lia)) as [C1 P1].
      destruct (clear_filters 0 4 d1) as [u d2]. rewrite ret_io in E. injection E as <- <-. cbn [snd] in C1, P1. intros _ _. split; [done|]. split.
      * rewrite P1. unfold promiscuous, d1. rewrite reg_wr, Z.eqb_refl by done. rewrite testbit_u32, Z.land_spec, not32_bits by lia. by rewrite andb_false_r.
      * intros j Hj. rewrite C1. destruct (Nat.ltb_spec j (0 + 4)); [done|lia].
    + unfold all in Eall. apply orb_false_iff in Eall as [_ El]. apply Nat.ltb_ge in El. intros _ _.
      rewrite bind_io in E. destruct (put_filters_spec (a :: mc) 0 d ltac:(lia)) as [C1 P1]. destruct (put_filters 0 (a :: mc) d) as [u d1].
      rewrite ret_io in E. injection E as <- <-. cbn [snd] in C1, P1. split; [done|]. split; [done|]. split.
      * intros j a' Hj. rewrite C1, Nat.sub_0_r, Hj. cbn [Nat.leb]. apply cam_address_words. by eapply Forall_lookup_1 in Hmc.
      * intros j Hj. rewrite C1, Nat.sub_0_r. by rewrite lookup_ge_None_2 by done.
Qed.
End Filters.

(** ** The bus to the PHY *)

(** What the driver expects of the bus: a command is carried out when it is written, after which the bus is busy for a
    while; [phy d p r] is register [r] of the PHY with number [p]. *)
Class MdioLaws `{Device} := {
  phy : dev -> Z -> Z -> Z;
  busy : dev -> nat;
  longest : nat;
  mwd : dev -> Z;
  mrd : dev -> Z;
  rd_mcr d : let '(v, d') := dev_rd XAE_MDIO_MCR_OFFSET d in
    Z.testbit v 7 = bool_decide (busy d = O) /\ busy d' = pred (busy d) /\ (forall p r, phy d' p r = phy d p r) /\ mwd d' = mwd d /\ mrd d' = mrd d;
  wr_mwd v d : mwd (dev_wr XAE_MDIO_MWD_OFFSET v d) = v /\ busy (dev_wr XAE_MDIO_MWD_OFFSET v d) = busy d
    /\ (forall p r, phy (dev_wr XAE_MDIO_MWD_OFFSET v d) p r = phy d p r);
  wr_mcr c d : Z.testbit c 11 = true -> busy d = O -> let d' := dev_wr XAE_MDIO_MCR_OFFSET c d in
    (busy d' <= longest)%nat
    /\ (slice c 14 2 = 1 -> forall p r, phy d' p r = if (p =? slice c 24 5) && (r =? slice c 16 5) then u16 (mwd d) else phy d p r)
    /\ (slice c 14 2 = 2 -> mrd d' = phy d (slice c 24 5) (slice c 16 5) /\ forall p r, phy d' p r = phy d p r);
  rd_mrd d : slice (fst (dev_rd XAE_MDIO_MRD_OFFSET d)) 0 16 = mrd d }.

Section Mdio.
Context `{MdioLaws}.

Lemma wait_ready polls : forall d, let '(ret, d') := axienet_mdio_wait_until_ready polls d in
  (forall p r, phy d' p r = phy d p r) /\ mwd d' = mwd d /\ mrd d' = mrd d
  /\ ((busy d <= polls)%nat -> ret = 0 /\ busy d' = O) /\ ((polls < busy d)%nat -> ret = - ETIMEDOUT).
Proof.
  induction polls as [|polls IH]; intros d; cbn [axienet_mdio_wait_until_ready]; rewrite bind_io; unfold axienet_ior; pose proof (rd_mcr d) as L;
    destruct (dev_rd XAE_MDIO_MCR_OFFSET d) as [v d1]; destruct L as (Lr & Lb & Lp & Lw & Lm); cbv beta iota zeta;
    change XAE_MDIO_MCR_READY_MASK with (BIT 7); rewrite truthy_bit, testbit_u32, Lr by lia.
  - destruct (decide (busy d = O)) as [Eb|Eb]; [rewrite bool_decide_true by done|rewrite bool_decide_false by done]; rewrite ret_io; split_and!; try done; intros; lia.
  - destruct (decide (busy d = O)) as [Eb|Eb]; [rewrite bool_decide_true by done|rewrite bool_decide_false by done].
    + rewrite ret_io. split_and!; try done; intros; lia.
    + specialize (IH d1). destruct (axienet_mdio_wait_until_ready polls d1) as [ret d2]. destruct IH as (I1 & I2 & I3 & I4 & I5).
      split_and!; [intros; by rewrite I1|by rewrite I2|by rewrite I3|intros; apply I4; lia|intros; apply I5; lia].
Qed.

Lemma command_fields p r op : 0 <= p < 32 -> 0 <= r < 32 -> op = XAE_MDIO_MCR_OP_READ_MASK \/ op = XAE_MDIO_MCR_OP_WRITE_MASK ->
  let c := u32 (mdio_command p r op) in Z.testbit c 11 = true /\ slice c 24 5 = p /\ slice c 16 5 = r
  /\ slice c 14 2 = (if op =? XAE_MDIO_MCR_OP_WRITE_MASK then 1 else 2).
Proof.
  intros Hp Hr Hop c. assert (Hp5 : 0 <= p < 2 ^ 5) by lia. assert (Hr5 : 0 <= r < 2 ^ 5) by lia.
  assert (Ep : (p <<< XAE_MDIO_MCR_PHYAD_SHIFT) &&& XAE_MDIO_MCR_PHYAD_MASK = p <<< 24).
  { change XAE_MDIO_MCR_PHYAD_MASK with (31 <<< 24). unfold XAE_MDIO_MCR_PHYAD_SHIFT. rewrite <- Z.shiftl_land. f_equal. change 31 with (Z.ones 5). rewrite Z.land_ones by lia. by apply Z.mod_small. }
  assert (Er : (r <<< XAE_MDIO_MCR_REGAD_SHIFT) &&& XAE_MDIO_MCR_REGAD_MASK = r <<< 16).
  { change XAE_MDIO_MCR_REGAD_MASK with (31 <<< 16). unfold XAE_MDIO_MCR_REGAD_SHIFT. rewrite <- Z.shiftl_land. f_equal. change 31 with (Z.ones 5). rewrite Z.land_ones by lia. by apply Z.mod_small. }
  subst c. unfold mdio_command. rewrite Ep, Er. split; [|split; [|split]].
  - rewrite testbit_u32, !Z.lor_spec by lia. change (Z.testbit XAE_MDIO_MCR_INITIATE_MASK 11) with true. by rewrite orb_true_r.
  - unfold XAE_MDIO_MCR_INITIATE_MASK. destruct Hop as [->| ->]; unfold XAE_MDIO_MCR_OP_READ_MASK, XAE_MDIO_MCR_OP_WRITE_MASK; slices; done.
  - unfold XAE_MDIO_MCR_INITIATE_MASK. destruct Hop as [->| ->]; unfold XAE_MDIO_MCR_OP_READ_MASK, XAE_MDIO_MCR_OP_WRITE_MASK; slices; done.
  - unfold XAE_MDIO_MCR_INITIATE_MASK. destruct Hop as [->| ->]; unfold XAE_MDIO_MCR_OP_READ_MASK, XAE_MDIO_MCR_OP_WRITE_MASK; slices; done.
Qed.

Lemma mdio_write_spec polls p r v d : (longest <= polls)%nat -> (busy d <= polls)%nat -> 0 <= p < 32 -> 0 <= r < 32 -> 0 <= v < 2 ^ 16 ->
  exists d', axienet_mdio_write polls p r v d = (0, d') /\ busy d' = O
  /\ forall p' r', phy d' p' r' = if (p' =? p) && (r' =? r) then v else phy d p' r'.
Proof.
  intros Hw Hb Hp Hr Hv. unfold axienet_mdio_write. rewrite bind_io. pose proof (wait_ready polls d) as W.
  destruct (axienet_mdio_wait_until_ready polls d) as [ret d1]. destruct W as (W1 & W2 & W3 & W4 & _). destruct (W4 Hb) as [-> B1]. cbn [Z.ltb Z.compare].
  rewrite bind_io, run_iow. cbv beta iota zeta. rewrite u32_small by lia. destruct (wr_mwd v d1) as (M1 & M2 & M3). set (d2 := dev_wr XAE_MDIO_MWD_OFFSET v d1) in *.
  rewrite bind_io, run_iow. cbv beta iota zeta. destruct (command_fields p r XAE_MDIO_MCR_OP_WRITE_MASK Hp Hr ltac:(by right)) as (C1 & C2 & C3 & C4). cbn zeta in *.
  set (c := u32 (mdio_command p r XAE_MDIO_MCR_OP_WRITE_MASK)) in *. destruct (wr_mcr c d2 C1 ltac:(by rewrite M2)) as (R1 & R2 & _).
  cbn zeta in *. specialize (R2 C4). set (d3 := dev_wr XAE_MDIO_MCR_OFFSET c d2) in *. rewrite bind_io. pose proof (wait_ready polls d3) as W'.
  destruct (axienet_mdio_wait_until_ready polls d3) as [ret' d4]. destruct W' as (V1 & V2 & V3 & V4 & _). destruct (V4 ltac:(lia)) as [-> B4]. cbn [Z.ltb Z.compare].
  exists d4. rewrite ret_io. split; [done|]. split; [done|]. intros p' r'. rewrite V1, R2, C2, C3, M1. destruct (_ && _); [unfold u16; by apply Z.mod_small|].
  by rewrite M3, W1.
Qed.

Lemma mdio_read_spec polls p r d : (longest <= polls)%nat -> (busy d <= polls)%nat -> 0 <= p < 32 -> 0 <= r < 32 ->
  fst (axienet_mdio_read polls p r d) = phy d p r.
Proof.
  intros Hw Hb Hp Hr. unfold axienet_mdio_read. rewrite bind_io. pose proof (wait_ready polls d) as W.
  destruct (axienet_mdio_wait_until_ready polls d) as [ret d1]. destruct W as (W1 & W2 & W3 & W4 & _). destruct (W4 Hb) as [-> B1]. cbn [Z.ltb Z.compare].
  rewrite bind_io, run_iow. cbv beta iota zeta. destruct (command_fields p r XAE_MDIO_MCR_OP_READ_MASK Hp Hr ltac:(by left)) as (C1 & C2 & C3 & C4). cbn zeta in *.
  set (c := u32 (mdio_command p r XAE_MDIO_MCR_OP_READ_MASK)) in *. destruct (wr_mcr c d1 C1 B1) as (R1 & _ & R3).
  cbn zeta in *. destruct (R3 C4) as [R4 _]. set (d3 := dev_wr XAE_MDIO_MCR_OFFSET c d1) in *. rewrite bind_io. pose proof (wait_ready polls d3) as W'.
  destruct (axienet_mdio_wait_until_ready polls d3) as [ret' d4]. destruct W' as (V1 & V2 & V3 & V4 & _). destruct (V4 ltac:(lia)) as [-> B4]. cbn [Z.ltb Z.compare].
  rewrite bind_io. unfold axienet_ior. pose proof (rd_mrd d4) as Rm. destruct (dev_rd XAE_MDIO_MRD_OFFSET d4) as [v d5]. cbn [fst] in Rm. rewrite ret_io. cbn [fst].
  change (0xFFFF) with (Z.ones 16). rewrite <- slice_low, slice_u32 by lia. by rewrite Rm, V3, R4, C2, C3, W1.
Qed.

(** C40: Over a bus that carries a command out when it is written and is busy for at most [longest] polls then, no more than
    are made in two ticks ([MdioLaws]): what is written to one of the 32 registers of one of 32 PHYs is read back, and
    no other register of any PHY changes, where the bus becomes free in time; where it does not, the write gives up with
    a time-out before it starts and leaves every register alone. *)
Theorem mdio_write_read polls p r v d : (longest <= polls)%nat -> 0 <= p < 32 -> 0 <= r < 32 -> 0 <= v < 2 ^ 16 ->
  let '(ret, d') := axienet_mdio_write polls p r v d in
  ((busy d <= polls)%nat -> ret = 0 /\ fst (axienet_mdio_read polls p r d') = v
     /\ forall p' r', (p', r') <> (p, r) -> phy d' p' r' = phy d p' r')
  /\ ((polls < busy d)%nat -> ret = - ETIMEDOUT /\ forall p' r', phy d' p' r' = phy d p' r').
Proof.
  intros Hw Hp Hr Hv. destruct (decide (busy d <= polls)%nat) as [Hb|Hb].
  - destruct (mdio_write_spec polls p r v d Hw Hb Hp Hr Hv) as (d' & E & B & S). rewrite E. split; [|intros; lia]. intros _. split; [done|]. split.
    + rewrite mdio_read_spec by (done || lia). by rewrite S, !Z.eqb_refl.
    + intros p' r' Hne. rewrite S. destruct (Z.eqb_spec p' p), (Z.eqb_spec r' r); cbn [andb]; congruence.
  - unfold axienet_mdio_write. rewrite bind_io. pose proof (wait_ready polls d) as W. destruct (axienet_mdio_wait_until_ready polls d) as [ret d1].
    destruct W as (W1 & _ & _ & _ & W5). rewrite (W5 ltac:(lia)). change (- ETIMEDOUT <? 0) with true. cbv iota. rewrite ret_io. split; [intros; lia|done].
Qed.
End Mdio.

(** The divisor is the smallest that keeps the clock of the bus at or below 2.5 MHz; it fits its field of 6 bits up to a
    host clock of 320 MHz. *)
Theorem mdio_clk_div_smallest h : 0 < h < 2 ^ 32 -> let div := mdio_clk_div (Some h) in
  h <= 2 * (1 + div) * MAX_MDIO_FREQ /\ 2 * div * MAX_MDIO_FREQ < h /\ (h <= 320000000 -> slice (div ||| XAE_MDIO_MC_MDIOEN_MASK) 0 6 = div).
Proof.
  intros Hh. cbn zeta. unfold mdio_clk_div, MAX_MDIO_FREQ, truthy. change (2500000 * 2) with 5000000. pose proof (Z_div_mod_eq_full h 5000000) as E.
  pose proof (Z.mod_pos_bound h 5000000 ltac:(lia)) as Hm. set (k := h / 5000000) in *. set (m := h mod 5000000) in *. assert (Hk : 0 <= k < 1000) by lia.
  assert (Hd : (if negb (m =? 0) then u32 (u32 (k - 1) + 1) else u32 (k - 1)) = if m =? 0 then k - 1 else k).
  { destruct (Z.eqb_spec m 0) as [E0|E0]; cbn [negb]; [apply u32_small; lia|]. unfold u32. rewrite Zplus_mod_idemp_l, Z.mod_small by lia. lia. }
  rewrite Hd. split; [destruct (Z.eqb_spec m 0); lia|]. split; [destruct (Z.eqb_spec m 0); lia|]. intros Hl.
  assert (Hx : 0 <= (if m =? 0 then k - 1 else k) < 2 ^ 6) by (destruct (Z.eqb_spec m 0); lia). set (x := if m =? 0 then k - 1 else k) in *.
  unfold XAE_MDIO_MC_MDIOEN_MASK. rewrite slice_lor. change (slice 64 0 6) with 0. rewrite Z.lor_0_r. apply slice_id; lia.
Qed.

(** ** A MAC with a table of four addresses, and a bus that is busy for three polls *)
Record demo_mac := mkMac { m_regs : Z -> Z; m_cam : nat -> Z * Z; m_busy : nat; m_phy : Z -> Z -> Z; m_mrd : Z }.
#[local] Definition mac_rd (o : Z) (d : demo_mac) : Z * demo_mac :=
  if o =? XAE_MDIO_MCR_OFFSET then (if bool_decide (m_busy d = O) then 0x80 else 0, mkMac (m_regs d) (m_cam d) (pred (m_busy d)) (m_phy d) (m_mrd d))
  else if o =? XAE_MDIO_MRD_OFFSET then (u16 (m_mrd d), d)
  else (m_regs d o, d).
#[local] Definition mac_wr (o v : Z) (d : demo_mac) : demo_mac :=
  let regs := fun o' => if o' =? o then v else m_regs d o' in
  let sel j := Z.of_nat j =? slice (m_regs d XAE_FMC_OFFSET) 0 2 in
  if o =? XAE_MDIO_MCR_OFFSET then
    let p := slice v 24 5 in
    let r := slice v 16 5 in
    if slice v 14 2 =? 1 then mkMac (m_regs d) (m_cam d) 3 (fun p' r' => if (p' =? p) && (r' =? r) then u16 (m_regs d XAE_MDIO_MWD_OFFSET) else m_phy d p' r') (m_mrd d)
    else mkMac (m_regs d) (m_cam d) 3 (m_phy d) (m_phy d p r)
  else if o =? XAE_AF0_OFFSET then mkMac (m_regs d) (fun j => if sel j then (v, snd (m_cam d j)) else m_cam d j) (m_busy d) (m_phy d) (m_mrd d)
  else if o =? XAE_AF1_OFFSET then mkMac (m_regs d) (fun j => if sel j then (fst (m_cam d j), v) else m_cam d j) (m_busy d) (m_phy d) (m_mrd d)
  else mkMac regs (m_cam d) (m_busy d) (m_phy d) (m_mrd d).
#[global] Instance mac_device : Device := {| dev := demo_mac; dev_rd := mac_rd; dev_wr := mac_wr |}.
#[local] Definition mac_plain (o : Z) : bool := negb (existsb (Z.eqb o) [XAE_MDIO_MCR_OFFSET; XAE_MDIO_MRD_OFFSET; XAE_AF0_OFFSET; XAE_AF1_OFFSET]).

Lemma mac_plain_off o : mac_plain o = true -> (o =? XAE_MDIO_MCR_OFFSET) = false /\ (o =? XAE_MDIO_MRD_OFFSET) = false /\ (o =? XAE_AF0_OFFSET) = false /\ (o =? XAE_AF1_OFFSET) = false.
Proof. unfold mac_plain. cbn [existsb]. destruct (o =? _), (o =? _), (o =? _), (o =? _); done. Qed.

#[global] Instance mac_regs : RegLaws (H := mac_device) mac_plain.
Proof.
  refine (@Build_RegLaws mac_device mac_plain (fun (d : demo_mac) o => m_regs d o) _ _).
  - intros o d Ho. destruct (mac_plain_off o Ho) as (E1 & E2 & _). cbn. unfold mac_rd. by rewrite E1, E2.
  - intros o v d o' Ho _. destruct (mac_plain_off o Ho) as (E1 & E2 & E3 & E4). cbn. unfold mac_wr. by rewrite E1, E3, E4.
Defined.
#[global] Instance mac_filters : FilterLaws (H0 := mac_regs).
Proof. by refine (@Build_FilterLaws mac_device mac_plain mac_regs (fun (d : demo_mac) j => m_cam d j) _ _ _ _ _ _). Defined.
Lemma u16_u16 x : u16 (u16 x) = u16 x.
Proof. unfold u16. by rewrite Z.mod_mod. Qed.
#[global] Instance mac_mdio : MdioLaws (H := mac_device).
Proof.
  refine (@Build_MdioLaws mac_device (fun (d : demo_mac) p r => u16 (m_phy d p r)) (fun d : demo_mac => m_busy d) 3
    (fun d : demo_mac => m_regs d XAE_MDIO_MWD_OFFSET) (fun d : demo_mac => u16 (m_mrd d)) _ _ _ _).
  - intros d. cbn. unfold mac_rd. cbn. split; [by destruct (bool_decide _)|done].
  - intros v d. done.
  - intros c d _ Hb. cbn. unfold mac_wr. cbn. destruct (Z.eqb_spec (slice c 14 2) 1) as [E|E]; cbn; (split; [lia|]); (split; [|]).
    + intros _ p r. destruct (_ && _); [apply u16_u16|done].
    + intros E2. by rewrite E in E2.
    + done.
    + intros _. done.
  - intros d. cbn. unfold mac_rd. cbn. rewrite <- slice_u16. apply u16_u16.
Defined.

#[local] Definition demo_regs : @dev mac_device := mkMac (fun _ => 0x80) (fun _ => (0, 0)) 0 (fun _ _ => 0) 0.
#[local] Definition mac1 : list Z := [0x01; 0x00; 0x5e; 0x00; 0x00; 0x01].
#[local] Definition mac2 : list Z := [0x01; 0x80; 0xc2; 0x00; 0x00; 0x0e].

Lemma demo_macs : is_mac mac1 /\ is_mac mac2.
Proof. by split; split; [|repeat constructor| |repeat constructor]. Qed.

Lemma axienet_setoptions_exact_witness : exists r d', setoptions XAXIENET_1G (XAE_OPTION_TXEN ||| XAE_OPTION_VLAN) 0 demo_regs = (r, d')
  /\ Z.testbit (reg d' XAE_TC_OFFSET) 28 = true /\ Z.testbit (reg d' XAE_RCW1_OFFSET) 28 = false /\ Z.testbit (reg d' XAE_TC_OFFSET) 7 = true.
Proof.
  destruct (setoptions XAXIENET_1G (XAE_OPTION_TXEN ||| XAE_OPTION_VLAN) 0 demo_regs) as [r d'] eqn:E. exists r, d'.
  destruct (axienet_setoptions_exact XAXIENET_1G (XAE_OPTION_TXEN ||| XAE_OPTION_VLAN) 0 demo_regs r d' ltac:(repeat constructor) E) as (H1 & H2 & _).
  split; [reflexivity|]. split; [|split].
  - apply (H1 (mkOpt XAE_OPTION_TXEN XAE_TC_OFFSET XAE_TC_TX_MASK) 28); [apply list_elem_of_In; cbn; tauto|lia|reflexivity].
  - apply (H1 (mkOpt XAE_OPTION_RXEN XAE_RCW1_OFFSET XAE_RCW1_RX_MASK) 28); [apply list_elem_of_In; cbn; tauto|lia|reflexivity].
  - rewrite (H2 XAE_TC_OFFSET 7); [reflexivity|reflexivity|lia|reflexivity].
Defined.

Lemma set_mac_address_filters_witness : exists r d', axienet_set_mac_address XAXIENET_1G (fun _ => false) mac2 (Some mac1) [] demo_regs = (r, d')
  /\ r = mac2 /\ station_address d' = mac2.
Proof.
  destruct (axienet_set_mac_address XAXIENET_1G (fun _ => false) mac2 (Some mac1) [] demo_regs) as [r d'] eqn:E. exists r, d'.
  destruct (set_mac_address_filters XAXIENET_1G (fun _ => false) mac2 mac1 [] demo_regs r d' eq_refl eq_refl ltac:(by left) (proj2 demo_macs) (proj1 demo_macs) E) as (H1 & H2 & _).
  split; [reflexivity|]. split; [exact H1|]. rewrite H2. exact H1.
Defined.

Lemma pauseparam_roundtrip_witness : exists d', axienet_ethtools_set_pauseparam false 1 0 demo_regs = (0, d')
  /\ exists t x, fst (axienet_ethtools_get_pauseparam d') = (t, x) /\ truthy t = true /\ truthy x = false.
Proof.
  destruct (axienet_ethtools_set_pauseparam false 1 0 demo_regs) as [r d'] eqn:E.
  destruct (pauseparam_roundtrip 1 0 demo_regs r d' eq_refl E) as (-> & H & _). exists d'. split; [reflexivity|exact H].
Defined.

Lemma adjust_link_sets_speed_witness : exists r d', axienet_adjust_link PHY_INTERFACE_OTHER SPEED_1000 1 1 0 demo_regs = (r, d')
  /\ slice (reg d' XAE_EMMC_OFFSET) 30 2 = 2.
Proof.
  destruct (axienet_adjust_link PHY_INTERFACE_OTHER SPEED_1000 1 1 0 demo_regs) as [r d'] eqn:E. exists r, d'. split; [reflexivity|].
  destruct (adjust_link_sets_speed PHY_INTERFACE_OTHER SPEED_1000 1 1 0 demo_regs r d' eq_refl E) as (Hr & _ & H & _).
  rewrite H; [reflexivity|rewrite Hr; discriminate|reflexivity].
Defined.

Lemma set_multicast_list_filters_witness : exists r d', axienet_set_multicast_list XAXIENET_1G false 0 [mac1; mac2] demo_regs = (r, d')
  /\ r = 0 /\ cam_address (cam d' 1) = mac2 /\ cam d' 2 = (0, 0).
Proof.
  destruct (axienet_set_multicast_list XAXIENET_1G false 0 [mac1; mac2] demo_regs) as [r d'] eqn:E. exists r, d'. split; [reflexivity|].
  destruct (set_multicast_list_filters 0 [mac1; mac2] demo_regs r d' ltac:(by repeat constructor) E) as (_ & H & _).
  destruct (H eq_refl ltac:(discriminate)) as (Hr & _ & H1 & H2). split; [exact Hr|]. split; [apply H1; reflexivity|]. rewrite H2; [reflexivity|cbn; lia].
Defined.

Lemma mdio_write_read_witness : exists d', axienet_mdio_write 5 7 0 0x1140 demo_regs = (0, d') /\ fst (axienet_mdio_read 5 7 0 d') = 0x1140.
Proof.
  pose proof (mdio_write_read 5 7 0 0x1140 demo_regs ltac:(by apply Nat.leb_le) ltac:(lia) ltac:(lia) ltac:(lia)) as H.
  destruct (axienet_mdio_write 5 7 0 0x1140 demo_regs) as [ret d'] eqn:E. destruct H as [H _]. destruct (H ltac:(by apply Nat.leb_le)) as (-> & H2 & _).
  exists d'. split; [reflexivity|exact H2].
Defined.

Lemma mdio_clk_div_smallest_witness : mdio_clk_div (Some 100000000) = 19 /\ 100000000 <= 2 * (1 + mdio_clk_div (Some 100000000)) * MAX_MDIO_FREQ.
Proof. split; [reflexivity|]. apply (mdio_clk_div_smallest 100000000). lia. Defined.

(** ** What goes wrong *)

(** When addresses are taken off the list, so that fewer but not none are left, the table keeps the old ones behind. *)
Example multicast_keeps_old_entries :
  let d := snd (axienet_set_multicast_list XAXIENET_1G false 0 [mac1; mac2] demo_regs) in
  let d := snd (axienet_set_multicast_list XAXIENET_1G false 0 [mac1] d) in
  cam_address (cam d 1) = mac2.
Proof. vm_compute. reflexivity. Qed.

(** Five addresses set the flag the next call looks at: the device takes all frames from then on, whatever is left of the
    list. *)
Example multicast_stays_promiscuous :
  let '(flags, d) := axienet_set_multicast_list XAXIENET_1G false 0 [mac1; mac2; mac1; mac2; mac1] demo_regs in
  let '(flags, d) := axienet_set_multicast_list XAXIENET_1G false flags [] d in
  promiscuous d = true.
Proof. vm_compute. reflexivity. Qed.

(** At 400 MHz the divisor runs into the bit that enables the bus: the field holds 15, which makes 12.5 MHz. *)
Example mdio_clock_too_fast : mdio_clk_div (Some 400000000) = 79 /\ slice (mdio_clk_div (Some 400000000) ||| XAE_MDIO_MC_MDIOEN_MASK) 0 6 = 15.
Proof. split; reflexivity. Qed.

(** Filters for time stamps over UDP and back: the registers 0x724, 0x734 and 0x738 and the frame filter are not put back. *)
Example ptp_filters_not_restored :
  let c f := Some (mkTsConf 0 (Some HWTSTAMP_TX_ON) f) in
  let s0 := mkTsState (mkTsConf 0 (Some HWTSTAMP_TX_OFF) HWTSTAMP_FILTER_NONE) HWTSTAMP_FILTER_PTP_V2_L2_EVENT false None in
  let '(_, s, d) := axienet_set_ts_config true XAXIENET_1G (c HWTSTAMP_FILTER_PTP_V2_L4_EVENT) true s0 demo_regs in
  let '(_, s, d) := axienet_set_ts_config true XAXIENET_1G (c HWTSTAMP_FILTER_PTP_V2_L2_EVENT) true s d in
  current_rx_filter s = HWTSTAMP_FILTER_PTP_V2_L2_EVENT
  /\ map (fun o => negb (reg d o =? reg demo_regs o)) [XAE_FMC_OFFSET; 0x724; 0x734; 0x738] = [true; true; true; true].
Proof. vm_compute. split; reflexivity. Qed.
